(* ===== verification/_CoqProject ===== *)
-Q . S2P
Prelude.v
Memory.v
LinkedList.v
Kernel.v
TString.v
Pmap.v
VmPage.v
VmMap.v
Vm.v
Heap.v
Zalloc.v
Machine.v
Cpu.v
Task.v
Thread.v
Sched.v
ThreadSpec.v
Processor.v
Gicv3.v
Pl011.v
Printk.v
Panic.v
Exception.v
Fdt.v
FdtTokens.v
FdtRo.v
FdtMonad.v
FdtEdit.v
FdtSw.v
FdtRw.v
FdtPath.v
FdtOverlay.v
FdtTree.v
FdtSpec.v
FdtCheck.v
FdtSwSpec.v
FdtRwSpec.v
FdtRefine.v
FdtOpen.v
FdtSearch.v
DeviceTree.v
DeviceTreeSpec.v
Topology.v
TopologySpec.v
Main.v
