(* ===== verification/Prelude.v ===== *)
(** * The Monix kernel: a verification library

    Monix is a small kernel for AArch64 in C. The boot loader enters [kernel_init]
    (kern/main.c) with a [boot_args] structure and a flattened device tree; the kernel
    finds its memory in the tree, builds its page tables, sets up page and zone
    allocators, CPU data, tasks and threads, and then switches between threads on the
    timer interrupt. This library models the C code function by function and proves
    what the functions do. Names of definitions are those of the C code; the doc
    comments name the places where the code does not do what it means to.

    ** The state

    Memory.v has memory as a finite map from addresses to bytes, with little-endian
    loads and stores, and the predicates theorems use: [same_outside R m m'] (nothing
    changed but the region [R]), [block] (bytes at an address), [apart] (disjoint
    regions). Kernel.v adds the rest of what C code can touch: the scalar globals
    ([gvar]), the system registers ([sysreg]) and the trace of effects outside memory
    ([event]: register writes, device accesses, barriers, printed lines, context
    switches). A C function is a computation [M A] with four outcomes: [Done] with a
    result, [Halted] (a panic, a halted CPU), [Undefined] (behaviour C leaves
    undefined), [Diverged] (a loop that ran out of fuel). Structures, arrays and
    automatic variables whose address is taken live in memory at the addresses the
    class [Symbols] gives. What the hardware and uninitialised variables answer is the
    class [Hardware]; theorems hold for every instance, and [demo_symbols] and
    [demo_hardware] are the instances of the witnesses. An [int] is a [Z] that
    [s32] wraps, an unsigned number one that [u8] ... [u64] wrap. The functions of
    libfdt touch nothing but memory: those that read are functions of the memory, those
    that write are computations [W A] (FdtMonad.v), a state monad over the memory with
    [None] for fuel that ran out. A function that changes many structures has a list
    of regions, and [part] (Memory.v) says which of them it may write.

    ** The files, and the code they model

    - Prelude.v: this file; words, bit fields, lists, hint databases.
    - LinkedList.v: libkern/list.h. The predicate [dll] (a doubly linked list in
      memory) and what every operation and iteration macro does to it.
    - TString.v: libkern/tinylibc/string and byteswap.h.
    - Pmap.v: kern/vm/pmap.c. The page-table region and [pmap_tt_create_tte],
      against [mmu_walk], the walk of the hardware.
    - VmPage.v, VmMap.v, Vm.v: kern/vm: physical pages, virtual memory maps,
      initialisation and the listing of the tables.
    - Heap.v: the interface [Heap] of a page allocator, which Zalloc.v uses and
      [vm_map_alloc] implements. The class [Mapper] in VmMap.v is the interface between
      maps and page tables.
    - Zalloc.v: kern/mm/zalloc.c, zones of elements of one size.
    - Machine.v, Cpu.v, Processor.v: kern/machine.c and kern/machine/, kern/cpu.c,
      kern/processor.c; Topology.v: the CPUs of the device tree (kern/machine.c).
      TopologySpec.v: the topology read from an encoded tree.
    - Task.v, Thread.v, Sched.v: kern/task.c, kern/thread.c with kern/mm/stack.c, and
      kern/sched.c with the context switch of arch/handler.S; ThreadSpec.v: the
      invariant of tasks, threads and stacks, which [thread_create] keeps.
    - Gicv3.v, Pl011.v: drivers/; register accesses are events, polling loops are
      [poll].
    - Printk.v, Panic.v, Exception.v: kern/trace/printk.c, kern/panic.c,
      kern/exception.c.
    - Fdt.v, FdtRo.v: libkern/libfdt/fdt.c and fdt_ro.c. FdtTokens.v: the encoding of
      the structure block; FdtTree.v: trees, and what the functions do on an encoded
      one; FdtSpec.v, FdtSearch.v: the resulting theorems (paths, properties, children;
      the search for a phandle). FdtCheck.v: the blobs [fdt_check_full] accepts.
    - FdtMonad.v, FdtSw.v, FdtRw.v, FdtPath.v, FdtOverlay.v: the other files of libfdt:
      fdt_sw.c; fdt_rw.c with fdt_wip.c and fdt_empty_tree.c; [fdt_get_path], the
      lists of strings, fdt_addresses.c and fdt_strerror.c; fdt_overlay.c.
      FdtEdit.v: changes of memory under an encoded blob. FdtSwSpec.v: what sequential
      writing leaves; FdtRwSpec.v: the blocks of a buffer with room under each
      operation; FdtRefine.v: the operations as operations on trees; FdtOpen.v: the
      reserve map, growing and packing.
    - DeviceTree.v: platform/devicetree.c and platform/platform.c; DeviceTreeSpec.v:
      their theorems, over an encoded tree.
    - Main.v: kern/main.c, the calls of [kernel_init] in their order and the threads it
      starts.

    ** What the theorems show

    - Memory management: after [pmap_tt_create_tte] and after [arm_vm_init] the
      hardware translates exactly the addresses it should; [vm_page_alloc] refines a
      set of free pages and never hands out a page twice; [vm_map_alloc] keeps the map
      well formed and gives fresh, disjoint pages; [zone_create], [zalloc] and [zfree]
      refine a set of free and used elements that never overlap.
    - Scheduling: a tick moves the CPU to the next thread of a circular list and
      saves the registers of the interrupted one; every thread runs within one round;
      what a resumed thread has lost; when the scheduler hangs. [thread_create]
      appends an active thread with stacks of its own to the lists of its task and of
      the scheduler.
    - Errors: [panic] always halts after nothing but output, every synchronous
      exception is a panic with the reason the syndrome determines, a backtrace
      ends on cyclic frame chains.
    - Devices: the register accesses of the interrupt controller, in order.
    - Output: [_printk] prints the reference format, character for character;
      printed numbers are read back by [strtoul].
    - Device tree: on a blob that encodes a tree, paths, properties and children are
      those of the tree, the iterator of the wrapper visits exactly the children, and
      the memory the kernel manages is the [reg] of [/memory], and the CPU topology is
      that of [/cpus]; on any blob [fdt_next_node] ends unless a length wraps around,
      and then it may not; [fdt_check_full] accepts exactly the blobs of a grammar.
    - Writing device trees: a tree written with the sequential calls is read back;
      setting and deleting properties, adding and deleting nodes refine the operations
      on trees ([holds] relates a buffer and a tree), reserved regions are a list, and
      [fdt_open_into] and [fdt_pack] change nothing but the room; every error leaves the
      tree as it was, and [fdt_splice_] never writes outside the buffer, whatever the
      blob.
    - Libraries: the list operations on [dll]; [memmove] and [memcpy]; [strlcpy],
      [strcmp], [strtoul]; [memset], which has a defect for non-zero bytes.

    ** Fuel

    Loops that a structural argument does not bound take a fuel; running out of it is
    the outcome [Diverged], or [None] for the functions that only touch memory (the
    string functions and libfdt). The theorems say how much is enough: the length of
    a string or list, the number of elements of a zone, the size of a blob (every
    step of a loop over tags moves by at least four bytes). [schedule_livelock],
    [gic_redist_init_wakes] and [fdt_next_node_stuck] show loops for which no fuel is
    enough.

    ** Parameters

    Code that the source leaves without a meaning is an argument of the definitions
    that use it: [noreturn] (FdtPath.v) is the value of [strnlen] on the paths on which
    its C code returns none; [hw_uninit] of the class [Hardware] is the value of a
    variable that is read before it is set. Theorems hold for every value of them.

    ** Not modelled

    - The assembly of arch/start.S and of the exception entry and exit, which builds
      and restores the exception frame; the context switch is modelled.
    - Log messages of the operations of maps, tasks, threads and zones (their listings
      are modelled).
    - Macros of the compiler and headers without behaviour of their own; the makefiles,
      the linker script, scripts, documentation and device tree sources.
    - Concurrency between CPUs: the kernel runs on one CPU and masks interrupts by
      [machine_irq_disable], which the model records; caches and the TLB. *)

From Stdlib Require Import ZArith Lia.
From stdpp Require Import prelude gmap list.

Declare Scope monix_scope.
Delimit Scope monix_scope with monix.
Open Scope Z_scope.

(** ** Hint databases

    [words] closes range goals on machine words, [words_rw] rewrites wrapped
    arithmetic, [mem_rw] rewrites loads of stores. *)
Create HintDb words discriminated.
Create Rewrite HintDb words_rw.

(** ** Machine words

    A C value of an unsigned type of [n] bits is its value as a [Z]; the
    wrap-around of an operation is written out with [u8], [u16], [u32], [u64].
    Values of [int] are signed, [s32] converts to them. *)
Definition u8 (z : Z) : Z := z mod 2 ^ 8.
Definition u16 (z : Z) : Z := z mod 2 ^ 16.
Definition u32 (z : Z) : Z := z mod 2 ^ 32.
Definition u64 (z : Z) : Z := z mod 2 ^ 64.
Definition s32 (z : Z) : Z := (z + 2 ^ 31) mod 2 ^ 32 - 2 ^ 31.
Definition s8 (z : Z) : Z := (z + 2 ^ 7) mod 2 ^ 8 - 2 ^ 7.

(** A value of type [bool] used as a C condition result. *)
Definition b2z (b : bool) : Z := if b then 1 else 0.

(** A C value used as a condition. *)
Definition truthy (z : Z) : bool := negb (z =? 0).

(** [UINT64_MAX + 1]; the ranges of the word types. *)
Abbreviation is_u8 z := (0 <= z < 2 ^ 8).
Abbreviation is_u32 z := (0 <= z < 2 ^ 32).
Abbreviation is_u64 z := (0 <= z < 2 ^ 64).
Abbreviation is_s32 z := (- 2 ^ 31 <= z < 2 ^ 31).

(** [word_lia] is [lia] after unfolding the word operations and turning division
    and remainder by constants into equations. *)
Ltac word_unfold := unfold u8, u16, u32, u64, s32, s8, b2z, truthy in *.
Ltac word_lia := word_unfold; Z.to_euclidean_division_equations; lia.

Lemma u64_id z : is_u64 z -> u64 z = z.
Proof. intros H. apply Z.mod_small, H. Qed.
Lemma u32_id z : is_u32 z -> u32 z = z.
Proof. intros H. apply Z.mod_small, H. Qed.
Lemma u8_id z : is_u8 z -> u8 z = z.
Proof. intros H. apply Z.mod_small, H. Qed.
Lemma s32_id z : is_s32 z -> s32 z = z.
Proof. intros H. unfold s32. rewrite Z.mod_small; lia. Qed.

Lemma u64_range z : is_u64 (u64 z).
Proof. apply Z.mod_pos_bound; lia. Qed.
Lemma u32_range z : is_u32 (u32 z).
Proof. apply Z.mod_pos_bound; lia. Qed.
Lemma u8_range z : is_u8 (u8 z).
Proof. apply Z.mod_pos_bound; lia. Qed.
Lemma s32_range z : is_s32 (s32 z).
Proof. unfold s32. pose proof (Z.mod_pos_bound (z + 2 ^ 31) (2 ^ 32)); lia. Qed.

Lemma u64_u64 z : u64 (u64 z) = u64 z.
Proof. apply u64_id, u64_range. Qed.
Lemma u64_add_l x y : u64 (u64 x + y) = u64 (x + y).
Proof. unfold u64. apply Zplus_mod_idemp_l. Qed.
Lemma u64_add_r x y : u64 (x + u64 y) = u64 (x + y).
Proof. unfold u64. apply Zplus_mod_idemp_r. Qed.
Lemma u64_sub_l x y : u64 (u64 x - y) = u64 (x - y).
Proof. unfold u64. apply Zminus_mod_idemp_l. Qed.

#[export] Hint Resolve u64_range u32_range u8_range s32_range : words.
#[export] Hint Rewrite u64_u64 u64_add_l u64_add_r u64_sub_l : words_rw.

(** ** Bit fields

    The masks of the code are [Z.ones k << a]; the lemmas below turn a mask
    and shift into arithmetic. *)
Lemma land_ones_mod x k : 0 <= k -> Z.land x (Z.ones k) = x mod 2 ^ k.
Proof. intros. by rewrite Z.land_ones. Qed.

(** [(x & (ones k << a)) >> a] is the [k]-bit field of [x] at bit [a]. *)
Lemma field_extract x a k :
  0 <= a -> 0 <= k ->
  Z.shiftr (Z.land x (Z.shiftl (Z.ones k) a)) a = (x / 2 ^ a) mod 2 ^ k.
Proof.
  intros Ha Hk. rewrite Z.shiftr_land, Z.shiftr_shiftl_l by lia.
  replace (a - a) with 0 by lia. rewrite Z.shiftl_0_r, Z.land_ones by lia.
  by rewrite Z.shiftr_div_pow2.
Qed.

(** Masking with [ones k << a] keeps a multiple of [2 ^ a] below [2 ^ (a+k)]. *)
Lemma land_field_mod x a k :
  0 <= a -> 0 <= k ->
  Z.land x (Z.shiftl (Z.ones k) a) = 2 ^ a * ((x / 2 ^ a) mod 2 ^ k).
Proof.
  intros Ha Hk. rewrite <- field_extract by lia.
  rewrite (Z.mul_comm (2 ^ a)), <- Z.shiftl_mul_pow2 by lia.
  apply Z.bits_inj'. intros i Hi.
  rewrite Z.shiftl_spec by lia. destruct (Z.ltb_spec i a) as [Hl|Hl].
  - rewrite (Z.testbit_neg_r _ (i - a)) by lia.
    rewrite Z.land_spec, Z.shiftl_spec by lia.
    rewrite (Z.testbit_neg_r _ (i - a)) by lia. by rewrite andb_false_r.
  - rewrite Z.shiftr_spec by lia. by replace (i - a + a) with i by lia.
Qed.

(** Bits that do not overlap: [lor] is addition. *)
Lemma lor_disjoint_add x y k :
  0 <= k -> 0 <= y < 2 ^ k -> Z.lor (x * 2 ^ k) y = x * 2 ^ k + y.
Proof.
  intros Hk Hy. rewrite Z.add_nocarry_lxor.
  - rewrite Z.lxor_lor; [done|].
    apply Z.bits_inj'. intros i Hi. rewrite Z.land_spec, Z.bits_0.
    destruct (Z.ltb_spec i k) as [Hl|Hl].
    + by rewrite Z.mul_pow2_bits_low.
    + rewrite <- (Z.mod_small y (2 ^ k)) by lia.
      rewrite Z.mod_pow2_bits_high by lia. by rewrite andb_false_r.
  - apply Z.bits_inj'. intros i Hi. rewrite Z.land_spec, Z.bits_0.
    destruct (Z.ltb_spec i k) as [Hl|Hl].
    + by rewrite Z.mul_pow2_bits_low.
    + rewrite <- (Z.mod_small y (2 ^ k)) by lia.
      rewrite Z.mod_pow2_bits_high by lia. by rewrite andb_false_r.
Qed.

(** C bit-fields: the [w] bits of a word from bit [lo]. *)
Definition get_bits (f lo w : Z) : Z := Z.land (Z.shiftr f lo) (Z.ones w).
Definition set_bits (f lo w v : Z) : Z :=
  Z.lor (Z.ldiff f (Z.shiftl (Z.ones w) lo)) (Z.shiftl (Z.land v (Z.ones w)) lo).

Lemma testbit_get_bits f lo w i :
  0 <= lo -> 0 <= w -> 0 <= i ->
  Z.testbit (get_bits f lo w) i = Z.testbit f (i + lo) && (i <? w).
Proof.
  intros. unfold get_bits. rewrite Z.land_spec, Z.shiftr_spec by lia.
  f_equal. apply eq_bool_prop_intro. rewrite !Is_true_true, Z.ones_spec_iff, Z.ltb_lt; lia.
Qed.

Lemma ldiff_lor a b : Z.ldiff (Z.lor a b) b = Z.ldiff a b.
Proof. apply Z.bits_inj'. intros i Hi. rewrite !Z.ldiff_spec, Z.lor_spec. by destruct (Z.testbit a i), (Z.testbit b i). Qed.

Lemma testbit_set_bits f lo w v i :
  0 <= lo -> 0 <= w -> 0 <= i ->
  Z.testbit (set_bits f lo w v) i =
    if (lo <=? i) && (i <? lo + w) then Z.testbit v (i - lo) else Z.testbit f i.
Proof.
  intros. unfold set_bits. rewrite Z.lor_spec, Z.ldiff_spec, !Z.shiftl_spec, Z.land_spec by lia.
  destruct (Z.leb_spec lo i); simpl.
  - destruct (Z.ltb_spec i (lo + w)).
    + rewrite !Z.ones_spec_low by lia. by rewrite andb_false_r, andb_true_r.
    + rewrite !Z.ones_spec_high by lia. by rewrite andb_false_r, andb_true_r, orb_false_r.
  - rewrite !(Z.testbit_neg_r _ (i - lo)) by lia. simpl. by rewrite andb_true_r, orb_false_r.
Qed.

Lemma get_set_bits f lo w v :
  0 <= lo -> 0 <= w -> 0 <= v < 2 ^ w -> get_bits (set_bits f lo w v) lo w = v.
Proof.
  intros Hl Hw Hv. apply Z.bits_inj'. intros i Hi.
  rewrite testbit_get_bits, testbit_set_bits by lia.
  destruct (Z.ltb_spec i w).
  - assert ((lo <=? i + lo) && (i + lo <? lo + w) = true) as -> by lia.
    rewrite andb_true_r. f_equal. lia.
  - rewrite andb_false_r. rewrite <- (Z.mod_small v (2 ^ w)) by lia.
    by rewrite Z.mod_pow2_bits_high by lia.
Qed.

Lemma get_set_bits_other f lo w v lo' w' :
  0 <= lo -> 0 <= w -> 0 <= lo' -> 0 <= w' -> lo + w <= lo' \/ lo' + w' <= lo ->
  get_bits (set_bits f lo w v) lo' w' = get_bits f lo' w'.
Proof.
  intros. apply Z.bits_inj'. intros i Hi.
  rewrite !testbit_get_bits, testbit_set_bits by lia.
  destruct (Z.ltb_spec i w'); [|by rewrite !andb_false_r].
  assert ((lo <=? i + lo') && (i + lo' <? lo + w) = false) as -> by lia. done.
Qed.

(** The bits of a word below [n] decide its fields below [n]. *)
Lemma get_bits_mod f n lo w :
  0 <= lo -> 0 <= w -> lo + w <= n -> get_bits (f mod 2 ^ n) lo w = get_bits f lo w.
Proof.
  intros. apply Z.bits_inj'. intros i Hi. rewrite !testbit_get_bits by lia.
  destruct (Z.ltb_spec i w); [|by rewrite !andb_false_r].
  by rewrite Z.mod_pow2_bits_low by lia.
Qed.

(** ** Loops

    [while fuel cond body s] runs a C [while] loop on the variables [s] the
    loop changes; [None] means the fuel did not suffice. *)
Fixpoint while {S : Type} (fuel : nat) (cond : S -> bool) (body : S -> S) (s : S)
    : option S :=
  if cond s then
    match fuel with
    | O => None
    | Datatypes.S fuel' => while fuel' cond body (body s)
    end
  else Some s.

(** The loop rule: an invariant and a measure that bounds the iterations give
    termination within the fuel and the invariant at the exit. *)
Lemma while_rule {S} (Inv : S -> Prop) (measure : S -> nat) fuel cond body (s : S) :
  Inv s ->
  (forall t, Inv t -> cond t = true -> Inv (body t) /\ (measure (body t) < measure t)%nat) ->
  (measure s <= fuel)%nat ->
  exists t, while fuel cond body s = Some t /\ Inv t /\ cond t = false.
Proof.
  intros HI Hstep. revert s HI.
  induction fuel as [|fuel IH]; intros s HI Hm; simpl.
  - destruct (cond s) eqn:Hc; [|by exists s].
    destruct (Hstep s HI Hc). lia.
  - destruct (cond s) eqn:Hc; [|by exists s].
    destruct (Hstep s HI Hc) as [HI' Hlt]. apply IH; [done|lia].
Qed.

(** More fuel does not change the result. *)
Lemma while_fuel_mono {S} f1 f2 cond body (s t : S) :
  while f1 cond body s = Some t -> (f1 <= f2)%nat -> while f2 cond body s = Some t.
Proof.
  revert f2 s. induction f1 as [|f1 IH]; intros f2 s H Hle.
  - simpl in H. destruct f2; simpl; destruct (cond s); congruence.
  - destruct f2; [lia|]. simpl in *. destruct (cond s); [|done].
    apply IH; [done|lia].
Qed.

(** ** Lists *)

(** [consecutive R l] holds when [R] relates each element of [l] to the next. *)
Fixpoint seqZ_from (a : Z) (step : Z) (n : nat) : list Z :=
  match n with
  | O => []
  | S n => a :: seqZ_from (a + step) step n
  end.

Lemma length_seqZ_from a step n : length (seqZ_from a step n) = n.
Proof. revert a. induction n; intros; simpl; auto. Qed.

Lemma lookup_seqZ_from a step n i :
  (i < n)%nat -> seqZ_from a step n !! i = Some (a + step * Z.of_nat i).
Proof.
  revert a i. induction n as [|n IH]; intros a i Hi; [lia|].
  destruct i as [|i]; simpl; [f_equal; lia|].
  rewrite IH by lia. f_equal. lia.
Qed.

Lemma elem_of_seqZ_from a step n x :
  x ∈ seqZ_from a step n <-> exists i, (i < n)%nat /\ x = a + step * Z.of_nat i.
Proof.
  rewrite list_elem_of_lookup. split.
  - intros [i Hi]. pose proof (lookup_lt_Some _ _ _ Hi) as Hl.
    rewrite length_seqZ_from in Hl. rewrite lookup_seqZ_from in Hi by done.
    exists i. naive_solver.
  - intros (i & Hi & ->). exists i. by apply lookup_seqZ_from.
Qed.

Lemma seqZ_from_snoc a step n :
  seqZ_from a step (S n) = seqZ_from a step n ++ [a + step * Z.of_nat n].
Proof.
  revert a. induction n as [|n IH]; intros a.
  - simpl. f_equal. lia.
  - change (seqZ_from a step (S (S n))) with (a :: seqZ_from (a + step) step (S n)).
    rewrite IH. simpl. do 3 f_equal. lia.
Qed.
