(* ===== verification/Memory.v ===== *)
(** * Memory: byte-addressed memory and the C scalar accesses

    The kernel's memory is a finite map from addresses to bytes; an address
    never written reads as zero (the boot image's [.bss] and [NOLOAD] sections).
    [load n m a] and [store n m a v] are the little-endian [n]-byte accesses
    AArch64 performs for a C scalar of [n] bytes.  [mem_eq] is equality of
    contents, coarser than equality of maps. *)
From Stdlib Require Import ZArith Lia Setoid Morphisms.
From Corelib Require Import Init.Byte.
From Stdlib Require Strings.Byte.
From stdpp Require Import prelude gmap list.
From S2P Require Import Prelude.
Open Scope Z_scope.

Create Rewrite HintDb mem_rw.

(** ** Bytes *)
Definition byte_to_Z (b : byte) : Z := Z.of_N (Byte.to_N b).
Definition byte_of_Z (z : Z) : byte :=
  match Byte.of_N (Z.to_N (u8 z)) with Some b => b | None => x00 end.

Lemma byte_to_Z_range b : is_u8 (byte_to_Z b).
Proof.
  unfold byte_to_Z. pose proof (Byte.to_N_bounded b) as H. lia.
Qed.

Lemma byte_to_of_Z z : byte_to_Z (byte_of_Z z) = u8 z.
Proof.
  unfold byte_of_Z, byte_to_Z. pose proof (u8_range z) as Hr.
  destruct (Byte.of_N (Z.to_N (u8 z))) as [b|] eqn:Hb.
  - apply Byte.to_of_N in Hb. rewrite Hb. lia.
  - apply Byte.of_N_None_iff in Hb. lia.
Qed.

Lemma byte_of_to_Z b : byte_of_Z (byte_to_Z b) = b.
Proof. by destruct b. Qed.

(** ** Memory *)
Abbreviation memory := (gmap Z byte).

Definition rd (m : memory) (a : Z) : Z := byte_to_Z (default x00 (m !! a)).
Definition wr (m : memory) (a v : Z) : memory := <[a := byte_of_Z v]> m.

Fixpoint load (n : nat) (m : memory) (a : Z) : Z :=
  match n with
  | O => 0
  | S n => rd m a + 256 * load n m (a + 1)
  end.

Fixpoint store (n : nat) (m : memory) (a v : Z) : memory :=
  match n with
  | O => m
  | S n => store n (wr m a v) (a + 1) (v / 256)
  end.

Abbreviation ld8 := (load 1).
Abbreviation ld32 := (load 4).
Abbreviation ld64 := (load 8).
Abbreviation st8 := (store 1).
Abbreviation st32 := (store 4).
Abbreviation st64 := (store 8).

Lemma rd_range m a : is_u8 (rd m a).
Proof. apply byte_to_Z_range. Qed.

Lemma rd_wr m a v x : rd (wr m a v) x = if decide (x = a) then u8 v else rd m x.
Proof.
  unfold rd, wr. case_decide.
  - subst. rewrite lookup_insert_eq. apply byte_to_of_Z.
  - by rewrite lookup_insert_ne.
Qed.

(** [within a n x]: byte [x] is one of the [n] bytes at [a]. *)
Definition within (a : Z) (n : nat) (x : Z) : Prop := a <= x < a + Z.of_nat n.

Lemma rd_store_out n m a v x : ~ within a n x -> rd (store n m a v) x = rd m x.
Proof.
  unfold within. revert m a v. induction n as [|n IH]; intros m a v Hx; [done|].
  simpl. rewrite IH by lia. rewrite rd_wr. case_decide; [lia|done].
Qed.

Lemma rd_store_in n m a v i :
  (i < n)%nat -> rd (store n m a v) (a + Z.of_nat i) = u8 (v / 256 ^ Z.of_nat i).
Proof.
  revert m a v i. induction n as [|n IH]; intros m a v i Hi; [lia|].
  simpl. destruct i as [|i].
  - rewrite rd_store_out by (unfold within; lia).
    rewrite rd_wr, decide_True by lia. simpl. by rewrite Z.div_1_r.
  - replace (a + Z.of_nat (S i)) with (a + 1 + Z.of_nat i) by lia.
    rewrite IH by lia. rewrite Nat2Z.inj_succ, Z.pow_succ_r, Z.div_div by lia.
    done.
Qed.

Lemma load_range n m a : 0 <= load n m a < 256 ^ Z.of_nat n.
Proof.
  revert a. induction n as [|n IH]; intros a; simpl; [lia|].
  rewrite Nat2Z.inj_succ, Z.pow_succ_r by lia.
  pose proof (IH (a + 1)). pose proof (rd_range m a). lia.
Qed.

Lemma ld64_range m a : is_u64 (ld64 m a).
Proof. apply (load_range 8). Qed.
Lemma ld32_range m a : is_u32 (ld32 m a).
Proof. apply (load_range 4). Qed.
Lemma ld8_range m a : is_u8 (ld8 m a).
Proof. apply (load_range 1). Qed.
#[export] Hint Resolve rd_range ld64_range ld32_range ld8_range : words.

(** Loads depend only on the bytes they read. *)
Lemma load_ext n m1 m2 a :
  (forall x, within a n x -> rd m1 x = rd m2 x) -> load n m1 a = load n m2 a.
Proof.
  unfold within. revert a. induction n as [|n IH]; intros a H; simpl; [done|].
  rewrite H by lia. rewrite IH; [done|]. intros x Hx. apply H. lia.
Qed.

Lemma load_store_eq n m a v : load n (store n m a v) a = v mod 256 ^ Z.of_nat n.
Proof.
  revert m a v. induction n as [|n IH]; intros m a v.
  - simpl. by rewrite Z.mod_1_r.
  - simpl load. simpl store. rewrite IH, rd_store_out by (unfold within; lia).
    rewrite rd_wr, decide_True by done.
    rewrite Nat2Z.inj_succ, Z.pow_succ_r by lia.
    rewrite Z.rem_mul_r by lia. done.
Qed.

(** [apart a n b k]: the [n] bytes at [a] and the [k] bytes at [b] are disjoint. *)
Definition apart (a : Z) (n : nat) (b : Z) (k : nat) : Prop :=
  a + Z.of_nat n <= b \/ b + Z.of_nat k <= a.

#[export] Instance apart_dec a n b k : Decision (apart a n b k).
Proof. unfold apart. apply _. Defined.

Lemma load_store_apart n k m a b v :
  apart a n b k -> load n (store k m b v) a = load n m a.
Proof.
  intros Hd. apply load_ext. intros x Hx. apply rd_store_out.
  unfold apart, within in *. lia.
Qed.

Lemma ld64_st64_eq m a v : ld64 (st64 m a v) a = u64 v.
Proof. apply (load_store_eq 8). Qed.
Lemma ld32_st32_eq m a v : ld32 (st32 m a v) a = u32 v.
Proof. apply (load_store_eq 4). Qed.
Lemma ld8_st8_eq m a v : ld8 (st8 m a v) a = u8 v.
Proof. apply (load_store_eq 1). Qed.
#[export] Hint Rewrite ld64_st64_eq ld32_st32_eq ld8_st8_eq : mem_rw.

Lemma rd_st8 m a v x : rd (st8 m a v) x = if decide (x = a) then u8 v else rd m x.
Proof. apply rd_wr. Qed.

(** [mem_simpl] resolves loads of stores to addresses [lia] can compare. *)
Ltac mem_simpl :=
  repeat first
    [ rewrite ld64_st64_eq | rewrite ld32_st32_eq | rewrite ld8_st8_eq
    | rewrite load_store_apart by (unfold apart; lia) ].

(** ** Equality of contents *)
Definition mem_eq (m1 m2 : memory) : Prop := forall a, rd m1 a = rd m2 a.

#[export] Instance mem_eq_equiv : Equivalence mem_eq.
Proof.
  split; [done|intros ?? H a; by rewrite H|intros ??? H1 H2 a; by rewrite H1].
Qed.

#[export] Instance rd_proper : Proper (mem_eq ==> eq ==> eq) rd.
Proof. intros m1 m2 H a ? <-. apply H. Qed.

#[export] Instance wr_proper : Proper (mem_eq ==> eq ==> eq ==> mem_eq) wr.
Proof. intros m1 m2 H a ? <- v ? <- x. rewrite !rd_wr. by case_decide. Qed.

#[export] Instance load_proper n : Proper (mem_eq ==> eq ==> eq) (load n).
Proof. intros m1 m2 H a ? <-. apply load_ext. intros x _. apply H. Qed.

#[export] Instance store_proper n : Proper (mem_eq ==> eq ==> eq ==> mem_eq) (store n).
Proof.
  induction n as [|n IH]; intros m1 m2 H a ? <- v ? <-; simpl; [done|].
  apply IH; [by rewrite H|done|done].
Qed.

(** [same_outside R m1 m2]: the memories agree on every byte outside [R]. *)
Definition same_outside (R : Z -> Prop) (m1 m2 : memory) : Prop :=
  forall a, ~ R a -> rd m1 a = rd m2 a.

Lemma same_outside_refl R m : same_outside R m m.
Proof. done. Qed.
Lemma same_outside_trans R m1 m2 m3 :
  same_outside R m1 m2 -> same_outside R m2 m3 -> same_outside R m1 m3.
Proof. intros H1 H2 a Ha. by rewrite H1, H2. Qed.
Lemma same_outside_mono (R1 R2 : Z -> Prop) m1 m2 :
  (forall a, R1 a -> R2 a) -> same_outside R1 m1 m2 -> same_outside R2 m1 m2.
Proof. intros HR H a Ha. apply H. auto. Qed.
Lemma same_outside_store (R : Z -> Prop) n m1 m2 a v :
  (forall x, within a n x -> R x) ->
  same_outside R m1 m2 -> same_outside R m1 (store n m2 a v).
Proof.
  intros HR H x Hx. rewrite rd_store_out; [by apply H|]. naive_solver.
Qed.
Lemma load_same_outside R n m1 m2 a :
  same_outside R m1 m2 -> (forall x, within a n x -> ~ R x) -> load n m2 a = load n m1 a.
Proof. intros H HR. apply load_ext. intros x Hx. symmetry. by apply H, HR. Qed.

#[export] Hint Resolve same_outside_refl : core.

(** ** Strings and byte blocks in memory *)

(** [block m a l]: the bytes at [a] are [l]. *)
Definition block (m : memory) (a : Z) (l : list Z) : Prop :=
  forall i v, l !! i = Some v -> rd m (a + Z.of_nat i) = v.

Lemma block_app m a l1 l2 :
  block m a (l1 ++ l2) <-> block m a l1 /\ block m (a + Z.of_nat (length l1)) l2.
Proof.
  unfold block. split.
  - intros H. split.
    + intros i v Hi. apply H. by apply lookup_app_l_Some.
    + intros i v Hi. rewrite <- Z.add_assoc, <- Nat2Z.inj_add. apply H.
      rewrite lookup_app_r by lia. rewrite <- Hi. f_equal. lia.
  - intros [H1 H2] i v [Hi|[Hl Hi]]%lookup_app_Some; [by apply H1|].
    rewrite <- (H2 _ _ Hi). f_equal. lia.
Qed.
Lemma block_cons m a b l : block m a (b :: l) <-> rd m a = b /\ block m (a + 1) l.
Proof.
  rewrite (block_app m a [b] l). simpl. split; intros [H1 H2]; (split; [|exact H2]).
  - rewrite <- (H1 0%nat b eq_refl). f_equal. lia.
  - intros [|i] v Hi; [|done]. injection Hi as <-. rewrite <- H1. f_equal. lia.
Qed.

(** [bytes_at n m a]: the list of the [n] bytes at [a]. *)
Fixpoint bytes_at (n : nat) (m : memory) (a : Z) : list Z :=
  match n with
  | O => []
  | S n => rd m a :: bytes_at n m (a + 1)
  end.

Lemma length_bytes_at n m a : length (bytes_at n m a) = n.
Proof. revert a. induction n; intros; simpl; auto. Qed.

Lemma lookup_bytes_at n m a i :
  (i < n)%nat -> bytes_at n m a !! i = Some (rd m (a + Z.of_nat i)).
Proof.
  revert a i. induction n as [|n IH]; intros a i Hi; [lia|].
  destruct i as [|i]; simpl; [do 2 f_equal; lia|].
  rewrite IH by lia. do 2 f_equal. lia.
Qed.

Lemma bytes_at_ext n m1 m2 a :
  (forall x, within a n x -> rd m1 x = rd m2 x) -> bytes_at n m1 a = bytes_at n m2 a.
Proof.
  unfold within. revert a. induction n as [|n IH]; intros a H; simpl; [done|].
  f_equal; [apply H; lia|]. apply IH. intros. apply H. lia.
Qed.

Lemma bytes_at_app n k m a :
  bytes_at (n + k) m a = bytes_at n m a ++ bytes_at k m (a + Z.of_nat n).
Proof.
  revert a. induction n as [|n IH]; intros a; simpl.
  - f_equal. lia.
  - rewrite IH. do 3 f_equal. lia.
Qed.

(** A little-endian word is determined by its bytes. *)
Fixpoint le_combine (l : list Z) : Z :=
  match l with
  | [] => 0
  | b :: l => b + 256 * le_combine l
  end.

Lemma load_bytes n m a : load n m a = le_combine (bytes_at n m a).
Proof. revert a. induction n as [|n IH]; intros; simpl; by rewrite ?IH. Qed.

(** Writing a list of bytes at an address, and a memory image from strings. *)
Fixpoint wr_list (m : memory) (a : Z) (l : list Z) : memory :=
  match l with
  | [] => m
  | b :: l => wr_list (wr m a b) (a + 1) l
  end.

Lemma rd_wr_list_out m a l x :
  ~ within a (length l) x -> rd (wr_list m a l) x = rd m x.
Proof.
  unfold within. revert m a. induction l as [|b l IH]; intros m a H; simpl in *; [done|].
  rewrite IH by lia. rewrite rd_wr. case_decide; [lia|done].
Qed.

Lemma rd_wr_list_in m a l i b :
  l !! i = Some b -> rd (wr_list m a l) (a + Z.of_nat i) = u8 b.
Proof.
  revert m a i. induction l as [|c l IH]; intros m a i H; [done|].
  destruct i as [|i]; simpl in *.
  - injection H as ->. rewrite rd_wr_list_out by (unfold within; lia).
    rewrite rd_wr, decide_True; [done|lia].
  - replace (a + Z.of_nat (S i)) with (a + 1 + Z.of_nat i) by lia. by apply IH.
Qed.

(** Two memories with the same word at [a] after a store of that word. *)
Lemma store_load_id n m a : mem_eq (store n m a (load n m a)) m.
Proof.
  revert m a. induction n as [|n IH]; intros m a x; simpl; [done|].
  pose proof (rd_range m a) as Hr.
  replace ((rd m a + 256 * load n m (a + 1)) / 256) with (load n m (a + 1)).
  2:{ rewrite (Z.mul_comm 256), Z.div_add by lia.
      rewrite (Z.div_small (rd m a)); lia. }
  assert (Hw : mem_eq (wr m a (rd m a + 256 * load n m (a + 1))) m).
  { intros y. rewrite rd_wr. case_decide; [subst y|done].
    unfold u8. rewrite Z.mul_comm, Z_mod_plus_full. apply Z.mod_small. lia. }
  rewrite Hw. apply IH.
Qed.

(** Storing what was loaded elsewhere copies the bytes. *)
#[export] Instance within_dec a n x : Decision (within a n x).
Proof. unfold within. apply _. Defined.

Lemma rd_store_load n m d m0 s x :
  rd (store n m d (load n m0 s)) x =
  if decide (within d n x) then rd m0 (x - d + s) else rd m x.
Proof.
  revert m d s. induction n as [|n IH]; intros m d s; simpl; unfold within in *.
  - case_decide; [lia|done].
  - pose proof (rd_range m0 s) as Hr.
    replace ((rd m0 s + 256 * load n m0 (s + 1)) / 256) with (load n m0 (s + 1)).
    2:{ rewrite (Z.mul_comm 256), Z.div_add, (Z.div_small (rd m0 s)); lia. }
    rewrite IH. case_decide; case_decide; try lia.
    + f_equal. lia.
    + rewrite rd_wr. assert (x = d) as -> by lia. rewrite decide_True by done.
      replace (d - d + s) with s by lia. unfold u8.
      rewrite Z.mul_comm, Z_mod_plus_full. by apply Z.mod_small.
    + rewrite rd_wr, decide_False by lia. done.
Qed.

Lemma load_zero n m a : (forall x, within a n x -> rd m x = 0) -> load n m a = 0.
Proof.
  unfold within. revert a. induction n as [|n IH]; intros a H; simpl; [done|].
  rewrite H by lia. rewrite IH; [done|]. intros x Hx. apply H. lia.
Qed.

(** Loads and stores are reasoned about with the lemmas above. *)
#[global] Arguments load : simpl never.
#[global] Arguments store : simpl never.

(** Regions that do not meet are one before the other. *)
Lemma apart_order a b n k :
  (0 < n)%nat -> (0 < k)%nat -> (forall x, within a n x -> ~ within b k x) ->
  a + Z.of_nat n <= b \/ b + Z.of_nat k <= a.
Proof.
  intros Hn Hk Hd. destruct (Z.le_gt_cases (a + Z.of_nat n) b); [by left|].
  destruct (Z.le_gt_cases (b + Z.of_nat k) a); [by right|]. exfalso.
  apply (Hd (Z.max a b)); unfold within; lia.
Qed.

(** ** Families of disjoint regions

    A function that changes many structures has a list [rs] of regions; [part rs l] is
    the union of the regions with positions in [l]. What a step changes and what a fact
    depends on are parts, and whether they meet is computed from the positions. *)
Section Parts.
Context (rs : list (Z -> Prop)).

Definition part (l : list nat) (x : Z) : Prop :=
  exists j P, existsb (Nat.eqb j) l = true /\ rs !! j = Some P /\ P x.
Definition regions_disjoint : Prop :=
  forall i j P Q x, i <> j -> rs !! i = Some P -> rs !! j = Some Q -> P x -> ~ Q x.

Definition part_sub (l l' : list nat) : bool := forallb (fun j => existsb (Nat.eqb j) l') l.
Definition part_away (l l' : list nat) : bool := forallb (fun j => negb (existsb (Nat.eqb j) l')) l.

Lemma part_mono l l' x : part_sub l l' = true -> part l x -> part l' x.
Proof.
  unfold part_sub. intros Hl (j & P & Hin & Hj). exists j, P. split; [|done].
  rewrite forallb_forall in Hl. apply existsb_exists in Hin as (i & Hi & ->%Nat.eqb_eq). by apply Hl.
Qed.
Lemma part_region l j P x : rs !! j = Some P -> existsb (Nat.eqb j) l = true -> P x -> part l x.
Proof. intros. by exists j, P. Qed.
Lemma part_off l l' x : regions_disjoint -> part_away l l' = true -> part l x -> ~ part l' x.
Proof.
  unfold part_away. intros Hd Hl (i & P & Hi & HP & Hx) (j & Q & Hj & HQ & Hx'). rewrite forallb_forall in Hl.
  apply existsb_exists in Hi as (i' & Hi & ->%Nat.eqb_eq). specialize (Hl i' Hi).
  destruct (decide (i' = j)) as [->|Hne]; [by rewrite Hj in Hl|]. by apply (Hd i' j P Q x).
Qed.

Lemma same_part_mono l l' m m' : part_sub l l' = true -> same_outside (part l) m m' -> same_outside (part l') m m'.
Proof. intros Hl. apply same_outside_mono. intros x. by apply part_mono. Qed.
Lemma same_part_trans l l' l'' m1 m2 m3 : part_sub l l'' = true -> part_sub l' l'' = true ->
  same_outside (part l) m1 m2 -> same_outside (part l') m2 m3 -> same_outside (part l'') m1 m3.
Proof. intros H1 H2 Hs1 Hs2. by eapply same_outside_trans; (eapply same_part_mono; [|eassumption]). Qed.

(** A chain of steps; [parts] closes a goal with one. *)
Lemma same_part_app l l' m1 m2 m3 :
  same_outside (part l) m1 m2 -> same_outside (part l') m2 m3 -> same_outside (part (l ++ l')) m1 m3.
Proof.
  apply same_part_trans; apply forallb_forall; intros j Hj; apply existsb_exists; exists j;
    (split; [apply in_or_app; auto|apply Nat.eqb_refl]).
Qed.

(** Loads from the rest. *)
Lemma part_load l l' m m' a k :
  regions_disjoint -> part_away l' l = true -> (forall x, within a k x -> part l' x) ->
  same_outside (part l) m m' -> load k m' a = load k m a.
Proof.
  intros Hd Hl Hin Hs. apply (load_same_outside (part l)); [done|]. intros x Hx.
  apply (part_off l'); [done|done|by apply Hin].
Qed.
End Parts.
Ltac parts p := refine (same_part_mono _ _ _ _ _ _ p); reflexivity.
