(* ===== verification/LinkedList.v ===== *)
(** * LinkedList: the intrusive circular list of libkern/list.h

    A [struct list_head] at address [a] is its [next] pointer at [a] and its
    [prev] pointer at [a + 8].  Every operation of the header is a function on
    memory with the header's writes in the header's order.  [dll m h ns] is the
    abstract view: the list with head [h] holds the nodes [ns] in order.  The
    lemmas show that each operation is the corresponding operation on [ns] and
    that it writes nodes of the lists involved and nothing else. *)
From Stdlib Require Import ZArith Lia.
From stdpp Require Import prelude gmap list.
From S2P Require Import Prelude Memory.
Open Scope Z_scope.

(** ** The structure and its operations *)

(** [sizeof(struct list_head)] and the offsets of its fields. *)
Definition LIST_HEAD_SIZE : nat := 16.
Definition list_next (m : memory) (a : Z) : Z := ld64 m a.
Definition list_prev (m : memory) (a : Z) : Z := ld64 m (a + 8).
Definition set_list_next (m : memory) (a v : Z) : memory := st64 m a v.
Definition set_list_prev (m : memory) (a v : Z) : memory := st64 m (a + 8) v.

(** [container_of(ptr, type, member)] with [offset = offsetof(type, member)]. *)
Definition container_of (ptr offset : Z) : Z := ptr - offset.

Definition INIT_LIST_HEAD (m : memory) (list : Z) : memory :=
  let m := set_list_next m list list in
  set_list_prev m list list.

Definition __list_add (m : memory) (new prev next : Z) : memory :=
  let m := set_list_prev m next new in
  let m := set_list_next m new next in
  let m := set_list_prev m new prev in
  set_list_next m prev new.

Definition __list_del (m : memory) (prev next : Z) : memory :=
  let m := set_list_prev m next prev in
  set_list_next m prev next.

Definition list_add (m : memory) (new head : Z) : memory :=
  __list_add m new head (list_next m head).

Definition list_add_tail (m : memory) (new head : Z) : memory :=
  __list_add m new (list_prev m head) head.

Definition list_del (m : memory) (entry : Z) : memory :=
  let m := __list_del m (list_prev m entry) (list_next m entry) in
  let m := set_list_next m entry 0 in
  set_list_prev m entry 0.

Definition list_replace (m : memory) (old new : Z) : memory :=
  let m := set_list_next m new (list_next m old) in
  let m := set_list_prev m (list_next m new) new in
  let m := set_list_prev m new (list_prev m old) in
  set_list_next m (list_prev m new) new.

Definition list_replace_init (m : memory) (old new : Z) : memory :=
  INIT_LIST_HEAD (list_replace m old new) old.

Definition list_del_init (m : memory) (entry : Z) : memory :=
  INIT_LIST_HEAD (__list_del m (list_prev m entry) (list_next m entry)) entry.

Definition list_move (m : memory) (list head : Z) : memory :=
  list_add (__list_del m (list_prev m list) (list_next m list)) list head.

Definition list_move_tail (m : memory) (list head : Z) : memory :=
  list_add_tail (__list_del m (list_prev m list) (list_next m list)) list head.

Definition list_is_last (m : memory) (list head : Z) : bool := list_next m list =? head.

Definition list_empty (m : memory) (head : Z) : bool := list_next m head =? head.

Definition list_empty_careful (m : memory) (head : Z) : bool :=
  let next := list_next m head in
  (next =? head) && (next =? list_prev m head).

Definition list_is_singular (m : memory) (head : Z) : bool :=
  negb (list_empty m head) && (list_next m head =? list_prev m head).

Definition __list_cut_position (m : memory) (list head entry : Z) : memory :=
  let new_first := list_next m entry in
  let m := set_list_next m list (list_next m head) in
  let m := set_list_prev m (list_next m list) list in
  let m := set_list_prev m list entry in
  let m := set_list_next m entry list in
  let m := set_list_next m head new_first in
  set_list_prev m new_first head.

Definition list_cut_position (m : memory) (list head entry : Z) : memory :=
  if list_empty m head then m
  else if list_is_singular m head
          && (negb (list_next m head =? entry) && negb (head =? entry)) then m
  else if entry =? head then INIT_LIST_HEAD m list
  else __list_cut_position m list head entry.

Definition __list_splice (m : memory) (list prev next : Z) : memory :=
  let first := list_next m list in
  let last := list_prev m list in
  let m := set_list_prev m first prev in
  let m := set_list_next m prev first in
  let m := set_list_next m last next in
  set_list_prev m next last.

Definition list_splice (m : memory) (list head : Z) : memory :=
  if negb (list_empty m list) then __list_splice m list head (list_next m head) else m.

Definition list_splice_tail (m : memory) (list head : Z) : memory :=
  if negb (list_empty m list) then __list_splice m list (list_prev m head) head else m.

Definition list_splice_init (m : memory) (list head : Z) : memory :=
  if negb (list_empty m list)
  then INIT_LIST_HEAD (__list_splice m list head (list_next m head)) list else m.

Definition list_splice_tail_init (m : memory) (list head : Z) : memory :=
  if negb (list_empty m list)
  then INIT_LIST_HEAD (__list_splice m list (list_prev m head) head) list else m.

(** [list_entry], [list_first_entry], [list_last_entry]: the structure that
    embeds a node at [offset]. *)
Definition list_entry (ptr offset : Z) : Z := container_of ptr offset.
Definition list_first_entry (m : memory) (ptr offset : Z) : Z :=
  list_entry (list_next m ptr) offset.
Definition list_last_entry (m : memory) (ptr offset : Z) : Z :=
  list_entry (list_prev m ptr) offset.
Definition list_first_entry_or_null (m : memory) (ptr offset : Z) : Z :=
  let pos := list_next m ptr in
  if negb (pos =? ptr) then list_entry pos offset else 0.

(** The iteration macros.  The loop body is a function on memory and the
    cursor; [None] is a loop that has not ended within [fuel] iterations. *)
Fixpoint list_for_each_from (fuel : nat) (body : memory -> Z -> memory)
    (m : memory) (pos head : Z) : option memory :=
  if pos =? head then Some m
  else match fuel with
       | O => None
       | S fuel => let m := body m pos in
                   list_for_each_from fuel body m (list_next m pos) head
       end.
Definition list_for_each (fuel : nat) body (m : memory) (head : Z) : option memory :=
  list_for_each_from fuel body m (list_next m head) head.

Fixpoint list_for_each_prev_from (fuel : nat) (body : memory -> Z -> memory)
    (m : memory) (pos head : Z) : option memory :=
  if pos =? head then Some m
  else match fuel with
       | O => None
       | S fuel => let m := body m pos in
                   list_for_each_prev_from fuel body m (list_prev m pos) head
       end.
Definition list_for_each_prev (fuel : nat) body (m : memory) (head : Z) : option memory :=
  list_for_each_prev_from fuel body m (list_prev m head) head.

(** [list_for_each_safe] reads the successor [n] before the body runs. *)
Fixpoint list_for_each_safe_from (fuel : nat) (body : memory -> Z -> memory)
    (m : memory) (pos n head : Z) : option memory :=
  if pos =? head then Some m
  else match fuel with
       | O => None
       | S fuel => let m := body m pos in
                   list_for_each_safe_from fuel body m n (list_next m n) head
       end.
Definition list_for_each_safe (fuel : nat) body (m : memory) (head : Z) : option memory :=
  let pos := list_next m head in
  list_for_each_safe_from fuel body m pos (list_next m pos) head.

(** [list_for_each_entry] visits [container_of] of each node; without a body
    its result is the list of entries visited. *)
Fixpoint entries_from (fuel : nat) (m : memory) (pos head offset : Z) : option (list Z) :=
  if pos =? head then Some []
  else match fuel with
       | O => None
       | S fuel => cons (list_entry pos offset)
                     <$> entries_from fuel m (list_next m pos) head offset
       end.
Definition list_for_each_entry (fuel : nat) (m : memory) (head offset : Z) : option (list Z) :=
  entries_from fuel m (list_next m head) head offset.

(** ** The abstract view *)

(** Node addresses that fit a pointer and do not overlap. *)
Definition sep (l : list Z) : Prop :=
  NoDup l /\ (forall x, x ∈ l -> is_u64 x) /\
  (forall x y, x ∈ l -> y ∈ l -> x <> y -> apart x LIST_HEAD_SIZE y LIST_HEAD_SIZE).

(** Each element of [l] points to the next one and back. *)
Fixpoint chain (m : memory) (l : list Z) : Prop :=
  match l with
  | x :: (y :: _) as l' => list_next m x = y /\ list_prev m y = x /\ chain m l'
  | _ => True
  end.

(** The circular list with head [h] and nodes [ns]. *)
Definition dll (m : memory) (h : Z) (ns : list Z) : Prop :=
  sep (h :: ns) /\ chain m (h :: ns ++ [h]).

(** The bytes of the nodes in [l]. *)
Definition node_bytes (l : list Z) (x : Z) : Prop :=
  exists a, a ∈ l /\ within a LIST_HEAD_SIZE x.

(** ** Separation *)
Lemma sep_submseteq l1 l2 : l1 ⊆+ l2 -> sep l2 -> sep l1.
Proof.
  intros Hsub (Hnd & Hr & Ha). pose proof (elem_of_submseteq l1 l2) as He.
  split; [|split].
  - apply submseteq_Permutation in Hsub as [k Hk].
    rewrite Hk in Hnd. by apply NoDup_app in Hnd as [? _].
  - intros x Hx. apply Hr. eauto.
  - intros x y Hx Hy. apply Ha; eauto.
Qed.

(** Separation of a part of a separated list. *)
Ltac sep_from Hs := refine (sep_submseteq _ _ _ Hs); solve_submseteq.

#[export] Instance sep_proper : Proper (Permutation ==> iff) sep.
Proof.
  intros l1 l2 H. split; apply sep_submseteq; by rewrite H.
Qed.

(** The relation the accesses below need of two node addresses. *)
Definition sepd (x a : Z) : Prop := x = a \/ apart x LIST_HEAD_SIZE a LIST_HEAD_SIZE.

Lemma sep_sepd l x a : sep l -> x ∈ l -> a ∈ l -> sepd x a.
Proof.
  intros (_ & _ & H) Hx Ha. destruct (decide (x = a)); [by left|right; auto].
Qed.

Lemma sep_u64 l x : sep l -> x ∈ l -> u64 x = x.
Proof. intros (_ & H & _) Hx. apply u64_id. auto. Qed.

Lemma next_set_next m a v x : sepd x a ->
  list_next (set_list_next m a v) x = if decide (x = a) then u64 v else list_next m x.
Proof.
  unfold sepd, apart, LIST_HEAD_SIZE, list_next, set_list_next. intros H.
  case_decide; [subst; apply ld64_st64_eq|].
  apply load_store_apart. unfold apart. lia.
Qed.
Lemma next_set_prev m a v x : sepd x a ->
  list_next (set_list_prev m a v) x = list_next m x.
Proof.
  unfold sepd, apart, LIST_HEAD_SIZE, list_next, set_list_prev. intros H.
  apply load_store_apart. unfold apart. lia.
Qed.
Lemma prev_set_next m a v x : sepd x a ->
  list_prev (set_list_next m a v) x = list_prev m x.
Proof.
  unfold sepd, apart, LIST_HEAD_SIZE, list_prev, set_list_next. intros H.
  apply load_store_apart. unfold apart. lia.
Qed.
Lemma prev_set_prev m a v x : sepd x a ->
  list_prev (set_list_prev m a v) x = if decide (x = a) then u64 v else list_prev m x.
Proof.
  unfold sepd, apart, LIST_HEAD_SIZE, list_prev, set_list_prev. intros H.
  case_decide; [subst; apply ld64_st64_eq|].
  apply load_store_apart. unfold apart. lia.
Qed.

(** [node_simpl l] evaluates fields of nodes of the separated list [l] in the
    memory after a sequence of field writes to nodes of [l]. *)
Ltac mem_hyps x :=
  repeat match goal with
         | H : x ∈ _ |- _ => revert H
         | H : ~ (x ∈ _) |- _ => revert H
         end.
Ltac in_list :=
  first [ assumption
        | match goal with |- ?x ∈ _ => mem_hyps x; clear; set_solver end ].
(** Refutes [x = y] from the memberships known of [x] and of [y]. *)
Ltac node_neq :=
  match goal with
  | E : ?x = ?y |- _ =>
      exfalso; revert E; mem_hyps x; try mem_hyps y; clear; intros; subst; set_solver
  end.
Ltac node_ne := let E := fresh in intros E; node_neq.
Ltac node_sep Hsep := first [left; reflexivity | apply (sep_sepd _ _ _ Hsep); in_list].
Ltac node_simpl Hsep :=
  repeat first
    [ rewrite next_set_next by node_sep Hsep
    | rewrite next_set_prev by node_sep Hsep
    | rewrite prev_set_next by node_sep Hsep
    | rewrite prev_set_prev by node_sep Hsep ].

(** ** Chains *)
Lemma chain_ext m1 m2 l :
  (forall z, z ∈ removelast l -> list_next m2 z = list_next m1 z) ->
  (forall z, z ∈ tail l -> list_prev m2 z = list_prev m1 z) ->
  chain m1 l -> chain m2 l.
Proof.
  induction l as [|x [|y l] IH]; intros Hn Hp Hc; [done|done|].
  cbn [removelast tail] in *. destruct Hc as (E1 & E2 & Hc). split; [|split].
  - rewrite Hn; [done|left].
  - rewrite Hp; [done|left].
  - apply IH; [|intros; apply Hp; by right|done].
    intros z Hz. apply Hn. by right.
Qed.

Lemma chain_app m a p b : chain m (a ++ p :: b) <-> chain m (a ++ [p]) /\ chain m (p :: b).
Proof.
  induction a as [|x [|y a] IH]; simpl in *.
  - naive_solver.
  - naive_solver.
  - rewrite IH. naive_solver.
Qed.

Lemma chain_link m a p n b :
  chain m (a ++ p :: n :: b) <->
  chain m (a ++ [p]) /\ (list_next m p = n /\ list_prev m n = p) /\ chain m (n :: b).
Proof. rewrite chain_app. cbn [chain]. destruct b; naive_solver. Qed.

Lemma chain_tail m x l : chain m (x :: l) -> chain m l.
Proof. destruct l; simpl; tauto. Qed.

Lemma removelast_snoc {A} (l : list A) x : removelast (l ++ [x]) = l.
Proof. apply removelast_last. Qed.

(** The neighbours of a position of a circular list: [h :: l1] ends in its
    predecessor, [l2 ++ [h]] starts with its successor. *)
Lemma ends_in (h : Z) l1 : exists a p, h :: l1 = a ++ [p] /\ p ∈ h :: l1.
Proof.
  destruct (exists_last (l := h :: l1)) as (a & p & E); [done|].
  exists a, p. rewrite E. split; [done|set_solver].
Qed.
Lemma starts_with (h : Z) l2 : exists n b, l2 ++ [h] = n :: b /\ n ∈ h :: l2.
Proof.
  destruct l2 as [|n l2]; [exists h, []|exists n, (l2 ++ [h])]; set_solver.
Qed.

(** The halves of a circular list cut between [p] and [n]: no other node of
    the first half is [p], no other node of the second is [n]. *)
Lemma halves_distinct (h : Z) l1 l2 a p n b :
  NoDup (h :: l1 ++ l2) -> h :: l1 = a ++ [p] -> l2 ++ [h] = n :: b ->
  (p ∉ a) /\ (n ∉ b) /\ (n ∉ l1) /\ (p ∉ l2) /\ (forall z, z ∈ a -> z ∈ h :: l1) /\
  (forall z, z ∈ b -> z ∈ h :: l2).
Proof.
  intros Hnd Ea En.
  assert (Hl1 : NoDup (h :: l1)) by (apply NoDup_cons in Hnd as [? H]; apply NoDup_app in H;
    apply NoDup_cons; set_solver).
  assert (Hl2 : NoDup (l2 ++ [h])).
  { apply NoDup_cons in Hnd as [? H]; apply NoDup_app in H as (? & ? & ?).
    apply NoDup_app; repeat split; [done|set_solver|apply NoDup_singleton]. }
  rewrite Ea in Hl1. rewrite En in Hl2.
  apply NoDup_app in Hl1 as (? & ? & ?). apply NoDup_cons in Hl2 as [? _].
  assert (Hpa : p ∈ h :: l1) by (rewrite Ea; set_solver).
  assert (Hnb : n ∈ l2 ++ [h]) by (rewrite En; set_solver).
  apply NoDup_cons in Hnd as [Hh Hnd]. apply NoDup_app in Hnd as (_ & Hdis & _).
  split_and!.
  - set_solver.
  - done.
  - intros Hn. rewrite elem_of_app in Hnb. destruct Hnb as [Hnb|Hnb]; set_solver.
  - intros Hp. rewrite elem_of_cons in Hpa. destruct Hpa as [->|Hpa]; set_solver.
  - intros z Hz. rewrite Ea. set_solver.
  - intros z Hz. assert (z ∈ l2 ++ [h]) by (rewrite En; set_solver). set_solver.
Qed.

Lemma cycle_split (h : Z) l1 l2 a p n b :
  h :: l1 = a ++ [p] -> l2 ++ [h] = n :: b ->
  h :: (l1 ++ l2) ++ [h] = a ++ p :: n :: b.
Proof.
  intros Ea En. rewrite <- app_assoc, En, app_comm_cons, Ea, <- app_assoc. done.
Qed.

Lemma tail_snoc (h : Z) l1 a p : h :: l1 = a ++ [p] -> tail (a ++ [p]) = l1.
Proof. by intros <-. Qed.

(** Decides the updates of [node_simpl]'s result by distinctness. *)
Ltac node_decide := repeat (case_decide; [node_neq|]); try done.

(** Reads a field [node_simpl] left as a chain of updates. *)
Ltac node_read :=
  repeat first [rewrite decide_True by reflexivity | rewrite decide_False by node_ne].

(** [__list_add] between the neighbours [p], [n]. *)
Lemma chain_insert m h l1 l2 new a p n b :
  sep (new :: h :: l1 ++ l2) -> h :: l1 = a ++ [p] -> l2 ++ [h] = n :: b ->
  chain m (h :: (l1 ++ l2) ++ [h]) ->
  chain (__list_add m new p n) (h :: (l1 ++ new :: l2) ++ [h]).
Proof.
  intros Hs Ea En Hc. pose proof Hs as (Hnd & _ & _).
  apply NoDup_cons in Hnd as [Hnew Hnd].
  destruct (halves_distinct _ _ _ _ _ _ _ Hnd Ea En) as (Hpa & Hnb & Hn1 & Hp2 & Ha & Hb).
  assert (Hp : p ∈ h :: l1) by (rewrite Ea; set_solver).
  assert (Hn : n ∈ h :: l2) by (assert (n ∈ l2 ++ [h]) by (rewrite En; set_solver); set_solver).
  rewrite (cycle_split _ _ _ _ _ _ _ Ea En), chain_link in Hc.
  destruct Hc as (C1 & (E1 & E2) & C2).
  assert (Eg : h :: (l1 ++ new :: l2) ++ [h] = a ++ p :: new :: n :: b).
  { rewrite <- app_assoc. simpl. by rewrite En, app_comm_cons, Ea, <- app_assoc. }
  rewrite Eg, chain_link. unfold __list_add.
  split; [|split; [split|split; [|split]]].
  - revert C1. apply chain_ext.
    + rewrite removelast_snoc. intros z Hz. apply Ha in Hz as Hz'.
      node_simpl Hs. node_decide.
    + rewrite (tail_snoc _ _ _ _ Ea). intros z Hz. node_simpl Hs. node_decide.
  - node_simpl Hs. rewrite decide_True by done. apply (sep_u64 _ _ Hs). in_list.
  - node_simpl Hs. rewrite decide_True by done. apply (sep_u64 _ _ Hs). in_list.
  - node_simpl Hs. rewrite decide_False by node_ne. rewrite decide_True by done.
    apply (sep_u64 _ _ Hs). in_list.
  - node_simpl Hs. rewrite decide_False by node_ne. rewrite decide_True by done.
    apply (sep_u64 _ _ Hs). in_list.
  - revert C2. apply chain_ext.
    + intros z Hz. assert (Hz' : z ∈ l2).
      { rewrite <- En, removelast_snoc in Hz. done. }
      node_simpl Hs. node_decide.
    + simpl. intros z Hz. apply Hb in Hz as Hz'. node_simpl Hs. node_decide.
Qed.

(** [__list_del] of the node between [p] and [n]. *)
Lemma chain_remove m h l1 e l2 a p n b :
  sep (h :: l1 ++ e :: l2) -> h :: l1 = a ++ [p] -> l2 ++ [h] = n :: b ->
  chain m (h :: (l1 ++ e :: l2) ++ [h]) ->
  list_prev m e = p /\ list_next m e = n /\
  chain (__list_del m p n) (h :: (l1 ++ l2) ++ [h]).
Proof.
  intros Hs Ea En Hc.
  assert (Hs' : sep (e :: h :: l1 ++ l2)).
  { sep_from Hs. }
  pose proof Hs' as (Hnd & _ & _). apply NoDup_cons in Hnd as [He Hnd].
  destruct (halves_distinct _ _ _ _ _ _ _ Hnd Ea En) as (Hpa & Hnb & Hn1 & Hp2 & Ha & Hb).
  assert (Hp : p ∈ h :: l1) by (rewrite Ea; set_solver).
  assert (Hn : n ∈ h :: l2) by (assert (n ∈ l2 ++ [h]) by (rewrite En; set_solver); set_solver).
  assert (Eg : h :: (l1 ++ e :: l2) ++ [h] = a ++ p :: e :: n :: b).
  { rewrite <- app_assoc. simpl. by rewrite En, app_comm_cons, Ea, <- app_assoc. }
  rewrite Eg, chain_link in Hc. destruct Hc as (C1 & (E1 & E2) & (E3 & E4 & C2)).
  split; [done|]. split; [done|].
  rewrite (cycle_split _ _ _ _ _ _ _ Ea En), chain_link. unfold __list_del.
  split; [|split; [split|]].
  - revert C1. apply chain_ext.
    + rewrite removelast_snoc. intros z Hz. apply Ha in Hz as Hz'.
      node_simpl Hs'. node_decide.
    + rewrite (tail_snoc _ _ _ _ Ea). intros z Hz. node_simpl Hs'. node_decide.
  - node_simpl Hs'. rewrite decide_True by done. apply (sep_u64 _ _ Hs'). in_list.
  - node_simpl Hs'. rewrite decide_True by done. apply (sep_u64 _ _ Hs'). in_list.
  - revert C2. apply chain_ext.
    + intros z Hz. assert (Hz' : z ∈ l2).
      { rewrite <- En, removelast_snoc in Hz. done. }
      node_simpl Hs'. node_decide.
    + simpl. intros z Hz. apply Hb in Hz as Hz'. node_simpl Hs'. node_decide.
Qed.

(** ** Footprints *)
Lemma outside_next l m m' a v :
  a ∈ l -> same_outside (node_bytes l) m m' -> same_outside (node_bytes l) m (set_list_next m' a v).
Proof.
  intros Ha. apply same_outside_store. intros x Hx. exists a.
  unfold within, LIST_HEAD_SIZE in *. split; [done|lia].
Qed.
Lemma outside_prev l m m' a v :
  a ∈ l -> same_outside (node_bytes l) m m' -> same_outside (node_bytes l) m (set_list_prev m' a v).
Proof.
  intros Ha. apply same_outside_store. intros x Hx. exists a.
  unfold within, LIST_HEAD_SIZE in *. split; [done|lia].
Qed.

(** [footprint] proves that a sequence of field writes stays in a node list. *)
Ltac footprint :=
  repeat first [ apply same_outside_refl | apply outside_next; [in_list|]
               | apply outside_prev; [in_list|] ].

Lemma node_bytes_mono l1 l2 x : (forall a, a ∈ l1 -> a ∈ l2) -> node_bytes l1 x -> node_bytes l2 x.
Proof. intros H (a & Ha & Hx). exists a. auto. Qed.

Lemma fields_same_outside R m m' a :
  same_outside R m m' -> (forall x, within a LIST_HEAD_SIZE x -> ~ R x) ->
  list_next m' a = list_next m a /\ list_prev m' a = list_prev m a.
Proof.
  intros H Ha. unfold list_next, list_prev, LIST_HEAD_SIZE, within in *.
  split; eapply load_same_outside; try done; intros x Hx; apply Ha;
    unfold within in *; lia.
Qed.

(** A list survives every change outside its nodes. *)
Lemma dll_same_outside R m m' h ns :
  same_outside R m m' -> (forall x, node_bytes (h :: ns) x -> ~ R x) ->
  dll m h ns -> dll m' h ns.
Proof.
  intros Hm HR [Hs Hc]. split; [done|].
  assert (Hf : forall z, z ∈ h :: ns ++ [h] ->
            list_next m' z = list_next m z /\ list_prev m' z = list_prev m z).
  { intros z Hz. eapply fields_same_outside; [done|]. intros x Hx. apply HR.
    exists z. split; [set_solver|done]. }
  revert Hc. apply chain_ext; intros z Hz; apply Hf.
  - revert Hz. rewrite app_comm_cons, removelast_snoc. set_solver.
  - set_solver.
Qed.

(** Two lists with separated nodes: writes to one leave the other. *)
Lemma sep_node_bytes l1 l2 x : sep (l1 ++ l2) -> node_bytes l1 x -> node_bytes l2 x -> False.
Proof.
  intros (Hnd & _ & Hs) (a & Ha & Hxa) (b & Hb & Hxb).
  apply NoDup_app in Hnd as (_ & Hdis & _).
  destruct (decide (a = b)) as [->|Hne]; [by apply (Hdis b)|].
  specialize (Hs a b). unfold apart, within in *. set_solver by lia.
Qed.

Lemma dll_frame m m' h ns l :
  same_outside (node_bytes l) m m' -> sep (h :: ns ++ l) -> dll m h ns -> dll m' h ns.
Proof.
  intros Hm Hs. apply (dll_same_outside _ _ _ _ _ Hm). intros x H1 H2.
  by apply (sep_node_bytes (h :: ns) l x).
Qed.

(** ** The neighbours of the head *)
Lemma dll_head_next m h ns : dll m h ns -> list_next m h = hd h ns.
Proof. intros [_ Hc]. destruct ns; simpl in *; naive_solver. Qed.

Lemma dll_head_prev m h ns : dll m h ns -> list_prev m h = List.last ns h.
Proof.
  intros [_ Hc]. destruct (exists_last (l := h :: ns)) as (a & p & E); [done|].
  rewrite app_comm_cons, E, <- app_assoc in Hc. simpl in Hc.
  apply chain_app in Hc as [_ Hc]. simpl in Hc. destruct Hc as (_ & -> & _).
  destruct ns as [|x ns]; [destruct a as [|? []]; naive_solver|].
  destruct a as [|y a]; [done|]. injection E as -> ->. by rewrite last_last.
Qed.

(** The successor and predecessor of a node in the middle. *)
Lemma dll_node m h l1 e l2 :
  dll m h (l1 ++ e :: l2) ->
  list_next m e = hd h l2 /\ list_prev m e = List.last l1 h.
Proof.
  intros [Hs Hc].
  destruct (ends_in h l1) as (a & p & Ea & _), (starts_with h l2) as (n & b & En & _).
  destruct (chain_remove _ _ _ _ _ _ _ _ _ Hs Ea En Hc) as (-> & -> & _). split.
  - destruct l2; naive_solver.
  - destruct l1 as [|x l1]; [destruct a as [|? []]; naive_solver|].
    destruct a as [|y a]; [done|]. injection Ea as -> ->. by rewrite last_last.
Qed.

Lemma dll_sep m h ns : dll m h ns -> sep (h :: ns).
Proof. by intros [? _]. Qed.

(** ** The operations on the abstract list *)
Lemma dll_init m h : is_u64 h -> dll (INIT_LIST_HEAD m h) h [].
Proof.
  intros Hh.
  assert (Hs : sep [h]).
  { split; [apply NoDup_singleton|]. split; set_solver. }
  split; [done|]. simpl. unfold INIT_LIST_HEAD. node_simpl Hs.
  rewrite !decide_True by done. by rewrite u64_id.
Qed.

Lemma dll_add_between m h l1 l2 new a p n b :
  dll m h (l1 ++ l2) -> sep (new :: h :: l1 ++ l2) ->
  h :: l1 = a ++ [p] -> l2 ++ [h] = n :: b ->
  dll (__list_add m new p n) h (l1 ++ new :: l2).
Proof.
  intros [_ Hc] Hs Ea En. split.
  - sep_from Hs.
  - by eapply chain_insert.
Qed.

Lemma dll_add m h ns new :
  dll m h ns -> sep (new :: h :: ns) -> dll (list_add m new h) h (new :: ns).
Proof.
  intros Hd Hs. unfold list_add. rewrite (dll_head_next _ _ _ Hd).
  destruct (starts_with h ns) as (n & b & En & _).
  replace (hd h ns) with n by (destruct ns; naive_solver).
  by apply (dll_add_between m h [] ns new [] h n b).
Qed.

Lemma last_snoc_ends (h : Z) ns : exists a, h :: ns = a ++ [List.last ns h].
Proof.
  destruct (ends_in h ns) as (a & p & E & _). exists a. rewrite E. repeat f_equal.
  destruct ns as [|x ns]; [destruct a as [|? []]; naive_solver|].
  destruct a as [|y a]; [done|]. injection E as -> ->. by rewrite last_last.
Qed.

Lemma dll_add_tail m h ns new :
  dll m h ns -> sep (new :: h :: ns) -> dll (list_add_tail m new h) h (ns ++ [new]).
Proof.
  intros Hd Hs. unfold list_add_tail. rewrite (dll_head_prev _ _ _ Hd).
  destruct (last_snoc_ends h ns) as (a & Ea).
  apply (dll_add_between m h ns [] new a _ h []); rewrite ?app_nil_r; done.
Qed.

(** Unlinking the head of an empty list changes the head alone. *)
Lemma dll_unlink_self m h :
  dll m h [] -> same_outside (node_bytes [h]) m (__list_del m (list_prev m h) (list_next m h)).
Proof.
  intros [_ (En & Ep & _)]. rewrite Ep, En. unfold __list_del, set_list_next, set_list_prev.
  assert (Hx : forall x, within h 16 x -> node_bytes [h] x) by (intros x Hx; exists h; split; [by left|done]).
  do 2 (apply same_outside_store; [intros x Hw; apply Hx; unfold within in *; lia|]). done.
Qed.

Lemma dll_unlink m h l1 e l2 :
  dll m h (l1 ++ e :: l2) ->
  dll (__list_del m (list_prev m e) (list_next m e)) h (l1 ++ l2).
Proof.
  intros [Hs Hc]. destruct (ends_in h l1) as (a & p & Ea & _).
  destruct (starts_with h l2) as (n & b & En & _).
  destruct (chain_remove _ _ _ _ _ _ _ _ _ Hs Ea En Hc) as (-> & -> & Hc').
  split; [|done]. sep_from Hs.
Qed.

(** Where the writes of the operations go. *)
Lemma list_add_footprint m h ns new :
  dll m h ns -> same_outside (node_bytes (new :: h :: ns)) m (list_add m new h).
Proof.
  intros Hd. unfold list_add, __list_add. rewrite (dll_head_next _ _ _ Hd).
  assert (hd h ns ∈ h :: ns) by (destruct ns; set_solver). footprint.
Qed.

Lemma last_in (h : Z) ns : List.last ns h ∈ h :: ns.
Proof. destruct (last_snoc_ends h ns) as (a & E). rewrite E. set_solver. Qed.

Lemma list_add_tail_footprint m h ns new :
  dll m h ns -> same_outside (node_bytes (new :: h :: ns)) m (list_add_tail m new h).
Proof.
  intros Hd. unfold list_add_tail, __list_add. rewrite (dll_head_prev _ _ _ Hd).
  pose proof (last_in h ns). footprint.
Qed.

Lemma unlink_footprint m h l1 e l2 :
  dll m h (l1 ++ e :: l2) ->
  same_outside (node_bytes (h :: l1 ++ l2)) m
    (__list_del m (list_prev m e) (list_next m e)).
Proof.
  intros Hd. destruct (dll_node _ _ _ _ _ Hd) as [-> ->]. unfold __list_del.
  pose proof (last_in h l1). assert (hd h l2 ∈ h :: l2) by (destruct l2; set_solver).
  footprint.
Qed.

Lemma dll_del m h l1 e l2 :
  dll m h (l1 ++ e :: l2) ->
  dll (list_del m e) h (l1 ++ l2) /\
  list_next (list_del m e) e = 0 /\ list_prev (list_del m e) e = 0.
Proof.
  intros Hd. pose proof (dll_unlink _ _ _ _ _ Hd) as Hu. pose proof (dll_sep _ _ _ Hd) as Hs.
  unfold list_del. split; [|split].
  - eapply (dll_frame _ _ _ _ [e]); [|
      sep_from Hs|exact Hu].
    footprint.
  - node_simpl Hs. by rewrite decide_True.
  - node_simpl Hs. by rewrite decide_True.
Qed.

Lemma list_del_footprint m h l1 e l2 :
  dll m h (l1 ++ e :: l2) ->
  same_outside (node_bytes (h :: l1 ++ e :: l2)) m (list_del m e).
Proof.
  intros Hd. pose proof (unlink_footprint _ _ _ _ _ Hd) as Hf. unfold list_del.
  set (m' := __list_del m _ _) in *. eapply same_outside_trans.
  - eapply same_outside_mono; [|exact Hf]. intros x. apply node_bytes_mono. set_solver.
  - assert (e ∈ h :: l1 ++ e :: l2) by set_solver. footprint.
Qed.

Lemma dll_del_init m h l1 e l2 :
  dll m h (l1 ++ e :: l2) ->
  dll (list_del_init m e) h (l1 ++ l2) /\ dll (list_del_init m e) e [].
Proof.
  intros Hd. pose proof (dll_unlink _ _ _ _ _ Hd) as Hu. pose proof (dll_sep _ _ _ Hd) as Hs.
  unfold list_del_init. split.
  - eapply (dll_frame _ _ _ _ [e]); [|
      sep_from Hs|exact Hu].
    unfold INIT_LIST_HEAD. footprint.
  - apply dll_init. destruct Hs as (_ & Hr & _). apply Hr. set_solver.
Qed.

(** A node leaves its list and heads another one. *)
Lemma dll_move m h1 l1 e l2 h2 ns :
  dll m h1 (l1 ++ e :: l2) -> dll m h2 ns -> sep (h1 :: (l1 ++ e :: l2) ++ h2 :: ns) ->
  dll (list_move m e h2) h1 (l1 ++ l2) /\ dll (list_move m e h2) h2 (e :: ns).
Proof.
  intros H1 H2 Hs. unfold list_move.
  pose proof (dll_unlink _ _ _ _ _ H1) as Hu.
  pose proof (unlink_footprint _ _ _ _ _ H1) as Hf.
  set (m' := __list_del m _ _) in *.
  assert (H2' : dll m' h2 ns).
  { eapply dll_frame; [exact Hf| |exact H2]. sep_from Hs. }
  assert (Hse : sep (e :: h2 :: ns)) by sep_from Hs.
  split; [|by apply dll_add].
  eapply (dll_frame _ _ _ _ (e :: h2 :: ns)); [by apply list_add_footprint| |exact Hu].
  sep_from Hs.
Qed.

Lemma dll_move_tail m h1 l1 e l2 h2 ns :
  dll m h1 (l1 ++ e :: l2) -> dll m h2 ns -> sep (h1 :: (l1 ++ e :: l2) ++ h2 :: ns) ->
  dll (list_move_tail m e h2) h1 (l1 ++ l2) /\ dll (list_move_tail m e h2) h2 (ns ++ [e]).
Proof.
  intros H1 H2 Hs. unfold list_move_tail.
  pose proof (dll_unlink _ _ _ _ _ H1) as Hu.
  pose proof (unlink_footprint _ _ _ _ _ H1) as Hf.
  set (m' := __list_del m _ _) in *.
  assert (H2' : dll m' h2 ns).
  { eapply dll_frame; [exact Hf| |exact H2]. sep_from Hs. }
  assert (Hse : sep (e :: h2 :: ns)) by sep_from Hs.
  split; [|by apply dll_add_tail].
  eapply (dll_frame _ _ _ _ (e :: h2 :: ns)); [by apply list_add_tail_footprint| |exact Hu].
  sep_from Hs.
Qed.

(** The bytes [list_move] may change. *)
Lemma list_move_footprint m h1 l1 e l2 h2 ns :
  dll m h1 (l1 ++ e :: l2) -> dll m h2 ns -> sep (h1 :: (l1 ++ e :: l2) ++ h2 :: ns) ->
  same_outside (node_bytes (h1 :: (l1 ++ e :: l2) ++ h2 :: ns)) m (list_move m e h2).
Proof.
  intros H1 H2 Hs. pose proof (unlink_footprint _ _ _ _ _ H1) as Hf. unfold list_move.
  set (m' := __list_del m _ _) in *.
  assert (H2' : dll m' h2 ns).
  { eapply dll_frame; [exact Hf| |exact H2]. sep_from Hs. }
  eapply same_outside_trans.
  - eapply same_outside_mono; [|exact Hf]. intros x. apply node_bytes_mono. set_solver.
  - eapply same_outside_mono; [|by apply list_add_footprint].
    intros x. apply node_bytes_mono. set_solver.
Qed.

Lemma dll_replace m h l1 old l2 new :
  dll m h (l1 ++ old :: l2) -> sep (new :: h :: l1 ++ old :: l2) ->
  dll (list_replace m old new) h (l1 ++ new :: l2).
Proof.
  intros Hd Hs. pose proof Hd as [Hso Hc].
  destruct (ends_in h l1) as (a & p & Ea & Hp), (starts_with h l2) as (n & b & En & Hn).
  destruct (chain_remove _ _ _ _ _ _ _ _ _ Hso Ea En Hc) as (Ep & Enx & _).
  assert (Hs2 : sep (h :: l1 ++ l2)) by sep_from Hs.
  assert (Hnew : new ∉ h :: l1 ++ old :: l2) by (destruct Hs as (?%NoDup_cons & _); tauto).
  destruct (halves_distinct h l1 l2 a p n b ltac:(apply Hs2) Ea En)
    as (Hpa & Hnb & Hn1 & Hp2 & Ha & Hb).
  assert (Ho : old ∉ h :: l1 ++ l2).
  { destruct Hso as (Hnd & _). rewrite NoDup_cons, NoDup_app, NoDup_cons in Hnd. set_solver. }
  assert (Eg : forall x, h :: (l1 ++ x :: l2) ++ [h] = a ++ p :: x :: n :: b).
  { intros x. rewrite <- app_assoc. simpl. by rewrite En, app_comm_cons, Ea, <- app_assoc. }
  split; [sep_from Hs|]. rewrite Eg, chain_link in *.
  destruct Hc as (C1 & (E1 & E2) & (E3 & E4 & C2)).
  assert (Hu : forall x, x ∈ new :: h :: l1 ++ old :: l2 -> u64 x = x) by (intros; by apply (sep_u64 _ _ Hs)).
  assert (En2 : list_next (set_list_next m new (list_next m old)) new = n).
  { node_simpl Hs. rewrite decide_True, E3 by done. apply Hu. in_list. }
  unfold list_replace. rewrite En2.
  set (m2 := set_list_prev (set_list_next m new (list_next m old)) n new).
  assert (Ep2 : list_prev m2 old = p).
  { unfold m2. node_simpl Hs. by rewrite decide_False by node_ne. }
  rewrite Ep2.
  assert (Ep3 : list_prev (set_list_prev m2 new p) new = p).
  { node_simpl Hs. rewrite decide_True by done. apply Hu. in_list. }
  rewrite Ep3. unfold m2.
  split; [|split; [split|split; [|split]]].
  - revert C1. apply chain_ext.
    + rewrite removelast_snoc. intros z Hz. apply Ha in Hz as Hz'. node_simpl Hs. node_decide.
    + rewrite (tail_snoc _ _ _ _ Ea). intros z Hz. node_simpl Hs. node_decide.
  - node_simpl Hs. rewrite decide_True by done. apply Hu. in_list.
  - node_simpl Hs. rewrite decide_True by done. apply Hu. in_list.
  - node_simpl Hs. rewrite decide_False by node_ne. rewrite decide_True, E3 by done. apply Hu. in_list.
  - node_simpl Hs. rewrite decide_False by node_ne. rewrite decide_True by done. apply Hu. in_list.
  - revert C2. apply chain_ext.
    + intros z Hz. rewrite <- En, removelast_snoc in Hz. node_simpl Hs. node_decide.
    + simpl. intros z Hz. apply Hb in Hz as Hz'. node_simpl Hs. node_decide.
Qed.

(** [__list_splice] of the nodes [xs] of [list] between [p] and [n]. *)
Lemma chain_splice m list xs h l1 l2 a p n b :
  sep (list :: xs ++ h :: l1 ++ l2) -> xs <> [] ->
  h :: l1 = a ++ [p] -> l2 ++ [h] = n :: b ->
  chain m (list :: xs ++ [list]) -> chain m (h :: (l1 ++ l2) ++ [h]) ->
  chain (__list_splice m list p n) (h :: (l1 ++ xs ++ l2) ++ [h]).
Proof.
  intros Hs Hne Ea En Hx Hc.
  assert (Hs2 : sep (h :: l1 ++ l2)) by sep_from Hs.
  destruct (halves_distinct h l1 l2 a p n b ltac:(apply Hs2) Ea En)
    as (Hpa & Hnb & Hn1 & Hp2 & Ha & Hb).
  assert (Hp : p ∈ h :: l1) by (rewrite Ea; set_solver).
  assert (Hn : n ∈ h :: l2) by (assert (n ∈ l2 ++ [h]) by (rewrite En; set_solver); set_solver).
  pose proof Hs as (Hnd & _). rewrite app_comm_cons, NoDup_app in Hnd.
  destruct Hnd as (Hndx & Hdis & _).
  destruct xs as [|f xs]; [done|]. destruct (exists_last (l := f :: xs)) as (ys & la & El); [done|].
  rewrite (cycle_split _ _ _ _ _ _ _ Ea En), chain_link in Hc.
  destruct Hc as (C1 & _ & C2).
  assert (Hf : list_next m list = f) by (simpl in Hx; tauto).
  assert (Cx : chain m (f :: xs) /\ list_prev m list = la).
  { rewrite El, <- app_assoc in Hx. simpl in Hx.
    apply chain_link with (a := list :: ys) in Hx as (Hx & (_ & ?) & _).
    split; [|done]. rewrite El. by apply chain_tail in Hx. }
  assert (Hfd : f ∉ h :: l1 ++ l2) by (apply Hdis; set_solver).
  destruct Cx as [Cx Hla]. unfold __list_splice. rewrite Hf, Hla.
  assert (Hlain : la ∈ f :: xs) by (rewrite El; set_solver).
  assert (Hlad : la ∉ h :: l1 ++ l2) by (apply Hdis; set_solver).
  assert (Hlay : la ∉ ys) by (rewrite El, NoDup_cons, NoDup_app in Hndx; set_solver).
  apply NoDup_cons in Hndx as [_ Hndx]. apply NoDup_cons in Hndx as [Hfx _].
  assert (Eg : h :: (l1 ++ (f :: xs) ++ l2) ++ [h] = a ++ p :: ys ++ la :: n :: b).
  { rewrite El, <- !app_assoc. simpl. rewrite En, app_comm_cons, Ea, <- !app_assoc. done. }
  assert (Hu : forall x, x ∈ list :: (f :: xs) ++ h :: l1 ++ l2 -> u64 x = x)
    by (intros; by apply (sep_u64 _ _ Hs)).
  assert (Eys : forall z, z ∈ ys -> z ∈ f :: xs) by (intros z Hz; rewrite El; set_solver).
  assert (Hin : chain (__list_splice m list p n) (ys ++ la :: n :: b)).
  { unfold __list_splice. rewrite Hf, Hla. apply chain_link. split; [|split; [split|]].
    - rewrite <- El. revert Cx. apply chain_ext.
      + rewrite El, removelast_snoc. intros z Hz. apply Eys in Hz as Hz'.
        assert (z ∉ h :: l1 ++ l2) by (apply Hdis; by right). node_simpl Hs. node_decide.
      + simpl. intros z Hz. assert (z ∉ h :: l1 ++ l2) by (apply Hdis; by right; right).
        node_simpl Hs. node_decide.
    - node_simpl Hs. rewrite decide_True by done. apply Hu. in_list.
    - node_simpl Hs. rewrite decide_True by done. apply Hu. in_list.
    - revert C2. apply chain_ext.
      + intros z Hz. rewrite <- En, removelast_snoc in Hz. node_simpl Hs. node_decide.
      + simpl. intros z Hz. apply Hb in Hz as Hz'. node_simpl Hs. node_decide. }
  unfold __list_splice in Hin. rewrite Hf, Hla in Hin.
  assert (Ef : exists zs, ys ++ la :: n :: b = f :: zs).
  { destruct ys; injection El as -> _; eauto. }
  rewrite Eg. destruct Ef as [zs Ez]. rewrite Ez in *. apply chain_link.
  split; [|split; [split|done]].
  - revert C1. apply chain_ext.
    + rewrite removelast_snoc. intros z Hz. apply Ha in Hz as Hz'. node_simpl Hs. node_decide.
    + rewrite (tail_snoc _ _ _ _ Ea). intros z Hz. node_simpl Hs. node_decide.
  - node_simpl Hs. rewrite decide_False by node_ne. rewrite decide_True by done. apply Hu. in_list.
  - node_simpl Hs. rewrite decide_False by node_ne. rewrite decide_True by done. apply Hu. in_list.
Qed.

Lemma list_empty_dll m h ns : dll m h ns -> list_empty m h = bool_decide (ns = []).
Proof.
  intros Hd. unfold list_empty. rewrite (dll_head_next _ _ _ Hd).
  pose proof (dll_sep _ _ _ Hd) as (Hnd & _). destruct ns as [|x ns]; simpl.
  - by rewrite Z.eqb_refl.
  - apply NoDup_cons in Hnd as [Hh _]. apply Z.eqb_neq. set_solver.
Qed.

(** The two ways to splice: after the head, before the head. *)
Lemma dll_splice_between m list xs h l1 l2 a p n b :
  dll m list xs -> xs <> [] -> dll m h (l1 ++ l2) ->
  sep ((list :: xs) ++ h :: l1 ++ l2) -> h :: l1 = a ++ [p] -> l2 ++ [h] = n :: b ->
  dll (__list_splice m list p n) h (l1 ++ xs ++ l2).
Proof.
  intros [_ Hx] Hne [_ Hc] Hs Ea En. split; [sep_from Hs|].
  by apply (chain_splice m list xs h l1 l2 a p n b).
Qed.

Lemma dll_splice m list xs h ns :
  dll m list xs -> dll m h ns -> sep ((list :: xs) ++ h :: ns) ->
  dll (list_splice m list h) h (xs ++ ns).
Proof.
  intros Hx Hd Hs. unfold list_splice. rewrite (list_empty_dll _ _ _ Hx).
  case_bool_decide as Hne; simpl; [by subst|].
  rewrite (dll_head_next _ _ _ Hd). destruct (starts_with h ns) as (n & b & En & _).
  replace (hd h ns) with n by (destruct ns; naive_solver).
  by apply (dll_splice_between m list xs h [] ns [] h n b).
Qed.

Lemma dll_splice_tail m list xs h ns :
  dll m list xs -> dll m h ns -> sep ((list :: xs) ++ h :: ns) ->
  dll (list_splice_tail m list h) h (ns ++ xs).
Proof.
  intros Hx Hd Hs. unfold list_splice_tail. rewrite (list_empty_dll _ _ _ Hx).
  case_bool_decide as Hne; simpl; [subst; by rewrite app_nil_r|].
  rewrite (dll_head_prev _ _ _ Hd). destruct (last_snoc_ends h ns) as (a & Ea).
  rewrite <- (app_nil_r xs).
  apply (dll_splice_between m list xs h ns [] a _ h []); rewrite ?app_nil_r; done.
Qed.

Lemma INIT_LIST_HEAD_frame m h ns list :
  sep (list :: h :: ns) -> dll m h ns -> dll (INIT_LIST_HEAD m list) h ns.
Proof.
  intros Hs. apply (dll_frame _ _ _ _ [list]); [|sep_from Hs].
  unfold INIT_LIST_HEAD. footprint.
Qed.

Lemma dll_splice_init m list xs h ns :
  dll m list xs -> dll m h ns -> sep ((list :: xs) ++ h :: ns) ->
  dll (list_splice_init m list h) h (xs ++ ns) /\ dll (list_splice_init m list h) list [].
Proof.
  intros Hx Hd Hs. pose proof (dll_splice _ _ _ _ _ Hx Hd Hs) as H.
  unfold list_splice_init, list_splice in *. rewrite (list_empty_dll _ _ _ Hx) in *.
  case_bool_decide; simpl in *; subst; [done|]. split.
  - apply INIT_LIST_HEAD_frame; [sep_from Hs|done].
  - apply dll_init. destruct Hs as (_ & Hr & _). apply Hr. set_solver.
Qed.

Lemma dll_splice_tail_init m list xs h ns :
  dll m list xs -> dll m h ns -> sep ((list :: xs) ++ h :: ns) ->
  dll (list_splice_tail_init m list h) h (ns ++ xs) /\
  dll (list_splice_tail_init m list h) list [].
Proof.
  intros Hx Hd Hs. pose proof (dll_splice_tail _ _ _ _ _ Hx Hd Hs) as H.
  unfold list_splice_tail_init, list_splice_tail in *. rewrite (list_empty_dll _ _ _ Hx) in *.
  case_bool_decide; simpl in *; subst; [by rewrite app_nil_r|]. split.
  - apply INIT_LIST_HEAD_frame; [sep_from Hs|done].
  - apply dll_init. destruct Hs as (_ & Hr & _). apply Hr. set_solver.
Qed.

(** [__list_cut_position] after the node [e] that ends the front [f :: fs]. *)
Lemma chain_cut m list h f fs l1 e l2 n b :
  sep (list :: h :: (f :: fs) ++ l2) -> f :: fs = l1 ++ [e] -> l2 ++ [h] = n :: b ->
  list_next m h = f -> list_next m e = n -> chain m (f :: fs) -> chain m (n :: b) ->
  chain (__list_cut_position m list h e) (list :: (f :: fs) ++ [list]) /\
  chain (__list_cut_position m list h e) (h :: n :: b).
Proof.
  intros Hs Ef En Ehn Een C1 C2.
  pose proof Hs as (Hnd & _). rewrite !NoDup_cons, NoDup_app in Hnd.
  destruct Hnd as (Hlist & Hh & Hnf & Hdis & Hn2).
  assert (Hfin : f ∈ f :: fs) by (by left).
  assert (Hein : e ∈ f :: fs) by (rewrite Ef; set_solver).
  assert (Hnin : n ∈ h :: l2) by (assert (n ∈ l2 ++ [h]) by (rewrite En; set_solver); set_solver).
  assert (Hnd2 : NoDup (l2 ++ [h])).
  { rewrite NoDup_app. split_and!; [done|set_solver|apply NoDup_singleton]. }
  rewrite En in Hnd2. apply NoDup_cons in Hnd2 as [Hnb _].
  assert (Hb : forall z, z ∈ b -> z ∈ h :: l2).
  { intros z Hz. assert (z ∈ l2 ++ [h]) by (rewrite En; set_solver). set_solver. }
  assert (Hfs : forall z, z ∈ f :: fs -> z ∉ list :: h :: l2) by set_solver.
  assert (Hld : list ∉ h :: l2) by set_solver.
  pose proof (Hfs f Hfin) as Hfd. pose proof (Hfs e Hein) as Hed.
  assert (He1 : e ∉ l1) by (rewrite Ef in Hnf; apply NoDup_app in Hnf; set_solver).
  assert (Hl1 : forall z, z ∈ l1 -> z ∈ f :: fs) by (rewrite Ef; set_solver).
  apply NoDup_cons in Hnf as [Hffs _].
  assert (Hu : forall x, x ∈ list :: h :: (f :: fs) ++ l2 -> u64 x = x)
    by (intros; by apply (sep_u64 _ _ Hs)).
  assert (E1 : list_next (set_list_next m list f) list = f).
  { node_simpl Hs. node_read. apply Hu. in_list. }
  unfold __list_cut_position. rewrite Een, Ehn, E1. split.
  - rewrite Ef, <- app_assoc. change (chain ?m (list :: l1 ++ [e] ++ [list]))
      with (chain m ((list :: l1) ++ e :: list :: [])).
    apply chain_link. split_and!; [|node_simpl Hs..|done].
    + rewrite <- app_comm_cons, <- Ef. apply (chain_link _ [] list f fs). split_and!; [done|..].
      * node_simpl Hs. node_read. apply Hu. in_list.
      * node_simpl Hs. node_read. apply Hu. in_list.
      * revert C1. apply chain_ext.
        -- rewrite Ef, removelast_snoc. intros z Hz. apply Hl1 in Hz as Hz'.
           apply Hfs in Hz' as Hz2. node_simpl Hs. node_decide.
        -- simpl. intros z Hz. assert (Hz' : z ∈ f :: fs) by (by right).
           apply Hfs in Hz' as Hz2. node_simpl Hs. node_decide.
    + node_read. apply Hu. in_list.
    + node_read. apply Hu. in_list.
  - apply (chain_link _ [] h n b). split_and!; [done|..].
    + node_simpl Hs. node_read. apply Hu. in_list.
    + node_simpl Hs. node_read. apply Hu. in_list.
    + revert C2. apply chain_ext.
      * rewrite <- En, removelast_snoc. intros z Hz. node_simpl Hs. node_decide.
      * simpl. intros z Hz. apply Hb in Hz as Hz'. node_simpl Hs. node_decide.
Qed.

Lemma hd_last (h : Z) ns : hd h ns = List.last ns h -> (length ns <= 1)%nat \/ ~ NoDup ns.
Proof.
  destruct ns as [|x [|y ns]]; simpl; [lia..|]. intros E. right.
  assert (Hin : List.last (y :: ns) h ∈ y :: ns).
  { clear. revert y. induction ns as [|z ns IH]; intros y; simpl; [by left|].
    right. apply IH. }
  simpl in Hin. rewrite <- E in Hin. intros Hnd%NoDup_cons. tauto.
Qed.

Lemma list_is_singular_dll m h ns :
  dll m h ns -> list_is_singular m h = (length ns =? 1)%nat.
Proof.
  intros Hd. unfold list_is_singular. rewrite (list_empty_dll _ _ _ Hd).
  rewrite (dll_head_next _ _ _ Hd), (dll_head_prev _ _ _ Hd).
  pose proof (dll_sep _ _ _ Hd) as (Hnd & _). apply NoDup_cons in Hnd as [_ Hnd].
  destruct ns as [|x [|y ns]]; [done|simpl; by rewrite Z.eqb_refl|].
  simpl negb. simpl length. cbn [Nat.eqb andb]. apply Z.eqb_neq. intros E.
  destruct (hd_last h (x :: y :: ns) E) as [Hl|]; [simpl in Hl; lia|done].
Qed.

Lemma list_is_last_dll m h l1 e l2 :
  dll m h (l1 ++ e :: l2) -> list_is_last m e h = bool_decide (l2 = []).
Proof.
  intros Hd. unfold list_is_last. destruct (dll_node _ _ _ _ _ Hd) as [-> _].
  pose proof (dll_sep _ _ _ Hd) as (Hnd & _). apply NoDup_cons in Hnd as [Hh _].
  destruct l2 as [|y l2]; simpl; [by rewrite Z.eqb_refl|]. apply Z.eqb_neq. set_solver.
Qed.

(** Cutting after [e]: the front of the list moves to [list]. *)
Lemma dll_cut m list h l1 e l2 :
  dll m h (l1 ++ e :: l2) -> sep (list :: h :: l1 ++ e :: l2) ->
  dll (list_cut_position m list h e) list (l1 ++ [e]) /\
  dll (list_cut_position m list h e) h l2.
Proof.
  intros Hd Hs. pose proof (dll_node _ _ _ _ _ Hd) as [Een _].
  pose proof (dll_head_next _ _ _ Hd) as Ehn. pose proof Hd as [(Hnd & _) Hc].
  apply NoDup_cons in Hnd as [Hh _]. unfold list_cut_position.
  rewrite (list_empty_dll _ _ _ Hd), (list_is_singular_dll _ _ _ Hd), Ehn.
  rewrite bool_decide_false by (by destruct l1).
  destruct (_ && _) eqn:Hsing.
  { exfalso. destruct l1 as [|x l1]; simpl in Hsing.
    - rewrite Z.eqb_refl in Hsing. by destruct l2.
    - rewrite length_app in Hsing. simpl in Hsing. by destruct (length l1). }
  destruct (Z.eqb_spec e h) as [->|_]; [set_solver|].
  destruct (l1 ++ [e]) as [|f fs] eqn:Ef; [by destruct l1|].
  destruct (starts_with h l2) as (n & b & En & _).
  assert (n = hd h l2) as Enh by (destruct l2; naive_solver).
  assert (El : l1 ++ e :: l2 = (f :: fs) ++ l2) by (rewrite <- Ef, <- app_assoc; done).
  assert (C : chain m ((h :: l1) ++ e :: n :: b)).
  { rewrite <- En. revert Hc. by rewrite <- !app_assoc. }
  apply chain_link in C as (C1 & _ & C2). apply chain_tail in C1.
  change ((fix app l m := match l with [] => m | x :: t => x :: app t m end) l1 [e])
    with (l1 ++ [e]) in C1. rewrite Ef in C1.
  destruct (chain_cut m list h f fs l1 e l2 n b) as [D1 D2]; try done.
  - by rewrite <- El.
  - rewrite Ehn, El. done.
  - by rewrite Een, Enh.
  - split; split; [rewrite <- Ef; sep_from Hs|done|sep_from Hs|by rewrite En].
Qed.

(** ** Iteration *)
Lemma entries_from_chain m h offset ns fuel :
  chain m (ns ++ [h]) -> (h ∉ ns) -> (length ns <= fuel)%nat ->
  entries_from fuel m (hd h ns) h offset = Some (map (fun x => list_entry x offset) ns).
Proof.
  revert fuel. induction ns as [|x ns IH]; intros fuel Hc Hh Hf; simpl in *.
  - destruct fuel; simpl; by rewrite Z.eqb_refl.
  - destruct fuel as [|fuel]; [lia|]. simpl.
    destruct (Z.eqb_spec x h) as [->|_]; [set_solver|].
    assert (list_next m x = hd h ns) as -> by (destruct ns; simpl in *; tauto).
    rewrite (IH fuel); [done| |set_solver|lia]. by apply chain_tail in Hc.
Qed.

(** [list_for_each_entry] visits the containers of the nodes in order. *)
Lemma entries_dll m h ns offset fuel :
  dll m h ns -> (length ns <= fuel)%nat ->
  list_for_each_entry fuel m h offset = Some (map (fun x => list_entry x offset) ns).
Proof.
  intros Hd Hf. unfold list_for_each_entry. rewrite (dll_head_next _ _ _ Hd).
  destruct Hd as [(Hnd & _) Hc]. apply NoDup_cons in Hnd as [Hh _].
  apply entries_from_chain; [|done|done]. by apply chain_tail in Hc.
Qed.

(** A loop body that leaves the nodes of the list alone visits all of them,
    forwards or backwards. *)
Lemma for_each_fold body m h ns :
  dll m h ns ->
  (forall m0 x, x ∈ ns -> dll m0 h ns -> dll (body m0 x) h ns) ->
  forall l1 l2 m0 fuel, ns = l1 ++ l2 -> dll m0 h ns -> (length l2 <= fuel)%nat ->
    list_for_each_from fuel body m0 (hd h l2) h = Some (fold_left body l2 m0).
Proof.
  intros [(Hnd & _) _] Hb. apply NoDup_cons in Hnd as [Hh _].
  intros l1 l2. revert l1. induction l2 as [|x l2 IH]; intros l1 m0 fuel -> Hm Hf; simpl.
  - destruct fuel; simpl; by rewrite Z.eqb_refl.
  - destruct fuel as [|fuel]; simpl in Hf; [lia|]. simpl.
    destruct (Z.eqb_spec x h) as [->|_]; [set_solver|].
    assert (Hd : dll (body m0 x) h (l1 ++ x :: l2)) by (apply Hb; set_solver).
    destruct (dll_node _ _ _ _ _ Hd) as [-> _].
    apply (IH (l1 ++ [x])); [by rewrite <- app_assoc|done|lia].
Qed.

Lemma for_each_prev_fold body m h ns :
  dll m h ns ->
  (forall m0 x, x ∈ ns -> dll m0 h ns -> dll (body m0 x) h ns) ->
  forall l1 l2 m0 fuel, ns = rev l1 ++ l2 -> dll m0 h ns -> (length l1 <= fuel)%nat ->
    list_for_each_prev_from fuel body m0 (hd h l1) h = Some (fold_left body l1 m0).
Proof.
  intros [(Hnd & _) _] Hb. apply NoDup_cons in Hnd as [Hh _].
  intros l1. induction l1 as [|x l1 IH]; intros l2 m0 fuel -> Hm Hf; simpl.
  - destruct fuel; simpl; by rewrite Z.eqb_refl.
  - destruct fuel as [|fuel]; simpl in Hf; [lia|]. simpl rev in *. rewrite <- app_assoc in *.
    simpl in *. destruct (Z.eqb_spec x h) as [->|_]; [set_solver|].
    assert (Hd : dll (body m0 x) h (rev l1 ++ x :: l2)) by (apply Hb; set_solver).
    destruct (dll_node _ _ _ _ _ Hd) as [_ ->].
    assert (List.last (rev l1) h = hd h l1) as ->.
    { destruct l1; simpl; [done|]. apply last_last. }
    apply (IH (x :: l2)); [done|done|lia].
Qed.

(** [list_for_each_safe] with a body that unlinks the node it visits. *)
Lemma for_each_safe_del h ns : forall m fuel,
  dll m h ns -> (length ns <= fuel)%nat ->
  exists m', list_for_each_safe_from fuel list_del m (hd h ns) (list_next m (hd h ns)) h = Some m' /\
    dll m' h [] /\ same_outside (node_bytes (h :: ns)) m m'.
Proof.
  induction ns as [|x ns IH]; intros m fuel Hd Hf; simpl in *.
  - exists m. split_and!; [destruct fuel; simpl; by rewrite Z.eqb_refl|done|done].
  - destruct fuel as [|fuel]; [lia|]. simpl. pose proof Hd as [(Hnd & _) _].
    apply NoDup_cons in Hnd as [Hh _].
    destruct (Z.eqb_spec x h) as [->|_]; [set_solver|].
    destruct (dll_node m h [] x ns Hd) as [En _]. rewrite En.
    destruct (IH (list_del m x) fuel) as (m' & E & Hd' & Hs); [|lia|].
    + by apply (dll_del m h [] x ns).
    + exists m'. split; [exact E|]. split; [done|].
      eapply same_outside_trans.
      * eapply same_outside_mono; [|by apply (list_del_footprint m h [] x ns)]. done.
      * eapply same_outside_mono; [|exact Hs]. intros z. apply node_bytes_mono. set_solver.
Qed.

(** ** Decidability, for concrete lists *)
Definition sepb (l : list Z) : bool :=
  bool_decide (NoDup l) && forallb (fun x => (0 <=? x) && (x <? 2 ^ 64)) l &&
  forallb (fun x => forallb (fun y =>
    bool_decide (x = y) || bool_decide (apart x LIST_HEAD_SIZE y LIST_HEAD_SIZE)) l) l.

Fixpoint chainb (m : memory) (l : list Z) : bool :=
  match l with
  | x :: (y :: _) as l' => (list_next m x =? y) && (list_prev m y =? x) && chainb m l'
  | _ => true
  end.

Definition dllb (m : memory) (h : Z) (ns : list Z) : bool :=
  sepb (h :: ns) && chainb m (h :: ns ++ [h]).

Lemma sepb_sound l : sepb l = true -> sep l.
Proof.
  unfold sepb. rewrite !andb_true_iff, bool_decide_eq_true, !forallb_forall.
  intros [[Hnd Hr] Ha]. split; [done|split].
  - intros x Hx%list_elem_of_In. specialize (Hr x Hx). lia.
  - intros x y Hx%list_elem_of_In Hy%list_elem_of_In Hne. specialize (Ha x Hx).
    rewrite forallb_forall in Ha. specialize (Ha y Hy).
    rewrite orb_true_iff, !bool_decide_eq_true in Ha. by destruct Ha.
Qed.

Lemma chainb_sound m l : chainb m l = true -> chain m l.
Proof.
  induction l as [|x [|y l] IH]; [done..|]. cbn [chainb chain].
  rewrite !andb_true_iff, !Z.eqb_eq. tauto.
Qed.

Lemma dllb_sound m h ns : dllb m h ns = true -> dll m h ns.
Proof.
  unfold dllb. rewrite andb_true_iff. intros [H1%sepb_sound H2%chainb_sound]. by split.
Qed.

(** ** Properties *)

(** (C30) [list_add] puts the new node first and [list_add_tail] puts it last;
    neither changes a byte outside the nodes of the list and the new node. *)
Theorem list_add_correct m h ns new :
  dll m h ns -> sep (new :: h :: ns) ->
  dll (list_add m new h) h (new :: ns) /\
  dll (list_add_tail m new h) h (ns ++ [new]) /\
  same_outside (node_bytes (new :: h :: ns)) m (list_add m new h) /\
  same_outside (node_bytes (new :: h :: ns)) m (list_add_tail m new h).
Proof.
  intros Hd Hs. split_and!;
    auto using dll_add, dll_add_tail, list_add_footprint, list_add_tail_footprint.
Qed.

(** (C31) [list_del] removes the node wherever it is, leaves both its pointers
    null and the rest of the list intact; [list_del_init] leaves it an empty
    list of its own instead.  No byte outside the list's nodes changes. *)
Theorem list_del_correct m h l1 e l2 :
  dll m h (l1 ++ e :: l2) ->
  dll (list_del m e) h (l1 ++ l2) /\
  list_next (list_del m e) e = 0 /\ list_prev (list_del m e) e = 0 /\
  dll (list_del_init m e) h (l1 ++ l2) /\ list_empty (list_del_init m e) e = true /\
  same_outside (node_bytes (h :: l1 ++ e :: l2)) m (list_del m e).
Proof.
  intros Hd. destruct (dll_del _ _ _ _ _ Hd) as (H1 & H2 & H3).
  destruct (dll_del_init _ _ _ _ _ Hd) as [H4 H5]. split_and!; auto using list_del_footprint.
  by rewrite (list_empty_dll _ _ _ H5).
Qed.

(** [list_move] and [list_move_tail] take a node out of one list and make it
    the first, respectively the last, node of another, disjoint one. *)
Theorem list_move_correct m h1 l1 e l2 h2 ns :
  dll m h1 (l1 ++ e :: l2) -> dll m h2 ns -> sep (h1 :: (l1 ++ e :: l2) ++ h2 :: ns) ->
  (dll (list_move m e h2) h1 (l1 ++ l2) /\ dll (list_move m e h2) h2 (e :: ns)) /\
  (dll (list_move_tail m e h2) h1 (l1 ++ l2) /\ dll (list_move_tail m e h2) h2 (ns ++ [e])).
Proof. intros. split; [by apply dll_move|by apply dll_move_tail]. Qed.

(** Splicing [list] into the list at [h] prepends ([list_splice]) or appends
    ([list_splice_tail]) its nodes, also when either list is empty; the [_init]
    variants leave [list] empty, as a list that can be used again. *)
Theorem list_splice_correct m list xs h ns :
  dll m list xs -> dll m h ns -> sep ((list :: xs) ++ h :: ns) ->
  dll (list_splice m list h) h (xs ++ ns) /\
  dll (list_splice_tail m list h) h (ns ++ xs) /\
  (dll (list_splice_init m list h) h (xs ++ ns) /\ dll (list_splice_init m list h) list []) /\
  (dll (list_splice_tail_init m list h) h (ns ++ xs) /\
   dll (list_splice_tail_init m list h) list []).
Proof.
  intros. auto using dll_splice, dll_splice_tail, dll_splice_init, dll_splice_tail_init.
Qed.

(** [list_cut_position] splits a list after any of its nodes: the nodes up to
    and including the entry become the list [list], the others stay. *)
Theorem list_cut_position_correct m list h l1 e l2 :
  dll m h (l1 ++ e :: l2) -> sep (list :: h :: l1 ++ e :: l2) ->
  dll (list_cut_position m list h e) list (l1 ++ [e]) /\
  dll (list_cut_position m list h e) h l2.
Proof. intros. by apply dll_cut. Qed.

(** (C32) The iteration macros end after one step per node: [list_for_each] and
    [list_for_each_prev] run a body that keeps the list on its nodes in order
    and in reverse order, [list_for_each_entry] yields the containers, and a
    [list_for_each_safe] whose body deletes the current node empties the list. *)
Theorem list_iteration_correct m h ns offset fuel body :
  dll m h ns -> (length ns <= fuel)%nat ->
  (forall m0 x, x ∈ ns -> dll m0 h ns -> dll (body m0 x) h ns) ->
  list_for_each fuel body m h = Some (fold_left body ns m) /\
  list_for_each_prev fuel body m h = Some (fold_left body (rev ns) m) /\
  list_for_each_entry fuel m h offset = Some (map (fun x => list_entry x offset) ns) /\
  exists m', list_for_each_safe fuel list_del m h = Some m' /\ dll m' h [].
Proof.
  intros Hd Hf Hb. unfold list_for_each, list_for_each_prev, list_for_each_safe.
  split_and!.
  - rewrite (dll_head_next _ _ _ Hd). by apply (for_each_fold body m h ns Hd Hb []).
  - rewrite (dll_head_prev _ _ _ Hd).
    replace (List.last ns h) with (hd h (rev ns)).
    2:{ destruct ns using rev_ind; [done|]. by rewrite rev_unit, last_last. }
    apply (for_each_prev_fold body m h ns Hd Hb (rev ns) []); rewrite ?length_rev; [|done..].
    by rewrite rev_involutive, app_nil_r.
  - by apply entries_dll.
  - rewrite (dll_head_next _ _ _ Hd).
    destruct (for_each_safe_del h ns m fuel Hd Hf) as (m' & ? & ? & _). eauto.
Qed.

(** *** Witnesses: lists of nodes at [0x1000], [0x1020], ... *)
Definition demo_list : memory :=
  let m := INIT_LIST_HEAD (INIT_LIST_HEAD ∅ 0x1000) 0x2000 in
  let m := list_add_tail m 0x1020 0x1000 in
  let m := list_add_tail m 0x1040 0x1000 in
  let m := list_add m 0x1060 0x1000 in
  list_add m 0x2020 0x2000.

Lemma list_add_correct_witness :
  dll (list_add demo_list 0x3000 0x1000) 0x1000 [0x3000; 0x1060; 0x1020; 0x1040].
Proof.
  refine (proj1 (list_add_correct demo_list 0x1000 [0x1060; 0x1020; 0x1040] 0x3000 _ _)).
  - apply dllb_sound. vm_compute. reflexivity.
  - apply sepb_sound. vm_compute. reflexivity.
Defined.

Lemma list_del_correct_witness :
  dll (list_del demo_list 0x1020) 0x1000 [0x1060; 0x1040].
Proof.
  refine (proj1 (list_del_correct demo_list 0x1000 [0x1060] 0x1020 [0x1040] _)).
  apply dllb_sound. vm_compute. reflexivity.
Defined.

Lemma list_move_correct_witness :
  dll (list_move demo_list 0x1020 0x2000) 0x2000 [0x1020; 0x2020].
Proof.
  refine (proj2 (proj1 (list_move_correct demo_list 0x1000 [0x1060] 0x1020 [0x1040]
                          0x2000 [0x2020] _ _ _))).
  - apply dllb_sound. vm_compute. reflexivity.
  - apply dllb_sound. vm_compute. reflexivity.
  - apply sepb_sound. vm_compute. reflexivity.
Defined.

Lemma list_splice_correct_witness :
  dll (list_splice demo_list 0x2000 0x1000) 0x1000 [0x2020; 0x1060; 0x1020; 0x1040].
Proof.
  refine (proj1 (list_splice_correct demo_list 0x2000 [0x2020] 0x1000
                   [0x1060; 0x1020; 0x1040] _ _ _)).
  - apply dllb_sound. vm_compute. reflexivity.
  - apply dllb_sound. vm_compute. reflexivity.
  - apply sepb_sound. vm_compute. reflexivity.
Defined.

Lemma list_cut_position_correct_witness :
  dll (list_cut_position demo_list 0x3000 0x1000 0x1020) 0x3000 [0x1060; 0x1020] /\
  dll (list_cut_position demo_list 0x3000 0x1000 0x1020) 0x1000 [0x1040].
Proof.
  refine (list_cut_position_correct demo_list 0x3000 0x1000 [0x1060] 0x1020 [0x1040] _ _).
  - apply dllb_sound. vm_compute. reflexivity.
  - apply sepb_sound. vm_compute. reflexivity.
Defined.

Lemma list_iteration_correct_witness :
  list_for_each_entry 3 demo_list 0x1000 8 = Some [0x1058; 0x1018; 0x1038].
Proof.
  refine (proj1 (proj2 (proj2 (list_iteration_correct demo_list 0x1000
            [0x1060; 0x1020; 0x1040] 8 3 (fun m _ => m) _ _ _)))).
  - apply dllb_sound. vm_compute. reflexivity.
  - simpl. lia.
  - intros m0 x _ H. exact H.
Defined.
