(* ===== verification/Kernel.v ===== *)
(** * Kernel: the state of the machine and the execution monad

    [kstate] is what the C code can read and change: memory, the scalar C
    globals, the system registers, and the trace of effects a device or the
    hardware sees.  A C function is a computation [M A]; it ends with a result,
    halts the machine ([panic], [cpu_halt]), has undefined behaviour, or runs
    out of the fuel its loops are given.  Structures and arrays live in memory at
    the addresses of [Symbols]; behaviour of the hardware and of the assembly
    files is the class [Hardware]. *)
From Stdlib Require Import ZArith Lia.
From stdpp Require Import prelude gmap list strings.
From S2P Require Import Prelude Memory.
Open Scope Z_scope.

(** ** Names of the state *)

(** The scalar globals of the C files. *)
Inductive gvar :=
  (* kern/vm/pmap.c *)
  | ptregion_initialised | ptregion_phys_base | pagetables_region_cursor
  | kernel_tte | invalid_tte | kernel_ttep | invalid_ttep
  (* kern/vm/vm.c *)
  | memory_virt_base | memory_phys_base | memory_phys_size
  | kernel_phys_base | kernel_phys_size | kernel_virt_base
  (* kern/vm/vm_page.c *)
  | vm_page_region_upper_bound | vm_page_region_cursor | vm_page_region_size
  | vm_page_region | vm_page_idx
  (* kern/mm/zalloc.c, kern/mm/stack.c *)
  | num_zones_used | stack_zone
  (* kern/thread.c, kern/task.c *)
  | thread_zone | thread_id_max | kernel_task | task_pid | task_zone | current_task
  (* kern/processor.c, kern/cpu.c *)
  | processor_count | primary_processor | primary_cpu_id | processor_zone | cpu_count
  (* drivers/irq/irq-gicv3.c: the fields of gic_data *)
  | gic_version | gic_dist_base | gic_redist_base | gic_max_redist_idx
  | gic_initialised | gic_dist | gic_redist
  (* kern/machine.c: the fields of topology_info *)
  | topology_num_cpus | topology_num_clusters | topology_max_cpu_id
  | topology_max_cluster_id | topology_cpus | topology_boot_cpu
  | topology_clusters | topology_boot_cluster
  (* drivers/pl011/pl011.c, kern/trace/printk.c, kern/panic.c *)
  | pl011_base | pl011_baud | pl011_clock | console_initialised | panic_active
  (* kern/exception.c, kern/main.c *)
  | irq_count | boot_cpu_id | counter | thread_destroyed.
#[export] Instance gvar_eq_dec : EqDecision gvar.
Proof. solve_decision. Defined.

(** The system registers the C code reads or writes. *)
Inductive sysreg :=
  | mpidr_el1 | currentel | elr_el1 | esr_el1 | far_el1 | daif
  | tcr_el1 | ttbr0_el1 | ttbr1_el1
  | icc_sre_el1 | icc_pmr_el1 | icc_igrpen1_el1 | icc_sgi1r_el1
  | icc_iar1_el1 | icc_eoir1_el1
  | cntp_ctl_el0 | cntp_tval_el0.
#[export] Instance sysreg_eq_dec : EqDecision sysreg.
Proof. solve_decision. Defined.

(** The registers of the CPU that a context switch sets: the program counter, [x19]
    to [x28], the frame pointer, the link register and the stack pointer. *)
Record cpu_regs := mk_cpu_regs {
  r_pc : Z;
  r_x : list Z;
  r_fp : Z;
  r_lr : Z;
  r_sp : Z;
}.

(** Effects outside memory, in order (the last one first in the trace).  Device
    registers carry the width of the access in bytes; reads are events, because a
    device may answer the next one differently. *)
Inductive event :=
  | EvSysreg (r : sysreg) (v : Z)       (* msr *)
  | EvRead (n : nat) (addr : Z)         (* load from a device register *)
  | EvWrite (n : nat) (addr v : Z)      (* store to a device register *)
  | EvBarrier (b : string)              (* dsb, dmb, isb *)
  | EvPrint (fmt : string) (args : list Z) (* a call of kprintf or printk *)
  | EvPrintAt (fmt : Z) (args : list Z) (* the same, with a pointer as the format *)
  | EvFork (thread : Z) (r : cpu_regs). (* the CPU continues as this thread *)

(** Automatic variables the code reads before it writes them. *)
Inductive uninit :=
  | thread_set_name_len                 (* kern/thread.c: thread_set_name *)
  | console_emits_opts                  (* kern/trace/printk.c: __console_emits *)
  | handle_abort_fault_address.         (* kern/exception.c: handle_abort *)

Record kstate := mk_kstate {
  k_mem : memory;
  k_glob : gvar -> Z;
  k_sys : sysreg -> Z;
  k_trace : list event;
}.

(** Addresses the linker assigns to the globals whose address the code takes. *)
Class Symbols := {
  sym_pagetables_region_base : Z;
  sym_pagetables_region_end : Z;
  sym_kernel_pmap_ref : Z;
  sym_kernel_pmap : Z;
  sym_vm_page_region_lower_bound : Z;
  sym_page_list : Z;
  sym_zone_array : Z;
  sym_stacks : Z;
  sym_tasks : Z;
  sym_threads : Z;
  sym_active_processors : Z;
  sym_idle_processors : Z;
  sym_CpuDataEntries : Z;
  sym_BootCpuData : Z;
  sym_clusters : Z;
  sym_cpus : Z;
  sym_BootDeviceTree : Z;
  sym_LowResetVector : Z;
  sym_fork64_return : Z;
  sym_kernel_init : Z;
  sym_kernel_thread_main : Z;
  sym_test_thread_1 : Z;
  sym_intstack_top : Z;
  sym_excepstack_top : Z;
  (* the address of a string literal, and of an automatic variable (by function
     and name) whose address is taken *)
  sym_literal : string -> Z;
  sym_local : string -> string -> Z;
}.

(** The hardware and the assembly routines: the value of [PAR_EL1] after
    [at s1e1r], a device's answer to a read, what [mrs] returns, the register
    [msr] takes as its operand, the content of an uninitialised variable, and the
    frame pointer [x29].  The
    operand of [msr] is needed because the macro [sysreg_write] declares the value
    as an output ("=r") of the assembly statement, which does not make the
    compiler load it. *)
Class Hardware := {
  hw_par_el1 : kstate -> Z -> Z;
  hw_mmio_read : list event -> Z -> Z;
  hw_mrs : kstate -> sysreg -> Z;
  hw_msr_operand : kstate -> sysreg -> Z -> Z;
  hw_uninit : kstate -> uninit -> Z;
  hw_frame_pointer : kstate -> Z;
}.

(** ** The monad *)
Inductive outcome (A : Type) :=
  | Done (a : A) (s : kstate)
  | Halted (s : kstate)
  | Undefined
  | Diverged.
Arguments Done {A} a s.
Arguments Halted {A} s.
Arguments Undefined {A}.
Arguments Diverged {A}.

Definition M (A : Type) : Type := kstate -> outcome A.

Definition ret {A} (a : A) : M A := fun s => Done a s.
Definition bind {A B} (c : M A) (f : A -> M B) : M B := fun s =>
  match c s with
  | Done a s => f a s
  | Halted s => Halted s
  | Undefined => Undefined
  | Diverged => Diverged
  end.

Notation "'let!' x ':=' c 'in' d" := (bind c (fun x => d))
  (at level 200, x pattern, c at level 100, d at level 200, right associativity) : monix_scope.
Notation "c ';!' d" := (bind c (fun _ => d))
  (at level 199, d at level 200, right associativity) : monix_scope.
Open Scope monix_scope.

(** [panic] prints and halts; its output is the subject of Panic.v. *)
Definition halt {A} : M A := fun s => Halted s.
Definition undefined {A} : M A := fun _ => Undefined.
Definition diverge {A} : M A := fun _ => Diverged.

(** State access. *)
Definition get_mem : M memory := fun s => Done (k_mem s) s.
Definition set_mem (m : memory) (s : kstate) : kstate :=
  mk_kstate m (k_glob s) (k_sys s) (k_trace s).
Definition upd_mem (f : memory -> memory) : M unit :=
  fun s => Done tt (set_mem (f (k_mem s)) s).
Definition ld (n : nat) (a : Z) : M Z := fun s => Done (load n (k_mem s) a) s.
Definition st (n : nat) (a v : Z) : M unit := upd_mem (fun m => store n m a v).

Definition get (g : gvar) : M Z := fun s => Done (k_glob s g) s.
Definition set_glob (g : gvar) (v : Z) (s : kstate) : kstate :=
  mk_kstate (k_mem s) (fun h => if decide (h = g) then v else k_glob s h) (k_sys s) (k_trace s).
Definition put (g : gvar) (v : Z) : M unit := fun s => Done tt (set_glob g v s).

Definition emit_event (e : event) (s : kstate) : kstate :=
  mk_kstate (k_mem s) (k_glob s) (k_sys s) (e :: k_trace s).
Definition emit (e : event) : M unit := fun s => Done tt (emit_event e s).

Definition set_sys (r : sysreg) (v : Z) (s : kstate) : kstate :=
  mk_kstate (k_mem s) (k_glob s) (fun q => if decide (q = r) then v else k_sys s q) (k_trace s).

(** [msr]: the register takes the value, and the write is visible. *)
Definition msr (r : sysreg) (v : Z) : M unit :=
  fun s => Done tt (emit_event (EvSysreg r v) (set_sys r v s)).

(** Barriers order what is before them in the trace and what is after. *)
Definition barrier (b : string) : M unit := emit (EvBarrier b).

Section Access.
Context `{Hardware}.

(** The macros of arch/proc_reg.h. *)
Definition sysreg_read (r : sysreg) : M Z := fun s => Done (hw_mrs s r) s.
Definition sysreg_write (r : sysreg) (v : Z) : M unit := fun s =>
  msr r (hw_msr_operand s r v) s.

(** An access of [n] bytes to a device register. *)
Definition mmio_read (n : nat) (a : Z) : M Z := fun s =>
  Done (hw_mmio_read (k_trace s) a mod 2 ^ (8 * Z.of_nat n)) (emit_event (EvRead n a) s).
Definition mmio_write (n : nat) (a v : Z) : M unit :=
  emit (EvWrite n a (v mod 2 ^ (8 * Z.of_nat n))).

Definition uninitialised (x : uninit) : M Z := fun s => Done (u64 (hw_uninit s x)) s.
End Access.

(** [when b c] is an [if] without an [else]. *)
Definition when (b : bool) (c : M unit) : M unit := if b then c else ret tt.

(** Loops: [for_range lo n body] is [for (i = lo; i < lo + n; i++) body]. *)
Fixpoint for_range (lo : Z) (n : nat) (body : Z -> M unit) : M unit :=
  match n with
  | O => ret tt
  | S n => body lo ;! for_range (lo + 1) n body
  end.

(** [loop fuel cond body s] is [while (cond) body] on loop variables [s]. *)
Fixpoint loop {S : Type} (fuel : nat) (cond : S -> M bool) (body : S -> M S) (v : S) : M S :=
  let! c := cond v in
  if c then
    match fuel with
    | O => diverge
    | Datatypes.S fuel => let! v := body v in loop fuel cond body v
    end
  else ret v.

Section Poll.
Context `{Hardware}.

(** [while (mmio_read (a) & mask) {}] *)
Definition poll (fuel : nat) (a mask : Z) : M unit :=
  loop fuel (fun _ => let! v := mmio_read 4 a in ret (truthy (Z.land v mask))) (fun _ => ret tt) tt.
End Poll.

(** ** Laws *)
Create Rewrite HintDb run_rw.

Lemma bind_done {A B} (c : M A) (f : A -> M B) s a s' :
  c s = Done a s' -> bind c f s = f a s'.
Proof. intros H. unfold bind. by rewrite H. Qed.

(** A run of [c; f] followed by more. *)
Lemma bind2_done {A B C} (c : M A) (f : A -> M B) (g : B -> M C) s b s' :
  bind c f s = Done b s' -> bind c (fun a => bind (f a) g) s = g b s'.
Proof. unfold bind. destruct (c s); [|done..]. by intros ->. Qed.

Lemma bind_halted {A B} (c : M A) (f : A -> M B) s s' :
  c s = Halted s' -> bind c f s = Halted s'.
Proof. intros H. unfold bind. by rewrite H. Qed.

Lemma bind_inv {A B} (c : M A) (f : A -> M B) s b s' :
  bind c f s = Done b s' -> exists a s1, c s = Done a s1 /\ f a s1 = Done b s'.
Proof. unfold bind. destruct (c s); try done. eauto. Qed.

Lemma set_mem_id s : set_mem (k_mem s) s = s.
Proof. by destruct s. Qed.
Lemma set_mem_mem m s : k_mem (set_mem m s) = m.
Proof. done. Qed.
Lemma set_mem_set_mem m1 m2 s : set_mem m1 (set_mem m2 s) = set_mem m1 s.
Proof. done. Qed.
Lemma set_mem_glob m s g : k_glob (set_mem m s) g = k_glob s g.
Proof. done. Qed.
Lemma upd_mem_bind {A} f (c : M A) s : (upd_mem f ;! c) s = c (set_mem (f (k_mem s)) s).
Proof. done. Qed.
Lemma get_mem_bind {A} (c : memory -> M A) s : (let! m := get_mem in c m) s = c (k_mem s) s.
Proof. done. Qed.
Lemma set_glob_mem g v s : k_mem (set_glob g v s) = k_mem s.
Proof. done. Qed.
Lemma set_glob_eq g v s : k_glob (set_glob g v s) g = v.
Proof. simpl. by rewrite decide_True. Qed.
Lemma set_glob_ne g h v s : h <> g -> k_glob (set_glob g v s) h = k_glob s h.
Proof. intros. simpl. by rewrite decide_False. Qed.
#[export] Hint Rewrite set_mem_mem set_mem_set_mem set_mem_glob set_glob_mem set_glob_eq : run_rw.

(** One step of symbolic execution: the head command of the goal's left side is
    a primitive, or its run is known from a hypothesis or lemma given. *)
Ltac step_prim :=
  match goal with
  | |- context [bind (bind _ _) _ _] => unfold bind at 1
  end.
Ltac run := unfold bind, ret, get, put, ld, st, upd_mem, get_mem, emit, when; simpl.
Ltac run_with H := rewrite (bind_done _ _ _ _ _ H).

(** ** Frames

    [keeps_glob V c]: the globals outside [V] survive [c]; [keeps_mem R c]: so do
    the bytes outside [R]. *)
Definition keeps_glob (V : gvar -> Prop) {A} (c : M A) : Prop :=
  forall s a s', c s = Done a s' -> forall g, ~ V g -> k_glob s' g = k_glob s g.
Definition keeps_mem (R : Z -> Prop) {A} (c : M A) : Prop :=
  forall s a s', c s = Done a s' -> same_outside R (k_mem s) (k_mem s').

Lemma keeps_mem_ret R {A} (a : A) : keeps_mem R (ret a).
Proof. by intros s b s' [= -> ->]. Qed.
Lemma keeps_mem_bind R {A B} (c : M A) (f : A -> M B) :
  keeps_mem R c -> (forall a, keeps_mem R (f a)) -> keeps_mem R (bind c f).
Proof.
  intros Hc Hf s b s' (a & s1 & H1 & H2)%bind_inv.
  eapply same_outside_trans; [by eapply Hc|by eapply Hf].
Qed.
Lemma keeps_mem_st (R : Z -> Prop) n a v :
  (forall x, within a n x -> R x) -> keeps_mem R (st n a v).
Proof.
  intros HR s b s' [= <- <-]. simpl. by apply same_outside_store.
Qed.

(** The loop rule: an invariant that every iteration keeps while a measure
    decreases; the fuel bounds the measure. *)
Lemma loop_rule {S} (Inv : S -> kstate -> Prop) (measure : S -> kstate -> nat)
    fuel (cond : S -> M bool) (body : S -> M S) v s :
  Inv v s ->
  (forall v s, Inv v s -> exists b, cond v s = Done b s /\
     (b = true -> exists v' s', body v s = Done v' s' /\ Inv v' s' /\
        (measure v' s' < measure v s)%nat)) ->
  (measure v s <= fuel)%nat ->
  exists v' s', loop fuel cond body v s = Done v' s' /\ Inv v' s' /\
    cond v' s' = Done false s'.
Proof.
  intros HI Hstep. revert v s HI. induction fuel as [|fuel IH]; intros v s HI Hm;
    destruct (Hstep v s HI) as (b & Hc & Hb); cbn [loop]; unfold bind; rewrite Hc;
    destruct b.
  - destruct (Hb eq_refl) as (? & ? & _ & _ & ?). lia.
  - by exists v, s.
  - destruct (Hb eq_refl) as (v' & s' & -> & HI' & Hlt). apply IH; [done|lia].
  - by exists v, s.
Qed.

(** [use_loop Inv measure H]: the rule for the loop of the goal, as [H]. *)
Ltac use_loop Inv meas H :=
  match goal with
  | |- context [loop ?f ?c ?b ?v ?s] => pose proof (loop_rule Inv meas f c b v s) as H
  end.

(** A loop that stops at once, and one that never makes progress. *)
Lemma loop_stop {S} fuel (cond : S -> M bool) (body : S -> M S) v s :
  cond v s = Done false s -> loop fuel cond body v s = Done v s.
Proof. intros Hc. destruct fuel; cbn [loop]; unfold bind; by rewrite Hc. Qed.
Lemma loop_stuck {S} fuel (cond : S -> M bool) (body : S -> M S) v s :
  cond v s = Done true s -> body v s = Done v s -> loop fuel cond body v s = Diverged.
Proof.
  intros Hc Hb. induction fuel as [|fuel IH]; cbn [loop]; unfold bind; rewrite Hc; [done|].
  by rewrite Hb.
Qed.

(** The rule of counted loops. *)
Lemma for_range_rule (Inv : Z -> kstate -> Prop) lo n body s :
  Inv lo s ->
  (forall i s, lo <= i < lo + Z.of_nat n -> Inv i s ->
     exists s', body i s = Done tt s' /\ Inv (i + 1) s') ->
  exists s', for_range lo n body s = Done tt s' /\ Inv (lo + Z.of_nat n) s'.
Proof.
  revert lo s. induction n as [|n IH]; intros lo s HI Hstep.
  - exists s. split; [done|]. by rewrite Z.add_0_r.
  - destruct (Hstep lo s) as (s1 & E & HI1); [lia|done|].
    destruct (IH (lo + 1) s1 HI1) as (s' & E' & HI').
    { intros i t Hi. apply Hstep. lia. }
    exists s'. simpl. unfold bind. rewrite E, E'. split; [done|].
    by replace (lo + Z.of_nat (S n)) with (lo + 1 + Z.of_nat n) by lia.
Qed.

(** [use_for Inv H]: the rule for the counted loop of the goal, as [H]. *)
Ltac use_for Inv H :=
  match goal with
  | |- context [for_range ?lo ?n ?b ?s] => pose proof (for_range_rule Inv lo n b s) as H
  end.

(** ** Postconditions

    [wp c s Q]: started in [s], [c] ends with a result and a state that satisfy [Q].
    The rules compose the postconditions of the parts of a function. *)
Definition wp {A} (c : M A) (s : kstate) (Q : A -> kstate -> Prop) : Prop :=
  match c s with Done a s' => Q a s' | _ => False end.

Lemma wp_done {A} (c : M A) s (Q : A -> kstate -> Prop) a s' : c s = Done a s' -> Q a s' -> wp c s Q.
Proof. unfold wp. by intros ->. Qed.
Lemma wp_run {A} (c : M A) s Q : wp c s Q -> exists a s', c s = Done a s' /\ Q a s'.
Proof. unfold wp. destruct (c s); [eauto|done..]. Qed.
Lemma wp_bind {A B} (c : M A) (f : A -> M B) s Q :
  wp c s (fun a s' => wp (f a) s' Q) -> wp (bind c f) s Q.
Proof. unfold wp, bind. by destruct (c s). Qed.
Lemma wp_mono {A} (c : M A) s (Q Q' : A -> kstate -> Prop) :
  wp c s Q -> (forall a s', Q a s' -> Q' a s') -> wp c s Q'.
Proof. unfold wp. destruct (c s); auto. Qed.
Lemma wp_ret {A} (a : A) s (Q : A -> kstate -> Prop) : Q a s -> wp (ret a) s Q.
Proof. done. Qed.
Lemma wp_when (b : bool) (c : M unit) s Q :
  (b = true -> wp c s Q) -> (b = false -> Q tt s) -> wp (when b c) s Q.
Proof. intros H1 H2. destruct b; [by apply H1|by apply H2]. Qed.

(** [wp_step]: execute an access to memory or to a global at the head. *)
Ltac wp_step :=
  apply wp_bind; cbv beta delta [wp ld st upd_mem get put get_mem ret]; cbv beta iota;
  rewrite ?set_mem_mem.

(** [quiet R s s']: memory changed only in [R], globals and registers did not. *)
Definition quiet (R : Z -> Prop) (s s' : kstate) : Prop :=
  same_outside R (k_mem s) (k_mem s') /\ (forall g, k_glob s' g = k_glob s g) /\
  (forall r, k_sys s' r = k_sys s r).
Lemma quiet_refl R s : quiet R s s.
Proof. done. Qed.
Lemma quiet_trans R s1 s2 s3 : quiet R s1 s2 -> quiet R s2 s3 -> quiet R s1 s3.
Proof.
  intros (H1 & H2 & H3) (H4 & H5 & H6). split; [by eapply same_outside_trans|]. split; congruence.
Qed.
Lemma quiet_mono (R R' : Z -> Prop) s s' : (forall x, R x -> R' x) -> quiet R s s' -> quiet R' s s'.
Proof. intros HR (H1 & H2). split; [by eapply same_outside_mono|done]. Qed.
Lemma quiet_set_mem (R : Z -> Prop) m s : same_outside R (k_mem s) m -> quiet R s (set_mem m s).
Proof. done. Qed.
Lemma quiet_emit R e s : quiet R s (emit_event e s).
Proof. done. Qed.

(** ** Traces *)
Definition with_trace (tr : list event) (s : kstate) : kstate :=
  mk_kstate (k_mem s) (k_glob s) (k_sys s) tr.
Lemma with_trace_id s : with_trace (k_trace s) s = s.
Proof. by destruct s. Qed.

Definition add_trace (l : list event) (s : kstate) : kstate := with_trace (l ++ k_trace s) s.

Lemma add_trace_app l1 l2 s : add_trace l1 (add_trace l2 s) = add_trace (l1 ++ l2) s.
Proof. unfold add_trace. simpl. by rewrite app_assoc. Qed.
Lemma add_trace_nil s : add_trace [] s = s.
Proof. by destruct s. Qed.
Lemma add_trace_glob l s g : k_glob (add_trace l s) g = k_glob s g.
Proof. done. Qed.


Section Polling.
Context `{Hardware}.

(** What a register of 4 bytes answers after the events [tr]. *)
Definition answer (tr : list event) (a : Z) : Z := hw_mmio_read tr a mod 2 ^ 32.

(** The register at [a] has a bit of [mask] set after [j] more reads of it. *)
Definition busy (a mask : Z) (tr : list event) (j : nat) : Prop :=
  Z.land (answer (replicate j (EvRead 4 a) ++ tr) a) mask <> 0.

Lemma mmio_read_run a s : mmio_read 4 a s = Done (answer (k_trace s) a) (add_trace [EvRead 4 a] s).
Proof. done. Qed.

Lemma replicate_add {A} (e : A) j tr : replicate j e ++ e :: tr = replicate (S j) e ++ tr.
Proof. induction j as [|j IH]; [done|]. simpl. by rewrite IH. Qed.

Lemma poll_test a mask s :
  (let! v := mmio_read 4 a in ret (truthy (Z.land v mask))) s =
    Done (bool_decide (busy a mask (k_trace s) 0)) (add_trace [EvRead 4 a] s).
Proof.
  unfold bind. rewrite mmio_read_run. unfold ret, busy, truthy. f_equal. simpl.
  by destruct (Z.eqb_spec (Z.land (answer (k_trace s) a) mask) 0); case_bool_decide.
Qed.

Lemma busy_step a mask tr j : busy a mask (EvRead 4 a :: tr) j <-> busy a mask tr (S j).
Proof. unfold busy. by rewrite replicate_add. Qed.

(** Polling ends with the first answer that is not busy, and only then. *)
Lemma poll_run fuel a mask s k :
  (forall j, (j < k)%nat -> busy a mask (k_trace s) j) -> ~ busy a mask (k_trace s) k ->
  (k <= fuel)%nat ->
  poll fuel a mask s = Done tt (add_trace (replicate (S k) (EvRead 4 a)) s).
Proof.
  unfold poll. revert fuel s. induction k as [|k IH]; intros fuel s Hb Hk Hf.
  - destruct fuel; cbn [loop]; rewrite (bind_done _ _ _ _ _ (poll_test a mask s));
      by rewrite bool_decide_eq_false_2.
  - destruct fuel as [|fuel]; [lia|]. cbn [loop].
    rewrite (bind_done _ _ _ _ _ (poll_test a mask s)), bool_decide_eq_true_2 by (apply Hb; lia).
    unfold bind at 1, ret at 1. rewrite IH; [|..|lia].
    + unfold add_trace, with_trace. simpl k_trace. do 2 f_equal. apply (replicate_add _ (S k)).
    + intros j Hj. apply busy_step, Hb. lia.
    + rewrite <- busy_step in Hk. exact Hk.
Qed.

Lemma poll_diverges fuel a mask s :
  (forall j, (j <= fuel)%nat -> busy a mask (k_trace s) j) -> poll fuel a mask s = Diverged.
Proof.
  unfold poll. revert s. induction fuel as [|fuel IH]; intros s Hb; cbn [loop];
    rewrite (bind_done _ _ _ _ _ (poll_test a mask s)), bool_decide_eq_true_2 by (apply Hb; lia);
    [done|].
  unfold bind at 1, ret at 1. apply IH. intros j Hj. apply busy_step, Hb. lia.
Qed.
End Polling.

(** ** A concrete machine, for the witnesses

    The image at [0xfffffff000000000], physical memory at [0x40000000], an MMU
    that implements the linear map, CPU 0, registers that read as they were
    written. *)
Definition DEMO_VIRT : Z := 0xfffffff000000000.
Definition DEMO_PHYS : Z := 0x40000000.

(** Literals and automatic variables, at addresses of their own. *)
Fixpoint demo_index (x : string) (l : list string) (i : Z) : Z :=
  match l with [] => i | y :: l => if decide (x = y) then i else demo_index x l (i + 1) end.
Definition demo_literal (l : string) : Z :=
  DEMO_VIRT + 0x4000 + 0x40 * demo_index l ["/memory"; "reg"; "phandle"; "linux,phandle"; "/cpus"; "cpu-map"; "cpu"]%string 0.
Definition demo_local (_ x : string) : Z :=
  DEMO_VIRT + 0x116000 + 0x100 * demo_index x ["addr"; "size"; "mem_node"; "parent"; "node"; "iter";
    "subiter"; "subnode"; "cluster"; "cpu"; "cpu_node"; "entry"; "len"]%string 0.

Definition demo_symbols : Symbols := {|
  sym_pagetables_region_base := DEMO_VIRT + 0x200000;
  sym_pagetables_region_end := DEMO_VIRT + 0x210000;
  sym_kernel_pmap_ref := DEMO_VIRT + 0x100000;
  sym_kernel_pmap := DEMO_VIRT + 0x100100;
  sym_vm_page_region_lower_bound := DEMO_VIRT + 0x300000;
  sym_page_list := DEMO_VIRT + 0x110000;
  sym_zone_array := DEMO_VIRT + 0x111000;
  sym_stacks := DEMO_VIRT + 0x112000;
  sym_tasks := DEMO_VIRT + 0x112020;
  sym_threads := DEMO_VIRT + 0x112040;
  sym_active_processors := DEMO_VIRT + 0x112060;
  sym_idle_processors := DEMO_VIRT + 0x112080;
  sym_CpuDataEntries := DEMO_VIRT + 0x113000;
  sym_BootCpuData := DEMO_VIRT + 0x114000;
  sym_clusters := DEMO_VIRT + 0x115000;
  sym_cpus := DEMO_VIRT + 0x115400;
  sym_BootDeviceTree := DEMO_VIRT + 0x115800;
  sym_LowResetVector := DEMO_VIRT + 0x1000;
  sym_fork64_return := DEMO_VIRT + 0x2000;
  sym_kernel_init := DEMO_VIRT + 0x3000;
  sym_kernel_thread_main := DEMO_VIRT + 0x3100;
  sym_test_thread_1 := DEMO_VIRT + 0x3200;
  sym_intstack_top := DEMO_VIRT + 0x119000;
  sym_excepstack_top := DEMO_VIRT + 0x11a000;
  sym_literal := demo_literal;
  sym_local := demo_local;
|}.

Definition demo_hardware : Hardware := {|
  hw_par_el1 := fun _ va => Z.ldiff (u64 (va - DEMO_VIRT + DEMO_PHYS)) 0xfff;
  hw_mmio_read := fun _ _ => 0;
  hw_mrs := fun s r => match r with mpidr_el1 => 0x80000000 | _ => k_sys s r end;
  hw_msr_operand := fun _ _ v => v;
  hw_uninit := fun _ _ => 0;
  hw_frame_pointer := fun _ => 0;
|}.

Definition demo_globals (g : gvar) : Z :=
  match g with
  | memory_virt_base => DEMO_VIRT
  | memory_phys_base => DEMO_PHYS
  | memory_phys_size => 0x80000
  | kernel_phys_base => DEMO_PHYS
  | kernel_virt_base => DEMO_VIRT
  | kernel_phys_size => 0x4000
  | pagetables_region_cursor => DEMO_VIRT + 0x201000
  | kernel_tte => DEMO_VIRT + 0x200000
  | vm_page_region => DEMO_VIRT + 0x300000
  | _ => 0
  end.

Definition demo_state : kstate := mk_kstate ∅ demo_globals (fun _ => 0) [].
