(* ===== verification/TString.v ===== *)
(** * TString: the string and memory routines of libkern/tinylibc

    One function per C file of libkern/tinylibc/string, with the character
    classes of [_ctype.h] and the byte swaps of [_byteswap.h].  Routines that
    write take and return memory; a routine that scans for a terminator takes
    fuel and returns [None] when the terminator is not among the first [fuel]
    bytes.  Plain [char] is unsigned on AArch64. *)
From Stdlib Require Import ZArith Lia.
From stdpp Require Import prelude gmap list.
From S2P Require Import Prelude Memory.
Open Scope Z_scope.

(** ** Copying and filling *)

(** [while (count >= sizeof (long)) *dl++ = *sl++], then [while (count--) *d8++ = *s8++]. *)
Fixpoint copy_bytes (m : memory) (d s : Z) (count : nat) : memory :=
  match count with
  | O => m
  | S count => copy_bytes (st8 m d (ld8 m s)) (d + 1) (s + 1) count
  end.
Fixpoint copy_words (m : memory) (d s : Z) (count : nat) : memory :=
  match count with
  | S (S (S (S (S (S (S (S count))))))) =>
      copy_words (st64 m d (ld64 m s)) (d + 8) (s + 8) count
  | _ => copy_bytes m d s count
  end.

Definition memcpy (m : memory) (dest src : Z) (count : nat) : memory :=
  if src =? dest then m
  else if Z.land (Z.lor dest src) 7 =? 0 then copy_words m dest src count
  else copy_bytes m dest src count.

(** [while (count--) *--tmp = *--s]. *)
Fixpoint copy_down (m : memory) (tmp s : Z) (count : nat) : memory :=
  match count with
  | O => m
  | S count => copy_down (st8 m (tmp - 1) (ld8 m (s - 1))) (tmp - 1) (s - 1) count
  end.

Definition memmove (m : memory) (dest src : Z) (count : nat) : memory :=
  if (dest <=? src) || (src + Z.of_nat count <=? dest) then memcpy m dest src count
  else copy_down m (dest + Z.of_nat count) (src + Z.of_nat count) count.

Fixpoint fill_bytes (m : memory) (s c : Z) (count : nat) : memory :=
  match count with
  | O => m
  | S count => fill_bytes (st8 m s c) (s + 1) c count
  end.
Fixpoint fill_words (m : memory) (s cl c : Z) (count : nat) : memory :=
  match count with
  | S (S (S (S (S (S (S (S count))))))) => fill_words (st64 m s cl) (s + 8) cl c count
  | _ => fill_bytes m s c count
  end.

(** The word the loop [cl <<= 0; cl |= c & 0xff] builds. *)
Definition memset_word (c : Z) : Z :=
  Nat.iter 8 (fun cl => Z.lor (Z.shiftl cl 0) (Z.land c 0xff)) 0.

Definition memset (m : memory) (s c : Z) (count : nat) : memory :=
  if Z.land s 7 =? 0 then fill_words m s (memset_word c) c count
  else fill_bytes m s c count.

(** ** Comparing and searching *)
Fixpoint memcmp (m : memory) (cs ct : Z) (count : nat) : Z :=
  match count with
  | O => 0
  | S count => let res := ld8 m cs - ld8 m ct in
               if truthy res then res else memcmp m (cs + 1) (ct + 1) count
  end.

Fixpoint memchr (m : memory) (s c : Z) (n : nat) : Z :=
  match n with
  | O => 0
  | S n => if u8 c =? ld8 m s then s else memchr m (s + 1) c n
  end.

Fixpoint strlen_from (fuel : nat) (m : memory) (str s : Z) : option Z :=
  if ld8 m s =? 0 then Some (s - str)
  else match fuel with
       | O => None
       | S fuel => strlen_from fuel m str (s + 1)
       end.
Definition strlen (fuel : nat) (m : memory) (str : Z) : option Z := strlen_from fuel m str str.

(** The loop's body is the [return] (its [for] has no [;]): the function returns
    [0] if the body runs at all and otherwise ends without a value ([None]). *)
Definition strnlen (m : memory) (s : Z) (count : Z) : option Z :=
  if truthy count && truthy (ld8 m s) then Some (s - s) else None.

Fixpoint strcmp (fuel : nat) (m : memory) (cs ct : Z) : option Z :=
  match fuel with
  | O => None
  | S fuel =>
      let a := ld8 m cs in let b := ld8 m ct in
      let ret := a - b in
      if truthy ret || (b =? 0) then Some ret
      else strcmp fuel m (cs + 1) (ct + 1)
  end.

Fixpoint strncmp (m : memory) (s1 s2 : Z) (n : nat) : Z :=
  match n with
  | O => 0
  | S n => if negb (ld8 m s1 =? ld8 m s2) then ld8 m s1 - ld8 m s2
           else if ld8 m s1 =? 0 then 0
           else strncmp m (s1 + 1) (s2 + 1) n
  end.

Fixpoint strchr (fuel : nat) (m : memory) (s c : Z) : option Z :=
  if negb (ld8 m s =? u8 c) then
    if ld8 m s =? 0 then Some 0
    else match fuel with
         | O => None
         | S fuel => strchr fuel m (s + 1) c
         end
  else Some s.

(** The backward scan: test the character at [p], step down, stop below [s]. *)
Fixpoint strrchr_down (fuel : nat) (m : memory) (s c p : Z) : option Z :=
  match fuel with
  | O => None
  | S fuel => if ld8 m p =? u8 c then Some p
              else if s <=? p - 1 then strrchr_down fuel m s c (p - 1) else Some 0
  end.
Definition strrchr (fuel : nat) (m : memory) (s c : Z) : option Z :=
  len ← strlen fuel m s;
  strrchr_down (S fuel) m s c (s + len).

Definition strlcpy (fuel : nat) (m : memory) (dest src size : Z) : option (memory * Z) :=
  if truthy size then
    srclen ← strlen fuel m src;
    let len := if size <=? srclen then size - 1 else srclen in
    let m := memcpy m dest src (Z.to_nat len) in
    Some (st8 m (dest + len) 0, len)
  else Some (m, 0).

(** ** Character classes *)
Definition c_U := 0x01.
Definition c_L := 0x02.
Definition c_D := 0x04.
Definition c_C := 0x08.
Definition c_P := 0x10.
Definition c_S := 0x20.
Definition c_X := 0x40.
Definition c_SP := 0x80.

(** The table of [_ctype.h], row by row. *)
Definition _ctype : list Z :=
  replicate 8 c_C
  ++ [c_C] ++ replicate 5 (Z.lor c_C c_S) ++ replicate 2 c_C
  ++ replicate 16 c_C
  ++ [Z.lor c_S c_SP] ++ replicate 15 c_P
  ++ replicate 10 c_D ++ replicate 6 c_P
  ++ [c_P] ++ replicate 6 (Z.lor c_U c_X) ++ replicate 20 c_U ++ replicate 5 c_P
  ++ [c_P] ++ replicate 6 (Z.lor c_L c_X) ++ replicate 20 c_L ++ replicate 4 c_P ++ [c_C]
  ++ replicate 32 0
  ++ [Z.lor c_S c_SP] ++ replicate 31 c_P
  ++ replicate 23 c_U ++ [c_P] ++ replicate 7 c_U ++ [c_L]
  ++ replicate 23 c_L ++ [c_P] ++ replicate 8 c_L.

Definition ismask (x : Z) : Z := nth (Z.to_nat (u8 x)) _ctype 0.
Definition isalpha (c : Z) : bool := truthy (Z.land (ismask c) (Z.lor c_U c_L)).
Definition isdigit (c : Z) : bool := truthy (Z.land (ismask c) c_D).
Definition isspace (c : Z) : bool := truthy (Z.land (ismask c) c_S).
Definition isupper (c : Z) : bool := truthy (Z.land (ismask c) c_U).

(** ** Numbers *)
Definition ULONG_MAX : Z := 2 ^ 64 - 1.

(** The digit value of a character, or the end of the number. *)
Definition strtoul_digit (c : Z) : option Z :=
  if isdigit c then Some (c - 48)
  else if isalpha c then Some (c - (if isupper c then 65 - 10 else 97 - 10))
  else None.

(** The loop of [strtoul]: [c] is the current character, [s] the next one; the
    result is the final [acc], [any] and [s]. *)
Fixpoint strtoul_loop (fuel : nat) (m : memory) (base cutoff cutlim : Z)
    (c s acc any : Z) : option (Z * Z * Z) :=
  match strtoul_digit c with
  | None => Some (acc, any, s)
  | Some c =>
      if base <=? c then Some (acc, any, s)
      else
        let '(acc, any) :=
          if (any <? 0) || (cutoff <? acc) || ((acc =? cutoff) && (cutlim <? c))
          then (acc, -1) else (u64 (u64 (acc * base) + c), 1) in
        match fuel with
        | O => None
        | S fuel => strtoul_loop fuel m base cutoff cutlim (ld8 m s) (s + 1) acc any
        end
  end.

(** [do c = *s++; while (isspace (c))]: the character and the next position. *)
Fixpoint skip_space (fuel : nat) (m : memory) (s : Z) : option (Z * Z) :=
  let c := ld8 m s in
  if isspace c then
    match fuel with O => None | S fuel => skip_space fuel m (s + 1) end
  else Some (c, s + 1).

(** [strtoul]: the value, and the position stored through [endptr]. *)
Definition strtoul (fuel : nat) (m : memory) (nptr base : Z) : option (Z * Z) :=
  '(c, s) ← skip_space fuel m nptr;
  let neg := c =? 45 in
  let '(c, s) := if (c =? 45) || (c =? 43) then (ld8 m s, s + 1) else (c, s) in
  let '(c, s, base) :=
    if ((base =? 0) || (base =? 16)) && (c =? 48) && ((ld8 m s =? 120) || (ld8 m s =? 88))
    then (ld8 m (s + 1), s + 2, 16) else (c, s, base) in
  let base := if base =? 0 then (if c =? 48 then 8 else 10) else base in
  '(acc, any, s) ← strtoul_loop fuel m base (ULONG_MAX / base) (ULONG_MAX mod base) c s 0 0;
  let acc := if any <? 0 then ULONG_MAX else if neg then u64 (- acc) else acc in
  Some (acc, if truthy any then s - 1 else nptr).

(** ** Byte order *)
Definition bswap_16 (x : Z) : Z :=
  u16 (Z.lor (Z.land (Z.shiftr x 8) 0xff) (Z.shiftl (Z.land x 0xff) 8)).
Definition bswap_32 (x : Z) : Z :=
  u32 (Z.lor (Z.lor (Z.lor (Z.shiftr (Z.land x 0xff000000) 24)
                          (Z.shiftr (Z.land x 0x00ff0000) 8))
                   (Z.shiftl (Z.land x 0x0000ff00) 8))
            (Z.shiftl (Z.land x 0x000000ff) 24)).
Definition bswap_64_internal (x : Z) : Z :=
  fold_left Z.lor
    [Z.shiftr (Z.land x 0x00ff000000000000) 40; Z.shiftr (Z.land x 0x0000ff0000000000) 24;
     Z.shiftr (Z.land x 0x000000ff00000000) 8; Z.shiftl (Z.land x 0x00000000ff000000) 8;
     Z.shiftl (Z.land x 0x0000000000ff0000) 24; Z.shiftl (Z.land x 0x000000000000ff00) 40;
     Z.shiftl (Z.land x 0x00000000000000ff) 56]
    (Z.shiftr (Z.land x 0xff00000000000000) 56).
(** The parameter and the result are [__uint32_t]. *)
Definition bswap_64 (x : Z) : Z := u32 (bswap_64_internal (u32 x)).

(** ** Copying *)

(** [m'] is [m] with the [n] bytes at [s] copied to [d]. *)
Definition copied (m : memory) (d s : Z) (n : nat) (m' : memory) : Prop :=
  forall x, rd m' x = if decide (within d n x) then rd m (x - d + s) else rd m x.

(** Copies of adjacent parts compose when the second source is intact. *)
Lemma copied_app m d s a b m1 m2 :
  copied m d s a m1 -> copied m1 (d + Z.of_nat a) (s + Z.of_nat a) b m2 ->
  d <= s \/ s + Z.of_nat (a + b) <= d -> copied m d s (a + b) m2.
Proof.
  unfold copied, within. intros H1 H2 Hd x. rewrite H2, !H1.
  repeat case_decide; try lia; f_equal; lia.
Qed.

Lemma copy_bytes_copied m d s n :
  d <= s \/ s + Z.of_nat n <= d -> copied m d s n (copy_bytes m d s n).
Proof.
  revert m d s. induction n as [|n IH]; intros m d s Hd.
  - intros x. unfold within. case_decide; [lia|done].
  - apply (copied_app _ _ _ 1 n (st8 m d (ld8 m s))); [|apply IH; lia|lia].
    intros x. apply (rd_store_load 1).
Qed.

Lemma copy_words_copied m d s n :
  d <= s \/ s + Z.of_nat n <= d -> copied m d s n (copy_words m d s n).
Proof.
  revert m d s. induction n as [n IH] using lt_wf_ind. intros m d s Hd.
  destruct (decide (8 <= n)%nat) as [Hn|Hn].
  - replace n with (8 + (n - 8))%nat by lia.
    change (copy_words m d s (8 + (n - 8)))
      with (copy_words (st64 m d (ld64 m s)) (d + 8) (s + 8) (n - 8)).
    apply (copied_app _ _ _ 8 (n - 8) (st64 m d (ld64 m s))); [|apply IH; lia|lia].
    intros x. apply (rd_store_load 8).
  - do 8 (destruct n as [|n]; [by apply copy_bytes_copied|]). lia.
Qed.

Lemma memcpy_copied m d s n :
  d <= s \/ s + Z.of_nat n <= d -> copied m d s n (memcpy m d s n).
Proof.
  intros Hd. unfold memcpy. destruct (Z.eqb_spec s d) as [->|_].
  - intros x. case_decide; [f_equal; lia|done].
  - destruct (_ =? 0); [by apply copy_words_copied|by apply copy_bytes_copied].
Qed.

Lemma copy_down_copied m d s n :
  s <= d -> copied m d s n (copy_down m (d + Z.of_nat n) (s + Z.of_nat n) n).
Proof.
  intros Hd. revert m. induction n as [|n IH]; intros m.
  - intros x. unfold within. case_decide; [lia|done].
  - cbn [copy_down]. intros x.
    replace (d + Z.of_nat (S n) - 1) with (d + Z.of_nat n) by lia.
    replace (s + Z.of_nat (S n) - 1) with (s + Z.of_nat n) by lia.
    rewrite IH. unfold within.
    rewrite !(rd_store_load 1). unfold within.
    repeat case_decide; try lia; f_equal; lia.
Qed.

Lemma memmove_copied m d s n : copied m d s n (memmove m d s n).
Proof.
  unfold memmove. destruct (_ || _) eqn:E; [apply memcpy_copied; lia|]. apply copy_down_copied. lia.
Qed.

Lemma copied_same_outside m d s n m' : copied m d s n m' -> same_outside (within d n) m m'.
Proof. intros H x Hx. rewrite H. by rewrite decide_False. Qed.

Lemma copied_bytes_at m d s n m' : copied m d s n m' -> bytes_at n m' d = bytes_at n m s.
Proof.
  intros H. apply list_eq. intros i.
  destruct (decide (i < n)%nat).
  - rewrite !lookup_bytes_at by done. f_equal. rewrite H, decide_True by (unfold within; lia).
    f_equal. lia.
  - rewrite !lookup_ge_None_2; [done|rewrite length_bytes_at; lia..].
Qed.

(** ** Filling *)

Lemma memset_word_low c : memset_word c = u8 c.
Proof.
  unfold memset_word. simpl Nat.iter. rewrite !Z.shiftl_0_r, Z.lor_0_l, !Z.lor_diag.
  change 0xff with (Z.ones 8). by rewrite Z.land_ones.
Qed.

Lemma rd_fill_bytes m s c n x :
  rd (fill_bytes m s c n) x = if decide (within s n x) then u8 c else rd m x.
Proof.
  revert m s. induction n as [|n IH]; intros m s; cbn [fill_bytes].
  - case_decide; [unfold within in *; lia|done].
  - rewrite IH, rd_st8. unfold within. repeat case_decide; try lia; done.
Qed.

Lemma rd_fill_words_in m s c n x :
  within s n x ->
  rd (fill_words m s (u8 c) c n) x =
    if decide (x - s < 8 * (Z.of_nat n / 8)) then
      if decide ((x - s) mod 8 = 0) then u8 c else 0
    else u8 c.
Proof.
  revert m s. induction n as [n IH] using lt_wf_ind. intros m s Hx.
  destruct (decide (8 <= n)%nat) as [Hn|Hn].
  - replace n with (8 + (n - 8))%nat at 1 by lia.
    change (fill_words m s (u8 c) c (8 + (n - 8)))
      with (fill_words (st64 m s (u8 c)) (s + 8) (u8 c) c (n - 8)).
    unfold within in *. destruct (decide (x < s + 8)) as [Hlt|Hge].
    + assert (E : forall k m0, rd (fill_words m0 (s + 8) (u8 c) c k) x = rd m0 x).
      { clear -Hlt. intros k. revert s Hlt. induction k as [k IHk] using lt_wf_ind.
        intros s Hlt m0. destruct (decide (8 <= k)%nat).
        - replace k with (8 + (k - 8))%nat by lia.
          change (fill_words m0 (s + 8) (u8 c) c (8 + (k - 8)))
            with (fill_words (st64 m0 (s + 8) (u8 c)) (s + 8 + 8) (u8 c) c (k - 8)).
          rewrite IHk by lia. apply rd_store_out. unfold within. lia.
        - do 8 (destruct k as [|k];
            [simpl; rewrite ?rd_fill_bytes; rewrite ?rd_wr;
             repeat (rewrite decide_False by (unfold within; lia)); done|]). lia. }
      rewrite E. assert (exists i, (i < 8)%nat /\ x = s + Z.of_nat i) as (i & Hi & ->).
      { exists (Z.to_nat (x - s)). lia. }
      rewrite rd_store_in by lia. rewrite decide_True by (Z.to_euclidean_division_equations; lia).
      replace (s + Z.of_nat i - s) with (Z.of_nat i) by lia.
      pose proof (u8_range c). destruct i as [|i].
      * rewrite decide_True by done. simpl. rewrite Z.div_1_r. by apply u8_id.
      * rewrite decide_False by (rewrite Z.mod_small; lia).
        rewrite Z.div_small; [done|]. split; [lia|].
        apply Z.lt_le_trans with (256 ^ 1); [lia|]. apply Z.pow_le_mono_r; lia.
    + rewrite IH by (unfold within; lia).
      replace (Z.of_nat n) with (Z.of_nat (n - 8) + 1 * 8) by lia. rewrite Z.div_add by lia.
      replace (x - s) with (x - (s + 8) + 1 * 8) by lia. rewrite Z_mod_plus_full.
      repeat case_decide; try lia; done.
  - rewrite (Z.div_small (Z.of_nat n)) by lia. unfold within in Hx.
    rewrite decide_False by lia.
    assert (fill_words m s (u8 c) c n = fill_bytes m s c n) as ->
      by (do 8 (destruct n as [|n]; [done|]); lia).
    rewrite rd_fill_bytes, decide_True; [done|unfold within; lia].
Qed.

Lemma rd_fill_words_out m s cl c n x :
  ~ within s n x -> rd (fill_words m s cl c n) x = rd m x.
Proof.
  revert m s. induction n as [n IH] using lt_wf_ind. intros m s Hx.
  destruct (decide (8 <= n)%nat) as [Hn|Hn].
  - replace n with (8 + (n - 8))%nat by lia.
    change (fill_words m s cl c (8 + (n - 8)))
      with (fill_words (st64 m s cl) (s + 8) cl c (n - 8)).
    unfold within in *. rewrite IH by lia. apply rd_store_out. unfold within. lia.
  - assert (fill_words m s cl c n = fill_bytes m s c n) as ->
      by (do 8 (destruct n as [|n]; [done|]); lia).
    by rewrite rd_fill_bytes, decide_False.
Qed.

Lemma memset_same_outside m s c n : same_outside (within s n) m (memset m s c n).
Proof.
  intros x Hx. unfold memset. destruct (_ =? 0); symmetry.
  - by apply rd_fill_words_out.
  - by rewrite rd_fill_bytes, decide_False.
Qed.

(** Every use in the kernel fills with zero; that is correct. *)
Lemma rd_memset_zero m s n x :
  rd (memset m s 0 n) x = if decide (within s n x) then 0 else rd m x.
Proof.
  case_decide as Hx; [|symmetry; by apply memset_same_outside].
  unfold memset. destruct (_ =? 0).
  - rewrite memset_word_low, rd_fill_words_in by done. by repeat case_decide.
  - by rewrite rd_fill_bytes, decide_True.
Qed.

Lemma load_memset_zero m s n k a :
  s <= a -> a + Z.of_nat k <= s + Z.of_nat n -> load k (memset m s 0 n) a = 0.
Proof.
  intros H1 H2. apply load_zero. intros x Hx. unfold within in Hx.
  rewrite rd_memset_zero, decide_True; [done|unfold within; lia].
Qed.

(** ** Strings *)

(** [cstr m a l]: the string [l] with its terminator is at [a]. *)
Definition cstr (m : memory) (a : Z) (l : list Z) : Prop :=
  block m a (l ++ [0]) /\ Forall (fun c => c <> 0) l.

Lemma cstr_cons m a c l : cstr m a (c :: l) <-> rd m a = c /\ c <> 0 /\ cstr m (a + 1) l.
Proof.
  unfold cstr, block. rewrite Forall_cons. split.
  - intros [H [? ?]]. split_and!; try done.
    + rewrite <- (H O c eq_refl). f_equal. lia.
    + intros i v Hi. rewrite <- (H (S i) v Hi). f_equal. lia.
  - intros (H1 & ? & H2 & ?). split_and!; try done. intros [|i] v Hi; simpl in Hi.
    + injection Hi as <-. rewrite <- H1. f_equal. lia.
    + rewrite <- (H2 i v Hi). f_equal. lia.
Qed.
Lemma cstr_nil m a : cstr m a [] <-> rd m a = 0.
Proof.
  unfold cstr, block. split.
  - intros [H _]. rewrite <- (H O 0 eq_refl). f_equal. lia.
  - intros H. split; [|constructor]. intros [|i] v Hi; [|by destruct i].
    injection Hi as <-. rewrite <- H. f_equal. lia.
Qed.
Lemma ld8_rd m a : ld8 m a = rd m a.
Proof. change (rd m a + 256 * 0 = rd m a). lia. Qed.

Lemma strlen_cstr fuel m a l :
  cstr m a l -> (length l <= fuel)%nat -> strlen fuel m a = Some (Z.of_nat (length l)).
Proof.
  intros Hs Hf. unfold strlen.
  assert (H : forall b fuel, cstr m b l -> (length l <= fuel)%nat ->
    strlen_from fuel m a b = Some (b + Z.of_nat (length l) - a)).
  { clear. induction l as [|c l IH]; intros b fuel Hs Hf.
    - rewrite cstr_nil in Hs. destruct fuel; cbn [strlen_from]; rewrite ld8_rd, Hs; simpl;
        f_equal; lia.
    - rewrite cstr_cons in Hs. destruct Hs as (H1 & H2 & H3). destruct fuel; simpl in Hf; [lia|].
      cbn [strlen_from]. rewrite ld8_rd, H1. destruct (Z.eqb_spec c 0); [done|].
      rewrite IH by (done || lia). f_equal. simpl length. lia. }
  rewrite H by done. f_equal. lia.
Qed.

Lemma cstr_bytes m a l : cstr m a l -> bytes_at (length l) m a = l.
Proof.
  revert a. induction l as [|c l IH]; intros a H; [done|].
  rewrite cstr_cons in H. destruct H as (H1 & _ & H3). simpl. rewrite H1. f_equal. auto.
Qed.

Lemma cstr_intro m a l :
  bytes_at (length l) m a = l -> rd m (a + Z.of_nat (length l)) = 0 ->
  Forall (fun c => c <> 0) l -> cstr m a l.
Proof.
  revert a. induction l as [|c l IH]; intros a Hb H0 Hn.
  - rewrite cstr_nil. rewrite <- H0. f_equal. simpl. lia.
  - simpl in Hb. injection Hb as Hc Hb. apply Forall_cons in Hn as [Hn0 Hn].
    apply cstr_cons. split_and!; [done|done|]. apply IH; [done| |done].
    rewrite <- H0. f_equal. simpl length. lia.
Qed.

Lemma cstr_frame m m' a l :
  cstr m a l -> (forall x, within a (S (length l)) x -> rd m' x = rd m x) -> cstr m' a l.
Proof.
  intros [Hb Hf] Hm. split; [|done]. intros i v Hi. rewrite <- (Hb i v Hi). apply Hm.
  apply lookup_lt_Some in Hi. rewrite length_app in Hi. simpl in Hi. unfold within. lia.
Qed.

(** The order [strcmp] computes: the difference at the first mismatch. *)
Fixpoint str_diff (l1 l2 : list Z) : Z :=
  match l1, l2 with
  | [], [] => 0
  | [], c :: _ => - c
  | c :: _, [] => c
  | c1 :: l1, c2 :: l2 => if c1 =? c2 then str_diff l1 l2 else c1 - c2
  end.

Lemma strcmp_diff fuel m a b l1 l2 :
  cstr m a l1 -> cstr m b l2 -> (length l1 < fuel)%nat ->
  strcmp fuel m a b = Some (str_diff l1 l2).
Proof.
  revert fuel a b l2. induction l1 as [|c1 l1 IH]; intros fuel a b l2 H1 H2 Hf;
    (destruct fuel as [|fuel]; [simpl in Hf; lia|]); cbn [strcmp]; rewrite !ld8_rd.
  - rewrite cstr_nil in H1. rewrite H1. destruct l2 as [|c2 l2].
    + rewrite cstr_nil in H2. by rewrite H2.
    + rewrite cstr_cons in H2. destruct H2 as (-> & Hn & _). simpl.
      unfold truthy. destruct c2; [done|reflexivity..].
  - rewrite cstr_cons in H1. destruct H1 as (-> & Hn1 & H1). destruct l2 as [|c2 l2].
    + rewrite cstr_nil in H2. rewrite H2. rewrite orb_true_r. simpl. f_equal. lia.
    + rewrite cstr_cons in H2. destruct H2 as (-> & Hn & H2). simpl.
      assert (c2 =? 0 = false) as -> by lia. rewrite orb_false_r. unfold truthy.
      destruct (Z.eqb_spec c1 c2) as [->|Hne].
      * rewrite Z.sub_diag. simpl. apply IH; [done|done|simpl in Hf; lia].
      * assert (c1 - c2 =? 0 = false) as -> by lia. done.
Qed.

Lemma str_diff_zero l1 l2 :
  Forall (fun c => c <> 0) l1 -> Forall (fun c => c <> 0) l2 ->
  str_diff l1 l2 = 0 <-> l1 = l2.
Proof.
  revert l2. induction l1 as [|c1 l1 IH]; intros [|c2 l2] H1 H2; simpl;
    rewrite ?Forall_cons in *; [done| | |].
  - split; [lia|done].
  - split; [lia|done].
  - destruct (Z.eqb_spec c1 c2) as [->|Hne]; [rewrite IH by tauto|]; naive_solver lia.
Qed.

(** ** Numbers in text *)

(** The character of a digit below 36, and the value of a list of digits. *)
Definition digit_char (d : Z) : Z := if d <? 10 then 48 + d else 87 + d.
Definition digits_value (base : Z) (ds : list Z) (acc : Z) : Z :=
  fold_left (fun a d => a * base + d) ds acc.

Lemma digit_char_facts d :
  0 <= d < 36 ->
  strtoul_digit (digit_char d) = Some d /\ isspace (digit_char d) = false /\
  digit_char d <> 45 /\ digit_char d <> 43 /\ digit_char d <> 0 /\
  (d < 16 -> digit_char d <> 120 /\ digit_char d <> 88).
Proof.
  intros Hd.
  assert (H : forallb (fun n => let d := Z.of_nat n in
      bool_decide (strtoul_digit (digit_char d) = Some d) && negb (isspace (digit_char d)))
    (seq 0 36) = true) by (vm_compute; reflexivity).
  rewrite forallb_forall in H. specialize (H (Z.to_nat d)).
  rewrite Z2Nat.id in H by lia. rewrite in_seq in H. specialize (H ltac:(lia)).
  apply andb_prop in H as [H1%bool_decide_eq_true H2%negb_true_iff].
  split; [done|]. split; [done|]. unfold digit_char. case_match; lia.
Qed.

Lemma digits_value_mono base ds acc :
  1 <= base -> 0 <= acc -> Forall (fun d => 0 <= d) ds -> acc <= digits_value base ds acc.
Proof.
  intros Hb. revert acc. induction ds as [|d ds IH]; intros acc Ha Hf; simpl; [lia|].
  apply Forall_cons in Hf as [Hd Hf]. etrans; [|apply IH; [nia|done]]. nia.
Qed.

(** The overflow test of the loop: [acc * base + c] exceeds [ULONG_MAX]. *)
Lemma cutoff_test base acc c :
  1 <= base -> 0 <= acc -> 0 <= c < base ->
  (ULONG_MAX / base <? acc) || ((acc =? ULONG_MAX / base) && (ULONG_MAX mod base <? c))
  = (ULONG_MAX <? acc * base + c).
Proof.
  intros Hb Ha Hc. pose proof (Z.div_mod ULONG_MAX base ltac:(lia)) as E.
  pose proof (Z.mod_pos_bound ULONG_MAX base ltac:(lia)).
  set (q := ULONG_MAX / base) in *. set (r := ULONG_MAX mod base) in *.
  rewrite E. apply eq_bool_prop_intro. rewrite !orb_True, andb_True, !Is_true_true.
  rewrite !Z.ltb_lt, Z.eqb_eq. split; [intros [?|[-> ?]]; nia|]. intros Hlt.
  destruct (Z.lt_trichotomy acc q) as [?|[->|?]]; [exfalso; nia| |by left]. right. nia.
Qed.

Lemma strtoul_loop_overflowed fuel m base p acc ds :
  2 <= base <= 36 -> Forall (fun d => 0 <= d < base) ds ->
  cstr m p (map digit_char ds) -> (length ds <= fuel)%nat ->
  strtoul_loop fuel m base (ULONG_MAX / base) (ULONG_MAX mod base) (ld8 m p) (p + 1) acc (-1)
  = Some (acc, -1, p + 1 + Z.of_nat (length ds)).
Proof.
  intros Hb. revert p fuel. induction ds as [|d ds IH]; intros p fuel Hds Hs Hf.
  - rewrite cstr_nil in Hs. rewrite ld8_rd, Hs. destruct fuel; simpl; do 2 f_equal; lia.
  - apply Forall_cons in Hds as [Hd Hds]. simpl in Hs. rewrite cstr_cons in Hs.
    destruct Hs as (Hc & _ & Hs). destruct fuel as [|fuel]; simpl in Hf; [lia|].
    cbn [strtoul_loop]. rewrite (ld8_rd m p), Hc.
    destruct (digit_char_facts d ltac:(lia)) as (-> & _).
    assert (base <=? d = false) as -> by lia. simpl orb. cbv match.
    rewrite (IH (p + 1)) by (done || lia). do 2 f_equal. simpl length. lia.
Qed.

Lemma strtoul_loop_spec fuel m base p acc any ds :
  2 <= base <= 36 -> Forall (fun d => 0 <= d < base) ds ->
  cstr m p (map digit_char ds) -> (length ds <= fuel)%nat ->
  0 <= acc <= ULONG_MAX -> 0 <= any ->
  exists acc' any', strtoul_loop fuel m base (ULONG_MAX / base) (ULONG_MAX mod base)
      (ld8 m p) (p + 1) acc any = Some (acc', any', p + 1 + Z.of_nat (length ds)) /\
    (digits_value base ds acc <= ULONG_MAX -> acc' = digits_value base ds acc /\ 0 <= any') /\
    (ULONG_MAX < digits_value base ds acc -> any' = -1) /\
    (ds <> [] \/ any <> 0 -> any' <> 0).
Proof.
  intros Hb. revert p fuel acc any.
  induction ds as [|d ds IH]; intros p fuel acc any Hds Hs Hf Ha Hany.
  - rewrite cstr_nil in Hs. exists acc, any. split_and!; simpl; try lia; try done; [|naive_solver].
    rewrite ld8_rd, Hs. by destruct fuel; simpl; rewrite Z.add_0_r.
  - apply Forall_cons in Hds as [Hd Hds]. simpl in Hs. rewrite cstr_cons in Hs.
    destruct Hs as (Hc & _ & Hs). destruct fuel as [|fuel]; simpl in Hf; [lia|].
    cbn [strtoul_loop]. rewrite (ld8_rd m p), Hc.
    destruct (digit_char_facts d ltac:(lia)) as (-> & _).
    assert (base <=? d = false) as -> by lia.
    assert (any <? 0 = false) as -> by lia. cbn [orb].
    rewrite cutoff_test by lia.
    destruct (Z.ltb_spec ULONG_MAX (acc * base + d)) as [Hov|Hok].
    + exists acc, (-1). rewrite (strtoul_loop_overflowed fuel m base (p + 1) acc ds) by (done || lia). split_and!; try done.
      * do 2 f_equal. simpl length. lia.
      * simpl. assert (acc * base + d <= digits_value base ds (acc * base + d)); [|lia].
        apply digits_value_mono; [lia|nia|]. eapply Forall_impl; [exact Hds|]. simpl. lia.
    + rewrite (u64_add_l (acc * base)). rewrite u64_id by (unfold ULONG_MAX in *; nia).
      destruct (IH (p + 1) fuel (acc * base + d) 1) as (a' & n' & E & H1 & H2 & H3);
        try done; [lia|nia|].
      exists a', n'. rewrite E. split_and!; try done; [do 2 f_equal; simpl length; lia|].
      intros _. apply H3. by right.
Qed.

Lemma digits_head m a base ds :
  2 <= base <= 36 -> Forall (fun d => 0 <= d < base) ds -> ds <> [] ->
  cstr m a (map digit_char ds) ->
  isspace (ld8 m a) = false /\ ld8 m a <> 45 /\ ld8 m a <> 43 /\
  (base = 16 -> ld8 m (a + 1) <> 120 /\ ld8 m (a + 1) <> 88).
Proof.
  intros Hb Hds Hne Hs. destruct ds as [|d ds]; [done|].
  apply Forall_cons in Hds as [Hd Hds]. simpl in Hs. rewrite cstr_cons in Hs.
  destruct Hs as (Hc & _ & Hs). rewrite !ld8_rd, Hc.
  destruct (digit_char_facts d ltac:(lia)) as (_ & -> & ? & ? & _). split_and!; try done.
  intros ->. destruct ds as [|d2 ds].
  - simpl in Hs. rewrite cstr_nil in Hs. rewrite Hs. lia.
  - simpl in Hs. rewrite cstr_cons in Hs. destruct Hs as (-> & _).
    apply Forall_cons in Hds as [Hd2 _].
    destruct (digit_char_facts d2 ltac:(lia)) as (_ & _ & _ & _ & _ & Hx). apply Hx. lia.
Qed.

(** ** Byte swaps *)
Lemma land_byte x k : 0 <= k -> Z.land x (Z.shiftl 255 k) = Z.shiftl (x / 2 ^ k mod 256) k.
Proof.
  intros Hk. change 255 with (Z.ones 8). rewrite land_field_mod by lia.
  rewrite Z.shiftl_mul_pow2 by lia. change (2 ^ 8) with 256. lia.
Qed.

Lemma bswap_32_bytes x :
  0 <= x -> bswap_32 x = le_combine
    [x / 2 ^ 24 mod 256; x / 2 ^ 16 mod 256; x / 2 ^ 8 mod 256; x mod 256].
Proof.
  intros Hx. unfold bswap_32.
  change 0xff000000 with (Z.shiftl 255 24). change 0x00ff0000 with (Z.shiftl 255 16).
  change 0x0000ff00 with (Z.shiftl 255 8). change 0x000000ff with (Z.shiftl 255 0).
  rewrite !land_byte by lia. rewrite Z.pow_0_r, Z.div_1_r, Z.shiftl_0_r.
  rewrite Z.shiftr_shiftl_l, Z.shiftr_shiftl_l, Z.shiftl_shiftl by lia.
  change (24 - 24) with 0. change (16 - 8) with 8. change (8 + 8) with 16.
  rewrite Z.shiftl_0_r, !Z.shiftl_mul_pow2 by lia.
  assert (Hb : forall k, 0 <= x / 2 ^ k mod 256 < 256) by (intros; apply Z.mod_pos_bound; lia).
  pose proof (Hb 24) as H3. pose proof (Hb 16) as H2. pose proof (Hb 8) as H1.
  pose proof (Z.mod_pos_bound x 256 ltac:(lia)) as H0.
  set (b3 := x / 2 ^ 24 mod 256) in *. set (b2 := x / 2 ^ 16 mod 256) in *.
  set (b1 := x / 2 ^ 8 mod 256) in *. set (b0 := x mod 256) in *.
  rewrite (Z.lor_comm b3), (lor_disjoint_add _ _ 8) by lia.
  rewrite (Z.lor_comm (b2 * 2 ^ 8 + b3)), (lor_disjoint_add _ _ 16) by lia.
  rewrite Z.lor_comm, (lor_disjoint_add _ _ 24) by lia.
  unfold u32. rewrite Z.mod_small; simpl le_combine; lia.
Qed.

Lemma strtoul_run fuel m a base ds :
  2 <= base <= 36 -> Forall (fun d => 0 <= d < base) ds -> ds <> [] ->
  cstr m a (map digit_char ds) -> (length ds <= fuel)%nat ->
  strtoul fuel m a base =
    Some (Z.min (digits_value base ds 0) ULONG_MAX, a + Z.of_nat (length ds)).
Proof.
  intros Hb Hds Hne Hs Hf.
  destruct (digits_head m a base ds Hb Hds Hne Hs) as (H1 & H2 & H3 & H4).
  unfold strtoul. assert (skip_space fuel m a = Some (ld8 m a, a + 1)) as ->.
  { destruct fuel; cbn [skip_space]; by rewrite H1. }
  cbn [mbind option_bind].
  assert (ld8 m a =? 45 = false) as -> by lia. assert (ld8 m a =? 43 = false) as -> by lia.
  cbn [orb].
  assert (((base =? 0) || (base =? 16)) && (ld8 m a =? 48) &&
          ((ld8 m (a + 1) =? 120) || (ld8 m (a + 1) =? 88)) = false) as ->.
  { destruct (Z.eqb_spec base 16) as [E|]; [|lia]. specialize (H4 E). lia. }
  assert (base =? 0 = false) as -> by lia.
  destruct (strtoul_loop_spec fuel m base a 0 0 ds Hb Hds Hs Hf) as (acc & any & E & Hle & Hgt & Hn);
    [done|lia|]. rewrite E. cbn [mbind option_bind].
  assert (Hany : truthy any = true) by (unfold truthy; specialize (Hn (or_introl Hne)); lia).
  rewrite Hany. f_equal. f_equal; [|lia].
  destruct (Z.le_gt_cases (digits_value base ds 0) ULONG_MAX) as [Hok|Hov].
  - destruct (Hle Hok) as [-> ?]. assert (any <? 0 = false) as -> by lia. lia.
  - rewrite (Hgt Hov). simpl. lia.
Qed.

(** ** Properties *)

(** [memmove] copies the [n] bytes at [src] to [dest] however the two ranges
    overlap and whatever their alignment, and writes only the range [dest];
    [memcpy] does so whenever the destination is not inside the source. *)
Theorem memmove_correct m dest src n :
  (bytes_at n (memmove m dest src n) dest = bytes_at n m src /\
   same_outside (within dest n) m (memmove m dest src n)) /\
  (dest <= src \/ src + Z.of_nat n <= dest ->
   bytes_at n (memcpy m dest src n) dest = bytes_at n m src /\
   same_outside (within dest n) m (memcpy m dest src n)).
Proof.
  split; [|intros Hd; apply (memcpy_copied m) in Hd]; eauto using memmove_copied, copied_bytes_at, copied_same_outside.
Qed.

Lemma memmove_correct_witness :
  bytes_at 4 (memcpy (wr_list ∅ 0x100 [1; 2; 3; 4]) 0x200 0x100 4) 0x200 = [1; 2; 3; 4].
Proof.
  refine (proj1 (proj2 (memmove_correct (wr_list ∅ 0x100 [1; 2; 3; 4]) 0x200 0x100 4) _)).
  right. simpl. lia.
Defined.

(** What [memset] writes: the byte [c] everywhere, except that when the start
    is aligned, in the part it fills by words only the first byte of each word is
    [c] and the other seven are zero ([cl <<= 0] builds the word).  So filling
    with zero is correct, as the kernel uses it, and nothing outside is written. *)
Theorem memset_correct m s c n x :
  rd (memset m s c n) x =
    if decide (within s n x) then
      if decide (s mod 8 = 0 /\ x - s < 8 * (Z.of_nat n / 8) /\ (x - s) mod 8 <> 0)
      then 0 else u8 c
    else rd m x.
Proof.
  case_decide as Hx; [|symmetry; by apply memset_same_outside].
  unfold memset. change 7 with (Z.ones 3). rewrite Z.land_ones by lia. change (2 ^ 3) with 8.
  destruct (Z.eqb_spec (s mod 8) 0) as [Hs|Hs].
  - rewrite memset_word_low, rd_fill_words_in by done. repeat case_decide; naive_solver lia.
  - rewrite rd_fill_bytes, decide_True by done. rewrite decide_False; [done|naive_solver].
Qed.

(** [strlcpy] always terminates the destination within [size] bytes: it
    becomes the longest prefix of the source that fits, its length is returned,
    and at most [size] bytes of the destination are written. *)
Theorem strlcpy_correct fuel m dest src size l :
  cstr m src l -> (length l <= fuel)%nat -> 0 < size ->
  dest + size <= src \/ src + Z.of_nat (length l) < dest ->
  exists m' len, strlcpy fuel m dest src size = Some (m', len) /\
    len = Z.min (Z.of_nat (length l)) (size - 1) /\
    cstr m' dest (take (Z.to_nat (size - 1)) l) /\
    same_outside (within dest (Z.to_nat size)) m m'.
Proof.
  intros Hs Hf Hsz Hd. unfold strlcpy. rewrite (strlen_cstr _ _ _ _ Hs Hf).
  assert (truthy size = true) as -> by (unfold truthy; lia). cbn [mbind option_bind].
  set (len := if size <=? Z.of_nat (length l) then size - 1 else Z.of_nat (length l)).
  assert (Hlen : len = Z.min (Z.of_nat (length l)) (size - 1)).
  { unfold len. destruct (Z.leb_spec size (Z.of_nat (length l))); lia. }
  pose proof (memcpy_copied m dest src (Z.to_nat len) ltac:(lia)) as Hc.
  eexists _, len. split_and!; [done|done| |].
  - assert (Hl : length (take (Z.to_nat (size - 1)) l) = Z.to_nat len).
    { rewrite length_take. lia. }
    apply cstr_intro; rewrite ?Hl.
    + rewrite (bytes_at_ext _ _ (memcpy m dest src (Z.to_nat len))).
      2:{ intros x Hx. apply rd_store_out. unfold within in *. lia. }
      rewrite (copied_bytes_at _ _ _ _ _ Hc).
      replace (take (Z.to_nat (size - 1)) l) with (take (Z.to_nat len) l).
      2:{ destruct (decide (Z.of_nat (length l) <= size - 1)); [|f_equal; lia].
          rewrite !take_ge by lia. done. }
      rewrite <- (cstr_bytes _ _ _ Hs) at 1.
      replace (length l) with (Z.to_nat len + (length l - Z.to_nat len))%nat by lia.
      rewrite bytes_at_app, take_app_length'; [done|by rewrite length_bytes_at].
    + replace (dest + Z.of_nat (Z.to_nat len)) with (dest + len) by lia.
      rewrite rd_st8, decide_True by done. done.
    + apply Forall_take. apply Hs.
  - apply (same_outside_store _ 1); [unfold within; intros x; lia|].
    eapply same_outside_mono; [|apply (copied_same_outside _ _ _ _ _ Hc)].
    unfold within. intros x. lia.
Qed.

Definition demo_string : memory := wr_list ∅ 0x100 [116; 97; 115; 107; 0].

Lemma strlcpy_correct_witness :
  exists m' len, strlcpy 8 demo_string 0x200 0x100 4 = Some (m', len) /\
    len = 3 /\ cstr m' 0x200 [116; 97; 115] /\ same_outside (within 0x200 4) demo_string m'.
Proof.
  refine (strlcpy_correct 8 demo_string 0x200 0x100 4 [116; 97; 115; 107] _ _ _ _).
  - apply cstr_intro; [vm_compute; reflexivity|vm_compute; reflexivity|].
    repeat constructor; lia.
  - simpl. lia.
  - lia.
  - right. simpl. lia.
Defined.

(** [strcmp] ends on any two strings, with the difference of the first
    characters that differ; the result is zero exactly on equal strings. *)
Theorem strcmp_correct fuel m cs ct l1 l2 :
  cstr m cs l1 -> cstr m ct l2 -> (length l1 < fuel)%nat ->
  exists r, strcmp fuel m cs ct = Some r /\ r = str_diff l1 l2 /\ (r = 0 <-> l1 = l2).
Proof.
  intros H1 H2 Hf. exists (str_diff l1 l2). split; [by apply strcmp_diff|]. split; [done|].
  apply str_diff_zero; [apply H1|apply H2].
Qed.

Lemma strcmp_correct_witness :
  exists r, strcmp 8 demo_string 0x100 0x101 = Some r /\
    r = str_diff [116; 97; 115; 107] [97; 115; 107] /\
    (r = 0 <-> [116; 97; 115; 107] = [97; 115; 107]).
Proof.
  refine (strcmp_correct 8 demo_string 0x100 0x101 [116; 97; 115; 107] [97; 115; 107] _ _ _).
  - apply cstr_intro; [vm_compute; reflexivity|vm_compute; reflexivity|].
    repeat constructor; lia.
  - apply cstr_intro; [vm_compute; reflexivity|vm_compute; reflexivity|].
    repeat constructor; lia.
  - simpl. lia.
Defined.

(** [strtoul] reads back what is written: the digits [ds] of any base from 2
    to 36 give their value, or [ULONG_MAX] when that does not fit 64 bits (no
    wrap-around), and the end position is the terminator. *)
Theorem strtoul_correct fuel m a base ds :
  2 <= base <= 36 -> Forall (fun d => 0 <= d < base) ds -> ds <> [] ->
  cstr m a (map digit_char ds) -> (length ds <= fuel)%nat ->
  strtoul fuel m a base =
    Some (Z.min (digits_value base ds 0) ULONG_MAX, a + Z.of_nat (length ds)).
Proof. apply strtoul_run. Qed.

Lemma strtoul_correct_witness :
  strtoul 8 (wr_list ∅ 0x100 [50; 53; 53; 0]) 0x100 10 = Some (255, 0x103).
Proof.
  refine (strtoul_correct 8 (wr_list ∅ 0x100 [50; 53; 53; 0]) 0x100 10 [2; 5; 5] _ _ _ _ _).
  - lia.
  - repeat constructor; lia.
  - discriminate.
  - apply cstr_intro; [vm_compute; reflexivity|vm_compute; reflexivity|].
    repeat constructor; discriminate.
  - simpl. lia.
Defined.
