(* ===== verification/Pmap.v ===== *)
(** * Pmap: translation tables (kern/vm/pmap.c, kern/vm/pmap.h)

    The page-table region, the construction of translation table entries and,
    as its specification, the walk the MMU performs on the tables (4 KB granule,
    39-bit addresses, so the walk starts at level 1).  Tables are reached through
    the kernel's linear map of physical memory ([ptokva]). *)
From Stdlib Require Import ZArith Lia.
From stdpp Require Import prelude gmap list.
From S2P Require Import Prelude Memory Kernel.
Open Scope Z_scope.
Open Scope monix_scope.

(** ** Constants *)
Definition TT_PAGE_SIZE : Z := 4096.
Definition DEFAULTS_KERNEL_VM_PAGE_SIZE : Z := TT_PAGE_SIZE.
Definition DEFAULTS_KERNEL_VM_VIRT_BASE : Z := 0xfffffff000000000.
Definition DEFAULTS_KERNEL_VM_PERIPH_BASE : Z := 0xffffffff10000000.

Definition TTE_BLOCK_TEMPLATE : Z := 0x0000000000000401.
Definition TTE_TYPE_MASK : Z := 0x3.
Definition TTE_TYPE_TABLE : Z := 0x3.
Definition TTE_TYPE_PAGE : Z := 0x3.
Definition TTE_TYPE_BLOCK : Z := 0x1.
Definition TT_L1_INDEX_MASK : Z := 0x0000007fc0000000.
Definition TT_L1_SIZE : Z := 0x0000000040000000.
Definition TT_L1_SHIFT : Z := 30.
Definition TT_L2_INDEX_MASK : Z := 0x000000003fe00000.
Definition TT_L2_SIZE : Z := 0x0000000000200000.
Definition TT_L2_SHIFT : Z := 21.
Definition TT_TABLE_MASK : Z := 0x0000fffffffff000.
Definition TT_BLOCK_MASK : Z := 0x0000ffffffe00000.
Definition TTBR_BADDR_MASK : Z := 0x0000ffffffffffff.

Definition PMAP_RETURN_SUCCESS : Z := 0.
Definition PMAP_RETURN_FAILED : Z := 1.
Definition PMAP_RETURN_ILLEGAL : Z := 2.
Definition PMAP_RETURN_INVALID : Z := 3.

Definition PMAP_ACCESS_NOACCESS : Z := 0x1.
Definition PMAP_ACCESS_READONLY : Z := 0x2.
Definition PMAP_ACCESS_READWRITE : Z := 0x4.

Section Pmap.
Context `{Symbols} `{Hardware}.

(** [ptokva(p)]: the kernel virtual address of a physical address. *)
Definition ptokva (p : Z) : M Z :=
  let! phys := get memory_phys_base in
  let! virt := get memory_virt_base in
  ret (u64 (p - phys + virt)).

(** [assert (e)]: a failed assertion panics. *)
Definition assert (e : bool) : M unit := if e then ret tt else halt.

(** arch/support.S: translate with [at s1e1r]; a fault gives 0, otherwise
    [PAR_EL1] with the page offset of the address, masked. *)
Definition mmu_translate_kvtop (va : Z) : M Z := fun s =>
  let par := hw_par_el1 s va in
  if Z.testbit par 0 then Done 0 s
  else Done (Z.land (Z.lor (Z.ldiff par 0xfff) (Z.land va 0xfff)) TTBR_BADDR_MASK) s.

Definition pmap_ptregion_create : M Z :=
  let! done := get ptregion_initialised in
  if truthy done then ret PMAP_RETURN_ILLEGAL
  else if sym_pagetables_region_base =? 0 then ret PMAP_RETURN_INVALID
  else
    put pagetables_region_cursor sym_pagetables_region_base ;!
    let! phys := mmu_translate_kvtop sym_pagetables_region_base in
    put ptregion_phys_base phys ;!
    put ptregion_initialised 1 ;!
    ret PMAP_RETURN_SUCCESS.

(** The assertion reads the word stored at the label [pagetables_region_end]. *)
Definition pmap_ptregion_alloc : M Z :=
  let! vaddr := get pagetables_region_cursor in
  put pagetables_region_cursor (u64 (vaddr + DEFAULTS_KERNEL_VM_PAGE_SIZE)) ;!
  let! end_word := ld 8 sym_pagetables_region_end in
  assert (end_word <? vaddr) ;!
  ret vaddr.

(** *** [pmap_tt_create_tte], built with 2 MB blocks ([USE_L3_TABLE] disabled) *)
Definition tt_l1_index (va : Z) : Z := Z.shiftr (Z.land va TT_L1_INDEX_MASK) TT_L1_SHIFT.
Definition tt_l2_index (va : Z) : Z := Z.shiftr (Z.land va TT_L2_INDEX_MASK) TT_L2_SHIFT.

(** The level 2 table of an entry of [table], created if there is none. *)
Definition tt_l2_table (table index : Z) : M Z :=
  let! entry := ld 8 (table + 8 * index) in
  if negb (Z.land entry TTE_TYPE_MASK =? TTE_TYPE_TABLE) then
    let! l2_table := pmap_ptregion_alloc in
    let! phys := mmu_translate_kvtop l2_table in
    st 8 (table + 8 * index) (Z.lor (Z.land phys TT_TABLE_MASK) 0x3) ;!
    ret l2_table
  else ptokva (Z.land entry TT_TABLE_MASK).

Definition tt_block_entry (pbase vbase map_address_l2 : Z) : Z :=
  Z.lor TTE_BLOCK_TEMPLATE
    (Z.land (u64 (pbase + u64 (map_address_l2 - vbase))) TT_TABLE_MASK).

(** [while (map_address_l2 < map_address + TT_L1_SIZE && map_address_l2 < vend)];
    512 entries are a whole table. *)
Definition tt_fill_l2 (l2_table pbase vbase vend map_address : Z) : M Z :=
  loop 513
    (fun a => ret ((a <? u64 (map_address + TT_L1_SIZE)) && (a <? vend)))
    (fun a =>
       st 8 (l2_table + 8 * tt_l2_index a) (tt_block_entry pbase vbase a) ;!
       ret (u64 (a + TT_L2_SIZE)))
    map_address.

Definition pmap_tt_create_tte (table pbase vbase size flags : Z) : M Z :=
  if DEFAULTS_KERNEL_VM_VIRT_BASE <? pbase then ret PMAP_RETURN_FAILED
  else
    let vend := u64 (vbase + size) in
    loop (Z.to_nat (size / TT_L1_SIZE + 1))
      (fun a => ret (a <? vend))
      (fun a =>
         let! l2_table := tt_l2_table table (tt_l1_index a) in
         tt_fill_l2 l2_table pbase vbase vend a ;!
         ret (u64 (a + TT_L1_SIZE)))
      vbase ;!
    ret PMAP_RETURN_SUCCESS.

(** ** The walk of the MMU

    [mmu_walk s table va] is the output address of the stage 1 walk of [va]
    from the level 1 table at [table], or [None] for a translation fault. *)
Definition lin (s : kstate) (p : Z) : Z :=
  u64 (p - k_glob s memory_phys_base + k_glob s memory_virt_base).

Definition l2_walk (m : memory) (l2 va : Z) : option Z :=
  let e := ld64 m (l2 + 8 * tt_l2_index va) in
  if Z.land e TTE_TYPE_MASK =? TTE_TYPE_BLOCK
  then Some (Z.land e TT_BLOCK_MASK + va mod TT_L2_SIZE)
  else None.

Definition mmu_walk (s : kstate) (table va : Z) : option Z :=
  let e := ld64 (k_mem s) (table + 8 * tt_l1_index va) in
  if Z.land e TTE_TYPE_MASK =? TTE_TYPE_TABLE
  then l2_walk (k_mem s) (lin s (Z.land e TT_TABLE_MASK)) va
  else None.
End Pmap.

(** ** Arithmetic of the masks *)
Lemma l1_index_eq va : tt_l1_index va = va / 2 ^ 30 mod 512.
Proof.
  unfold tt_l1_index, TT_L1_INDEX_MASK, TT_L1_SHIFT.
  change 0x7fc0000000 with (Z.shiftl (Z.ones 9) 30). by rewrite field_extract by lia.
Qed.
Lemma l2_index_eq va : tt_l2_index va = va / 2 ^ 21 mod 512.
Proof.
  unfold tt_l2_index, TT_L2_INDEX_MASK, TT_L2_SHIFT.
  change 0x3fe00000 with (Z.shiftl (Z.ones 9) 21). by rewrite field_extract by lia.
Qed.
Lemma l1_index_range va : 0 <= tt_l1_index va < 512.
Proof. rewrite l1_index_eq. apply Z.mod_pos_bound. lia. Qed.
Lemma l2_index_range va : 0 <= tt_l2_index va < 512.
Proof. rewrite l2_index_eq. apply Z.mod_pos_bound. lia. Qed.

Lemma type_bits e : Z.land e TTE_TYPE_MASK = e mod 4.
Proof. unfold TTE_TYPE_MASK. change 3 with (Z.ones 2). by rewrite Z.land_ones. Qed.

Lemma table_mask_eq p : Z.land p TT_TABLE_MASK = 2 ^ 12 * (p / 2 ^ 12 mod 2 ^ 36).
Proof.
  unfold TT_TABLE_MASK. change 0xfffffffff000 with (Z.shiftl (Z.ones 36) 12).
  by rewrite land_field_mod.
Qed.
Lemma block_mask_eq p : Z.land p TT_BLOCK_MASK = 2 ^ 21 * (p / 2 ^ 21 mod 2 ^ 27).
Proof.
  unfold TT_BLOCK_MASK. change 0xffffffe00000 with (Z.shiftl (Z.ones 27) 21).
  by rewrite land_field_mod.
Qed.

(** A table descriptor: its type, and the address it holds. *)
Lemma table_entry p :
  Z.land (Z.lor (Z.land p TT_TABLE_MASK) 0x3) TTE_TYPE_MASK = TTE_TYPE_TABLE /\
  Z.land (Z.lor (Z.land p TT_TABLE_MASK) 0x3) TT_TABLE_MASK = Z.land p TT_TABLE_MASK.
Proof.
  rewrite type_bits, (table_mask_eq (Z.lor _ _)), table_mask_eq.
  rewrite Z.mul_comm, (lor_disjoint_add _ _ 12) by lia.
  set (q := p / 2 ^ 12 mod 2 ^ 36). pose proof (Z.mod_pos_bound (p / 2 ^ 12) (2 ^ 36) ltac:(lia)).
  fold q in H. split; [unfold TTE_TYPE_TABLE; Z.to_euclidean_division_equations; lia|].
  rewrite Z.div_add_l by lia. rewrite (Z.div_small 3) by lia.
  rewrite Z.add_0_r, (Z.mod_small q) by lia. lia.
Qed.

Lemma table_entry_range p : is_u64 (Z.lor (Z.land p TT_TABLE_MASK) 0x3).
Proof.
  rewrite table_mask_eq, Z.mul_comm, (lor_disjoint_add _ _ 12) by lia.
  pose proof (Z.mod_pos_bound (p / 2 ^ 12) (2 ^ 36)). lia.
Qed.

(** A block descriptor: its type, and the 2 MB block it selects. *)
Lemma block_entry p :
  0 <= p ->
  let e := Z.lor TTE_BLOCK_TEMPLATE (Z.land p TT_TABLE_MASK) in
  Z.land e TTE_TYPE_MASK = TTE_TYPE_BLOCK /\ 
  Z.land e TT_BLOCK_MASK = 2 ^ 21 * (p / 2 ^ 21 mod 2 ^ 27) /\ is_u64 e.
Proof.
  intros Hp e. assert (He : e = (p / 2 ^ 12 mod 2 ^ 36) * 2 ^ 12 + TTE_BLOCK_TEMPLATE).
  { unfold e. rewrite Z.lor_comm, table_mask_eq, Z.mul_comm.
    rewrite (lor_disjoint_add _ _ 12); unfold TTE_BLOCK_TEMPLATE; lia. }
  rewrite type_bits, block_mask_eq, He. clear He e. unfold TTE_BLOCK_TEMPLATE, TTE_TYPE_BLOCK.
  pose proof (Z.mod_pos_bound (p / 2 ^ 12) (2 ^ 36) ltac:(lia)).
  split; [|split; [|lia]].
  - Z.to_euclidean_division_equations. lia.
  - f_equal. change (2 ^ 21) with (2 ^ 12 * 2 ^ 9). rewrite <- !Z.div_div by lia.
    rewrite Z.div_add_l by lia. rewrite (Z.div_small 0x401) by lia. rewrite Z.add_0_r.
    set (q := p / 2 ^ 12). Z.to_euclidean_division_equations. lia.
Qed.

(** The level 2 index of the [j]-th 2 MB step from [v] inside its 1 GB slot. *)
Lemma l2_index_step v j :
  0 <= v -> 0 <= j -> v mod 2 ^ 30 + 2 ^ 21 * j < 2 ^ 30 ->
  tt_l2_index (v + 2 ^ 21 * j) = tt_l2_index v + j.
Proof. intros. rewrite !l2_index_eq. Z.to_euclidean_division_equations. lia. Qed.

Lemma l2_index_inj v i j :
  0 <= v -> 0 <= i < 512 -> 0 <= j < 512 ->
  tt_l2_index (v + TT_L2_SIZE * i) = tt_l2_index (v + TT_L2_SIZE * j) -> i = j.
Proof. intros. rewrite !l2_index_eq in *. unfold TT_L2_SIZE in *. Z.to_euclidean_division_equations. lia. Qed.

Lemma l1_index_same v a :
  0 <= v -> v <= a -> v mod 2 ^ 30 + (a - v) < 2 ^ 30 -> tt_l1_index a = tt_l1_index v.
Proof. intros. rewrite !l1_index_eq. Z.to_euclidean_division_equations. lia. Qed.

Section PmapProofs.
Context `{Symbols} `{Hardware}.

(** The number of 2 MB blocks [pmap_tt_create_tte] writes for [size] bytes. *)
Definition tt_blocks (size : Z) : Z := (size + TT_L2_SIZE - 1) / TT_L2_SIZE.

Lemma tt_blocks_spec size j : 0 <= j < tt_blocks size <-> 0 <= j /\ TT_L2_SIZE * j < size.
Proof. unfold tt_blocks, TT_L2_SIZE. Z.to_euclidean_division_equations. lia. Qed.

(** The words of a level 2 table that hold the blocks [0 .. k-1] from the address [a]
    on.  The index wraps around within the table. *)
Definition l2_words (l2 a k x : Z) : Prop :=
  exists j, 0 <= j < k /\ within (l2 + 8 * tt_l2_index (a + TT_L2_SIZE * j)) 8 x.

Definition l2_filled (m0 m : memory) (l2 pbase vbase a k : Z) : Prop :=
  (forall j, 0 <= j < k ->
     ld64 m (l2 + 8 * tt_l2_index (a + TT_L2_SIZE * j)) = tt_block_entry pbase vbase (a + TT_L2_SIZE * j)) /\
  same_outside (l2_words l2 a k) m0 m.

Lemma l2_words_page l2 a k x : l2_words l2 a k x -> within l2 4096 x.
Proof. intros (j & _ & Hx). pose proof (l2_index_range (a + TT_L2_SIZE * j)). unfold within in *. lia. Qed.

Lemma block_entry_range pbase vbase a : is_u64 (tt_block_entry pbase vbase a).
Proof. apply (block_entry (u64 (pbase + u64 (a - vbase)))). apply u64_range. Qed.

Lemma l2_filled_step m0 m l2 pbase vbase a k :
  0 <= a -> 0 <= k < 512 -> l2_filled m0 m l2 pbase vbase a k ->
  l2_filled m0 (st64 m (l2 + 8 * tt_l2_index (a + TT_L2_SIZE * k))
                  (tt_block_entry pbase vbase (a + TT_L2_SIZE * k))) l2 pbase vbase a (k + 1).
Proof.
  intros Ha Hk [Hf Hs]. split.
  - intros j Hj. destruct (decide (j = k)) as [->|Hne].
    + rewrite ld64_st64_eq. apply u64_id, block_entry_range.
    + rewrite load_store_apart; [apply Hf; lia|].
      pose proof (l2_index_inj a j k Ha ltac:(lia) ltac:(lia)). unfold apart. lia.
  - apply same_outside_store; [intros x Hx; exists k; split; [lia|done]|].
    eapply same_outside_mono; [|exact Hs]. intros x (j & ? & ?). exists j. split; [lia|done].
Qed.

(** The inner loop writes what is left of the region, at most one table full. *)
Definition slot_blocks (size : Z) : Z := Z.min 512 (tt_blocks size).

Lemma tt_fill_l2_spec s l2 pbase vbase vend v :
  0 <= v -> v < vend < 2 ^ 64 -> v + 2 ^ 30 < 2 ^ 64 ->
  exists a m, tt_fill_l2 l2 pbase vbase vend v s = Done a (set_mem m s) /\
    l2_filled (k_mem s) m l2 pbase vbase v (slot_blocks (vend - v)).
Proof.
  intros Hv Hend Hmax. unfold tt_fill_l2.
  set (n := slot_blocks (vend - v)).
  assert (Hn : 0 < n <= 512) by (unfold n, slot_blocks, tt_blocks, TT_L2_SIZE; Z.to_euclidean_division_equations; lia).
  assert (Hb : forall k, 0 <= k <= n -> k < n <-> TT_L2_SIZE * k < 2 ^ 30 /\ TT_L2_SIZE * k < vend - v).
  { intros k Hk. pose proof (tt_blocks_spec (vend - v) k). unfold n, slot_blocks, TT_L2_SIZE in *. lia. }
  use_loop (fun (a : Z) s' => exists k m, 0 <= k <= n /\ a = v + TT_L2_SIZE * k /\
      s' = set_mem m s /\ l2_filled (k_mem s) m l2 pbase vbase v k)
    (fun (a : Z) (_ : kstate) => Z.to_nat (n - (a - v) / TT_L2_SIZE)) HL.
  rewrite (u64_id (v + TT_L1_SIZE)) in * by (unfold TT_L1_SIZE; lia).
  destruct HL as (a & s' & E & (k & m & Hk & -> & -> & Hm) & Hstop).
  - exists 0, (k_mem s). rewrite set_mem_id. split_and!; try lia; try done. split; [lia|done].
  - intros a s' (k & m & Hk & -> & -> & Hm). cbv beta delta [ret].
    eexists. split; [reflexivity|]. intros Hc. apply andb_prop in Hc as [Hc1 Hc2].
    assert (Hkn : k < n) by (apply Hb; [done|]; unfold TT_L1_SIZE in *; lia).
    eexists _, _. split; [reflexivity|]. unfold TT_L2_SIZE in *. rewrite u64_id by lia. split.
    + eexists (k + 1), _. split; [lia|]. split; [lia|]. split; [reflexivity|].
      apply l2_filled_step; [lia|lia|done].
    + Z.to_euclidean_division_equations. lia.
  - replace (v - v) with 0 by lia. unfold TT_L2_SIZE. rewrite Z.div_0_l by lia. lia.
  - exists (v + TT_L2_SIZE * k), m. split; [exact E|].
    assert (k = n) as ->; [|done]. cbv beta delta [ret] in Hstop. injection Hstop as Hstop.
    destruct (decide (k = n)) as [|Hne]; [done|]. exfalso.
    pose proof (proj1 (Hb k Hk) ltac:(lia)). unfold TT_L1_SIZE in Hstop. lia.
Qed.

(** *** The level 2 table

    [l2_for s table v l2]: [tt_l2_table] will use the table at [l2] for the
    slot of [v]: it is there already, or it is the next page of the page-table
    region, whose address the MMU translates to what the linear map gives. *)
Definition l2_present (s : kstate) (table v l2 : Z) : Prop :=
  let e := ld64 (k_mem s) (table + 8 * tt_l1_index v) in
  Z.land e TTE_TYPE_MASK = TTE_TYPE_TABLE /\ lin s (Z.land e TT_TABLE_MASK) = l2.

Definition l2_fresh (s : kstate) (table v l2 : Z) : Prop :=
  Z.land (ld64 (k_mem s) (table + 8 * tt_l1_index v)) TTE_TYPE_MASK <> TTE_TYPE_TABLE /\
  k_glob s pagetables_region_cursor = l2 /\
  ld64 (k_mem s) sym_pagetables_region_end < l2 /\
  exists p, 0 <= p /\ lin s (Z.land p TT_TABLE_MASK) = l2 /\
    forall s', k_mem s' = k_mem s ->
      (forall g, g <> pagetables_region_cursor -> k_glob s' g = k_glob s g) ->
      mmu_translate_kvtop l2 s' = Done p s'.

Definition l2_for (s : kstate) (table v l2 : Z) : Prop :=
  l2_present s table v l2 \/ l2_fresh s table v l2.

Lemma lin_same s s' p :
  (forall g, g <> pagetables_region_cursor -> k_glob s' g = k_glob s g) -> lin s' p = lin s p.
Proof. intros Hg. unfold lin. by rewrite !Hg. Qed.

Lemma tt_l2_table_spec s table v l2 :
  l2_for s table v l2 ->
  exists s', tt_l2_table table (tt_l1_index v) s = Done l2 s' /\
    l2_present s' table v l2 /\
    (forall g, g <> pagetables_region_cursor -> k_glob s' g = k_glob s g) /\
    same_outside (within (table + 8 * tt_l1_index v) 8) (k_mem s) (k_mem s') /\
    (l2_present s table v l2 -> s' = s).
Proof.
  intros [[He Hl]|(He & Hc & Hend & p & Hp & Hl & Hkv)]; unfold tt_l2_table.
  - exists s. cbv beta iota delta [bind ld]. rewrite He. rewrite Z.eqb_refl. cbn [negb]. cbv beta iota.
    split; [|done]. unfold ptokva, bind, get, ret. by rewrite <- Hl.
  - rewrite <- Z.eqb_neq in He. cbv beta iota delta [bind ld]. rewrite He. cbn [negb]. cbv beta iota.
    cbv beta iota delta [pmap_ptregion_alloc bind get put ld ret assert]. rewrite Hc, set_glob_mem.
    destruct (Z.ltb_spec (ld64 (k_mem s) sym_pagetables_region_end) l2); [|lia].
    cbv match. set (s1 := set_glob _ _ _).
    assert (Hg1 : forall g, g <> pagetables_region_cursor -> k_glob s1 g = k_glob s g)
      by (intros g Hg; by apply set_glob_ne).
    rewrite (Hkv s1 eq_refl Hg1). eexists. split; [reflexivity|].
    destruct (table_entry p) as [T1 T2].
    split; [|split; [|split]].
    + unfold l2_present. cbn [k_mem set_mem]. rewrite ld64_st64_eq.
      rewrite u64_id by apply table_entry_range.
      rewrite T1, T2. split; [done|]. rewrite <- Hl. by apply lin_same.
    + intros g Hg. by apply Hg1.
    + by apply same_outside_store.
    + intros [E _]. apply Z.eqb_neq in He. done.
Qed.

(** The region lies in one 1 GB slot, physical addresses have 48 bits. *)
Definition region_in_slot (pbase vbase size : Z) : Prop :=
  0 <= vbase /\ 0 < size /\ vbase mod 2 ^ 30 + size <= 2 ^ 30 /\ vbase + 2 ^ 30 < 2 ^ 64 /\
  0 <= pbase /\ pbase + size + TT_L2_SIZE <= 2 ^ 48.

(** Moreover both bases have the same offset in a block, and the blocks counted
    from [vbase] reach the end of the region. *)
Definition region_ok (pbase vbase size : Z) : Prop :=
  region_in_slot pbase vbase size /\
  pbase mod TT_L2_SIZE = vbase mod TT_L2_SIZE /\
  vbase mod TT_L2_SIZE + size <= TT_L2_SIZE * tt_blocks size.

Lemma pmap_tt_create_tte_run s table pbase vbase size flags l2 :
  region_in_slot pbase vbase size -> l2_for s table vbase l2 ->
  exists s1 m, tt_l2_table table (tt_l1_index vbase) s = Done l2 s1 /\
    pmap_tt_create_tte table pbase vbase size flags s = Done PMAP_RETURN_SUCCESS (set_mem m s1) /\
    l2_filled (k_mem s1) m l2 pbase vbase vbase (tt_blocks size).
Proof.
  intros (Hv & Hsz & Hslot & Hmax & Hp & Hp2) Hl2.
  destruct (tt_l2_table_spec _ _ _ _ Hl2) as (s1 & E1 & _).
  assert (Hsz2 : size <= 2 ^ 30) by (pose proof (Z.mod_pos_bound vbase (2 ^ 30)); lia).
  destruct (tt_fill_l2_spec s1 l2 pbase vbase (vbase + size) vbase) as (a & m & E2 & Hm); try lia.
  replace (slot_blocks _) with (tt_blocks size) in Hm
    by (rewrite Z.add_simpl_l; unfold slot_blocks, tt_blocks, TT_L2_SIZE; Z.to_euclidean_division_equations; lia).
  exists s1, m. split; [done|]. split; [|done].
  unfold pmap_tt_create_tte.
  destruct (Z.ltb_spec DEFAULTS_KERNEL_VM_VIRT_BASE pbase) as [Hf|_];
    [unfold DEFAULTS_KERNEL_VM_VIRT_BASE, TT_L2_SIZE in *; lia|].
  assert (exists f, Z.to_nat (size / TT_L1_SIZE + 1) = S f) as [f ->].
  { exists (Z.to_nat (size / TT_L1_SIZE)). unfold TT_L1_SIZE.
    Z.to_euclidean_division_equations. lia. }
  rewrite (u64_id (vbase + size)) in * by lia. cbn [loop].
  unfold bind at 1 2. cbv beta delta [ret].
  destruct (Z.ltb_spec vbase (vbase + size)); [|lia]. unfold bind at 1 2.
  rewrite E1. unfold bind at 1. rewrite E2. rewrite u64_id by (unfold TT_L1_SIZE; lia).
  destruct f; cbn [loop]; unfold bind;
    (destruct (Z.ltb_spec (vbase + TT_L1_SIZE) (vbase + size)) as [Hx|_];
      [unfold TT_L1_SIZE in Hx; lia|done]).
Qed.

(** The walk of an address after its table was filled: block [j] of the addresses
    from [a] on is the one [j] entries further, around the table. *)
Definition slot_block (a va : Z) : Z := (tt_l2_index va - tt_l2_index a) mod 512.
Definition block_target (pbase vbase a va : Z) : Z :=
  Z.land (pbase + (a - vbase)) TT_BLOCK_MASK + va mod TT_L2_SIZE.

Lemma slot_block_range a va : 0 <= slot_block a va < 512.
Proof. apply Z.mod_pos_bound. lia. Qed.
Lemma slot_block_near a va :
  0 <= va / TT_L2_SIZE - a / TT_L2_SIZE < 512 -> slot_block a va = va / TT_L2_SIZE - a / TT_L2_SIZE.
Proof.
  intros H'. unfold slot_block. rewrite !l2_index_eq. change (2 ^ 21) with TT_L2_SIZE.
  rewrite <- Zminus_mod. by apply Z.mod_small.
Qed.
Lemma slot_block_index a va j :
  0 <= a -> 0 <= j < 512 -> tt_l2_index va = tt_l2_index (a + TT_L2_SIZE * j) <-> slot_block a va = j.
Proof.
  intros Ha Hj. unfold slot_block. pose proof (l2_index_range va). rewrite !l2_index_eq in *. unfold TT_L2_SIZE.
  rewrite (Z.mul_comm 0x200000), (Z.div_add a) by lia. set (b := va / 2 ^ 21 mod 512) in *. set (q := a / 2 ^ 21).
  split; intros E; Z.to_euclidean_division_equations; lia.
Qed.

Lemma land_block_u64 x : Z.land (u64 x) TT_BLOCK_MASK = Z.land x TT_BLOCK_MASK.
Proof. rewrite !block_mask_eq. unfold u64. f_equal. Z.to_euclidean_division_equations. lia. Qed.

Lemma l2_filled_block m0 m l2 pbase vbase a k va :
  0 <= a -> k <= 512 -> l2_filled m0 m l2 pbase vbase a k -> slot_block a va < k ->
  l2_walk m l2 va = Some (block_target pbase vbase (a + TT_L2_SIZE * slot_block a va) va).
Proof.
  intros Ha Hk [Hf _] Hj. pose proof (slot_block_range a va) as Hr. set (j := slot_block a va) in *.
  unfold l2_walk. rewrite (proj2 (slot_block_index a va j Ha Hr)) by done. rewrite Hf by lia. unfold tt_block_entry.
  destruct (block_entry (u64 (pbase + u64 (a + TT_L2_SIZE * j - vbase)))) as (T1 & T2 & _); [apply u64_range|].
  rewrite T1, T2, Z.eqb_refl. unfold block_target. do 2 f_equal.
  rewrite <- block_mask_eq, land_block_u64. rewrite <- land_block_u64. symmetry. rewrite <- land_block_u64. f_equal.
  unfold u64. by rewrite Z.add_mod_idemp_r.
Qed.

(** A walk of an address outside the blocks reads none of the words. *)
Lemma l2_filled_other m0 m l2 pbase vbase a k va :
  0 <= a -> k <= 512 -> l2_filled m0 m l2 pbase vbase a k -> ~ slot_block a va < k ->
  l2_walk m l2 va = l2_walk m0 l2 va.
Proof.
  intros Ha Hk [_ Hs] Hva. unfold l2_walk. rewrite (load_same_outside _ 8 _ _ _ Hs); [done|].
  intros x Hx (j & Hj & Hw). apply Hva. unfold within in *.
  rewrite (proj1 (slot_block_index a va j Ha ltac:(lia))); lia.
Qed.

(** In a region that lies in one slot, the addresses of block [j]. *)
Lemma slot_block_in vbase size va :
  0 <= vbase -> vbase mod 2 ^ 30 + size <= 2 ^ 30 ->
  slot_block vbase va < tt_blocks size <-> tt_l2_index vbase <= tt_l2_index va < tt_l2_index vbase + tt_blocks size.
Proof.
  intros Hv Hslot. pose proof (l2_index_range va). pose proof (l2_index_range vbase).
  assert (Hb : tt_blocks size <= 0 \/ tt_l2_index vbase + tt_blocks size <= 512).
  { rewrite l2_index_eq. unfold tt_blocks, TT_L2_SIZE. Z.to_euclidean_division_equations. lia. }
  unfold slot_block. Z.to_euclidean_division_equations. lia.
Qed.

(** Where the two bases agree modulo the block size, a block maps its part of the
    region to the same offset. *)
Lemma block_target_offset pbase vbase va :
  0 <= vbase <= va -> 0 <= pbase -> pbase + (va - vbase) + TT_L2_SIZE <= 2 ^ 48 ->
  pbase mod TT_L2_SIZE = vbase mod TT_L2_SIZE ->
  block_target pbase vbase (vbase + TT_L2_SIZE * (va / TT_L2_SIZE - vbase / TT_L2_SIZE)) va = pbase + (va - vbase).
Proof.
  intros Hv Hp Hmax Hcong. unfold block_target. rewrite block_mask_eq.
  rewrite (Z.mod_small (_ / _)); unfold TT_L2_SIZE in *; Z.to_euclidean_division_equations; lia.
Qed.

Definition region_target (pbase vbase va : Z) : Z :=
  block_target pbase vbase (vbase + TT_L2_SIZE * slot_block vbase va) va.

(** In a region that is [region_ok] every address has its block, and its target is at
    the same offset. *)
Lemma region_ok_target pbase vbase size va :
  region_ok pbase vbase size -> vbase <= va < vbase + size ->
  slot_block vbase va < tt_blocks size /\ region_target pbase vbase va = pbase + (va - vbase).
Proof.
  intros ((Hv & Hsz & Hslot & Hmax & Hp & Hp2) & Hcong & Htail) Hva.
  assert (Hj : slot_block vbase va = va / TT_L2_SIZE - vbase / TT_L2_SIZE).
  { apply slot_block_near. clear -Hslot Hva Hv. unfold TT_L2_SIZE. Z.to_euclidean_division_equations. lia. }
  unfold region_target. rewrite Hj. split.
  - set (n := tt_blocks size) in *. clearbody n. clear -Htail Hva. unfold TT_L2_SIZE in *.
    Z.to_euclidean_division_equations. lia.
  - apply block_target_offset; unfold TT_L2_SIZE in *; lia.
Qed.

Lemma tt_blocks_bound pbase vbase size :
  region_in_slot pbase vbase size ->
  0 < tt_blocks size /\ tt_l2_index vbase + tt_blocks size <= 512.
Proof.
  intros (Hv & Hsz & Hslot & Hmax & _).
  assert (0 < tt_blocks size) by (unfold tt_blocks, TT_L2_SIZE; Z.to_euclidean_division_equations; lia).
  split; [done|].
  destruct (proj1 (tt_blocks_spec size (tt_blocks size - 1))) as [_ Hb]; [lia|].
  unfold TT_L2_SIZE in Hb. rewrite l2_index_eq. Z.to_euclidean_division_equations. lia.
Qed.

(** An empty table translates nothing. *)
Lemma l2_walk_zero m l2 va :
  (forall x, within l2 4096 x -> rd m x = 0) -> l2_walk m l2 va = None.
Proof.
  intros Hz. unfold l2_walk. pose proof (l2_index_range va).
  rewrite (load_zero 8); [done|]. intros x Hx. apply Hz. unfold within in *. lia.
Qed.
Lemma mmu_walk_zero s table va :
  (forall x, within table 4096 x -> rd (k_mem s) x = 0) -> mmu_walk s table va = None.
Proof.
  intros Hz. unfold mmu_walk. pose proof (l1_index_range va).
  rewrite (load_zero 8); [done|]. intros x Hx. apply Hz. unfold within in *. lia.
Qed.

(** The state after a call: the walks in the region's slot are those of the
    filled level 2 table, and the bytes written are known. *)
Lemma pmap_tt_create_tte_walk s table pbase vbase size flags l2 :
  region_in_slot pbase vbase size -> l2_for s table vbase l2 -> apart table 4096 l2 4096 ->
  exists s1 m,
    pmap_tt_create_tte table pbase vbase size flags s
      = Done PMAP_RETURN_SUCCESS (set_mem m s1) /\
    l2_filled (k_mem s1) m l2 pbase vbase vbase (tt_blocks size) /\
    (forall va, tt_l1_index va = tt_l1_index vbase ->
       mmu_walk (set_mem m s1) table va = l2_walk m l2 va) /\
    same_outside (within (table + 8 * tt_l1_index vbase) 8) (k_mem s) (k_mem s1) /\
    (forall va, l2_present s table vbase l2 -> tt_l1_index va = tt_l1_index vbase ->
       mmu_walk s table va = l2_walk (k_mem s1) l2 va).
Proof.
  intros Hr Hl2 Hap. pose proof Hr as (Hv & Hsz & Hslot & Hmax & _).
  destruct (pmap_tt_create_tte_run s table pbase vbase size flags l2 Hr Hl2)
    as (s1 & m & E1 & E & Hm).
  destruct (tt_l2_table_spec _ _ _ _ Hl2) as (s1' & E1' & [Hty Hlin] & Hg & Hs & Hsame).
  assert (s1' = s1) as -> by congruence.
  exists s1, m. split; [done|]. split; [done|].
  pose proof (tt_blocks_bound _ _ _ Hr) as [_ Hbound].
  pose proof (l1_index_range vbase). pose proof (l2_index_range vbase).
  split; [|split; [done|]].
  - intros va Hva. unfold mmu_walk. rewrite Hva. cbn [k_mem set_mem].
    rewrite (load_same_outside (l2_words l2 vbase (tt_blocks size)) 8 (k_mem s1));
      [|apply Hm|].
    + rewrite Hty, Z.eqb_refl. f_equal. exact Hlin.
    + intros x Hx Hw%l2_words_page. unfold within, apart in *. lia.
  - intros va Hpres Hva. rewrite (Hsame Hpres). unfold mmu_walk. rewrite Hva.
    destruct Hpres as [-> ->]. by rewrite Z.eqb_refl.
Qed.

(** *** Mapping a region in a slot that has no level 2 table yet *)
Lemma tt_l2_table_fresh s table v l2 :
  l2_fresh s table v l2 ->
  exists p, lin s (Z.land p TT_TABLE_MASK) = l2 /\
    tt_l2_table table (tt_l1_index v) s = Done l2
      (set_mem (st64 (k_mem s) (table + 8 * tt_l1_index v) (Z.lor (Z.land p TT_TABLE_MASK) 0x3))
         (set_glob pagetables_region_cursor (u64 (l2 + DEFAULTS_KERNEL_VM_PAGE_SIZE)) s)).
Proof.
  intros (He & Hc & Hend & p & Hp & Hl & Hkv). exists p. split; [done|].
  unfold tt_l2_table. rewrite <- Z.eqb_neq in He. cbv beta iota delta [bind ld].
  rewrite He. cbn [negb]. cbv beta iota.
  cbv beta iota delta [pmap_ptregion_alloc bind get put ld ret assert]. rewrite Hc, set_glob_mem.
  destruct (Z.ltb_spec (ld64 (k_mem s) sym_pagetables_region_end) l2); [|lia].
  rewrite Hkv; [done|done|]. intros g Hg. by apply set_glob_ne.
Qed.

(** The walks of the slot after the call; the bytes and globals it changes. *)
Lemma pmap_tt_create_tte_fresh s table pbase vbase size flags l2 :
  region_in_slot pbase vbase size -> l2_fresh s table vbase l2 -> apart table 4096 l2 4096 ->
  (forall x, within l2 4096 x -> rd (k_mem s) x = 0) ->
  exists m,
    pmap_tt_create_tte table pbase vbase size flags s
      = Done PMAP_RETURN_SUCCESS (set_mem m
          (set_glob pagetables_region_cursor (u64 (l2 + DEFAULTS_KERNEL_VM_PAGE_SIZE)) s)) /\
    Z.land (ld64 m (table + 8 * tt_l1_index vbase)) TTE_TYPE_MASK = TTE_TYPE_TABLE /\
    lin s (Z.land (ld64 m (table + 8 * tt_l1_index vbase)) TT_TABLE_MASK) = l2 /\
    (forall va, l2_walk m l2 va =
       if slot_block vbase va <? tt_blocks size then Some (region_target pbase vbase va) else None) /\
    same_outside (fun x => within (table + 8 * tt_l1_index vbase) 8 x \/ within l2 4096 x)
      (k_mem s) m.
Proof.
  intros Hr Hf Hap Hz.
  destruct (pmap_tt_create_tte_walk s table pbase vbase size flags l2 Hr (or_intror Hf) Hap)
    as (s1 & m & E & Hm & _).
  destruct (pmap_tt_create_tte_run s table pbase vbase size flags l2 Hr (or_intror Hf))
    as (s1' & m' & E1 & E' & Hm').
  destruct (tt_l2_table_fresh s table vbase l2 Hf) as (p & Hl & E2).
  rewrite E2 in E1. injection E1 as <-. rewrite E' in E. injection E as <- _. clear Hm.
  set (e := Z.lor (Z.land p TT_TABLE_MASK) 0x3) in *.
  set (m1 := st64 (k_mem s) (table + 8 * tt_l1_index vbase) e) in *.
  pose proof (tt_blocks_bound _ _ _ Hr) as Hb.
  pose proof (l1_index_range vbase). pose proof (l2_index_range vbase).
  pose proof Hm' as [_ Hs].
  assert (Hl1 : ld64 m' (table + 8 * tt_l1_index vbase) = e).
  { rewrite (load_same_outside _ 8 _ _ _ Hs).
    - change (k_mem _) with m1. unfold m1. rewrite ld64_st64_eq. apply u64_id, table_entry_range.
    - intros x Hx Hw%l2_words_page. unfold within, apart in *. lia. }
  exists m'. split; [exact E'|]. rewrite Hl1. destruct (table_entry p) as [T1 T2]. fold e in T1, T2.
  rewrite T1, T2. split_and!; try done.
  - intros va. destruct Hr as (Hv & _). destruct (Z.ltb_spec (slot_block vbase va) (tt_blocks size)) as [Hj|Hj].
    + by apply (l2_filled_block m1 m' l2 pbase vbase vbase (tt_blocks size)); [|lia|..].
    + rewrite (l2_filled_other m1 m' l2 pbase vbase vbase (tt_blocks size) va) by (done || lia).
      apply l2_walk_zero. intros x Hx. unfold m1. rewrite rd_store_out; [by apply Hz|].
      unfold within, apart in *. lia.
  - eapply same_outside_trans; [by apply same_outside_store; [left|]|].
    eapply same_outside_mono; [|exact Hs]. intros x Hw%l2_words_page. by right.
Qed.

(** *** Any region

    A region of up to 512 GB may take several level 2 tables, one for each slot that
    is entered: the addresses [v], [v + TT_L1_SIZE], ... below its end. *)

(** The table of a slot without one: the next page of the page-table region, empty,
    whose physical address is the one the linear map gives. *)
Definition l2_new (s : kstate) (table v cur l2 : Z) : Prop :=
  Z.land (ld64 (k_mem s) (table + 8 * tt_l1_index v)) TTE_TYPE_MASK <> TTE_TYPE_TABLE /\
  l2 = cur /\ cur + 4096 < 2 ^ 64 /\ 0 <= cur /\
  ld64 (k_mem s) sym_pagetables_region_end < l2 /\
  (forall x, within l2 4096 x -> rd (k_mem s) x = 0) /\
  exists p, 0 <= p /\ lin s (Z.land p TT_TABLE_MASK) = l2 /\
    forall s', (forall g, g <> pagetables_region_cursor -> k_glob s' g = k_glob s g) ->
      mmu_translate_kvtop l2 s' = Done p s'.

(** [l2s] are the tables of the slots from [v] on; [cur] is the next free page. *)
Definition l2_step (s : kstate) (table v cur l2 cur' : Z) : Prop :=
  (l2_present s table v l2 /\ cur' = cur) \/ (l2_new s table v cur l2 /\ cur' = cur + 4096).
Fixpoint tables_for (s : kstate) (table cur v : Z) (l2s : list Z) : Prop :=
  match l2s with
  | [] => True
  | l2 :: l2s => exists cur', l2_step s table v cur l2 cur' /\ tables_for s table cur' (v + TT_L1_SIZE) l2s
  end.

Definition pages_apart (ps : list Z) : Prop :=
  forall i j p q, ps !! i = Some p -> ps !! j = Some q -> i <> j -> apart p 4096 q 4096.
Record region_tables (s : kstate) (table v size : Z) (l2s : list Z) : Prop := {
  rt_length : TT_L1_SIZE * (Z.of_nat (length l2s) - 1) < size <= TT_L1_SIZE * Z.of_nat (length l2s);
  rt_apart : pages_apart (table :: l2s);
  rt_end : forall p, p ∈ table :: l2s -> apart sym_pagetables_region_end 8 p 4096;
  rt_tables : tables_for s table (k_glob s pagetables_region_cursor) v l2s;
}.

(** The bytes a call writes. *)
Definition slot_words (table l2 v k x : Z) : Prop :=
  within (table + 8 * tt_l1_index v) 8 x \/ l2_words l2 v k x.
Fixpoint region_words (table v vend : Z) (l2s : list Z) (x : Z) : Prop :=
  match l2s with
  | [] => False
  | l2 :: l2s => slot_words table l2 v (slot_blocks (vend - v)) x \/ region_words table (v + TT_L1_SIZE) vend l2s x
  end.

Lemma slot_words_pages table l2 v k x :
  slot_words table l2 v k x -> within table 4096 x \/ within l2 4096 x.
Proof.
  intros [Hx|Hx%l2_words_page]; [left|by right]. pose proof (l1_index_range v). unfold within in *. lia.
Qed.

(** The number, counted from [v], of the block that is entered for [va]. *)
Definition region_block (v va : Z) : Z := 512 * ((tt_l1_index va - tt_l1_index v) mod 512) + slot_block v va.

Lemma slot_block_next v va : 0 <= v -> slot_block (v + TT_L1_SIZE) va = slot_block v va.
Proof.
  intros Hv. unfold slot_block, TT_L1_SIZE. rewrite !l2_index_eq. set (b := va / 2 ^ 21 mod 512).
  Z.to_euclidean_division_equations. lia.
Qed.
Lemma l1_next v va :
  0 <= v -> (tt_l1_index va - tt_l1_index (v + TT_L1_SIZE)) mod 512 = (tt_l1_index va - tt_l1_index v - 1) mod 512.
Proof.
  intros Hv. unfold TT_L1_SIZE. rewrite !l1_index_eq. set (b := va / 2 ^ 30 mod 512).
  Z.to_euclidean_division_equations. lia.
Qed.
Lemma l1_index_slots v i j :
  0 <= v -> 0 <= i < j -> j < i + 512 -> tt_l1_index (v + TT_L1_SIZE * i) <> tt_l1_index (v + TT_L1_SIZE * j).
Proof. intros. unfold TT_L1_SIZE. rewrite !l1_index_eq. Z.to_euclidean_division_equations. lia. Qed.
Lemma region_block_next v va :
  0 <= v -> region_block (v + TT_L1_SIZE) va =
    region_block v va - 512 + (if decide (tt_l1_index va = tt_l1_index v) then 512 * 512 else 0).
Proof.
  intros Hv. unfold region_block. rewrite slot_block_next, l1_next by done.
  pose proof (l1_index_range va). pose proof (l1_index_range v).
  destruct (decide _) as [->|Hne]; Z.to_euclidean_division_equations; lia.
Qed.
Lemma tt_blocks_next n : tt_blocks (n - TT_L1_SIZE) = tt_blocks n - 512.
Proof. unfold tt_blocks, TT_L1_SIZE, TT_L2_SIZE. Z.to_euclidean_division_equations. lia. Qed.

(** The two walks of an address in one slot. *)
Lemma mmu_walk_present s table va v l2 :
  l2_present s table v l2 -> tt_l1_index va = tt_l1_index v -> mmu_walk s table va = l2_walk (k_mem s) l2 va.
Proof. intros [Ht Hl] E. unfold mmu_walk. by rewrite E, Ht, Hl, Z.eqb_refl. Qed.

(** One turn of the outer loop. *)
Lemma tt_slot_run s table pbase vbase vend v l2 cur' :
  0 <= v -> v < vend < 2 ^ 64 -> v + 2 ^ 30 < 2 ^ 64 ->
  l2_step s table v (k_glob s pagetables_region_cursor) l2 cur' -> apart table 4096 l2 4096 ->
  exists s', (let! l2_table := tt_l2_table table (tt_l1_index v) in
       tt_fill_l2 l2_table pbase vbase vend v ;! ret (u64 (v + TT_L1_SIZE))) s = Done (v + TT_L1_SIZE) s' /\
    k_glob s' pagetables_region_cursor = cur' /\
    (forall g, g <> pagetables_region_cursor -> k_glob s' g = k_glob s g) /\
    l2_present s' table v l2 /\
    same_outside (slot_words table l2 v (slot_blocks (vend - v))) (k_mem s) (k_mem s') /\
    forall va, tt_l1_index va = tt_l1_index v ->
      mmu_walk s' table va = if slot_block v va <? slot_blocks (vend - v)
        then Some (block_target pbase vbase (v + TT_L2_SIZE * slot_block v va) va) else mmu_walk s table va.
Proof.
  intros Hv Hend Hmax Hstep Hap.
  assert (exists s1, tt_l2_table table (tt_l1_index v) s = Done l2 s1 /\
    k_glob s1 pagetables_region_cursor = cur' /\ l2_present s1 table v l2 /\
    (forall g, g <> pagetables_region_cursor -> k_glob s1 g = k_glob s g) /\
    same_outside (within (table + 8 * tt_l1_index v) 8) (k_mem s) (k_mem s1) /\
    forall va, tt_l1_index va = tt_l1_index v -> mmu_walk s table va = l2_walk (k_mem s1) l2 va)
    as (s1 & E1 & Hc & Hp & Hg & Hs & Hold).
  { destruct Hstep as [[Hp ->]|[Hn ->]].
    - destruct (tt_l2_table_spec s table v l2 (or_introl Hp)) as (s1 & E & Hp1 & Hg & Hs & Hsame).
      rewrite (Hsame Hp) in *. exists s. split_and!; try done. intros va. by apply mmu_walk_present.
    - destruct Hn as (Ht & -> & Hr & Hr0 & He & Hz & p & Hp & Hl & Hkv). set (cur := k_glob s pagetables_region_cursor) in *.
      assert (Hf : l2_fresh s table v cur) by (split_and!; try done; exists p; split_and!; try done; auto).
      destruct (tt_l2_table_spec s table v cur (or_intror Hf)) as (s1 & E & Hp1 & Hg & Hs & _).
      destruct (tt_l2_table_fresh s table v cur Hf) as (q & _ & E').
      rewrite E in E'. injection E' as Es. exists s1. split_and!; try done.
      + rewrite Es, set_mem_glob, set_glob_eq. change DEFAULTS_KERNEL_VM_PAGE_SIZE with 4096. apply u64_id. lia.
      + intros va Hva. unfold mmu_walk. rewrite Hva. apply Z.eqb_neq in Ht. rewrite Ht. symmetry. apply l2_walk_zero.
        intros x Hx. rewrite <- Hs; [by apply Hz|]. pose proof (l1_index_range v). unfold within, apart in *. lia. }
  destruct (tt_fill_l2_spec s1 l2 pbase vbase vend v Hv Hend Hmax) as (a & m & E2 & Hm).
  set (k := slot_blocks (vend - v)) in *. assert (Hk : k <= 512) by (unfold k, slot_blocks; lia).
  pose proof (l1_index_range v).
  assert (Hp' : l2_present (set_mem m s1) table v l2).
  { unfold l2_present. cbn [k_mem set_mem]. rewrite (load_same_outside _ 8 _ _ _ (proj2 Hm)); [exact Hp|].
    intros x Hx Hw%l2_words_page. unfold within, apart in *. lia. }
  exists (set_mem m s1). split_and!; try done.
  - rewrite (bind_done _ _ _ _ _ E1), (bind_done _ _ _ _ _ E2). unfold ret. rewrite u64_id; [done|]. unfold TT_L1_SIZE. lia.
  - eapply same_outside_trans; eapply same_outside_mono; [|exact Hs| |exact (proj2 Hm)]; unfold slot_words; tauto.
  - intros va Hva. rewrite (mmu_walk_present _ _ _ _ _ Hp' Hva), Hold by done. cbn [k_mem set_mem].
    destruct (Z.ltb_spec (slot_block v va) k).
    + by apply (l2_filled_block (k_mem s1) m l2 pbase vbase v k).
    + apply (l2_filled_other (k_mem s1) m l2 pbase vbase v k); [done|done|done|lia].
Qed.

(** The tables of later slots, and the walks of other addresses, after a step that
    changes neither. *)
Lemma l2_step_frame s s' R table v cur l2 cur' :
  (forall g, g <> pagetables_region_cursor -> k_glob s' g = k_glob s g) ->
  same_outside R (k_mem s) (k_mem s') ->
  (forall x, within (table + 8 * tt_l1_index v) 8 x \/ within l2 4096 x \/ within sym_pagetables_region_end 8 x -> ~ R x) ->
  l2_step s table v cur l2 cur' -> l2_step s' table v cur l2 cur'.
Proof.
  intros Hg Hs HR. pose proof (load_same_outside R 8 _ _ (table + 8 * tt_l1_index v) Hs) as He.
  pose proof (load_same_outside R 8 _ _ sym_pagetables_region_end Hs) as Hend.
  intros [[[Ht Hl] ->]|[(Ht & Ec & Hr & Hr0 & Hlt & Hz & p & Hp & Hl & Hkv) ->]]; [left|right]; (split; [|done]).
  - split; rewrite He by auto; [done|]. rewrite <- Hl. by apply lin_same.
  - split_and!; rewrite ?He, ?Hend by auto; try done.
    + intros x Hx. rewrite <- Hs by auto. by apply Hz.
    + exists p. split; [done|]. split; [rewrite <- Hl; by apply lin_same|].
      intros s2 Hg2. apply Hkv. intros g Hne. by rewrite Hg2, Hg.
Qed.

Lemma tables_for_frame s s' R table l2s cur v :
  (forall g, g <> pagetables_region_cursor -> k_glob s' g = k_glob s g) ->
  same_outside R (k_mem s) (k_mem s') ->
  (forall i x, 0 <= i < Z.of_nat (length l2s) -> within (table + 8 * tt_l1_index (v + TT_L1_SIZE * i)) 8 x -> ~ R x) ->
  (forall p x, p ∈ l2s -> within p 4096 x -> ~ R x) ->
  (forall x, within sym_pagetables_region_end 8 x -> ~ R x) ->
  tables_for s table cur v l2s -> tables_for s' table cur v l2s.
Proof.
  intros Hg Hs. revert cur v. induction l2s as [|l2 l2s IH]; intros cur v Hw Hp He; [done|].
  intros (cur' & Hstep & Hrest). exists cur'. split.
  - apply (l2_step_frame s s' R); [done|done| |done]. intros x [Hx|[Hx|Hx]]; [|apply (Hp l2); [by left|done]|by apply He].
    apply (Hw 0); [simpl; lia|]. by rewrite Z.mul_0_r, Z.add_0_r.
  - apply IH; [|by intros p x Hin; apply Hp; right|done|done].
    intros i x Hi Hx. apply (Hw (i + 1)); [simpl; lia|].
    by replace (v + TT_L1_SIZE * (i + 1)) with (v + TT_L1_SIZE + TT_L1_SIZE * i) by lia.
Qed.

Lemma mmu_walk_frame s s' R table va :
  (forall g, g <> pagetables_region_cursor -> k_glob s' g = k_glob s g) ->
  same_outside R (k_mem s) (k_mem s') ->
  (forall x, within (table + 8 * tt_l1_index va) 8 x -> ~ R x) ->
  (forall l2 x, l2_present s table va l2 -> within l2 4096 x -> ~ R x) ->
  mmu_walk s' table va = mmu_walk s table va.
Proof.
  intros Hg Hs Hw Hl. unfold mmu_walk. rewrite (load_same_outside R 8 _ _ _ Hs Hw).
  destruct (Z.eqb_spec (Z.land (ld64 (k_mem s) (table + 8 * tt_l1_index va)) TTE_TYPE_MASK) TTE_TYPE_TABLE) as [Ht|]; [|done].
  rewrite (lin_same s s') by done. set (l2 := lin s _). pose proof (l2_index_range va).
  unfold l2_walk. rewrite (load_same_outside R 8 _ _ _ Hs); [done|]. intros x Hx. apply (Hl l2); [by split|].
  unfold within in *. lia.
Qed.

(** The walk of [va] passes no table that the region's slots other than its own use. *)
Definition walk_apart (s : kstate) (table va v : Z) (l2s : list Z) : Prop :=
  forall l2', l2_present s table va l2' -> apart l2' 4096 table 4096 /\
    forall i l2, l2s !! i = Some l2 -> tt_l1_index (v + TT_L1_SIZE * Z.of_nat i) <> tt_l1_index va ->
      apart l2' 4096 l2 4096.

(** What a call that maps the slots from [v] on makes of the walks. *)
Definition region_walks (s s' : kstate) (table pbase vbase v n : Z) (l2s : list Z) : Prop :=
  forall va,
    (region_block v va < tt_blocks n ->
       mmu_walk s' table va = Some (block_target pbase vbase (v + TT_L2_SIZE * region_block v va) va)) /\
    (tt_blocks n <= region_block v va -> walk_apart s table va v l2s ->
       mmu_walk s' table va = mmu_walk s table va).

Lemma region_walks_next s s1 s' table pbase vbase v n l2 l2s :
  0 <= v -> n <= 2 ^ 39 -> Z.of_nat (length (l2 :: l2s)) <= 512 -> pages_apart (table :: l2 :: l2s) ->
  (forall g, g <> pagetables_region_cursor -> k_glob s1 g = k_glob s g) ->
  same_outside (slot_words table l2 v (slot_blocks n)) (k_mem s) (k_mem s1) ->
  l2_present s1 table v l2 ->
  (forall va, tt_l1_index va = tt_l1_index v ->
      mmu_walk s1 table va = if slot_block v va <? slot_blocks n
        then Some (block_target pbase vbase (v + TT_L2_SIZE * slot_block v va) va) else mmu_walk s table va) ->
  region_walks s1 s' table pbase vbase (v + TT_L1_SIZE) (n - TT_L1_SIZE) l2s ->
  region_walks s s' table pbase vbase v n (l2 :: l2s).
Proof.
  intros Hv Hn Hlen Hap Hg Hs Hp Hown Hrest va. destruct (Hrest va) as [Hin Hout].
  rewrite region_block_next, tt_blocks_next in Hin, Hout by done.
  assert (Hb : tt_blocks n <= 512 * 512) by (unfold tt_blocks, TT_L2_SIZE; Z.to_euclidean_division_equations; lia).
  pose proof (slot_block_range v va) as Hsb.
  destruct (decide (tt_l1_index va = tt_l1_index v)) as [E|E].
  - assert (Hrb : region_block v va = slot_block v va) by (unfold region_block; rewrite E, Z.sub_diag; reflexivity).
    rewrite Hrb in *. assert (Hw : mmu_walk s' table va = mmu_walk s1 table va).
    { apply Hout; [lia|]. intros l2' [Ht' Hl']. destruct Hp as [Ht Hl]. rewrite E in Ht', Hl'.
      assert (l2' = l2) as -> by congruence. split.
      - apply (Hap 1%nat 0%nat); done.
      - intros i l2'' Hi _. apply (Hap 1%nat (S (S i))); [done|done|lia]. }
    rewrite Hw, Hown by done. unfold slot_blocks. split; intros Hlt; destruct (Z.ltb_spec (slot_block v va) (Z.min 512 (tt_blocks n))); done || lia.
  - assert (Hge : 512 <= region_block v va).
    { unfold region_block. pose proof (l1_index_range va). pose proof (l1_index_range v).
      assert ((tt_l1_index va - tt_l1_index v) mod 512 <> 0) by (Z.to_euclidean_division_equations; lia).
      pose proof (Z.mod_pos_bound (tt_l1_index va - tt_l1_index v) 512 ltac:(lia)). lia. }
    split; intros Hlt.
    + rewrite Hin by lia. do 2 f_equal. unfold TT_L1_SIZE, TT_L2_SIZE. lia.
    + intros Hwa. pose proof (l1_index_range va). pose proof (l1_index_range v).
      assert (Hentry : ld64 (k_mem s1) (table + 8 * tt_l1_index va) = ld64 (k_mem s) (table + 8 * tt_l1_index va)).
      { apply (load_same_outside _ 8 _ _ _ Hs). intros x Hx [Hw|Hw%l2_words_page]; unfold within in *; [lia|].
        pose proof (Hap 0%nat 1%nat table l2 eq_refl eq_refl ltac:(lia)). unfold apart in *. lia. }
      rewrite Hout; [|lia|].
      * apply (mmu_walk_frame s s1 _ table va Hg Hs).
        -- intros x Hx [Hw|Hw%l2_words_page]; unfold within in *; [lia|].
           pose proof (Hap 0%nat 1%nat table l2 eq_refl eq_refl ltac:(lia)). unfold apart in *. lia.
        -- intros l2' x Hpr Hx Hw%slot_words_pages. destruct (Hwa l2' Hpr) as [Hw1 Hw2].
           pose proof (Hw2 0%nat l2 eq_refl ltac:(rewrite Z.mul_0_r, Z.add_0_r; congruence)). unfold apart, within in *. lia.
      * intros l2' [Ht' Hl']. rewrite Hentry, (lin_same s s1) in * by done. destruct (Hwa l2' (conj Ht' Hl')) as [Hw1 Hw2].
        split; [done|]. intros i l2'' Hi Hne. apply (Hw2 (S i)); [done|].
        replace (v + TT_L1_SIZE * Z.of_nat (S i)) with (v + TT_L1_SIZE + TT_L1_SIZE * Z.of_nat i) by lia. done.
Qed.

(** The outer loop. *)
Lemma tt_slots_run table pbase vbase vend fuel l2s s v :
  0 <= v -> vend + 2 ^ 30 < 2 ^ 64 -> vend - v <= 2 ^ 39 -> (length l2s <= fuel)%nat ->
  region_tables s table v (vend - v) l2s ->
  exists a s', loop fuel (fun a => ret (a <? vend))
      (fun a => let! l2_table := tt_l2_table table (tt_l1_index a) in
         tt_fill_l2 l2_table pbase vbase vend a ;! ret (u64 (a + TT_L1_SIZE))) v s = Done a s' /\
    region_walks s s' table pbase vbase v (vend - v) l2s /\
    same_outside (region_words table v vend l2s) (k_mem s) (k_mem s').
Proof.
  revert fuel s v. induction l2s as [|l2 l2s IH]; intros fuel s v Hv Hmax Hn Hfuel [Hlen Hap Hend Ht].
  - simpl in Hlen. exists v, s. split; [|split].
    + apply loop_stop. cbv beta delta [ret]. by destruct (Z.ltb_spec v vend); [lia|].
    + intros va. split; [|done]. intros Hb. exfalso. unfold region_block in Hb. pose proof (slot_block_range v va).
      pose proof (Z.mod_pos_bound (tt_l1_index va - tt_l1_index v) 512 ltac:(lia)).
      assert (tt_blocks (vend - v) <= 0) by (unfold tt_blocks, TT_L2_SIZE; Z.to_euclidean_division_equations; lia). lia.
    + done.
  - destruct fuel as [|fuel]; [simpl in Hfuel; lia|]. destruct Ht as (cur' & Hstep & Hrest).
    assert (HL : TT_L1_SIZE = 2 ^ 30) by done. assert (Hlen1 : Z.of_nat (length (l2 :: l2s)) <= 512) by lia.
    simpl length in Hlen, Hlen1. assert (Hlt : v < vend) by lia.
    pose proof (Hap 0%nat 1%nat table l2 eq_refl eq_refl ltac:(lia)) as Hap1.
    destruct (tt_slot_run s table pbase vbase vend v l2 cur') as (s1 & E1 & Hc & Hg & Hp & Hs & Hown); try done; try lia.
    assert (Hpage : forall p x, p ∈ l2s -> within p 4096 x -> ~ slot_words table l2 v (slot_blocks (vend - v)) x).
    { intros p x (i & Hi)%list_elem_of_lookup Hx Hw%slot_words_pages.
      pose proof (Hap 0%nat (S (S i)) table p eq_refl Hi ltac:(lia)). pose proof (Hap 1%nat (S (S i)) l2 p eq_refl Hi ltac:(lia)).
      unfold apart, within in *. lia. }
    destruct (IH fuel s1 (v + TT_L1_SIZE)) as (a & s' & E & Hwalks & Hs'); try lia.
    { simpl in Hfuel. lia. }
    { split.
      - lia.
      - intros i j p q Hi Hj Hne. destruct i as [|i], j as [|j]; simpl in Hi, Hj; [done|..].
        + apply (Hap 0%nat (S (S j)) p q); done.
        + apply (Hap (S (S i)) 0%nat p q); done.
        + apply (Hap (S (S i)) (S (S j)) p q); [done|done|lia].
      - intros p [->|Hin]%elem_of_cons; apply Hend; [by left|right; by right].
      - rewrite Hc. apply (tables_for_frame s s1 _ table l2s cur' (v + TT_L1_SIZE) Hg Hs); try done.
        + intros i x Hi Hx [Hw|Hw%l2_words_page].
          * pose proof (l1_index_slots v 0 (i + 1) Hv ltac:(lia) ltac:(lia)) as Hne. rewrite Z.mul_0_r, Z.add_0_r in Hne.
            replace (v + TT_L1_SIZE + TT_L1_SIZE * i) with (v + TT_L1_SIZE * (i + 1)) in Hx by lia. unfold within in *. lia.
          * pose proof (l1_index_range (v + TT_L1_SIZE + TT_L1_SIZE * i)). unfold apart, within in *. lia.
        + intros x Hx Hw%slot_words_pages. pose proof (Hend table (list_elem_of_here _ _)). pose proof (Hend l2 (list_elem_of_further _ _ _ (list_elem_of_here _ _))).
          unfold apart, within in *. lia. }
    exists a, s'. split; [|split].
    + cbn [loop]. unfold bind at 1. cbv beta delta [ret]. destruct (Z.ltb_spec v vend); [|lia].
      fold (@ret Z). rewrite (bind_done _ _ _ _ _ E1). exact E.
    + replace (vend - (v + TT_L1_SIZE)) with (vend - v - TT_L1_SIZE) in Hwalks by lia.
      by apply (region_walks_next s s1 s' table pbase vbase v (vend - v) l2 l2s).
    + eapply same_outside_trans; eapply same_outside_mono; [|exact Hs| |exact Hs']; simpl; tauto.
Qed.

(** Addresses whose entry in the table is not below that of the base have the number of
    the block they lie in. *)
Lemma region_block_in vbase va :
  0 <= vbase <= va -> va / TT_L2_SIZE - vbase / TT_L2_SIZE < 512 * 512 -> tt_l2_index vbase <= tt_l2_index va ->
  region_block vbase va = va / TT_L2_SIZE - vbase / TT_L2_SIZE.
Proof.
  intros Hv Hva Hi. unfold region_block, slot_block. rewrite !l1_index_eq. rewrite !l2_index_eq in *.
  change (2 ^ 30) with (2 ^ 21 * 512). rewrite <- !Z.div_div by lia. change (2 ^ 21) with TT_L2_SIZE in *.
  assert (Hle : vbase / TT_L2_SIZE <= va / TT_L2_SIZE) by (apply Z.div_le_mono; unfold TT_L2_SIZE; lia).
  set (b := vbase / TT_L2_SIZE) in *. set (a := va / TT_L2_SIZE) in *. clearbody a b. clear Hv va vbase.
  Z.to_euclidean_division_equations. lia.
Qed.
(** Past a gigabyte from an unaligned base the block is the one 1 GB further. *)
Lemma region_block_crossing vbase va :
  0 <= vbase <= va -> va / TT_L2_SIZE - vbase / TT_L2_SIZE + 512 < 512 * 512 -> tt_l2_index va < tt_l2_index vbase ->
  region_block vbase va = va / TT_L2_SIZE - vbase / TT_L2_SIZE + 512.
Proof.
  intros Hv Hva Hi. unfold region_block, slot_block. rewrite !l1_index_eq. rewrite !l2_index_eq in *.
  change (2 ^ 30) with (2 ^ 21 * 512). rewrite <- !Z.div_div by lia. change (2 ^ 21) with TT_L2_SIZE in *.
  assert (Hle : vbase / TT_L2_SIZE <= va / TT_L2_SIZE) by (apply Z.div_le_mono; unfold TT_L2_SIZE; lia).
  set (b := vbase / TT_L2_SIZE) in *. set (a := va / TT_L2_SIZE) in *. clearbody a b. clear Hv va vbase.
  Z.to_euclidean_division_equations. lia.
Qed.

Lemma pmap_tt_create_tte_region s table pbase vbase size flags l2s :
  0 <= vbase -> 0 <= size <= 2 ^ 39 -> vbase + size + 2 ^ 30 < 2 ^ 64 -> pbase <= DEFAULTS_KERNEL_VM_VIRT_BASE ->
  region_tables s table vbase size l2s ->
  exists s', pmap_tt_create_tte table pbase vbase size flags s = Done PMAP_RETURN_SUCCESS s' /\
    region_walks s s' table pbase vbase vbase size l2s /\
    same_outside (region_words table vbase (vbase + size) l2s) (k_mem s) (k_mem s').
Proof.
  intros Hv Hsz Hmax Hf Ht. unfold pmap_tt_create_tte.
  destruct (Z.ltb_spec DEFAULTS_KERNEL_VM_VIRT_BASE pbase); [lia|].
  rewrite (u64_id (vbase + size)) by lia. set (fuel := Z.to_nat (size / TT_L1_SIZE + 1)).
  destruct (tt_slots_run table pbase vbase (vbase + size) fuel l2s s vbase) as (a & s' & E & Hw & Hs); try lia.
  { destruct Ht as [Hlen _ _ _]. unfold fuel, TT_L1_SIZE in *. Z.to_euclidean_division_equations. lia. }
  { by rewrite Z.add_simpl_l. }
  rewrite Z.add_simpl_l in Hw. exists s'. by rewrite (bind_done _ _ _ _ _ E).
Qed.

(** (C1) [pmap_tt_create_tte] on any region of at most 512 GB that ends below the last
    gigabyte of the address space.  A physical base above the kernel's virtual base is
    refused and nothing changes.  Otherwise block [j] of the region is entered at
    the table of slot [j / 512], in the entry [j] places after that of the base, around
    the table: an address whose entry is one of these translates to that block, every
    other address whose own tables are none of the region's translates as before, and
    only the level 1 entries and the level 2 words named by [region_words] are written.
    So an address of the region translates to the physical address at the same offset
    if both bases have the same offset in a block, its block is one of the
    [tt_blocks size] counted from the base, and its entry is not below that of the base,
    as in the first slot and in every slot when the base is a multiple of 1 GB.
    Of the others the first statement says what they get: a last block
    that is not reached keeps its old translation, and where the region goes past a
    gigabyte from an unaligned base the entries are those of the block 1 GB further. *)
Theorem pmap_tt_create_tte_maps s table pbase vbase size flags l2s :
  0 <= vbase -> 0 <= size <= 2 ^ 39 -> vbase + size + 2 ^ 30 < 2 ^ 64 -> 0 <= pbase ->
  region_tables s table vbase size l2s ->
  (DEFAULTS_KERNEL_VM_VIRT_BASE < pbase ->
     pmap_tt_create_tte table pbase vbase size flags s = Done PMAP_RETURN_FAILED s) /\
  (pbase <= DEFAULTS_KERNEL_VM_VIRT_BASE ->
   exists s', pmap_tt_create_tte table pbase vbase size flags s = Done PMAP_RETURN_SUCCESS s' /\
    (forall va, region_block vbase va < tt_blocks size ->
       mmu_walk s' table va =
         Some (Z.land (pbase + TT_L2_SIZE * region_block vbase va) TT_BLOCK_MASK + va mod TT_L2_SIZE)) /\
    (forall va, tt_blocks size <= region_block vbase va -> walk_apart s table va vbase l2s ->
       mmu_walk s' table va = mmu_walk s table va) /\
    (forall va, vbase <= va < vbase + size -> pbase mod TT_L2_SIZE = vbase mod TT_L2_SIZE ->
       pbase + size + TT_L2_SIZE <= 2 ^ 48 -> va / TT_L2_SIZE - vbase / TT_L2_SIZE < tt_blocks size ->
       tt_l2_index vbase <= tt_l2_index va ->
       mmu_walk s' table va = Some (pbase + (va - vbase))) /\
    same_outside (region_words table vbase (vbase + size) l2s) (k_mem s) (k_mem s')).
Proof.
  intros Hv Hsz Hmax Hp Ht. split.
  { intros Hf. unfold pmap_tt_create_tte. by destruct (Z.ltb_spec DEFAULTS_KERNEL_VM_VIRT_BASE pbase); [|lia]. }
  intros Hf. destruct (pmap_tt_create_tte_region s table pbase vbase size flags l2s) as (s' & E & Hw & Hs); try done.
  exists s'. split; [exact E|].
  assert (Hin : forall va, region_block vbase va < tt_blocks size -> mmu_walk s' table va =
         Some (Z.land (pbase + TT_L2_SIZE * region_block vbase va) TT_BLOCK_MASK + va mod TT_L2_SIZE)).
  { intros va Hb. rewrite (proj1 (Hw va) Hb). unfold block_target. by rewrite Z.add_simpl_l. }
  split; [exact Hin|]. split; [intros va; apply Hw|]. split; [|exact Hs].
  intros va Hva Hcong Hpm Hb Hi.
  assert (Hn : tt_blocks size <= 512 * 512) by (unfold tt_blocks, TT_L2_SIZE; Z.to_euclidean_division_equations; lia).
  pose proof (region_block_in vbase va ltac:(lia) ltac:(lia) Hi) as Hrb.
  rewrite Hin by (by rewrite Hrb). f_equal. rewrite Hrb, <- (block_target_offset pbase vbase va); try done; try lia.
  unfold block_target. by rewrite Z.add_simpl_l.
Qed.

(** The index wraps around within the table of a slot: of a region that goes past a
    gigabyte from an unaligned base, the addresses there that are mapped translate 1 GB
    too far, although the call reports success. *)
Theorem pmap_tt_create_tte_crossing s table pbase vbase size flags l2s va :
  0 <= vbase -> 0 <= size <= 2 ^ 39 -> vbase + size + 2 ^ 30 < 2 ^ 64 -> 0 <= pbase ->
  pbase + size + TT_L1_SIZE + TT_L2_SIZE <= 2 ^ 48 -> pbase mod TT_L2_SIZE = vbase mod TT_L2_SIZE ->
  region_tables s table vbase size l2s -> vbase <= va < vbase + size -> tt_l2_index va < tt_l2_index vbase ->
  va / TT_L2_SIZE - vbase / TT_L2_SIZE + 512 < tt_blocks size ->
  exists s', pmap_tt_create_tte table pbase vbase size flags s = Done PMAP_RETURN_SUCCESS s' /\
    mmu_walk s' table va = Some (pbase + (va - vbase) + TT_L1_SIZE).
Proof.
  intros Hv Hsz Hmax Hp Hpm Hcong Ht Hva Hi Hb.
  assert (Hn : tt_blocks size <= 512 * 512) by (unfold tt_blocks, TT_L2_SIZE; Z.to_euclidean_division_equations; lia).
  destruct (pmap_tt_create_tte_region s table pbase vbase size flags l2s) as (s' & E & Hw & _); try done.
  { unfold DEFAULTS_KERNEL_VM_VIRT_BASE, TT_L1_SIZE, TT_L2_SIZE in *. lia. }
  pose proof (region_block_crossing vbase va ltac:(lia) ltac:(lia) Hi) as Hrb.
  exists s'. split; [exact E|]. rewrite (proj1 (Hw va)) by (by rewrite Hrb). f_equal. rewrite Hrb.
  transitivity (pbase + TT_L1_SIZE + (va - vbase)); [|lia]. rewrite <- (block_target_offset (pbase + TT_L1_SIZE) vbase va).
  - unfold block_target. do 2 f_equal. unfold TT_L1_SIZE, TT_L2_SIZE. lia.
  - lia.
  - unfold TT_L1_SIZE. lia.
  - unfold TT_L1_SIZE, TT_L2_SIZE in *. lia.
  - rewrite <- Hcong. unfold TT_L1_SIZE, TT_L2_SIZE. Z.to_euclidean_division_equations. lia.
Qed.

(** The blocks are counted from [vbase], not from the start of its block: of a
    region whose end lies in a further block than [size] bytes need, the last
    address keeps its old translation although the call reports success. *)
Theorem pmap_tt_create_tte_tail_unmapped s table pbase vbase size flags l2 :
  region_in_slot pbase vbase size -> l2_present s table vbase l2 ->
  apart table 4096 l2 4096 ->
  TT_L2_SIZE * tt_blocks size < vbase mod TT_L2_SIZE + size ->
  exists s', pmap_tt_create_tte table pbase vbase size flags s = Done PMAP_RETURN_SUCCESS s' /\
    mmu_walk s' table (vbase + size - 1) = mmu_walk s table (vbase + size - 1).
Proof.
  intros Hr Hl2 Hap Htail. pose proof Hr as (Hv & Hsz & Hslot & Hmax & _).
  destruct (pmap_tt_create_tte_walk s table pbase vbase size flags l2 Hr (or_introl Hl2) Hap)
    as (s1 & m & E & Hm & Hwalk & Hs & Hold).
  exists (set_mem m s1). split; [done|].
  assert (E1 : tt_l1_index (vbase + size - 1) = tt_l1_index vbase) by (apply l1_index_same; lia).
  rewrite Hwalk, Hold by done. pose proof (tt_blocks_bound _ _ _ Hr).
  apply (l2_filled_other (k_mem s1) m l2 pbase vbase vbase (tt_blocks size)); [done| |done|].
  { pose proof (l2_index_range vbase). lia. }
  rewrite slot_block_in by lia. rewrite !l2_index_eq. unfold TT_L2_SIZE, tt_blocks in *.
  unfold TT_L2_SIZE in *. Z.to_euclidean_division_equations. lia.
Qed.
End PmapProofs.

(** *** Witness: 1.5 GB mapped with two fresh tables *)
Lemma demo_region_tables :
  @region_tables demo_symbols demo_hardware demo_state (DEMO_VIRT + 0x200000) DEMO_VIRT 0x60000000
    [DEMO_VIRT + 0x201000; DEMO_VIRT + 0x202000].
Proof.
  split.
  - vm_compute. split; congruence.
  - intros i j p q Hi Hj Hne. unfold apart. destruct i as [|[|[|i]]], j as [|[|[|j]]]; simpl in Hi, Hj;
      try done; injection Hi as <-; injection Hj as <-; unfold DEMO_VIRT; lia.
  - intros p Hp. rewrite !elem_of_cons, elem_of_nil in Hp.
    unfold apart. change sym_pagetables_region_end with (DEMO_VIRT + 0x210000). destruct Hp as [->|[->|[->|[]]]]; lia.
  - exists (DEMO_VIRT + 0x202000). split; [right|exists (DEMO_VIRT + 0x203000); split; [right|done]].
    + split; [|reflexivity]. split; [vm_compute; congruence|]. split; [reflexivity|]. split; [vm_compute; reflexivity|].
      split; [vm_compute; congruence|]. split; [vm_compute; reflexivity|]. split; [done|].
      exists (DEMO_PHYS + 0x201000). split; [unfold DEMO_PHYS; lia|]. split; [vm_compute; reflexivity|]. reflexivity.
    + split; [|reflexivity]. split; [vm_compute; congruence|]. split; [reflexivity|]. split; [vm_compute; reflexivity|].
      split; [vm_compute; congruence|]. split; [vm_compute; reflexivity|]. split; [done|].
      exists (DEMO_PHYS + 0x202000). split; [unfold DEMO_PHYS; lia|]. split; [vm_compute; reflexivity|]. reflexivity.
Qed.

Lemma pmap_tt_create_tte_maps_witness :
  let _ := demo_symbols in let _ := demo_hardware in
  exists s', pmap_tt_create_tte (DEMO_VIRT + 0x200000) DEMO_PHYS DEMO_VIRT 0x60000000
               PMAP_ACCESS_READWRITE demo_state = Done PMAP_RETURN_SUCCESS s' /\
    (forall va, DEMO_VIRT <= va < DEMO_VIRT + 0x60000000 ->
       mmu_walk s' (DEMO_VIRT + 0x200000) va = Some (DEMO_PHYS + (va - DEMO_VIRT))) /\
    mmu_walk s' (DEMO_VIRT + 0x200000) (DEMO_VIRT + 0x60000000) = None.
Proof.
  intros sy hw.
  destruct (pmap_tt_create_tte_maps demo_state (DEMO_VIRT + 0x200000) DEMO_PHYS DEMO_VIRT
      0x60000000 PMAP_ACCESS_READWRITE [DEMO_VIRT + 0x201000; DEMO_VIRT + 0x202000]) as [_ Hok].
  - unfold DEMO_VIRT. lia.
  - lia.
  - unfold DEMO_VIRT. lia.
  - unfold DEMO_PHYS. lia.
  - apply demo_region_tables.
  - destruct Hok as (s' & E & _ & Hout & Hin & _); [unfold DEMO_PHYS, DEFAULTS_KERNEL_VM_VIRT_BASE; lia|].
    exists s'. split; [exact E|]. split.
    + intros va Hva. apply Hin; [exact Hva|reflexivity|..].
      * unfold DEMO_PHYS, TT_L2_SIZE. lia.
      * assert (va / TT_L2_SIZE < DEMO_VIRT / TT_L2_SIZE + tt_blocks 0x60000000); [|lia].
        apply Z.div_lt_upper_bound; [done|]. destruct Hva as [_ Hva]. exact Hva.
      * apply l2_index_range.
    + etransitivity; [apply Hout|apply mmu_walk_zero; intros x _; reflexivity].
      * vm_compute. congruence.
      * intros l2 [Ht _]. exfalso. revert Ht. rewrite (load_zero 8) by (intros x _; reflexivity). vm_compute. congruence.
Defined.

(** *** Witness: 2 MB that start in the middle of a block *)
Definition demo_mapped : kstate :=
  match @pmap_tt_create_tte demo_symbols demo_hardware (DEMO_VIRT + 0x200000) DEMO_PHYS DEMO_VIRT
          0x400000 PMAP_ACCESS_READWRITE demo_state with
  | Done _ s => s
  | _ => demo_state
  end.

Lemma pmap_tt_create_tte_tail_unmapped_witness :
  let _ := demo_symbols in let _ := demo_hardware in
  exists s', pmap_tt_create_tte (DEMO_VIRT + 0x200000) (DEMO_PHYS + 0x500000)
               (DEMO_VIRT + 0x500000) 0x200000 PMAP_ACCESS_READWRITE demo_mapped
             = Done PMAP_RETURN_SUCCESS s' /\
    mmu_walk s' (DEMO_VIRT + 0x200000) (DEMO_VIRT + 0x6fffff) = None.
Proof.
  intros sy hw.
  destruct (pmap_tt_create_tte_tail_unmapped demo_mapped (DEMO_VIRT + 0x200000)
      (DEMO_PHYS + 0x500000) (DEMO_VIRT + 0x500000) 0x200000 PMAP_ACCESS_READWRITE
      (DEMO_VIRT + 0x201000)) as (s' & E & Hw).
  - unfold region_in_slot. split_and!; vm_compute; (reflexivity || congruence).
  - split; vm_compute; reflexivity.
  - left. unfold DEMO_VIRT. lia.
  - vm_compute. reflexivity.
  - exists s'. split; [exact E|]. etransitivity; [exact Hw|]. vm_compute. reflexivity.
Defined.
