(* ===== verification/VmPage.v ===== *)
(** * VmPage: the physical page allocator (kern/vm/vm_page.c, kern/vm/vm_page.h)

    One 40-byte [struct vm_page] per physical page, in the table that starts at
    [vm_page_region_lower_bound]; allocation takes the first page whose [state]
    bit is clear. *)
From Stdlib Require Import ZArith Lia.
From stdpp Require Import prelude gmap list.
From S2P Require Import Prelude Memory LinkedList Kernel Pmap.
Open Scope Z_scope.
Open Scope monix_scope.

(** ** The structure *)
Definition VM_PAGE_SIZE : Z := DEFAULTS_KERNEL_VM_PAGE_SIZE.
Definition VM_PAGE_STRUCT_SIZE : Z := 40.
Definition VM_PAGE_GUARD_MAGIC : Z := 0xefbeaddeefbeadde.
Definition VM_PAGE_STATE_ALLOC : Z := 1.
Definition VM_PAGE_STATE_FREE : Z := 0.
Definition VM_PAGE_IS_MAPPED : Z := 1.
Definition VM_PAGE_IS_NOT_MAPPED : Z := 0.

Definition vm_page_paddr (m : memory) (p : Z) : Z := ld64 m p.
Definition vm_page_siblings (p : Z) : Z := p + 8.
Definition vm_page_index (m : memory) (p : Z) : Z := ld64 m (p + 24).
Definition vm_page_state (m : memory) (p : Z) : Z := get_bits (ld32 m (p + 32)) 0 1.
Definition vm_page_mapped (m : memory) (p : Z) : Z := get_bits (ld32 m (p + 32)) 1 1.
Definition set_vm_page_state (v p : Z) (m : memory) : memory :=
  st32 m (p + 32) (set_bits (ld32 m (p + 32)) 0 1 v).
Definition set_vm_page_mapped (v p : Z) (m : memory) : memory :=
  st32 m (p + 32) (set_bits (ld32 m (p + 32)) 1 1 v).

Section VmPage.
Context `{Symbols}.

(** ** Operations *)
Definition __vm_page_get_idx (region idx : Z) : Z := region + VM_PAGE_STRUCT_SIZE * idx.

Definition __vm_page_region_cursor_inc : M unit :=
  let! cursor := get vm_page_region_cursor in
  put vm_page_region_cursor (u64 (cursor + VM_PAGE_STRUCT_SIZE)) ;!
  let! idx := get vm_page_idx in
  put vm_page_idx (u64 (idx + 1)).

(** The stores that fill in a new page structure. *)
Definition vm_page_init (page paddr idx mapped : Z) (m : memory) : memory :=
  let m := st64 m page paddr in
  let m := st64 m (page + 24) idx in
  let m := set_vm_page_state VM_PAGE_STATE_FREE page m in
  let m := set_vm_page_mapped mapped page m in
  list_add_tail m (vm_page_siblings page) sym_page_list.

Definition __vm_page_alloc_internal (paddr : Z) (is_mapped : Z) : M Z :=
  let! cursor := get vm_page_region_cursor in
  let! upper := get vm_page_region_upper_bound in
  if upper <=? cursor then ret 1
  else
    let! idx := get vm_page_idx in
    upd_mem (vm_page_init cursor paddr idx
               (if truthy is_mapped then VM_PAGE_IS_MAPPED else VM_PAGE_IS_NOT_MAPPED)) ;!
    __vm_page_region_cursor_inc ;!
    ret 0.

(** The loop of [vm_page_alloc]: the last page looked at. *)
Fixpoint vm_page_scan (fuel : nat) (m : memory) (region count i last : Z) : option Z :=
  if i <? count then
    match fuel with
    | O => None
    | S fuel =>
        let last := __vm_page_get_idx region i in
        if vm_page_state m last =? VM_PAGE_STATE_FREE then Some last
        else vm_page_scan fuel m region count (u32 (i + 1)) last
    end
  else Some last.

(** With no page at all [last] is not initialised. *)
Definition vm_page_alloc : M Z :=
  let! count := get vm_page_idx in
  let! region := get vm_page_region in
  let! m := get_mem in
  if count =? 0 then undefined
  else match vm_page_scan (Z.to_nat count) m region count 0 0 with
       | None => diverge
       | Some last =>
           if negb (vm_page_state m last =? VM_PAGE_STATE_FREE) then halt
           else upd_mem (set_vm_page_state VM_PAGE_STATE_ALLOC last) ;! ld 8 last
       end.

Definition vm_guard_page_fill (guard_page : Z) : M unit :=
  for_range 0 (Z.to_nat (VM_PAGE_SIZE / 8)) (fun i =>
    st 8 (guard_page + 8 * i) VM_PAGE_GUARD_MAGIC).

Definition vm_page_free (paddr : Z) : M unit :=
  let! phys := get memory_phys_base in
  let! region := get vm_page_region in
  let idx := u32 (u64 (paddr - phys) / VM_PAGE_SIZE) in
  upd_mem (set_vm_page_state VM_PAGE_STATE_FREE (__vm_page_get_idx region idx)).

(** The loop that creates the other pages: [pcursor] and [i] at its end. *)
Fixpoint vm_page_create_all (n : nat) (i pcursor : Z) : M Z :=
  match n with
  | O => ret i
  | S n =>
      let! failed := __vm_page_alloc_internal pcursor 1 in
      if truthy failed then ret i
      else vm_page_create_all n (i + 1) (u64 (pcursor + VM_PAGE_SIZE))
  end.

(** [&vm_page_region_lower_bound + vm_page_region_size] steps over words of 8
    bytes, the type of the variable. *)
Definition vm_page_bootstrap (membase memsize kernsize : Z) : M unit :=
  put vm_page_idx 0 ;!
  let page_count := memsize / VM_PAGE_SIZE in
  let region_size := u64 (page_count * VM_PAGE_STRUCT_SIZE) in
  put vm_page_region_size region_size ;!
  put vm_page_region_upper_bound (u64 (sym_vm_page_region_lower_bound + 8 * region_size)) ;!
  put vm_page_region_cursor sym_vm_page_region_lower_bound ;!
  put vm_page_region sym_vm_page_region_lower_bound ;!
  upd_mem (fun m => INIT_LIST_HEAD m sym_page_list) ;!
  let! first_page := get vm_page_region_cursor in
  let! idx := get vm_page_idx in
  upd_mem (vm_page_init first_page membase idx VM_PAGE_IS_NOT_MAPPED) ;!
  __vm_page_region_cursor_inc ;!
  let! i := vm_page_create_all (Z.to_nat page_count) 0 (u64 (membase + VM_PAGE_SIZE)) in
  if negb (i =? page_count) then halt
  else
    let kern_page_count := u64 (u64 (kernsize + region_size) / VM_PAGE_SIZE + 1) in
    let! region := get vm_page_region in
    for_range 0 (Z.to_nat kern_page_count) (fun i =>
      let kern_page := __vm_page_get_idx region i in
      upd_mem (set_vm_page_state VM_PAGE_STATE_ALLOC kern_page) ;!
      upd_mem (set_vm_page_mapped VM_PAGE_IS_MAPPED kern_page)).
End VmPage.

(** ** The flags of a page *)
Lemma ld32_flags m a f lo w :
  0 <= lo -> 0 <= w -> lo + w <= 32 -> get_bits (ld32 (st32 m a f) a) lo w = get_bits f lo w.
Proof. intros. rewrite ld32_st32_eq. by apply get_bits_mod. Qed.

Lemma state_set_state m p v : 0 <= v < 2 -> vm_page_state (set_vm_page_state v p m) p = v.
Proof.
  intros. unfold vm_page_state, set_vm_page_state. rewrite ld32_flags by lia.
  apply get_set_bits; lia.
Qed.
Lemma mapped_set_mapped m p v : 0 <= v < 2 -> vm_page_mapped (set_vm_page_mapped v p m) p = v.
Proof.
  intros. unfold vm_page_mapped, set_vm_page_mapped. rewrite ld32_flags by lia.
  apply get_set_bits; lia.
Qed.
Lemma state_set_mapped m p v : vm_page_state (set_vm_page_mapped v p m) p = vm_page_state m p.
Proof.
  unfold vm_page_state, set_vm_page_mapped. rewrite ld32_flags by lia.
  apply get_set_bits_other; lia.
Qed.
Lemma mapped_set_state m p v : vm_page_mapped (set_vm_page_state v p m) p = vm_page_mapped m p.
Proof.
  unfold vm_page_mapped, set_vm_page_state. rewrite ld32_flags by lia.
  apply get_set_bits_other; lia.
Qed.
Lemma set_state_outside m p v : same_outside (within (p + 32) 4) m (set_vm_page_state v p m).
Proof. by apply same_outside_store. Qed.
Lemma set_mapped_outside m p v : same_outside (within (p + 32) 4) m (set_vm_page_mapped v p m).
Proof. by apply same_outside_store. Qed.

Lemma vm_page_state_range m p : 0 <= vm_page_state m p < 2.
Proof. unfold vm_page_state, get_bits. rewrite Z.land_ones by lia. by apply Z.mod_pos_bound. Qed.

(** The bytes of a page structure other than its list node. *)
Definition vm_page_bytes (p x : Z) : Prop := within p 8 x \/ within (p + 24) 12 x.

Lemma vm_page_same_outside R m m' p :
  same_outside R m m' -> (forall x, vm_page_bytes p x -> ~ R x) ->
  vm_page_paddr m' p = vm_page_paddr m p /\ vm_page_index m' p = vm_page_index m p /\
  vm_page_state m' p = vm_page_state m p /\ vm_page_mapped m' p = vm_page_mapped m p.
Proof.
  intros Hs HR. unfold vm_page_paddr, vm_page_index, vm_page_state, vm_page_mapped, vm_page_bytes, within in *.
  split_and!; (erewrite (load_same_outside R); [reflexivity|done|]);
    intros x Hx; apply HR; unfold within in Hx; lia.
Qed.

(** ** Scanning for a free page *)
Section Scan.
Context `{Symbols}.

(** The least free index among the first [n] pages, as the abstract allocator. *)
Definition least_free (m : memory) (region : Z) (n k : Z) : Prop :=
  0 <= k < n /\ vm_page_state m (__vm_page_get_idx region k) = VM_PAGE_STATE_FREE /\
  forall j, 0 <= j < k -> vm_page_state m (__vm_page_get_idx region j) = VM_PAGE_STATE_ALLOC.

Lemma vm_page_scan_free m region n k i last fuel :
  n < 2 ^ 32 -> least_free m region n k -> 0 <= i <= k -> n - i <= Z.of_nat fuel ->
  vm_page_scan fuel m region n i last = Some (__vm_page_get_idx region k).
Proof.
  intros Hn (Hk & Hf & Ha). revert i last. induction fuel as [|fuel IH]; intros i last Hi Hfu;
    [lia|]. cbn [vm_page_scan]. destruct (Z.ltb_spec i n); [|lia].
  destruct (decide (i = k)) as [->|Hne]; [by rewrite Hf|].
  rewrite Ha by lia. cbn. rewrite u32_id by lia. apply IH; lia.
Qed.

Lemma vm_page_scan_full m region n i last fuel :
  n < 2 ^ 32 -> 0 <= i <= n -> n - i <= Z.of_nat fuel ->
  (forall j, i <= j < n -> vm_page_state m (__vm_page_get_idx region j) = VM_PAGE_STATE_ALLOC) ->
  vm_page_scan fuel m region n i last =
    Some (if decide (i < n) then __vm_page_get_idx region (n - 1) else last).
Proof.
  intros Hn. revert i last. induction fuel as [|fuel IH]; intros i last Hi Hf Ha; cbn [vm_page_scan].
  - destruct (Z.ltb_spec i n); [lia|]. by rewrite decide_False by lia.
  - destruct (Z.ltb_spec i n); [|by rewrite decide_False by lia].
    rewrite Ha by lia. cbn. rewrite u32_id by lia. rewrite IH by (intros; lia || (apply Ha; lia)).
    rewrite (decide_True (P := i < n)) by done. case_decide; [done|].
    do 2 f_equal. lia.
Qed.

Lemma vm_page_alloc_run s k :
  k_glob s vm_page_idx < 2 ^ 32 ->
  least_free (k_mem s) (k_glob s vm_page_region) (k_glob s vm_page_idx) k ->
  let p := __vm_page_get_idx (k_glob s vm_page_region) k in
  vm_page_alloc s =
    Done (vm_page_paddr (k_mem s) p)
      (set_mem (set_vm_page_state VM_PAGE_STATE_ALLOC p (k_mem s)) s).
Proof.
  intros Hn Hk p. unfold vm_page_alloc.
  cbv beta iota delta [bind get get_mem undefined diverge].
  destruct (Z.eqb_spec (k_glob s vm_page_idx) 0) as [E|_].
  { destruct Hk as [Hk _]. lia. }
  rewrite (vm_page_scan_free _ _ _ k) by (done || (destruct Hk; lia)).
  destruct Hk as (_ & Hf & _). rewrite Hf. cbn [negb Z.eqb VM_PAGE_STATE_FREE].
  cbv beta iota delta [upd_mem ld]. f_equal. unfold vm_page_paddr, set_vm_page_state.
  cbn [k_mem set_mem]. apply load_store_apart. unfold p, apart. lia.
Qed.

Lemma vm_page_alloc_full s :
  0 < k_glob s vm_page_idx < 2 ^ 32 ->
  (forall j, 0 <= j < k_glob s vm_page_idx ->
     vm_page_state (k_mem s) (__vm_page_get_idx (k_glob s vm_page_region) j)
     = VM_PAGE_STATE_ALLOC) ->
  vm_page_alloc s = Halted s.
Proof.
  intros Hn Ha. unfold vm_page_alloc. cbv beta iota delta [bind get get_mem undefined diverge].
  destruct (Z.eqb_spec (k_glob s vm_page_idx) 0) as [E|_]; [lia|].
  rewrite vm_page_scan_full by (done || lia || (intros; apply Ha; lia)).
  rewrite decide_True by lia. rewrite Ha by lia. done.
Qed.
End Scan.

(** ** The allocator as a table of states *)
Section View.
Context `{Symbols}.

Definition vm_page_at (s : kstate) (i : Z) : Z :=
  __vm_page_get_idx (k_glob s vm_page_region) i.

(** The states of the pages in order, and the abstract allocator on them. *)
Definition page_view (s : kstate) : list Z :=
  (fun i => vm_page_state (k_mem s) (vm_page_at s i)) <$> seqZ 0 (k_glob s vm_page_idx).
Definition abs_alloc (l : list Z) : option nat :=
  fst <$> list_find (fun st => st = VM_PAGE_STATE_FREE) l.

(** Page [i] describes the [i]-th physical page from [base]. *)
Definition pages_ok (s : kstate) (base : Z) : Prop :=
  0 < k_glob s vm_page_idx < 2 ^ 32 /\
  0 <= base /\ base + VM_PAGE_SIZE * k_glob s vm_page_idx <= 2 ^ 64 /\
  forall i, 0 <= i < k_glob s vm_page_idx ->
    vm_page_paddr (k_mem s) (vm_page_at s i) = base + VM_PAGE_SIZE * i.

Lemma page_view_lookup s i :
  0 <= i < k_glob s vm_page_idx ->
  page_view s !! Z.to_nat i = Some (vm_page_state (k_mem s) (vm_page_at s i)).
Proof.
  intros Hi. unfold page_view. rewrite list_lookup_fmap, lookup_seqZ_lt by lia.
  simpl. do 3 f_equal. lia.
Qed.

Lemma length_page_view s : length (page_view s) = Z.to_nat (k_glob s vm_page_idx).
Proof. unfold page_view. by rewrite length_fmap, length_seqZ. Qed.

(** Setting the state of one page is an update of the table. *)
Lemma page_view_set s k v :
  0 <= k < k_glob s vm_page_idx -> 0 <= v < 2 ->
  page_view (set_mem (set_vm_page_state v (vm_page_at s k) (k_mem s)) s)
  = <[Z.to_nat k := v]> (page_view s).
Proof.
  intros Hk Hv. set (s' := set_mem _ s). apply list_eq. intros i.
  destruct (decide (i < Z.to_nat (k_glob s vm_page_idx))%nat) as [Hi|Hi].
  2:{ rewrite !lookup_ge_None_2; [done|..];
      rewrite ?length_insert, length_page_view; simpl; lia. }
  replace i with (Z.to_nat (Z.of_nat i)) by lia.
  rewrite page_view_lookup by (simpl; lia). rewrite list_lookup_insert.
  destruct (decide (Z.of_nat i = k)) as [<-|Hne].
  - rewrite decide_True by (rewrite length_page_view; lia). f_equal. by apply state_set_state.
  - rewrite decide_False by lia. rewrite page_view_lookup by lia. f_equal.
    apply (vm_page_same_outside _ _ _ _ (set_state_outside (k_mem s) (vm_page_at s k) v)).
    intros x. change (vm_page_at s' (Z.of_nat i)) with (vm_page_at s (Z.of_nat i)).
    unfold vm_page_bytes, within, vm_page_at, __vm_page_get_idx, VM_PAGE_STRUCT_SIZE. lia.
Qed.

Lemma pages_ok_set s base k v :
  pages_ok s base -> pages_ok (set_mem (set_vm_page_state v (vm_page_at s k) (k_mem s)) s) base.
Proof.
  intros (Hn & Hb & Hmax & Hp). split; [done|]. split; [done|]. split; [done|].
  intros i Hi. rewrite <- Hp by done. unfold vm_page_paddr, set_vm_page_state. simpl k_mem.
  apply load_store_apart. unfold apart, vm_page_at, __vm_page_get_idx, VM_PAGE_STRUCT_SIZE.
  simpl k_glob. lia.
Qed.

Lemma abs_alloc_least s k :
  0 < k_glob s vm_page_idx -> abs_alloc (page_view s) = Some k ->
  least_free (k_mem s) (k_glob s vm_page_region) (k_glob s vm_page_idx) (Z.of_nat k).
Proof.
  intros Hn Hf. unfold abs_alloc in Hf. destruct (list_find _ _) as [[i x]|] eqn:E; [|done].
  injection Hf as ->. apply list_find_Some in E as (Hk & Hx & Hlt).
  pose proof (lookup_lt_Some _ _ _ Hk) as Hl. rewrite length_page_view in Hl.
  rewrite <- (Nat2Z.id k), page_view_lookup in Hk by lia. injection Hk as Hk.
  split; [lia|]. split; [by rewrite <- Hx, <- Hk|]. intros j Hj.
  assert (Hj' : 0 <= j < k_glob s vm_page_idx) by lia.
  pose proof (Hlt (Z.to_nat j) _ (page_view_lookup s j Hj') ltac:(lia)) as Hne.
  pose proof (vm_page_state_range (k_mem s) (vm_page_at s j)).
  unfold vm_page_at, VM_PAGE_STATE_FREE, VM_PAGE_STATE_ALLOC in *. lia.
Qed.

Lemma abs_alloc_none s :
  abs_alloc (page_view s) = None -> forall j, 0 <= j < k_glob s vm_page_idx ->
  vm_page_state (k_mem s) (vm_page_at s j) = VM_PAGE_STATE_ALLOC.
Proof.
  intros Hf j Hj. unfold abs_alloc in Hf. destruct (list_find _ _) as [|] eqn:E; [done|].
  apply list_find_None in E. rewrite Forall_lookup in E.
  specialize (E _ _ (page_view_lookup s j Hj)).
  pose proof (vm_page_state_range (k_mem s) (vm_page_at s j)).
  unfold VM_PAGE_STATE_FREE, VM_PAGE_STATE_ALLOC in *. lia.
Qed.

(** One allocation, against the abstract allocator. *)
Lemma vm_page_alloc_refines s base :
  pages_ok s base ->
  match abs_alloc (page_view s) with
  | Some k =>
      exists s', vm_page_alloc s = Done (base + VM_PAGE_SIZE * Z.of_nat k) s' /\
        pages_ok s' base /\ page_view s' = <[k := VM_PAGE_STATE_ALLOC]> (page_view s) /\
        (forall g, k_glob s' g = k_glob s g) /\
        same_outside (within (vm_page_at s (Z.of_nat k) + 32) 4) (k_mem s) (k_mem s')
  | None => vm_page_alloc s = Halted s
  end.
Proof.
  intros Hok. pose proof Hok as (Hn & _ & _ & Hp).
  destruct (abs_alloc (page_view s)) as [k|] eqn:E.
  - apply abs_alloc_least in E; [|lia]. pose proof (vm_page_alloc_run s _ ltac:(lia) E) as Hr.
    destruct E as (Hk & _). rewrite Hr. eexists.
    split; [rewrite <- (Hp (Z.of_nat k)) by lia; reflexivity|].
    split; [by apply pages_ok_set|]. split; [|split; [done|apply set_state_outside]].
    rewrite <- (Nat2Z.id k) at 2. apply page_view_set; [lia|].
    unfold VM_PAGE_STATE_ALLOC. lia.
  - apply vm_page_alloc_full; [lia|]. by apply abs_alloc_none.
Qed.

Lemma vm_page_free_run s k :
  pages_ok s (k_glob s memory_phys_base) -> 0 <= k < k_glob s vm_page_idx ->
  vm_page_free (k_glob s memory_phys_base + VM_PAGE_SIZE * k) s =
    Done tt (set_mem (set_vm_page_state VM_PAGE_STATE_FREE (vm_page_at s k) (k_mem s)) s).
Proof.
  intros (Hn & Hb & Hmax & _) Hk. unfold vm_page_free.
  cbv beta iota delta [bind get upd_mem]. do 3 f_equal.
  replace (_ + _ - _) with (VM_PAGE_SIZE * k) by lia.
  unfold VM_PAGE_SIZE, DEFAULTS_KERNEL_VM_PAGE_SIZE, TT_PAGE_SIZE in *.
  rewrite u64_id by lia. rewrite (Z.mul_comm 4096), Z.div_mul by lia.
  by rewrite u32_id by lia.
Qed.

(** (C26) The page allocator refines the abstract one: it returns the physical
    address of the first free page, marks that page and no other, and panics
    exactly when every page is allocated; a page it returns is not returned again
    before it is freed. *)
Theorem vm_page_alloc_correct s base :
  pages_ok s base ->
  match abs_alloc (page_view s) with
  | Some k =>
      exists s', vm_page_alloc s = Done (base + VM_PAGE_SIZE * Z.of_nat k) s' /\
        pages_ok s' base /\ page_view s' = <[k := VM_PAGE_STATE_ALLOC]> (page_view s) /\
        page_view s !! k = Some VM_PAGE_STATE_FREE /\
        (forall k', abs_alloc (page_view s') = Some k' -> k' <> k)
  | None => vm_page_alloc s = Halted s
  end.
Proof.
  intros Hok. pose proof (vm_page_alloc_refines s base Hok) as Hr.
  destruct (abs_alloc (page_view s)) as [k|] eqn:E; [|done].
  destruct Hr as (s' & E' & Hok' & Hv & _). exists s'. split; [done|].
  split; [done|]. split; [done|].
  assert (Hk : page_view s !! k = Some VM_PAGE_STATE_FREE).
  { unfold abs_alloc in E. destruct (list_find _ _) as [[i x]|] eqn:Ef; [|done].
    injection E as ->. apply list_find_Some in Ef as (Hk & -> & _). done. }
  split; [done|]. intros k' Hk' ->. unfold abs_alloc in Hk'.
  destruct (list_find _ (page_view s')) as [[i x]|] eqn:Ef; [|done]. injection Hk' as ->.
  apply list_find_Some in Ef as (Hk2 & -> & _).
  rewrite Hv, list_lookup_insert_eq in Hk2; [done|]. by eapply lookup_lt_Some.
Qed.

(** Freeing the page just allocated gives back the table of states, when the
    pages start at [memory_phys_base]. *)
Theorem vm_page_alloc_free s k :
  pages_ok s (k_glob s memory_phys_base) -> abs_alloc (page_view s) = Some k ->
  exists paddr s1 s2, vm_page_alloc s = Done paddr s1 /\ vm_page_free paddr s1 = Done tt s2 /\
    page_view s2 = page_view s.
Proof.
  intros Hok E. pose proof (vm_page_alloc_refines s _ Hok) as Hr. rewrite E in Hr.
  destruct Hr as (s1 & E1 & Hok1 & Hv1 & Hg & _).
  apply abs_alloc_least in E as (Hk & Hf & _); [|apply Hok].
  exists (k_glob s memory_phys_base + VM_PAGE_SIZE * Z.of_nat k), s1. eexists.
  split; [done|]. rewrite <- (Hg memory_phys_base). rewrite <- (Hg memory_phys_base) in Hok1.
  rewrite vm_page_free_run by first [exact Hok1|rewrite Hg; exact Hk]. split; [done|].
  rewrite page_view_set by (rewrite ?Hg; unfold VM_PAGE_STATE_FREE; lia).
  rewrite Hv1, Nat2Z.id, list_insert_insert_eq. apply list_insert_id.
  rewrite <- (Nat2Z.id k), page_view_lookup by lia. by f_equal.
Qed.

(** Pages are created from [kernel_phys_base] but freed by their distance from
    [memory_phys_base]: when the two differ by [d] pages, freeing page [k] marks
    page [k + d] free and leaves page [k] allocated. *)
Theorem vm_page_free_shifted s base d k :
  pages_ok s base -> base = k_glob s memory_phys_base + VM_PAGE_SIZE * d ->
  0 <= k_glob s memory_phys_base -> 0 < d -> 0 <= k -> k + d < k_glob s vm_page_idx ->
  exists s', vm_page_free (vm_page_paddr (k_mem s) (vm_page_at s k)) s = Done tt s' /\
    page_view s' = <[Z.to_nat (k + d) := VM_PAGE_STATE_FREE]> (page_view s) /\
    page_view s' !! Z.to_nat k = page_view s !! Z.to_nat k.
Proof.
  intros (Hn & Hb & Hmax & Hp) Hbase Hphys Hd Hk Hkd. rewrite Hp, Hbase by lia.
  assert (Hidx : u32 (u64 (k_glob s memory_phys_base + VM_PAGE_SIZE * d + VM_PAGE_SIZE * k
                           - k_glob s memory_phys_base) / VM_PAGE_SIZE) = k + d).
  { unfold VM_PAGE_SIZE, DEFAULTS_KERNEL_VM_PAGE_SIZE, TT_PAGE_SIZE in *.
    rewrite u64_id by lia. unfold u32. Z.to_euclidean_division_equations. lia. }
  exists (set_mem (set_vm_page_state VM_PAGE_STATE_FREE (vm_page_at s (k + d)) (k_mem s)) s).
  split; [|rewrite page_view_set by (unfold VM_PAGE_STATE_FREE; lia); split; [done|]].
  - unfold vm_page_free. cbv beta iota delta [bind get upd_mem]. by rewrite Hidx.
  - apply list_lookup_insert_ne. lia.
Qed.
End View.

(** ** Bootstrap *)
Section Bootstrap.
Context `{Symbols}.

Definition page_node (i : Z) : Z :=
  vm_page_siblings (__vm_page_get_idx sym_vm_page_region_lower_bound i).

(** Room for the table of [n] pages, apart from the list head. *)
Definition region_fits (n : Z) : Prop :=
  is_u64 sym_vm_page_region_lower_bound /\ is_u64 sym_page_list /\
  sym_vm_page_region_lower_bound + VM_PAGE_STRUCT_SIZE * n < 2 ^ 64 /\
  (sym_page_list + 16 <= sym_vm_page_region_lower_bound \/
   sym_vm_page_region_lower_bound + VM_PAGE_STRUCT_SIZE * n <= sym_page_list).

Lemma region_sep n : region_fits n -> sep (sym_page_list :: map page_node (seqZ 0 n)).
Proof.
  intros (Hl & Hh & Hmax & Hap). unfold page_node, vm_page_siblings, __vm_page_get_idx in *.
  unfold VM_PAGE_STRUCT_SIZE, LIST_HEAD_SIZE in *.
  split; [|split].
  - apply NoDup_cons. split.
    + intros (i & Hi & ?%elem_of_seqZ)%list_elem_of_fmap. lia.
    + apply NoDup_fmap_2_strong; [|apply NoDup_seqZ]. intros x y _ _. lia.
  - intros x [->|(i & -> & ?%elem_of_seqZ)%list_elem_of_fmap]%elem_of_cons; lia.
  - unfold apart, LIST_HEAD_SIZE.
    intros x y [->|(i & -> & ?%elem_of_seqZ)%list_elem_of_fmap]%elem_of_cons
      [->|(j & -> & ?%elem_of_seqZ)%list_elem_of_fmap]%elem_of_cons; lia.
Qed.

Lemma seqZ_snoc n : 0 <= n -> seqZ 0 (n + 1) = seqZ 0 n ++ [n].
Proof.
  intros Hn. by rewrite seqZ_app by lia.
Qed.

(** What one new page structure contains, and what it leaves alone. *)
Lemma vm_page_init_spec m i paddr mapped :
  region_fits (i + 1) -> 0 <= i -> is_u64 paddr -> is_u64 i -> 0 <= mapped < 2 ->
  dll m sym_page_list (map page_node (seqZ 0 i)) ->
  let p := __vm_page_get_idx sym_vm_page_region_lower_bound i in
  let m' := vm_page_init p paddr i mapped m in
  vm_page_paddr m' p = paddr /\ vm_page_index m' p = i /\
  vm_page_state m' p = VM_PAGE_STATE_FREE /\ vm_page_mapped m' p = mapped /\
  dll m' sym_page_list (map page_node (seqZ 0 (i + 1))) /\
  same_outside (fun x => node_bytes (sym_page_list :: map page_node (seqZ 0 (i + 1))) x \/
                         vm_page_bytes p x) m m'.
Proof.
  intros Hfit Hi Hpa Hi64 Hmap Hd p m'. pose proof (region_sep _ Hfit) as Hs.
  rewrite seqZ_snoc, map_app in * by lia.
  set (ns := map page_node (seqZ 0 i)) in *.
  change (map page_node [i]) with [page_node i] in *.
  assert (Hs' : sep (page_node i :: sym_page_list :: ns)) by sep_from Hs.
  set (m1 := set_vm_page_mapped mapped p (set_vm_page_state VM_PAGE_STATE_FREE p
               (st64 (st64 m p paddr) (p + 24) i))).
  assert (Hm' : m' = list_add_tail m1 (page_node i) sym_page_list) by done.
  assert (H1 : same_outside (vm_page_bytes p) m m1).
  { unfold m1, set_vm_page_mapped, set_vm_page_state.
    repeat (apply same_outside_store;
      [unfold vm_page_bytes, within; intros x; lia|]). done. }
  assert (Hfar : forall x, node_bytes (page_node i :: sym_page_list :: ns) x -> ~ vm_page_bytes p x).
  { intros x (a & Ha & Hx). destruct Hfit as (_ & _ & _ & Hap).
    unfold ns, page_node, vm_page_siblings, vm_page_bytes, within, p, __vm_page_get_idx,
      VM_PAGE_STRUCT_SIZE, LIST_HEAD_SIZE in *.
    rewrite !elem_of_cons in Ha. destruct Ha as [->|[->|Ha]]; [lia|lia|].
    apply list_elem_of_fmap in Ha as (j & -> & ?%elem_of_seqZ). lia. }
  assert (Hd1 : dll m1 sym_page_list ns).
  { destruct Hd as [Hsd Hc]. split; [done|]. revert Hc. apply chain_ext; intros z Hz;
      (eapply fields_same_outside; [exact H1|]); intros x Hx; apply Hfar; exists z;
      (split; [|done]).
    - rewrite app_comm_cons, removelast_snoc in Hz. set_solver.
    - simpl in Hz. set_solver. }
  assert (H2 : same_outside (node_bytes (page_node i :: sym_page_list :: ns)) m1 m').
  { rewrite Hm'. apply list_add_tail_footprint; done. }
  destruct (vm_page_same_outside _ _ _ p H2) as (Ea & Ei & Es & Em).
  { intros x Hx Hn. by apply (Hfar x). }
  rewrite Ea, Ei, Es, Em. unfold m1. rewrite state_set_mapped, mapped_set_mapped by done.
  rewrite state_set_state by (unfold VM_PAGE_STATE_FREE; lia).
  split; [|split; [|split; [done|split; [done|split]]]].
  - unfold vm_page_paddr, set_vm_page_mapped, set_vm_page_state. mem_simpl. by apply u64_id.
  - unfold vm_page_index, set_vm_page_mapped, set_vm_page_state. mem_simpl. by apply u64_id.
  - rewrite Hm'. by apply dll_add_tail.
  - eapply same_outside_trans.
    + eapply same_outside_mono; [|exact H1]. by right.
    + eapply same_outside_mono; [|exact H2]. intros x Hx. left. revert Hx.
      apply node_bytes_mono. set_solver.
Qed.

(** The table holds [i] free pages from [membase]. *)
Record built (s : kstate) (membase upper i : Z) : Prop := {
  built_idx : k_glob s vm_page_idx = i;
  built_region : k_glob s vm_page_region = sym_vm_page_region_lower_bound;
  built_upper : k_glob s vm_page_region_upper_bound = upper;
  built_cursor : k_glob s vm_page_region_cursor
                 = __vm_page_get_idx sym_vm_page_region_lower_bound i;
  built_pages : forall j, 0 <= j < i ->
    let p := __vm_page_get_idx sym_vm_page_region_lower_bound j in
    vm_page_paddr (k_mem s) p = membase + VM_PAGE_SIZE * j /\
    vm_page_index (k_mem s) p = j /\ vm_page_state (k_mem s) p = VM_PAGE_STATE_FREE;
  built_list : dll (k_mem s) sym_page_list (map page_node (seqZ 0 i));
}.

Lemma page_addr_u64 n i :
  region_fits n -> 0 <= i <= n ->
  u64 (__vm_page_get_idx sym_vm_page_region_lower_bound i)
  = __vm_page_get_idx sym_vm_page_region_lower_bound i.
Proof.
  intros (Hl & _ & Hm & _) Hi. unfold __vm_page_get_idx, VM_PAGE_STRUCT_SIZE in *.
  apply u64_id. lia.
Qed.

(** Creating the next page: fill it in, link it, move the cursor. *)
Lemma built_step s membase upper i mapped :
  built s membase upper i -> region_fits (i + 1) -> 0 <= i < 2 ^ 32 ->
  0 <= membase -> membase + VM_PAGE_SIZE * i < 2 ^ 64 -> 0 <= mapped < 2 ->
  exists s', (upd_mem (vm_page_init (k_glob s vm_page_region_cursor)
                         (membase + VM_PAGE_SIZE * i) (k_glob s vm_page_idx) mapped) ;!
              __vm_page_region_cursor_inc) s = Done tt s' /\
    built s' membase upper (i + 1) /\
    (forall g, g <> vm_page_region_cursor -> g <> vm_page_idx -> k_glob s' g = k_glob s g).
Proof.
  intros [Hidx Hreg Hup Hcur Hpages Hlist] Hfit Hi Hb Hpa Hmap.
  rewrite Hidx, Hcur. set (p := __vm_page_get_idx _ i).
  assert (Hpa64 : is_u64 (membase + VM_PAGE_SIZE * i)).
  { unfold VM_PAGE_SIZE, DEFAULTS_KERNEL_VM_PAGE_SIZE, TT_PAGE_SIZE in *. lia. }
  destruct (vm_page_init_spec (k_mem s) i (membase + VM_PAGE_SIZE * i) mapped Hfit
    ltac:(lia) Hpa64 ltac:(lia) Hmap Hlist) as (E1 & E2 & E3 & _ & Hd & Hsame).
  fold p in E1, E2, E3, Hd, Hsame. set (m' := vm_page_init _ _ _ _ _) in *.
  unfold __vm_page_region_cursor_inc. cbv beta iota delta [bind upd_mem get put].
  rewrite set_glob_ne by done. rewrite !set_mem_glob, Hidx, Hcur. fold p.
  replace (u64 (p + VM_PAGE_STRUCT_SIZE)) with
    (__vm_page_get_idx sym_vm_page_region_lower_bound (i + 1)).
  2:{ rewrite <- (page_addr_u64 (i + 1)) by (done || lia). f_equal.
      unfold p, __vm_page_get_idx. lia. }
  rewrite (u64_id (i + 1)) by lia.
  eexists. split; [reflexivity|]. split.
  - split; rewrite ?set_glob_eq, ?set_glob_ne, ?set_glob_eq, ?set_mem_glob by done; try done.
    intros j Hj q. rewrite !set_glob_mem. simpl k_mem. fold m'.
    destruct (decide (j = i)) as [->|Hne]; [done|].
    destruct (vm_page_same_outside _ _ _ q Hsame) as (-> & -> & -> & _).
    + intros x Hx [(a & Ha & Hw)|Hx2].
      * destruct Hfit as (_ & _ & _ & Hap).
        unfold page_node, vm_page_siblings, vm_page_bytes, within, q, __vm_page_get_idx,
          VM_PAGE_STRUCT_SIZE, LIST_HEAD_SIZE in *.
        rewrite elem_of_cons in Ha. destruct Ha as [->|Ha]; [lia|].
        apply list_elem_of_fmap in Ha as (k & -> & ?%elem_of_seqZ). lia.
      * unfold vm_page_bytes, within, p, q, __vm_page_get_idx, VM_PAGE_STRUCT_SIZE in *. lia.
    + apply Hpages. lia.
  - intros g H1 H2. by rewrite !set_glob_ne, set_mem_glob.
Qed.

(** The creation loop makes [n] more pages when there is room for them. *)
Lemma vm_page_create_all_spec n s membase upper i c :
  built s membase upper i -> region_fits (i + Z.of_nat n) -> 0 <= i ->
  i + Z.of_nat n < 2 ^ 32 -> 0 <= membase ->
  membase + VM_PAGE_SIZE * (i + Z.of_nat n) <= 2 ^ 64 ->
  __vm_page_get_idx sym_vm_page_region_lower_bound (i + Z.of_nat n) <= upper ->
  exists s', vm_page_create_all n c (u64 (membase + VM_PAGE_SIZE * i)) s
      = Done (c + Z.of_nat n) s' /\
    built s' membase upper (i + Z.of_nat n) /\
    (forall g, g <> vm_page_region_cursor -> g <> vm_page_idx -> k_glob s' g = k_glob s g).
Proof.
  revert s i c. induction n as [|n IH]; intros s i c Hbt Hfit Hi Hn Hb Hmax Hup.
  - exists s. rewrite !Z.add_0_r. done.
  - assert (Hps : VM_PAGE_SIZE = 4096) by done.
    cbn [vm_page_create_all]. unfold bind at 1, __vm_page_alloc_internal.
    cbv beta iota delta [get]. unfold bind at 1 2.
    rewrite (built_upper _ _ _ _ Hbt), (built_cursor _ _ _ _ Hbt).
    destruct (Z.leb_spec upper (__vm_page_get_idx sym_vm_page_region_lower_bound i)) as [Hle|_].
    { unfold __vm_page_get_idx, VM_PAGE_STRUCT_SIZE in *. lia. }
    rewrite u64_id by lia. unfold bind at 1. cbv beta iota.
    destruct (built_step s membase upper i VM_PAGE_IS_MAPPED Hbt) as (s1 & E1 & Hb1 & Hg1);
      [|lia..|unfold VM_PAGE_IS_MAPPED; lia|].
    { destruct Hfit as (? & ? & ? & ?). unfold VM_PAGE_STRUCT_SIZE in *.
      split; [done|]. split; [done|]. unfold VM_PAGE_STRUCT_SIZE. lia. }
    rewrite (built_cursor _ _ _ _ Hbt) in E1.
    unfold bind at 1 in E1. unfold bind at 1 2. cbn [truthy negb Z.eqb].
    destruct (upd_mem _ s) as [[] s0| | |] eqn:E0; try done. cbn iota in E1 |- *.
    rewrite E1. cbv beta iota delta [ret]. cbn [truthy negb Z.eqb].
    destruct (IH s1 (i + 1) (c + 1)) as (s' & E' & Hb' & Hg');
      replace (i + 1 + Z.of_nat n) with (i + Z.of_nat (S n)) in * by lia; try done; try lia.
    exists s'. split; [|split; [done|]].
    + replace (c + Z.of_nat (S n)) with (c + 1 + Z.of_nat n) by lia. rewrite <- E'.
      change (truthy 0) with false. cbv iota. do 2 f_equal.
      rewrite Hps. lia.
    + intros g H1 H2. by rewrite Hg', Hg1.
Qed.

Lemma built_view s membase upper i :
  built s membase upper i -> 0 <= i ->
  page_view s = replicate (Z.to_nat i) VM_PAGE_STATE_FREE.
Proof.
  intros Hbt Hi. apply list_eq. intros j.
  destruct (decide (j < Z.to_nat i)%nat) as [Hj|Hj].
  - rewrite lookup_replicate_2 by done. replace j with (Z.to_nat (Z.of_nat j)) by lia.
    rewrite page_view_lookup by (rewrite (built_idx _ _ _ _ Hbt); lia). f_equal.
    unfold vm_page_at. rewrite (built_region _ _ _ _ Hbt).
    apply (built_pages _ _ _ _ Hbt). lia.
  - rewrite !lookup_ge_None_2; [done|..];
      rewrite ?length_replicate, ?length_page_view, ?(built_idx _ _ _ _ Hbt); lia.
Qed.

(** The state the allocator is in once [i] kernel pages are marked. *)
Record marked (s : kstate) (membase n i : Z) : Prop := {
  marked_idx : k_glob s vm_page_idx = n;
  marked_region : k_glob s vm_page_region = sym_vm_page_region_lower_bound;
  marked_ok : pages_ok s membase;
  marked_view : page_view s = replicate (Z.to_nat i) VM_PAGE_STATE_ALLOC
                           ++ replicate (Z.to_nat (n - i)) VM_PAGE_STATE_FREE;
  marked_list : dll (k_mem s) sym_page_list (map page_node (seqZ 0 n));
}.

Lemma mark_mapped_view s k v :
  page_view (set_mem (set_vm_page_mapped v (vm_page_at s k) (k_mem s)) s) = page_view s.
Proof.
  unfold page_view. simpl k_glob. apply list_fmap_ext. intros i j Hj.
  apply list_elem_of_lookup_2, elem_of_seqZ in Hj.
  change (vm_page_at (set_mem _ _) j) with (vm_page_at s j). simpl k_mem.
  destruct (decide (j = k)) as [->|Hne]; [apply state_set_mapped|].
  apply (vm_page_same_outside _ _ _ _ (set_mapped_outside (k_mem s) (vm_page_at s k) v)).
  intros x. unfold vm_page_bytes, within, vm_page_at, __vm_page_get_idx, VM_PAGE_STRUCT_SIZE. lia.
Qed.

Lemma mark_step s membase n i :
  marked s membase n i -> region_fits n -> 0 <= i < n ->
  let m := set_vm_page_mapped VM_PAGE_IS_MAPPED (vm_page_at s i)
             (set_vm_page_state VM_PAGE_STATE_ALLOC (vm_page_at s i) (k_mem s)) in
  marked (set_mem m s) membase n (i + 1).
Proof.
  intros [Hidx Hreg Hok Hview Hlist] Hfit Hi m.
  set (s1 := set_mem (set_vm_page_state VM_PAGE_STATE_ALLOC (vm_page_at s i) (k_mem s)) s).
  change (set_mem m s) with (set_mem (set_vm_page_mapped VM_PAGE_IS_MAPPED (vm_page_at s1 i) (k_mem s1)) s1).
  assert (Hm : same_outside (within (vm_page_at s i + 32) 4) (k_mem s) m).
  { eapply same_outside_trans; [apply set_state_outside|apply set_mapped_outside]. }
  split; [done|done| | |].
  - destruct Hok as (Hn & Hb & Hmax & Hp). split; [done|]. split; [done|]. split; [done|].
    intros j Hj. rewrite <- Hp by done.
    apply (load_same_outside _ 8 _ _ _ Hm). intros x.
    change (k_glob (set_mem _ s1) vm_page_region) with (k_glob s vm_page_region).
    unfold within, vm_page_at, __vm_page_get_idx, VM_PAGE_STRUCT_SIZE. simpl k_glob. lia.
  - rewrite mark_mapped_view. unfold s1. rewrite page_view_set;
      [|lia|unfold VM_PAGE_STATE_ALLOC; lia]. rewrite Hview.
    replace (Z.to_nat (n - i)) with (S (Z.to_nat (n - (i + 1)))) by lia.
    replace (Z.to_nat (i + 1)) with (S (Z.to_nat i)) by lia.
    rewrite insert_app_r_alt by (rewrite length_replicate; lia).
    rewrite length_replicate, Nat.sub_diag. simpl.
    change (VM_PAGE_STATE_ALLOC :: replicate (Z.to_nat i) VM_PAGE_STATE_ALLOC
            ++ replicate (Z.to_nat (n - (i + 1))) VM_PAGE_STATE_FREE)
      with (replicate (S (Z.to_nat i)) VM_PAGE_STATE_ALLOC
            ++ replicate (Z.to_nat (n - (i + 1))) VM_PAGE_STATE_FREE).
    by rewrite replicate_S_end, <- app_assoc.
  - destruct Hlist as [Hsd Hc]. split; [done|]. revert Hc.
    apply chain_ext; intros z Hz; (eapply fields_same_outside; [exact Hm|]); intros x Hx;
      [rewrite app_comm_cons, removelast_snoc in Hz|simpl in Hz];
      revert Hx; destruct Hfit as (_ & _ & _ & Hap);
      rewrite ?elem_of_cons, ?elem_of_app, ?list_elem_of_singleton in Hz;
      unfold within, LIST_HEAD_SIZE, vm_page_at, __vm_page_get_idx, VM_PAGE_STRUCT_SIZE in *;
      rewrite Hreg;
      (destruct Hz as [Hz|Hz];
        [try (apply list_elem_of_fmap in Hz as (k & -> & ?%elem_of_seqZ));
         unfold page_node, vm_page_siblings, __vm_page_get_idx, VM_PAGE_STRUCT_SIZE; lia
        |try (apply list_elem_of_fmap in Hz as (k & -> & ?%elem_of_seqZ));
         unfold page_node, vm_page_siblings, __vm_page_get_idx, VM_PAGE_STRUCT_SIZE; lia]).
Qed.

(** The scalar variables of the page table. *)
Definition vm_page_var (g : gvar) : Prop :=
  g = vm_page_idx \/ g = vm_page_region_size \/ g = vm_page_region_upper_bound \/
  g = vm_page_region_cursor \/ g = vm_page_region.

(** The state in which the pages are created. *)
Lemma vm_page_bootstrap_start s membase upper size :
  region_fits 1 ->
  let s0 := set_glob vm_page_region sym_vm_page_region_lower_bound
    (set_glob vm_page_region_cursor sym_vm_page_region_lower_bound
      (set_glob vm_page_region_upper_bound upper
        (set_glob vm_page_region_size size (set_glob vm_page_idx 0 s)))) in
  let s1 := set_mem (INIT_LIST_HEAD (k_mem s0) sym_page_list) s0 in
  built s1 membase upper 0 /\ (forall g, ~ vm_page_var g -> k_glob s1 g = k_glob s g).
Proof.
  intros (Hl & Hh & _) s0 s1. split.
  - split; try done.
    + unfold s1, s0, __vm_page_get_idx. rewrite set_mem_glob, set_glob_ne, set_glob_eq by done. lia.
    + intros j Hj. lia.
    + simpl k_mem. by apply dll_init.
  - unfold vm_page_var, s1, s0. intros g Hg. rewrite set_mem_glob, !set_glob_ne; [done|tauto..].
Qed.

Lemma vm_page_mark_all s membase upper n k :
  built s membase upper n -> region_fits n -> 0 < n < 2 ^ 32 -> 0 <= membase ->
  membase + VM_PAGE_SIZE * n <= 2 ^ 64 -> 0 <= k <= n ->
  exists s', for_range 0 (Z.to_nat k) (fun i =>
      let kern_page := __vm_page_get_idx sym_vm_page_region_lower_bound i in
      upd_mem (set_vm_page_state VM_PAGE_STATE_ALLOC kern_page) ;!
      upd_mem (set_vm_page_mapped VM_PAGE_IS_MAPPED kern_page)) s = Done tt s' /\
    marked s' membase n k /\ (forall g, k_glob s' g = k_glob s g).
Proof.
  intros Hbt Hfit Hn Hb Hmax Hk.
  use_for (fun i t => marked t membase n i /\ forall g, k_glob t g = k_glob s g) HL.
  destruct HL as (s' & E & Hm & Hg).
  - split; [|done]. split; try apply Hbt.
    + split; [rewrite (built_idx _ _ _ _ Hbt); lia|]. split; [done|].
      rewrite (built_idx _ _ _ _ Hbt). split; [done|]. intros i Hi. unfold vm_page_at.
      rewrite (built_region _ _ _ _ Hbt). by apply (built_pages _ _ _ _ Hbt).
    + rewrite (built_view _ _ _ _ Hbt), Z.sub_0_r by lia. done.
  - intros i t Hi [Ht Hg]. cbv beta zeta iota delta [bind upd_mem].
    eexists. split; [reflexivity|]. rewrite Z2Nat.id in Hi by lia. split; [|done].
    rewrite <- (marked_region _ _ _ _ Ht). apply (mark_step _ _ _ _ Ht Hfit). lia.
  - exists s'. rewrite Z.add_0_l, Z2Nat.id in Hm by lia. done.
Qed.

Lemma vm_page_bootstrap_run s membase memsize kernsize :
  let page_count := memsize / VM_PAGE_SIZE in
  let kern_pages := (kernsize + page_count * VM_PAGE_STRUCT_SIZE) / VM_PAGE_SIZE + 1 in
  0 < page_count < 2 ^ 31 -> region_fits (page_count + 1) ->
  sym_vm_page_region_lower_bound + 8 * (VM_PAGE_STRUCT_SIZE * page_count) < 2 ^ 64 ->
  0 <= membase -> membase + VM_PAGE_SIZE * (page_count + 1) <= 2 ^ 64 ->
  0 <= kernsize < 2 ^ 63 -> kern_pages <= page_count + 1 ->
  exists s', vm_page_bootstrap membase memsize kernsize s = Done tt s' /\
    k_glob s' vm_page_idx = page_count + 1 /\
    pages_ok s' membase /\
    page_view s' = replicate (Z.to_nat kern_pages) VM_PAGE_STATE_ALLOC
                ++ replicate (Z.to_nat (page_count + 1 - kern_pages)) VM_PAGE_STATE_FREE /\
    dll (k_mem s') sym_page_list (map page_node (seqZ 0 (page_count + 1))) /\
    k_glob s' vm_page_region = sym_vm_page_region_lower_bound /\
    (forall g, ~ vm_page_var g -> k_glob s' g = k_glob s g).
Proof.
  intros n kp Hn Hfit Hup Hb Hmax Hks Hkp. unfold vm_page_bootstrap. fold n. clearbody n.
  assert (Hps : VM_PAGE_SIZE = 4096) by done. assert (Hss : VM_PAGE_STRUCT_SIZE = 40) by done.
  pose proof Hfit as (Hl & Hh & Hroom & Hap).
  rewrite (u64_id (n * _)) by lia. rewrite (u64_id (_ + 8 * _)) by lia.
  rewrite (u64_id (kernsize + _)) by lia.
  assert (Hkp0 : 0 < kp < 2 ^ 63).
  { unfold kp. rewrite Hps, Hss. Z.to_euclidean_division_equations. lia. }
  rewrite (u64_id (_ + 1)) by (unfold kp in Hkp0; lia). fold kp.
  set (upper := sym_vm_page_region_lower_bound + 8 * _).
  do 5 (unfold bind at 1; cbv beta iota delta [put]).
  unfold bind at 1. cbv beta iota delta [upd_mem].
  do 2 (unfold bind at 1; cbv beta iota delta [get]).
  match goal with |- context [bind _ _ ?t] => set (s0 := t) end.
  assert (built s0 membase upper 0 /\ (forall g, ~ vm_page_var g -> k_glob s0 g = k_glob s g))
    as [Hbt Hg0] by (apply vm_page_bootstrap_start; split_and!; try done; lia).
  destruct (built_step s0 membase upper 0 VM_PAGE_IS_NOT_MAPPED Hbt) as (s1 & E1 & Hb1 & Hg1);
    try lia; [split_and!; try done; lia|unfold VM_PAGE_IS_NOT_MAPPED; lia|].
  rewrite Z.mul_0_r, Z.add_0_r in E1. rewrite (bind2_done _ _ _ s0 tt s1 E1). cbv beta.
  destruct (vm_page_create_all_spec (Z.to_nat n) s1 membase upper 1 0 Hb1)
    as (s2 & E2 & Hb2 & Hg2); rewrite ?Z2Nat.id by lia; try lia.
  { by rewrite Z.add_comm. }
  { unfold __vm_page_get_idx, upper. lia. }
  rewrite Z.mul_1_r in E2. rewrite Z2Nat.id, Z.add_0_l, (Z.add_comm 1) in * by lia.
  rewrite (bind_done _ _ _ _ _ E2), Z.eqb_refl. cbn [negb]. cbv iota.
  unfold bind at 1. rewrite (built_region _ _ _ _ Hb2).
  destruct (vm_page_mark_all s2 membase upper (n + 1) kp Hb2) as (s3 & E3 & Hm3 & Hg3);
    try done; try lia.
  exists s3. split; [exact E3|]. destruct Hm3. split_and!; try done.
  intros g Hg. unfold vm_page_var in Hg. rewrite Hg3, Hg2, Hg1, Hg0 by (unfold vm_page_var; tauto). done.
Qed.

(** (C28) [vm_page_bootstrap] gives a well-formed table: one page more than fits the
    memory size, in order of physical address from [membase], all of them on the
    page list, of which the pages that hold the kernel and the table are
    allocated and all others free. *)
Theorem vm_page_bootstrap_correct s membase memsize kernsize :
  let page_count := memsize / VM_PAGE_SIZE in
  let kern_pages := (kernsize + page_count * VM_PAGE_STRUCT_SIZE) / VM_PAGE_SIZE + 1 in
  0 < page_count < 2 ^ 31 -> region_fits (page_count + 1) ->
  sym_vm_page_region_lower_bound + 8 * (VM_PAGE_STRUCT_SIZE * page_count) < 2 ^ 64 ->
  0 <= membase -> membase + VM_PAGE_SIZE * (page_count + 1) <= 2 ^ 64 ->
  0 <= kernsize < 2 ^ 63 -> kern_pages <= page_count + 1 ->
  exists s', vm_page_bootstrap membase memsize kernsize s = Done tt s' /\
    k_glob s' vm_page_idx = page_count + 1 /\
    pages_ok s' membase /\
    page_view s' = replicate (Z.to_nat kern_pages) VM_PAGE_STATE_ALLOC
                ++ replicate (Z.to_nat (page_count + 1 - kern_pages)) VM_PAGE_STATE_FREE /\
    dll (k_mem s') sym_page_list (map page_node (seqZ 0 (page_count + 1))).
Proof.
  intros n kp H1 H2 H3 H4 H5 H6 H7.
  destruct (vm_page_bootstrap_run s membase memsize kernsize H1 H2 H3 H4 H5 H6 H7)
    as (s' & E & R1 & R2 & R3 & R4 & _). by exists s'.
Qed.
End Bootstrap.

(** ** Witnesses *)
Section Witness.
Context `{Symbols}.

Definition pages_okb (s : kstate) (base : Z) : bool :=
  (0 <? k_glob s vm_page_idx) && (k_glob s vm_page_idx <? 2 ^ 32) && (0 <=? base) &&
  (base + VM_PAGE_SIZE * k_glob s vm_page_idx <=? 2 ^ 64) &&
  forallb (fun i => vm_page_paddr (k_mem s) (vm_page_at s i) =? base + VM_PAGE_SIZE * i)
    (seqZ 0 (k_glob s vm_page_idx)).

Lemma pages_okb_sound s base : pages_okb s base = true -> pages_ok s base.
Proof.
  unfold pages_okb. rewrite !andb_true_iff, forallb_forall. intros [[[[? ?] ?] ?] Hp].
  split; [lia|]. split; [lia|]. split; [lia|]. intros i Hi.
  apply Z.eqb_eq, Hp, list_elem_of_In, elem_of_seqZ. lia.
Qed.
End Witness.

(** Four pages of memory at [0x40000000], the first two hold the kernel. *)
Definition demo_pages : kstate :=
  match @vm_page_bootstrap demo_symbols DEMO_PHYS 0x4000 0x1000 demo_state with
  | Done _ s => s
  | _ => demo_state
  end.

Lemma vm_page_bootstrap_correct_witness :
  let _ := demo_symbols in
  exists s', vm_page_bootstrap DEMO_PHYS 0x4000 0x1000 demo_state = Done tt s' /\
    k_glob s' vm_page_idx = 5 /\ page_view s' = [1; 1; 0; 0; 0].
Proof.
  intros sy.
  destruct (vm_page_bootstrap_correct demo_state DEMO_PHYS 0x4000 0x1000)
    as (s' & E & Hi & _ & Hv & _).
  - vm_compute. split; reflexivity.
  - unfold region_fits. simpl. unfold DEMO_VIRT, VM_PAGE_STRUCT_SIZE.
    change (0x4000 / VM_PAGE_SIZE) with 4. lia.
  - vm_compute. reflexivity.
  - unfold DEMO_PHYS. lia.
  - vm_compute. congruence.
  - lia.
  - vm_compute. congruence.
  - exists s'. split; [exact E|]. split; [exact Hi|exact Hv].
Defined.

Lemma vm_page_alloc_correct_witness :
  let _ := demo_symbols in
  exists s', vm_page_alloc demo_pages = Done (DEMO_PHYS + 0x2000) s' /\
    page_view s' = [1; 1; 1; 0; 0].
Proof.
  intros sy.
  pose proof (vm_page_alloc_correct demo_pages DEMO_PHYS) as Ha.
  assert (Hok : pages_ok demo_pages DEMO_PHYS)
    by (apply pages_okb_sound; vm_compute; reflexivity).
  specialize (Ha Hok). change (abs_alloc (page_view demo_pages)) with (Some 2%nat) in Ha.
  destruct Ha as (s' & E & _ & Hv & _). exists s'. split; [exact E|exact Hv].
Defined.

Lemma vm_page_alloc_free_witness :
  let _ := demo_symbols in
  exists paddr s1 s2, vm_page_alloc demo_pages = Done paddr s1 /\
    vm_page_free paddr s1 = Done tt s2 /\ page_view s2 = page_view demo_pages.
Proof.
  intros sy. apply (vm_page_alloc_free demo_pages 2).
  - apply pages_okb_sound. vm_compute. reflexivity.
  - vm_compute. reflexivity.
Defined.

Lemma vm_page_free_shifted_witness :
  let _ := demo_symbols in
  let s := set_glob memory_phys_base (DEMO_PHYS - 0x1000) demo_pages in
  exists s', vm_page_free DEMO_PHYS s = Done tt s' /\
    page_view s' = [1; 0; 0; 0; 0].
Proof.
  intros sy s.
  destruct (vm_page_free_shifted s DEMO_PHYS 1 0) as (s' & E & Hv & _).
  - apply pages_okb_sound. vm_compute. reflexivity.
  - reflexivity.
  - vm_compute. congruence.
  - lia.
  - lia.
  - vm_compute. reflexivity.
  - exists s'. split; [exact E|exact Hv].
Defined.
