(* ===== verification/VmMap.v ===== *)
(** * VmMap: virtual memory maps (kern/vm/vm_map.c, kern/vm/vm_map.h)

    A [struct vm_map] and its entries, which the code places at fixed strides
    after it, linked in order of allocation.  [map_ok] relates the memory of a map
    to the list of its entries; an allocation appends entries to it.  The pages
    come from VmPage and are entered in translation tables through the interface
    [Mapper], which Pmap implements. *)
From Stdlib Require Import ZArith Lia.
From stdpp Require Import prelude gmap list.
From S2P Require Import Prelude Memory LinkedList TString Kernel Pmap VmPage.
Open Scope Z_scope.
Open Scope monix_scope.

(** ** Structures *)
Definition VM_MAP_SIZEOF : Z := 64.
Definition VM_MAP_ENTRY_SIZE : Z := 40.
Definition VM_ALLOC_GUARD_FIRST : Z := 0x01.
Definition VM_ALLOC_GUARD_LAST : Z := 0x02.
Definition VM_ALLOC_KERNEL_CODE : Z := 0x04.
Definition VM_MAP_ENTRY_GUARD_PAGE : Z := 0x01.
Definition VM_NULL : Z := 0.
Definition VM_FALSE : Z := 0.
Definition VM_TRUE : Z := 1.
Definition VM_ALIGN_ADDR (addr : Z) : Z := Z.land (u64 (addr + (4 - 1))) (u64 (-4)).

(** Addresses of the fields of [struct vm_map] and [struct vm_map_entry]. *)
Definition vm_map_timestamp (map : Z) : Z := map.
Definition vm_map_pmap (map : Z) : Z := map + 8.
Definition vm_map_min (map : Z) : Z := map + 16.
Definition vm_map_max (map : Z) : Z := map + 24.
Definition vm_map_size (map : Z) : Z := map + 32.
Definition vm_map_flags (map : Z) : Z := map + 40.
Definition vm_map_nentries (map : Z) : Z := map + 44.
Definition vm_map_entries (map : Z) : Z := map + 48.
Definition vm_entry_base (e : Z) : Z := e.
Definition vm_entry_size (e : Z) : Z := e + 8.
Definition vm_entry_flags (e : Z) : Z := e + 16.
Definition vm_entry_siblings (e : Z) : Z := e + 24.

Section VmMap.
Context `{Symbols} `{Hardware}.

(** ** Operations *)
Definition vm_map_set_lock (map v : Z) : M unit :=
  upd_mem (fun m => st32 m (vm_map_flags map) (set_bits (ld32 m (vm_map_flags map)) 0 1 v)).
Definition vm_map_lock (map : Z) : M unit := vm_map_set_lock map 1.
Definition vm_map_unlock (map : Z) : M unit := vm_map_set_lock map 0.

(** Where the next entry goes.  The additions are on pointers to the structures:
    [map + sizeof(vm_map_t)] is 64 maps further, [last + VM_MAP_ENTRY_SIZE] is 40
    entries further. *)
Definition vm_map_next_entry (m : memory) (map : Z) : Z :=
  if list_empty m (vm_map_entries map) then u64 (map + VM_MAP_SIZEOF * VM_MAP_SIZEOF)
  else u64 (list_last_entry m (vm_map_entries map) 24 + VM_MAP_ENTRY_SIZE * VM_MAP_ENTRY_SIZE).

(** The stores that fill in an entry. *)
Definition vm_map_entry_fill (entry base size flags : Z) (m : memory) : memory :=
  let m := memset m entry 0 (Z.to_nat VM_MAP_ENTRY_SIZE) in
  let m := st64 m (vm_entry_base entry) base in
  let m := st64 m (vm_entry_size entry) (u64 (size - 1)) in
  let m := st32 m (vm_entry_flags entry) (set_bits (ld32 m (vm_entry_flags entry)) 0 1
             (if truthy (Z.land flags VM_MAP_ENTRY_GUARD_PAGE) then VM_TRUE else VM_FALSE)) in
  st32 m (vm_entry_flags entry) (set_bits (ld32 m (vm_entry_flags entry)) 1 1
             (if truthy (Z.land flags VM_ALLOC_KERNEL_CODE) then VM_TRUE else VM_FALSE)).

Definition vm_map_entry_create (map base size flags : Z) : M unit :=
  vm_map_lock map ;!
  let! m := get_mem in
  let entry := vm_map_next_entry m map in
  upd_mem (vm_map_entry_fill entry base size flags) ;!
  upd_mem (fun m => st32 m (vm_map_nentries map) (u32 (ld32 m (vm_map_nentries map) + 1))) ;!
  upd_mem (fun m => st64 m (vm_map_size map) (u64 (ld64 m (vm_map_size map) + size))) ;!
  upd_mem (fun m => list_add_tail m (vm_entry_siblings entry) (vm_map_entries map)) ;!
  vm_map_unlock map.

Definition __vm_map_init (map pmap min max : Z) : M unit :=
  st 8 (vm_map_timestamp map) 0 ;!
  st 8 (vm_map_pmap map) pmap ;!
  st 8 (vm_map_min map) min ;!
  st 8 (vm_map_max map) max ;!
  st 8 (vm_map_size map) 0 ;!
  vm_map_set_lock map 1 ;!
  upd_mem (fun m => INIT_LIST_HEAD m (vm_map_entries map)) ;!
  st 4 (vm_map_nentries map) 0.

Definition vm_map_create (map pmap min max : Z) : M unit :=
  __vm_map_init map pmap min max ;!
  vm_map_unlock map.

(** The new map is a local variable and no pointer is returned: what remains is
    the page taken and its translation table entry. *)
Definition vm_map_create_new (pmap min max : Z) : M unit :=
  let! paddr := vm_page_alloc in
  let! ttep := ld 8 (pmap + 8) in
  pmap_tt_create_tte ttep paddr min VM_PAGE_SIZE PMAP_ACCESS_READWRITE ;!
  ret tt.

(** One page at [vcursor].  [pmap] is the address of the field [map->pmap], so
    the table passed is [&pmap->tte], which is that same address. *)
Definition vm_map_page (map vcursor access : Z) : M unit :=
  let pmap := vm_map_pmap map in
  let! page_addr := vm_page_alloc in
  pmap_tt_create_tte pmap page_addr vcursor VM_PAGE_SIZE access ;!
  ret tt.

Definition vm_map_page_count (size : Z) : Z :=
  if size <? VM_PAGE_SIZE then 1 else size / VM_PAGE_SIZE.

Definition vm_map_alloc (map size flags : Z) : M Z :=
  let! m := get_mem in
  let last_entry := list_last_entry m (vm_map_entries map) 24 in
  let! base := ld 8 (vm_entry_base last_entry) in
  let! len := ld 8 (vm_entry_size last_entry) in
  let vcursor := VM_ALIGN_ADDR (u64 (u64 (base + len) + 1)) in
  let! vcursor :=
    if truthy (Z.land flags VM_ALLOC_GUARD_FIRST) then
      vm_map_page map vcursor PMAP_ACCESS_NOACCESS ;!
      vm_map_entry_create map vcursor VM_PAGE_SIZE VM_MAP_ENTRY_GUARD_PAGE ;!
      vm_guard_page_fill vcursor ;!
      ret (u64 (vcursor + VM_PAGE_SIZE))
    else ret vcursor in
  let vbase := vcursor in
  let page_count := vm_map_page_count size in
  for_range 0 (Z.to_nat page_count) (fun i =>
    vm_map_page map (u64 (vbase + VM_PAGE_SIZE * i)) PMAP_ACCESS_READWRITE) ;!
  let vcursor := u64 (vbase + VM_PAGE_SIZE * page_count) in
  vm_map_entry_create map vbase (u64 (page_count * VM_PAGE_SIZE)) VM_NULL ;!
  when (truthy (Z.land flags VM_ALLOC_GUARD_LAST))
    (vm_map_page map vcursor PMAP_ACCESS_NOACCESS ;!
     vm_guard_page_fill vcursor ;!
     vm_map_entry_create map vcursor VM_PAGE_SIZE VM_MAP_ENTRY_GUARD_PAGE) ;!
  ret vbase.

(** Not implemented in the source: it returns 0. *)
Definition vm_map_alloc_at_address (map size base : Z) : M Z := ret 0.
End VmMap.

(** ** The abstract view of a map *)
Record ventry := mk_ventry {
  ve_base : Z;
  ve_size : Z;      (* as stored: the number of bytes less one *)
  ve_guard : Z;
  ve_code : Z;
}.

Definition entry_addr (map : Z) (i : Z) : Z := map + 4096 + 1600 * i.
Definition entry_node (map : Z) (i : Z) : Z := vm_entry_siblings (entry_addr map i).

Definition entry_at (m : memory) (e : Z) (v : ventry) : Prop :=
  ld64 m (vm_entry_base e) = ve_base v /\ ld64 m (vm_entry_size e) = ve_size v /\
  get_bits (ld32 m (vm_entry_flags e)) 0 1 = ve_guard v /\
  get_bits (ld32 m (vm_entry_flags e)) 1 1 = ve_code v.

Record map_ok (m : memory) (map : Z) (es : list ventry) : Prop := {
  map_range : 0 <= map /\ entry_addr map (Z.of_nat (length es)) < 2 ^ 64;
  map_count : ld32 m (vm_map_nentries map) = Z.of_nat (length es);
  map_list : dll m (vm_map_entries map) (entry_node map <$> seqZ 0 (Z.of_nat (length es)));
  map_entries : forall i v, es !! i = Some v -> entry_at m (entry_addr map (Z.of_nat i)) v;
}.

Ltac map_unfold := unfold entry_node, entry_addr, vm_map_timestamp, vm_map_pmap, vm_map_min,
  vm_map_max, vm_map_size, vm_map_flags, vm_map_nentries, vm_map_entries, vm_entry_base,
  vm_entry_size, vm_entry_flags, vm_entry_siblings, VM_MAP_ENTRY_SIZE, VM_MAP_SIZEOF,
  LIST_HEAD_SIZE in *.

(** The bytes of a map with [n] entries. *)
Definition map_bytes (map n x : Z) : Prop :=
  within map 64 x \/ exists i, 0 <= i < n /\ within (entry_addr map i) 40 x.

(** The fields of an entry, without its list node. *)
Definition entry_bytes (e x : Z) : Prop := within e 20 x.

Lemma entry_at_same_outside R m m' e v :
  same_outside R m m' -> (forall x, entry_bytes e x -> ~ R x) -> entry_at m e v -> entry_at m' e v.
Proof.
  intros Hs HR. unfold entry_at. map_unfold. unfold entry_bytes, within in *.
  assert (E : forall n a, e <= a -> a + Z.of_nat n <= e + 20 -> load n m' a = load n m a).
  { intros n a H1 H2. apply (load_same_outside R); [done|]. intros x Hx. apply HR.
    unfold within in Hx. lia. }
  by rewrite !E by lia.
Qed.

Lemma map_nodes_sep map n :
  0 <= map -> entry_addr map n < 2 ^ 64 -> 0 <= n ->
  sep (vm_map_entries map :: (entry_node map <$> seqZ 0 n)).
Proof.
  intros Hm Hmax Hn. map_unfold. split; [|split].
  - apply NoDup_cons. split.
    + intros (i & Hi & ?%elem_of_seqZ)%list_elem_of_fmap. lia.
    + apply NoDup_fmap_2_strong; [|apply NoDup_seqZ]. intros x y _ _. lia.
  - intros x [->|(i & -> & ?%elem_of_seqZ)%list_elem_of_fmap]%elem_of_cons; lia.
  - unfold apart, LIST_HEAD_SIZE.
    intros x y [->|(i & -> & ?%elem_of_seqZ)%list_elem_of_fmap]%elem_of_cons
      [->|(j & -> & ?%elem_of_seqZ)%list_elem_of_fmap]%elem_of_cons; lia.
Qed.

Lemma map_node_bytes map n x :
  node_bytes (vm_map_entries map :: (entry_node map <$> seqZ 0 n)) x <->
  within (map + 48) 16 x \/ exists i, 0 <= i < n /\ within (entry_addr map i + 24) 16 x.
Proof.
  unfold node_bytes. split.
  - intros (a & [->|(i & -> & ?%elem_of_seqZ)%list_elem_of_fmap]%elem_of_cons & Hx); [by left|].
    right. exists i. split; [lia|done].
  - intros [Hx|(i & Hi & Hx)].
    + exists (vm_map_entries map). split; [by left|done].
    + exists (entry_node map i). split; [|done]. right. apply list_elem_of_fmap.
      exists i. split; [done|]. apply elem_of_seqZ. lia.
Qed.

Lemma last_seqZ_node map n :
  0 < n -> List.last (entry_node map <$> seqZ 0 n) (vm_map_entries map) = entry_node map (n - 1).
Proof.
  intros Hn. replace n with (n - 1 + 1) at 1 by lia. rewrite seqZ_app by lia.
  rewrite fmap_app. simpl. apply last_last.
Qed.

(** The next entry of a map goes at the fixed stride. *)
Lemma vm_map_next_entry_spec m map es :
  map_ok m map es -> vm_map_next_entry m map = entry_addr map (Z.of_nat (length es)).
Proof.
  intros [[Hm Hmax] _ Hd _]. unfold vm_map_next_entry. rewrite (list_empty_dll _ _ _ Hd).
  case_bool_decide as Hc.
  - assert (length es = 0%nat) as ->.
    { apply (f_equal length) in Hc. rewrite length_fmap, length_seqZ in Hc. simpl in Hc. lia. }
    map_unfold. rewrite u64_id; lia.
  - unfold list_last_entry. rewrite (dll_head_prev _ _ _ Hd).
    assert (0 < Z.of_nat (length es)).
    { destruct es; [done|]. simpl. lia. }
    rewrite last_seqZ_node by done. unfold list_entry, container_of. map_unfold.
    rewrite u64_id; lia.
Qed.

(** Filling in an entry: its fields, and nothing outside its 40 bytes. *)
Lemma vm_map_entry_fill_spec e base size flags m :
  is_u64 base -> 1 <= size < 2 ^ 64 ->
  let m' := vm_map_entry_fill e base size flags m in
  entry_at m' e (mk_ventry base (size - 1)
    (b2z (truthy (Z.land flags VM_MAP_ENTRY_GUARD_PAGE)))
    (b2z (truthy (Z.land flags VM_ALLOC_KERNEL_CODE)))) /\
  same_outside (within e 40) m m'.
Proof.
  intros Hb Hsz. unfold vm_map_entry_fill, entry_at. map_unfold. cbv zeta. cbn [ve_base ve_size ve_guard ve_code].
  split; [split_and!|].
  - mem_simpl. by apply u64_id.
  - mem_simpl. rewrite u64_u64. apply u64_id. lia.
  - rewrite ld32_flags, get_set_bits_other, ld32_flags by lia.
    rewrite get_set_bits by (lia || (case_match; unfold VM_TRUE, VM_FALSE; lia)). by case_match.
  - rewrite ld32_flags by lia.
    rewrite get_set_bits by (lia || (case_match; unfold VM_TRUE, VM_FALSE; lia)). by case_match.
  - do 4 (apply same_outside_store; [unfold within; intros x; lia|]).
    apply (memset_same_outside m e 0 40).
Qed.

Section Entry.
Context `{Symbols} `{Hardware}.

(** The header of a map is apart from its list and its entries. *)
Lemma map_header_list m m' map n :
  same_outside (within (map + 32) 16) m m' ->
  dll m (vm_map_entries map) (entry_node map <$> seqZ 0 n) -> dll m' (vm_map_entries map) (entry_node map <$> seqZ 0 n).
Proof.
  intros Hs. apply (dll_same_outside _ _ _ _ _ Hs). intros x Hx%map_node_bytes.
  unfold within in *. map_unfold. destruct Hx as [?|(i & ? & ?)]; lia.
Qed.
Lemma map_header_entry m m' map i v :
  0 <= i -> same_outside (within (map + 32) 16) m m' -> entry_at m (entry_addr map i) v -> entry_at m' (entry_addr map i) v.
Proof.
  intros Hi Hs. apply (entry_at_same_outside _ _ _ _ _ Hs). unfold entry_bytes, within. map_unfold. intros x. lia.
Qed.

(** Setting the lock bit. *)
Definition lock_set (map v : Z) (m : memory) : memory :=
  st32 m (vm_map_flags map) (set_bits (ld32 m (vm_map_flags map)) 0 1 v).
Lemma vm_map_lock_spec m map es b :
  map_ok m map es -> 0 <= b < 2 ->
  let m' := lock_set map b m in
  map_ok m' map es /\ get_bits (ld32 m' (vm_map_flags map)) 0 1 = b /\
  ld64 m' (vm_map_size map) = ld64 m (vm_map_size map) /\ same_outside (within (map + 32) 16) m m'.
Proof.
  intros [Hr Hc Hd He] Hb m'.
  assert (Hs : same_outside (within (map + 32) 16) m m').
  { apply same_outside_store; [unfold within; map_unfold; intros x; lia|done]. }
  split_and!; [split; [done| | |]| | |exact Hs].
  - rewrite <- Hc. apply (load_store_apart 4 4). unfold apart. map_unfold. lia.
  - by apply (map_header_list m).
  - intros i v Hi. apply (map_header_entry m); [lia|done|by apply He].
  - unfold m', lock_set. rewrite ld32_flags by lia. apply get_set_bits; lia.
  - apply (load_store_apart 8 4). unfold apart. map_unfold. lia.
Qed.

(** What [vm_map_entry_create] does between the two: the entry is filled in, the counters
    are updated and its node is linked. *)
Definition entry_counted (map base size flags : Z) (m : memory) : memory :=
  let m := vm_map_entry_fill (vm_map_next_entry m map) base size flags m in
  let m := st32 m (vm_map_nentries map) (u32 (ld32 m (vm_map_nentries map) + 1)) in
  st64 m (vm_map_size map) (u64 (ld64 m (vm_map_size map) + size)).
Definition new_entry (base size flags : Z) : ventry :=
  mk_ventry base (size - 1) (b2z (truthy (Z.land flags VM_MAP_ENTRY_GUARD_PAGE)))
    (b2z (truthy (Z.land flags VM_ALLOC_KERNEL_CODE))).

Lemma entry_counted_spec m map es base size flags :
  map_ok m map es -> Z.of_nat (length es) + 1 < 2 ^ 32 -> is_u64 base -> 1 <= size < 2 ^ 64 ->
  let n := Z.of_nat (length es) in let m' := entry_counted map base size flags m in
  ld32 m' (vm_map_nentries map) = n + 1 /\ ld64 m' (vm_map_size map) = u64 (ld64 m (vm_map_size map) + size) /\
  dll m' (vm_map_entries map) (entry_node map <$> seqZ 0 n) /\
  (forall i v, (es ++ [new_entry base size flags]) !! i = Some v -> entry_at m' (entry_addr map (Z.of_nat i)) v) /\
  same_outside (map_bytes map (n + 1)) m m'.
Proof.
  intros Hok Hcnt Hb Hsz. unfold entry_counted. rewrite (vm_map_next_entry_spec _ _ _ Hok). cbv zeta.
  destruct Hok as [[Hm0 _] Hc Hd He]. set (n := Z.of_nat (length es)) in *. set (e := entry_addr map n) in *.
  destruct (vm_map_entry_fill_spec e base size flags m Hb Hsz) as [Hent Hs1].
  set (m1 := vm_map_entry_fill e base size flags m) in *. set (m' := st64 _ (vm_map_size map) _).
  assert (Hs2 : same_outside (within (map + 32) 16) m1 m').
  { do 2 (apply same_outside_store; [unfold within; map_unfold; intros x; lia|]). done. }
  assert (Hold : forall k a, map <= a -> a + Z.of_nat k <= map + 48 -> load k m1 a = load k m a).
  { intros k a H1 H2. apply (load_same_outside _ _ _ _ _ Hs1). unfold within, e. map_unfold. intros x Hx. lia. }
  split_and!.
  - unfold m'. rewrite load_store_apart by (unfold apart; map_unfold; lia). rewrite ld32_st32_eq, Hold by (map_unfold; lia).
    rewrite Hc. rewrite !u32_id by (rewrite ?u32_id; lia). done.
  - unfold m'. rewrite ld64_st64_eq, u64_u64. rewrite load_store_apart by (unfold apart; map_unfold; lia).
    by rewrite Hold by (map_unfold; lia).
  - apply (map_header_list m1); [done|]. eapply dll_same_outside; [exact Hs1| |exact Hd]. intros x Hx%map_node_bytes.
    unfold within, e in *. map_unfold. destruct Hx as [?|(i & ? & ?)]; lia.
  - intros i v Hi. apply (map_header_entry m1); [lia|done|]. apply lookup_app_Some in Hi as [Hi|[Hi1 Hi2]].
    + pose proof (lookup_lt_Some _ _ _ Hi). eapply entry_at_same_outside; [exact Hs1| |by apply He].
      unfold entry_bytes, within, e. map_unfold. intros x. lia.
    + apply list_lookup_singleton_Some in Hi2 as [Hi2 <-]. replace (Z.of_nat i) with n by lia. exact Hent.
  - eapply same_outside_trans; eapply same_outside_mono; [|exact Hs1| |exact Hs2].
    + intros x Hx. right. exists n. split; [lia|done].
    + intros x Hx. left. unfold within in *. lia.
Qed.

Lemma entry_appended_spec m map es base size flags :
  map_ok m map es -> entry_addr map (Z.of_nat (length es) + 1) < 2 ^ 64 ->
  Z.of_nat (length es) + 1 < 2 ^ 32 -> is_u64 base -> 1 <= size < 2 ^ 64 ->
  let n := Z.of_nat (length es) in
  let m' := list_add_tail (entry_counted map base size flags m) (vm_entry_siblings (vm_map_next_entry m map)) (vm_map_entries map) in
  map_ok m' map (es ++ [new_entry base size flags]) /\
  ld64 m' (vm_map_size map) = u64 (ld64 m (vm_map_size map) + size) /\ same_outside (map_bytes map (n + 1)) m m'.
Proof.
  intros Hok Hmax Hcnt Hb Hsz n m'. destruct (entry_counted_spec m map es base size flags Hok Hcnt Hb Hsz) as (Hc & Hz & Hd & He & Hs1).
  unfold m'. rewrite (vm_map_next_entry_spec _ _ _ Hok). clear m'. fold n in Hc, Hd, Hs1, Hmax, Hcnt |- *. pose proof Hok as [[Hm0 _] _ _ _].
  set (m1 := entry_counted map base size flags m) in *. set (m2 := list_add_tail m1 _ _).
  assert (Hseq : entry_node map <$> seqZ 0 (n + 1) = (entry_node map <$> seqZ 0 n) ++ [vm_entry_siblings (entry_addr map n)]).
  { rewrite seqZ_app, fmap_app by lia. simpl. by rewrite Z.add_0_l. }
  assert (Hsep : sep (vm_entry_siblings (entry_addr map n) :: vm_map_entries map :: (entry_node map <$> seqZ 0 n))).
  { pose proof (map_nodes_sep map (n + 1) Hm0 Hmax ltac:(lia)) as Hs. rewrite Hseq in Hs. sep_from Hs. }
  assert (Hs2 : same_outside (node_bytes (vm_map_entries map :: (entry_node map <$> seqZ 0 (n + 1)))) m1 m2).
  { eapply same_outside_mono; [|apply list_add_tail_footprint; exact Hd]. intros x. apply node_bytes_mono. rewrite Hseq. set_solver. }
  assert (Hlen : Z.of_nat (length (es ++ [new_entry base size flags])) = n + 1) by (rewrite length_app; simpl; lia).
  assert (Hload : forall k a, map + 32 <= a -> a + Z.of_nat k <= map + 48 -> load k m2 a = load k m1 a).
  { intros k a H1 H2. apply (load_same_outside _ _ _ _ _ Hs2). unfold within. intros x Hx [?|(i & ? & ?)]%map_node_bytes;
      unfold within in *; map_unfold; lia. }
  split_and!; [split; rewrite ?Hlen| |].
  - done.
  - by rewrite Hload by (map_unfold; lia).
  - rewrite Hseq. by apply dll_add_tail.
  - intros i v Hi. eapply entry_at_same_outside; [exact Hs2| |by apply He]. apply lookup_lt_Some in Hi.
    unfold entry_bytes, within. intros x Hx [?|(j & ? & ?)]%map_node_bytes; unfold within in *; map_unfold; lia.
  - by rewrite Hload by (map_unfold; lia).
  - eapply same_outside_trans; [exact Hs1|]. eapply same_outside_mono; [|exact Hs2].
    intros x [?|(j & ? & ?)]%map_node_bytes; [left; unfold within in *; lia|right]. exists j.
    unfold within in *. map_unfold. lia.
Qed.

(** The operation is the composition of the updates. *)
Lemma vm_map_entry_create_updates s map base size flags :
  let m1 := lock_set map 1 (k_mem s) in
  let m2 := list_add_tail (entry_counted map base size flags m1) (vm_entry_siblings (vm_map_next_entry m1 map)) (vm_map_entries map) in
  vm_map_entry_create map base size flags s = Done tt (set_mem (lock_set map 0 m2) s).
Proof.
  cbv zeta. unfold vm_map_entry_create, vm_map_lock, vm_map_unlock, vm_map_set_lock. rewrite upd_mem_bind.
  fold (lock_set map 1 (k_mem s)). generalize (lock_set map 1 (k_mem s)) as m1. intros m1. rewrite get_mem_bind, set_mem_mem.
  unfold entry_counted. generalize (vm_map_next_entry m1 map) as e. intros e. cbv zeta.
  do 4 rewrite upd_mem_bind, ?set_mem_mem, ?set_mem_set_mem. unfold upd_mem. by rewrite set_mem_mem, set_mem_set_mem.
Qed.

(** Creating an entry appends it to the map. *)
Lemma vm_map_entry_create_run s map es base size flags :
  map_ok (k_mem s) map es -> entry_addr map (Z.of_nat (length es) + 1) < 2 ^ 64 ->
  Z.of_nat (length es) + 1 < 2 ^ 32 -> is_u64 base -> 1 <= size < 2 ^ 64 ->
  exists m', vm_map_entry_create map base size flags s = Done tt (set_mem m' s) /\
    map_ok m' map (es ++ [mk_ventry base (size - 1)
      (b2z (truthy (Z.land flags VM_MAP_ENTRY_GUARD_PAGE)))
      (b2z (truthy (Z.land flags VM_ALLOC_KERNEL_CODE)))]) /\
    ld64 m' (vm_map_size map) = u64 (ld64 (k_mem s) (vm_map_size map) + size) /\
    get_bits (ld32 m' (vm_map_flags map)) 0 1 = 0 /\
    same_outside (map_bytes map (Z.of_nat (length es) + 1)) (k_mem s) m'.
Proof.
  intros Hok Hmax Hcnt Hb Hsz. set (n := Z.of_nat (length es)) in *.
  destruct (vm_map_lock_spec (k_mem s) map es 1 Hok) as (Hok1 & _ & Hz1 & Hs1); [lia|]. set (m1 := lock_set map 1 (k_mem s)) in *.
  destruct (entry_appended_spec m1 map es base size flags) as (Hok2 & Hz2 & Hs2); try done. set (m2 := list_add_tail _ _ _) in *.
  destruct (vm_map_lock_spec m2 map _ 0 Hok2) as (Hok3 & Hf3 & Hz3 & Hs3); [lia|].
  exists (lock_set map 0 m2).
  split; [|split; [exact Hok3|split; [by rewrite Hz3, Hz2, Hz1|split; [exact Hf3|]]]].
  { apply vm_map_entry_create_updates. }
  assert (Hh : forall x, within (map + 32) 16 x -> map_bytes map (n + 1) x) by (intros x Hx; left; unfold within in *; lia).
  eapply same_outside_trans; [eapply same_outside_mono; [exact Hh|exact Hs1]|].
  eapply same_outside_trans; [exact Hs2|eapply same_outside_mono; [exact Hh|exact Hs3]].
Qed.
(** Creating a map makes it empty. *)
Lemma vm_map_create_run s map pmap min max :
  0 <= map -> entry_addr map 0 < 2 ^ 64 ->
  exists m, vm_map_create map pmap min max s = Done tt (set_mem m s) /\
    map_ok m map [] /\ ld64 m (vm_map_pmap map) = u64 pmap /\
    ld64 m (vm_map_min map) = u64 min /\ ld64 m (vm_map_max map) = u64 max /\
    ld64 m (vm_map_size map) = 0 /\ same_outside (within map 64) (k_mem s) m.
Proof.
  intros Hm Hmax. unfold vm_map_create, __vm_map_init, vm_map_unlock, vm_map_set_lock.
  cbv beta iota delta [bind st upd_mem]. eexists. split; [reflexivity|].
  cbn [k_mem set_mem]. unfold INIT_LIST_HEAD, set_list_next, set_list_prev.
  map_unfold. change (entry_addr map 0) with (map + 4096 + 1600 * 0) in Hmax.
  split; [|split_and!].
  - split.
    + unfold entry_addr. simpl. lia.
    + unfold vm_map_nentries. simpl. mem_simpl. done.
    + unfold vm_map_entries. simpl. eapply (dll_same_outside (within (map + 40) 8)).
      * apply same_outside_store; [unfold within; lia|].
        apply same_outside_store; [unfold within; lia|]. apply same_outside_refl.
      * intros x (a & ->%list_elem_of_singleton & ?). unfold within, LIST_HEAD_SIZE in *. lia.
      * apply dll_init. lia.
    + intros i v Hi. done.
  - by mem_simpl.
  - by mem_simpl.
  - by mem_simpl.
  - by mem_simpl.
  - repeat (apply same_outside_store; [unfold within; lia|]). done.
Qed.
End Entry.

(** ** The interfaces of the allocator

    [Mapper table lo hi]: entering a page of [lo, hi) in the tables under [table]
    succeeds and changes only the bytes of the tables ([mp_bytes]). *)
Definition same_globals (V : gvar -> Prop) (s s' : kstate) : Prop :=
  forall g, ~ V g -> k_glob s' g = k_glob s g.

(** The globals the memory system keeps its state in. *)
Definition vm_var (g : gvar) : Prop :=
  match g with
  | ptregion_initialised | ptregion_phys_base | pagetables_region_cursor
  | kernel_tte | invalid_tte | kernel_ttep | invalid_ttep
  | memory_virt_base | memory_phys_base | memory_phys_size
  | kernel_phys_base | kernel_phys_size | kernel_virt_base
  | vm_page_region_upper_bound | vm_page_region_cursor | vm_page_region_size
  | vm_page_region | vm_page_idx => True
  | _ => False
  end.

Class Mapper `{Symbols} `{Hardware} (table lo hi : Z) := {
  mp_ok : kstate -> Prop;
  mp_bytes : Z -> Prop;
  mp_map : forall s pbase v access, mp_ok s -> lo <= v -> v + VM_PAGE_SIZE <= hi ->
    0 <= pbase < 2 ^ 47 ->
    exists s', pmap_tt_create_tte table pbase v VM_PAGE_SIZE access s
        = Done PMAP_RETURN_SUCCESS s' /\ mp_ok s' /\
      same_globals (fun g => g = pagetables_region_cursor) s s' /\
      same_outside mp_bytes (k_mem s) (k_mem s');
  mp_frame : forall R s s', mp_ok s -> same_outside R (k_mem s) (k_mem s') ->
    (forall x, mp_bytes x -> ~ R x) ->
    (forall g, vm_var g -> k_glob s' g = k_glob s g) -> mp_ok s';
}.

(** Pmap implements the interface for a 1 GB slot whose level 2 table exists. *)
Section SlotMapper.
Context `{Symbols} `{Hardware}.

Definition slot_bytes (table lo l2 x : Z) : Prop :=
  within (table + 8 * tt_l1_index lo) 8 x \/ within l2 4096 x.

Record slot_ok (table lo hi l2 : Z) : Prop := {
  slot_range : 0 <= lo /\ lo mod 2 ^ 30 + (hi - lo) <= 2 ^ 30 /\ hi + 2 ^ 30 < 2 ^ 64;
  slot_apart : apart table 4096 l2 4096;
}.

Lemma slot_map table lo hi l2 s pbase v access :
  slot_ok table lo hi l2 -> l2_present s table lo l2 -> lo <= v -> v + VM_PAGE_SIZE <= hi ->
  0 <= pbase < 2 ^ 47 ->
  exists s', pmap_tt_create_tte table pbase v VM_PAGE_SIZE access s
      = Done PMAP_RETURN_SUCCESS s' /\ l2_present s' table lo l2 /\
    same_globals (fun g => g = pagetables_region_cursor) s s' /\
    same_outside (slot_bytes table lo l2) (k_mem s) (k_mem s').
Proof.
  intros [(Hlo & Hslot & Hmax) Hap] Hp Hv Hhi Hpb.
  assert (Hps : VM_PAGE_SIZE = 4096) by done. rewrite Hps in *.
  assert (Hi : tt_l1_index v = tt_l1_index lo) by (apply l1_index_same; lia).
  assert (Hr : region_in_slot pbase v 4096).
  { unfold region_in_slot, TT_L2_SIZE. split_and!; try lia.
    clear -Hlo Hslot Hv Hhi. Z.to_euclidean_division_equations. lia. }
  assert (Hp' : l2_present s table v l2) by (unfold l2_present in *; by rewrite Hi).
  destruct (pmap_tt_create_tte_run s table pbase v 4096 access l2 Hr (or_introl Hp'))
    as (s1 & m & E1 & E & [_ Hm]).
  destruct (tt_l2_table_spec _ _ _ _ (or_introl Hp')) as (s1' & E1' & _ & _ & _ & Hsame).
  assert (s1' = s1) as -> by congruence. rewrite (Hsame Hp') in *.
  assert (Hblocks : tt_blocks 4096 = 1) by done. rewrite Hblocks in Hm.
  pose proof (l1_index_range lo). pose proof (l2_index_range v).
  exists (set_mem m s). split; [done|]. split; [|split; [done|]].
  - destruct Hp as [H1' H2']. unfold l2_present. cbn [k_mem set_mem].
    assert (ld64 m (table + 8 * tt_l1_index lo) = ld64 (k_mem s) (table + 8 * tt_l1_index lo)) as ->; [|done].
    apply (load_same_outside _ 8 _ _ _ Hm). intros x Hx Hw%l2_words_page.
    unfold within, apart in *. lia.
  - eapply same_outside_mono; [|exact Hm]. intros x Hw%l2_words_page. by right.
Qed.

Lemma slot_frame table lo l2 R s s' :
  l2_present s table lo l2 -> same_outside R (k_mem s) (k_mem s') ->
  (forall x, slot_bytes table lo l2 x -> ~ R x) ->
  (forall g, vm_var g -> k_glob s' g = k_glob s g) ->
  l2_present s' table lo l2.
Proof.
  intros Hp Hs HR Hg. unfold l2_present, lin in *. rewrite !Hg by done.
  rewrite (load_same_outside R 8 (k_mem s)); [done..|]. intros x Hx. apply HR. by left.
Qed.

Definition slot_mapper table lo hi l2 (Hok : slot_ok table lo hi l2) : Mapper table lo hi := {|
  mp_ok s := l2_present s table lo l2;
  mp_bytes := slot_bytes table lo l2;
  mp_map s pbase v access := slot_map table lo hi l2 s pbase v access Hok;
  mp_frame := slot_frame table lo l2;
|}.
End SlotMapper.

(** ** Allocation *)
Section Alloc.
Context `{Symbols} `{Hardware} (map lo hi : Z) `{!Mapper (vm_map_pmap map) lo hi}.

(** The bytes of the page structures. *)
Definition page_table_bytes (s : kstate) (x : Z) : Prop :=
  exists i, 0 <= i < k_glob s vm_page_idx /\ vm_page_bytes (vm_page_at s i) x.

Definition free_pages (s : kstate) : Z :=
  Z.of_nat (length (filter (fun st => st = VM_PAGE_STATE_FREE) (page_view s))).

(** The state of the allocator: the entries of the map, a page table with [k]
    free pages, translation tables; their bytes do not overlap.  [cap] bounds
    the number of entries. *)
Record vm_ready (s : kstate) (es : list ventry) (base cap k : Z) : Prop := {
  vr_map : map_ok (k_mem s) map es;
  vr_cap : Z.of_nat (length es) <= cap /\ cap < 2 ^ 31 /\ entry_addr map cap < 2 ^ 64;
  vr_pages : pages_ok s base;
  vr_phys : base + VM_PAGE_SIZE * k_glob s vm_page_idx <= 2 ^ 47;
  vr_free : k <= free_pages s;
  vr_tables : mp_ok s;
  vr_apart1 : forall x, map_bytes map cap x -> ~ page_table_bytes s x;
  vr_apart2 : forall x, mp_bytes x -> ~ map_bytes map cap x;
  vr_apart3 : forall x, mp_bytes x -> ~ page_table_bytes s x;
  vr_heap : forall x, lo <= x < hi ->
    ~ map_bytes map cap x /\ ~ page_table_bytes s x /\ ~ mp_bytes x;
}.

Lemma page_view_same_outside R s s' :
  same_outside R (k_mem s) (k_mem s') -> (forall x, page_table_bytes s x -> ~ R x) ->
  k_glob s' vm_page_idx = k_glob s vm_page_idx ->
  k_glob s' vm_page_region = k_glob s vm_page_region -> page_view s' = page_view s.
Proof.
  intros Hs HR Hi Hr. unfold page_view, vm_page_at. rewrite Hi, Hr. apply list_fmap_ext.
  intros i j Hj%list_elem_of_lookup_2%elem_of_seqZ.
  apply (vm_page_same_outside _ _ _ _ Hs). intros x Hx. apply HR. exists j. split; [lia|done].
Qed.

Lemma pages_ok_same_outside R s s' base :
  same_outside R (k_mem s) (k_mem s') -> (forall x, page_table_bytes s x -> ~ R x) ->
  k_glob s' vm_page_idx = k_glob s vm_page_idx ->
  k_glob s' vm_page_region = k_glob s vm_page_region -> pages_ok s base -> pages_ok s' base.
Proof.
  intros Hs HR Hi Hr (Hn & Hb & Hm & Hp). unfold pages_ok, vm_page_at. rewrite Hi, Hr.
  split; [done|]. split; [done|]. split; [done|]. intros i Hi'. rewrite <- Hp by done.
  apply (vm_page_same_outside _ _ _ _ Hs). intros x Hx. apply HR. exists i. by split.
Qed.

Lemma map_ok_same_outside R m m' es :
  same_outside R m m' -> (forall x, map_bytes map (Z.of_nat (length es)) x -> ~ R x) ->
  map_ok m map es -> map_ok m' map es.
Proof.
  intros Hs HR [Hr Hc Hd He]. split; [done| | |].
  - rewrite <- Hc. apply (load_same_outside _ 4 _ _ _ Hs). intros x Hx. apply HR. left.
    unfold within in *. map_unfold. lia.
  - eapply dll_same_outside; [exact Hs| |exact Hd]. intros x Hx%map_node_bytes. apply HR.
    unfold map_bytes, within in *. destruct Hx as [?|(i & ? & ?)]; [left; lia|right].
    exists i. lia.
  - intros i v Hi. pose proof (lookup_lt_Some _ _ _ Hi).
    eapply entry_at_same_outside; [exact Hs| |by apply He]. intros x Hx. apply HR. right.
    exists (Z.of_nat i). unfold entry_bytes, within in *. lia.
Qed.

Lemma map_bytes_mono n1 n2 x : n1 <= n2 -> map_bytes map n1 x -> map_bytes map n2 x.
Proof. intros Hn [?|(i & ? & ?)]; [by left|right]. exists i. split; [lia|done]. Qed.

(** The state survives a change of bytes that belong to none of its parts. *)
Lemma vm_ready_frame R s s' es base cap k :
  vm_ready s es base cap k -> same_outside R (k_mem s) (k_mem s') ->
  (forall x, R x -> ~ map_bytes map cap x /\ ~ page_table_bytes s x /\ ~ mp_bytes x) ->
  (forall g, vm_var g -> k_glob s' g = k_glob s g) -> vm_ready s' es base cap k.
Proof.
  intros [Hmap Hcap Hpages Hphys Hfree Htab A1 A2 A3 A4] Hs HR Hg.
  assert (Hpt : forall x, page_table_bytes s' x <-> page_table_bytes s x).
  { intros x. unfold page_table_bytes, vm_page_at. by rewrite !Hg by done. }
  split; [|done| | | | |..].
  - eapply map_ok_same_outside; [exact Hs| |done]. intros x Hx Hr.
    apply (proj1 (HR x Hr)). eapply map_bytes_mono; [|exact Hx]. lia.
  - eapply pages_ok_same_outside; [exact Hs| |by apply Hg..|done]. intros x Hx Hr. by destruct (HR x Hr) as (? & ? & ?).
  - by rewrite Hg by done.
  - unfold free_pages. erewrite page_view_same_outside; [done|exact Hs| |by apply Hg..].
    intros x Hx Hr. by destruct (HR x Hr) as (? & ? & ?).
  - eapply mp_frame; [done|exact Hs| |done]. intros x Hx Hr. by destruct (HR x Hr) as (? & ? & ?).
  - intros x Hx. rewrite Hpt. auto.
  - done.
  - intros x Hx. rewrite Hpt. auto.
  - intros x Hx. rewrite Hpt. auto.
Qed.

Lemma page_table_bytes_globals s s' x :
  same_globals (fun g => g = pagetables_region_cursor) s s' ->
  page_table_bytes s' x <-> page_table_bytes s x.
Proof. intros Hg. unfold page_table_bytes, vm_page_at. by rewrite !Hg by done. Qed.

(** One entry more, with room left. *)
Lemma vm_ready_entry s es base cap k v size flags :
  vm_ready s es base cap k -> Z.of_nat (length es) + 1 <= cap ->
  is_u64 v -> 1 <= size < 2 ^ 64 ->
  exists s', vm_map_entry_create map v size flags s = Done tt s' /\
    vm_ready s' (es ++ [mk_ventry v (size - 1)
      (b2z (truthy (Z.land flags VM_MAP_ENTRY_GUARD_PAGE)))
      (b2z (truthy (Z.land flags VM_ALLOC_KERNEL_CODE)))]) base cap k /\
    (forall g, k_glob s' g = k_glob s g) /\
    same_outside (map_bytes map cap) (k_mem s) (k_mem s').
Proof.
  intros Hr Hn Hv Hsz. pose proof (vr_cap _ _ _ _ _ Hr) as (? & ? & Hmax).
  destruct (vm_map_entry_create_run s map es v size flags (vr_map _ _ _ _ _ Hr))
    as (m & E & Hok & _ & _ & Hs); try done; [unfold entry_addr in *; lia|lia|].
  assert (Hs' : same_outside (map_bytes map cap) (k_mem s) m).
  { eapply same_outside_mono; [|exact Hs]. intros x. apply map_bytes_mono. lia. }
  exists (set_mem m s). split; [done|]. split; [|split; done].
  destruct Hr as [Hmap Hcap Hpages Hphys Hfree Htab A1 A2 A3 A4].
  split; try done.
  - rewrite length_app. simpl. lia.
  - eapply pages_ok_same_outside; [exact Hs'| |done..]. intros x Hx Hb. by apply (A1 x).
  - unfold free_pages. erewrite page_view_same_outside; [done|exact Hs'| |done..].
    intros x Hx Hb. by apply (A1 x).
  - eapply mp_frame; [done|exact Hs'| |done]. intros x Hx. by apply A2.
Qed.

Lemma free_pages_insert l i :
  l !! i = Some VM_PAGE_STATE_FREE ->
  S (length (filter (fun st => st = VM_PAGE_STATE_FREE) (<[i := VM_PAGE_STATE_ALLOC]> l)))
  = length (filter (fun st => st = VM_PAGE_STATE_FREE) l).
Proof.
  intros Hi. pose proof (lookup_lt_Some _ _ _ Hi).
  rewrite insert_take_drop by done. rewrite <- (take_drop_middle l i _ Hi) at 3.
  rewrite !filter_app, !length_app. rewrite filter_cons_False by done.
  rewrite filter_cons_True by done. simpl. lia.
Qed.

(** One page of the heap. *)
Lemma vm_ready_page s es base cap k v access :
  vm_ready s es base cap k -> 0 < k -> lo <= v -> v + VM_PAGE_SIZE <= hi ->
  exists s', vm_map_page map v access s = Done tt s' /\
    vm_ready s' es base cap (k - 1) /\
    same_globals (fun g => g = pagetables_region_cursor) s s' /\
    same_outside (fun x => page_table_bytes s x \/ mp_bytes x) (k_mem s) (k_mem s').
Proof.
  intros [Hmap Hcap Hpages Hphys Hfree Htab A1 A2 A3 A4] Hk Hlo Hhi.
  pose proof (vm_page_alloc_refines s base Hpages) as Ha.
  destruct (abs_alloc (page_view s)) as [i|] eqn:Ei.
  2:{ exfalso. unfold free_pages in Hfree.
      unfold abs_alloc in Ei. destruct (list_find _ _) eqn:Ef; [done|].
      apply list_find_None in Ef. rewrite Forall_forall in Ef.
      destruct (filter _ (page_view s)) as [|x l] eqn:El; [simpl in Hfree; lia|].
      assert (Hx : x ∈ x :: l) by (by left). rewrite <- El in Hx.
      apply list_elem_of_filter in Hx as [Hx1 Hx2]. by apply (Ef x). }
  destruct Ha as (s1 & E1 & Hok1 & Hv1 & Hg1 & Hs1).
  assert (Hi : page_view s !! i = Some VM_PAGE_STATE_FREE).
  { unfold abs_alloc in Ei. destruct (list_find _ _) as [[j x]|] eqn:Ef; [|done].
    injection Ei as ->. by apply list_find_Some in Ef as (? & -> & _). }
  pose proof (lookup_lt_Some _ _ _ Hi) as Hlen. rewrite length_page_view in Hlen.
  assert (Hps : VM_PAGE_SIZE = 4096) by done.
  set (R1 := within (vm_page_at s (Z.of_nat i) + 32) 4) in Hs1.
  assert (HR1 : forall x, R1 x -> page_table_bytes s x).
  { intros x Hx. exists (Z.of_nat i). split; [lia|]. right. unfold R1, within in *. lia. }
  assert (Hmp1 : mp_ok s1).
  { eapply mp_frame; [exact Htab|exact Hs1| |done]. intros x Hx Hr. by eapply A3, HR1. }
  destruct (mp_map s1 (base + VM_PAGE_SIZE * Z.of_nat i) v access Hmp1 Hlo Hhi)
    as (s2 & E2 & Hmp2 & Hg2 & Hs2).
  { destruct Hpages as (_ & ? & _). lia. }
  assert (Hg : same_globals (fun g => g = pagetables_region_cursor) s s2).
  { intros g Hne. rewrite Hg2, Hg1; done. }
  assert (Hpt1 : forall x, page_table_bytes s1 x -> ~ mp_bytes x).
  { intros x Hx Hm. apply (A3 x Hm), (page_table_bytes_globals s s1); [|done].
    intros g _. apply Hg1. }
  assert (Hview : page_view s2 = <[i := VM_PAGE_STATE_ALLOC]> (page_view s)).
  { rewrite <- Hv1. eapply page_view_same_outside; [exact Hs2|done|by apply Hg2..]. }
  exists s2. unfold vm_map_page. rewrite (bind_done _ _ _ _ _ E1), (bind_done _ _ _ _ _ E2).
  split; [done|]. split; [split|split; [done|]].
  - eapply map_ok_same_outside; [exact Hs2| |].
    + intros x Hx Hm. apply (A2 x Hm). eapply map_bytes_mono; [|exact Hx]. lia.
    + eapply map_ok_same_outside; [exact Hs1| |exact Hmap]. intros x Hx Hm.
      eapply A1; [|by apply HR1]. eapply map_bytes_mono; [|exact Hx]. lia.
  - done.
  - eapply pages_ok_same_outside; [exact Hs2|done|by apply Hg2..|done].
  - by rewrite Hg by done.
  - unfold free_pages in *. rewrite Hview. rewrite <- (free_pages_insert _ _ Hi) in Hfree. lia.
  - done.
  - intros x Hx. rewrite page_table_bytes_globals by done. auto.
  - done.
  - intros x Hx. rewrite page_table_bytes_globals by done. auto.
  - intros x Hx. rewrite page_table_bytes_globals by done. auto.
  - eapply same_outside_trans.
    + eapply same_outside_mono; [|exact Hs1]. left. by apply HR1.
    + eapply same_outside_mono; [|exact Hs2]. by right.
Qed.

(** A run of pages. *)
Lemma vm_ready_pages s es base cap k v n :
  vm_ready s es base cap k -> Z.of_nat n <= k -> 0 <= lo -> lo <= v ->
  v + VM_PAGE_SIZE * Z.of_nat n <= hi -> hi < 2 ^ 64 ->
  exists s', for_range 0 n (fun i =>
      vm_map_page map (u64 (v + VM_PAGE_SIZE * i)) PMAP_ACCESS_READWRITE) s = Done tt s' /\
    vm_ready s' es base cap (k - Z.of_nat n) /\
    same_globals (fun g => g = pagetables_region_cursor) s s' /\
    same_outside (fun x => page_table_bytes s x \/ mp_bytes x) (k_mem s) (k_mem s').
Proof.
  intros Hr Hn Hlo0 Hlo Hhi Hmax. assert (Hps : VM_PAGE_SIZE = 4096) by done. rewrite Hps in *.
  use_for (fun i t => vm_ready t es base cap (k - i) /\
      same_globals (fun g => g = pagetables_region_cursor) s t /\
      same_outside (fun x => page_table_bytes s x \/ mp_bytes x) (k_mem s) (k_mem t)) HL.
  destruct HL as (s' & E & Hr' & Hg' & Hs').
  - split; [by rewrite Z.sub_0_r|]. done.
  - intros i t Hi (Ht & Hg & Hs). rewrite u64_id by lia.
    destruct (vm_ready_page t es base cap (k - i) (v + 4096 * i) PMAP_ACCESS_READWRITE Ht)
      as (t' & E & Ht' & Hg' & Hs'); [lia|lia|rewrite Hps; lia|].
    exists t'. split; [exact E|]. split; [by replace (k - (i + 1)) with (k - i - 1) by lia|].
    split.
    + intros g Hne. by rewrite Hg', Hg.
    + eapply same_outside_trans; [exact Hs|]. eapply same_outside_mono; [|exact Hs'].
      intros x [Hx|Hx]; [left|by right]. by apply (page_table_bytes_globals s t x Hg).
  - exists s'. split; [exact E|]. by rewrite Z.add_0_l in Hr'.
Qed.
End Alloc.

(** A guard page is filled with the magic number. *)
Lemma vm_guard_page_fill_run s v :
  exists s', vm_guard_page_fill v s = Done tt s' /\
    (forall g, k_glob s' g = k_glob s g) /\
    same_outside (within v 4096) (k_mem s) (k_mem s') /\
    (forall i, 0 <= i < 512 -> ld64 (k_mem s') (v + 8 * i) = VM_PAGE_GUARD_MAGIC).
Proof.
  unfold vm_guard_page_fill.
  use_for (fun n t => (forall g, k_glob t g = k_glob s g) /\
      same_outside (within v 4096) (k_mem s) (k_mem t) /\
      (forall i, 0 <= i < n -> ld64 (k_mem t) (v + 8 * i) = VM_PAGE_GUARD_MAGIC)) HL.
  destruct HL as (s' & E & Hg & Hs & Hm).
  - split; [done|]. split; [done|]. lia.
  - change (0 + Z.of_nat (Z.to_nat (VM_PAGE_SIZE / 8))) with 512.
    intros n t Hn (Hg & Hs & Hm). eexists. split; [reflexivity|]. split; [done|]. cbn [k_mem set_mem].
    split; [apply same_outside_store; [unfold within; intros x; lia|done]|].
    intros i Hi. destruct (decide (i = n)) as [->|Hne]; [by rewrite ld64_st64_eq|].
    rewrite load_store_apart by (unfold apart; lia). apply Hm. lia.
  - exists s'. split; [exact E|]. done.
Qed.

Section AllocSpec.
Context `{Symbols} `{Hardware} (map lo hi : Z) `{!Mapper (vm_map_pmap map) lo hi}.

Abbreviation ready := (vm_ready map lo hi).

(** What an allocation may change: the cursor of the page-table region; the
    bytes of the map, the page structures and the tables; the pages [a, b). *)
Definition alloc_frame (cap a b : Z) (s s' : kstate) : Prop :=
  same_globals (fun g => g = pagetables_region_cursor) s s' /\
  same_outside (fun x => map_bytes map cap x \/ page_table_bytes s x \/ mp_bytes x \/ a <= x < b)
    (k_mem s) (k_mem s').

Lemma alloc_frame_trans cap a b s1 s2 s3 :
  alloc_frame cap a b s1 s2 -> alloc_frame cap a b s2 s3 -> alloc_frame cap a b s1 s3.
Proof.
  intros [G1 F1] [G2 F2]. split.
  - intros g Hg. by rewrite G2, G1.
  - eapply same_outside_trans; [exact F1|]. eapply same_outside_mono; [|exact F2].
    intros x [?|[Hx|Hx]]; [by left|right; left|by right; right].
    by apply (page_table_bytes_globals s1 s2 x G1).
Qed.

Lemma alloc_frame_intro cap a b s s' (R : Z -> Prop) :
  same_globals (fun g => g = pagetables_region_cursor) s s' ->
  same_outside R (k_mem s) (k_mem s') ->
  (forall x, R x -> map_bytes map cap x \/ page_table_bytes s x \/ mp_bytes x \/ a <= x < b) ->
  alloc_frame cap a b s s'.
Proof. intros Hg Hs HR. split; [done|]. by eapply same_outside_mono. Qed.

Definition guard_entry (v : Z) : ventry := mk_ventry v (VM_PAGE_SIZE - 1) VM_TRUE VM_FALSE.
Definition data_entry (v n : Z) : ventry := mk_ventry v (VM_PAGE_SIZE * n - 1) VM_FALSE VM_FALSE.

(** Filling a guard page of the heap. *)
Lemma ready_fill s es base cap k a b v :
  ready s es base cap k -> lo <= v -> v + VM_PAGE_SIZE <= hi -> a <= v -> v + VM_PAGE_SIZE <= b ->
  exists s', vm_guard_page_fill v s = Done tt s' /\ ready s' es base cap k /\
    alloc_frame cap a b s s'.
Proof.
  intros Hr Hlo Hhi Ha Hb. destruct (vm_guard_page_fill_run s v) as (s' & E & Hg & Hs & _).
  assert (Hps : VM_PAGE_SIZE = 4096) by done.
  exists s'. split; [done|]. split.
  - eapply vm_ready_frame; [done|exact Hs| |done]. intros x Hx.
    apply (vr_heap _ _ _ _ _ _ _ _ Hr). unfold within in Hx. lia.
  - eapply alloc_frame_intro; [by intros g _|exact Hs|]. unfold within. intros x Hx. lia.
Qed.

Lemma ready_page s es base cap k a b v access :
  ready s es base cap k -> 0 < k -> lo <= v -> v + VM_PAGE_SIZE <= hi ->
  exists s', vm_map_page map v access s = Done tt s' /\ ready s' es base cap (k - 1) /\
    alloc_frame cap a b s s'.
Proof.
  intros Hr Hk Hlo Hhi.
  destruct (vm_ready_page map lo hi s es base cap k v access Hr Hk Hlo Hhi)
    as (s' & E & Hr' & Hg & Hs).
  exists s'. split; [done|]. split; [done|]. eapply alloc_frame_intro; [done|exact Hs|]. naive_solver.
Qed.

Lemma ready_entry s es base cap k a b v size flags :
  ready s es base cap k -> Z.of_nat (length es) + 1 <= cap ->
  is_u64 v -> 1 <= size < 2 ^ 64 ->
  exists s', vm_map_entry_create map v size flags s = Done tt s' /\
    ready s' (es ++ [mk_ventry v (size - 1)
      (b2z (truthy (Z.land flags VM_MAP_ENTRY_GUARD_PAGE)))
      (b2z (truthy (Z.land flags VM_ALLOC_KERNEL_CODE)))]) base cap k /\
    alloc_frame cap a b s s'.
Proof.
  intros Hr Hn Hv Hsz.
  destruct (vm_ready_entry map lo hi s es base cap k v size flags Hr Hn Hv Hsz)
    as (s' & E & Hr' & Hg & Hs).
  exists s'. split; [done|]. split; [done|].
  eapply alloc_frame_intro; [by intros g _|exact Hs|]. naive_solver.
Qed.

(** The allocation of guard and data pages, on the list of entries. *)
Definition has (flags f : Z) : bool := truthy (Z.land flags f).
Definition alloc_base (v flags : Z) : Z :=
  if has flags VM_ALLOC_GUARD_FIRST then v + VM_PAGE_SIZE else v.
Definition alloc_end (v n flags : Z) : Z :=
  alloc_base v flags + VM_PAGE_SIZE * n
  + (if has flags VM_ALLOC_GUARD_LAST then VM_PAGE_SIZE else 0).
Definition alloc_pages (n flags : Z) : Z :=
  n + b2z (has flags VM_ALLOC_GUARD_FIRST) + b2z (has flags VM_ALLOC_GUARD_LAST).
Definition alloc_entries (v n flags : Z) : list ventry :=
  (if has flags VM_ALLOC_GUARD_FIRST then [guard_entry v] else [])
  ++ [data_entry (alloc_base v flags) n]
  ++ (if has flags VM_ALLOC_GUARD_LAST
      then [guard_entry (alloc_base v flags + VM_PAGE_SIZE * n)] else []).

(** The phases of [vm_map_alloc]. *)
Lemma alloc_first s es base cap k v b flags :
  ready s es base cap k -> 0 < k -> 0 <= lo -> lo <= v -> hi < 2 ^ 64 ->
  alloc_base v flags <= b -> b <= hi -> v + VM_PAGE_SIZE <= hi ->
  Z.of_nat (length es) + 1 <= cap ->
  exists s', (if truthy (Z.land flags VM_ALLOC_GUARD_FIRST) then
      vm_map_page map v PMAP_ACCESS_NOACCESS ;!
      vm_map_entry_create map v VM_PAGE_SIZE VM_MAP_ENTRY_GUARD_PAGE ;!
      vm_guard_page_fill v ;!
      ret (u64 (v + VM_PAGE_SIZE))
    else ret v) s = Done (alloc_base v flags) s' /\
    ready s' (es ++ (if has flags VM_ALLOC_GUARD_FIRST then [guard_entry v] else []))
      base cap (k - b2z (has flags VM_ALLOC_GUARD_FIRST)) /\
    alloc_frame cap v b s s'.
Proof.
  intros Hr Hk Hlo0 Hlo Hhi Hb Hbhi Hv Hn. assert (Hps : VM_PAGE_SIZE = 4096) by done.
  unfold alloc_base, has in *. destruct (truthy (Z.land flags VM_ALLOC_GUARD_FIRST)).
  2:{ exists s. rewrite app_nil_r, Z.sub_0_r. split; [done|]. split; [done|]. by split. }
  destruct (ready_page s es base cap k v b v PMAP_ACCESS_NOACCESS Hr Hk Hlo Hv)
    as (s1 & E1 & Hr1 & F1).
  destruct (ready_entry s1 es base cap (k - 1) v b v VM_PAGE_SIZE VM_MAP_ENTRY_GUARD_PAGE Hr1 Hn)
    as (s2 & E2 & Hr2 & F2); [lia|lia|].
  destruct (ready_fill s2 _ base cap (k - 1) v b v Hr2 Hlo Hv ltac:(lia) Hb)
    as (s3 & E3 & Hr3 & F3).
  exists s3. rewrite (bind_done _ _ _ _ _ E1), (bind_done _ _ _ _ _ E2), (bind_done _ _ _ _ _ E3).
  unfold ret. rewrite u64_id by lia. split; [done|]. split; [exact Hr3|].
  eapply alloc_frame_trans; [exact F1|]. by eapply alloc_frame_trans.
Qed.

Lemma alloc_last s es base cap k v0 v flags :
  ready s es base cap k -> 0 <= lo -> lo <= v -> hi < 2 ^ 64 -> v0 <= v ->
  (has flags VM_ALLOC_GUARD_LAST = true ->
     0 < k /\ v + VM_PAGE_SIZE <= hi /\ Z.of_nat (length es) + 1 <= cap) ->
  exists s', when (truthy (Z.land flags VM_ALLOC_GUARD_LAST))
      (vm_map_page map v PMAP_ACCESS_NOACCESS ;!
       vm_guard_page_fill v ;!
       vm_map_entry_create map v VM_PAGE_SIZE VM_MAP_ENTRY_GUARD_PAGE) s = Done tt s' /\
    ready s' (es ++ (if has flags VM_ALLOC_GUARD_LAST then [guard_entry v] else []))
      base cap (k - b2z (has flags VM_ALLOC_GUARD_LAST)) /\
    alloc_frame cap v0 (v + (if has flags VM_ALLOC_GUARD_LAST then VM_PAGE_SIZE else 0)) s s'.
Proof.
  intros Hr Hlo0 Hlo Hhi Hv0 Hg. assert (Hps : VM_PAGE_SIZE = 4096) by done.
  unfold has, when in *. destruct (truthy (Z.land flags VM_ALLOC_GUARD_LAST)).
  2:{ exists s. rewrite app_nil_r, Z.sub_0_r. split; [done|]. split; [done|]. by split. }
  destruct (Hg eq_refl) as (Hk & Hv & Hn).
  destruct (ready_page s es base cap k v0 (v + VM_PAGE_SIZE) v PMAP_ACCESS_NOACCESS Hr Hk Hlo Hv)
    as (s1 & E1 & Hr1 & F1).
  destruct (ready_fill s1 _ base cap (k - 1) v0 (v + VM_PAGE_SIZE) v Hr1 Hlo Hv ltac:(lia) ltac:(lia))
    as (s2 & E2 & Hr2 & F2).
  destruct (ready_entry s2 es base cap (k - 1) v0 (v + VM_PAGE_SIZE) v VM_PAGE_SIZE
    VM_MAP_ENTRY_GUARD_PAGE Hr2 Hn) as (s3 & E3 & Hr3 & F3); [lia|lia|].
  exists s3. rewrite (bind_done _ _ _ _ _ E1), (bind_done _ _ _ _ _ E2).
  split; [exact E3|]. split; [exact Hr3|].
  eapply alloc_frame_trans; [exact F1|]. by eapply alloc_frame_trans.
Qed.

Lemma align_id v : 0 <= v -> v + 4 < 2 ^ 64 -> v mod 4 = 0 -> VM_ALIGN_ADDR v = v.
Proof.
  intros Hv Hmax Hmod. unfold VM_ALIGN_ADDR. rewrite u64_id by lia.
  change (u64 (-4)) with (Z.shiftl (Z.ones 62) 2). rewrite land_field_mod by lia.
  change (2 ^ 2) with 4. Z.to_euclidean_division_equations. lia.
Qed.

Lemma last_entry_fields m es e :
  map_ok m map (es ++ [e]) ->
  let p := list_last_entry m (vm_map_entries map) 24 in
  ld64 m (vm_entry_base p) = ve_base e /\ ld64 m (vm_entry_size p) = ve_size e.
Proof.
  intros [Hr Hc Hd He]. rewrite length_app in *. simpl in *.
  unfold list_last_entry. rewrite (dll_head_prev _ _ _ Hd), last_seqZ_node by lia.
  destruct (He (length es) e) as (Eb & Es & _).
  { rewrite lookup_app_r, Nat.sub_diag by done. done. }
  replace (Z.of_nat (length es + 1) - 1) with (Z.of_nat (length es)) by lia.
  unfold list_entry, container_of, entry_node. unfold vm_entry_siblings.
  by replace (entry_addr map (Z.of_nat (length es)) + 24 - 24)
    with (entry_addr map (Z.of_nat (length es))) by lia.
Qed.

(** A run of [vm_map_alloc], for every combination of guard pages. *)
Lemma vm_map_alloc_run s es e base cap k size flags :
  let n := vm_map_page_count size in
  let v := ve_base e + ve_size e + 1 in
  ready s (es ++ [e]) base cap k -> 0 <= size ->
  0 <= ve_base e -> 0 <= ve_size e -> v mod 4 = 0 -> 0 <= lo -> lo <= v -> hi + 4 < 2 ^ 64 ->
  alloc_end v n flags <= hi -> alloc_pages n flags <= k ->
  Z.of_nat (length es) + 1 + Z.of_nat (length (alloc_entries v n flags)) <= cap ->
  exists s', vm_map_alloc map size flags s = Done (alloc_base v flags) s' /\
    ready s' ((es ++ [e]) ++ alloc_entries v n flags) base cap (k - alloc_pages n flags) /\
    alloc_frame cap v (alloc_end v n flags) s s'.
Proof.
  intros n v Hr Hsize He1 He2 Hal Hlo0 Hlo Hhi Hend Hk Hcap.
  assert (Hps : VM_PAGE_SIZE = 4096) by done.
  assert (Hn : 1 <= n).
  { unfold n, vm_map_page_count. destruct (Z.ltb_spec size VM_PAGE_SIZE); [lia|].
    rewrite Hps in *. Z.to_euclidean_division_equations. lia. }
  unfold alloc_end, alloc_pages, alloc_entries in *. rewrite !length_app in Hcap. simpl in Hcap.
  set (b := alloc_base v flags) in *.
  set (tot := b + VM_PAGE_SIZE * n + (if has flags VM_ALLOC_GUARD_LAST then VM_PAGE_SIZE else 0)) in *.
  destruct (last_entry_fields _ _ _ (vr_map _ _ _ _ _ _ _ _ Hr)) as [Eb Es].
  assert (Hb : v <= b <= v + VM_PAGE_SIZE).
  { unfold b, alloc_base. destruct (has flags VM_ALLOC_GUARD_FIRST); lia. }
  assert (Hb1 : has flags VM_ALLOC_GUARD_FIRST = true -> b = v + VM_PAGE_SIZE).
  { unfold b, alloc_base. by intros ->. }
  assert (Htot : b + VM_PAGE_SIZE * n <= tot).
  { unfold tot. destruct (has flags VM_ALLOC_GUARD_LAST); lia. }
  assert (Htot2 : has flags VM_ALLOC_GUARD_LAST = true -> tot = b + VM_PAGE_SIZE * n + VM_PAGE_SIZE).
  { unfold tot. by intros ->. }
  assert (Hbz : forall f, 0 <= b2z (has flags f) <= 1) by (intros f; destruct (has flags f); simpl; lia).
  pose proof (Hbz VM_ALLOC_GUARD_FIRST). pose proof (Hbz VM_ALLOC_GUARD_LAST).
  assert (Hv : v = ve_base e + ve_size e + 1) by done.
  unfold vm_map_alloc. do 3 (unfold bind at 1; cbv beta iota delta [get_mem ld]).
  rewrite Eb, Es.
  replace (VM_ALIGN_ADDR (u64 (u64 (ve_base e + ve_size e) + 1))) with v.
  2:{ rewrite u64_add_l, <- Hv, u64_id, align_id; lia. }
  assert (Hlen1 : length (es ++ [e]) = S (length es)) by (rewrite length_app; simpl; lia).
  destruct (alloc_first s (es ++ [e]) base cap k v tot flags Hr)
    as (s1 & E1 & Hr1 & F1); fold b; try lia.
  fold b in E1. rewrite (bind_done _ _ _ _ _ E1). cbv zeta. fold n in Hr1 |- *.
  set (l1 := if has flags VM_ALLOC_GUARD_FIRST then _ else _) in *.
  destruct (vm_ready_pages map lo hi s1 _ base cap _ b (Z.to_nat n) Hr1)
    as (s2 & E2 & Hr2 & G2 & F2); try lia.
  rewrite (bind_done _ _ _ _ _ E2). rewrite Z2Nat.id in Hr2 by lia.
  rewrite (u64_id (n * VM_PAGE_SIZE)) by lia.
  rewrite (u64_id (b + VM_PAGE_SIZE * n)) by lia.
  destruct (ready_entry s2 _ base cap _ v tot b (n * VM_PAGE_SIZE) VM_NULL Hr2)
    as (s3 & E3 & Hr3 & F3); [rewrite length_app, Hlen1; lia|lia|lia|].
  rewrite (bind_done _ _ _ _ _ E3).
  destruct (alloc_last s3 _ base cap _ v (b + VM_PAGE_SIZE * n) flags Hr3)
    as (s4 & E4 & Hr4 & F4); try lia.
  { intros Hg2. rewrite Hg2 in *. rewrite !length_app. simpl in *.
    specialize (Htot2 eq_refl). lia. }
  rewrite (bind_done _ _ _ _ _ E4). exists s4. split; [done|]. split.
  - replace (mk_ventry b (n * VM_PAGE_SIZE - 1) _ _) with (data_entry b n) in Hr4.
    2:{ unfold data_entry. f_equal. lia. }
    match type of Hr4 with vm_ready _ _ _ _ _ _ _ ?j => replace (k - _) with j by lia end.
    rewrite <- !app_assoc in Hr4. rewrite <- !app_assoc. exact Hr4.
  - eapply alloc_frame_trans; [exact F1|].
    eapply alloc_frame_trans; [|eapply alloc_frame_trans; [exact F3|exact F4]].
    eapply alloc_frame_intro; [exact G2|exact F2|]. naive_solver.
Qed.

(** ** Contiguity *)

(** Each entry starts where the one before it ends. *)
Fixpoint contiguous (es : list ventry) : Prop :=
  match es with
  | e1 :: (e2 :: _) as es' => ve_base e2 = ve_base e1 + ve_size e1 + 1 /\ contiguous es'
  | _ => True
  end.
Definition entries_ok (es : list ventry) : Prop :=
  contiguous es /\ Forall (fun e => 0 <= ve_base e /\ 0 <= ve_size e) es.

Lemma contiguous_app es e l :
  contiguous (es ++ [e]) -> contiguous (e :: l) -> contiguous ((es ++ [e]) ++ l).
Proof.
  intros H1 H2. rewrite <- app_assoc. simpl.
  induction es as [|e0 [|e' es] IH]; [done|naive_solver..].
Qed.

Lemma entries_disjoint es : entries_ok es -> forall i j e1 e2,
  (i < j)%nat -> es !! i = Some e1 -> es !! j = Some e2 ->
  ve_base e1 + ve_size e1 < ve_base e2.
Proof.
  intros [Hc Hf]. induction es as [|e es IH]; intros i j e1 e2 Hij Hi Hj; [done|].
  apply Forall_cons in Hf as [He Hf].
  assert (Hc' : contiguous es) by (destruct es; simpl in *; tauto).
  destruct j as [|j]; [lia|]. destruct i as [|i]; simpl in *.
  2:{ apply (IH Hc' Hf i j); [lia|done|done]. }
  injection Hi as ->. destruct es as [|e es]; [done|]. destruct Hc as [Hb _].
  destruct j as [|j]; simpl in Hj; [injection Hj as ->; lia|].
  pose proof (IH Hc' Hf 0%nat (S j) e e2 ltac:(lia) eq_refl Hj).
  apply Forall_cons in Hf as [? _]. lia.
Qed.

Lemma alloc_entries_ok es e n flags :
  entries_ok (es ++ [e]) -> 1 <= n ->
  entries_ok ((es ++ [e]) ++ alloc_entries (ve_base e + ve_size e + 1) n flags).
Proof.
  intros [Hc Hf] Hn. pose proof Hf as [_ [He _]%Forall_cons]%Forall_app.
  assert (Hps : VM_PAGE_SIZE = 4096) by done.
  unfold alloc_entries, alloc_base. set (v := ve_base e + ve_size e + 1).
  split.
  - apply contiguous_app; [done|]. unfold data_entry, guard_entry.
    destruct (has flags VM_ALLOC_GUARD_FIRST), (has flags VM_ALLOC_GUARD_LAST); simpl; lia.
  - apply Forall_app. split; [done|]. unfold data_entry, guard_entry.
    destruct (has flags VM_ALLOC_GUARD_FIRST), (has flags VM_ALLOC_GUARD_LAST); simpl;
      repeat constructor; simpl; lia.
Qed.
End AllocSpec.

(** ** Properties *)
Section Properties.
Context `{Symbols} `{Hardware} (map lo hi : Z) `{!Mapper (vm_map_pmap map) lo hi}.

(** (C2) [vm_map_alloc] succeeds while pages, entries and addresses last: it returns
    the address after the last entry (and after the first guard page if one is
    asked for), appends exactly the entries of the guard and data pages, takes one
    physical page for each of them, keeps the map well formed, and leaves every
    allocation contiguous with the one before it, so no two overlap.  Only the
    map, the page structures, the translation tables and the new pages change. *)
Theorem vm_map_alloc_correct s es e base cap k size flags :
  let n := vm_map_page_count size in
  let v := ve_base e + ve_size e + 1 in
  let es' := (es ++ [e]) ++ alloc_entries v n flags in
  vm_ready map lo hi s (es ++ [e]) base cap k -> entries_ok (es ++ [e]) -> 0 <= size ->
  v mod 4 = 0 -> 0 <= lo -> lo <= v -> hi + 4 < 2 ^ 64 ->
  alloc_end v n flags <= hi -> alloc_pages n flags <= k -> Z.of_nat (length es') <= cap ->
  exists s', vm_map_alloc map size flags s = Done (alloc_base v flags) s' /\
    vm_ready map lo hi s' es' base cap (k - alloc_pages n flags) /\
    entries_ok es' /\
    (forall i j e1 e2, (i < j)%nat -> es' !! i = Some e1 -> es' !! j = Some e2 ->
       ve_base e1 + ve_size e1 < ve_base e2) /\
    alloc_frame map lo hi cap v (alloc_end v n flags) s s'.
Proof.
  intros n v es' Hr Hok Hs Hal Hlo0 Hlo Hhi Hend Hk Hcap.
  assert (Hn : 1 <= n).
  { unfold n, vm_map_page_count, VM_PAGE_SIZE, DEFAULTS_KERNEL_VM_PAGE_SIZE, TT_PAGE_SIZE.
    destruct (Z.ltb_spec size 4096); [lia|]. Z.to_euclidean_division_equations. lia. }
  pose proof Hok as [_ [_ [[He1 He2] _]%Forall_cons]%Forall_app].
  destruct (vm_map_alloc_run map lo hi s es e base cap k size flags) as (s' & E & Hr' & F);
    try done; [unfold es' in Hcap; rewrite !length_app in Hcap; simpl length in Hcap; fold n v; lia|].
  pose proof (alloc_entries_ok es e n flags Hok Hn) as Hok'.
  exists s'. split_and!; try done. intros i j e1 e2. by apply entries_disjoint.
Qed.

(** The number of pages is the size divided by the page size, rounded down: a
    request of more than a page that is not a multiple of the page size gets an
    entry, and memory, smaller than the size asked for. *)
Theorem vm_map_alloc_truncates s es e base cap k size :
  let v := ve_base e + ve_size e + 1 in
  vm_ready map lo hi s (es ++ [e]) base cap k -> entries_ok (es ++ [e]) ->
  VM_PAGE_SIZE < size -> size mod VM_PAGE_SIZE <> 0 ->
  v mod 4 = 0 -> 0 <= lo -> lo <= v -> hi + 4 < 2 ^ 64 -> v + size <= hi ->
  size <= VM_PAGE_SIZE * k -> Z.of_nat (length es) + 2 <= cap ->
  exists s' d, vm_map_alloc map size VM_NULL s = Done v s' /\
    map_ok (k_mem s') map ((es ++ [e]) ++ [d]) /\ ve_base d = v /\ ve_size d + 1 < size.
Proof.
  intros v Hr Hok Hsz Hmod Hal Hlo0 Hlo Hhi Hend Hk Hcap.
  assert (Hps : VM_PAGE_SIZE = 4096) by done.
  pose proof Hok as [_ [_ [[He1 He2] _]%Forall_cons]%Forall_app].
  assert (Hn : vm_map_page_count size = size / VM_PAGE_SIZE).
  { unfold vm_map_page_count. destruct (Z.ltb_spec size VM_PAGE_SIZE); [lia|done]. }
  assert (Hlt : VM_PAGE_SIZE * (size / VM_PAGE_SIZE) < size).
  { rewrite Hps in *. Z.to_euclidean_division_equations. lia. }
  destruct (vm_map_alloc_run map lo hi s es e base cap k size VM_NULL) as (s' & E & Hr' & _);
    try done; try lia; rewrite ?Hn; fold v.
  - unfold alloc_end, alloc_base, has. simpl. lia.
  - unfold alloc_pages, has. simpl. lia.
  - simpl. lia.
  - exists s', (data_entry v (size / VM_PAGE_SIZE)). rewrite Hn in Hr'. fold v in E, Hr'.
    split; [exact E|]. split; [apply Hr'|]. split; [done|]. simpl. lia.
Qed.
End Properties.

(** ** Witnesses: a map after the kernel's, with one entry for the kernel image *)
Definition demo_map : Z := DEMO_VIRT + 0x101180.
Definition demo_lo : Z := DEMO_VIRT + 0x4000.
Definition demo_hi : Z := DEMO_VIRT + 0x100000.
Definition demo_l2 : Z := DEMO_VIRT + 0x202000.
Definition demo_kernel_entry : ventry := mk_ventry DEMO_VIRT 0x3fff 0 1.

Definition demo_vm : kstate :=
  match (vm_map_create demo_map (DEMO_VIRT + 0x100100) DEMO_VIRT 0xfffffff3ffffffff ;!
         vm_map_entry_create demo_map DEMO_VIRT 0x4000 VM_ALLOC_KERNEL_CODE ;!
         st 8 (demo_map + 8 + 8 * 448) (DEMO_PHYS + 0x202003)) demo_pages with
  | Done _ s => s
  | _ => demo_pages
  end.

Definition map_okb (m : memory) (map : Z) (es : list ventry) : bool :=
  (0 <=? map) && (entry_addr map (Z.of_nat (length es)) <? 2 ^ 64) &&
  (ld32 m (vm_map_nentries map) =? Z.of_nat (length es)) &&
  dllb m (vm_map_entries map) (entry_node map <$> seqZ 0 (Z.of_nat (length es))) &&
  forallb (fun '(i, v) => let e := entry_addr map i in
      (ld64 m (vm_entry_base e) =? ve_base v) && (ld64 m (vm_entry_size e) =? ve_size v) &&
      (get_bits (ld32 m (vm_entry_flags e)) 0 1 =? ve_guard v) &&
      (get_bits (ld32 m (vm_entry_flags e)) 1 1 =? ve_code v))
    (zip (seqZ 0 (Z.of_nat (length es))) es).

Lemma map_okb_sound m map es : map_okb m map es = true -> map_ok m map es.
Proof.
  unfold map_okb. rewrite !andb_true_iff, forallb_forall. intros [[[[? ?] ?] Hd] He].
  split; [lia|lia|by apply dllb_sound|].
  intros i v Hi. specialize (He (Z.of_nat i, v)). unfold entry_at.
  pose proof (lookup_lt_Some _ _ _ Hi).
  assert (Hin : In (Z.of_nat i, v) (zip (seqZ 0 (Z.of_nat (length es))) es)).
  { apply list_elem_of_In, list_elem_of_lookup. exists i. apply lookup_zip_with_Some.
    exists (Z.of_nat i), v. split; [done|]. split; [|done].
    by rewrite lookup_seqZ_lt by lia. }
  specialize (He Hin). cbv beta iota zeta in He.
  rewrite !andb_true_iff, !Z.eqb_eq in He. tauto.
Qed.

Lemma demo_slot_ok : slot_ok (vm_map_pmap demo_map) demo_lo demo_hi demo_l2.
Proof.
  split.
  - vm_compute. split; [congruence|]. split; congruence.
  - unfold apart, vm_map_pmap, demo_map, demo_l2, DEMO_VIRT. lia.
Qed.
Definition demo_mapper := @slot_mapper demo_symbols demo_hardware _ _ _ _ demo_slot_ok.

Lemma demo_vm_ready :
  @vm_ready demo_symbols demo_hardware demo_map demo_lo demo_hi demo_mapper demo_vm
    [demo_kernel_entry] DEMO_PHYS 8 3.
Proof.
  assert (Hidx : k_glob demo_vm vm_page_idx = 5) by (vm_compute; reflexivity).
  assert (Hreg : k_glob demo_vm vm_page_region = DEMO_VIRT + 0x300000) by (vm_compute; reflexivity).
  assert (Hl1 : tt_l1_index demo_lo = 448) by (vm_compute; reflexivity).
  split.
  - apply map_okb_sound. vm_compute. reflexivity.
  - vm_compute. split; [congruence|]. split; reflexivity.
  - apply pages_okb_sound. vm_compute. reflexivity.
  - rewrite Hidx. vm_compute. congruence.
  - vm_compute. congruence.
  - split; vm_compute; reflexivity.
  - unfold map_bytes, page_table_bytes, vm_page_at, vm_page_bytes, within, entry_addr,
      __vm_page_get_idx, VM_PAGE_STRUCT_SIZE, demo_map, DEMO_VIRT in *. rewrite Hidx, Hreg.
    intros x [?|(i & ? & ?)] (j & ? & ?); lia.
  - simpl. unfold map_bytes, slot_bytes, within, entry_addr, vm_map_pmap, demo_map, demo_l2, DEMO_VIRT.
    rewrite Hl1. intros x ? [?|(i & ? & ?)]; lia.
  - simpl. unfold page_table_bytes, vm_page_at, vm_page_bytes, slot_bytes, within,
      __vm_page_get_idx, VM_PAGE_STRUCT_SIZE, vm_map_pmap, demo_map, demo_l2, DEMO_VIRT in *.
    rewrite Hl1, Hidx, Hreg. intros x ? (j & ? & ?). lia.
  - simpl. unfold map_bytes, page_table_bytes, vm_page_at, vm_page_bytes, slot_bytes, within,
      entry_addr, __vm_page_get_idx, VM_PAGE_STRUCT_SIZE, vm_map_pmap, demo_lo, demo_hi, demo_map,
      demo_l2, DEMO_VIRT in *. rewrite Hl1, Hidx, Hreg.
    intros x Hx. split; [intros [?|(i & ? & ?)]; lia|]. split; [intros (j & ? & ?); lia|lia].
Qed.

Lemma vm_map_alloc_correct_witness :
  let _ := demo_symbols in let _ := demo_hardware in
  exists s', vm_map_alloc demo_map 0x1000 3 demo_vm = Done (DEMO_VIRT + 0x5000) s' /\
    map_ok (k_mem s') demo_map
      [demo_kernel_entry; guard_entry (DEMO_VIRT + 0x4000); data_entry (DEMO_VIRT + 0x5000) 1;
       guard_entry (DEMO_VIRT + 0x6000)].
Proof.
  intros sy hw.
  destruct (@vm_map_alloc_correct sy hw demo_map demo_lo demo_hi demo_mapper demo_vm []
    demo_kernel_entry DEMO_PHYS 8 3 0x1000 3) as (s' & E & Hr & _).
  - exact demo_vm_ready.
  - split; [exact I|]. repeat constructor; vm_compute; congruence.
  - lia.
  - vm_compute. reflexivity.
  - vm_compute. congruence.
  - vm_compute. congruence.
  - vm_compute. reflexivity.
  - vm_compute. congruence.
  - vm_compute. congruence.
  - vm_compute. congruence.
  - exists s'. split; [exact E|exact (vr_map _ _ _ _ _ _ _ _ Hr)].
Defined.

Lemma vm_map_alloc_truncates_witness :
  let _ := demo_symbols in let _ := demo_hardware in
  exists s' d, vm_map_alloc demo_map 0x1800 VM_NULL demo_vm = Done (DEMO_VIRT + 0x4000) s' /\
    map_ok (k_mem s') demo_map [demo_kernel_entry; d] /\ ve_size d + 1 < 0x1800.
Proof.
  intros sy hw.
  destruct (@vm_map_alloc_truncates sy hw demo_map demo_lo demo_hi demo_mapper demo_vm []
    demo_kernel_entry DEMO_PHYS 8 3 0x1800) as (s' & d & E & Hm & _ & Hd).
  - exact demo_vm_ready.
  - split; [exact I|]. repeat constructor; vm_compute; congruence.
  - vm_compute. reflexivity.
  - vm_compute. congruence.
  - vm_compute. reflexivity.
  - vm_compute. congruence.
  - vm_compute. congruence.
  - vm_compute. reflexivity.
  - vm_compute. congruence.
  - vm_compute. congruence.
  - vm_compute. congruence.
  - exists s', d. split; [exact E|]. split; [exact Hm|exact Hd].
Defined.
