(* ===== verification/Vm.v ===== *)
(** * Vm: kernel virtual memory (kern/vm/vm.c, kern/vm/vm.h)

    [arm_vm_init] replaces the boot page tables by the kernel's, [vm_configure]
    builds the page structures and the kernel's map; [__vm_pagetable_walk] prints
    the tables.  The theorems state what the MMU translates after [arm_vm_init],
    that [vm_configure] leaves a well-formed page table and map, and that the
    listing of the tables is complete. *)
From Stdlib Require Import ZArith Lia.
From stdpp Require Import prelude gmap list strings.
From S2P Require Import Prelude Memory LinkedList Kernel Pmap VmPage VmMap.
Open Scope Z_scope.
Open Scope monix_scope.

(** ** Constants and structures *)
Definition KERN_RETURN_SUCCESS : Z := 0.
Definition KERN_RETURN_FAIL : Z := 1.
Definition VM_KERNEL_MIN_ADDRESS : Z := 0xffffffe000000000.
Definition VM_KERNEL_MAX_ADDRESS : Z := 0xfffffff3ffffffff.
Definition TT_PAGE_MASK : Z := 0x0000fffffffff000.

(** Fields of [struct boot_args]. *)
Definition boot_args_version (a : Z) : Z := a.
Definition boot_args_virtbase (a : Z) : Z := a + 8.
Definition boot_args_physbase (a : Z) : Z := a + 16.
Definition boot_args_memsize (a : Z) : Z := a + 24.
Definition boot_args_kernbase (a : Z) : Z := a + 32.
Definition boot_args_kernsize (a : Z) : Z := a + 40.
Definition boot_args_fdtbase (a : Z) : Z := a + 48.
Definition boot_args_fdtsize (a : Z) : Z := a + 56.
Definition boot_args_uartbase (a : Z) : Z := a + 64.
Definition boot_args_uartsize (a : Z) : Z := a + 72.

(** Sizes of [struct pmap] and [task_t]. *)
Definition PMAP_SIZEOF : Z := 40.
Definition TASK_SIZEOF : Z := 112.

Section Vm.
Context `{Symbols} `{Hardware}.

(** [&kernel_pmap_ref + sizeof(task_t)] is 112 structures past [kernel_pmap_ref]. *)
Definition kernel_vm_map : Z := sym_kernel_pmap_ref + PMAP_SIZEOF * TASK_SIZEOF.

Definition mmu_get_tcr : M Z := sysreg_read tcr_el1.
Definition mmu_get_tt_base : M Z := sysreg_read ttbr0_el1.
Definition mmu_get_tt_base_alt : M Z := sysreg_read ttbr1_el1.
Definition mmu_set_tt_base (base : Z) : M unit :=
  barrier "dsb sy" ;! msr ttbr0_el1 base ;! barrier "isb sy".
Definition mmu_set_tt_base_alt (base : Z) : M unit :=
  barrier "dsb sy" ;! msr ttbr1_el1 base ;! barrier "isb sy".
Definition mmu_set_tcr (tcr_val : Z) : M unit :=
  barrier "dsb sy" ;! msr tcr_el1 tcr_val ;! barrier "isb sy".

Definition vm_is_address_valid (va : Z) : M Z :=
  let! pa := mmu_translate_kvtop va in
  ret (if truthy pa then KERN_RETURN_SUCCESS else KERN_RETURN_FAIL).

Definition vm_get_kernel_map : Z := kernel_vm_map.

(** ** Listing of the tables *)
Definition print (fmt : string) (args : list Z) : M unit := emit (EvPrint fmt args).

Definition PRINT_PADDING (n : Z) : M unit :=
  if n =? 0 then print "" []
  else for_range 0 (Z.to_nat n) (fun _ => print "\t" []).

(** One entry of a map and its number. *)
Definition dump_entry (entry idx : Z) : M unit :=
  let! base := ld 8 (vm_entry_base entry) in
  let! size := ld 8 (vm_entry_size entry) in
  print "  [%d]: 0x%lx -> 0x%lx (%d bytes)" [idx; base; u64 (base + size); size] ;!
  let! flags := ld 4 (vm_entry_flags entry) in
  (if truthy (get_bits flags 0 1) then print "\t- GUARD_PAGE" []
   else when (truthy (get_bits flags 1 1)) (print "\t- KERNEL_CODE" [])) ;!
  print "\n" [].
Fixpoint dump_entries (l : list Z) (idx : Z) : M unit :=
  match l with
  | [] => ret tt
  | entry :: l => dump_entry entry idx ;! dump_entries l (idx + 1)
  end.

Definition __vm_debug_dump_map (fuel : nat) (map : Z) : M unit :=
  print "vm: dumping virtual memory map from address: 0x%lx\n" [map] ;!
  let! timestamp := ld 8 (vm_map_timestamp map) in
  print "   timestamp: 0x%lx\n" [timestamp] ;!
  print "        pmap: 0x%lx\n" [vm_map_pmap map] ;!
  let! min := ld 8 (vm_map_min map) in
  print "         min: 0x%lx\n" [min] ;!
  let! max := ld 8 (vm_map_max map) in
  print "         max: 0x%lx\n" [max] ;!
  let! size := ld 8 (vm_map_size map) in
  print "alloc'd size: 0x%lx\n" [size] ;!
  let! flags := ld 4 (vm_map_flags map) in
  print "       flags: lock: %d\n" [get_bits flags 0 1] ;!
  let! nentries := ld 4 (vm_map_nentries map) in
  print "     entries: %d\n" [nentries] ;!
  let! m := get_mem in
  match list_for_each_entry fuel m (vm_map_entries map) 24 with
  | None => diverge
  | Some l => dump_entries l 0 ;! print "\n" []
  end.

(** The body of the loop, for one entry; [walk] is the recursive call. *)
Definition walk_entry (walk : Z -> M unit) (table_base level padding idx : Z) : M unit :=
  let! entry := ld 8 (table_base + 8 * idx) in
  let type := u8 (Z.land entry TTE_TYPE_MASK) in
  if (type =? TTE_TYPE_TABLE) && (level <? 3) then
    let! table_address := ptokva (Z.land entry TT_TABLE_MASK) in
    PRINT_PADDING padding ;!
    print "Level %d [%d]: Table descriptor @ 0x%lx:\n" [level; idx; Z.land entry TT_TABLE_MASK] ;!
    walk table_address
  else if type =? TTE_TYPE_BLOCK then
    let! block_address := ptokva (Z.land entry TT_BLOCK_MASK) in
    PRINT_PADDING padding ;!
    print "Level %d [%d]: Block descriptor: 0x%lx (mapped to 0x%lx)\n"
      [level; idx; Z.land entry TT_BLOCK_MASK; block_address]
  else if type =? TTE_TYPE_PAGE then
    let page_address := b2z (truthy entry && truthy TT_PAGE_MASK) in
    print "Level %d [%d]: Page Descriptor: 0x%lx\n" [level; idx; page_address]
  else ret tt.

(** The fuel is the number of levels below; a table is followed below level 3. *)
Fixpoint __vm_pagetable_walk (fuel : nat) (table_base level padding : Z) : M unit :=
  let walk table_address :=
    match fuel with
    | O => diverge
    | S fuel => __vm_pagetable_walk fuel table_address (level + 1) (padding + 1)
    end in
  for_range 0 (Z.to_nat (TT_PAGE_SIZE / 8)) (walk_entry walk table_base level padding).

Definition vm_pagetable_walk (table level : Z) : M unit :=
  __vm_pagetable_walk (Z.to_nat (3 - level)) table level 0.

Definition vm_pagetable_walk_ttbr1 : M unit :=
  let! base := mmu_get_tt_base_alt in
  let! table_base := ptokva (Z.land base TTBR_BADDR_MASK) in
  __vm_pagetable_walk 2 table_base 1 0.

Definition vm_pagetable_walk_ttbr0 : M unit :=
  let! base := mmu_get_tt_base in
  let! table_base := ptokva (Z.land base TTBR_BADDR_MASK) in
  __vm_pagetable_walk 2 table_base 1 0.

(** ** Initialisation *)

(** The map is given [&kernel_pmap], the address of the pointer. *)
Definition vm_configure : M unit :=
  let! membase := get kernel_phys_base in
  let! memsize := get memory_phys_size in
  let! kernsize := get kernel_phys_size in
  vm_page_bootstrap membase memsize kernsize ;!
  let! virt := get kernel_virt_base in
  vm_map_create kernel_vm_map sym_kernel_pmap virt VM_KERNEL_MAX_ADDRESS ;!
  let! size := get kernel_phys_size in
  vm_map_entry_create kernel_vm_map virt size VM_ALLOC_KERNEL_CODE.


(** The first part, which makes the two tables: their addresses and the physical
    addresses for the registers. *)
Definition arm_vm_init_tables (args memsize : Z) : M (Z * Z * Z) :=
  let! physbase := ld 8 (boot_args_physbase args) in
  put memory_phys_base physbase ;!
  put memory_phys_size memsize ;!
  let! virtbase := ld 8 (boot_args_virtbase args) in
  put memory_virt_base virtbase ;!
  pmap_ptregion_create ;!
  let! tte := pmap_ptregion_alloc in
  put kernel_tte tte ;!
  let! ttep := mmu_translate_kvtop tte in
  put kernel_ttep ttep ;!
  let! itte := pmap_ptregion_alloc in
  put invalid_tte itte ;!
  let! ittep := mmu_translate_kvtop itte in
  put invalid_ttep ittep ;!
  ret (tte, ttep, ittep).

Definition arm_vm_init (args membase memsize : Z) : M unit :=
  assert ((0 <? membase) && (0 <? memsize)) ;!
  let! (tte, ttep, ittep) := arm_vm_init_tables args memsize in
  let! virt := get memory_virt_base in
  put kernel_virt_base virt ;!
  let! kernbase := ld 8 (boot_args_kernbase args) in
  put kernel_phys_base kernbase ;!
  let! kernsize := ld 8 (boot_args_kernsize args) in
  put kernel_phys_size kernsize ;!
  let console_virt_base := DEFAULTS_KERNEL_VM_PERIPH_BASE in
  pmap_tt_create_tte tte kernbase virt kernsize PMAP_ACCESS_READWRITE ;!
  let! uartbase := ld 8 (boot_args_uartbase args) in
  let! uartsize := ld 8 (boot_args_uartsize args) in
  pmap_tt_create_tte tte uartbase console_virt_base uartsize PMAP_ACCESS_READWRITE ;!
  mmu_set_tt_base_alt (Z.land ttep TTBR_BADDR_MASK) ;!
  mmu_set_tt_base (Z.land ittep TTBR_BADDR_MASK).
End Vm.

(** ** Computations that only print

    [prints s c l]: started with the memory, globals and registers of [s], [c]
    prints the events [l] in order and does nothing else. *)
Definition prints (s : kstate) (c : M unit) (l : list event) : Prop :=
  forall tr, c (with_trace tr s) = Done tt (with_trace (reverse l ++ tr) s).

Lemma prints_ret s : prints s (ret tt) [].
Proof. done. Qed.
Lemma prints_print s fmt args : prints s (print fmt args) [EvPrint fmt args].
Proof. done. Qed.
Lemma prints_bind s c d l1 l2 :
  prints s c l1 -> prints s d l2 -> prints s (c ;! d) (l1 ++ l2).
Proof.
  intros H1 H2 tr. rewrite (bind_done _ _ _ _ _ (H1 tr)), H2.
  by rewrite reverse_app, app_assoc.
Qed.

Lemma prints_for_range s lo n body (f : Z -> list event) :
  (forall i, lo <= i < lo + Z.of_nat n -> prints s (body i) (f i)) ->
  prints s (for_range lo n body) (seqZ lo (Z.of_nat n) ≫= f).
Proof.
  revert lo. induction n as [|n IH]; intros lo H; [done|].
  rewrite seqZ_cons by lia. simpl. apply prints_bind; [apply H; lia|].
  replace (Z.pred _) with (Z.of_nat n) by lia.
  rewrite <- Z.add_1_r. apply IH. intros i Hi. apply H. lia.
Qed.

Section VmProofs.
Context `{Symbols} `{Hardware}.

(** *** The lines of a map *)
Definition ventry_lines (i : Z) (v : ventry) : list event :=
  EvPrint "  [%d]: 0x%lx -> 0x%lx (%d bytes)" [i; ve_base v; u64 (ve_base v + ve_size v); ve_size v] ::
  (if truthy (ve_guard v) then [EvPrint "\t- GUARD_PAGE" []]
   else if truthy (ve_code v) then [EvPrint "\t- KERNEL_CODE" []] else []) ++ [EvPrint "\n" []].
Fixpoint map_lines (i : Z) (es : list ventry) : list event :=
  match es with
  | [] => []
  | v :: es => ventry_lines i v ++ map_lines (i + 1) es
  end.

Definition header_lines (m : memory) (map : Z) : list event := [
  EvPrint "vm: dumping virtual memory map from address: 0x%lx\n" [map];
  EvPrint "   timestamp: 0x%lx\n" [ld64 m (vm_map_timestamp map)];
  EvPrint "        pmap: 0x%lx\n" [vm_map_pmap map];
  EvPrint "         min: 0x%lx\n" [ld64 m (vm_map_min map)];
  EvPrint "         max: 0x%lx\n" [ld64 m (vm_map_max map)];
  EvPrint "alloc'd size: 0x%lx\n" [ld64 m (vm_map_size map)];
  EvPrint "       flags: lock: %d\n" [get_bits (ld32 m (vm_map_flags map)) 0 1];
  EvPrint "     entries: %d\n" [ld32 m (vm_map_nentries map)]].

Lemma dump_entry_prints s e i v :
  entry_at (k_mem s) e v -> prints s (dump_entry e i) (ventry_lines i v).
Proof.
  intros (E1 & E2 & E3 & E4) tr. unfold dump_entry, ventry_lines. rewrite <- E1, <- E2, <- E3, <- E4.
  cbn -[u64]. destruct (truthy (get_bits _ 0 1)); [done|]. by destruct (truthy (get_bits _ 1 1)).
Qed.

Lemma dump_entries_prints s a es :
  forall i k, (forall j v, es !! j = Some v -> entry_at (k_mem s) (entry_addr a (k + Z.of_nat j)) v) ->
  prints s (dump_entries (entry_addr a <$> seqZ k (Z.of_nat (length es))) i) (map_lines i es).
Proof.
  induction es as [|v es IH]; intros i k He; [apply prints_ret|]. cbn [length]. rewrite Nat2Z.inj_succ, seqZ_cons by lia.
  cbn [fmap list_fmap dump_entries map_lines]. apply prints_bind.
  - apply dump_entry_prints. specialize (He 0%nat v eq_refl). by rewrite Z.add_0_r in He.
  - rewrite Z.pred_succ. apply IH. intros j w Hj. replace (Z.succ k + Z.of_nat j) with (k + Z.of_nat (S j)) by lia. by apply He.
Qed.

(** A well-formed map is listed entry by entry, and nothing changes. *)
Lemma dump_map_prints s fuel a es :
  map_ok (k_mem s) a es -> (length es <= fuel)%nat ->
  prints s (__vm_debug_dump_map fuel a) (header_lines (k_mem s) a ++ map_lines 0 es ++ [EvPrint "\n" []]).
Proof.
  intros [_ _ Hl He] Hf.
  assert (El : list_for_each_entry fuel (k_mem s) (vm_map_entries a) 24 = Some (entry_addr a <$> seqZ 0 (Z.of_nat (length es)))).
  { rewrite (entries_dll _ _ _ _ _ Hl) by (rewrite length_fmap, length_seqZ; lia). f_equal.
    change (map ?g ?l) with (g <$> l). rewrite <- list_fmap_compose. apply list_fmap_ext. intros i x _.
    unfold compose, entry_node, list_entry, container_of, vm_entry_siblings. lia. }
  pose proof (prints_bind s _ _ _ _ (dump_entries_prints s a es 0 0 He) (prints_print s "\n" [])) as Hp.
  intros tr. unfold __vm_debug_dump_map, header_lines. rewrite reverse_app, <- app_assoc, <- Hp. clear Hp.
  unfold print, emit, ld, get_mem. cbn -[list_for_each_entry dump_entries get_bits]. rewrite El. done.
Qed.

(** *** The lines of a walk *)
Definition padding_lines (n : Z) : list event :=
  if n =? 0 then [EvPrint "" []] else seqZ 0 n ≫= (fun _ => [EvPrint "\t" []]).
Definition table_line (level idx pa : Z) : event :=
  EvPrint "Level %d [%d]: Table descriptor @ 0x%lx:\n" [level; idx; pa].
Definition block_line (level idx pa kva : Z) : event :=
  EvPrint "Level %d [%d]: Block descriptor: 0x%lx (mapped to 0x%lx)\n" [level; idx; pa; kva].
Definition page_line (level idx pa : Z) : event :=
  EvPrint "Level %d [%d]: Page Descriptor: 0x%lx\n" [level; idx; pa].

Definition entry_of (s : kstate) (table idx : Z) : Z := ld64 (k_mem s) (table + 8 * idx).
Definition entry_type (s : kstate) (table idx : Z) : Z :=
  Z.land (entry_of s table idx) TTE_TYPE_MASK.

(** The listing as a function of the tables. *)
Definition entry_lines (sub : Z -> list event) (s : kstate) (table level padding idx : Z)
    : list event :=
  let e := entry_of s table idx in
  if (entry_type s table idx =? TTE_TYPE_TABLE) && (level <? 3) then
    padding_lines padding ++ table_line level idx (Z.land e TT_TABLE_MASK) ::
    sub (lin s (Z.land e TT_TABLE_MASK))
  else if entry_type s table idx =? TTE_TYPE_BLOCK then
    padding_lines padding ++
    [block_line level idx (Z.land e TT_BLOCK_MASK) (lin s (Z.land e TT_BLOCK_MASK))]
  else if entry_type s table idx =? TTE_TYPE_PAGE then [page_line level idx 1]
  else [].

Fixpoint walk_lines (fuel : nat) (s : kstate) (table level padding : Z) : list event :=
  let sub t := match fuel with
    | O => []
    | S fuel => walk_lines fuel s t (level + 1) (padding + 1)
    end in
  seqZ 0 512 ≫= entry_lines sub s table level padding.

Lemma prints_padding s n : 0 <= n -> prints s (PRINT_PADDING n) (padding_lines n).
Proof.
  intros Hn. unfold PRINT_PADDING, padding_lines. case_match; [apply prints_print|].
  rewrite <- (Z2Nat.id n) at 2 by done. apply prints_for_range. intros. apply prints_print.
Qed.

Lemma type_u8 e : u8 (Z.land e TTE_TYPE_MASK) = Z.land e TTE_TYPE_MASK.
Proof.
  rewrite type_bits. apply u8_id. pose proof (Z.mod_pos_bound e 4). lia.
Qed.

Lemma ptokva_run p tr s : ptokva p (with_trace tr s) = Done (lin s p) (with_trace tr s).
Proof. done. Qed.

Lemma entry_prints s walk sub table level padding idx :
  0 <= padding -> (level < 3 -> forall t, prints s (walk t) (sub t)) ->
  prints s (walk_entry walk table level padding idx)
    (entry_lines sub s table level padding idx).
Proof.
  intros Hp Hsub tr. unfold walk_entry, entry_lines. unfold bind at 1. cbv beta iota delta [ld].
  change (k_mem (with_trace tr s)) with (k_mem s). fold (entry_of s table idx).
  rewrite type_u8. fold (entry_type s table idx).
  destruct (_ && (level <? 3)) eqn:Ht.
  { rewrite (bind_done _ _ _ _ _ (ptokva_run _ tr s)).
    revert tr. apply prints_bind; [by apply prints_padding|].
    apply (prints_bind s _ _ [_]); [apply prints_print|]. apply Hsub. lia. }
  destruct (entry_type s table idx =? TTE_TYPE_BLOCK).
  { rewrite (bind_done _ _ _ _ _ (ptokva_run _ tr s)).
    revert tr. apply prints_bind; [by apply prints_padding|apply prints_print]. }
  destruct (Z.eqb_spec (entry_type s table idx) TTE_TYPE_PAGE) as [Hpg|]; [|apply prints_ret].
  assert (He : truthy (entry_of s table idx) = true); [|rewrite He; apply prints_print].
  unfold truthy. destruct (Z.eqb_spec (entry_of s table idx) 0) as [E|]; [|done].
  unfold entry_type in Hpg. by rewrite E in Hpg.
Qed.

Lemma walk_prints fuel s table level padding :
  3 - level <= Z.of_nat fuel -> 0 <= padding ->
  prints s (__vm_pagetable_walk fuel table level padding)
    (walk_lines fuel s table level padding).
Proof.
  revert table level padding. induction fuel as [|fuel IH]; intros table level padding Hf Hp;
    cbn [__vm_pagetable_walk walk_lines];
    apply (prints_for_range s 0 512); intros idx _; (apply entry_prints; [done|]);
    intros Hl t; [lia|].
  apply IH; lia.
Qed.

(** *** The blocks of a listing *)
Lemma padding_no_block n lv i p k : block_line lv i p k ∉ padding_lines n.
Proof.
  unfold padding_lines. case_match; [set_solver|].
  intros (x & Hx & _)%list_elem_of_bind. set_solver.
Qed.

Lemma entry_blocks sub s table level padding idx lv i p k :
  block_line lv i p k ∈ entry_lines sub s table level padding idx <->
  (entry_type s table idx = TTE_TYPE_TABLE /\ level < 3 /\
   block_line lv i p k ∈ sub (lin s (Z.land (entry_of s table idx) TT_TABLE_MASK))) \/
  (entry_type s table idx = TTE_TYPE_BLOCK /\ lv = level /\ i = idx /\
   p = Z.land (entry_of s table idx) TT_BLOCK_MASK /\ k = lin s p).
Proof.
  pose proof (padding_no_block padding lv i p k) as Hp.
  unfold entry_lines, TTE_TYPE_TABLE, TTE_TYPE_BLOCK, TTE_TYPE_PAGE.
  destruct (Z.eqb_spec (entry_type s table idx) 3) as [Ht|Ht]; simpl.
  - rewrite Ht. destruct (Z.ltb_spec level 3); simpl.
    + rewrite elem_of_app, elem_of_cons. unfold block_line, table_line. naive_solver lia.
    + rewrite list_elem_of_singleton. unfold block_line, page_line. naive_solver lia.
  - destruct (Z.eqb_spec (entry_type s table idx) 1) as [Hb|Hb].
    + rewrite elem_of_app, list_elem_of_singleton. unfold block_line. naive_solver lia.
    + split; [by intros ?%not_elem_of_nil|by intros [[? _]|[? _]]].
Qed.

(** Block lines of a walk come from its level or from below. *)
Lemma walk_block_level fuel s table level padding lv i p k :
  block_line lv i p k ∈ walk_lines fuel s table level padding -> level <= lv.
Proof.
  revert table level padding. induction fuel as [|fuel IH]; intros table level padding;
    cbn [walk_lines]; intros (idx & He & _)%list_elem_of_bind;
    apply entry_blocks in He as [(_ & _ & He)|(_ & -> & _)]; try lia;
    [by apply not_elem_of_nil in He|]. apply IH in He. lia.
Qed.

Lemma index_address i1 i2 :
  0 <= i1 < 512 -> 0 <= i2 < 512 ->
  let va := 2 ^ 30 * i1 + 2 ^ 21 * i2 in
  tt_l1_index va = i1 /\ tt_l2_index va = i2 /\ va mod TT_L2_SIZE = 0.
Proof.
  intros H1 H2 va. rewrite l1_index_eq, l2_index_eq. unfold va, TT_L2_SIZE.
  Z.to_euclidean_division_equations. lia.
Qed.

(** The 2 MB blocks a walk from level 1 lists are those the MMU translates. *)
Lemma walk_blocks s table idx p k :
  block_line 2 idx p k ∈ walk_lines 2 s table 1 0 <->
  k = lin s p /\
  exists va, tt_l2_index va = idx /\ mmu_walk s table va = Some (p + va mod TT_L2_SIZE).
Proof.
  cbn [walk_lines]. rewrite list_elem_of_bind. split.
  - intros (i1 & He & Hi1%elem_of_seqZ).
    apply entry_blocks in He as [(Ht & _ & He)|(_ & ? & _)]; [|done].
    apply list_elem_of_bind in He as (i2 & He & Hi2%elem_of_seqZ).
    apply entry_blocks in He as [(_ & _ & He)|(Hb & _ & -> & -> & ->)].
    { apply list_elem_of_bind in He as (i3 & He & _).
      apply entry_blocks in He as [(_ & ? & _)|(_ & ? & _)]; lia. }
    split; [done|]. destruct (index_address i1 i2) as (E1 & E2 & E3); [lia..|].
    exists (2 ^ 30 * i1 + 2 ^ 21 * i2). split; [done|].
    unfold mmu_walk, l2_walk. rewrite E1, E2.
    unfold entry_type, entry_of in *. by rewrite Ht, Hb.
  - intros (-> & va & <- & Hw). unfold mmu_walk, l2_walk in Hw.
    destruct (Z.eqb_spec (Z.land (ld64 (k_mem s) (table + 8 * tt_l1_index va)) TTE_TYPE_MASK)
      TTE_TYPE_TABLE) as [Ht|]; [|done].
    case_match eqn:Hb; [|done]. apply Z.eqb_eq in Hb. injection Hw as Hw.
    exists (tt_l1_index va). pose proof (l1_index_range va). pose proof (l2_index_range va).
    split; [|apply elem_of_seqZ; lia]. apply entry_blocks. left. split; [done|]. split; [done|].
    apply list_elem_of_bind. exists (tt_l2_index va). split; [|apply elem_of_seqZ; lia].
    apply entry_blocks. right. split_and!; try done. unfold entry_of. lia.
Qed.

(** (C33) The walk of the kernel's tables ends and only prints; it lists a 2 MB block
    with its two addresses exactly when the MMU, walking the same tables,
    translates the addresses of that block to it. *)
Theorem vm_pagetable_walk_complete s base :
  hw_mrs s ttbr1_el1 = base ->
  let table := lin s (Z.land base TTBR_BADDR_MASK) in
  exists l, vm_pagetable_walk_ttbr1 s = Done tt (with_trace (reverse l ++ k_trace s) s) /\
    forall idx p k,
      EvPrint "Level %d [%d]: Block descriptor: 0x%lx (mapped to 0x%lx)\n" [2; idx; p; k] ∈ l <->
      k = lin s p /\
      exists va, tt_l2_index va = idx /\ mmu_walk s table va = Some (p + va mod TT_L2_SIZE).
Proof.
  intros Hb table. exists (walk_lines 2 s table 1 0). split; [|intros; apply walk_blocks].
  pose proof (walk_prints 2 s table 1 0 ltac:(lia) ltac:(lia) (k_trace s)) as E.
  rewrite with_trace_id in E. rewrite <- E.
  unfold vm_pagetable_walk_ttbr1, mmu_get_tt_base_alt.
  rewrite (bind_done _ _ s base s) by (unfold sysreg_read; by rewrite Hb).
  by rewrite (bind_done _ _ s table s).
Qed.

(** ** [vm_configure] *)

(** The page structures of the region lie apart from the kernel's map. *)
Lemma region_page_bytes s n x :
  k_glob s vm_page_idx = n -> k_glob s vm_page_region = sym_vm_page_region_lower_bound ->
  page_table_bytes s x ->
  sym_vm_page_region_lower_bound <= x < sym_vm_page_region_lower_bound + VM_PAGE_STRUCT_SIZE * n.
Proof.
  intros Hn Hr (i & Hi & Hx). unfold vm_page_at in Hx. rewrite Hr in Hx.
  unfold vm_page_bytes, within, __vm_page_get_idx, VM_PAGE_STRUCT_SIZE in *. lia.
Qed.

(** (C29) [vm_configure] leaves one structure for each page of memory and one more, of
    which those of the kernel image and of the structures are allocated, and the
    kernel's map with one entry, for the kernel image, flagged as code. *)
Theorem vm_configure_correct s :
  let base := k_glob s kernel_phys_base in
  let ksize := k_glob s kernel_phys_size in
  let virt := k_glob s kernel_virt_base in
  let n := k_glob s memory_phys_size / VM_PAGE_SIZE in
  let kern_pages := (ksize + n * VM_PAGE_STRUCT_SIZE) / VM_PAGE_SIZE + 1 in
  let low := sym_vm_page_region_lower_bound in
  0 < n < 2 ^ 31 -> region_fits (n + 1) -> low + 8 * (VM_PAGE_STRUCT_SIZE * n) < 2 ^ 64 ->
  0 <= base -> base + VM_PAGE_SIZE * (n + 1) <= 2 ^ 64 -> 0 < ksize < 2 ^ 63 ->
  kern_pages <= n + 1 -> is_u64 virt ->
  0 <= kernel_vm_map -> entry_addr kernel_vm_map 1 < 2 ^ 64 ->
  (forall x, map_bytes kernel_vm_map 1 x ->
     ~ low <= x < low + VM_PAGE_STRUCT_SIZE * (n + 1)) ->
  exists s', vm_configure s = Done tt s' /\
    pages_ok s' base /\
    page_view s' = replicate (Z.to_nat kern_pages) VM_PAGE_STATE_ALLOC
                ++ replicate (Z.to_nat (n + 1 - kern_pages)) VM_PAGE_STATE_FREE /\
    map_ok (k_mem s') kernel_vm_map [mk_ventry virt (ksize - 1) VM_FALSE VM_TRUE].
Proof.
  intros base ksize virt n kp low Hn Hfit Hup Hb Hmax Hks Hkp Hv Hm0 Hm1 Hap.
  destruct (vm_page_bootstrap_run s base (k_glob s memory_phys_size) ksize)
    as (s1 & E1 & Hidx & Hok & Hview & _ & Hreg & Hg); try done; try lia.
  assert (Hvar : forall g, g = kernel_virt_base \/ g = kernel_phys_size ->
            k_glob s1 g = k_glob s g).
  { intros g Hgv. apply Hg. unfold vm_page_var. naive_solver. }
  unfold vm_configure. do 3 (unfold bind at 1; cbv beta iota delta [get]).
  rewrite (bind_done _ _ _ _ _ E1).
  rewrite (bind_done _ _ s1 virt s1) by (unfold get; by rewrite Hvar by auto).
  destruct (vm_map_create_run s1 kernel_vm_map sym_kernel_pmap virt VM_KERNEL_MAX_ADDRESS Hm0)
    as (m2 & E2 & Hmap2 & _ & _ & _ & _ & Hs2); [unfold entry_addr in *; lia|].
  rewrite (bind_done _ _ _ _ _ E2).
  rewrite (bind_done _ _ _ ksize (set_mem m2 s1)) by (unfold get; simpl; by rewrite Hvar by auto).
  destruct (vm_map_entry_create_run (set_mem m2 s1) kernel_vm_map [] virt ksize
    VM_ALLOC_KERNEL_CODE Hmap2) as (m3 & E3 & Hmap3 & _ & _ & Hs3); try done; try lia.
  assert (Hs : same_outside (map_bytes kernel_vm_map 1) (k_mem s1) m3).
  { eapply same_outside_trans; [|exact Hs3]. eapply same_outside_mono; [|exact Hs2]. by left. }
  assert (Hdis : forall x, page_table_bytes s1 x -> ~ map_bytes kernel_vm_map 1 x).
  { intros x Hx%(region_page_bytes _ _ _ Hidx Hreg) Hxm. by apply (Hap x Hxm). }
  exists (set_mem m3 s1). split; [exact E3|]. split_and!.
  - by eapply pages_ok_same_outside.
  - etransitivity; [|exact Hview]. by eapply page_view_same_outside.
  - exact Hmap3.
Qed.

(** ** [arm_vm_init]

    What the boot loader and the linker provide: the boot arguments, a page-table
    region whose first four pages are zero and which the MMU, still on the boot
    tables, translates linearly. *)
Record boot_ok (s : kstate) (args : Z) (physbase virtbase kernbase kernsize uartbase uartsize : Z)
    : Prop := {
  bo_phys : ld64 (k_mem s) (boot_args_physbase args) = physbase;
  bo_virt : ld64 (k_mem s) (boot_args_virtbase args) = virtbase;
  bo_kernbase : ld64 (k_mem s) (boot_args_kernbase args) = kernbase;
  bo_kernsize : ld64 (k_mem s) (boot_args_kernsize args) = kernsize;
  bo_uartbase : ld64 (k_mem s) (boot_args_uartbase args) = uartbase;
  bo_uartsize : ld64 (k_mem s) (boot_args_uartsize args) = uartsize;
  bo_first : k_glob s ptregion_initialised = 0;
  bo_region : 0 < sym_pagetables_region_base /\
    sym_pagetables_region_base + 4 * TT_PAGE_SIZE < 2 ^ 64;
  bo_end : ld64 (k_mem s) sym_pagetables_region_end < sym_pagetables_region_base;
  bo_end_apart : apart sym_pagetables_region_end 8
    sym_pagetables_region_base (Z.to_nat (4 * TT_PAGE_SIZE));
  bo_args_apart : apart args 120 sym_pagetables_region_base (Z.to_nat (4 * TT_PAGE_SIZE));
  bo_zero : forall x, within sym_pagetables_region_base (Z.to_nat (4 * TT_PAGE_SIZE)) x ->
    rd (k_mem s) x = 0;
  bo_linear : forall s' i, 0 <= i < 4 ->
    let va := sym_pagetables_region_base + TT_PAGE_SIZE * i in
    mmu_translate_kvtop va s' = Done (va - virtbase + physbase) s';
  bo_linear_range : forall i, 0 <= i < 4 ->
    let va := sym_pagetables_region_base + TT_PAGE_SIZE * i in
    Z.land (va - virtbase + physbase) TT_TABLE_MASK = va - virtbase + physbase;
}.

Lemma mmu_walk_via s table va l2 :
  Z.land (ld64 (k_mem s) (table + 8 * tt_l1_index va)) TTE_TYPE_MASK = TTE_TYPE_TABLE ->
  lin s (Z.land (ld64 (k_mem s) (table + 8 * tt_l1_index va)) TT_TABLE_MASK) = l2 ->
  mmu_walk s table va = l2_walk (k_mem s) l2 va.
Proof. intros H1 <-. unfold mmu_walk. by rewrite H1, Z.eqb_refl. Qed.

Lemma l2_walk_same_outside R m m' l2 va :
  same_outside R m m' -> (forall x, within l2 4096 x -> ~ R x) -> l2_walk m' l2 va = l2_walk m l2 va.
Proof.
  intros Hs HR. unfold l2_walk. pose proof (l2_index_range va).
  rewrite (load_same_outside R 8 m m') by (done || (intros x Hx; apply HR; unfold within in *; lia)).
  done.
Qed.

(** A page of the region as the level 2 table of a slot without one. *)
Lemma next_page_fresh s table v l2 p :
  ld64 (k_mem s) (table + 8 * tt_l1_index v) = 0 -> k_glob s pagetables_region_cursor = l2 ->
  ld64 (k_mem s) sym_pagetables_region_end < l2 -> 0 <= p -> Z.land p TT_TABLE_MASK = p ->
  lin s p = l2 -> (forall s', mmu_translate_kvtop l2 s' = Done p s') -> l2_fresh s table v l2.
Proof.
  intros H1 H2 H3 H4 H5 H6 H7. split; [by rewrite H1|]. split; [done|]. split; [done|].
  exists p. rewrite H5. split; [done|]. split; [done|]. intros. apply H7.
Qed.

(** *** Regions mapped one after the other

    A table starts empty; each region is mapped in a slot of its own, whose level
    2 table is the next page of the region of page tables. *)
Record region := mk_region { r_phys : Z; r_virt : Z; r_size : Z; r_l2 : Z }.

(** [va] lies in one of the 2 MB blocks entered for a region, and where that is mapped. *)
Definition in_blocks (r : region) (va : Z) : Prop :=
  tt_l1_index va = tt_l1_index (r_virt r) /\ slot_block (r_virt r) va < tt_blocks (r_size r).
#[global] Instance in_blocks_dec r va : Decision (in_blocks r va).
Proof. unfold in_blocks. solve_decision. Defined.
Definition block_pa (r : region) (va : Z) : Z := region_target (r_phys r) (r_virt r) va.

Lemma in_blocks_region r va :
  region_ok (r_phys r) (r_virt r) (r_size r) -> r_virt r <= va < r_virt r + r_size r ->
  in_blocks r va /\ block_pa r va = r_phys r + (va - r_virt r).
Proof.
  intros Hr Hva. destruct (region_ok_target _ _ _ va Hr Hva) as [Hb Ht]. split; [|exact Ht].
  split; [|exact Hb]. destruct Hr as [(? & ? & ? & ? & _) _]. apply l1_index_same; lia.
Qed.

Section Regions.
Context (table top off : Z).

Record region_mapped (s : kstate) (cur : Z) (r : region) : Prop := {
  rm_place : table + 4096 <= r_l2 r /\ r_l2 r + 4096 <= cur;
  rm_type : Z.land (entry_of s table (tt_l1_index (r_virt r))) TTE_TYPE_MASK = TTE_TYPE_TABLE;
  rm_l2 : lin s (Z.land (entry_of s table (tt_l1_index (r_virt r))) TT_TABLE_MASK) = r_l2 r;
  rm_walk : forall va, l2_walk (k_mem s) (r_l2 r) va =
    if slot_block (r_virt r) va <? tt_blocks (r_size r) then Some (block_pa r va) else None;
}.

Record table_ok (s : kstate) (cur : Z) (rs : list region) : Prop := {
  to_cursor : k_glob s pagetables_region_cursor = cur;
  to_off : k_glob s memory_phys_base - k_glob s memory_virt_base = off;
  to_room : 0 <= table /\ table + 4096 <= cur /\ (cur - table) mod 4096 = 0;
  to_end : ld64 (k_mem s) sym_pagetables_region_end < cur;
  to_zero : forall x, cur <= x < top -> rd (k_mem s) x = 0;
  to_empty : forall idx, 0 <= idx < 512 -> (forall r, r ∈ rs -> tt_l1_index (r_virt r) <> idx) ->
    entry_of s table idx = 0;
  to_regions : forall r, r ∈ rs -> region_mapped s cur r;
}.

(** The walks of a table: the regions are mapped, and nothing else is. *)
Lemma table_ok_in s cur rs r va :
  table_ok s cur rs -> r ∈ rs -> in_blocks r va -> mmu_walk s table va = Some (block_pa r va).
Proof.
  intros Ht Hr [Hi Hb]. pose proof (to_regions _ _ _ Ht r Hr) as Hm.
  rewrite (mmu_walk_via s table va (r_l2 r)); rewrite ?Hi; [|apply Hm..]. rewrite (rm_walk _ _ _ Hm).
  by destruct (Z.ltb_spec (slot_block (r_virt r) va) (tt_blocks (r_size r))); [|lia].
Qed.

Lemma table_ok_out s cur rs va :
  table_ok s cur rs -> (forall r, r ∈ rs -> ~ in_blocks r va) -> mmu_walk s table va = None.
Proof.
  intros Ht Hva. pose proof (l1_index_range va).
  destruct (decide (Exists (fun r => tt_l1_index (r_virt r) = tt_l1_index va) rs)) as [Hex|Hno].
  - apply Exists_exists in Hex as (r & Hr & Hi).
    pose proof (to_regions _ _ _ Ht r Hr) as Hm.
    rewrite (mmu_walk_via s table va (r_l2 r)); rewrite <- ?Hi; [|apply Hm..]. rewrite (rm_walk _ _ _ Hm).
    destruct (Z.ltb_spec (slot_block (r_virt r) va) (tt_blocks (r_size r))); [|done]. exfalso. by apply (Hva r Hr).
  - unfold mmu_walk. fold (entry_of s table (tt_l1_index va)).
    rewrite (to_empty _ _ _ Ht); [done..|]. intros r Hr Hi. apply Hno, Exists_exists. by exists r.
Qed.

(** A region keeps its translations when another one is mapped. *)
Lemma region_mapped_frame s s' cur i r :
  region_mapped s cur r -> tt_l1_index (r_virt r) <> i -> 0 <= i < 512 ->
  (forall g, g <> pagetables_region_cursor -> k_glob s' g = k_glob s g) ->
  same_outside (fun x => within (table + 8 * i) 8 x \/ within cur 4096 x) (k_mem s) (k_mem s') ->
  region_mapped s' (cur + 4096) r.
Proof.
  intros [Hpl Hty Hl2 Hwalk] Hne Hi Hg Hs. pose proof (l1_index_range (r_virt r)).
  assert (He : entry_of s' table (tt_l1_index (r_virt r)) = entry_of s table (tt_l1_index (r_virt r))).
  { apply (load_same_outside _ 8 _ _ _ Hs). unfold within. intros x. lia. }
  assert (Hw : forall va, l2_walk (k_mem s') (r_l2 r) va = l2_walk (k_mem s) (r_l2 r) va).
  { intros va. apply (l2_walk_same_outside _ _ _ _ _ Hs). unfold within. intros x. lia. }
  split; rewrite ?He; [lia|done| |].
  - rewrite <- Hl2. by apply lin_same.
  - intros va. rewrite Hw. apply Hwalk.
Qed.

Hypothesis Htop : top < 2 ^ 64.
Hypothesis Hend : forall x, within sym_pagetables_region_end 8 x -> ~ table <= x < top.
Hypothesis Hlinear : forall a, table <= a -> a + 4096 <= top -> (a - table) mod 4096 = 0 ->
  0 <= a + off /\ Z.land (a + off) TT_TABLE_MASK = a + off /\
  forall s', mmu_translate_kvtop a s' = Done (a + off) s'.

Lemma table_ok_map s cur rs p v n flags :
  table_ok s cur rs -> cur + 4096 <= top -> region_in_slot p v n ->
  (forall r, r ∈ rs -> tt_l1_index (r_virt r) <> tt_l1_index v) ->
  exists m, let s' := set_mem m (set_glob pagetables_region_cursor (cur + 4096) s) in
    pmap_tt_create_tte table p v n flags s = Done PMAP_RETURN_SUCCESS s' /\
    table_ok s' (cur + 4096) (mk_region p v n cur :: rs) /\
    same_outside (fun x => within table 4096 x \/ within cur 4096 x) (k_mem s) m.
Proof.
  intros Ht Hroom Hr Hne. pose proof (l1_index_range v).
  destruct Ht as [Hc Ho (R1 & R2 & R3) He Hz Hem Hrs].
  destruct (Hlinear cur ltac:(lia) ltac:(lia) R3) as (P1 & P2 & P3).
  destruct (pmap_tt_create_tte_fresh s table p v n flags cur Hr) as (m & E & T & L & W & F).
  - apply (next_page_fresh s table v cur (cur + off)); try done; [by apply Hem|].
    unfold lin. rewrite u64_id; lia.
  - unfold apart. lia.
  - intros x Hx. apply Hz. unfold within in Hx. lia.
  - rewrite u64_id in E by (change DEFAULTS_KERNEL_VM_PAGE_SIZE with 4096; lia).
    exists m. intros s'. split; [exact E|].
    assert (Hg : forall g, g <> pagetables_region_cursor -> k_glob s' g = k_glob s g)
      by (intros g Hg; unfold s'; by rewrite set_mem_glob, set_glob_ne).
    assert (F' : same_outside (fun x => within table 4096 x \/ within cur 4096 x) (k_mem s) m).
    { eapply same_outside_mono; [|exact F]. unfold within. intros x. lia. }
    split; [|done]. split.
    + reflexivity.
    + by rewrite !Hg.
    + split; [done|]. split; [lia|]. replace (cur + 4096 - table) with (cur - table + 1 * 4096) by lia.
      by rewrite Z.mod_add.
    + change (k_mem s') with m. rewrite (load_same_outside _ 8 _ _ _ F'); [lia|].
      intros x Hx%Hend. unfold within. lia.
    + intros x Hx. change (k_mem s') with m. rewrite <- F by (unfold within; lia). apply Hz. lia.
    + intros idx Hidx Hno. assert (Hidx' : tt_l1_index v <> idx) by (apply (Hno (mk_region p v n cur)); by left).
      rewrite <- (Hem idx Hidx) by (intros r Hin; apply Hno; by right).
      apply (load_same_outside _ 8 _ _ _ F). unfold within. intros x. lia.
    + intros r [->|Hin]%elem_of_cons.
      * by split.
      * apply (region_mapped_frame s s' cur (tt_l1_index v)); try done; [by apply Hrs|by apply Hne].
Qed.
End Regions.

Lemma ptregion_alloc_run s c :
  k_glob s pagetables_region_cursor = c -> ld64 (k_mem s) sym_pagetables_region_end < c ->
  0 <= c -> c + TT_PAGE_SIZE < 2 ^ 64 ->
  pmap_ptregion_alloc s = Done c (set_glob pagetables_region_cursor (c + TT_PAGE_SIZE) s).
Proof.
  intros Hc He Hc0 Hc1. unfold pmap_ptregion_alloc, assert. cbv beta iota delta [bind get put ld ret].
  rewrite Hc, set_glob_mem. change DEFAULTS_KERNEL_VM_PAGE_SIZE with TT_PAGE_SIZE.
  rewrite u64_id by (unfold TT_PAGE_SIZE in *; lia).
  by destruct (Z.ltb_spec (ld64 (k_mem s) sym_pagetables_region_end) c); [|lia].
Qed.

(** The two tables are the first pages of the region; memory does not change. *)
Lemma arm_vm_init_tables_run s args memsize
    physbase virtbase kernbase kernsize uartbase uartsize :
  boot_ok s args physbase virtbase kernbase kernsize uartbase uartsize ->
  let table := sym_pagetables_region_base in
  exists s1, arm_vm_init_tables args memsize s =
      Done (table, table - virtbase + physbase, table + TT_PAGE_SIZE - virtbase + physbase) s1 /\
    k_mem s1 = k_mem s /\ k_sys s1 = k_sys s /\
    k_glob s1 memory_phys_base = physbase /\ k_glob s1 memory_virt_base = virtbase /\
    k_glob s1 pagetables_region_cursor = table + 2 * TT_PAGE_SIZE.
Proof.
  intros [Ep Ev Ekb Eks Eub Eus Hfirst (Hb & Hmax) Hend Hea Haa Hz Hlin Hlr] table.
  assert (T0 : forall t, mmu_translate_kvtop table t = Done (table - virtbase + physbase) t).
  { intros t. pose proof (Hlin t 0 ltac:(lia)) as E. cbv zeta in E.
    rewrite Z.mul_0_r, Z.add_0_r in E. exact E. }
  assert (T1 : forall t, mmu_translate_kvtop (table + TT_PAGE_SIZE) t
                 = Done (table + TT_PAGE_SIZE - virtbase + physbase) t).
  { intros t. pose proof (Hlin t 1 ltac:(lia)) as E. cbv zeta in E. rewrite Z.mul_1_r in E. exact E. }
  unfold arm_vm_init_tables.
  do 5 (unfold bind at 1; cbv beta iota delta [ld put]). cbn [k_mem set_glob]. rewrite Ep, Ev.
  match goal with |- context [bind pmap_ptregion_create _ ?t] => set (s0 := t) end.
  assert (E0 : pmap_ptregion_create s0 = Done PMAP_RETURN_SUCCESS
    (set_glob ptregion_initialised 1 (set_glob ptregion_phys_base (table - virtbase + physbase)
      (set_glob pagetables_region_cursor table s0)))).
  { unfold pmap_ptregion_create. cbv beta iota delta [bind get put ret].
    change (k_glob s0 ptregion_initialised) with (k_glob s ptregion_initialised). rewrite Hfirst.
    destruct (Z.eqb_spec sym_pagetables_region_base 0); [lia|]. change (truthy 0) with false.
    cbv beta iota. fold table. by rewrite T0. }
  rewrite (bind_done _ _ _ _ _ E0). set (s1 := set_glob ptregion_initialised _ _).
  assert (Hpg : TT_PAGE_SIZE = 4096) by done. rewrite Hpg in Hmax.
  pose proof (ptregion_alloc_run s1 table eq_refl Hend ltac:(lia) ltac:(lia)) as E1.
  rewrite (bind_done _ _ _ _ _ E1). unfold bind at 1. cbv beta iota delta [put].
  rewrite (bind_done _ _ _ _ _ (T0 _)). unfold bind at 1.
  match goal with |- context [bind pmap_ptregion_alloc _ ?t] => set (s2 := t) end.
  assert (Hend2 : ld64 (k_mem s2) sym_pagetables_region_end < table + TT_PAGE_SIZE)
    by (change (k_mem s2) with (k_mem s); fold table in Hend; lia).
  pose proof (ptregion_alloc_run s2 (table + TT_PAGE_SIZE) eq_refl Hend2 ltac:(lia) ltac:(lia)) as E2.
  rewrite (bind_done _ _ _ _ _ E2). unfold bind at 1. rewrite (bind_done _ _ _ _ _ (T1 _)).
  unfold bind at 1. eexists. split; [reflexivity|]. split_and!; try done.
  change (table + TT_PAGE_SIZE + TT_PAGE_SIZE = table + 2 * TT_PAGE_SIZE). lia.
Qed.
(** The tables before the first region is mapped. *)
Lemma table_ok_start s s1 args physbase virtbase kernbase kernsize uartbase uartsize :
  boot_ok s args physbase virtbase kernbase kernsize uartbase uartsize ->
  k_mem s1 = k_mem s -> k_glob s1 memory_phys_base = physbase ->
  k_glob s1 memory_virt_base = virtbase ->
  let table := sym_pagetables_region_base in
  k_glob s1 pagetables_region_cursor = table + 2 * TT_PAGE_SIZE ->
  table_ok table (table + 4 * TT_PAGE_SIZE) (physbase - virtbase) s1 (table + 2 * TT_PAGE_SIZE) [].
Proof.
  intros [Ep Ev Ekb Eks Eub Eus Hfirst (Hb & Hmax) Hend Hea Haa Hz Hlin Hlr] Hm Hpb Hvb table Hc.
  unfold TT_PAGE_SIZE in *. fold table in Hend, Hz, Hb, Hmax.
  split; try done; rewrite ?Hm.
  - by rewrite Hpb, Hvb.
  - split; [lia|]. split; [lia|]. replace (table + 2 * 4096 - table) with (2 * 4096) by lia.
    by rewrite Z.mod_mul.
  - lia.
  - intros x Hx. apply Hz. unfold within. lia.
  - intros idx Hidx _. unfold entry_of. rewrite Hm. apply (load_zero 8). intros x Hx. apply Hz.
    unfold within in *. lia.
  - intros r Hr. by apply not_elem_of_nil in Hr.
Qed.

Lemma boot_linear s args physbase virtbase kernbase kernsize uartbase uartsize :
  boot_ok s args physbase virtbase kernbase kernsize uartbase uartsize ->
  let table := sym_pagetables_region_base in
  forall a, table <= a -> a + 4096 <= table + 4 * 4096 -> (a - table) mod 4096 = 0 ->
  0 <= a + (physbase - virtbase) /\
  Z.land (a + (physbase - virtbase)) TT_TABLE_MASK = a + (physbase - virtbase) /\
  forall s', mmu_translate_kvtop a s' = Done (a + (physbase - virtbase)) s'.
Proof.
  intros Hbo table a Ha1 Ha2 Hmod. apply Z.mod_divide in Hmod as [i Hi]; [|done].
  assert (Ea : a = table + TT_PAGE_SIZE * i) by (unfold TT_PAGE_SIZE; lia).
  pose proof (bo_linear_range _ _ _ _ _ _ _ _ Hbo i ltac:(unfold TT_PAGE_SIZE in *; lia)) as Hr.
  cbv zeta in Hr. fold table in Hr. rewrite <- Ea in Hr.
  replace (a + (physbase - virtbase)) with (a - virtbase + physbase) by lia.
  split; [rewrite <- Hr, table_mask_eq; pose proof (Z.mod_pos_bound ((a - virtbase + physbase) / 2 ^ 12) (2 ^ 36)); lia|].
  split; [done|]. intros s'. rewrite Ea.
  apply (bo_linear _ _ _ _ _ _ _ _ Hbo s' i). unfold TT_PAGE_SIZE in *. lia.
Qed.

(** The two regions are mapped; the arguments and the invalid table survive. *)
Lemma arm_vm_init_regions s s2 args physbase virtbase kernbase kernsize uartbase uartsize :
  boot_ok s args physbase virtbase kernbase kernsize uartbase uartsize -> k_mem s2 = k_mem s ->
  let table := sym_pagetables_region_base in
  let top := table + 4 * 4096 in let off := physbase - virtbase in
  table_ok table top off s2 (table + 2 * 4096) [] ->
  region_in_slot kernbase virtbase kernsize ->
  region_in_slot uartbase DEFAULTS_KERNEL_VM_PERIPH_BASE uartsize ->
  tt_l1_index virtbase <> tt_l1_index DEFAULTS_KERNEL_VM_PERIPH_BASE ->
  exists s3 s4,
    pmap_tt_create_tte table kernbase virtbase kernsize PMAP_ACCESS_READWRITE s2
      = Done PMAP_RETURN_SUCCESS s3 /\
    ld64 (k_mem s3) (boot_args_uartbase args) = uartbase /\
    ld64 (k_mem s3) (boot_args_uartsize args) = uartsize /\
    pmap_tt_create_tte table uartbase DEFAULTS_KERNEL_VM_PERIPH_BASE uartsize
      PMAP_ACCESS_READWRITE s3 = Done PMAP_RETURN_SUCCESS s4 /\
    table_ok table top off s4 (table + 2 * 4096 + 4096 + 4096)
      [mk_region uartbase DEFAULTS_KERNEL_VM_PERIPH_BASE uartsize (table + 2 * 4096 + 4096);
       mk_region kernbase virtbase kernsize (table + 2 * 4096)] /\
    (forall va, mmu_walk s4 (table + 4096) va = None).
Proof.
  intros Hbo Hm2 table top off Ht2 Hr1 Hr2 Hne.
  pose proof (boot_linear _ _ _ _ _ _ _ _ Hbo) as Hlinear.
  destruct Hbo as [Ep Ev Ekb Eks Eub Eus Hfirst (Hb & Hmax) Hend Hea Haa Hz _ _].
  assert (Hpg : TT_PAGE_SIZE = 4096) by done. rewrite Hpg in *. fold table in Hmax, Hea, Haa, Hz.
  assert (Htop : top < 2 ^ 64) by (unfold top; lia).
  assert (Hends : forall x, within sym_pagetables_region_end 8 x -> ~ table <= x < top).
  { intros x. unfold within, apart, top in *. lia. }
  destruct (table_ok_map table _ _ Htop Hends Hlinear s2 _ [] _ _ _ PMAP_ACCESS_READWRITE
    Ht2 ltac:(unfold top; lia) Hr1) as (m3 & E3 & Ht3 & F3); [by intros r ?%not_elem_of_nil|].
  cbv zeta in E3, Ht3. set (s3 := set_mem m3 _) in E3, Ht3.
  assert (Harg : forall a, args <= a -> a + 8 <= args + 120 -> ld64 m3 a = ld64 (k_mem s) a).
  { intros a ? ?. rewrite <- Hm2. apply (load_same_outside _ 8 _ _ _ F3).
    unfold within, apart in *. intros x. lia. }
  destruct (table_ok_map table _ _ Htop Hends Hlinear s3 _ _ _ _ _ PMAP_ACCESS_READWRITE
    Ht3 ltac:(unfold top; lia) Hr2) as (m4 & E4 & Ht4 & F4).
  { intros r ->%list_elem_of_singleton. done. }
  exists s3. eexists. split; [exact E3|]. change (k_mem s3) with m3.
  unfold boot_args_uartbase, boot_args_uartsize in *. rewrite !Harg by lia.
  split; [done|]. split; [done|]. split; [exact E4|]. split; [exact Ht4|].
  intros va. apply mmu_walk_zero. intros x Hx. change (rd m4 x = 0). unfold within in *.
  rewrite <- F4 by lia. change (k_mem s3) with m3. rewrite <- F3, Hm2 by lia. apply Hz. lia.
Qed.

End VmProofs.

(** ** Witnesses *)
Definition demo_args : Z := DEMO_VIRT + 0x8000.
Definition demo_boot : kstate :=
  let m := st64 ∅ (boot_args_physbase demo_args) DEMO_PHYS in
  let m := st64 m (boot_args_virtbase demo_args) DEMO_VIRT in
  let m := st64 m (boot_args_kernbase demo_args) DEMO_PHYS in
  let m := st64 m (boot_args_kernsize demo_args) 0x400000 in
  let m := st64 m (boot_args_uartbase demo_args) 0x9000000 in
  set_mem (st64 m (boot_args_uartsize demo_args) 0x1000) demo_state.

Lemma demo_boot_ok :
  @boot_ok demo_symbols demo_hardware demo_boot demo_args DEMO_PHYS DEMO_VIRT DEMO_PHYS 0x400000
    0x9000000 0x1000.
Proof.
  split.
  1-7: vm_compute; reflexivity.
  - vm_compute. split; reflexivity.
  - vm_compute. reflexivity.
  - right. rewrite Z2Nat.id by done. vm_compute. congruence.
  - left. vm_compute. congruence.
  - intros x Hx. unfold demo_boot. cbn [k_mem set_mem].
    unfold within in Hx. rewrite Z2Nat.id in Hx by done.
    change (DEMO_VIRT + 0x200000 <= x < DEMO_VIRT + 0x200000 + 16384) in Hx.
    assert (demo_args + 128 <= x) by (unfold demo_args; lia).
    unfold boot_args_physbase, boot_args_virtbase, boot_args_kernbase, boot_args_kernsize,
      boot_args_uartbase, boot_args_uartsize.
    rewrite !rd_store_out by (unfold within; lia). done.
  - intros s' i Hi va. assert (i = 0 \/ i = 1 \/ i = 2 \/ i = 3) as Hcases by lia.
    unfold va. destruct Hcases as [->|[->|[->| ->]]]; vm_compute; reflexivity.
  - intros i Hi va. assert (i = 0 \/ i = 1 \/ i = 2 \/ i = 3) as Hcases by lia.
    unfold va. destruct Hcases as [->|[->|[->| ->]]]; vm_compute; reflexivity.
Qed.


Definition demo_booted : kstate :=
  match @arm_vm_init demo_symbols demo_hardware demo_args DEMO_PHYS 0x80000 demo_boot with
  | Done _ s => s
  | _ => demo_boot
  end.

Lemma vm_pagetable_walk_complete_witness :
  let _ := demo_symbols in let _ := demo_hardware in
  exists l, vm_pagetable_walk_ttbr1 demo_booted
      = Done tt (with_trace (reverse l ++ k_trace demo_booted) demo_booted) /\
    EvPrint "Level %d [%d]: Block descriptor: 0x%lx (mapped to 0x%lx)\n"
      [2; 1; DEMO_PHYS + 0x200000; DEMO_VIRT + 0x200000] ∈ l.
Proof.
  intros sy hw.
  destruct (vm_pagetable_walk_complete demo_booted (DEMO_PHYS + 0x200000))
    as (l & E & Hl); [vm_compute; reflexivity|].
  exists l. split; [exact E|]. apply Hl. split; [vm_compute; reflexivity|].
  exists (DEMO_VIRT + 0x200000). split; vm_compute; reflexivity.
Defined.

Lemma vm_configure_correct_witness :
  let _ := demo_symbols in let _ := demo_hardware in
  exists s', vm_configure demo_state = Done tt s' /\
    map_ok (k_mem s') (DEMO_VIRT + 0x101180) [mk_ventry DEMO_VIRT 0x3fff 0 1].
Proof.
  intros sy hw. destruct (vm_configure_correct demo_state) as (s' & E & _ & _ & Hm).
  - vm_compute. split; reflexivity.
  - unfold region_fits. split_and!; try (vm_compute; congruence). left. vm_compute. congruence.
  - vm_compute. reflexivity.
  - vm_compute. congruence.
  - vm_compute. congruence.
  - vm_compute. split; reflexivity.
  - vm_compute. congruence.
  - vm_compute. split; [congruence|reflexivity].
  - vm_compute. congruence.
  - vm_compute. reflexivity.
  - unfold map_bytes, within, entry_addr, kernel_vm_map. simpl.
    unfold DEMO_VIRT, PMAP_SIZEOF, TASK_SIZEOF, VM_PAGE_STRUCT_SIZE.
    intros x [?|(i & ? & ?)]; lia.
  - exists s'. split; [exact E|exact Hm].
Defined.
