(* ===== verification/Heap.v ===== *)
(** * Heap: pages of kernel memory, as the zone allocator sees them

    [Heap map] states what [vm_map_alloc] promises to its callers: whole pages, one
    after the other, that no part of the memory system uses.  The instance
    [vm_heap] derives it from the state [vm_ready] of VmMap. *)
From Stdlib Require Import ZArith Lia.
From stdpp Require Import prelude gmap list.
From S2P Require Import Prelude Memory LinkedList Kernel Pmap VmPage VmMap.
Open Scope Z_scope.
Open Scope monix_scope.

(** [heap_ok s v k]: [k] more pages can be had, from address [v] on; [heap_own]
    are the bytes of the memory system itself. The pages of an allocation follow those
    of the one before, with the guard pages that the flags ask for. *)
Class Heap `{Symbols} `{Hardware} (map : Z) := {
  heap_ok : kstate -> Z -> Z -> Prop;
  heap_own : Z -> Prop;
  heap_alloc : forall s v k n flags, heap_ok s v k -> 0 < n -> alloc_pages n flags <= k ->
    exists s', vm_map_alloc map (n * VM_PAGE_SIZE) flags s = Done (alloc_base v flags) s' /\
      heap_ok s' (v + VM_PAGE_SIZE * alloc_pages n flags) (k - alloc_pages n flags) /\
      same_globals (fun g => g = pagetables_region_cursor) s s' /\
      same_outside (fun x => heap_own x \/ v <= x < v + VM_PAGE_SIZE * alloc_pages n flags) (k_mem s) (k_mem s');
  heap_room : forall s v k, heap_ok s v k ->
    0 <= v /\ v + VM_PAGE_SIZE * k < 2 ^ 64 /\
    forall x, v <= x < v + VM_PAGE_SIZE * k -> ~ heap_own x;
  heap_frame : forall R s s' v k, heap_ok s v k -> same_outside R (k_mem s) (k_mem s') ->
    (forall x, R x -> ~ heap_own x) -> (forall g, vm_var g -> k_glob s' g = k_glob s g) ->
    heap_ok s' v k;
}.

(** ** The implementation *)
Section VmHeap.
Context `{Symbols} `{Hardware} (map lo hi : Z) `{!Mapper (vm_map_pmap map) lo hi}.
Context (base cap pages region : Z).
Hypothesis Hlo : 0 <= lo.
Hypothesis Hhi : hi + 4 < 2 ^ 64.

Definition vm_heap_own (x : Z) : Prop :=
  map_bytes map cap x \/ mp_bytes x \/
  exists i, 0 <= i < pages /\ vm_page_bytes (__vm_page_get_idx region i) x.

Record vm_heap_ok (s : kstate) (v k : Z) : Prop := {
  vh_pages : k_glob s vm_page_idx = pages /\ k_glob s vm_page_region = region;
  vh_range : lo <= v /\ v + VM_PAGE_SIZE * k <= hi /\ v mod 4 = 0 /\ 0 <= k;
  vh_ready : exists es e, v = ve_base e + ve_size e + 1 /\ 0 <= ve_base e /\ 0 <= ve_size e /\
    vm_ready map lo hi s (es ++ [e]) base cap k /\ Z.of_nat (length (es ++ [e])) + k <= cap;
}.

Lemma vm_heap_own_pages s x :
  k_glob s vm_page_idx = pages -> k_glob s vm_page_region = region ->
  page_table_bytes s x -> vm_heap_own x.
Proof.
  intros Hi Hr (i & Hx). unfold vm_page_at in Hx. rewrite Hi, Hr in Hx. right; right. by exists i.
Qed.

(** The entries an allocation appends end where its pages do. *)
Lemma alloc_entries_last v n flags : exists es e,
  alloc_entries v n flags = es ++ [e] /\ ve_base e + ve_size e + 1 = v + VM_PAGE_SIZE * alloc_pages n flags /\
  (0 <= v -> 0 < n -> 0 <= ve_base e /\ 0 <= ve_size e).
Proof.
  assert (Hps : VM_PAGE_SIZE = 4096) by done.
  unfold alloc_entries, alloc_pages, alloc_base. destruct (has flags VM_ALLOC_GUARD_FIRST), (has flags VM_ALLOC_GUARD_LAST); simpl b2z.
  - eexists [_; _], _. split; [reflexivity|]. rewrite Hps. simpl. lia.
  - eexists [_], _. split; [reflexivity|]. rewrite Hps. simpl. lia.
  - eexists [_], _. split; [reflexivity|]. rewrite Hps. simpl. lia.
  - eexists [], _. split; [reflexivity|]. rewrite Hps. simpl. lia.
Qed.
Lemma length_alloc_entries v n flags : 0 < n -> Z.of_nat (length (alloc_entries v n flags)) <= alloc_pages n flags.
Proof.
  unfold alloc_entries, alloc_pages. destruct (has flags VM_ALLOC_GUARD_FIRST), (has flags VM_ALLOC_GUARD_LAST); simpl; lia.
Qed.

Lemma vm_heap_alloc s v k n flags :
  vm_heap_ok s v k -> 0 < n -> alloc_pages n flags <= k ->
  exists s', vm_map_alloc map (n * VM_PAGE_SIZE) flags s = Done (alloc_base v flags) s' /\
    vm_heap_ok s' (v + VM_PAGE_SIZE * alloc_pages n flags) (k - alloc_pages n flags) /\
    same_globals (fun g => g = pagetables_region_cursor) s s' /\
    same_outside (fun x => vm_heap_own x \/ v <= x < v + VM_PAGE_SIZE * alloc_pages n flags) (k_mem s) (k_mem s').
Proof.
  intros [[Hpi Hpr] (Hv & Hend & Hal & Hk) (es & e & -> & He1 & He2 & Hr & Hcap)] Hn Hnk.
  assert (Hps : VM_PAGE_SIZE = 4096) by done.
  assert (Hcount : vm_map_page_count (n * VM_PAGE_SIZE) = n).
  { unfold vm_map_page_count. destruct (Z.ltb_spec (n * VM_PAGE_SIZE) VM_PAGE_SIZE); [lia|].
    by rewrite Z.div_mul. }
  rewrite length_app in Hcap. simpl in Hcap. set (v := ve_base e + ve_size e + 1) in *.
  assert (Hae : alloc_end v n flags = v + VM_PAGE_SIZE * alloc_pages n flags).
  { unfold alloc_end, alloc_base, alloc_pages. rewrite Hps.
    destruct (has flags VM_ALLOC_GUARD_FIRST), (has flags VM_ALLOC_GUARD_LAST); simpl b2z; lia. }
  assert (Hp0 : 0 <= alloc_pages n flags).
  { unfold alloc_pages. destruct (has flags VM_ALLOC_GUARD_FIRST), (has flags VM_ALLOC_GUARD_LAST); simpl b2z; lia. }
  pose proof (length_alloc_entries v n flags Hn) as Hla.
  pose proof (vm_map_alloc_run map lo hi s es e base cap k (n * VM_PAGE_SIZE) flags) as Hrun.
  cbv zeta in Hrun. fold v in Hrun. rewrite Hcount in Hrun. rewrite Hae in Hrun.
  destruct Hrun as (s' & E & Hr' & Hg & Hs); try done; try lia.
  exists s'. split; [exact E|]. split; [|split; [exact Hg|]].
  - destruct (alloc_entries_last v n flags) as (es2 & e2 & Ee & Hend2 & Hpos). split.
    + by rewrite !Hg.
    + split; [lia|]. split; [lia|]. split; [|lia]. rewrite Hps.
      Z.to_euclidean_division_equations. lia.
    + exists ((es ++ [e]) ++ es2), e2. destruct Hpos as [Hp1 Hp2]; [lia|lia|].
      split; [lia|]. split; [done|]. split; [done|]. rewrite <- app_assoc, <- Ee. split; [exact Hr'|].
      rewrite !length_app. simpl. lia.
  - eapply same_outside_mono; [|exact Hs]. intros x [?|[?|[?|?]]].
    + left. by left.
    + left. by apply (vm_heap_own_pages s).
    + left. right. by left.
    + right. lia.
Qed.

Lemma vm_heap_room s v k :
  vm_heap_ok s v k ->
  0 <= v /\ v + VM_PAGE_SIZE * k < 2 ^ 64 /\
  forall x, v <= x < v + VM_PAGE_SIZE * k -> ~ vm_heap_own x.
Proof.
  intros [[Hpi Hpr] (Hv & Hend & Hal & Hk) (es & e & -> & He1 & He2 & Hr & Hcap)].
  split; [lia|]. split; [lia|]. intros x Hx Ho.
  destruct (vr_heap _ _ _ _ _ _ _ _ Hr x) as (A1 & A2 & A3); [lia|].
  destruct Ho as [Ho|[Ho|(i & Ho)]]; [done..|]. apply A2. exists i. unfold vm_page_at.
  by rewrite Hpi, Hpr.
Qed.

Lemma vm_heap_frame R s s' v k :
  vm_heap_ok s v k -> same_outside R (k_mem s) (k_mem s') -> (forall x, R x -> ~ vm_heap_own x) ->
  (forall g, vm_var g -> k_glob s' g = k_glob s g) -> vm_heap_ok s' v k.
Proof.
  intros [[Hpi Hpr] Hv (es & e & He & He1 & He2 & Hr & Hcap)] Hs HR Hg.
  split; [by rewrite !Hg|done|]. exists es, e. split; [done|]. split; [done|]. split; [done|].
  split; [|done]. eapply vm_ready_frame; [exact Hr|exact Hs| |exact Hg].
  intros x Hx. split_and!; intros Ho; apply (HR x Hx).
  - by left.
  - by apply (vm_heap_own_pages s).
  - right. by left.
Qed.

Definition vm_heap : Heap map := {|
  heap_ok := vm_heap_ok;
  heap_own := vm_heap_own;
  heap_alloc := vm_heap_alloc;
  heap_room := vm_heap_room;
  heap_frame := vm_heap_frame;
|}.
End VmHeap.
