(* ===== verification/Zalloc.v ===== *)
(** * Zalloc: the zone allocator (kern/mm/zalloc.c, kern/mm/zalloc.h)

    A zone is an array of blocks, each a [zone_alloc_metadata] followed by an
    element; the metadata of every block is on the zone's free or used list.
    [zone_ok] relates a zone in memory to these two lists.  The pages come from
    the interface [Heap]. *)
From Stdlib Require Import ZArith Lia.
From stdpp Require Import prelude gmap list strings.
From S2P Require Import Prelude Memory LinkedList TString Kernel Pmap VmPage VmMap Vm Heap.
Open Scope Z_scope.
Open Scope monix_scope.

(** ** Structures *)
Definition MAX_NUM_ZONES : Z := 12.
Definition ZONE_NULL : Z := 0.
Definition ZONE_STATE_UNUSED : Z := 0.
Definition ZONE_STATE_USED : Z := 1.
Definition ZONE_SIZEOF : Z := 96.
Definition ZONE_METADATA_SIZEOF : Z := 16.

Definition zone_count (z : Z) : Z := z.
Definition zone_count_free (z : Z) : Z := z + 4.
Definition zone_size (z : Z) : Z := z + 8.
Definition zone_max_size (z : Z) : Z := z + 16.
Definition zone_elem_size (z : Z) : Z := z + 24.
Definition zone_page_count (z : Z) : Z := z + 32.
Definition zone_free_elems (z : Z) : Z := z + 40.
Definition zone_used_elems (z : Z) : Z := z + 56.
Definition zone_index (z : Z) : Z := z + 72.
Definition zone_name (z : Z) : Z := z + 80.
Definition zone_flags (z : Z) : Z := z + 88.

(** The offset of [alloc] in [zone_alloc_metadata]. *)
Definition meta_alloc : Z := 0.

Section Zalloc.
Context `{Symbols} `{Hardware}.

Definition zone_at (i : Z) : Z := sym_zone_array + ZONE_SIZEOF * i.
Definition zone_state (m : memory) (z : Z) : Z := get_bits (ld32 m (zone_flags z)) 0 1.
Definition set_zone_state (z v : Z) (m : memory) : memory :=
  st32 m (zone_flags z) (set_bits (ld32 m (zone_flags z)) 0 1 v).

(** ** Operations *)
Definition zone_init : M Z :=
  put num_zones_used 0 ;!
  for_range 0 (Z.to_nat MAX_NUM_ZONES) (fun i =>
    let zone := zone_at i in
    upd_mem (fun m => memset m zone 0 (Z.to_nat ZONE_SIZEOF)) ;!
    upd_mem (set_zone_state zone ZONE_STATE_UNUSED)) ;!
  ret KERN_RETURN_SUCCESS.

(** [for (zidx = 0; zidx < MAX_NUM_ZONES; zidx++)]: the first unused zone from
    [zidx] on and its index, or [ZONE_NULL]. *)
Fixpoint zone_find (n : nat) (m : memory) (zidx : Z) : Z * Z :=
  match n with
  | O => (ZONE_NULL, zidx)
  | S n =>
      if zone_state m (zone_at zidx) =? ZONE_STATE_UNUSED then (zone_at zidx, zidx)
      else zone_find n m (zidx + 1)
  end.

(** The fields set before the pages are allocated; [count_free] and
    [page_count] are [int]. *)
Definition zone_setup (zone zidx size max name : Z) : M unit :=
  st 8 (zone_elem_size zone) size ;!
  let count_free := s32 (max / size) in
  st 4 (zone_count_free zone) count_free ;!
  st 4 (zone_count zone) 0 ;!
  let max_size := u64 (count_free * size) in
  st 8 (zone_max_size zone) max_size ;!
  st 8 (zone_size zone) 0 ;!
  let page_count := s32 (u64 (max_size + u64 (max * ZONE_METADATA_SIZEOF)) / VM_PAGE_SIZE) in
  st 4 (zone_page_count zone) (if page_count =? 0 then 1 else page_count) ;!
  upd_mem (fun m => INIT_LIST_HEAD m (zone_free_elems zone)) ;!
  upd_mem (fun m => INIT_LIST_HEAD m (zone_used_elems zone)) ;!
  st 4 (zone_index zone) zidx ;!
  st 8 (zone_name zone) name.

(** Every block's metadata goes on the free list; [count] iterations suffice. *)
Definition zone_fill (count : nat) (zone base : Z) : M unit :=
  let! size := ld 8 (zone_elem_size zone) in
  let zone_block_size := u64 (size + ZONE_METADATA_SIZEOF) in
  loop count
    (fun i => let! count_free := ld 4 (zone_count_free zone) in ret (i <? s32 count_free))
    (fun i =>
       let meta := u64 (base + u64 (i * zone_block_size)) in
       upd_mem (fun m => list_add_tail m (meta + meta_alloc) (zone_free_elems zone)) ;!
       ret (i + 1))
    0 ;!
  ret tt.

Definition zone_create (size max name : Z) : M Z :=
  let! m := get_mem in
  let (zone, zidx) := zone_find (Z.to_nat MAX_NUM_ZONES) m 0 in
  if zone =? ZONE_NULL then halt
  else if size =? 0 then halt
  else if max =? 0 then halt
  else
    zone_setup zone zidx size max name ;!
    let! page_count := ld 4 (zone_page_count zone) in
    let! zone_page_base :=
      vm_map_alloc vm_get_kernel_map (u64 (s32 (s32 page_count * VM_PAGE_SIZE))) VM_NULL in
    zone_fill (Z.to_nat (max / size)) zone zone_page_base ;!
    let! n := get num_zones_used in
    put num_zones_used (u32 (n + 1)) ;!
    upd_mem (set_zone_state zone ZONE_STATE_USED) ;!
    ret zone.

(** [count += d] on an [int] field. *)
Definition add_int (a d : Z) : M unit :=
  upd_mem (fun m => st32 m a (s32 (ld32 m a) + d)).

Definition zalloc (zone : Z) : M Z :=
  let! m := get_mem in
  let meta := list_first_entry m (zone_free_elems zone) meta_alloc in
  upd_mem (fun m => list_move m (meta + meta_alloc) (zone_used_elems zone)) ;!
  add_int (zone_count zone) 1 ;!
  add_int (zone_count_free zone) (-1) ;!
  ret (u64 (meta + ZONE_METADATA_SIZEOF)).

(** The loop of [zfree] from the entry [meta] on. *)
Fixpoint zfree_loop (fuel : nat) (zone addr meta_addr meta : Z) : M unit :=
  if meta + meta_alloc =? zone_used_elems zone then ret tt
  else if meta =? meta_addr then
    let! elem_size := ld 8 (zone_elem_size zone) in
    upd_mem (fun m => memset m addr 0 (Z.to_nat elem_size)) ;!
    upd_mem (fun m => list_move m (meta + meta_alloc) (zone_free_elems zone)) ;!
    add_int (zone_count zone) (-1) ;!
    add_int (zone_count_free zone) 1
  else
    let! m := get_mem in
    if list_is_last m meta (zone_used_elems zone) then halt
    else match fuel with
         | O => diverge
         | S fuel =>
             zfree_loop fuel zone addr meta_addr
               (list_entry (list_next m (meta + meta_alloc)) meta_alloc)
         end.

Definition zfree (fuel : nat) (zone addr : Z) : M unit :=
  let meta_addr := u64 (addr - ZONE_METADATA_SIZEOF) in
  let! m := get_mem in
  zfree_loop fuel zone addr meta_addr (list_first_entry m (zone_used_elems zone) meta_alloc).

(** *** Listing *)
Fixpoint print_elems (l : list Z) : M unit :=
  match l with
  | [] => ret tt
  | meta :: l =>
      print "    meta: 0x%lx | element: 0x%lx\n" [meta; u64 (meta + ZONE_METADATA_SIZEOF)] ;!
      print_elems l
  end.

Definition zone_dump (fuel : nat) (zone : Z) : M unit :=
  let! index := ld 4 (zone_index zone) in
  let! name := ld 8 (zone_name zone) in
  let! max_size := ld 8 (zone_max_size zone) in
  print "zone[%d]: '%s', size: %d\n" [index; name; max_size] ;!
  let! count_free := ld 4 (zone_count_free zone) in
  print "  free: '%d':\n" [count_free] ;!
  let! m := get_mem in
  match list_for_each_entry fuel m (zone_free_elems zone) meta_alloc with
  | None => diverge
  | Some free =>
      print_elems free ;!
      let! count := ld 4 (zone_count zone) in
      print "  alloc: '%d':\n" [count] ;!
      match list_for_each_entry fuel m (zone_used_elems zone) meta_alloc with
      | None => diverge
      | Some used => print_elems used
      end
  end.

Definition zone_dump_all (fuel : nat) : M unit :=
  let! n := get num_zones_used in
  print "dumping '%d' zones:\n" [n] ;!
  for_range 0 (Z.to_nat MAX_NUM_ZONES) (fun i =>
    let! m := get_mem in
    if zone_state m (zone_at i) =? ZONE_STATE_UNUSED then ret tt
    else zone_dump fuel (zone_at i)).

(** *** The self-test

    [struct element_test] is two words. *)
Definition zalloc_tests (fuel : nat) : M unit :=
  print "zalloc: starting zone allocator tests:\n" [] ;!
  print "zone_alloc_metadata size: 0x%x\n" [ZONE_METADATA_SIZEOF] ;!
  let! test_zone := zone_create 16 (10 * 16) (sym_literal "test_element") in
  let! test_zone_2 := zone_create 16 (10 * 16) (sym_literal "test_element2") in
  zone_dump_all fuel ;!
  let! elem_1 := zalloc test_zone in
  let! elem_2 := zalloc test_zone in
  let! elem_3 := zalloc test_zone in
  st 8 elem_3 55 ;!
  st 8 (elem_3 + 8) 105 ;!
  let! val_1 := ld 8 elem_3 in
  let! val_2 := ld 8 (elem_3 + 8) in
  print "zalloc: zalloc elem3: ptr: 0x%lx, val1: %d, val2: %d\n" [elem_3; val_1; val_2] ;!
  zone_dump_all fuel ;!
  zfree fuel test_zone elem_2 ;!
  zone_dump_all fuel ;!
  print "zalloc: double free'ing zone element: 0x%lx\n" [elem_2] ;!
  zfree fuel test_zone elem_2.
End Zalloc.

(** ** The abstract zone

    [slots base size n] are the blocks of a zone; in [zone_ok m zone base n size
    free used] the lists [free] and [used] share them out. *)
Definition slots (base size n : Z) : list Z :=
  (fun i => base + (size + ZONE_METADATA_SIZEOF) * i) <$> seqZ 0 n.

Record zone_ok (m : memory) (zone base n size : Z) (free used : list Z) : Prop := {
  zo_size : 0 < size /\ 0 <= n < 2 ^ 31;
  zo_zone : 0 <= zone /\ zone + ZONE_SIZEOF <= 2 ^ 64;
  zo_base : 0 <= base /\ base + (size + ZONE_METADATA_SIZEOF) * n < 2 ^ 64;
  zo_apart : zone + ZONE_SIZEOF <= base \/ base + (size + ZONE_METADATA_SIZEOF) * n <= zone;
  zo_elem : ld64 m (zone_elem_size zone) = size;
  zo_count : ld32 m (zone_count zone) = Z.of_nat (length used);
  zo_count_free : ld32 m (zone_count_free zone) = Z.of_nat (length free);
  zo_free : dll m (zone_free_elems zone) free;
  zo_used : dll m (zone_used_elems zone) used;
  zo_slots : free ++ used ≡ₚ slots base size n;
}.

(** The bytes of the allocator: the descriptor and the metadata. *)
Definition zone_own (zone base n size x : Z) : Prop :=
  within zone 72 x \/ exists e, e ∈ slots base size n /\ within e 16 x.

(** The bytes of an element. *)
Definition elem_bytes (size e x : Z) : Prop := e + 16 <= x < e + 16 + size.

Ltac zone_unfold := unfold zone_count, zone_count_free, zone_size, zone_max_size, zone_elem_size,
  zone_page_count, zone_free_elems, zone_used_elems, zone_index, zone_name, zone_flags, meta_alloc,
  ZONE_SIZEOF, ZONE_METADATA_SIZEOF, LIST_HEAD_SIZE in *.

Lemma elem_of_slots base size n e :
  e ∈ slots base size n <-> exists i, 0 <= i < n /\ e = base + (size + ZONE_METADATA_SIZEOF) * i.
Proof.
  unfold slots. rewrite list_elem_of_fmap. setoid_rewrite elem_of_seqZ.
  split; intros (i & ? & ?); exists i; (first [split; [lia|done]|split; [done|lia]]).
Qed.

(** Two blocks are the same or do not overlap. *)
Lemma slots_apart base size n x y :
  0 < size -> x ∈ slots base size n -> y ∈ slots base size n -> x <> y ->
  x + size + 16 <= y \/ y + size + 16 <= x.
Proof.
  unfold ZONE_METADATA_SIZEOF.
  intros Hs (i & ? & ->)%elem_of_slots (j & ? & ->)%elem_of_slots Hne. unfold ZONE_METADATA_SIZEOF in *.
  destruct (Z.lt_total i j) as [Hl|[->|Hl]]; [left|done|right]; nia.
Qed.

Lemma slots_range base size n x :
  0 < size -> x ∈ slots base size n ->
  base <= x /\ x + size + 16 <= base + (size + ZONE_METADATA_SIZEOF) * n.
Proof.
  intros Hs (i & ? & ->)%elem_of_slots. unfold ZONE_METADATA_SIZEOF. nia.
Qed.

Lemma slots_sep zone base n size :
  0 < size -> 0 <= zone -> zone + ZONE_SIZEOF <= 2 ^ 64 -> 0 <= base ->
  base + (size + ZONE_METADATA_SIZEOF) * n < 2 ^ 64 ->
  (zone + ZONE_SIZEOF <= base \/ base + (size + ZONE_METADATA_SIZEOF) * n <= zone) ->
  sep (zone_free_elems zone :: zone_used_elems zone :: slots base size n).
Proof.
  intros Hs Hz Hzm Hb Hbm Hap. pose proof (slots_range base size n) as Hr.
  pose proof (slots_apart base size n) as Ha. zone_unfold.
  split; [|split].
  - rewrite !NoDup_cons. split_and!.
    + intros [?|Hx]%elem_of_cons; [lia|]. specialize (Hr _ Hs Hx). lia.
    + intros Hx. specialize (Hr _ Hs Hx). lia.
    + apply NoDup_fmap_2_strong; [|apply NoDup_seqZ]. intros x y _ _ He. unfold ZONE_METADATA_SIZEOF in He. nia.
  - intros x [->|[->|Hx]%elem_of_cons]%elem_of_cons; [zone_unfold; lia..|].
    specialize (Hr _ Hs Hx). zone_unfold. lia.
  - unfold apart, LIST_HEAD_SIZE.
    intros x y [->|[->|Hx]%elem_of_cons]%elem_of_cons [->|[->|Hy]%elem_of_cons]%elem_of_cons Hne;
      try (pose proof (Hr _ Hs Hx)); try (pose proof (Hr _ Hs Hy));
      try (pose proof (Ha _ _ Hs Hx Hy Hne)); zone_unfold; lia.
Qed.

Lemma zone_ok_sep m zone base n size free used :
  zone_ok m zone base n size free used ->
  sep (zone_free_elems zone :: free ++ zone_used_elems zone :: used).
Proof.
  intros [[Hs Hn] [] [] Hap _ _ _ _ _ Hp].
  pose proof (slots_sep zone base n size Hs) as Hsep.
  eapply sep_submseteq; [|apply Hsep; done].
  apply Permutation_submseteq. by rewrite <- Hp, <- Permutation_middle.
Qed.

Lemma zone_slots m zone base n size free used e :
  zone_ok m zone base n size free used -> e ∈ free \/ e ∈ used -> e ∈ slots base size n.
Proof. intros Hok He. rewrite <- (zo_slots _ _ _ _ _ _ _ Hok), elem_of_app. done. Qed.

(** A zone survives changes to bytes that are not the allocator's. *)
Lemma zone_ok_frame R m m' zone base n size free used :
  zone_ok m zone base n size free used -> same_outside R m m' ->
  (forall x, zone_own zone base n size x -> ~ R x) -> zone_ok m' zone base n size free used.
Proof.
  intros Hok Hs HR.
  assert (Hz : forall k a, zone <= a -> a + Z.of_nat k <= zone + 72 -> load k m' a = load k m a).
  { intros k a H1 H2. apply (load_same_outside _ _ _ _ _ Hs). intros x Hx. apply HR. left.
    unfold within in *. lia. }
  assert (Hn : forall h l, h = zone_free_elems zone \/ h = zone_used_elems zone ->
            (forall e, e ∈ l -> e ∈ slots base size n) -> dll m h l -> dll m' h l).
  { intros h l Hh Hl. apply (dll_same_outside _ _ _ _ _ Hs).
    intros x (e & [->|He]%elem_of_cons & Hx); apply HR.
    - left. zone_unfold. unfold within in *. lia.
    - right. exists e. split; [by apply Hl|done]. }
  pose proof (fun e He => zone_slots _ _ _ _ _ _ _ e Hok (or_introl He)).
  pose proof (fun e He => zone_slots _ _ _ _ _ _ _ e Hok (or_intror He)).
  destruct Hok as [? ? ? ? He Hc Hcf Hf Hu Hp].
  split; try done; [| | |by apply Hn; auto|by apply Hn; auto];
    rewrite Hz; zone_unfold; done || lia.
Qed.

(** Moving a block between the lists and counting it. *)
Definition counted (zone d : Z) (m : memory) : memory :=
  let m := st32 m (zone_count zone) (s32 (ld32 m (zone_count zone)) + d) in
  st32 m (zone_count_free zone) (s32 (ld32 m (zone_count_free zone)) - d).

Lemma counted_outside zone d m : same_outside (within zone 8) m (counted zone d m).
Proof.
  unfold counted. zone_unfold. do 2 (apply same_outside_store; [unfold within; lia|]). done.
Qed.

Lemma zone_ok_moved m m1 zone base n size free used free' used' d :
  zone_ok m zone base n size free used ->
  same_outside (fun x => (zone_own zone base n size x /\ ~ within zone 40 x) \/
                         exists e, e ∈ slots base size n /\ elem_bytes size e x) m m1 ->
  dll m1 (zone_free_elems zone) free' -> dll m1 (zone_used_elems zone) used' ->
  free' ++ used' ≡ₚ slots base size n ->
  Z.of_nat (length used') = Z.of_nat (length used) + d ->
  Z.of_nat (length free') = Z.of_nat (length free) - d ->
  zone_ok (counted zone d m1) zone base n size free' used'.
Proof.
  intros Hok Hs Hf' Hu' Hp' Hlu Hlf. pose proof Hok as [[Hsz Hn] [] [] Hap He Hc Hcf _ _ Hp].
  assert (Hlen : Z.of_nat (length free') + Z.of_nat (length used') = n).
  { apply Permutation_length in Hp'. rewrite length_app in Hp'. unfold slots in Hp'.
    rewrite length_fmap, length_seqZ in Hp'. lia. }
  assert (Hz : forall k a, zone <= a -> a + Z.of_nat k <= zone + 40 -> load k m1 a = load k m a).
  { intros k a Ha1 Ha2. apply (load_same_outside _ _ _ _ _ Hs). intros x Hx [[_ Hx']|(e & He1 & He2)].
    - unfold within in *. lia.
    - pose proof (slots_range _ _ _ _ Hsz He1). unfold elem_bytes, within in *. zone_unfold. lia. }
  assert (Hd : forall h l, zone + 8 <= h -> h + 16 <= zone + 72 ->
            (forall e, e ∈ l -> e ∈ slots base size n) -> dll m1 h l -> dll (counted zone d m1) h l).
  { intros h l Hh1 Hh2 Hl. apply (dll_same_outside _ _ _ _ _ (counted_outside zone d m1)).
    intros x (e & [->|Hx]%elem_of_cons & Hw); [zone_unfold; unfold within in *; lia|].
    pose proof (slots_range _ _ _ _ Hsz (Hl _ Hx)). zone_unfold. unfold within in *. lia. }
  split; try done.
  - rewrite (load_same_outside _ _ _ _ _ (counted_outside zone d m1)).
    + rewrite Hz; [done|zone_unfold; lia..].
    + zone_unfold. unfold within. lia.
  - unfold counted. zone_unfold. rewrite (load_store_apart 4 4) by (unfold apart; lia).
    rewrite ld32_st32_eq, Hz, Hc by lia. rewrite s32_id by lia. rewrite u32_id; lia.
  - unfold counted. zone_unfold. rewrite ld32_st32_eq.
    rewrite (load_store_apart 4 4) by (unfold apart; lia).
    rewrite Hz, Hcf by lia. rewrite s32_id by lia. rewrite u32_id; lia.
  - apply Hd; [zone_unfold; lia..| |done]. intros e Hin. rewrite <- Hp', elem_of_app. by left.
  - apply Hd; [zone_unfold; lia..| |done]. intros e Hin. rewrite <- Hp', elem_of_app. by right.
Qed.

Lemma node_own m zone base n size free used x :
  zone_ok m zone base n size free used ->
  node_bytes (zone_free_elems zone :: free ++ zone_used_elems zone :: used) x ->
  zone_own zone base n size x /\ ~ within zone 40 x.
Proof.
  intros Hok (e & He & Hx). pose proof (fun e => zone_slots _ _ _ _ _ _ _ e Hok) as Hsl.
  destruct Hok as [[Hsz _] [] [] Hap _ _ _ _ _ _].
  rewrite elem_of_cons, elem_of_app, elem_of_cons in He.
  assert (e = zone_free_elems zone \/ e = zone_used_elems zone \/ e ∈ slots base size n)
    as [->|[->|He']] by naive_solver.
  - zone_unfold. unfold within in *. split; [left; unfold within; lia|lia].
  - zone_unfold. unfold within in *. split; [left; unfold within; lia|lia].
  - pose proof (slots_range _ _ _ _ Hsz He'). split; [right; by exists e|].
    zone_unfold. unfold within in *. lia.
Qed.

(** The bytes of an element belong to no other part of the zone. *)
Lemma elem_bytes_apart m zone base n size free used f :
  zone_ok m zone base n size free used -> f ∈ slots base size n ->
  forall x, elem_bytes size f x -> ~ zone_own zone base n size x /\
    forall e, e ∈ slots base size n -> e <> f -> ~ elem_bytes size e x.
Proof.
  intros [[Hsz _] [] [] Hap _ _ _ _ _ _] Hf x Hx.
  pose proof (slots_range _ _ _ _ Hsz Hf) as Hr. unfold elem_bytes in *. split.
  - intros [Ho|(e & He & Ho)]; unfold within in *; [zone_unfold; lia|].
    destruct (decide (e = f)) as [->|Hne]; [lia|].
    pose proof (slots_apart _ _ _ _ _ Hsz He Hf Hne). lia.
  - intros e He Hne. pose proof (slots_apart _ _ _ _ _ Hsz He Hf Hne). lia.
Qed.

(** ** Allocation and freeing on the abstract zone *)
Section ZoneRuns.
Context `{Symbols} `{Hardware}.

Lemma zalloc_run s zone base n size f free used :
  zone_ok (k_mem s) zone base n size (f :: free) used ->
  exists m, zalloc zone s = Done (f + ZONE_METADATA_SIZEOF) (set_mem m s) /\
    zone_ok m zone base n size free (f :: used) /\
    same_outside (zone_own zone base n size) (k_mem s) m.
Proof.
  intros Hok. pose proof (zone_ok_sep _ _ _ _ _ _ _ Hok) as Hsep.
  pose proof (zone_slots _ _ _ _ _ _ _ f Hok ltac:(left; by left)) as Hf.
  pose proof Hok as [[Hsz Hn] [] [] Hap He Hc Hcf Hdf Hdu Hp].
  pose proof (slots_range _ _ _ _ Hsz Hf) as Hfr.
  set (m1 := list_move (k_mem s) f (zone_used_elems zone)).
  assert (Hs : same_outside (fun x => zone_own zone base n size x /\ ~ within zone 40 x) (k_mem s) m1).
  { eapply same_outside_mono; [|by apply (list_move_footprint _ (zone_free_elems zone) [] f free)].
    intros x. apply (node_own _ _ _ _ _ _ _ _ Hok). }
  destruct (dll_move (k_mem s) (zone_free_elems zone) [] f free (zone_used_elems zone) used Hdf Hdu Hsep)
    as [Hdf' Hdu']. fold m1 in Hdf', Hdu'.
  exists (counted zone 1 m1). split; [|split].
  - unfold zalloc, add_int. cbv beta iota delta [bind get_mem upd_mem ret]. cbn [k_mem set_mem].
    unfold list_first_entry, list_entry, container_of, meta_alloc.
    rewrite (dll_head_next _ _ _ Hdf). simpl hd. rewrite Z.sub_0_r, Z.add_0_r.
    rewrite u64_id by (zone_unfold; lia). unfold m1, counted, meta_alloc.
    change (?a - 1) with (a + -1). reflexivity.
  - eapply (zone_ok_moved (k_mem s)); [exact Hok| |exact Hdf'|exact Hdu'| | |].
    + eapply same_outside_mono; [|exact Hs]. by left.
    + rewrite <- Hp. simpl. by rewrite Permutation_middle.
    + simpl. lia.
    + simpl. lia.
  - eapply same_outside_trans.
    + eapply same_outside_mono; [|exact Hs]. tauto.
    + eapply same_outside_mono; [|apply counted_outside]. unfold within. left. unfold within. lia.
Qed.

(** What [zfree] does with the element it finds. *)
Definition zfree_found (zone addr f : Z) : M unit :=
  let! elem_size := ld 8 (zone_elem_size zone) in
  upd_mem (fun m => memset m addr 0 (Z.to_nat elem_size)) ;!
  upd_mem (fun m => list_move m (f + meta_alloc) (zone_free_elems zone)) ;!
  add_int (zone_count zone) (-1) ;!
  add_int (zone_count_free zone) 1.

(** Freeing an element of the used list. *)
Lemma zfree_hit s zone base n size f l1 free l2 :
  zone_ok (k_mem s) zone base n size free (l1 ++ f :: l2) ->
  exists m, zfree_found zone (f + ZONE_METADATA_SIZEOF) f s = Done tt (set_mem m s) /\
    zone_ok m zone base n size (f :: free) (l1 ++ l2) /\
    (forall x, elem_bytes size f x -> rd m x = 0) /\
    same_outside (fun x => zone_own zone base n size x \/ elem_bytes size f x) (k_mem s) m.
Proof.
  intros Hok.
  pose proof (zone_slots _ _ _ _ _ _ _ f Hok ltac:(right; apply elem_of_app; right; by left)) as Hf.
  pose proof Hok as [[Hsz Hn] [] [] Hap He Hc Hcf Hdf Hdu Hp].
  pose proof (slots_range _ _ _ _ Hsz Hf) as Hfr.
  set (m0 := memset (k_mem s) (f + ZONE_METADATA_SIZEOF) 0 (Z.to_nat size)).
  assert (Hs0 : same_outside (elem_bytes size f) (k_mem s) m0).
  { eapply same_outside_mono; [|apply memset_same_outside]. intros x. unfold within, elem_bytes.
    zone_unfold. lia. }
  assert (Hdis : forall x, zone_own zone base n size x -> ~ elem_bytes size f x).
  { intros x Ho Hx. by apply (elem_bytes_apart _ _ _ _ _ _ _ _ Hok Hf) in Hx as [? _]. }
  assert (Hok0 : zone_ok m0 zone base n size free (l1 ++ f :: l2)) by by eapply zone_ok_frame.
  pose proof (zone_ok_sep _ _ _ _ _ _ _ Hok0) as Hsep.
  assert (Hsep' : sep (zone_used_elems zone :: (l1 ++ f :: l2) ++ zone_free_elems zone :: free)).
  { eapply sep_submseteq; [|exact Hsep]. apply Permutation_submseteq.
    rewrite !Permutation_middle, <- !Permutation_middle. rewrite (Permutation_app_comm free). apply perm_swap. }
  pose proof Hok0 as [_ _ _ _ _ _ _ Hdf0 Hdu0 _].
  set (m1 := list_move m0 f (zone_free_elems zone)).
  assert (Hs1 : same_outside (fun x => zone_own zone base n size x /\ ~ within zone 40 x) m0 m1).
  { eapply same_outside_mono; [|by apply (list_move_footprint _ (zone_used_elems zone) l1 f l2)].
    intros x Hx. apply (node_own _ _ _ _ _ _ _ _ Hok0). revert Hx. apply node_bytes_mono.
    intros e. rewrite !elem_of_cons, !elem_of_app, !elem_of_cons, ?elem_of_app, ?elem_of_cons. tauto. }
  destruct (dll_move m0 (zone_used_elems zone) l1 f l2 (zone_free_elems zone) free Hdu0 Hdf0 Hsep')
    as [Hdu' Hdf']. fold m1 in Hdf', Hdu'.
  assert (Hs01 : same_outside (fun x => (zone_own zone base n size x /\ ~ within zone 40 x) \/
                    exists e, e ∈ slots base size n /\ elem_bytes size e x) (k_mem s) m1).
  { eapply same_outside_trans; eapply same_outside_mono; [|exact Hs0| |exact Hs1].
    - intros x Hx. right. by exists f.
    - intros x Hx. by left. }
  exists (counted zone (-1) m1). split; [|split; [|split]].
  - unfold zfree_found. cbv beta iota delta [bind ld]. rewrite He. unfold add_int. cbv beta iota delta [bind upd_mem].
    cbn [k_mem set_mem]. unfold meta_alloc. rewrite Z.add_0_r.
    unfold m1, m0, counted. change (?a - -1) with (a + 1). reflexivity.
  - eapply (zone_ok_moved (k_mem s)); [exact Hok|exact Hs01|exact Hdf'|exact Hdu'| | |].
    + rewrite <- Hp. simpl. by rewrite !Permutation_middle.
    + rewrite !length_app. simpl. lia.
    + simpl. lia.
  - intros x Hx. rewrite <- counted_outside, <- Hs1.
    + unfold m0. rewrite rd_memset_zero, decide_True; [done|]. unfold within, elem_bytes in *.
      zone_unfold. lia.
    + intros [Ho _]. by apply (Hdis x).
    + intros Ho. apply (Hdis x); [|done]. left. unfold within in *. lia.
  - eapply same_outside_trans; [eapply same_outside_mono; [|exact Hs0]; by right|].
    eapply same_outside_trans; [eapply same_outside_mono; [|exact Hs1]|].
    { intros x [? _]. by left. }
    eapply same_outside_mono; [|apply counted_outside]. intros x Hx. left. left.
    unfold within in *. lia.
Qed.

(** The loop from a position of the used list: it finds the block if it is among
    the rest, and panics at the last one otherwise. *)
Lemma zfree_loop_run fuel s zone addr f l1 rest :
  dll (k_mem s) (zone_used_elems zone) (l1 ++ rest) -> (length rest <= fuel)%nat ->
  zfree_loop fuel zone addr f (hd (zone_used_elems zone) rest) s =
    if decide (f ∈ rest) then zfree_found zone addr f s
    else if decide (rest = []) then Done tt s else Halted s.
Proof.
  revert l1 fuel. induction rest as [|a rest IH]; intros l1 fuel Hd Hf; simpl hd.
  - rewrite decide_False by set_solver.
    destruct fuel; cbn [zfree_loop]; unfold meta_alloc; by rewrite Z.add_0_r, Z.eqb_refl.
  - destruct fuel as [|fuel]; [simpl in Hf; lia|]. cbn [zfree_loop].
    pose proof (dll_sep _ _ _ Hd) as (Hnd & _). apply NoDup_cons in Hnd as [Hh _].
    unfold meta_alloc at 1. rewrite Z.add_0_r.
    destruct (Z.eqb_spec a (zone_used_elems zone)) as [->|_]; [set_solver|].
    destruct (Z.eqb_spec a f) as [->|Hne].
    { rewrite decide_True by (by left). done. }
    cbv beta iota delta [bind get_mem]. rewrite (list_is_last_dll _ _ _ _ _ Hd).
    destruct (dll_node _ _ _ _ _ Hd) as [Hn _].
    rewrite (decide_ext (f ∈ a :: rest) (f ∈ rest)) by set_solver.
    rewrite (decide_False (P := a :: rest = [])) by done.
    case_bool_decide as Hr.
    + subst. by rewrite decide_False by set_solver.
    + unfold list_entry, container_of, meta_alloc. rewrite Z.add_0_r, Z.sub_0_r, Hn.
      rewrite (IH (l1 ++ [a])) by (rewrite <- ?app_assoc; simpl in *; done || lia).
      by rewrite (decide_False (P := rest = [])).
Qed.

Lemma zfree_run fuel s zone addr used :
  dll (k_mem s) (zone_used_elems zone) used -> (length used <= fuel)%nat ->
  zfree fuel zone addr s =
    let f := u64 (addr - ZONE_METADATA_SIZEOF) in
    if decide (f ∈ used) then zfree_found zone addr f s
    else if decide (used = []) then Done tt s else Halted s.
Proof.
  intros Hd Hf. unfold zfree. unfold bind at 1. cbv beta iota delta [get_mem].
  unfold list_first_entry, list_entry, container_of, meta_alloc at 1.
  rewrite (dll_head_next _ _ _ Hd), Z.sub_0_r. by apply (zfree_loop_run _ _ _ _ _ []).
Qed.
End ZoneRuns.

(** ** Creating a zone *)

(** The number of pages [zone_create] asks for. *)
Definition zone_pages (size max : Z) : Z :=
  let p := (max / size * size + max * ZONE_METADATA_SIZEOF) / VM_PAGE_SIZE in
  if p =? 0 then 1 else p.

(** They hold all blocks when the element size is at least 3. *)
Lemma zone_pages_fit size max :
  3 <= size -> 0 < max -> (size + ZONE_METADATA_SIZEOF) * (max / size) <= zone_pages size max * VM_PAGE_SIZE.
Proof.
  intros Hs Hm. unfold zone_pages, ZONE_METADATA_SIZEOF. change VM_PAGE_SIZE with 4096.
  pose proof (Z.mul_div_le max size ltac:(lia)) as H1.
  assert (0 <= max / size) by (apply Z.div_pos; lia).
  set (n := max / size) in *. set (t := n * size + max * 16).
  assert (Hhalf : 2 * ((size + 16) * n) <= t) by (unfold t; nia).
  destruct (Z.eqb_spec (t / 4096) 0) as [E|E].
  - assert (t < 4096) by (Z.to_euclidean_division_equations; lia). lia.
  - Z.to_euclidean_division_equations. lia.
Qed.

Section Create.
Context `{Symbols} `{Hardware}.

Lemma zone_find_spec m i n :
  0 <= i < Z.of_nat n -> zone_state m (zone_at i) = ZONE_STATE_UNUSED ->
  forall j, 0 <= j <= i -> (forall l, j <= l < i -> zone_state m (zone_at l) <> ZONE_STATE_UNUSED) ->
  forall f, i - j < Z.of_nat f -> zone_find f m j = (zone_at i, i).
Proof.
  intros Hi Hu j Hj Ho f. revert j Hj Ho. induction f as [|f IH]; intros j Hj Ho Hf; [lia|].
  cbn [zone_find]. destruct (decide (j = i)) as [->|Hne].
  - by rewrite Hu.
  - destruct (Z.eqb_spec (zone_state m (zone_at j)) ZONE_STATE_UNUSED) as [E|_].
    + exfalso. by apply (Ho j); [lia|].
    + apply IH; [lia| |lia]. intros l Hl. apply Ho. lia.
Qed.

(** The descriptor before the pages are there: an empty zone. *)
Lemma zone_setup_run s zone zidx size max name :
  0 < size -> 0 < max -> 17 * max < 2 ^ 31 -> size < 2 ^ 32 -> 0 <= zone -> zone + ZONE_SIZEOF <= 2 ^ 64 ->
  exists m, zone_setup zone zidx size max name s = Done tt (set_mem m s) /\
    ld64 m (zone_elem_size zone) = size /\ ld32 m (zone_count zone) = 0 /\
    ld32 m (zone_count_free zone) = max / size /\
    ld32 m (zone_page_count zone) = zone_pages size max /\
    ld64 m (zone_max_size zone) = max / size * size /\
    dll m (zone_free_elems zone) [] /\ dll m (zone_used_elems zone) [] /\
    same_outside (within zone 88) (k_mem s) m.
Proof.
  intros Hs Hm Hmax Hs2 Hz Hz2.
  assert (Hn : 0 <= max / size <= max) by (Z.to_euclidean_division_equations; nia).
  assert (Hns : 0 <= max / size * size <= max) by (Z.to_euclidean_division_equations; nia).
  assert (Hp : 0 < zone_pages size max < 2 ^ 31).
  { unfold zone_pages, ZONE_METADATA_SIZEOF. change VM_PAGE_SIZE with 4096. set (t := _ + _).
    assert (0 <= t < 2 ^ 31) by (unfold t; lia).
    destruct (Z.eqb_spec (t / 4096) 0); [lia|]. Z.to_euclidean_division_equations. lia. }
  unfold zone_setup.
  rewrite (s32_id (max / size)) by lia. rewrite (u64_id (max / size * size)) by lia.
  rewrite (u64_id (max * _)) by (unfold ZONE_METADATA_SIZEOF; lia).
  rewrite (u64_id (_ + max * _)) by (unfold ZONE_METADATA_SIZEOF; lia).
  rewrite s32_id.
  2:{ unfold ZONE_METADATA_SIZEOF. change VM_PAGE_SIZE with 4096. Z.to_euclidean_division_equations. lia. }
  fold (zone_pages size max).
  cbv beta iota zeta delta [bind st upd_mem]. cbn [k_mem set_mem].
  eexists. split; [reflexivity|]. cbn [k_mem set_mem].
  unfold INIT_LIST_HEAD, set_list_next, set_list_prev. zone_unfold.
  split_and!.
  - mem_simpl. apply u64_id. lia.
  - mem_simpl. done.
  - mem_simpl. apply u32_id. lia.
  - mem_simpl. apply u32_id. lia.
  - mem_simpl. apply u64_id. lia.
  - eapply (dll_same_outside (within (zone + 56) 32)).
    + do 4 (apply same_outside_store; [unfold within; lia|]). apply same_outside_refl.
    + intros x (a & ->%list_elem_of_singleton & ?). unfold within, LIST_HEAD_SIZE in *. lia.
    + apply dll_init. lia.
  - eapply (dll_same_outside (within (zone + 72) 16)).
    + do 2 (apply same_outside_store; [unfold within; lia|]). apply same_outside_refl.
    + intros x (a & ->%list_elem_of_singleton & ?). unfold within, LIST_HEAD_SIZE in *. lia.
    + apply dll_init. lia.
  - repeat (apply same_outside_store; [unfold within; lia|]). done.
Qed.

Lemma slots_snoc base size i :
  0 <= i -> slots base size (i + 1) = slots base size i ++ [base + (size + ZONE_METADATA_SIZEOF) * i].
Proof. intros Hi. unfold slots. rewrite seqZ_app, fmap_app by lia. simpl. do 3 f_equal. Qed.

Lemma slots_submseteq base size i n : 0 <= i <= n -> slots base size i ⊆+ slots base size n.
Proof.
  intros Hi. unfold slots. replace n with (i + (n - i)) by lia.
  rewrite seqZ_app, fmap_app by lia. by apply submseteq_inserts_r.
Qed.

(** The blocks go on the free list in order. *)
Lemma zone_fill_run fuel s zone base n size :
  0 < size < 2 ^ 63 -> 0 <= n < 2 ^ 31 -> n <= Z.of_nat fuel -> 0 <= zone -> zone + ZONE_SIZEOF <= 2 ^ 64 ->
  0 <= base -> base + (size + ZONE_METADATA_SIZEOF) * n < 2 ^ 64 ->
  (zone + ZONE_SIZEOF <= base \/ base + (size + ZONE_METADATA_SIZEOF) * n <= zone) ->
  ld64 (k_mem s) (zone_elem_size zone) = size -> ld32 (k_mem s) (zone_count_free zone) = n ->
  ld32 (k_mem s) (zone_count zone) = 0 -> dll (k_mem s) (zone_free_elems zone) [] ->
  dll (k_mem s) (zone_used_elems zone) [] ->
  exists m, zone_fill fuel zone base s = Done tt (set_mem m s) /\
    zone_ok m zone base n size (slots base size n) [] /\
    same_outside (fun x => zone_own zone base n size x /\ ~ within zone 40 x) (k_mem s) m.
Proof.
  intros Hs Hn Hfuel Hz Hz2 Hb Hb2 Hap Esz Ecf Ec Hdf Hdu.
  pose proof (slots_sep zone base n size (proj1 Hs) Hz Hz2 Hb Hb2 Hap) as Hsep.
  set (R x := node_bytes (zone_free_elems zone :: slots base size n) x).
  assert (HR : forall x, R x -> zone_own zone base n size x /\ ~ within zone 96 x \/ within (zone + 40) 16 x).
  { intros x (e & [->|He]%elem_of_cons & Hx); [right; zone_unfold; done|left].
    split; [right; by exists e|]. pose proof (slots_range _ _ _ _ (proj1 Hs) He). zone_unfold. unfold within in *. lia. }
  unfold zone_fill. rewrite (bind_done _ _ s size s) by (unfold ld; by rewrite Esz).
  rewrite (u64_id (size + _)) by (unfold ZONE_METADATA_SIZEOF in *; lia).
  cbv zeta. unfold bind at 1.
  use_loop (fun (i : Z) t => 0 <= i <= n /\ exists m, t = set_mem m s /\
      same_outside R (k_mem s) m /\ dll m (zone_free_elems zone) (slots base size i))
    (fun (i : Z) (_ : kstate) => Z.to_nat (n - i)) HL.
  destruct HL as (i & t & E & (Hi & m & -> & Hm & Hdm) & Hend).
  - split; [lia|]. exists (k_mem s). rewrite set_mem_id. done.
  - intros i t (Hi & m & -> & Hm & Hdm).
    assert (Hcf : ld32 m (zone_count_free zone) = n).
    { rewrite <- Ecf. apply (load_same_outside _ 4 _ _ _ Hm). intros x Hx Hr.
      apply HR in Hr. zone_unfold. unfold within in *. lia. }
    exists (i <? n). unfold bind at 1. cbv beta iota delta [ld ret]. cbn [k_mem set_mem].
    rewrite Hcf, s32_id by lia. split; [done|]. intros Hlt.
    assert (Hslot : base + (size + ZONE_METADATA_SIZEOF) * i ∈ slots base size n)
      by (apply elem_of_slots; exists i; split; [lia|done]).
    pose proof (slots_range _ _ _ _ (proj1 Hs) Hslot) as Hr.
    unfold bind. cbv beta iota delta [upd_mem ret]. cbn [k_mem set_mem].
    rewrite (u64_id (i * _)) by (unfold ZONE_METADATA_SIZEOF in *; lia).
    rewrite (Z.mul_comm i), u64_id by (unfold ZONE_METADATA_SIZEOF in *; lia).
    unfold meta_alloc. rewrite Z.add_0_r. set (e := base + _) in *.
    assert (Hsub : forall x, x ∈ slots base size i -> x ∈ slots base size n).
    { intros x (j & ? & ->)%elem_of_slots. apply elem_of_slots. exists j. split; [lia|done]. }
    eexists _, _. split; [reflexivity|]. split; [split; [lia|]|lia].
    eexists. split; [reflexivity|]. split.
    + eapply same_outside_trans; [exact Hm|].
      eapply same_outside_mono; [|by apply list_add_tail_footprint].
      intros x. apply node_bytes_mono. intros y. rewrite !elem_of_cons. naive_solver.
    + rewrite slots_snoc by lia. apply dll_add_tail; [done|].
      eapply sep_submseteq; [|exact Hsep].
      etransitivity; [apply Permutation_submseteq, perm_swap|]. apply submseteq_skip, submseteq_cons.
      etransitivity; [apply Permutation_submseteq, Permutation_cons_append|].
      rewrite <- slots_snoc by lia. apply slots_submseteq. lia.
  - rewrite Z.sub_0_r. lia.
  - rewrite E. cbv beta iota delta [ret]. exists m. split; [done|].
    assert (Hout : forall k a, zone <= a -> a + Z.of_nat k <= zone + 40 \/ zone + 56 <= a ->
              a + Z.of_nat k <= zone + 72 -> load k m a = load k (k_mem s) a).
    { intros k a Ha1 Ha2 Ha3. apply (load_same_outside _ k _ _ _ Hm). intros x Hx Hr.
      apply HR in Hr as [[_ Hr]|Hr]; zone_unfold; unfold within in *; lia. }
    unfold bind in Hend. cbv beta iota delta [ld ret] in Hend. cbn [k_mem set_mem] in Hend.
    rewrite Hout, Ecf, s32_id in Hend by (zone_unfold; lia). injection Hend as Hend.
    assert (i = n) as -> by lia. split.
    + split; [lia|done|done|done| | | |done| |].
      * by rewrite Hout by (zone_unfold; lia).
      * by rewrite Hout by (zone_unfold; lia).
      * rewrite Hout by (zone_unfold; lia). rewrite Ecf. unfold slots. rewrite length_fmap, length_seqZ. lia.
      * apply (dll_same_outside _ _ _ _ _ Hm); [|done].
        intros x (e & ->%list_elem_of_singleton & Hx) Hr. apply HR in Hr.
        zone_unfold. unfold within in *. lia.
      * by rewrite app_nil_r.
    + eapply same_outside_mono; [|exact Hm]. intros x [[? ?]|?]%HR.
      * split; [done|]. unfold within in *. lia.
      * split; [left|]; zone_unfold; unfold within in *; lia.
Qed.

Context `{!Heap kernel_vm_map}.

(** What a caller of [zone_create] provides: room for the descriptor, and pages. *)
Record zone_room (s : kstate) (i v k : Z) : Prop := {
  zr_index : 0 <= i < MAX_NUM_ZONES;
  zr_addr : 0 < zone_at i /\ zone_at i + ZONE_SIZEOF <= 2 ^ 64;
  zr_heap : heap_ok s v k;
  zr_apart : forall x, within (zone_at i) 96 x -> ~ heap_own x /\ ~ v <= x < v + VM_PAGE_SIZE * k;
}.

Lemma zone_pages_range size max :
  0 < size -> 0 < max -> 17 * max < 2 ^ 31 -> 0 < zone_pages size max /\ zone_pages size max * VM_PAGE_SIZE < 2 ^ 31.
Proof.
  intros Hs Hm Hmax. unfold zone_pages, ZONE_METADATA_SIZEOF. change VM_PAGE_SIZE with 4096.
  pose proof (Z.mul_div_le max size Hs). pose proof (Z.div_pos max size ltac:(lia) Hs).
  assert (0 <= max / size * size <= max) by nia.
  set (t := _ + _). assert (0 <= t < 2 ^ 31) by (unfold t; lia).
  destruct (Z.eqb_spec (t / 4096) 0); [lia|]. Z.to_euclidean_division_equations. lia.
Qed.

(** The state set, and the zone counted: neither touches what [zone_ok] reads. *)
Lemma set_zone_state_outside zone v m : same_outside (within (zone + 88) 4) m (set_zone_state zone v m).
Proof. unfold set_zone_state. zone_unfold. by apply same_outside_store. Qed.

Lemma zone_create_run s i size max name v k :
  zone_room s i v k -> zone_find (Z.to_nat MAX_NUM_ZONES) (k_mem s) 0 = (zone_at i, i) ->
  3 <= size < 2 ^ 32 -> 0 < max -> 17 * max < 2 ^ 31 -> zone_pages size max <= k ->
  let n := max / size in let p := zone_pages size max in
  exists s', zone_create size max name s = Done (zone_at i) s' /\
    zone_ok (k_mem s') (zone_at i) v n size (slots v size n) [] /\
    zone_state (k_mem s') (zone_at i) = ZONE_STATE_USED /\
    heap_ok s' (v + VM_PAGE_SIZE * p) (k - p) /\
    same_outside (fun x => within (zone_at i) 96 x \/ heap_own x \/ v <= x < v + VM_PAGE_SIZE * p)
      (k_mem s) (k_mem s').
Proof.
  intros [Hi (Hz & Hz2) Hh Hap] Hfind Hs Hm Hmax Hk n p. set (zone := zone_at i) in *.
  pose proof (zone_pages_range size max ltac:(lia) Hm Hmax) as Hp. fold p in Hp, Hk.
  pose proof (zone_pages_fit size max ltac:(lia) Hm) as Hfit. fold n p in Hfit.
  pose proof (heap_room _ _ _ Hh) as (Hv & Hvmax & Hvown).
  assert (Hps : VM_PAGE_SIZE = 4096) by done. rewrite Hps in *.
  assert (Hn : 0 <= n <= max) by (unfold n; Z.to_euclidean_division_equations; nia).
  unfold zone_create. unfold bind at 1. cbv beta iota delta [get_mem]. rewrite Hfind.
  destruct (Z.eqb_spec zone ZONE_NULL) as [E0|_]; [unfold ZONE_NULL in E0; lia|].
  destruct (Z.eqb_spec size 0); [lia|]. destruct (Z.eqb_spec max 0); [lia|].
  destruct (zone_setup_run s zone i size max name) as (m1 & E1 & Ee & Ec & Ecf & Ep & _ & Hdf & Hdu & F1);
    try lia.
  rewrite (bind_done _ _ _ _ _ E1).
  rewrite (bind_done _ _ _ p (set_mem m1 s)) by (unfold ld; cbn [k_mem set_mem]; by rewrite Ep).
  rewrite Hps, (s32_id p), s32_id, u64_id by lia.
  assert (Hh1 : heap_ok (set_mem m1 s) v k).
  { eapply heap_frame; [exact Hh|exact F1| |done]. intros x Hx. apply Hap. unfold within in *. lia. }
  assert (Hp1 : alloc_pages p VM_NULL = p) by (unfold alloc_pages, has; simpl; lia).
  destruct (heap_alloc _ v k p VM_NULL Hh1) as (s2 & E2 & Hh2 & Hg2 & F2); [lia|lia|].
  rewrite Hp1 in Hh2, F2. change (alloc_base v VM_NULL) with v in E2.
  rewrite Hps in E2, Hh2, F2. unfold vm_get_kernel_map. rewrite (bind_done _ _ _ _ _ E2).
  assert (Hz2' : forall a c, zone <= a -> a + Z.of_nat c <= zone + 96 -> load c (k_mem s2) a = load c m1 a).
  { intros a c Ha1 Ha2. apply (load_same_outside _ _ _ _ _ F2). intros x Hx.
    destruct (Hap x); unfold within in *; [lia|]. intros [?|?]; [done|lia]. }
  assert (Hap' : zone + 96 <= v \/ v + 4096 * k <= zone).
  { pose proof (Hap zone). pose proof (Hap v). unfold within in *. lia. }
  assert (Hap2 : zone + ZONE_SIZEOF <= v \/ v + (size + ZONE_METADATA_SIZEOF) * n <= zone)
    by (unfold ZONE_SIZEOF; lia).
  assert (Hfree : forall h, h = zone_free_elems zone \/ h = zone_used_elems zone ->
            dll m1 h [] -> dll (k_mem s2) h []).
  { intros h Hh' Hd. apply (dll_same_outside _ _ _ _ _ F2); [|done].
    intros x (e & ->%list_elem_of_singleton & Hx). destruct (Hap x); [zone_unfold; unfold within in *; lia|].
    intros [?|?]; [done|lia]. }
  destruct (zone_fill_run (Z.to_nat n) s2 zone v n size) as (m3 & E3 & Hok3 & F3); try done; try lia.
  { by rewrite Hz2' by (zone_unfold; lia). }
  { by rewrite Hz2' by (zone_unfold; lia). }
  { by rewrite Hz2' by (zone_unfold; lia). }
  { by apply Hfree; [left|]. }
  { by apply Hfree; [right|]. }
  rewrite (bind_done _ _ _ _ _ E3). do 3 (unfold bind at 1; cbv beta iota delta [get put upd_mem ret]).
  eexists. split; [reflexivity|]. cbn [k_mem set_mem set_glob].
  pose proof (set_zone_state_outside zone ZONE_STATE_USED m3) as F4.
  assert (Hsl : forall e, e ∈ slots v size n -> v <= e /\ e + 16 <= v + 4096 * p).
  { intros e He. pose proof (slots_range v size n e ltac:(lia) He). lia. }
  assert (F : same_outside (fun x => within zone 96 x \/ heap_own x \/ v <= x < v + 4096 * p) (k_mem s)
                (set_zone_state zone ZONE_STATE_USED m3)).
  { eapply same_outside_trans; [eapply same_outside_mono; [|exact F1]|].
    { intros x Hx. left. unfold within in *. lia. }
    eapply same_outside_trans; [eapply same_outside_mono; [|exact F2]; tauto|].
    eapply same_outside_trans; [eapply same_outside_mono; [|exact F3]|eapply same_outside_mono; [|exact F4]].
    - intros x [[Hx|(e & He & Hx)] _]; [left|right; right; pose proof (Hsl e He)]; unfold within in *; lia.
    - intros x Hx. left. unfold within in *. lia. }
  split; [|split; [|split; [|exact F]]].
  - eapply zone_ok_frame; [exact Hok3|exact F4|]. intros x [Hx|(e & He & Hx)];
      [|pose proof (Hsl e He)]; unfold within in *; lia.
  - unfold zone_state, set_zone_state. rewrite ld32_flags by lia. apply get_set_bits; unfold ZONE_STATE_USED; lia.
  - eapply (heap_frame (fun x => within zone 96 x \/ v <= x < v + 4096 * p)); [exact Hh2| | |].
    + eapply same_outside_trans; [eapply same_outside_mono; [|exact F3]|eapply same_outside_mono; [|exact F4]].
      * intros x [[Hx|(e & He & Hx)] _]; [left|right; pose proof (Hsl e He)]; unfold within in *; lia.
      * intros x Hx. left. unfold within in *. lia.
    + intros x [Hx|Hx]; [by apply Hap|apply Hvown; lia].
    + intros g Hg. simpl. by rewrite decide_False by (intros ->; done).
Qed.
End Create.

(** ** Properties *)
Section Properties.
Context `{Symbols} `{Hardware}.

(** [zone_init] empties the array: every descriptor is unused, no zone is
    counted, and nothing outside the array changes. *)
Theorem zone_init_correct s :
  exists s', zone_init s = Done KERN_RETURN_SUCCESS s' /\
    k_glob s' num_zones_used = 0 /\
    (forall i, 0 <= i < MAX_NUM_ZONES -> zone_state (k_mem s') (zone_at i) = ZONE_STATE_UNUSED) /\
    same_outside (fun x => zone_at 0 <= x < zone_at MAX_NUM_ZONES) (k_mem s) (k_mem s').
Proof.
  unfold zone_init. unfold bind at 1. cbv beta iota delta [put].
  set (s0 := set_glob num_zones_used 0 s). unfold bind at 1.
  use_for (fun i t => k_glob t num_zones_used = 0 /\
    (forall j, 0 <= j < i -> zone_state (k_mem t) (zone_at j) = ZONE_STATE_UNUSED) /\
    same_outside (fun x => zone_at 0 <= x < zone_at MAX_NUM_ZONES) (k_mem s) (k_mem t)) HL.
  destruct HL as (s' & E & Hn & Hst & Hs).
  - split; [reflexivity|]. split; [lia|done].
  - intros i t Hi (Hn & Hst & Hs). change (0 + Z.of_nat (Z.to_nat MAX_NUM_ZONES)) with 12 in Hi.
    cbv beta iota zeta delta [bind upd_mem]. eexists. split; [reflexivity|]. cbn [k_mem set_mem].
    set (m1 := memset (k_mem t) (zone_at i) 0 (Z.to_nat ZONE_SIZEOF)).
    assert (Hm : same_outside (within (zone_at i) 96) (k_mem t) (set_zone_state (zone_at i) ZONE_STATE_UNUSED m1)).
    { eapply same_outside_trans; [apply (memset_same_outside _ _ 0 96)|].
      eapply same_outside_mono; [|apply set_zone_state_outside]. unfold within. lia. }
    split; [done|]. split.
    + intros j Hj. destruct (decide (j = i)) as [->|Hne].
      * unfold zone_state, set_zone_state. rewrite ld32_flags by lia.
        apply get_set_bits; unfold ZONE_STATE_UNUSED; lia.
      * etransitivity; [|apply (Hst j); lia]. unfold zone_state.
        rewrite (load_same_outside _ 4 _ _ _ Hm); [done|]. unfold zone_at, zone_flags, within, ZONE_SIZEOF. lia.
    + eapply same_outside_trans; [exact Hs|]. eapply same_outside_mono; [|exact Hm].
      unfold zone_at, within, ZONE_SIZEOF, MAX_NUM_ZONES. lia.
  - rewrite E. exists s'. split_and!; try done.
Qed.

(** (C34) [zone_create] takes the first unused descriptor and makes of it a zone of
    [max / size] free elements, in order, on freshly allocated pages that hold all
    of them (element sizes of at least 3); only the descriptor, these pages and
    the memory system's own data change. *)
Theorem zone_create_correct `{!Heap kernel_vm_map} s i size max name v k :
  zone_room s i v k -> zone_state (k_mem s) (zone_at i) = ZONE_STATE_UNUSED ->
  (forall j, 0 <= j < i -> zone_state (k_mem s) (zone_at j) <> ZONE_STATE_UNUSED) ->
  3 <= size < 2 ^ 32 -> 0 < max -> 17 * max < 2 ^ 31 -> zone_pages size max <= k ->
  let n := max / size in let p := zone_pages size max in
  exists s', zone_create size max name s = Done (zone_at i) s' /\
    zone_ok (k_mem s') (zone_at i) v n size (slots v size n) [] /\
    (forall e, e ∈ slots v size n -> v <= e /\ e + ZONE_METADATA_SIZEOF + size <= v + VM_PAGE_SIZE * p) /\
    zone_state (k_mem s') (zone_at i) = ZONE_STATE_USED /\
    heap_ok s' (v + VM_PAGE_SIZE * p) (k - p) /\
    same_outside (fun x => within (zone_at i) 96 x \/ heap_own x \/ v <= x < v + VM_PAGE_SIZE * p)
      (k_mem s) (k_mem s').
Proof.
  intros Hr Hu Ho Hs Hm Hmax Hk n p. pose proof (zr_index _ _ _ _ Hr).
  destruct (zone_create_run s i size max name v k Hr) as (s' & E & R1 & R2 & R3 & R4); try done.
  { apply (zone_find_spec _ _ 12); [done|done|lia| |change (Z.of_nat (Z.to_nat MAX_NUM_ZONES)) with 12;
      unfold MAX_NUM_ZONES in *; lia]. intros l Hl. by apply Ho. }
  exists s'. split_and!; try done. intros e He. pose proof (slots_range v size n e ltac:(lia) He).
  split; [lia|].
  pose proof (zone_pages_fit size max ltac:(lia) Hm) as Hfit. fold n p in Hfit.
  unfold ZONE_METADATA_SIZEOF in *. lia.
Qed.

(** With elements of one byte the pages asked for are too few: whenever the
    17 bytes per block do not fill whole pages, the last blocks of the free list
    lie beyond the end of the zone's pages. *)
Theorem zone_setup_short s zone zidx max name :
  4096 < 17 * max < 2 ^ 31 -> 17 * max mod VM_PAGE_SIZE <> 0 ->
  0 <= zone -> zone + ZONE_SIZEOF <= 2 ^ 64 ->
  exists s', zone_setup zone zidx 1 max name s = Done tt s' /\
    VM_PAGE_SIZE * ld32 (k_mem s') (zone_page_count zone) <
    (ld64 (k_mem s') (zone_elem_size zone) + ZONE_METADATA_SIZEOF) *
      ld32 (k_mem s') (zone_count_free zone).
Proof.
  intros Hm Hmod Hz Hz2.
  destruct (zone_setup_run s zone zidx 1 max name) as (m & E & Ee & _ & Ecf & Ep & _); try lia.
  exists (set_mem m s). split; [exact E|]. cbn [k_mem set_mem]. rewrite Ee, Ecf, Ep.
  unfold zone_pages, ZONE_METADATA_SIZEOF. rewrite Z.div_1_r. change VM_PAGE_SIZE with 4096 in *.
  destruct (Z.eqb_spec ((max * 1 + max * 16) / 4096) 0); Z.to_euclidean_division_equations; lia.
Qed.


(** (C36) [zfree] of the address of a used element zeroes the element, moves it to
    the front of the free list and leaves every other element alone; an address
    that is no used element's panics, unless no element is in use, when the call
    does nothing. *)
Theorem zfree_correct fuel s zone base n size addr free used :
  zone_ok (k_mem s) zone base n size free used -> (length used <= fuel)%nat -> is_u64 addr ->
  let f := u64 (addr - ZONE_METADATA_SIZEOF) in
  (forall l1 l2, used = l1 ++ f :: l2 -> exists s', zfree fuel zone addr s = Done tt s' /\
     zone_ok (k_mem s') zone base n size (f :: free) (l1 ++ l2) /\
     (forall x, elem_bytes size f x -> rd (k_mem s') x = 0) /\
     (forall e x, e ∈ slots base size n -> e <> f -> elem_bytes size e x ->
        rd (k_mem s') x = rd (k_mem s) x)) /\
  (f ∉ used -> used <> [] -> zfree fuel zone addr s = Halted s) /\
  (used = [] -> zfree fuel zone addr s = Done tt s).
Proof.
  intros Hok Hfuel Haddr f.
  pose proof (zfree_run fuel s zone addr used (zo_used _ _ _ _ _ _ _ Hok) Hfuel) as E.
  cbv zeta in E. fold f in E. split; [|split].
  - intros l1 l2 ->. rewrite decide_True in E by set_solver.
    assert (Hf : f ∈ slots base size n) by (eapply zone_slots; [exact Hok|right; set_solver]).
    destruct (zfree_hit s zone base n size f l1 free l2 Hok) as (m & E' & Hok' & Hz & Hs).
    assert (Ha : addr = f + ZONE_METADATA_SIZEOF).
    { destruct Hok as [[Hsz _] _ [Hb Hb2] _ _ _ _ _ _ _]. pose proof (slots_range _ _ _ _ Hsz Hf).
      unfold f, ZONE_METADATA_SIZEOF in *. unfold u64 in *. Z.to_euclidean_division_equations. lia. }
    rewrite Ha, E' in E. exists (set_mem m s). split; [by rewrite Ha|]. split; [exact Hok'|].
    split; [exact Hz|]. intros e x He Hne Hx. symmetry. apply Hs.
    pose proof (elem_bytes_apart _ _ _ _ _ _ _ _ Hok He x Hx) as [H1' H2'].
    intros [?|?]; [done|]. by apply (H2' f Hf ltac:(done)).
  - intros Hf Hne. by rewrite decide_False, decide_False in E by done.
  - intros ->. by rewrite decide_False in E by set_solver.
Qed.

(** Allocating and freeing again gives back the same zone: the lists are as
    they were, and the element is zeroed. *)
Theorem zalloc_zfree_roundtrip fuel s zone base n size f free used :
  zone_ok (k_mem s) zone base n size (f :: free) used -> (length used < fuel)%nat ->
  exists s1 s2, zalloc zone s = Done (f + ZONE_METADATA_SIZEOF) s1 /\
    zfree fuel zone (f + ZONE_METADATA_SIZEOF) s1 = Done tt s2 /\
    zone_ok (k_mem s2) zone base n size (f :: free) used /\
    (forall x, elem_bytes size f x -> rd (k_mem s2) x = 0) /\
    same_outside (fun x => zone_own zone base n size x \/ elem_bytes size f x) (k_mem s) (k_mem s2).
Proof.
  intros Hok Hfuel. destruct (zalloc_run s zone base n size f free used Hok) as (m & E & Hok' & Hs).
  pose proof (zfree_run fuel (set_mem m s) zone (f + ZONE_METADATA_SIZEOF) (f :: used)
    (zo_used _ _ _ _ _ _ _ Hok') ltac:(simpl; lia)) as E2. cbv zeta in E2.
  assert (Hf : f ∈ slots base size n) by (eapply zone_slots; [exact Hok|left; by left]).
  assert (Ef : u64 (f + ZONE_METADATA_SIZEOF - ZONE_METADATA_SIZEOF) = f).
  { rewrite Z.add_simpl_r. destruct Hok as [[Hsz _] _ [] _ _ _ _ _ _ _].
    pose proof (slots_range _ _ _ _ Hsz Hf). apply u64_id. lia. }
  rewrite Ef, decide_True in E2 by (by left).
  destruct (zfree_hit (set_mem m s) zone base n size f [] free used Hok') as (m2 & E3 & Hok2 & Hz & Hs2).
  rewrite E3 in E2. exists (set_mem m s), (set_mem m2 (set_mem m s)). split_and!; try done.
  eapply same_outside_trans; [eapply same_outside_mono; [|exact Hs]; by left|exact Hs2].
Qed.

(** [zalloc] does not test whether an element is free: on a zone that is full it
    returns the address of the descriptor's own list of used elements and makes
    the count of free elements negative. *)
Theorem zalloc_empty s zone base n size used :
  zone_ok (k_mem s) zone base n size [] used ->
  exists s', zalloc zone s = Done (zone_used_elems zone) s' /\
    s32 (ld32 (k_mem s') (zone_count_free zone)) = -1.
Proof.
  intros Hok. pose proof Hok as [[Hsz Hn] [Hz Hz2] [] Hap He Hc Hcf Hdf Hdu Hp].
  pose proof (zone_ok_sep _ _ _ _ _ _ _ Hok) as Hsep.
  set (fh := zone_free_elems zone) in *. set (uh := zone_used_elems zone) in *.
  set (m1 := list_move (k_mem s) fh uh).
  pose proof (dll_unlink_self _ _ Hdf) as Hdel. fold fh in Hdel.
  assert (Hs1 : same_outside (node_bytes (fh :: uh :: used)) (k_mem s) m1).
  { unfold m1, list_move. eapply same_outside_trans.
    - eapply same_outside_mono; [|exact Hdel]. intros x. apply node_bytes_mono. set_solver.
    - apply list_add_footprint. eapply dll_frame; [exact Hdel| |exact Hdu]. sep_from Hsep. }
  assert (Hld : forall a, zone <= a -> a + 4 <= zone + 40 -> ld32 m1 a = ld32 (k_mem s) a).
  { intros a Ha1 Ha2. apply (load_same_outside _ 4 _ _ _ Hs1). intros x Hx Hnode.
    apply (node_own _ _ _ _ _ _ _ x Hok) in Hnode as [_ Hnode]. unfold within in *. lia. }
  eexists. split.
  - unfold zalloc, add_int. cbv beta iota delta [bind get_mem upd_mem ret]. cbn [k_mem set_mem].
    unfold list_first_entry, list_entry, container_of, meta_alloc.
    fold fh uh. rewrite (dll_head_next _ _ _ Hdf). simpl hd. rewrite Z.sub_0_r, Z.add_0_r.
    replace (u64 (fh + ZONE_METADATA_SIZEOF)) with uh; [reflexivity|].
    unfold fh, uh. zone_unfold. rewrite u64_id; lia.
  - cbn [k_mem set_mem]. fold m1. rewrite ld32_st32_eq.
    zone_unfold. rewrite (load_store_apart 4 4) by (unfold apart; lia).
    rewrite Hld, Hcf by lia. vm_compute. reflexivity.
Qed.
End Properties.

(** ** Witnesses: a zone of eight elements of 8 bytes *)
Lemma demo_lo_hi : 0 <= demo_lo /\ demo_hi + 4 < 2 ^ 64.
Proof. split; vm_compute; [congruence|reflexivity]. Qed.
Definition demo_heap : @Heap demo_symbols demo_hardware (@kernel_vm_map demo_symbols) :=
  @vm_heap demo_symbols demo_hardware demo_map demo_lo demo_hi demo_mapper DEMO_PHYS 8 5
    (DEMO_VIRT + 0x300000) (proj1 demo_lo_hi) (proj2 demo_lo_hi).
Definition demo_v : Z := DEMO_VIRT + 0x4000.
Definition demo_zone_addr : Z := DEMO_VIRT + 0x111000.
Definition demo_zone : kstate :=
  match @zone_create demo_symbols demo_hardware 8 64 0 demo_vm with
  | Done _ s => s
  | _ => demo_vm
  end.

Lemma demo_zone_room : @zone_room demo_symbols demo_hardware demo_heap demo_vm 0 demo_v 3.
Proof.
  assert (Hl1 : tt_l1_index demo_lo = 448) by (vm_compute; reflexivity).
  split.
  - done.
  - vm_compute. split; congruence.
  - split.
    + split; vm_compute; reflexivity.
    + vm_compute. split_and!; congruence.
    + exists [], demo_kernel_entry. split; [vm_compute; reflexivity|]. split; [vm_compute; congruence|].
      split; [vm_compute; congruence|]. split; [exact demo_vm_ready|vm_compute; congruence].
  - intros x Hx. change (DEMO_VIRT + 0x111000 <= x < DEMO_VIRT + 0x111060) in Hx.
    split; [|unfold demo_v; change VM_PAGE_SIZE with 4096; lia]. simpl. unfold vm_heap_own. simpl.
    unfold map_bytes, slot_bytes, vm_page_bytes, within, entry_addr, __vm_page_get_idx,
      VM_PAGE_STRUCT_SIZE, vm_map_pmap, demo_map, demo_l2. rewrite Hl1.
    intros [[?|(i & ? & ?)]|[[?|?]|(i & ? & ?)]]; lia.
Qed.

Lemma demo_zone_ok :
  zone_ok (k_mem demo_zone) demo_zone_addr demo_v 8 8 (slots demo_v 8 8) [].
Proof.
  destruct (@zone_create_run demo_symbols demo_hardware demo_heap demo_vm 0 8 64 0 demo_v 3)
    as (s' & E & Hok & _).
  - exact demo_zone_room.
  - vm_compute. reflexivity.
  - lia.
  - lia.
  - lia.
  - vm_compute. congruence.
  - unfold demo_zone. rewrite E. exact Hok.
Qed.

Lemma zone_create_correct_witness :
  let _ := demo_symbols in let _ := demo_hardware in
  exists s', zone_create 8 64 0 demo_vm = Done demo_zone_addr s' /\
    zone_ok (k_mem s') demo_zone_addr demo_v 8 8 (slots demo_v 8 8) [].
Proof.
  intros sy hw. destruct (@zone_create_correct sy hw demo_heap demo_vm 0 8 64 0 demo_v 3)
    as (s' & E & Hok & _).
  - exact demo_zone_room.
  - vm_compute. reflexivity.
  - lia.
  - lia.
  - lia.
  - lia.
  - vm_compute. congruence.
  - exists s'. split; [exact E|exact Hok].
Defined.

Lemma zone_setup_short_witness :
  let _ := demo_symbols in let _ := demo_hardware in
  exists s', zone_setup demo_zone_addr 0 1 300 0 demo_vm = Done tt s' /\
    VM_PAGE_SIZE * ld32 (k_mem s') (zone_page_count demo_zone_addr) <
    (ld64 (k_mem s') (zone_elem_size demo_zone_addr) + ZONE_METADATA_SIZEOF) *
      ld32 (k_mem s') (zone_count_free demo_zone_addr).
Proof. intros sy hw. apply (zone_setup_short demo_vm demo_zone_addr 0 300 0); vm_compute; congruence || (split; congruence). Defined.


Lemma zfree_correct_witness :
  let _ := demo_symbols in let _ := demo_hardware in
  zfree 1 demo_zone_addr (demo_v + 16) demo_zone = Done tt demo_zone.
Proof.
  intros sy hw.
  destruct (zfree_correct 1 demo_zone demo_zone_addr demo_v 8 8 (demo_v + 16) (slots demo_v 8 8) []
    demo_zone_ok) as (_ & _ & E).
  - simpl. lia.
  - vm_compute. split; congruence.
  - by apply E.
Defined.

Lemma zalloc_zfree_roundtrip_witness :
  let _ := demo_symbols in let _ := demo_hardware in
  exists s1 s2, zalloc demo_zone_addr demo_zone = Done (demo_v + 16) s1 /\
    zfree 1 demo_zone_addr (demo_v + 16) s1 = Done tt s2 /\
    zone_ok (k_mem s2) demo_zone_addr demo_v 8 8 (slots demo_v 8 8) [].
Proof.
  intros sy hw.
  destruct (zalloc_zfree_roundtrip 1 demo_zone demo_zone_addr demo_v 8 8 demo_v
    (tail (slots demo_v 8 8)) [] demo_zone_ok) as (s1 & s2 & E1 & E2 & Hok & _); [simpl; lia|].
  exists s1, s2. split; [exact E1|]. split; [exact E2|exact Hok].
Defined.

(** A zone of one element, which is in use. *)
Definition demo_full : kstate :=
  match (@zone_create demo_symbols demo_hardware 8 8 0 ;! zalloc demo_zone_addr) demo_vm with
  | Done _ s => s
  | _ => demo_vm
  end.

Lemma demo_full_ok : zone_ok (k_mem demo_full) demo_zone_addr demo_v 1 8 [] [demo_v].
Proof.
  destruct (@zone_create_run demo_symbols demo_hardware demo_heap demo_vm 0 8 8 0 demo_v 3)
    as (s' & E & Hok & _); try lia.
  - exact demo_zone_room.
  - vm_compute. reflexivity.
  - vm_compute. congruence.
  - destruct (@zalloc_run s' demo_zone_addr demo_v 1 8 demo_v [] [] Hok)
      as (m & E2 & Hok2 & _).
    unfold demo_full. rewrite (bind_done _ _ _ _ _ E), E2. exact Hok2.
Qed.

Lemma zalloc_empty_witness :
  let _ := demo_symbols in let _ := demo_hardware in
  exists s', zalloc demo_zone_addr demo_full = Done (demo_zone_addr + 56) s' /\
    s32 (ld32 (k_mem s') (zone_count_free demo_zone_addr)) = -1.
Proof. intros sy hw. exact (zalloc_empty demo_full demo_zone_addr demo_v 1 8 [demo_v] demo_full_ok). Defined.

(** The self-test ends in the panic of its double free, its last line printed. *)
Example zalloc_tests_panic :
  let _ := demo_symbols in let _ := demo_hardware in
  exists s x, zalloc_tests 100 demo_vm = Halted s /\
    head (k_trace s) = Some (EvPrint "zalloc: double free'ing zone element: 0x%lx\n" [x]).
Proof.
  intros sy hw. destruct (@zalloc_tests sy hw 100 demo_vm) as [|s| |] eqn:E.
  2:{ exists s. assert (Ht : match @zalloc_tests sy hw 100 demo_vm with Halted s => head (k_trace s) | _ => None end =
        Some (EvPrint "zalloc: double free'ing zone element: 0x%lx\n" [18446744004990091312])) by (vm_compute; reflexivity).
      rewrite E in Ht. eexists. split; [done|exact Ht]. }
  all: exfalso; assert (Ht : match @zalloc_tests sy hw 100 demo_vm with Halted _ => true | _ => false end = true) by (vm_compute; reflexivity);
    by rewrite E in Ht.
Qed.
