(* ===== verification/Machine.v ===== *)
(** * Machine: the topology of the machine and the interrupt mask

    [kern/machine.c] without the parsing of the device tree (which is in
    Topology.v), the two operations of [kern/machine/machine-irq.c] that mask and
    unmask interrupts, and [kern/machine/machine_timer.c]'s use of the timer. *)
From Stdlib Require Import ZArith Lia.
From stdpp Require Import prelude gmap list strings.
From S2P Require Import Prelude Memory Kernel Pmap Vm.
Open Scope Z_scope.
Open Scope monix_scope.

(** ** arch/proc_reg.h *)
Definition MPIDR_AFF1_MASK : Z := Z.shiftl (Z.shiftl 1 8 - 1) 8.
Definition MPIDR_AFF0_MASK : Z := Z.shiftl (Z.shiftl 1 8 - 1) 0.
Definition MPIDR_AFFLVL_MASK : Z := 0xff.
Definition MPIDR_AFFLVL1_VAL (mpidr : Z) : Z := Z.land (Z.shiftr mpidr 8) MPIDR_AFFLVL_MASK.
Definition MPIDR_AFFLVL2_VAL (mpidr : Z) : Z := Z.land (Z.shiftr mpidr 16) MPIDR_AFFLVL_MASK.
Definition MPIDR_AFFLVL3_VAL (mpidr : Z) : Z := 0.

Definition DAIF_MASK_IRQ : Z := Z.shiftl 1 7.

(** The number of a CPU: affinity levels 1 and 0. *)
Definition MPIDR_TO_CPU_NUM (mpidr : Z) : Z := Z.land mpidr (Z.lor MPIDR_AFF1_MASK MPIDR_AFF0_MASK).

Definition DEFAULTS_MACHINE_MAX_CPUS : Z := 16.
Definition DEFAULTS_MACHINE_MAX_CPU_CLUSTERS : Z := 4.

(** ** Structures of kern/machine.h: [machine_topology_cpu_t] and
    [machine_topology_cluster_t] *)
Definition TOPOLOGY_CPU_SIZEOF : Z := 16.
Definition topology_cpu_phys_id (c : Z) : Z := c.
Definition topology_cpu_id (c : Z) : Z := c + 4.
Definition topology_cpu_cluster_id (c : Z) : Z := c + 8.
Definition topology_cpu_at (cpus i : Z) : Z := cpus + TOPOLOGY_CPU_SIZEOF * i.

Definition TOPOLOGY_CLUSTER_SIZEOF : Z := 24.
Definition topology_cluster_id (c : Z) : Z := c.
Definition topology_cluster_num_cpus (c : Z) : Z := c + 4.
Definition topology_cluster_at (clusters i : Z) : Z := clusters + TOPOLOGY_CLUSTER_SIZEOF * i.

Section Machine.
Context `{Hardware}.

(** ** Getters *)
Definition machine_get_boot_cpu_num : M Z :=
  let! boot_cpu := get topology_boot_cpu in ld 4 (topology_cpu_id boot_cpu).
Definition machine_get_num_clusters : M Z := get topology_num_clusters.
Definition machine_get_max_cpu_num : M Z := get topology_max_cpu_id.
Definition machine_get_num_cpus : M Z := get topology_num_cpus.

(** The loop of [machine_get_cpu_num] over the next [n] entries from [i] on. *)
Fixpoint topology_scan (n : nat) (i cpu_num : Z) : M Z :=
  match n with
  | O => ret cpu_num
  | S n =>
      let! cpus := get topology_cpus in
      let! phys_id := ld 4 (topology_cpu_phys_id (topology_cpu_at cpus i)) in
      if phys_id =? u32 cpu_num then
        let! max_cpu_id := get topology_max_cpu_id in
        assert (u32 cpu_num <=? max_cpu_id) ;!
        ret cpu_num
      else topology_scan n (i + 1) cpu_num
  end.

Definition machine_get_cpu_num : M Z :=
  let! mpidr := sysreg_read mpidr_el1 in
  let cpu_num := s32 (MPIDR_TO_CPU_NUM mpidr) in
  let! num_cpus := get topology_num_cpus in
  topology_scan (Z.to_nat num_cpus) 0 cpu_num.

(** ** Interrupts and the timer

    [msr daifset, #2] and [msr daifclr, #2] set and clear the mask bit I. *)
Definition machine_irq_disable : M unit :=
  fun s => msr daif (Z.lor (k_sys s daif) DAIF_MASK_IRQ) s.
Definition machine_irq_enable : M unit :=
  fun s => msr daif (Z.ldiff (k_sys s daif) DAIF_MASK_IRQ) s.

Definition MACHINE_TIMER_EL1PHYS_IRQ_ID : Z := 30.
Definition MACHINE_TIMER_RESET_VALUE : Z := 0x5000000.

(** arch/support.S *)
Definition arm64_timer_init (v : Z) : M unit := msr cntp_tval_el0 v ;! msr cntp_ctl_el0 1.
Definition arm64_timer_reset (v : Z) : M unit := msr cntp_tval_el0 v.

Definition machine_timer_reset (reset : Z) : M unit := arm64_timer_reset reset.

(** ** Laws *)

(** [MPIDR_EL1] is a read-only register with a fixed value for each CPU;
    [Running mpidr]: the code runs on the CPU whose value is [mpidr]. *)
Class Running (mpidr : Z) := running_mpidr : forall s, hw_mrs s mpidr_el1 = mpidr.

(** The CPU number it gives. *)
Definition cpu_number (mpidr : Z) : Z := mpidr mod 2 ^ 16.

Lemma MPIDR_TO_CPU_NUM_eq mpidr : MPIDR_TO_CPU_NUM mpidr = mpidr mod 2 ^ 16.
Proof.
  unfold MPIDR_TO_CPU_NUM. change (Z.lor _ _) with (Z.ones 16). by rewrite Z.land_ones.
Qed.

Lemma cpu_number_range mpidr : 0 <= cpu_number mpidr < 2 ^ 16.
Proof. apply Z.mod_pos_bound. lia. Qed.

Lemma topology_scan_run n i c s :
  0 <= c < 2 ^ 16 ->
  topology_scan n i c s = Done c s \/
  (topology_scan n i c s = Halted s /\ k_glob s topology_max_cpu_id < c /\ n <> 0%nat).
Proof.
  intros Hc. revert i. induction n as [|n IH]; intros i; [by left|].
  cbn [topology_scan]. cbv beta iota delta [bind get ld]. destruct (_ =? _).
  - rewrite u32_id by lia. unfold assert, halt, ret.
    destruct (Z.leb_spec c (k_glob s topology_max_cpu_id)); [by left|by right].
  - destruct (IH (i + 1)) as [?|(? & ? & ?)]; [by left|by right].
Qed.

(** The number is that of a CPU the topology can have, or there is no topology. *)
Definition cpu_known (s : kstate) (n : Z) : Prop :=
  k_glob s topology_num_cpus <= 0 \/ n <= k_glob s topology_max_cpu_id.

(** [machine_get_cpu_num] reads; it returns the number unless the number exceeds
    the largest one of the topology. *)
Lemma machine_get_cpu_num_run `{!Running mpidr} s :
  machine_get_cpu_num s = Done (cpu_number mpidr) s \/
  (machine_get_cpu_num s = Halted s /\ ~ cpu_known s (cpu_number mpidr)).
Proof.
  unfold machine_get_cpu_num. cbv beta iota zeta delta [bind sysreg_read get].
  rewrite MPIDR_TO_CPU_NUM_eq, running_mpidr. pose proof (cpu_number_range mpidr).
  rewrite s32_id by (unfold cpu_number in *; lia).
  destruct (topology_scan_run (Z.to_nat (k_glob s topology_num_cpus)) 0 (mpidr mod 2 ^ 16) s)
    as [?|(? & ? & ?)]; [done|by left|right]. split; [done|].
  unfold cpu_known, cpu_number. lia.
Qed.

Lemma machine_get_cpu_num_done `{!Running mpidr} s :
  cpu_known s (cpu_number mpidr) -> machine_get_cpu_num s = Done (cpu_number mpidr) s.
Proof. intros Hc. destruct (machine_get_cpu_num_run s) as [?|[_ ?]]; [done|tauto]. Qed.
End Machine.
#[global] Hint Mode Running + - : typeclass_instances.

#[export] Instance demo_running : @Running demo_hardware 0x80000000.
Proof. done. Qed.
