(* ===== verification/Cpu.v ===== *)
(** * Cpu: the per-CPU data (kern/cpu.c, kern/cpu.h)

    [CpuDataEntries] has a structure [cpu_t] for every CPU.  The getters and
    setters check a CPU number against [cpu_count], which nothing increments. *)
From Stdlib Require Import ZArith Lia.
From stdpp Require Import prelude gmap list strings.
From S2P Require Import Prelude Memory TString Kernel Pmap Vm Machine.
Open Scope Z_scope.
Open Scope monix_scope.

(** ** The structure [cpu_t] *)
Definition CPU_SIZEOF : Z := 88.
Definition cpu_cpu_num (c : Z) : Z := c.
Definition cpu_cpu_flags (c : Z) : Z := c + 8.
Definition cpu_processor (c : Z) : Z := c + 16.
Definition cpu_excepstack_top (c : Z) : Z := c + 24.
Definition cpu_intstack_top (c : Z) : Z := c + 32.
Definition cpu_cpu_reset_handler (c : Z) : Z := c + 56.
Definition cpu_cpu_active_thread (c : Z) : Z := c + 64.
Definition cpu_cpu_active_stack (c : Z) : Z := c + 72.

Definition CPU_NUMBER_MAX : Z := DEFAULTS_MACHINE_MAX_CPUS.
Definition CPU_FLAG_THREADING_ENABLED : Z := 1.
Definition THREAD_NULL : Z := 0.

(** [*dst = *src] on structures of [n] bytes. *)
Definition struct_assign (n dst src : Z) : M unit :=
  upd_mem (fun m => memcpy m dst src (Z.to_nat n)).

Section Cpu.
Context `{Symbols} `{Hardware}.

(** ** Operations *)
Definition cpu_get_cpu (cpuid : Z) : Z := sym_CpuDataEntries + CPU_SIZEOF * cpuid.

Definition CPU_ASSERT_VALID_ID (cpuid : Z) : M unit :=
  let! count := get cpu_count in if count <? cpuid then halt else ret tt.

(** [cpu_num] is an [int] and [CPU_NUMBER_MAX] an [unsigned long]: the comparison
    is one of unsigned numbers. *)
Definition CPU_ASSERT_VALID (cpu : Z) : M unit :=
  if cpu =? 0 then halt
  else
    let! cpu_num := ld 4 (cpu_cpu_num cpu) in
    if CPU_NUMBER_MAX <=? u64 (s32 cpu_num) then halt else ret tt.

Definition cpu_register (cpu_data_ptr : Z) : M Z :=
  CPU_ASSERT_VALID cpu_data_ptr ;!
  let! cpu_num := ld 4 (cpu_cpu_num cpu_data_ptr) in
  struct_assign CPU_SIZEOF (cpu_get_cpu (s32 cpu_num)) cpu_data_ptr ;!
  ret KERN_RETURN_SUCCESS.

Definition cpu_create (cpu_data_ptr excepstack intstack : Z) : M Z :=
  upd_mem (fun m => memset m cpu_data_ptr 0 (Z.to_nat CPU_SIZEOF)) ;!
  st 4 (cpu_cpu_flags cpu_data_ptr) 0 ;!
  let! reset := mmu_translate_kvtop sym_LowResetVector in
  st 8 (cpu_cpu_reset_handler cpu_data_ptr) reset ;!
  st 8 (cpu_excepstack_top cpu_data_ptr) excepstack ;!
  st 8 (cpu_intstack_top cpu_data_ptr) intstack ;!
  let! n := machine_get_cpu_num in
  st 4 (cpu_cpu_num cpu_data_ptr) n ;!
  cpu_register cpu_data_ptr.

Definition cpu_init : M unit := ret tt.

(** [b .]: the CPU stays here. *)
Definition cpu_halt {A} : M A := halt.

Definition cpu_set_flag (cpuid flag : Z) : M Z :=
  CPU_ASSERT_VALID_ID cpuid ;!
  let! flags := ld 4 (cpu_cpu_flags (cpu_get_cpu cpuid)) in
  st 4 (cpu_cpu_flags (cpu_get_cpu cpuid)) (Z.lor flags flag) ;!
  ret KERN_RETURN_SUCCESS.

Definition cpu_read_flag (cpuid flag : Z) : M Z :=
  CPU_ASSERT_VALID_ID cpuid ;!
  let! flags := ld 4 (cpu_cpu_flags (cpu_get_cpu cpuid)) in
  ret (if Z.land flags flag =? flag then KERN_RETURN_FAIL else KERN_RETURN_SUCCESS).

Definition cpu_set_active_stack (cpuid stack : Z) : M Z :=
  CPU_ASSERT_VALID_ID cpuid ;!
  st 8 (cpu_cpu_active_stack (cpu_get_cpu cpuid)) stack ;!
  ret KERN_RETURN_SUCCESS.

Definition cpu_set_active_thread (cpuid thread : Z) : M Z :=
  CPU_ASSERT_VALID_ID cpuid ;!
  (if thread =? THREAD_NULL then halt else ret tt) ;!
  st 8 (cpu_cpu_active_thread (cpu_get_cpu cpuid)) thread ;!
  ret KERN_RETURN_SUCCESS.

Definition cpu_set_processor (cpuid processor : Z) : M Z :=
  CPU_ASSERT_VALID_ID cpuid ;!
  st 8 (cpu_processor (cpu_get_cpu cpuid)) processor ;!
  ret KERN_RETURN_SUCCESS.

Definition cpu_set_boot_cpu (cpu : Z) : M Z :=
  CPU_ASSERT_VALID cpu ;!
  struct_assign CPU_SIZEOF sym_BootCpuData cpu ;!
  CPU_ASSERT_VALID sym_BootCpuData ;!
  ret KERN_RETURN_SUCCESS.

Definition cpu_get_current : M Z :=
  let! n := machine_get_cpu_num in ret (cpu_get_cpu n).

Definition cpu_get_processor (cpuid : Z) : M Z :=
  let cpu := cpu_get_cpu cpuid in
  CPU_ASSERT_VALID cpu ;!
  ld 8 (cpu_processor cpu).

(** [cpu_id] of a processor is at offset 28 ([processor_t], Processor.v). *)
Definition processor_get_cpu (processor : Z) : M Z :=
  let! cpu_id := ld 4 (processor + 28) in
  CPU_ASSERT_VALID_ID (s32 cpu_id) ;!
  let! cpu_id := ld 4 (processor + 28) in
  let cpu := cpu_get_cpu (s32 cpu_id) in
  CPU_ASSERT_VALID cpu ;!
  ret cpu.
End Cpu.

(** ** What the operations do *)
Section Laws.
Context `{Symbols} `{Hardware}.

(** The entry of a CPU. *)
Definition cpu_entry_bytes (n x : Z) : Prop := within (cpu_get_cpu n) 88 x.

Lemma CPU_ASSERT_VALID_run c s :
  CPU_ASSERT_VALID c s =
    if decide (c <> 0 /\ 0 <= s32 (ld32 (k_mem s) c) < 16) then Done tt s else Halted s.
Proof.
  unfold CPU_ASSERT_VALID, cpu_cpu_num, CPU_NUMBER_MAX, DEFAULTS_MACHINE_MAX_CPUS.
  destruct (Z.eqb_spec c 0) as [->|Hc]; [by rewrite decide_False by naive_solver|].
  cbv beta iota delta [bind ld]. pose proof (s32_range (ld32 (k_mem s) c)) as Hr.
  set (n := s32 _) in *. destruct (Z.leb_spec 16 (u64 n)) as [Hu|Hu].
  - rewrite decide_False; [done|]. intros [_ Hn]. rewrite u64_id in Hu; lia.
  - rewrite decide_True; [done|]. split; [done|].
    assert (n < 0 \/ 0 <= n) as [?|?] by lia; [|rewrite u64_id in Hu; lia].
    assert (u64 n = n + 2 ^ 64) by word_lia. lia.
Qed.

(** Copies, field by field. *)
Lemma copied_load m d s n m' k i :
  copied m d s n m' -> 0 <= i -> i + Z.of_nat k <= Z.of_nat n -> load k m' (d + i) = load k m (s + i).
Proof.
  intros Hc Hi Hk. rewrite !load_bytes. f_equal. apply list_eq. intros j.
  destruct (decide (j < k)%nat) as [Hj|Hj].
  - rewrite !lookup_bytes_at by done. f_equal. rewrite Hc, decide_True by (unfold within; lia).
    f_equal. lia.
  - by rewrite !lookup_ge_None_2 by (rewrite length_bytes_at; lia).
Qed.

(** The data of a CPU as [cpu_create] leaves them. *)
Record cpu_fresh (m : memory) (c n excepstack intstack : Z) : Prop := {
  cf_num : ld32 m (cpu_cpu_num c) = n;
  cf_flags : ld32 m (cpu_cpu_flags c) = 0;
  cf_processor : ld64 m (cpu_processor c) = 0;
  cf_excepstack : ld64 m (cpu_excepstack_top c) = excepstack;
  cf_intstack : ld64 m (cpu_intstack_top c) = intstack;
  cf_thread : ld64 m (cpu_cpu_active_thread c) = 0;
}.

Ltac cpu_unfold := unfold cpu_cpu_num, cpu_cpu_flags, cpu_processor, cpu_excepstack_top,
  cpu_intstack_top, cpu_cpu_reset_handler, cpu_cpu_active_thread, cpu_cpu_active_stack, CPU_SIZEOF in *.

Lemma cpu_register_run s p n exs ints :
  cpu_fresh (k_mem s) p n exs ints -> 0 <= n < 16 -> p <> 0 ->
  p + CPU_SIZEOF <= cpu_get_cpu n \/ cpu_get_cpu n + CPU_SIZEOF <= p ->
  exists m, cpu_register p s = Done KERN_RETURN_SUCCESS (set_mem m s) /\
    cpu_fresh m (cpu_get_cpu n) n exs ints /\ same_outside (cpu_entry_bytes n) (k_mem s) m.
Proof.
  intros Hf Hn Hp Hap. pose proof (cf_num _ _ _ _ _ Hf) as En. unfold cpu_cpu_num in En.
  unfold cpu_register, struct_assign. unfold bind at 1.
  rewrite CPU_ASSERT_VALID_run, En, s32_id by lia. rewrite decide_True by lia.
  cbv beta iota delta [bind ld upd_mem ret]. unfold cpu_cpu_num. rewrite En, s32_id by lia.
  eexists. split; [reflexivity|].
  assert (Hc : copied (k_mem s) (cpu_get_cpu n) p 88 (memcpy (k_mem s) (cpu_get_cpu n) p 88))
    by (apply memcpy_copied; unfold CPU_SIZEOF in *; lia).
  split; [|by apply copied_same_outside in Hc].
  destruct Hf. cpu_unfold. change (Z.to_nat 88) with 88%nat. set (m := memcpy _ _ _ _) in *.
  assert (Hl : forall k i, 0 <= i -> i + Z.of_nat k <= 88 ->
            load k m (cpu_get_cpu n + i) = load k (k_mem s) (p + i))
    by (intros; eapply copied_load; [exact Hc|lia..]).
  split; cpu_unfold; rewrite ?Hl by lia; try done.
  pose proof (Hl 4%nat 0 ltac:(lia) ltac:(lia)) as Hl0. by rewrite !Z.add_0_r in Hl0; rewrite Hl0.
Qed.

(** The structure before it is registered. *)
Lemma cpu_fresh_frame R m m' c n exs ints :
  cpu_fresh m c n exs ints -> same_outside R m m' -> (forall x, within c 88 x -> ~ R x) ->
  cpu_fresh m' c n exs ints.
Proof.
  intros [] Hs HR. cpu_unfold.
  assert (Hl : forall k a, c <= a -> a + Z.of_nat k <= c + 88 -> load k m' a = load k m a).
  { intros k a Ha1 Ha2. apply (load_same_outside _ _ _ _ _ Hs). intros x Hx. apply HR.
    unfold within in *. lia. }
  split; cpu_unfold; by rewrite Hl by lia.
Qed.

Lemma cpu_create_fields m0 p exs ints n tr :
  is_u64 exs -> is_u64 ints -> is_u32 n ->
  let m := st32 (st64 (st64 (st64 (st32 (memset m0 p 0 88) (p + 8) 0) (p + 56) tr) (p + 24) exs)
             (p + 32) ints) p n in
  cpu_fresh m p n exs ints /\ same_outside (within p 88) m0 m.
Proof.
  intros Hes His Hn m. split.
  - split; unfold m; cpu_unfold; mem_simpl; rewrite ?u64_id, ?u32_id by done; try done;
      apply load_memset_zero; lia.
  - unfold m. repeat (apply same_outside_store; [unfold within; lia|]). apply memset_same_outside.
Qed.

Lemma cpu_create_run `{!Running mpidr} s p exs ints :
  let n := cpu_number mpidr in
  cpu_known s n -> is_u64 exs -> is_u64 ints ->
  exists m, cpu_create p exs ints s = cpu_register p (set_mem m s) /\
    cpu_fresh m p n exs ints /\ same_outside (within p 88) (k_mem s) m.
Proof.
  intros n Hk Hexs Hints. pose proof (cpu_number_range mpidr) as Hn. fold n in Hn.
  unfold cpu_create.
  set (s1 := set_mem (st32 (memset (k_mem s) p 0 88) (p + 8) 0) (set_mem (memset (k_mem s) p 0 88) s)).
  assert (exists tr, mmu_translate_kvtop sym_LowResetVector s1 = Done tr s1) as (tr & Etr).
  { unfold mmu_translate_kvtop. destruct (Z.testbit _ _); by eexists. }
  destruct (cpu_create_fields (k_mem s) p exs ints n tr) as [Hf Hs]; [done|done|lia|].
  eexists. split; [|split; [exact Hf|exact Hs]].
  unfold bind. cbv beta iota delta [upd_mem st]. cbn [k_mem set_mem].
  unfold cpu_cpu_flags. change (Z.to_nat CPU_SIZEOF) with 88%nat. fold s1. rewrite Etr.
  rewrite machine_get_cpu_num_done by done. reflexivity.
Qed.
End Laws.

(** ** Correctness *)
Section Properties.
Context `{Symbols} `{Hardware}.

(** [cpu_create] registers the running CPU: with a number below the maximum
    its entry in [CpuDataEntries] and the caller's structure hold the number and
    the stacks, [cpu_get_current] gives the entry, and no other memory changes;
    a larger number panics. *)
Theorem cpu_create_correct `{!Running mpidr} s p exs ints :
  let n := cpu_number mpidr in
  cpu_known s n -> is_u64 exs -> is_u64 ints -> p <> 0 ->
  p + CPU_SIZEOF <= cpu_get_cpu n \/ cpu_get_cpu n + CPU_SIZEOF <= p ->
  (n < CPU_NUMBER_MAX -> exists s', cpu_create p exs ints s = Done KERN_RETURN_SUCCESS s' /\
     cpu_fresh (k_mem s') p n exs ints /\ cpu_fresh (k_mem s') (cpu_get_cpu n) n exs ints /\
     cpu_get_current s' = Done (cpu_get_cpu n) s' /\
     same_outside (fun x => within p 88 x \/ cpu_entry_bytes n x) (k_mem s) (k_mem s')) /\
  (CPU_NUMBER_MAX <= n -> exists s', cpu_create p exs ints s = Halted s').
Proof.
  intros n Hk Hexs Hints Hp Hap.
  destruct (cpu_create_run s p exs ints Hk Hexs Hints) as (m & E & Hf & Hs). fold n in Hf.
  pose proof (cpu_number_range mpidr) as Hn. fold n in Hn. split; intros Hmax.
  - destruct (cpu_register_run (set_mem m s) p n exs ints Hf) as (m2 & E2 & Hf2 & Hs2);
      [change CPU_NUMBER_MAX with 16 in Hmax; lia|done|done|].
    exists (set_mem m2 (set_mem m s)). rewrite E. split; [exact E2|]. split; [|split; [exact Hf2|split]].
    + eapply cpu_fresh_frame; [exact Hf|exact Hs2|]. unfold cpu_entry_bytes, within, CPU_SIZEOF in *. lia.
    + unfold cpu_get_current. by rewrite (bind_done _ _ _ _ _ (machine_get_cpu_num_done (set_mem m2 (set_mem m s)) Hk)).
    + eapply same_outside_trans; eapply same_outside_mono; [|exact Hs| |exact Hs2]; tauto.
  - exists (set_mem m s). rewrite E. unfold cpu_register. unfold bind at 1.
    rewrite CPU_ASSERT_VALID_run. cbn [k_mem set_mem].
    pose proof (cf_num _ _ _ _ _ Hf) as En. unfold cpu_cpu_num in En.
    rewrite En, s32_id by lia. change CPU_NUMBER_MAX with 16 in Hmax. by rewrite decide_False by lia.
Qed.
End Properties.

(** ** Witness: the boot CPU of [demo_state], its structure in the image *)
Definition demo_cpu : Z := DEMO_VIRT + 0x9000.

Lemma cpu_create_correct_witness :
  let _ := demo_symbols in let _ := demo_hardware in
  exists s', cpu_create demo_cpu 0x100 0x200 demo_state = Done KERN_RETURN_SUCCESS s' /\
    cpu_fresh (k_mem s') (DEMO_VIRT + 0x113000) 0 0x100 0x200 /\
    cpu_get_current s' = Done (DEMO_VIRT + 0x113000) s'.
Proof.
  intros sy hw. destruct (@cpu_create_correct sy hw 0x80000000 demo_running demo_state demo_cpu 0x100 0x200)
    as [Hok _].
  - left. vm_compute. congruence.
  - lia.
  - lia.
  - vm_compute. congruence.
  - left. vm_compute. congruence.
  - destruct Hok as (s' & E & _ & Hf & Hc & _); [vm_compute; reflexivity|].
    exists s'. split; [exact E|]. split; [exact Hf|exact Hc].
Defined.
