(* ===== verification/Task.v ===== *)
(** * Task: tasks (kern/task.c, kern/task.h)

    Tasks come from [task_zone]; every task is on the global list [tasks] and
    heads the list of its threads. *)
From Stdlib Require Import ZArith Lia.
From stdpp Require Import prelude gmap list strings.
From S2P Require Import Prelude Memory LinkedList TString Kernel Pmap VmPage VmMap Vm Heap Zalloc.
Open Scope Z_scope.
Open Scope monix_scope.

(** ** The structure [task_t]; its size is [TASK_SIZEOF] *)
Definition TASK_STATE_INACTIVE : Z := 0.
Definition TASK_COUNT_MAX : Z := 12.
Definition TASK_NAME_MAX_LEN : Z := 32.

Definition task_pid_field (t : Z) : Z := t.
Definition task_state (t : Z) : Z := t + 4.
Definition task_name (t : Z) : Z := t + 8.
Definition task_tasks_offset : Z := 40.
Definition task_tasks (t : Z) : Z := t + task_tasks_offset.
Definition task_threads (t : Z) : Z := t + 56.
Definition task_ref_count (t : Z) : Z := t + 104.

(** The fields of [thread_t] that task.c uses. *)
Definition thread_stack (t : Z) : Z := t + 120.
Definition thread_thread_id (t : Z) : Z := t + 128.
Definition thread_siblings_offset : Z := 136.
Definition thread_siblings (t : Z) : Z := t + thread_siblings_offset.
Definition thread_task (t : Z) : Z := t + 168.
Definition thread_entry (t : Z) : Z := t + 176.

(** The result of a function on memory that has a fuel. *)
Definition with_fuel {A} (o : option A) : M A :=
  match o with None => diverge | Some a => ret a end.

Section Task.
Context `{Symbols} `{Hardware}.

Definition get_current_task : M Z := get current_task.
Definition set_current_task (task : Z) : M unit := put current_task task.

(** The inner loop of [_dump_tasks]. *)
Fixpoint dump_task_threads (l : list Z) : M unit :=
  match l with
  | [] => ret tt
  | thread :: l =>
      let! id := ld 4 (thread_thread_id thread) in
      let! stack := ld 8 (thread_stack thread) in
      let! entry := ld 8 (thread_entry thread) in
      print "    thread[%d]: stack: 0x%lx, entry: 0x%lx\n" [id; stack; entry] ;!
      dump_task_threads l
  end.

Fixpoint dump_task_list (fuel : nat) (l : list Z) : M unit :=
  match l with
  | [] => ret tt
  | entry :: l =>
      let! pid := ld 4 (task_pid_field entry) in
      print "task[%d]: pid '%d', name '%s':\n" [pid; pid; task_name entry] ;!
      let! m := get_mem in
      let! threads := with_fuel (list_for_each_entry fuel m (task_threads entry) thread_siblings_offset) in
      dump_task_threads threads ;!
      when (list_empty m (task_threads entry)) (print "    no threads on task\n" []) ;!
      dump_task_list fuel l
  end.

Definition _dump_tasks (fuel : nat) : M unit :=
  let! m := get_mem in
  let! tasks := with_fuel (list_for_each_entry fuel m sym_tasks task_tasks_offset) in
  dump_task_list fuel tasks.

(** The argument [map] is not stored in the task. *)
Definition task_create (fuel : nat) (map name : Z) : M Z :=
  let! zone := get task_zone in
  let! new := zalloc zone in
  st 4 (task_ref_count new) 2 ;!
  st 4 (task_state new) TASK_STATE_INACTIVE ;!
  let! pid := get task_pid in
  st 4 (task_pid_field new) pid ;!
  put task_pid (s32 (pid + 1)) ;!
  let! m := get_mem in
  let! len := with_fuel (strlen fuel m name) in
  let name_len := if TASK_NAME_MAX_LEN <? len then TASK_NAME_MAX_LEN else len in
  upd_mem (fun m => memset m (task_name new) 0 (Z.to_nat (name_len + 1))) ;!
  upd_mem (fun m => memcpy m (task_name new) name (Z.to_nat name_len)) ;!
  upd_mem (fun m => INIT_LIST_HEAD m (task_threads new)) ;!
  upd_mem (fun m => list_add_tail m (task_tasks new) sym_tasks) ;!
  ret new.

Definition task_init (fuel : nat) : M unit :=
  let! zone := zone_create TASK_SIZEOF (TASK_COUNT_MAX * TASK_SIZEOF) (sym_literal "task_zone") in
  put task_zone zone ;!
  let! task := task_create fuel vm_get_kernel_map (sym_literal "kernel_task") in
  put kernel_task task.

(** The function has no return statement; no caller uses the value. *)
Definition task_assign_thread (task thread : Z) : M unit :=
  upd_mem (fun m => list_add_tail m (thread_siblings thread) (task_threads task)) ;!
  st 8 (thread_task thread) task.
End Task.
