(* ===== verification/Thread.v ===== *)
(** * Thread: threads and their stacks (kern/thread.c, kern/thread.h,
    kern/mm/stack.c)

    Threads come from [thread_zone]; a thread is on the list of its task and on the
    global list [threads], and has a page of stack between two guard pages.  The
    switch from one thread to another is in Sched.v. *)
From Stdlib Require Import ZArith Lia.
From stdpp Require Import prelude gmap list strings.
From S2P Require Import Prelude Memory LinkedList TString Kernel Pmap VmPage VmMap Vm Heap Zalloc Machine Cpu Task.
Open Scope Z_scope.
Open Scope monix_scope.

(** ** The structures [thread_t] and [stack_t] *)
Definition THREAD_COUNT_MAX : Z := 24.
Definition THREAD_NAME_MAX_LEN : Z := 64.
Definition THREAD_STACK_DEFAULT_SIZE : Z := VM_PAGE_SIZE.
Definition THREAD_ID_KERN_THREAD : Z := 0.
Definition THREAD_PRIORITY_MAX : Z := 4.
Definition THREAD_PRIORITY_LOW : Z := 0.
Definition THREAD_STATE_INACTIVE : Z := 0.
Definition THREAD_STATE_ACTIVE : Z := 1.

Definition THREAD_SIZEOF : Z := 288.
Definition thread_context (t : Z) : Z := t.
Definition thread_stack_base (t : Z) : Z := t + 112.
Definition thread_threads_offset : Z := 152.
Definition thread_threads (t : Z) : Z := t + thread_threads_offset.
Definition thread_args (t : Z) : Z := t + 184.
Definition thread_preempt (t : Z) : Z := t + 192.
Definition thread_flags (t : Z) : Z := t + 196.
Definition thread_ref_count (t : Z) : Z := t + 200.
Definition thread_name (t : Z) : Z := t + 224.

Definition thread_state (m : memory) (t : Z) : Z := get_bits (ld32 m (thread_flags t)) 0 1.
Definition set_thread_state (t v : Z) (m : memory) : memory :=
  st32 m (thread_flags t) (set_bits (ld32 m (thread_flags t)) 0 1 v).

Definition STACK_SIZEOF : Z := 24.
Definition stack_stack_base (s : Z) : Z := s.
Definition stack_siblings_offset : Z := 8.
Definition stack_siblings (s : Z) : Z := s + stack_siblings_offset.

Section Thread.
Context `{Symbols} `{Hardware}.

(** ** The listing of the threads *)
Definition thread_pr_debug (fmt : string) (args : list Z) : M unit := print ("thread: " +:+ fmt) args.

Fixpoint dump_threads_loop (l : list Z) : M unit :=
  match l with
  | [] => ret tt
  | entry :: l =>
      let! id := ld 4 (thread_thread_id entry) in
      let! task := ld 8 (thread_task entry) in
      thread_pr_debug "thread[%d]: id '%d', task name '%s':\n" [id; id; task_name task] ;!
      dump_threads_loop l
  end.
Definition _dump_threads (fuel : nat) : M unit :=
  thread_pr_debug "dumping global thread list information:\n" [] ;!
  let! m := get_mem in
  let! l := with_fuel (list_for_each_entry fuel m sym_threads thread_threads_offset) in
  dump_threads_loop l.

(** ** Stacks *)
Definition stack_init : M unit :=
  let! zone := zone_create STACK_SIZEOF (THREAD_COUNT_MAX * STACK_SIZEOF) (sym_literal "stacks_zone") in
  put stack_zone zone ;!
  upd_mem (fun m => INIT_LIST_HEAD m sym_stacks).

Definition stack_alloc (thread : Z) : M unit :=
  let! zone := get stack_zone in
  let! stack := zalloc zone in
  let! base := vm_map_alloc vm_get_kernel_map THREAD_STACK_DEFAULT_SIZE
                 (Z.lor VM_ALLOC_GUARD_FIRST VM_ALLOC_GUARD_LAST) in
  st 8 (stack_stack_base stack) base ;!
  upd_mem (fun m => list_add_tail m (stack_siblings stack) sym_stacks) ;!
  let! base := ld 8 (stack_stack_base stack) in
  st 8 (thread_stack_base thread) base ;!
  let! base := ld 8 (stack_stack_base stack) in
  st 8 (thread_stack thread) base.

(** The loop of [stack_free]: it compares the address of the [stack_t] with the
    base of the stack. *)
Fixpoint stack_free_loop (fuel : nat) (thread stack : Z) : M unit :=
  if stack + stack_siblings_offset =? sym_stacks then ret tt
  else
    let! base := ld 8 (thread_stack_base thread) in
    if stack =? base then
      let! zone := get stack_zone in zfree fuel zone stack
    else match fuel with
         | O => diverge
         | S fuel =>
             let! m := get_mem in
             stack_free_loop fuel thread
               (list_entry (list_next m (stack_siblings stack)) stack_siblings_offset)
         end.

Definition stack_free (fuel : nat) (thread : Z) : M unit :=
  let! m := get_mem in
  stack_free_loop fuel thread (list_first_entry m sym_stacks stack_siblings_offset).

(** ** Threads *)
Definition thread_init : M unit :=
  let! zone := zone_create THREAD_SIZEOF (THREAD_COUNT_MAX * THREAD_SIZEOF) (sym_literal "thread_zone") in
  put thread_zone zone ;!
  stack_init.

Definition thread_init_context (thread entry : Z) : M unit := st 8 (thread_entry thread) entry.

(** [len] is read before it is written. *)
Definition thread_set_name (fuel : nat) (thread name : Z) : M unit :=
  let! len := uninitialised thread_set_name_len in
  let len := if len <? THREAD_NAME_MAX_LEN then len else THREAD_NAME_MAX_LEN in
  let! m := get_mem in
  let! r := with_fuel (strlcpy fuel m (thread_name thread) name len) in
  upd_mem (fun _ => fst r).

(** The statement for the initial state assigns [stack], and [priority] is not
    used. *)
Definition thread_create (fuel : nat) (parent_task priority entry name : Z) : M Z :=
  let! zone := get thread_zone in
  let! thread := zalloc zone in
  st 8 (thread_stack thread) THREAD_STATE_INACTIVE ;!
  st 4 (thread_ref_count thread) 2 ;!
  st 4 (thread_preempt thread) 0 ;!
  let! id := get thread_id_max in
  st 4 (thread_thread_id thread) id ;!
  put thread_id_max (s32 (id + 1)) ;!
  stack_alloc thread ;!
  thread_init_context thread entry ;!
  task_assign_thread parent_task thread ;!
  upd_mem (fun m => list_add_tail m (thread_threads thread) sym_threads) ;!
  thread_set_name fuel thread name ;!
  upd_mem (set_thread_state thread THREAD_STATE_ACTIVE) ;!
  ret thread.

Definition thread_block : M unit := machine_irq_disable.
Definition thread_unblock : M unit := machine_irq_enable.

Definition thread_destroy (fuel : nat) (thread : Z) : M unit :=
  let tname := sym_local "thread_destroy" "tname" in
  thread_block ;!
  let! m := get_mem in
  let! r := with_fuel (strlcpy fuel m tname (thread_name thread) THREAD_NAME_MAX_LEN) in
  upd_mem (fun _ => fst r) ;!
  let! cpu := cpu_get_current in
  let! active := ld 8 (cpu_cpu_active_thread cpu) in
  if thread =? active then halt
  else
    upd_mem (set_thread_state thread THREAD_STATE_INACTIVE) ;!
    upd_mem (fun m => list_del m (thread_siblings thread)) ;!
    upd_mem (fun m => list_del m (thread_threads thread)) ;!
    stack_free fuel thread ;!
    let! zone := get thread_zone in
    zfree fuel zone thread ;!
    thread_unblock.

Definition kernel_thread_create (fuel : nat) (entry priority args : Z) : M Z :=
  let! task := get kernel_task in
  let! thread := thread_create fuel task priority entry (sym_literal "kthread_main") in
  if thread =? THREAD_NULL then halt
  else
    let! id := ld 4 (thread_thread_id thread) in
    if negb (s32 id =? THREAD_ID_KERN_THREAD) then halt
    else
      st 8 (thread_args thread) args ;!
      upd_mem (set_thread_state thread THREAD_STATE_ACTIVE) ;!
      ret thread.
End Thread.
