(* ===== verification/Sched.v ===== *)
(** * Sched: the context switch (kern/sched.c, the context functions of
    kern/thread.c and the routines [__fork64_exec], [__fork64_return] of
    arch/handler.S)

    The scheduler goes round the global list [threads].  [EvFork t r] in the trace
    is the moment the CPU continues as thread [t], with the registers [r]. *)
From Stdlib Require Import ZArith Lia.
From stdpp Require Import prelude gmap list strings.
From S2P Require Import Prelude Memory LinkedList TString Kernel Pmap VmPage VmMap Vm Heap Zalloc Machine Cpu Task Thread.
Open Scope Z_scope.
Open Scope monix_scope.

(** ** [arm64_cpu_context_t] and [arm64_exception_frame_t] (arch/arch.h) *)

(** Register [x19 + i] of a context. *)
Definition context_x (c i : Z) : Z := c + 8 * i.
Definition context_fp (c : Z) : Z := c + 80.
Definition context_lr (c : Z) : Z := c + 88.
Definition context_sp (c : Z) : Z := c + 96.

Definition frame_regs (f i : Z) : Z := f + 8 * i.
Definition frame_fp (f : Z) : Z := f + 232.
Definition frame_lr (f : Z) : Z := f + 240.
Definition frame_sp (f : Z) : Z := f + 248.
Definition frame_far (f : Z) : Z := f + 256.
Definition frame_esr (f : Z) : Z := f + 264.
Definition frame_elr (f : Z) : Z := f + 272.

Section Sched.
Context `{Symbols} `{Hardware}.

Definition sched_init : M unit := ret tt.

Definition __select_thread (active_thread : Z) : M Z :=
  let! m := get_mem in
  if list_is_last m (thread_threads active_thread) sym_threads
  then ret (list_first_entry m sym_threads thread_threads_offset)
  else ret (container_of (list_next m (thread_threads active_thread)) thread_threads_offset).

Definition sched_tail (thread : Z) : M unit :=
  let! stack := ld 8 (thread_stack thread) in
  let! n := machine_get_cpu_num in
  cpu_set_active_thread n thread ;!
  let! n := machine_get_cpu_num in
  cpu_set_active_stack n stack ;!
  machine_irq_enable.

(** The loads of [__fork64_exec], and its [ret] to [lr].  Register [x0] stays the
    address of the context, which is that of the thread. *)
Definition load_registers (context : Z) : M cpu_regs :=
  let! m := get_mem in
  ret {| r_pc := ld64 m (context_lr context);
         r_x := (fun i => ld64 m (context_x context i)) <$> seqZ 0 10;
         r_fp := ld64 m (context_fp context);
         r_lr := ld64 m (context_lr context);
         r_sp := ld64 m (context_sp context) |}.

(** [mov fp, xzr; bl sched_tail; blr x19].  [sched_tail] is a C function, so it keeps
    [x19] to [x28], [fp] and [sp]; the [blr] is the third instruction, and leaves the
    address after it in [lr]. *)
Definition __fork64_return (x0 : Z) (r : cpu_regs) : M unit :=
  sched_tail x0 ;!
  emit (EvFork x0 {| r_pc := hd 0 (r_x r); r_x := r_x r; r_fp := 0;
                     r_lr := u64 (sym_fork64_return + 12); r_sp := r_sp r |}).

Definition __fork64_exec (thread : Z) : M unit :=
  let! r := load_registers (thread_context thread) in
  if r_pc r =? sym_fork64_return then __fork64_return thread r
  else emit (EvFork thread r).

Definition thread_load_context (thread : Z) : M unit :=
  let context := thread_context thread in
  let! entry := ld 8 (thread_entry thread) in
  st 8 (context_x context 0) entry ;!
  let! args := ld 8 (thread_args thread) in
  st 8 (context_x context 1) args ;!
  let! stack := ld 8 (thread_stack thread) in
  st 8 (context_sp context) stack ;!
  st 8 (context_lr context) sym_fork64_return ;!
  __fork64_exec thread.

(** The registers [x19] to [x28]. *)
Definition save_registers (context frame : Z) : M unit :=
  for_range 0 10 (fun i =>
    let! r := ld 8 (frame_regs frame (19 + i)) in
    st 8 (context_x context i) r).

Definition thread_save_context (thread frame : Z) : M unit :=
  let context := thread_context thread in
  save_registers context frame ;!
  let! fp := ld 8 (frame_fp frame) in
  st 8 (context_fp context) fp ;!
  let! sp := ld 8 (frame_sp frame) in
  st 8 (context_sp context) sp ;!
  let! elr := sysreg_read elr_el1 in
  st 8 (thread_entry thread) elr ;!
  let! sp := ld 8 (context_sp context) in
  st 8 (thread_stack thread) sp.

Definition __schedule (fuel : nat) (frame : Z) : M unit :=
  machine_irq_disable ;!
  let! cpu := cpu_get_current in
  let! thread := ld 8 (cpu_cpu_active_thread cpu) in
  let! next_thread := __select_thread thread in
  let! next_thread :=
    loop fuel
      (fun next_thread =>
         let! m := get_mem in ret (negb (thread_state m next_thread =? THREAD_STATE_ACTIVE)))
      (fun next_thread => __select_thread thread)
      next_thread in
  let! task := ld 8 (thread_task next_thread) in
  set_current_task task ;!
  thread_save_context thread frame ;!
  thread_load_context next_thread.
End Sched.

(** ** The run queue

    [sched_ok s l c]: the threads on the global list are [l], in this order, and no
    two of them overlap, nor the head of the list and the data [c] of the CPU. *)
Section Queue.
Context `{Symbols} `{Hardware}.

Record sched_ok (m : memory) (l : list Z) (c : Z) : Prop := {
  so_list : dll m sym_threads (thread_threads <$> l);
  so_range : forall t, t ∈ l -> 0 < t /\ t + THREAD_SIZEOF < 2 ^ 64;
  so_apart : forall t t', t ∈ l -> t' ∈ l -> t <> t' -> apart t 288 t' 288;
  so_head : forall t, t ∈ l -> apart t 288 sym_threads 16;
  so_cpu : forall t, t ∈ l -> apart t 288 c 88;
  so_cpu_head : apart sym_threads 16 c 88;
}.

(** The bytes a switch from [t] to [t'] changes on the CPU with data [c]. *)
Definition thread_saved_bytes (t x : Z) : Prop :=
  within t 104 x \/ within (thread_stack t) 8 x \/ within (thread_entry t) 8 x.
Definition switch_bytes (c t t' x : Z) : Prop :=
  thread_saved_bytes t x \/ within t' 104 x \/ within (cpu_cpu_active_thread c) 16 x.

(** The thread after [t] on the circular list [l1 ++ t :: l2]. *)
Definition successor (l1 l2 : list Z) (t : Z) : Z := hd (hd t l1) l2.

Lemma successor_in l1 l2 t : successor l1 l2 t ∈ l1 ++ t :: l2.
Proof. unfold successor. destruct l2; simpl; [destruct l1; set_solver|set_solver]. Qed.

Ltac sched_unfold := unfold thread_context, context_x, context_fp, context_lr, context_sp,
  frame_regs, frame_fp, frame_sp, thread_stack, thread_entry, thread_args, thread_task,
  thread_threads, thread_threads_offset, thread_flags, cpu_cpu_active_thread,
  cpu_cpu_active_stack, THREAD_SIZEOF in *.

Lemma select_thread_run s l1 t l2 c :
  sched_ok (k_mem s) (l1 ++ t :: l2) c ->
  __select_thread t s = Done (successor l1 l2 t) s.
Proof.
  intros Hok. pose proof (so_list _ _ _ Hok) as Hd. rewrite fmap_app in Hd. simpl in Hd.
  unfold __select_thread. cbv beta iota delta [bind get_mem].
  rewrite (list_is_last_dll _ _ _ _ _ Hd). destruct (dll_node _ _ _ _ _ Hd) as [Hn _].
  unfold successor. case_bool_decide as El.
  - apply fmap_nil_inv in El as ->. unfold list_first_entry, list_entry, container_of, ret.
    rewrite (dll_head_next _ _ _ Hd). f_equal. destruct l1; simpl; unfold thread_threads; lia.
  - unfold container_of, ret. rewrite Hn. f_equal. destruct l2; [done|]. simpl.
    unfold thread_threads. lia.
Qed.

Lemma same_or_apart m l c t u :
  sched_ok m l c -> t ∈ l -> u ∈ l -> t = u \/ apart t 288 u 288.
Proof.
  intros Hok Ht Hu. destruct (decide (t = u)) as [E|Hne]; [by left|right].
  exact (so_apart _ _ _ Hok _ _ Ht Hu Hne).
Qed.

(** A switch moves no thread on or off the queue. *)
Lemma sched_ok_switch m m' l c t t' :
  sched_ok m l c -> t ∈ l -> t' ∈ l -> same_outside (switch_bytes c t t') m m' -> sched_ok m' l c.
Proof.
  intros Hok Ht Ht' Hs. pose proof Hok as [Hd Hr Ha Hh Hc Hch]. split; [|done..].
  eapply dll_same_outside; [exact Hs| |exact Hd].
  intros x (e & [->|He]%elem_of_cons & Hx) Hw.
  - pose proof (Hh _ Ht). pose proof (Hh _ Ht').
    unfold switch_bytes, thread_saved_bytes, within, apart, LIST_HEAD_SIZE in *. sched_unfold. lia.
  - apply list_elem_of_fmap in He as (u & -> & Hu).
    pose proof (same_or_apart _ _ _ t u Hok Ht Hu). pose proof (same_or_apart _ _ _ t' u Hok Ht' Hu).
    pose proof (Hc _ Hu).
    unfold switch_bytes, thread_saved_bytes, within, apart, LIST_HEAD_SIZE in *. sched_unfold. lia.
Qed.

(** ** Saving and loading a context *)

(** [ELR_EL1] reads as it was last set, by an exception or by [msr]. *)
Class ElrReads := mrs_elr : forall s, hw_mrs s elr_el1 = k_sys s elr_el1.

Lemma save_registers_run s t f :
  apart t 288 f 280 ->
  exists m, save_registers t f s = Done tt (set_mem m s) /\
    (forall i, 0 <= i < 10 -> ld64 m (context_x t i) = ld64 (k_mem s) (frame_regs f (19 + i))) /\
    same_outside (within t 80) (k_mem s) m.
Proof.
  intros Hap. unfold save_registers.
  use_for (fun i s' => exists m, s' = set_mem m s /\
    (forall j, 0 <= j < i -> ld64 m (context_x t j) = ld64 (k_mem s) (frame_regs f (19 + j))) /\
    same_outside (within t 80) (k_mem s) m) HL.
  destruct HL as (s' & E & m & -> & Hm & Hs).
  - exists (k_mem s). rewrite set_mem_id. split; [done|]. split; [lia|done].
  - intros i s' Hi (m & -> & Hm & Hs). eexists. split; [reflexivity|]. eexists. split; [reflexivity|].
    cbn [k_mem set_mem]. unfold context_x, frame_regs in *. split.
    + intros j Hj. destruct (decide (j = i)) as [->|Hne].
      * rewrite ld64_st64_eq, u64_id by apply ld64_range.
        apply (load_same_outside _ 8 _ _ _ Hs). unfold apart, within in *. lia.
      * rewrite load_store_apart by (unfold apart; lia). apply Hm. lia.
    + apply same_outside_store; [unfold within; lia|done].
  - exists m. split; [exact E|]. split; [intros i Hi; apply Hm; lia|done].
Qed.

Lemma thread_save_context_run `{!ElrReads} s t f :
  apart t 288 f 280 ->
  exists m, thread_save_context t f s = Done tt (set_mem m s) /\
    (forall i, 0 <= i < 10 -> ld64 m (context_x t i) = ld64 (k_mem s) (frame_regs f (19 + i))) /\
    ld64 m (context_fp t) = ld64 (k_mem s) (frame_fp f) /\
    ld64 m (thread_stack t) = ld64 (k_mem s) (frame_sp f) /\
    ld64 m (thread_entry t) = u64 (k_sys s elr_el1) /\
    same_outside (thread_saved_bytes t) (k_mem s) m.
Proof.
  intros Hap. destruct (save_registers_run s t f Hap) as (m & E & Hm & Hs).
  assert (Hf : forall a, f <= a -> a + 8 <= f + 280 -> ld64 m a = ld64 (k_mem s) a).
  { intros a Ha1 Ha2. apply (load_same_outside _ 8 _ _ _ Hs). unfold apart, within in *. lia. }
  eexists. split.
  - unfold thread_save_context, thread_context. rewrite (bind_done _ _ _ _ _ E).
    cbv beta iota delta [bind ld st upd_mem sysreg_read]. cbn [k_mem set_mem].
    rewrite mrs_elr. cbn [k_sys set_mem]. reflexivity.
  - sched_unfold. split_and!.
    + intros i Hi. mem_simpl. by apply Hm.
    + mem_simpl. rewrite u64_id by apply ld64_range. apply Hf; lia.
    + mem_simpl. rewrite u64_u64. rewrite load_store_apart by (unfold apart in *; lia).
      rewrite u64_id by apply ld64_range. apply Hf; lia.
    + mem_simpl. done.
    + unfold thread_saved_bytes. sched_unfold.
      do 4 (apply same_outside_store; [unfold within; lia|]).
      eapply same_outside_mono; [|exact Hs]. unfold within. lia.
Qed.

(** The registers a switch to thread [t] gives the CPU: it continues at the thread's
    entry with its stack.  [x19] and [x20] hold the entry and the argument, the
    others down to [x28] come from the context, the frame pointer is zero. *)
Definition switch_regs (m : memory) (t : Z) : cpu_regs :=
  {| r_pc := ld64 m (thread_entry t);
     r_x := ld64 m (thread_entry t) :: ld64 m (thread_args t) ::
            ((fun i => ld64 m (context_x t i)) <$> seqZ 2 8);
     r_fp := 0;
     r_lr := u64 (sym_fork64_return + 12);
     r_sp := ld64 m (thread_stack t) |}.

(** They are in the fields of the thread from [x21] on. *)
Lemma switch_regs_ext m m' t :
  (forall x, within (t + 16) 64 x \/ within (thread_stack t) 8 x \/ within (thread_entry t) 8 x \/
     within (thread_args t) 8 x -> rd m' x = rd m x) ->
  switch_regs m' t = switch_regs m t.
Proof.
  intros Hm. assert (Hl : forall a, (forall x, within a 8 x -> within (t + 16) 64 x \/ within (thread_stack t) 8 x \/
      within (thread_entry t) 8 x \/ within (thread_args t) 8 x) -> ld64 m' a = ld64 m a).
  { intros a Ha. apply load_ext. intros x Hx. by apply Hm, Ha. }
  unfold switch_regs. rewrite !Hl by auto. do 3 f_equal.
  apply list_fmap_ext. intros i j Hj. apply lookup_seqZ in Hj as [-> Hi]. apply Hl.
  intros x Hx. left. unfold context_x, within in *. lia.
Qed.

(** The state in which the CPU continues as thread [t]. *)
Definition forked (t : Z) (m : memory) (s : kstate) : kstate :=
  let v := Z.ldiff (k_sys s daif) DAIF_MASK_IRQ in
  emit_event (EvFork t (switch_regs m t)) (emit_event (EvSysreg daif v) (set_sys daif v (set_mem m s))).

Lemma sched_tail_run `{!Running mpidr} s t :
  let n := cpu_number mpidr in let c := cpu_get_cpu n in
  cpu_known s n -> n <= k_glob s cpu_count -> 0 < t < 2 ^ 64 -> apart t 288 c 88 ->
  exists m, sched_tail t s = machine_irq_enable (set_mem m s) /\
    ld64 m (cpu_cpu_active_thread c) = t /\
    ld64 m (cpu_cpu_active_stack c) = ld64 (k_mem s) (thread_stack t) /\
    same_outside (within (cpu_cpu_active_thread c) 16) (k_mem s) m.
Proof.
  intros n c Hk Hn Ht Hap. eexists. split.
  - unfold sched_tail. cbv beta iota delta [bind ld]. rewrite machine_get_cpu_num_done by done.
    fold n. unfold cpu_set_active_thread, cpu_set_active_stack, CPU_ASSERT_VALID_ID.
    cbv beta iota delta [bind get st upd_mem ret].
    destruct (Z.ltb_spec (k_glob s cpu_count) n); [lia|].
    destruct (Z.eqb_spec t THREAD_NULL) as [->|_]; [unfold THREAD_NULL in *; lia|].
    fold n c. rewrite (machine_get_cpu_num_done (set_mem _ s) Hk). fold n c. cbn [k_mem k_glob set_mem].
    destruct (Z.ltb_spec (k_glob s cpu_count) n); [lia|]. reflexivity.
  - cbn [k_mem set_mem]. sched_unfold. split_and!; mem_simpl; rewrite ?u64_id by (apply ld64_range || lia); try done.
    do 2 (apply same_outside_store; [unfold within; lia|]). done.
Qed.

(** What [thread_load_context] writes, and the registers it loads then. *)
Definition loaded (t : Z) (m : memory) : memory :=
  st64 (st64 (st64 (st64 m (context_x t 0) (ld64 m (thread_entry t)))
    (context_x t 1) (ld64 m (thread_args t))) (context_sp t) (ld64 m (thread_stack t)))
    (context_lr t) sym_fork64_return.

Lemma loaded_same t m :
  same_outside (fun x => within t 16 x \/ within (t + 88) 16 x) m (loaded t m) /\
  switch_regs (loaded t m) t = switch_regs m t.
Proof.
  assert (Hs : same_outside (fun x => within t 16 x \/ within (t + 88) 16 x) m (loaded t m)).
  { unfold loaded. sched_unfold. do 4 (apply same_outside_store; [unfold within; lia|]). done. }
  split; [exact Hs|]. apply switch_regs_ext. intros x Hx. symmetry. apply Hs.
  sched_unfold. unfold within in *. lia.
Qed.

Lemma context_registers m t :
  (fun i => ld64 m (context_x t i)) <$> seqZ 0 10 =
  ld64 m (context_x t 0) :: ld64 m (context_x t 1) :: ((fun i => ld64 m (context_x t i)) <$> seqZ 2 8).
Proof. reflexivity. Qed.

Definition loaded_context (t : Z) (m : memory) : cpu_regs :=
  {| r_pc := ld64 m (context_lr t); r_x := (fun i => ld64 m (context_x t i)) <$> seqZ 0 10;
     r_fp := ld64 m (context_fp t); r_lr := ld64 m (context_lr t); r_sp := ld64 m (context_sp t) |}.

Lemma loaded_regs t m :
  let r := loaded_context t (loaded t m) in
  {| r_pc := hd 0 (r_x r); r_x := r_x r; r_fp := 0; r_lr := u64 (sym_fork64_return + 12); r_sp := r_sp r |} =
  switch_regs (loaded t m) t.
Proof.
  cbv zeta. unfold loaded_context. cbn [r_x r_sp]. rewrite context_registers. unfold switch_regs. cbn [hd].
  assert (ld64 (loaded t m) (context_x t 0) = ld64 (loaded t m) (thread_entry t)) as ->.
  { unfold loaded. sched_unfold. mem_simpl. apply u64_id, ld64_range. }
  assert (ld64 (loaded t m) (context_x t 1) = ld64 (loaded t m) (thread_args t)) as ->.
  { unfold loaded. sched_unfold. mem_simpl. apply u64_id, ld64_range. }
  assert (ld64 (loaded t m) (context_sp t) = ld64 (loaded t m) (thread_stack t)) as ->; [|done].
  unfold loaded. sched_unfold. mem_simpl. apply u64_id, ld64_range.
Qed.

Lemma thread_load_context_eq s t :
  is_u64 sym_fork64_return ->
  thread_load_context t s =
    __fork64_return t (loaded_context t (loaded t (k_mem s))) (set_mem (loaded t (k_mem s)) s).
Proof.
  intros Hfork. transitivity (__fork64_exec t (set_mem (loaded t (k_mem s)) s)).
  - unfold thread_load_context, thread_context. cbv beta iota delta [bind ld st upd_mem]. cbn [k_mem set_mem].
    unfold loaded. sched_unfold. mem_simpl. reflexivity.
  - unfold __fork64_exec, load_registers, thread_context, bind, get_mem, ret. rewrite set_mem_mem. cbn [r_pc].
    assert (ld64 (loaded t (k_mem s)) (context_lr t) = sym_fork64_return) as E.
    { unfold loaded. sched_unfold. mem_simpl. by apply u64_id. }
    rewrite E, Z.eqb_refl. unfold loaded_context. by rewrite E.
Qed.

Lemma thread_load_context_run `{!Running mpidr} s t :
  let n := cpu_number mpidr in let c := cpu_get_cpu n in
  cpu_known s n -> n <= k_glob s cpu_count -> 0 < t -> t + 288 < 2 ^ 64 -> apart t 288 c 88 ->
  is_u64 sym_fork64_return ->
  exists m, thread_load_context t s = Done tt (forked t m s) /\
    switch_regs m t = switch_regs (k_mem s) t /\
    ld64 m (cpu_cpu_active_thread c) = t /\
    ld64 m (cpu_cpu_active_stack c) = ld64 (k_mem s) (thread_stack t) /\
    same_outside (fun x => within t 16 x \/ within (t + 88) 16 x \/
      within (cpu_cpu_active_thread c) 16 x) (k_mem s) m.
Proof.
  intros n c Hk Hn Ht Ht2 Hap Hfork. set (m1 := loaded t (k_mem s)).
  destruct (sched_tail_run (set_mem m1 s) t Hk Hn ltac:(lia) Hap) as (m & E & Ha & Hst & Hs).
  fold n c in E, Ha, Hst, Hs. cbn [k_mem set_mem] in Hst, Hs.
  destruct (loaded_same t (k_mem s)) as [Hs1 Hr1]. fold m1 in Hs1, Hr1.
  assert (Hr : switch_regs m t = switch_regs m1 t).
  { apply switch_regs_ext. intros x Hx. symmetry. apply Hs. sched_unfold. unfold apart, within in *. lia. }
  exists m. split; [|split; [by rewrite Hr|split; [exact Ha|split]]].
  - rewrite thread_load_context_eq by done. fold m1. unfold __fork64_return.
    pose proof (loaded_regs t (k_mem s)) as Hlr. cbv zeta in Hlr. fold m1 in Hlr.
    unfold bind. rewrite E. unfold forked. rewrite Hr, <- Hlr. reflexivity.
  - rewrite Hst. apply (load_same_outside _ 8 _ _ _ Hs1). sched_unfold. unfold within. lia.
  - eapply same_outside_trans; eapply same_outside_mono; [|exact Hs1| |exact Hs]; tauto.
Qed.

(** ** A tick of the scheduler *)

(** Thread [t] runs on the CPU of number [n] with data [c], and [l] is the queue. *)
Record running_thread (s : kstate) (n c : Z) (l : list Z) (t : Z) : Prop := {
  rt_known : cpu_known s n;
  rt_count : n <= k_glob s cpu_count;
  rt_queue : sched_ok (k_mem s) l c;
  rt_active : ld64 (k_mem s) (cpu_cpu_active_thread c) = t;
}.

(** What [thread_save_context] keeps of an interrupted thread. *)
Record saved (m0 m : memory) (t f elr : Z) : Prop := {
  sv_regs : forall i, 2 <= i < 10 -> ld64 m (context_x t i) = ld64 m0 (frame_regs f (19 + i));
  sv_fp : ld64 m (context_fp t) = ld64 m0 (frame_fp f);
  sv_stack : ld64 m (thread_stack t) = ld64 m0 (frame_sp f);
  sv_entry : ld64 m (thread_entry t) = elr;
}.

(** The state after the selection: interrupts masked, the current task set. *)
Definition selected (t : Z) (s : kstate) : kstate :=
  let v := Z.lor (k_sys s daif) DAIF_MASK_IRQ in
  set_glob current_task (ld64 (k_mem s) (thread_task t)) (emit_event (EvSysreg daif v) (set_sys daif v s)).

Lemma schedule_select `{!Running mpidr} fuel s f l1 t l2 :
  let n := cpu_number mpidr in let c := cpu_get_cpu n in
  running_thread s n c (l1 ++ t :: l2) t ->
  let t' := successor l1 l2 t in
  thread_state (k_mem s) t' = THREAD_STATE_ACTIVE ->
  __schedule fuel f s = (thread_save_context t f ;! thread_load_context t') (selected t' s).
Proof.
  intros n c [Hk Hn Hq Ha] t' Hst. unfold __schedule, machine_irq_disable, msr.
  set (v := Z.lor (k_sys s daif) DAIF_MASK_IRQ).
  set (s1 := emit_event (EvSysreg daif v) (set_sys daif v s)).
  unfold bind at 1. fold v s1. unfold cpu_get_current.
  unfold bind at 1 2. rewrite (machine_get_cpu_num_done s1 Hk). fold n c. unfold ret at 1.
  unfold bind at 1, ld at 1. change (k_mem s1) with (k_mem s). rewrite Ha.
  rewrite (bind_done _ _ s1 t' s1) by exact (select_thread_run s1 l1 t l2 c Hq).
  rewrite (bind_done _ _ s1 t' s1).
  2:{ apply loop_stop. unfold bind, get_mem, ret. change (k_mem s1) with (k_mem s). by rewrite Hst. }
  reflexivity.
Qed.

Lemma schedule_run `{!Running mpidr} `{!ElrReads} fuel s f l1 t l2 :
  let n := cpu_number mpidr in let c := cpu_get_cpu n in let l := l1 ++ t :: l2 in
  running_thread s n c l t -> apart t 288 f 280 -> is_u64 sym_fork64_return ->
  let t' := successor l1 l2 t in
  thread_state (k_mem s) t' = THREAD_STATE_ACTIVE ->
  exists m, __schedule fuel f s = Done tt (forked t' m (selected t' s)) /\
    sched_ok m l c /\ ld64 m (cpu_cpu_active_thread c) = t' /\
    (forall u, u ∈ l -> thread_state m u = thread_state (k_mem s) u) /\
    (t' <> t -> saved (k_mem s) m t f (u64 (k_sys s elr_el1)) /\ switch_regs m t' = switch_regs (k_mem s) t') /\
    same_outside (switch_bytes c t t') (k_mem s) m.
Proof.
  intros n c l Hr Hf Hfork t' Hst. rewrite (schedule_select fuel s f l1 t l2 Hr Hst). fold t'.
  destruct Hr as [Hk Hn Hq Ha]. assert (Ht : t ∈ l) by set_solver.
  pose proof (successor_in l1 l2 t) as Ht'. fold t' l in Ht'.
  destruct (so_range _ _ _ Hq _ Ht') as [Hr1 Hr2]. pose proof (so_cpu _ _ _ Hq _ Ht') as Hc'.
  destruct (thread_save_context_run (selected t' s) t f Hf) as (m1 & E1 & Hx & Hfp & Hsp & Hel & Hs1).
  change (k_mem (selected t' s)) with (k_mem s) in *.
  assert (Hk1 : cpu_known (set_mem m1 (selected t' s)) n) by exact Hk.
  destruct (thread_load_context_run (set_mem m1 (selected t' s)) t' Hk1)
    as (m & E2 & Hregs & Hact & _ & Hs2); [done|done|done|done|done|].
  fold n c in Hact, Hs2. cbn [k_mem set_mem] in Hregs, Hs2.
  assert (Hs : same_outside (switch_bytes c t t') (k_mem s) m).
  { unfold switch_bytes, thread_saved_bytes. sched_unfold.
    eapply same_outside_trans; eapply same_outside_mono; [|exact Hs1| |exact Hs2]; intros x;
      unfold thread_saved_bytes, within; sched_unfold; lia. }
  exists m. rewrite (bind_done _ _ _ _ _ E1). split; [exact E2|].
  split; [eapply sched_ok_switch; [exact Hq|exact Ht|exact Ht'|exact Hs]|]. split; [done|].
  split; [|split; [|done]].
  - intros u Hu. unfold thread_state. f_equal. apply (load_same_outside _ 4 _ _ _ Hs).
    pose proof (same_or_apart _ _ _ t u Hq Ht Hu). pose proof (same_or_apart _ _ _ t' u Hq Ht' Hu).
    pose proof (so_cpu _ _ _ Hq _ Hu).
    unfold switch_bytes, thread_saved_bytes, within, apart in *. sched_unfold. lia.
  - intros Hne. pose proof (so_apart _ _ _ Hq _ _ Ht' Ht Hne). pose proof (so_cpu _ _ _ Hq _ Ht).
    assert (Hl : forall a, t <= a -> a + 8 <= t + 288 -> ld64 m a = ld64 m1 a).
    { intros a Ha1 Ha2. apply (load_same_outside _ 8 _ _ _ Hs2).
      unfold within, apart in *. sched_unfold. lia. }
    split.
    + split; [intros i Hi|..]; rewrite Hl by (sched_unfold; lia);
        [apply Hx; lia|exact Hfp|exact Hsp|exact Hel].
    + rewrite Hregs. apply switch_regs_ext. intros x Hw. symmetry. apply Hs1.
      unfold thread_saved_bytes. sched_unfold. unfold apart, within in *. lia.
Qed.

(** An inactive successor: it is selected again and again. *)
Lemma schedule_stuck `{!Running mpidr} fuel s f l1 t l2 :
  let n := cpu_number mpidr in let c := cpu_get_cpu n in
  running_thread s n c (l1 ++ t :: l2) t ->
  thread_state (k_mem s) (successor l1 l2 t) <> THREAD_STATE_ACTIVE ->
  __schedule fuel f s = Diverged.
Proof.
  intros n c [Hk Hn Hq Ha] Hst. unfold __schedule, machine_irq_disable, msr.
  set (v := Z.lor (k_sys s daif) DAIF_MASK_IRQ).
  set (s1 := emit_event (EvSysreg daif v) (set_sys daif v s)).
  unfold bind at 1. fold v s1. unfold cpu_get_current.
  unfold bind at 1 2. rewrite (machine_get_cpu_num_done s1 Hk). fold n c. unfold ret at 1.
  unfold bind at 1, ld at 1. change (k_mem s1) with (k_mem s). rewrite Ha.
  rewrite (bind_done _ _ s1 _ s1) by exact (select_thread_run s1 l1 t l2 c Hq).
  unfold bind at 1. rewrite loop_stuck; [done| |exact (select_thread_run s1 l1 t l2 c Hq)].
  unfold bind, get_mem, ret. change (k_mem s1) with (k_mem s).
  by destruct (Z.eqb_spec (thread_state (k_mem s) (successor l1 l2 t)) THREAD_STATE_ACTIVE).
Qed.

(** ** Time slices *)
Lemma list_lookup_length_middle {A} (l : list A) i x :
  l !! i = Some x -> exists l1 l2, l = l1 ++ x :: l2 /\ length l1 = i.
Proof.
  intros Hi. exists (take i l), (drop (S i) l). split; [by rewrite take_drop_middle|].
  apply length_take_le. apply lookup_lt_Some in Hi. lia.
Qed.


(** The bytes the scheduler depends on, and a thread's execution between two
    ticks, which leaves them alone. *)
Definition queue_bytes (l : list Z) (c x : Z) : Prop :=
  within sym_threads 16 x \/ within c 88 x \/ exists t, t ∈ l /\ within t 288 x.
Record executes (l : list Z) (c : Z) (s s' : kstate) : Prop := {
  ex_mem : forall x, queue_bytes l c x -> rd (k_mem s') x = rd (k_mem s) x;
  ex_glob : forall g, g ∈ [cpu_count; topology_num_cpus; topology_max_cpu_id] ->
    k_glob s' g = k_glob s g;
}.

(** Time slices: before tick [i] the running thread executes as [env i] says; the
    timer interrupt then saves its registers in the frame at [frame i] and calls
    the scheduler. *)
Fixpoint ticks (fuel : nat) (env : nat -> kstate -> kstate) (frame : nat -> Z) (k : nat) : M unit :=
  match k with
  | O => ret tt
  | S k => ticks fuel env frame k ;! fun s => __schedule fuel (frame k) (env k s)
  end.

(** The threads leave the scheduler's data alone, and so do the frames. *)
Record slices_ok (l : list Z) (c : Z) (env : nat -> kstate -> kstate) (frame : nat -> Z) : Prop := {
  sl_executes : forall i s, executes l c s (env i s);
  sl_frame : forall i t, t ∈ l -> apart t 288 (frame i) 280;
}.

(** The CPU has just gone over to thread [u]. *)
Definition continues_as (s : kstate) (u : Z) : Prop :=
  head (k_trace s) = Some (EvFork u (switch_regs (k_mem s) u)).

Definition all_active (m : memory) (l : list Z) : Prop :=
  forall t, t ∈ l -> thread_state m t = THREAD_STATE_ACTIVE.

Lemma executes_running n l c s s1 t :
  executes l c s s1 -> running_thread s n c l t -> running_thread s1 n c l t.
Proof.
  intros [Hm Hg] [Hk Hn Hq Ha].
  assert (Hs : same_outside (fun x => ~ queue_bytes l c x) (k_mem s) (k_mem s1)).
  { intros x Hx. symmetry. destruct (decide (within sym_threads 16 x)); [apply Hm; by left|].
    destruct (decide (within c 88 x)); [apply Hm; right; by left|].
    destruct (decide (Exists (fun t => within t 288 x) l)) as [He|He].
    - apply Exists_exists in He as (u & ? & ?). apply Hm. right; right. by exists u.
    - exfalso. apply Hx. intros [?|[?|(u & ? & ?)]]; [done..|]. apply He, Exists_exists. by exists u. }
  split.
  - unfold cpu_known in *. by rewrite !Hg by set_solver.
  - by rewrite Hg by set_solver.
  - destruct Hq as [Hd Hr Hap Hh Hc Hch]. split; [|done..].
    eapply dll_same_outside; [exact Hs| |exact Hd]. intros x (e & [->|He]%elem_of_cons & Hx) Hw; apply Hw.
    + by left.
    + apply list_elem_of_fmap in He as (u & -> & Hu). right; right. exists u. split; [done|].
      unfold within, LIST_HEAD_SIZE in *. sched_unfold. lia.
  - rewrite <- Ha. apply (load_same_outside _ 8 _ _ _ Hs). intros x Hx Hw. apply Hw. right; left.
    unfold within in *. sched_unfold. lia.
Qed.

Lemma executes_active l c s s1 :
  executes l c s s1 -> all_active (k_mem s) l -> all_active (k_mem s1) l.
Proof.
  intros [Hm _] Ha t Ht. rewrite <- Ha by done. unfold thread_state. f_equal. apply load_ext.
  intros x Hx. apply Hm. right; right. exists t. split; [done|].
  unfold within in *. sched_unfold. lia.
Qed.

Lemma successor_lookup l1 l2 t :
  let l := l1 ++ t :: l2 in l !! (S (length l1) mod length l)%nat = Some (successor l1 l2 t).
Proof.
  simpl. rewrite length_app. simpl. unfold successor. destruct l2 as [|u l2]; simpl.
  - rewrite Nat.add_1_r, Nat.Div0.mod_same. by destruct l1.
  - rewrite Nat.mod_small by lia. rewrite lookup_app_r by lia.
    by replace (S (length l1) - length l1)%nat with 1%nat by lia.
Qed.

Lemma slice_run `{!Running mpidr} `{!ElrReads} fuel s s1 f l i t :
  let n := cpu_number mpidr in let c := cpu_get_cpu n in
  is_u64 sym_fork64_return -> running_thread s n c l t -> all_active (k_mem s) l ->
  l !! i = Some t -> executes l c s s1 -> (forall t, t ∈ l -> apart t 288 f 280) ->
  exists s' u, __schedule fuel f s1 = Done tt s' /\ l !! (S i mod length l)%nat = Some u /\
    running_thread s' n c l u /\ all_active (k_mem s') l /\ continues_as s' u.
Proof.
  intros n c Hfork Hr Ha Hi Hex Hf.
  pose proof (executes_running _ _ _ _ _ _ Hex Hr) as Hr1. apply (executes_active _ _ _ _ Hex) in Ha.
  pose proof (list_lookup_length_middle l i t Hi) as (l1 & l2 & -> & <-).
  set (u := successor l1 l2 t). pose proof (successor_in l1 l2 t) as Hu. fold u in Hu.
  destruct (schedule_run fuel s1 f l1 t l2 Hr1) as (m & E & Hq & Hact & Hst & _ & _).
  - apply Hf. set_solver.
  - done.
  - by apply Ha.
  - fold u in E, Hact. exists (forked u m (selected u s1)), u.
    split; [exact E|]. split; [apply successor_lookup|]. destruct Hr1 as [Hk Hn _ _]. split; [|split].
    + split; [exact Hk|exact Hn|exact Hq|exact Hact].
    + intros v Hv. cbn [forked k_mem emit_event set_sys set_mem]. rewrite Hst by done. by apply Ha.
    + done.
Qed.

Lemma ticks_run `{!Running mpidr} `{!ElrReads} fuel env frame s l i t k :
  let n := cpu_number mpidr in let c := cpu_get_cpu n in
  is_u64 sym_fork64_return -> running_thread s n c l t -> all_active (k_mem s) l ->
  l !! i = Some t -> slices_ok l c env frame ->
  exists s' u, ticks fuel env frame k s = Done tt s' /\ l !! ((k + i) mod length l)%nat = Some u /\
    running_thread s' n c l u /\ all_active (k_mem s') l /\ (k <> 0%nat -> continues_as s' u).
Proof.
  intros n c Hfork Hr Ha Hi [Hex Hf]. induction k as [|k (s1 & u & E & Hu & Hr1 & Ha1 & _)].
  - exists s, t. rewrite Nat.mod_small by (simpl; by eapply lookup_lt_Some). by split_and!.
  - destruct (slice_run fuel s1 (env k s1) (frame k) l _ u Hfork Hr1 Ha1 Hu (Hex k s1) (Hf k))
      as (s2 & v & E2 & Hv & Hr2 & Ha2 & Hc).
    exists s2, v. cbn [ticks]. rewrite (bind_done _ _ _ _ _ E). split_and!; try done.
    rewrite <- Hv. f_equal. symmetry. exact (Nat.Div0.add_mod_idemp_r 1 (k + i) (length l)).
Qed.
End Queue.

(** ** Correctness *)
Section Properties.
Context `{Symbols} `{Hardware} `{!Running mpidr} `{!ElrReads}.
Hypothesis Hfork : is_u64 sym_fork64_return.
Let n := cpu_number mpidr.
Let c := cpu_get_cpu n.

(** (C4) A tick selects the successor of the running thread [t] on the circular list of
    all threads.  If it is active the tick ends with the CPU continuing as the
    successor, with the registers [switch_regs] of it: interrupts are unmasked, the
    successor is the active thread and its task the current task; the registers
    [x21] to [x28], the frame and stack pointers and the address of the interrupted
    instruction are in [t], as long as [t] is another thread, and the queue, all other
    memory, the other globals and the other system registers are as they were.  If it is
    not active the tick never ends: the loop selects the successor of the running
    thread again, not that of the one it has rejected. *)
Theorem schedule_correct fuel s f l1 t l2 :
  let l := l1 ++ t :: l2 in let t' := successor l1 l2 t in let d := k_sys s daif in
  running_thread s n c l t -> apart t 288 f 280 ->
  (thread_state (k_mem s) t' = THREAD_STATE_ACTIVE ->
    exists s', __schedule fuel f s = Done tt s' /\ running_thread s' n c l t' /\
      k_trace s' = [EvFork t' (switch_regs (k_mem s') t'); EvSysreg daif (Z.ldiff d DAIF_MASK_IRQ);
                    EvSysreg daif (Z.lor d DAIF_MASK_IRQ)] ++ k_trace s /\
      (t' <> t -> saved (k_mem s) (k_mem s') t f (u64 (k_sys s elr_el1)) /\
         switch_regs (k_mem s') t' = switch_regs (k_mem s) t') /\
      same_outside (switch_bytes c t t') (k_mem s) (k_mem s') /\
      (forall g, k_glob s' g = if decide (g = current_task) then ld64 (k_mem s) (thread_task t') else k_glob s g) /\
      (forall r, k_sys s' r = if decide (r = daif) then Z.ldiff d DAIF_MASK_IRQ else k_sys s r)) /\
  (thread_state (k_mem s) t' <> THREAD_STATE_ACTIVE -> __schedule fuel f s = Diverged).
Proof.
  intros l t' d Hr Hf. split; [intros Hst|exact (schedule_stuck fuel s f l1 t l2 Hr)].
  pose proof Hr as [Hk Hn _ _].
  destruct (schedule_run fuel s f l1 t l2 Hr Hf Hfork Hst) as (m & E & Hq & Ha & _ & Hsv & Hs).
  exists (forked t' m (selected t' s)). split; [exact E|]. split; [split; [exact Hk|exact Hn|exact Hq|exact Ha]|].
  split; [|split; [exact Hsv|split; [exact Hs|split; [done|]]]].
  - cbn [forked k_trace k_mem emit_event set_sys set_mem k_sys selected set_glob]. rewrite decide_True by done.
    by rewrite ldiff_lor.
  - intros r. cbn [forked k_sys emit_event set_sys set_mem selected set_glob].
    destruct (decide (r = daif)) as [->|]; [|done]. rewrite decide_True by done. by rewrite ldiff_lor.
Qed.

(** (C5) While all threads of the queue are active the scheduler is fair: whichever
    thread runs now and whatever the threads do in their time slices, every thread of
    the queue gets the CPU after at most as many ticks as the queue is long, always
    the same number for it, and each of these ticks ends. *)
Theorem schedule_fair s l t :
  running_thread s n c l t -> t ∈ l -> all_active (k_mem s) l ->
  forall u, u ∈ l -> exists k, (0 < k <= length l)%nat /\
    forall fuel env frame, slices_ok l c env frame ->
      exists s', ticks fuel env frame k s = Done tt s' /\ running_thread s' n c l u /\ continues_as s' u.
Proof.
  intros Hr (i & Hi)%list_elem_of_lookup Ha u (j & Hj)%list_elem_of_lookup.
  pose proof (lookup_lt_Some _ _ _ Hi). pose proof (lookup_lt_Some _ _ _ Hj).
  assert (exists k, (0 < k <= length l)%nat /\ (k + i) mod length l = j)%nat as (k & Hk & Hkj).
  { destruct (decide (i < j)%nat) as [?|?].
    - exists (j - i)%nat. split; [lia|]. replace (j - i + i)%nat with j by lia. by apply Nat.mod_small.
    - exists (length l + j - i)%nat. split; [lia|].
      replace (length l + j - i + i)%nat with (j + 1 * length l)%nat by lia.
      rewrite Nat.Div0.mod_add. by apply Nat.mod_small. }
  exists k. split; [done|]. intros fuel env frame Hsl.
  destruct (ticks_run fuel env frame s l i t k Hfork Hr Ha Hi Hsl) as (s' & v & E & Hv & Hrv & _ & Hc).
  rewrite Hkj, Hj in Hv. injection Hv as <-. exists s'. split_and!; [done|done|]. apply Hc. lia.
Qed.

End Properties.

(** ** Witnesses: two threads, the first of them running *)
Definition demo_thread1 : Z := DEMO_VIRT + 0x120000.
Definition demo_thread2 : Z := DEMO_VIRT + 0x120200.
Definition demo_frame : Z := DEMO_VIRT + 0x130000.
Definition demo_queue (state2 : Z) : kstate :=
  let h := DEMO_VIRT + 0x112040 in let c := DEMO_VIRT + 0x113000 in
  let m := INIT_LIST_HEAD ∅ h in
  let m := list_add_tail m (thread_threads demo_thread1) h in
  let m := list_add_tail m (thread_threads demo_thread2) h in
  let m := set_thread_state demo_thread1 THREAD_STATE_ACTIVE m in
  let m := set_thread_state demo_thread2 state2 m in
  set_mem (st64 m (cpu_cpu_active_thread c) demo_thread1) demo_state.

Lemma demo_running_thread v :
  v = THREAD_STATE_ACTIVE \/ v = THREAD_STATE_INACTIVE ->
  @running_thread demo_symbols (demo_queue v) 0 (DEMO_VIRT + 0x113000)
    [demo_thread1; demo_thread2] demo_thread1.
Proof.
  intros Hv. split.
  - left. vm_compute. congruence.
  - vm_compute. congruence.
  - split.
    + apply dllb_sound. destruct Hv as [->| ->]; vm_compute; reflexivity.
    + intros t Ht. rewrite !elem_of_cons, elem_of_nil in Ht.
      destruct Ht as [->|[->|[]]]; vm_compute; split; congruence.
    + intros t t' Ht Ht' Hne. rewrite !elem_of_cons, elem_of_nil in Ht, Ht'. unfold apart.
      destruct Ht as [->|[->|[]]], Ht' as [->|[->|[]]]; try done;
        unfold demo_thread1, demo_thread2; lia.
    + intros t Ht. rewrite !elem_of_cons, elem_of_nil in Ht.
      change sym_threads with (DEMO_VIRT + 0x112040). unfold apart.
      destruct Ht as [->|[->|[]]]; unfold demo_thread1, demo_thread2; lia.
    + intros t Ht. rewrite !elem_of_cons, elem_of_nil in Ht. unfold apart.
      destruct Ht as [->|[->|[]]]; unfold demo_thread1, demo_thread2; lia.
    + change sym_threads with (DEMO_VIRT + 0x112040). unfold apart. lia.
  - destruct Hv as [->| ->]; vm_compute; reflexivity.
Qed.

#[export] Instance demo_elr_reads : @ElrReads demo_hardware.
Proof. done. Qed.
Lemma demo_fork_u64 : is_u64 (@sym_fork64_return demo_symbols).
Proof. vm_compute. split; congruence. Qed.

(** The first thread hands over to the second, or hangs when that is inactive. *)
Lemma schedule_correct_witness :
  let _ := demo_symbols in let _ := demo_hardware in
  (exists s', __schedule 0 demo_frame (demo_queue THREAD_STATE_ACTIVE) = Done tt s' /\
    ld64 (k_mem s') (DEMO_VIRT + 0x113040) = demo_thread2 /\
    head (k_trace s') = Some (EvFork demo_thread2 (switch_regs (k_mem (demo_queue THREAD_STATE_ACTIVE)) demo_thread2))) /\
  __schedule 100 demo_frame (demo_queue THREAD_STATE_INACTIVE) = Diverged.
Proof.
  intros sy hw. split.
  - destruct (@schedule_correct sy hw 0x80000000 demo_running demo_elr_reads demo_fork_u64 0
      (demo_queue THREAD_STATE_ACTIVE) demo_frame [] demo_thread1 [demo_thread2]) as [Hc _].
    + apply demo_running_thread. by left.
    + left. vm_compute. congruence.
    + destruct Hc as (s' & E & Hr & Ht & Hsv & _); [vm_compute; reflexivity|].
      exists s'. split; [exact E|]. split; [exact (rt_active _ _ _ _ _ Hr)|]. rewrite Ht. cbn [app head].
      destruct Hsv as [_ Hsv]; [unfold successor, demo_thread1, demo_thread2; cbn [hd]; lia|]. by rewrite Hsv.
  - apply (@schedule_correct sy hw 0x80000000 demo_running demo_elr_reads demo_fork_u64 100
      (demo_queue THREAD_STATE_INACTIVE) demo_frame [] demo_thread1 [demo_thread2]).
    + apply demo_running_thread. by right.
    + left. vm_compute. congruence.
    + vm_compute. congruence.
Defined.

(** Threads that print a line in each of their slices. *)
Definition demo_env (i : nat) (s : kstate) : kstate := emit_event (EvPrint "slice %d\n" [Z.of_nat i]) s.
Lemma demo_slices_ok : @slices_ok demo_symbols [demo_thread1; demo_thread2] (DEMO_VIRT + 0x113000) demo_env (fun _ => demo_frame).
Proof.
  split; [done|]. intros i t Ht. rewrite !elem_of_cons, elem_of_nil in Ht. unfold apart.
  destruct Ht as [->|[->|[]]]; unfold demo_thread1, demo_thread2, demo_frame; lia.
Qed.

Lemma schedule_fair_witness :
  let _ := demo_symbols in let _ := demo_hardware in
  exists k s', (0 < k <= 2)%nat /\
    ticks 0 demo_env (fun _ => demo_frame) k (demo_queue THREAD_STATE_ACTIVE) = Done tt s' /\
    continues_as s' demo_thread1.
Proof.
  intros sy hw.
  destruct (@schedule_fair sy hw 0x80000000 demo_running demo_elr_reads demo_fork_u64
    (demo_queue THREAD_STATE_ACTIVE) [demo_thread1; demo_thread2] demo_thread1) with (u := demo_thread1)
    as (k & Hk & Hs).
  - apply demo_running_thread. by left.
  - by left.
  - intros t Ht. rewrite !elem_of_cons, elem_of_nil in Ht.
    destruct Ht as [->|[->|[]]]; vm_compute; reflexivity.
  - by left.
  - destruct (Hs 0%nat demo_env (fun _ => demo_frame) demo_slices_ok) as (s' & E & _ & Hc).
    exists k, s'. split; [exact Hk|]. split; [exact E|exact Hc].
Defined.

