(* ===== verification/ThreadSpec.v ===== *)
(** * ThreadSpec: the life of a thread (kern/thread.c, kern/mm/stack.c)

    Threads and stack records come from zones, stacks from the kernel map, and every
    thread is on the list of its task and on the list of the scheduler. [thread_sys] is
    the invariant that ties these together; creation and destruction of a thread keep
    it, and the scheduler of Sched.v needs no more than it says. *)
From Stdlib Require Import ZArith Lia.
From stdpp Require Import prelude gmap list strings.
From S2P Require Import Prelude Memory LinkedList TString Kernel Pmap VmPage VmMap Vm Heap Zalloc Machine Cpu Task Thread Sched.
Open Scope Z_scope.
Open Scope monix_scope.

(** ** Elements of a zone, by ranges of offsets *)
Definition elem_range (e lo hi x : Z) : Prop := e + 16 + lo <= x < e + 16 + hi.
Definition other_range (base size n f lo hi x : Z) : Prop :=
  exists e, e ∈ slots base size n /\ e <> f /\ elem_range e lo hi x.

Lemma within_range e lo hi b n x :
  e + 16 + lo <= b -> b + Z.of_nat n <= e + 16 + hi -> within b n x -> elem_range e lo hi x.
Proof. unfold within, elem_range. lia. Qed.

Lemma elems_apart base size n e e' :
  0 < size -> e ∈ slots base size n -> e' ∈ slots base size n -> e <> e' ->
  e + 16 + size <= e' \/ e' + 16 + size <= e.
Proof.
  intros Hs (i & Hi & ->)%elem_of_slots (j & Hj & ->)%elem_of_slots Hne. unfold ZONE_METADATA_SIZEOF in *.
  assert (i < j \/ j < i) as [?|?] by (destruct (Z.lt_trichotomy i j) as [?|[->|?]]; [tauto|done|tauto]); nia.
Qed.

Section Layout.
Context `{Symbols} `{Hardware} `{!Heap kernel_vm_map}.

(** The descriptor, first block and number of elements of the two zones, the parent
    task, the data of the CPU, and the name with its length. *)
Context (tz tb tn sz sb sn task c name : Z) (nl : nat).

Definition zone_area (zone base n size x : Z) : Prop :=
  zone_own zone base n size x \/ exists e, e ∈ slots base size n /\ elem_range e 0 size x.
Definition heap_area (v k x : Z) : Prop := heap_own x \/ v <= x < v + VM_PAGE_SIZE * k.

(** The areas of memory that must not meet. *)
Definition thread_areas (v k : Z) : list (Z -> Prop) :=
  [zone_area tz tb tn THREAD_SIZEOF; zone_area sz sb sn STACK_SIZEOF; within sym_stacks 16; within sym_threads 16;
   within (task_threads task) 16; heap_area v k; within c 88; within name (S nl)].

(** The same areas, cut around the blocks [f] and [g] of a new thread and its stack. *)
Definition thread_regions (f g v k : Z) : list (Z -> Prop) :=
  let others := other_range tb THREAD_SIZEOF tn f in
  [zone_own tz tb tn THREAD_SIZEOF;
   (fun x => elem_range f 0 136 x \/ elem_range f 168 THREAD_SIZEOF x); elem_range f 136 152; elem_range f 152 168;
   (fun x => others 0 136 x \/ others 168 THREAD_SIZEOF x); others 136 152; others 152 168;
   zone_own sz sb sn STACK_SIZEOF;
   elem_range g 0 STACK_SIZEOF; other_range sb STACK_SIZEOF sn g 0 STACK_SIZEOF;
   within sym_stacks 16; within sym_threads 16; within (task_threads task) 16;
   heap_area v k; within c 88; within name (S nl)].

Definition area_of (i : nat) : nat := nth i [0; 0; 0; 0; 0; 0; 0; 1; 1; 1; 2; 3; 4; 5; 6; 7]%nat 8%nat.

Lemma region_area f g v k i P x :
  f ∈ slots tb THREAD_SIZEOF tn -> g ∈ slots sb STACK_SIZEOF sn ->
  thread_regions f g v k !! i = Some P -> P x ->
  exists A, thread_areas v k !! area_of i = Some A /\ A x.
Proof.
  intros Hf Hg Hi HP. unfold thread_regions, thread_areas, area_of, zone_area in *.
  assert (HT : THREAD_SIZEOF = 288) by done. assert (HS : STACK_SIZEOF = 24) by done.
  assert (Hr : forall e lo hi z, elem_range e lo hi x -> 0 <= lo -> hi <= z -> elem_range e 0 z x).
  { unfold elem_range. lia. }
  assert (Ho : forall b z n h lo hi, other_range b z n h lo hi x -> 0 <= lo -> hi <= z ->
    exists e, e ∈ slots b z n /\ elem_range e 0 z x).
  { intros b z n h lo hi (e & He & _ & Hx) H1 H2. exists e. split; [done|]. by apply (Hr e lo hi). }
  do 16 (destruct i as [|i]; [injection Hi as <-; eexists; split; [reflexivity|];
    first [exact HP|by left|right; first
      [eexists; split; [eassumption|first [eapply Hr; [exact HP|lia|lia]|destruct HP as [HP|HP]; (eapply Hr; [exact HP|lia|lia])]]
      |first [eapply Ho; [exact HP|lia|lia]|destruct HP as [HP|HP]; (eapply Ho; [exact HP|lia|lia])]]]|]).
  done.
Qed.

(** Two parts of one zone. *)
Lemma own_elem m zone base n size free used e x :
  zone_ok m zone base n size free used -> e ∈ slots base size n -> elem_range e 0 size x -> ~ zone_own zone base n size x.
Proof.
  intros Hok He Hx. apply (elem_bytes_apart m zone base n size free used e Hok He). unfold elem_bytes, elem_range in *. lia.
Qed.
Lemma elem_elem base size n e e' x :
  0 < size -> e ∈ slots base size n -> e' ∈ slots base size n ->
  elem_range e 0 size x -> elem_range e' 0 size x -> e = e'.
Proof.
  intros Hs He He' Hx Hx'. destruct (decide (e = e')); [done|]. destruct (elems_apart base size n e e') as [?|?];
    try done; unfold elem_range in *; lia.
Qed.

(** Parts of the block [f] and of the other blocks of a zone do not meet. *)
Lemma zone_parts m zone base n size free used f x :
  zone_ok m zone base n size free used -> f ∈ slots base size n ->
  (forall lo hi, 0 <= lo -> hi <= size -> elem_range f lo hi x -> ~ zone_own zone base n size x) /\
  (forall lo hi, 0 <= lo -> hi <= size -> other_range base size n f lo hi x -> ~ zone_own zone base n size x) /\
  (forall lo hi lo' hi', 0 <= lo -> hi <= size -> 0 <= lo' -> hi' <= size ->
    elem_range f lo hi x -> ~ other_range base size n f lo' hi' x) /\
  (forall lo hi lo' hi', 0 <= lo -> hi <= size -> 0 <= lo' -> hi' <= size -> hi <= lo' \/ hi' <= lo ->
    other_range base size n f lo hi x -> ~ other_range base size n f lo' hi' x).
Proof.
  intros Hok Hf. assert (Hs : 0 < size) by apply (zo_size _ _ _ _ _ _ _ Hok).
  assert (Hr : forall e lo hi, 0 <= lo -> hi <= size -> elem_range e lo hi x -> elem_range e 0 size x) by (unfold elem_range; lia).
  split_and!.
  - intros lo hi H1 H2 Hx. apply (own_elem m zone base n size free used f); [done|done|by apply (Hr f lo hi)].
  - intros lo hi H1 H2 (e & He & _ & Hx). apply (own_elem m zone base n size free used e); [done|done|by apply (Hr e lo hi)].
  - intros lo hi lo' hi' H1 H2 H3 H4 Hx (e & He & Hne & Hx'). apply Hne.
    apply (elem_elem base size n e f x); [done|done|done|by apply (Hr e lo' hi')|by apply (Hr f lo hi)].
  - intros lo hi lo' hi' H1 H2 H3 H4 Hlt (e & He & _ & Hx) (e' & He' & _ & Hx').
    assert (e = e') as -> by (apply (elem_elem base size n e e' x); [done|done|done|by apply (Hr e lo hi)|by apply (Hr e' lo' hi')]).
    unfold elem_range in *. lia.
Qed.

Ltac region_clash K1 K2 K3 K4 HT HP HQ :=
  repeat match type of HP with _ \/ _ => destruct HP as [HP|HP] end;
  repeat match type of HQ with _ \/ _ => destruct HQ as [HQ|HQ] end;
  first
    [ unfold elem_range in HP, HQ; lia
    | by (eapply K1; [| |exact HP|exact HQ]; rewrite ?HT; lia)
    | by (eapply K1; [| |exact HQ|exact HP]; rewrite ?HT; lia)
    | by (eapply K2; [| |exact HP|exact HQ]; rewrite ?HT; lia)
    | by (eapply K2; [| |exact HQ|exact HP]; rewrite ?HT; lia)
    | by (eapply K3; [| | | |exact HP|exact HQ]; rewrite ?HT; lia)
    | by (eapply K3; [| | | |exact HQ|exact HP]; rewrite ?HT; lia)
    | by (eapply K4; [| | | | |exact HP|exact HQ]; rewrite ?HT; lia) ].

Lemma thread_regions_disjoint m f g v k tfree tused sfree sused :
  zone_ok m tz tb tn THREAD_SIZEOF tfree tused -> zone_ok m sz sb sn STACK_SIZEOF sfree sused ->
  f ∈ slots tb THREAD_SIZEOF tn -> g ∈ slots sb STACK_SIZEOF sn ->
  regions_disjoint (thread_areas v k) -> regions_disjoint (thread_regions f g v k).
Proof.
  intros Ht Hs Hf Hg Hd i j P Q x Hne Hi Hj HP HQ.
  destruct (region_area f g v k i P x Hf Hg Hi HP) as (A & HA & HxA).
  destruct (region_area f g v k j Q x Hf Hg Hj HQ) as (B & HB & HxB).
  destruct (decide (area_of i = area_of j)) as [Ea|Ea]; [|exact (Hd _ _ A B x Ea HA HB HxA HxB)].
  clear A B HA HB HxA HxB Hd.
  destruct (zone_parts m tz tb tn THREAD_SIZEOF tfree tused f x Ht Hf) as (K1 & K2 & K3 & K4).
  destruct (zone_parts m sz sb sn STACK_SIZEOF sfree sused g x Hs Hg) as (L1 & L2 & L3 & L4).
  assert (HT : THREAD_SIZEOF = 288) by done. assert (HS : STACK_SIZEOF = 24) by done.
  unfold thread_regions in Hi, Hj.
  do 16 (destruct i as [|i]; [do 16 (destruct j as [|j]; [first [done|discriminate Ea|
    injection Hi as <-; injection Hj as <-;
    first [region_clash K1 K2 K3 K4 HT HP HQ|region_clash L1 L2 L3 L4 HS HP HQ]]|]); done|]).
  done.
Qed.

(** ** The steps of a creation *)
Section Steps.
Context (f g v k : Z).
Abbreviation rs := (thread_regions f g v k).
Hypothesis Hd : regions_disjoint rs.

(** Stores in the new thread, outside its list nodes. *)
Lemma thread_store l m m' b n w :
  existsb (Nat.eqb 1) l = true ->
  f + 16 <= b -> b + Z.of_nat n <= f + 152 \/ f + 184 <= b /\ b + Z.of_nat n <= f + 304 ->
  same_outside (part rs l) m m' -> same_outside (part rs l) m (store n m' b w).
Proof.
  intros Hl H1 H2 Hs. apply same_outside_store; [|done]. intros x Hx.
  eapply (part_region rs l 1); [reflexivity|done|]. cbv beta. assert (HT : THREAD_SIZEOF = 288) by done.
  unfold elem_range, within in *. lia.
Qed.
Lemma thread_load l m m' b n :
  part_away [1]%nat l = true ->
  f + 16 <= b -> b + Z.of_nat n <= f + 152 \/ f + 184 <= b /\ b + Z.of_nat n <= f + 304 ->
  same_outside (part rs l) m m' -> load n m' b = load n m b.
Proof.
  intros Hl H1 H2 Hs. apply (part_load rs l [1]%nat); [done|done| |done]. intros x Hx.
  eapply (part_region rs _ 1); [reflexivity|done|]. cbv beta. assert (HT : THREAD_SIZEOF = 288) by done.
  unfold elem_range, within in *. lia.
Qed.

(** The lists with their heads. *)
Definition other_threads (l : list Z) : Prop := forall t, t ∈ l -> t - 16 ∈ slots tb THREAD_SIZEOF tn /\ t - 16 <> f.
Definition other_stacks (l : list Z) : Prop := forall r, r ∈ l -> r - 16 ∈ slots sb STACK_SIZEOF sn /\ r - 16 <> g.

Lemma stacks_part l x : other_stacks l -> node_bytes (sym_stacks :: (stack_siblings <$> l)) x -> part rs [9; 10]%nat x.
Proof.
  intros Hl (a & [->|(r & -> & Hr)%list_elem_of_fmap]%elem_of_cons & Hx).
  - by eapply (part_region rs _ 10).
  - eapply (part_region rs _ 9); [reflexivity|done|]. destruct (Hl r Hr) as [H1 H2]. exists (r - 16). split; [done|].
    split; [done|]. assert (HS : STACK_SIZEOF = 24) by done.
    unfold stack_siblings, stack_siblings_offset, LIST_HEAD_SIZE, elem_range, within in *. lia.
Qed.
Lemma queue_part l x : other_threads l -> node_bytes (sym_threads :: (thread_threads <$> l)) x -> part rs [6; 11]%nat x.
Proof.
  intros Hl (a & [->|(r & -> & Hr)%list_elem_of_fmap]%elem_of_cons & Hx).
  - by eapply (part_region rs _ 11).
  - eapply (part_region rs _ 6); [reflexivity|done|]. destruct (Hl r Hr) as [H1 H2]. exists (r - 16). split; [done|].
    split; [done|]. unfold thread_threads, thread_threads_offset, LIST_HEAD_SIZE, elem_range, within in *. lia.
Qed.
Lemma siblings_part l x : other_threads l -> node_bytes (task_threads task :: (thread_siblings <$> l)) x -> part rs [5; 12]%nat x.
Proof.
  intros Hl (a & [->|(r & -> & Hr)%list_elem_of_fmap]%elem_of_cons & Hx).
  - by eapply (part_region rs _ 12).
  - eapply (part_region rs _ 5); [reflexivity|done|]. destruct (Hl r Hr) as [H1 H2]. exists (r - 16). split; [done|].
    split; [done|]. unfold thread_siblings, thread_siblings_offset, LIST_HEAD_SIZE, elem_range, within in *. lia.
Qed.

(** A list that a step does not touch. *)
Lemma dll_part fp l m m' h ns :
  (forall x, node_bytes (h :: ns) x -> part rs fp x) -> part_away fp l = true ->
  same_outside (part rs l) m m' -> dll m h ns -> dll m' h ns.
Proof.
  intros Hfp Ha Hs. apply (dll_same_outside (part rs l)); [done|]. intros x Hx. apply (part_off rs fp); [done|done|by apply Hfp].
Qed.

(** A new node at the end of a list. *)
Lemma add_tail_part fp j P l m m' h ns new :
  (forall x, node_bytes (h :: ns) x -> part rs fp x) -> rs !! j = Some P -> (forall x, within new 16 x -> P x) ->
  part_away [j] fp = true -> part_sub (j :: fp) l = true -> is_u64 new ->
  same_outside (part rs l) m m' -> dll m' h ns ->
  dll (list_add_tail m' new h) h (ns ++ [new]) /\ same_outside (part rs l) m (list_add_tail m' new h).
Proof.
  intros Hfp Hj HP Ha Hsub Hu Hs Hdll.
  assert (Hnew : forall x a, within new 16 x -> a ∈ h :: ns -> within a 16 x -> False).
  { intros x a Hx Hin Hxa. apply (part_off rs [j] fp x Hd Ha).
    - apply (part_region rs _ j P); [done|simpl; by rewrite Nat.eqb_refl|by apply HP].
    - apply Hfp. by exists a. }
  assert (Hfp' : forall x, node_bytes (new :: h :: ns) x -> part rs (j :: fp) x).
  { intros x (a & [->|Hin]%elem_of_cons & Hx).
    - apply (part_region rs _ j P); [done|simpl; by rewrite Nat.eqb_refl|by apply HP].
    - apply (part_mono rs fp); [|apply Hfp; by exists a]. unfold part_sub. apply forallb_forall. intros i Hi. simpl.
      apply orb_true_iff. right. apply existsb_exists. exists i. split; [done|by apply Nat.eqb_eq]. }
  split.
  - apply dll_add_tail; [done|]. pose proof (dll_sep _ _ _ Hdll) as (Hnd & Hr & Hap).
    assert (Hap' : forall a, a ∈ h :: ns -> apart new LIST_HEAD_SIZE a LIST_HEAD_SIZE).
    { intros a Hin. unfold LIST_HEAD_SIZE in *. unfold apart.
      destruct (decide (new + 16 <= a \/ a + 16 <= new)) as [?|Hno]; [lia|]. exfalso.
      apply (Hnew (Z.max new a) a); [unfold within; lia|done|unfold within; lia]. }
    split; [|split].
    + apply NoDup_cons. split; [|done]. intros Hin. specialize (Hap' _ Hin). unfold apart, LIST_HEAD_SIZE in Hap'. lia.
    + intros x [->|Hx]%elem_of_cons; [done|by apply Hr].
    + intros x y [->|Hx]%elem_of_cons [->|Hy]%elem_of_cons Hne; [done|by apply Hap'| |by apply Hap].
      specialize (Hap' x Hx). unfold apart in *. lia.
  - eapply same_outside_trans; [exact Hs|]. eapply same_outside_mono; [|apply (list_add_tail_footprint _ _ _ new Hdll)].
    intros x Hx. apply (part_mono rs (j :: fp)); [done|by apply Hfp'].
Qed.

Lemma new_stacks_part l x : other_stacks l ->
  node_bytes (sym_stacks :: (stack_siblings <$> (l ++ [g + 16]))) x -> part rs [8; 9; 10]%nat x.
Proof.
  intros Hl (a & Hin & Hx). rewrite fmap_app, app_comm_cons in Hin. apply elem_of_app in Hin as [Hin|Hin].
  - apply (part_mono rs [9; 10]%nat); [done|]. apply (stacks_part l); [done|]. by exists a.
  - apply list_elem_of_singleton in Hin as ->. eapply (part_region rs _ 8); [reflexivity|done|].
    eapply within_range; [| |exact Hx]; unfold stack_siblings, stack_siblings_offset, LIST_HEAD_SIZE, STACK_SIZEOF; lia.
Qed.

Lemma zone_part zone base n size l m m' free used j :
  rs !! j = Some (zone_own zone base n size) -> part_away [j] l = true ->
  same_outside (part rs l) m m' -> zone_ok m zone base n size free used -> zone_ok m' zone base n size free used.
Proof.
  intros Hj Ha Hs Hok. apply (zone_ok_frame (part rs l) m); [done|done|]. intros x Hx.
  apply (part_off rs [j]); [done|done|]. eapply part_region; [exact Hj|simpl; by rewrite Nat.eqb_refl|done].
Qed.
Lemma heap_part l s s' v' k' :
  part_away [13]%nat l = true -> same_outside (part rs l) (k_mem s) (k_mem s') ->
  (forall h, vm_var h -> k_glob s' h = k_glob s h) -> heap_ok s v' k' -> heap_ok s' v' k'.
Proof.
  intros Ha Hs Hg Hh. apply (heap_frame (part rs l) s); [done|done| |done]. intros x Hx Ho.
  revert Hx. apply (part_off rs [13]%nat); [done|done|]. eapply (part_region rs _ 13); [reflexivity|done|by left].
Qed.

(** The stack: a record, a page between two guard pages, and the two pointers. *)
(** The last part of [stack_alloc]: the base goes into the new [stack_t], which is
    appended to the list, and into the thread. *)
Definition stack_listed (b : Z) (m : memory) : memory :=
  list_add_tail (st64 m (stack_stack_base (g + 16)) b) (stack_siblings (g + 16)) sym_stacks.
Definition stack_linked (b : Z) (m : memory) : memory :=
  st64 (st64 (stack_listed b m) (thread_stack_base (f + 16)) b) (thread_stack (f + 16)) b.

Lemma stack_listed_run b m stk :
  is_u64 b -> 0 <= g -> g + 40 < 2 ^ 64 ->
  dll m sym_stacks (stack_siblings <$> stk) -> other_stacks stk ->
  same_outside (part rs [8; 9; 10]%nat) m (stack_listed b m) /\
  dll (stack_listed b m) sym_stacks (stack_siblings <$> (stk ++ [g + 16])) /\
  ld64 (stack_listed b m) (stack_stack_base (g + 16)) = b.
Proof.
  intros Hb Hg0 Hg1 Hdll Hoth. unfold stack_listed. set (m1 := st64 m (stack_stack_base (g + 16)) b).
  assert (Hin : forall x, within (stack_stack_base (g + 16)) 8 x -> part rs [8]%nat x).
  { intros x Hx. eapply (part_region rs _ 8); [reflexivity|done|]. eapply within_range; [| |exact Hx]; unfold stack_stack_base, STACK_SIZEOF; lia. }
  assert (Hp1 : same_outside (part rs [8]%nat) m m1) by (by apply same_outside_store).
  assert (Hdll1 : dll m1 sym_stacks (stack_siblings <$> stk)).
  { apply (dll_part [9; 10]%nat [8]%nat m); [intros x; by apply stacks_part|done..]. }
  destruct (add_tail_part [9; 10]%nat 8 (elem_range g 0 STACK_SIZEOF) [8; 9; 10]%nat m1 m1 sym_stacks (stack_siblings <$> stk) (stack_siblings (g + 16)))
    as [Hdll2 Hp2]; try done.
  { intros x Hx. by apply (stacks_part stk). }
  { intros x Hx. eapply within_range; [| |exact Hx]; unfold stack_siblings, stack_siblings_offset, STACK_SIZEOF; lia. }
  { unfold stack_siblings, stack_siblings_offset. lia. }
  set (m2 := list_add_tail m1 (stack_siblings (g + 16)) sym_stacks) in *. split; [parts (same_part_app rs _ _ _ _ _ Hp1 Hp2)|].
  split; [rewrite fmap_app; exact Hdll2|]. transitivity (ld64 m1 (stack_stack_base (g + 16))).
  - apply (load_same_outside _ 8 _ _ _ (list_add_tail_footprint _ _ (stack_siblings <$> stk) _ Hdll1)).
    intros x Hx (a & [->|Ha]%elem_of_cons & Hxa).
    + unfold stack_stack_base, stack_siblings, stack_siblings_offset, LIST_HEAD_SIZE, within in *. lia.
    + apply (part_off rs [9; 10]%nat [8]%nat x Hd eq_refl); [|by apply Hin]. apply (stacks_part stk); [done|]. by exists a.
  - unfold m1. rewrite ld64_st64_eq. by apply u64_id.
Qed.

Lemma stack_linked_run b m stk :
  is_u64 b -> 0 <= g -> g + 40 < 2 ^ 64 ->
  dll m sym_stacks (stack_siblings <$> stk) -> other_stacks stk ->
  let m' := stack_linked b m in
  same_outside (fun x => part rs [8; 9; 10]%nat x \/ within (f + 128) 16 x) m m' /\
  same_outside (part rs [1; 8; 9; 10]%nat) m m' /\
  dll m' sym_stacks (stack_siblings <$> (stk ++ [g + 16])) /\
  ld64 m' (thread_stack_base (f + 16)) = b /\ ld64 m' (thread_stack (f + 16)) = b.
Proof.
  intros Hb Hg0 Hg1 Hdll Hoth m'. destruct (stack_listed_run b m stk Hb Hg0 Hg1 Hdll Hoth) as (Hp & Hl & _).
  unfold stack_linked in m'. set (m1 := stack_listed b m) in *.
  assert (Hp1 : same_outside (part rs [1]%nat) m1 m').
  { apply thread_store; [done|unfold thread_stack; lia..|]. apply thread_store; [done|unfold thread_stack_base; lia..|done]. }
  split_and!.
  - apply same_outside_store; [intros x Hx; right; unfold thread_stack, within in *; lia|].
    apply same_outside_store; [intros x Hx; right; unfold thread_stack_base, within in *; lia|].
    eapply same_outside_mono; [intros x Hx; left; exact Hx|exact Hp].
  - parts (same_part_app rs _ _ _ _ _ Hp Hp1).
  - apply (dll_part [8; 9; 10]%nat [1]%nat m1); [intros x; by apply new_stacks_part|done..].
  - unfold m'. rewrite load_store_apart by (unfold apart, thread_stack, thread_stack_base; lia). rewrite ld64_st64_eq. by apply u64_id.
  - unfold m'. rewrite ld64_st64_eq. by apply u64_id.
Qed.

(** The computation is those stores. *)
Lemma stack_link_run s b stk :
  is_u64 b -> 0 <= g -> g + 40 < 2 ^ 64 ->
  dll (k_mem s) sym_stacks (stack_siblings <$> stk) -> other_stacks stk ->
  (st 8 (stack_stack_base (g + 16)) b ;!
   upd_mem (fun m => list_add_tail m (stack_siblings (g + 16)) sym_stacks) ;!
   let! base := ld 8 (stack_stack_base (g + 16)) in
   st 8 (thread_stack_base (f + 16)) base ;!
   let! base := ld 8 (stack_stack_base (g + 16)) in
   st 8 (thread_stack (f + 16)) base) s = Done tt (set_mem (stack_linked b (k_mem s)) s).
Proof.
  intros Hb Hg0 Hg1 Hdll Hoth. destruct (stack_listed_run b (k_mem s) stk Hb Hg0 Hg1 Hdll Hoth) as (Hp & _ & Hbase).
  unfold stack_linked. set (m1 := stack_listed b (k_mem s)) in *.
  assert (Hbase2 : ld64 (st64 m1 (thread_stack_base (f + 16)) b) (stack_stack_base (g + 16)) = b).
  { rewrite <- Hbase at 2. apply (part_load rs [1]%nat [8]%nat); [done|done| |].
    - intros x Hx. eapply (part_region rs _ 8); [reflexivity|done|].
      eapply within_range; [| |exact Hx]; unfold stack_stack_base, STACK_SIZEOF; lia.
    - apply (thread_store [1]%nat); try done; unfold thread_stack_base; lia. }
  unfold st, upd_mem, ld, bind. rewrite !set_mem_mem, !set_mem_set_mem. fold (stack_listed b (k_mem s)). fold m1.
  by rewrite Hbase, Hbase2.
Qed.

Lemma stack_alloc_run s stk sfree sused :
  k_glob s stack_zone = sz -> zone_ok (k_mem s) sz sb sn STACK_SIZEOF (g :: sfree) sused -> heap_ok s v k -> 3 <= k ->
  dll (k_mem s) sym_stacks (stack_siblings <$> stk) -> other_stacks stk ->
  exists s', stack_alloc (f + 16) s = Done tt s' /\
    same_outside (fun x => part rs [7; 8; 9; 10; 13]%nat x \/ within (f + 128) 16 x) (k_mem s) (k_mem s') /\
    same_globals (fun h => h = pagetables_region_cursor) s s' /\
    zone_ok (k_mem s') sz sb sn STACK_SIZEOF sfree (g :: sused) /\ heap_ok s' (v + VM_PAGE_SIZE * 3) (k - 3) /\
    dll (k_mem s') sym_stacks (stack_siblings <$> (stk ++ [g + 16])) /\
    ld64 (k_mem s') (thread_stack_base (f + 16)) = v + VM_PAGE_SIZE /\
    ld64 (k_mem s') (thread_stack (f + 16)) = v + VM_PAGE_SIZE.
Proof.
  intros Hz Hok Hh Hk Hdll Hoth. assert (Hps : VM_PAGE_SIZE = 4096) by done.
  destruct (heap_room _ _ _ Hh) as (Hv & Hv2 & _).
  assert (Hg : g ∈ slots sb STACK_SIZEOF sn) by (eapply zone_slots; [exact Hok|left; by left]).
  assert (Hgr : 0 <= g /\ g + 40 < 2 ^ 64).
  { destruct Hok as [[Hsz _] _ [Hb1 Hb2] _ _ _ _ _ _ _]. pose proof (slots_range _ _ _ _ Hsz Hg).
    unfold STACK_SIZEOF, ZONE_METADATA_SIZEOF in *. lia. }
  destruct (zalloc_run s sz sb sn STACK_SIZEOF g sfree sused Hok) as (m1 & E1 & Hok1 & Hs1).
  assert (Hp1 : same_outside (part rs [7]%nat) (k_mem s) m1).
  { eapply same_outside_mono; [|exact Hs1]. intros x Hx. by eapply (part_region rs _ 7). }
  assert (Hh1 : heap_ok (set_mem m1 s) v k) by (by apply (heap_part [7]%nat s)).
  destruct (heap_alloc (set_mem m1 s) v k 1 (Z.lor VM_ALLOC_GUARD_FIRST VM_ALLOC_GUARD_LAST) Hh1)
    as (s2 & E2 & Hh2 & Hg2 & Hs2); [lia|exact Hk|].
  change (alloc_pages 1 (Z.lor VM_ALLOC_GUARD_FIRST VM_ALLOC_GUARD_LAST)) with 3 in Hh2, Hs2.
  change (alloc_base v (Z.lor VM_ALLOC_GUARD_FIRST VM_ALLOC_GUARD_LAST)) with (v + VM_PAGE_SIZE) in E2.
  assert (Hp2 : same_outside (part rs [13]%nat) m1 (k_mem s2)).
  { eapply same_outside_mono; [|exact Hs2]. intros x Hx. eapply (part_region rs _ 13); [reflexivity|done|].
    destruct Hx as [?|?]; [by left|right]. rewrite Hps in *. lia. }
  pose proof (same_part_app rs _ _ _ _ _ Hp1 Hp2) as Hp12.
  assert (Hdll2 : dll (k_mem s2) sym_stacks (stack_siblings <$> stk)).
  { apply (dll_part [9; 10]%nat [7; 13]%nat (k_mem s)); [intros x; by apply stacks_part|done|exact Hp12|done]. }
  pose proof (stack_link_run s2 (v + VM_PAGE_SIZE) stk ltac:(lia) ltac:(lia) ltac:(lia) Hdll2 Hoth) as E3.
  destruct (stack_linked_run (v + VM_PAGE_SIZE) (k_mem s2) stk) as (Hs3 & Hp3 & Hdll3 & Hb3 & Hst3); try done; try lia.
  exists (set_mem (stack_linked (v + VM_PAGE_SIZE) (k_mem s2)) s2). split_and!; try done.
  - unfold stack_alloc. unfold bind at 1, get at 1. rewrite Hz. rewrite (bind_done _ _ _ _ _ E1).
    unfold vm_get_kernel_map. change THREAD_STACK_DEFAULT_SIZE with (1 * VM_PAGE_SIZE). rewrite (bind_done _ _ _ _ _ E2). exact E3.
  - eapply same_outside_trans; eapply same_outside_mono; [|exact Hp12| |exact Hs3].
    + intros x Hx. left. revert Hx. by apply part_mono.
    + intros x [Hx|Hx]; [left; revert Hx; by apply part_mono|by right].
  - apply (zone_part sz sb sn STACK_SIZEOF [1; 8; 9; 10; 13]%nat m1 _ _ _ 7); [done|done| |exact Hok1].
    parts (same_part_app rs _ _ _ _ _ Hp2 Hp3).
  - by apply (heap_part [1; 8; 9; 10]%nat s2).
Qed.

(** The name: at most 64 bytes are written, whatever the length read. *)
Lemma thread_set_name_run fuel s t nm :
  cstr (k_mem s) name nm -> (length nm <= fuel)%nat ->
  (forall x, within (thread_name t) 64 x -> ~ within name (S (length nm)) x) ->
  exists m', thread_set_name fuel t name s = Done tt (set_mem m' s) /\
    same_outside (within (thread_name t) 64) (k_mem s) m'.
Proof.
  intros Hc Hf Hap. unfold thread_set_name. unfold bind at 1, uninitialised at 1.
  pose proof (u64_range (hw_uninit s thread_set_name_len)) as Hu. set (u := u64 _) in *.
  set (len := if u <? THREAD_NAME_MAX_LEN then u else THREAD_NAME_MAX_LEN).
  assert (Hl : 0 <= len <= 64).
  { unfold len, THREAD_NAME_MAX_LEN. destruct (Z.ltb_spec u 64); lia. }
  unfold bind at 1, get_mem at 1. destruct (decide (len = 0)) as [->|Hne].
  - exists (k_mem s). split; [|done]. unfold strlcpy, with_fuel, bind, ret, upd_mem. simpl. done.
  - apply apart_order in Hap; [|lia|lia].
    destruct (strlcpy_correct fuel (k_mem s) (thread_name t) name len nm Hc Hf) as (m' & r & E & _ & _ & Hs); [lia| |].
    { lia. }
    exists m'. rewrite E. split; [done|]. eapply same_outside_mono; [|exact Hs]. unfold within. lia.
Qed.

(** The rest of a creation: the entry, the two lists, the name, and the state. *)
Definition thread_fields (x : Z) : Prop :=
  within (thread_task (f + 16)) 16 x \/ within (thread_flags (f + 16)) 4 x \/ within (thread_name (f + 16)) 64 x.
Definition link_frame (x : Z) : Prop := part rs [2; 3; 5; 6; 11; 12]%nat x \/ thread_fields x.

Lemma thread_fields_part x : thread_fields x -> part rs [1]%nat x.
Proof.
  intros Hx. eapply (part_region rs _ 1); [reflexivity|done|]. right. assert (HT : THREAD_SIZEOF = 288) by done.
  unfold thread_fields, thread_task, thread_flags, thread_name, elem_range, within in *. lia.
Qed.
Lemma link_frame_part x : link_frame x -> part rs [1; 2; 3; 5; 6; 11; 12]%nat x.
Proof.
  intros [Hx|Hx%thread_fields_part]; [revert Hx|revert Hx]; by apply part_mono.
Qed.

(** The lists with the new thread. *)
Lemma new_queue_part l x : other_threads l ->
  node_bytes (sym_threads :: (thread_threads <$> (l ++ [f + 16]))) x -> part rs [3; 6; 11]%nat x.
Proof.
  intros Hl (a & Hin & Hx). rewrite fmap_app, app_comm_cons in Hin. apply elem_of_app in Hin as [Hin|Hin].
  - apply (part_mono rs [6; 11]%nat); [done|]. apply (queue_part l); [done|]. by exists a.
  - apply list_elem_of_singleton in Hin as ->. eapply (part_region rs _ 3); [reflexivity|done|].
    eapply within_range; [| |exact Hx]; unfold thread_threads, thread_threads_offset, LIST_HEAD_SIZE; lia.
Qed.
Lemma new_siblings_part l x : other_threads l ->
  node_bytes (task_threads task :: (thread_siblings <$> (l ++ [f + 16]))) x -> part rs [2; 5; 12]%nat x.
Proof.
  intros Hl (a & Hin & Hx). rewrite fmap_app, app_comm_cons in Hin. apply elem_of_app in Hin as [Hin|Hin].
  - apply (part_mono rs [5; 12]%nat); [done|]. apply (siblings_part l); [done|]. by exists a.
  - apply list_elem_of_singleton in Hin as ->. eapply (part_region rs _ 2); [reflexivity|done|].
    eapply within_range; [| |exact Hx]; unfold thread_siblings, thread_siblings_offset, LIST_HEAD_SIZE; lia.
Qed.

(** The fields that a creation sets first. *)
Lemma link_load m m' b n :
  f + 16 <= b -> b + Z.of_nat n <= f + 152 -> same_outside link_frame m m' -> load n m' b = load n m b.
Proof.
  intros H1 H2 Hs. apply (load_same_outside _ _ _ _ _ Hs). intros x Hx [Hp|Hp].
  - revert Hp. apply (part_off rs [1]%nat); [done|done|]. eapply (part_region rs _ 1); [reflexivity|done|]. left.
    unfold elem_range, within in *. lia.
  - unfold thread_fields, thread_task, thread_flags, thread_name, within in *. lia.
Qed.
Lemma stack_load m m' b n :
  f + 16 <= b -> b + Z.of_nat n <= f + 128 \/ f + 144 <= b /\ b + Z.of_nat n <= f + 152 ->
  same_outside (fun x => part rs [7; 8; 9; 10; 13]%nat x \/ within (f + 128) 16 x) m m' -> load n m' b = load n m b.
Proof.
  intros H1 H2 Hs. apply (load_same_outside _ _ _ _ _ Hs). intros x Hx [Hp|Hp]; [|unfold within in *; lia].
  revert Hp. apply (part_off rs [1]%nat); [done|done|]. eapply (part_region rs _ 1); [reflexivity|done|]. left.
  unfold elem_range, within in *. lia.
Qed.

(** The new thread gets its entry and goes on the list of its task and on the scheduler's. *)
Definition thread_linked (entry : Z) (m : memory) : memory :=
  let t := f + 16 in
  list_add_tail (st64 (list_add_tail (st64 m (thread_entry t) entry) (thread_siblings t) (task_threads task))
    (thread_task t) task) (thread_threads t) sym_threads.

Lemma thread_linked_run entry m (l ts : list Z) :
  is_u64 entry -> 0 <= f -> f + 304 < 2 ^ 64 ->
  dll m sym_threads (thread_threads <$> l) -> dll m (task_threads task) (thread_siblings <$> ts) ->
  other_threads l -> other_threads ts -> is_u64 task ->
  let t := f + 16 in let m' := thread_linked entry m in
  same_outside link_frame m m' /\ same_outside (part rs [1; 2; 3; 5; 6; 11; 12]%nat) m m' /\
  dll m' sym_threads (thread_threads <$> (l ++ [t])) /\ dll m' (task_threads task) (thread_siblings <$> (ts ++ [t])) /\
  ld64 m' (thread_entry t) = entry /\ ld64 m' (thread_task t) = task.
Proof.
  intros Hu Hf0 Hf1 Hq Hsib Hol Hot Htu t. unfold thread_linked. fold t. cbv zeta.
  set (m1 := st64 m (thread_entry t) entry).
  assert (Hs1 : same_outside (part rs [1]%nat) m m1).
  { apply thread_store; [done|unfold t, thread_entry; lia..|done]. }
  edestruct (add_tail_part [5; 12]%nat 2 (elem_range f 136 152) [2; 5; 12]%nat m1 m1 (task_threads task)
    (thread_siblings <$> ts) (thread_siblings t)) as [Hsib2 Hs2]; try done.
  { intros x. by apply siblings_part. }
  { intros x Hx. eapply within_range; [| |exact Hx]; unfold t, thread_siblings, thread_siblings_offset; lia. }
  { unfold t, thread_siblings, thread_siblings_offset. lia. }
  { apply (dll_part [5; 12]%nat [1]%nat m); try done. intros x. by apply siblings_part. }
  set (m2 := list_add_tail m1 (thread_siblings t) (task_threads task)) in *.
  set (m3 := st64 m2 (thread_task t) task).
  assert (Hs3 : same_outside (part rs [1]%nat) m2 m3).
  { apply thread_store; [done|unfold t, thread_task; lia..|done]. }
  pose proof (same_part_app rs _ _ _ _ _ Hs1 (same_part_app rs _ _ _ _ _ Hs2 Hs3)) as Hs03.
  edestruct (add_tail_part [6; 11]%nat 3 (elem_range f 152 168) [3; 6; 11]%nat m3 m3 sym_threads
    (thread_threads <$> l) (thread_threads t)) as [Hq4 Hs4]; try done.
  { intros x. by apply queue_part. }
  { intros x Hx. eapply within_range; [| |exact Hx]; unfold t, thread_threads, thread_threads_offset; lia. }
  { unfold t, thread_threads, thread_threads_offset. lia. }
  { apply (dll_part [6; 11]%nat _ m) with (3 := Hs03); try done. intros x. by apply queue_part. }
  set (m4 := list_add_tail m3 (thread_threads t) sym_threads) in *.
  split_and!.
  - assert (Hf : forall a v m m', (forall x, within a 8 x -> within (thread_task t) 16 x) ->
      same_outside link_frame m m' -> same_outside link_frame m (st64 m' a v)).
    { intros a w n n' Ha Hn. apply same_outside_store; [|exact Hn]. intros x Hx. right. left. by apply Ha. }
    assert (Hl : forall l n n', part_sub l [2; 3; 5; 6; 11; 12]%nat = true -> same_outside (part rs l) n n' -> same_outside link_frame n n').
    { intros l' n n' Hl' Hn. eapply same_outside_mono; [|exact Hn]. intros x Hx. left. revert Hx. by apply part_mono. }
    eapply same_outside_trans; [|exact (Hl [3; 6; 11]%nat _ _ eq_refl Hs4)].
    apply Hf; [intros x; unfold thread_task, within; lia|].
    eapply same_outside_trans; [|exact (Hl [2; 5; 12]%nat _ _ eq_refl Hs2)].
    apply Hf; [intros x; unfold thread_entry, thread_task, within; lia|done].
  - parts (same_part_app rs _ _ _ _ _ Hs03 Hs4).
  - rewrite fmap_app. exact Hq4.
  - apply (dll_part [2; 5; 12]%nat [1; 3; 6; 11]%nat m2); try done; [intros x; by apply new_siblings_part| |].
    + exact (same_part_app rs [1]%nat [3; 6; 11]%nat _ _ _ Hs3 Hs4).
    + rewrite fmap_app. exact Hsib2.
  - rewrite (thread_load [3; 6; 11]%nat m3 m4) by (done || unfold t, thread_entry; lia).
    unfold m3. rewrite load_store_apart by (unfold apart, thread_entry, thread_task; lia).
    rewrite (thread_load [2; 5; 12]%nat m1 m2) by (done || unfold t, thread_entry; lia).
    unfold m1. rewrite ld64_st64_eq. by apply u64_id.
  - rewrite (thread_load [3; 6; 11]%nat m3 m4) by (done || unfold t, thread_task; lia).
    unfold m3. rewrite ld64_st64_eq. by apply u64_id.
Qed.

Lemma thread_link_run fuel s entry l ts nm :
  is_u64 entry -> 0 <= f -> f + 304 < 2 ^ 64 -> length nm = nl ->
  cstr (k_mem s) name nm -> (length nm <= fuel)%nat ->
  dll (k_mem s) sym_threads (thread_threads <$> l) -> dll (k_mem s) (task_threads task) (thread_siblings <$> ts) ->
  other_threads l -> other_threads ts -> is_u64 task ->
  let t := f + 16 in
  exists m', (thread_init_context t entry ;!
      task_assign_thread task t ;!
      upd_mem (fun m => list_add_tail m (thread_threads t) sym_threads) ;!
      thread_set_name fuel t name ;!
      upd_mem (set_thread_state t THREAD_STATE_ACTIVE) ;!
      ret t) s = Done t (set_mem m' s) /\
    same_outside link_frame (k_mem s) m' /\
    dll m' sym_threads (thread_threads <$> (l ++ [t])) /\ dll m' (task_threads task) (thread_siblings <$> (ts ++ [t])) /\
    ld64 m' (thread_entry t) = entry /\ ld64 m' (thread_task t) = task /\ thread_state m' t = THREAD_STATE_ACTIVE.
Proof.
  intros Hu Hf0 Hf1 Hnl Hc Hfuel Hq Hsib Hol Hot Htu t.
  destruct (thread_linked_run entry (k_mem s) l ts) as (Hl & Hp & Hq4 & Hsib4 & He4 & Ht4); try done. fold t in Hq4, Hsib4, He4, Ht4.
  set (m4 := thread_linked entry (k_mem s)) in *.
  assert (Hname : forall x, within name (S (length nm)) x -> part rs [15]%nat x).
  { intros x Hx. eapply (part_region rs _ 15); [reflexivity|done|]. by rewrite <- Hnl. }
  destruct (thread_set_name_run fuel (set_mem m4 s) t nm) as (m5 & E5 & Hs5).
  { eapply cstr_frame; [exact Hc|]. intros x Hx%Hname. symmetry. apply Hp. by apply (part_off rs [15]%nat). }
  { done. }
  { intros x Hx Hx'%Hname. revert Hx'. apply (part_off rs [1]%nat [15]%nat); [done|done|]. apply thread_fields_part.
    right; right. exact Hx. }
  rewrite set_mem_set_mem in E5. cbn [k_mem set_mem] in Hs5.
  set (m6 := set_thread_state t THREAD_STATE_ACTIVE m5).
  assert (Hs6 : same_outside (within (thread_flags t) 4) m5 m6) by (by apply same_outside_store).
  assert (Hs46 : same_outside (fun x => within (thread_flags t) 4 x \/ within (thread_name t) 64 x) m4 m6).
  { eapply same_outside_trans; eapply same_outside_mono; [|exact Hs5| |exact Hs6]; tauto. }
  assert (Hs46' : same_outside (part rs [1]%nat) m4 m6).
  { eapply same_outside_mono; [|exact Hs46]. intros x Hx. apply thread_fields_part. right. exact Hx. }
  assert (Hf46 : forall b n, t + 168 <= b -> b + Z.of_nat n <= t + 184 -> load n m6 b = load n m4 b).
  { intros b n H1 H2. apply (load_same_outside _ _ _ _ _ Hs46). unfold thread_flags, thread_name, within in *. lia. }
  exists m6. split_and!.
  - unfold thread_init_context, task_assign_thread, st. rewrite upd_mem_bind. unfold bind at 1. rewrite upd_mem_bind.
    unfold upd_mem at 1. cbv beta iota. rewrite upd_mem_bind, !set_mem_set_mem, !set_mem_mem.
    change (list_add_tail _ (thread_threads t) sym_threads) with m4.
    rewrite (bind_done _ _ _ _ _ E5). reflexivity.
  - eapply same_outside_trans; [exact Hl|]. eapply same_outside_mono; [|exact Hs46]. intros x Hx. by right; right.
  - apply (dll_part [3; 6; 11]%nat [1]%nat m4); try done. intros x; by apply new_queue_part.
  - apply (dll_part [2; 5; 12]%nat [1]%nat m4); try done. intros x; by apply new_siblings_part.
  - by rewrite Hf46 by (unfold thread_entry; lia).
  - by rewrite Hf46 by (unfold thread_task; lia).
  - unfold thread_state, m6, set_thread_state. rewrite ld32_flags by lia. apply get_set_bits; unfold THREAD_STATE_ACTIVE; lia.
Qed.
End Steps.

(** ** The invariant

    [l] are the threads on the list of the scheduler, [ts] those of the task, [stk] the
    stack records; the zones have the free and used blocks given, and [k] more pages
    can be had from the address [v] on. *)
Record thread_sys (s : kstate) (l ts stk tfree tused sfree sused : list Z) (v k : Z) (nm : list Z) : Prop := {
  ts_zone : k_glob s thread_zone = tz /\ zone_ok (k_mem s) tz tb tn THREAD_SIZEOF tfree tused;
  ts_szone : k_glob s stack_zone = sz /\ zone_ok (k_mem s) sz sb sn STACK_SIZEOF sfree sused;
  ts_heap : heap_ok s v k;
  ts_queue : dll (k_mem s) sym_threads (thread_threads <$> l);
  ts_task : dll (k_mem s) (task_threads task) (thread_siblings <$> ts);
  ts_stacks : dll (k_mem s) sym_stacks (stack_siblings <$> stk);
  ts_used : (forall t, t ∈ l \/ t ∈ ts -> t - 16 ∈ tused) /\ (forall r, r ∈ stk -> r - 16 ∈ sused);
  ts_name : cstr (k_mem s) name nm /\ length nm = nl;
  ts_layout : regions_disjoint (thread_areas v k);
  ts_range : is_u64 task /\ NoDup l;
}.

Lemma free_not_used m zone base n size f free used :
  zone_ok m zone base n size (f :: free) used -> f ∈ slots base size n /\ forall e, e ∈ used -> e ∈ slots base size n /\ e <> f.
Proof.
  intros Hok. split; [eapply zone_slots; [exact Hok|left; by left]|]. intros e He.
  split; [eapply zone_slots; [exact Hok|by right]|]. intros ->.
  pose proof (zone_ok_sep _ _ _ _ _ _ _ Hok) as (Hnd & _). apply NoDup_cons in Hnd as [_ Hnd].
  apply NoDup_cons in Hnd as [Hn _]. set_solver.
Qed.

(** The scheduler's view of the threads. *)
Lemma thread_sys_sched s l ts stk tfree tused sfree sused v k nm :
  thread_sys s l ts stk tfree tused sfree sused v k nm -> sched_ok (k_mem s) l c.
Proof.
  intros [[_ Hz] _ _ Hq _ _ [Hu _] _ Hd _].
  assert (HT : THREAD_SIZEOF = 288) by done.
  assert (Hs : forall t, t ∈ l -> t - 16 ∈ slots tb THREAD_SIZEOF tn).
  { intros t Ht. eapply zone_slots; [exact Hz|right; apply Hu; by left]. }
  assert (Hr : forall t x, t ∈ l -> within t 288 x -> zone_area tz tb tn THREAD_SIZEOF x).
  { intros t x Ht Hx. right. exists (t - 16). split; [by apply Hs|]. unfold elem_range, within in *. lia. }
  assert (Hap : forall i A a n t, thread_areas v k !! i = Some A -> i <> 0%nat -> (0 < n)%nat ->
    (forall x, within a n x -> A x) -> t ∈ l -> apart t 288 a n).
  { intros i A a n t Hi Hne Hn HA Ht. unfold apart.
    destruct (apart_order t a 288 n) as [?|?]; [lia|lia| |lia|lia]. intros x Hx Hx'.
    exact (Hd 0%nat i _ A x (not_eq_sym Hne) eq_refl Hi (Hr t x Ht Hx) (HA x Hx')). }
  pose proof (zo_base _ _ _ _ _ _ _ Hz) as [Hb1 Hb2]. pose proof (zo_size _ _ _ _ _ _ _ Hz) as [Hsz _].
  split; [exact Hq| | | | |].
  - intros t Ht. pose proof (slots_range _ _ _ _ Hsz (Hs t Ht)). unfold ZONE_METADATA_SIZEOF in *. lia.
  - intros t t' Ht Ht' Hne. destruct (elems_apart tb THREAD_SIZEOF tn (t - 16) (t' - 16) Hsz (Hs t Ht) (Hs t' Ht'));
      unfold apart; lia.
  - intros t. apply (Hap 3%nat (within sym_threads 16)); [done|done|lia|done].
  - intros t. apply (Hap 6%nat (within c 88)); [done|done|lia|done].
  - unfold apart. destruct (apart_order sym_threads c 16 88) as [?|?]; [lia|lia| |lia|lia]. intros x Hx Hx'.
    by apply (Hd 3%nat 6%nat _ _ x ltac:(done) eq_refl eq_refl Hx).
Qed.

Lemma heap_area_shrink v k n x : 0 <= n -> heap_area (v + VM_PAGE_SIZE * n) (k - n) x -> heap_area v k x.
Proof. assert (VM_PAGE_SIZE = 4096) by done. unfold heap_area. intros Hn [?|?]; [by left|right; lia]. Qed.
Lemma areas_shrink v k n : 0 <= n ->
  regions_disjoint (thread_areas v k) -> regions_disjoint (thread_areas (v + VM_PAGE_SIZE * n) (k - n)).
Proof.
  intros Hn Hd i j P Q x Hne Hi Hj HP HQ.
  assert (Hw : forall i P, thread_areas (v + VM_PAGE_SIZE * n) (k - n) !! i = Some P -> P x ->
    exists P', thread_areas v k !! i = Some P' /\ P' x).
  { intros i' P' Hi' HP'. do 8 (destruct i' as [|i']; [injection Hi' as <-; eexists; split; [reflexivity|];
      first [exact HP'|by eapply heap_area_shrink]|]). done. }
  destruct (Hw i P Hi HP) as (P' & HP1 & HP2). destruct (Hw j Q Hj HQ) as (Q' & HQ1 & HQ2).
  exact (Hd i j P' Q' x Hne HP1 HQ1 HP2 HQ2).
Qed.

(** ** Creation *)

(** The fields [thread_create] sets before it allocates the stack. *)
Definition thread_init_fields (t id : Z) (m : memory) : memory :=
  st32 (st32 (st32 (st64 m (thread_stack t) THREAD_STATE_INACTIVE) (thread_ref_count t) 2) (thread_preempt t) 0)
    (thread_thread_id t) id.

Record new_thread (m : memory) (t id entry stack : Z) : Prop := {
  nt_id : ld32 m (thread_thread_id t) = id;
  nt_stack : ld64 m (thread_stack t) = stack;
  nt_stack_base : ld64 m (thread_stack_base t) = stack;
  nt_entry : ld64 m (thread_entry t) = entry;
  nt_task : ld64 m (thread_task t) = task;
  nt_state : thread_state m t = THREAD_STATE_ACTIVE;
}.

Lemma thread_create_run fuel s priority entry l ts stk f tfree tused g sfree sused v k nm :
  thread_sys s l ts stk (f :: tfree) tused (g :: sfree) sused v k nm -> 3 <= k -> is_u64 entry ->
  0 <= k_glob s thread_id_max < 2 ^ 31 - 1 -> (length nm <= fuel)%nat ->
  let t := f + 16 in
  exists s', thread_create fuel task priority entry name s = Done t s' /\
    thread_sys s' (l ++ [t]) (ts ++ [t]) (stk ++ [g + 16]) tfree (f :: tused) sfree (g :: sused)
      (v + VM_PAGE_SIZE * 3) (k - 3) nm /\
    new_thread (k_mem s') t (k_glob s thread_id_max) entry (v + VM_PAGE_SIZE) /\
    k_glob s' thread_id_max = k_glob s thread_id_max + 1 /\
    same_outside (part (thread_regions f g v k) [0; 1; 2; 3; 5; 6; 7; 8; 9; 10; 11; 12; 13]%nat) (k_mem s) (k_mem s').
Proof.
  intros [[Hz0 Hz] [Hz1 Hsz] Hh Hq Ht Hst [Hut Hus] [Hc Hnl] Hd [Htu Hnd]] Hk He Hid Hfuel t.
  destruct (free_not_used _ _ _ _ _ _ _ _ Hz) as [Hf Hfu]. destruct (free_not_used _ _ _ _ _ _ _ _ Hsz) as [Hg Hgu].
  pose proof (thread_regions_disjoint (k_mem s) f g v k _ _ _ _ Hz Hsz Hf Hg Hd) as Hrd.
  set (rs := thread_regions f g v k) in *.
  assert (Hol : other_threads f l) by (intros u Hu; apply Hfu, Hut; by left).
  assert (Hot : other_threads f ts) by (intros u Hu; apply Hfu, Hut; by right).
  assert (Hos : other_stacks g stk) by (intros u Hu; by apply Hgu, Hus).
  pose proof (zo_base _ _ _ _ _ _ _ Hz) as [Hb1 Hb2]. pose proof (zo_size _ _ _ _ _ _ _ Hz) as [Hsize _].
  pose proof (slots_range _ _ _ _ Hsize Hf) as Hfr. unfold ZONE_METADATA_SIZEOF in Hb2, Hfr.
  assert (HT : THREAD_SIZEOF = 288) by done. rewrite HT in *.
  destruct (zalloc_run s tz tb tn 288 f tfree tused Hz) as (m1 & E1 & Hz1' & Hs1).
  assert (Hp1 : same_outside (part rs [0]%nat) (k_mem s) m1).
  { eapply same_outside_mono; [|exact Hs1]. intros x Hx. by eapply (part_region rs _ 0). }
  set (id := k_glob s thread_id_max) in *. set (m2 := thread_init_fields t id m1).
  assert (Hp2 : same_outside (part rs [1]%nat) m1 m2).
  { unfold m2, thread_init_fields. do 4 (apply thread_store; [done|
      unfold t, thread_stack, thread_ref_count, thread_preempt, thread_thread_id; lia..|]). done. }
  assert (Hp02 : same_outside (part rs [0; 1]%nat) (k_mem s) m2).
  { eapply same_outside_trans; eapply same_part_mono; [|exact Hp1| |exact Hp2]; done. }
  set (s3 := set_glob thread_id_max (s32 (id + 1)) (set_mem m2 s)).
  destruct (stack_alloc_run f g v k Hrd s3 stk sfree sused) as (s4 & E4 & Hs4 & Hg4 & Hsz4 & Hh4 & Hst4 & Hbase4 & Hstk4).
  { done. }
  { by apply (zone_part f g v k Hrd sz sb sn STACK_SIZEOF [0; 1]%nat (k_mem s) m2 _ _ 7). }
  { apply (heap_part f g v k Hrd [0; 1]%nat s); try done. intros h Hvar. unfold s3. rewrite set_glob_ne; [done|].
    by intros ->. }
  { done. }
  { apply (dll_part f g v k Hrd [9; 10]%nat [0; 1]%nat (k_mem s)); try done. intros x. by apply stacks_part. }
  { done. }
  assert (Hp4 : same_outside (part rs [1; 7; 8; 9; 10; 13]%nat) m2 (k_mem s4)).
  { eapply same_outside_mono; [|exact Hs4]. intros x [Hx|Hx]; [revert Hx; by apply part_mono|].
    eapply (part_region rs _ 1); [reflexivity|done|]. left. unfold elem_range, within in *. lia. }
  assert (Hp04 : same_outside (part rs [0; 1; 7; 8; 9; 10; 13]%nat) (k_mem s) (k_mem s4)).
  { eapply same_outside_trans; eapply same_part_mono; [|exact Hp02| |exact Hp4]; done. }
  destruct (thread_link_run f g v k Hrd fuel s4 entry l ts nm) as (m5 & E5 & Hl5 & Hq5 & Ht5 & Hen & Htk & Hstate); try done; try lia.
  { eapply cstr_frame; [exact Hc|]. intros x Hx. symmetry. apply Hp04. apply (part_off rs [15]%nat); [done|done|].
    eapply (part_region rs _ 15); [reflexivity|done|]. by rewrite <- Hnl. }
  { apply (dll_part f g v k Hrd [6; 11]%nat [0; 1; 7; 8; 9; 10; 13]%nat (k_mem s)); try done. intros x. by apply queue_part. }
  { apply (dll_part f g v k Hrd [5; 12]%nat [0; 1; 7; 8; 9; 10; 13]%nat (k_mem s)); try done. intros x. by apply siblings_part. }
  assert (Hp5 : same_outside (part rs [1; 2; 3; 5; 6; 11; 12]%nat) (k_mem s4) m5).
  { eapply same_outside_mono; [|exact Hl5]. intros x. apply link_frame_part. }
  assert (Hp25 : same_outside (part rs [1; 2; 3; 5; 6; 7; 8; 9; 10; 11; 12; 13]%nat) m1 m5).
  { eapply same_outside_trans; [eapply same_part_mono; [|exact Hp2]; done|].
    eapply same_outside_trans; eapply same_part_mono; [|exact Hp4| |exact Hp5]; done. }
  exists (set_mem m5 s4). split_and!.
  - unfold thread_create. unfold bind at 1, get at 1. rewrite Hz0. rewrite (bind_done _ _ _ _ _ E1).
    change (f + ZONE_METADATA_SIZEOF) with t.
    do 4 (unfold bind at 1, st at 1, upd_mem at 1; rewrite ?set_mem_mem, ?set_mem_set_mem).
    unfold get at 1. cbv beta iota. rewrite set_mem_glob. fold id.
    unfold bind at 1. cbv beta iota. rewrite set_mem_mem, set_mem_set_mem. unfold bind at 1, put at 1. cbv beta iota.
    change (st32 _ (thread_thread_id t) id) with m2. fold s3. rewrite (bind_done _ _ _ _ _ E4). exact E5.
  - split; cbn [k_mem set_mem]; try done.
    + split; [rewrite set_mem_glob, Hg4 by done; unfold s3; by rewrite set_glob_ne|].
      by apply (zone_part f g v k Hrd tz tb tn 288 [1; 2; 3; 5; 6; 7; 8; 9; 10; 11; 12; 13]%nat m1 m5 _ _ 0).
    + split; [rewrite set_mem_glob, Hg4 by done; unfold s3; by rewrite set_glob_ne|].
      by apply (zone_part f g v k Hrd sz sb sn STACK_SIZEOF [1; 2; 3; 5; 6; 11; 12]%nat (k_mem s4) m5 _ _ 7).
    + by apply (heap_part f g v k Hrd [1; 2; 3; 5; 6; 11; 12]%nat s4).
    + apply (dll_part f g v k Hrd [8; 9; 10]%nat [1; 2; 3; 5; 6; 11; 12]%nat (k_mem s4)); try done.
      intros x. by apply new_stacks_part.
    + split; [intros u Hu|intros r Hr].
      * assert (Hu' : u = t \/ u ∈ l \/ u ∈ ts) by set_solver. destruct Hu' as [->|Hu'].
        -- apply elem_of_cons. left. unfold t. lia.
        -- right. by apply Hut.
      * apply elem_of_app in Hr as [Hr| ->%list_elem_of_singleton]; [right; by apply Hus|]. apply elem_of_cons. left. lia.
    + split; [|done]. eapply cstr_frame; [exact Hc|]. intros x Hx. symmetry.
      transitivity (rd (k_mem s4) x); [apply Hp04|apply Hp5]; apply (part_off rs [15]%nat); try done;
        (eapply (part_region rs _ 15); [reflexivity|done|]; by rewrite <- Hnl).
    + apply areas_shrink; [lia|done].
    + split; [done|]. apply NoDup_app. split; [done|]. split; [|apply NoDup_singleton].
      intros u Hu ->%list_elem_of_singleton. destruct (Hol t Hu) as [_ Hne]. apply Hne. unfold t. lia.
  - cbn [k_mem set_mem]. split; try done.
    + rewrite (link_load f g v k Hrd (k_mem s4) m5) by (done || unfold t, thread_thread_id; lia).
      rewrite (stack_load f g v k Hrd m2 (k_mem s4)) by (done || unfold t, thread_thread_id; lia).
      unfold m2, thread_init_fields. rewrite ld32_st32_eq. apply u32_id. lia.
    + by rewrite (link_load f g v k Hrd (k_mem s4) m5) by (done || unfold t, thread_stack; lia).
    + by rewrite (link_load f g v k Hrd (k_mem s4) m5) by (done || unfold t, thread_stack_base; lia).
  - rewrite set_mem_glob, Hg4 by done. unfold s3. rewrite set_glob_eq. apply s32_id. lia.
  - eapply same_outside_trans; eapply same_part_mono; [|exact Hp04| |exact Hp5]; done.
Qed.
End Layout.

(** ** Properties *)
Section Properties.
Context `{Symbols} `{Hardware} `{!Heap kernel_vm_map}.
Context (tz tb tn sz sb sn task c name : Z) (nl : nat).
Abbreviation sys := (thread_sys tz tb tn sz sb sn task c name nl).

(** (C6) [thread_create] takes a free block of each zone and three pages and keeps the
    invariant: the new thread is the last on the lists of its task and of the
    scheduler, it is active, and the registers of every other thread are as they were.
    Its stack pointer is the lowest address of its page of stack, above the guard page
    into which the first push goes. *)
Theorem thread_create_correct fuel s priority entry l ts stk f tfree tused g sfree sused v k nm :
  sys s l ts stk (f :: tfree) tused (g :: sfree) sused v k nm -> 3 <= k -> is_u64 entry ->
  0 <= k_glob s thread_id_max < 2 ^ 31 - 1 -> (length nm <= fuel)%nat ->
  let t := f + ZONE_METADATA_SIZEOF in
  exists s', thread_create fuel task priority entry name s = Done t s' /\
    sys s' (l ++ [t]) (ts ++ [t]) (stk ++ [g + ZONE_METADATA_SIZEOF]) tfree (f :: tused) sfree (g :: sused)
      (v + VM_PAGE_SIZE * 3) (k - 3) nm /\
    sched_ok (k_mem s') (l ++ [t]) c /\
    new_thread task (k_mem s') t (k_glob s thread_id_max) entry (v + VM_PAGE_SIZE) /\
    k_glob s' thread_id_max = k_glob s thread_id_max + 1 /\
    (forall u a n, u ∈ l -> u <= a -> a + Z.of_nat n <= u + 136 -> load n (k_mem s') a = load n (k_mem s) a).
Proof.
  intros Hsys Hk He Hid Hfuel t.
  destruct (thread_create_run tz tb tn sz sb sn task c name nl fuel s priority entry l ts stk f tfree tused g sfree
    sused v k nm Hsys Hk He Hid Hfuel) as (s' & E & Hsys' & Hnew & Hid' & Hs).
  exists s'. split; [exact E|]. split; [exact Hsys'|]. split; [by eapply thread_sys_sched|]. split; [exact Hnew|].
  split; [exact Hid'|]. intros u a n Hu Ha1 Ha2.
  pose proof (ts_zone _ _ _ _ _ _ _ _ _ _ _ _ _ _ _ _ _ _ _ _ _ Hsys) as [_ Hz].
  pose proof (ts_szone _ _ _ _ _ _ _ _ _ _ _ _ _ _ _ _ _ _ _ _ _ Hsys) as [_ Hsz].
  destruct (free_not_used _ _ _ _ _ _ _ _ Hz) as [Hf Hfu]. destruct (free_not_used _ _ _ _ _ _ _ _ Hsz) as [Hg _].
  pose proof (thread_regions_disjoint tz tb tn sz sb sn task c name nl _ f g v k _ _ _ _ Hz Hsz Hf Hg
    (ts_layout _ _ _ _ _ _ _ _ _ _ _ _ _ _ _ _ _ _ _ _ _ Hsys)) as Hrd.
  eapply (part_load _ _ [4]%nat); [exact Hrd| | |exact Hs]; [done|]. intros x Hx.
  eapply (part_region _ _ 4); [reflexivity|done|]. left. exists (u - 16).
  destruct (Hfu (u - 16)) as [H1 H2]; [apply (ts_used _ _ _ _ _ _ _ _ _ _ _ _ _ _ _ _ _ _ _ _ _ Hsys); by left|].
  split; [done|]. split; [done|]. unfold elem_range, within in *. lia.
Qed.
End Properties.

(** ** Witnesses: zones of one block each, and the three pages of the demo heap *)
Definition demo_tz : Z := DEMO_VIRT + 0x130000.
Definition demo_tb : Z := DEMO_VIRT + 0x130100.
Definition demo_sz : Z := DEMO_VIRT + 0x131000.
Definition demo_sb : Z := DEMO_VIRT + 0x131100.
Definition demo_task : Z := DEMO_VIRT + 0x132000.
Definition demo_name : Z := DEMO_VIRT + 0x133000.

(** A zone with the one free block [base]. *)
Definition one_block (zone base size : Z) (m : memory) : memory :=
  let m := st32 (st32 (st64 m (zone_elem_size zone) size) (zone_count zone) 0) (zone_count_free zone) 1 in
  let m := INIT_LIST_HEAD (INIT_LIST_HEAD m (zone_used_elems zone)) (zone_free_elems zone) in
  list_add_tail m base (zone_free_elems zone).
Definition demo_threads_memory : memory :=
  let m := one_block demo_tz demo_tb THREAD_SIZEOF (k_mem demo_vm) in
  let m := one_block demo_sz demo_sb STACK_SIZEOF m in
  let m := INIT_LIST_HEAD m (@sym_stacks demo_symbols) in
  let m := INIT_LIST_HEAD m (@sym_threads demo_symbols) in
  let m := INIT_LIST_HEAD m (task_threads demo_task) in
  wr_list m demo_name [116; 49; 0].
Definition demo_threads_state : kstate :=
  set_glob thread_zone demo_tz (set_glob stack_zone demo_sz (set_mem demo_threads_memory demo_vm)).

Lemma demo_heap_own x : @heap_own _ _ _ demo_heap x -> x < DEMO_VIRT + 0x110000 \/ DEMO_VIRT + 0x200000 <= x.
Proof.
  assert (Hl1 : tt_l1_index demo_lo = 448) by (vm_compute; reflexivity).
  simpl. unfold vm_heap_own. simpl.
  unfold map_bytes, slot_bytes, vm_page_bytes, within, entry_addr, __vm_page_get_idx,
    VM_PAGE_STRUCT_SIZE, vm_map_pmap, demo_map, demo_l2. rewrite Hl1. unfold DEMO_VIRT.
  intros [[?|(i & ? & ?)]|[[?|?]|(i & ? & ?)]]; lia.
Qed.

Definition demo_new (x : Z) : Prop := DEMO_VIRT + 0x110000 <= x < DEMO_VIRT + 0x200000.

Lemma init_list_outside (R : Z -> Prop) m h :
  (forall x, within h 16 x -> R x) -> same_outside R m (INIT_LIST_HEAD m h).
Proof.
  intros HR. apply same_outside_store; [|apply same_outside_store; [|done]]; intros x Hx; apply HR;
    unfold within, list_next, list_prev in *; simpl in *; lia.
Qed.
Lemma one_block_outside (R : Z -> Prop) zone base size m :
  0 <= zone -> zone + 72 < 2 ^ 64 -> is_u64 base -> zone + 72 <= base ->
  (forall x, within zone 72 x \/ within base 16 x -> R x) -> same_outside R m (one_block zone base size m).
Proof.
  intros H1 H2 H3 H4 HR. unfold one_block. set (m1 := st32 _ _ _). 
  assert (Hs1 : same_outside R m m1).
  { unfold m1. zone_unfold. do 3 (apply same_outside_store; [intros x Hx; apply HR; unfold within in *; lia|]). done. }
  set (m2 := INIT_LIST_HEAD m1 _).
  assert (Hs2 : same_outside R m1 m2).
  { apply init_list_outside. intros x Hx. apply HR. zone_unfold. unfold within in *. lia. }
  set (m3 := INIT_LIST_HEAD m2 _).
  assert (Hs3 : same_outside R m2 m3).
  { apply init_list_outside. intros x Hx. apply HR. zone_unfold. unfold within in *. lia. }
  assert (Hd : dll m3 (zone_free_elems zone) []) by (apply dll_init; zone_unfold; lia).
  eapply same_outside_trans; [exact Hs1|]. eapply same_outside_trans; [exact Hs2|]. eapply same_outside_trans; [exact Hs3|].
  eapply same_outside_mono; [|apply (list_add_tail_footprint m3 _ [] base Hd)].
  intros x (a & Ha & Hx). apply HR. zone_unfold.
  apply elem_of_cons in Ha as [->|Ha%list_elem_of_singleton]; [right; exact Hx|left; subst a; unfold within in *; lia].
Qed.

Lemma demo_threads_outside : same_outside demo_new (k_mem demo_vm) demo_threads_memory.
Proof.
  unfold demo_threads_memory. change (@sym_stacks demo_symbols) with (DEMO_VIRT + 0x112000).
  change (@sym_threads demo_symbols) with (DEMO_VIRT + 0x112040).
  eapply same_outside_trans with (m2 := INIT_LIST_HEAD _ _); [|intros x Hx; rewrite rd_wr_list_out; [reflexivity|];
    unfold demo_new, demo_name, within in *; simpl; lia].
  do 3 (eapply same_outside_trans; [|apply (init_list_outside demo_new);
    unfold demo_new, task_threads, demo_task, within; intros x; lia]).
  assert (H : forall zone base size m, DEMO_VIRT + 0x110000 <= zone -> zone + 72 <= base -> base + 16 < DEMO_VIRT + 0x200000 ->
    same_outside demo_new m (one_block zone base size m)).
  { unfold DEMO_VIRT. intros zone base size m H1 H2 H3.
    apply one_block_outside; unfold demo_new, within, DEMO_VIRT; [lia|lia|lia|lia|intros x; lia]. }
  eapply same_outside_trans; [apply (H demo_tz demo_tb)|apply H];
    unfold demo_tz, demo_tb, demo_sz, demo_sb, DEMO_VIRT; lia.
Qed.

Lemma demo_thread_heap : @heap_ok _ _ _ demo_heap demo_threads_state demo_v 3.
Proof.
  apply (@heap_frame _ _ _ demo_heap demo_new demo_vm); [exact (zr_heap _ _ _ _ demo_zone_room)|exact demo_threads_outside| |].
  - intros x Hx Ho. apply demo_heap_own in Ho. unfold demo_new in Hx. lia.
  - intros h Hv. unfold demo_threads_state.
    rewrite !set_glob_ne by (intros ->; inversion Hv). rewrite set_mem_glob. reflexivity.
Qed.

Lemma one_slot base size : slots base size 1 = [base].
Proof. unfold slots. simpl. f_equal. unfold ZONE_METADATA_SIZEOF. lia. Qed.

(** The intervals the areas lie in. *)
Lemma demo_areas : regions_disjoint
  (@thread_areas _ _ demo_heap demo_tz demo_tb 1 demo_sz demo_sb 1 demo_task (DEMO_VIRT + 0x113000) demo_name 2 demo_v 3).
Proof.
  set (bounds := [(0x130000, 0x131000); (0x131000, 0x132000); (0x112000, 0x112010); (0x112040, 0x112050);
    (0x132000, 0x133000); (0, 0); (0x113000, 0x114000); (0x133000, 0x134000)]).
  assert (Hb : forall i P x, thread_areas demo_tz demo_tb 1 demo_sz demo_sb 1 demo_task (DEMO_VIRT + 0x113000) demo_name 2
      demo_v 3 (Heap0 := demo_heap) !! i = Some P -> P x ->
    exists lo hi, bounds !! i = Some (lo, hi) /\
      ((i <> 5%nat /\ DEMO_VIRT + lo <= x < DEMO_VIRT + hi) \/
       (i = 5%nat /\ (x < DEMO_VIRT + 0x110000 \/ DEMO_VIRT + 0x200000 <= x)))).
  { intros i P x Hi HP. unfold thread_areas, zone_area, zone_own, heap_area in Hi. rewrite !one_slot in Hi.
    change (@sym_stacks demo_symbols) with (DEMO_VIRT + 0x112000) in Hi.
    change (@sym_threads demo_symbols) with (DEMO_VIRT + 0x112040) in Hi.
    assert (HT : THREAD_SIZEOF = 288) by done. assert (HS : STACK_SIZEOF = 24) by done.
    do 8 (destruct i as [|i]; [injection Hi as <-; eexists _, _; split; [reflexivity|];
      first [right; split; [done|]; destruct HP as [HP%demo_heap_own|HP]; [exact HP|];
               left; unfold demo_v in HP; change VM_PAGE_SIZE with 4096 in HP; lia
            |left; split; [done|];
             repeat match goal with
             | H : _ \/ _ |- _ => destruct H
             | H : exists e, e ∈ [_] /\ _ |- _ => destruct H as (e & ->%list_elem_of_singleton & H)
             end; unfold elem_range, within, demo_tz, demo_tb, demo_sz, demo_sb, demo_task, demo_name, task_threads in *; lia]|]).
    done. }
  intros i j P Q x Hne Hi Hj HP HQ.
  destruct (Hb i P x Hi HP) as (lo & hi & Hli & Hx). destruct (Hb j Q x Hj HQ) as (lo' & hi' & Hlj & Hx').
  clear Hb Hi Hj HP HQ. unfold bounds in *.
  do 8 (destruct i as [|i]; [do 8 (destruct j as [|j]; [first [done|injection Hli as <- <-; injection Hlj as <- <-; lia]|]); done|]).
  done.
Qed.

(** A fresh zone of one block; the four loads and the two lists are evaluated. *)
Lemma one_block_ok m zone base size :
  0 < size /\ 0 <= zone /\ zone + ZONE_SIZEOF <= base /\ base + (size + ZONE_METADATA_SIZEOF) < 2 ^ 64 ->
  ld64 m (zone_elem_size zone) = size -> ld32 m (zone_count zone) = 0 -> ld32 m (zone_count_free zone) = 1 ->
  dllb m (zone_free_elems zone) [base] = true -> dllb m (zone_used_elems zone) [] = true ->
  zone_ok m zone base 1 size [base] [].
Proof.
  intros (H1 & H2 & H3 & H4) He Hc Hf Hfree Hused. unfold ZONE_SIZEOF, ZONE_METADATA_SIZEOF in *.
  split; try done; unfold ZONE_SIZEOF, ZONE_METADATA_SIZEOF; try lia.
  - by apply dllb_sound.
  - by apply dllb_sound.
  - by rewrite one_slot.
Qed.

Lemma demo_thread_sys :
  @thread_sys _ _ demo_heap demo_tz demo_tb 1 demo_sz demo_sb 1 demo_task (DEMO_VIRT + 0x113000) demo_name 2
    demo_threads_state [] [] [] [demo_tb] [] [demo_sb] [] demo_v 3 [116; 49].
Proof.
  split.
  - split; [reflexivity|]. apply one_block_ok; try (vm_compute; reflexivity). repeat split; vm_compute; congruence.
  - split; [reflexivity|]. apply one_block_ok; try (vm_compute; reflexivity). repeat split; vm_compute; congruence.
  - exact demo_thread_heap.
  - apply dllb_sound. vm_compute. reflexivity.
  - apply dllb_sound. vm_compute. reflexivity.
  - apply dllb_sound. vm_compute. reflexivity.
  - split; [intros t [Ht|Ht]; by apply elem_of_nil in Ht|intros r Hr; by apply elem_of_nil in Hr].
  - split; [|done]. split; [|repeat constructor; done]. intros i b Hi.
    do 3 (destruct i as [|i]; [injection Hi as <-; vm_compute; reflexivity|]). done.
  - exact demo_areas.
  - split; [vm_compute; split; congruence|apply NoDup_nil_2].
Qed.

Lemma thread_create_correct_witness :
  let _ := demo_symbols in let _ := demo_hardware in
  exists s', thread_create 10 demo_task THREAD_PRIORITY_LOW sym_test_thread_1 demo_name demo_threads_state =
      Done (demo_tb + 16) s' /\
    sched_ok (k_mem s') [demo_tb + 16] (DEMO_VIRT + 0x113000) /\
    ld64 (k_mem s') (thread_entry (demo_tb + 16)) = sym_test_thread_1.
Proof.
  intros sy hw.
  destruct (@thread_create_correct sy hw demo_heap demo_tz demo_tb 1 demo_sz demo_sb 1 demo_task (DEMO_VIRT + 0x113000)
    demo_name 2 10 demo_threads_state THREAD_PRIORITY_LOW sym_test_thread_1 [] [] [] demo_tb [] [] demo_sb [] [] demo_v 3
    [116; 49] demo_thread_sys) as (s' & E & _ & Hok & Hnew & _).
  - lia.
  - vm_compute. split; congruence.
  - vm_compute. split; congruence.
  - simpl. lia.
  - exists s'. split; [exact E|]. split; [exact Hok|]. apply (nt_entry _ _ _ _ _ _ Hnew).
Defined.
