(* ===== verification/Processor.v ===== *)
(** * Processor: the processor interface (kern/processor.c, kern/processor.h)

    Processors come from [processor_zone] and wait on the list
    [idle_processors]. *)
From Stdlib Require Import ZArith Lia.
From stdpp Require Import prelude gmap list strings.
From S2P Require Import Prelude Memory LinkedList TString Kernel Pmap VmPage VmMap Vm Heap Zalloc Machine Cpu Task Thread.
Open Scope Z_scope.
Open Scope monix_scope.

(** ** The structure [processor_t]; [state] is a signed field of one bit *)
Definition PROCESSOR_STATE_INACTIVE : Z := 0.
Definition PROCESSOR_STATE_ACTIVE : Z := 1.
Definition PROCESSOR_STATE_IDLE : Z := 2.

Definition PROCESSOR_SIZEOF : Z := 56.
Definition processor_active_thread (p : Z) : Z := p.
Definition processor_next_thread (p : Z) : Z := p + 8.
Definition processor_idle_thread (p : Z) : Z := p + 16.
Definition processor_priority (p : Z) : Z := p + 24.
Definition processor_cpu_id (p : Z) : Z := p + 28.
Definition processor_state_bits (p : Z) : Z := p + 32.
Definition processor_proc_list (p : Z) : Z := p + 40.

(** The value of the field: bit 0, read as a signed number of one bit. *)
Definition processor_state (m : memory) (p : Z) : Z := - get_bits (ld32 m (processor_state_bits p)) 0 1.
Definition set_processor_state (p v : Z) (m : memory) : memory :=
  st32 m (processor_state_bits p) (set_bits (ld32 m (processor_state_bits p)) 0 1 v).

Section Processor.
Context `{Symbols} `{Hardware}.

Definition processor_create (cpu_id : Z) : M Z :=
  let! zone := get processor_zone in
  let! processor := zalloc zone in
  upd_mem (fun m => memset m processor 0 (Z.to_nat PROCESSOR_SIZEOF)) ;!
  upd_mem (set_processor_state processor PROCESSOR_STATE_INACTIVE) ;!
  st 8 (processor_idle_thread processor) THREAD_NULL ;!
  st 8 (processor_next_thread processor) THREAD_NULL ;!
  st 8 (processor_active_thread processor) THREAD_NULL ;!
  st 4 (processor_priority processor) THREAD_PRIORITY_LOW ;!
  st 4 (processor_cpu_id processor) cpu_id ;!
  upd_mem (fun m => list_add_tail m (processor_proc_list processor) sym_idle_processors) ;!
  let! n := get processor_count in
  put processor_count (s32 (n + 1)) ;!
  ret processor.

Definition processor_init : M unit :=
  upd_mem (fun m => INIT_LIST_HEAD m sym_active_processors) ;!
  upd_mem (fun m => INIT_LIST_HEAD m sym_idle_processors) ;!
  upd_mem (fun m => INIT_LIST_HEAD m sym_tasks) ;!
  upd_mem (fun m => INIT_LIST_HEAD m sym_threads) ;!
  let! zone := zone_create PROCESSOR_SIZEOF (u64 (CPU_NUMBER_MAX * PROCESSOR_SIZEOF))
                 (sym_literal "processor_zone") in
  put processor_zone zone ;!
  let! id := get primary_cpu_id in
  let! processor := processor_create id in
  put primary_processor processor ;!
  let! id := ld 4 (processor_cpu_id processor) in
  let! _ := cpu_set_processor (s32 id) processor in
  ret tt.
End Processor.
