(* ===== verification/Gicv3.v ===== *)
(** * Gicv3: the interrupt controller (drivers/irq/irq-gicv3.c and .h), and the
    machine's interrupt interface (kern/machine/machine-irq.c, machine_timer.c)

    The register frames of the distributor and of the redistributors are device
    memory: every access is an event of the trace. *)
From Stdlib Require Import ZArith Lia.
From stdpp Require Import prelude gmap list strings.
From S2P Require Import Prelude Memory Kernel Pmap Vm Machine Cpu.
Open Scope Z_scope.
Open Scope monix_scope.

(** ** Registers (irq-gicv3.h) *)
Definition GICD_CTLR_ENABLE_G1NS_BIT : Z := Z.shiftl 1 1.
Definition GICD_CTLR_ARE_NS_BIT : Z := Z.shiftl 1 5.
Definition GICD_CTLR_DS_BIT : Z := Z.shiftl 1 6.
Definition GICR_WAKER_PS_BIT : Z := Z.shiftl 1 1.
Definition GICR_WAKER_CA_BIT : Z := Z.shiftl 1 2.
Definition ICC_SRE_SRE_BIT : Z := Z.shiftl 1 0.
Definition ICC_SRE_EN_BIT : Z := Z.shiftl 1 3.

(** [struct gicv3_dist_frame] *)
Definition gicd_ctlr (d : Z) : Z := d.
Definition gicd_pidr2 (d : Z) : Z := d + 0xffe8.

(** [struct gicv3_redist_frame]: the LPI frame and the SGI frame, 64 KB each. *)
Definition GICR_FRAME_SIZE : Z := 0x20000.
Definition gicr_frame (redist index : Z) : Z := u64 (redist + GICR_FRAME_SIZE * index).
Definition gicr_typer1 (r : Z) : Z := r + 0x0c.
Definition gicr_waker (r : Z) : Z := r + 0x14.
Definition gicr_sgis (r : Z) : Z := r + 0x10000.
Definition gicr_igroupr0 (r : Z) : Z := gicr_sgis r + 0x80.
Definition gicr_isenabler0 (r : Z) : Z := gicr_sgis r + 0x100.
Definition gicr_icenabler0 (r : Z) : Z := gicr_sgis r + 0x180.
Definition gicr_ipriorityr (r i : Z) : Z := gicr_sgis r + 0x400 + i.
Definition gicr_igrpmodr0 (r : Z) : Z := gicr_sgis r + 0xd00.

Definition PLAT_GIC_MIN_VERSION : Z := 3.
Definition GIC_IRQ_CONTROL_DISABLE : Z := 0.
Definition GIC_IRQ_CONTROL_ENABLE : Z := 1.
Definition GIC_IRM_DISABLE : Z := 0.

Section Gic.
Context `{Symbols} `{Hardware}.

(** arch/arch.h *)
Definition dsbsy : M unit := barrier "dsb sy".
Definition dmbst : M unit := barrier "dmb st".
Definition isb : M unit := barrier "isb".

(** [mmio |= v] and the like: a read and a write. *)
Definition mmio_update32 (a : Z) (f : Z -> Z) : M unit :=
  let! v := mmio_read 4 a in mmio_write 4 a (f v).

Definition arm64_read_affinity : M Z :=
  let! mpidr := sysreg_read mpidr_el1 in
  ret (Z.lor (Z.land mpidr 0x00ffffff) (u64 (Z.shiftl (Z.land (Z.shiftr mpidr 32) 0xff) 24))).

(** The [do] loop, which tries the indices up to [max_redist_idx]. *)
Fixpoint gic_scan_redist (n : nat) (affinity index : Z) : M Z :=
  let! redist := get gic_redist in
  let! typer := mmio_read 4 (gicr_typer1 (gicr_frame redist index)) in
  if typer =? affinity then ret index
  else
    let! max := get gic_max_redist_idx in
    if max <? u32 (index + 1) then ret 0xffffffff
    else match n with
         | O => diverge
         | S n => gic_scan_redist n affinity (u32 (index + 1))
         end.

(** At most [max_redist_idx + 1] iterations. *)
Definition gic_get_redist_id (affinity : Z) : M Z :=
  let! max := get gic_max_redist_idx in
  gic_scan_redist (Z.to_nat max) (u32 affinity) 0.

Definition gic_get_version : M Z :=
  let! dist := get gic_dist in
  let! pidr2 := mmio_read 4 (gicd_pidr2 dist) in
  ret (Z.land (Z.shiftr pidr2 4) 0xf).

Definition gic_dist_init : M unit :=
  let! version := gic_get_version in
  put gic_version version ;!
  let! dist := get gic_dist in
  mmio_write 4 (gicd_ctlr dist) (Z.lor GICD_CTLR_ARE_NS_BIT GICD_CTLR_DS_BIT) ;!
  mmio_update32 (gicd_ctlr dist) (fun v => Z.lor v GICD_CTLR_ENABLE_G1NS_BIT) ;!
  dsbsy ;!
  isb.

Definition gic_redist_init (fuel : nat) : M unit :=
  let! cpu_num := machine_get_cpu_num in
  let! max := machine_get_max_cpu_num in
  put gic_max_redist_idx max ;!
  let! affinity := arm64_read_affinity in
  let! redist_id := gic_get_redist_id affinity in
  let! redist := get gic_redist in
  let waker := gicr_waker (gicr_frame redist redist_id) in
  mmio_update32 waker (fun v => Z.ldiff v GICR_WAKER_PS_BIT) ;!
  poll fuel waker GICR_WAKER_CA_BIT ;!
  dsbsy ;!
  isb.

Definition gic_cpuif_init : M unit :=
  let! sre := sysreg_read icc_sre_el1 in
  sysreg_write icc_sre_el1 (Z.lor sre (Z.lor ICC_SRE_EN_BIT ICC_SRE_SRE_BIT)) ;!
  sysreg_write icc_pmr_el1 0xff ;!
  let! igrpen := sysreg_read icc_igrpen1_el1 in
  sysreg_write icc_igrpen1_el1 (Z.lor igrpen 0x1) ;!
  dsbsy ;!
  isb.

Definition gic_interface_init (fuel : nat) (dist_base redist_base : Z) : M Z :=
  put gic_dist_base dist_base ;!
  put gic_redist_base redist_base ;!
  put gic_dist dist_base ;!
  put gic_redist redist_base ;!
  gic_dist_init ;!
  gic_redist_init fuel ;!
  gic_cpuif_init ;!
  put gic_initialised 1 ;!
  ret KERN_RETURN_SUCCESS.

(** The bit of an interrupt in a register for 32 of them. *)
Definition intid_bit (intid : Z) : Z := u32 (Z.shiftl 1 (Z.land intid 0x1f)).

Definition __gic_irq_control (intid ctrl : Z) : M unit :=
  if intid <? 31 then
    let! affinity := arm64_read_affinity in
    let! redist_id := gic_get_redist_id affinity in
    let! max := get gic_max_redist_idx in
    if max <? redist_id then halt
    else
      let! redist := get gic_redist in
      let r := gicr_frame redist redist_id in
      let id := intid_bit intid in
      (if ctrl =? GIC_IRQ_CONTROL_ENABLE then
         mmio_update32 (gicr_isenabler0 r) (fun v => Z.lor v id)
       else if ctrl =? GIC_IRQ_CONTROL_DISABLE then
         mmio_update32 (gicr_icenabler0 r) (fun v => Z.lor v id)
       else ret tt) ;!
      dmbst ;!
      isb
  else ret tt.

Definition gic_irq_register (intid priority : Z) : M Z :=
  if intid <? 31 then
    let! affinity := arm64_read_affinity in
    let! redist_id := gic_get_redist_id affinity in
    let! max := get gic_max_redist_idx in
    if max <? redist_id then ret KERN_RETURN_FAIL
    else
      let! redist := get gic_redist in
      let r := gicr_frame redist redist_id in
      mmio_write 1 (gicr_ipriorityr r intid) priority ;!
      let id := intid_bit intid in
      let! group := mmio_read 4 (gicr_igroupr0 r) in
      let! mod_ := mmio_read 4 (gicr_igrpmodr0 r) in
      let group := Z.lor group id in
      let mod_ := Z.ldiff mod_ id in
      mmio_write 4 (gicr_igroupr0 r) group ;!
      mmio_write 4 (gicr_igrpmodr0 r) mod_ ;!
      __gic_irq_control intid GIC_IRQ_CONTROL_ENABLE ;!
      dsbsy ;!
      isb ;!
      ret KERN_RETURN_SUCCESS
  else ret KERN_RETURN_FAIL.

Definition gic_irq_enable (intid : Z) : M unit := __gic_irq_control (u32 intid) GIC_IRQ_CONTROL_ENABLE.
Definition gic_irq_disable (intid : Z) : M unit := __gic_irq_control (u32 intid) GIC_IRQ_CONTROL_DISABLE.

(** All operands are 64 bits wide. *)
Definition CREATE_SGIR_VALUE (aff3 aff2 aff1 intid irm tgt : Z) : Z :=
  fold_left Z.lor
    [u64 (Z.shiftl irm 40); u64 (Z.shiftl aff2 32); u64 (Z.shiftl intid 24);
     u64 (Z.shiftl aff1 16); tgt]
    (u64 (Z.shiftl aff3 48)).

Definition gic_send_sgi (intid target : Z) : M unit :=
  let! mpidr := sysreg_read mpidr_el1 in
  let aff1 := MPIDR_AFFLVL1_VAL mpidr in
  let aff2 := MPIDR_AFFLVL2_VAL mpidr in
  let aff3 := MPIDR_AFFLVL3_VAL mpidr in
  sysreg_write icc_sgi1r_el1 (CREATE_SGIR_VALUE aff3 aff2 aff1 intid GIC_IRM_DISABLE target) ;!
  dsbsy ;!
  isb.

(** ** The machine's interface *)
Definition machine_init_interrupts (fuel : nat) : M Z :=
  let gic_region_virt_base := 0xffffffff11000000 in
  let gic_region_base := 0x8000000 in
  let gicd_virt_base := gic_region_virt_base + 0x0 in
  let gicd_phys_base := gic_region_base + 0x0 in
  let gicd_size := 0x10000 in
  let gicr_virt_base := gic_region_virt_base + 0xa0000 in
  let gicr_phys_base := gic_region_base + 0xa0000 in
  let gicr_size := 0xf60000 in
  let! table := get kernel_tte in
  let! _ := pmap_tt_create_tte table gicd_phys_base gicd_virt_base gicd_size PMAP_ACCESS_READWRITE in
  let! table := get kernel_tte in
  let! _ := pmap_tt_create_tte table gicr_phys_base gicr_virt_base gicr_size PMAP_ACCESS_READWRITE in
  let! _ := gic_interface_init fuel gicd_virt_base gicr_virt_base in
  ret KERN_RETURN_SUCCESS.

Definition machine_register_interrupt (intid priority : Z) : M Z := gic_irq_register intid priority.
Definition machine_send_interrupt (intid target : Z) : M unit := gic_send_sgi intid target.

Definition machine_init_timers : M unit :=
  let! _ := machine_register_interrupt MACHINE_TIMER_EL1PHYS_IRQ_ID 0 in
  arm64_timer_init MACHINE_TIMER_RESET_VALUE.
End Gic.

(** ** Finding the redistributor *)
Section Runs.
Context `{Hardware}.

(** [GICR_TYPER] is a read-only register: the answers of the redistributors at
    [redist] do not depend on what happened before.  [typer i] is the affinity
    value of redistributor [i]. *)
Class Typers (redist : Z) (typer : Z -> Z) :=
  typers_answer : forall tr i, hw_mmio_read tr (gicr_typer1 (gicr_frame redist i)) mod 2 ^ 32 = typer i.

(** The reads of [n] type registers from redistributor [j] on, the last one first. *)
Fixpoint typer_reads (redist j : Z) (n : nat) : list event :=
  match n with
  | O => []
  | S n => typer_reads redist (j + 1) n ++ [EvRead 4 (gicr_typer1 (gicr_frame redist j))]
  end.

Lemma read_typer `{!Typers redist typer} j s :
  mmio_read 4 (gicr_typer1 (gicr_frame redist j)) s =
    Done (typer j) (add_trace (typer_reads redist j 1) s).
Proof.
  unfold mmio_read. change (2 ^ (8 * Z.of_nat 4)) with (2 ^ 32). by rewrite typers_answer.
Qed.

Lemma scan_found `{!Typers redist typer} fuel a j s (k : nat) :
  k_glob s gic_redist = redist -> 0 <= j -> j + Z.of_nat k <= k_glob s gic_max_redist_idx < 2 ^ 32 - 1 ->
  typer (j + Z.of_nat k) = a -> (forall i, j <= i < j + Z.of_nat k -> typer i <> a) -> (k <= fuel)%nat ->
  gic_scan_redist fuel a j s = Done (j + Z.of_nat k) (add_trace (typer_reads redist j (S k)) s).
Proof.
  revert fuel j s. induction k as [|k IH]; intros fuel j s Hr Hj Hm Ht Hne Hf.
  - rewrite Z.add_0_r in *. destruct fuel; cbn [gic_scan_redist]; unfold bind at 1, get at 1;
      rewrite Hr, (bind_done _ _ _ _ _ (read_typer j s)), Ht, Z.eqb_refl; done.
  - destruct fuel as [|fuel]; [lia|]. cbn [gic_scan_redist]. unfold bind at 1, get at 1.
    rewrite Hr, (bind_done _ _ _ _ _ (read_typer j s)).
    destruct (Z.eqb_spec (typer j) a) as [E|_]; [exfalso; apply (Hne j); lia|].
    unfold bind at 1, get at 1. rewrite add_trace_glob, u32_id by lia.
    destruct (Z.ltb_spec (k_glob s gic_max_redist_idx) (j + 1)); [lia|].
    rewrite (IH fuel (j + 1)); [|done|lia|cbn; lia|by rewrite <- Ht; f_equal; lia| |lia].
    + rewrite add_trace_app. f_equal. lia.
    + intros i Hi. apply Hne. lia.
Qed.

Lemma scan_missing `{!Typers redist typer} fuel a j s (k : nat) :
  k_glob s gic_redist = redist -> 0 <= j -> j + Z.of_nat k = k_glob s gic_max_redist_idx ->
  k_glob s gic_max_redist_idx < 2 ^ 32 - 1 ->
  (forall i, j <= i <= j + Z.of_nat k -> typer i <> a) -> (k <= fuel)%nat ->
  gic_scan_redist fuel a j s = Done 0xffffffff (add_trace (typer_reads redist j (S k)) s).
Proof.
  revert fuel j s. induction k as [|k IH]; intros fuel j s Hr Hj Hm Hm2 Hne Hf.
  - destruct fuel; cbn [gic_scan_redist]; unfold bind at 1, get at 1;
      rewrite Hr, (bind_done _ _ _ _ _ (read_typer j s));
      (destruct (Z.eqb_spec (typer j) a) as [E|_]; [exfalso; apply (Hne j); lia|]);
      unfold bind at 1, get at 1; rewrite add_trace_glob, u32_id by lia;
      destruct (Z.ltb_spec (k_glob s gic_max_redist_idx) (j + 1)); done || lia.
  - destruct fuel as [|fuel]; [lia|]. cbn [gic_scan_redist]. unfold bind at 1, get at 1.
    rewrite Hr, (bind_done _ _ _ _ _ (read_typer j s)).
    destruct (Z.eqb_spec (typer j) a) as [E|_]; [exfalso; apply (Hne j); lia|].
    unfold bind at 1, get at 1. rewrite add_trace_glob, u32_id by lia.
    destruct (Z.ltb_spec (k_glob s gic_max_redist_idx) (j + 1)); [lia|].
    rewrite (IH fuel (j + 1)); [|done|lia|cbn; lia|done| |lia].
    + by rewrite add_trace_app.
    + intros i Hi. apply Hne. lia.
Qed.

(** The affinity value of a CPU, as [GICR_TYPER] has it. *)
Definition affinity_of (mpidr : Z) : Z :=
  Z.lor (Z.land mpidr 0x00ffffff) (Z.shiftl (Z.land (Z.shiftr mpidr 32) 0xff) 24).

Lemma affinity_range mpidr : 0 <= affinity_of mpidr < 2 ^ 32.
Proof.
  unfold affinity_of. change 0x00ffffff with (Z.ones 24). change 0xff with (Z.ones 8).
  rewrite !Z.land_ones, Z.shiftl_mul_pow2 by lia.
  pose proof (Z.mod_pos_bound mpidr (2 ^ 24) ltac:(lia)).
  pose proof (Z.mod_pos_bound (Z.shiftr mpidr 32) (2 ^ 8) ltac:(lia)).
  rewrite Z.lor_comm, lor_disjoint_add by lia. lia.
Qed.

Lemma redist_id_found `{!Running mpidr} `{!Typers redist typer} s idx :
  k_glob s gic_redist = redist -> 0 <= idx <= k_glob s gic_max_redist_idx ->
  k_glob s gic_max_redist_idx < 2 ^ 32 - 1 ->
  typer idx = affinity_of mpidr -> (forall i, 0 <= i < idx -> typer i <> affinity_of mpidr) ->
  (let! a := arm64_read_affinity in gic_get_redist_id a) s =
    Done idx (add_trace (typer_reads redist 0 (S (Z.to_nat idx))) s).
Proof.
  intros Hr Hi Hm Ht Hne. unfold arm64_read_affinity, gic_get_redist_id.
  cbv beta iota delta [bind sysreg_read get ret]. rewrite running_mpidr.
  rewrite (u64_id (Z.shiftl _ _)).
  2:{ change 0xff with (Z.ones 8). rewrite Z.land_ones, Z.shiftl_mul_pow2 by lia.
      pose proof (Z.mod_pos_bound (Z.shiftr mpidr 32) (2 ^ 8)). lia. }
  fold (affinity_of mpidr). rewrite u32_id by apply affinity_range.
  rewrite (scan_found _ _ 0 s (Z.to_nat idx)); [f_equal; lia|done|lia|lia| | |lia].
  - rewrite <- Ht. f_equal. lia.
  - intros i Hi'. apply Hne. lia.
Qed.

Lemma redist_id_missing `{!Running mpidr} `{!Typers redist typer} s :
  k_glob s gic_redist = redist -> 0 <= k_glob s gic_max_redist_idx < 2 ^ 32 - 1 ->
  (forall i, 0 <= i <= k_glob s gic_max_redist_idx -> typer i <> affinity_of mpidr) ->
  (let! a := arm64_read_affinity in gic_get_redist_id a) s =
    Done 0xffffffff (add_trace (typer_reads redist 0 (S (Z.to_nat (k_glob s gic_max_redist_idx)))) s).
Proof.
  intros Hr Hm Hne. unfold arm64_read_affinity, gic_get_redist_id.
  cbv beta iota delta [bind sysreg_read get ret]. rewrite running_mpidr.
  rewrite (u64_id (Z.shiftl _ _)).
  2:{ change 0xff with (Z.ones 8). rewrite Z.land_ones, Z.shiftl_mul_pow2 by lia.
      pose proof (Z.mod_pos_bound (Z.shiftr mpidr 32) (2 ^ 8)). lia. }
  fold (affinity_of mpidr). rewrite u32_id by apply affinity_range.
  apply scan_missing; [done|lia|lia|lia| |lia]. intros i Hi'. apply Hne. lia.
Qed.

Lemma intid_bit_eq intid : 0 <= intid < 32 -> intid_bit intid = 2 ^ intid.
Proof.
  intros Hi. unfold intid_bit. change 0x1f with (Z.ones 5). rewrite Z.land_ones by lia.
  rewrite Z.mod_small by lia. rewrite Z.shiftl_1_l. apply u32_id.
  split; [lia|]. apply Z.pow_lt_mono_r; lia.
Qed.

(** The events of enabling or disabling an interrupt whose register is [reg], after
    [tr], the last one first. *)
Definition control_events (redist idx reg intid : Z) (tr : list event) : list event :=
  let tr1 := typer_reads redist 0 (S (Z.to_nat idx)) ++ tr in
  [EvBarrier "isb"; EvBarrier "dmb st";
   EvWrite 4 reg (Z.lor (answer tr1 reg) (2 ^ intid) mod 2 ^ 32); EvRead 4 reg] ++
  typer_reads redist 0 (S (Z.to_nat idx)).

Lemma gic_irq_control_run `{!Running mpidr} `{!Typers redist typer} s idx intid ctrl :
  k_glob s gic_redist = redist -> 0 <= idx <= k_glob s gic_max_redist_idx ->
  k_glob s gic_max_redist_idx < 2 ^ 32 - 1 ->
  typer idx = affinity_of mpidr -> (forall i, 0 <= i < idx -> typer i <> affinity_of mpidr) ->
  0 <= intid < 31 -> ctrl = GIC_IRQ_CONTROL_ENABLE \/ ctrl = GIC_IRQ_CONTROL_DISABLE ->
  let r := gicr_frame redist idx in
  let reg := if ctrl =? GIC_IRQ_CONTROL_ENABLE then gicr_isenabler0 r else gicr_icenabler0 r in
  __gic_irq_control intid ctrl s = Done tt (add_trace (control_events redist idx reg intid (k_trace s)) s).
Proof.
  intros Hr Hi Hm Ht Hne Hint Hctrl r reg. unfold __gic_irq_control.
  destruct (Z.ltb_spec intid 31); [|lia].
  rewrite (bind2_done _ _ _ _ _ _ (redist_id_found s idx Hr Hi Hm Ht Hne)).
  set (s1 := add_trace _ s). unfold bind at 1, get at 1. change (k_glob s1) with (k_glob s).
  destruct (Z.ltb_spec (k_glob s gic_max_redist_idx) idx); [lia|].
  unfold bind at 1, get at 1. change (k_glob s1) with (k_glob s). rewrite Hr. fold r.
  rewrite intid_bit_eq by lia. unfold reg.
  destruct Hctrl as [-> | ->]; reflexivity.
Qed.
End Runs.

(** ** Correctness *)
Section Properties.
Context `{Symbols} `{Hardware} `{!Running mpidr} (redist : Z) (typer : Z -> Z) `{!Typers redist typer}.

(** The events of registering an interrupt with redistributor [idx], after [tr]. *)
Definition register_events (idx intid priority : Z) (tr : list event) : list event :=
  let r := gicr_frame redist idx in
  let tr1 := EvWrite 1 (gicr_ipriorityr r intid) (priority mod 2 ^ 8) ::
             typer_reads redist 0 (S (Z.to_nat idx)) ++ tr in
  let group := answer tr1 (gicr_igroupr0 r) in
  let tr2 := EvRead 4 (gicr_igroupr0 r) :: tr1 in
  let mod_ := answer tr2 (gicr_igrpmodr0 r) in
  let tr3 := EvWrite 4 (gicr_igrpmodr0 r) (Z.ldiff mod_ (2 ^ intid) mod 2 ^ 32) ::
             EvWrite 4 (gicr_igroupr0 r) (Z.lor group (2 ^ intid) mod 2 ^ 32) ::
             EvRead 4 (gicr_igrpmodr0 r) :: tr2 in
  [EvBarrier "isb"; EvBarrier "dsb sy"] ++
  control_events redist idx (gicr_isenabler0 r) intid tr3 ++ tr3.

(** (C20) [gic_irq_register] configures an SGI or PPI at the redistributor whose type
    register has the affinity of the CPU: it writes the priority, sets the
    interrupt's bit in the group register, clears it in the group modifier, then
    sets its enable bit, in this order, with a barrier at the end.  Without such a
    redistributor it fails after reading the type registers; from interrupt 31 on
    it fails without any effect. *)
Theorem gic_irq_register_correct s intid priority :
  k_glob s gic_redist = redist -> 0 <= k_glob s gic_max_redist_idx < 2 ^ 32 - 1 -> 0 <= intid ->
  (forall idx, intid < 31 -> 0 <= idx <= k_glob s gic_max_redist_idx -> typer idx = affinity_of mpidr ->
     (forall i, 0 <= i < idx -> typer i <> affinity_of mpidr) ->
     gic_irq_register intid priority s =
       Done KERN_RETURN_SUCCESS (with_trace (register_events idx intid priority (k_trace s)) s)) /\
  (intid < 31 -> (forall i, 0 <= i <= k_glob s gic_max_redist_idx -> typer i <> affinity_of mpidr) ->
     gic_irq_register intid priority s =
       Done KERN_RETURN_FAIL
         (add_trace (typer_reads redist 0 (S (Z.to_nat (k_glob s gic_max_redist_idx)))) s)) /\
  (31 <= intid -> gic_irq_register intid priority s = Done KERN_RETURN_FAIL s).
Proof.
  intros Hr Hm Hint. unfold gic_irq_register. split; [|split].
  - intros idx Hlt Hi Ht Hne. destruct (Z.ltb_spec intid 31); [|lia].
    rewrite (bind2_done _ _ _ _ _ _ (redist_id_found s idx Hr Hi ltac:(lia) Ht Hne)).
    set (s1 := add_trace _ s). unfold bind at 1, get at 1. change (k_glob s1) with (k_glob s).
    destruct (Z.ltb_spec (k_glob s gic_max_redist_idx) idx); [lia|].
    unfold bind at 1, get at 1. change (k_glob s1) with (k_glob s). rewrite Hr.
    set (r := gicr_frame redist idx). rewrite intid_bit_eq by lia.
    cbv beta iota zeta delta [bind mmio_write emit mmio_read].
    set (s2 := emit_event (EvWrite 4 (gicr_igrpmodr0 r) _) _).
    rewrite (gic_irq_control_run s2 idx intid GIC_IRQ_CONTROL_ENABLE Hr Hi (proj2 Hm) Ht Hne
      (conj Hint Hlt) (or_introl eq_refl)).
    reflexivity.
  - intros Hlt Hne. destruct (Z.ltb_spec intid 31); [|lia].
    rewrite (bind2_done _ _ _ _ _ _ (redist_id_missing s Hr Hm Hne)).
    unfold bind at 1, get at 1. rewrite add_trace_glob.
    destruct (Z.ltb_spec (k_glob s gic_max_redist_idx) 0xffffffff); [done|lia].
  - intros Hge. destruct (Z.ltb_spec intid 31); [lia|done].
Qed.

(** (C39) Waking the redistributor: [gic_redist_init] finds the redistributor of the
    running CPU, clears the sleep request in its waker register and polls until the
    device says that it is awake; it ends exactly when the device does, within the
    fuel. *)
Theorem gic_redist_init_wakes fuel s idx :
  let max := k_glob s topology_max_cpu_id in
  cpu_known s (cpu_number mpidr) -> k_glob s gic_redist = redist ->
  0 <= idx <= max -> max < 2 ^ 32 - 1 -> typer idx = affinity_of mpidr ->
  (forall i, 0 <= i < idx -> typer i <> affinity_of mpidr) ->
  let waker := gicr_waker (gicr_frame redist idx) in
  let tr0 := typer_reads redist 0 (S (Z.to_nat idx)) ++ k_trace s in
  let tr := EvWrite 4 waker (Z.ldiff (answer tr0 waker) GICR_WAKER_PS_BIT mod 2 ^ 32) ::
            EvRead 4 waker :: tr0 in
  let asleep := busy waker GICR_WAKER_CA_BIT tr in
  (forall k, (forall j, (j < k)%nat -> asleep j) -> ~ asleep k -> (k <= fuel)%nat ->
     gic_redist_init fuel s =
       Done tt (with_trace (EvBarrier "isb" :: EvBarrier "dsb sy" :: replicate (S k) (EvRead 4 waker) ++ tr)
                  (set_glob gic_max_redist_idx max s))) /\
  ((forall j, (j <= fuel)%nat -> asleep j) -> gic_redist_init fuel s = Diverged).
Proof.
  intros max Hk Hr Hi Hm Ht Hne waker tr0 tr asleep.
  set (s1 := with_trace tr (set_glob gic_max_redist_idx max s)).
  assert (E : gic_redist_init fuel s =
            (poll fuel waker GICR_WAKER_CA_BIT ;! dsbsy ;! isb) s1).
  { unfold gic_redist_init. rewrite (bind_done _ _ _ _ _ (machine_get_cpu_num_done s Hk)).
    unfold bind at 1, machine_get_max_cpu_num, get at 1. fold max.
    unfold bind at 1, put at 1. set (s0 := set_glob gic_max_redist_idx max s).
    rewrite (bind2_done _ _ _ s0 _ _ (redist_id_found s0 idx Hr Hi Hm Ht Hne)).
    unfold bind at 1, get at 1. rewrite add_trace_glob.
    change (k_glob s0 gic_redist) with (k_glob s gic_redist). rewrite Hr. reflexivity. }
  rewrite E. split.
  - intros k Hb Hnb Hf. rewrite (bind_done _ _ _ _ _ (poll_run fuel waker _ s1 k Hb Hnb Hf)). reflexivity.
  - intros Hb. unfold bind. by rewrite (poll_diverges fuel waker _ s1 Hb).
Qed.
End Properties.

(** ** Software-generated interrupts *)
Lemma lor_add_high x y k : 0 <= k -> 0 <= x < 2 ^ k -> Z.lor x (y * 2 ^ k) = x + y * 2 ^ k.
Proof. intros. rewrite Z.lor_comm, lor_disjoint_add by lia. lia. Qed.

Lemma CREATE_SGIR_VALUE_eq mpidr intid target :
  0 <= intid < 16 -> 0 <= target < 2 ^ 16 ->
  CREATE_SGIR_VALUE (MPIDR_AFFLVL3_VAL mpidr) (MPIDR_AFFLVL2_VAL mpidr) (MPIDR_AFFLVL1_VAL mpidr)
    intid GIC_IRM_DISABLE target =
  target + 2 ^ 16 * (mpidr / 2 ^ 8 mod 2 ^ 8) + 2 ^ 24 * intid + 2 ^ 32 * (mpidr / 2 ^ 16 mod 2 ^ 8).
Proof.
  intros Hi Ht. unfold CREATE_SGIR_VALUE, MPIDR_AFFLVL1_VAL, MPIDR_AFFLVL2_VAL, MPIDR_AFFLVL3_VAL,
    MPIDR_AFFLVL_MASK, GIC_IRM_DISABLE. change 0xff with (Z.ones 8).
  rewrite !Z.land_ones, !Z.shiftr_div_pow2, !Z.shiftl_mul_pow2 by lia.
  pose proof (Z.mod_pos_bound (mpidr / 2 ^ 8) (2 ^ 8) ltac:(lia)).
  pose proof (Z.mod_pos_bound (mpidr / 2 ^ 16) (2 ^ 8) ltac:(lia)).
  set (a1 := mpidr / 2 ^ 8 mod 2 ^ 8) in *. set (a2 := mpidr / 2 ^ 16 mod 2 ^ 8) in *.
  rewrite !u64_id by lia. cbn [fold_left]. rewrite !Z.mul_0_l, !Z.lor_0_l.
  rewrite (lor_disjoint_add a2 (intid * 2 ^ 24) 32) by lia.
  replace (a2 * 2 ^ 32 + intid * 2 ^ 24) with ((a2 * 2 ^ 8 + intid) * 2 ^ 24) by lia.
  rewrite (lor_disjoint_add _ (a1 * 2 ^ 16) 24) by lia.
  replace ((a2 * 2 ^ 8 + intid) * 2 ^ 24 + a1 * 2 ^ 16)
    with (((a2 * 2 ^ 8 + intid) * 2 ^ 8 + a1) * 2 ^ 16) by lia.
  rewrite lor_disjoint_add by lia. lia.
Qed.

(** The value [gic_send_sgi] writes to [ICC_SGI1R_EL1] has the target list, the
    interrupt number and the affinity levels 1 and 2 of the sending CPU in their
    fields; the field of affinity level 3 is zero whatever the CPU. *)
Theorem gic_send_sgi_fields `{!Hardware} `{!Running mpidr} s intid target :
  0 <= intid < 16 -> 0 <= target < 2 ^ 16 ->
  exists v, (forall s', gic_send_sgi intid target s = Done tt s' ->
      k_trace s' = EvBarrier "isb" :: EvBarrier "dsb sy" ::
        EvSysreg icc_sgi1r_el1 (hw_msr_operand s icc_sgi1r_el1 v) :: k_trace s) /\
    (exists s', gic_send_sgi intid target s = Done tt s') /\
    get_bits v 0 16 = target /\ get_bits v 16 8 = mpidr / 2 ^ 8 mod 2 ^ 8 /\
    get_bits v 24 4 = intid /\ get_bits v 32 8 = mpidr / 2 ^ 16 mod 2 ^ 8 /\
    get_bits v 48 8 = 0.
Proof.
  intros Hi Ht. pose proof (CREATE_SGIR_VALUE_eq mpidr intid target Hi Ht) as Ev.
  set (v := CREATE_SGIR_VALUE _ _ _ _ _ _) in Ev.
  assert (E : gic_send_sgi intid target s = (sysreg_write icc_sgi1r_el1 v ;! dsbsy ;! isb) s).
  { unfold gic_send_sgi. unfold bind at 1, sysreg_read at 1. by rewrite running_mpidr. }
  exists v. split; [|split].
  - intros s'. rewrite E. by intros [= <-].
  - rewrite E. by eexists.
  - pose proof (Z.mod_pos_bound (mpidr / 2 ^ 8) (2 ^ 8) ltac:(lia)).
    pose proof (Z.mod_pos_bound (mpidr / 2 ^ 16) (2 ^ 8) ltac:(lia)).
    set (a1 := mpidr / 2 ^ 8 mod 2 ^ 8) in *. set (a2 := mpidr / 2 ^ 16 mod 2 ^ 8) in *.
    clearbody v a1 a2. subst v. unfold get_bits. rewrite !Z.land_ones, !Z.shiftr_div_pow2 by lia.
    split_and!; Z.to_euclidean_division_equations; lia.
Qed.

(** ** Witnesses: every register of the demonstration machine reads as zero *)
#[export] Instance demo_typers r : @Typers demo_hardware r (fun _ => 0).
Proof. done. Qed.

Definition demo_gic : kstate := set_glob gic_redist 0xffffffff110a0000 demo_state.

Lemma gic_irq_register_correct_witness :
  let _ := demo_symbols in let _ := demo_hardware in
  gic_irq_register 30 0 demo_gic =
    Done KERN_RETURN_SUCCESS (with_trace (register_events 0xffffffff110a0000 0 30 0 []) demo_gic).
Proof.
  intros sy hw.
  destruct (@gic_irq_register_correct hw 0x80000000 demo_running 0xffffffff110a0000 (fun _ => 0)
    (demo_typers _) demo_gic 30 0) as [Hok _]; [reflexivity|vm_compute; split; congruence|lia|].
  apply (Hok 0); [lia|vm_compute; split; congruence|reflexivity|lia].
Defined.

Lemma gic_redist_init_wakes_witness :
  let _ := demo_symbols in let _ := demo_hardware in
  exists s', gic_redist_init 0 demo_gic = Done tt s'.
Proof.
  intros sy hw.
  destruct (@gic_redist_init_wakes hw 0x80000000 demo_running 0xffffffff110a0000 (fun _ => 0)
    (demo_typers _) 0 demo_gic 0) as [Hok _].
  - left. vm_compute. congruence.
  - reflexivity.
  - vm_compute. split; congruence.
  - vm_compute. reflexivity.
  - reflexivity.
  - lia.
  - eexists. apply (Hok 0%nat).
    + intros j Hj. inversion Hj.
    + vm_compute. congruence.
    + apply le_n.
Defined.

Lemma gic_send_sgi_fields_witness :
  let _ := demo_symbols in let _ := demo_hardware in
  exists s', gic_send_sgi 1 2 demo_state = Done tt s'.
Proof.
  intros sy hw.
  destruct (@gic_send_sgi_fields hw 0x80000000 demo_running demo_state 1 2) as (v & _ & Hs & _);
    [lia|lia|exact Hs].
Defined.
