(* ===== verification/Pl011.v ===== *)
(** * Pl011: the serial port (drivers/pl011/pl011.c, drivers/pl011/pl011.h) *)
From Stdlib Require Import ZArith Lia.
From stdpp Require Import prelude gmap list strings.
From S2P Require Import Prelude Memory TString Kernel.
Open Scope Z_scope.
Open Scope monix_scope.

(** ** Registers *)
Definition pl011_dr (r : Z) : Z := r.
Definition pl011_fr (r : Z) : Z := r + 24.
Definition pl011_ibrd (r : Z) : Z := r + 36.
Definition pl011_fbrd (r : Z) : Z := r + 40.
Definition pl011_lcr_h (r : Z) : Z := r + 44.
Definition pl011_cr (r : Z) : Z := r + 48.
Definition pl011_imsc (r : Z) : Z := r + 56.

Definition SERIAL_PL011_CR_RXE : Z := Z.shiftl 1 9.
Definition SERIAL_PL011_CR_TXE : Z := Z.shiftl 1 8.
Definition SERIAL_PL011_CR_UARTEN : Z := Z.shiftl 1 0.
Definition SERIAL_PL011_LCRH_WLEN_8 : Z := Z.shiftl 3 5.
Definition SERIAL_PL011_IMSC_RTIM : Z := Z.shiftl 1 6.
Definition SERIAL_PL011_IMSC_RXIM : Z := Z.shiftl 1 4.

Section Pl011.
Context `{Hardware}.

(** Wait while the transmit FIFO is full, then write. *)
Definition pl011_putc (fuel : nat) (c : Z) : M Z :=
  let! base := get pl011_base in
  poll fuel (pl011_fr base) 0x20 ;!
  mmio_write 4 (pl011_dr base) c ;!
  ret 0.

Fixpoint pl011_puts (fuel : nat) (s : Z) : M Z :=
  let! c := ld 1 s in
  if truthy c then
    match fuel with
    | O => diverge
    | S n => let! _ := pl011_putc fuel c in pl011_puts n (s + 1)
    end
  else ret 0.

Definition pl011_getc (fuel : nat) : M Z :=
  let! base := get pl011_base in
  poll fuel (pl011_fr base) 0x10 ;!
  let! v := mmio_read 4 (pl011_dr base) in
  ret (s32 v).

(** A division by zero is undefined; [divider] is an [unsigned int]. *)
Definition pl011_init (base baud clock : Z) : M Z :=
  put pl011_base base ;!
  put pl011_baud baud ;!
  put pl011_clock clock ;!
  let! regs := get pl011_base in
  mmio_write 4 (pl011_cr regs) 0 ;!
  let! clock := get pl011_clock in
  let! baud := get pl011_baud in
  if baud =? 0 then undefined
  else
    let divider := u32 (u64 (clock * 4) / baud) in
    mmio_write 4 (pl011_ibrd regs) (Z.shiftr divider 6) ;!
    mmio_write 4 (pl011_fbrd regs) (Z.land divider 0x3f) ;!
    mmio_write 4 (pl011_lcr_h regs) SERIAL_PL011_LCRH_WLEN_8 ;!
    mmio_write 4 (pl011_imsc regs) (Z.lor SERIAL_PL011_IMSC_RXIM SERIAL_PL011_IMSC_RTIM) ;!
    mmio_write 4 (pl011_cr regs)
      (Z.lor (Z.lor SERIAL_PL011_CR_UARTEN SERIAL_PL011_CR_TXE) SERIAL_PL011_CR_RXE) ;!
    ret 0.

(** ** Behaviour *)

(** A transmitter that is never full. *)
Class Idle (base : Z) := idle_answer : forall tr, Z.land (answer tr (pl011_fr base)) 0x20 = 0.

(** The events of sending [c], the last one first. *)
Definition putc_events (base c : Z) : list event :=
  [EvWrite 4 (pl011_dr base) (c mod 2 ^ 32); EvRead 4 (pl011_fr base)].

Lemma pl011_putc_run `{!Idle base} fuel c s :
  k_glob s pl011_base = base -> pl011_putc fuel c s = Done 0 (add_trace (putc_events base c) s).
Proof.
  intros Hb. unfold pl011_putc. unfold bind at 1, get at 1. rewrite Hb.
  rewrite (bind_done _ _ _ tt (add_trace [EvRead 4 (pl011_fr base)] s)); [reflexivity|].
  apply (poll_run fuel _ _ s 0); [lia| |lia]. intros Hx. apply Hx, idle_answer.
Qed.

(** The baud rate divisors: 26 bits of [4 * clock / baud], the integer part of the
    divisor and its fraction in 64ths. *)
Lemma pl011_init_run base baud clock s :
  is_u64 base -> 0 < baud < 2 ^ 64 -> 0 <= clock < 2 ^ 62 ->
  let d := clock * 4 / baud in d < 2 ^ 22 ->
  exists s', pl011_init base baud clock s = Done 0 s' /\
    k_trace s' = [EvWrite 4 (pl011_cr base) 0x301; EvWrite 4 (pl011_imsc base) 0x50;
      EvWrite 4 (pl011_lcr_h base) 0x60; EvWrite 4 (pl011_fbrd base) (d mod 64);
      EvWrite 4 (pl011_ibrd base) (d / 64); EvWrite 4 (pl011_cr base) 0] ++ k_trace s /\
    k_glob s' pl011_base = base /\ k_mem s' = k_mem s.
Proof.
  intros Hb Hbaud Hc d Hd. unfold pl011_init.
  cbv beta iota zeta delta [bind put get mmio_write emit ret].
  cbn [k_glob emit_event set_glob k_mem k_trace k_sys].
  repeat first [rewrite decide_True by done|rewrite decide_False by done].
  assert (0 <= d) by (apply Z.div_pos; lia).
  destruct (Z.eqb_spec baud 0); [lia|]. eexists. split; [reflexivity|].
  rewrite (u64_id (clock * 4)) by lia. fold d. rewrite u32_id by lia.
  change 0x3f with (Z.ones 6). rewrite Z.land_ones, Z.shiftr_div_pow2 by lia.
  change (2 ^ (8 * Z.of_nat 4)) with (2 ^ 32). change (2 ^ 6) with 64.
  split; [|done]. cbn [k_trace emit_event set_glob].
  rewrite (Z.mod_small (d mod 64)) by (pose proof (Z.mod_pos_bound d 64); lia).
  rewrite (Z.mod_small (d / 64)) by (Z.to_euclidean_division_equations; lia).
  reflexivity.
Qed.
End Pl011.
