(* ===== verification/Printk.v ===== *)
(** * Printk: the console and the formatted output (kern/trace/printk.c,
    kern/trace/printk.h)

    [__console_emits] works on the format string and the strings in memory and
    sends characters to the serial port.  Elsewhere in the development a call of
    the printing functions is the one event [EvPrint]. *)
From Stdlib Require Import ZArith Lia.
From stdpp Require Import prelude gmap list strings.
From S2P Require Import Prelude Memory TString Kernel Pmap Vm Task Pl011.
Open Scope Z_scope.
Open Scope monix_scope.

Definition POPT_LONG : Z := Z.shiftl 1 1.
Definition POPT_LONGLONG : Z := Z.shiftl 1 2.
Definition POPT_PADRIGHT : Z := Z.shiftl 1 3.

Definition LOGLEVEL_DEFAULT : Z := 0.
Definition DEFAULTS_KERNEL_LOGLEVEL : Z := 3.
Definition PK_FLAGS_CONT : Z := 1.
Definition DEFAULTS_KERNEL_DEBUG_UART_BAUD : Z := 115200.
Definition DEFAULTS_KERNEL_DEBUG_UART_CLK : Z := 0x16e3600.

(** ** Numbers as strings: the digits go backwards from the end of the buffer *)

(** A value of 64 bits has at most 20 decimal and 16 hexadecimal digits. *)
Definition llstr (buf n len : Z) : M Z :=
  let pos := len - 1 in
  st 1 (buf + pos) 0 ;!
  let! (n, pos) :=
    loop 20 (fun '(n, pos) => ret (10 <=? n))
      (fun '(n, pos) =>
         let digit := n mod 10 in
         let n := n / 10 in
         let pos := pos - 1 in
         st 1 (buf + pos) (digit + 48) ;!
         ret (n, pos))
      (n, pos) in
  let pos := pos - 1 in
  st 1 (buf + pos) (n + 48) ;!
  ret (buf + pos).

Definition hextable : list Z :=
  [48; 49; 50; 51; 52; 53; 54; 55; 56; 57; 97; 98; 99; 100; 101; 102].

Definition llhex_digit (buf u pos : Z) : M (Z * Z) :=
  let d := u mod 16 in
  let u := u / 16 in
  let pos := pos - 1 in
  st 1 (buf + pos) (nth (Z.to_nat d) hextable 0) ;!
  ret (u, pos).

Definition llhex (buf u len : Z) : M Z :=
  let pos := len - 1 in
  st 1 (buf + pos) 0 ;!
  let! v := llhex_digit buf u pos in
  let! (_, pos) :=
    loop 16 (fun '(u, pos) => ret (negb (u =? 0))) (fun '(u, pos) => llhex_digit buf u pos) v in
  ret (buf + pos).

Section Printk.
Context `{Symbols} `{Hardware}.

Definition __console_emit_stdout (fuel : nat) (c : Z) : M unit :=
  if negb (c =? 0) then let! _ := pl011_putc fuel c in ret tt else ret tt.

(** [while (width-- > 0)]: the character [c], [width] times. *)
Definition emit_padding (fuel : nat) (c width : Z) : M Z :=
  for_range 0 (Z.to_nat width) (fun _ => __console_emit_stdout fuel c) ;!
  ret (if 0 <? width then -1 else width - 1).

(** The loop over the characters of the string. *)
Fixpoint emit_string (fuel : nat) (str : Z) : M unit :=
  let! c := ld 1 str in
  if negb (c =? 0) then
    match fuel with
    | O => diverge
    | S n => __console_emit_stdout fuel c ;! emit_string n (str + 1)
    end
  else ret tt.

(** The code at [output:]; the result is the width, which is reset. *)
Definition emit_output (fuel : nat) (str opts width : Z) : M Z :=
  let! m := get_mem in
  let! len := with_fuel (strlen fuel m str) in
  let width := s32 (width - len) in
  let! width := (if negb (truthy (Z.land opts POPT_PADRIGHT)) then emit_padding fuel 48 width
                 else ret width) in
  emit_string fuel str ;!
  (if truthy (Z.land opts POPT_PADRIGHT) then let! _ := emit_padding fuel 32 width in ret tt
   else ret tt) ;!
  ret 0.

(** [va_arg]: an argument more than there are is undefined. *)
Definition va_arg (ap : list Z) (k : Z -> list Z -> M Z) : M Z :=
  match ap with [] => undefined | a :: ap => k a ap end.

(** The loop of [__console_emits].  [conv] tells the two places where a character
    is read: the inner loop over ordinary characters, and [next:] after a [%];
    [emits_step] is what is done with the character [c] read there, [self] the rest
    of the loop. *)
Definition emits_step (self : Z -> list Z -> Z -> Z -> bool -> M Z) (fuel : nat)
    (c fmt : Z) (ap : list Z) (opts width : Z) (conv : bool) : M Z :=
  if negb conv then
    if c =? 37 then self fmt ap opts width true
    else __console_emit_stdout fuel c ;! self fmt ap opts width false
  else if (48 <=? c) && (c <=? 57) then
    self fmt ap opts (s32 (s32 (width * 10) + c - 48)) true
  else if c =? 37 then __console_emit_stdout fuel 37 ;! self fmt ap opts width false
  else if c =? 45 then self fmt ap (Z.lor opts POPT_PADRIGHT) width true
  else if c =? 99 then
    va_arg ap (fun a ap => __console_emit_stdout fuel (u8 a) ;! self fmt ap opts width false)
  else if c =? 108 then
    let opts := if truthy (Z.land opts POPT_LONG) then Z.lor opts POPT_LONGLONG else opts in
    self fmt ap (Z.lor opts POPT_LONG) width true
  else if (c =? 105) || (c =? 100) then
    va_arg ap (fun a ap =>
      let! str := llstr (sym_local "__console_emits" "buf") (u32 a) 64 in
      let! width := emit_output fuel str opts width in
      self fmt ap opts width false)
  else if (c =? 112) || (c =? 120) then
    va_arg ap (fun a ap =>
      let! str := llhex (sym_local "__console_emits" "buf") (u64 a) 64 in
      let! width := emit_output fuel str opts width in
      self fmt ap opts width false)
  else if c =? 115 then
    va_arg ap (fun a ap =>
      let! width := emit_output fuel a opts width in
      self fmt ap opts width false)
  else self fmt ap opts width false.

Fixpoint emits (fuel : nat) (fmt : Z) (ap : list Z) (opts width : Z) (conv : bool) : M Z :=
  let! c := ld 1 fmt in
  if c =? 0 then ret width
  else match fuel with
       | O => diverge
       | S n => emits_step (emits n) n c (fmt + 1) ap opts width conv
       end.

Definition __console_emits (fuel : nat) (fmt : Z) (ap : list Z) : M Z :=
  let! initialised := get console_initialised in
  if initialised =? 0 then ret (-1)
  else
    let! opts := uninitialised console_emits_opts in
    emits fuel fmt ap (u32 opts) 0 false.

Definition __vprintk (fuel : nat) (level flags fmt : Z) (args : list Z) : M Z :=
  if DEFAULTS_KERNEL_LOGLEVEL <? level then ret 0
  else if truthy (Z.land flags PK_FLAGS_CONT) then __console_emits fuel fmt args
  else __console_emits fuel fmt args.

Definition _printk (fuel : nat) (level flags fmt : Z) (args : list Z) : M Z :=
  __vprintk fuel level flags fmt args.
Definition vprintk (fuel : nat) (fmt : Z) (args : list Z) : M Z :=
  __vprintk fuel LOGLEVEL_DEFAULT 0 fmt args.

Definition console_setup (fuel : nat) : M unit :=
  let! _ := pl011_init DEFAULTS_KERNEL_VM_PERIPH_BASE DEFAULTS_KERNEL_DEBUG_UART_BAUD
              DEFAULTS_KERNEL_DEBUG_UART_CLK in
  let nl := String (Ascii.ascii_of_nat 10) EmptyString in
  let! _ := pl011_puts fuel (sym_literal nl) in
  put console_initialised 1.
End Printk.

(** ** Digits *)

(** The digits of [n] in front of [acc]; [fuel] bounds the number of digits less
    one. *)
Fixpoint to_digits (fuel : nat) (base n : Z) (acc : list Z) : list Z :=
  match fuel with
  | O => n :: acc
  | S fuel => if n <? base then n :: acc else to_digits fuel base (n / base) (n mod base :: acc)
  end.

Lemma digits_value_acc base ds acc :
  digits_value base ds acc = acc * base ^ Z.of_nat (length ds) + digits_value base ds 0.
Proof.
  unfold digits_value. revert acc. induction ds as [|d ds IH]; intros acc; [simpl; lia|].
  cbn [fold_left length]. rewrite (IH (acc * base + d)), (IH (0 * base + d)), Nat2Z.inj_succ, Z.pow_succ_r by lia.
  ring.
Qed.

Lemma to_digits_spec fuel base n acc :
  2 <= base -> 0 <= n < base ^ Z.of_nat (S fuel) -> Forall (fun d => 0 <= d < base) acc ->
  let ds := to_digits fuel base n acc in
  Forall (fun d => 0 <= d < base) ds /\ ds <> [] /\ (length ds <= S fuel + length acc)%nat /\
  digits_value base ds 0 = n * base ^ Z.of_nat (length acc) + digits_value base acc 0.
Proof.
  intros Hb. revert n acc. induction fuel as [|fuel IH]; intros n acc Hn Hacc; cbn [to_digits].
  - change (Z.of_nat 1) with 1 in Hn. rewrite Z.pow_1_r in Hn. split; [constructor; [lia|done]|].
    split; [done|]. split; [simpl; lia|]. unfold digits_value at 1. simpl.
    apply (digits_value_acc base acc n).
  - destruct (Z.ltb_spec n base) as [Hlt|Hge].
    + split; [constructor; [lia|done]|]. split; [done|]. split; [simpl; lia|].
      unfold digits_value at 1. simpl. apply (digits_value_acc base acc n).
    + rewrite Nat2Z.inj_succ, Z.pow_succ_r in Hn by lia.
      pose proof (Z.mod_pos_bound n base ltac:(lia)).
      destruct (IH (n / base) (n mod base :: acc)) as (H1 & H2 & H3 & H4).
      { split; [apply Z.div_pos; lia|]. apply Z.div_lt_upper_bound; lia. }
      { constructor; [lia|done]. }
      split; [done|]. split; [done|]. split; [simpl in H3; lia|]. rewrite H4.
      change (digits_value base (n mod base :: acc) 0) with (digits_value base acc (0 * base + n mod base)).
      rewrite (digits_value_acc base acc (0 * base + n mod base)). cbn [length]. rewrite Nat2Z.inj_succ, Z.pow_succ_r by lia.
      pose proof (Z.div_mod n base). nia.
Qed.

(** A digit in front of a string in the buffer. *)
Lemma cstr_push m buf pos d l :
  0 <= d < 16 -> cstr m (buf + pos) l ->
  cstr (st8 m (buf + (pos - 1)) (digit_char d)) (buf + (pos - 1)) (digit_char d :: l).
Proof.
  intros Hd Hl. destruct (digit_char_facts d ltac:(lia)) as (_ & _ & _ & _ & Hne & _).
  assert (Hr : 0 <= digit_char d < 256) by (unfold digit_char; case_match; lia).
  rewrite cstr_cons. split_and!; [|done|].
  - rewrite rd_st8, decide_True by done. apply u8_id. lia.
  - replace (buf + (pos - 1) + 1) with (buf + pos) by lia.
    eapply cstr_frame; [exact Hl|]. intros x Hx. rewrite rd_st8, decide_False; [done|].
    unfold within in Hx. lia.
Qed.

Lemma hextable_digit d : 0 <= d < 16 -> nth (Z.to_nat d) hextable 0 = digit_char d.
Proof.
  intros Hd. assert (H : forallb (fun n => nth n hextable 0 =? digit_char (Z.of_nat n)) (seq 0 16) = true)
    by (vm_compute; reflexivity).
  rewrite forallb_forall in H. specialize (H (Z.to_nat d)). rewrite in_seq, Z2Nat.id in H by lia.
  apply Z.eqb_eq, H. lia.
Qed.

(** The bytes from [pos - k] up to [pos] of the buffer. *)
Definition buffer_bytes (buf pos k x : Z) : Prop := buf + (pos - k) <= x < buf + pos.

(** The state of the digit loops: the digits [ds] so far are the string at [pos]. *)
Record digits_at (m0 m : memory) (buf len pos : Z) (ds : list Z) : Prop := {
  da_string : cstr m (buf + pos) (map digit_char ds);
  da_pos : pos = len - 1 - Z.of_nat (length ds);
  da_frame : same_outside (buffer_bytes buf len (1 + Z.of_nat (length ds))) m0 m;
}.

Lemma digits_start m buf len : digits_at m (st8 m (buf + (len - 1)) 0) buf len (len - 1) [].
Proof.
  split; simpl.
  - apply cstr_nil. rewrite rd_st8. by rewrite decide_True.
  - lia.
  - apply (same_outside_store _ 1); [|done]. unfold within, buffer_bytes. lia.
Qed.

Lemma digits_push m0 m buf len pos ds d :
  digits_at m0 m buf len pos ds -> 0 <= d < 16 ->
  digits_at m0 (st8 m (buf + (pos - 1)) (digit_char d)) buf len (pos - 1) (d :: ds).
Proof.
  intros [Hs Hp Hf] Hd. split.
  - by apply cstr_push.
  - simpl. lia.
  - apply (same_outside_store _ 1).
    + unfold within, buffer_bytes. simpl. lia.
    + eapply same_outside_mono; [|exact Hf]. unfold buffer_bytes. simpl. lia.
Qed.

Lemma llstr_loop fuel s m0 m buf len n pos ds :
  digits_at m0 m buf len pos ds -> 0 <= n < 10 ^ Z.of_nat (S fuel) ->
  exists m' n' pos' ds',
    loop fuel (fun '(n, pos) => ret (10 <=? n))
      (fun '(n, pos) => st 1 (buf + (pos - 1)) (n mod 10 + 48) ;! ret (n / 10, pos - 1))
      (n, pos) (set_mem m s) = Done (n', pos') (set_mem m' s) /\
    0 <= n' < 10 /\ digits_at m0 m' buf len pos' ds' /\ n' :: ds' = to_digits fuel 10 n ds.
Proof.
  revert m n pos ds. induction fuel as [|fuel IH]; intros m n pos ds Hd Hn; cbn [loop].
  - change (10 ^ Z.of_nat 1) with 10 in Hn. unfold bind at 1, ret at 1.
    destruct (Z.leb_spec 10 n); [lia|]. by exists m, n, pos, ds.
  - unfold bind at 1, ret at 1. cbn [to_digits]. destruct (Z.leb_spec 10 n), (Z.ltb_spec n 10); try lia.
    + rewrite Nat2Z.inj_succ, Z.pow_succ_r in Hn by lia.
      pose proof (Z.mod_pos_bound n 10 ltac:(lia)) as Hm.
      pose proof (digits_push _ _ _ _ _ _ (n mod 10) Hd ltac:(lia)) as Hd'.
      replace (digit_char (n mod 10)) with (n mod 10 + 48) in Hd'
        by (unfold digit_char; destruct (Z.ltb_spec (n mod 10) 10); lia).
      destruct (IH _ (n / 10) (pos - 1) _ Hd') as (m' & n' & pos' & ds' & E & H').
      { split; [apply Z.div_pos; lia|]. apply Z.div_lt_upper_bound; lia. }
      exists m', n', pos', ds'. split; [exact E|exact H'].
    + exists m, n, pos, ds. split; [done|]. split; [lia|]. by split.
Qed.

(** The digit strings: [number base n] is what the two functions write. *)
Definition number (base n : Z) : list Z := to_digits 20 base n [].

Lemma number_spec base n :
  base = 10 \/ base = 16 -> is_u64 n ->
  Forall (fun d => 0 <= d < base) (number base n) /\ number base n <> [] /\
  (length (number base n) <= 21)%nat /\ digits_value base (number base n) 0 = n.
Proof.
  intros Hb Hn. destruct (to_digits_spec 20 base n []) as (H1 & H2 & H3 & H4); [lia| |done|].
  - destruct Hb as [-> | ->]; change (Z.of_nat 21) with 21; split; try lia.
  - split; [done|]. split; [done|]. split; [done|]. fold (number base n) in H4. rewrite H4.
    unfold digits_value. simpl. lia.
Qed.

Lemma llstr_run s buf n :
  is_u64 n ->
  exists m p, llstr buf n 64 s = Done p (set_mem m s) /\
    cstr m p (map digit_char (number 10 n)) /\ same_outside (within buf 64) (k_mem s) m.
Proof.
  intros Hn. unfold llstr. pose proof (digits_start (k_mem s) buf 64) as Hd.
  destruct (llstr_loop 20 s (k_mem s) _ buf 64 n (64 - 1) [] Hd) as (m & n' & pos & ds & E & Hn' & Hd' & Eds).
  { split; [lia|]. change (Z.of_nat 21) with 21. lia. }
  pose proof (digits_push _ _ _ _ _ _ n' Hd' ltac:(lia)) as [Hs Hp Hf].
  replace (digit_char n') with (n' + 48) in Hs, Hf
    by (unfold digit_char; destruct (Z.ltb_spec n' 10); lia).
  eexists _, _. split; [|split].
  - unfold bind at 1, st at 1, upd_mem. rewrite (bind_done _ _ _ _ _ E). reflexivity.
  - unfold number. rewrite <- Eds. simpl. replace (n' + 48) with (digit_char n') in Hs at 2
      by (unfold digit_char; destruct (Z.ltb_spec n' 10); lia). exact Hs.
  - eapply same_outside_mono; [|exact Hf]. unfold buffer_bytes, within.
    destruct (number_spec 10 n ltac:(by left) Hn) as (_ & _ & Hl & _). unfold number in Hl.
    rewrite <- Eds in Hl. simpl in Hl |- *. lia.
Qed.

Lemma to_digits_fuel base f1 f2 n acc :
  2 <= base -> 0 <= n < base ^ Z.of_nat (S f1) -> n < base ^ Z.of_nat (S f2) ->
  to_digits f1 base n acc = to_digits f2 base n acc.
Proof.
  intros Hb. assert (Hz : forall f n acc, n < base -> to_digits f base n acc = n :: acc).
  { intros f m a Hm. destruct f; cbn [to_digits]; [done|]. by destruct (Z.ltb_spec m base); [|lia]. }
  revert f2 n acc. induction f1 as [|f1 IH]; intros f2 n acc H1 H2.
  - change (Z.of_nat 1) with 1 in H1. rewrite Z.pow_1_r in H1. symmetry. apply Hz. lia.
  - destruct f2 as [|f2]; [change (Z.of_nat 1) with 1 in H2; rewrite Z.pow_1_r in H2; apply Hz; lia|].
    cbn [to_digits]. destruct (Z.ltb_spec n base); [done|].
    rewrite Nat2Z.inj_succ, Z.pow_succ_r in H1, H2 by lia. apply IH.
    + split; [apply Z.div_pos; lia|]. apply Z.div_lt_upper_bound; lia.
    + apply Z.div_lt_upper_bound; lia.
Qed.

Lemma llhex_digit_run s m buf u pos :
  llhex_digit buf u pos (set_mem m s) =
    Done (u / 16, pos - 1) (set_mem (st8 m (buf + (pos - 1)) (digit_char (u mod 16))) s).
Proof.
  unfold llhex_digit. rewrite hextable_digit by (apply Z.mod_pos_bound; lia). reflexivity.
Qed.

Lemma llhex_loop fuel s m0 m buf len u pos ds :
  digits_at m0 m buf len pos ds -> 0 <= u < 16 ^ Z.of_nat fuel ->
  exists m' u' pos' ds',
    loop fuel (fun '(u, pos) => ret (negb (u =? 0))) (fun '(u, pos) => llhex_digit buf u pos)
      (u, pos) (set_mem m s) = Done (u', pos') (set_mem m' s) /\
    digits_at m0 m' buf len pos' ds' /\ ds' = if u =? 0 then ds else to_digits fuel 16 u ds.
Proof.
  revert m u pos ds. induction fuel as [|fuel IH]; intros m u pos ds Hd Hu; cbn [loop];
    unfold bind at 1, ret at 1; destruct (Z.eqb_spec u 0) as [->|Hne]; cbn [negb].
  - by exists m, 0, pos, ds.
  - change (16 ^ Z.of_nat 0) with 1 in Hu. lia.
  - by exists m, 0, pos, ds.
  - rewrite (bind_done _ _ _ _ _ (llhex_digit_run s m buf u pos)).
    rewrite Nat2Z.inj_succ, Z.pow_succ_r in Hu by lia.
    pose proof (digits_push _ _ _ _ _ _ (u mod 16) Hd ltac:(apply Z.mod_pos_bound; lia)) as Hd'.
    destruct (IH _ (u / 16) (pos - 1) _ Hd') as (m' & u' & pos' & ds' & E & Hd2 & ->).
    { split; [apply Z.div_pos; lia|]. apply Z.div_lt_upper_bound; lia. }
    exists m', u', pos', (if u / 16 =? 0 then u mod 16 :: ds else to_digits fuel 16 (u / 16) (u mod 16 :: ds)).
    split; [exact E|]. split; [exact Hd2|]. cbn [to_digits].
    destruct (Z.eqb_spec (u / 16) 0), (Z.ltb_spec u 16); try done;
      [f_equal; Z.to_euclidean_division_equations; lia..].
Qed.

Lemma llhex_run s buf n :
  is_u64 n ->
  exists m p, llhex buf n 64 s = Done p (set_mem m s) /\
    cstr m p (map digit_char (number 16 n)) /\ same_outside (within buf 64) (k_mem s) m.
Proof.
  intros Hn. unfold llhex. pose proof (digits_start (k_mem s) buf 64) as Hd.
  pose proof (digits_push _ _ _ _ _ _ (n mod 16) Hd ltac:(apply Z.mod_pos_bound; lia)) as Hd1.
  destruct (llhex_loop 16 s (k_mem s) _ buf 64 (n / 16) _ _ Hd1) as (m & u & pos & ds & E & [Hs Hp Hf] & Eds).
  { split; [apply Z.div_pos; lia|]. change (Z.of_nat 16) with 16. apply Z.div_lt_upper_bound; lia. }
  assert (ds = number 16 n) as ->.
  { rewrite Eds. unfold number. cbn [to_digits].
    destruct (Z.eqb_spec (n / 16) 0), (Z.ltb_spec n 16);
      [f_equal; Z.to_euclidean_division_equations; lia|Z.to_euclidean_division_equations; lia..|].
    assert (n / 16 < 2 ^ 60) by (apply Z.div_lt_upper_bound; lia).
    assert (0 <= n / 16) by (apply Z.div_pos; lia).
    apply (to_digits_fuel 16 16 19); [lia|change (Z.of_nat 17) with 17; lia|change (Z.of_nat 20) with 20; lia]. }
  exists m, (buf + pos). split; [|split; [exact Hs|]].
  - unfold bind at 1, st at 1, upd_mem. rewrite (bind_done _ _ _ _ _ (llhex_digit_run _ _ _ _ _)).
    rewrite (bind_done _ _ _ _ _ E). reflexivity.
  - eapply same_outside_mono; [|exact Hf]. unfold buffer_bytes, within.
    destruct (number_spec 16 n ltac:(by right) Hn) as (_ & _ & Hl & _). lia.
Qed.

(** ** The characters a format produces

    [format] is the reference: the output of a format string and arguments as a
    list of characters, with the options and the width found so far.  [strs] are
    the strings that the arguments of [%s] may point to. *)
Definition padding (c w : Z) : list Z := replicate (Z.to_nat w) c.
Definition field (opts width : Z) (l : list Z) : list Z :=
  let w := s32 (width - Z.of_nat (length l)) in
  if truthy (Z.land opts POPT_PADRIGHT) then l ++ padding 32 w else padding 48 w ++ l.

Fixpoint format (strs : Z -> option (list Z)) (fmt ap : list Z) (opts width : Z) (conv : bool)
    : option (list Z) :=
  match fmt with
  | [] => Some []
  | c :: fmt =>
      if negb conv then
        if c =? 37 then format strs fmt ap opts width true
        else cons c <$> format strs fmt ap opts width false
      else if (48 <=? c) && (c <=? 57) then
        format strs fmt ap opts (s32 (s32 (width * 10) + c - 48)) true
      else if c =? 37 then cons 37 <$> format strs fmt ap opts width false
      else if c =? 45 then format strs fmt ap (Z.lor opts POPT_PADRIGHT) width true
      else if c =? 108 then
        format strs fmt ap (Z.lor (if truthy (Z.land opts POPT_LONG) then Z.lor opts POPT_LONGLONG
                                   else opts) POPT_LONG) width true
      else if bool_decide (c ∈ [99; 100; 105; 112; 115; 120]) then
        match ap with
        | [] => None
        | a :: ap =>
            if c =? 99 then
              app (if u8 a =? 0 then [] else [u8 a]) <$> format strs fmt ap opts width false
            else
              l ← (if c =? 115 then strs a
                   else if (c =? 105) || (c =? 100) then Some (map digit_char (number 10 (u32 a)))
                   else Some (map digit_char (number 16 (u64 a))));
              app (field opts width l) <$> format strs fmt ap opts 0 false
        end
      else format strs fmt ap opts width false
  end.

Section Console.
Context `{Symbols} `{Hardware} (base : Z) `{!Idle base}.

Abbreviation buf := (sym_local "__console_emits" "buf").

(** The events of sending the characters [l]. *)
Definition out_events (l : list Z) : list event := concat (putc_events base <$> reverse l).

Lemma out_events_app l1 l2 : out_events (l1 ++ l2) = out_events l2 ++ out_events l1.
Proof. unfold out_events. by rewrite reverse_app, fmap_app, concat_app. Qed.

(** The state after sending [l]. *)
Definition sent (l : list Z) (s : kstate) : kstate := add_trace (out_events l) s.

Lemma sent_app l1 l2 s : sent l2 (sent l1 s) = sent (l1 ++ l2) s.
Proof. unfold sent. by rewrite add_trace_app, out_events_app. Qed.
Lemma sent_nil s : sent [] s = s.
Proof. apply add_trace_nil. Qed.

Lemma stdout_run fuel c s :
  k_glob s pl011_base = base ->
  __console_emit_stdout fuel c s = Done tt (sent (if c =? 0 then [] else [c]) s).
Proof.
  intros Hb. unfold __console_emit_stdout. destruct (c =? 0); cbn [negb]; [by rewrite sent_nil|].
  rewrite (bind_done _ _ _ _ _ (pl011_putc_run fuel c s Hb)). reflexivity.
Qed.

Lemma padding_run fuel c w s :
  k_glob s pl011_base = base -> c <> 0 ->
  emit_padding fuel c w s = Done (if 0 <? w then -1 else w - 1) (sent (padding c w) s).
Proof.
  intros Hb Hc. unfold emit_padding, padding.
  assert (E : forall n lo t, k_glob t pl011_base = base ->
            for_range lo n (fun _ => __console_emit_stdout fuel c) t = Done tt (sent (replicate n c) t)).
  { induction n as [|n IH]; intros lo t Ht; cbn [for_range replicate]; [by rewrite sent_nil|].
    rewrite (bind_done _ _ _ _ _ (stdout_run fuel c t Ht)). destruct (Z.eqb_spec c 0); [done|].
    rewrite IH by done. by rewrite sent_app. }
  rewrite (bind_done _ _ _ _ _ (E _ 0 s Hb)). reflexivity.
Qed.

Lemma emit_string_run fuel str l s :
  k_glob s pl011_base = base -> cstr (k_mem s) str l -> (length l <= fuel)%nat ->
  emit_string fuel str s = Done tt (sent l s).
Proof.
  revert fuel str s. induction l as [|c l IH]; intros fuel str s Hb Hs Hf.
  - apply cstr_nil in Hs. destruct fuel; cbn [emit_string]; unfold bind, ld; rewrite ld8_rd, Hs;
      by rewrite sent_nil.
  - apply cstr_cons in Hs as (H1 & H2 & H3). destruct fuel as [|fuel]; [simpl in Hf; lia|].
    cbn [emit_string]. unfold bind at 1, ld. rewrite ld8_rd, H1.
    destruct (Z.eqb_spec c 0); [done|]. cbn [negb].
    rewrite (bind_done _ _ _ _ _ (stdout_run (S fuel) c s Hb)). destruct (Z.eqb_spec c 0); [done|].
    rewrite IH by (done || (simpl in Hf; lia)). by rewrite sent_app.
Qed.

Lemma emit_output_run fuel str l opts width s :
  k_glob s pl011_base = base -> cstr (k_mem s) str l -> (length l <= fuel)%nat ->
  emit_output fuel str opts width s = Done 0 (sent (field opts width l) s).
Proof.
  intros Hb Hs Hf. unfold emit_output, field. unfold bind at 1, get_mem.
  rewrite (strlen_cstr fuel _ _ _ Hs Hf). unfold bind at 1, with_fuel, ret at 1.
  set (w := s32 _). destruct (truthy (Z.land opts POPT_PADRIGHT)); cbn [negb].
  - unfold bind at 1, ret at 1. rewrite (bind_done _ _ _ _ _ (emit_string_run fuel str l s Hb Hs Hf)).
    rewrite (bind_done _ _ _ tt (sent (padding 32 w) (sent l s))); [by rewrite sent_app|].
    rewrite (bind_done _ _ _ _ _ (padding_run fuel 32 w (sent l s) Hb ltac:(done))). reflexivity.
  - rewrite (bind_done _ _ _ _ _ (padding_run fuel 48 w s Hb ltac:(done))).
    rewrite (bind_done _ _ _ _ _ (emit_string_run fuel str l (sent (padding 48 w) s) Hb Hs Hf)).
    unfold bind, ret. by rewrite sent_app.
Qed.

(** The strings the format may name are where the oracle says and outside the
    number buffer; [L] bounds their lengths. *)
Definition outside_buffer (a : Z) (l : list Z) : Prop :=
  forall x, within a (S (length l)) x -> ~ within buf 64 x.
Definition strings_ok (m : memory) (strs : Z -> option (list Z)) (L : nat) : Prop :=
  (21 <= L)%nat /\ forall a l, strs a = Some l -> cstr m a l /\ outside_buffer a l /\ (length l <= L)%nat.

Lemma cstr_outside m m' a l :
  same_outside (within buf 64) m m' -> outside_buffer a l -> cstr m a l -> cstr m' a l.
Proof.
  intros Hs Ho Hc. eapply cstr_frame; [exact Hc|]. intros x Hx. symmetry. apply Hs. by apply Ho.
Qed.
Lemma strings_ok_outside m m' strs L :
  same_outside (within buf 64) m m' -> strings_ok m strs L -> strings_ok m' strs L.
Proof.
  intros Hs [HL Hok]. split; [done|]. intros a l Ha. destruct (Hok a l Ha) as (H1 & H2 & H3).
  split; [|done]. by eapply cstr_outside.
Qed.

(** [emits] does what [format] says: [outputs c out s]. *)
Definition outputs (c : M Z) (out : list Z) (s : kstate) : Prop :=
  exists m w, c s = Done w (sent out (set_mem m s)) /\ same_outside (within buf 64) (k_mem s) m.

Lemma outputs_after c1 c2 l out m s :
  c1 s = c2 (sent l (set_mem m s)) -> same_outside (within buf 64) (k_mem s) m ->
  outputs c2 out (sent l (set_mem m s)) -> outputs c1 (l ++ out) s.
Proof.
  intros E Hs (m2 & w & E2 & Hs2). exists m2, w. rewrite E, E2. split.
  - f_equal. unfold sent, add_trace, with_trace. rewrite out_events_app. simpl. by rewrite app_assoc.
  - eapply same_outside_trans; [exact Hs|exact Hs2].
Qed.

(** One argument: the string [l] of a number or of [%s]. *)
Lemma output_step fuel s m str l opts width (k : Z -> M Z) c1 out :
  k_glob s pl011_base = base -> same_outside (within buf 64) (k_mem s) m -> cstr m str l ->
  (length l <= fuel)%nat ->
  c1 s = (let! w := emit_output fuel str opts width in k w) (set_mem m s) ->
  outputs (k 0) out (sent (field opts width l) (set_mem m s)) ->
  outputs c1 (field opts width l ++ out) s.
Proof.
  intros Hb Hs Hc Hf E Ho. eapply (outputs_after _ (k 0) (field opts width l) out m s); [|exact Hs|exact Ho].
  rewrite E. by rewrite (bind_done _ _ _ _ _ (emit_output_run fuel str l opts width (set_mem m s) Hb Hc Hf)).
Qed.

Lemma outputs_skip c1 c2 l out s :
  c1 s = c2 (sent l s) -> outputs c2 out (sent l s) -> outputs c1 (l ++ out) s.
Proof. intros E Ho. apply (outputs_after _ c2 l out (k_mem s) s); by rewrite ?set_mem_id. Qed.

Lemma outputs_eq c1 c2 out s : c1 s = c2 s -> outputs c2 out s -> outputs c1 out s.
Proof. intros E (m & w & E2 & Hs). exists m, w. by rewrite E. Qed.

(** One character, when the rest of the loop is right. *)
Lemma emits_step_run L strs fmt (self : Z -> list Z -> Z -> Z -> bool -> M Z) fuel c fa ap opts width conv s out :
  k_glob s pl011_base = base -> c <> 0 -> (21 <= L)%nat -> (L <= fuel)%nat ->
  (forall a l, strs a = Some l -> cstr (k_mem s) a l /\ outside_buffer a l /\ (length l <= L)%nat) ->
  (forall m l ap opts width conv out, same_outside (within buf 64) (k_mem s) m ->
     format strs fmt ap opts width conv = Some out ->
     outputs (self fa ap opts width conv) out (sent l (set_mem m s))) ->
  format strs (c :: fmt) ap opts width conv = Some out ->
  outputs (emits_step self fuel c fa ap opts width conv) out s.
Proof.
  intros Hb Hc HL Hf Hstr Hgo Hfm. cbn [format] in Hfm. unfold emits_step.
  assert (Hs : forall l ap opts width conv out, format strs fmt ap opts width conv = Some out ->
             outputs (self fa ap opts width conv) out (sent l s)).
  { intros. rewrite <- (set_mem_id s). by apply Hgo. }
  assert (Hch : forall d ap opts width conv out, format strs fmt ap opts width conv = Some out ->
             outputs (__console_emit_stdout fuel d ;! self fa ap opts width conv)
               ((if d =? 0 then [] else [d]) ++ out) s).
  { intros d ap' opts' width' conv' out' Hd. eapply outputs_skip; [|by apply Hs].
    by rewrite (bind_done _ _ _ _ _ (stdout_run fuel d s Hb)). }
  assert (Hs0 : forall ap opts width conv out, format strs fmt ap opts width conv = Some out ->
             outputs (self fa ap opts width conv) out s).
  { intros. rewrite <- (sent_nil s). by apply Hs. }
  destruct conv; cbn [negb] in *.
  2:{ destruct (Z.eqb_spec c 37) as [->|Hne]; [by apply Hs0|].
      apply fmap_Some in Hfm as (out' & Hfm & ->). apply (Hch c) in Hfm.
      by destruct (Z.eqb_spec c 0). }
  destruct ((48 <=? c) && (c <=? 57)); [by apply Hs0|].
  destruct (Z.eqb_spec c 37) as [->|H37].
  { apply fmap_Some in Hfm as (out' & Hfm & ->). by apply (Hch 37) in Hfm. }
  destruct (Z.eqb_spec c 45) as [->|H45]; [by apply Hs0|].
  assert (Hnum : forall num a ap out, (forall s, exists m p, num s = Done p (set_mem m s) /\
             cstr m p a /\ same_outside (within buf 64) (k_mem s) m) -> (length a <= 21)%nat ->
             format strs fmt ap opts 0 false = Some out ->
             outputs (let! str := num in let! width := emit_output fuel str opts width in
                      self fa ap opts width false) (field opts width a ++ out) s).
  { intros num a ap' out' Hn Ha Hout. destruct (Hn s) as (m & p & E & Hcs & Hm).
    eapply (output_step fuel s m p a opts width (fun w => self fa ap' opts w false));
      [done|exact Hm|exact Hcs|lia|by rewrite (bind_done _ _ _ _ _ E)|by apply Hgo]. }
  destruct (Z.eqb_spec c 99) as [->|H99].
  { rewrite bool_decide_eq_true_2 in Hfm by set_solver. destruct ap as [|a ap]; [done|].
    apply fmap_Some in Hfm as (out' & Hfm & ->). by apply Hch. }
  destruct (Z.eqb_spec c 108) as [->|H108]; [by apply Hs0|].
  case_bool_decide as Hin.
  - destruct ap as [|a ap]; [done|]. apply bind_Some in Hfm as (l & Hl & Hfm).
    apply fmap_Some in Hfm as (out' & Hfm & ->).
    destruct (Z.eqb_spec c 115) as [->|H115].
    + destruct (Hstr a l Hl) as (Hcs & _ & Hlen). cbn [va_arg Z.eqb orb].
      eapply (output_step fuel s (k_mem s) a l opts width (fun w => self fa ap opts w false));
        [done|done|exact Hcs|lia|by rewrite set_mem_id|by apply Hgo].
    + destruct ((c =? 105) || (c =? 100)) eqn:Ed.
      * injection Hl as <-. apply Hnum; [|..|done].
        -- intros t. apply llstr_run. pose proof (u32_range a). lia.
        -- rewrite length_map. apply number_spec; [by left|]. pose proof (u32_range a). lia.
      * injection Hl as <-. assert ((c =? 112) || (c =? 120) = true) as ->.
        { apply orb_true_iff. rewrite !Z.eqb_eq. apply orb_false_iff in Ed as [?%Z.eqb_neq ?%Z.eqb_neq].
          set_solver. }
        apply Hnum; [|..|done].
        -- intros t. apply llhex_run, u64_range.
        -- rewrite length_map. apply number_spec; [by right|apply u64_range].
  - assert ((c =? 105) || (c =? 100) = false) as -> by (apply orb_false_iff; rewrite !Z.eqb_neq; set_solver).
    assert ((c =? 112) || (c =? 120) = false) as -> by (apply orb_false_iff; rewrite !Z.eqb_neq; set_solver).
    destruct (Z.eqb_spec c 115) as [->|_]; [set_solver|]. by apply Hs0.
Qed.

Lemma emits_run L strs fmt : forall fuel fa ap opts width conv s out,
  k_glob s pl011_base = base -> cstr (k_mem s) fa fmt -> outside_buffer fa fmt ->
  strings_ok (k_mem s) strs L -> format strs fmt ap opts width conv = Some out ->
  (length fmt + L <= fuel)%nat -> outputs (emits fuel fa ap opts width conv) out s.
Proof.
  induction fmt as [|c fmt IH]; intros fuel fa ap opts width conv s out Hb Hs Ho Hstr Hfm Hf.
  - injection Hfm as <-. apply cstr_nil in Hs. exists (k_mem s), width. split; [|done].
    rewrite set_mem_id, sent_nil. destruct fuel; cbn [emits]; unfold bind, ld; by rewrite ld8_rd, Hs.
  - apply cstr_cons in Hs as (Hc & Hc0 & Hs). destruct fuel as [|fuel]; [simpl in Hf; lia|].
    simpl in Hf.
    assert (Ho' : outside_buffer (fa + 1) fmt).
    { intros x Hx. apply Ho. unfold within in *. simpl. lia. }
    assert (Hgo : forall m l ap opts width conv out, same_outside (within buf 64) (k_mem s) m ->
              format strs fmt ap opts width conv = Some out ->
              outputs (emits fuel (fa + 1) ap opts width conv) out (sent l (set_mem m s))).
    { intros m l ap' opts' width' conv' out' Hm Hfm'. apply IH; [done| |done| |done|lia].
      - by eapply cstr_outside.
      - by eapply strings_ok_outside. }
    destruct Hstr as [HL Hstr].
    eapply (outputs_eq _ (emits_step (emits fuel) fuel c (fa + 1) ap opts width conv)).
    { cbn [emits]. unfold bind at 1, ld. rewrite ld8_rd, Hc. by destruct (Z.eqb_spec c 0). }
    eapply emits_step_run; [done|done|exact HL|lia|exact Hstr|exact Hgo|exact Hfm].
Qed.
End Console.

(** ** Correctness *)
Section Properties.
Context `{Symbols} `{Hardware}.


(** (C37) [strtoul] reads back what [llstr] and [llhex] write: every 64-bit number
    survives the conversion to its decimal and to its hexadecimal string. *)
Theorem number_strtoul_roundtrip s buf n :
  is_u64 n ->
  (exists m p, llstr buf n 64 s = Done p (set_mem m s) /\
     exists e, strtoul 21 m p 10 = Some (n, e)) /\
  (exists m p, llhex buf n 64 s = Done p (set_mem m s) /\
     exists e, strtoul 21 m p 16 = Some (n, e)).
Proof.
  intros Hn.
  assert (Hread : forall b m p, b = 10 \/ b = 16 -> cstr m p (map digit_char (number b n)) ->
            exists e, strtoul 21 m p b = Some (n, e)).
  { intros b m p Hb Hs. destruct (number_spec b n Hb Hn) as (H1 & H2 & H3 & H4).
    rewrite (strtoul_run 21 m p b (number b n)) by (done || lia). rewrite H4.
    rewrite Z.min_l by (unfold ULONG_MAX; lia). by eexists. }
  split.
  - destruct (llstr_run s buf n Hn) as (m & p & E & Hs & _). exists m, p. split; [exact E|].
    apply Hread; [by left|exact Hs].
  - destruct (llhex_run s buf n Hn) as (m & p & E & Hs & _). exists m, p. split; [exact E|].
    apply Hread; [by right|exact Hs].
Qed.
End Properties.

(** ** Witnesses *)
#[export] Instance demo_idle b : @Idle demo_hardware b.
Proof. done. Qed.

(** The format [n=%5d] in memory, on an initialised console. *)
Definition demo_format : list Z := [110; 61; 37; 53; 100].
Definition demo_console : kstate :=
  set_glob console_initialised 1 (set_mem (wr_list ∅ (DEMO_VIRT + 0x5000) demo_format) demo_state).


Lemma number_strtoul_roundtrip_witness :
  exists m p, llstr 0 1234 64 demo_state = Done p (set_mem m demo_state) /\
    exists e, strtoul 21 m p 10 = Some (1234, e).
Proof. apply (number_strtoul_roundtrip demo_state 0 1234). lia. Defined.
