(* ===== verification/Panic.v ===== *)
(** * Panic: the end of the kernel (kern/panic.c)

    [panic] prints a report and halts the CPU.  The rest of the development has the
    outcome [Halted] for a call of [panic]; [panic_correct] is the justification:
    from every state the call ends there, after nothing but output. *)
From Stdlib Require Import ZArith Lia.
From stdpp Require Import prelude gmap list strings.
From S2P Require Import Prelude Memory LinkedList Kernel Pmap Vm Machine Cpu Task Thread Sched.
Open Scope Z_scope.
Open Scope monix_scope.

Definition PANIC_FLAG_NONE : Z := 0.
Definition PANIC_FLAG_CPUTRACE : Z := 1.
Definition PANIC_FRAME_NONE : Z := 0.

(** A format is a literal, or a pointer computed at run time. *)
Inductive format_string := Lit (s : string) | Ptr (a : Z).
Definition print_format (fmt : format_string) (args : list Z) : event :=
  match fmt with Lit s => EvPrint s args | Ptr a => EvPrintAt a args end.

(** [struct frame_record] of arch/arch.h. *)
Definition frame_record_parent (fr : Z) : Z := fr.
Definition frame_record_return_addr (fr : Z) : Z := fr + 8.

Section Panic.
Context `{Symbols} `{Hardware}.

(** [mov %0, x29] *)
Definition frame_pointer : M Z := fun s => Done (u64 (hw_frame_pointer s)) s.

(** The loop over at most [n] frame records. *)
Fixpoint backtrace (n : nat) (i fr : Z) : M unit :=
  match n with
  | O => ret tt
  | S n =>
      if fr =? 0 then ret tt
      else
        let! parent := ld 8 (frame_record_parent fr) in
        if parent =? 0 then ret tt
        else
          let! return_addr := ld 8 (frame_record_return_addr fr) in
          print "\t%d: 0x%lx\n" [i; return_addr] ;!
          let! parent := ld 8 (frame_record_parent fr) in
          backtrace n (i + 1) parent
  end.

Definition __print_backtrace (panic_cpu : Z) : M unit :=
  let! cpu_num := ld 4 (cpu_cpu_num panic_cpu) in
  let! flag := cpu_read_flag (s32 cpu_num) CPU_FLAG_THREADING_ENABLED in
  (if truthy flag then
     let! thread := ld 8 (cpu_cpu_active_thread panic_cpu) in
     let! task := ld 8 (thread_task thread) in
     let! id := ld 4 (thread_thread_id thread) in
     print "Process name: %s  Thread ID: %d\n" [task_name task; id]
   else print "Kernel faulted before main thread enabled\n" []) ;!
  print "\n" [] ;!
  let! cpu_num := ld 4 (cpu_cpu_num panic_cpu) in
  print "Backtrace (CPU%d):\n" [cpu_num] ;!
  let! frame_address := frame_pointer in
  backtrace 20 0 frame_address ;!
  print "\n" [].

(** A line with four registers, the first of them [x i]. *)
Definition print_regs (frame : Z) (fmt : string) (i : Z) : M unit :=
  let! a := ld 8 (frame_regs frame i) in
  let! b := ld 8 (frame_regs frame (i + 1)) in
  let! c := ld 8 (frame_regs frame (i + 2)) in
  let! d := ld 8 (frame_regs frame (i + 3)) in
  print fmt [a; b; c; d].

(** The part under [flags & PANIC_FLAG_CPUTRACE]. *)
Definition print_cpu_state (frame : Z) : M unit :=
  print "CPU State:\n" [] ;!
  print_regs frame "  x0: 0x%016llx   x1: 0x%016llx   x2: 0x%016llx   x3: 0x%016llx\n" 0 ;!
  print_regs frame "  x4: 0x%016llx   x5: 0x%016llx   x6: 0x%016llx   x7: 0x%016llx\n" 4 ;!
  print_regs frame "  x8: 0x%016llx   x9: 0x%016llx  x10: 0x%016llx  x11: 0x%016llx\n" 8 ;!
  print_regs frame " x12: 0x%016llx  x13: 0x%016llx  x14: 0x%016llx  x15: 0x%016llx\n" 12 ;!
  print_regs frame " x16: 0x%016llx  x17: 0x%016llx  x18: 0x%016llx  x19: 0x%016llx\n" 16 ;!
  print_regs frame " x20: 0x%016llx  x21: 0x%016llx  x22: 0x%016llx  x23: 0x%016llx\n" 20 ;!
  print_regs frame " x24: 0x%016llx  x25: 0x%016llx  x26: 0x%016llx  x27: 0x%016llx\n" 24 ;!
  let! x28 := ld 8 (frame_regs frame 28) in
  let! fp := ld 8 (frame_fp frame) in
  let! lr := ld 8 (frame_lr frame) in
  let! sp := ld 8 (frame_sp frame) in
  print " x28: 0x%016llx   fp: 0x%016llx   lr: 0x%016llx   sp: 0x%016llx\n" [x28; fp; lr; sp] ;!
  print "\n" [] ;!
  let! el := sysreg_read currentel in
  let elx := s32 (Z.shiftr (u64 el) 2) in
  print "Exception taken at EL%d\n" [elx] ;!
  let! far := ld 8 (frame_far frame) in
  let! kva := ptokva far in
  print "  FAR_EL%d: 0x%016llx (0x%08lx)\n" [elx; kva; far] ;!
  let! esr := ld 8 (frame_esr frame) in
  print "  ESR_EL%d: 0x%016llx\n" [elx; esr] ;!
  print "\n" [].

(** [__panic]; [panic] and [panic_with_thread_state] call it without their own
    variable arguments. *)
Definition __panic (flags frame : Z) (fmt : format_string) : M unit :=
  let! active := get panic_active in
  if truthy active then cpu_halt
  else
    put panic_active 1 ;!
    machine_irq_disable ;!
    let! panic_cpu := cpu_get_current in
    let! panic_thread := ld 8 (cpu_cpu_active_thread panic_cpu) in
    let! task := get_current_task in
    let! panic_pid := (if negb (task =? 0) then
                         let! task := get_current_task in ld 4 (task_pid_field task)
                       else ret (u32 (-1))) in
    print "\n" [] ;!
    print "--- Kernel Panic - " [] ;!
    emit (print_format fmt []) ;!
    print "\n" [] ;!
    let! cpu_num := ld 4 (cpu_cpu_num panic_cpu) in
    print "CPU: %d  PID: %d  %s:%s/%s_%s\n"
      [cpu_num; panic_pid; sym_literal "tempest"; sym_literal "tinykern-0200.142.12.3";
       sym_literal "DEBUG"; sym_literal "AARCH64_VIRT"] ;!
    print "Machine: tiny-ex1\n" [] ;!
    print "Kernel:  Monix Kernel Version %s; %s\n" [sym_literal "0.0.2"; sym_literal "__TIMESTAMP__"] ;!
    __print_backtrace panic_cpu ;!
    when (truthy (Z.land flags PANIC_FLAG_CPUTRACE)) (print_cpu_state frame) ;!
    print "Kernel base: 0x%lx\n" [sym_kernel_init] ;!
    print "\n" [] ;!
    print "---[end Kernel Panic - " [] ;!
    emit (print_format fmt []) ;!
    print " ]\n" [] ;!
    cpu_halt.

Definition panic (fmt : format_string) : M unit := __panic PANIC_FLAG_NONE PANIC_FRAME_NONE fmt.
Definition panic_with_thread_state (frame : Z) (fmt : format_string) : M unit :=
  __panic PANIC_FLAG_CPUTRACE frame fmt.
End Panic.

(** ** Computations that do nothing but print *)
Definition is_print (e : event) : Prop :=
  match e with EvPrint _ _ | EvPrintAt _ _ => True | _ => False end.
Definition printed (s s' : kstate) : Prop := exists l, Forall is_print l /\ s' = add_trace l s.

#[export] Instance printed_preorder : PreOrder printed.
Proof.
  split.
  - intros s. exists []. by rewrite add_trace_nil.
  - intros s1 s2 s3 (l1 & H1 & ->) (l2 & H2 & ->). exists (l2 ++ l1).
    split; [by apply Forall_app|apply add_trace_app].
Qed.
Lemma printed_mem s s' : printed s s' -> k_mem s' = k_mem s.
Proof. by intros (l & _ & ->). Qed.
Lemma printed_glob s s' : printed s s' -> k_glob s' = k_glob s.
Proof. by intros (l & _ & ->). Qed.
Lemma printed_sys s s' : printed s s' -> k_sys s' = k_sys s.
Proof. by intros (l & _ & ->). Qed.
Lemma printed_trace s s' : printed s s' -> exists l, Forall is_print l /\ k_trace s' = l ++ k_trace s.
Proof. intros (l & Hl & ->). by exists l. Qed.

(** [only_prints c]: [c] ends with a result or halts the CPU, and prints at most. *)
Definition only_prints {A} (c : M A) : Prop :=
  forall s, exists s', printed s s' /\ ((exists a, c s = Done a s') \/ c s = Halted s').

Create HintDb only_prints.

Lemma only_prints_ret {A} (a : A) : only_prints (ret a).
Proof. intros s. exists s. split; [reflexivity|left; by exists a]. Qed.
Lemma only_prints_halt {A} : only_prints (halt : M A).
Proof. intros s. exists s. split; [reflexivity|by right]. Qed.
Lemma only_prints_reader {A} (f : kstate -> A) : only_prints (fun s => Done (f s) s).
Proof. intros s. exists s. split; [reflexivity|left; by exists (f s)]. Qed.
Lemma only_prints_ld n a : only_prints (ld n a).
Proof. apply (only_prints_reader (fun s => load n (k_mem s) a)). Qed.
Lemma only_prints_get g : only_prints (get g).
Proof. apply (only_prints_reader (fun s => k_glob s g)). Qed.
Lemma only_prints_emit e : is_print e -> only_prints (emit e).
Proof.
  intros He s. exists (add_trace [e] s). split; [exists [e]; by repeat constructor|].
  left. by exists tt.
Qed.
Lemma only_prints_print fmt args : only_prints (print fmt args).
Proof. by apply only_prints_emit. Qed.
Lemma only_prints_format fmt args : only_prints (emit (print_format fmt args)).
Proof. apply only_prints_emit. by destruct fmt. Qed.
Lemma only_prints_bind {A B} (c : M A) (f : A -> M B) :
  only_prints c -> (forall a, only_prints (f a)) -> only_prints (bind c f).
Proof.
  intros Hc Hf s. unfold bind. destruct (Hc s) as (s1 & Hp & [[a ->]| ->]).
  - destruct (Hf a s1) as (s2 & Hp2 & Hr). exists s2. split; [by etransitivity|exact Hr].
  - exists s1. split; [exact Hp|by right].
Qed.
Lemma only_prints_if {A} (b : bool) (c d : M A) :
  only_prints c -> only_prints d -> only_prints (if b then c else d).
Proof. by destruct b. Qed.
Lemma only_prints_when b c : only_prints c -> only_prints (when b c).
Proof. destruct b; [done|intros; apply only_prints_ret]. Qed.
#[export] Hint Resolve only_prints_ret only_prints_halt only_prints_ld only_prints_get
  only_prints_print only_prints_format only_prints_bind only_prints_if only_prints_when : only_prints.

Section Laws.
Context `{Symbols} `{Hardware}.

Lemma only_prints_sysreg_read r : only_prints (sysreg_read r).
Proof. apply (only_prints_reader (fun s => hw_mrs s r)). Qed.
Hint Resolve only_prints_sysreg_read : only_prints.

Lemma only_prints_frame_pointer : only_prints frame_pointer.
Proof. apply (only_prints_reader (fun s => u64 (hw_frame_pointer s))). Qed.
Hint Resolve only_prints_frame_pointer : only_prints.

Lemma only_prints_topology_scan n i c : only_prints (topology_scan n i c).
Proof.
  revert i. induction n as [|n IH]; intros i; cbn [topology_scan]; unfold assert;
    auto 9 with only_prints.
Qed.
Hint Resolve only_prints_topology_scan : only_prints.

Lemma only_prints_cpu_get_current : only_prints cpu_get_current.
Proof. unfold cpu_get_current, machine_get_cpu_num; auto 9 with only_prints. Qed.
Hint Resolve only_prints_cpu_get_current : only_prints.

Lemma only_prints_cpu_read_flag n f : only_prints (cpu_read_flag n f).
Proof. unfold cpu_read_flag, CPU_ASSERT_VALID_ID. auto 9 with only_prints. Qed.
Hint Resolve only_prints_cpu_read_flag : only_prints.

Lemma only_prints_backtrace n i fr : only_prints (backtrace n i fr).
Proof.
  revert i fr. induction n as [|n IH]; intros i fr; cbn [backtrace]; auto 12 with only_prints.
Qed.
Hint Resolve only_prints_backtrace : only_prints.

Lemma only_prints_print_backtrace c : only_prints (__print_backtrace c).
Proof.
  unfold __print_backtrace. repeat (apply only_prints_bind; [auto 9 with only_prints|intros ?]).
  auto with only_prints.
Qed.
Hint Resolve only_prints_print_backtrace : only_prints.

Lemma only_prints_cpu_state f : only_prints (print_cpu_state f).
Proof.
  unfold print_cpu_state, print_regs, ptokva.
  repeat (apply only_prints_bind; [auto 12 with only_prints|intros ?]). auto with only_prints.
Qed.
Hint Resolve only_prints_cpu_state : only_prints.

(** ** What a panic does *)

(** The state when the report begins. *)
Definition panicking (s : kstate) : kstate :=
  let v := Z.lor (k_sys s daif) DAIF_MASK_IRQ in
  emit_event (EvSysreg daif v) (set_sys daif v (set_glob panic_active 1 s)).

(** The state the CPU halts in: nothing happens in a second panic; the first one
    marks the panic, masks interrupts, and prints, first of all the reason [fmt]
    if the CPU is one the topology knows. *)
Definition panicked (fmt : format_string) (s s' : kstate) : Prop :=
  if decide (k_glob s panic_active = 0) then
    printed (panicking s) s' /\
    (forall mpidr, Running mpidr -> cpu_known s (cpu_number mpidr) ->
       exists l, k_trace s' = l ++ [print_format fmt []; EvPrint "--- Kernel Panic - " [];
                                    EvPrint "\n" []; EvSysreg daif (k_sys s' daif)] ++ k_trace s)
  else s' = s.

(** A computation that prints and then halts the CPU. *)
Definition only_halts {A} (c : M A) : Prop :=
  forall s, exists s', c s = Halted s' /\ printed s s'.
Lemma only_halts_halt {A} : only_halts (cpu_halt : M A).
Proof. intros s. by exists s. Qed.
Lemma only_halts_bind {A B} (c : M A) (f : A -> M B) :
  only_prints c -> (forall a, only_halts (f a)) -> only_halts (bind c f).
Proof.
  intros Hc Hf s. unfold bind. destruct (Hc s) as (s1 & Hp & [[a ->]| ->]).
  - destruct (Hf a s1) as (s2 & -> & Hp2). exists s2. split; [done|by etransitivity].
  - by exists s1.
Qed.

Lemma panicked_sys fmt s s' :
  panicked fmt s s' -> k_glob s panic_active = 0 ->
  k_sys s' daif = Z.lor (k_sys s daif) DAIF_MASK_IRQ.
Proof.
  unfold panicked. intros Hp H0'. rewrite decide_True in Hp by done.
  destruct Hp as [->%printed_sys _]. cbn [k_sys panicking emit_event set_sys]. by rewrite decide_True.
Qed.

(** The report, from the line of the reason on. *)
Lemma report_halts flags frame fmt cpu pid :
  only_halts ((print "\n" [] ;!
    let! cpu_num := ld 4 (cpu_cpu_num cpu) in
    print "CPU: %d  PID: %d  %s:%s/%s_%s\n"
      [cpu_num; pid; sym_literal "tempest"; sym_literal "tinykern-0200.142.12.3";
       sym_literal "DEBUG"; sym_literal "AARCH64_VIRT"] ;!
    print "Machine: tiny-ex1\n" [] ;!
    print "Kernel:  Monix Kernel Version %s; %s\n" [sym_literal "0.0.2"; sym_literal "__TIMESTAMP__"] ;!
    __print_backtrace cpu ;!
    when (truthy (Z.land flags PANIC_FLAG_CPUTRACE)) (print_cpu_state frame) ;!
    print "Kernel base: 0x%lx\n" [sym_kernel_init] ;!
    print "\n" [] ;!
    print "---[end Kernel Panic - " [] ;!
    emit (print_format fmt []) ;!
    print " ]\n" [] ;!
    cpu_halt) : M unit).
Proof.
  repeat (apply only_halts_bind; [auto 9 with only_prints|intros ?]). apply only_halts_halt.
Qed.

(** The report as a whole. *)
Lemma panic_halts flags frame fmt s :
  k_glob s panic_active = 0 ->
  exists s', __panic flags frame fmt s = Halted s' /\ printed (panicking s) s'.
Proof.
  intros E. unfold __panic. unfold bind at 1, get at 1. rewrite E. cbn [truthy Z.eqb negb].
  unfold bind at 1, put at 1. unfold bind at 1, machine_irq_disable, msr.
  match goal with |- exists s', ?c ?s1 = _ /\ _ => cut (only_halts c); [intros Hc; apply Hc|] end.
  unfold get_current_task.
  repeat (apply only_halts_bind; [auto 9 with only_prints|intros ?]). apply only_halts_halt.
Qed.

Lemma panic_reports `{!Running mpidr} flags frame fmt s s' :
  k_glob s panic_active = 0 -> cpu_known s (cpu_number mpidr) ->
  __panic flags frame fmt s = Halted s' ->
  exists s1, printed s1 s' /\
    s1 = add_trace [print_format fmt []; EvPrint "--- Kernel Panic - " []; EvPrint "\n" []] (panicking s).
Proof.
  intros E Hk. unfold __panic. unfold bind at 1, get at 1. rewrite E. cbn [truthy Z.eqb negb].
  unfold bind at 1, put at 1. unfold bind at 1, machine_irq_disable, msr.
  change (emit_event _ _) with (panicking s).
  unfold bind at 1, cpu_get_current at 1. unfold bind at 1.
  rewrite (machine_get_cpu_num_done (panicking s) Hk). unfold ret at 1.
  unfold bind at 1, ld at 1. unfold bind at 1, get_current_task at 1, get at 1.
  unfold bind at 1.
  assert (exists pid, (if negb (k_glob (panicking s) current_task =? 0)
    then let! task := get_current_task in ld 4 (task_pid_field task) else ret (u32 (-1)))
      (panicking s) = Done pid (panicking s)) as [pid ->]
    by (destruct (negb _); [|by eexists]; unfold bind, get_current_task, get, ld; by eexists).
  do 3 (unfold bind at 1; unfold print at 1, emit at 1). cbv beta.
  match goal with |- context [emit_event ?e (emit_event ?e1 (emit_event ?e2 ?s0))] =>
    change (emit_event e (emit_event e1 (emit_event e2 s0))) with (add_trace [e; e1; e2] s0) end.
  intros Hs. eexists. split; [|reflexivity].
  destruct (report_halts flags frame fmt (cpu_get_cpu (cpu_number mpidr)) pid
    (add_trace [print_format fmt []; EvPrint "--- Kernel Panic - " []; EvPrint "\n" []] (panicking s)))
    as (s2 & E2 & Hp).
  pose proof (eq_trans (eq_sym E2) Hs) as Hs'. by injection Hs' as <-.
Qed.

Lemma panic_run flags frame fmt s :
  exists s', __panic flags frame fmt s = Halted s' /\ panicked fmt s s'.
Proof.
  unfold panicked. destruct (decide (k_glob s panic_active = 0)) as [E|E].
  - destruct (panic_halts flags frame fmt s E) as (s' & Hs & Hp). exists s'. split; [exact Hs|].
    split; [exact Hp|]. intros mpidr Hr Hk.
    destruct (panic_reports flags frame fmt s s' E Hk Hs) as (s1 & (l & _ & ->) & ->).
    exists l. cbn [k_sys k_trace add_trace with_trace panicking emit_event set_sys set_glob].
    by rewrite decide_True.
  - exists s. split; [|done]. unfold __panic, bind at 1, get at 1, truthy.
    by destruct (Z.eqb_spec (k_glob s panic_active) 0).
Qed.

(** ** The backtrace *)

(** The return addresses of the frame records from [fr] on: up to the record
    without a parent, or the first [n] of a longer chain. *)
Fixpoint frame_chain (n : nat) (m : memory) (fr : Z) (l : list Z) : Prop :=
  match n, l with
  | O, _ => l = []
  | S _, [] => fr = 0 \/ ld64 m fr = 0
  | S n, ra :: l =>
      fr <> 0 /\ ld64 m fr <> 0 /\ ld64 m (fr + 8) = ra /\ frame_chain n m (ld64 m fr) l
  end.
Definition backtrace_line (i ra : Z) : event := EvPrint "\t%d: 0x%lx\n" [i; ra].

Lemma backtrace_run s n i fr l :
  frame_chain n (k_mem s) fr l ->
  prints s (backtrace n i fr) (imap (fun j => backtrace_line (i + Z.of_nat j)) l).
Proof.
  revert i fr l. induction n as [|n IH]; intros i fr l Hc;
    [simpl in Hc; subst; apply prints_ret|].
  cbn [backtrace]. destruct l as [|ra l]; cbn [frame_chain imap] in *.
  - destruct Hc as [->|Hc]; [apply prints_ret|]. destruct (fr =? 0); [apply prints_ret|].
    intros tr. unfold bind, ld, frame_record_parent. cbn [k_mem with_trace]. rewrite Hc. done.
  - destruct Hc as (Hf & Hp & Hr & Hc). destruct (Z.eqb_spec fr 0) as [|_]; [done|].
    intros tr. unfold bind at 1, ld at 1, frame_record_parent at 1. cbn [k_mem with_trace].
    destruct (Z.eqb_spec (ld64 (k_mem s) fr) 0) as [|_]; [done|].
    unfold bind at 1, ld at 1, frame_record_return_addr. cbn [k_mem with_trace]. rewrite Hr.
    revert tr. apply (prints_bind s (print _ _) _ [_]); [rewrite Z.add_0_r; apply prints_print|].
    intros tr. unfold bind at 1, ld at 1, frame_record_parent. cbn [k_mem with_trace].
    rewrite (IH (i + 1) _ l Hc). do 4 f_equal. apply imap_ext. intros j x _. simpl. f_equal. lia.
Qed.
End Laws.

(** ** Properties *)
Section Properties.
Context `{Symbols} `{Hardware}.

(** (C7) A panic never returns: from every state, with every format and frame, it halts
    the CPU.  A panic inside the panic changes nothing.  The first one masks
    interrupts and prints: memory and the other globals and registers are kept,
    and, on a CPU the topology knows, the report begins with the reason. *)
Theorem panic_correct flags frame fmt s :
  exists s', __panic flags frame fmt s = Halted s' /\ panicked fmt s s' /\
    k_mem s' = k_mem s /\ k_glob s' panic_active <> 0 /\
    (forall g, g <> panic_active -> k_glob s' g = k_glob s g) /\
    (k_glob s panic_active = 0 -> Z.testbit (k_sys s' daif) 7 = true).
Proof.
  destruct (panic_run flags frame fmt s) as (s' & E & Hp). exists s'. split; [exact E|].
  split; [exact Hp|]. split_and!.
  - unfold panicked in Hp. case_decide; [destruct Hp as [Hp _]|by subst].
    by rewrite (printed_mem _ _ Hp).
  - unfold panicked in Hp. case_decide; [destruct Hp as [Hp _]|by subst].
    rewrite (printed_glob _ _ Hp). change (k_glob (set_glob panic_active 1 s) panic_active <> 0).
    by rewrite set_glob_eq.
  - intros g Hg. unfold panicked in Hp. case_decide; [destruct Hp as [Hp _]|by subst].
    rewrite (printed_glob _ _ Hp). by apply set_glob_ne.
  - intros E0. rewrite (panicked_sys _ _ _ Hp E0), Z.lor_spec.
    change (Z.testbit DAIF_MASK_IRQ 7) with true. apply orb_true_r.
Qed.

End Properties.

(** ** Witness: two frame records *)
Definition demo_frames : kstate :=
  set_mem (st64 (st64 (st64 (st64 ∅ 0x1000 0x2000) 0x1008 0xaa) 0x2000 0x3000) 0x2008 0xbb) demo_state.

