(* ===== verification/Exception.v ===== *)
(** * Exception: the exception handlers (kern/exception.c)

    The vectors of arch/handler.S save the registers in an exception frame and call
    one of the four handlers.  The enumerations are those of arch/arch.h. *)
From Stdlib Require Import ZArith Lia.
From stdpp Require Import prelude gmap list strings.
From S2P Require Import Prelude Memory LinkedList Kernel Pmap Vm Machine Cpu Task Thread Sched Panic.
Open Scope Z_scope.
Open Scope monix_scope.

(** ** Enumerations *)
Inductive esr_exception_class_t :=
  | ESR_EC_UNCATEGORIZED | ESR_EC_WFI_WFE | ESR_EC_MCR_MRC_CP15_TRAP
  | ESR_EC_MCRR_MRRC_CP15_TRAP | ESR_EC_MCR_MRC_CP14_TRAP | ESR_EC_LDC_STC_CP14_TRAP
  | ESR_EC_TRAP_SIMD_FP | ESR_EC_PTRAUTH_INSTR_TRAP | ESR_EC_MCRR_MRRC_CP14_TRAP
  | ESR_EC_ILLEGAL_INSTR_SET | ESR_EC_SVC_32 | ESR_EC_HVC_32 | ESR_EC_SVC_64 | ESR_EC_HVC_64
  | ESR_EC_MSR_TRAP | ESR_EC_IABORT_EL0 | ESR_EC_IABORT_EL1 | ESR_EC_PC_ALIGN
  | ESR_EC_DABORT_EL0 | ESR_EC_DABORT_EL1 | ESR_EC_SP_ALIGN | ESR_EC_FLOATING_POINT_32
  | ESR_EC_FLOATING_POINT_64 | ESR_EC_SERROR_INTERRUPT | ESR_EC_BKPT_REG_MATCH_EL0
  | ESR_EC_BKPT_REG_MATCH_EL1 | ESR_EC_SW_STEP_DEBUG_EL0 | ESR_EC_SW_STEP_DEBUG_EL1
  | ESR_EC_WATCHPT_MATCH_EL0 | ESR_EC_WATCHPT_MATCH_EL1 | ESR_EC_BKPT_AARCH32
  | ESR_EC_BRK_AARCH64.

(** The values, in the order of the declaration. *)
Definition exception_classes : list (Z * esr_exception_class_t) := [
  (0x00, ESR_EC_UNCATEGORIZED); (0x01, ESR_EC_WFI_WFE); (0x03, ESR_EC_MCR_MRC_CP15_TRAP);
  (0x04, ESR_EC_MCRR_MRRC_CP15_TRAP); (0x05, ESR_EC_MCR_MRC_CP14_TRAP);
  (0x06, ESR_EC_LDC_STC_CP14_TRAP); (0x07, ESR_EC_TRAP_SIMD_FP);
  (0x09, ESR_EC_PTRAUTH_INSTR_TRAP); (0x0c, ESR_EC_MCRR_MRRC_CP14_TRAP);
  (0x0e, ESR_EC_ILLEGAL_INSTR_SET); (0x11, ESR_EC_SVC_32); (0x12, ESR_EC_HVC_32);
  (0x15, ESR_EC_SVC_64); (0x16, ESR_EC_HVC_64); (0x18, ESR_EC_MSR_TRAP);
  (0x20, ESR_EC_IABORT_EL0); (0x21, ESR_EC_IABORT_EL1); (0x22, ESR_EC_PC_ALIGN);
  (0x24, ESR_EC_DABORT_EL0); (0x25, ESR_EC_DABORT_EL1); (0x26, ESR_EC_SP_ALIGN);
  (0x28, ESR_EC_FLOATING_POINT_32); (0x2C, ESR_EC_FLOATING_POINT_64);
  (0x2F, ESR_EC_SERROR_INTERRUPT); (0x30, ESR_EC_BKPT_REG_MATCH_EL0);
  (0x31, ESR_EC_BKPT_REG_MATCH_EL1); (0x32, ESR_EC_SW_STEP_DEBUG_EL0);
  (0x33, ESR_EC_SW_STEP_DEBUG_EL1); (0x34, ESR_EC_WATCHPT_MATCH_EL0);
  (0x35, ESR_EC_WATCHPT_MATCH_EL1); (0x38, ESR_EC_BKPT_AARCH32); (0x3C, ESR_EC_BRK_AARCH64)].

Inductive fault_status_t :=
  | FSC_ADDRESS_SIZE_FAULT_L0 | FSC_ADDRESS_SIZE_FAULT_L1 | FSC_ADDRESS_SIZE_FAULT_L2
  | FSC_ADDRESS_SIZE_FAULT_L3 | FSC_TRANSLATION_FAULT_L0 | FSC_TRANSLATION_FAULT_L1
  | FSC_TRANSLATION_FAULT_L2 | FSC_TRANSLATION_FAULT_L3 | FSC_ACCESS_FLAG_FAULT_L1
  | FSC_ACCESS_FLAG_FAULT_L2 | FSC_ACCESS_FLAG_FAULT_L3 | FSC_PERMISSION_FAULT_L1
  | FSC_PERMISSION_FAULT_L2 | FSC_PERMISSION_FAULT_L3 | FSC_SYNC_EXT_ABORT
  | FSC_SYNC_EXT_ABORT_TT_L1 | FSC_SYNC_EXT_ABORT_TT_L2 | FSC_SYNC_EXT_ABORT_TT_L3
  | FSC_SYNC_PARITY | FSC_ASYNC_PARITY | FSC_SYNC_PARITY_TT_L1 | FSC_SYNC_PARITY_TT_L2
  | FSC_SYNC_PARITY_TT_L3 | FSC_ALIGNMENT_FAULT | FSC_DEBUG_FAULT.

Definition fault_statuses : list (Z * fault_status_t) := [
  (0x00, FSC_ADDRESS_SIZE_FAULT_L0); (0x01, FSC_ADDRESS_SIZE_FAULT_L1);
  (0x02, FSC_ADDRESS_SIZE_FAULT_L2); (0x03, FSC_ADDRESS_SIZE_FAULT_L3);
  (0x04, FSC_TRANSLATION_FAULT_L0); (0x05, FSC_TRANSLATION_FAULT_L1);
  (0x06, FSC_TRANSLATION_FAULT_L2); (0x07, FSC_TRANSLATION_FAULT_L3);
  (0x09, FSC_ACCESS_FLAG_FAULT_L1); (0x0A, FSC_ACCESS_FLAG_FAULT_L2);
  (0x0B, FSC_ACCESS_FLAG_FAULT_L3); (0x0D, FSC_PERMISSION_FAULT_L1);
  (0x0E, FSC_PERMISSION_FAULT_L2); (0x0F, FSC_PERMISSION_FAULT_L3); (0x10, FSC_SYNC_EXT_ABORT);
  (0x15, FSC_SYNC_EXT_ABORT_TT_L1); (0x16, FSC_SYNC_EXT_ABORT_TT_L2);
  (0x17, FSC_SYNC_EXT_ABORT_TT_L3); (0x18, FSC_SYNC_PARITY); (0x19, FSC_ASYNC_PARITY);
  (0x1D, FSC_SYNC_PARITY_TT_L1); (0x1E, FSC_SYNC_PARITY_TT_L2); (0x1F, FSC_SYNC_PARITY_TT_L3);
  (0x21, FSC_ALIGNMENT_FAULT); (0x22, FSC_DEBUG_FAULT)].

(** The enumerator of a value, if it has one. *)
Fixpoint enumerator {A} (l : list (Z * A)) (v : Z) : option A :=
  match l with
  | [] => None
  | (w, a) :: l => if v =? w then Some a else enumerator l v
  end.

(** ** The syndrome register (arch/proc_reg.h) *)

(** [(0x3f << 26)] is a negative [int], which the conversion to 64 bits extends. *)
Definition ESR_EC_MASK : Z := u64 (s32 (Z.shiftl 0x3f 26)).
Definition ESR_EC (x : Z) : Z := Z.shiftr (Z.land x ESR_EC_MASK) 26.
Definition ESR_ISS (x : Z) : Z := Z.land x 0x01ffffff.
Definition ISS_DA_CM : Z := Z.shiftl 1 8.
Definition ISS_DA_WNR : Z := Z.shiftl 1 6.
Definition ISS_DA_FSC (x : Z) : Z := Z.land x 0x3f.
Definition ISS_IA_FSC (x : Z) : Z := Z.land x 0x3f.

(** kern/vm/vm.h *)
Definition VM_PROT_READ : Z := 1.
Definition VM_PROT_WRITE : Z := 2.
Definition VM_PROT_EXECUTE : Z := 3.

(** ** Fault statuses *)
Definition is_vm_fault (status : Z) : bool :=
  match enumerator fault_statuses status with
  | Some (FSC_TRANSLATION_FAULT_L0 | FSC_TRANSLATION_FAULT_L1 | FSC_TRANSLATION_FAULT_L2
    | FSC_TRANSLATION_FAULT_L3 | FSC_ACCESS_FLAG_FAULT_L1 | FSC_ACCESS_FLAG_FAULT_L2
    | FSC_ACCESS_FLAG_FAULT_L3 | FSC_PERMISSION_FAULT_L1 | FSC_PERMISSION_FAULT_L2
    | FSC_PERMISSION_FAULT_L3) => true
  | _ => false
  end.

Definition is_translation_fault (status : Z) : bool :=
  match enumerator fault_statuses status with
  | Some (FSC_TRANSLATION_FAULT_L0 | FSC_TRANSLATION_FAULT_L1 | FSC_TRANSLATION_FAULT_L2
    | FSC_TRANSLATION_FAULT_L3) => true
  | _ => false
  end.

Definition is_address_size_fault (status : Z) : bool :=
  match enumerator fault_statuses status with
  | Some (FSC_ADDRESS_SIZE_FAULT_L0 | FSC_ADDRESS_SIZE_FAULT_L1 | FSC_ADDRESS_SIZE_FAULT_L2
    | FSC_ADDRESS_SIZE_FAULT_L3) => true
  | _ => false
  end.

Definition is_permission_fault (status : Z) : bool :=
  match enumerator fault_statuses status with
  | Some (FSC_PERMISSION_FAULT_L1 | FSC_PERMISSION_FAULT_L2 | FSC_PERMISSION_FAULT_L3) => true
  | _ => false
  end.

Definition is_alignment_fault (status : Z) : bool :=
  match enumerator fault_statuses status with Some FSC_ALIGNMENT_FAULT => true | _ => false end.

Definition vm_fault_get_level (status : Z) : Z :=
  match enumerator fault_statuses status with
  | Some (FSC_TRANSLATION_FAULT_L0 | FSC_ADDRESS_SIZE_FAULT_L0) => 0
  | Some (FSC_TRANSLATION_FAULT_L1 | FSC_ADDRESS_SIZE_FAULT_L1 | FSC_ACCESS_FLAG_FAULT_L1
    | FSC_PERMISSION_FAULT_L1 | FSC_SYNC_EXT_ABORT_TT_L1 | FSC_SYNC_PARITY_TT_L1) => 1
  | Some (FSC_TRANSLATION_FAULT_L2 | FSC_ADDRESS_SIZE_FAULT_L2 | FSC_ACCESS_FLAG_FAULT_L2
    | FSC_PERMISSION_FAULT_L2 | FSC_SYNC_EXT_ABORT_TT_L2 | FSC_SYNC_PARITY_TT_L2) => 2
  | Some (FSC_TRANSLATION_FAULT_L3 | FSC_ADDRESS_SIZE_FAULT_L3 | FSC_ACCESS_FLAG_FAULT_L3
    | FSC_PERMISSION_FAULT_L3 | FSC_SYNC_EXT_ABORT_TT_L3 | FSC_SYNC_PARITY_TT_L3) => 3
  | _ => -1
  end.

(** The fault status and type of an abort. *)
Definition inspect_data_abort (iss : Z) : Z * Z :=
  let fault_code := ISS_DA_FSC iss in
  let fault_type :=
    if truthy (Z.land iss ISS_DA_WNR)
       && (negb (truthy (Z.land iss ISS_DA_CM)) || is_permission_fault fault_code)
    then Z.lor VM_PROT_READ VM_PROT_WRITE else VM_PROT_READ in
  (fault_code, fault_type).

Definition inspect_instruction_abort (iss : Z) : Z * Z :=
  (ISS_IA_FSC iss, Z.lor VM_PROT_READ VM_PROT_EXECUTE).

Section Exception.
Context `{Symbols} `{Hardware}.

(** ** The handlers

    [panic] drops its variable arguments, so the level and the status that the
    messages name are computed and not passed on. *)
Definition handle_data_abort (frame fault_address fault_status : Z) : M unit :=
  if is_translation_fault fault_status then
    panic_with_thread_state frame (Lit "Data Abort - Translation Fault Level %d")
  else if is_permission_fault fault_status then
    panic_with_thread_state frame (Lit "Data Abort - Permissions Fault, Level %d")
  else if is_alignment_fault fault_status then
    panic_with_thread_state frame (Lit "Alignment Fault")
  else if is_address_size_fault fault_status then
    panic_with_thread_state frame (Lit "Data Abort - Address Size Fault, Level %d")
  else panic_with_thread_state frame (Lit "Data Abort - Unknown (0x%lx)").

Definition handle_instruction_abort (frame fault_address fault_status : Z) : M unit :=
  if is_translation_fault fault_status then
    panic_with_thread_state frame (Lit "Kernel Instruction Abort - Translation Fault, Level %d")
  else panic_with_thread_state frame (Lit "Kernel Instruction Abort - Unknwon (0x%x)").

Definition handle_undefined_instruction (frame : Z) : M unit :=
  panic_with_thread_state frame (Lit "Undefined Instruction").

Definition handle_breakpoint (frame : Z) : M unit := panic (Lit "Breakpoint 64").
Definition handle_svc (frame : Z) : M unit := panic (Lit "Supervisor Call (64)").

(** [fault_address] is passed on without a value. *)
Definition handle_abort (frame : Z) (handler : Z -> Z -> Z -> M unit) (inspect : Z -> Z * Z) : M unit :=
  let! esr := ld 8 (frame_esr frame) in
  let '(fault_code, fault_type) := inspect (u32 (ESR_ISS esr)) in
  let! fault_address := uninitialised handle_abort_fault_address in
  handler frame fault_address fault_code.

(** The format of the panic is the frame pointer of the frame. *)
Definition handle_msr_trap (frame : Z) : M unit :=
  let! fp := ld 8 (frame_fp frame) in panic (Ptr fp).

(** ** First stage *)

(** The switch of [arm64_handler_synchronous]. *)
Definition synchronous_switch (frame class : Z) : M unit :=
  match enumerator exception_classes class with
  | Some ESR_EC_PC_ALIGN =>
      panic_with_thread_state frame (Lit "PC Alignment Fault") ;! cpu_halt
  | Some (ESR_EC_DABORT_EL0 | ESR_EC_DABORT_EL1) =>
      handle_abort frame handle_data_abort inspect_data_abort ;! cpu_halt
  | Some ESR_EC_BRK_AARCH64 => handle_breakpoint frame ;! cpu_halt
  | Some ESR_EC_SVC_64 => handle_svc frame
  | Some ESR_EC_MSR_TRAP => handle_msr_trap frame ;! cpu_halt
  | Some (ESR_EC_IABORT_EL1 | ESR_EC_IABORT_EL0) =>
      handle_abort frame handle_instruction_abort inspect_instruction_abort ;! cpu_halt
  | Some ESR_EC_UNCATEGORIZED => handle_undefined_instruction frame ;! cpu_halt
  | _ =>
      print "class: 0x%x\n" [class] ;!
      panic_with_thread_state frame (Lit "Unknown Exception") ;! cpu_halt
  end.

Definition arm64_handler_synchronous (frame : Z) : M unit :=
  let! esr := ld 8 (frame_esr frame) in
  let class := u32 (ESR_EC esr) in
  synchronous_switch frame class.

Definition arm64_handler_serror (frame : Z) : M unit := panic (Lit "arm64_handler_serror
").

Definition arm64_handler_fiq (frame : Z) : M unit :=
  let! intid := sysreg_read icc_iar1_el1 in
  let intid := u32 intid in
  sysreg_write icc_eoir1_el1 intid ;!
  print "arm64_handler_fiq: intid: %d
" [intid].

Definition arm64_handler_irq (fuel : nat) (frame : Z) : M unit :=
  let! intid := sysreg_read icc_iar1_el1 in
  let intid := u32 intid in
  sysreg_write icc_eoir1_el1 intid ;!
  machine_irq_disable ;!
  let! count := get irq_count in
  put irq_count (s32 (count + 1)) ;!
  when (intid =? 30) (
    machine_timer_reset MACHINE_TIMER_RESET_VALUE ;!
    __schedule fuel frame).
End Exception.

(** ** The cause of an exception

    A reference for the classification: which reason the panic reports for a
    syndrome [esr], by the numbers of the architecture. *)
Definition data_abort_reason (fsc : Z) : string :=
  if fsc <? 4 then "Data Abort - Address Size Fault, Level %d"
  else if fsc <? 8 then "Data Abort - Translation Fault Level %d"
  else if (13 <=? fsc) && (fsc <=? 15) then "Data Abort - Permissions Fault, Level %d"
  else if fsc =? 33 then "Alignment Fault"
  else "Data Abort - Unknown (0x%lx)".
Definition instruction_abort_reason (fsc : Z) : string :=
  if (4 <=? fsc) && (fsc <? 8) then "Kernel Instruction Abort - Translation Fault, Level %d"
  else "Kernel Instruction Abort - Unknwon (0x%x)".
Definition class_reason (class fsc fp : Z) : format_string :=
  if class =? 0x22 then Lit "PC Alignment Fault"
  else if (class =? 0x24) || (class =? 0x25) then Lit (data_abort_reason fsc)
  else if class =? 0x3c then Lit "Breakpoint 64"
  else if class =? 0x15 then Lit "Supervisor Call (64)"
  else if class =? 0x18 then Ptr fp
  else if (class =? 0x20) || (class =? 0x21) then Lit (instruction_abort_reason fsc)
  else if class =? 0 then Lit "Undefined Instruction"
  else Lit "Unknown Exception".
Definition exception_reason (esr fp : Z) : format_string :=
  class_reason (esr / 2 ^ 26) (esr mod 2 ^ 6) fp.

(** Values below 64, case by case. *)
Lemma cases64 (P : Z -> Prop) : Forall (fun n => P (Z.of_nat n)) (seq 0 64) -> forall v, 0 <= v < 64 -> P v.
Proof.
  intros HF v Hv. rewrite Forall_forall in HF. rewrite <- (Z2Nat.id v) by lia.
  apply HF, elem_of_seq. lia.
Qed.
Ltac by_cases64 :=
  match goal with |- forall v, 0 <= v < 64 -> _ => apply cases64; repeat constructor end.

Lemma vm_fault_get_level_cases :
  forall v, 0 <= v < 64 ->
  vm_fault_get_level v =
    if (v <? 8) || ((v <? 32) && negb (v mod 4 =? 0) && negb (v / 4 =? 4) && negb (v / 4 =? 6))
    then v mod 4 else -1.
Proof. by_cases64. Qed.

Lemma is_translation_fault_range : forall v, 0 <= v < 64 -> is_translation_fault v = (4 <=? v) && (v <? 8).
Proof. by_cases64. Qed.
Lemma is_permission_fault_range : forall v, 0 <= v < 64 -> is_permission_fault v = (13 <=? v) && (v <=? 15).
Proof. by_cases64. Qed.
Lemma is_address_size_fault_range : forall v, 0 <= v < 64 -> is_address_size_fault v = (v <? 4).
Proof. by_cases64. Qed.
Lemma is_alignment_fault_range : forall v, 0 <= v < 64 -> is_alignment_fault v = (v =? 33).
Proof. by_cases64. Qed.

(** The fault status and the class as fields of the syndrome. *)
Lemma fsc_field esr : 0 <= esr -> Z.land (u32 (ESR_ISS esr)) 0x3f = esr mod 2 ^ 6.
Proof.
  intros He. unfold ESR_ISS. change 0x1ffffff with (Z.ones 25). change 0x3f with (Z.ones 6).
  rewrite !Z.land_ones by lia. word_lia.
Qed.
Lemma class_field esr : is_u32 esr -> u32 (ESR_EC esr) = esr / 2 ^ 26.
Proof.
  intros He. unfold ESR_EC. rewrite Z.shiftr_land.
  change (Z.shiftr ESR_EC_MASK 26) with (Z.ones 38). rewrite Z.land_ones, Z.shiftr_div_pow2 by lia.
  word_lia.
Qed.

(** A computation that prints at most, and then panics for a reason. *)
Definition reports `{Symbols} `{Hardware} (reason : format_string) (c : M unit) (s : kstate) : Prop :=
  exists s0 s', c s = Halted s' /\ printed s s0 /\ panicked reason s0 s'.

Section Reports.
Context `{Symbols} `{Hardware}.

Lemma reports_panic flags frame fmt s : reports fmt (__panic flags frame fmt) s.
Proof. destruct (panic_run flags frame fmt s) as (s' & E & Hp). by exists s, s'. Qed.
Lemma reports_then fmt c d s : reports fmt c s -> reports fmt (c ;! d) s.
Proof. intros (s0 & s' & E & Hp). exists s0, s'. by rewrite (bind_halted _ _ _ _ E). Qed.
Lemma reports_after {A} fmt (c : M A) d a s s1 :
  c s = Done a s1 -> printed s s1 -> reports fmt (d a) s1 -> reports fmt (bind c d) s.
Proof.
  intros E Hp (s0 & s' & E' & Hp' & Hr). exists s0, s'. rewrite (bind_done _ _ _ _ _ E).
  split; [exact E'|]. split; [by etransitivity|exact Hr].
Qed.

Lemma data_abort_reports frame s :
  let esr := ld64 (k_mem s) (frame_esr frame) in
  reports (Lit (data_abort_reason (esr mod 2 ^ 6))) (handle_abort frame handle_data_abort inspect_data_abort) s.
Proof.
  intros esr. unfold handle_abort. eapply reports_after; [done|reflexivity|].
  cbn [inspect_data_abort]. unfold ISS_DA_FSC. fold esr.
  rewrite fsc_field by (unfold esr; pose proof (ld64_range (k_mem s) (frame_esr frame)); lia).
  pose proof (Z.mod_pos_bound esr (2 ^ 6) ltac:(lia)) as Hf. set (f := esr mod 2 ^ 6) in *.
  eapply reports_after; [done|reflexivity|]. unfold handle_data_abort, data_abort_reason.
  rewrite is_translation_fault_range, is_permission_fault_range, is_alignment_fault_range,
    is_address_size_fault_range by lia.
  destruct (Z.ltb_spec f 4), (Z.leb_spec 4 f); try lia; cbn [andb].
  - destruct (Z.leb_spec 13 f), (Z.eqb_spec f 33); try lia. apply reports_panic.
  - destruct (f <? 8); [apply reports_panic|]. destruct (_ && _); [apply reports_panic|].
    destruct (f =? 33); apply reports_panic.
Qed.

Lemma instruction_abort_reports frame s :
  let esr := ld64 (k_mem s) (frame_esr frame) in
  reports (Lit (instruction_abort_reason (esr mod 2 ^ 6)))
    (handle_abort frame handle_instruction_abort inspect_instruction_abort) s.
Proof.
  intros esr. unfold handle_abort. eapply reports_after; [done|reflexivity|].
  cbn [inspect_instruction_abort]. unfold ISS_IA_FSC. fold esr.
  rewrite fsc_field by (unfold esr; pose proof (ld64_range (k_mem s) (frame_esr frame)); lia).
  pose proof (Z.mod_pos_bound esr (2 ^ 6) ltac:(lia)).
  eapply reports_after; [done|reflexivity|]. unfold handle_instruction_abort, instruction_abort_reason.
  rewrite is_translation_fault_range by lia. destruct (_ && _); apply reports_panic.
Qed.

(** The reason, by enumerator. *)
Definition switch_reason (e : option esr_exception_class_t) (fsc fp : Z) : format_string :=
  match e with
  | Some ESR_EC_PC_ALIGN => Lit "PC Alignment Fault"
  | Some (ESR_EC_DABORT_EL0 | ESR_EC_DABORT_EL1) => Lit (data_abort_reason fsc)
  | Some ESR_EC_BRK_AARCH64 => Lit "Breakpoint 64"
  | Some ESR_EC_SVC_64 => Lit "Supervisor Call (64)"
  | Some ESR_EC_MSR_TRAP => Ptr fp
  | Some (ESR_EC_IABORT_EL1 | ESR_EC_IABORT_EL0) => Lit (instruction_abort_reason fsc)
  | Some ESR_EC_UNCATEGORIZED => Lit "Undefined Instruction"
  | _ => Lit "Unknown Exception"
  end.

Lemma switch_class_reason : forall class, 0 <= class < 64 ->
  forall fsc fp, switch_reason (enumerator exception_classes class) fsc fp = class_reason class fsc fp.
Proof.
  apply (cases64 (fun class => forall fsc fp,
    switch_reason (enumerator exception_classes class) fsc fp = class_reason class fsc fp)).
  repeat constructor.
Qed.

Lemma unknown_reports frame class s :
  reports (Lit "Unknown Exception")
    (print "class: 0x%x\n" [class] ;!
     panic_with_thread_state frame (Lit "Unknown Exception") ;! cpu_halt) s.
Proof.
  eapply reports_after; [reflexivity| |apply reports_then, reports_panic].
  exists [EvPrint "class: 0x%x\n" [class]]. by repeat constructor.
Qed.

Lemma synchronous_switch_reports frame class s :
  reports (switch_reason (enumerator exception_classes class)
      (ld64 (k_mem s) (frame_esr frame) mod 2 ^ 6) (ld64 (k_mem s) (frame_fp frame)))
    (synchronous_switch frame class) s.
Proof.
  unfold synchronous_switch.
  destruct (enumerator exception_classes class) as [[]|]; cbn [switch_reason];
    lazymatch goal with
    | |- reports _ (bind (print _ _) _) _ => apply unknown_reports
    | |- reports _ (bind (panic_with_thread_state _ _) _) _ => apply reports_then, reports_panic
    | |- reports _ (bind (handle_undefined_instruction _) _) _ => apply reports_then, reports_panic
    | |- reports _ (bind (handle_breakpoint _) _) _ => apply reports_then, reports_panic
    | |- reports _ (handle_svc _) _ => apply reports_panic
    | _ => idtac
    end.
  - apply reports_then. eapply reports_after; [reflexivity..|apply reports_panic].
  - apply reports_then, instruction_abort_reports.
  - apply reports_then, instruction_abort_reports.
  - apply reports_then, data_abort_reports.
  - apply reports_then, data_abort_reports.
Qed.
End Reports.


(** ** Properties *)
Section Properties.
Context `{Symbols} `{Hardware}.

(** (C8) Every synchronous exception ends the kernel: the CPU halts after a panic, with
    the reason that class and fault status of the syndrome determine (for a
    syndrome of 32 bits; the mask of the class is sign-extended and lets the bits
    above through). *)
Theorem synchronous_halts frame s :
  let esr := ld64 (k_mem s) (frame_esr frame) in let fp := ld64 (k_mem s) (frame_fp frame) in
  exists reason s0 s', arm64_handler_synchronous frame s = Halted s' /\ printed s s0 /\
    panicked reason s0 s' /\ (is_u32 esr -> reason = exception_reason esr fp).
Proof.
  intros esr fp.
  destruct (synchronous_switch_reports frame (u32 (ESR_EC esr)) s) as (s0 & s' & E & Hp & Hr).
  eexists _, s0, s'. split; [exact E|]. split; [exact Hp|]. split; [exact Hr|].
  intros Hu. rewrite class_field by done. apply switch_class_reason. unfold esr in *. word_lia.
Qed.

(** The level of a fault is the low two bits of its status for the statuses that
    have a level, and -1 for the others; the code's four tests are ranges of the
    status. *)
Theorem fault_status_correct status :
  0 <= status < 64 ->
  vm_fault_get_level status =
    (if (status <? 8) || ((status <? 32) && negb (status mod 4 =? 0) &&
        negb (status / 4 =? 4) && negb (status / 4 =? 6)) then status mod 4 else -1) /\
  is_translation_fault status = (4 <=? status) && (status <? 8) /\
  is_permission_fault status = (13 <=? status) && (status <=? 15) /\
  is_address_size_fault status = (status <? 4) /\
  is_alignment_fault status = (status =? 33) /\
  (is_vm_fault status = true -> 0 <= vm_fault_get_level status <= 3).
Proof.
  intros Hs. split; [by apply vm_fault_get_level_cases|].
  split; [by apply is_translation_fault_range|]. split; [by apply is_permission_fault_range|].
  split; [by apply is_address_size_fault_range|]. split; [by apply is_alignment_fault_range|].
  unfold is_vm_fault, vm_fault_get_level.
  destruct (enumerator fault_statuses status) as [[]|]; intros Hf; (discriminate Hf || lia).
Qed.
End Properties.

(** ** Interrupts *)
Section Irq.
Context `{Symbols} `{Hardware}.

(** The state in which the handler of interrupts decides: the interrupt is
    acknowledged, interrupts are masked, the count is one higher. *)
Definition irq_entry (intid : Z) (s : kstate) : kstate :=
  let v := hw_msr_operand s icc_eoir1_el1 intid in
  let s := emit_event (EvSysreg icc_eoir1_el1 v) (set_sys icc_eoir1_el1 v s) in
  let d := Z.lor (k_sys s daif) DAIF_MASK_IRQ in
  let s := emit_event (EvSysreg daif d) (set_sys daif d s) in
  set_glob irq_count (s32 (k_glob s irq_count + 1)) s.

Lemma arm64_handler_irq_run fuel frame s :
  let intid := u32 (hw_mrs s icc_iar1_el1) in
  arm64_handler_irq fuel frame s =
    if intid =? 30 then
      (machine_timer_reset MACHINE_TIMER_RESET_VALUE ;! __schedule fuel frame) (irq_entry intid s)
    else Done tt (irq_entry intid s).
Proof.
  intros intid.
  change (arm64_handler_irq fuel frame s) with
    (when (intid =? 30) (machine_timer_reset MACHINE_TIMER_RESET_VALUE ;! __schedule fuel frame)
       (irq_entry intid s)).
  by destruct (intid =? 30).
Qed.

Lemma running_thread_frame s s' n c l t :
  running_thread s n c l t -> k_mem s' = k_mem s ->
  (forall g, g ∈ [cpu_count; topology_num_cpus; topology_max_cpu_id] -> k_glob s' g = k_glob s g) ->
  running_thread s' n c l t.
Proof.
  intros [Hk Hn Hq Ha] Hm Hg. split; rewrite ?Hm; try done.
  - unfold cpu_known in *. rewrite !Hg by set_solver. exact Hk.
  - by rewrite Hg by set_solver.
Qed.

Lemma irq_entry_running intid s n c l t :
  running_thread s n c l t -> running_thread (irq_entry intid s) n c l t.
Proof.
  intros Hr. eapply running_thread_frame; [exact Hr|done|]. intros g Hg. unfold irq_entry.
  etransitivity; [apply set_glob_ne|reflexivity]. intros ->.
  rewrite !elem_of_cons, elem_of_nil in Hg. destruct Hg as [?|[?|[?|[]]]]; discriminate.
Qed.

(** (C9) The handler of interrupts acknowledges the interrupt, masks interrupts and counts
    it.  The timer's interrupt (30) restarts the timer and calls the scheduler: if
    the successor of the running thread is active the CPU continues as that thread
    with interrupts unmasked; if it is not, which a tick inside [thread_create] can
    find, the handler never returns.  Any other interrupt changes no memory and goes
    back to the running thread with interrupts masked. *)
Theorem irq_correct `{!Running mpidr} `{!ElrReads} fuel s f l1 t l2 :
  is_u64 sym_fork64_return ->
  let n := cpu_number mpidr in let c := cpu_get_cpu n in
  let l := l1 ++ t :: l2 in let t' := successor l1 l2 t in
  let intid := u32 (hw_mrs s icc_iar1_el1) in
  let acknowledged s' := EvSysreg icc_eoir1_el1 (hw_msr_operand s icc_eoir1_el1 intid) ∈ k_trace s' /\
    k_glob s' irq_count = s32 (k_glob s irq_count + 1) in
  running_thread s n c l t -> apart t 288 f 280 ->
  (intid = 30 -> thread_state (k_mem s) t' = THREAD_STATE_ACTIVE ->
     exists s', arm64_handler_irq fuel f s = Done tt s' /\ acknowledged s' /\
       running_thread s' n c l t' /\ k_glob s' current_task = ld64 (k_mem s) (thread_task t') /\
       EvSysreg cntp_tval_el0 MACHINE_TIMER_RESET_VALUE ∈ k_trace s' /\
       continues_as s' t' /\ Z.testbit (k_sys s' daif) 7 = false) /\
  (intid = 30 -> thread_state (k_mem s) t' <> THREAD_STATE_ACTIVE ->
     arm64_handler_irq fuel f s = Diverged) /\
  (intid <> 30 ->
     exists s', arm64_handler_irq fuel f s = Done tt s' /\ acknowledged s' /\
       running_thread s' n c l t /\ k_mem s' = k_mem s /\ Z.testbit (k_sys s' daif) 7 = true).
Proof.
  intros Hfork n c l t' intid acknowledged Hr Hf. rewrite arm64_handler_irq_run. fold intid.
  pose proof (irq_entry_running intid s n c l t Hr) as Hr1.
  set (s2 := emit_event (EvSysreg cntp_tval_el0 MACHINE_TIMER_RESET_VALUE)
    (set_sys cntp_tval_el0 MACHINE_TIMER_RESET_VALUE (irq_entry intid s))).
  assert (Hr2 : running_thread s2 n c l t) by (eapply running_thread_frame; [exact Hr1|done..]).
  destruct (Z.eqb_spec intid 30) as [E30|E30].
  - change ((machine_timer_reset MACHINE_TIMER_RESET_VALUE ;! __schedule fuel f) (irq_entry intid s))
      with (__schedule fuel f s2).
    split; [intros _ Hst|split; [intros _ Hst|done]].
    + destruct (schedule_run fuel s2 f l1 t l2 Hr2 Hf Hfork Hst) as (m & E & Hq & Ha & _ & _ & _).
      fold t' in E, Ha. fold n c l in Hq, Ha. destruct Hr2 as [Hk2 Hn2 _ _].
      exists (forked t' m (selected t' s2)). split; [exact E|]. unfold acknowledged.
      cbn [k_trace forked selected emit_event set_glob set_sys set_mem s2].
      split; [split; [set_solver|done]|]. split; [split; [exact Hk2|exact Hn2|exact Hq|exact Ha]|].
      split; [apply (set_glob_eq current_task)|]. split; [set_solver|]. split; [done|].
      cbn [k_sys forked emit_event set_sys set_mem]. rewrite decide_True by done.
      rewrite Z.ldiff_spec. change (Z.testbit DAIF_MASK_IRQ 7) with true. by rewrite andb_false_r.
    + exact (schedule_stuck fuel s2 f l1 t l2 Hr2 Hst).
  - split; [done|split; [done|intros _]]. exists (irq_entry intid s). split; [done|].
    split; [split; [unfold irq_entry; simpl; set_solver|unfold irq_entry; apply (set_glob_eq irq_count)]|].
    split; [exact Hr1|]. split; [done|].
    unfold irq_entry. cbn [k_sys set_glob emit_event set_sys]. rewrite decide_True by done.
    rewrite Z.lor_spec. change (Z.testbit DAIF_MASK_IRQ 7) with true. apply orb_true_r.
Qed.
End Irq.

(** ** Witnesses: a tick while the first of two threads runs *)
Lemma fault_status_correct_witness :
  vm_fault_get_level 0x1e = 2 /\ is_permission_fault 0x0e = true.
Proof.
  destruct (fault_status_correct 0x1e) as (E & _); [lia|].
  destruct (fault_status_correct 0x0e) as (_ & _ & E' & _); [lia|].
  rewrite E, E'. split; reflexivity.
Defined.

(** The interrupt of the timer, with the second thread active and with it inactive. *)
Lemma irq_correct_witness :
  let _ := demo_symbols in let _ := demo_hardware in
  let tick v := arm64_handler_irq 0 demo_frame (set_sys icc_iar1_el1 30 (demo_queue v)) in
  (exists s', tick THREAD_STATE_ACTIVE = Done tt s' /\ k_glob s' irq_count = 1 /\ continues_as s' demo_thread2) /\
  tick THREAD_STATE_INACTIVE = Diverged.
Proof.
  intros sy hw tick. split.
  - destruct (@irq_correct sy hw 0x80000000 demo_running demo_elr_reads 0
      (set_sys icc_iar1_el1 30 (demo_queue THREAD_STATE_ACTIVE)) demo_frame [] demo_thread1 [demo_thread2]
      demo_fork_u64) as [Hc _].
    + eapply running_thread_frame; [apply demo_running_thread; by left|done..].
    + left. vm_compute. congruence.
    + destruct Hc as (s' & E & [_ Hc] & _ & _ & _ & Ht & _); [vm_compute; reflexivity|vm_compute; reflexivity|].
      exists s'. split; [exact E|]. split; [exact Hc|exact Ht].
  - apply (@irq_correct sy hw 0x80000000 demo_running demo_elr_reads 0
      (set_sys icc_iar1_el1 30 (demo_queue THREAD_STATE_INACTIVE)) demo_frame [] demo_thread1 [demo_thread2]
      demo_fork_u64).
    + eapply running_thread_frame; [apply demo_running_thread; by right|done..].
    + left. vm_compute. congruence.
    + vm_compute. reflexivity.
    + vm_compute. congruence.
Defined.
