(* ===== verification/Fdt.v ===== *)
(** * Fdt: flattened device trees, the structure block (libkern/libfdt/fdt.c)

    The functions only read, so they are functions of the memory and of the address
    [fdt] of the blob.  A result in [option] is [None] when the fuel of a loop ran
    out.  [FDT_ASSUME_MASK] is 0: all the checks of the library are on. *)
From Stdlib Require Import ZArith Lia.
From stdpp Require Import prelude gmap list strings.
From S2P Require Import Prelude Memory TString.
Open Scope Z_scope.

(** ** Constants (fdt.h, libfdt.h, libfdt_internal.h) *)
Definition FDT_MAGIC : Z := 0xd00dfeed.
Definition FDT_SW_MAGIC : Z := u32 (Z.lnot FDT_MAGIC).
Definition FDT_TAGSIZE : Z := 4.
Definition FDT_BEGIN_NODE : Z := 0x1.
Definition FDT_END_NODE : Z := 0x2.
Definition FDT_PROP : Z := 0x3.
Definition FDT_NOP : Z := 0x4.
Definition FDT_END : Z := 0x9.
Definition FDT_V1_SIZE : Z := 7 * 4.
Definition FDT_V2_SIZE : Z := FDT_V1_SIZE + 4.
Definition FDT_V3_SIZE : Z := FDT_V2_SIZE + 4.
Definition FDT_V16_SIZE : Z := FDT_V3_SIZE.
Definition FDT_V17_SIZE : Z := FDT_V16_SIZE + 4.
Definition FDT_FIRST_SUPPORTED_VERSION : Z := 0x02.
Definition FDT_LAST_SUPPORTED_VERSION : Z := 0x11.
Definition FDT_ERR_NOTFOUND : Z := 1.
Definition FDT_ERR_NOSPACE : Z := 3.
Definition FDT_ERR_BADOFFSET : Z := 4.
Definition FDT_ERR_BADPATH : Z := 5.
Definition FDT_ERR_BADPHANDLE : Z := 6.
Definition FDT_ERR_BADSTATE : Z := 7.
Definition FDT_ERR_TRUNCATED : Z := 8.
Definition FDT_ERR_BADMAGIC : Z := 9.
Definition FDT_ERR_BADVERSION : Z := 10.
Definition FDT_ERR_BADSTRUCTURE : Z := 11.
Definition FDT_ERR_BADLAYOUT : Z := 12.
Definition FDT_ERR_INTERNAL : Z := 13.
Definition FDT_ERR_NOPHANDLES : Z := 17.
Definition FDT_MAX_PHANDLE : Z := 0xfffffffe.
Definition INT32_MAX : Z := 2 ^ 31 - 1.
Definition NULL : Z := 0.

Definition FDT_ALIGN (x a : Z) : Z := Z.land (x + a - 1) (Z.lnot (a - 1)).
(** [FDT_TAGSIZE] is a [size_t]; the result is converted to an [int]. *)
Definition FDT_TAGALIGN (x : Z) : Z := s32 (FDT_ALIGN (u64 x) FDT_TAGSIZE).

(** ** Big-endian numbers (libfdt_env.h) *)
Definition EXTRACT_BYTE (x n : Z) : Z := Z.land (Z.shiftr x (8 * n)) 0xff.
Definition CPU_TO_FDT32 (x : Z) : Z :=
  Z.lor (Z.lor (Z.lor (Z.shiftl (EXTRACT_BYTE x 0) 24) (Z.shiftl (EXTRACT_BYTE x 1) 16))
    (Z.shiftl (EXTRACT_BYTE x 2) 8)) (EXTRACT_BYTE x 3).
Definition CPU_TO_FDT64 (x : Z) : Z :=
  Z.lor (Z.lor (Z.lor (Z.lor (Z.lor (Z.lor (Z.lor
    (Z.shiftl (EXTRACT_BYTE x 0) 56) (Z.shiftl (EXTRACT_BYTE x 1) 48))
    (Z.shiftl (EXTRACT_BYTE x 2) 40)) (Z.shiftl (EXTRACT_BYTE x 3) 32))
    (Z.shiftl (EXTRACT_BYTE x 4) 24)) (Z.shiftl (EXTRACT_BYTE x 5) 16))
    (Z.shiftl (EXTRACT_BYTE x 6) 8)) (EXTRACT_BYTE x 7).
Definition fdt32_to_cpu (x : Z) : Z := u32 (CPU_TO_FDT32 x).
Definition cpu_to_fdt32 (x : Z) : Z := u32 (CPU_TO_FDT32 x).
Definition fdt64_to_cpu (x : Z) : Z := u64 (CPU_TO_FDT64 x).
Definition cpu_to_fdt64 (x : Z) : Z := u64 (CPU_TO_FDT64 x).

(** ** Structures of fdt.h *)
Definition header_magic : Z := 0.
Definition header_totalsize : Z := 4.
Definition header_off_dt_struct : Z := 8.
Definition header_off_dt_strings : Z := 12.
Definition header_off_mem_rsvmap : Z := 16.
Definition header_version : Z := 20.
Definition header_last_comp_version : Z := 24.
Definition header_size_dt_strings : Z := 32.
Definition header_size_dt_struct : Z := 36.
Definition property_len (p : Z) : Z := p + 4.
Definition property_nameoff (p : Z) : Z := p + 8.
Definition property_data (p : Z) : Z := p + 12.
Definition FDT_PROPERTY_SIZEOF : Z := 12.
Definition node_header_name (nh : Z) : Z := nh + 4.

Section Fdt.
Context (m : memory) (fdt : Z).

Definition fdt_get_header (field : Z) : Z := fdt32_to_cpu (ld32 m (fdt + field)).
Definition fdt_magic : Z := fdt_get_header header_magic.
Definition fdt_totalsize : Z := fdt_get_header header_totalsize.
Definition fdt_off_dt_struct : Z := fdt_get_header header_off_dt_struct.
Definition fdt_off_dt_strings : Z := fdt_get_header header_off_dt_strings.
Definition fdt_off_mem_rsvmap : Z := fdt_get_header header_off_mem_rsvmap.
Definition fdt_version : Z := fdt_get_header header_version.
Definition fdt_last_comp_version : Z := fdt_get_header header_last_comp_version.
Definition fdt_size_dt_strings : Z := fdt_get_header header_size_dt_strings.
Definition fdt_size_dt_struct : Z := fdt_get_header header_size_dt_struct.

(** ** The header *)
Definition fdt_ro_probe_ : Z :=
  let totalsize := fdt_totalsize in
  let ok := if totalsize <? INT32_MAX then totalsize else - FDT_ERR_TRUNCATED in
  if fdt_magic =? FDT_MAGIC then
    if fdt_version <? FDT_FIRST_SUPPORTED_VERSION then - FDT_ERR_BADVERSION
    else if FDT_LAST_SUPPORTED_VERSION <? fdt_last_comp_version then - FDT_ERR_BADVERSION
    else ok
  else if fdt_magic =? FDT_SW_MAGIC then
    if fdt_size_dt_struct =? 0 then - FDT_ERR_BADSTATE else ok
  else - FDT_ERR_BADMAGIC.

Definition check_off_ (hdrsize totalsize off : Z) : bool := (hdrsize <=? off) && (off <=? totalsize).

Definition check_block_ (hdrsize totalsize base size : Z) : bool :=
  if negb (check_off_ hdrsize totalsize base) then false
  else if u32 (base + size) <? base then false
  else if negb (check_off_ hdrsize totalsize (u32 (base + size))) then false
  else true.

Definition fdt_header_size_ (version : Z) : Z :=
  if version <=? 1 then FDT_V1_SIZE
  else if version <=? 2 then FDT_V2_SIZE
  else if version <=? 3 then FDT_V3_SIZE
  else if version <=? 16 then FDT_V16_SIZE
  else FDT_V17_SIZE.

Definition fdt_header_size : Z := fdt_header_size_ fdt_version.

Definition fdt_check_header : Z :=
  if negb (fdt_magic =? FDT_MAGIC) then - FDT_ERR_BADMAGIC
  else if (fdt_version <? FDT_FIRST_SUPPORTED_VERSION)
       || (FDT_LAST_SUPPORTED_VERSION <? fdt_last_comp_version) then - FDT_ERR_BADVERSION
  else if fdt_version <? fdt_last_comp_version then - FDT_ERR_BADVERSION
  else
    let hdrsize := fdt_header_size in
    if (fdt_totalsize <? hdrsize) || (INT32_MAX <? fdt_totalsize) then - FDT_ERR_TRUNCATED
    else if negb (check_off_ hdrsize fdt_totalsize fdt_off_mem_rsvmap) then - FDT_ERR_TRUNCATED
    else if (if fdt_version <? 17 then negb (check_off_ hdrsize fdt_totalsize fdt_off_dt_struct)
             else negb (check_block_ hdrsize fdt_totalsize fdt_off_dt_struct fdt_size_dt_struct))
    then - FDT_ERR_TRUNCATED
    else if negb (check_block_ hdrsize fdt_totalsize fdt_off_dt_strings fdt_size_dt_strings)
    then - FDT_ERR_TRUNCATED
    else 0.

(** ** Tags *)

(** libfdt_internal.h: without checks. *)
Definition fdt_offset_ptr_ (offset : Z) : Z := fdt + fdt_off_dt_struct + offset.

Definition fdt_offset_ptr (offset len : Z) : Z :=
  let uoffset := u32 offset in
  let absoffset := u32 (offset + fdt_off_dt_struct) in
  if offset <? 0 then NULL
  else if (absoffset <? uoffset) || (u32 (absoffset + len) <? absoffset)
       || (fdt_totalsize <? u32 (absoffset + len)) then NULL
  else if (0x11 <=? fdt_version)
       && ((u32 (uoffset + len) <? uoffset) || (fdt_size_dt_struct <? u32 (offset + len))) then NULL
  else fdt_offset_ptr_ offset.

(** The loop over the name of a node: the last pointer and the next offset. *)
Fixpoint skip_name (fuel : nat) (offset : Z) : option (Z * Z) :=
  let p := fdt_offset_ptr offset 1 in
  let offset := s32 (offset + 1) in
  if negb (p =? NULL) && negb (ld8 m p =? 0) then
    match fuel with O => None | S fuel => skip_name fuel offset end
  else Some (p, offset).

(** The offset after a property whose tag ends at [offset]. *)
Definition skip_prop (offset len : Z) : Z :=
  let offset := s32 (offset + (FDT_PROPERTY_SIZEOF - FDT_TAGSIZE + len)) in
  if (fdt_version <? 0x10) && (8 <=? len) && negb (u32 (offset - len) mod 8 =? 0)
  then s32 (offset + 4) else offset.

(** The tag and [*nextoffset]. *)
Definition fdt_next_tag (fuel : nat) (startoffset : Z) : option (Z * Z) :=
  let tagp := fdt_offset_ptr startoffset FDT_TAGSIZE in
  if tagp =? NULL then Some (FDT_END, - FDT_ERR_TRUNCATED)
  else
    let tag := fdt32_to_cpu (ld32 m tagp) in
    let offset := s32 (startoffset + FDT_TAGSIZE) in
    let finish offset :=
      if fdt_offset_ptr startoffset (u32 (offset - startoffset)) =? NULL
      then Some (FDT_END, - FDT_ERR_BADSTRUCTURE) else Some (tag, FDT_TAGALIGN offset) in
    if tag =? FDT_BEGIN_NODE then
      '(p, offset) ← skip_name fuel offset;
      if p =? NULL then Some (FDT_END, - FDT_ERR_BADSTRUCTURE) else finish offset
    else if tag =? FDT_PROP then
      let lenp := fdt_offset_ptr offset 4 in
      if lenp =? NULL then Some (FDT_END, - FDT_ERR_BADSTRUCTURE)
      else finish (skip_prop offset (fdt32_to_cpu (ld32 m lenp)))
    else if (tag =? FDT_END) || (tag =? FDT_END_NODE) || (tag =? FDT_NOP) then finish offset
    else Some (FDT_END, - FDT_ERR_BADSTRUCTURE).

Definition fdt_check_node_offset_ (fuel : nat) (offset : Z) : option Z :=
  if (offset <? 0) || negb (offset mod FDT_TAGSIZE =? 0) then Some (- FDT_ERR_BADOFFSET)
  else
    '(tag, offset) ← fdt_next_tag fuel offset;
    Some (if negb (tag =? FDT_BEGIN_NODE) then - FDT_ERR_BADOFFSET else offset).

Definition fdt_check_prop_offset_ (fuel : nat) (offset : Z) : option Z :=
  if (offset <? 0) || negb (offset mod FDT_TAGSIZE =? 0) then Some (- FDT_ERR_BADOFFSET)
  else
    '(tag, offset) ← fdt_next_tag fuel offset;
    Some (if negb (tag =? FDT_PROP) then - FDT_ERR_BADOFFSET else offset).

(** The loop of [fdt_next_node]; [depth] is [None] for a null pointer. *)
Fixpoint next_node_loop (fuel n : nat) (nextoffset : Z) (depth : option Z) : option (Z * option Z) :=
  let offset := nextoffset in
  '(tag, nextoffset) ← fdt_next_tag fuel offset;
  if tag =? FDT_BEGIN_NODE then Some (offset, (fun d => s32 (d + 1)) <$> depth)
  else
    let depth := if tag =? FDT_END_NODE then (fun d => s32 (d - 1)) <$> depth else depth in
    if (tag =? FDT_END_NODE) && (if depth is Some d then d <? 0 else false)
    then Some (nextoffset, depth)
    else if tag =? FDT_END then
      Some (if (0 <=? nextoffset)
               || ((nextoffset =? - FDT_ERR_TRUNCATED) && (if depth is None then true else false))
            then - FDT_ERR_NOTFOUND else nextoffset, depth)
    else match n with O => None | S n => next_node_loop fuel n nextoffset depth end.

Definition fdt_next_node (fuel : nat) (offset : Z) (depth : option Z) : option (Z * option Z) :=
  if 0 <=? offset then
    nextoffset ← fdt_check_node_offset_ fuel offset;
    if nextoffset <? 0 then Some (nextoffset, depth)
    else next_node_loop fuel fuel nextoffset depth
  else next_node_loop fuel fuel 0 depth.

Definition fdt_first_subnode (fuel : nat) (offset : Z) : option Z :=
  '(offset, depth) ← fdt_next_node fuel offset (Some 0);
  Some (if (offset <? 0) || negb (default 0 depth =? 1) then - FDT_ERR_NOTFOUND else offset).

(** The loop of [fdt_next_subnode]. *)
Fixpoint next_subnode_loop (fuel n : nat) (offset depth : Z) : option Z :=
  '(offset, depth) ← fdt_next_node fuel offset (Some depth);
  let depth := default 0 depth in
  if (offset <? 0) || (depth <? 1) then Some (- FDT_ERR_NOTFOUND)
  else if 1 <? depth then
    match n with O => None | S n => next_subnode_loop fuel n offset depth end
  else Some offset.

Definition fdt_next_subnode (fuel : nat) (offset : Z) : option Z :=
  next_subnode_loop fuel fuel offset 1.

(** The loop of [fdt_find_string_], for [n] candidates from [p] on. *)
Fixpoint find_string_loop (n : nat) (p s len : Z) : Z :=
  match n with
  | O => NULL
  | S n => if memcmp m p s (Z.to_nat len) =? 0 then p else find_string_loop n (p + 1) s len
  end.

Definition fdt_find_string_ (fuel : nat) (strtab tabsize s : Z) : option Z :=
  len ← strlen fuel m s;
  let len := s32 (len + 1) in
  let last := strtab + tabsize - len in
  Some (find_string_loop (Z.to_nat (last - strtab + 1)) strtab s len).

Definition fdt_move (buf bufsize : Z) : memory * Z :=
  if bufsize <? 0 then (m, - FDT_ERR_NOSPACE)
  else if fdt_ro_probe_ <? 0 then (m, fdt_ro_probe_)
  else if u32 bufsize <? fdt_totalsize then (m, - FDT_ERR_NOSPACE)
  else (memmove m buf fdt (Z.to_nat fdt_totalsize), 0).
End Fdt.

(** ** Numbers *)
Definition be_bytes (v : Z) : list Z := [v / 2 ^ 24 mod 256; v / 2 ^ 16 mod 256; v / 2 ^ 8 mod 256; v mod 256].
Definition be_combine (b0 b1 b2 b3 : Z) : Z := b0 * 2 ^ 24 + b1 * 2 ^ 16 + b2 * 2 ^ 8 + b3.

Lemma EXTRACT_BYTE_eq x n : 0 <= n -> EXTRACT_BYTE x n = x / 2 ^ (8 * n) mod 256.
Proof.
  intros Hn. unfold EXTRACT_BYTE. change 0xff with (Z.ones 8).
  by rewrite Z.land_ones, Z.shiftr_div_pow2 by lia.
Qed.

Lemma fdt32_to_cpu_eq x :
  fdt32_to_cpu x = be_combine (x mod 256) (x / 2 ^ 8 mod 256) (x / 2 ^ 16 mod 256) (x / 2 ^ 24 mod 256).
Proof.
  unfold fdt32_to_cpu, CPU_TO_FDT32. rewrite !EXTRACT_BYTE_eq by lia.
  change (8 * 0) with 0. change (8 * 1) with 8. change (8 * 2) with 16. change (8 * 3) with 24.
  rewrite Z.pow_0_r, Z.div_1_r.
  assert (Hb : forall y, 0 <= y mod 256 < 256) by (intros; apply Z.mod_pos_bound; lia).
  pose proof (Hb x). pose proof (Hb (x / 2 ^ 8)). pose proof (Hb (x / 2 ^ 16)). pose proof (Hb (x / 2 ^ 24)).
  set (b0 := x mod 256) in *. set (b1 := x / 2 ^ 8 mod 256) in *.
  set (b2 := x / 2 ^ 16 mod 256) in *. set (b3 := x / 2 ^ 24 mod 256) in *.
  rewrite !Z.shiftl_mul_pow2 by lia. unfold be_combine.
  rewrite (lor_disjoint_add b0 _ 24) by lia.
  replace (b0 * 2 ^ 24 + b1 * 2 ^ 16) with ((b0 * 2 ^ 8 + b1) * 2 ^ 16) by lia.
  rewrite lor_disjoint_add by lia.
  replace ((b0 * 2 ^ 8 + b1) * 2 ^ 16 + b2 * 2 ^ 8) with (((b0 * 2 ^ 8 + b1) * 2 ^ 8 + b2) * 2 ^ 8) by lia.
  rewrite lor_disjoint_add by lia. rewrite u32_id by lia. ring.
Qed.

Lemma fdt32_range x : is_u32 (fdt32_to_cpu x).
Proof. apply u32_range. Qed.

Lemma ld32_bytes m a :
  ld32 m a = rd m a + 256 * (rd m (a + 1) + 256 * (rd m (a + 2) + 256 * rd m (a + 3))).
Proof.
  change (rd m a + 256 * (rd m (a + 1) + 256 * (rd m (a + 1 + 1) + 256 * (rd m (a + 1 + 1 + 1) + 256 * 0))) =
    rd m a + 256 * (rd m (a + 1) + 256 * (rd m (a + 2) + 256 * rd m (a + 3)))).
  replace (a + 1 + 1) with (a + 2) by lia. replace (a + 2 + 1) with (a + 3) by lia. lia.
Qed.

Lemma fdt32_ld m a :
  fdt32_to_cpu (ld32 m a) = be_combine (rd m a) (rd m (a + 1)) (rd m (a + 2)) (rd m (a + 3)).
Proof.
  rewrite fdt32_to_cpu_eq, ld32_bytes.
  pose proof (rd_range m a). pose proof (rd_range m (a + 1)).
  pose proof (rd_range m (a + 2)). pose proof (rd_range m (a + 3)).
  set (b0 := rd m a) in *. set (b1 := rd m (a + 1)) in *. set (b2 := rd m (a + 2)) in *.
  set (b3 := rd m (a + 3)) in *. f_equal; Z.to_euclidean_division_equations; lia.
Qed.

(** Reading a big-endian word. *)
Lemma fdt32_block m a v : is_u32 v -> block m a (be_bytes v) -> fdt32_to_cpu (ld32 m a) = v.
Proof.
  intros Hv Hb. rewrite fdt32_ld. unfold block, be_bytes in Hb.
  rewrite <- (Z.add_0_r a) at 1. change 0 with (Z.of_nat 0) at 1. rewrite (Hb 0%nat _ eq_refl).
  rewrite (Hb 1%nat _ eq_refl : rd m (a + 1) = _), (Hb 2%nat _ eq_refl : rd m (a + 2) = _),
    (Hb 3%nat _ eq_refl : rd m (a + 3) = _).
  unfold be_combine. Z.to_euclidean_division_equations. lia.
Qed.

(** ** Offsets *)
Section Offsets.
Context (m : memory) (fdt : Z).

Lemma fdt_get_header_range f : is_u32 (fdt_get_header m fdt f).
Proof. apply fdt32_range. Qed.

(** The bytes of the structure block from [o] on that the checks let through. *)
Definition in_blob (o len : Z) : Prop :=
  0 <= o /\ o + fdt_off_dt_struct m fdt + len <= fdt_totalsize m fdt /\
  (0x11 <= fdt_version m fdt -> o + len <= fdt_size_dt_struct m fdt).
#[export] Instance in_blob_dec o len : Decision (in_blob o len).
Proof. unfold in_blob. apply _. Defined.

Lemma u32_sum a b : is_u32 a -> is_u32 b -> u32 (a + b) = a + b \/ u32 (a + b) = a + b - 2 ^ 32.
Proof. word_lia. Qed.

(** The check against overflow and the bounds is exact. *)
Lemma fdt_offset_ptr_spec o len :
  o < 2 ^ 31 -> is_u32 len ->
  fdt_offset_ptr m fdt o len = if decide (in_blob o len) then fdt_offset_ptr_ m fdt o else NULL.
Proof.
  intros Ho Hl. unfold fdt_offset_ptr. destruct (Z.ltb_spec o 0).
  { rewrite decide_False; [done|]. unfold in_blob. lia. }
  rewrite (u32_id o) by lia.
  pose proof (fdt_get_header_range header_off_dt_struct) as Hs.
  pose proof (fdt_get_header_range header_totalsize) as Ht.
  pose proof (fdt_get_header_range header_size_dt_struct) as Hz.
  fold (fdt_off_dt_struct m fdt) in Hs. fold (fdt_totalsize m fdt) in Ht.
  fold (fdt_size_dt_struct m fdt) in Hz.
  pose proof (u32_sum o _ ltac:(lia) Hs). pose proof (u32_range (o + fdt_off_dt_struct m fdt)) as Hr.
  pose proof (u32_sum _ _ Hr Hl). pose proof (u32_sum o len ltac:(lia) Hl).
  pose proof (u32_range (u32 (o + fdt_off_dt_struct m fdt) + len)). pose proof (u32_range (o + len)).
  set (abs := u32 (o + fdt_off_dt_struct m fdt)) in *. set (e := u32 (abs + len)) in *.
  set (f := u32 (o + len)) in *.
  assert (Hv : (0x11 <=? fdt_version m fdt) = true <-> 0x11 <= fdt_version m fdt) by apply Z.leb_le.
  destruct (0x11 <=? fdt_version m fdt).
  - destruct Hv as [Hv _]. specialize (Hv eq_refl).
    destruct (Z.ltb_spec abs o), (Z.ltb_spec e abs), (Z.ltb_spec (fdt_totalsize m fdt) e),
      (Z.ltb_spec f o), (Z.ltb_spec (fdt_size_dt_struct m fdt) f); cbn [orb andb];
      case_decide as Hd; unfold in_blob in Hd; try done; exfalso; lia.
  - assert (~ 0x11 <= fdt_version m fdt) by (intros Hc; apply Hv in Hc; discriminate).
    destruct (Z.ltb_spec abs o), (Z.ltb_spec e abs), (Z.ltb_spec (fdt_totalsize m fdt) e);
      cbn [orb andb]; case_decide as Hd; unfold in_blob in Hd; try done; exfalso; lia.
Qed.

Lemma offset_ptr_null_eq o len :
  0 < fdt -> o < 2 ^ 31 -> is_u32 len ->
  (fdt_offset_ptr m fdt o len =? NULL) = negb (bool_decide (in_blob o len)).
Proof.
  intros Hf Ho Hl. rewrite fdt_offset_ptr_spec by done. case_decide as Hd.
  - rewrite bool_decide_eq_true_2 by done. apply Z.eqb_neq. unfold fdt_offset_ptr_, NULL.
    pose proof (fdt_get_header_range header_off_dt_struct) as Hs. fold (fdt_off_dt_struct m fdt) in Hs.
    unfold in_blob in Hd. lia.
  - by rewrite bool_decide_eq_false_2.
Qed.
End Offsets.

(** ** Progress *)
Section Progress.
Context (m : memory) (fdt : Z).
Hypothesis Hfdt : 0 < fdt.
Hypothesis Hsize : fdt_totalsize m fdt + 3 < 2 ^ 31.

Lemma FDT_TAGALIGN_eq x : 0 <= x -> x + 3 < 2 ^ 31 -> FDT_TAGALIGN x = (x + 3) / 4 * 4.
Proof.
  intros H1 H2. unfold FDT_TAGALIGN, FDT_ALIGN, FDT_TAGSIZE. rewrite u64_id by lia.
  change (Z.lnot (4 - 1)) with (Z.lnot (Z.ones 2)). rewrite <- Z.ldiff_land, Z.ldiff_ones_r by lia.
  rewrite Z.shiftr_div_pow2, Z.shiftl_mul_pow2 by lia. change (2 ^ 2) with 4.
  replace (x + 4 - 1) with (x + 3) by lia. apply s32_id. Z.to_euclidean_division_equations. lia.
Qed.

Lemma in_blob_le o len : in_blob m fdt o len -> 0 <= o /\ o + len <= fdt_totalsize m fdt.
Proof.
  intros (Ho & Hl & _). pose proof (fdt_get_header_range m fdt header_off_dt_struct) as Hs.
  fold (fdt_off_dt_struct m fdt) in Hs. lia.
Qed.

(** The loop over a name ends within the blob, if the fuel is its size. *)
Lemma skip_name_run fuel o :
  0 <= o < 2 ^ 31 -> (Z.to_nat (fdt_totalsize m fdt - o) <= fuel)%nat ->
  exists p o', skip_name m fdt fuel o = Some (p, o') /\
    (p = NULL \/ (o < o' /\ in_blob m fdt (o' - 1) 1)).
Proof.
  revert o. induction fuel as [|fuel IH]; intros o Ho Hf; cbn [skip_name];
    rewrite (offset_ptr_null_eq m fdt o 1) by lia;
    destruct (decide (in_blob m fdt o 1)) as [Hin|Hin].
  - pose proof (in_blob_le _ _ Hin). lia.
  - rewrite bool_decide_eq_false_2 by done. cbn [negb andb]. eexists _, _. split; [done|]. left.
    apply Z.eqb_eq. rewrite offset_ptr_null_eq by lia. by rewrite bool_decide_eq_false_2.
  - pose proof (in_blob_le _ _ Hin) as [_ Hle]. rewrite bool_decide_eq_true_2 by done. cbn [negb andb].
    rewrite s32_id by lia. destruct (negb _).
    + destruct (IH (o + 1)) as (p & o' & -> & Hp); [lia|lia|].
      exists p, o'. split; [done|]. destruct Hp as [?|[? ?]]; [by left|right]. split; [lia|done].
    + eexists _, _. split; [done|]. right. split; [lia|]. by replace (o + 1 - 1) with o by lia.
  - rewrite bool_decide_eq_false_2 by done. cbn [negb andb]. eexists _, _. split; [done|]. left.
    apply Z.eqb_eq. rewrite offset_ptr_null_eq by lia. by rewrite bool_decide_eq_false_2.
Qed.

(** What a tag that is not rejected gives: the next offset is aligned, within the
    blob, and beyond [o], unless the length of a property overflows. *)
Definition tag_ok (o tag next : Z) : Prop :=
  0 <= next /\ next mod 4 = 0 /\ o <= next <= fdt_totalsize m fdt + 3 /\
  (next = o -> tag = FDT_PROP /\ 2 ^ 32 - 16 <= fdt32_to_cpu (ld32 m (fdt_offset_ptr_ m fdt (o + 4)))).

(** The last check of [fdt_next_tag], at the end [o'] of the token. *)
Lemma finish_ok o o' tag r :
  0 <= o < 2 ^ 31 -> o mod 4 = 0 -> is_s32 o' ->
  (o' = o -> tag = FDT_PROP /\ 2 ^ 32 - 16 <= fdt32_to_cpu (ld32 m (fdt_offset_ptr_ m fdt (o + 4)))) ->
  (if fdt_offset_ptr m fdt o (u32 (o' - o)) =? NULL
   then Some (FDT_END, - FDT_ERR_BADSTRUCTURE) else Some (tag, FDT_TAGALIGN o')) = Some r ->
  r = (FDT_END, - FDT_ERR_BADSTRUCTURE) \/ (r.1 = tag /\ tag_ok o tag r.2).
Proof.
  intros Ho Ha Ho' Heq. rewrite offset_ptr_null_eq by (done || lia || apply u32_range).
  destruct (decide (in_blob m fdt o (u32 (o' - o)))) as [Hin|Hin].
  2:{ rewrite bool_decide_eq_false_2 by done. intros [= <-]. by left. }
  rewrite bool_decide_eq_true_2 by done. intros [= <-]. right. split; [done|]. cbn [snd].
  pose proof (in_blob_le _ _ Hin) as [_ Hle]. pose proof (u32_range (o' - o)).
  assert (Hge : o <= o') by (unfold u32 in *; Z.to_euclidean_division_equations; lia).
  rewrite u32_id in Hle by lia. unfold tag_ok.
  rewrite FDT_TAGALIGN_eq by lia. set (n := (o' + 3) / 4 * 4).
  assert (Hn : o' <= n <= o' + 3) by (unfold n; Z.to_euclidean_division_equations; lia).
  split; [lia|]. split; [by apply Z.mod_mul|]. split; [lia|]. intros En. apply Heq. lia.
Qed.

Lemma skip_prop_stuck o len :
  is_s32 o -> is_u32 len -> skip_prop m fdt (o + 4) len = o -> 2 ^ 32 - 16 <= len.
Proof.
  intros Ho Hl. unfold skip_prop, FDT_PROPERTY_SIZEOF, FDT_TAGSIZE.
  assert (Hs : forall z, exists k, s32 z = z + k * 2 ^ 32)
    by (intros z; exists (- ((z + 2 ^ 31) / 2 ^ 32)); unfold s32; Z.to_euclidean_division_equations; lia).
  destruct (Hs (o + 4 + (12 - 4 + len))) as [k ->]. set (c := _ && _). destruct c; intros E.
  - destruct (Hs (o + 4 + (12 - 4 + len) + k * 2 ^ 32 + 4)) as [j Hj]. lia.
  - lia.
Qed.

(** [fdt_next_tag] always returns, and it makes progress. *)
Lemma fdt_next_tag_run fuel o :
  0 <= o < 2 ^ 31 -> o mod 4 = 0 -> (Z.to_nat (fdt_totalsize m fdt) <= fuel)%nat ->
  exists tag next, fdt_next_tag m fdt fuel o = Some (tag, next) /\
    ((tag = FDT_END /\ next < 0) \/
     (tag ∈ [FDT_BEGIN_NODE; FDT_END_NODE; FDT_PROP; FDT_NOP; FDT_END] /\ tag_ok o tag next)).
Proof.
  intros Ho Ha Hf. unfold fdt_next_tag, FDT_TAGSIZE. rewrite offset_ptr_null_eq by lia.
  destruct (decide (in_blob m fdt o 4)) as [Hin|Hin].
  2:{ rewrite bool_decide_eq_false_2 by done. eexists _, _. split; [done|]. left. split; [done|].
      unfold FDT_ERR_TRUNCATED. lia. }
  rewrite bool_decide_eq_true_2 by done. cbn [negb]. pose proof (in_blob_le _ _ Hin) as [_ Hle].
  rewrite s32_id by lia. set (tag := fdt32_to_cpu _).
  assert (Hfin : forall o', is_s32 o' -> tag ∈ [FDT_BEGIN_NODE; FDT_END_NODE; FDT_PROP; FDT_NOP; FDT_END] ->
    (o' = o -> tag = FDT_PROP /\ 2 ^ 32 - 16 <= fdt32_to_cpu (ld32 m (fdt_offset_ptr_ m fdt (o + 4)))) ->
    exists t next,
      (if fdt_offset_ptr m fdt o (u32 (o' - o)) =? NULL
       then Some (FDT_END, - FDT_ERR_BADSTRUCTURE) else Some (tag, FDT_TAGALIGN o')) = Some (t, next) /\
      ((t = FDT_END /\ next < 0) \/
       (t ∈ [FDT_BEGIN_NODE; FDT_END_NODE; FDT_PROP; FDT_NOP; FDT_END] /\ tag_ok o t next))).
  { intros o' Hs Ht Heq. destruct (if _ =? NULL then _ else _) as [[t next]|] eqn:E;
      [|by destruct (_ =? NULL)].
    exists t, next. split; [done|]. destruct (finish_ok o o' tag _ Ho Ha Hs Heq E) as [[= -> ->]|[E' Hk]].
    - left. split; [done|]. unfold FDT_ERR_BADSTRUCTURE. lia.
    - right. cbn [fst snd] in *. subst t. done. }
  destruct (Z.eqb_spec tag FDT_BEGIN_NODE) as [Eb|_].
  - destruct (skip_name_run fuel (o + 4)) as (p & o' & -> & Hp); [lia|lia|]. cbn [mbind option_bind].
    destruct (Z.eqb_spec p NULL) as [_|Hn].
    { eexists _, _. split; [done|]. left. split; [done|]. unfold FDT_ERR_BADSTRUCTURE. lia. }
    destruct Hp as [?|[Hlt Hp]]; [done|]. pose proof (in_blob_le _ _ Hp).
    apply Hfin; [lia|rewrite Eb; set_solver|lia].
  - destruct (Z.eqb_spec tag FDT_PROP) as [Ep|_].
    + rewrite offset_ptr_null_eq by lia. destruct (decide (in_blob m fdt (o + 4) 4)) as [Hl|Hl].
      2:{ rewrite bool_decide_eq_false_2 by done. eexists _, _. split; [done|]. left. split; [done|].
          unfold FDT_ERR_BADSTRUCTURE. lia. }
      rewrite bool_decide_eq_true_2 by done. cbn [negb]. pose proof (in_blob_le _ _ Hl).
      rewrite (fdt_offset_ptr_spec m fdt (o + 4) 4), decide_True by (done || lia).
      apply Hfin; [|rewrite Ep; set_solver|].
      * unfold skip_prop. destruct (_ && _); apply s32_range.
      * intros E. split; [done|]. eapply skip_prop_stuck; [|apply fdt32_range|exact E]. lia.
    + destruct ((tag =? FDT_END) || (tag =? FDT_END_NODE) || (tag =? FDT_NOP)) eqn:E.
      * apply Hfin; [lia| |lia]. rewrite !orb_true_iff, !Z.eqb_eq in E. set_solver.
      * eexists _, _. split; [done|]. left. split; [done|]. unfold FDT_ERR_BADSTRUCTURE. lia.
Qed.

(** No property claims a length that wraps the offset around to itself. *)
Definition lengths_ok : Prop :=
  forall o, 0 <= o -> o mod 4 = 0 -> in_blob m fdt o 8 ->
    fdt32_to_cpu (ld32 m (fdt_offset_ptr_ m fdt o)) = FDT_PROP ->
    fdt32_to_cpu (ld32 m (fdt_offset_ptr_ m fdt (o + 4))) < 2 ^ 32 - 16.

(** Only a property inside the blob has the tag of a property. *)
Lemma fdt_next_tag_prop fuel o next :
  0 <= o < 2 ^ 31 -> fdt_next_tag m fdt fuel o = Some (FDT_PROP, next) ->
  in_blob m fdt o 8 /\ fdt32_to_cpu (ld32 m (fdt_offset_ptr_ m fdt o)) = FDT_PROP.
Proof.
  intros Ho. unfold fdt_next_tag, FDT_TAGSIZE. rewrite offset_ptr_null_eq by lia.
  destruct (decide (in_blob m fdt o 4)) as [Hin|Hin]; [|by rewrite bool_decide_eq_false_2].
  rewrite bool_decide_eq_true_2 by done. cbn [negb]. pose proof (in_blob_le _ _ Hin) as [_ Hle].
  rewrite s32_id by lia. rewrite (fdt_offset_ptr_spec m fdt o 4), decide_True by (done || lia).
  set (tag := fdt32_to_cpu (ld32 m (fdt_offset_ptr_ m fdt o))).
  assert (Hfin : forall x : option (Z * Z), (forall r, x = Some r -> r.1 = FDT_END \/ r.1 = tag) ->
    x = Some (FDT_PROP, next) -> tag = FDT_PROP).
  { intros x Hx E. by destruct (Hx _ E). }
  destruct (Z.eqb_spec tag FDT_BEGIN_NODE) as [Eb|_].
  { intros E. exfalso. destruct (skip_name _ _ _ _) as [[p o']|]; [|done]. cbn [mbind option_bind] in E.
    rewrite Eb in E. by repeat case_match. }
  destruct (Z.eqb_spec tag FDT_PROP) as [Ep|Hp].
  - rewrite offset_ptr_null_eq by lia. destruct (decide (in_blob m fdt (o + 4) 4)) as [Hl|Hl];
      [|by rewrite bool_decide_eq_false_2].
    intros _. split; [|done]. unfold in_blob in *. lia.
  - intros E. exfalso. destruct (_ || _); [|done]. destruct (_ =? NULL); [done|]. by injection E.
Qed.

Hypothesis Hlen : lengths_ok.

Lemma next_tag_advances fuel o tag next :
  0 <= o < 2 ^ 31 -> o mod 4 = 0 -> fdt_next_tag m fdt fuel o = Some (tag, next) ->
  tag_ok o tag next -> o < next.
Proof.
  intros Ho Ha E (_ & _ & Hn & Heq). assert (next = o \/ o < next) as [->|?] by lia; [|done].
  destruct (Heq eq_refl) as [-> Hl]. destruct (fdt_next_tag_prop _ _ _ Ho E) as [Hin Hp].
  pose proof (Hlen o ltac:(lia) Ha Hin Hp). lia.
Qed.

(** Where [fdt_next_node] can stop: an error, or an aligned offset from [o] on. *)
Definition stops (o r : Z) : Prop := r < 0 \/ (o <= r /\ r mod 4 = 0).

Lemma next_node_loop_total fuel n o d :
  (Z.to_nat (fdt_totalsize m fdt) <= fuel)%nat ->
  0 <= o <= fdt_totalsize m fdt + 3 -> o mod 4 = 0 ->
  (Z.to_nat (fdt_totalsize m fdt + 4 - o) <= n)%nat ->
  exists r d', next_node_loop m fdt fuel n o d = Some (r, d') /\ stops o r.
Proof.
  intros Hf. revert o d. induction n as [|n IH]; intros o d Ho Ha Hn; [lia|]. cbn [next_node_loop].
  destruct (fdt_next_tag_run fuel o) as (tag & next & E & Ht); [lia|done|done|].
  rewrite E. cbn [mbind option_bind]. destruct Ht as [[-> Hneg]|[Hin Hok]].
  - cbn [Z.eqb FDT_END FDT_BEGIN_NODE FDT_END_NODE Pos.eqb andb]. eexists _, _.
    split; [done|]. left. destruct (_ || _); [unfold FDT_ERR_NOTFOUND|]; lia.
  - pose proof (next_tag_advances fuel o tag next ltac:(lia) Ha E Hok). destruct Hok as (H1 & H2 & H3 & _).
    destruct (tag =? FDT_BEGIN_NODE); [eexists _, _; split; [done|]; right; lia|].
    set (d' := if tag =? FDT_END_NODE then _ else d).
    destruct (_ && _); [eexists _, _; split; [done|]; right; lia|].
    destruct (tag =? FDT_END).
    { eexists _, _. split; [done|]. destruct (_ || _); [left; unfold FDT_ERR_NOTFOUND; lia|right; lia]. }
    destruct (IH next d') as (r & d'' & -> & Hr); [lia|done|lia|]. eexists _, _. split; [done|].
    unfold stops in *. lia.
Qed.

Lemma fdt_next_node_total fuel o d :
  (Z.to_nat (fdt_totalsize m fdt + 4) <= fuel)%nat -> o < 2 ^ 31 ->
  exists r d', fdt_next_node m fdt fuel o d = Some (r, d') /\ stops (o + 1) r.
Proof.
  intros Hf Ho. unfold fdt_next_node. destruct (Z.leb_spec 0 o).
  - unfold fdt_check_node_offset_, FDT_TAGSIZE. destruct (Z.ltb_spec o 0); [lia|]. cbn [orb].
    destruct (Z.eqb_spec (o mod 4) 0) as [Ha|Ha]; cbn [negb mbind option_bind].
    2:{ eexists _, _. split; [done|]. left. unfold FDT_ERR_BADOFFSET. lia. }
    destruct (fdt_next_tag_run fuel o) as (tag & next & E & Ht); [lia|done|lia|].
    rewrite E. cbn [mbind option_bind]. destruct (Z.eqb_spec tag FDT_BEGIN_NODE) as [->|_]; cbn [negb].
    2:{ eexists _, _. split; [done|]. left. unfold FDT_ERR_BADOFFSET. lia. }
    destruct Ht as [[? _]|[_ Hok]]; [done|].
    pose proof (next_tag_advances fuel o FDT_BEGIN_NODE next ltac:(lia) Ha E Hok). destruct Hok as (Hok1 & Hok2 & Hok3 & _).
    destruct (Z.ltb_spec next 0); [lia|].
    destruct (next_node_loop_total fuel fuel next d) as (r & d' & -> & Hr); [lia|lia|done|lia|].
    eexists _, _. split; [done|]. unfold stops in *. lia.
  - destruct (next_node_loop_total fuel fuel 0 d) as (r & d' & -> & Hr); [lia| |done|lia|].
    { pose proof (fdt_get_header_range m fdt header_totalsize) as Ht.
      fold (fdt_totalsize m fdt) in Ht. lia. }
    eexists _, _. split; [done|]. unfold stops in *. lia.
Qed.
End Progress.

(** ** Properties *)

(** A property at [o] whose length is [2^32 - 12]: its end is its beginning. *)
Record self_property (m : memory) (fdt o : Z) : Prop := {
  sp_blob : 0 < fdt;
  sp_total : fdt_totalsize m fdt + 3 < 2 ^ 31;
  sp_version : 0x10 <= fdt_version m fdt;
  sp_aligned : o mod 4 = 0;
  sp_inside : in_blob m fdt o 8;
  sp_tag : fdt32_to_cpu (ld32 m (fdt_offset_ptr_ m fdt o)) = FDT_PROP;
  sp_length : fdt32_to_cpu (ld32 m (fdt_offset_ptr_ m fdt (o + 4))) = 2 ^ 32 - 12;
}.

Lemma self_property_tag m fdt o fuel :
  self_property m fdt o -> fdt_next_tag m fdt fuel o = Some (FDT_PROP, o).
Proof.
  intros [Hf Ht Hv Ha Hin Htag Hlen]. destruct (in_blob_le m fdt _ _ Hin) as [Ho Hle].
  assert (H4 : in_blob m fdt o 4) by (unfold in_blob in *; lia).
  assert (H44 : in_blob m fdt (o + 4) 4) by (unfold in_blob in *; lia).
  assert (H0 : in_blob m fdt o 0) by (unfold in_blob in *; lia).
  assert (Hn : forall o' len, in_blob m fdt o' len -> o' < 2 ^ 31 -> is_u32 len ->
    fdt_offset_ptr m fdt o' len = fdt_offset_ptr_ m fdt o' /\
    (fdt_offset_ptr_ m fdt o' =? NULL) = false).
  { intros o' len Hi Ho' Hl. pose proof (offset_ptr_null_eq m fdt o' len) as E.
    rewrite fdt_offset_ptr_spec in E |- * by lia. rewrite decide_True in E |- * by done.
    split; [done|]. rewrite E by lia. by rewrite bool_decide_eq_true_2. }
  unfold fdt_next_tag, FDT_TAGSIZE. destruct (Hn o 4 H4) as [-> ->]; [lia..|].
  rewrite Htag, s32_id by lia. cbn [FDT_PROP FDT_BEGIN_NODE Z.eqb Pos.eqb].
  destruct (Hn (o + 4) 4 H44) as [-> ->]; [lia..|]. rewrite Hlen.
  assert (Hs : skip_prop m fdt (o + 4) (2 ^ 32 - 12) = o).
  { unfold skip_prop, FDT_PROPERTY_SIZEOF, FDT_TAGSIZE.
    destruct (Z.ltb_spec (fdt_version m fdt) 16); [lia|]. cbn [andb].
    replace (o + 4 + (12 - 4 + (2 ^ 32 - 12))) with (o + 1 * 2 ^ 32) by lia.
    unfold s32. rewrite <- Z.add_assoc, (Z.add_comm (1 * 2 ^ 32)), Z.add_assoc, Z.mod_add by lia.
    apply (s32_id o). lia. }
  rewrite Hs, Z.sub_diag. change (u32 0) with 0. destruct (Hn o 0 H0) as [-> ->]; [lia..|].
  rewrite FDT_TAGALIGN_eq by lia. do 2 f_equal. Z.to_euclidean_division_equations. lia.
Qed.

(** (C17) [fdt_next_node] ends on every blob of less than 2 GB whatever its content, with
    an error or with an aligned offset beyond the one it starts from, unless the
    length of a property wraps around. *)
Theorem fdt_next_node_terminates m fdt fuel o d :
  0 < fdt -> fdt_totalsize m fdt + 3 < 2 ^ 31 -> lengths_ok m fdt ->
  (Z.to_nat (fdt_totalsize m fdt + 4) <= fuel)%nat -> o < 2 ^ 31 ->
  exists r d', fdt_next_node m fdt fuel o d = Some (r, d') /\ (r < 0 \/ (o < r /\ r mod 4 = 0)).
Proof.
  intros Hf Ht Hl Hfuel Ho. destruct (fdt_next_node_total m fdt Hf Ht Hl fuel o d Hfuel Ho)
    as (r & d' & E & Hr). exists r, d'. split; [done|]. unfold stops in Hr. lia.
Qed.

(** The length of a property is added to the offset without a check: at a property
    of length [2^32 - 12] the offset does not move, and the walk over the tags never
    ends. *)
Theorem fdt_next_node_stuck m fdt o fuel n d :
  self_property m fdt o ->
  fdt_next_tag m fdt fuel o = Some (FDT_PROP, o) /\ next_node_loop m fdt fuel n o d = None.
Proof.
  intros Hs. split; [by apply self_property_tag|]. revert d.
  induction n as [|n IH]; intros d; cbn [next_node_loop]; rewrite (self_property_tag _ _ _ _ Hs);
    cbn [mbind option_bind FDT_PROP FDT_BEGIN_NODE FDT_END_NODE FDT_END Z.eqb Pos.eqb andb]; [done|apply IH].
Qed.

(** ** Witnesses: a blob of 64 bytes with a valid header *)
Definition demo_header (total off_struct off_strings size_strings size_struct : Z) : list Z :=
  [FDT_MAGIC; total; off_struct; off_strings; 40; 17; 16; 0; size_strings; size_struct] ≫= be_bytes.
Definition demo_stuck : memory :=
  wr_list ∅ 0x1000 (demo_header 72 56 72 0 16 ++ replicate 16 0 ++
    ([FDT_BEGIN_NODE; 0; FDT_PROP; 2 ^ 32 - 12] ≫= be_bytes)).
Definition demo_empty : memory :=
  wr_list ∅ 0x1000 (demo_header 72 56 72 0 16 ++ replicate 16 0 ++
    ([FDT_BEGIN_NODE; 0; FDT_END_NODE; FDT_END] ≫= be_bytes)).

Lemma demo_stuck_property : self_property demo_stuck 0x1000 8.
Proof. split; vm_compute; (reflexivity || (split_and?; congruence)). Qed.

Lemma fdt_next_node_stuck_witness :
  fdt_check_header demo_stuck 0x1000 = 0 /\
  forall fuel, (0 < fuel)%nat -> fdt_next_node demo_stuck 0x1000 fuel 0 None = None.
Proof.
  split; [vm_compute; reflexivity|]. intros fuel Hf.
  destruct (fdt_next_node_stuck demo_stuck 0x1000 8 fuel fuel None demo_stuck_property) as [_ E].
  rewrite <- E. destruct fuel as [|fuel]; [lia|]. reflexivity.
Defined.

Lemma demo_empty_lengths : lengths_ok demo_empty 0x1000.
Proof.
  intros o Ho Ha (_ & Hin & _). assert (o <= 8).
  { assert (Ht : fdt_totalsize demo_empty 0x1000 = 72) by (vm_compute; reflexivity).
    assert (Hs : fdt_off_dt_struct demo_empty 0x1000 = 56) by (vm_compute; reflexivity).
    rewrite Ht, Hs in Hin. lia. }
  assert (o = 0 \/ o = 4 \/ o = 8) as [->|[->| ->]]
    by (Z.to_euclidean_division_equations; lia); vm_compute; congruence.
Qed.

Lemma fdt_next_node_terminates_witness :
  exists r d, fdt_next_node demo_empty 0x1000 100 0 (Some 0) = Some (r, d).
Proof.
  destruct (fdt_next_node_terminates demo_empty 0x1000 100 0 (Some 0)) as (r & d & E & _).
  - lia.
  - vm_compute. reflexivity.
  - exact demo_empty_lengths.
  - vm_compute. lia.
  - lia.
  - exists r, d. exact E.
Defined.
