(* ===== verification/FdtTokens.v ===== *)
(** * FdtTokens: the structure block as a list of tokens

    The format of a structure block, by an encoder of tokens and of trees, and what
    [fdt_next_tag], [fdt_next_node] and the functions on subnodes of Fdt.v do on an
    encoded block. *)
From Stdlib Require Import ZArith Lia.
From stdpp Require Import prelude gmap list strings.
From S2P Require Import Prelude Memory TString Fdt.
Open Scope Z_scope.

(** ** Tokens *)
Inductive token :=
  | TBegin (name : list Z)
  | TEndNode
  | TProp (nameoff : Z) (data : list Z)
  | TNop
  | TEnd.
#[export] Instance token_eq_dec : EqDecision token.
Proof. solve_decision. Defined.

Definition up4 (n : Z) : Z := (n + 3) / 4 * 4.
Definition pad (l : list Z) : list Z :=
  l ++ replicate (Z.to_nat (up4 (Z.of_nat (length l)) - Z.of_nat (length l))) 0.

Definition token_tag (t : token) : Z :=
  match t with
  | TBegin _ => FDT_BEGIN_NODE
  | TEndNode => FDT_END_NODE
  | TProp _ _ => FDT_PROP
  | TNop => FDT_NOP
  | TEnd => FDT_END
  end.
Definition token_bytes (t : token) : list Z :=
  be_bytes (token_tag t) ++
  match t with
  | TBegin name => pad (name ++ [0])
  | TProp nameoff data => be_bytes (Z.of_nat (length data)) ++ be_bytes nameoff ++ pad data
  | _ => []
  end.
(** The bytes without the padding, whose contents do not matter to a reader. *)
Definition token_data (t : token) : list Z :=
  be_bytes (token_tag t) ++
  match t with
  | TBegin name => name ++ [0]
  | TProp nameoff data => be_bytes (Z.of_nat (length data)) ++ be_bytes nameoff ++ data
  | _ => []
  end.
Definition token_size (t : token) : Z :=
  match t with
  | TBegin name => 4 + up4 (Z.of_nat (length name) + 1)
  | TProp _ data => 12 + up4 (Z.of_nat (length data))
  | _ => 4
  end.
Definition token_ok (t : token) : Prop :=
  match t with
  | TBegin name => Forall (fun c => 0 < c < 256) name
  | TProp nameoff data => is_u32 nameoff /\ Z.of_nat (length data) < 2 ^ 31 /\ Forall (fun c => 0 <= c < 256) data
  | _ => True
  end.
Fixpoint size (l : list token) : Z := match l with [] => 0 | t :: l => token_size t + size l end.

Lemma up4_range n : n <= up4 n <= n + 3.
Proof. unfold up4. Z.to_euclidean_division_equations. lia. Qed.
Lemma up4_mod n : up4 n mod 4 = 0.
Proof. unfold up4. by apply Z.mod_mul. Qed.
Lemma up4_add o n : o mod 4 = 0 -> up4 (o + n) = o + up4 n.
Proof. unfold up4. intros. Z.to_euclidean_division_equations. lia. Qed.

Lemma length_pad l : Z.of_nat (length (pad l)) = up4 (Z.of_nat (length l)).
Proof.
  unfold pad. rewrite length_app, length_replicate. pose proof (up4_range (Z.of_nat (length l))). lia.
Qed.
Lemma length_token_bytes t : Z.of_nat (length (token_bytes t)) = token_size t.
Proof.
  unfold token_bytes, token_size. destruct t as [name| |nameoff data| |]; try done.
  - rewrite length_app, Nat2Z.inj_add, length_pad, length_app. simpl length. f_equal. f_equal. lia.
  - rewrite !length_app, !Nat2Z.inj_add, length_pad. simpl length. lia.
Qed.
Lemma token_size_pos t : 4 <= token_size t.
Proof.
  destruct t as [name| |nameoff data| |]; simpl; try lia.
  - pose proof (up4_range (Z.of_nat (length name) + 1)). lia.
  - pose proof (up4_range (Z.of_nat (length data))). lia.
Qed.
Lemma token_size_mod t : token_size t mod 4 = 0.
Proof.
  destruct t as [name| |nameoff data| |]; simpl; try done;
    [pose proof (up4_mod (Z.of_nat (length name) + 1))|pose proof (up4_mod (Z.of_nat (length data)))];
    Z.to_euclidean_division_equations; lia.
Qed.
Lemma size_app l1 l2 : size (l1 ++ l2) = size l1 + size l2.
Proof. induction l1 as [|t l1 IH]; simpl; [done|]. lia. Qed.
Lemma size_snoc l t : size (l ++ [t]) = size l + token_size t.
Proof. rewrite size_app. simpl. lia. Qed.
Lemma size_bound l : 4 * Z.of_nat (length l) <= size l.
Proof. induction l as [|t l IH]; simpl; [lia|]. pose proof (token_size_pos t). lia. Qed.
Lemma size_nonneg l : 0 <= size l.
Proof. pose proof (size_bound l). lia. Qed.
Lemma size_mod l : size l mod 4 = 0.
Proof.
  induction l as [|t l IH]; simpl; [done|]. pose proof (token_size_mod t).
  Z.to_euclidean_division_equations. lia.
Qed.
Lemma length_tokens l : Z.of_nat (length (l ≫= token_bytes)) = size l.
Proof.
  induction l as [|t l IH]; [done|]. cbn [mbind list_bind size]. rewrite length_app, Nat2Z.inj_add.
  rewrite <- length_token_bytes, <- IH. done.
Qed.

(** Memory that holds the tokens, with any padding. *)
Fixpoint encoded (m : memory) (a : Z) (ts : list token) : Prop :=
  match ts with
  | [] => True
  | t :: ts => block m a (token_data t) /\ encoded m (a + token_size t) ts
  end.

Lemma length_token_data t : 4 <= Z.of_nat (length (token_data t)) <= token_size t.
Proof.
  unfold token_data, token_size. destruct t as [name| |nameoff data| |]; try (simpl; lia).
  - rewrite !length_app. simpl length. pose proof (up4_range (Z.of_nat (length name) + 1)). lia.
  - rewrite !length_app. simpl length. pose proof (up4_range (Z.of_nat (length data))). lia.
Qed.
Lemma block_token m a t : block m a (token_bytes t) -> block m a (token_data t).
Proof.
  unfold token_bytes, token_data, pad. destruct t; rewrite ?block_app; tauto.
Qed.
Lemma encoded_app m a l1 l2 : encoded m a (l1 ++ l2) <-> encoded m a l1 /\ encoded m (a + size l1) l2.
Proof.
  revert a. induction l1 as [|t l1 IH]; intros a; cbn [app encoded size].
  - rewrite Z.add_0_r. tauto.
  - rewrite IH. replace (a + (token_size t + size l1)) with (a + token_size t + size l1) by lia. tauto.
Qed.
Lemma encoded_block m a ts : block m a (ts ≫= token_bytes) -> encoded m a ts.
Proof.
  revert a. induction ts as [|t ts IH]; intros a; [done|]. cbn [mbind list_bind encoded].
  rewrite block_app, length_token_bytes. intros [Ht Hl]. split; [by apply block_token|by apply IH].
Qed.
(** The same bytes at another place. *)
Lemma encoded_moved m m' a a' ts :
  (forall i, 0 <= i < size ts -> rd m' (a' + i) = rd m (a + i)) -> encoded m a ts -> encoded m' a' ts.
Proof.
  revert a a'. induction ts as [|t ts IH]; intros a a' Hrd; [done|]. cbn [encoded size] in *. intros [Ht Hl].
  pose proof (length_token_data t). pose proof (size_nonneg ts). split.
  - intros i v Hi. rewrite <- (Ht i v Hi). apply Hrd. apply lookup_lt_Some in Hi. lia.
  - apply (IH (a + token_size t)); [|done]. intros i Hi. pose proof (token_size_pos t).
    specialize (Hrd (token_size t + i)). by rewrite !Z.add_assoc in Hrd; apply Hrd; lia.
Qed.
Lemma encoded_frame m m' a ts :
  (forall x, a <= x < a + size ts -> rd m' x = rd m x) -> encoded m a ts -> encoded m' a ts.
Proof. intros H. apply encoded_moved. intros i Hi. apply H. lia. Qed.

(** A blob of version 16 or later whose structure block begins with the tokens. *)
Record blob_ok (m : memory) (fdt : Z) (ts : list token) : Prop := {
  bo_fdt : 0 < fdt;
  bo_probe : 0 <= fdt_ro_probe_ m fdt;
  bo_version : 0x10 <= fdt_version m fdt;
  bo_total : fdt_totalsize m fdt + 3 < 2 ^ 31;
  bo_fits : fdt_off_dt_struct m fdt + size ts <= fdt_totalsize m fdt;
  bo_struct : 0x11 <= fdt_version m fdt -> size ts <= fdt_size_dt_struct m fdt;
  bo_tokens : Forall token_ok ts;
  bo_bytes : encoded m (fdt + fdt_off_dt_struct m fdt) ts;
}.

Section Blob.
Context (m : memory) (fdt : Z) (ts : list token).
Hypothesis Hb : blob_ok m fdt ts.

(** The address of the structure block. *)
Abbreviation base := (fdt + fdt_off_dt_struct m fdt).

Lemma blob_size : 0 <= size ts <= fdt_totalsize m fdt /\ size ts + 3 < 2 ^ 31.
Proof.
  destruct Hb. pose proof (fdt_get_header_range m fdt header_off_dt_struct) as Hs.
  fold (fdt_off_dt_struct m fdt) in Hs. pose proof (size_nonneg ts). lia.
Qed.

Lemma blob_in o len : 0 <= o -> o + len <= size ts -> in_blob m fdt o len.
Proof.
  destruct Hb. intros Ho Hl. unfold in_blob. split; [done|]. split; [lia|].
  intros Hv. specialize (bo_struct0 Hv). lia.
Qed.

Lemma blob_ptr o len :
  0 <= o -> 0 <= len -> o + len <= size ts -> fdt_offset_ptr m fdt o len = base + o /\ base + o <> 0.
Proof.
  intros Ho Hl Hle. pose proof blob_size. rewrite fdt_offset_ptr_spec by lia.
  rewrite decide_True by (apply blob_in; lia). unfold fdt_offset_ptr_. split; [done|].
  destruct Hb. pose proof (fdt_get_header_range m fdt header_off_dt_struct) as Hs.
  fold (fdt_off_dt_struct m fdt) in Hs. lia.
Qed.

(** The bytes of a token in the middle. *)
Lemma blob_token l1 t l2 :
  ts = l1 ++ t :: l2 -> block m (base + size l1) (token_data t) /\ token_ok t /\
    size l1 + token_size t <= size ts.
Proof.
  intros ->. destruct Hb. split.
  - by apply encoded_app in bo_bytes0 as [_ [Hbt _]].
  - split; [apply Forall_app in bo_tokens0 as [_ Ht]; by apply Forall_cons in Ht as [Ht _]|].
    rewrite size_app. simpl. pose proof (size_nonneg l2). lia.
Qed.

(** The loop over a name stops at its end. *)
Lemma skip_name_string fuel o name :
  0 <= o -> o + Z.of_nat (length name) + 1 <= size ts ->
  block m (base + o) (name ++ [0]) -> Forall (fun c => 0 < c < 256) name ->
  (length name <= fuel)%nat ->
  exists p, skip_name m fdt fuel o = Some (p, o + Z.of_nat (length name) + 1) /\ p <> 0.
Proof.
  pose proof blob_size as Hsz. revert o fuel.
  induction name as [|c name IH]; intros o fuel Ho Hl Hbl Hf Hfuel.
  - simpl length in *. change ([] ++ [0]) with [0] in Hbl. apply block_cons in Hbl as [H0 _].
    destruct (blob_ptr o 1) as [Hp Hn]; [lia..|]. exists (base + o). split; [|done].
    destruct fuel; cbn [skip_name]; rewrite Hp, ld8_rd, H0, (s32_id (o + 1)) by lia;
      rewrite andb_false_r; do 2 f_equal; lia.
  - simpl length in *. change ((c :: name) ++ [0]) with (c :: (name ++ [0])) in Hbl.
    apply block_cons in Hbl as [Hc Hbl]. apply Forall_cons in Hf as [Hc0 Hf].
    destruct (blob_ptr o 1) as [Hp Hn]; [lia..|]. destruct fuel as [|fuel]; [lia|]. cbn [skip_name].
    rewrite Hp, ld8_rd, Hc, (s32_id (o + 1)) by lia. unfold NULL.
    destruct (Z.eqb_spec (base + o) 0), (Z.eqb_spec c 0); [lia..|]. cbn [negb andb].
    destruct (IH (o + 1) fuel) as (p & Hq & Hp0); [lia|lia| |done|lia|].
    { by replace (base + (o + 1)) with (base + o + 1) by lia. }
    exists p. rewrite Hq. split; [|done]. do 2 f_equal. lia.
Qed.

(** [fdt_next_tag] at a token. *)
Lemma fdt_next_tag_token fuel l1 t l2 :
  ts = l1 ++ t :: l2 -> (Z.to_nat (fdt_totalsize m fdt) <= fuel)%nat ->
  fdt_next_tag m fdt fuel (size l1) = Some (token_tag t, size l1 + token_size t).
Proof.
  intros E Hfuel. destruct (blob_token _ _ _ E) as (Hbt & Htok & Hle).
  pose proof blob_size as Hsz. pose proof (size_nonneg l1) as H0. pose proof (size_mod l1) as Hm.
  pose proof (token_size_pos t) as H4. set (o := size l1) in *.
  unfold fdt_next_tag, FDT_TAGSIZE. destruct (blob_ptr o 4) as [-> Hn]; [lia..|].
  unfold NULL. destruct (Z.eqb_spec (base + o) 0) as [|_]; [done|].
  unfold token_data in Hbt. apply block_app in Hbt as [Htag Hrest].
  change (Z.of_nat (length (be_bytes (token_tag t)))) with 4 in Hrest.
  rewrite (fdt32_block m (base + o) (token_tag t)) by (done || destruct t; vm_compute; split; congruence).
  rewrite (s32_id (o + 4)) by lia.
  (* the end of the token *)
  assert (Hfin : forall o', o + 4 <= o' <= o + token_size t -> up4 o' = o + token_size t ->
    (if fdt_offset_ptr m fdt o (u32 (o' - o)) =? 0
     then Some (FDT_END, - FDT_ERR_BADSTRUCTURE) else Some (token_tag t, FDT_TAGALIGN o')) =
    Some (token_tag t, o + token_size t)).
  { intros o' Ho' Hu. rewrite u32_id by lia. destruct (blob_ptr o (o' - o)) as [-> _]; [lia..|].
    destruct (Z.eqb_spec (base + o) 0) as [|_]; [done|]. rewrite FDT_TAGALIGN_eq by lia.
    fold (up4 o'). by rewrite Hu. }
  assert (Hsimple : token_size t = 4 ->
    (if fdt_offset_ptr m fdt o (u32 (o + 4 - o)) =? 0
     then Some (FDT_END, - FDT_ERR_BADSTRUCTURE) else Some (token_tag t, FDT_TAGALIGN (o + 4))) =
    Some (token_tag t, o + token_size t)).
  { intros H4'. apply Hfin; [lia|]. rewrite up4_add by done. rewrite H4'. reflexivity. }
  destruct t as [name| |nameoff data| |]; cbn [token_tag];
    try (apply Hsimple; reflexivity).
  - cbn [FDT_BEGIN_NODE Z.eqb Pos.eqb]. cbn [token_size] in *.
    pose proof (up4_range (Z.of_nat (length name) + 1)).
    destruct (skip_name_string fuel (o + 4) name) as (p & -> & Hp); [lia|lia| |done| |].
    { by rewrite Z.add_assoc. }
    { lia. }
    cbn [mbind option_bind]. destruct (Z.eqb_spec p 0); [done|]. apply Hfin; [lia|].
    replace (o + 4 + Z.of_nat (length name) + 1) with ((o + 4) + (Z.of_nat (length name) + 1)) by lia.
    rewrite up4_add by (Z.to_euclidean_division_equations; lia). lia.
  - cbn [FDT_PROP FDT_BEGIN_NODE Z.eqb Pos.eqb]. cbn [token_size token_ok] in *.
    destruct Htok as (Hno & Hlen & Hdata). pose proof (up4_range (Z.of_nat (length data))).
    destruct (blob_ptr (o + 4) 4) as [-> Hn4]; [lia..|]. destruct (Z.eqb_spec (base + (o + 4)) 0); [done|].
    apply block_app in Hrest as [Hl _]. rewrite <- Z.add_assoc in Hl.
    rewrite (fdt32_block m (base + (o + 4)) (Z.of_nat (length data)) ltac:(lia) Hl).
    unfold skip_prop, FDT_PROPERTY_SIZEOF, FDT_TAGSIZE. destruct Hb.
    destruct (Z.ltb_spec (fdt_version m fdt) 0x10); [lia|]. cbn [andb]. rewrite s32_id by lia.
    apply Hfin; [lia|].
    replace (o + 4 + (12 - 4 + Z.of_nat (length data))) with ((o + 12) + Z.of_nat (length data)) by lia.
    rewrite up4_add by (Z.to_euclidean_division_equations; lia). lia.
Qed.
End Blob.

(** ** Walks over tokens

    [scan] is [fdt_next_node] from the token [l] on, which is at offset [o].  [walk]
    repeats it within a node, at whose beginning the depth is [d]: [visit name o d]
    is what is done at a node of that name, offset and depth, stop with a result or
    go on; the walk also stops at the end of the node. *)
Fixpoint scan (l : list token) (o : Z) (d : option Z) : Z * option Z :=
  match l with
  | [] => (- FDT_ERR_NOTFOUND, d)
  | t :: l =>
      let o' := o + token_size t in
      match t with
      | TBegin _ => (o, (fun d => d + 1) <$> d)
      | TEndNode =>
          let d := (fun d => d - 1) <$> d in
          if (if d is Some d then d <? 0 else false) then (o', d) else scan l o' d
      | TEnd => (- FDT_ERR_NOTFOUND, d)
      | _ => scan l o' d
      end
  end.

Fixpoint walk (visit : list Z -> Z -> Z -> option Z) (l : list token) (o d : Z) : Z :=
  match l with
  | [] => - FDT_ERR_NOTFOUND
  | t :: l =>
      let o' := o + token_size t in
      match t with
      | TBegin name => default (walk visit l o' (d + 1)) (visit name o (d + 1))
      | TEndNode => if d - 1 <? 0 then - FDT_ERR_NOTFOUND else walk visit l o' (d - 1)
      | TEnd => - FDT_ERR_NOTFOUND
      | _ => walk visit l o' d
      end
  end.

(** A depth that [n] more tokens cannot bring out of the range of [int]. *)
Definition depth_fits (d : Z) (n : nat) : Prop := 0 <= d < 2 ^ 31 - Z.of_nat n.
Definition depth_ok (d : option Z) (n : nat) : Prop := if d is Some d then depth_fits d n else True.

(** A scan ends where the walk ends, or at the next node the walk visits. *)
Lemma scan_cases visit l o d :
  0 <= d ->
  (exists r d', scan l o (Some d) = (r, Some d') /\ (r = - FDT_ERR_NOTFOUND \/ d' < 0) /\
     walk visit l o d = - FDT_ERR_NOTFOUND) \/
  (exists pre name l', l = pre ++ TBegin name :: l' /\ TEnd ∉ pre /\
     let o' := o + size pre in
     exists d', scan l o (Some d) = (o', Some d') /\ 1 <= d' <= d + 1 /\
       walk visit l o d = default (walk visit l' (o' + token_size (TBegin name)) d') (visit name o' d')).
Proof.
  revert o d. induction l as [|t l IH]; intros o d Hd0.
  { left. exists (- FDT_ERR_NOTFOUND), d. split; [done|]. split; [by left|done]. }
  assert (Hrec : forall d0, 0 <= d0 <= d -> t <> TEnd ->
    scan (t :: l) o (Some d) = scan l (o + token_size t) (Some d0) ->
    walk visit (t :: l) o d = walk visit l (o + token_size t) d0 ->
    (exists r d', scan (t :: l) o (Some d) = (r, Some d') /\ (r = - FDT_ERR_NOTFOUND \/ d' < 0) /\
       walk visit (t :: l) o d = - FDT_ERR_NOTFOUND) \/
    (exists pre name l', t :: l = pre ++ TBegin name :: l' /\ TEnd ∉ pre /\
     let o' := o + size pre in
     exists d', scan (t :: l) o (Some d) = (o', Some d') /\ 1 <= d' <= d + 1 /\
       walk visit (t :: l) o d =
         default (walk visit l' (o' + token_size (TBegin name)) d') (visit name o' d'))).
  { intros d0 Hd Ht -> ->.
    destruct (IH (o + token_size t) d0) as [Hl|(pre & name & l' & -> & Hpre & d' & E & Hd' & E')];
      [lia|by left|right].
    exists (t :: pre), name, l'. split; [done|]. split; [set_solver|]. cbn [size length]. exists d'.
    replace (o + (token_size t + size pre)) with (o + token_size t + size pre) by lia.
    split; [done|]. split; [lia|done]. }
  destruct t as [name| |nameoff data| |].
  - right. exists [], name, l. split; [done|]. split; [set_solver|].
    cbn [size length scan walk fmap option_fmap option_map].
    rewrite Z.add_0_r. exists (d + 1). split; [done|]. split; [lia|done].
  - destruct (Z.ltb_spec (d - 1) 0) as [Hd|Hd].
    + left. cbn [scan walk fmap option_fmap option_map]. destruct (Z.ltb_spec (d - 1) 0); [|lia].
      eexists _, _. split; [done|]. split; [by right|done].
    + apply (Hrec (d - 1)); [lia|done|..]; cbn [scan walk fmap option_fmap option_map];
        destruct (Z.ltb_spec (d - 1) 0); (done || lia).
  - apply (Hrec d); (done || lia).
  - apply (Hrec d); (done || lia).
  - left. eexists _, _. split; [done|]. split; [by left|done].
Qed.

(** The visit of [fdt_next_subnode]: the next node at depth 1. *)
Definition visit_sibling (name : list Z) (o d : Z) : option Z := if 1 <? d then None else Some o.

Section Walks.
Context (m : memory) (fdt : Z) (ts : list token).
Hypothesis Hb : blob_ok m fdt ts.
Context (fuel : nat).
Hypothesis Hfuel : (Z.to_nat (fdt_totalsize m fdt) <= fuel)%nat.

Lemma length_blob l1 l2 : ts = l1 ++ l2 -> (length l2 <= fuel)%nat.
Proof.
  intros ->. destruct (blob_size _ _ _ Hb) as [Hs _]. pose proof (size_bound l2).
  pose proof (size_nonneg l1). rewrite size_app in Hs. lia.
Qed.

Lemma next_node_loop_scan n l1 l2 d :
  ts = l1 ++ l2 -> TEnd ∈ l2 -> (length l2 <= n)%nat -> depth_ok d (length l2) ->
  next_node_loop m fdt fuel n (size l1) d = Some (scan l2 (size l1) d).
Proof.
  revert n l1 d. induction l2 as [|t l2 IH]; intros n l1 d E Hend Hn Hd; [by apply elem_of_nil in Hend|].
  destruct n as [|n]; [simpl in Hn; lia|]. cbn [next_node_loop].
  rewrite (fdt_next_tag_token _ _ _ Hb fuel l1 t l2 E Hfuel). cbn [mbind option_bind].
  assert (Hrec : forall d', depth_ok d' (length l2) -> t <> TEnd ->
    next_node_loop m fdt fuel n (size l1 + token_size t) d' = Some (scan l2 (size l1 + token_size t) d')).
  { intros d' Hd' Ht. specialize (IH n (l1 ++ [t]) d').
    rewrite size_app in IH. cbn [size] in IH. rewrite Z.add_0_r in IH. apply IH; [|set_solver| |done].
    - by rewrite <- app_assoc.
    - simpl in Hn. lia. }
  assert (Hs : forall d0, d = Some d0 -> s32 (d0 + 1) = d0 + 1 /\ s32 (d0 - 1) = d0 - 1).
  { intros d0 ->. simpl in Hd. unfold depth_fits in Hd. split; apply s32_id; lia. }
  assert (Hd1 : depth_ok d (length l2)).
  { destruct d as [d0|]; [|done]. simpl in Hd |- *. unfold depth_fits in *. lia. }
  destruct t as [name| |nameoff data| |]; cbn [token_tag scan].
  - cbn [FDT_BEGIN_NODE Z.eqb Pos.eqb]. destruct d as [d0|]; [|done]. simpl.
    by destruct (Hs d0 eq_refl) as [-> _].
  - cbn [FDT_BEGIN_NODE FDT_END_NODE FDT_END Z.eqb Pos.eqb andb].
    destruct d as [d0|]; cbn [fmap option_fmap option_map]; [|by apply Hrec].
    destruct (Hs d0 eq_refl) as [_ ->]. destruct (d0 - 1 <? 0) eqn:El; [done|].
    apply Hrec; [|done]. apply Z.ltb_ge in El. simpl in Hd |- *. unfold depth_fits in *. lia.
  - cbn [FDT_BEGIN_NODE FDT_END_NODE FDT_END FDT_PROP Z.eqb Pos.eqb andb]. by apply Hrec.
  - cbn [FDT_BEGIN_NODE FDT_END_NODE FDT_END FDT_NOP Z.eqb Pos.eqb andb]. by apply Hrec.
  - cbn [FDT_BEGIN_NODE FDT_END_NODE FDT_END Z.eqb Pos.eqb andb].
    pose proof (size_nonneg l1). cbn [token_size]. destruct (Z.leb_spec 0 (size l1 + 4)); [|lia]. done.
Qed.

(** From a node on. *)
Lemma fdt_check_node_offset_begin l1 name l2 :
  ts = l1 ++ TBegin name :: l2 ->
  fdt_check_node_offset_ m fdt fuel (size l1) = Some (size (l1 ++ [TBegin name])).
Proof.
  intros E. unfold fdt_check_node_offset_, FDT_TAGSIZE. pose proof (size_nonneg l1).
  destruct (Z.ltb_spec (size l1) 0); [lia|]. rewrite size_mod. cbn [orb negb Z.eqb].
  rewrite (fdt_next_tag_token _ _ _ Hb fuel l1 _ l2 E Hfuel). cbn [mbind option_bind token_tag].
  cbn [FDT_BEGIN_NODE Z.eqb Pos.eqb negb]. rewrite size_app. cbn [size]. by rewrite Z.add_0_r.
Qed.

Lemma fdt_next_node_scan l1 name l2 d :
  ts = l1 ++ TBegin name :: l2 -> TEnd ∈ l2 -> depth_ok d (length l2) ->
  fdt_next_node m fdt fuel (size l1) d = Some (scan l2 (size (l1 ++ [TBegin name])) d).
Proof.
  intros E Hend Hd. unfold fdt_next_node. pose proof (size_nonneg l1).
  destruct (Z.leb_spec 0 (size l1)); [|lia]. rewrite (fdt_check_node_offset_begin _ _ _ E).
  cbn [mbind option_bind]. pose proof (size_nonneg (l1 ++ [TBegin name])).
  destruct (Z.ltb_spec (size (l1 ++ [TBegin name])) 0); [lia|].
  assert (E' : ts = (l1 ++ [TBegin name]) ++ l2) by (rewrite E, <- app_assoc; done).
  apply next_node_loop_scan; [done|done|by eapply length_blob|done].
Qed.

Lemma next_subnode_loop_walk n l1 name l2 d :
  ts = l1 ++ TBegin name :: l2 -> TEnd ∈ l2 -> (length l2 <= n)%nat -> depth_fits d (length l2) ->
  next_subnode_loop m fdt fuel n (size l1) d =
    Some (walk visit_sibling l2 (size (l1 ++ [TBegin name])) d).
Proof.
  revert l1 name l2 d. induction n as [|n IH]; intros l1 name l2 d E Hend Hn Hd.
  { destruct l2; [by apply elem_of_nil in Hend|simpl in Hn; lia]. }
  cbn [next_subnode_loop]. rewrite (fdt_next_node_scan _ _ _ (Some d) E Hend Hd). cbn [mbind option_bind].
  destruct (scan_cases visit_sibling l2 (size (l1 ++ [TBegin name])) d)
    as [(r & d' & -> & Hr & ->)|(pre & name' & l' & El & Hpre & d' & -> & Hd' & ->)];
    [unfold depth_fits in Hd; lia| |].
  - change (default 0 (Some d')) with d'. unfold FDT_ERR_NOTFOUND in *.
    destruct (Z.ltb_spec r 0), (Z.ltb_spec d' 1); try done. lia.
  - change (default 0 (Some d')) with d'.
    pose proof (size_nonneg (l1 ++ [TBegin name])). pose proof (size_nonneg pre).
    destruct (Z.ltb_spec (size (l1 ++ [TBegin name]) + size pre) 0); [lia|]. cbn [orb].
    destruct (Z.ltb_spec d' 1); [lia|]. unfold visit_sibling at 2.
    destruct (Z.ltb_spec 1 d'); [|done]. cbn [default from_option].
    rewrite <- size_app, <- size_snoc. subst l2. rewrite length_app in *. simpl length in *. apply IH.
    + by rewrite E, <- !app_assoc.
    + set_solver.
    + lia.
    + unfold depth_fits in *. lia.
Qed.
End Walks.
