(* ===== verification/FdtRo.v ===== *)
(** * FdtRo: flattened device trees, reading (libkern/libfdt/fdt_ro.c)

    Like those of Fdt.v, the functions are functions of the memory and of the blob.
    A string literal is its address [sym_literal]; the results that the C code
    returns through a pointer are components of the result. *)
From Stdlib Require Import ZArith Lia.
From stdpp Require Import prelude gmap list strings.
From S2P Require Import Prelude Memory TString Kernel Fdt.
Open Scope Z_scope.

(** [struct fdt_reserve_entry] *)
Definition RESERVE_ENTRY_SIZEOF : Z := 16.
Definition reserve_entry_address (re : Z) : Z := re.
Definition reserve_entry_size (re : Z) : Z := re + 8.

Section FdtRo.
Context `{Symbols} (m : memory) (fdt : Z).

(** ** Strings *)

(** The string and its length, or [NULL] and an error. *)
Definition fdt_get_string (stroffset : Z) : Z * Z :=
  let totalsize := fdt_ro_probe_ m fdt in
  if totalsize <? 0 then (NULL, totalsize)
  else
    let absoffset := u32 (stroffset + fdt_off_dt_strings m fdt) in
    if totalsize <=? absoffset then (NULL, - FDT_ERR_BADOFFSET)
    else
      let len := u32 (totalsize - absoffset) in
      let search len :=
        let s := fdt + absoffset in
        let n := memchr m s 0 (Z.to_nat len) in
        if n =? NULL then (NULL, - FDT_ERR_TRUNCATED) else (s, s32 (n - s)) in
      if fdt_magic m fdt =? FDT_MAGIC then
        if stroffset <? 0 then (NULL, - FDT_ERR_BADOFFSET)
        else if 17 <=? fdt_version m fdt then
          if fdt_size_dt_strings m fdt <=? u32 stroffset then (NULL, - FDT_ERR_BADOFFSET)
          else
            search (if u32 (fdt_size_dt_strings m fdt - stroffset) <? len
                    then u32 (fdt_size_dt_strings m fdt - stroffset) else len)
        else search len
      else if fdt_magic m fdt =? FDT_SW_MAGIC then
        let sw_stroffset := u32 (- stroffset) in
        if (0 <=? stroffset) || (fdt_size_dt_strings m fdt <? sw_stroffset)
        then (NULL, - FDT_ERR_BADOFFSET)
        else search (if sw_stroffset <? len then sw_stroffset else len)
      else (NULL, - FDT_ERR_INTERNAL).

Definition fdt_string (stroffset : Z) : Z := fst (fdt_get_string stroffset).

Definition fdt_string_eq_ (stroffset s len : Z) : bool :=
  let '(p, slen) := fdt_get_string stroffset in
  negb (p =? NULL) && (slen =? len) && (memcmp m p s (Z.to_nat len) =? 0).

(** ** The memory reserve map *)

(** libfdt_internal.h: [fdt_mem_rsv_]. *)
Definition fdt_mem_rsv_ (n : Z) : Z := fdt + fdt_off_mem_rsvmap m fdt + RESERVE_ENTRY_SIZEOF * n.

(** The bound is computed with 64 bits. *)
Definition fdt_mem_rsv (n : Z) : Z :=
  let offset := u32 (u64 n * RESERVE_ENTRY_SIZEOF) in
  let absoffset := u32 (fdt_off_mem_rsvmap m fdt + offset) in
  if absoffset <? fdt_off_mem_rsvmap m fdt then NULL
  else if u64 (fdt_totalsize m fdt - RESERVE_ENTRY_SIZEOF) <? absoffset then NULL
  else fdt_mem_rsv_ n.

(** The result, the address and the size; the latter two only for the result 0. *)
Definition fdt_get_mem_rsv (n : Z) : Z * Z * Z :=
  if fdt_ro_probe_ m fdt <? 0 then (fdt_ro_probe_ m fdt, 0, 0)
  else
    let re := fdt_mem_rsv n in
    if re =? NULL then (- FDT_ERR_BADOFFSET, 0, 0)
    else (0, fdt64_to_cpu (ld64 m (reserve_entry_address re)), fdt64_to_cpu (ld64 m (reserve_entry_size re))).

Fixpoint num_mem_rsv_loop (fuel : nat) (i : Z) : option Z :=
  let re := fdt_mem_rsv i in
  if negb (re =? NULL) then
    if fdt64_to_cpu (ld64 m (reserve_entry_size re)) =? 0 then Some i
    else match fuel with O => None | S fuel => num_mem_rsv_loop fuel (i + 1) end
  else Some (- FDT_ERR_TRUNCATED).
Definition fdt_num_mem_rsv (fuel : nat) : option Z := num_mem_rsv_loop fuel 0.

(** ** Names of nodes *)

(** The name and its length, or [NULL] and an error. *)
Definition fdt_get_name (fuel : nat) (nodeoffset : Z) : option (Z * Z) :=
  let nh := fdt_offset_ptr_ m fdt nodeoffset in
  if fdt_ro_probe_ m fdt <? 0 then Some (NULL, fdt_ro_probe_ m fdt)
  else
    err ← fdt_check_node_offset_ m fdt fuel nodeoffset;
    if err <? 0 then Some (NULL, err)
    else
      let nameptr := node_header_name nh in
      leaf ← (if fdt_version m fdt <? 0x10 then
                leaf ← strrchr fuel m nameptr 47; Some (if leaf =? NULL then NULL else leaf + 1)
              else Some nameptr);
      if leaf =? NULL then Some (NULL, - FDT_ERR_BADSTRUCTURE)
      else len ← strlen fuel m leaf; Some (leaf, s32 len).

Definition fdt_nodename_eq_ (fuel : nat) (offset s len : Z) : option bool :=
  '(p, olen) ← fdt_get_name fuel offset;
  Some (if (p =? NULL) || (olen <? len) then false
        else if negb (memcmp m p s (Z.to_nat len) =? 0) then false
        else if ld8 m (p + len) =? 0 then true
        else (memchr m s 64 (Z.to_nat len) =? 0) && (ld8 m (p + len) =? 64)).

(** ** Nodes by path *)
Fixpoint subnode_loop (fuel n : nat) (offset depth name namelen : Z) : option Z :=
  if (0 <=? offset) && (0 <=? depth) then
    found ← (if depth =? 1 then fdt_nodename_eq_ fuel offset name namelen else Some false);
    if (found : bool) then Some offset
    else
      match n with
      | O => None
      | S n =>
          '(offset, depth) ← fdt_next_node m fdt fuel offset (Some depth);
          subnode_loop fuel n offset (default 0 depth) name namelen
      end
  else Some (if depth <? 0 then - FDT_ERR_NOTFOUND else offset).

Definition fdt_subnode_offset_namelen (fuel : nat) (offset name namelen : Z) : option Z :=
  if fdt_ro_probe_ m fdt <? 0 then Some (fdt_ro_probe_ m fdt)
  else subnode_loop fuel fuel offset 0 name namelen.

Definition fdt_subnode_offset (fuel : nat) (parentoffset name : Z) : option Z :=
  len ← strlen fuel m name; fdt_subnode_offset_namelen fuel parentoffset name (s32 len).

(** [while (p < end)] over the components of a path. *)
Fixpoint skip_slashes (fuel : nat) (p end_ : Z) : option (Z * bool) :=
  if ld8 m p =? 47 then
    let p := p + 1 in
    if p =? end_ then Some (p, true)
    else match fuel with O => None | S fuel => skip_slashes fuel p end_ end
  else Some (p, false).
Fixpoint path_loop (fuel n : nat) (offset p end_ : Z) : option Z :=
  if p <? end_ then
    '(p, at_end) ← skip_slashes fuel p end_;
    if (at_end : bool) then Some offset
    else
      let q := memchr m p 47 (Z.to_nat (end_ - p)) in
      let q := if q =? NULL then end_ else q in
      offset ← fdt_subnode_offset_namelen fuel offset p (s32 (q - p));
      if offset <? 0 then Some offset
      else match n with O => None | S n => path_loop fuel n offset q end_ end
  else Some offset.

(** ** Properties *)
Fixpoint nextprop_loop (fuel n : nat) (offset : Z) : option Z :=
  '(tag, nextoffset) ← fdt_next_tag m fdt fuel offset;
  if tag =? FDT_END then Some (if 0 <=? nextoffset then - FDT_ERR_BADSTRUCTURE else nextoffset)
  else if tag =? FDT_PROP then Some offset
  else if tag =? FDT_NOP then match n with O => None | S n => nextprop_loop fuel n nextoffset end
  else Some (- FDT_ERR_NOTFOUND).
Definition nextprop_ (fuel : nat) (offset : Z) : option Z := nextprop_loop fuel fuel offset.

Definition fdt_first_property_offset (fuel : nat) (nodeoffset : Z) : option Z :=
  offset ← fdt_check_node_offset_ m fdt fuel nodeoffset;
  if offset <? 0 then Some offset else nextprop_ fuel offset.

Definition fdt_next_property_offset (fuel : nat) (offset : Z) : option Z :=
  offset ← fdt_check_prop_offset_ m fdt fuel offset;
  if offset <? 0 then Some offset else nextprop_ fuel offset.

(** The property and its length, or [NULL] and an error. *)
Definition fdt_get_property_by_offset_ (fuel : nat) (offset : Z) : option (Z * Z) :=
  err ← fdt_check_prop_offset_ m fdt fuel offset;
  Some (if err <? 0 then (NULL, err)
        else
          let prop := fdt_offset_ptr_ m fdt offset in
          (prop, s32 (fdt32_to_cpu (ld32 m (property_len prop))))).

Definition fdt_get_property_by_offset (fuel : nat) (offset : Z) : option (Z * Z) :=
  if fdt_version m fdt <? 0x10 then Some (NULL, - FDT_ERR_BADVERSION)
  else fdt_get_property_by_offset_ fuel offset.

(** The property, [*lenp] and [*poffset]. *)
Fixpoint get_property_loop (fuel n : nat) (offset name namelen : Z) : option (Z * Z * Z) :=
  if 0 <=? offset then
    '(prop, len) ← fdt_get_property_by_offset_ fuel offset;
    if prop =? NULL then Some (NULL, - FDT_ERR_INTERNAL, 0)
    else if fdt_string_eq_ (s32 (fdt32_to_cpu (ld32 m (property_nameoff prop)))) name namelen
    then Some (prop, len, offset)
    else match n with
         | O => None
         | S n => offset ← fdt_next_property_offset fuel offset; get_property_loop fuel n offset name namelen
         end
  else Some (NULL, offset, 0).
Definition fdt_get_property_namelen_ (fuel : nat) (offset name namelen : Z) : option (Z * Z * Z) :=
  offset ← fdt_first_property_offset fuel offset;
  get_property_loop fuel fuel offset name namelen.

Definition fdt_get_property_namelen (fuel : nat) (offset name namelen : Z) : option (Z * Z) :=
  if fdt_version m fdt <? 0x10 then Some (NULL, - FDT_ERR_BADVERSION)
  else fst <$> fdt_get_property_namelen_ fuel offset name namelen.

Definition fdt_get_property (fuel : nat) (nodeoffset name : Z) : option (Z * Z) :=
  len ← strlen fuel m name; fdt_get_property_namelen fuel nodeoffset name (s32 len).

(** The data of a property, aligned to 8 bytes before version 16. *)
Definition realigned (prop offset : Z) : Z :=
  if (fdt_version m fdt <? 0x10) && truthy (u64 (offset + FDT_PROPERTY_SIZEOF) mod 8)
     && (8 <=? fdt32_to_cpu (ld32 m (property_len prop)))
  then property_data prop + 4 else property_data prop.

Definition fdt_getprop_namelen (fuel : nat) (nodeoffset name namelen : Z) : option (Z * Z) :=
  '(prop, len, poffset) ← fdt_get_property_namelen_ fuel nodeoffset name namelen;
  Some (if prop =? NULL then NULL else realigned prop poffset, len).

(** The data, the name and the length; [names] is whether [namep] is given. *)
Definition fdt_getprop_by_offset (fuel : nat) (offset : Z) (names : bool) : option (Z * Z * Z) :=
  '(prop, len) ← fdt_get_property_by_offset_ fuel offset;
  Some (if prop =? NULL then (NULL, 0, len)
        else if names then
          let '(name, namelen) := fdt_get_string (s32 (fdt32_to_cpu (ld32 m (property_nameoff prop)))) in
          if name =? NULL then (NULL, 0, namelen) else (realigned prop offset, name, len)
        else (realigned prop offset, 0, len)).

Definition fdt_getprop (fuel : nat) (nodeoffset name : Z) : option (Z * Z) :=
  len ← strlen fuel m name; fdt_getprop_namelen fuel nodeoffset name (s32 len).

Definition fdt_get_phandle (fuel : nat) (nodeoffset : Z) : option Z :=
  '(php, len) ← fdt_getprop fuel nodeoffset (sym_literal "phandle");
  if (php =? NULL) || negb (len =? 4) then
    '(php, len) ← fdt_getprop fuel nodeoffset (sym_literal "linux,phandle");
    if (php =? NULL) || negb (len =? 4) then Some 0 else Some (fdt32_to_cpu (ld32 m php))
  else Some (fdt32_to_cpu (ld32 m php)).

(** ** Paths with aliases

    [fdt_path_offset_namelen] calls [fdt_path_offset] for the path of an alias, and
    [fdt_get_alias_namelen] calls it for the node of the aliases: [self] is the
    recursive call. *)
Definition path_offset_with (self : Z -> Z -> option Z) (fuel : nat) (path : Z) : option Z :=
  len ← strlen fuel m path; self path (s32 len).

Definition get_alias_with (self : Z -> Z -> option Z) (fuel : nat) (name namelen : Z) : option Z :=
  aliasoffset ← path_offset_with self fuel (sym_literal "/aliases");
  if aliasoffset <? 0 then Some NULL
  else fst <$> fdt_getprop_namelen fuel aliasoffset name namelen.

Fixpoint fdt_path_offset_namelen (fuel : nat) (path namelen : Z) : option Z :=
  if fdt_ro_probe_ m fdt <? 0 then Some (fdt_ro_probe_ m fdt)
  else
    let end_ := path + namelen in
    let p := path in
    if negb (ld8 m path =? 47) then
      match fuel with
      | O => None
      | S n =>
          let q := memchr m path 47 (Z.to_nat (end_ - p)) in
          let q := if q =? NULL then end_ else q in
          p ← get_alias_with (fdt_path_offset_namelen n) n p (s32 (q - p));
          if p =? NULL then Some (- FDT_ERR_BADPATH)
          else
            offset ← path_offset_with (fdt_path_offset_namelen n) n p;
            path_loop n n offset q end_
      end
    else path_loop fuel fuel 0 p end_.

Definition fdt_path_offset (fuel : nat) (path : Z) : option Z :=
  path_offset_with (fdt_path_offset_namelen fuel) fuel path.
Definition fdt_get_alias_namelen (fuel : nat) (name namelen : Z) : option Z :=
  get_alias_with (fdt_path_offset_namelen fuel) fuel name namelen.
Definition fdt_get_alias (fuel : nat) (name : Z) : option Z :=
  len ← strlen fuel m name; fdt_get_alias_namelen fuel name (s32 len).

(** ** Searches over all nodes

    [for (offset = ...; offset >= 0; offset = fdt_next_node (fdt, offset, NULL))]:
    the body stops with [Some result], or goes on with [None]. *)
Fixpoint for_each_node (fuel n : nat) (offset : Z) (body : Z -> option (option Z)) : option Z :=
  if 0 <=? offset then
    stop ← body offset;
    match stop with
    | Some r => Some r
    | None =>
        match n with
        | O => None
        | S n => '(offset, _) ← fdt_next_node m fdt fuel offset None; for_each_node fuel n offset body
        end
    end
  else Some offset.

Definition fdt_node_offset_by_prop_value (fuel : nat) (startoffset propname propval proplen : Z)
    : option Z :=
  if fdt_ro_probe_ m fdt <? 0 then Some (fdt_ro_probe_ m fdt)
  else
    '(offset, _) ← fdt_next_node m fdt fuel startoffset None;
    for_each_node fuel fuel offset (fun offset =>
      '(val, len) ← fdt_getprop fuel offset propname;
      Some (if negb (val =? NULL) && (len =? proplen) && (memcmp m val propval (Z.to_nat len) =? 0)
            then Some offset else None)).

Definition fdt_node_offset_by_phandle (fuel : nat) (phandle : Z) : option Z :=
  if (phandle =? 0) || (phandle =? 2 ^ 32 - 1) then Some (- FDT_ERR_BADPHANDLE)
  else if fdt_ro_probe_ m fdt <? 0 then Some (fdt_ro_probe_ m fdt)
  else
    '(offset, _) ← fdt_next_node m fdt fuel (-1) None;
    for_each_node fuel fuel offset (fun offset =>
      p ← fdt_get_phandle fuel offset; Some (if p =? phandle then Some offset else None)).

(** The loop of [fdt_find_max_phandle]: the result and the maximum. *)
Fixpoint max_phandle_loop (fuel n : nat) (offset max : Z) : option (Z * Z) :=
  '(offset, _) ← fdt_next_node m fdt fuel offset None;
  if offset <? 0 then Some (if offset =? - FDT_ERR_NOTFOUND then (0, max) else (offset, max))
  else
    value ← fdt_get_phandle fuel offset;
    match n with
    | O => None
    | S n => max_phandle_loop fuel n offset (if max <? value then value else max)
    end.
Definition fdt_find_max_phandle (fuel : nat) : option (Z * Z) := max_phandle_loop fuel fuel (-1) 0.

Definition fdt_generate_phandle (fuel : nat) : option (Z * Z) :=
  '(err, max) ← fdt_find_max_phandle fuel;
  Some (if err <? 0 then (err, 0)
        else if max =? FDT_MAX_PHANDLE then (- FDT_ERR_NOPHANDLES, 0)
        else (0, u32 (max + 1))).

(** [for (offset = 0, depth = 0; offset >= 0 && offset <= nodeoffset; ...)]: the
    result and [*nodedepth]. *)
Fixpoint supernode_loop (fuel n : nat) (nodeoffset supernodedepth offset depth supernodeoffset : Z)
    : option (Z * option Z) :=
  if (0 <=? offset) && (offset <=? nodeoffset) then
    let supernodeoffset := if depth =? supernodedepth then offset else supernodeoffset in
    if offset =? nodeoffset then
      Some (if depth <? supernodedepth then - FDT_ERR_NOTFOUND else supernodeoffset, Some depth)
    else
      match n with
      | O => None
      | S n =>
          '(offset, depth) ← fdt_next_node m fdt fuel offset (Some depth);
          supernode_loop fuel n nodeoffset supernodedepth offset (default 0 depth) supernodeoffset
      end
  else
    Some (if (offset =? - FDT_ERR_NOTFOUND) || (0 <=? offset) then - FDT_ERR_BADOFFSET
          else if offset =? - FDT_ERR_BADOFFSET then - FDT_ERR_BADSTRUCTURE else offset, None).
Definition fdt_supernode_atdepth_offset (fuel : nat) (nodeoffset supernodedepth : Z)
    : option (Z * option Z) :=
  if fdt_ro_probe_ m fdt <? 0 then Some (fdt_ro_probe_ m fdt, None)
  else if supernodedepth <? 0 then Some (- FDT_ERR_NOTFOUND, None)
  else supernode_loop fuel fuel nodeoffset supernodedepth 0 0 (- FDT_ERR_INTERNAL).

Definition fdt_node_depth (fuel : nat) (nodeoffset : Z) : option Z :=
  '(err, nodedepth) ← fdt_supernode_atdepth_offset fuel nodeoffset 0;
  Some (if truthy err then (if err <? 0 then err else - FDT_ERR_INTERNAL) else default 0 nodedepth).

Definition fdt_parent_offset (fuel : nat) (nodeoffset : Z) : option Z :=
  nodedepth ← fdt_node_depth fuel nodeoffset;
  if nodedepth <? 0 then Some nodedepth
  else fst <$> fdt_supernode_atdepth_offset fuel nodeoffset (nodedepth - 1).

(** ** Lists of strings *)
Fixpoint stringlist_loop (n : nat) (strlist listlen str len : Z) : option bool :=
  if len <=? listlen then
    if memcmp m str strlist (Z.to_nat (len + 1)) =? 0 then Some true
    else
      let p := memchr m strlist 0 (Z.to_nat listlen) in
      if p =? NULL then Some false
      else match n with
           | O => None
           | S n => stringlist_loop n (p + 1) (s32 (listlen - (p - strlist + 1))) str len
           end
  else Some false.
Definition fdt_stringlist_contains (fuel : nat) (strlist listlen str : Z) : option bool :=
  len ← strlen fuel m str; stringlist_loop fuel strlist listlen str (s32 len).

Definition fdt_node_check_compatible (fuel : nat) (nodeoffset compatible : Z) : option Z :=
  '(prop, len) ← fdt_getprop fuel nodeoffset (sym_literal "compatible");
  if prop =? NULL then Some len
  else found ← fdt_stringlist_contains fuel prop len compatible; Some (if (found : bool) then 0 else 1).

Definition fdt_node_offset_by_compatible (fuel : nat) (startoffset compatible : Z) : option Z :=
  if fdt_ro_probe_ m fdt <? 0 then Some (fdt_ro_probe_ m fdt)
  else
    '(offset, _) ← fdt_next_node m fdt fuel startoffset None;
    for_each_node fuel fuel offset (fun offset =>
      err ← fdt_node_check_compatible fuel offset compatible;
      Some (if (err <? 0) && negb (err =? - FDT_ERR_NOTFOUND) then Some err
            else if err =? 0 then Some offset else None)).

(** ** The full check

    The loop over the tags, with [depth] and [expect_end]. *)
Fixpoint check_full_loop (fuel n : nat) (nextoffset depth : Z) (expect_end : bool) : option Z :=
  let offset := nextoffset in
  '(tag, nextoffset) ← fdt_next_tag m fdt fuel offset;
  let again depth expect_end :=
    match n with O => None | S n => check_full_loop fuel n nextoffset depth expect_end end in
  if nextoffset <? 0 then Some nextoffset
  else if expect_end && negb (tag =? FDT_END) then Some (- FDT_ERR_BADLAYOUT)
  else if tag =? FDT_NOP then again depth expect_end
  else if tag =? FDT_END then Some (if negb (depth =? 0) then - FDT_ERR_BADSTRUCTURE else 0)
  else if tag =? FDT_BEGIN_NODE then
    let depth := u32 (depth + 1) in
    if INT32_MAX <? depth then Some (- FDT_ERR_BADSTRUCTURE)
    else if depth =? 1 then
      '(name, len) ← fdt_get_name fuel offset;
      if negb (ld8 m name =? 0) || truthy len then Some (- FDT_ERR_BADLAYOUT) else again depth expect_end
    else again depth expect_end
  else if tag =? FDT_END_NODE then
    if depth =? 0 then Some (- FDT_ERR_BADSTRUCTURE)
    else again (depth - 1) (if depth - 1 =? 0 then true else expect_end)
  else if tag =? FDT_PROP then
    '(prop, _, err) ← fdt_getprop_by_offset fuel offset true;
    if prop =? NULL then Some err else again depth expect_end
  else Some (- FDT_ERR_INTERNAL).

Definition fdt_check_full (fuel : nat) (bufsize : Z) : option Z :=
  if bufsize <? FDT_V1_SIZE then Some (- FDT_ERR_TRUNCATED)
  else
    let err := fdt_check_header m fdt in
    if negb (err =? 0) then Some err
    else if bufsize <? fdt_totalsize m fdt then Some (- FDT_ERR_TRUNCATED)
    else
      num_memrsv ← fdt_num_mem_rsv fuel;
      if num_memrsv <? 0 then Some num_memrsv
      else check_full_loop fuel fuel 0 0 false.
End FdtRo.
