(* ===== verification/FdtMonad.v ===== *)
(** * FdtMonad: functions that change a blob

    The writing functions of libfdt change the memory, and their loops take fuel: a
    computation is a function of the memory with a result in [option]. The setters of
    the header fields (libfdt.h) are here. *)
From Stdlib Require Import ZArith Lia.
From stdpp Require Import prelude gmap list strings.
From S2P Require Import Prelude Memory TString Fdt.
Open Scope Z_scope.

Definition W (A : Type) : Type := memory -> option (A * memory).

#[export] Instance W_ret : MRet W := fun A x m => Some (x, m).
#[export] Instance W_bind : MBind W := fun A B f x m => '(a, m') ← x m; f a m'.

(** A value of the memory, the result of a reading function, a change of memory. *)
Definition reads {A} (f : memory -> A) : W A := fun m => Some (f m, m).
Definition runs {A} (f : memory -> option A) : W A := fun m => a ← f m; Some (a, m).
Definition writes (f : memory -> memory) : W unit := fun m => Some (tt, f m).

(** The fuel of a loop ran out. *)
Definition no_fuel {A} : W A := fun _ => None.

Lemma W_bind_run {A B} (x : W A) (f : A -> W B) m a m' :
  x m = Some (a, m') -> (x ≫= f) m = f a m'.
Proof. intros E. unfold mbind, W_bind. by rewrite E. Qed.
Lemma reads_run {A B} (g : memory -> A) (f : A -> W B) m : (reads g ≫= f) m = f (g m) m.
Proof. done. Qed.
Lemma runs_run {A B} (g : memory -> option A) (f : A -> W B) m a :
  g m = Some a -> (runs g ≫= f) m = f a m.
Proof. intros E. unfold mbind, W_bind, runs. by rewrite E. Qed.
Lemma writes_run {B} (g : memory -> memory) (f : unit -> W B) m : (writes g ≫= f) m = f tt (g m).
Proof. done. Qed.
Lemma W_ret_run {A} (x : A) m : (mret x : W A) m = Some (x, m).
Proof. done. Qed.

(** ** Setters of the header *)
Definition fdt_set_header (fdt field v : Z) (m : memory) : memory :=
  st32 m (fdt + field) (cpu_to_fdt32 (u32 v)).
Definition fdt_set_magic (fdt : Z) := fdt_set_header fdt header_magic.
Definition fdt_set_totalsize (fdt : Z) := fdt_set_header fdt header_totalsize.
Definition fdt_set_off_dt_struct (fdt : Z) := fdt_set_header fdt header_off_dt_struct.
Definition fdt_set_off_dt_strings (fdt : Z) := fdt_set_header fdt header_off_dt_strings.
Definition fdt_set_off_mem_rsvmap (fdt : Z) := fdt_set_header fdt header_off_mem_rsvmap.
Definition fdt_set_version (fdt : Z) := fdt_set_header fdt header_version.
Definition fdt_set_last_comp_version (fdt : Z) := fdt_set_header fdt header_last_comp_version.
Definition header_boot_cpuid_phys : Z := 28.
Definition fdt_boot_cpuid_phys (m : memory) (fdt : Z) : Z := fdt_get_header m fdt header_boot_cpuid_phys.
Definition fdt_set_boot_cpuid_phys (fdt : Z) := fdt_set_header fdt header_boot_cpuid_phys.
Definition fdt_set_size_dt_strings (fdt : Z) := fdt_set_header fdt header_size_dt_strings.
Definition fdt_set_size_dt_struct (fdt : Z) := fdt_set_header fdt header_size_dt_struct.

(** The size of a tag and its data, computed with 64 bits. *)
Definition FDT_TAGALIGN64 (x : Z) : Z := u64 (FDT_ALIGN (u64 x) FDT_TAGSIZE).
(** A length converted to [size_t] for [memcpy] and its like. *)
Definition count (len : Z) : nat := Z.to_nat (u64 len).

Definition FDT_ERR_EXISTS : Z := 2.
Definition FDT_ERR_BADNCELLS : Z := 14.
Definition FDT_ERR_BADVALUE : Z := 15.
Definition FDT_ERR_BADOVERLAY : Z := 16.
Definition FDT_ERR_BADFLAGS : Z := 18.
Definition FDT_HEADER_SIZEOF : Z := 40.
Definition NODE_HEADER_SIZEOF : Z := 4.
