(* ===== verification/FdtEdit.v ===== *)
(** * FdtEdit: changes of memory under an encoded blob

    Words and blocks after stores and copies, header fields after a setter, and the
    replacement of a token by one of the same size. *)
From Stdlib Require Import ZArith Lia.
From stdpp Require Import prelude gmap list strings.
From S2P Require Import Prelude Memory TString Fdt FdtTokens FdtMonad.
Open Scope Z_scope.

(** ** Words and blocks *)
Lemma block_st32 m a v : is_u32 v -> block (st32 m a (cpu_to_fdt32 v)) a (be_bytes v).
Proof.
  intros Hv i b Hi. pose proof (lookup_lt_Some _ _ _ Hi) as Hl. change (length (be_bytes v)) with 4%nat in Hl.
  rewrite rd_store_in by done. change (cpu_to_fdt32 v) with (fdt32_to_cpu v). rewrite fdt32_to_cpu_eq.
  unfold be_combine. do 4 (destruct i as [|i]; [injection Hi as <-; unfold u8; simpl Z.of_nat;
    change (256 ^ 0) with 1; change (256 ^ 1) with 256; change (256 ^ 2) with (2 ^ 16); change (256 ^ 3) with (2 ^ 24);
    Z.to_euclidean_division_equations; lia|]). lia.
Qed.
Lemma block_same_outside R m m' a l :
  same_outside R m m' -> (forall x, within a (length l) x -> ~ R x) -> block m a l -> block m' a l.
Proof.
  intros Hs HR Hb i v Hi. rewrite <- (Hb i v Hi). symmetry. apply Hs, HR.
  apply lookup_lt_Some in Hi. unfold within. lia.
Qed.
Lemma block_copied m d s n m' l :
  copied m d s n m' -> length l = n -> block m s l -> block m' d l.
Proof.
  intros Hc Hn Hb i v Hi. rewrite Hc. pose proof (lookup_lt_Some _ _ _ Hi).
  rewrite decide_True by (unfold within; lia). rewrite <- (Hb i v Hi). f_equal. lia.
Qed.
Lemma block_zeros m a n : (forall x, within a n x -> rd m x = 0) -> block m a (replicate n 0).
Proof.
  intros H i v [-> Hi]%lookup_replicate. apply H. unfold within. lia.
Qed.
Lemma cstr_same_outside R m m' a l :
  same_outside R m m' -> (forall x, within a (S (length l)) x -> ~ R x) -> cstr m a l -> cstr m' a l.
Proof. intros Hs HR Hc. apply (cstr_frame m); [done|]. intros x Hx. symmetry. by apply Hs, HR. Qed.

Lemma FDT_TAGALIGN64_eq x : 0 <= x < 2 ^ 31 -> FDT_TAGALIGN64 x = up4 x /\ forall c, 0 <= c < 2 ^ 31 -> u64 (c + FDT_TAGALIGN64 x) = c + up4 x.
Proof.
  intros Hx. assert (E : FDT_TAGALIGN64 x = up4 x).
  { unfold FDT_TAGALIGN64, FDT_ALIGN, FDT_TAGSIZE. rewrite (u64_id x) by lia.
    change (Z.lnot (4 - 1)) with (Z.lnot (Z.ones 2)). rewrite <- Z.ldiff_land, Z.ldiff_ones_r by lia.
    rewrite Z.shiftr_div_pow2, Z.shiftl_mul_pow2 by lia. change (2 ^ 2) with 4.
    replace (x + 4 - 1) with (x + 3) by lia. pose proof (up4_range x). fold (up4 x). apply u64_id. lia. }
  split; [done|]. intros c Hc. rewrite E. pose proof (up4_range x). apply u64_id. lia.
Qed.

(** ** Header fields *)
Lemma get_set_header m fdt f v : is_u32 v -> fdt_get_header (fdt_set_header fdt f v m) fdt f = v.
Proof. intros Hv. unfold fdt_get_header, fdt_set_header. rewrite u32_id by done. apply fdt32_block; [done|by apply block_st32]. Qed.
Lemma set_header_outside (R : Z -> Prop) fdt f v m : (forall x, within (fdt + f) 4 x -> R x) ->
  same_outside R m (fdt_set_header fdt f v m).
Proof. intros HR. by apply same_outside_store. Qed.
Lemma header_same_outside R m m' fdt f :
  same_outside R m m' -> (forall x, within (fdt + f) 4 x -> ~ R x) -> fdt_get_header m' fdt f = fdt_get_header m fdt f.
Proof. intros Hs HR. unfold fdt_get_header. f_equal. by apply (load_same_outside R). Qed.
Lemma get_set_header_ne m fdt f f' v : f + 4 <= f' \/ f' + 4 <= f ->
  fdt_get_header (fdt_set_header fdt f v m) fdt f' = fdt_get_header m fdt f'.
Proof.
  intros Hne. apply (header_same_outside (within (fdt + f) 4)); [by apply set_header_outside|].
  unfold within. intros x Hx. simpl in *. lia.
Qed.

Lemma block_pad m a l n :
  n = up4 (Z.of_nat (length l)) -> block m a l -> (forall x, a + Z.of_nat (length l) <= x < a + n -> rd m x = 0) ->
  block m a (pad l).
Proof.
  intros -> Hb H0. unfold pad. apply block_app. split; [done|]. apply block_zeros. intros x Hx. apply H0.
  unfold within in Hx. lia.
Qed.

Lemma block_prop_padded m a no data :
  block m a (token_bytes (TProp no data)) <->
  block m a (be_bytes FDT_PROP) /\ block m (a + 4) (be_bytes (Z.of_nat (length data))) /\
  block m (a + 8) (be_bytes no) /\ block m (a + 12) (pad data).
Proof.
  unfold token_bytes. rewrite !block_app. change (Z.of_nat (length (be_bytes _))) with 4.
  replace (a + 4 + 4 + 4) with (a + 12) by lia. replace (a + 4 + 4) with (a + 8) by lia. done.
Qed.
Lemma block_prop m a no data :
  block m a (token_data (TProp no data)) <->
  block m a (be_bytes FDT_PROP) /\ block m (a + 4) (be_bytes (Z.of_nat (length data))) /\
  block m (a + 8) (be_bytes no) /\ block m (a + 12) data.
Proof.
  unfold token_data. rewrite !block_app. change (Z.of_nat (length (be_bytes _))) with 4.
  replace (a + 4 + 4 + 4) with (a + 12) by lia. replace (a + 4 + 4) with (a + 8) by lia. done.
Qed.

(** [header_eval] evaluates a field after setters. *)
Ltac header_unfold :=
  unfold fdt_magic, fdt_totalsize, fdt_off_dt_struct, fdt_off_dt_strings, fdt_off_mem_rsvmap, fdt_version,
    fdt_last_comp_version, fdt_boot_cpuid_phys, fdt_size_dt_strings, fdt_size_dt_struct,
    fdt_set_magic, fdt_set_totalsize, fdt_set_off_dt_struct, fdt_set_off_dt_strings, fdt_set_off_mem_rsvmap,
    fdt_set_version, fdt_set_last_comp_version, fdt_set_boot_cpuid_phys, fdt_set_size_dt_strings, fdt_set_size_dt_struct.
Ltac header_offsets :=
  unfold header_magic, header_totalsize, header_off_dt_struct, header_off_dt_strings, header_off_mem_rsvmap, header_version,
    header_last_comp_version, header_boot_cpuid_phys, header_size_dt_strings, header_size_dt_struct in *.
Ltac header_skip := header_unfold; rewrite ?get_set_header_ne by (header_offsets; lia).
Ltac header_eval := header_skip; apply get_set_header; first [lia|vm_compute; split; congruence].

(** Fields that did not change: [F1] to [F9] are the equations of the fields with [P]. *)
Lemma headers_eq fdt fdt' m m' (P : Z -> Prop) :
  (forall f, P f -> fdt_get_header m' fdt' f = fdt_get_header m fdt f) ->
  (P header_magic -> fdt_magic m' fdt' = fdt_magic m fdt) /\
  (P header_totalsize -> fdt_totalsize m' fdt' = fdt_totalsize m fdt) /\
  (P header_off_dt_struct -> fdt_off_dt_struct m' fdt' = fdt_off_dt_struct m fdt) /\
  (P header_off_dt_strings -> fdt_off_dt_strings m' fdt' = fdt_off_dt_strings m fdt) /\
  (P header_off_mem_rsvmap -> fdt_off_mem_rsvmap m' fdt' = fdt_off_mem_rsvmap m fdt) /\
  (P header_version -> fdt_version m' fdt' = fdt_version m fdt) /\
  (P header_last_comp_version -> fdt_last_comp_version m' fdt' = fdt_last_comp_version m fdt) /\
  (P header_size_dt_strings -> fdt_size_dt_strings m' fdt' = fdt_size_dt_strings m fdt) /\
  (P header_size_dt_struct -> fdt_size_dt_struct m' fdt' = fdt_size_dt_struct m fdt).
Proof. intros H. split_and!; intros HP; by apply H. Qed.
Ltac use_field F := first [specialize (F ltac:(header_offsets; lia))|clear F].
Ltac headers_same Hh :=
  let F1 := fresh "F1" in let F2 := fresh "F2" in let F3 := fresh "F3" in let F4 := fresh "F4" in
  let F5 := fresh "F5" in let F6 := fresh "F6" in let F7 := fresh "F7" in let F8 := fresh "F8" in let F9 := fresh "F9" in
  destruct (headers_eq _ _ _ _ _ Hh) as (F1 & F2 & F3 & F4 & F5 & F6 & F7 & F8 & F9);
  use_field F1; use_field F2; use_field F3; use_field F4; use_field F5; use_field F6; use_field F7; use_field F8; use_field F9.

(** ** A token replaced by one of the same size *)
Lemma blob_update m m' fdt l1 t t' l2 :
  blob_ok m fdt (l1 ++ t :: l2) -> 40 <= fdt_off_dt_struct m fdt -> token_size t' = token_size t -> token_ok t' ->
  let a := fdt + fdt_off_dt_struct m fdt + size l1 in
  same_outside (fun x => a <= x < a + token_size t) m m' -> block m' a (token_data t') ->
  blob_ok m' fdt (l1 ++ t' :: l2) /\ (forall f, 0 <= f <= 36 -> fdt_get_header m' fdt f = fdt_get_header m fdt f).
Proof.
  intros [Hf Hp Hv Ht Hfit Hst Htok Hb] Hoff Hsz Htok' a Hs Hbt. pose proof (size_nonneg l1). pose proof (token_size_pos t).
  assert (Hh : forall f, 0 <= f <= 36 -> fdt_get_header m' fdt f = fdt_get_header m fdt f).
  { intros f Hf'. apply (header_same_outside _ _ _ _ _ Hs). unfold a, within. intros x Hx. lia. }
  split; [|done].
  assert (Esz : size (l1 ++ t' :: l2) = size (l1 ++ t :: l2)) by (rewrite !size_app; simpl; lia).
  assert (Eo : fdt_off_dt_struct m' fdt = fdt_off_dt_struct m fdt) by (apply Hh; vm_compute; split; congruence).
  assert (Et : fdt_totalsize m' fdt = fdt_totalsize m fdt) by (apply Hh; vm_compute; split; congruence).
  assert (Ev : fdt_version m' fdt = fdt_version m fdt) by (apply Hh; vm_compute; split; congruence).
  assert (Es : fdt_size_dt_struct m' fdt = fdt_size_dt_struct m fdt) by (apply Hh; vm_compute; split; congruence).
  split; rewrite ?Eo, ?Et, ?Ev, ?Es, ?Esz; try done.
  - unfold fdt_ro_probe_. rewrite Et, Ev, Es. unfold fdt_magic, fdt_last_comp_version.
    rewrite !Hh by (vm_compute; split; congruence). exact Hp.
  - apply Forall_app in Htok as [Ht1 Ht2]. apply Forall_cons in Ht2 as [_ Ht2]. apply Forall_app. split; [done|].
    apply Forall_cons. by split.
  - apply encoded_app in Hb as [Hb1 [_ Hb2]]. apply encoded_app. split; [|split; [done|rewrite Hsz]].
    + apply (encoded_frame m); [|done]. intros x Hx. symmetry. apply Hs. unfold a. lia.
    + apply (encoded_frame m); [|done]. intros x Hx. symmetry. apply Hs. unfold a. lia.
Qed.

(** A change of the header, or of bytes outside the structure block. *)
Lemma blob_header R m m' fdt ts :
  blob_ok m fdt ts -> same_outside R m m' ->
  (forall x, fdt + fdt_off_dt_struct m fdt <= x < fdt + fdt_off_dt_struct m fdt + size ts -> ~ R x) ->
  fdt_off_dt_struct m' fdt = fdt_off_dt_struct m fdt -> fdt_version m' fdt = fdt_version m fdt ->
  fdt_size_dt_struct m' fdt = fdt_size_dt_struct m fdt -> 0 <= fdt_ro_probe_ m' fdt ->
  fdt_totalsize m' fdt + 3 < 2 ^ 31 -> fdt_off_dt_struct m fdt + size ts <= fdt_totalsize m' fdt ->
  blob_ok m' fdt ts.
Proof.
  intros [Hf Hp Hv Ht Hfit Hst Htok Hb] Hs HR Eo Ev Es Hp' Ht' Hfit'. split; rewrite ?Eo, ?Ev, ?Es; try done.
  apply (encoded_frame m); [|done]. intros x Hx. symmetry. by apply Hs, HR.
Qed.
