(* ===== verification/FdtSw.v ===== *)
(** * FdtSw: sequential writing of a flattened device tree (libkern/libfdt/fdt_sw.c)

    A blob is written from its beginning: the reserve map, then the nodes and
    properties in order; the strings grow down from the end of the buffer until
    [fdt_finish] moves them behind the structure. *)
From Stdlib Require Import ZArith Lia.
From stdpp Require Import prelude gmap list strings.
From S2P Require Import Prelude Memory TString Kernel Fdt FdtMonad FdtRo.
Open Scope Z_scope.

Definition FDT_CREATE_FLAG_NO_NAME_DEDUP : Z := 0x1.
Definition FDT_CREATE_FLAGS_ALL : Z := FDT_CREATE_FLAG_NO_NAME_DEDUP.

Section Sw.
Context (fdt : Z).

(** ** The states *)
Definition fdt_sw_probe_ (m : memory) : Z :=
  if fdt_magic m fdt =? FDT_MAGIC then - FDT_ERR_BADSTATE
  else if negb (fdt_magic m fdt =? FDT_SW_MAGIC) then - FDT_ERR_BADMAGIC
  else 0.

Definition fdt_sw_probe_memrsv_ (m : memory) : Z :=
  let err := fdt_sw_probe_ m in
  if truthy err then err
  else if negb (fdt_off_dt_strings m fdt =? 0) then - FDT_ERR_BADSTATE
  else 0.

Definition fdt_sw_probe_struct_ (m : memory) : Z :=
  let err := fdt_sw_probe_ m in
  if truthy err then err
  else if negb (fdt_off_dt_strings m fdt =? fdt_totalsize m fdt) then - FDT_ERR_BADSTATE
  else 0.

Definition sw_flags (m : memory) : Z := fdt_last_comp_version m fdt.

(** The address of [len] new bytes of the structure block, or [NULL]. *)
Definition fdt_grab_space_ (len : Z) : W Z :=
  offset ← reads (fun m => fdt_size_dt_struct m fdt);
  spaceleft ← reads (fun m => u32 (fdt_totalsize m fdt - fdt_off_dt_struct m fdt - fdt_size_dt_strings m fdt));
  if (u64 (offset + len) <? offset) || (spaceleft <? u64 (offset + len)) then mret NULL
  else
    writes (fdt_set_size_dt_struct fdt (offset + len));;
    reads (fun m => fdt_offset_ptr_ m fdt (s32 offset)).

(** ** The reserve map *)
Definition fdt_add_reservemap_entry (addr size : Z) : W Z :=
  err ← reads fdt_sw_probe_memrsv_;
  if truthy err then mret err
  else
    offset ← reads (fun m => s32 (fdt_off_dt_struct m fdt));
    totalsize ← reads (fun m => fdt_totalsize m fdt);
    if totalsize <? u64 (offset + RESERVE_ENTRY_SIZEOF) then mret (- FDT_ERR_NOSPACE)
    else
      let re := fdt + offset in
      writes (fun m => st64 m (reserve_entry_address re) (cpu_to_fdt64 addr));;
      writes (fun m => st64 m (reserve_entry_size re) (cpu_to_fdt64 size));;
      writes (fdt_set_off_dt_struct fdt (offset + RESERVE_ENTRY_SIZEOF));;
      mret 0.

Definition fdt_finish_reservemap : W Z :=
  err ← fdt_add_reservemap_entry 0 0;
  if truthy err then mret err
  else
    totalsize ← reads (fun m => fdt_totalsize m fdt);
    writes (fdt_set_off_dt_strings fdt totalsize);;
    mret 0.

(** ** Nodes *)
Definition fdt_begin_node (fuel : nat) (name : Z) : W Z :=
  err ← reads fdt_sw_probe_struct_;
  if truthy err then mret err
  else
    len ← runs (fun m => strlen fuel m name);
    let namelen := s32 (len + 1) in
    nh ← fdt_grab_space_ (u64 (NODE_HEADER_SIZEOF + FDT_TAGALIGN64 namelen));
    if nh =? NULL then mret (- FDT_ERR_NOSPACE)
    else
      writes (fun m => st32 m nh (cpu_to_fdt32 FDT_BEGIN_NODE));;
      writes (fun m => memcpy m (node_header_name nh) name (count namelen));;
      mret 0.

Definition fdt_end_node : W Z :=
  err ← reads fdt_sw_probe_struct_;
  if truthy err then mret err
  else
    en ← fdt_grab_space_ FDT_TAGSIZE;
    if en =? NULL then mret (- FDT_ERR_NOSPACE)
    else writes (fun m => st32 m en (cpu_to_fdt32 FDT_END_NODE));; mret 0.

(** ** Properties

    The offset of a string is negative, from the end of the buffer. *)
Definition fdt_add_string_ (fuel : nat) (s : Z) : W Z :=
  strtab ← reads (fun m => fdt + fdt_totalsize m fdt);
  strtabsize ← reads (fun m => fdt_size_dt_strings m fdt);
  len ← runs (fun m => strlen fuel m s);
  let len := u32 (len + 1) in
  let offset := u32 (strtabsize + len) in
  struct_top ← reads (fun m => u32 (fdt_off_dt_struct m fdt + fdt_size_dt_struct m fdt));
  totalsize ← reads (fun m => fdt_totalsize m fdt);
  if u32 (totalsize - offset) <? struct_top then mret 0
  else
    writes (fun m => memcpy m (strtab - offset) s (count len));;
    writes (fdt_set_size_dt_strings fdt (strtabsize + len));;
    mret (s32 (- offset)).

Definition fdt_del_last_string_ (fuel : nat) (s : Z) : W unit :=
  strtabsize ← reads (fun m => s32 (fdt_size_dt_strings m fdt));
  len ← runs (fun m => strlen fuel m s);
  writes (fdt_set_size_dt_strings fdt (strtabsize - s32 (len + 1))).

(** The offset and [*allocated]. *)
Definition fdt_find_add_string_ (fuel : nat) (s : Z) : W (Z * bool) :=
  strtab ← reads (fun m => fdt + fdt_totalsize m fdt);
  strtabsize ← reads (fun m => s32 (fdt_size_dt_strings m fdt));
  p ← runs (fun m => fdt_find_string_ m fuel (strtab - strtabsize) strtabsize s);
  if negb (p =? NULL) then mret (s32 (p - strtab), false)
  else
    offset ← fdt_add_string_ fuel s;
    mret (offset, true).

(** The result and [*valp], which is [None] when it is not set. *)
Definition fdt_property_placeholder (fuel : nat) (name len : Z) : W (Z * option Z) :=
  err ← reads fdt_sw_probe_struct_;
  if truthy err then mret (err, None)
  else
    flags ← reads sw_flags;
    '(nameoff, allocated) ←
      (if truthy (Z.land flags FDT_CREATE_FLAG_NO_NAME_DEDUP)
       then nameoff ← fdt_add_string_ fuel name; mret (nameoff, true)
       else fdt_find_add_string_ fuel name);
    if nameoff =? 0 then mret (- FDT_ERR_NOSPACE, None)
    else
      prop ← fdt_grab_space_ (u64 (FDT_PROPERTY_SIZEOF + FDT_TAGALIGN64 len));
      if prop =? NULL then
        (if (allocated : bool) then fdt_del_last_string_ fuel name else mret tt);;
        mret (- FDT_ERR_NOSPACE, None)
      else
        writes (fun m => st32 m prop (cpu_to_fdt32 FDT_PROP));;
        writes (fun m => st32 m (property_nameoff prop) (cpu_to_fdt32 (u32 nameoff)));;
        writes (fun m => st32 m (property_len prop) (cpu_to_fdt32 (u32 len)));;
        mret (0, Some (property_data prop)).

Definition fdt_property (fuel : nat) (name val len : Z) : W Z :=
  '(ret, ptr) ← fdt_property_placeholder fuel name len;
  if truthy ret then mret ret
  else
    writes (fun m => memcpy m (default NULL ptr) val (count len));;
    mret 0.

(** ** The end

    The loop over the tags, which makes the offsets of the names relative to the
    beginning of the strings; the result is the last [nextoffset]. *)
Definition finish_prop (offset : Z) : W unit :=
  prop ← reads (fun m => fdt_offset_ptr_ m fdt offset);
  nameoff ← reads (fun m => s32 (fdt32_to_cpu (ld32 m (property_nameoff prop))));
  nameoff ← reads (fun m => s32 (nameoff + fdt_size_dt_strings m fdt));
  writes (fun m => st32 m (property_nameoff prop) (cpu_to_fdt32 (u32 nameoff))).
Fixpoint finish_loop (fuel n : nat) (offset : Z) : W Z :=
  '(tag, nextoffset) ← runs (fun m => fdt_next_tag m fdt fuel offset);
  if negb (tag =? FDT_END) then
    _ ← (if tag =? FDT_PROP then finish_prop offset else mret tt);
    match n with O => no_fuel | S n => finish_loop fuel n nextoffset end
  else mret nextoffset.

Definition fdt_finish (fuel : nat) : W Z :=
  err ← reads fdt_sw_probe_struct_;
  if truthy err then mret err
  else
    end_ ← fdt_grab_space_ 4;
    if end_ =? NULL then mret (- FDT_ERR_NOSPACE)
    else
      writes (fun m => st32 m end_ (cpu_to_fdt32 FDT_END));;
      oldstroffset ← reads (fun m => s32 (fdt_totalsize m fdt - fdt_size_dt_strings m fdt));
      newstroffset ← reads (fun m => s32 (fdt_off_dt_struct m fdt + fdt_size_dt_struct m fdt));
      size ← reads (fun m => fdt_size_dt_strings m fdt);
      writes (fun m => memmove m (fdt + newstroffset) (fdt + oldstroffset) (Z.to_nat size));;
      writes (fdt_set_off_dt_strings fdt newstroffset);;
      nextoffset ← finish_loop fuel fuel 0;
      if nextoffset <? 0 then mret nextoffset
      else
        size ← reads (fun m => fdt_size_dt_strings m fdt);
        writes (fdt_set_totalsize fdt (newstroffset + size));;
        writes (fdt_set_last_comp_version fdt FDT_FIRST_SUPPORTED_VERSION);;
        writes (fdt_set_magic fdt FDT_MAGIC);;
        mret 0.

(** ** Values of one cell or two (libfdt.h) *)
Context `{Symbols}.
Definition fdt_property_u32 (fuel : nat) (name val : Z) : W Z :=
  let tmp := sym_local "fdt_property_u32" "tmp" in
  writes (fun m => st32 m tmp (cpu_to_fdt32 val));;
  fdt_property fuel name tmp 4.
Definition fdt_property_u64 (fuel : nat) (name val : Z) : W Z :=
  let tmp := sym_local "fdt_property_u64" "tmp" in
  writes (fun m => st64 m tmp (cpu_to_fdt64 val));;
  fdt_property fuel name tmp 8.
Definition fdt_property_cell (fuel : nat) (name val : Z) : W Z := fdt_property_u32 fuel name val.
Definition fdt_property_string (fuel : nat) (name str : Z) : W Z :=
  len ← runs (fun m => strlen fuel m str);
  fdt_property fuel name str (s32 (len + 1)).
End Sw.

(** ** Creation and moves *)
Definition fdt_create_with_flags (buf bufsize flags : Z) : W Z :=
  let hdrsize := FDT_ALIGN FDT_HEADER_SIZEOF RESERVE_ENTRY_SIZEOF in
  let fdt := buf in
  if bufsize <? hdrsize then mret (- FDT_ERR_NOSPACE)
  else if truthy (Z.land flags (u32 (Z.lnot FDT_CREATE_FLAGS_ALL))) then mret (- FDT_ERR_BADFLAGS)
  else
    writes (fun m => memset m buf 0 (count bufsize));;
    writes (fdt_set_magic fdt FDT_SW_MAGIC);;
    writes (fdt_set_version fdt FDT_LAST_SUPPORTED_VERSION);;
    writes (fdt_set_last_comp_version fdt flags);;
    writes (fdt_set_totalsize fdt bufsize);;
    writes (fdt_set_off_mem_rsvmap fdt hdrsize);;
    off ← reads (fun m => fdt_off_mem_rsvmap m fdt);
    writes (fdt_set_off_dt_struct fdt off);;
    writes (fdt_set_off_dt_strings fdt 0);;
    mret 0.

Definition fdt_create (buf bufsize : Z) : W Z := fdt_create_with_flags buf bufsize 0.

Definition fdt_resize (fdt buf bufsize : Z) : W Z :=
  err ← reads (fdt_sw_probe_ fdt);
  if truthy err then mret err
  else if bufsize <? 0 then mret (- FDT_ERR_NOSPACE)
  else
    headsize ← reads (fun m => u32 (fdt_off_dt_struct m fdt + fdt_size_dt_struct m fdt));
    tailsize ← reads (fun m => fdt_size_dt_strings m fdt);
    totalsize ← reads (fun m => fdt_totalsize m fdt);
    if totalsize <? headsize + tailsize then mret (- FDT_ERR_INTERNAL)
    else if u32 bufsize <? headsize + tailsize then mret (- FDT_ERR_NOSPACE)
    else
      let oldtail := fdt + totalsize - tailsize in
      let newtail := buf + bufsize - tailsize in
      (if buf <=? fdt then
         writes (fun m => memmove m buf fdt (Z.to_nat headsize));;
         writes (fun m => memmove m newtail oldtail (Z.to_nat tailsize))
       else
         writes (fun m => memmove m newtail oldtail (Z.to_nat tailsize));;
         writes (fun m => memmove m buf fdt (Z.to_nat headsize)));;
      writes (fdt_set_totalsize buf bufsize);;
      off ← reads (fun m => fdt_off_dt_strings m buf);
      (if truthy off then writes (fdt_set_off_dt_strings buf bufsize) else mret tt);;
      mret 0.
