(* ===== verification/FdtRw.v ===== *)
(** * FdtRw: changing a flattened device tree (libkern/libfdt/fdt_wip.c, fdt_rw.c)

    The functions of fdt_wip.c write into the blob without moving anything; those of
    fdt_rw.c open or close gaps in its blocks with [fdt_splice_]. A function of fdt_rw.c
    with the name of one of fdt_sw.c has the prefix [rw_] here. *)
From Stdlib Require Import ZArith Lia.
From stdpp Require Import prelude gmap list strings.
From S2P Require Import Prelude Memory TString Kernel Fdt FdtMonad FdtRo FdtSw.
Open Scope Z_scope.

Section Rw.
Context `{Symbols} (fdt : Z).

(** ** In place (fdt_wip.c) *)
Definition fdt_setprop_inplace_namelen_partial (fuel : nat) (nodeoffset name namelen idx val len : Z) : W Z :=
  '(propval, proplen) ← runs (fun m => fdt_getprop_namelen m fdt fuel nodeoffset name namelen);
  if propval =? NULL then mret proplen
  else if u32 proplen <? u32 (len + idx) then mret (- FDT_ERR_NOSPACE)
  else writes (fun m => memcpy m (propval + idx) val (count len));; mret 0.

Definition fdt_setprop_inplace (fuel : nat) (nodeoffset name val len : Z) : W Z :=
  '(propval, proplen) ← runs (fun m => fdt_getprop m fdt fuel nodeoffset name);
  if propval =? NULL then mret proplen
  else if negb (proplen =? len) then mret (- FDT_ERR_NOSPACE)
  else
    namelen ← runs (fun m => strlen fuel m name);
    fdt_setprop_inplace_namelen_partial fuel nodeoffset name (s32 namelen) 0 val len.

(** One word for each multiple of 4 below [len]. *)
Fixpoint nop_words (n : nat) (p : Z) (m : memory) : memory :=
  match n with
  | O => m
  | S n => nop_words n (p + 4) (st32 m p (cpu_to_fdt32 FDT_NOP))
  end.
Definition fdt_nop_region_ (start len : Z) : memory -> memory := nop_words (Z.to_nat ((len + 3) / 4)) start.

Definition fdt_nop_property (fuel : nat) (nodeoffset name : Z) : W Z :=
  '(prop, len) ← runs (fun m => fdt_get_property m fdt fuel nodeoffset name);
  if prop =? NULL then mret len
  else writes (fdt_nop_region_ prop (s32 (len + FDT_PROPERTY_SIZEOF)));; mret 0.

(** [while ((offset >= 0) && (depth >= 0))]. *)
Fixpoint node_end_loop (m : memory) (fuel n : nat) (offset depth : Z) : option Z :=
  if (0 <=? offset) && (0 <=? depth) then
    match n with
    | O => None
    | S n =>
        '(offset, depth) ← fdt_next_node m fdt fuel offset (Some depth);
        node_end_loop m fuel n offset (default 0 depth)
    end
  else Some offset.
Definition fdt_node_end_offset_ (fuel : nat) (offset : Z) (m : memory) : option Z :=
  node_end_loop m fuel fuel offset 0.

Definition fdt_nop_node (fuel : nat) (nodeoffset : Z) : W Z :=
  endoffset ← runs (fdt_node_end_offset_ fuel nodeoffset);
  if endoffset <? 0 then mret endoffset
  else
    start ← reads (fun m => fdt_offset_ptr m fdt nodeoffset 0);
    writes (fdt_nop_region_ start (s32 (endoffset - nodeoffset)));;
    mret 0.

Definition fdt_setprop_inplace_u32 (fuel : nat) (nodeoffset name val : Z) : W Z :=
  let tmp := sym_local "fdt_setprop_inplace_u32" "tmp" in
  writes (fun m => st32 m tmp (cpu_to_fdt32 val));;
  fdt_setprop_inplace fuel nodeoffset name tmp 4.
Definition fdt_setprop_inplace_u64 (fuel : nat) (nodeoffset name val : Z) : W Z :=
  let tmp := sym_local "fdt_setprop_inplace_u64" "tmp" in
  writes (fun m => st64 m tmp (cpu_to_fdt64 val));;
  fdt_setprop_inplace fuel nodeoffset name tmp 8.
Definition fdt_setprop_inplace_cell (fuel : nat) (nodeoffset name val : Z) : W Z :=
  fdt_setprop_inplace_u32 fuel nodeoffset name val.

(** ** The layout of the blocks (fdt_rw.c) *)
Definition fdt_blocks_misordered_ (mem_rsv_size struct_size : Z) (m : memory) : bool :=
  (fdt_off_mem_rsvmap m fdt <? FDT_ALIGN FDT_HEADER_SIZEOF 8)
  || (fdt_off_dt_struct m fdt <? u32 (fdt_off_mem_rsvmap m fdt + mem_rsv_size))
  || (fdt_off_dt_strings m fdt <? u32 (fdt_off_dt_struct m fdt + struct_size))
  || (fdt_totalsize m fdt <? u32 (fdt_off_dt_strings m fdt + fdt_size_dt_strings m fdt)).

Definition fdt_rw_probe_ : W Z :=
  err ← reads (fun m => fdt_ro_probe_ m fdt);
  if err <? 0 then mret err
  else
    version ← reads (fun m => fdt_version m fdt);
    if version <? 17 then mret (- FDT_ERR_BADVERSION)
    else
      size ← reads (fun m => s32 (fdt_size_dt_struct m fdt));
      misordered ← reads (fdt_blocks_misordered_ RESERVE_ENTRY_SIZEOF size);
      if (misordered : bool) then mret (- FDT_ERR_BADLAYOUT)
      else
        version ← reads (fun m => fdt_version m fdt);
        (if 17 <? version then writes (fdt_set_version fdt 17) else mret tt);;
        mret 0.

Definition fdt_data_size_ (m : memory) : Z := s32 (fdt_off_dt_strings m fdt + fdt_size_dt_strings m fdt).

(** ** Gaps

    [oldlen] bytes at [splicepoint] become [newlen] bytes; what follows moves. *)
Definition fdt_splice_ (splicepoint oldlen newlen : Z) : W Z :=
  let p := splicepoint in
  end_ ← reads (fun m => fdt + fdt_data_size_ m);
  totalsize ← reads (fun m => fdt_totalsize m fdt);
  if (p + oldlen <? p) || (end_ <? p + oldlen) then mret (- FDT_ERR_BADOFFSET)
  else if (p <? fdt) || (end_ - oldlen + newlen <? fdt) then mret (- FDT_ERR_BADOFFSET)
  else if fdt + totalsize <? end_ - oldlen + newlen then mret (- FDT_ERR_NOSPACE)
  else
    writes (fun m => memmove m (p + newlen) (p + oldlen) (Z.to_nat (end_ - p - oldlen)));;
    mret 0.

Definition fdt_splice_mem_rsv_ (p oldn newn : Z) : W Z :=
  let delta := s32 ((newn - oldn) * RESERVE_ENTRY_SIZEOF) in
  err ← fdt_splice_ p (s32 (oldn * RESERVE_ENTRY_SIZEOF)) (s32 (newn * RESERVE_ENTRY_SIZEOF));
  if truthy err then mret err
  else
    off ← reads (fun m => fdt_off_dt_struct m fdt);
    writes (fdt_set_off_dt_struct fdt (off + delta));;
    off ← reads (fun m => fdt_off_dt_strings m fdt);
    writes (fdt_set_off_dt_strings fdt (off + delta));;
    mret 0.

Definition fdt_splice_struct_ (p oldlen newlen : Z) : W Z :=
  let delta := s32 (newlen - oldlen) in
  err ← fdt_splice_ p oldlen newlen;
  if truthy err then mret err
  else
    size ← reads (fun m => fdt_size_dt_struct m fdt);
    writes (fdt_set_size_dt_struct fdt (size + delta));;
    off ← reads (fun m => fdt_off_dt_strings m fdt);
    writes (fdt_set_off_dt_strings fdt (off + delta));;
    mret 0.

Definition fdt_splice_string_ (newlen : Z) : W Z :=
  p ← reads (fun m => fdt + fdt_off_dt_strings m fdt + fdt_size_dt_strings m fdt);
  err ← fdt_splice_ p 0 newlen;
  if truthy err then mret err
  else
    size ← reads (fun m => fdt_size_dt_strings m fdt);
    writes (fdt_set_size_dt_strings fdt (size + newlen));;
    mret 0.

(** ** Strings *)
Definition rw_del_last_string_ (fuel : nat) (s : Z) : W unit :=
  len ← runs (fun m => strlen fuel m s);
  size ← reads (fun m => fdt_size_dt_strings m fdt);
  writes (fdt_set_size_dt_strings fdt (size - s32 (len + 1))).

(** The offset or the error, and [*allocated]. *)
Definition rw_find_add_string_ (fuel : nat) (s : Z) : W (Z * bool) :=
  strtab ← reads (fun m => fdt + fdt_off_dt_strings m fdt);
  len ← runs (fun m => strlen fuel m s);
  let len := s32 (len + 1) in
  size ← reads (fun m => fdt_size_dt_strings m fdt);
  p ← runs (fun m => fdt_find_string_ m fuel strtab (s32 size) s);
  if negb (p =? NULL) then mret (s32 (p - strtab), false)
  else
    let new := strtab + size in
    err ← fdt_splice_string_ len;
    if truthy err then mret (err, false)
    else
      writes (fun m => memcpy m new s (count len));;
      mret (s32 (new - strtab), true).

(** ** The reserve map *)
Definition fdt_add_mem_rsv (fuel : nat) (address size : Z) : W Z :=
  err ← fdt_rw_probe_;
  if truthy err then mret err
  else
    n ← runs (fun m => fdt_num_mem_rsv m fdt fuel);
    re ← reads (fun m => fdt_mem_rsv_ m fdt n);
    err ← fdt_splice_mem_rsv_ re 0 1;
    if truthy err then mret err
    else
      writes (fun m => st64 m (reserve_entry_address re) (cpu_to_fdt64 address));;
      writes (fun m => st64 m (reserve_entry_size re) (cpu_to_fdt64 size));;
      mret 0.

Definition fdt_del_mem_rsv (fuel : nat) (n : Z) : W Z :=
  re ← reads (fun m => fdt_mem_rsv_ m fdt n);
  err ← fdt_rw_probe_;
  if truthy err then mret err
  else
    num ← runs (fun m => fdt_num_mem_rsv m fdt fuel);
    if num <=? n then mret (- FDT_ERR_NOTFOUND)
    else fdt_splice_mem_rsv_ re 1 0.

(** ** Properties

    The result and [*prop]. *)
Definition fdt_resize_property_ (fuel : nat) (nodeoffset name len : Z) : W (Z * Z) :=
  '(prop, oldlen) ← runs (fun m => fdt_get_property m fdt fuel nodeoffset name);
  if prop =? NULL then mret (oldlen, prop)
  else
    err ← fdt_splice_struct_ (property_data prop) (FDT_TAGALIGN oldlen) (FDT_TAGALIGN len);
    if truthy err then mret (err, prop)
    else
      writes (fun m => st32 m (property_len prop) (cpu_to_fdt32 (u32 len)));;
      mret (0, prop).

Definition fdt_add_property_ (fuel : nat) (nodeoffset name len prop : Z) : W (Z * Z) :=
  nextoffset ← runs (fun m => fdt_check_node_offset_ m fdt fuel nodeoffset);
  if nextoffset <? 0 then mret (nextoffset, prop)
  else
    '(namestroff, allocated) ← rw_find_add_string_ fuel name;
    if namestroff <? 0 then mret (namestroff, prop)
    else
      prop ← reads (fun m => fdt_offset_ptr_ m fdt nextoffset);
      let proplen := s32 (FDT_PROPERTY_SIZEOF + FDT_TAGALIGN64 len) in
      err ← fdt_splice_struct_ prop 0 proplen;
      if truthy err then
        (if (allocated : bool) then rw_del_last_string_ fuel name else mret tt);;
        mret (err, prop)
      else
        writes (fun m => st32 m prop (cpu_to_fdt32 FDT_PROP));;
        writes (fun m => st32 m (property_nameoff prop) (cpu_to_fdt32 (u32 namestroff)));;
        writes (fun m => st32 m (property_len prop) (cpu_to_fdt32 (u32 len)));;
        mret (0, prop).

Definition fdt_set_name (fuel : nat) (nodeoffset name : Z) : W Z :=
  err ← fdt_rw_probe_;
  if truthy err then mret err
  else
    '(namep, oldlen) ← runs (fun m => fdt_get_name m fdt fuel nodeoffset);
    if namep =? NULL then mret oldlen
    else
      newlen ← runs (fun m => strlen fuel m name);
      let newlen := s32 newlen in
      err ← fdt_splice_struct_ namep (FDT_TAGALIGN (s32 (oldlen + 1))) (FDT_TAGALIGN (s32 (newlen + 1)));
      if truthy err then mret err
      else
        writes (fun m => memcpy m namep name (count (s32 (newlen + 1))));;
        mret 0.

(** The result and [*prop_data], which is [None] when it is not set. *)
Definition fdt_setprop_placeholder (fuel : nat) (nodeoffset name len : Z) : W (Z * option Z) :=
  err ← fdt_rw_probe_;
  if truthy err then mret (err, None)
  else
    '(err, prop) ← fdt_resize_property_ fuel nodeoffset name len;
    '(err, prop) ← (if err =? - FDT_ERR_NOTFOUND then fdt_add_property_ fuel nodeoffset name len prop
                    else mret (err, prop));
    if truthy err then mret (err, None)
    else mret (0, Some (property_data prop)).

Definition fdt_setprop (fuel : nat) (nodeoffset name val len : Z) : W Z :=
  '(err, prop_data) ← fdt_setprop_placeholder fuel nodeoffset name len;
  if truthy err then mret err
  else
    (if truthy len then writes (fun m => memcpy m (default NULL prop_data) val (count len)) else mret tt);;
    mret 0.

Definition fdt_appendprop (fuel : nat) (nodeoffset name val len : Z) : W Z :=
  err ← fdt_rw_probe_;
  if truthy err then mret err
  else
    '(prop, oldlen) ← runs (fun m => fdt_get_property m fdt fuel nodeoffset name);
    if negb (prop =? NULL) then
      let newlen := s32 (len + oldlen) in
      err ← fdt_splice_struct_ (property_data prop) (FDT_TAGALIGN oldlen) (FDT_TAGALIGN newlen);
      if truthy err then mret err
      else
        writes (fun m => st32 m (property_len prop) (cpu_to_fdt32 (u32 newlen)));;
        writes (fun m => memcpy m (property_data prop + oldlen) val (count len));;
        mret 0
    else
      '(err, prop) ← fdt_add_property_ fuel nodeoffset name len prop;
      if truthy err then mret err
      else writes (fun m => memcpy m (property_data prop) val (count len));; mret 0.

Definition fdt_delprop (fuel : nat) (nodeoffset name : Z) : W Z :=
  err ← fdt_rw_probe_;
  if truthy err then mret err
  else
    '(prop, len) ← runs (fun m => fdt_get_property m fdt fuel nodeoffset name);
    if prop =? NULL then mret len
    else fdt_splice_struct_ prop (s32 (FDT_PROPERTY_SIZEOF + FDT_TAGALIGN64 len)) 0.

(** ** Nodes

    [do ... while ((tag == FDT_PROP) || (tag == FDT_NOP))]: the offset of the first
    token that is neither. *)
Fixpoint skip_props (fuel n : nat) (nextoffset : Z) (m : memory) : option Z :=
  let offset := nextoffset in
  '(tag, nextoffset) ← fdt_next_tag m fdt fuel offset;
  if (tag =? FDT_PROP) || (tag =? FDT_NOP)
  then match n with O => None | S n => skip_props fuel n nextoffset m end
  else Some offset.

Definition fdt_add_subnode_namelen (fuel : nat) (parentoffset name namelen : Z) : W Z :=
  err ← fdt_rw_probe_;
  if truthy err then mret err
  else
    offset ← runs (fun m => fdt_subnode_offset_namelen m fdt fuel parentoffset name namelen);
    if 0 <=? offset then mret (- FDT_ERR_EXISTS)
    else if negb (offset =? - FDT_ERR_NOTFOUND) then mret offset
    else
      '(_, nextoffset) ← runs (fun m => fdt_next_tag m fdt fuel parentoffset);
      offset ← runs (skip_props fuel fuel nextoffset);
      nh ← reads (fun m => fdt_offset_ptr_ m fdt offset);
      let padded := FDT_TAGALIGN64 (s32 (namelen + 1)) in
      let nodelen := s32 (NODE_HEADER_SIZEOF + padded + FDT_TAGSIZE) in
      err ← fdt_splice_struct_ nh 0 nodelen;
      if truthy err then mret err
      else
        writes (fun m => st32 m nh (cpu_to_fdt32 FDT_BEGIN_NODE));;
        writes (fun m => memset m (node_header_name nh) 0 (Z.to_nat padded));;
        writes (fun m => memcpy m (node_header_name nh) name (count namelen));;
        writes (fun m => st32 m (nh + nodelen - FDT_TAGSIZE) (cpu_to_fdt32 FDT_END_NODE));;
        mret offset.

Definition fdt_add_subnode (fuel : nat) (parentoffset name : Z) : W Z :=
  len ← runs (fun m => strlen fuel m name);
  fdt_add_subnode_namelen fuel parentoffset name (s32 len).

Definition fdt_del_node (fuel : nat) (nodeoffset : Z) : W Z :=
  err ← fdt_rw_probe_;
  if truthy err then mret err
  else
    endoffset ← runs (fdt_node_end_offset_ fuel nodeoffset);
    if endoffset <? 0 then mret endoffset
    else
      p ← reads (fun m => fdt_offset_ptr_ m fdt nodeoffset);
      fdt_splice_struct_ p (s32 (endoffset - nodeoffset)) 0.

(** ** Values of one cell or two (libfdt.h) *)
Definition fdt_setprop_u32 (fuel : nat) (nodeoffset name val : Z) : W Z :=
  let tmp := sym_local "fdt_setprop_u32" "tmp" in
  writes (fun m => st32 m tmp (cpu_to_fdt32 val));;
  fdt_setprop fuel nodeoffset name tmp 4.
Definition fdt_setprop_u64 (fuel : nat) (nodeoffset name val : Z) : W Z :=
  let tmp := sym_local "fdt_setprop_u64" "tmp" in
  writes (fun m => st64 m tmp (cpu_to_fdt64 val));;
  fdt_setprop fuel nodeoffset name tmp 8.
Definition fdt_setprop_cell (fuel : nat) (nodeoffset name val : Z) : W Z := fdt_setprop_u32 fuel nodeoffset name val.
Definition fdt_appendprop_u32 (fuel : nat) (nodeoffset name val : Z) : W Z :=
  let tmp := sym_local "fdt_appendprop_u32" "tmp" in
  writes (fun m => st32 m tmp (cpu_to_fdt32 val));;
  fdt_appendprop fuel nodeoffset name tmp 4.
Definition fdt_appendprop_u64 (fuel : nat) (nodeoffset name val : Z) : W Z :=
  let tmp := sym_local "fdt_appendprop_u64" "tmp" in
  writes (fun m => st64 m tmp (cpu_to_fdt64 val));;
  fdt_appendprop fuel nodeoffset name tmp 8.
Definition fdt_appendprop_cell (fuel : nat) (nodeoffset name val : Z) : W Z :=
  fdt_appendprop_u32 fuel nodeoffset name val.
End Rw.

(** ** Packing and opening *)
Definition fdt_packblocks_ (old new mem_rsv_size struct_size : Z) : W unit :=
  let mem_rsv_off := FDT_ALIGN FDT_HEADER_SIZEOF 8 in
  let struct_off := s32 (mem_rsv_off + mem_rsv_size) in
  let strings_off := s32 (struct_off + struct_size) in
  writes (fun m => memmove m (new + mem_rsv_off) (old + fdt_off_mem_rsvmap m old) (count mem_rsv_size));;
  writes (fdt_set_off_mem_rsvmap new mem_rsv_off);;
  writes (fun m => memmove m (new + struct_off) (old + fdt_off_dt_struct m old) (count struct_size));;
  writes (fdt_set_off_dt_struct new struct_off);;
  writes (fdt_set_size_dt_struct new struct_size);;
  writes (fun m => memmove m (new + strings_off) (old + fdt_off_dt_strings m old) (Z.to_nat (fdt_size_dt_strings m old)));;
  writes (fdt_set_off_dt_strings new strings_off);;
  size ← reads (fun m => fdt_size_dt_strings m old);
  writes (fdt_set_size_dt_strings new size).

(** [while (fdt_next_tag (fdt, struct_size, &struct_size) != FDT_END)]. *)
Fixpoint struct_size_loop (m : memory) (fdt : Z) (fuel n : nat) (struct_size : Z) : option Z :=
  '(tag, struct_size) ← fdt_next_tag m fdt fuel struct_size;
  if negb (tag =? FDT_END)
  then match n with O => None | S n => struct_size_loop m fdt fuel n struct_size end
  else Some struct_size.

(** The tree in its new order, built at the beginning of the buffer or, when it would
    overlap the old one, behind the old one. *)
Definition open_reordered (fdt buf bufsize fdtend mem_rsv_size struct_size : Z) : W Z :=
  newsize ← reads (fun m => s32 (FDT_ALIGN FDT_HEADER_SIZEOF 8 + mem_rsv_size + struct_size + fdt_size_dt_strings m fdt));
  if bufsize <? newsize then mret (- FDT_ERR_NOSPACE)
  else
    let overlaps := (fdt <? buf + newsize) && (buf <? fdtend) in
    let tmp := if overlaps then fdtend else buf in
    if overlaps && (buf + bufsize <? tmp + newsize) then mret (- FDT_ERR_NOSPACE)
    else
      fdt_packblocks_ fdt tmp mem_rsv_size struct_size;;
      writes (fun m => memmove m buf tmp (count newsize));;
      writes (fdt_set_magic buf FDT_MAGIC);;
      writes (fdt_set_totalsize buf bufsize);;
      writes (fdt_set_version buf 17);;
      writes (fdt_set_last_comp_version buf 16);;
      cpuid ← reads (fun m => fdt_boot_cpuid_phys m fdt);
      writes (fdt_set_boot_cpuid_phys buf cpuid);;
      mret 0.

Definition move_result (fdt buf bufsize : Z) : W Z :=
  fun m => let '(m', err) := fdt_move m fdt buf bufsize in Some (err, m').

Definition fdt_open_into (fuel : nat) (fdt buf bufsize : Z) : W Z :=
  fdtend ← reads (fun m => fdt + fdt_totalsize m fdt);
  err ← reads (fun m => fdt_ro_probe_ m fdt);
  if err <? 0 then mret err
  else
    num ← runs (fun m => fdt_num_mem_rsv m fdt fuel);
    let mem_rsv_size := s32 ((num + 1) * RESERVE_ENTRY_SIZEOF) in
    version ← reads (fun m => fdt_version m fdt);
    struct_size ← (if 17 <=? version then reads (fun m => s32 (fdt_size_dt_struct m fdt))
                   else runs (fun m => struct_size_loop m fdt fuel fuel 0));
    if (version <? 17) && (struct_size <? 0) then mret struct_size
    else
      misordered ← reads (fdt_blocks_misordered_ fdt mem_rsv_size struct_size);
      if negb (misordered : bool) then
        err ← move_result fdt buf bufsize;
        if truthy err then mret err
        else
          writes (fdt_set_version buf 17);;
          writes (fdt_set_size_dt_struct buf struct_size);;
          writes (fdt_set_totalsize buf bufsize);;
          mret 0
      else open_reordered fdt buf bufsize fdtend mem_rsv_size struct_size.

Definition fdt_pack (fuel : nat) (fdt : Z) : W Z :=
  err ← fdt_rw_probe_ fdt;
  if truthy err then mret err
  else
    num ← runs (fun m => fdt_num_mem_rsv m fdt fuel);
    let mem_rsv_size := s32 ((num + 1) * RESERVE_ENTRY_SIZEOF) in
    size ← reads (fun m => s32 (fdt_size_dt_struct m fdt));
    fdt_packblocks_ fdt fdt mem_rsv_size size;;
    size ← reads (fdt_data_size_ fdt);
    writes (fdt_set_totalsize fdt size);;
    mret 0.

(** ** A tree of nothing but the root (fdt_empty_tree.c) *)
Definition fdt_create_empty_tree `{Symbols} (fuel : nat) (buf bufsize : Z) : W Z :=
  err ← fdt_create buf bufsize;
  if truthy err then mret err
  else
    err ← fdt_finish_reservemap buf;
    if truthy err then mret err
    else
      err ← fdt_begin_node buf fuel (sym_literal "");
      if truthy err then mret err
      else
        err ← fdt_end_node buf;
        if truthy err then mret err
        else
          err ← fdt_finish buf fuel;
          if truthy err then mret err
          else fdt_open_into fuel buf buf bufsize.
