(* ===== verification/FdtPath.v ===== *)
(** * FdtPath: paths, lists of strings, cells and error names of libfdt
    (libkern/libfdt/fdt_ro.c, fdt_addresses.c, fdt_strerror.c) *)
From Stdlib Require Import ZArith Lia.
From stdpp Require Import prelude gmap list strings.
From S2P Require Import Prelude Memory TString Kernel Fdt FdtMonad FdtRo FdtSw FdtRw.
Open Scope Z_scope.

Section Path.
Context `{Symbols} (fdt : Z).

(** ** The path of a node (fdt_get_path)

    [do { p--; } while (buf[p-1] != '/')]. *)
Fixpoint back_to_slash (fuel : nat) (m : memory) (buf p : Z) : option Z :=
  let p := p - 1 in
  if negb (ld8 m (buf + p - 1) =? 47)
  then match fuel with O => None | S fuel => back_to_slash fuel m buf p end
  else Some p.
(** [while (pdepth > depth)]: the new [p] and [pdepth]. *)
Fixpoint pop_path (fuel n : nat) (m : memory) (buf depth p pdepth : Z) : option (Z * Z) :=
  if depth <? pdepth then
    match n with
    | O => None
    | S n => p ← back_to_slash fuel m buf p; pop_path fuel n m buf depth p (pdepth - 1)
    end
  else Some (p, pdepth).
(** The name of a node, if it fits: an error, or the new [p] and [pdepth]. *)
Definition push_name (fuel : nat) (offset buf buflen depth p pdepth : Z) : W (Z + Z * Z) :=
  if depth <=? pdepth then
    '(name, namelen) ← runs (fun m => fdt_get_name m fdt fuel offset);
    if name =? NULL then mret (inl namelen)
    else if s32 (p + namelen + 1) <=? buflen then
      writes (fun m => memcpy m (buf + p) name (count namelen));;
      writes (fun m => st8 m (buf + (p + namelen)) 47);;
      mret (inr (p + namelen + 1, pdepth + 1))
    else mret (inr (p, pdepth))
  else mret (inr (p, pdepth)).
Fixpoint get_path_loop (fuel n : nat) (nodeoffset buf buflen offset depth p pdepth : Z) : W Z :=
  if (0 <=? offset) && (offset <=? nodeoffset) then
    '(p, pdepth) ← runs (fun m => pop_path fuel fuel m buf depth p pdepth);
    r ← push_name fuel offset buf buflen depth p pdepth;
    match r with
    | inl err => mret err
    | inr (p, pdepth) =>
        if offset =? nodeoffset then
          if pdepth <? depth + 1 then mret (- FDT_ERR_NOSPACE)
          else
            let p := if 1 <? p then p - 1 else p in
            _ ← writes (fun m => st8 m (buf + p) 0);
            mret 0
        else
          match n with
          | O => no_fuel
          | S n =>
              '(offset, depth) ← runs (fun m => fdt_next_node m fdt fuel offset (Some depth));
              get_path_loop fuel n nodeoffset buf buflen offset (default 0 depth) p pdepth
          end
    end
  else
    mret (if (offset =? - FDT_ERR_NOTFOUND) || (0 <=? offset) then - FDT_ERR_BADOFFSET
          else if offset =? - FDT_ERR_BADOFFSET then - FDT_ERR_BADSTRUCTURE else offset).
Definition fdt_get_path (fuel : nat) (nodeoffset buf buflen : Z) : W Z :=
  err ← reads (fun m => fdt_ro_probe_ m fdt);
  if err <? 0 then mret err
  else if buflen <? 2 then mret (- FDT_ERR_NOSPACE)
  else get_path_loop fuel fuel nodeoffset buf buflen 0 0 0 0.

(** ** Lists of strings

    [strnlen] may end without a value: [noreturn] is then the value its caller finds. *)
Context (noreturn : Z -> Z).
Definition string_length (m : memory) (list end_ : Z) : Z :=
  s32 (u64 (default (noreturn list) (strnlen m list (u64 (end_ - list)))) + 1).

Fixpoint stringlist_count_loop (n : nat) (m : memory) (list end_ count : Z) : option Z :=
  if list <? end_ then
    let length := string_length m list end_ in
    if end_ <? list + length then Some (- FDT_ERR_BADVALUE)
    else match n with O => None | S n => stringlist_count_loop n m (list + length) end_ (s32 (count + 1)) end
  else Some count.
Definition fdt_stringlist_count (fuel : nat) (nodeoffset property : Z) (m : memory) : option Z :=
  '(list, length) ← fdt_getprop m fdt fuel nodeoffset property;
  if list =? NULL then Some length
  else stringlist_count_loop fuel m list (list + length) 0.

Fixpoint stringlist_search_loop (n : nat) (m : memory) (string len list end_ idx : Z) : option Z :=
  if list <? end_ then
    let length := string_length m list end_ in
    if end_ <? list + length then Some (- FDT_ERR_BADVALUE)
    else if (length =? len) && (memcmp m list string (FdtMonad.count length) =? 0) then Some idx
    else match n with
         | O => None
         | S n => stringlist_search_loop n m string len (list + length) end_ (s32 (idx + 1))
         end
  else Some (- FDT_ERR_NOTFOUND).
Definition fdt_stringlist_search (fuel : nat) (nodeoffset property string : Z) (m : memory) : option Z :=
  '(list, length) ← fdt_getprop m fdt fuel nodeoffset property;
  if list =? NULL then Some length
  else
    len ← strlen fuel m string;
    stringlist_search_loop fuel m string (s32 (len + 1)) list (list + length) 0.

(** The string and its length, or [NULL] and an error. *)
Fixpoint stringlist_get_loop (n : nat) (m : memory) (list end_ idx : Z) : option (Z * Z) :=
  if list <? end_ then
    let length := string_length m list end_ in
    if end_ <? list + length then Some (NULL, - FDT_ERR_BADVALUE)
    else if idx =? 0 then Some (list, length - 1)
    else match n with O => None | S n => stringlist_get_loop n m (list + length) end_ (s32 (idx - 1)) end
  else Some (NULL, - FDT_ERR_NOTFOUND).
Definition fdt_stringlist_get (fuel : nat) (nodeoffset property idx : Z) (m : memory) : option (Z * Z) :=
  '(list, length) ← fdt_getprop m fdt fuel nodeoffset property;
  if list =? NULL then Some (NULL, length)
  else stringlist_get_loop fuel m list (list + length) idx.
End Path.

Section Cells.
Context `{Symbols} (fdt : Z).

(** ** Addresses and sizes (fdt_addresses.c) *)
Definition FDT_MAX_NCELLS : Z := 4.
Definition UINT32_MAX : Z := 4294967295.

Definition fdt_cells (fuel : nat) (nodeoffset name : Z) (m : memory) : option Z :=
  '(c, len) ← fdt_getprop m fdt fuel nodeoffset name;
  Some (if c =? NULL then len
        else if negb (len =? 4) then - FDT_ERR_BADNCELLS
        else
          let val := fdt32_to_cpu (ld32 m c) in
          if FDT_MAX_NCELLS <? val then - FDT_ERR_BADNCELLS else s32 val).
Definition fdt_address_cells (fuel : nat) (nodeoffset : Z) (m : memory) : option Z :=
  val ← fdt_cells fuel nodeoffset (sym_literal "#address-cells") m;
  Some (if val =? 0 then - FDT_ERR_BADNCELLS else if val =? - FDT_ERR_NOTFOUND then 2 else val).
Definition fdt_size_cells (fuel : nat) (nodeoffset : Z) (m : memory) : option Z :=
  val ← fdt_cells fuel nodeoffset (sym_literal "#size-cells") m;
  Some (if val =? - FDT_ERR_NOTFOUND then 1 else val).

(** libfdt.h: byte by byte, the first byte is the highest. *)
Definition fdt32_st (property value : Z) (m : memory) : memory :=
  let m := st8 m property (Z.shiftr value 24) in
  let m := st8 m (property + 1) (Z.land (Z.shiftr value 16) 0xff) in
  let m := st8 m (property + 2) (Z.land (Z.shiftr value 8) 0xff) in
  st8 m (property + 3) (Z.land value 0xff).
Definition fdt64_st (property value : Z) (m : memory) : memory :=
  let m := st8 m property (Z.shiftr value 56) in
  let m := st8 m (property + 1) (Z.land (Z.shiftr value 48) 0xff) in
  let m := st8 m (property + 2) (Z.land (Z.shiftr value 40) 0xff) in
  let m := st8 m (property + 3) (Z.land (Z.shiftr value 32) 0xff) in
  let m := st8 m (property + 4) (Z.land (Z.shiftr value 24) 0xff) in
  let m := st8 m (property + 5) (Z.land (Z.shiftr value 16) 0xff) in
  let m := st8 m (property + 6) (Z.land (Z.shiftr value 8) 0xff) in
  st8 m (property + 7) (Z.land value 0xff).

(** [UINT32_MAX + 1] is computed with 32 bits. *)
Definition addr_refused (addr size : Z) : bool :=
  (UINT32_MAX <? addr) || (u64 (u32 (UINT32_MAX + 1) - addr) <? size).
Definition fdt_appendprop_addrrange (fuel : nat) (parent nodeoffset name addr size : Z) : W Z :=
  let data := sym_local "fdt_appendprop_addrrange" "data" in
  addr_cells ← runs (fdt_address_cells fuel parent);
  if addr_cells <? 0 then mret addr_cells
  else
    size_cells ← runs (fdt_size_cells fuel parent);
    if size_cells <? 0 then mret size_cells
    else if (addr_cells =? 1) && addr_refused addr size then mret (- FDT_ERR_BADVALUE)
    else if negb ((addr_cells =? 1) || (addr_cells =? 2)) then mret (- FDT_ERR_BADNCELLS)
    else
      writes (if addr_cells =? 1 then fdt32_st data (u32 addr) else fdt64_st data addr);;
      let prop := data + addr_cells * 4 in
      if (size_cells =? 1) && (UINT32_MAX <? size) then mret (- FDT_ERR_BADVALUE)
      else if negb ((size_cells =? 1) || (size_cells =? 2)) then mret (- FDT_ERR_BADNCELLS)
      else
        writes (if size_cells =? 1 then fdt32_st prop (u32 size) else fdt64_st prop size);;
        fdt_appendprop fdt fuel nodeoffset name data (s32 ((addr_cells + size_cells) * 4)).

(** ** Names of errors (fdt_strerror.c) *)
Definition fdt_errtable : list (Z * string) :=
  [(FDT_ERR_NOTFOUND, "FDT_ERR_NOTFOUND"); (FDT_ERR_EXISTS, "FDT_ERR_EXISTS"); (FDT_ERR_NOSPACE, "FDT_ERR_NOSPACE");
   (FDT_ERR_BADOFFSET, "FDT_ERR_BADOFFSET"); (FDT_ERR_BADPATH, "FDT_ERR_BADPATH");
   (FDT_ERR_BADPHANDLE, "FDT_ERR_BADPHANDLE"); (FDT_ERR_BADSTATE, "FDT_ERR_BADSTATE");
   (FDT_ERR_TRUNCATED, "FDT_ERR_TRUNCATED"); (FDT_ERR_BADMAGIC, "FDT_ERR_BADMAGIC");
   (FDT_ERR_BADVERSION, "FDT_ERR_BADVERSION"); (FDT_ERR_BADSTRUCTURE, "FDT_ERR_BADSTRUCTURE");
   (FDT_ERR_BADLAYOUT, "FDT_ERR_BADLAYOUT"); (FDT_ERR_INTERNAL, "FDT_ERR_INTERNAL");
   (FDT_ERR_BADNCELLS, "FDT_ERR_BADNCELLS"); (FDT_ERR_BADVALUE, "FDT_ERR_BADVALUE");
   (FDT_ERR_BADOVERLAY, "FDT_ERR_BADOVERLAY"); (FDT_ERR_NOPHANDLES, "FDT_ERR_NOPHANDLES");
   (FDT_ERR_BADFLAGS, "FDT_ERR_BADFLAGS")]%string.
Definition FDT_ERRTABSIZE : Z := 19.
Definition fdt_strerror (errval : Z) : string :=
  if 0 <? errval then "<valid offset/length>"
  else if errval =? 0 then "<no error>"
  else if s32 (- errval) <? FDT_ERRTABSIZE then
    default "<unknown error>"%string (snd <$> find (fun e => fst e =? - errval) fdt_errtable)
  else "<unknown error>".

(** libfdt.h *)
Definition fdt_get_max_phandle (fuel : nat) (m : memory) : option Z :=
  '(err, phandle) ← fdt_find_max_phandle m fdt fuel;
  Some (if err <? 0 then u32 (-1) else phandle).
End Cells.

(** [UINT32_MAX + 1] is 0: with one address cell a range at address 0 is always refused,
    and no other range that fits 32 bits is, whether it ends below [2 ^ 32] or not. *)
Lemma addr_refused_zero size : 0 < size < 2 ^ 64 -> addr_refused 0 size = true.
Proof. intros Hs. unfold addr_refused. change (u64 (u32 (UINT32_MAX + 1) - 0)) with 0. by rewrite (proj2 (Z.ltb_lt 0 size)) by lia. Qed.
Lemma addr_refused_other addr size : 0 < addr <= UINT32_MAX -> 0 <= size <= UINT32_MAX -> addr_refused addr size = false.
Proof.
  unfold UINT32_MAX. intros Ha Hs. unfold addr_refused, UINT32_MAX. change (u32 (4294967295 + 1)) with 0.
  replace (u64 (0 - addr)) with (2 ^ 64 - addr) by word_lia.
  destruct (Z.ltb_spec 4294967295 addr), (Z.ltb_spec (2 ^ 64 - addr) size); (lia || done).
Qed.
