(* ===== verification/FdtOverlay.v ===== *)
(** * FdtOverlay: device tree overlays (libkern/libfdt/fdt_overlay.c)

    An overlay [fdto] is merged into a base tree [fdt]: its phandles are moved beyond
    those of the base, its references are fixed, its fragments are copied into the
    nodes they name. Both blobs lie in the one memory. *)
From Stdlib Require Import ZArith Lia.
From stdpp Require Import prelude gmap list strings.
From S2P Require Import Prelude Memory TString Kernel Fdt FdtMonad FdtRo FdtSw FdtRw FdtPath.
Open Scope Z_scope.

(** ** The iteration macros (libfdt.h)

    The body returns 0 to go on; any other result ends the loop and the function. *)
Fixpoint each_subnode (fdt : Z) (body : Z -> W Z) (fuel n : nat) (child : Z) : W Z :=
  if 0 <=? child then
    ret ← body child;
    if truthy ret then mret ret
    else
      match n with
      | O => no_fuel
      | S n =>
          child ← runs (fun m => fdt_next_subnode m fdt fuel child);
          each_subnode fdt body fuel n child
      end
  else mret 0.
Definition fdt_for_each_subnode (fdt : Z) (fuel : nat) (parent : Z) (body : Z -> W Z) : W Z :=
  child ← runs (fun m => fdt_first_subnode m fdt fuel parent);
  each_subnode fdt body fuel fuel child.

Fixpoint each_property (fdt : Z) (body : Z -> W Z) (fuel n : nat) (property : Z) : W Z :=
  if 0 <=? property then
    ret ← body property;
    if truthy ret then mret ret
    else
      match n with
      | O => no_fuel
      | S n =>
          property ← runs (fun m => fdt_next_property_offset m fdt fuel property);
          each_property fdt body fuel n property
      end
  else mret 0.
Definition fdt_for_each_property_offset (fdt : Z) (fuel : nat) (node : Z) (body : Z -> W Z) : W Z :=
  property ← runs (fun m => fdt_first_property_offset m fdt fuel node);
  each_property fdt body fuel fuel property.

Section Overlay.
Context `{Symbols} (fuel : nat).

(** ** Targets *)
Definition overlay_get_target_phandle (fdto fragment : Z) (m : memory) : option Z :=
  '(val, len) ← fdt_getprop m fdto fuel fragment (sym_literal "target");
  Some (if val =? NULL then 0
        else if negb (len =? 4) || (fdt32_to_cpu (ld32 m val) =? u32 (-1)) then u32 (-1)
        else fdt32_to_cpu (ld32 m val)).

(** The result and [*pathp], which is only meaningful for a result that is no error. *)
Definition overlay_get_target (fdt fdto fragment : Z) (m : memory) : option (Z * Z) :=
  phandle ← overlay_get_target_phandle fdto fragment m;
  if phandle =? u32 (-1) then Some (- FDT_ERR_BADPHANDLE, NULL)
  else
    '(ret, path, path_len) ←
      (if phandle =? 0 then
         '(path, path_len) ← fdt_getprop m fdto fuel fragment (sym_literal "target-path");
         if negb (path =? NULL) then ret ← fdt_path_offset m fdt fuel path; Some (ret, path, path_len)
         else Some (path_len, path, path_len)
       else ret ← fdt_node_offset_by_phandle m fdt fuel phandle; Some (ret, NULL, 0));
    Some (if (ret <? 0) && (path_len =? - FDT_ERR_NOTFOUND) then - FDT_ERR_BADOVERLAY else ret, path).

(** ** Phandles of the overlay *)
Definition overlay_phandle_add_offset (fdt node name delta : Z) : W Z :=
  '(val, len) ← runs (fun m => fdt_getprop m fdt fuel node name);
  if val =? NULL then mret len
  else if negb (len =? 4) then mret (- FDT_ERR_BADPHANDLE)
  else
    adj_val ← reads (fun m => fdt32_to_cpu (ld32 m val));
    if u32 (adj_val + delta) <? adj_val then mret (- FDT_ERR_NOPHANDLES)
    else
      let adj_val := u32 (adj_val + delta) in
      if adj_val =? u32 (-1) then mret (- FDT_ERR_NOPHANDLES)
      else fdt_setprop_inplace_u32 fdt fuel node name adj_val.

Fixpoint overlay_adjust_node_phandles (n : nat) (fdto node delta : Z) : W Z :=
  ret ← overlay_phandle_add_offset fdto node (sym_literal "phandle") delta;
  if truthy ret && negb (ret =? - FDT_ERR_NOTFOUND) then mret ret
  else
    ret ← overlay_phandle_add_offset fdto node (sym_literal "linux,phandle") delta;
    if truthy ret && negb (ret =? - FDT_ERR_NOTFOUND) then mret ret
    else
      fdt_for_each_subnode fdto fuel node (fun child =>
        match n with O => no_fuel | S n => overlay_adjust_node_phandles n fdto child delta end).

Definition overlay_adjust_local_phandles (fdto delta : Z) : W Z :=
  overlay_adjust_node_phandles fuel fdto 0 delta.

(** ** References inside the overlay

    [for (i = 0; i < fixup_len; i++)]. *)
Fixpoint fixup_values (n : nat) (fdto tree_node name fixup_val tree_val delta i : Z) : W Z :=
  let adj := sym_local "overlay_update_local_node_references" "adj_val" in
  match n with
  | O => mret 0
  | S n =>
      poffset ← reads (fun m => fdt32_to_cpu (ld32 m (fixup_val + 4 * i)));
      _ ← writes (fun m => memcpy m adj (tree_val + poffset) 4);
      _ ← writes (fun m => st32 m adj (cpu_to_fdt32 (u32 (fdt32_to_cpu (ld32 m adj) + delta))));
      namelen ← runs (fun m => strlen fuel m name);
      ret ← fdt_setprop_inplace_namelen_partial fdto fuel tree_node name (s32 namelen) poffset adj 4;
      if ret =? - FDT_ERR_NOSPACE then mret (- FDT_ERR_BADOVERLAY)
      else if truthy ret then mret ret
      else fixup_values n fdto tree_node name fixup_val tree_val delta (i + 1)
  end.
Definition fixup_property (fdto tree_node delta fixup_prop : Z) : W Z :=
  '(fixup_val, name, fixup_len) ← runs (fun m => fdt_getprop_by_offset m fdto fuel fixup_prop true);
  if fixup_val =? NULL then mret fixup_len
  else if truthy (u64 fixup_len mod 4) then mret (- FDT_ERR_BADOVERLAY)
  else
    let fixup_len := s32 (u64 fixup_len / 4) in
    '(tree_val, tree_len) ← runs (fun m => fdt_getprop m fdto fuel tree_node name);
    if tree_val =? NULL then
      mret (if tree_len =? - FDT_ERR_NOTFOUND then - FDT_ERR_BADOVERLAY else tree_len)
    else fixup_values (Z.to_nat fixup_len) fdto tree_node name fixup_val tree_val delta 0.

Fixpoint overlay_update_local_node_references (n : nat) (fdto tree_node fixup_node delta : Z) : W Z :=
  ret ← fdt_for_each_property_offset fdto fuel fixup_node (fixup_property fdto tree_node delta);
  if truthy ret then mret ret
  else
    fdt_for_each_subnode fdto fuel fixup_node (fun fixup_child =>
      '(fixup_child_name, _) ← runs (fun m => fdt_get_name m fdto fuel fixup_child);
      tree_child ← runs (fun m => fdt_subnode_offset m fdto fuel tree_node fixup_child_name);
      if tree_child =? - FDT_ERR_NOTFOUND then mret (- FDT_ERR_BADOVERLAY)
      else if tree_child <? 0 then mret tree_child
      else
        match n with
        | O => no_fuel
        | S n => overlay_update_local_node_references n fdto tree_child fixup_child delta
        end).

Definition overlay_update_local_references (fdto delta : Z) : W Z :=
  fixups ← runs (fun m => fdt_path_offset m fdto fuel (sym_literal "/__local_fixups__"));
  if fixups <? 0 then mret (if fixups =? - FDT_ERR_NOTFOUND then 0 else fixups)
  else overlay_update_local_node_references fuel fdto 0 fixups delta.

(** ** References into the base tree *)
Definition overlay_fixup_one_phandle (fdt fdto symbols_off path path_len name name_len poffset label : Z) : W Z :=
  let phandle_prop := sym_local "overlay_fixup_one_phandle" "phandle_prop" in
  if symbols_off <? 0 then mret symbols_off
  else
    '(symbol_path, prop_len) ← runs (fun m => fdt_getprop m fdt fuel symbols_off label);
    if symbol_path =? NULL then mret prop_len
    else
      symbol_off ← runs (fun m => fdt_path_offset m fdt fuel symbol_path);
      if symbol_off <? 0 then mret symbol_off
      else
        phandle ← runs (fun m => fdt_get_phandle m fdt fuel symbol_off);
        if phandle =? 0 then mret (- FDT_ERR_NOTFOUND)
        else
          fixup_off ← runs (fun m => fdt_path_offset_namelen m fdto fuel path (s32 path_len));
          if fixup_off =? - FDT_ERR_NOTFOUND then mret (- FDT_ERR_BADOVERLAY)
          else if fixup_off <? 0 then mret fixup_off
          else
            writes (fun m => st32 m phandle_prop (cpu_to_fdt32 phandle));;
            fdt_setprop_inplace_namelen_partial fdto fuel fixup_off name (s32 name_len) (u32 poffset) phandle_prop 4.

(** One string [path:name:offset] of the [len] bytes at [value]: an error, or the path,
    the name, their lengths, the offset and the length of the string. *)
Record fixup := {
  fixup_path : Z;
  fixup_path_len : Z;
  fixup_name : Z;
  fixup_name_len : Z;
  fixup_poffset : Z;
  fixup_len : Z;
}.
Definition parse_fixup (m : memory) (value len : Z) : option (Z + fixup) :=
  let bad := Some (inl (- FDT_ERR_BADOVERLAY)) in
  let fixup_end := memchr m value 0 (count len) in
  if fixup_end =? NULL then bad
  else
    let total := u32 (fixup_end - value) in
    let path := value in
    let sep := memchr m value 58 (Z.to_nat total) in
    if (sep =? NULL) || negb (ld8 m sep =? 58) then bad
    else
      let path_len := u32 (sep - path) in
      if path_len =? u32 (total - 1) then bad
      else
        let rest := u32 (total - (path_len + 1)) in
        let name := sep + 1 in
        let sep := memchr m name 58 (Z.to_nat rest) in
        if (sep =? NULL) || negb (ld8 m sep =? 58) then bad
        else
          let name_len := u32 (sep - name) in
          if name_len =? 0 then bad
          else
            '(value, endptr) ← strtoul fuel m (sep + 1) 10;
            if negb (ld8 m endptr =? 0) || (endptr <=? sep + 1) then bad
            else Some (inr {| fixup_path := path; fixup_path_len := path_len; fixup_name := name;
                              fixup_name_len := name_len; fixup_poffset := s32 value; fixup_len := total |}).
(** [do ... while (len > 0)]. *)
Fixpoint fixup_strings (n : nat) (fdt fdto symbols_off label value len : Z) : W Z :=
  r ← runs (fun m => parse_fixup m value len);
  match r with
  | inl err => mret err
  | inr f =>
      let len := s32 (u32 len - u32 (fixup_len f + 1)) in
      let value := value + u32 (fixup_len f + 1) in
      ret ← overlay_fixup_one_phandle fdt fdto symbols_off (fixup_path f) (fixup_path_len f) (fixup_name f)
        (fixup_name_len f) (fixup_poffset f) label;
      if truthy ret then mret ret
      else if 0 <? len then
        match n with O => no_fuel | S n => fixup_strings n fdt fdto symbols_off label value len end
      else mret 0
  end.
Definition overlay_fixup_phandle (fdt fdto symbols_off property : Z) : W Z :=
  '(value, label, len) ← runs (fun m => fdt_getprop_by_offset m fdto fuel property true);
  if value =? NULL then mret (if len =? - FDT_ERR_NOTFOUND then - FDT_ERR_INTERNAL else len)
  else fixup_strings fuel fdt fdto symbols_off label value len.

Definition overlay_fixup_phandles (fdt fdto : Z) : W Z :=
  fixups_off ← runs (fun m => fdt_path_offset m fdto fuel (sym_literal "/__fixups__"));
  if fixups_off =? - FDT_ERR_NOTFOUND then mret 0
  else if fixups_off <? 0 then mret fixups_off
  else
    symbols_off ← runs (fun m => fdt_path_offset m fdt fuel (sym_literal "/__symbols__"));
    if (symbols_off <? 0) && negb (symbols_off =? - FDT_ERR_NOTFOUND) then mret symbols_off
    else fdt_for_each_property_offset fdto fuel fixups_off (overlay_fixup_phandle fdt fdto symbols_off).

(** ** Merging *)
Definition apply_property (fdt target fdto property : Z) : W Z :=
  '(prop, name, prop_len) ← runs (fun m => fdt_getprop_by_offset m fdto fuel property true);
  if prop_len =? - FDT_ERR_NOTFOUND then mret (- FDT_ERR_INTERNAL)
  else if prop_len <? 0 then mret prop_len
  else fdt_setprop fdt fuel target name prop prop_len.

(** The child [name] of [target], new or not. *)
Definition add_or_find_subnode (fdt target name : Z) : W Z :=
  nnode ← fdt_add_subnode fdt fuel target name;
  if nnode =? - FDT_ERR_EXISTS then
    nnode ← runs (fun m => fdt_subnode_offset m fdt fuel target name);
    mret (if nnode =? - FDT_ERR_NOTFOUND then - FDT_ERR_INTERNAL else nnode)
  else mret nnode.

Fixpoint apply_node (n : nat) (fdt target fdto node : Z) : W Z :=
  ret ← fdt_for_each_property_offset fdto fuel node (apply_property fdt target fdto);
  if truthy ret then mret ret
  else
    fdt_for_each_subnode fdto fuel node (fun subnode =>
      '(name, _) ← runs (fun m => fdt_get_name m fdto fuel subnode);
      nnode ← add_or_find_subnode fdt target name;
      if nnode <? 0 then mret nnode
      else match n with O => no_fuel | S n => apply_node n fdt nnode fdto subnode end).
Definition overlay_apply_node (fdt target fdto node : Z) : W Z := apply_node fuel fdt target fdto node.

Definition overlay_merge (fdt fdto : Z) : W Z :=
  fdt_for_each_subnode fdto fuel 0 (fun fragment =>
    overlay ← runs (fun m => fdt_subnode_offset m fdto fuel fragment (sym_literal "__overlay__"));
    if overlay =? - FDT_ERR_NOTFOUND then mret 0
    else if overlay <? 0 then mret overlay
    else
      '(target, _) ← runs (overlay_get_target fdt fdto fragment);
      if target <? 0 then mret target
      else overlay_apply_node fdt target fdto overlay).

(** ** Symbols *)
Fixpoint path_len_loop (m : memory) (fdt : Z) (n : nat) (nodeoffset len : Z) : option Z :=
  '(name, namelen) ← fdt_get_name m fdt fuel nodeoffset;
  if name =? NULL then Some namelen
  else if namelen =? 0 then Some (if len =? 0 then len + 1 else len)
  else
    nodeoffset ← fdt_parent_offset m fdt fuel nodeoffset;
    if nodeoffset <? 0 then Some nodeoffset
    else match n with O => None | S n => path_len_loop m fdt n nodeoffset (s32 (len + namelen + 1)) end.
Definition get_path_len (fdt nodeoffset : Z) (m : memory) : option Z :=
  if fdt_ro_probe_ m fdt <? 0 then Some (fdt_ro_probe_ m fdt)
  else path_len_loop m fdt fuel nodeoffset 0.

(** The fragment and the path below it that a symbol names: an error, nothing, or the
    name, its length, the path and its length. *)
Definition parse_symbol (m : memory) (path path_len : Z) : option (Z + option (Z * Z * Z * Z)) :=
  if (path_len <? 1) || negb (memchr m path 0 (count path_len) =? path + (path_len - 1))
  then Some (inl (- FDT_ERR_BADVALUE))
  else
    let e := path + path_len in
    if negb (ld8 m path =? 47) then Some (inl (- FDT_ERR_BADVALUE))
    else
      s ← strchr fuel m (path + 1) 47;
      if s =? NULL then Some (inr None)
      else
        let frag_name := path + 1 in
        let frag_name_len := s32 (s - path - 1) in
        let len := 13 in
        Some (if (len <? e - s) && (memcmp m s (sym_literal "/__overlay__/") 13 =? 0)
              then inr (Some (frag_name, frag_name_len, s + len, s32 (e - (s + len))))
              else if (e - s =? len) && (memcmp m s (sym_literal "/__overlay__") 12 =? 0)
              then inr (Some (frag_name, frag_name_len, sym_literal "", 1))
              else inr None).

(** The new value of the symbol: the path of the target, and the path below it. *)
Definition write_symbol (fdt target target_path buf len rel_path rel_path_len : Z) : W Z :=
  r ← (if 1 <? len then
         if target_path =? NULL then
           ret ← fdt_get_path fdt fuel target buf (s32 (len + 1));
           mret (ret, len)
         else
           writes (fun m => memcpy m buf target_path (count (len + 1)));;
           mret (0, len)
       else mret (0, len - 1));
  let '(ret, len) := r in
  if ret <? 0 then mret ret
  else
    writes (fun m => st8 m (buf + len) 47);;
    writes (fun m => memcpy m (buf + len + 1) rel_path (count rel_path_len));;
    mret 0.

Definition update_symbol (fdt fdto root_sym prop : Z) : W Z :=
  '(path, name, path_len) ← runs (fun m => fdt_getprop_by_offset m fdto fuel prop true);
  if path =? NULL then mret path_len
  else
    r ← runs (fun m => parse_symbol m path path_len);
    match r with
    | inl err => mret err
    | inr None => mret 0
    | inr (Some (frag_name, frag_name_len, rel_path, rel_path_len)) =>
        fragment ← runs (fun m => fdt_subnode_offset_namelen m fdto fuel 0 frag_name frag_name_len);
        if fragment <? 0 then mret (- FDT_ERR_BADOVERLAY)
        else
          ret ← runs (fun m => fdt_subnode_offset m fdto fuel fragment (sym_literal "__overlay__"));
          if ret <? 0 then mret (- FDT_ERR_BADOVERLAY)
          else
            '(target, target_path) ← runs (overlay_get_target fdt fdto fragment);
            if target <? 0 then mret target
            else
              len ← (if target_path =? NULL then runs (get_path_len fdt target)
                     else len ← runs (fun m => strlen fuel m target_path); mret (s32 len));
              if (target_path =? NULL) && (len <? 0) then mret len
              else
                '(ret, p) ← fdt_setprop_placeholder fdt fuel root_sym name
                  (s32 (len + (if 1 <? len then 1 else 0) + rel_path_len));
                if ret <? 0 then mret ret
                else
                  '(target, target_path) ← (if target_path =? NULL then runs (overlay_get_target fdt fdto fragment)
                                            else mret (target, target_path));
                  if target <? 0 then mret target
                  else write_symbol fdt target target_path (default NULL p) len rel_path rel_path_len
    end.

Definition overlay_symbol_update (fdt fdto : Z) : W Z :=
  ov_sym ← runs (fun m => fdt_subnode_offset m fdto fuel 0 (sym_literal "__symbols__"));
  if ov_sym <? 0 then mret 0
  else
    root_sym ← runs (fun m => fdt_subnode_offset m fdt fuel 0 (sym_literal "__symbols__"));
    root_sym ← (if root_sym =? - FDT_ERR_NOTFOUND then fdt_add_subnode fdt fuel 0 (sym_literal "__symbols__")
                else mret root_sym);
    if root_sym <? 0 then mret root_sym
    else fdt_for_each_property_offset fdto fuel ov_sym (update_symbol fdt fdto root_sym).

(** ** The overlay as a whole

    The steps in order, up to the first error. *)
Definition overlay_steps (fdt fdto : Z) : W Z :=
  '(ret, delta) ← runs (fun m => fdt_find_max_phandle m fdt fuel);
  if truthy ret then mret ret
  else
    ret ← overlay_adjust_local_phandles fdto delta;
    if truthy ret then mret ret
    else
      ret ← overlay_update_local_references fdto delta;
      if truthy ret then mret ret
      else
        ret ← overlay_fixup_phandles fdt fdto;
        if truthy ret then mret ret
        else
          ret ← overlay_merge fdt fdto;
          if truthy ret then mret ret
          else overlay_symbol_update fdt fdto.

Definition fdt_overlay_apply (fdt fdto : Z) : W Z :=
  err ← reads (fun m => fdt_ro_probe_ m fdt);
  if err <? 0 then mret err
  else
    err ← reads (fun m => fdt_ro_probe_ m fdto);
    if err <? 0 then mret err
    else
      ret ← overlay_steps fdt fdto;
      writes (fdt_set_magic fdto (Z.lnot 0));;
      (if truthy ret then writes (fdt_set_magic fdt (Z.lnot 0)) else mret tt);;
      mret ret.

Definition fdt_overlay_apply_node (fdt target fdto node : Z) : W Z := overlay_apply_node fdt target fdto node.
End Overlay.
