(* ===== verification/FdtTree.v ===== *)
(** * FdtTree: navigation in an encoded tree

    Trees are encoded as tokens; the functions of Fdt.v and FdtRo.v on an encoded
    tree are described by the tree: the subnodes and the properties of a node, in
    order, nodes by name and by path, and the value of a property. *)
From Stdlib Require Import ZArith Lia.
From stdpp Require Import prelude gmap list strings.
From S2P Require Import Prelude Memory TString Kernel Fdt FdtTokens FdtRo.
Open Scope Z_scope.

(** ** Comparison of bytes *)
Lemma memcmp_eq m p q n : (memcmp m p q n =? 0) = bool_decide (bytes_at n m p = bytes_at n m q).
Proof.
  revert p q. induction n as [|n IH]; intros p q; [done|]. cbn [memcmp bytes_at]. rewrite !ld8_rd.
  unfold truthy. destruct (Z.eqb_spec (rd m p - rd m q) 0) as [E|E]; cbn [negb].
  - rewrite IH. apply bool_decide_ext. split; [intros ->; f_equal; lia|by intros [= _ ->]].
  - rewrite bool_decide_eq_false_2 by (intros [= ? _]; lia). by apply Z.eqb_neq.
Qed.

(** The first position of a byte in a list. *)
Fixpoint position (c : Z) (l : list Z) : option nat :=
  match l with
  | [] => None
  | b :: l => if c =? b then Some O else S <$> position c l
  end.
Lemma position_None c l : position c l = None <-> c ∉ l.
Proof.
  induction l as [|b l IH]; simpl; [set_solver|]. destruct (Z.eqb_spec c b) as [->|]; [set_solver|].
  destruct (position c l); simpl; set_solver.
Qed.
Lemma memchr_run m s c n :
  0 < s -> is_u8 c ->
  memchr m s c n = match position c (bytes_at n m s) with
                   | Some i => s + Z.of_nat i | None => NULL end.
Proof.
  intros Hs Hc. revert s Hs. induction n as [|n IH]; intros s Hs; [done|].
  cbn [memchr bytes_at position]. rewrite ld8_rd, (u8_id c) by done.
  destruct (c =? rd m s); [lia|]. rewrite IH by lia.
  destruct (position c (bytes_at n m (s + 1))); cbn [fmap option_fmap option_map]; [lia|done].
Qed.

(** ** Trees

    A property is the offset of its name and its value. *)
Inductive dtree := DNode (name : list Z) (props : list (Z * list Z)) (children : list dtree).

Definition node_name (t : dtree) : list Z := let '(DNode name _ _) := t in name.
Definition node_props (t : dtree) : list (Z * list Z) := let '(DNode _ props _) := t in props.
Definition node_children (t : dtree) : list dtree := let '(DNode _ _ children) := t in children.

Definition prop_token (p : Z * list Z) : token := TProp (fst p) (snd p).
Fixpoint tree_tokens (t : dtree) : list token :=
  let '(DNode name props children) := t in
  TBegin name :: map prop_token props ++ flat_map tree_tokens children ++ [TEndNode].
Definition forest_tokens (ts : list dtree) : list token := flat_map tree_tokens ts.

Lemma dtree_induction (P : dtree -> Prop) :
  (forall name props children, Forall P children -> P (DNode name props children)) -> forall t, P t.
Proof.
  intros H. fix IH 1. intros [name props children]. apply H. induction children; constructor; auto.
Qed.

Lemma tree_tokens_eq name props children :
  tree_tokens (DNode name props children) =
    TBegin name :: map prop_token props ++ forest_tokens children ++ [TEndNode].
Proof. done. Qed.

Lemma forest_tokens_app l1 l2 : forest_tokens (l1 ++ l2) = forest_tokens l1 ++ forest_tokens l2.
Proof. apply flat_map_app. Qed.
Lemma forest_tokens_cons t l : forest_tokens (t :: l) = tree_tokens t ++ forest_tokens l.
Proof. done. Qed.

(** Lists of tokens up to associativity. *)
Ltac norm_tokens :=
  repeat first [rewrite tree_tokens_eq | rewrite forest_tokens_app | rewrite forest_tokens_cons
    | rewrite <- app_assoc | progress cbn [app]].

(** The offsets of the trees of a forest that is at [o]. *)
Fixpoint offsets (o : Z) (ts : list dtree) : list Z :=
  match ts with
  | [] => []
  | t :: ts => o :: offsets (o + size (tree_tokens t)) ts
  end.

(** The offset of the first child of a node at [o]. *)
Definition children_start (o : Z) (t : dtree) : Z :=
  o + token_size (TBegin (node_name t)) + size (map prop_token (node_props t)).
Definition forest_next (o : Z) (ts : list dtree) : Z := hd (- FDT_ERR_NOTFOUND) (offsets o ts).
Definition child_offsets (o : Z) (t : dtree) : list Z := offsets (children_start o t) (node_children t).

Lemma length_offsets o ts : length (offsets o ts) = length ts.
Proof. revert o. induction ts; intros; simpl; auto. Qed.
Lemma lookup_offsets o ts i o' :
  offsets o ts !! i = Some o' ->
  exists ts1 t ts2, ts = ts1 ++ t :: ts2 /\ length ts1 = i /\ o' = o + size (forest_tokens ts1) /\
    forall j, offsets o ts !! (i + S j)%nat = offsets (o' + size (tree_tokens t)) ts2 !! j.
Proof.
  revert o i. induction ts as [|t ts IH]; intros o i Hi; [done|]. destruct i as [|i]; simpl in Hi.
  - injection Hi as <-. exists [], t, ts. split; [done|]. split; [done|]. split; [simpl; lia|done].
  - destruct (IH _ _ Hi) as (ts1 & t' & ts2 & -> & <- & -> & Hj). exists (t :: ts1), t', ts2.
    split; [done|]. split; [done|]. split.
    + simpl. unfold forest_tokens. simpl. rewrite size_app. lia.
    + intros j. cbn [offsets length Nat.add lookup list_lookup]. by rewrite Hj.
Qed.

(** ** Walks over encoded trees *)
Section Trees.
Context (visit : list Z -> Z -> Z -> option Z).

(** What follows a node: another node, or the end of its parent or of the tree. *)
Definition closes (l : list token) : Prop :=
  match l with TEndNode :: _ | TEnd :: _ => True | _ => False end.

Lemma walk_props props l o d :
  walk visit (map prop_token props ++ l) o d = walk visit l (o + size (map prop_token props)) d.
Proof.
  revert o. induction props as [|p props IH]; intros o; [simpl; f_equal; lia|].
  cbn [map app walk prop_token size]. rewrite IH. f_equal. cbn [prop_token]. lia.
Qed.

(** Subtrees below the children are passed over. *)
Hypothesis Hdeep : forall name o d, 2 <= d -> visit name o d = None.

Lemma walk_forest ts l o d :
  Forall (fun t => forall l o d, 1 <= d ->
    walk visit (tree_tokens t ++ l) o d = walk visit l (o + size (tree_tokens t)) d) ts ->
  1 <= d -> walk visit (forest_tokens ts ++ l) o d = walk visit l (o + size (forest_tokens ts)) d.
Proof.
  intros HF Hd. revert o. induction HF as [|t ts Ht _ IH]; intros o.
  - simpl. f_equal. lia.
  - rewrite forest_tokens_cons, <- app_assoc, Ht, IH by done. f_equal. rewrite size_app. lia.
Qed.

Lemma walk_tree t l o d :
  1 <= d -> walk visit (tree_tokens t ++ l) o d = walk visit l (o + size (tree_tokens t)) d.
Proof.
  revert l o d. induction t as [name props children IH] using dtree_induction. intros l o d Hd.
  rewrite tree_tokens_eq. cbn [app walk]. rewrite Hdeep by lia. cbn [default from_option].
  rewrite <- !app_assoc, walk_props. rewrite walk_forest by (done || lia). cbn [app walk].
  destruct (Z.ltb_spec (d + 1 - 1) 0); [lia|]. replace (d + 1 - 1) with d by lia. f_equal.
  cbn [size]. rewrite !size_app. cbn [size]. lia.
Qed.

(** The children from [ts] on: the first one at which the visit stops. *)
Fixpoint visit_children (o : Z) (ts : list dtree) : Z :=
  match ts with
  | [] => - FDT_ERR_NOTFOUND
  | t :: ts => default (visit_children (o + size (tree_tokens t)) ts) (visit (node_name t) o 1)
  end.

Lemma walk_children ts l o :
  closes l -> walk visit (forest_tokens ts ++ l) o 0 = visit_children o ts.
Proof.
  intros Hl. revert o. induction ts as [|[name props children] ts IH]; intros o.
  { destruct l as [|[| | | |] l]; done. }
  rewrite forest_tokens_cons, <- app_assoc, tree_tokens_eq. cbn [app walk visit_children node_name].
  change (0 + 1) with 1. destruct (visit name o 1) as [r|]; [done|]. cbn [default from_option].
  rewrite <- !app_assoc, walk_props, walk_forest; [|apply Forall_true; intros; by apply walk_tree|lia].
  cbn [app walk]. change (1 - 1 <? 0) with false. cbv match. change (1 - 1) with 0. rewrite IH. f_equal.
  rewrite tree_tokens_eq. cbn [size]. rewrite !size_app. cbn [size]. lia.
Qed.
End Trees.

Lemma scan_props props l o d :
  scan (map prop_token props ++ l) o d = scan l (o + size (map prop_token props)) d.
Proof.
  revert o. induction props as [|p props IH]; intros o; [simpl; f_equal; lia|].
  cbn [map app scan prop_token size]. rewrite IH. f_equal. cbn [prop_token]. lia.
Qed.

(** ** A node in a blob *)
Section Node.
Context (m : memory) (fdt : Z) (ts : list token).
Hypothesis Hb : blob_ok m fdt ts.
Context (fuel : nat).
Hypothesis Hfuel : (Z.to_nat (fdt_totalsize m fdt) <= fuel)%nat.

(** The tree [t] is at offset [o]. *)
Definition tree_at (o : Z) (t : dtree) : Prop :=
  exists l1 l2, ts = l1 ++ tree_tokens t ++ l2 /\ TEnd ∈ l2 /\ o = size l1.

Lemma tree_at_child o t i o' :
  tree_at o t -> child_offsets o t !! i = Some o' -> exists t', node_children t !! i = Some t' /\ tree_at o' t'.
Proof.
  intros (l1 & l2 & E & Hend & ->) Hi. destruct t as [name props children].
  destruct (lookup_offsets _ _ _ _ Hi) as (ts1 & t' & ts2 & Ec & <- & -> & _). simpl in Ec. subst children.
  exists t'. cbn [node_children]. split; [by rewrite list_lookup_middle|].
  exists (l1 ++ TBegin name :: map prop_token props ++ forest_tokens ts1),
    (forest_tokens ts2 ++ [TEndNode] ++ l2). split.
  - rewrite E, tree_tokens_eq. by norm_tokens.
  - split; [set_solver|]. unfold children_start. cbn [node_name node_props].
    rewrite !size_app. cbn [size]. rewrite !size_app. lia.
Qed.

Lemma tokens_fit l1 l2 d : ts = l1 ++ l2 -> 0 <= d <= 1 -> depth_fits d (length l2).
Proof.
  intros E Hd. destruct (blob_size _ _ _ Hb) as [_ Hs]. pose proof (size_bound l2).
  pose proof (size_nonneg l1). rewrite E, size_app in Hs. unfold depth_fits. lia.
Qed.

Lemma fdt_first_subnode_run o t :
  tree_at o t -> fdt_first_subnode m fdt fuel o = Some (forest_next (children_start o t) (node_children t)).
Proof.
  intros (l1 & l2 & E & Hend & ->). destruct t as [name props children].
  rewrite tree_tokens_eq in E. cbn [app] in E. rewrite <- !app_assoc in E. cbn [app] in E.
  unfold fdt_first_subnode.
  rewrite (fdt_next_node_scan m fdt ts Hb fuel Hfuel l1 name _ (Some 0) E).
  2: set_solver.
  2:{ apply (tokens_fit (l1 ++ [TBegin name])); [by rewrite <- app_assoc|lia]. }
  rewrite scan_props. cbn [mbind option_bind]. unfold children_start. cbn [node_name node_props node_children].
  rewrite size_snoc. destruct children as [|[name' props' children'] children].
  { simpl. by rewrite orb_true_r. }
  cbn [forest_tokens flat_map app tree_tokens scan fmap option_fmap option_map].
  change (default 0 (Some (0 + 1))) with 1. cbn [Z.eqb Pos.eqb negb]. rewrite orb_false_r.
  unfold forest_next. cbn [offsets hd]. pose proof (size_nonneg l1). pose proof (token_size_pos (TBegin name)).
  pose proof (size_nonneg (map prop_token props)). match goal with |- context [?x <? 0] => destruct (Z.ltb_spec x 0) end; [lia|done].
Qed.

Lemma fdt_next_subnode_run o t i o' :
  tree_at o t -> child_offsets o t !! i = Some o' ->
  fdt_next_subnode m fdt fuel o' = Some (default (- FDT_ERR_NOTFOUND) (child_offsets o t !! S i)).
Proof.
  intros (l1 & l2 & E & Hend & ->) Hi. destruct t as [name props children].
  destruct (lookup_offsets _ _ _ _ Hi) as (ts1 & [name' props' children'] & ts2 & Ec & Hlen & -> & Hj).
  simpl in Ec. subst children i. unfold child_offsets. rewrite <- Nat.add_1_r, Hj.
  set (pre := l1 ++ TBegin name :: map prop_token props ++ forest_tokens ts1).
  set (rest := map prop_token props' ++ forest_tokens children' ++ [TEndNode] ++
    (forest_tokens ts2 ++ [TEndNode] ++ l2)).
  assert (E' : ts = pre ++ TBegin name' :: rest).
  { unfold pre, rest. rewrite E. by norm_tokens. }
  assert (Ho : children_start (size l1) (DNode name props (ts1 ++ DNode name' props' children' :: ts2))
      + size (forest_tokens ts1) = size pre).
  { unfold pre, children_start. cbn [node_name node_props]. rewrite !size_app. cbn [size].
    rewrite !size_app. lia. }
  rewrite Ho. unfold fdt_next_subnode.
  rewrite (next_subnode_loop_walk m fdt ts Hb fuel Hfuel fuel pre name' rest 1 E'); [|set_solver|..].
  2:{ eapply (length_blob m fdt ts Hb fuel Hfuel (pre ++ [TBegin name'])). by rewrite <- app_assoc. }
  2:{ apply (tokens_fit (pre ++ [TBegin name'])); [by rewrite <- app_assoc|lia]. }
  assert (Hv : forall name o d, 2 <= d -> visit_sibling name o d = None).
  { intros x y d Hd. unfold visit_sibling. destruct (Z.ltb_spec 1 d); [done|lia]. }
  unfold rest. rewrite walk_props, walk_forest; [|apply Forall_true; intros; by apply walk_tree|lia].
  cbn [app walk]. change (1 - 1 <? 0) with false. cbv match. change (1 - 1) with 0.
  rewrite walk_children by done. rewrite size_snoc. f_equal.
  rewrite tree_tokens_eq. cbn [size]. rewrite !size_app. cbn [size].
  replace (size pre + token_size (TBegin name') + size (map prop_token props') + size (forest_tokens children')
    + token_size TEndNode)
    with (size pre + (token_size (TBegin name') + (size (map prop_token props') +
      (size (forest_tokens children') + (token_size TEndNode + 0))))) by lia.
  by destruct ts2.
Qed.

(** *** Nodes by name *)

(** [fdt_nodename_eq_] on a name and the name looked for, which may leave out the
    unit address. *)
Definition name_matches (name want : list Z) : bool :=
  bool_decide (take (length want) name = want) && (length want <=? length name)%nat &&
  match name !! length want with
  | None => true
  | Some c => bool_decide (64 ∉ want) && (c =? 64)
  end.

Lemma node_name_run l1 name l2 :
  ts = l1 ++ TBegin name :: l2 ->
  let p := fdt + fdt_off_dt_struct m fdt + size l1 + 4 in
  0 < p /\ cstr m p name /\ Forall (fun c => 0 < c < 256) name /\
  fdt_get_name m fdt fuel (size l1) = Some (p, Z.of_nat (length name)).
Proof.
  intros E p. destruct (blob_token _ _ _ Hb _ _ _ E) as (Hbt & Htok & Hle).
  pose proof (size_nonneg l1) as H0. destruct (blob_size _ _ _ Hb) as [Hs1 Hs2].
  pose proof (fdt_get_header_range m fdt header_off_dt_struct) as Hoff.
  fold (fdt_off_dt_struct m fdt) in Hoff. pose proof (bo_fdt _ _ _ Hb) as Hf.
  cbn [token_ok token_size] in *. pose proof (up4_range (Z.of_nat (length name) + 1)) as Hup.
  assert (Hc : cstr m p name).
  { unfold token_data in Hbt. apply block_app in Hbt as [_ Hbt]. split; [exact Hbt|].
    eapply Forall_impl; [exact Htok|]. simpl. intros. lia. }
  split; [unfold p; lia|]. split; [done|]. split; [done|].
  unfold fdt_get_name. pose proof (bo_probe _ _ _ Hb). pose proof (bo_version _ _ _ Hb).
  destruct (Z.ltb_spec (fdt_ro_probe_ m fdt) 0); [lia|].
  rewrite (fdt_check_node_offset_begin m fdt ts Hb fuel Hfuel _ _ _ E). cbn [mbind option_bind].
  pose proof (size_nonneg (l1 ++ [TBegin name])).
  destruct (Z.ltb_spec (size (l1 ++ [TBegin name])) 0); [lia|].
  destruct (Z.ltb_spec (fdt_version m fdt) 16); [lia|]. cbn [mbind option_bind].
  change (node_header_name (fdt_offset_ptr_ m fdt (size l1))) with p.
  destruct (Z.eqb_spec p NULL); [unfold p, NULL in *; lia|].
  rewrite (strlen_cstr fuel m p name Hc) by lia. cbn [mbind option_bind]. rewrite s32_id by lia. done.
Qed.

(** A string of given length at [s]. *)
Definition slice_at (s : Z) (want : list Z) : Prop := 0 < s /\ bytes_at (length want) m s = want.

Lemma nodename_eq_run l1 name l2 s want :
  ts = l1 ++ TBegin name :: l2 -> slice_at s want ->
  fdt_nodename_eq_ m fdt fuel (size l1) s (Z.of_nat (length want)) = Some (name_matches name want).
Proof.
  intros E [Hs Hw]. destruct (node_name_run _ _ _ E) as (Hp & Hc & Hn & Eg).
  unfold fdt_nodename_eq_. rewrite Eg. cbn [mbind option_bind]. set (p := fdt + _ + _ + _) in *.
  destruct (Z.eqb_spec p NULL); [unfold NULL in *; lia|]. cbn [orb]. unfold name_matches.
  destruct (Z.ltb_spec (Z.of_nat (length name)) (Z.of_nat (length want))) as [Hlt|Hge].
  { destruct (Nat.leb_spec (length want) (length name)); [lia|]. by rewrite andb_false_r. }
  destruct (Nat.leb_spec (length want) (length name)) as [Hle|]; [|lia].
  rewrite Nat2Z.id, memcmp_eq, Hw, andb_true_r.
  assert (Ht : bytes_at (length want) m p = take (length want) name).
  { rewrite <- (cstr_bytes m p name Hc). replace (length name) with (length want + (length name - length want))%nat by lia.
    rewrite bytes_at_app, take_app_length' by (by rewrite length_bytes_at). done. }
  rewrite Ht. destruct (bool_decide (take (length want) name = want)); [|done]. cbn [negb andb].
  rewrite ld8_rd.
  assert (Hz : rd m (p + Z.of_nat (length want)) = default 0 (name !! length want)).
  { destruct Hc as [Hbl _]. destruct (name !! length want) as [c|] eqn:Ec.
    - apply (Hbl (length want)). rewrite lookup_app_l; [done|]. by apply lookup_lt_Some in Ec.
    - apply lookup_ge_None in Ec. apply (Hbl (length want)).
      replace (length want) with (length name + 0)%nat by lia. by rewrite lookup_app_r, Nat.add_sub' by lia. }
  rewrite Hz. destruct (name !! length want) as [c|] eqn:Ec; cbn [default from_option]; [|done].
  rewrite Forall_lookup in Hn. specialize (Hn _ _ Ec). simpl in Hn. unfold id.
  destruct (Z.eqb_spec c 0); [lia|]. rewrite memchr_run by lia. rewrite Hw.
  destruct (position 64 want) as [i|] eqn:Ep.
  - destruct (Z.eqb_spec (s + Z.of_nat i) 0); [lia|]. rewrite bool_decide_eq_false_2; [done|].
    intros Hn64. apply position_None in Hn64. congruence.
  - apply position_None in Ep. by rewrite bool_decide_eq_true_2.
Qed.

(** The visit of [fdt_subnode_offset_namelen]. *)
Definition visit_named (want name : list Z) (o d : Z) : option Z :=
  if (d =? 1) && name_matches name want then Some o else None.

Lemma subnode_loop_walk n l1 name l2 d s want :
  ts = l1 ++ TBegin name :: l2 -> TEnd ∈ l2 -> (length l2 <= n)%nat -> depth_fits d (length l2) ->
  slice_at s want ->
  subnode_loop m fdt fuel n (size l1) d s (Z.of_nat (length want)) =
    Some (default (walk (visit_named want) l2 (size (l1 ++ [TBegin name])) d)
            (visit_named want name (size l1) d)).
Proof.
  revert l1 name l2 d. induction n as [|n IH]; intros l1 name l2 d E Hend Hn Hd Hw.
  { destruct l2; [by apply elem_of_nil in Hend|simpl in Hn; lia]. }
  cbn [subnode_loop]. pose proof (size_nonneg l1). unfold depth_fits in Hd.
  destruct (Z.leb_spec 0 (size l1)), (Z.leb_spec 0 d); try lia. cbn [andb]. unfold visit_named at 2.
  assert (Hm : (if d =? 1 then fdt_nodename_eq_ m fdt fuel (size l1) s (Z.of_nat (length want)) else Some false)
    = Some ((d =? 1) && name_matches name want)).
  { destruct (d =? 1); [|done]. by eapply nodename_eq_run. }
  rewrite Hm. cbn [mbind option_bind]. destruct (_ && _); [done|]. cbn [default from_option].
  rewrite (fdt_next_node_scan m fdt ts Hb fuel Hfuel l1 name l2 (Some d) E Hend Hd). cbn [mbind option_bind].
  destruct (scan_cases (visit_named want) l2 (size (l1 ++ [TBegin name])) d ltac:(lia))
    as [(r & d' & -> & Hr & ->)|(pre & name' & l' & El & Hpre & d' & -> & Hd' & ->)].
  - change (default 0 (Some d')) with d'.
    assert (Hstop : subnode_loop m fdt fuel n r d' s (Z.of_nat (length want)) =
      Some (if d' <? 0 then - FDT_ERR_NOTFOUND else r)).
    { unfold FDT_ERR_NOTFOUND in *.
      destruct n; cbn [subnode_loop]; destruct (Z.leb_spec 0 r), (Z.leb_spec 0 d'); (done || lia). }
    rewrite Hstop. destruct (Z.ltb_spec d' 0); [done|]. destruct Hr as [->|]; [done|lia].
  - change (default 0 (Some d')) with d'. rewrite <- size_app, <- size_snoc. subst l2.
    rewrite length_app in *. simpl length in *. apply IH.
    + by rewrite E, <- !app_assoc.
    + set_solver.
    + lia.
    + unfold depth_fits. lia.
    + done.
Qed.

(** The first child with the name. *)
Definition child_named (o : Z) (t : dtree) (want : list Z) : Z :=
  visit_children (visit_named want) (children_start o t) (node_children t).

Lemma fdt_subnode_offset_run o t s want :
  tree_at o t -> slice_at s want ->
  fdt_subnode_offset_namelen m fdt fuel o s (Z.of_nat (length want)) = Some (child_named o t want).
Proof.
  intros (l1 & l2 & E & Hend & ->) Hw. destruct t as [name props children].
  unfold fdt_subnode_offset_namelen. pose proof (bo_probe _ _ _ Hb).
  destruct (Z.ltb_spec (fdt_ro_probe_ m fdt) 0); [lia|].
  set (rest := map prop_token props ++ forest_tokens children ++ TEndNode :: l2).
  assert (E' : ts = l1 ++ TBegin name :: rest) by (rewrite E; unfold rest; by norm_tokens).
  rewrite (subnode_loop_walk fuel l1 name rest 0 s want E'); [|set_solver| | |done].
  2:{ eapply (length_blob m fdt ts Hb fuel Hfuel (l1 ++ [TBegin name])). by rewrite <- app_assoc. }
  2:{ apply (tokens_fit (l1 ++ [TBegin name])); [by rewrite <- app_assoc|lia]. }
  change (visit_named want name (size l1) 0) with (@None Z). cbn [default from_option].
  unfold rest, child_named, children_start. cbn [node_name node_props node_children].
  rewrite walk_props, walk_children; [by rewrite size_snoc| |done].
  intros x y d Hd. unfold visit_named. destruct (Z.eqb_spec d 1); [lia|done].
Qed.

(** *** Nodes by path *)
Fixpoint find_in (want : list Z) (o : Z) (l : list dtree) : option (Z * dtree) :=
  match l with
  | [] => None
  | t :: l => if name_matches (node_name t) want then Some (o, t)
              else find_in want (o + size (tree_tokens t)) l
  end.
Definition find_child (want : list Z) (o : Z) (t : dtree) : option (Z * dtree) :=
  find_in want (children_start o t) (node_children t).

(** The node that a path leads to, from the tree [t] at [o]. *)
Fixpoint find_path (path : list (list Z)) (o : Z) (t : dtree) : option (Z * dtree) :=
  match path with
  | [] => Some (o, t)
  | want :: path => '(o, t) ← find_child want o t; find_path path o t
  end.
Definition found (r : option (Z * dtree)) : Z := if r is Some (o, _) then o else - FDT_ERR_NOTFOUND.

Lemma child_named_found want o t : child_named o t want = found (find_child want o t).
Proof.
  unfold child_named, find_child. generalize (children_start o t). induction (node_children t) as [|c l IH];
    intros o'; [done|]. cbn [visit_children find_in]. unfold visit_named at 2. cbn [Z.eqb Pos.eqb andb].
  destruct (name_matches _ _); [done|]. apply IH.
Qed.

Lemma find_in_lookup want o l o' t :
  find_in want o l = Some (o', t) -> exists i, offsets o l !! i = Some o' /\ l !! i = Some t.
Proof.
  revert o. induction l as [|c l IH]; intros o; [done|]. cbn [find_in].
  destruct (name_matches _ _); [intros [= <- <-]; by exists 0%nat|].
  intros (i & Hi)%IH. by exists (S i).
Qed.

Lemma find_child_at want o t o' t' : tree_at o t -> find_child want o t = Some (o', t') -> tree_at o' t'.
Proof.
  intros Ht (i & Ho & Hc)%find_in_lookup.
  destruct (tree_at_child o t i o' Ht Ho) as (t0 & Ht0 & Hat). by simplify_eq.
Qed.

(** The components of a path: not empty, without slashes. *)
Definition component (c : list Z) : Prop := c <> [] /\ 47 ∉ c /\ Forall (fun x => 0 < x < 256) c.
Definition path_string (path : list (list Z)) : list Z := flat_map (cons 47) path.

Lemma position_app c l1 l2 :
  c ∉ l1 -> position c (l1 ++ l2) = (fun i => (length l1 + i)%nat) <$> position c l2.
Proof.
  induction l1 as [|b l1 IH]; intros Hc; [simpl; by destruct (position c l2)|].
  cbn [app position length]. destruct (Z.eqb_spec c b) as [->|]; [set_solver|].
  rewrite IH by set_solver. by destruct (position c l2).
Qed.

Lemma skip_slashes_component k p end_ c x :
  (0 < k)%nat -> component c -> block m p (47 :: c ++ x) -> p + 1 < end_ ->
  skip_slashes m k p end_ = Some (p + 1, false).
Proof.
  intros Hf (Hne & Hc & _) Hbl Hp. apply block_cons in Hbl as [H47 Hbl].
  destruct k as [|k]; [lia|]. cbn [skip_slashes]. rewrite ld8_rd, H47. cbn [Z.eqb Pos.eqb].
  destruct (Z.eqb_spec (p + 1) end_); [lia|].
  destruct c as [|b c]; [done|]. cbn [app] in Hbl. apply block_cons in Hbl as [Hb1 _].
  assert (b <> 47) by set_solver.
  destruct k; cbn [skip_slashes]; rewrite ld8_rd, Hb1; destruct (Z.eqb_spec b 47); done.
Qed.

Lemma path_loop_run n path o t p :
  (length path <= n)%nat -> (0 < fuel)%nat -> tree_at o t -> Forall component path -> 0 < p ->
  Z.of_nat (length (path_string path)) < 2 ^ 31 ->
  block m p (path_string path) ->
  path_loop m fdt fuel n o p (p + Z.of_nat (length (path_string path))) = Some (found (find_path path o t)).
Proof.
  intros Hn Hf. revert n o t p Hn. induction path as [|c path IH]; intros n o t p Hn Ht Hp Hpos Hlen Hbl.
  { destruct n; cbn [path_loop path_string flat_map length]; destruct (Z.ltb_spec p (p + Z.of_nat 0)); (lia || done). }
  apply Forall_cons in Hp as [Hc Hp]. destruct n as [|n]; [simpl in Hn; lia|]. cbn [path_loop].
  change (path_string (c :: path)) with (47 :: c ++ path_string path) in *.
  cbn [length] in *. rewrite length_app in *.
  assert (Hcl : (0 < length c)%nat) by (destruct Hc as [Hne _]; destruct c; [done|simpl; lia]).
  set (end_ := p + Z.of_nat (S (length c + length (path_string path)))).
  destruct (Z.ltb_spec p end_); [|unfold end_ in *; lia].
  rewrite (skip_slashes_component fuel p end_ c (path_string path) Hf Hc Hbl) by (unfold end_; lia).
  cbn [mbind option_bind]. apply block_cons in Hbl as [_ Hbl].
  assert (Hbytes : bytes_at (length c + length (path_string path)) m (p + 1) = c ++ path_string path).
  { apply list_eq. intros i. destruct (decide (i < length c + length (path_string path))%nat) as [Hi|Hi].
    - rewrite lookup_bytes_at by done.
      destruct ((c ++ path_string path) !! i) as [v|] eqn:Ev; [by rewrite (Hbl _ _ Ev)|].
      apply lookup_ge_None in Ev. rewrite length_app in Ev. lia.
    - rewrite !lookup_ge_None_2; [done|rewrite length_app; lia|rewrite length_bytes_at; lia]. }
  assert (Hq : (let q := memchr m (p + 1) 47 (Z.to_nat (end_ - (p + 1))) in if q =? NULL then end_ else q)
    = p + 1 + Z.of_nat (length c)).
  { cbv zeta. replace (Z.to_nat (end_ - (p + 1))) with (length c + length (path_string path))%nat
      by (unfold end_; lia).
    rewrite memchr_run, Hbytes by lia. rewrite position_app by apply Hc.
    destruct path as [|c' path]; [|cbn [path_string flat_map app position]; cbn [Z.eqb Pos.eqb];
      cbn [fmap option_fmap option_map]; unfold NULL; destruct (Z.eqb_spec (p + 1 + Z.of_nat (length c + 0)) 0); lia].
    cbn [path_string flat_map position fmap option_fmap option_map]. unfold NULL. cbn [Z.eqb].
    unfold end_. simpl. lia. }
  cbv zeta in Hq |- *. rewrite Hq. replace (p + 1 + Z.of_nat (length c) - (p + 1)) with (Z.of_nat (length c)) by lia.
  rewrite s32_id by lia.
  rewrite (fdt_subnode_offset_run o t (p + 1) c Ht).
  2:{ split; [lia|]. rewrite bytes_at_app in Hbytes. apply app_inj_1 in Hbytes as [? _]; [done|].
      apply length_bytes_at. }
  cbn [mbind option_bind find_path]. rewrite child_named_found.
  destruct (find_child c o t) as [[o' t']|] eqn:Ef; cbn [found mbind option_bind]; [|done].
  pose proof (find_child_at _ _ _ _ _ Ht Ef) as Hat'. destruct Hat' as (l1 & l2 & E & Hend & ->).
  pose proof (size_nonneg l1). destruct (Z.ltb_spec (size l1) 0); [lia|].
  replace end_ with (p + 1 + Z.of_nat (length c) + Z.of_nat (length (path_string path))) by (unfold end_; lia).
  apply IH; [simpl in Hn; lia|by exists l1, l2|done|lia|lia|]. by apply block_app in Hbl as [_ Hbl].
Qed.

Lemma fdt_path_offset_run `{Symbols} root path p :
  tree_at 0 root -> Forall component path -> 0 < p ->
  cstr m p (if decide (path = []) then [47] else path_string path) ->
  Z.of_nat (length (path_string path)) < 2 ^ 31 -> (length (path_string path) < fuel)%nat ->
  fdt_path_offset m fdt fuel p = Some (found (find_path path 0 root)).
Proof.
  intros Ht Hp Hpos Hs Hlen Hf. unfold fdt_path_offset, path_offset_with.
  pose proof (bo_probe _ _ _ Hb).
  assert (Hun : forall k n, ld8 m p = 47 ->
    fdt_path_offset_namelen m fdt k p n = path_loop m fdt k k 0 p (p + n)).
  { intros k n H47. destruct k; cbn [fdt_path_offset_namelen];
      (destruct (Z.ltb_spec (fdt_ro_probe_ m fdt) 0); [lia|]); by rewrite H47. }
  case_decide as Hd.
  - subst path. rewrite (strlen_cstr fuel m p [47] Hs) by (simpl in *; lia). cbn [mbind option_bind length].
    apply cstr_cons in Hs as (H47 & _ & _). rewrite Hun by by rewrite ld8_rd.
    change (s32 (Z.of_nat 1)) with 1.
    assert (Hpl : forall k, path_loop m fdt fuel k 0 p (p + 1) = Some 0); [|by rewrite Hpl].
    intros k. assert (Hsk : skip_slashes m fuel p (p + 1) = Some (p + 1, true)).
    { destruct fuel; cbn [skip_slashes]; rewrite ld8_rd, H47, !Z.eqb_refl; done. }
    destruct k; cbn [path_loop]; (destruct (Z.ltb_spec p (p + 1)); [|lia]); by rewrite Hsk.
  - rewrite (strlen_cstr fuel m p _ Hs) by lia. cbn [mbind option_bind]. rewrite s32_id by lia.
    assert (Hlp : (length path <= length (path_string path))%nat).
    { clear. induction path as [|c l IH]; [done|]. simpl. rewrite length_app. lia. }
    destruct path as [|c path]; [done|]. pose proof Hs as [Hbl _]. apply cstr_cons in Hs as (H47 & _ & _).
    rewrite Hun by by rewrite ld8_rd. apply block_app in Hbl as [Hbl _].
    apply path_loop_run; (done || lia).
Qed.

(** *** Properties *)
Lemma nextprop_run l1 t l2 :
  ts = l1 ++ t :: l2 -> t <> TNop -> t <> TEnd ->
  nextprop_ m fdt fuel (size l1) =
    Some (if t is TProp _ _ then size l1 else - FDT_ERR_NOTFOUND).
Proof.
  intros E Hn He. unfold nextprop_.
  assert (forall n, nextprop_loop m fdt fuel n (size l1) =
    Some (if t is TProp _ _ then size l1 else - FDT_ERR_NOTFOUND)) as ->; [|done].
  intros n. destruct n; cbn [nextprop_loop];
    rewrite (fdt_next_tag_token _ _ _ Hb fuel l1 t l2 E Hfuel); cbn [mbind option_bind];
    destruct t; done.
Qed.

Lemma fdt_check_prop_offset_prop l1 nameoff data l2 :
  ts = l1 ++ TProp nameoff data :: l2 ->
  fdt_check_prop_offset_ m fdt fuel (size l1) = Some (size (l1 ++ [TProp nameoff data])).
Proof.
  intros E. unfold fdt_check_prop_offset_, FDT_TAGSIZE. pose proof (size_nonneg l1).
  destruct (Z.ltb_spec (size l1) 0); [lia|]. rewrite size_mod. cbn [orb negb Z.eqb].
  rewrite (fdt_next_tag_token _ _ _ Hb fuel l1 _ l2 E Hfuel). cbn [mbind option_bind token_tag].
  cbn [FDT_PROP Z.eqb Pos.eqb negb]. by rewrite size_snoc.
Qed.

(** The offsets of properties that are at [o]. *)
Fixpoint prop_offsets (o : Z) (props : list (Z * list Z)) : list Z :=
  match props with
  | [] => []
  | p :: props => o :: prop_offsets (o + token_size (prop_token p)) props
  end.
Definition props_start (o : Z) (t : dtree) : Z := o + token_size (TBegin (node_name t)).

(** The token after the properties of a node. *)
Lemma after_props (children : list dtree) (l2 : list token) :
  exists t l, forest_tokens children ++ TEndNode :: l2 = t :: l /\ t <> TNop /\ t <> TEnd /\
    (forall no d, t <> TProp no d).
Proof.
  destruct children as [|[name props children'] children].
  - by eexists _, _.
  - rewrite forest_tokens_cons, tree_tokens_eq. by eexists _, _.
Qed.

Lemma next_props l1 props l2 t l :
  ts = l1 ++ map prop_token props ++ l2 -> l2 = t :: l -> t <> TNop -> t <> TEnd ->
  (forall no d, t <> TProp no d) ->
  nextprop_ m fdt fuel (size l1) = Some (hd (- FDT_ERR_NOTFOUND) (prop_offsets (size l1) props)).
Proof.
  intros E -> Hn He Hp. destruct props as [|[no d] props].
  - rewrite (nextprop_run l1 t l E Hn He). destruct t; try done. by destruct (Hp nameoff data).
  - rewrite (nextprop_run l1 (TProp no d) _ E) by done. done.
Qed.

Lemma fdt_first_property_run o t :
  tree_at o t ->
  fdt_first_property_offset m fdt fuel o =
    Some (hd (- FDT_ERR_NOTFOUND) (prop_offsets (props_start o t) (node_props t))).
Proof.
  intros (l1 & l2 & E & Hend & ->). destruct t as [name props children].
  destruct (after_props children l2) as (tk & l & El & H1 & H2 & H3).
  assert (E' : ts = l1 ++ TBegin name :: map prop_token props ++ forest_tokens children ++ TEndNode :: l2)
    by (rewrite E; by norm_tokens).
  unfold fdt_first_property_offset. rewrite (fdt_check_node_offset_begin m fdt ts Hb fuel Hfuel _ _ _ E').
  cbn [mbind option_bind]. pose proof (size_nonneg (l1 ++ [TBegin name])).
  destruct (Z.ltb_spec (size (l1 ++ [TBegin name])) 0); [lia|].
  unfold props_start. cbn [node_name node_props]. rewrite <- size_snoc.
  eapply next_props; [|exact El|done..]. by rewrite E', <- app_assoc.
Qed.

Lemma fdt_next_property_run l1 nameoff data props children l2 :
  ts = l1 ++ TProp nameoff data :: map prop_token props ++ forest_tokens children ++ TEndNode :: l2 ->
  fdt_next_property_offset m fdt fuel (size l1) =
    Some (hd (- FDT_ERR_NOTFOUND) (prop_offsets (size (l1 ++ [TProp nameoff data])) props)).
Proof.
  intros E. destruct (after_props children l2) as (tk & l & El & H1 & H2 & H3).
  unfold fdt_next_property_offset. rewrite (fdt_check_prop_offset_prop _ _ _ _ E). cbn [mbind option_bind].
  pose proof (size_nonneg (l1 ++ [TProp nameoff data])).
  destruct (Z.ltb_spec (size (l1 ++ [TProp nameoff data])) 0); [lia|].
  eapply next_props; [|exact El|done..]. by rewrite E, <- app_assoc.
Qed.

(** *** Values of properties *)

(** The string [str] is at offset [no] of the strings block. *)
Record string_entry (no : Z) (str : list Z) : Prop := {
  se_magic : fdt_magic m fdt = FDT_MAGIC;
  se_range : 0 <= no < 2 ^ 31;
  se_fits : fdt_off_dt_strings m fdt + no + Z.of_nat (length str) + 1 <= fdt_totalsize m fdt;
  se_size : 17 <= fdt_version m fdt -> no + Z.of_nat (length str) + 1 <= fdt_size_dt_strings m fdt;
  se_string : cstr m (fdt + fdt_off_dt_strings m fdt + no) str;
}.

Lemma fdt_ro_probe_size : fdt_ro_probe_ m fdt = fdt_totalsize m fdt.
Proof.
  pose proof (bo_probe _ _ _ Hb) as Hp. pose proof (bo_total _ _ _ Hb) as Ht.
  pose proof (fdt_get_header_range m fdt header_totalsize) as Hr. fold (fdt_totalsize m fdt) in Hr.
  unfold fdt_ro_probe_, INT32_MAX, FDT_ERR_BADVERSION, FDT_ERR_BADSTATE, FDT_ERR_BADMAGIC in *.
  repeat case_match; try lia; done.
Qed.

Lemma cstr_position p str n :
  cstr m p str -> (length str < n)%nat -> position 0 (bytes_at n m p) = Some (length str).
Proof.
  intros Hc Hn. replace n with (length str + S (n - length str - 1))%nat by lia.
  rewrite bytes_at_app, (cstr_bytes m p str Hc). destruct Hc as [Hbl Hnz].
  rewrite position_app by (intros H0; rewrite Forall_forall in Hnz; by apply (Hnz 0)).
  cbn [bytes_at position]. assert (rd m (p + Z.of_nat (length str)) = 0) as ->.
  { apply (Hbl (length str)). by rewrite lookup_app_r, Nat.sub_diag by lia. }
  cbn [Z.eqb fmap option_fmap option_map]. f_equal. lia.
Qed.

Lemma fdt_get_string_run no str :
  string_entry no str ->
  fdt_get_string m fdt no = (fdt + fdt_off_dt_strings m fdt + no, Z.of_nat (length str)).
Proof.
  intros [Hmag Hno Hfit Hsize Hs]. unfold fdt_get_string. rewrite fdt_ro_probe_size.
  pose proof (bo_total _ _ _ Hb) as Ht. pose proof (bo_fdt _ _ _ Hb).
  pose proof (fdt_get_header_range m fdt header_totalsize) as Hr. fold (fdt_totalsize m fdt) in Hr.
  pose proof (fdt_get_header_range m fdt header_off_dt_strings) as Ho. fold (fdt_off_dt_strings m fdt) in Ho.
  pose proof (fdt_get_header_range m fdt header_size_dt_strings) as Hz. fold (fdt_size_dt_strings m fdt) in Hz.
  destruct (Z.ltb_spec (fdt_totalsize m fdt) 0); [lia|].
  rewrite (u32_id (no + fdt_off_dt_strings m fdt)) by lia.
  destruct (Z.leb_spec (fdt_totalsize m fdt) (no + fdt_off_dt_strings m fdt)); [lia|].
  rewrite (u32_id (fdt_totalsize m fdt - (no + fdt_off_dt_strings m fdt))) by lia.
  rewrite Hmag, Z.eqb_refl. destruct (Z.ltb_spec no 0); [lia|].
  assert (Hsearch : forall len, Z.of_nat (length str) < len ->
    (let n := memchr m (fdt + (no + fdt_off_dt_strings m fdt)) 0 (Z.to_nat len) in
     if n =? NULL then (NULL, - FDT_ERR_TRUNCATED)
     else (fdt + (no + fdt_off_dt_strings m fdt), s32 (n - (fdt + (no + fdt_off_dt_strings m fdt))))) =
    (fdt + fdt_off_dt_strings m fdt + no, Z.of_nat (length str))).
  { intros len Hlen. cbv zeta.
    replace (fdt + (no + fdt_off_dt_strings m fdt)) with (fdt + fdt_off_dt_strings m fdt + no) by lia.
    rewrite memchr_run by lia. rewrite (cstr_position _ str) by (done || lia).
    destruct (Z.eqb_spec (fdt + fdt_off_dt_strings m fdt + no + Z.of_nat (length str)) NULL);
      [unfold NULL in *; lia|]. f_equal. rewrite s32_id by lia. lia. }
  destruct (Z.leb_spec 17 (fdt_version m fdt)) as [Hv|Hv]; [|apply Hsearch; lia].
  specialize (Hsize Hv). rewrite (u32_id no), (u32_id (fdt_size_dt_strings m fdt - no)) by lia.
  destruct (Z.leb_spec (fdt_size_dt_strings m fdt) no); [lia|].
  apply Hsearch. destruct (Z.ltb_spec (fdt_size_dt_strings m fdt - no)
    (fdt_totalsize m fdt - (no + fdt_off_dt_strings m fdt))); lia.
Qed.

Lemma fdt_string_eq_run no str s want :
  string_entry no str -> slice_at s want ->
  fdt_string_eq_ m fdt no s (Z.of_nat (length want)) = bool_decide (str = want).
Proof.
  intros Hse [_ Hw]. unfold fdt_string_eq_. rewrite (fdt_get_string_run _ _ Hse).
  destruct Hse as [_ Hno _ _ Hc]. pose proof (bo_fdt _ _ _ Hb).
  pose proof (fdt_get_header_range m fdt header_off_dt_strings) as Ho. fold (fdt_off_dt_strings m fdt) in Ho.
  set (p := fdt + fdt_off_dt_strings m fdt + no) in *.
  destruct (Z.eqb_spec p NULL); [unfold p, NULL in *; lia|]. cbn [negb andb].
  destruct (Z.eqb_spec (Z.of_nat (length str)) (Z.of_nat (length want))) as [El|Hne]; cbn [andb].
  - rewrite Nat2Z.id, memcmp_eq, Hw. apply Nat2Z.inj in El. rewrite <- El, (cstr_bytes m p str Hc). done.
  - symmetry. apply bool_decide_eq_false_2. intros ->. lia.
Qed.

Context (strs : Z -> list Z).

(** The first property of the name, at its offset. *)
Fixpoint find_prop (want : list Z) (o : Z) (props : list (Z * list Z)) : option (Z * list Z) :=
  match props with
  | [] => None
  | p :: props =>
      if bool_decide (strs (fst p) = want) then Some (o, snd p)
      else find_prop want (o + token_size (prop_token p)) props
  end.

Lemma prop_token_run l1 no data l2 :
  ts = l1 ++ TProp no data :: l2 ->
  let p := fdt + fdt_off_dt_struct m fdt + size l1 in
  0 < p /\ fdt_get_property_by_offset_ m fdt fuel (size l1) = Some (p, Z.of_nat (length data)) /\
  fdt32_to_cpu (ld32 m (property_nameoff p)) = no /\ block m (property_data p) data.
Proof.
  intros E p. destruct (blob_token _ _ _ Hb _ _ _ E) as (Hbt & (Hno & Hlen & _) & _).
  pose proof (size_nonneg l1). pose proof (bo_fdt _ _ _ Hb).
  pose proof (fdt_get_header_range m fdt header_off_dt_struct) as Ho. fold (fdt_off_dt_struct m fdt) in Ho.
  fold p in Hbt. unfold token_data in Hbt.
  apply block_app in Hbt as [_ Hbt]. apply block_app in Hbt as [Hl Hbt]. apply block_app in Hbt as [Hn Hd].
  change (Z.of_nat (length (be_bytes (token_tag (TProp no data))))) with 4 in *.
  change (Z.of_nat (length (be_bytes (Z.of_nat (length data))))) with 4 in *.
  change (Z.of_nat (length (be_bytes no))) with 4 in *.
  split; [unfold p; lia|]. split; [|split].
  - unfold fdt_get_property_by_offset_. rewrite (fdt_check_prop_offset_prop _ _ _ _ E). cbn [mbind option_bind].
    pose proof (size_nonneg (l1 ++ [TProp no data])).
    destruct (Z.ltb_spec (size (l1 ++ [TProp no data])) 0); [lia|].
    change (fdt_offset_ptr_ m fdt (size l1)) with p. unfold property_len.
    rewrite (fdt32_block m (p + 4) (Z.of_nat (length data))) by (done || lia). by rewrite s32_id by lia.
  - unfold property_nameoff. replace (p + 8) with (p + 4 + 4) by lia. by apply fdt32_block.
  - unfold property_data. by replace (p + 12) with (p + 4 + 4 + 4) by lia.
Qed.

Lemma get_property_loop_run n l1 props children l2 s want :
  ts = l1 ++ map prop_token props ++ forest_tokens children ++ TEndNode :: l2 ->
  (length props <= n)%nat -> slice_at s want ->
  Forall (fun p => string_entry (fst p) (strs (fst p))) props ->
  get_property_loop m fdt fuel n (hd (- FDT_ERR_NOTFOUND) (prop_offsets (size l1) props)) s
      (Z.of_nat (length want)) =
    Some (if find_prop want (size l1) props is Some (o, data)
          then (fdt + fdt_off_dt_struct m fdt + o, Z.of_nat (length data), o)
          else (NULL, - FDT_ERR_NOTFOUND, 0)).
Proof.
  intros E Hn Hw Hs. revert n l1 E Hn. induction Hs as [|[no data] props Hse _ IH]; intros n l1 E Hn.
  { destruct n; done. }
  destruct n as [|n]; [simpl in Hn; lia|]. cbn [prop_offsets hd get_property_loop].
  destruct (prop_token_run l1 no data _ E) as (Hp & Eg & En & Hd). pose proof (size_nonneg l1).
  destruct (Z.leb_spec 0 (size l1)); [|lia]. rewrite Eg. cbn [mbind option_bind].
  set (p := fdt + fdt_off_dt_struct m fdt + size l1) in *.
  destruct (Z.eqb_spec p NULL); [unfold NULL in *; lia|]. rewrite En. cbn [fst] in Hse.
  rewrite s32_id by (destruct Hse; lia).
  rewrite (fdt_string_eq_run no (strs no) s want Hse Hw). cbn [find_prop fst snd].
  destruct (bool_decide (strs no = want)); [done|].
  rewrite (fdt_next_property_run l1 no data props children l2 E). cbn [mbind option_bind].
  change (prop_token (no, data)) with (TProp no data). rewrite <- size_snoc.
  apply IH; [by rewrite E, <- app_assoc|simpl in Hn; lia].
Qed.

Lemma find_prop_data want l1 props l2 o data :
  ts = l1 ++ map prop_token props ++ l2 -> find_prop want (size l1) props = Some (o, data) ->
  0 < fdt + fdt_off_dt_struct m fdt + o /\ block m (fdt + fdt_off_dt_struct m fdt + o + 12) data /\
  0 <= o /\ o + 12 + Z.of_nat (length data) <= size ts.
Proof.
  revert l1. induction props as [|[no d] props IH]; intros l1 E; [done|]. cbn [find_prop fst snd].
  case_bool_decide.
  - intros [= <- <-]. destruct (prop_token_run l1 no d _ E) as (Hp & _ & _ & Hd).
    split; [done|]. split; [done|]. pose proof (size_nonneg l1). split; [done|].
    rewrite E, size_app. cbn [map app size]. change (prop_token (no, d)) with (TProp no d).
    cbn [token_size]. pose proof (up4_range (Z.of_nat (length d))).
    pose proof (size_nonneg (map prop_token props ++ l2)). lia.
  - change (prop_token (no, d)) with (TProp no d). rewrite <- size_snoc. apply IH.
    by rewrite E, <- app_assoc.
Qed.

Lemma fdt_getprop_run o t s want :
  tree_at o t -> slice_at s want ->
  Forall (fun p => string_entry (fst p) (strs (fst p))) (node_props t) ->
  match find_prop want (props_start o t) (node_props t) with
  | Some (o', data) =>
      let a := fdt + fdt_off_dt_struct m fdt + o' + 12 in
      fdt_getprop_namelen m fdt fuel o s (Z.of_nat (length want)) = Some (a, Z.of_nat (length data)) /\
      a <> NULL /\ block m a data /\
      fdt <= a /\ a + Z.of_nat (length data) <= fdt + fdt_totalsize m fdt
  | None => fdt_getprop_namelen m fdt fuel o s (Z.of_nat (length want)) = Some (NULL, - FDT_ERR_NOTFOUND)
  end.
Proof.
  intros Ht Hw Hs. unfold fdt_getprop_namelen, fdt_get_property_namelen_.
  rewrite (fdt_first_property_run o t Ht). cbn [mbind option_bind].
  destruct Ht as (l1 & l2 & E & Hend & ->). destruct t as [name props children].
  unfold props_start in *. cbn [node_name node_props] in *. rewrite <- size_snoc.
  assert (E' : ts = (l1 ++ [TBegin name]) ++ map prop_token props ++ forest_tokens children ++ TEndNode :: l2)
    by (rewrite E; by norm_tokens).
  rewrite (get_property_loop_run fuel _ props children l2 s want E' ); [| |done|done].
  2:{ pose proof (length_blob m fdt ts Hb fuel Hfuel _ _ E') as Hl. rewrite length_app, length_map in Hl. lia. }
  cbn [mbind option_bind].
  destruct (find_prop want (size (l1 ++ [TBegin name])) props) as [[o data]|] eqn:Ef; [|done].
  destruct (find_prop_data _ _ _ _ _ _ E' Ef) as (Hp & Hd & Ho & Hle). cbv zeta.
  pose proof (bo_fits _ _ _ Hb). pose proof (fdt_get_header_range m fdt header_off_dt_struct) as Hoff.
  fold (fdt_off_dt_struct m fdt) in Hoff. destruct (Z.eqb_spec (fdt + fdt_off_dt_struct m fdt + o) NULL);
    [unfold NULL in *; lia|]. unfold realigned. pose proof (bo_version _ _ _ Hb).
  destruct (Z.ltb_spec (fdt_version m fdt) 16); [lia|]. cbn [andb]. unfold property_data, NULL.
  split; [done|]. split; [lia|]. split; [done|]. lia.
Qed.
End Node.
