(* ===== verification/FdtSpec.v ===== *)
(** * FdtSpec: what the reading functions of libfdt promise

    A blob that encodes a tree is read as the tree: nodes by path, the children of a
    node, the value of a property. The facts behind the three theorems are in
    FdtTree.v; the witnesses read a small tree of a machine with two cpus. *)
From Stdlib Require Import ZArith Lia.
From stdpp Require Import prelude gmap list strings.
From S2P Require Import Prelude Memory TString Kernel Fdt FdtTokens FdtRo FdtTree.
Open Scope Z_scope.
Open Scope monix_scope.

(** The structure block of the blob is the encoding of the tree [root]. *)
Definition encodes (m : memory) (fdt : Z) (root : dtree) : Prop :=
  blob_ok m fdt (tree_tokens root ++ [TEnd]).

Section Encoded.
Context (m : memory) (fdt : Z) (root : dtree).
Hypothesis Henc : encodes m fdt root.
Abbreviation ts := (tree_tokens root ++ [TEnd]).

Lemma root_at : tree_at ts 0 root.
Proof. exists [], [TEnd]. split; [done|]. split; [set_solver|done]. Qed.

Lemma find_path_at path o t o' t' :
  tree_at ts o t -> find_path path o t = Some (o', t') -> tree_at ts o' t'.
Proof.
  revert o t. induction path as [|want path IH]; intros o t Ht; cbn [find_path].
  - by intros [= <- <-].
  - destruct (find_child want o t) as [[o1 t1]|] eqn:E; [|done]. cbn [mbind option_bind].
    apply IH. by apply (find_child_at m fdt ts Henc _ (le_n _) want o t).
Qed.

(** The names of the properties of a node are in the strings block. *)
Definition named (strs : Z -> list Z) (t : dtree) : Prop :=
  Forall (fun p => string_entry m fdt (fst p) (strs (fst p))) (node_props t).

Lemma named_prop strs (t : dtree) no data :
  named strs t -> (no, data) ∈ node_props t -> string_entry m fdt no (strs no).
Proof. intros Hs Hp. unfold named in Hs. rewrite Forall_forall in Hs. exact (Hs _ Hp). Qed.
End Encoded.

(** [fdt_getprop] on a node of the tree. *)
Lemma fdt_getprop_node m fdt root fuel strs o t s want :
  encodes m fdt root -> (Z.to_nat (fdt_totalsize m fdt) <= fuel)%nat ->
  tree_at (tree_tokens root ++ [TEnd]) o t -> named m fdt strs t ->
  0 < s -> cstr m s want -> Z.of_nat (length want) < 2 ^ 31 -> (length want <= fuel)%nat ->
  match find_prop strs want (props_start o t) (node_props t) with
  | Some (o', data) =>
      let a := fdt + fdt_off_dt_struct m fdt + o' + 12 in
      fdt_getprop m fdt fuel o s = Some (a, Z.of_nat (length data)) /\
      a <> NULL /\ block m a data /\
      fdt <= a /\ a + Z.of_nat (length data) <= fdt + fdt_totalsize m fdt
  | None => fdt_getprop m fdt fuel o s = Some (NULL, - FDT_ERR_NOTFOUND)
  end.
Proof.
  intros He Hf Ht Hn Hs Hw Hl Hlf. unfold fdt_getprop. rewrite (strlen_cstr fuel m s want Hw Hlf).
  cbn [mbind option_bind]. rewrite s32_id by lia.
  apply (fdt_getprop_run m fdt _ He fuel Hf strs o t s want); [done|split; [done|by apply cstr_bytes]|done].
Qed.

(** The nodes that [fdt_first_subnode] and then [n] times [fdt_next_subnode] visit,
    until the first negative result, which ends the list. *)
Fixpoint next_subnodes (m : memory) (fdt : Z) (fuel n : nat) (o : Z) : option (list Z) :=
  if o <? 0 then Some [o] else
  match n with
  | O => None
  | S n =>
      o' ← fdt_next_subnode m fdt fuel o;
      l ← next_subnodes m fdt fuel n o';
      Some (o :: l)
  end.
Definition subnodes (m : memory) (fdt : Z) (fuel n : nat) (parent : Z) : option (list Z) :=
  o ← fdt_first_subnode m fdt fuel parent; next_subnodes m fdt fuel n o.

Lemma offsets_nonneg o ts x : 0 <= o -> x ∈ offsets o ts -> 0 <= x.
Proof.
  revert o. induction ts as [|t ts IH]; intros o Ho Hx; simpl in Hx; [set_solver|].
  apply elem_of_cons in Hx as [->|Hx]; [done|]. pose proof (size_nonneg (tree_tokens t)).
  apply (IH (o + size (tree_tokens t))); [lia|done].
Qed.

Section Siblings.
Context (m : memory) (fdt : Z) (ts : list token).
Hypothesis Hb : blob_ok m fdt ts.
Context (fuel : nat).
Hypothesis Hfuel : (Z.to_nat (fdt_totalsize m fdt) <= fuel)%nat.

Lemma next_subnodes_run o t n i :
  tree_at ts o t -> (length (child_offsets o t) <= n + i)%nat ->
  (i < length (child_offsets o t))%nat ->
  next_subnodes m fdt fuel n (default (- FDT_ERR_NOTFOUND) (child_offsets o t !! i)) =
    Some (drop i (child_offsets o t) ++ [- FDT_ERR_NOTFOUND]).
Proof.
  intros Ht. revert i. induction n as [|n IH]; intros i Hn Hi; [lia|].
  destruct (lookup_lt_is_Some_2 (child_offsets o t) i Hi) as [o' Ho']. rewrite Ho'.
  change (default (- FDT_ERR_NOTFOUND) (Some o')) with o'. cbn [next_subnodes].
  assert (0 <= o').
  { apply (offsets_nonneg (children_start o t) (node_children t)).
    - destruct Ht as (l1 & l2 & _ & _ & ->). unfold children_start.
      pose proof (size_nonneg l1). pose proof (token_size_pos (TBegin (node_name t))).
      pose proof (size_nonneg (map prop_token (node_props t))). lia.
    - by apply (list_elem_of_lookup_2 _ i). }
  destruct (Z.ltb_spec o' 0); [lia|].
  rewrite (fdt_next_subnode_run m fdt ts Hb fuel Hfuel o t i o' Ht Ho'). cbn [mbind option_bind].
  rewrite (drop_S _ o' i Ho'). destruct (decide (S i < length (child_offsets o t))%nat).
  - rewrite (IH (S i)) by lia. done.
  - rewrite lookup_ge_None_2, drop_ge by lia. by destruct n.
Qed.

Lemma subnodes_run o t n :
  tree_at ts o t -> (length (node_children t) <= n)%nat ->
  subnodes m fdt fuel n o = Some (child_offsets o t ++ [- FDT_ERR_NOTFOUND]).
Proof.
  intros Ht Hn. unfold subnodes. rewrite (fdt_first_subnode_run m fdt ts Hb fuel Hfuel o t Ht).
  cbn [mbind option_bind]. unfold forest_next. fold (child_offsets o t).
  pose proof (length_offsets (children_start o t) (node_children t)) as Hl. fold (child_offsets o t) in Hl.
  destruct (child_offsets o t) as [|o' l] eqn:E; [by destruct n|].
  replace (hd (- FDT_ERR_NOTFOUND) (o' :: l)) with (default (- FDT_ERR_NOTFOUND) (child_offsets o t !! 0%nat))
    by by rewrite E.
  rewrite (next_subnodes_run o t n 0 Ht), E; [done|rewrite E; lia|rewrite E; simpl; lia].
Qed.
End Siblings.

(** ** Frames: what the reading functions depend on *)

(** The bytes of a blob, its header included. *)
Definition in_image (m : memory) (fdt x : Z) : Prop := fdt <= x < fdt + Z.max 40 (fdt_totalsize m fdt).
Definition same_image (m m' : memory) (fdt : Z) : Prop :=
  forall x, in_image m fdt x -> rd m' x = rd m x.

Section Frame.
Context (m m' : memory) (fdt : Z).
Hypothesis Hsame : same_image m m' fdt.

Lemma header_frame field : 0 <= field <= 36 -> fdt_get_header m' fdt field = fdt_get_header m fdt field.
Proof.
  intros Hf. unfold fdt_get_header. rewrite !fdt32_ld.
  f_equal; apply Hsame; unfold in_image; lia.
Qed.

Lemma headers_frame :
  fdt_magic m' fdt = fdt_magic m fdt /\ fdt_totalsize m' fdt = fdt_totalsize m fdt /\
  fdt_off_dt_struct m' fdt = fdt_off_dt_struct m fdt /\ fdt_off_dt_strings m' fdt = fdt_off_dt_strings m fdt /\
  fdt_version m' fdt = fdt_version m fdt /\ fdt_last_comp_version m' fdt = fdt_last_comp_version m fdt /\
  fdt_size_dt_strings m' fdt = fdt_size_dt_strings m fdt /\ fdt_size_dt_struct m' fdt = fdt_size_dt_struct m fdt.
Proof. split_and!; by apply header_frame. Qed.

Lemma image_block a l :
  fdt <= a -> a + Z.of_nat (length l) <= fdt + fdt_totalsize m fdt -> block m a l -> block m' a l.
Proof.
  intros Ha Hl Hb i v Hi. rewrite <- (Hb i v Hi). apply Hsame. apply lookup_lt_Some in Hi.
  unfold in_image. lia.
Qed.

Lemma blob_ok_frame ts : blob_ok m fdt ts -> blob_ok m' fdt ts.
Proof.
  destruct headers_frame as (E1 & E2 & E3 & E4 & E5 & E6 & E7 & E8). intros [].
  split; rewrite ?E2, ?E3, ?E5, ?E8; try done.
  - unfold fdt_ro_probe_ in *. by rewrite E1, E2, E5, E6, E8.
  - apply (encoded_frame m); [|done]. pose proof (fdt_get_header_range m fdt header_off_dt_struct) as Hs.
    fold (fdt_off_dt_struct m fdt) in Hs. intros x Hx. apply Hsame. unfold in_image. lia.
Qed.

Lemma encodes_frame root : encodes m fdt root -> encodes m' fdt root.
Proof. apply blob_ok_frame. Qed.

Lemma string_entry_frame no str : string_entry m fdt no str -> string_entry m' fdt no str.
Proof.
  destruct headers_frame as (E1 & E2 & E3 & E4 & E5 & E6 & E7 & E8). intros [? ? ? ? [Hb Hz]].
  split; rewrite ?E1, ?E2, ?E4, ?E5, ?E7; try done. split; [|done].
  apply image_block; [|rewrite length_app; simpl; lia|done].
  pose proof (fdt_get_header_range m fdt header_off_dt_strings) as Hs.
  fold (fdt_off_dt_strings m fdt) in Hs. lia.
Qed.

Lemma named_frame strs t : named m fdt strs t -> named m' fdt strs t.
Proof. intros H. eapply Forall_impl; [exact H|]. intros p. apply string_entry_frame. Qed.
End Frame.

(** ** Properties *)

(** (C14) The node that [fdt_path_offset] finds in an encoded tree is the one the path
    leads to in the tree, component by component, a component without a unit address
    matching the first child of that name; a path that leads nowhere gives
    [-FDT_ERR_NOTFOUND]. *)
Theorem fdt_path_correct `{Symbols} m fdt root fuel path p :
  encodes m fdt root -> (Z.to_nat (fdt_totalsize m fdt) <= fuel)%nat ->
  Forall component path -> 0 < p -> cstr m p (if decide (path = []) then [47] else path_string path) ->
  Z.of_nat (length (path_string path)) < 2 ^ 31 -> (length (path_string path) < fuel)%nat ->
  fdt_path_offset m fdt fuel p = Some (found (find_path path 0 root)).
Proof. intros He Hf. apply (fdt_path_offset_run m fdt _ He fuel Hf). apply (root_at m fdt root He). Qed.

(** (C16) The value of a property of an encoded tree is read back: at the offset of a node
    [fdt_getprop] gives the address and the length of the first property with the name,
    whose bytes are those encoded, and [NULL] with [-FDT_ERR_NOTFOUND] when the node
    has none of that name. *)
Theorem fdt_getprop_correct m fdt root fuel strs path o t s want :
  encodes m fdt root -> (Z.to_nat (fdt_totalsize m fdt) <= fuel)%nat ->
  find_path path 0 root = Some (o, t) -> named m fdt strs t ->
  0 < s -> cstr m s want -> Z.of_nat (length want) < 2 ^ 31 -> (length want <= fuel)%nat ->
  match find_prop strs want (props_start o t) (node_props t) with
  | Some (_, data) => exists a,
      fdt_getprop m fdt fuel o s = Some (a, Z.of_nat (length data)) /\ a <> NULL /\ block m a data
  | None => fdt_getprop m fdt fuel o s = Some (NULL, - FDT_ERR_NOTFOUND)
  end.
Proof.
  intros He Hf Hp Hn Hs Hw Hl Hlf.
  pose proof (find_path_at m fdt root He path 0 root o t (root_at m fdt root He) Hp) as Ht.
  pose proof (fdt_getprop_node m fdt root fuel strs o t s want He Hf Ht Hn Hs Hw Hl Hlf) as Hg.
  destruct (find_prop strs want _ _) as [[o' data]|]; [|done]. destruct Hg as (Hg & Hne & Hd & _). eauto.
Qed.

(** From a node of an encoded tree [fdt_first_subnode] and then [fdt_next_subnode]
    visit exactly its children, in order, and end with [-FDT_ERR_NOTFOUND]: nothing of
    a child's own subtree is visited. *)
Theorem fdt_subnodes_correct m fdt root fuel path o t n :
  encodes m fdt root -> (Z.to_nat (fdt_totalsize m fdt) <= fuel)%nat ->
  find_path path 0 root = Some (o, t) -> (length (node_children t) <= n)%nat ->
  subnodes m fdt fuel n o = Some (child_offsets o t ++ [- FDT_ERR_NOTFOUND]) /\
  length (child_offsets o t) = length (node_children t).
Proof.
  intros He Hf Hp Hn. split; [|apply length_offsets]. apply (subnodes_run m fdt _ He fuel Hf o t n); [|done].
  exact (find_path_at m fdt root He path 0 root o t (root_at m fdt root He) Hp).
Qed.

(** ** Witnesses: [/cpus] with two cpus and their map, and [/memory] *)
Fixpoint str (x : string) : list Z :=
  match x with EmptyString => [] | String c x => Z.of_nat (Ascii.nat_of_ascii c) :: str x end.

Definition cpu_node (name : string) (reg phandle : Z) : dtree :=
  DNode (str name) [(0, be_bytes reg); (10, be_bytes phandle)] [].
Definition core_node (name : string) (phandle : Z) : dtree := DNode (str name) [(18, be_bytes phandle)] [].
Definition demo_map_node : dtree :=
  DNode (str "cpu-map") [] [DNode (str "cluster0") [] [core_node "core0" 1; core_node "core1" 2]].
Definition demo_tree : dtree :=
  DNode [] [(4, [109; 120; 0])] [
    DNode (str "cpus") [] [cpu_node "cpu@0" 0 1; cpu_node "cpu@1" 256 2; demo_map_node];
    DNode (str "memory") [(0, [0; 0x40000000; 0; 0x8000000] ≫= be_bytes)] []].
(** The strings block. *)
Definition demo_strings : list Z := str "reg" ++ [0] ++ str "model" ++ [0] ++ str "phandle" ++ [0] ++ str "cpu" ++ [0].
Definition demo_strs (no : Z) : list Z :=
  if no =? 0 then str "reg" else if no =? 4 then str "model" else if no =? 10 then str "phandle" else str "cpu".
Definition demo_struct : list Z := (tree_tokens demo_tree ++ [TEnd]) ≫= token_bytes.

(** The blob at [0x1000], the path [/cpus/cpu@1] at [0x2000] and [reg] at [0x2100]. *)
Definition demo_blob : memory :=
  let n := Z.of_nat (length demo_struct) in
  wr_list (wr_list (wr_list ∅ 0x1000
    (demo_header (56 + n + 22) 56 (56 + n) 22 n ++ replicate 16 0 ++ demo_struct ++ demo_strings))
    0x2000 (str "/cpus/cpu@1" ++ [0])) 0x2100 (str "reg" ++ [0]).
Definition demo_path : list (list Z) := [str "cpus"; str "cpu@1"].

Lemma block_check m a l : bytes_at (length l) m a = l -> block m a l.
Proof.
  intros E i v Hi. rewrite <- E in Hi. rewrite lookup_bytes_at in Hi; [congruence|].
  apply lookup_lt_Some in Hi. by rewrite length_bytes_at in Hi.
Qed.

Lemma demo_encodes : encodes demo_blob 0x1000 demo_tree.
Proof.
  split.
  - lia.
  - vm_compute. congruence.
  - vm_compute. congruence.
  - vm_compute. reflexivity.
  - vm_compute. congruence.
  - intros _. vm_compute. congruence.
  - repeat constructor; done.
  - apply encoded_block, block_check. vm_compute. reflexivity.
Qed.

Lemma demo_named t :
  Forall (fun p => fst p ∈ [0; 4; 10; 18]) (node_props t) -> named demo_blob 0x1000 demo_strs t.
Proof.
  intros H. eapply Forall_impl; [exact H|]. intros [no d] Hno. cbn [fst] in *.
  repeat (apply elem_of_cons in Hno as [->|Hno]; [split; [reflexivity|vm_compute; intuition congruence|
    vm_compute; congruence|intros _; vm_compute; congruence|
    split; [apply block_check; vm_compute; reflexivity|repeat constructor; done]]|]).
  by apply elem_of_nil in Hno.
Qed.

Lemma fdt_path_correct_witness :
  exists o, fdt_path_offset (H := demo_symbols) demo_blob 0x1000 1000 0x2000 = Some o /\ 0 < o.
Proof.
  exists (found (find_path demo_path 0 demo_tree)). split; [|vm_compute; reflexivity].
  apply (fdt_path_correct (H := demo_symbols) demo_blob 0x1000 demo_tree 1000 demo_path 0x2000).
  - exact demo_encodes.
  - vm_compute. lia.
  - repeat constructor; try done; set_solver.
  - lia.
  - split; [apply block_check; vm_compute; reflexivity|repeat constructor; done].
  - vm_compute. reflexivity.
  - vm_compute. lia.
Defined.

Lemma fdt_getprop_correct_witness :
  exists o a, found (find_path demo_path 0 demo_tree) = o /\
    fdt_getprop demo_blob 0x1000 1000 o 0x2100 = Some (a, 4) /\ bytes_at 4 demo_blob a = (be_bytes 256).
Proof.
  destruct (find_path demo_path 0 demo_tree) as [[o t]|] eqn:E; [|vm_compute in E; discriminate].
  assert (Ht : t = cpu_node "cpu@1" 256 2) by (vm_compute in E; injection E as _ <-; reflexivity). subst t.
  destruct (fdt_getprop_correct demo_blob 0x1000 demo_tree 1000 demo_strs demo_path o
    (cpu_node "cpu@1" 256 2) 0x2100 (str "reg")) as (a & Ea & _ & Hb).
  - exact demo_encodes.
  - vm_compute. lia.
  - exact E.
  - apply demo_named. repeat constructor; set_solver.
  - lia.
  - split; [apply block_check; vm_compute; reflexivity|repeat constructor; done].
  - vm_compute. reflexivity.
  - vm_compute. lia.
  - exists o, a. split; [done|]. split; [exact Ea|].
    apply list_eq. intros i. destruct (decide (i < 4)%nat) as [Hi|Hi].
    + destruct (lookup_lt_is_Some_2 (be_bytes 256) i Hi) as [v Hv].
      rewrite lookup_bytes_at by done. rewrite (Hb i v Hv). symmetry. exact Hv.
    + rewrite !lookup_ge_None_2; [done|simpl; lia|rewrite length_bytes_at; lia].
Defined.

Lemma fdt_subnodes_correct_witness :
  exists o l, found (find_path [str "cpus"] 0 demo_tree) = o /\
    subnodes demo_blob 0x1000 1000 10 o = Some (l ++ [- FDT_ERR_NOTFOUND]) /\ length l = 3%nat.
Proof.
  destruct (find_path [str "cpus"] 0 demo_tree) as [[o t]|] eqn:E; [|vm_compute in E; discriminate].
  destruct (fdt_subnodes_correct demo_blob 0x1000 demo_tree 1000 [str "cpus"] o t 10) as [El Hl].
  - exact demo_encodes.
  - vm_compute. lia.
  - exact E.
  - vm_compute in E. injection E as <- <-. simpl. lia.
  - exists o, (child_offsets o t). split; [done|]. split; [exact El|]. rewrite Hl.
    vm_compute in E. injection E as <- <-. reflexivity.
Defined.
