(* ===== verification/FdtCheck.v ===== *)
(** * FdtCheck: what [fdt_check_full] accepts

    [fdt_check_full] (libkern/libfdt/fdt_ro.c) is the test a client runs on a blob from
    outside. It accepts exactly the blobs whose structure block is a sequence of tokens
    of a certain grammar with all names of properties in the strings block, provided
    that no property claims a length of 2 GB; without that it also accepts blobs with
    properties of negative length. *)
From Stdlib Require Import ZArith Lia.
From stdpp Require Import prelude gmap list strings.
From S2P Require Import Prelude Memory TString Kernel Fdt FdtTokens FdtRo FdtTree FdtSpec.
Open Scope Z_scope.

(** ** The grammar

    What is inside a node: properties, nodes and padding in any order. *)
Inductive content : list token -> Prop :=
  | content_nil : content []
  | content_nop l : content l -> content (TNop :: l)
  | content_prop no data l : content l -> content (TProp no data :: l)
  | content_node name l1 l2 : content l1 -> content l2 -> content (TBegin name :: l1 ++ TEndNode :: l2).

(** Padding, and properties, may precede the root, which has no name; a blob without
    a root is accepted too. *)
Definition loose (t : token) : Prop := match t with TNop | TProp _ _ => True | _ => False end.
Inductive well_formed : list token -> Prop :=
  | wf_empty pre : Forall loose pre -> well_formed pre
  | wf_root pre body : Forall loose pre -> content body -> well_formed (pre ++ TBegin [] :: body ++ [TEndNode]).

(** The same as a machine with the depth and whether the root has ended. *)
Fixpoint accept (l : list token) (d : Z) (e : bool) : bool :=
  match l with
  | [] => d =? 0
  | t :: l =>
      negb e &&
      match t with
      | TNop | TProp _ _ => accept l d e
      | TBegin name => (negb (d =? 0) || bool_decide (name = [])) && accept l (d + 1) e
      | TEndNode => negb (d =? 0) && accept l (d - 1) (if d - 1 =? 0 then true else e)
      | TEnd => false
      end
  end.

Lemma accept_content c l d : content c -> 0 < d -> accept (c ++ l) d false = accept l d false.
Proof.
  intros Hc. revert d l. induction Hc as [|c Hc IH|no data c Hc IH|name c1 c2 Hc1 IH1 Hc2 IH2]; intros d l Hd; [done|by apply IH..|].
  cbn [app accept negb andb]. rewrite <- app_assoc, IH1 by lia. cbn [app accept negb andb].
  destruct (Z.eqb_spec d 0), (Z.eqb_spec (d + 1) 0), (Z.eqb_spec (d + 1 - 1) 0); try lia. cbn [negb orb andb].
  replace (d + 1 - 1) with d by lia. by apply IH2.
Qed.

(** Inside a node, the content up to its end. *)
Lemma accept_inside n l d :
  (length l <= n)%nat -> 0 < d -> accept l d false = true ->
  exists c l', l = c ++ TEndNode :: l' /\ content c /\ (length l' < length l)%nat /\
    if d =? 1 then l' = [] else accept l' (d - 1) false = true.
Proof.
  revert l d. induction n as [|n IH]; intros l d Hn Hd Ha; (destruct l as [|t l]; cbn [accept] in Ha; [lia|]); [simpl in Hn; lia|].
  assert (Hstep : accept l d false = true -> (forall c, content c -> content (t :: c)) ->
    exists c l', t :: l = c ++ TEndNode :: l' /\ content c /\ (length l' < length (t :: l))%nat /\
      if d =? 1 then l' = [] else accept l' (d - 1) false = true).
  { intros Ha' Hc. destruct (IH l d ltac:(simpl in Hn; lia) Hd Ha') as (c & l' & -> & Hcc & Hl & Hr).
    exists (t :: c), l'. split; [done|]. split; [by apply Hc|]. split; [simpl; simpl in Hl; lia|done]. }
  cbn [negb andb] in Ha. destruct t as [name| |no data| |]; [| |by apply Hstep; [|by constructor]..|done].
  - apply andb_true_iff in Ha as [_ Ha]. destruct (IH l (d + 1) ltac:(simpl in Hn; lia) ltac:(lia) Ha) as (c1 & l1 & -> & Hc1 & Hl1 & H1).
    destruct (Z.eqb_spec (d + 1) 1); [lia|]. replace (d + 1 - 1) with d in H1 by lia.
    destruct (IH l1 d ltac:(simpl in Hn; lia) Hd H1) as (c2 & l2 & -> & Hc2 & Hl2 & H2).
    exists (TBegin name :: c1 ++ TEndNode :: c2), l2. split; [by rewrite <- app_comm_cons, <- app_assoc|].
    split; [by constructor|]. split; [|done]. cbn [length]. lia.
  - apply andb_true_iff in Ha as [_ Ha]. exists [], l. split; [done|]. split; [constructor|]. split; [simpl; lia|].
    destruct (Z.eqb_spec (d - 1) 0) as [E|E]; destruct (Z.eqb_spec d 1); try lia; [|done].
    destruct l as [|t l]; [done|]. by cbn [accept negb andb] in Ha.
Qed.

Lemma accept_well_formed l : accept l 0 false = true <-> well_formed l.
Proof.
  split.
  - induction l as [|t l IH]; [intros _; by apply wf_empty|]. cbn [accept negb andb]. intros Ha.
    assert (Hloose : loose t -> accept l 0 false = true -> well_formed (t :: l)).
    { intros Ht [pre Hp|pre body Hp Hb]%IH; [by apply wf_empty; constructor|].
      apply (wf_root (t :: pre)); [by constructor|done]. }
    destruct t as [name| |no data| |]; try (by apply Hloose); [|done..].
    apply andb_true_iff in Ha as [Hn Ha]. cbn [Z.eqb negb orb] in Hn. apply bool_decide_eq_true_1 in Hn as ->.
    destruct (accept_inside (length l) l 1 ltac:(lia) ltac:(lia) Ha) as (c & l' & -> & Hc & _ & Hl'). cbn [Z.eqb Pos.eqb] in Hl'. subst l'.
    by apply (wf_root []).
  - intros [pre Hp|pre body Hp Hb]; (induction Hp as [|t pre Ht Hp IH]; [|destruct t; try done; exact IH]); [done|].
    cbn [app accept negb andb orb Z.eqb]. rewrite bool_decide_eq_true_2 by done. by rewrite accept_content.
Qed.

(** ** Reading back *)
Lemma token_data_size t : up4 (Z.of_nat (length (token_data t))) = token_size t.
Proof.
  unfold token_data, token_size. destruct t as [name| |no data| |]; try reflexivity; rewrite !length_app, !Nat2Z.inj_add.
  - change (Z.of_nat (length (be_bytes _))) with 4. change (Z.of_nat (length [0])) with 1. by rewrite up4_add.
  - change (Z.of_nat (length (be_bytes _))) with 4. rewrite !Z.add_assoc. by rewrite up4_add.
Qed.
Lemma block_fdt32 m a : block m a (be_bytes (fdt32_to_cpu (ld32 m a))).
Proof.
  rewrite fdt32_ld. unfold be_combine, be_bytes.
  pose proof (rd_range m a). pose proof (rd_range m (a + 1)). pose proof (rd_range m (a + 2)). pose proof (rd_range m (a + 3)).
  set (b0 := rd m a) in *. set (b1 := rd m (a + 1)) in *. set (b2 := rd m (a + 2)) in *. set (b3 := rd m (a + 3)) in *.
  repeat (apply block_cons; split); [fold b0|fold b1|replace (a + 1 + 1) with (a + 2) by lia; fold b2
    |replace (a + 1 + 1 + 1) with (a + 3) by lia; fold b3|done]; Z.to_euclidean_division_equations; lia.
Qed.

(** The body of the loop, [again] being the rest. *)
Definition check_full_tag (m : memory) (fdt : Z) (fuel : nat) (o d : Z) (e : bool) (tag next : Z)
    (again : Z -> bool -> option Z) : option Z :=
  if next <? 0 then Some next
  else if e && negb (tag =? FDT_END) then Some (- FDT_ERR_BADLAYOUT)
  else if tag =? FDT_NOP then again d e
  else if tag =? FDT_END then Some (if negb (d =? 0) then - FDT_ERR_BADSTRUCTURE else 0)
  else if tag =? FDT_BEGIN_NODE then
    let depth := u32 (d + 1) in
    if INT32_MAX <? depth then Some (- FDT_ERR_BADSTRUCTURE)
    else if depth =? 1 then
      '(name, len) ← fdt_get_name m fdt fuel o;
      if negb (ld8 m name =? 0) || truthy len then Some (- FDT_ERR_BADLAYOUT) else again depth e
    else again depth e
  else if tag =? FDT_END_NODE then
    if d =? 0 then Some (- FDT_ERR_BADSTRUCTURE)
    else again (d - 1) (if d - 1 =? 0 then true else e)
  else if tag =? FDT_PROP then
    '(prop, _, err) ← fdt_getprop_by_offset m fdt fuel o true;
    if prop =? NULL then Some err else again d e
  else Some (- FDT_ERR_INTERNAL).
(** Once more around the loop. *)
Definition again (m : memory) (fdt : Z) (fuel n : nat) (next d : Z) (e : bool) : option Z :=
  match n with O => None | S n => check_full_loop m fdt fuel n next d e end.
Lemma check_full_loop_eq m fdt fuel n o d e :
  check_full_loop m fdt fuel n o d e =
    '(tag, next) ← fdt_next_tag m fdt fuel o; check_full_tag m fdt fuel o d e tag next (again m fdt fuel n next).
Proof. by destruct n. Qed.

Section Sound.
Context (m : memory) (fdt : Z).
Hypothesis Hfdt : 0 < fdt.
Hypothesis Htotal : fdt_totalsize m fdt + 3 < 2 ^ 31.
Hypothesis Hversion : 16 <= fdt_version m fdt.

(** No property claims 2 GB or more. *)
Definition lengths_small : Prop :=
  forall o, 0 <= o -> o mod 4 = 0 -> in_blob m fdt o 8 ->
    fdt32_to_cpu (ld32 m (fdt_offset_ptr_ m fdt o)) = FDT_PROP ->
    fdt32_to_cpu (ld32 m (fdt_offset_ptr_ m fdt (o + 4))) < 2 ^ 31.
Hypothesis Hlen : lengths_small.
Abbreviation base := (fdt + fdt_off_dt_struct m fdt).

Lemma in_blob_part o len o' len' :
  in_blob m fdt o len -> o <= o' -> 0 <= len' -> o' + len' <= o + len -> in_blob m fdt o' len'.
Proof. unfold in_blob. lia. Qed.

(** The name that the loop has passed over. *)
Lemma skip_name_sound fuel o p o' :
  0 <= o < 2 ^ 31 -> skip_name m fdt fuel o = Some (p, o') -> p <> NULL ->
  exists name, block m (base + o) (name ++ [0]) /\ Forall (fun c => 0 < c < 256) name /\
    o' = o + Z.of_nat (length name) + 1 /\ in_blob m fdt (o' - 1) 1.
Proof.
  revert o. induction fuel as [|fuel IH]; intros o Ho; cbn [skip_name];
    (rewrite (offset_ptr_null_eq m fdt o 1) by (done || lia); rewrite fdt_offset_ptr_spec by lia;
     destruct (decide (in_blob m fdt o 1)) as [Hin|Hin];
       [rewrite bool_decide_eq_true_2 by done|rewrite bool_decide_eq_false_2 by done; intros [= <- _] Hp; by destruct Hp]);
    pose proof (in_blob_le m fdt _ _ Hin) as [_ Hle]; rewrite (s32_id (o + 1)) by lia; cbn [negb andb];
    rewrite ld8_rd; change (fdt_offset_ptr_ m fdt o) with (base + o);
    (destruct (Z.eqb_spec (rd m (base + o)) 0) as [E|E]; cbn [negb];
      [intros [= <- <-] Hp; exists []; split_and!; [by apply block_cons|constructor|simpl; lia|by replace (o + 1 - 1) with o by lia]|]).
  - done.
  - intros Es Hp. destruct (IH (o + 1) ltac:(lia) Es Hp) as (name & Hb & Hn & -> & Hi).
    pose proof (rd_range m (base + o)). exists (rd m (base + o) :: name). split_and!.
    + cbn [app]. apply block_cons. split; [done|]. by rewrite <- Z.add_assoc.
    + constructor; [lia|done].
    + cbn [length]. lia.
    + exact Hi.
Qed.

(** A tag that [fdt_next_tag] accepts is a token. *)
Definition token_here (o : Z) (t : token) : Prop :=
  token_ok t /\ block m (base + o) (token_data t) /\ in_blob m fdt o (Z.of_nat (length (token_data t))).

Lemma finish_sound o t o' tag next :
  0 <= o < 2 ^ 31 -> o mod 4 = 0 -> o' = o + Z.of_nat (length (token_data t)) -> o' < 2 ^ 31 -> tag = token_tag t ->
  token_ok t -> block m (base + o) (token_data t) -> 
  (if fdt_offset_ptr m fdt o (u32 (o' - o)) =? NULL
   then Some (FDT_END, - FDT_ERR_BADSTRUCTURE) else Some (tag, FDT_TAGALIGN o')) = Some (tag, next) -> 0 <= next ->
  next = o + token_size t /\ token_here o t.
Proof.
  intros Ho Ha Eo' Hmax -> Hok Hb. pose proof (length_token_data t) as Hl.
  rewrite u32_id by lia. rewrite offset_ptr_null_eq by (done || lia).
  destruct (decide (in_blob m fdt o (o' - o))) as [Hin|Hin].
  2:{ rewrite bool_decide_eq_false_2 by done. cbn [negb]. intros [= _ <-]. unfold FDT_ERR_BADSTRUCTURE. lia. }
  rewrite bool_decide_eq_true_2 by done. cbn [negb]. pose proof (in_blob_le m fdt _ _ Hin) as [_ Hle].
  rewrite FDT_TAGALIGN_eq by lia. intros [= <-] _. split.
  - fold (up4 o'). rewrite Eo'. rewrite up4_add by done. f_equal. apply token_data_size.
  - split; [done|]. split; [done|]. by replace (Z.of_nat (length (token_data t))) with (o' - o) by lia.
Qed.

Lemma finish_tag (b : bool) w x tag next :
  (if b then Some (FDT_END, - FDT_ERR_BADSTRUCTURE) else Some (w, x)) = Some (tag, next) -> 0 <= next -> tag = w.
Proof. destruct b; [|by intros [= -> _]]. intros [= _ <-]. unfold FDT_ERR_BADSTRUCTURE. lia. Qed.

(** What a tag's word at [o] is followed by. *)
Lemma tag_sound o t next :
  0 <= o < 2 ^ 31 -> o mod 4 = 0 -> in_blob m fdt o 4 -> token_data t = be_bytes (token_tag t) -> token_ok t ->
  fdt32_to_cpu (ld32 m (base + o)) = token_tag t -> forall tag,
  (if fdt_offset_ptr m fdt o (u32 (o + 4 - o)) =? NULL
   then Some (FDT_END, - FDT_ERR_BADSTRUCTURE) else Some (token_tag t, FDT_TAGALIGN (o + 4))) = Some (tag, next) -> 0 <= next ->
  exists t, tag = token_tag t /\ next = o + token_size t /\ token_here o t.
Proof.
  intros Ho Ha Hin Ed Hok Et tag E Hn. pose proof (in_blob_le m fdt _ _ Hin) as [_ Hle].
  pose proof (finish_tag _ _ _ _ _ E Hn) as ->. exists t. split; [done|].
  apply (finish_sound o t (o + 4) (token_tag t) next Ho Ha); [by rewrite Ed|lia|done|done| |done|done].
  rewrite Ed, <- Et. apply block_fdt32.
Qed.

Lemma begin_sound fuel o next :
  0 <= o < 2 ^ 31 -> o mod 4 = 0 -> in_blob m fdt o 4 -> fdt32_to_cpu (ld32 m (base + o)) = FDT_BEGIN_NODE -> forall tag,
  ('(p, o') ← skip_name m fdt fuel (o + 4);
   if p =? NULL then Some (FDT_END, - FDT_ERR_BADSTRUCTURE)
   else if fdt_offset_ptr m fdt o (u32 (o' - o)) =? NULL
   then Some (FDT_END, - FDT_ERR_BADSTRUCTURE) else Some (FDT_BEGIN_NODE, FDT_TAGALIGN o')) = Some (tag, next) -> 0 <= next ->
  exists t, tag = token_tag t /\ next = o + token_size t /\ token_here o t.
Proof.
  intros Ho Ha Hin Eb tag E Hn. pose proof (in_blob_le m fdt _ _ Hin) as [_ Hle].
  destruct (skip_name m fdt fuel (o + 4)) as [[p o']|] eqn:Es; [|done]. cbn [mbind option_bind] in E.
  destruct (Z.eqb_spec p NULL) as [|Hp]; [injection E as _ <-; unfold FDT_ERR_BADSTRUCTURE in Hn; lia|].
  destruct (skip_name_sound fuel (o + 4) p o' ltac:(lia) Es Hp) as (name & Hb & Hname & -> & Hi).
  pose proof (in_blob_le m fdt _ _ Hi) as [_ Hle']. pose proof (finish_tag _ _ _ _ _ E Hn) as ->.
  exists (TBegin name). split; [done|].
  apply (finish_sound o (TBegin name) (o + 4 + Z.of_nat (length name) + 1) FDT_BEGIN_NODE next Ho Ha); [|lia|done|done| |exact E|done].
  - unfold token_data. rewrite !length_app. change (length (be_bytes _)) with 4%nat. simpl length. lia.
  - unfold token_data. apply block_app. cbn [token_tag]. split; [rewrite <- Eb; apply block_fdt32|].
    change (Z.of_nat (length (be_bytes _))) with 4. by rewrite <- Z.add_assoc.
Qed.

(** The token of a property whose length does not wrap around. *)
Lemma prop_here o :
  0 <= o -> fdt32_to_cpu (ld32 m (base + o)) = FDT_PROP -> fdt32_to_cpu (ld32 m (base + (o + 4))) < 2 ^ 31 ->
  exists no data, Z.of_nat (length data) = fdt32_to_cpu (ld32 m (base + (o + 4))) /\ token_ok (TProp no data) /\
    block m (base + o) (token_data (TProp no data)).
Proof.
  intros Ho Ep Hsmall. pose proof (fdt32_range (ld32 m (base + (o + 4)))) as Hr. pose proof (block_fdt32 m (base + (o + 4))) as Hbl.
  set (len := fdt32_to_cpu (ld32 m (base + (o + 4)))) in *. exists (fdt32_to_cpu (ld32 m (base + (o + 8)))).
  exists (bytes_at (Z.to_nat len) m (base + (o + 12))). rewrite length_bytes_at. split; [lia|]. split.
  - split; [apply fdt32_range|]. rewrite length_bytes_at. split; [lia|]. apply Forall_lookup. intros i v Hi.
    pose proof (lookup_lt_Some _ _ _ Hi) as Hi2. rewrite length_bytes_at in Hi2. rewrite lookup_bytes_at in Hi by done.
    injection Hi as <-. apply rd_range.
  - unfold token_data. cbn [token_tag]. rewrite !block_app. change (Z.of_nat (length (be_bytes _))) with 4.
    rewrite length_bytes_at, Z2Nat.id by lia. split; [rewrite <- Ep; apply block_fdt32|]. split; [by rewrite <- Z.add_assoc|]. split.
    { replace (base + o + 4 + 4) with (base + (o + 8)) by lia. apply block_fdt32. }
    replace (base + o + 4 + 4 + 4) with (base + (o + 12)) by lia. apply block_check. by rewrite length_bytes_at.
Qed.

Lemma prop_sound o next :
  0 <= o < 2 ^ 31 -> o mod 4 = 0 -> in_blob m fdt o 4 -> in_blob m fdt (o + 4) 4 -> fdt32_to_cpu (ld32 m (base + o)) = FDT_PROP -> forall tag,
  (let o' := skip_prop m fdt (o + 4) (fdt32_to_cpu (ld32 m (base + (o + 4)))) in
   if fdt_offset_ptr m fdt o (u32 (o' - o)) =? NULL
   then Some (FDT_END, - FDT_ERR_BADSTRUCTURE) else Some (FDT_PROP, FDT_TAGALIGN o')) = Some (tag, next) -> 0 <= next ->
  exists t, tag = token_tag t /\ next = o + token_size t /\ token_here o t.
Proof.
  intros Ho Ha Hin Hl Ep tag E Hn. pose proof (in_blob_le m fdt _ _ Hl) as [_ Hle'].
  assert (Hsmall : fdt32_to_cpu (ld32 m (base + (o + 4))) < 2 ^ 31).
  { apply (Hlen o); [lia|done|unfold in_blob in *; lia|exact Ep]. }
  destruct (prop_here o ltac:(lia) Ep Hsmall) as (no & data & Hd & Hok & Hb). rewrite <- Hd in E, Hsmall. cbv zeta in E.
  unfold skip_prop, FDT_PROPERTY_SIZEOF, FDT_TAGSIZE in E. destruct (Z.ltb_spec (fdt_version m fdt) 16); [lia|]. cbn [andb] in E.
  pose proof (finish_tag _ _ _ _ _ E Hn) as ->. set (len := Z.of_nat (length data)) in *.
  (* the length cannot wrap around *)
  assert (Hwrap : o + 12 + len < 2 ^ 31).
  { destruct (Z.lt_ge_cases (o + 12 + len) (2 ^ 31)) as [|Hge]; [done|]. exfalso.
    assert (Es : s32 (o + 4 + (12 - 4 + len)) = o + 12 + len - 2 ^ 32) by (unfold s32; Z.to_euclidean_division_equations; lia).
    rewrite Es in E. rewrite (offset_ptr_null_eq m fdt o) in E by (done || lia || apply u32_range).
    rewrite bool_decide_eq_false_2 in E; [injection E as _ <-; unfold FDT_ERR_BADSTRUCTURE in Hn; lia|].
    intros Hi. pose proof (in_blob_le m fdt _ _ Hi) as [_ Hli]. revert Hli. unfold u32. Z.to_euclidean_division_equations. lia. }
  rewrite s32_id in E by lia. exists (TProp no data). split; [done|].
  apply (finish_sound o (TProp no data) (o + 4 + (12 - 4 + len)) FDT_PROP next Ho Ha); [|lia|done|done|done|exact E|done].
  unfold token_data. rewrite !length_app. change (length (be_bytes _)) with 4%nat. unfold len. lia.
Qed.

Lemma fdt_next_tag_sound fuel o tag next :
  0 <= o < 2 ^ 31 -> o mod 4 = 0 -> fdt_next_tag m fdt fuel o = Some (tag, next) -> 0 <= next ->
  exists t, tag = token_tag t /\ next = o + token_size t /\ token_here o t.
Proof.
  intros Ho Ha. unfold fdt_next_tag, FDT_TAGSIZE. rewrite (offset_ptr_null_eq m fdt o 4), (fdt_offset_ptr_spec m fdt o 4) by (done || lia).
  destruct (decide (in_blob m fdt o 4)) as [Hin|Hin].
  2:{ rewrite bool_decide_eq_false_2 by done. intros [= _ <-]. unfold FDT_ERR_TRUNCATED. lia. }
  rewrite bool_decide_eq_true_2 by done. cbn [negb]. pose proof (in_blob_le m fdt _ _ Hin) as [_ Hle].
  change (fdt_offset_ptr_ m fdt o) with (base + o). rewrite (s32_id (o + 4)) by lia.
  set (w := fdt32_to_cpu _) in *. destruct (Z.eqb_spec w FDT_BEGIN_NODE) as [Eb|Nb].
  { rewrite Eb. by apply (begin_sound fuel o next Ho Ha Hin Eb). }
  destruct (Z.eqb_spec w FDT_PROP) as [Ep|Np].
  - rewrite (offset_ptr_null_eq m fdt (o + 4) 4), (fdt_offset_ptr_spec m fdt (o + 4) 4) by (done || lia).
    destruct (decide (in_blob m fdt (o + 4) 4)) as [Hl|Hl].
    2:{ rewrite bool_decide_eq_false_2 by done. intros [= _ <-]. unfold FDT_ERR_BADSTRUCTURE. lia. }
    rewrite bool_decide_eq_true_2 by done. cbn [negb]. rewrite Ep. by apply (prop_sound o next Ho Ha Hin Hl Ep).
  - destruct ((w =? FDT_END) || (w =? FDT_END_NODE) || (w =? FDT_NOP)) eqn:Ew.
    2:{ intros [= _ <-]. unfold FDT_ERR_BADSTRUCTURE. lia. }
    rewrite !orb_true_iff, !Z.eqb_eq in Ew. destruct Ew as [[Ew|Ew]|Ew]; rewrite Ew;
      [apply (tag_sound o TEnd)|apply (tag_sound o TEndNode)|apply (tag_sound o TNop)]; done || (unfold token_data; by rewrite app_nil_r).
Qed.

(** ** Names of properties *)
Lemma position_split c l i : position c l = Some i -> exists l2, l = take i l ++ c :: l2 /\ c ∉ take i l /\ length (take i l) = i.
Proof.
  revert i. induction l as [|b l IH]; intros i; [done|]. cbn [position]. destruct (Z.eqb_spec c b) as [->|Hne].
  - intros [= <-]. exists l. split; [done|]. split; [apply not_elem_of_nil|done].
  - destruct (position c l) as [j|] eqn:E; [|done]. intros [= <-]. destruct (IH j eq_refl) as (l2 & E2 & Hn & Hl).
    exists l2. cbn [take app length]. split; [by rewrite E2 at 1|]. split; [set_solver|by rewrite Hl].
Qed.

Lemma fdt_get_string_sound no :
  fdt_magic m fdt = FDT_MAGIC -> fdt_off_dt_strings m fdt <= fdt_totalsize m fdt -> is_s32 no ->
  fst (fdt_get_string m fdt no) <> NULL -> exists s, string_entry m fdt no s.
Proof.
  intros Hmag Hoff Hno. pose proof (fdt_get_header_range m fdt header_totalsize) as Hr. fold (fdt_totalsize m fdt) in Hr.
  pose proof (fdt_get_header_range m fdt header_off_dt_strings) as Ho. fold (fdt_off_dt_strings m fdt) in Ho.
  pose proof (fdt_get_header_range m fdt header_size_dt_strings) as Hz. fold (fdt_size_dt_strings m fdt) in Hz.
  unfold fdt_get_string. destruct (Z.ltb_spec (fdt_ro_probe_ m fdt) 0) as [|Hp]; [by intros Hn; destruct Hn|].
  assert (Etot : fdt_ro_probe_ m fdt = fdt_totalsize m fdt).
  { revert Hp. unfold fdt_ro_probe_, INT32_MAX, FDT_ERR_BADVERSION, FDT_ERR_BADSTATE, FDT_ERR_BADMAGIC. repeat case_match; try lia; done. }
  rewrite Etot, Hmag, Z.eqb_refl.
  destruct (Z.leb_spec (fdt_totalsize m fdt) (u32 (no + fdt_off_dt_strings m fdt))) as [|Habs]; [by intros Hn; destruct Hn|].
  destruct (Z.ltb_spec no 0) as [|Hno0]; [by intros Hn; destruct Hn|]. rewrite (u32_id (no + fdt_off_dt_strings m fdt)) in * by lia.
  rewrite (u32_id (fdt_totalsize m fdt - (no + fdt_off_dt_strings m fdt))) by lia.
  assert (Hsearch : forall len, len <= fdt_totalsize m fdt - (no + fdt_off_dt_strings m fdt) ->
    (17 <= fdt_version m fdt -> no + len <= fdt_size_dt_strings m fdt) ->
    fst (let n := memchr m (fdt + (no + fdt_off_dt_strings m fdt)) 0 (Z.to_nat len) in
     if n =? NULL then (NULL, - FDT_ERR_TRUNCATED)
     else (fdt + (no + fdt_off_dt_strings m fdt), s32 (n - (fdt + (no + fdt_off_dt_strings m fdt))))) <> NULL ->
    exists s, string_entry m fdt no s).
  { intros len Hl Hs. cbv zeta. set (a := fdt + (no + fdt_off_dt_strings m fdt)). rewrite memchr_run by (unfold a; lia).
    destruct (position 0 (bytes_at (Z.to_nat len) m a)) as [i|] eqn:Ep; [|by intros Hn; destruct Hn].
    intros _. destruct (position_split _ _ _ Ep) as (l2 & El & Hnz & Hli).
    set (str := take i (bytes_at (Z.to_nat len) m a)) in *.
    assert (Hlt : (i < Z.to_nat len)%nat).
    { rewrite <- (length_bytes_at (Z.to_nat len) m a), El, length_app. simpl. lia. }
    exists str. split; [done|lia|lia|intros Hv; specialize (Hs Hv); lia|].
    replace (fdt + fdt_off_dt_strings m fdt + no) with a by (unfold a; lia). split.
    - assert (Hb : block m a (bytes_at (Z.to_nat len) m a)) by (apply block_check; by rewrite length_bytes_at).
      rewrite El in Hb. change (str ++ 0 :: l2) with (str ++ [0] ++ l2) in Hb. rewrite app_assoc in Hb. by apply block_app in Hb as [Hb _].
    - apply Forall_forall. intros c Hc ->. done. }
  destruct (Z.leb_spec 17 (fdt_version m fdt)) as [Hv|Hv]; [|apply Hsearch; lia].
  rewrite (u32_id no) by lia. destruct (Z.leb_spec (fdt_size_dt_strings m fdt) no) as [|Hsz]; [by intros Hn; destruct Hn|].
  rewrite (u32_id (fdt_size_dt_strings m fdt - no)) by lia.
  apply Hsearch; destruct (Z.ltb_spec (fdt_size_dt_strings m fdt - no) (fdt_totalsize m fdt - (no + fdt_off_dt_strings m fdt))); lia.
Qed.

(** Without a string there is an error. *)
Lemma fdt_get_string_error no : fst (fdt_get_string m fdt no) = NULL -> snd (fdt_get_string m fdt no) < 0.
Proof.
  assert (Hsearch : forall a len, 0 < fdt + u32 a ->
    fst (let n := memchr m (fdt + u32 a) 0 (Z.to_nat len) in
     if n =? NULL then (NULL, - FDT_ERR_TRUNCATED) else (fdt + u32 a, s32 (n - (fdt + u32 a)))) = NULL ->
    snd (let n := memchr m (fdt + u32 a) 0 (Z.to_nat len) in
     if n =? NULL then (NULL, - FDT_ERR_TRUNCATED) else (fdt + u32 a, s32 (n - (fdt + u32 a)))) < 0).
  { intros a len Ha. cbv zeta. case_match; cbn [fst snd]; [done|]. unfold NULL. lia. }
  unfold fdt_get_string. pose proof (u32_range (no + fdt_off_dt_strings m fdt)) as Hr.
  destruct (Z.ltb_spec (fdt_ro_probe_ m fdt) 0) as [Hp|Hp]; [done|]. cbv zeta.
  destruct (_ <=? _); [done|]. destruct (_ =? FDT_MAGIC).
  - destruct (no <? 0); [done|]. destruct (17 <=? _); [|apply Hsearch; lia].
    destruct (_ <=? _); [done|]. apply Hsearch; lia.
  - destruct (_ =? FDT_SW_MAGIC); [|done]. destruct (_ || _); [done|]. apply Hsearch; lia.
Qed.

(** Every property has its name in the strings block. *)
Definition props_named (l : list token) : Prop :=
  forall no data, TProp no data ∈ l -> exists s, string_entry m fdt no s.

(** ** The loop over the tags *)
Context (fuel : nat).
Hypothesis Hfuel : (Z.to_nat (fdt_totalsize m fdt) <= fuel)%nat.
Hypothesis Hmagic : fdt_magic m fdt = FDT_MAGIC.
Hypothesis Hprobe : 0 <= fdt_ro_probe_ m fdt.
Hypothesis Hstrings : fdt_off_dt_strings m fdt <= fdt_totalsize m fdt.

(** The name of the root. *)
Lemma root_name_sound o next name :
  0 <= o < 2 ^ 31 -> o mod 4 = 0 -> 0 <= next -> fdt_next_tag m fdt fuel o = Some (FDT_BEGIN_NODE, next) ->
  token_here o (TBegin name) ->
  fdt_get_name m fdt fuel o = Some (base + o + 4, Z.of_nat (length name)) /\
  (negb (ld8 m (base + o + 4) =? 0) || truthy (Z.of_nat (length name)) = false <-> name = []).
Proof.
  intros Ho Ha Hn E (Hok & Hb & Hin). pose proof (in_blob_le m fdt _ _ Hin) as [_ Hle].
  pose proof (fdt_get_header_range m fdt header_off_dt_struct) as Hs. fold (fdt_off_dt_struct m fdt) in Hs.
  unfold token_data in Hb, Hle. apply block_app in Hb as [_ Hb]. change (Z.of_nat (length (be_bytes _))) with 4 in Hb.
  rewrite !length_app in Hle. change (length (be_bytes _)) with 4%nat in Hle. simpl length in Hle.
  assert (Hc : cstr m (base + o + 4) name).
  { split; [exact Hb|]. eapply Forall_impl; [exact Hok|]. simpl. intros. lia. }
  split.
  - unfold fdt_get_name. destruct (Z.ltb_spec (fdt_ro_probe_ m fdt) 0); [lia|].
    unfold fdt_check_node_offset_, FDT_TAGSIZE. destruct (Z.ltb_spec o 0); [lia|]. rewrite Ha, E. cbn [orb negb Z.eqb mbind option_bind].
    rewrite Z.eqb_refl. cbn [negb]. destruct (Z.ltb_spec next 0); [lia|]. destruct (Z.ltb_spec (fdt_version m fdt) 16); [lia|].
    cbn [mbind option_bind]. change (node_header_name (fdt_offset_ptr_ m fdt o)) with (base + o + 4).
    destruct (Z.eqb_spec (base + o + 4) NULL); [unfold NULL in *; lia|].
    rewrite (strlen_cstr fuel m _ name Hc) by lia. cbn [mbind option_bind]. by rewrite s32_id by lia.
  - unfold truthy. split.
    + intros H. apply orb_false_iff in H as [_ H]. destruct name; [done|]. cbn [length] in H.
      destruct (Z.eqb_spec (Z.of_nat (S (length name))) 0); [lia|done].
    + intros ->. rewrite ld8_rd. apply block_cons in Hb as [-> _]. done.
Qed.

(** The property and its name. *)
Lemma getprop_sound o next no data :
  0 <= o < 2 ^ 31 -> o mod 4 = 0 -> 0 <= next -> fdt_next_tag m fdt fuel o = Some (FDT_PROP, next) ->
  token_here o (TProp no data) ->
  exists name err, let '(r, nerr) := fdt_get_string m fdt (s32 no) in
    fdt_getprop_by_offset m fdt fuel o true =
      Some (if r =? NULL then (NULL, 0, nerr) else (base + o + 12, name, err)).
Proof.
  intros Ho Ha Hn E (Hok & Hb & Hin). unfold fdt_getprop_by_offset, fdt_get_property_by_offset_.
  pose proof (fdt_get_header_range m fdt header_off_dt_struct) as Hs. fold (fdt_off_dt_struct m fdt) in Hs.
  unfold fdt_check_prop_offset_, FDT_TAGSIZE. destruct (Z.ltb_spec o 0); [lia|]. rewrite Ha, E. cbn [orb negb Z.eqb mbind option_bind].
  rewrite Z.eqb_refl. cbn [negb]. destruct (Z.ltb_spec next 0); [lia|]. cbn [mbind option_bind].
  change (fdt_offset_ptr_ m fdt o) with (base + o). destruct (Z.eqb_spec (base + o) NULL); [unfold NULL in *; lia|].
  unfold token_data in Hb. rewrite !block_app in Hb. destruct Hb as (_ & _ & Hno & _).
  change (Z.of_nat (length (be_bytes _))) with 4 in Hno. change (Z.of_nat (length (be_bytes (Z.of_nat (length data))))) with 4 in Hno.
  unfold property_nameoff. replace (base + o + 4 + 4) with (base + o + 8) in Hno by lia.
  rewrite (fdt32_block m (base + o + 8) no) by (done || apply Hok).
  destruct (fdt_get_string m fdt (s32 no)) as [r len]. unfold realigned, property_data.
  destruct (Z.ltb_spec (fdt_version m fdt) 16); [lia|]. cbn [andb]. destruct (r =? NULL); [by exists 0, 0|by eexists _, _].
Qed.

(** A property that the loop passes has a name. *)
Lemma prop_named_sound o no data again :
  0 <= o < 2 ^ 31 -> o mod 4 = 0 -> 0 <= o + token_size (TProp no data) ->
  fdt_next_tag m fdt fuel o = Some (FDT_PROP, o + token_size (TProp no data)) -> token_here o (TProp no data) ->
  ('(prop, _, err) ← fdt_getprop_by_offset m fdt fuel o true; if prop =? NULL then Some err else again) = Some 0 ->
  again = Some 0 /\ exists s, string_entry m fdt no s.
Proof.
  intros Ho Ha Hn E Ht. destruct (getprop_sound o _ no data Ho Ha Hn E Ht) as (name & err & Eg).
  pose proof (fdt_get_string_error (s32 no)) as Herr.
  pose proof (fdt_get_string_sound (s32 no) Hmagic Hstrings (s32_range no)) as Hstr.
  destruct (fdt_get_string m fdt (s32 no)) as [r nerr]. cbn [fst snd] in Herr, Hstr. rewrite Eg. cbn [mbind option_bind].
  destruct (Z.eqb_spec r NULL) as [->|Hne]; [intros [= ->]; by specialize (Herr eq_refl)|].
  pose proof (fdt_get_header_range m fdt header_off_dt_struct) as Hs. fold (fdt_off_dt_struct m fdt) in Hs.
  destruct (Z.eqb_spec (base + o + 12) NULL); [unfold NULL in *; lia|]. intros Er. split; [done|].
  destruct (Hstr Hne) as (s & Hse). exists s. replace no with (s32 no); [done|].
  pose proof (se_range _ _ _ _ Hse). destruct Ht as ([Hno _] & _). unfold s32 in *. Z.to_euclidean_division_equations. lia.
Qed.

(** One token: the end, or the machine moves on. *)
Lemma check_full_tag_sound n o d e t :
  let next := o + token_size t in
  0 <= o < 2 ^ 31 -> o mod 4 = 0 -> 0 <= d < 2 ^ 31 -> 0 <= next ->
  fdt_next_tag m fdt fuel o = Some (token_tag t, next) -> token_here o t ->
  check_full_tag m fdt fuel o d e (token_tag t) next (again m fdt fuel n next) = Some 0 ->
  (t = TEnd /\ accept [] d e = true) \/
  (exists d' e', 0 <= d' < 2 ^ 31 /\ again m fdt fuel n next d' e' = Some 0 /\
     (forall l, accept l d' e' = true -> accept (t :: l) d e = true) /\
     forall no data, t = TProp no data -> exists s, string_entry m fdt no s).
Proof.
  intros next Ho Ha Hd Hn E Ht. unfold check_full_tag. destruct (Z.ltb_spec next 0); [lia|].
  destruct t as [name| |no data| |]; cbn [token_tag] in *.
  - change (FDT_BEGIN_NODE =? FDT_END) with false. cbn [negb]. rewrite andb_true_r. destruct e; [done|].
    change (FDT_BEGIN_NODE =? FDT_NOP) with false. rewrite Z.eqb_refl. cbv iota zeta. rewrite u32_id by lia. unfold INT32_MAX.
    destruct (Z.ltb_spec (2 ^ 31 - 1) (d + 1)); [done|]. intros Er. right. exists (d + 1), false. split; [lia|].
    destruct (Z.eqb_spec (d + 1) 1) as [E1|E1].
    + destruct (root_name_sound o next name Ho Ha Hn E Ht) as [Eg Hname]. rewrite Eg in Er. cbn [mbind option_bind] in Er.
      destruct (negb (ld8 m (base + o + 4) =? 0) || truthy (Z.of_nat (length name))); [done|]. pose proof (proj1 Hname eq_refl) as ->.
      split; [exact Er|]. split; [|done]. intros l Hacc. cbn [accept negb andb]. rewrite bool_decide_eq_true_2 by done. by rewrite orb_true_r.
    + split; [exact Er|]. split; [|done]. intros l Hacc. cbn [accept negb andb]. by destruct (Z.eqb_spec d 0); [lia|].
  - change (FDT_END_NODE =? FDT_END) with false. cbn [negb]. rewrite andb_true_r. destruct e; [done|].
    change (FDT_END_NODE =? FDT_NOP) with false. change (FDT_END_NODE =? FDT_BEGIN_NODE) with false. rewrite Z.eqb_refl. cbv iota zeta.
    destruct (Z.eqb_spec d 0); [done|]. intros Er. right. eexists (d - 1), _. split; [lia|]. split; [exact Er|]. split; [|done].
    intros l Hacc. cbn [accept negb andb]. by destruct (Z.eqb_spec d 0); [lia|].
  - change (FDT_PROP =? FDT_END) with false. cbn [negb]. rewrite andb_true_r. destruct e; [done|].
    change (FDT_PROP =? FDT_NOP) with false. change (FDT_PROP =? FDT_BEGIN_NODE) with false. change (FDT_PROP =? FDT_END_NODE) with false.
    rewrite Z.eqb_refl. cbv iota zeta. intros Er. destruct (prop_named_sound o no data _ Ho Ha Hn E Ht Er) as [Er' Hs].
    right. exists d, false. split; [done|]. split; [exact Er'|]. split; [done|]. by intros ? ? [= <- <-].
  - change (FDT_NOP =? FDT_END) with false. cbn [negb]. rewrite andb_true_r. destruct e; [done|]. rewrite Z.eqb_refl.
    intros Er. right. exists d, false. split; [done|]. split; [exact Er|]. by split.
  - change (FDT_END =? FDT_NOP) with false. rewrite Z.eqb_refl. cbn [negb]. rewrite andb_false_r. intros Er. left.
    split; [done|]. cbn [accept]. by destruct (d =? 0).
Qed.

Lemma check_full_loop_sound n o d e :
  0 <= o <= fdt_totalsize m fdt + 3 -> o mod 4 = 0 -> 0 <= d < 2 ^ 31 ->
  check_full_loop m fdt fuel n o d e = Some 0 ->
  exists l, Forall token_ok l /\ encoded m (base + o) (l ++ [TEnd]) /\ in_blob m fdt (o + size l) 4 /\
    accept l d e = true /\ props_named l.
Proof.
  revert o d e. induction n as [n IH] using lt_wf_ind. intros o d e Ho Ha Hd.
  rewrite check_full_loop_eq. destruct (fdt_next_tag m fdt fuel o) as [[tag next]|] eqn:E; [|done]. cbn [mbind option_bind]. intros Er.
  assert (Hn : 0 <= next) by (unfold check_full_tag in Er; destruct (Z.ltb_spec next 0); [injection Er as ->; lia|lia]).
  destruct (fdt_next_tag_sound fuel o tag next ltac:(lia) Ha E Hn) as (t & -> & -> & Ht). pose proof Ht as (Hok & Hb & Hin).
  pose proof (token_size_pos t). pose proof (token_size_mod t). pose proof (length_token_data t) as Hl. pose proof (in_blob_le m fdt _ _ Hin) as [_ Hle].
  pose proof (up4_range (Z.of_nat (length (token_data t)))) as Hup. rewrite token_data_size in Hup.
  destruct (check_full_tag_sound n o d e t ltac:(lia) Ha Hd Hn E Ht Er) as [[-> Hacc]|(d' & e' & Hd' & Er' & Hacc & Hp)].
  - exists []. cbn [app encoded size]. split; [constructor|]. split; [by split|].
    split; [rewrite Z.add_0_r; exact Hin|]. split; [done|]. by intros ? ? []%not_elem_of_nil.
  - destruct n as [|n]; [done|].
    destruct (IH n ltac:(lia) (o + token_size t) d' e' ltac:(lia) ltac:(Z.to_euclidean_division_equations; lia) Hd' Er')
      as (l & H1 & H2 & H3 & H4 & H5).
    exists (t :: l). split; [by constructor|]. split; [cbn [app encoded]; split; [exact Hb|by rewrite <- (Z.add_assoc base)]|].
    split; [cbn [size]; by rewrite Z.add_assoc|]. split; [by apply Hacc|].
    intros no data [Et|Hi]%elem_of_cons; [by apply (Hp no data)|by apply (H5 no data)].
Qed.

(** The loop ends: every tag takes four bytes or more. *)
Lemma check_full_loop_total n o d e :
  0 <= o <= fdt_totalsize m fdt + 3 -> o mod 4 = 0 -> 0 <= d < 2 ^ 31 ->
  fdt_totalsize m fdt - o < 4 * (Z.of_nat n + 1) -> exists r, check_full_loop m fdt fuel n o d e = Some r.
Proof.
  revert o d e. induction n as [n IH] using lt_wf_ind. intros o d e Ho Ha Hd Hn. rewrite check_full_loop_eq.
  destruct (fdt_next_tag_run m fdt Hfdt Htotal fuel o ltac:(lia) Ha Hfuel) as (tag & next & E & _). rewrite E.
  cbn [mbind option_bind]. unfold check_full_tag. destruct (Z.ltb_spec next 0) as [|Hnext]; [by eexists|].
  destruct (fdt_next_tag_sound fuel o tag next ltac:(lia) Ha E Hnext) as (t & -> & -> & Ht). pose proof Ht as (_ & _ & Hin).
  pose proof (token_size_pos t). pose proof (token_size_mod t). pose proof (length_token_data t) as Hl. pose proof (in_blob_le m fdt _ _ Hin) as [_ Hle].
  pose proof (up4_range (Z.of_nat (length (token_data t)))) as Hup. rewrite token_data_size in Hup.
  assert (Hagain : forall d' e', 0 <= d' < 2 ^ 31 -> exists r, again m fdt fuel n (o + token_size t) d' e' = Some r).
  { intros d' e' Hd'. destruct n as [|n]; [lia|]. cbn [again].
    apply (IH n ltac:(lia)); [lia|Z.to_euclidean_division_equations; lia|done|lia]. }
  destruct (e && _); [by eexists|]. destruct (token_tag t =? FDT_NOP); [by apply Hagain|]. destruct (token_tag t =? FDT_END); [by eexists|].
  destruct (Z.eqb_spec (token_tag t) FDT_BEGIN_NODE) as [Et|].
  { rewrite (u32_id (d + 1)) by lia. unfold INT32_MAX.
    destruct (Z.ltb_spec (2 ^ 31 - 1) (d + 1)); [by eexists|]. destruct (d + 1 =? 1); [|apply Hagain; lia].
    destruct t as [name| | | |]; try done. destruct (root_name_sound o _ name ltac:(lia) Ha Hnext E Ht) as [-> _]. cbn [mbind option_bind].
    destruct (_ || _); [by eexists|apply Hagain; lia]. }
  destruct (token_tag t =? FDT_END_NODE).
  { destruct (Z.eqb_spec d 0); [by eexists|apply Hagain; lia]. }
  destruct (Z.eqb_spec (token_tag t) FDT_PROP) as [Et|]; [|by eexists].
  destruct t as [|  |no data| |]; try done. destruct (getprop_sound o _ no data ltac:(lia) Ha Hnext E Ht) as (name & err & Eg).
  destruct (fdt_get_string m fdt (s32 no)) as [r nerr]. rewrite Eg. cbn [mbind option_bind].
  destruct (Z.eqb_spec r NULL); [by eexists|]. destruct (_ =? NULL); [by eexists|by apply Hagain].
Qed.
End Sound.

(** ** The converse: the loop accepts what the grammar accepts *)
Section Complete.
Context (m : memory) (fdt : Z) (ts : list token).
Hypothesis Hb : blob_ok m fdt ts.
Context (fuel : nat).
Hypothesis Hfuel : (Z.to_nat (fdt_totalsize m fdt) <= fuel)%nat.

Lemma getprop_complete l1 no data l2 str :
  ts = l1 ++ TProp no data :: l2 -> string_entry m fdt no str ->
  exists p name len, fdt_getprop_by_offset m fdt fuel (size l1) true = Some (p, name, len) /\ p <> NULL.
Proof.
  intros E Hs. destruct (prop_token_run m fdt ts Hb fuel Hfuel l1 no data l2 E) as (Hp & Eg & Eno & _).
  unfold fdt_getprop_by_offset. rewrite Eg. cbn [mbind option_bind]. pose proof (se_range _ _ _ _ Hs).
  rewrite Eno, s32_id by lia. rewrite (fdt_get_string_run m fdt ts Hb fuel Hfuel no str Hs).
  set (p := fdt + fdt_off_dt_struct m fdt + size l1) in *. destruct (Z.eqb_spec p NULL); [unfold NULL in *; lia|].
  pose proof (fdt_get_header_range m fdt header_off_dt_strings) as Ho. fold (fdt_off_dt_strings m fdt) in Ho.
  pose proof (bo_fdt _ _ _ Hb).
  destruct (Z.eqb_spec (fdt + fdt_off_dt_strings m fdt + no) NULL); [unfold NULL in *; lia|].
  eexists _, _, _. split; [done|]. unfold realigned, property_data. pose proof (bo_version _ _ _ Hb).
  destruct (Z.ltb_spec (fdt_version m fdt) 16); [lia|]. cbn [andb]. unfold NULL. lia.
Qed.

(** One token. *)
Lemma check_full_step n l1 t l l2 d :
  ts = l1 ++ t :: l2 -> 0 <= d < 2 ^ 31 - 1 -> accept (t :: l) d false = true ->
  (forall no data, t = TProp no data -> exists s, string_entry m fdt no s) ->
  exists d' e', accept l d' e' = true /\ 0 <= d' <= d + 1 /\
    check_full_loop m fdt fuel n (size l1) d false = again m fdt fuel n (size (l1 ++ [t])) d' e'.
Proof.
  intros E Hd Ha Hp. pose proof (size_nonneg l1). pose proof (token_size_pos t).
  assert (Es : size (l1 ++ [t]) = size l1 + token_size t) by (rewrite size_app; cbn [size]; lia).
  rewrite check_full_loop_eq, (fdt_next_tag_token m fdt ts Hb fuel l1 t l2 E Hfuel), <- Es. cbn [mbind option_bind]. unfold check_full_tag.
  destruct (Z.ltb_spec (size (l1 ++ [t])) 0); [lia|]. cbn [accept negb andb] in Ha. cbn [andb].
  destruct t as [name| |no data| |]; cbn [token_tag].
  - apply andb_true_iff in Ha as [Hn Ha]. exists (d + 1), false. split; [done|]. split; [lia|].
    change (FDT_BEGIN_NODE =? FDT_NOP) with false. change (FDT_BEGIN_NODE =? FDT_END) with false. rewrite Z.eqb_refl. cbv iota zeta.
    rewrite u32_id by lia. unfold INT32_MAX. destruct (Z.ltb_spec (2 ^ 31 - 1) (d + 1)); [lia|].
    destruct (Z.eqb_spec (d + 1) 1) as [E1|]; [|done].
    destruct (node_name_run m fdt ts Hb fuel Hfuel l1 name l2 E) as (_ & [Hc _] & _ & ->). cbn [mbind option_bind].
    destruct (Z.eqb_spec d 0); [|lia]. cbn [negb orb] in Hn. apply bool_decide_eq_true_1 in Hn as ->.
    apply block_cons in Hc as [Hc _]. by rewrite ld8_rd, Hc.
  - apply andb_true_iff in Ha as [Hn Ha]. exists (d - 1), (if d - 1 =? 0 then true else false). destruct (Z.eqb_spec d 0); [done|].
    split; [done|]. split; [lia|done].
  - exists d, false. split; [done|]. split; [lia|]. destruct (Hp no data eq_refl) as [str Hs].
    destruct (getprop_complete l1 no data l2 str E Hs) as (p & name & len & Eg & Hne).
    change (FDT_PROP =? FDT_NOP) with false. change (FDT_PROP =? FDT_END) with false. change (FDT_PROP =? FDT_BEGIN_NODE) with false.
    change (FDT_PROP =? FDT_END_NODE) with false. rewrite Z.eqb_refl, Eg. cbn [mbind option_bind]. by destruct (Z.eqb_spec p NULL).
  - exists d, false. split; [done|]. split; [lia|done].
  - done.
Qed.

Lemma check_full_loop_complete n l1 l d e :
  ts = l1 ++ l ++ [TEnd] -> (length l <= n)%nat -> 0 <= d < 2 ^ 31 - 1 - Z.of_nat (length l) ->
  accept l d e = true -> props_named m fdt l -> check_full_loop m fdt fuel n (size l1) d e = Some 0.
Proof.
  revert l1 l d e. induction n as [n IH] using lt_wf_ind. intros l1 l d e E Hn Hd Ha Hp. destruct l as [|t l].
  - cbn [app accept] in E, Ha. apply Z.eqb_eq in Ha as ->. pose proof (size_nonneg l1).
    rewrite check_full_loop_eq, (fdt_next_tag_token m fdt ts Hb fuel l1 TEnd [] E Hfuel). cbn [mbind option_bind]. unfold check_full_tag.
    cbn [token_tag token_size]. destruct (Z.ltb_spec (size l1 + 4) 0); [lia|]. by destruct e.
  - destruct e; [done|]. cbn [app length] in E, Hn, Hd.
    destruct (check_full_step n l1 t l (l ++ [TEnd]) d E ltac:(lia) Ha) as (d' & e' & Ha' & Hd' & ->).
    { intros no data ->. apply (Hp no data). set_solver. }
    destruct n as [|n]; [lia|]. cbn [again]. apply (IH n ltac:(lia) (l1 ++ [t]) l d' e'); [by rewrite <- app_assoc|lia|lia|done|].
    intros no data Hi. apply (Hp no data). set_solver.
Qed.
End Complete.

(** ** The header and the reserve map *)
Section Header.
Context (m : memory) (fdt : Z).

(** A block inside the blob, after the header. *)
Definition block_inside (off size : Z) : Prop :=
  fdt_header_size m fdt <= off /\ off + size <= fdt_totalsize m fdt.

Record header_valid : Prop := {
  hv_magic : fdt_magic m fdt = FDT_MAGIC;
  hv_version : FDT_FIRST_SUPPORTED_VERSION <= fdt_version m fdt;
  hv_compatible : fdt_last_comp_version m fdt <= FDT_LAST_SUPPORTED_VERSION;
  hv_versions : fdt_last_comp_version m fdt <= fdt_version m fdt;
  hv_total : fdt_header_size m fdt <= fdt_totalsize m fdt < 2 ^ 31;
  hv_rsvmap : block_inside (fdt_off_mem_rsvmap m fdt) 0;
  hv_struct : block_inside (fdt_off_dt_struct m fdt) (if fdt_version m fdt <? 17 then 0 else fdt_size_dt_struct m fdt);
  hv_strings : block_inside (fdt_off_dt_strings m fdt) (fdt_size_dt_strings m fdt);
}.

Lemma check_off_eq off : check_off_ (fdt_header_size m fdt) (fdt_totalsize m fdt) off = true <-> block_inside off 0.
Proof. unfold check_off_, block_inside. rewrite andb_true_iff, !Z.leb_le. lia. Qed.
Lemma check_block_eq off size :
  fdt_totalsize m fdt < 2 ^ 31 -> is_u32 off -> is_u32 size ->
  check_block_ (fdt_header_size m fdt) (fdt_totalsize m fdt) off size = true <-> block_inside off size.
Proof.
  intros Ht Ho Hs. pose proof (u32_range (off + size)) as Hr. revert Hr.
  unfold check_block_, check_off_, block_inside. destruct (u32_sum off size Ho Hs) as [-> | ->]; intros Hr;
    repeat match goal with |- context [?a <=? ?b] => destruct (Z.leb_spec a b) | |- context [?a <? ?b] => destruct (Z.ltb_spec a b) end;
    cbn [negb andb]; (split; [done||lia|intros; done||lia]).
Qed.

Lemma fdt_check_header_valid : fdt_check_header m fdt = 0 <-> header_valid.
Proof.
  pose proof (fun f => fdt_get_header_range m fdt f) as Hr.
  pose proof (check_off_eq (fdt_off_mem_rsvmap m fdt)) as H1. pose proof (check_off_eq (fdt_off_dt_struct m fdt)) as H2.
  pose proof (fun Ht => check_block_eq (fdt_off_dt_struct m fdt) (fdt_size_dt_struct m fdt) Ht (Hr _) (Hr _)) as H3.
  pose proof (fun Ht => check_block_eq (fdt_off_dt_strings m fdt) (fdt_size_dt_strings m fdt) Ht (Hr _) (Hr _)) as H4.
  unfold fdt_check_header. unfold INT32_MAX.
  destruct (Z.eqb_spec (fdt_magic m fdt) FDT_MAGIC); cbn [negb]; [|split; [done|by intros []]].
  destruct (Z.ltb_spec (fdt_version m fdt) FDT_FIRST_SUPPORTED_VERSION); cbn [orb]; [split; [done|intros []; lia]|].
  destruct (Z.ltb_spec FDT_LAST_SUPPORTED_VERSION (fdt_last_comp_version m fdt)); [split; [done|intros []; lia]|].
  destruct (Z.ltb_spec (fdt_version m fdt) (fdt_last_comp_version m fdt)); [split; [done|intros []; lia]|].
  destruct (Z.ltb_spec (fdt_totalsize m fdt) (fdt_header_size m fdt)); cbn [orb]; [split; [done|intros []; lia]|].
  destruct (Z.ltb_spec (2 ^ 31 - 1) (fdt_totalsize m fdt)); [split; [done|intros []; lia]|].
  specialize (H3 ltac:(lia)). specialize (H4 ltac:(lia)).
  destruct (check_off_ _ _ (fdt_off_mem_rsvmap m fdt)); cbn [negb]; [|split; [done|intros []; by apply H1 in hv_rsvmap0]].
  destruct (fdt_version m fdt <? 17) eqn:Ev.
  - destruct (check_off_ _ _ (fdt_off_dt_struct m fdt)); cbn [negb]; [|split; [done|intros []; rewrite Ev in *; by apply H2 in hv_struct0]].
    destruct (check_block_ _ _ (fdt_off_dt_strings m fdt) _); cbn [negb]; [|split; [done|intros []; by apply H4 in hv_strings0]].
    split; [|done]. intros _. split; try done; try lia; rewrite ?Ev; tauto.
  - destruct (check_block_ _ _ (fdt_off_dt_struct m fdt) _); cbn [negb]; [|split; [done|intros []; rewrite Ev in *; by apply H3 in hv_struct0]].
    destruct (check_block_ _ _ (fdt_off_dt_strings m fdt) _); cbn [negb]; [|split; [done|intros []; by apply H4 in hv_strings0]].
    split; [|done]. intros _. split; try done; try lia; rewrite ?Ev; tauto.
Qed.

(** The reserve map ends inside the blob with an entry of size 0. *)
Definition reserve_size (i : Z) : Z := fdt64_to_cpu (ld64 m (reserve_entry_size (fdt_mem_rsv m fdt i))).
Definition reserve_map (k : Z) : Prop :=
  0 <= k /\ (forall i, 0 <= i < k -> fdt_mem_rsv m fdt i <> NULL /\ reserve_size i <> 0) /\
  fdt_mem_rsv m fdt k <> NULL /\ reserve_size k = 0.

Lemma fdt_mem_rsv_bound i :
  16 <= fdt_totalsize m fdt -> 0 <= i < 2 ^ 28 -> fdt_mem_rsv m fdt i <> NULL -> 16 * (i + 1) <= fdt_totalsize m fdt.
Proof.
  intros Ht Hi. pose proof (fdt_get_header_range m fdt header_off_mem_rsvmap) as Ho. fold (fdt_off_mem_rsvmap m fdt) in Ho.
  pose proof (fdt_get_header_range m fdt header_totalsize) as Hr. fold (fdt_totalsize m fdt) in Hr.
  pose proof (u32_range (fdt_off_mem_rsvmap m fdt + i * 16)) as Hu. revert Hu.
  unfold fdt_mem_rsv, RESERVE_ENTRY_SIZEOF. rewrite (u64_id i), (u32_id (i * 16)), (u64_id (fdt_totalsize m fdt - 16)) by lia.
  destruct (u32_sum (fdt_off_mem_rsvmap m fdt) (i * 16) Ho ltac:(lia)) as [-> | ->]; intros Hu;
    repeat match goal with |- context [?a <? ?b] => destruct (Z.ltb_spec a b) end; try done; lia.
Qed.

Lemma reserve_map_bound k : 16 <= fdt_totalsize m fdt < 2 ^ 31 -> reserve_map k -> 16 * k <= fdt_totalsize m fdt.
Proof.
  intros Ht (Hk & Hi & Hne & _). destruct (Z.le_gt_cases (2 ^ 28) k).
  - pose proof (fdt_mem_rsv_bound (2 ^ 28 - 1) ltac:(lia) ltac:(lia) (proj1 (Hi (2 ^ 28 - 1) ltac:(lia)))). lia.
  - pose proof (fdt_mem_rsv_bound k ltac:(lia) ltac:(lia) Hne). lia.
Qed.

Lemma num_mem_rsv_loop_eq fuel i :
  num_mem_rsv_loop m fdt fuel i =
    if fdt_mem_rsv m fdt i =? NULL then Some (- FDT_ERR_TRUNCATED)
    else if reserve_size i =? 0 then Some i
    else match fuel with O => None | S fuel => num_mem_rsv_loop m fdt fuel (i + 1) end.
Proof. unfold num_mem_rsv_loop, reserve_size. destruct fuel; by destruct (fdt_mem_rsv m fdt i =? NULL). Qed.

Lemma num_mem_rsv_loop_run fuel i k :
  reserve_map k -> 0 <= i <= k -> (Z.to_nat (k - i) <= fuel)%nat -> num_mem_rsv_loop m fdt fuel i = Some k.
Proof.
  intros (Hk & Hi & Hne & Hz). revert i. induction fuel as [|fuel IH]; intros i Hik Hf; rewrite num_mem_rsv_loop_eq.
  - replace i with k by lia. destruct (Z.eqb_spec (fdt_mem_rsv m fdt k) NULL); [done|]. by rewrite Hz.
  - destruct (decide (i = k)) as [->|Hlt].
    + destruct (Z.eqb_spec (fdt_mem_rsv m fdt k) NULL); [done|]. by rewrite Hz.
    + destruct (Hi i ltac:(lia)) as [Hn Hs]. destruct (Z.eqb_spec (fdt_mem_rsv m fdt i) NULL); [done|].
      destruct (Z.eqb_spec (reserve_size i) 0); [done|]. apply IH; lia.
Qed.

Lemma num_mem_rsv_loop_total fuel i :
  16 <= fdt_totalsize m fdt < 2 ^ 31 -> 0 <= i -> i + Z.of_nat fuel < 2 ^ 28 -> fdt_totalsize m fdt < 16 * (i + Z.of_nat fuel + 1) ->
  exists k, num_mem_rsv_loop m fdt fuel i = Some k.
Proof.
  intros Ht. revert i. induction fuel as [|fuel IH]; intros i Hi Hlt Hf; rewrite num_mem_rsv_loop_eq;
    (destruct (Z.eqb_spec (fdt_mem_rsv m fdt i) NULL) as [|Hne]; [by eexists|]); (destruct (reserve_size i =? 0); [by eexists|]).
  - pose proof (fdt_mem_rsv_bound i ltac:(lia) ltac:(lia) Hne). lia.
  - apply IH; lia.
Qed.
(** More fuel does not change the result. *)
Lemma num_mem_rsv_loop_more fuel fuel' i k :
  (fuel <= fuel')%nat -> num_mem_rsv_loop m fdt fuel i = Some k -> num_mem_rsv_loop m fdt fuel' i = Some k.
Proof.
  revert fuel' i. induction fuel as [|fuel IH]; intros fuel' i Hf; rewrite (num_mem_rsv_loop_eq fuel' i), num_mem_rsv_loop_eq;
    (destruct (_ =? NULL); [done|]); (destruct (_ =? 0); [done|]); [done|]. destruct fuel' as [|fuel']; [lia|]. apply IH. lia.
Qed.

Lemma num_mem_rsv_loop_sound fuel i k :
  0 <= i -> (forall j, 0 <= j < i -> fdt_mem_rsv m fdt j <> NULL /\ reserve_size j <> 0) ->
  num_mem_rsv_loop m fdt fuel i = Some k -> 0 <= k -> reserve_map k.
Proof.
  revert i. induction fuel as [|fuel IH]; intros i Hi Hj; rewrite num_mem_rsv_loop_eq;
    (destruct (Z.eqb_spec (fdt_mem_rsv m fdt i) NULL) as [|Hne]; [by intros [= <-]|]);
    (destruct (Z.eqb_spec (reserve_size i) 0) as [Hz|Hz]; [by intros [= <-]|]); [done|].
  apply IH; [lia|]. intros j Hlt. destruct (decide (j = i)) as [->|]; [done|apply Hj; lia].
Qed.
End Header.

(** ** The blobs that are accepted *)
Record valid_blob (m : memory) (fdt bufsize : Z) : Prop := {
  vb_bufsize : FDT_V1_SIZE <= bufsize;
  vb_header : header_valid m fdt;
  vb_total : fdt_totalsize m fdt <= bufsize;
  vb_reserve : exists k, reserve_map m fdt k;
  vb_struct : exists ts, blob_ok m fdt (ts ++ [TEnd]) /\ well_formed ts /\ props_named m fdt ts;
}.

Lemma valid_probe m fdt : header_valid m fdt -> fdt_totalsize m fdt + 3 < 2 ^ 31 -> fdt_ro_probe_ m fdt = fdt_totalsize m fdt.
Proof.
  intros [] Ht. unfold fdt_ro_probe_, INT32_MAX. rewrite hv_magic0, Z.eqb_refl.
  destruct (Z.ltb_spec (fdt_version m fdt) FDT_FIRST_SUPPORTED_VERSION); [lia|].
  destruct (Z.ltb_spec FDT_LAST_SUPPORTED_VERSION (fdt_last_comp_version m fdt)); [lia|].
  destruct (Z.ltb_spec (fdt_totalsize m fdt) (2 ^ 31 - 1)); [done|lia].
Qed.

Lemma loop_blob_ok m fdt ts :
  0 < fdt -> fdt_totalsize m fdt + 3 < 2 ^ 31 -> 16 <= fdt_version m fdt -> 0 <= fdt_ro_probe_ m fdt ->
  Forall token_ok ts -> encoded m (fdt + fdt_off_dt_struct m fdt) (ts ++ [TEnd]) -> in_blob m fdt (size ts) 4 ->
  blob_ok m fdt (ts ++ [TEnd]).
Proof.
  intros Hf Ht Hv Hp Hok He (_ & Hin & Hst). assert (Es : size (ts ++ [TEnd]) = size ts + 4) by by rewrite size_app.
  split; rewrite ?Es; try done; try lia. apply Forall_app. by repeat constructor.
Qed.

(** A header has more than 16 bytes. *)
Lemma header_size_16 m fdt : 16 <= fdt_header_size m fdt.
Proof.
  unfold fdt_header_size, fdt_header_size_, FDT_V17_SIZE, FDT_V16_SIZE, FDT_V3_SIZE, FDT_V2_SIZE, FDT_V1_SIZE. repeat case_match; lia.
Qed.

Section CheckFull.
Context (m : memory) (fdt : Z) (fuel : nat) (bufsize : Z).
Hypothesis Hfdt : 0 < fdt.
Hypothesis Hversion : 16 <= fdt_version m fdt.
Hypothesis Htotal : fdt_totalsize m fdt + 3 < 2 ^ 31.
Hypothesis Hlen : lengths_small m fdt.
Hypothesis Hfuel : (Z.to_nat (fdt_totalsize m fdt) <= fuel)%nat.

Lemma valid_strings : header_valid m fdt -> fdt_off_dt_strings m fdt <= fdt_totalsize m fdt /\ 0 <= fdt_ro_probe_ m fdt.
Proof.
  intros Hh. rewrite (valid_probe m fdt Hh Htotal). pose proof (hv_strings _ _ Hh) as [_ Hso].
  pose proof (fdt_get_header_range m fdt header_size_dt_strings) as Hz. fold (fdt_size_dt_strings m fdt) in Hz.
  pose proof (fdt_get_header_range m fdt header_totalsize) as Hr. fold (fdt_totalsize m fdt) in Hr. lia.
Qed.

Lemma fdt_check_full_total : exists r, fdt_check_full m fdt fuel bufsize = Some r.
Proof.
  unfold fdt_check_full. destruct (bufsize <? FDT_V1_SIZE); [by eexists|]. cbv zeta.
  destruct (Z.eqb_spec (fdt_check_header m fdt) 0) as [Eh|]; [|by eexists]. cbn [negb].
  destruct (bufsize <? fdt_totalsize m fdt); [by eexists|]. apply fdt_check_header_valid in Eh.
  destruct (valid_strings Eh) as [Hs Hp]. pose proof (hv_total _ _ Eh) as Ht. pose proof (header_size_16 m fdt) as H16.
  destruct (num_mem_rsv_loop_total m fdt (Z.to_nat (fdt_totalsize m fdt / 16)) 0) as [k Ek];
    [lia|lia|Z.to_euclidean_division_equations; lia|Z.to_euclidean_division_equations; lia|].
  assert (En : fdt_num_mem_rsv m fdt fuel = Some k).
  { apply (num_mem_rsv_loop_more m fdt (Z.to_nat (fdt_totalsize m fdt / 16))); [|done]. Z.to_euclidean_division_equations. lia. }
  rewrite En. cbn [mbind option_bind]. destruct (k <? 0); [by eexists|].
  apply (check_full_loop_total m fdt Hfdt Htotal Hversion Hlen fuel Hfuel Hp); lia || done.
Qed.

Lemma fdt_check_full_sound : fdt_check_full m fdt fuel bufsize = Some 0 -> valid_blob m fdt bufsize.
Proof.
  unfold fdt_check_full. destruct (Z.ltb_spec bufsize FDT_V1_SIZE); [done|]. cbv zeta.
  destruct (Z.eqb_spec (fdt_check_header m fdt) 0) as [Eh|]; cbn [negb]; [|by intros [= E]].
  destruct (Z.ltb_spec bufsize (fdt_totalsize m fdt)); [done|].
  destruct (fdt_num_mem_rsv m fdt fuel) as [k|] eqn:Ek; [|done]. cbn [mbind option_bind].
  destruct (Z.ltb_spec k 0); [intros [= ->]; lia|]. intros E. apply fdt_check_header_valid in Eh.
  destruct (valid_strings Eh) as [Hs Hp]. pose proof (hv_total _ _ Eh) as Ht. pose proof (header_size_16 m fdt) as H16.
  split; [done|done|done| |].
  - exists k. by apply (num_mem_rsv_loop_sound m fdt fuel 0 k); [|lia|..].
  - destruct (check_full_loop_sound m fdt Hfdt Htotal Hversion Hlen fuel Hfuel (hv_magic _ _ Eh) Hp Hs fuel 0 0 false)
      as (ts & Hok & He & Hin & Ha & Hn); [lia|done|lia|done|].
    exists ts. rewrite Z.add_0_r in He. split; [by apply loop_blob_ok|]. split; [by apply accept_well_formed|done].
Qed.

Lemma fdt_check_full_complete : valid_blob m fdt bufsize -> fdt_check_full m fdt fuel bufsize = Some 0.
Proof.
  intros [Hbuf Hh Hb (k & Hk) (ts & Hok & Hw & Hp)]. unfold fdt_check_full.
  destruct (Z.ltb_spec bufsize FDT_V1_SIZE); [lia|]. cbv zeta. rewrite (proj2 (fdt_check_header_valid m fdt) Hh). cbn [Z.eqb negb].
  destruct (Z.ltb_spec bufsize (fdt_totalsize m fdt)); [lia|].
  pose proof (hv_total _ _ Hh) as Htot. pose proof (header_size_16 m fdt) as H16. pose proof (reserve_map_bound m fdt k ltac:(lia) Hk).
  unfold fdt_num_mem_rsv. pose proof Hk as (Hk0 & _). rewrite (num_mem_rsv_loop_run m fdt fuel 0 k Hk) by lia. cbn [mbind option_bind].
  destruct (Z.ltb_spec k 0); [lia|].
  destruct (blob_size _ _ _ Hok) as [Hs1 Hs2]. pose proof (size_bound ts) as Hsb. rewrite size_app in Hs1. cbn [size token_size] in Hs1.
  apply (check_full_loop_complete m fdt (ts ++ [TEnd]) Hok fuel Hfuel fuel [] ts 0 false);
    [done|lia|lia|by apply accept_well_formed|done].
Qed.
End CheckFull.

(** (C13) [fdt_check_full] ends on every blob of version 16 or later and below 2 GB none
    of whose properties claims 2 GB, and accepts exactly the valid ones: those with a
    header whose blocks lie in the buffer, a reserve map that ends, and a structure
    block that is the encoding of a well-formed sequence of tokens whose properties
    have their names in the strings block. *)
Theorem fdt_check_full_correct m fdt fuel bufsize :
  0 < fdt -> 16 <= fdt_version m fdt -> fdt_totalsize m fdt + 3 < 2 ^ 31 -> lengths_small m fdt ->
  (Z.to_nat (fdt_totalsize m fdt) <= fuel)%nat ->
  exists r, fdt_check_full m fdt fuel bufsize = Some r /\ (r = 0 <-> valid_blob m fdt bufsize).
Proof.
  intros Hfdt Hv Ht Hl Hf. destruct (fdt_check_full_total m fdt fuel bufsize Hfdt Hv Ht Hl Hf) as [r E].
  exists r. split; [done|]. split.
  - intros ->. by apply (fdt_check_full_sound m fdt fuel bufsize).
  - intros Hb. rewrite (fdt_check_full_complete m fdt fuel bufsize Ht Hf Hb) in E. by injection E.
Qed.

(** ** Witnesses *)

(** [lengths_small] on a concrete blob. *)
Definition small_at (m : memory) (fdt o : Z) : bool :=
  negb (fdt32_to_cpu (ld32 m (fdt_offset_ptr_ m fdt o)) =? FDT_PROP) ||
  (fdt32_to_cpu (ld32 m (fdt_offset_ptr_ m fdt (o + 4))) <? 2 ^ 31).
Lemma lengths_small_check m fdt :
  forallb (fun i => small_at m fdt (4 * Z.of_nat i)) (seq 0 (Z.to_nat (fdt_totalsize m fdt / 4))) = true -> lengths_small m fdt.
Proof.
  intros H o Ho Ha Hin Ep. rewrite forallb_forall in H. destruct (in_blob_le m fdt _ _ Hin) as [_ Hle].
  specialize (H (Z.to_nat (o / 4))). replace (4 * Z.of_nat (Z.to_nat (o / 4))) with o in H by (Z.to_euclidean_division_equations; lia).
  unfold small_at in H. rewrite Ep in H. apply Z.ltb_lt, H. apply in_seq. Z.to_euclidean_division_equations. lia.
Qed.

Lemma fdt_check_full_correct_witness : fdt_check_full demo_blob 0x1000 1000 1000 = Some 0 /\ valid_blob demo_blob 0x1000 1000.
Proof.
  destruct (fdt_check_full_correct demo_blob 0x1000 1000 1000) as (r & E & Hr).
  - lia.
  - vm_compute. congruence.
  - vm_compute. reflexivity.
  - apply lengths_small_check. vm_compute. reflexivity.
  - vm_compute. lia.
  - assert (E0 : fdt_check_full demo_blob 0x1000 1000 1000 = Some 0) by (vm_compute; reflexivity).
    split; [exact E0|]. apply Hr. rewrite E0 in E. by injection E.
Defined.

(** A property of length 2^32 - 4 whose name is at the offset 4, the tag of padding, is
    accepted: its length is not tested and reading goes on at the name's offset. *)
Definition demo_negative : memory :=
  wr_list ∅ 0x1000 (demo_header (56 + 28 + 6) 56 (56 + 28) 6 28 ++ replicate 16 0 ++
    ([FDT_BEGIN_NODE; 0; FDT_PROP; 2 ^ 32 - 4; FDT_NOP; FDT_END_NODE; FDT_END] ≫= be_bytes) ++ [114; 101; 103; 0; 97; 0]).
Example fdt_check_full_negative :
  fdt_check_full demo_negative 0x1000 100 100 = Some 0 /\ ~ lengths_small demo_negative 0x1000 /\
  fdt_getprop_by_offset demo_negative 0x1000 100 8 false = Some (0x1000 + 56 + 20, 0, -4).
Proof.
  split; [vm_compute; reflexivity|]. split; [|vm_compute; reflexivity]. intros H.
  specialize (H 8 ltac:(lia) eq_refl). revert H. vm_compute. intros H.
  assert (Hf : Gt = Lt); [|done]. apply H; [|done]. split; [done|]. split; [done|]. intros _. done.
Qed.

(** No root is needed. *)
Definition demo_rootless : memory :=
  wr_list ∅ 0x1000 (demo_header 60 56 60 0 4 ++ replicate 16 0 ++ be_bytes FDT_END).
Example fdt_check_full_rootless : fdt_check_full demo_rootless 0x1000 100 100 = Some 0.
Proof. vm_compute. reflexivity. Qed.
