(* ===== verification/FdtSwSpec.v ===== *)
(** * FdtSwSpec: what is written sequentially is read back

    The invariant of a blob that is being written, the effect of every function of
    FdtSw.v on it, and the theorem: the calls for a tree, between [fdt_create] and
    [fdt_finish], make a blob that encodes the tree. *)
From Stdlib Require Import ZArith Lia.
From stdpp Require Import prelude gmap list strings.
From S2P Require Import Prelude Memory TString Kernel Fdt FdtTokens FdtMonad FdtEdit FdtRo FdtSw FdtTree FdtSpec.
Open Scope Z_scope.

(** ** The invariant

    [ts] are the tokens written so far and [strs] the table of strings at the end of
    the buffer; the bytes between them are zero. [off] is the offset of the structure. *)
Section Sw.
Context (fdt bufsize off flags : Z).

Record sw_ok (m : memory) (ts : list token) (strs : list Z) : Prop := {
  so_fdt : 0 < fdt /\ 48 <= off /\ bufsize + 3 < 2 ^ 31;
  so_magic : fdt_magic m fdt = FDT_SW_MAGIC;
  so_version : fdt_version m fdt = FDT_LAST_SUPPORTED_VERSION;
  so_flags : fdt_last_comp_version m fdt = flags;
  so_total : fdt_totalsize m fdt = bufsize;
  so_off_struct : fdt_off_dt_struct m fdt = off;
  so_off_strings : fdt_off_dt_strings m fdt = bufsize;
  so_size_struct : fdt_size_dt_struct m fdt = size ts;
  so_size_strings : fdt_size_dt_strings m fdt = Z.of_nat (length strs);
  so_room : off + size ts + Z.of_nat (length strs) <= bufsize;
  so_tokens : Forall token_ok ts;
  so_bytes : block m (fdt + off) (ts ≫= token_bytes);
  so_table : block m (fdt + bufsize - Z.of_nat (length strs)) strs;
  so_free : forall x, fdt + off + size ts <= x < fdt + bufsize - Z.of_nat (length strs) -> rd m x = 0;
}.

(** The bytes that the functions change. *)
Definition in_buf (x : Z) : Prop := fdt <= x < fdt + bufsize.
Definition off_buf (p : Z) (n : nat) : Prop := p + Z.of_nat n <= fdt \/ fdt + bufsize <= p.

Lemma sw_probe m ts strs : sw_ok m ts strs -> fdt_sw_probe_struct_ fdt m = 0.
Proof.
  intros []. unfold fdt_sw_probe_struct_, fdt_sw_probe_.
  rewrite so_magic0, so_off_strings0, so_total0, !Z.eqb_refl. reflexivity.
Qed.

(** The address of the next token. *)
Abbreviation top ts := (fdt + off + size ts).

Lemma grab_run m ts strs len :
  sw_ok m ts strs -> 0 <= len < 2 ^ 32 ->
  fdt_grab_space_ fdt len m =
    if decide (off + size ts + len + Z.of_nat (length strs) <= bufsize)
    then Some (top ts, fdt_set_size_dt_struct fdt (size ts + len) m) else Some (NULL, m).
Proof.
  intros Hok Hlen. pose proof Hok as [(? & ? & ?) _ _ _ Ht Ho _ Hz Hs Hr _ _ _ _].
  pose proof (size_nonneg ts). unfold fdt_grab_space_. rewrite !reads_run.
  rewrite Hz, Ht, Ho, Hs. rewrite (u64_id (size ts + len)), (u32_id (bufsize - off - _)) by lia.
  destruct (Z.ltb_spec (size ts + len) (size ts)); [lia|].
  destruct (Z.ltb_spec (bufsize - off - Z.of_nat (length strs)) (size ts + len)); cbn [orb].
  - by rewrite decide_False by lia.
  - rewrite decide_True by lia. rewrite writes_run. unfold reads, fdt_offset_ptr_.
    unfold fdt_off_dt_struct at 1, fdt_set_size_dt_struct. rewrite (get_set_header_ne m fdt) by (unfold header_size_dt_struct, header_off_dt_struct; lia).
    fold (fdt_off_dt_struct m fdt). rewrite Ho, s32_id by lia. done.
Qed.

Lemma grab_bind {B} m ts strs len (f : Z -> W B) :
  sw_ok m ts strs -> 0 <= len -> off + size ts + len + Z.of_nat (length strs) <= bufsize ->
  (fdt_grab_space_ fdt len ≫= f) m = f (top ts) (fdt_set_size_dt_struct fdt (size ts + len) m).
Proof.
  intros Hok Hl Hr. apply W_bind_run. pose proof (so_fdt _ _ _ Hok). pose proof (size_nonneg ts).
  rewrite (grab_run m ts strs) by (done || lia). by rewrite decide_True.
Qed.

(** A new token. *)
Definition push_area (ts : list token) (n : Z) (x : Z) : Prop :=
  within (fdt + header_size_dt_struct) 4 x \/ top ts <= x < top ts + n.

Lemma sw_push m m' ts strs t :
  sw_ok m ts strs -> token_ok t -> off + size ts + token_size t + Z.of_nat (length strs) <= bufsize ->
  same_outside (push_area ts (token_size t)) m m' ->
  fdt_size_dt_struct m' fdt = size ts + token_size t -> block m' (top ts) (token_bytes t) ->
  sw_ok m' (ts ++ [t]) strs.
Proof.
  intros [Hf Hmag Hver Hfl Htot Hos Hoss Hss Hsz Hr Htk Hb Htab Hfree] Ht Hroom Hs Hsize Hbt.
  pose proof (size_nonneg ts) as H0. pose proof (token_size_pos t) as H4.
  assert (Hh : forall f, 0 <= f <= 32 -> fdt_get_header m' fdt f = fdt_get_header m fdt f).
  { intros f Hf'. apply (header_same_outside _ _ _ _ _ Hs). unfold push_area, within, header_size_dt_struct in *. intros x Hx. lia. }
  split; try (unfold fdt_magic, fdt_version, fdt_last_comp_version, fdt_totalsize, fdt_off_dt_struct, fdt_off_dt_strings,
    fdt_size_dt_strings; rewrite Hh by (vm_compute; split; congruence)); try done; rewrite ?size_snoc; [lia|lia|..].
  - apply Forall_app. split; [done|]. by apply Forall_singleton.
  - rewrite bind_app. apply block_app. split.
    + apply (block_same_outside _ _ _ _ _ Hs); [|done]. intros x Hx. unfold push_area, within, header_size_dt_struct in *.
      rewrite length_tokens in Hx. simpl in *. lia.
    + rewrite length_tokens. cbn [mbind list_bind]. rewrite app_nil_r. exact Hbt.
  - apply (block_same_outside _ _ _ _ _ Hs); [|done]. intros x Hx. unfold push_area, within, header_size_dt_struct in *. lia.
  - intros x Hx. rewrite <- (Hfree x) by lia. symmetry. apply Hs. unfold push_area, within, header_size_dt_struct in *. lia.
Qed.

(** The memory after the space for a token is taken, and after the token is written. *)
Abbreviation grabbed ts n m := (fdt_set_size_dt_struct fdt (size ts + n) m).

Lemma grabbed_outside ts n m : same_outside (within (fdt + header_size_dt_struct) 4) m (grabbed ts n m).
Proof. by apply set_header_outside. Qed.
Lemma grabbed_free m ts strs n x :
  sw_ok m ts strs -> off + size ts + n + Z.of_nat (length strs) <= bufsize -> top ts <= x < top ts + n ->
  rd (grabbed ts n m) x = 0.
Proof.
  intros Hok Hroom Hx. pose proof (so_fdt _ _ _ Hok). pose proof (size_nonneg ts).
  rewrite <- (so_free _ _ _ Hok x) by lia. symmetry. apply grabbed_outside. unfold within, header_size_dt_struct. lia.
Qed.

Definition in_token (ts : list token) (n : Z) (x : Z) : Prop := top ts <= x < top ts + n.

Lemma sw_written m ts strs t m' :
  sw_ok m ts strs -> token_ok t -> off + size ts + token_size t + Z.of_nat (length strs) <= bufsize ->
  same_outside (in_token ts (token_size t)) (grabbed ts (token_size t) m) m' -> block m' (top ts) (token_bytes t) ->
  sw_ok m' (ts ++ [t]) strs /\ same_outside in_buf m m'.
Proof.
  intros Hok Ht Hroom Hs Hbt. pose proof (so_fdt _ _ _ Hok). pose proof (size_nonneg ts). pose proof (token_size_pos t).
  pose proof (grabbed_outside ts (token_size t) m) as Hg. split.
  - apply (sw_push m m'); [done|done|done| | |done].
    + eapply same_outside_trans; eapply same_outside_mono; [|exact Hg| |exact Hs]; intros x Hx; [by left|by right].
    + unfold fdt_size_dt_struct. rewrite (header_same_outside _ _ _ _ _ Hs).
      * apply get_set_header. lia.
      * unfold in_token, within, header_size_dt_struct. intros x Hx. simpl in *. lia.
  - eapply same_outside_trans; eapply same_outside_mono; [|exact Hg| |exact Hs]; intros x Hx;
      unfold in_buf, in_token, within, header_size_dt_struct in *; lia.
Qed.

(** ** Nodes *)
Lemma fdt_begin_node_run fuel m ts strs name p :
  sw_ok m ts strs -> cstr m p name -> (length name <= fuel)%nat -> Forall (fun c => 0 < c < 256) name ->
  off_buf p (S (length name)) -> off + size ts + token_size (TBegin name) + Z.of_nat (length strs) <= bufsize ->
  exists m', fdt_begin_node fdt fuel p m = Some (0, m') /\ sw_ok m' (ts ++ [TBegin name]) strs /\ same_outside in_buf m m'.
Proof.
  intros Hok Hc Hfuel Hname Hp Hroom. pose proof (so_fdt _ _ _ Hok) as (? & ? & ?). pose proof (size_nonneg ts).
  pose proof (so_room _ _ _ Hok). set (len := Z.of_nat (length name) + 1). pose proof (up4_range len).
  set (n := token_size (TBegin name)) in *. assert (Hn : n = 4 + up4 len) by done.
  set (m1 := grabbed ts n m). set (m2 := st32 m1 (top ts) (cpu_to_fdt32 FDT_BEGIN_NODE)).
  set (m3 := memcpy m2 (top ts + 4) p (count len)).
  assert (Hs2 : same_outside (within (top ts) 4) m1 m2) by by apply same_outside_store.
  assert (Hp2 : cstr m2 p name).
  { apply (cstr_same_outside _ _ _ _ _ Hs2); [unfold off_buf, within in *; lia|].
    apply (cstr_same_outside _ _ _ _ _ (grabbed_outside ts n m)); [|done].
    unfold off_buf, within, header_size_dt_struct in *. lia. }
  assert (Hcp : copied m2 (top ts + 4) p (S (length name)) m3).
  { unfold m3, count. rewrite u64_id by lia. replace (Z.to_nat len) with (S (length name)) by lia.
    apply memcpy_copied. unfold off_buf in Hp. lia. }
  pose proof (copied_same_outside _ _ _ _ _ Hcp) as Hs3.
  exists m3. split.
  - unfold fdt_begin_node. rewrite reads_run, (sw_probe m ts strs Hok). cbn [truthy Z.eqb negb].
    erewrite runs_run by (by apply strlen_cstr). rewrite s32_id by lia. fold len.
    rewrite (proj2 (FDT_TAGALIGN64_eq len ltac:(lia))) by done. change (NODE_HEADER_SIZEOF + up4 len) with n.
    rewrite (grab_bind m ts strs n _ Hok) by lia. fold m1.
    unfold NULL. destruct (Z.eqb_spec (top ts) 0); [lia|]. rewrite !writes_run. reflexivity.
  - apply sw_written; [done|done|done| |].
    + eapply same_outside_trans; eapply same_outside_mono; [|exact Hs2| |exact Hs3];
        unfold in_token, within; intros x Hx; fold n; lia.
    + unfold token_bytes. apply block_app. change (Z.of_nat (length (be_bytes (token_tag (TBegin name))))) with 4. split.
      * apply (block_same_outside _ _ _ _ _ Hs3); [|by apply block_st32].
        unfold within. change (length (be_bytes (token_tag (TBegin name)))) with 4%nat. lia.
      * apply (block_pad _ _ _ (n - 4)); rewrite ?length_app; cbn [length]; [replace (Z.of_nat (length name + 1)) with len by lia; lia| |].
        -- apply (block_copied _ _ _ _ _ _ Hcp); [rewrite length_app; simpl; lia|]. by destruct Hp2.
        -- intros x Hx. rewrite <- (grabbed_free m ts strs n x Hok) by lia.
           symmetry. transitivity (rd m2 x); [apply Hs2|apply Hs3]; unfold within; lia.
Qed.

(** A token without data. *)
Lemma simple_token_run m ts strs t :
  sw_ok m ts strs -> token_size t = 4 -> token_ok t -> token_bytes t = be_bytes (token_tag t) ->
  off + size ts + 4 + Z.of_nat (length strs) <= bufsize ->
  let m' := st32 (grabbed ts 4 m) (top ts) (cpu_to_fdt32 (token_tag t)) in
  sw_ok m' (ts ++ [t]) strs /\ same_outside in_buf m m'.
Proof.
  intros Hok Ht Htok Hb Hroom m'. apply sw_written; rewrite ?Ht; [done|done|done| |].
  - apply same_outside_store; [|done]. unfold in_token, within. lia.
  - rewrite Hb. apply block_st32. destruct t; vm_compute; split; congruence.
Qed.

Lemma fdt_end_node_run m ts strs :
  sw_ok m ts strs -> off + size ts + 4 + Z.of_nat (length strs) <= bufsize ->
  exists m', fdt_end_node fdt m = Some (0, m') /\ sw_ok m' (ts ++ [TEndNode]) strs /\ same_outside in_buf m m'.
Proof.
  intros Hok Hroom. pose proof (so_fdt _ _ _ Hok) as (? & ? & ?). pose proof (size_nonneg ts).
  eexists. split; [|by apply (simple_token_run m ts strs TEndNode)].
  unfold fdt_end_node. rewrite reads_run, (sw_probe m ts strs Hok). cbn [truthy Z.eqb negb].
  rewrite (grab_bind m ts strs FDT_TAGSIZE _ Hok) by (unfold FDT_TAGSIZE; lia).
  unfold NULL. destruct (Z.eqb_spec (top ts) 0); [lia|]. rewrite !writes_run. reflexivity.
Qed.

(** ** Strings

    The string [name] is in the table, [k] bytes before its end. *)
Definition in_table (strs : list Z) (k : Z) (name : list Z) : Prop :=
  exists pre post, strs = pre ++ name ++ 0 :: post /\ k = Z.of_nat (length name) + 1 + Z.of_nat (length post) /\
    Forall (fun c => c <> 0) name.

Lemma in_table_range strs k name : in_table strs k name -> Z.of_nat (length name) + 1 <= k <= Z.of_nat (length strs).
Proof. intros (pre & post & -> & -> & _). rewrite !length_app. simpl. lia. Qed.
Lemma in_table_app strs k name l : in_table strs k name -> in_table (l ++ strs) k name.
Proof. intros (pre & post & -> & -> & Hn). exists (l ++ pre), post. by rewrite app_assoc. Qed.

Lemma fdt_add_string_run fuel m ts strs name p :
  sw_ok m ts strs -> cstr m p name -> (length name <= fuel)%nat -> off_buf p (S (length name)) ->
  off + size ts + Z.of_nat (length strs) + Z.of_nat (length name) + 1 <= bufsize ->
  exists m', fdt_add_string_ fdt fuel p m = Some (- (Z.of_nat (length strs) + Z.of_nat (length name) + 1), m') /\
    sw_ok m' ts (name ++ 0 :: strs) /\ same_outside in_buf m m'.
Proof.
  intros Hok Hc Hfuel Hp Hroom. pose proof Hok as [(? & ? & ?) Hmag Hver Hfl Htot Hos Hoss Hss Hsz Hr Htk Hb Htab Hfree].
  pose proof (size_nonneg ts). set (len := Z.of_nat (length name) + 1).
  set (o := Z.of_nat (length strs) + len). set (d := fdt + bufsize - o).
  set (m1 := memcpy m d p (S (length name))).
  assert (Hcp : copied m d p (S (length name)) m1) by (apply memcpy_copied; unfold off_buf, d in *; lia).
  pose proof (copied_same_outside _ _ _ _ _ Hcp) as Hs1.
  set (m2 := fdt_set_size_dt_strings fdt o m1).
  assert (Hs2 : same_outside (within (fdt + header_size_dt_strings) 4) m1 m2) by by apply set_header_outside.
  exists m2. split; [|split].
  - unfold fdt_add_string_. rewrite !reads_run. erewrite runs_run by (by apply strlen_cstr). rewrite !reads_run.
    rewrite Hsz, Htot, Hos, Hss. fold len. rewrite (u32_id len), (u32_id (Z.of_nat (length strs) + len)) by lia. fold o.
    rewrite !u32_id by lia. destruct (Z.ltb_spec (bufsize - o) (off + size ts)); [lia|]. rewrite !writes_run.
    unfold count. rewrite u64_id by lia. replace (Z.to_nat len) with (S (length name)) by lia. fold d m1 m2.
    rewrite W_ret_run, s32_id by lia. do 2 f_equal. lia.
  - assert (Hh : forall f, 0 <= f <= 28 \/ f = 36 -> fdt_get_header m2 fdt f = fdt_get_header m fdt f).
    { intros f Hf'. transitivity (fdt_get_header m1 fdt f).
      - apply (header_same_outside _ _ _ _ _ Hs2). unfold within, header_size_dt_strings in *. intros x Hx. lia.
      - apply (header_same_outside _ _ _ _ _ Hs1). unfold within, d, o, len in *. intros x Hx. lia. }
    assert (Hl : Z.of_nat (length (name ++ 0 :: strs)) = o) by (rewrite length_app; simpl; unfold o, len; lia).
    split; try (unfold fdt_magic, fdt_version, fdt_last_comp_version, fdt_totalsize, fdt_off_dt_struct, fdt_off_dt_strings,
      fdt_size_dt_struct; rewrite Hh by (vm_compute; first [left; split; congruence|right; reflexivity])); rewrite ?Hl; try done.
    + unfold fdt_size_dt_strings, m2, fdt_set_size_dt_strings. apply get_set_header. lia.
    + unfold o, len. lia.
    + apply (block_same_outside _ _ _ _ _ Hs2).
      { intros x Hx. unfold within, header_size_dt_strings in *. lia. }
      apply (block_same_outside _ _ _ _ _ Hs1); [|done]. intros x Hx. rewrite length_tokens in Hx || unfold within in *.
      rewrite length_tokens in Hx. unfold d, o, len in *. lia.
    + apply (block_same_outside _ _ _ _ _ Hs2).
      { intros x Hx. unfold within, header_size_dt_strings in *. rewrite Hl in Hx. lia. }
      fold d. change (name ++ 0 :: strs) with (name ++ [0] ++ strs). rewrite app_assoc. apply block_app. split.
      * apply (block_copied _ _ _ _ _ _ Hcp); [rewrite length_app; simpl; lia|]. by destruct Hc.
      * apply (block_same_outside _ _ _ _ _ Hs1).
        -- intros x Hx. unfold within, d, o, len in *. rewrite length_app in Hx. simpl in Hx. lia.
        -- replace (d + _) with (fdt + bufsize - Z.of_nat (length strs)) by (rewrite length_app; simpl; unfold d, o, len; lia). done.
    + intros x Hx. rewrite <- (Hfree x) by (unfold o, len in *; lia). symmetry. transitivity (rd m1 x).
      * apply Hs1. unfold within, d, o, len in *. lia.
      * apply Hs2. unfold within, header_size_dt_strings. lia.
  - eapply same_outside_trans; eapply same_outside_mono; [|exact Hs1| |exact Hs2]; intros x Hx;
      unfold in_buf, within, header_size_dt_strings, d, o, len in *; lia.
Qed.

(** The search gives an occurrence. *)
Lemma find_string_loop_run m n p s len :
  let r := find_string_loop m n p s len in
  r = NULL \/ exists i, (i < n)%nat /\ r = p + Z.of_nat i /\ bytes_at (Z.to_nat len) m r = bytes_at (Z.to_nat len) m s.
Proof.
  revert p. induction n as [|n IH]; intros p; cbn [find_string_loop]; [by left|]. rewrite memcmp_eq.
  case_bool_decide as He.
  - right. exists 0%nat. split; [lia|]. split; [lia|done].
  - destruct (IH (p + 1)) as [->|(i & Hi & Hr & Hb)]; [by left|]. right. exists (S i). split; [lia|]. split; [lia|done].
Qed.
Lemma block_bytes_at m a l : block m a l -> bytes_at (length l) m a = l.
Proof.
  revert a. induction l as [|b l IH]; intros a Hb; [done|]. apply block_cons in Hb as [H1 H2]. simpl. f_equal; auto.
Qed.

Lemma strings_entry m strs a name i :
  block m a strs -> bytes_at (S (length name)) m (a + Z.of_nat i) = name ++ [0] -> Forall (fun c => c <> 0) name ->
  (i + S (length name) <= length strs)%nat -> in_table strs (Z.of_nat (length strs) - Z.of_nat i) name.
Proof.
  intros Hb He Hn Hi. exists (take i strs), (drop (i + S (length name)) strs). split; [|split; [|done]].
  - rewrite <- (take_drop i strs) at 1. f_equal. rewrite <- (take_drop (S (length name)) (drop i strs)) at 1.
    rewrite drop_drop. change (name ++ 0 :: drop (i + S (length name)) strs) with (name ++ [0] ++ drop (i + S (length name)) strs).
    rewrite app_assoc. f_equal. rewrite <- He. rewrite <- (take_drop i strs) in Hb. apply block_app in Hb as [_ Hb].
    rewrite <- (take_drop (S (length name)) (drop i strs)) in Hb. apply block_app in Hb as [Hb _].
    apply block_bytes_at in Hb. rewrite !length_take, length_drop in Hb.
    replace (S (length name) `min` (length strs - i))%nat with (S (length name)) in Hb by lia.
    replace (i `min` length strs)%nat with i in Hb by lia. by rewrite Hb.
  - rewrite length_drop. lia.
Qed.

Lemma fdt_find_add_string_run fuel m ts strs name p :
  sw_ok m ts strs -> cstr m p name -> (length name <= fuel)%nat -> off_buf p (S (length name)) ->
  off + size ts + Z.of_nat (length strs) + Z.of_nat (length name) + 1 <= bufsize ->
  exists m' strs' k alloc, fdt_find_add_string_ fdt fuel p m = Some ((- k, alloc), m') /\ in_table strs' k name /\
    (exists l, strs' = l ++ strs /\ (length l <= S (length name))%nat) /\ sw_ok m' ts strs' /\ same_outside in_buf m m'.
Proof.
  intros Hok Hc Hfuel Hp Hroom. pose proof Hok as [(? & ? & ?) Hmag Hver Hfl Htot Hos Hoss Hss Hsz Hr Htk Hb Htab Hfree].
  pose proof (size_nonneg ts). unfold fdt_find_add_string_. rewrite !reads_run, Htot, Hsz.
  rewrite (s32_id (Z.of_nat (length strs))) by lia. unfold fdt_find_string_.
  erewrite runs_run by (erewrite strlen_cstr by done; reflexivity). rewrite (s32_id (Z.of_nat (length name) + 1)) by lia.
  set (q := fdt + bufsize - Z.of_nat (length strs)).
  set (n := Z.to_nat _). 
  assert (Hcb : bytes_at (S (length name)) m p = name ++ [0]).
  { destruct Hc as [Hcb _]. apply block_bytes_at in Hcb. rewrite length_app in Hcb. simpl in Hcb.
    by replace (length name + 1)%nat with (S (length name)) in Hcb by lia. }
  destruct (find_string_loop_run m n q p (Z.of_nat (length name) + 1)) as [Hr0|(i & Hi & Hri & Hbi)];
    set (r := find_string_loop _ _ _ _ _) in *.
  - rewrite Hr0. cbn [Z.eqb negb NULL].
    destruct (fdt_add_string_run fuel m ts strs name p Hok Hc Hfuel Hp Hroom) as (m' & E & Hok' & Hs').
    exists m', (name ++ 0 :: strs). eexists _, true. split; [|split; [|split; [|by split]]].
    + rewrite (W_bind_run _ _ _ _ _ E). reflexivity.
    + exists [], strs. destruct Hc as [_ Hz]. split; [done|]. split; [lia|done].
    + exists (name ++ [0]). split; [by rewrite <- app_assoc|]. rewrite length_app. simpl. lia.
  - replace (Z.to_nat (Z.of_nat (length name) + 1)) with (S (length name)) in Hbi by lia.
    unfold n in Hi. exists m, strs, (Z.of_nat (length strs) - Z.of_nat i), false.
    unfold NULL. destruct (Z.eqb_spec r 0); [unfold q in Hri; lia|]. cbn [negb]. split; [|split; [|split; [|by split]]].
    + rewrite W_ret_run, s32_id by (unfold q in Hri; lia). do 3 f_equal. unfold q in Hri. lia.
    + apply (strings_entry m _ q); [done|by rewrite <- Hri, Hbi|by destruct Hc|]. lia.
    + exists []. split; [done|]. simpl. lia.
Qed.

(** ** Properties *)
Lemma name_offset_run fuel m ts strs name p :
  sw_ok m ts strs -> cstr m p name -> (length name <= fuel)%nat -> off_buf p (S (length name)) ->
  off + size ts + Z.of_nat (length strs) + Z.of_nat (length name) + 1 <= bufsize ->
  exists m' strs' k alloc,
    (if truthy (Z.land flags FDT_CREATE_FLAG_NO_NAME_DEDUP)
     then nameoff ← fdt_add_string_ fdt fuel p; mret (nameoff, true) else fdt_find_add_string_ fdt fuel p) m =
      Some ((- k, alloc), m') /\ in_table strs' k name /\
    (exists l, strs' = l ++ strs /\ (length l <= S (length name))%nat) /\ sw_ok m' ts strs' /\ same_outside in_buf m m'.
Proof.
  intros Hok Hc Hfuel Hp Hroom. destruct (truthy _); [|by apply fdt_find_add_string_run].
  destruct (fdt_add_string_run fuel m ts strs name p Hok Hc Hfuel Hp Hroom) as (m' & E & Hok' & Hs').
  exists m', (name ++ 0 :: strs). eexists _, true. split; [|split; [|split; [|by split]]].
  - rewrite (W_bind_run _ _ _ _ _ E). reflexivity.
  - exists [], strs. destruct Hc as [_ Hz]. split; [done|]. split; [lia|done].
  - exists (name ++ [0]). split; [by rewrite <- app_assoc|]. rewrite length_app. simpl. lia.
Qed.

(** The memory after a property is written. *)
Lemma prop_written m ts strs no data v :
  sw_ok m ts strs -> token_ok (TProp no data) -> block m v data -> off_buf v (length data) ->
  off + size ts + token_size (TProp no data) + Z.of_nat (length strs) <= bufsize ->
  let prop := top ts in
  let m1 := grabbed ts (token_size (TProp no data)) m in
  let m2 := st32 m1 prop (cpu_to_fdt32 FDT_PROP) in
  let m3 := st32 m2 (property_nameoff prop) (cpu_to_fdt32 no) in
  let m4 := st32 m3 (property_len prop) (cpu_to_fdt32 (Z.of_nat (length data))) in
  let m5 := memcpy m4 (property_data prop) v (length data) in
  sw_ok m5 (ts ++ [TProp no data]) strs /\ same_outside in_buf m m5.
Proof.
  intros Hok Htok Hv Hoff Hroom prop m1 m2 m3 m4 m5. pose proof (so_fdt _ _ _ Hok) as (? & ? & ?). pose proof (size_nonneg ts).
  pose proof Htok as (Hno & Hlen & Hbytes). set (n := token_size (TProp no data)) in *.
  assert (Hn : n = 12 + up4 (Z.of_nat (length data))) by done. pose proof (up4_range (Z.of_nat (length data))).
  assert (Hs12 : same_outside (within prop 4) m1 m2) by by apply same_outside_store.
  assert (Hs23 : same_outside (within (prop + 8) 4) m2 m3) by by apply same_outside_store.
  assert (Hs34 : same_outside (within (prop + 4) 4) m3 m4) by by apply same_outside_store.
  assert (Hs14 : same_outside (within prop 12) m1 m4).
  { eapply same_outside_trans; [|eapply same_outside_trans]; eapply same_outside_mono;
      [|exact Hs12| |exact Hs23| |exact Hs34]; unfold within; intros x Hx; simpl in *; lia. }
  assert (Hv4 : block m4 v data).
  { apply (block_same_outside _ _ _ _ _ Hs14); [unfold off_buf, within, prop in *; lia|].
    apply (block_same_outside _ _ _ _ _ (grabbed_outside ts n m)); [|done].
    unfold off_buf, within, header_size_dt_struct in *. lia. }
  assert (Hcp : copied m4 (prop + 12) v (length data) m5).
  { apply memcpy_copied. unfold off_buf, prop in *. lia. }
  pose proof (copied_same_outside _ _ _ _ _ Hcp) as Hs5.
  apply sw_written; [done|done|done| |].
  - eapply same_outside_trans; eapply same_outside_mono; [|exact Hs14| |exact Hs5];
      unfold in_token, within, prop; intros x Hx; fold n; lia.
  - assert (Hw : forall l, Z.of_nat (length l) = 4 -> forall a, prop <= a -> a + 4 <= prop + 12 -> block m4 a l -> block m5 a l).
    { intros l Hl a Ha1 Ha2. apply (block_same_outside _ _ _ _ _ Hs5). unfold within. lia. }
    apply block_prop_padded. fold prop. split_and!.
    + apply Hw; [done|lia|lia|]. apply (block_same_outside _ _ _ _ _ Hs34); [unfold within; cbn [length be_bytes]; lia|].
      apply (block_same_outside _ _ _ _ _ Hs23); [unfold within; cbn [length be_bytes]; lia|]. by apply block_st32.
    + apply Hw; [done|lia|lia|]. apply block_st32. lia.
    + apply Hw; [done|lia|lia|]. apply (block_same_outside _ _ _ _ _ Hs34); [unfold within; cbn [length be_bytes]; lia|].
      by apply block_st32.
    + apply (block_pad _ _ _ (n - 12)); [lia|by apply (block_copied _ _ _ _ _ _ Hcp)|].
      intros x Hx. rewrite <- (grabbed_free m ts strs n x Hok) by (unfold prop in Hx; lia).
      symmetry. transitivity (rd m4 x); [apply Hs14|apply Hs5]; unfold within; lia.
Qed.

Lemma placeholder_run fuel m m1 ts strs strs' p len k alloc :
  sw_ok m ts strs -> 0 <= len < 2 ^ 31 ->
  (if truthy (Z.land flags FDT_CREATE_FLAG_NO_NAME_DEDUP)
   then nameoff ← fdt_add_string_ fdt fuel p; mret (nameoff, true) else fdt_find_add_string_ fdt fuel p) m =
    Some ((- k, alloc), m1) ->
  sw_ok m1 ts strs' -> 0 < k < 2 ^ 31 -> off + size ts + (12 + up4 len) + Z.of_nat (length strs') <= bufsize ->
  let m2 := st32 (grabbed ts (12 + up4 len) m1) (top ts) (cpu_to_fdt32 FDT_PROP) in
  let m3 := st32 m2 (property_nameoff (top ts)) (cpu_to_fdt32 (2 ^ 32 - k)) in
  fdt_property_placeholder fdt fuel p len m =
    Some ((0, Some (property_data (top ts))), st32 m3 (property_len (top ts)) (cpu_to_fdt32 len)).
Proof.
  intros Hok Hlen E1 Hok1 Hk Hroom m2 m3. pose proof (so_fdt _ _ _ Hok) as (? & ? & ?). pose proof (size_nonneg ts).
  pose proof (up4_range len). assert (Hu : u32 (- k) = 2 ^ 32 - k) by word_lia.
  unfold fdt_property_placeholder. rewrite reads_run, (sw_probe m ts strs Hok). cbn [truthy Z.eqb negb]. rewrite reads_run.
  unfold sw_flags at 1. rewrite (so_flags _ _ _ Hok). rewrite (W_bind_run _ _ _ _ _ E1). cbn beta iota.
  destruct (Z.eqb_spec (- k) 0); [lia|]. rewrite (proj2 (FDT_TAGALIGN64_eq _ Hlen)) by done.
  rewrite (grab_bind m1 ts strs' _ _ Hok1) by (unfold FDT_PROPERTY_SIZEOF; lia).
  unfold NULL. destruct (Z.eqb_spec (top ts) 0); [lia|]. rewrite !writes_run, Hu, (u32_id len) by lia. reflexivity.
Qed.

Lemma fdt_property_run fuel m ts strs name p data v :
  sw_ok m ts strs -> cstr m p name -> (length name <= fuel)%nat -> off_buf p (S (length name)) ->
  block m v data -> off_buf v (length data) -> Z.of_nat (length data) < 2 ^ 31 -> Forall (fun c => 0 <= c < 256) data ->
  off + size ts + token_size (TProp 0 data) + Z.of_nat (length strs) + Z.of_nat (length name) + 1 <= bufsize ->
  exists m' strs' k, fdt_property fdt fuel p v (Z.of_nat (length data)) m = Some (0, m') /\ in_table strs' k name /\
    (exists l, strs' = l ++ strs /\ (length l <= S (length name))%nat) /\
    sw_ok m' (ts ++ [TProp (2 ^ 32 - k) data]) strs' /\ same_outside in_buf m m'.
Proof.
  intros Hok Hc Hfuel Hp Hv Hoff Hlen Hbytes Hroom. pose proof (so_fdt _ _ _ Hok) as (? & ? & ?). pose proof (size_nonneg ts).
  change (token_size (TProp 0 data)) with (12 + up4 (Z.of_nat (length data))) in Hroom.
  pose proof (up4_range (Z.of_nat (length data))).
  destruct (name_offset_run fuel m ts strs name p Hok Hc Hfuel Hp ltac:(lia))
    as (m1 & strs' & k & alloc & E1 & Hk & (l & El & Hl) & Hok1 & Hs1).
  pose proof (in_table_range _ _ _ Hk) as Hkr. assert (Hl' : Z.of_nat (length strs') <= Z.of_nat (length strs) + Z.of_nat (length name) + 1).
  { rewrite El, length_app. lia. }
  pose proof (so_room _ _ _ Hok1) as Hroom1.
  assert (Hu : u32 (- k) = 2 ^ 32 - k) by word_lia.
  assert (Htok : token_ok (TProp (2 ^ 32 - k) data)) by (split; [lia|by split]).
  destruct (prop_written m1 ts strs' (2 ^ 32 - k) data v Hok1 Htok) as [Hok2 Hs2].
  - apply (block_same_outside _ _ _ _ _ Hs1); [|done]. unfold off_buf, within, in_buf in *. lia.
  - done.
  - cbn [token_size]. lia.
  - eexists _, strs', k. split; [|split; [done|split; [by exists l|split; [exact Hok2|by eapply same_outside_trans]]]].
    unfold fdt_property. rewrite (W_bind_run _ _ _ _ _ (placeholder_run fuel m m1 ts strs strs' p (Z.of_nat (length data)) k alloc Hok ltac:(lia) E1 Hok1
      ltac:(lia) ltac:(lia))). cbn [truthy Z.eqb negb default]. rewrite writes_run.
    unfold count. rewrite u64_id, Nat2Z.id by lia. reflexivity.
Qed.
End Sw.

(** ** The end

    The offsets of the names become relative to the beginning of the strings. *)
Definition finish_token (n : Z) (t : token) : token :=
  match t with TProp nameoff data => TProp (u32 (nameoff + n)) data | t => t end.

Lemma finish_token_size n t : token_size (finish_token n t) = token_size t.
Proof. by destruct t. Qed.
Lemma finish_token_ok n t : token_ok t -> token_ok (finish_token n t).
Proof. destruct t; simpl; try done. intros (_ & H1 & H2). split; [apply u32_range|by split]. Qed.

Section Finish.
Context (fdt : Z).

Lemma finish_prop_run m l1 no data l2 :
  blob_ok m fdt (l1 ++ TProp no data :: l2) -> 40 <= fdt_off_dt_struct m fdt ->
  exists m', finish_prop fdt (size l1) m = Some (tt, m') /\
    blob_ok m' fdt (l1 ++ finish_token (fdt_size_dt_strings m fdt) (TProp no data) :: l2) /\
    (forall f, 0 <= f <= 36 -> fdt_get_header m' fdt f = fdt_get_header m fdt f) /\
    same_outside (within (fdt + fdt_off_dt_struct m fdt + size l1 + 8) 4) m m'.
Proof.
  intros Hb Hoff. set (n := fdt_size_dt_strings m fdt). set (a := fdt + fdt_off_dt_struct m fdt + size l1).
  destruct (blob_token m fdt _ Hb l1 _ l2 eq_refl) as (Hbt & Htok & Hle). pose proof Htok as (Hno & Hlen & Hdata).
  set (no' := u32 (no + n)). set (m' := st32 m (a + 8) (cpu_to_fdt32 no')).
  assert (Hs : same_outside (within (a + 8) 4) m m') by by apply same_outside_store.
  cbn [token_size] in Hle. pose proof (up4_range (Z.of_nat (length data))).
  apply block_prop in Hbt as (H1 & H2 & H3 & H4). fold a in H1, H2, H3, H4.
  exists m'. split; [|split; [|split; [|exact Hs]]].
  - unfold finish_prop. rewrite !reads_run. unfold fdt_offset_ptr_. fold a n. unfold property_nameoff.
    rewrite (fdt32_block m (a + 8) no Hno H3). unfold writes. do 2 f_equal. unfold m'. f_equal. f_equal.
    unfold no'. word_lia.
  - apply (blob_update m m' fdt l1 _ _ l2 Hb Hoff); [done|by apply finish_token_ok| |].
    + eapply same_outside_mono; [|exact Hs]. unfold within, a. cbn [token_size]. lia.
    + fold a. cbn [finish_token]. fold no'. apply block_prop. split_and!.
      * apply (block_same_outside _ _ _ _ _ Hs); [|exact H1]. unfold within. cbn [length be_bytes]. lia.
      * apply (block_same_outside _ _ _ _ _ Hs); [|exact H2]. unfold within. cbn [length be_bytes]. lia.
      * apply block_st32. apply u32_range.
      * apply (block_same_outside _ _ _ _ _ Hs); [|exact H4]. unfold within. lia.
  - intros f Hf. apply (header_same_outside _ _ _ _ _ Hs). pose proof (size_nonneg l1). unfold within, a. lia.
Qed.

Lemma finish_loop_run n fuel m l1 l2 :
  blob_ok m fdt (l1 ++ l2 ++ [TEnd]) -> 40 <= fdt_off_dt_struct m fdt -> TEnd ∉ l2 ->
  (Z.to_nat (fdt_totalsize m fdt) <= fuel)%nat -> (length l2 <= n)%nat ->
  exists m', finish_loop fdt fuel n (size l1) m = Some (size (l1 ++ l2) + 4, m') /\
    blob_ok m' fdt (l1 ++ (finish_token (fdt_size_dt_strings m fdt) <$> l2) ++ [TEnd]) /\
    (forall f, 0 <= f <= 36 -> fdt_get_header m' fdt f = fdt_get_header m fdt f) /\
    same_outside (fun x => fdt + fdt_off_dt_struct m fdt <= x < fdt + fdt_off_dt_struct m fdt + size (l1 ++ l2)) m m'.
Proof.
  revert m l1 n. induction l2 as [|t l2 IH]; intros m l1 n Hb Hoff Hend Hfuel Hn.
  - exists m. rewrite app_nil_r. split; [|split; [exact Hb|by split]].
    destruct n; cbn [finish_loop]; (erewrite runs_run by (by eapply (fdt_next_tag_token m fdt _ Hb))); reflexivity.
  - destruct n as [|n]; [simpl in Hn; lia|]. cbn [app] in Hb.
    assert (Ht : token_tag t <> FDT_END) by (destruct t; try done; set_solver).
    assert (Hstep : exists m1, (if token_tag t =? FDT_PROP then finish_prop fdt (size l1) else mret tt) m = Some (tt, m1) /\
      blob_ok m1 fdt (l1 ++ finish_token (fdt_size_dt_strings m fdt) t :: l2 ++ [TEnd]) /\
      (forall f, 0 <= f <= 36 -> fdt_get_header m1 fdt f = fdt_get_header m fdt f) /\
      same_outside (fun x => fdt + fdt_off_dt_struct m fdt + size l1 <= x < fdt + fdt_off_dt_struct m fdt + size l1 + token_size t) m m1).
    { destruct t as [name| |no data| |]; try (exists m; split; [reflexivity|split; [exact Hb|split; [done|apply same_outside_refl]]]).
      destruct (finish_prop_run m l1 no data _ Hb Hoff) as (m1 & E1 & Hb1 & Hh1 & Hs1).
      exists m1. split; [exact E1|]. split; [done|]. split; [done|]. eapply same_outside_mono; [|exact Hs1].
      unfold within. cbn [token_size]. pose proof (up4_range (Z.of_nat (length data))). lia. }
    destruct Hstep as (m1 & E1 & Hb1 & Hh1 & Hs1).
    assert (Eo : fdt_off_dt_struct m1 fdt = fdt_off_dt_struct m fdt) by (apply Hh1; vm_compute; split; congruence).
    assert (Et : fdt_totalsize m1 fdt = fdt_totalsize m fdt) by (apply Hh1; vm_compute; split; congruence).
    assert (Es : fdt_size_dt_strings m1 fdt = fdt_size_dt_strings m fdt) by (apply Hh1; vm_compute; split; congruence).
    destruct (IH m1 (l1 ++ [finish_token (fdt_size_dt_strings m fdt) t]) n) as (m' & E & Hb' & Hh' & Hs').
    + rewrite <- app_assoc. exact Hb1.
    + by rewrite Eo.
    + set_solver.
    + by rewrite Et.
    + simpl in Hn. lia.
    + rewrite size_snoc, finish_token_size in E. rewrite Es in Hb'.
      assert (Esz : size ((l1 ++ [finish_token (fdt_size_dt_strings m fdt) t]) ++ l2) = size (l1 ++ t :: l2)).
      { rewrite !size_app. simpl. rewrite finish_token_size. lia. }
      rewrite Esz in E, Hs'. exists m'. split; [|split; [|split]].
      * cbn [finish_loop]. erewrite runs_run by (by eapply (fdt_next_tag_token m fdt _ Hb)). cbn beta iota.
        destruct (Z.eqb_spec (token_tag t) FDT_END); [done|]. cbn [negb]. rewrite (W_bind_run _ _ _ _ _ E1). exact E.
      * rewrite fmap_cons. cbn [app]. rewrite <- app_assoc in Hb'. exact Hb'.
      * intros f Hf. rewrite Hh' by done. by apply Hh1.
      * rewrite Eo in Hs'. eapply same_outside_trans; [|exact Hs']. eapply same_outside_mono; [|exact Hs1].
        intros x Hx. cbv beta in Hx. rewrite size_app. cbn [size]. pose proof (size_nonneg l1). pose proof (size_nonneg l2). lia.
Qed.

Lemma sw_blob bufsize off flags m ts strs :
  sw_ok fdt bufsize off flags m ts strs -> ts <> [] -> blob_ok m fdt ts.
Proof.
  intros [(? & ? & ?) Hmag Hver Hfl Htot Hos Hoss Hss Hsz Hr Htk Hb Htab Hfree] Hne.
  assert (4 <= size ts) by (destruct ts as [|t ts]; [done|]; cbn [size]; pose proof (token_size_pos t); pose proof (size_nonneg ts); lia).
  split; rewrite ?Htot, ?Hos, ?Hver, ?Hss; try done; try (unfold FDT_LAST_SUPPORTED_VERSION; lia); [|by apply encoded_block].
  unfold fdt_ro_probe_. rewrite Hmag, Htot, Hss. cbn [Z.eqb]. unfold INT32_MAX.
  change (FDT_SW_MAGIC =? FDT_MAGIC) with false. rewrite Z.eqb_refl. cbv iota.
  destruct (Z.eqb_spec (size ts) 0); [lia|]. destruct (Z.ltb_spec bufsize (2 ^ 31 - 1)); lia.
Qed.

(** The strings behind the structure: the memory before the loop. *)
Lemma finish_strings bufsize off flags m ts strs :
  sw_ok fdt bufsize off flags m ts strs -> ts <> [] ->
  let new := off + size ts in
  let m' := fdt_set_off_dt_strings fdt new
    (memmove m (fdt + new) (fdt + (bufsize - Z.of_nat (length strs))) (length strs)) in
  blob_ok m' fdt ts /\ block m' (fdt + new) strs /\
  (forall f, 0 <= f <= 8 \/ 16 <= f <= 36 -> fdt_get_header m' fdt f = fdt_get_header m fdt f) /\
  fdt_off_dt_strings m' fdt = new /\ same_outside (in_buf fdt bufsize) m m'.
Proof.
  intros Hok Hne new m'. pose proof (sw_blob _ _ _ _ _ _ Hok Hne) as Hblob.
  pose proof Hok as [(? & ? & ?) Hmag Hver Hfl Htot Hos Hoss Hss Hsz Hr Htk Hb Htab Hfree]. pose proof (size_nonneg ts).
  set (m1 := memmove m (fdt + new) (fdt + (bufsize - Z.of_nat (length strs))) (length strs)).
  assert (Hcp : copied m (fdt + new) (fdt + (bufsize - Z.of_nat (length strs))) (length strs) m1).
  { unfold m1, memmove. destruct (Z.leb_spec (fdt + new) (fdt + (bufsize - Z.of_nat (length strs)))); [|unfold new in *; lia].
    apply memcpy_copied. lia. }
  pose proof (copied_same_outside _ _ _ _ _ Hcp) as Hs1.
  assert (Hs2 : same_outside (within (fdt + header_off_dt_strings) 4) m1 m') by by apply set_header_outside.
  assert (Hs : same_outside (fun x => fdt + 12 <= x < fdt + 16 \/ fdt + new <= x < fdt + bufsize) m m').
  { eapply same_outside_trans; eapply same_outside_mono; [|exact Hs1| |exact Hs2];
      unfold within, header_off_dt_strings, new; intros x Hx; lia. }
  assert (Hh : forall f, 0 <= f <= 8 \/ 16 <= f <= 36 -> fdt_get_header m' fdt f = fdt_get_header m fdt f).
  { intros f Hf'. apply (header_same_outside _ _ _ _ _ Hs). unfold within, new. intros x Hx. simpl in *. lia. }
  split_and!; [|..|done| |].
  - assert (E : fdt_totalsize m' fdt = fdt_totalsize m fdt) by (apply Hh; vm_compute; left; split; congruence).
    apply (blob_header _ m m' fdt ts Hblob Hs); rewrite ?Hos, ?E, ?Htot; try (apply Hh; vm_compute; first [left; split; congruence|right; split; congruence]).
    + unfold new. lia.
    + rewrite <- Hos. apply Hh. vm_compute. left; split; congruence.
    + unfold fdt_ro_probe_, fdt_magic, fdt_totalsize, fdt_version, fdt_last_comp_version, fdt_size_dt_struct.
      rewrite !Hh by (vm_compute; first [left; split; congruence|right; split; congruence]). exact (bo_probe _ _ _ Hblob).
    + lia.
    + unfold new in *. lia.
  - apply (block_same_outside _ _ _ _ _ Hs2); [unfold within, header_off_dt_strings, new; lia|].
    apply (block_copied _ _ _ _ _ _ Hcp); [done|]. by replace (fdt + (bufsize - Z.of_nat (length strs)))
      with (fdt + bufsize - Z.of_nat (length strs)) by lia.
  - unfold fdt_off_dt_strings, m', fdt_set_off_dt_strings. apply get_set_header. unfold new. lia.
  - eapply same_outside_mono; [|exact Hs]. unfold in_buf, new. intros x Hx. lia.
Qed.

Lemma table_string strs k name m a :
  in_table strs k name -> block m a strs -> cstr m (a + (Z.of_nat (length strs) - k)) name.
Proof.
  intros (pre & post & -> & -> & Hn) Hb. apply block_app in Hb as [_ Hb].
  change (name ++ 0 :: post) with (name ++ [0] ++ post) in Hb. rewrite app_assoc in Hb. apply block_app in Hb as [Hb _].
  split; [|done]. rewrite !length_app. cbn [length].
  by replace (a + _) with (a + Z.of_nat (length pre)) by lia.
Qed.

(** The last three fields of the header. *)
Lemma finish_header bufsize m ts new n :
  blob_ok m fdt ts -> 48 <= fdt_off_dt_struct m fdt -> fdt_version m fdt = FDT_LAST_SUPPORTED_VERSION ->
  fdt_off_dt_struct m fdt + size ts <= new -> 0 <= n -> new + n <= bufsize -> bufsize + 3 < 2 ^ 31 ->
  let m' := fdt_set_magic fdt FDT_MAGIC
    (fdt_set_last_comp_version fdt FDT_FIRST_SUPPORTED_VERSION (fdt_set_totalsize fdt (new + n) m)) in
  blob_ok m' fdt ts /\ fdt_magic m' fdt = FDT_MAGIC /\ fdt_totalsize m' fdt = new + n /\
  (forall f, 8 <= f <= 20 \/ 28 <= f <= 36 -> fdt_get_header m' fdt f = fdt_get_header m fdt f) /\
  same_outside (fun x => fdt <= x < fdt + 28) m m'.
Proof.
  intros Hb Hoff Hv Hnew Hn Hsize Hmax m'. pose proof (size_nonneg ts).
  assert (Hs : same_outside (fun x => fdt <= x < fdt + 28) m m').
  { do 3 (apply same_outside_store; [unfold within, header_magic, header_last_comp_version, header_totalsize; intros x Hx; lia|]). done. }
  assert (Hh : forall f, 8 <= f <= 20 \/ 28 <= f <= 36 -> fdt_get_header m' fdt f = fdt_get_header m fdt f).
  { intros f Hf. unfold m', fdt_set_magic, fdt_set_last_comp_version, fdt_set_totalsize.
    rewrite !get_set_header_ne by (unfold header_magic, header_last_comp_version, header_totalsize; lia). done. }
  assert (Hmag : fdt_magic m' fdt = FDT_MAGIC).
  { unfold fdt_magic, m', fdt_set_magic. apply get_set_header. vm_compute. split; congruence. }
  assert (Htot : fdt_totalsize m' fdt = new + n).
  { unfold fdt_totalsize, m', fdt_set_magic, fdt_set_last_comp_version, fdt_set_totalsize.
    rewrite !get_set_header_ne by (unfold header_magic, header_last_comp_version, header_totalsize; lia).
    apply get_set_header. lia. }
  assert (Hlast : fdt_last_comp_version m' fdt = FDT_FIRST_SUPPORTED_VERSION).
  { unfold fdt_last_comp_version, m', fdt_set_magic, fdt_set_last_comp_version.
    rewrite !get_set_header_ne by (unfold header_magic, header_last_comp_version; lia).
    apply get_set_header. vm_compute. split; congruence. }
  assert (Ev : fdt_version m' fdt = fdt_version m fdt) by (apply Hh; vm_compute; left; split; congruence).
  assert (Eo : fdt_off_dt_struct m' fdt = fdt_off_dt_struct m fdt) by (apply Hh; vm_compute; left; split; congruence).
  assert (Es : fdt_size_dt_struct m' fdt = fdt_size_dt_struct m fdt) by (apply Hh; vm_compute; right; split; congruence).
  split; [|done]. apply (blob_header _ m m' fdt ts Hb Hs); rewrite ?Htot; [|exact Eo|exact Ev|exact Es| |lia|lia].
  - intros x Hx. lia.
  - unfold fdt_ro_probe_. rewrite Hmag, Htot, Ev, Hv, Hlast.
    change (FDT_MAGIC =? FDT_MAGIC) with true. change (FDT_LAST_SUPPORTED_VERSION <? FDT_FIRST_SUPPORTED_VERSION) with false. cbv iota.
    unfold INT32_MAX. destruct (Z.ltb_spec (new + n) (2 ^ 31 - 1)); lia.
Qed.

Lemma fdt_finish_run fuel bufsize off flags m ts strs :
  sw_ok fdt bufsize off flags m ts strs -> TEnd ∉ ts -> off + size ts + 4 + Z.of_nat (length strs) <= bufsize ->
  (Z.to_nat bufsize <= fuel)%nat ->
  let n := Z.of_nat (length strs) in
  exists m', fdt_finish fdt fuel m = Some (0, m') /\ blob_ok m' fdt ((finish_token n <$> ts) ++ [TEnd]) /\
    (forall k name, in_table strs k name -> string_entry m' fdt (n - k) name) /\
    fdt_totalsize m' fdt = off + size ts + 4 + n /\ same_outside (in_buf fdt bufsize) m m'.
Proof.
  intros Hok Hend Hroom Hfuel n. pose proof (so_fdt _ _ _ _ _ _ _ Hok) as (? & ? & ?). pose proof (size_nonneg ts).
  destruct (simple_token_run fdt bufsize off flags m ts strs TEnd Hok) as [Hok1 Hs1]; try done.
  set (m1 := st32 _ _ _) in *.
  assert (Hne : ts ++ [TEnd] <> []) by (by destruct ts).
  destruct (finish_strings bufsize off flags m1 _ strs Hok1 Hne) as (Hb2 & Hstr2 & Hh2 & Hoff2 & Hs2).
  rewrite size_snoc in *. cbn [token_size] in *. set (new := off + (size ts + 4)) in *.
  set (m2 := fdt_set_off_dt_strings fdt new _) in *.
  assert (Eo : fdt_off_dt_struct m2 fdt = off).
  { rewrite <- (so_off_struct _ _ _ _ _ _ _ Hok1). apply Hh2. vm_compute. left; split; congruence. }
  assert (En : fdt_size_dt_strings m2 fdt = n).
  { unfold n. rewrite <- (so_size_strings _ _ _ _ _ _ _ Hok1). apply Hh2. vm_compute. right; split; congruence. }
  assert (Et : fdt_totalsize m2 fdt = bufsize).
  { rewrite <- (so_total _ _ _ _ _ _ _ Hok1). apply Hh2. vm_compute. left; split; congruence. }
  assert (Ev : fdt_version m2 fdt = FDT_LAST_SUPPORTED_VERSION).
  { rewrite <- (so_version _ _ _ _ _ _ _ Hok1). apply Hh2. vm_compute. right; split; congruence. }
  pose proof (size_bound ts).
  destruct (finish_loop_run fuel fuel m2 [] ts) as (m3 & E3 & Hb3 & Hh3 & Hs3); [exact Hb2|lia|done|by rewrite Et| |].
  { pose proof (so_room _ _ _ _ _ _ _ Hok). lia. }
  rewrite En in Hb3. cbn [app] in Hb3, Hs3, E3. rewrite Eo in Hs3.
  assert (Esz : size ((finish_token n <$> ts) ++ [TEnd]) = size ts + 4).
  { rewrite size_snoc. f_equal. clear. induction ts as [|t ts IH]; [done|]. rewrite fmap_cons. cbn [size].
    by rewrite finish_token_size, IH. }
  assert (Eo3 : fdt_off_dt_struct m3 fdt = off) by (rewrite <- Eo; apply Hh3; vm_compute; split; congruence).
  destruct (finish_header bufsize m3 _ new n Hb3) as (Hb4 & Hmag4 & Htot4 & Hh4 & Hs4); rewrite ?Eo3, ?Esz; try lia.
  { rewrite <- Ev. apply Hh3. vm_compute. split; congruence. }
  set (m4 := fdt_set_magic fdt FDT_MAGIC _) in *. exists m4. split; [|split; [exact Hb4|split; [|split]]].
  - unfold fdt_finish. rewrite reads_run, (sw_probe fdt bufsize off flags m ts strs Hok). cbn [truthy Z.eqb negb].
    rewrite (grab_bind fdt bufsize off flags m ts strs 4 _ Hok) by lia.
    unfold NULL. destruct (Z.eqb_spec (fdt + off + size ts) 0); [lia|]. rewrite writes_run, !reads_run.
    change (st32 (fdt_set_size_dt_struct fdt (size ts + 4) m) (fdt + off + size ts) (cpu_to_fdt32 FDT_END)) with m1.
    rewrite (so_total _ _ _ _ _ _ _ Hok1), (so_size_strings _ _ _ _ _ _ _ Hok1), (so_off_struct _ _ _ _ _ _ _ Hok1),
      (so_size_struct _ _ _ _ _ _ _ Hok1), size_snoc. cbn [token_size]. fold n new.
    rewrite (s32_id (bufsize - n)), (s32_id new) by (unfold new, n in *; lia). rewrite !writes_run.
    unfold n. rewrite Nat2Z.id. fold n. fold m2. rewrite (W_bind_run _ _ _ _ _ E3). cbn [size] in *.
    destruct (Z.ltb_spec (size ts + 4) 0); [lia|]. rewrite reads_run.
    assert (En3 : fdt_size_dt_strings m3 fdt = n) by (rewrite <- En; apply Hh3; vm_compute; split; congruence).
    rewrite En3, !writes_run. reflexivity.
  - intros k name Hk. pose proof (in_table_range _ _ _ Hk) as Hkr.
    assert (Eos : fdt_off_dt_strings m4 fdt = new).
    { rewrite <- Hoff2. transitivity (fdt_off_dt_strings m3 fdt); [apply Hh4; vm_compute; left; split; congruence|].
      apply Hh3. vm_compute. split; congruence. }
    assert (Ess : fdt_size_dt_strings m4 fdt = n).
    { rewrite <- En. transitivity (fdt_size_dt_strings m3 fdt); [apply Hh4; vm_compute; right; split; congruence|].
      apply Hh3. vm_compute. split; congruence. }
    split; rewrite ?Eos, ?Ess, ?Htot4; [done|unfold n in *; lia|lia|lia|]. apply table_string; [done|].
    apply (block_same_outside _ _ _ _ _ Hs4); [unfold within, new, n in *; intros x Hx; lia|].
    apply (block_same_outside _ _ _ _ _ Hs3); [unfold within, new, n in *; intros x Hx; lia|]. exact Hstr2.
  - rewrite Htot4. unfold new. lia.
  - eapply same_outside_trans; [exact Hs1|]. eapply same_outside_trans; [exact Hs2|].
    eapply same_outside_trans; eapply same_outside_mono; [|exact Hs3| |exact Hs4]; unfold in_buf, n in *; intros x Hx; lia.
Qed.
End Finish.

(** ** A tree and the calls that write it

    A tree by values: the properties have names instead of offsets. *)
Inductive vtree := VNode (name : list Z) (props : list (list Z * list Z)) (children : list vtree).
Inductive item := IBegin (name : list Z) | IProp (name data : list Z) | IEnd.

Definition prop_item (p : list Z * list Z) : item := IProp (fst p) (snd p).
Fixpoint items (v : vtree) : list item :=
  let '(VNode name props children) := v in
  IBegin name :: map prop_item props ++ flat_map items children ++ [IEnd].

(** The space in the structure and for the strings, if no string is found again. *)
Definition item_size (i : item) : Z :=
  match i with
  | IBegin name => token_size (TBegin name)
  | IProp name data => token_size (TProp 0 data) + Z.of_nat (length name) + 1
  | IEnd => 4
  end.
Fixpoint items_size (l : list item) : Z := match l with [] => 0 | i :: l => item_size i + items_size l end.

(** The calls of a client, which stops at the first error. *)
Inductive sw_call := CBegin (name : Z) | CProp (name val len : Z) | CEnd.
Definition run_call (fdt : Z) (fuel : nat) (c : sw_call) : W Z :=
  match c with
  | CBegin name => fdt_begin_node fdt fuel name
  | CProp name val len => fdt_property fdt fuel name val len
  | CEnd => fdt_end_node fdt
  end.
Fixpoint run_calls (fdt : Z) (fuel : nat) (cs : list sw_call) : W Z :=
  match cs with
  | [] => mret 0
  | c :: cs => err ← run_call fdt fuel c; if truthy err then mret err else run_calls fdt fuel cs
  end.
Definition write_blob (fuel : nat) (buf bufsize : Z) (cs : list sw_call) : W Z :=
  err ← fdt_create buf bufsize;
  if truthy err then mret err
  else
    err ← fdt_finish_reservemap buf;
    if truthy err then mret err
    else
      err ← run_calls buf fuel cs;
      if truthy err then mret err else fdt_finish buf fuel.

Section Calls.
Context (fdt bufsize : Z) (fuel : nat).

(** The strings and values that a call names are in memory, outside the buffer. *)
Definition call_holds (m : memory) (c : sw_call) (i : item) : Prop :=
  match c, i with
  | CBegin p, IBegin name =>
      cstr m p name /\ (length name <= fuel)%nat /\ Forall (fun c => 0 < c < 256) name /\ off_buf fdt bufsize p (S (length name))
  | CProp p v len, IProp name data =>
      cstr m p name /\ (length name <= fuel)%nat /\ off_buf fdt bufsize p (S (length name)) /\
      block m v data /\ off_buf fdt bufsize v (length data) /\ len = Z.of_nat (length data) /\
      Z.of_nat (length data) < 2 ^ 31 /\ Forall (fun c => 0 <= c < 256) data
  | CEnd, IEnd => True
  | _, _ => False
  end.

Lemma call_holds_frame m m' c i : same_outside (in_buf fdt bufsize) m m' -> call_holds m c i -> call_holds m' c i.
Proof.
  intros Hs. destruct c, i; simpl; try done.
  - intros (Hc & H1 & H2 & H3). split_and!; try done. apply (cstr_same_outside _ _ _ _ _ Hs); [|done].
    unfold off_buf, in_buf, within in *. intros x Hx. lia.
  - intros (Hc & H1 & H2 & Hb & H3 & H4 & H5 & H6). split_and!; try done.
    + apply (cstr_same_outside _ _ _ _ _ Hs); [|done]. unfold off_buf, in_buf, within in *. intros x Hx. lia.
    + apply (block_same_outside _ _ _ _ _ Hs); [|done]. unfold off_buf, in_buf, within in *. intros x Hx. lia.
Qed.

(** A token that is written for an item. *)
Definition tok_item (strs : list Z) (t : token) (i : item) : Prop :=
  match t, i with
  | TBegin name, IBegin name' => name = name'
  | TProp no data, IProp name data' => data = data' /\ exists k, no = 2 ^ 32 - k /\ in_table strs k name
  | TEndNode, IEnd => True
  | _, _ => False
  end.
Lemma tok_item_app strs l t i : tok_item strs t i -> tok_item (l ++ strs) t i.
Proof. destruct t, i; simpl; try done. intros (-> & k & -> & Hk). split; [done|]. exists k. split; [done|by apply in_table_app]. Qed.

Lemma run_call_run off flags m ts strs c i :
  sw_ok fdt bufsize off flags m ts strs -> call_holds m c i ->
  off + size ts + Z.of_nat (length strs) + item_size i <= bufsize ->
  exists m' t l, run_call fdt fuel c m = Some (0, m') /\ tok_item (l ++ strs) t i /\
    size ts + token_size t + Z.of_nat (length (l ++ strs)) <= size ts + Z.of_nat (length strs) + item_size i /\
    sw_ok fdt bufsize off flags m' (ts ++ [t]) (l ++ strs) /\ same_outside (in_buf fdt bufsize) m m'.
Proof.
  intros Hok Hc Hroom. destruct c as [p|p v len|], i as [name|name data|]; try done; cbn [run_call item_size] in *.
  - destruct Hc as (H1 & H2 & H3 & H4).
    destruct (fdt_begin_node_run fdt bufsize off flags fuel m ts strs name p) as (m' & E & Hok' & Hs'); try done; [lia|].
    exists m', (TBegin name), []. cbn [app tok_item]. split_and!; try done. lia.
  - destruct Hc as (H1 & H2 & H3 & H4 & H5 & -> & H6 & H7).
    destruct (fdt_property_run fdt bufsize off flags fuel m ts strs name p data v)
      as (m' & strs' & k & E & Hk & (l & -> & Hl) & Hok' & Hs'); try done; [lia|].
    exists m', (TProp (2 ^ 32 - k) data), l. split; [done|]. split; [split; [done|by exists k]|]. split; [|by split].
    rewrite length_app. cbn [token_size] in *. lia.
  - destruct (fdt_end_node_run fdt bufsize off flags m ts strs) as (m' & E & Hok' & Hs'); [done|lia|].
    exists m', TEndNode, []. cbn [app tok_item token_size]. split_and!; try done. lia.
Qed.

Lemma run_calls_run off flags cs its m ts strs :
  sw_ok fdt bufsize off flags m ts strs -> Forall2 (call_holds m) cs its ->
  off + size ts + Z.of_nat (length strs) + items_size its <= bufsize ->
  exists m' ts' l, run_calls fdt fuel cs m = Some (0, m') /\ Forall2 (tok_item (l ++ strs)) ts' its /\
    size (ts ++ ts') + Z.of_nat (length (l ++ strs)) <= size ts + Z.of_nat (length strs) + items_size its /\
    sw_ok fdt bufsize off flags m' (ts ++ ts') (l ++ strs) /\ same_outside (in_buf fdt bufsize) m m'.
Proof.
  revert its m ts strs. induction cs as [|c cs IH]; intros its m ts strs Hok Hf Hroom.
  - apply Forall2_nil_inv_l in Hf as ->. exists m, [], []. cbn [app items_size run_calls]. rewrite app_nil_r.
    split_and!; try done. lia.
  - apply Forall2_cons_inv_l in Hf as (i & its' & Hc & Hf & ->). cbn [items_size] in Hroom.
    assert (Hi : forall i, 0 <= item_size i).
    { intros j. destruct j as [n|n d|]; cbn [item_size]; [pose proof (token_size_pos (TBegin n))|pose proof (token_size_pos (TProp 0 d))|]; lia. }
    assert (His : forall l, 0 <= items_size l) by (induction l as [|j l IHl]; cbn [items_size]; [lia|specialize (Hi j); lia]).
    destruct (run_call_run off flags m ts strs c i Hok Hc) as (m1 & t & l1 & E1 & Ht & Hsz & Hok1 & Hs1).
    { specialize (His its'). lia. }
    destruct (IH its' m1 (ts ++ [t]) (l1 ++ strs) Hok1) as (m2 & ts2 & l2 & E2 & Ht2 & Hsz2 & Hok2 & Hs2).
    { eapply Forall2_impl; [exact Hf|]. intros c' i'. by apply call_holds_frame. }
    { rewrite size_snoc. lia. }
    exists m2, (t :: ts2), (l2 ++ l1). rewrite <- app_assoc in Hsz2, Hok2. cbn [app] in Hsz2, Hok2. rewrite <- app_assoc.
    split_and!.
    + cbn [run_calls]. rewrite (W_bind_run _ _ _ _ _ E1). cbn [truthy Z.eqb negb]. exact E2.
    + apply Forall2_cons. split; [by apply tok_item_app|done].
    + rewrite size_snoc in Hsz2. cbn [items_size]. lia.
    + exact Hok2.
    + by eapply same_outside_trans.
Qed.
End Calls.

(** ** The beginning *)
Lemma fdt_create_run buf bufsize m :
  0 < buf -> 64 <= bufsize -> bufsize + 3 < 2 ^ 31 ->
  exists m', fdt_create buf bufsize m = Some (0, m') /\
    fdt_magic m' buf = FDT_SW_MAGIC /\ fdt_version m' buf = FDT_LAST_SUPPORTED_VERSION /\ fdt_last_comp_version m' buf = 0 /\
    fdt_totalsize m' buf = bufsize /\ fdt_off_dt_struct m' buf = 48 /\ fdt_off_dt_strings m' buf = 0 /\
    fdt_size_dt_struct m' buf = 0 /\ fdt_size_dt_strings m' buf = 0 /\
    (forall x, buf + 40 <= x < buf + bufsize -> rd m' x = 0) /\ same_outside (in_buf buf bufsize) m m'.
Proof.
  intros Hb Hsz Hmax. set (m0 := memset m buf 0 (count bufsize)).
  assert (Hcount : Z.of_nat (count bufsize) = bufsize) by (unfold count; rewrite u64_id by lia; lia).
  assert (Hz : forall f, 0 <= f <= 36 -> fdt_get_header m0 buf f = 0).
  { intros f Hf. unfold fdt_get_header. unfold m0. by rewrite load_memset_zero by lia. }
  set (h1 := fdt_set_magic buf FDT_SW_MAGIC m0). set (h2 := fdt_set_version buf FDT_LAST_SUPPORTED_VERSION h1).
  set (h3 := fdt_set_last_comp_version buf 0 h2). set (h4 := fdt_set_totalsize buf bufsize h3).
  set (h5 := fdt_set_off_mem_rsvmap buf 48 h4). set (h6 := fdt_set_off_dt_struct buf 48 h5).
  set (h7 := fdt_set_off_dt_strings buf 0 h6).
  assert (Hs : same_outside (fun x => buf <= x < buf + 40) m0 h7).
  { do 7 (apply same_outside_store; [unfold within, header_magic, header_version, header_last_comp_version, header_totalsize,
      header_off_mem_rsvmap, header_off_dt_struct, header_off_dt_strings; intros x Hx; lia|]). done. }
  exists h7. split.
  - unfold fdt_create, fdt_create_with_flags. change (FDT_ALIGN FDT_HEADER_SIZEOF RESERVE_ENTRY_SIZEOF) with 48.
    destruct (Z.ltb_spec bufsize 48); [lia|]. rewrite Z.land_0_l. cbn [truthy Z.eqb negb]. rewrite !writes_run, reads_run.
    fold m0 h1 h2 h3 h4 h5. assert (E : fdt_off_mem_rsvmap h5 buf = 48) by (unfold h5; header_eval).
    rewrite E, !writes_run. reflexivity.
  - unfold h7, h6, h5, h4, h3, h2, h1. do 6 (split; [header_eval|]).
    do 2 (split; [header_skip; apply Hz; vm_compute; split; congruence|]). fold h1 h2 h3 h4 h5 h6 h7. split.
    + intros x Hx. rewrite <- (Hs x) by lia. unfold m0. rewrite rd_memset_zero, decide_True; [done|]. unfold within. lia.
    + eapply same_outside_trans; [eapply same_outside_mono; [|apply (memset_same_outside m buf 0 (count bufsize))]|].
      * unfold in_buf, within. intros x Hx. lia.
      * fold m0. eapply same_outside_mono; [|exact Hs]. unfold in_buf. intros x Hx. lia.
Qed.

(** The reserve map without entries: the structure begins at 64. *)
Lemma fdt_start_run buf bufsize m :
  0 < buf -> 64 <= bufsize -> bufsize + 3 < 2 ^ 31 ->
  exists m1 m2, fdt_create buf bufsize m = Some (0, m1) /\ fdt_finish_reservemap buf m1 = Some (0, m2) /\
    sw_ok buf bufsize 64 0 m2 [] [] /\ same_outside (in_buf buf bufsize) m m2.
Proof.
  intros Hb Hsz Hmax.
  destruct (fdt_create_run buf bufsize m Hb Hsz Hmax) as (m1 & E1 & Hmag & Hver & Hfl & Htot & Hos & Hoss & Hss & Hsst & Hz & Hs1).
  set (a1 := st64 m1 (buf + 48) 0). set (a2 := st64 a1 (buf + 48 + 8) 0).
  set (a3 := fdt_set_off_dt_struct buf (48 + 16) a2). set (a4 := fdt_set_off_dt_strings buf bufsize a3).
  assert (Hs2 : same_outside (fun x => buf + 48 <= x < buf + 64) m1 a2).
  { do 2 (apply same_outside_store; [unfold within; intros x Hx; lia|]). done. }
  assert (Hh2 : forall f, 0 <= f <= 36 -> fdt_get_header a2 buf f = fdt_get_header m1 buf f).
  { intros f Hf. apply (header_same_outside _ _ _ _ _ Hs2). unfold within. intros x Hx. lia. }
  assert (Hs4 : same_outside (fun x => buf <= x < buf + 40) a2 a4).
  { do 2 (apply same_outside_store; [unfold within, header_off_dt_struct, header_off_dt_strings; intros x Hx; lia|]). done. }
  assert (Hh4 : forall f, 0 <= f <= 4 \/ 16 <= f <= 36 -> fdt_get_header a4 buf f = fdt_get_header m1 buf f).
  { intros f Hf. unfold a4, a3, fdt_set_off_dt_strings, fdt_set_off_dt_struct.
    rewrite !get_set_header_ne by (unfold header_off_dt_struct, header_off_dt_strings; lia). apply Hh2. lia. }
  assert (Et : fdt_totalsize a3 buf = bufsize).
  { rewrite <- Htot. unfold a3. header_skip. apply Hh2. vm_compute. split; congruence. }
  exists m1, a4. split; [exact E1|]. split; [|split].
  - unfold fdt_finish_reservemap, fdt_add_reservemap_entry.
    assert (Hp : fdt_sw_probe_memrsv_ buf m1 = 0).
    { unfold fdt_sw_probe_memrsv_, fdt_sw_probe_. rewrite Hmag, Hoss. reflexivity. }
    erewrite W_bind_run; cycle 1.
    { rewrite reads_run, Hp. cbn [truthy Z.eqb negb]. rewrite !reads_run, Hos, Htot.
      change (s32 48) with 48. change (u64 (48 + RESERVE_ENTRY_SIZEOF)) with 64. destruct (Z.ltb_spec bufsize 64); [lia|].
      rewrite !writes_run. reflexivity. }
    cbn [truthy Z.eqb negb]. rewrite reads_run. change (cpu_to_fdt64 0) with 0. unfold reserve_entry_address, reserve_entry_size, RESERVE_ENTRY_SIZEOF.
    fold a1 a2 a3. rewrite Et, writes_run. reflexivity.
  - split; try (unfold fdt_magic, fdt_version, fdt_last_comp_version, fdt_totalsize, fdt_size_dt_struct, fdt_size_dt_strings;
      rewrite Hh4 by (vm_compute; first [left; split; congruence|right; split; congruence])); try done.
    + unfold a4, a3. header_eval.
    + unfold a4. header_eval.
    + intros x Hx. cbn [size length] in Hx. rewrite <- (Hz x) by lia. symmetry. transitivity (rd a2 x); [apply Hs2|apply Hs4]; lia.
  - eapply same_outside_trans; [exact Hs1|]. eapply same_outside_trans; eapply same_outside_mono; [|exact Hs2| |exact Hs4];
      unfold in_buf; intros x Hx; lia.
Qed.

(** ** The tree that is read back *)
Definition vnode_name (v : vtree) : list Z := let '(VNode name _ _) := v in name.
Definition vnode_props (v : vtree) : list (list Z * list Z) := let '(VNode _ props _) := v in props.
Definition vnode_children (v : vtree) : list vtree := let '(VNode _ _ children) := v in children.

Fixpoint vfind_prop (want : list Z) (props : list (list Z * list Z)) : option (list Z) :=
  match props with
  | [] => None
  | (name, data) :: props => if bool_decide (name = want) then Some data else vfind_prop want props
  end.
Fixpoint vfind_in (want : list Z) (l : list vtree) : option vtree :=
  match l with
  | [] => None
  | v :: l => if name_matches (vnode_name v) want then Some v else vfind_in want l
  end.
Fixpoint vfind_path (path : list (list Z)) (v : vtree) : option vtree :=
  match path with
  | [] => Some v
  | want :: path => v ← vfind_in want (vnode_children v); vfind_path path v
  end.

(** The tree [t], whose properties have offsets of names, is [v]. *)
Section Represents.
Context (named_at : Z -> list Z -> Prop).

Definition same_prop (p : Z * list Z) (q : list Z * list Z) : Prop := snd p = snd q /\ named_at (fst p) (fst q).
Inductive represents : dtree -> vtree -> Prop :=
  | rep_node name props props' children children' :
      Forall2 same_prop props props' -> Forall2 represents children children' ->
      represents (DNode name props children) (VNode name props' children').

Definition final_item (t : token) (i : item) : Prop :=
  match t, i with
  | TBegin name, IBegin name' => name = name'
  | TProp no data, IProp name data' => data = data' /\ named_at no name
  | TEndNode, IEnd => True
  | _, _ => False
  end.

Lemma vtree_induction (P : vtree -> Prop) :
  (forall name props children, Forall P children -> P (VNode name props children)) -> forall v, P v.
Proof.
  intros H. fix IH 1. intros [name props children]. apply H. induction children as [|c l IHl]; constructor; [apply IH|exact IHl].
Qed.

Lemma props_tokens props ts :
  Forall2 final_item ts (map prop_item props) -> exists ps, ts = map prop_token ps /\ Forall2 same_prop ps props.
Proof.
  revert ts. induction props as [|[name data] props IH]; intros ts; cbn [map].
  - intros ->%Forall2_nil_inv_r. by exists [].
  - intros (t & ts' & Ht & Hf & ->)%Forall2_cons_inv_r. destruct t as [| |no data'| |]; try done.
    destruct Ht as [-> Hn]. destruct (IH ts' Hf) as (ps & -> & Hps). exists ((no, data) :: ps). split; [done|].
    by constructor.
Qed.

Lemma items_tokens v : forall ts, Forall2 final_item ts (items v) -> exists t, ts = tree_tokens t /\ represents t v.
Proof.
  induction v as [name props children IH] using vtree_induction. intros ts. cbn [items].
  intros (t & ts1 & Ht & Hf & ->)%Forall2_cons_inv_r. destruct t as [name'| | | |]; try done. cbn in Ht. subst name'.
  apply Forall2_app_inv_r in Hf as (tp & ts2 & Hp & Hf & ->). apply Forall2_app_inv_r in Hf as (tc & te & Hc & He & ->).
  apply Forall2_cons_inv_r in He as (t & te' & Ht & ->%Forall2_nil_inv_r & ->). destruct t; try done.
  destruct (props_tokens props tp Hp) as (ps & -> & Hps).
  assert (Hch : exists l, tc = forest_tokens l /\ Forall2 represents l children).
  { clear Hps Hp. revert tc Hc. induction children as [|c children IHc]; intros tc; cbn [flat_map].
    - intros ->%Forall2_nil_inv_r. by exists [].
    - intros (t1 & t2 & H1 & H2 & ->)%Forall2_app_inv_r. apply Forall_cons in IH as [IH1 IH2].
      destruct (IH1 t1 H1) as (t & -> & Hr). destruct (IHc IH2 t2 H2) as (l & -> & Hl).
      exists (t :: l). split; [by rewrite forest_tokens_cons|by constructor]. }
  destruct Hch as (l & -> & Hl). exists (DNode name ps l). split; [|by constructor].
  rewrite tree_tokens_eq. done.
Qed.

Lemma represents_in want l l' o :
  Forall2 represents l l' ->
  match find_in want o l with
  | Some (_, t) => exists v, vfind_in want l' = Some v /\ represents t v
  | None => vfind_in want l' = None
  end.
Proof.
  intros H. revert o. induction H as [|t v l l' Hr Hl IH]; intros o; [done|]. cbn [find_in vfind_in].
  assert (E : node_name t = vnode_name v) by by destruct Hr. rewrite E.
  destruct (name_matches _ _); [by exists v|]. apply IH.
Qed.
Lemma represents_path path t v o :
  represents t v ->
  match find_path path o t with
  | Some (_, t') => exists v', vfind_path path v = Some v' /\ represents t' v'
  | None => vfind_path path v = None
  end.
Proof.
  revert t v o. induction path as [|want path IH]; intros t v o Hr; cbn [find_path vfind_path]; [by exists v|].
  destruct Hr as [name props props' children children' Hp Hc].
  pose proof (represents_in want children children' (children_start o (DNode name props children)) Hc) as Hin.
  unfold find_child. cbn [node_children vnode_children]. destruct (find_in _ _ _) as [[o' t']|].
  - destruct Hin as (v' & -> & Hr'). cbn [mbind option_bind]. by apply IH.
  - by rewrite Hin.
Qed.

(** A function from offsets to names. *)
Hypothesis named_inj : forall no n1 n2, named_at no n1 -> named_at no n2 -> n1 = n2.

Lemma names_function ps qs :
  Forall2 same_prop ps qs -> exists strs : Z -> list Z, Forall2 (fun p q => strs (fst p) = fst q) ps qs.
Proof.
  induction 1 as [|p q ps qs [Hd Hn] Hf [strs IH]]; [by exists (fun _ => [])|].
  exists (fun no => if no =? fst p then fst q else strs no). constructor; [by rewrite Z.eqb_refl|].
  clear Hd. revert IH. induction Hf as [|p' q' ps qs [_ Hn'] Hf IHf]; intros IH; [constructor|].
  apply Forall2_cons in IH as [H1 H2]. constructor; [|by apply IHf].
  destruct (Z.eqb_spec (fst p') (fst p)) as [E|_]; [|done]. rewrite E in Hn'. by eapply named_inj.
Qed.

Lemma represents_prop ps qs strs want o :
  Forall2 same_prop ps qs -> Forall2 (fun p q => strs (fst p) = fst q) ps qs ->
  snd <$> find_prop strs want o ps = vfind_prop want qs.
Proof.
  intros Hf. revert o. induction Hf as [|p q ps qs [Hd _] Hf IH]; intros o Hs; [done|].
  apply Forall2_cons in Hs as [H1 H2]. destruct q as [n d]. cbn [find_prop vfind_prop fst snd] in *. rewrite H1, Hd.
  case_bool_decide; [done|]. by apply IH.
Qed.
End Represents.

Lemma string_entry_inj m fdt no n1 n2 : string_entry m fdt no n1 -> string_entry m fdt no n2 -> n1 = n2.
Proof.
  intros H1 H2. apply se_string in H1, H2. set (fuel := (length n1 + length n2)%nat).
  pose proof (strlen_cstr fuel _ _ _ H1 ltac:(lia)) as L1. pose proof (strlen_cstr fuel _ _ _ H2 ltac:(lia)) as L2.
  assert (E : length n1 = length n2) by (rewrite L1 in L2; injection L2; lia).
  apply cstr_bytes in H1, H2. rewrite E in H1. congruence.
Qed.

Lemma items_no_end m fdt bufsize fuel cs its : Forall2 (call_holds fdt bufsize fuel m) cs its ->
  forall strs ts, Forall2 (tok_item strs) ts its -> TEnd ∉ ts.
Proof.
  intros _ strs ts Hf Hin. apply list_elem_of_lookup_1 in Hin as [i Hi].
  destruct (Forall2_lookup_l _ _ _ _ _ Hf Hi) as (it & _ & Ht). by destruct it.
Qed.

Lemma tokens_final m fdt n strs ts its :
  (forall k name, in_table strs k name -> string_entry m fdt (n - k) name) -> n = Z.of_nat (length strs) ->
  n < 2 ^ 31 -> Forall2 (tok_item strs) ts its ->
  Forall2 (final_item (string_entry m fdt)) (finish_token n <$> ts) its.
Proof.
  intros Hs Hn Hmax Hf. apply Forall2_fmap_l. eapply Forall2_impl; [exact Hf|]. intros t i.
  destruct t as [| |no data| |], i as [|nm data'|]; try done. cbn [tok_item finish_token final_item].
  intros (-> & k & -> & Hk). split; [done|]. pose proof (in_table_range _ _ _ Hk).
  replace (u32 (2 ^ 32 - k + n)) with (n - k) by word_lia. by apply Hs.
Qed.

(** The blob that the calls write. *)
Lemma write_blob_run fuel buf bufsize m cs v :
  0 < buf -> bufsize + 3 < 2 ^ 31 -> (Z.to_nat bufsize <= fuel)%nat ->
  Forall2 (call_holds buf bufsize fuel m) cs (items v) -> 64 + items_size (items v) + 4 <= bufsize ->
  exists m' root, write_blob fuel buf bufsize cs m = Some (0, m') /\ encodes m' buf root /\
    represents (string_entry m' buf) root v /\ fdt_totalsize m' buf <= bufsize /\ same_outside (in_buf buf bufsize) m m'.
Proof.
  intros Hb Hmax Hfuel Hcs Hroom.
  assert (Hi : 0 <= items_size (items v)).
  { generalize (items v). intros l. induction l as [|j l IHl]; cbn [items_size]; [lia|].
    destruct j as [n|n d|]; cbn [item_size]; [pose proof (token_size_pos (TBegin n))|pose proof (token_size_pos (TProp 0 d))|]; lia. }
  destruct (fdt_start_run buf bufsize m Hb ltac:(lia) Hmax) as (m1 & m2 & E1 & E2 & Hok2 & Hs2).
  destruct (run_calls_run buf bufsize fuel 64 0 cs (items v) m2 [] [] Hok2) as (m3 & ts & strs & E3 & Ht & Hsz & Hok3 & Hs3).
  { eapply Forall2_impl; [exact Hcs|]. intros c i. by apply call_holds_frame. }
  { simpl. lia. }
  cbn [app] in *. rewrite app_nil_r in *. cbn [size length] in Hsz.
  destruct (fdt_finish_run buf fuel bufsize 64 0 m3 ts strs Hok3) as (m4 & E4 & Hb4 & Hse4 & Ht4 & Hs4).
  { by eapply items_no_end. }
  { lia. }
  { done. }
  assert (Hfin : Forall2 (final_item (string_entry m4 buf)) (finish_token (Z.of_nat (length strs)) <$> ts) (items v)).
  { eapply tokens_final; [exact Hse4|done| |done]. pose proof (size_nonneg ts). lia. }
  destruct (items_tokens _ v _ Hfin) as (root & Eroot & Hrep). rewrite Eroot in Hb4.
  exists m4, root. split; [|split; [exact Hb4|split; [exact Hrep|split; [lia|]]]].
  - unfold write_blob. rewrite (W_bind_run _ _ _ _ _ E1). cbn [truthy Z.eqb negb].
    rewrite (W_bind_run _ _ _ _ _ E2). cbn [truthy Z.eqb negb]. rewrite (W_bind_run _ _ _ _ _ E3). exact E4.
  - eapply same_outside_trans; [exact Hs2|]. by eapply same_outside_trans.
Qed.

(** ** Reading by values

    A path, and a name, that a client passes. *)
Record path_at (m : memory) (fuel : nat) (p : Z) (path : list (list Z)) : Prop := {
  pa_components : Forall component path;
  pa_pos : 0 < p;
  pa_string : cstr m p (if decide (path = []) then [47] else path_string path);
  pa_length : Z.of_nat (length (path_string path)) < 2 ^ 31 /\ (length (path_string path) < fuel)%nat;
}.
Record name_at (m : memory) (fuel : nat) (s : Z) (want : list Z) : Prop := {
  na_pos : 0 < s;
  na_string : cstr m s want;
  na_length : Z.of_nat (length want) + 1 < 2 ^ 31 /\ (length want <= fuel)%nat;
}.

(** The blob reads as the tree: [fdt_path_offset] finds exactly its nodes and
    [fdt_getprop] gives the first property with the name. *)
Definition reads_as `{Symbols} (m : memory) (fdt : Z) (fuel : nat) (v : vtree) : Prop :=
  forall path p want s, path_at m fuel p path -> name_at m fuel s want ->
    match vfind_path path v with
    | None => fdt_path_offset m fdt fuel p = Some (- FDT_ERR_NOTFOUND)
    | Some v' => exists o, fdt_path_offset m fdt fuel p = Some o /\
        match vfind_prop want (vnode_props v') with
        | Some data => exists a,
            fdt_getprop m fdt fuel o s = Some (a, Z.of_nat (length data)) /\ a <> NULL /\ block m a data
        | None => fdt_getprop m fdt fuel o s = Some (NULL, - FDT_ERR_NOTFOUND)
        end
    end.

Lemma represented_reads `{Symbols} m fdt fuel root v :
  encodes m fdt root -> (Z.to_nat (fdt_totalsize m fdt) <= fuel)%nat -> represents (string_entry m fdt) root v ->
  reads_as m fdt fuel v.
Proof.
  intros He Hf Hrep path p want s [Hp Hp0 Hpc [Hpl Hpf]] [Hs0 Hsc [Hsl Hsf]].
  rewrite (fdt_path_offset_run m fdt _ He fuel Hf root path p (root_at m fdt root He) Hp Hp0 Hpc Hpl Hpf).
  pose proof (represents_path _ path root v 0 Hrep) as Hpath.
  destruct (find_path path 0 root) as [[o t]|] eqn:Ef; [|by rewrite Hpath].
  destruct Hpath as (v' & -> & Hrep'). exists o. split; [done|].
  pose proof (find_path_at m fdt root He path 0 root o t (root_at m fdt root He) Ef) as Ht.
  destruct Hrep' as [name props props' children children' Hprops _].
  destruct (names_function _ (fun no n1 n2 => string_entry_inj m fdt no n1 n2) props props' Hprops) as [strs Hstrs].
  assert (Hnamed : named m fdt strs (DNode name props children)).
  { unfold named. cbn [node_props]. apply Forall_lookup. intros i q Hi.
    destruct (Forall2_lookup_l _ _ _ _ _ Hprops Hi) as (q' & Hq' & [_ Hn]).
    pose proof (Forall2_lookup_lr _ _ _ _ _ _ Hstrs Hi Hq') as ->. exact Hn. }
  pose proof (fdt_getprop_node m fdt root fuel strs o _ s want He Hf Ht Hnamed Hs0 Hsc ltac:(lia) Hsf) as Hg.
  cbn [vnode_props node_props] in *.
  rewrite <- (represents_prop _ props props' strs want (props_start o (DNode name props children)) Hprops Hstrs).
  destruct (find_prop _ _ _ _) as [[o' data]|]; [|exact Hg]. destruct Hg as (Hg & Hne & Hd & _). cbn [fmap option_fmap option_map snd]. eauto.
Qed.

(** (C10) A tree that is written with the calls of fdt_sw.c, in order between [fdt_create]
    and [fdt_finish], into a buffer that is large enough, is the tree that is read:
    no call fails, nothing outside the buffer changes, [fdt_path_offset] finds exactly
    the nodes of the tree, and at each of them [fdt_getprop] gives the bytes of the
    first property with the name, or [-FDT_ERR_NOTFOUND]. *)
Theorem fdt_sw_correct `{Symbols} fuel buf bufsize m cs v :
  0 < buf -> bufsize + 3 < 2 ^ 31 -> (Z.to_nat bufsize <= fuel)%nat ->
  Forall2 (call_holds buf bufsize fuel m) cs (items v) -> 64 + items_size (items v) + 4 <= bufsize ->
  exists m', write_blob fuel buf bufsize cs m = Some (0, m') /\ same_outside (in_buf buf bufsize) m m' /\
    reads_as m' buf fuel v.
Proof.
  intros Hb Hmax Hfuel Hcs Hroom.
  destruct (write_blob_run fuel buf bufsize m cs v Hb Hmax Hfuel Hcs Hroom) as (m' & root & E & He & Hrep & Htot & Hs).
  exists m'. split; [exact E|]. split; [exact Hs|]. apply (represented_reads m' buf fuel root); [done|lia|done].
Qed.

(** ** Witness: a root with a model, and [/cpus/cpu@1] with two properties *)
Definition demo_vtree : vtree :=
  VNode [] [(str "model", [109; 120; 0])] [
    VNode (str "cpus") [] [VNode (str "cpu@1") [(str "reg", be_bytes 256); (str "model", [97; 0])] []]].
(** The strings and values, 16 bytes each from [0x8000] on. *)
Definition demo_sources : list (list Z) :=
  [[0]; str "model" ++ [0]; [109; 120; 0]; str "cpus" ++ [0]; str "cpu@1" ++ [0]; str "reg" ++ [0]; be_bytes 256; [97; 0];
   str "/cpus/cpu@1" ++ [0]].
Definition demo_source (i : Z) : Z := 0x8000 + 16 * i.
Definition demo_sw_memory : memory :=
  snd (foldl (fun '(a, m) l => (a + 16, wr_list m a l)) (0x8000, ∅) demo_sources).
Definition demo_calls : list sw_call :=
  [CBegin (demo_source 0); CProp (demo_source 1) (demo_source 2) 3; CBegin (demo_source 3); CBegin (demo_source 4);
   CProp (demo_source 5) (demo_source 6) 4; CProp (demo_source 1) (demo_source 7) 2; CEnd; CEnd; CEnd].

Lemma demo_calls_hold : Forall2 (call_holds 0x1000 0x100 0x100 demo_sw_memory) demo_calls (items demo_vtree).
Proof.
  assert (Hc : forall a l, bytes_at (length (l ++ [0])) demo_sw_memory a = l ++ [0] -> Forall (fun c => c <> 0) l ->
    cstr demo_sw_memory a l).
  { intros a l E Hl. split; [by apply block_check|done]. }
  assert (Hr : forall P l, forallb (fun c => bool_decide (0 < c < 256)) l = true -> (forall c, 0 < c < 256 -> P c) -> Forall P l).
  { intros P l H HP. rewrite forallb_forall in H. apply Forall_forall. intros c Hin%list_elem_of_In. apply HP.
    by apply (bool_decide_eq_true_1 _ (H c Hin)). }
  repeat apply Forall2_cons_2; [..|by apply Forall2_nil_2]; cbn [call_holds]; try done; split_and!;
    try (apply Hc; [vm_compute; reflexivity|apply Hr; [vm_compute; reflexivity|lia]]);
    try (apply Hr; [vm_compute; reflexivity|lia]); try (apply block_check; vm_compute; reflexivity);
    try (right; vm_compute; congruence); try (vm_compute; lia); try (vm_compute; reflexivity); repeat constructor; done.
Qed.

Lemma fdt_sw_correct_witness :
  exists m', write_blob 0x100 0x1000 0x100 demo_calls demo_sw_memory = Some (0, m') /\
    exists o a, fdt_path_offset (H := demo_symbols) m' 0x1000 0x100 (demo_source 8) = Some o /\
      fdt_getprop m' 0x1000 0x100 o (demo_source 5) = Some (a, 4) /\ bytes_at 4 m' a = be_bytes 256.
Proof.
  destruct (fdt_sw_correct (H := demo_symbols) 0x100 0x1000 0x100 demo_sw_memory demo_calls demo_vtree)
    as (m' & E & Hs & Hread).
  - lia.
  - vm_compute. reflexivity.
  - vm_compute. lia.
  - exact demo_calls_hold.
  - vm_compute. congruence.
  - exists m'. split; [exact E|].
    assert (Hc : forall a l, 0x8000 <= a -> bytes_at (length (l ++ [0])) demo_sw_memory a = l ++ [0] ->
      Forall (fun c => c <> 0) l -> cstr m' a l).
    { intros a l Ha Eb Hl. apply (cstr_same_outside _ demo_sw_memory _ _ _ Hs); [unfold in_buf, within; lia|].
      split; [by apply block_check|done]. }
    destruct (Hread [str "cpus"; str "cpu@1"] (demo_source 8) (str "reg") (demo_source 5)) as (o & Eo & Hg).
    + split.
      * repeat apply Forall_cons_2; [..|by apply Forall_nil_2]; (split; [discriminate|split]);
          apply (bool_decide_unpack _); vm_compute; exact I.
      * vm_compute. reflexivity.
      * apply Hc; [vm_compute; congruence|vm_compute; reflexivity|repeat constructor; done].
      * split; [vm_compute; reflexivity|vm_compute; lia].
    + split.
      * vm_compute. reflexivity.
      * apply Hc; [vm_compute; congruence|vm_compute; reflexivity|repeat constructor; done].
      * split; [vm_compute; reflexivity|vm_compute; lia].
    + destruct Hg as (a & Ea & _ & Hb). exists o, a. split; [exact Eo|]. split; [exact Ea|].
      exact (block_bytes_at m' a (be_bytes 256) Hb).
Defined.
