(* ===== verification/FdtRwSpec.v ===== *)
(** * FdtRwSpec: changing an encoded tree

    The functions of fdt_rw.c on a blob that encodes a tree: nodes and properties are
    deleted, added and set as the operations on trees say, and nothing else changes.
    [gap_ok] is a structure block with a gap, which [fdt_splice_struct_] opens, closes
    and moves; the padding of what is written may have any contents. *)
From Stdlib Require Import ZArith Lia.
From stdpp Require Import prelude gmap list strings.
From S2P Require Import Prelude Memory TString Kernel Fdt FdtTokens FdtMonad FdtEdit FdtRo FdtSw FdtRw FdtTree FdtSpec FdtSwSpec.
Open Scope Z_scope.

(** ** The end of a node

    The offset behind the end of the node that the tokens are in, at the depth [d]. *)
Fixpoint end_walk (l : list token) (o d : Z) : Z :=
  match l with
  | [] => - FDT_ERR_NOTFOUND
  | t :: l =>
      let o' := o + token_size t in
      match t with
      | TBegin _ => end_walk l o' (d + 1)
      | TEndNode => if d - 1 <? 0 then o' else end_walk l o' (d - 1)
      | TEnd => - FDT_ERR_NOTFOUND
      | _ => end_walk l o' d
      end
  end.

Lemma scan_end l o d :
  0 <= d ->
  (exists d', scan l o (Some d) = (end_walk l o d, Some d') /\ (end_walk l o d < 0 \/ d' < 0)) \/
  (exists pre name l', l = pre ++ TBegin name :: l' /\ TEnd ∉ pre /\ exists d', 1 <= d' <= d + 1 /\
     scan l o (Some d) = (o + size pre, Some d') /\
     end_walk l o d = end_walk l' (o + size pre + token_size (TBegin name)) d').
Proof.
  revert o d. induction l as [|t l IH]; intros o d Hd; [left; exists d; split; [done|left; vm_compute; done]|].
  destruct (decide (t = TEnd)) as [->|Hend].
  { left. exists d. split; [done|left; vm_compute; done]. }
  destruct t as [name| |no data| |]; try done.
  { right. exists [], name, l. split; [done|]. split; [set_solver|]. exists (d + 1).
    cbn [size scan end_walk fmap option_fmap option_map]. rewrite Z.add_0_r. split; [lia|done]. }
  all: cbn [scan end_walk fmap option_fmap option_map].
  1: destruct (Z.ltb_spec (d - 1) 0); [left; exists (d - 1); split; [done|by right]|].
  all: match goal with |- context [scan ?l0 ?o' (Some ?d1)] =>
    destruct (IH o' d1 ltac:(lia)) as [Hl|(pre & name & l' & -> & Hpre & d' & Hd' & E & E')]; [by left|right];
    match goal with |- exists _ _ _, ?t0 :: _ = _ /\ _ => exists (t0 :: pre), name, l' end end;
    (split; [done|]); (split; [set_solver|]); exists d'; (split; [lia|]); cbn [size];
    rewrite Z.add_assoc, E, E'; done.
Qed.

Lemma end_walk_props props l o d :
  end_walk (map prop_token props ++ l) o d = end_walk l (o + size (map prop_token props)) d.
Proof.
  revert o. induction props as [|p props IH]; intros o; [simpl; f_equal; lia|].
  cbn [map app end_walk prop_token size]. rewrite IH. f_equal. cbn [prop_token]. lia.
Qed.
Lemma end_walk_tree t l o d : 0 <= d -> end_walk (tree_tokens t ++ l) o d = end_walk l (o + size (tree_tokens t)) d.
Proof.
  revert l o d. induction t as [name props children IH] using dtree_induction. intros l o d Hd.
  rewrite tree_tokens_eq. cbn [app end_walk]. rewrite <- !app_assoc, end_walk_props.
  assert (Hf : forall l o, end_walk (forest_tokens children ++ l) o (d + 1) = end_walk l (o + size (forest_tokens children)) (d + 1)).
  { clear l o. induction IH as [|t ts Ht _ IHl]; intros l o; [simpl; f_equal; lia|].
    rewrite forest_tokens_cons, <- app_assoc, Ht, IHl by lia. f_equal. rewrite size_app. lia. }
  rewrite Hf. cbn [app end_walk]. destruct (Z.ltb_spec (d + 1 - 1) 0); [lia|].
  replace (d + 1 - 1) with d by lia. f_equal. cbn [size]. rewrite !size_app. cbn [size]. lia.
Qed.
(** From behind the beginning of the node. *)
Lemma end_walk_node name props children l o :
  let t := DNode name props children in
  end_walk (map prop_token props ++ forest_tokens children ++ TEndNode :: l) (o + token_size (TBegin name)) 0 =
    o + size (tree_tokens t).
Proof.
  intros t. rewrite end_walk_props.
  assert (Hf : forall l o, end_walk (forest_tokens children ++ l) o 0 = end_walk l (o + size (forest_tokens children)) 0).
  { clear. induction children as [|t ts IH]; intros l o; [simpl; f_equal; lia|].
    rewrite forest_tokens_cons, <- app_assoc, end_walk_tree, IH by lia. f_equal. rewrite size_app. lia. }
  rewrite Hf. cbn [end_walk]. change (0 - 1 <? 0) with true. cbv iota.
  unfold t. rewrite tree_tokens_eq. cbn [size]. rewrite !size_app. cbn [size]. lia.
Qed.

Section NodeEnd.
Context (m : memory) (fdt : Z) (ts : list token).
Hypothesis Hb : blob_ok m fdt ts.
Context (fuel : nat).
Hypothesis Hfuel : (Z.to_nat (fdt_totalsize m fdt) <= fuel)%nat.

Lemma node_end_loop_walk n l1 name l2 d :
  ts = l1 ++ TBegin name :: l2 -> TEnd ∈ l2 -> (length l2 <= n)%nat -> depth_fits d (length l2) ->
  node_end_loop fdt m fuel n (size l1) d = Some (end_walk l2 (size (l1 ++ [TBegin name])) d).
Proof.
  revert l1 name l2 d. induction n as [|n IH]; intros l1 name l2 d E Hend Hn Hd.
  { destruct l2; [by apply elem_of_nil in Hend|simpl in Hn; lia]. }
  cbn [node_end_loop]. pose proof (size_nonneg l1). unfold depth_fits in Hd.
  destruct (Z.leb_spec 0 (size l1)), (Z.leb_spec 0 d); try lia. cbn [andb].
  rewrite (fdt_next_node_scan m fdt ts Hb fuel Hfuel l1 name l2 (Some d) E Hend Hd). cbn [mbind option_bind].
  destruct (scan_end l2 (size (l1 ++ [TBegin name])) d ltac:(lia))
    as [(d' & -> & Hr)|(pre & name' & l' & El & Hpre & d' & Hd' & -> & ->)].
  - change (default 0 (Some d')) with d'. destruct n; cbn [node_end_loop];
      (destruct (Z.leb_spec 0 (end_walk l2 (size (l1 ++ [TBegin name])) d)), (Z.leb_spec 0 d'); [lia|done..]).
  - change (default 0 (Some d')) with d'. rewrite <- size_app, <- size_snoc. subst l2.
    rewrite length_app in *. simpl length in *. apply IH; [by rewrite E, <- !app_assoc|set_solver|lia|unfold depth_fits; lia].
Qed.

Lemma fdt_node_end_offset_run l1 t l2 :
  ts = l1 ++ tree_tokens t ++ l2 -> TEnd ∈ l2 ->
  fdt_node_end_offset_ fdt fuel (size l1) m = Some (size l1 + size (tree_tokens t)).
Proof.
  intros E Hend. destruct t as [name props children].
  set (rest := map prop_token props ++ forest_tokens children ++ TEndNode :: l2).
  assert (E' : ts = l1 ++ TBegin name :: rest) by (rewrite E; unfold rest; by norm_tokens).
  unfold fdt_node_end_offset_. rewrite (node_end_loop_walk fuel l1 name rest 0 E'); [|set_solver| |].
  - unfold rest. by rewrite size_snoc, end_walk_node.
  - eapply (length_blob m fdt ts Hb fuel Hfuel (l1 ++ [TBegin name])). by rewrite <- app_assoc.
  - apply (tokens_fit m fdt ts Hb fuel Hfuel (l1 ++ [TBegin name])); [by rewrite <- app_assoc|lia].
Qed.
End NodeEnd.

(** ** The property of a name *)
Definition lacks (want : list Z) (qs : list (list Z * list Z)) : Prop := Forall (fun q => fst q <> want) qs.

Lemma find_prop_split (N : Z -> list Z -> Prop) (f : Z -> list Z) want o props qs :
  Forall2 (same_prop N) props qs -> Forall2 (fun p q => f (fst p) = fst q) props qs ->
  match find_prop f want o props with
  | Some (o', data) => exists p1 no p2 q1 q2, props = p1 ++ (no, data) :: p2 /\ qs = q1 ++ (want, data) :: q2 /\
      Forall2 (same_prop N) p1 q1 /\ Forall2 (same_prop N) p2 q2 /\ N no want /\ lacks want q1 /\
      o' = o + size (map prop_token p1)
  | None => lacks want qs
  end.
Proof.
  intros Hq. revert o. induction Hq as [|[no d] [name d'] props qs [Hd Hn] Hq IH]; intros o Hf; [by apply Forall_nil|].
  cbn [fst snd] in *. subst d'. apply Forall2_cons in Hf as [Hf1 Hf2]. cbn [find_prop fst snd] in *. rewrite Hf1.
  case_bool_decide as Hw.
  - subst want. exists [], no, props, [], qs. rewrite Z.add_0_r. split_and!; try done; by constructor.
  - specialize (IH (o + token_size (prop_token (no, d))) Hf2). destruct (find_prop _ _ _ _) as [[o' data]|].
    + destruct IH as (p1 & no' & p2 & q1 & q2 & -> & -> & H1 & H2 & H3 & H4 & ->).
      exists ((no, d) :: p1), no', p2, ((name, d) :: q1), q2. split_and!; try done; [by constructor|by constructor|].
      cbn [map size]. lia.
    + by constructor.
Qed.

(** The first property with the name gets the value; a new property is the first. *)
Fixpoint vreplace (want data : list Z) (qs : list (list Z * list Z)) : option (list (list Z * list Z)) :=
  match qs with
  | [] => None
  | q :: qs => if bool_decide (fst q = want) then Some ((fst q, data) :: qs) else cons q <$> vreplace want data qs
  end.
Definition vset_prop (want data : list Z) (qs : list (list Z * list Z)) : list (list Z * list Z) :=
  default ((want, data) :: qs) (vreplace want data qs).

Lemma vset_prop_split want data old q1 q2 :
  lacks want q1 -> vset_prop want data (q1 ++ (want, old) :: q2) = q1 ++ (want, data) :: q2.
Proof.
  intros Hl. unfold vset_prop. enough (vreplace want data (q1 ++ (want, old) :: q2) = Some (q1 ++ (want, data) :: q2)) as -> by done.
  induction Hl as [|q q1 Hq Hl IH]; cbn [app vreplace fst]; [by rewrite bool_decide_eq_true_2|].
  rewrite bool_decide_eq_false_2 by done. by rewrite IH.
Qed.
Lemma vset_prop_new want data qs : lacks want qs -> vset_prop want data qs = (want, data) :: qs.
Proof.
  intros Hl. unfold vset_prop. enough (vreplace want data qs = None) as -> by done.
  induction Hl as [|q qs Hq Hl IH]; cbn [vreplace]; [done|]. rewrite bool_decide_eq_false_2 by done. by rewrite IH.
Qed.
Lemma vset_prop_find want data qs : vfind_prop want (vset_prop want data qs) = Some data.
Proof.
  unfold vset_prop. assert (H : match vreplace want data qs with
    | Some qs' => vfind_prop want qs' = Some data | None => True end).
  { induction qs as [|[n d] qs IH]; cbn [vreplace fst]; [done|]. case_bool_decide as Hn.
    - subst n. cbn [vfind_prop]. by rewrite bool_decide_eq_true_2.
    - destruct (vreplace want data qs) as [qs'|]; cbn [fmap option_fmap option_map]; [|done].
      cbn [vfind_prop]. by rewrite bool_decide_eq_false_2. }
  destruct (vreplace want data qs); [exact H|]. cbn [default from_option vfind_prop]. by rewrite bool_decide_eq_true_2.
Qed.

(** Whether a child is found does not depend on the offset. *)
Lemma find_in_some_offset want o o' ts :
  (find_in want o ts = None -> find_in want o' ts = None) /\
  (forall x, find_in want o ts = Some x -> exists o2 t, find_in want o' ts = Some (o2, t) /\ o' <= o2).
Proof.
  revert o o'. induction ts as [|t ts IH]; intros o o'; [by split|]. cbn [find_in].
  destruct (name_matches _ _); [split; [done|intros x [= <-]; exists o', t; split; [done|lia]]|].
  destruct (IH (o + size (tree_tokens t)) (o' + size (tree_tokens t))) as [H1 H2]. split; [exact H1|].
  intros x Hx. destruct (H2 x Hx) as (o2 & t2 & E & Ho). exists o2, t2. split; [done|].
  pose proof (size_nonneg (tree_tokens t)). lia.
Qed.

(** ** A blob that can be changed

    The buffer of [total] bytes has the structure at the offset [off]: the tokens [l1],
    [n] bytes of any contents, and the tokens [l2]; the strings are behind it. *)
Section Rw.
Context (fdt total off : Z).
Abbreviation base := (fdt + off).

Record gap_ok (m : memory) (l1 : list token) (n : Z) (l2 : list token) (strs : list Z) : Prop := {
  go_fdt : 0 < fdt /\ 56 <= off /\ total + 3 < 2 ^ 31;
  go_magic : fdt_magic m fdt = FDT_MAGIC;
  go_version : 17 <= fdt_version m fdt /\ fdt_last_comp_version m fdt <= FDT_LAST_SUPPORTED_VERSION;
  go_total : fdt_totalsize m fdt = total;
  go_rsvmap : 40 <= fdt_off_mem_rsvmap m fdt /\ fdt_off_mem_rsvmap m fdt + 16 <= off;
  go_off_struct : fdt_off_dt_struct m fdt = off;
  go_size_struct : 0 <= n /\ fdt_size_dt_struct m fdt = size l1 + n + size l2;
  go_order : off + (size l1 + n + size l2) <= fdt_off_dt_strings m fdt;
  go_size_strings : fdt_size_dt_strings m fdt = Z.of_nat (length strs);
  go_end : fdt_off_dt_strings m fdt + Z.of_nat (length strs) <= total;
  go_tokens : Forall token_ok l1 /\ Forall token_ok l2;
  go_before : encoded m base l1;
  go_after : encoded m (base + size l1 + n) l2;
  go_strings : block m (fdt + fdt_off_dt_strings m fdt) strs;
}.
Definition rw_ok (m : memory) (ts : list token) (strs : list Z) : Prop := gap_ok m ts 0 [] strs.

(** The bytes behind the strings. *)
Definition room (m : memory) : Z := total - (fdt_off_dt_strings m fdt + fdt_size_dt_strings m fdt).

Lemma gap_open m l1 mid l2 strs : rw_ok m (l1 ++ mid ++ l2) strs -> gap_ok m l1 (size mid) l2 strs.
Proof.
  intros [H1 H2 H3 H4 H5 H6 [_ H7] H8 H9 H10 [H11 _] H12 _ H13]. pose proof (size_nonneg mid).
  rewrite !size_app in H7, H8. cbn [size] in H7, H8. apply encoded_app in H12 as [Ha Hb]. apply encoded_app in Hb as [_ Hc].
  apply Forall_app in H11 as [Hta Htb]. apply Forall_app in Htb as [_ Htc].
  split; try done; [split|]; lia.
Qed.
Lemma gap_fill m l1 mid l2 strs :
  gap_ok m l1 (size mid) l2 strs -> encoded m (base + size l1) mid -> Forall token_ok mid ->
  rw_ok m (l1 ++ mid ++ l2) strs.
Proof.
  intros [H1 H2 H3 H4 H5 H6 [_ H7] H8 H9 H10 [Hta Htc] Ha Hc H13] Hb Htb.
  split; try done; rewrite ?size_app; cbn [size]; try lia.
  - split; [|done]. by rewrite !Forall_app.
  - apply encoded_app. split; [done|]. apply encoded_app. by split.
Qed.

Lemma rw_probe_size m ts strs : rw_ok m ts strs -> fdt_ro_probe_ m fdt = total.
Proof.
  intros [(? & ? & ?) Hmag [Hv Hl] Htot Hrsv Hos [_ Hss] Hord Hsz Hend [Htk _] Hb _ _]. cbn [size] in *.
  unfold fdt_ro_probe_. rewrite Hmag, Htot, Z.eqb_refl. unfold FDT_FIRST_SUPPORTED_VERSION, FDT_LAST_SUPPORTED_VERSION, INT32_MAX in *.
  destruct (Z.ltb_spec (fdt_version m fdt) 2); [lia|]. destruct (Z.ltb_spec 17 (fdt_last_comp_version m fdt)); [lia|].
  destruct (Z.ltb_spec total (2 ^ 31 - 1)); [done|lia].
Qed.
Lemma rw_blob m ts strs : rw_ok m ts strs -> blob_ok m fdt ts.
Proof.
  intros Hok. pose proof (rw_probe_size m ts strs Hok) as Hp.
  destruct Hok as [(? & ? & ?) Hmag [Hv Hl] Htot Hrsv Hos [_ Hss] Hord Hsz Hend [Htk _] Hb _ _]. cbn [size] in *.
  pose proof (size_nonneg ts). split; rewrite ?Hp, ?Hos, ?Htot, ?Hss; try done; lia.
Qed.

(** Reading does not depend on the gap. *)
Lemma gap_keep m m' l1 n l2 strs :
  gap_ok m l1 n l2 strs -> same_outside (fun x => base + size l1 <= x < base + size l1 + n) m m' ->
  gap_ok m' l1 n l2 strs /\ forall f, 0 <= f <= 36 -> fdt_get_header m' fdt f = fdt_get_header m fdt f.
Proof.
  intros [(? & ? & ?) Hmag Hver Htot Hrsv Hos Hss Hord Hsz Hend Htk Hb Ha Hst] Hs.
  pose proof (size_nonneg l1). pose proof (size_nonneg l2).
  assert (Hh : forall f, 0 <= f <= 36 -> fdt_get_header m' fdt f = fdt_get_header m fdt f).
  { intros f Hf. apply (header_same_outside _ _ _ _ _ Hs). unfold within. simpl. lia. }
  split; [|done].
  headers_same Hh.
  split; rewrite ?F1, ?F2, ?F3, ?F4, ?F5, ?F6, ?F7, ?F8, ?F9 by (header_offsets; lia); try done.
  - apply (encoded_frame m); [|done]. intros x Hx. symmetry. apply Hs. lia.
  - apply (encoded_frame m); [|done]. intros x Hx. symmetry. apply Hs. lia.
  - apply (block_same_outside _ _ _ _ _ Hs); [|done]. unfold within. lia.
Qed.

(** The bytes that the functions change. *)
Abbreviation in_buf := (in_buf fdt total).
Abbreviation off_buf := (off_buf fdt total).

Lemma fdt_rw_probe_run m ts strs :
  rw_ok m ts strs ->
  exists m', fdt_rw_probe_ fdt m = Some (0, m') /\ rw_ok m' ts strs /\ room m' = room m /\ same_outside in_buf m m'.
Proof.
  intros Hok. pose proof (rw_probe_size _ _ _ Hok) as Hp.
  pose proof Hok as [(? & ? & ?) Hmag [Hv Hl] Htot [Hr1 Hr2] Hos [_ Hss] Hord Hsz Hend [Htk _] Hb _ Hst]. cbn [size] in *.
  pose proof (size_nonneg ts). unfold fdt_rw_probe_. rewrite !reads_run, Hp. destruct (Z.ltb_spec total 0); [lia|].
  rewrite reads_run. destruct (Z.ltb_spec (fdt_version m fdt) 17); [lia|]. rewrite !reads_run.
  assert (fdt_blocks_misordered_ fdt RESERVE_ENTRY_SIZEOF (s32 (fdt_size_dt_struct m fdt)) m = false) as ->.
  { unfold fdt_blocks_misordered_. change (FDT_ALIGN FDT_HEADER_SIZEOF 8) with 40.
    rewrite Hss, Hos, Hsz, Htot, s32_id by lia. unfold RESERVE_ENTRY_SIZEOF. rewrite !u32_id by lia. lia. }
  rewrite reads_run. destruct (Z.ltb_spec 17 (fdt_version m fdt)).
  2:{ exists m. by split_and!. }
  rewrite writes_run. eexists. split; [reflexivity|]. set (m' := fdt_set_version _ _ _).
  assert (Hs : same_outside (within (fdt + header_version) 4) m m') by by apply set_header_outside.
  assert (Hh : forall f, 24 <= f \/ f <= 16 -> fdt_get_header m' fdt f = fdt_get_header m fdt f).
  { intros f Hf. apply get_set_header_ne. unfold header_version. lia. }
  headers_same Hh.
  unfold within, header_version in Hs. simpl in Hs. split; [|split].
  - assert (Hvv : fdt_version m' fdt = 17) by (unfold fdt_version, m', fdt_set_version; apply get_set_header; lia).
    split; rewrite ?F1, ?F2, ?F3, ?F4, ?F5, ?Hvv, ?F7, ?F8, ?F9; cbn [size]; try done.
    + apply (encoded_frame m); [|done]. intros x Hx. symmetry. apply Hs. lia.
    + apply (block_same_outside _ _ _ _ _ Hs); [|done]. unfold within. lia.
  - unfold room. by rewrite F4, F8.
  - eapply same_outside_mono; [|exact Hs]. unfold FdtSwSpec.in_buf. lia.
Qed.

(** ** Splices *)
Lemma fdt_splice_run m l1 n l2 strs p oldlen newlen :
  gap_ok m l1 n l2 strs -> fdt <= p -> 0 <= oldlen -> 0 <= newlen ->
  let len := fdt + fdt_off_dt_strings m fdt + Z.of_nat (length strs) - p - oldlen in
  0 <= len ->
  fdt_splice_ fdt p oldlen newlen m =
    Some (if decide (newlen - oldlen <= room m) then (0, memmove m (p + newlen) (p + oldlen) (Z.to_nat len))
          else (- FDT_ERR_NOSPACE, m)).
Proof.
  intros [(? & ? & ?) _ _ Htot _ _ _ Hord Hsz Hend _ _ _ _] Hp Ho Hn len Hlen.
  pose proof (fdt_get_header_range m fdt header_off_dt_strings) as Hr. fold (fdt_off_dt_strings m fdt) in Hr.
  unfold fdt_splice_, room, fdt_data_size_. rewrite !reads_run, Htot, Hsz, s32_id by lia.
  destruct (Z.ltb_spec (p + oldlen) p); [lia|].
  destruct (Z.ltb_spec (fdt + (fdt_off_dt_strings m fdt + Z.of_nat (length strs))) (p + oldlen)); [lia|]. cbn [orb].
  destruct (Z.ltb_spec p fdt); [lia|]. cbn [orb].
  destruct (Z.ltb_spec (fdt + (fdt_off_dt_strings m fdt + Z.of_nat (length strs)) - oldlen + newlen) fdt); [lia|].
  destruct (Z.ltb_spec (fdt + total) (fdt + (fdt_off_dt_strings m fdt + Z.of_nat (length strs)) - oldlen + newlen)) as [Hs|Hs].
  - by rewrite decide_False by lia.
  - rewrite decide_True by lia. rewrite writes_run, W_ret_run. do 3 f_equal. lia.
Qed.

(** The structure behind a gap and the strings move; [k] bytes of the gap stay. *)
Lemma splice_struct_moved m l1 k oldlen newlen l2 strs :
  gap_ok m l1 (k + oldlen) l2 strs -> 0 <= k -> 0 <= oldlen -> 0 <= newlen < 2 ^ 31 -> newlen - oldlen <= room m ->
  let p := base + size l1 + k in
  let len := fdt + fdt_off_dt_strings m fdt + Z.of_nat (length strs) - p - oldlen in
  let m1 := memmove m (p + newlen) (p + oldlen) (Z.to_nat len) in
  let m2 := fdt_set_size_dt_struct fdt (fdt_size_dt_struct m1 fdt + s32 (newlen - oldlen)) m1 in
  let m' := fdt_set_off_dt_strings fdt (fdt_off_dt_strings m2 fdt + s32 (newlen - oldlen)) m2 in
  gap_ok m' l1 (k + newlen) l2 strs /\ room m' = room m + oldlen - newlen /\
  (forall x, base <= x < p -> rd m' x = rd m x) /\ same_outside in_buf m m'.
Proof.
  intros [(? & ? & ?) Hmag [Hv Hl] Htot Hrsv Hos [Hn Hss] Hord Hsz Hend Htk Hb Ha Hst] Hk Ho Hnew Hroom p len m1 m2 m'.
  pose proof (size_nonneg l1). pose proof (size_nonneg l2). unfold room in *.
  pose proof (memmove_copied m (p + newlen) (p + oldlen) (Z.to_nat len)) as Hcp. fold m1 in Hcp.
  pose proof (copied_same_outside _ _ _ _ _ Hcp) as Hs1.
  assert (Hh1 : forall f, 0 <= f <= 36 -> fdt_get_header m1 fdt f = fdt_get_header m fdt f).
  { intros f Hf. apply (header_same_outside _ _ _ _ _ Hs1). unfold within, p. simpl. lia. }
  assert (E1 : fdt_off_dt_strings m1 fdt = fdt_off_dt_strings m fdt) by (apply Hh1; vm_compute; split; congruence).
  assert (E2 : fdt_size_dt_struct m1 fdt = fdt_size_dt_struct m fdt) by (apply Hh1; vm_compute; split; congruence).
  set (offs := fdt_off_dt_strings m fdt) in *.
  assert (E3 : fdt_off_dt_strings m2 fdt = offs).
  { rewrite <- E1. unfold m2, fdt_off_dt_strings, fdt_set_size_dt_struct.
    by rewrite get_set_header_ne by (unfold header_size_dt_struct, header_off_dt_strings; lia). }
  unfold m'. rewrite E3, s32_id by lia. unfold m2. rewrite E2, s32_id, Hss by lia. clear m' E3 m2.
  set (m2 := fdt_set_size_dt_struct _ _ m1). set (m3 := fdt_set_off_dt_strings _ _ m2).
  assert (Hs2 : same_outside (within fdt 40) m1 m3).
  { do 2 (apply same_outside_store; [unfold within, header_off_dt_strings, header_size_dt_struct; intros x Hx; lia|]). done. }
  unfold within in Hs2.
  assert (Hh : forall f, 0 <= f <= 8 \/ 16 <= f <= 32 -> fdt_get_header m3 fdt f = fdt_get_header m fdt f).
  { intros f Hf. unfold m3, m2, fdt_set_off_dt_strings, fdt_set_size_dt_struct.
    rewrite !get_set_header_ne by (unfold header_size_dt_struct, header_off_dt_strings; lia). apply Hh1. lia. }
  headers_same Hh.
  assert (F4 : fdt_off_dt_strings m3 fdt = offs + (newlen - oldlen)).
  { unfold fdt_off_dt_strings, m3, fdt_set_off_dt_strings. apply get_set_header. lia. }
  assert (F9 : fdt_size_dt_struct m3 fdt = size l1 + (k + newlen) + size l2).
  { unfold fdt_size_dt_struct, m3, fdt_set_off_dt_strings. rewrite get_set_header_ne by (unfold header_size_dt_struct, header_off_dt_strings; lia).
    unfold m2, fdt_set_size_dt_struct. rewrite get_set_header by lia. lia. }
  assert (Hkeep : forall x, base <= x < p -> rd m3 x = rd m x).
  { intros x Hx. transitivity (rd m1 x); [symmetry; apply Hs2; lia|]. symmetry. apply Hs1. unfold within. lia. }
  assert (Hmove : forall i, 0 <= i < len -> rd m3 (p + newlen + i) = rd m (p + oldlen + i)).
  { intros i Hi. transitivity (rd m1 (p + newlen + i)); [symmetry; apply Hs2; unfold p; lia|].
    rewrite Hcp, decide_True by (unfold within; lia). f_equal. lia. }
  split; [|split; [|split; [exact Hkeep|]]].
  - split; rewrite ?F1, ?F2, ?F3, ?F4, ?F5, ?F6, ?F7, ?F8, ?F9; try done; [lia..| | |].
    + apply (encoded_frame m); [|done]. intros x Hx. apply Hkeep. unfold p. lia.
    + replace (base + size l1 + (k + newlen)) with (p + newlen) by (unfold p; lia).
      apply (encoded_moved m _ (p + oldlen)); [|by replace (p + oldlen) with (base + size l1 + (k + oldlen)) by (unfold p; lia)].
      intros i Hi. apply Hmove. unfold len, p. lia.
    + intros i v Hi. rewrite <- (Hst i v Hi). pose proof (lookup_lt_Some _ _ _ Hi).
      set (j := fdt + offs - p - oldlen). replace (fdt + (offs + (newlen - oldlen)) + Z.of_nat i) with (p + newlen + (j + Z.of_nat i)) by (unfold j; lia).
      rewrite Hmove by (unfold len, j, p; lia). f_equal. unfold j. lia.
  - rewrite F4, F8. lia.
  - eapply same_outside_trans; eapply same_outside_mono; [|exact Hs1| |exact Hs2]; intros x Hx;
      unfold FdtSwSpec.in_buf, within, p, len in *; lia.
Qed.

Lemma splice_struct_run m l1 k oldlen newlen l2 strs :
  gap_ok m l1 (k + oldlen) l2 strs -> 0 <= k -> 0 <= oldlen -> 0 <= newlen < 2 ^ 31 ->
  let p := base + size l1 + k in
  if decide (newlen - oldlen <= room m) then
    exists m', fdt_splice_struct_ fdt p oldlen newlen m = Some (0, m') /\ gap_ok m' l1 (k + newlen) l2 strs /\
      room m' = room m + oldlen - newlen /\ (forall x, base <= x < p -> rd m' x = rd m x) /\ same_outside in_buf m m'
  else fdt_splice_struct_ fdt p oldlen newlen m = Some (- FDT_ERR_NOSPACE, m).
Proof.
  intros Hok Hk Ho Hn p. pose proof Hok as [(? & ? & ?) _ _ _ _ _ _ Hord _ _ _ _ _ _].
  pose proof (size_nonneg l1). pose proof (size_nonneg l2). unfold fdt_splice_struct_.
  pose proof (fdt_splice_run m _ _ _ _ p oldlen newlen Hok) as E. cbv zeta in E. case_decide as Hr.
  - destruct (splice_struct_moved m l1 k oldlen newlen l2 strs Hok Hk Ho Hn Hr) as (H4 & H5 & H6 & H7).
    eexists. split; [|split; [exact H4|split; [exact H5|split; [exact H6|exact H7]]]].
    rewrite (W_bind_run _ _ _ _ _ (E ltac:(unfold p; lia) Ho ltac:(lia) ltac:(unfold p; lia))). reflexivity.
  - rewrite (W_bind_run _ _ _ _ _ (E ltac:(unfold p; lia) Ho ltac:(lia) ltac:(unfold p; lia))). reflexivity.
Qed.

(** ** Strings *)
Lemma set_size_strings m ts strs l n :
  rw_ok m ts strs -> n = Z.of_nat (length l) -> fdt_off_dt_strings m fdt + n <= total ->
  block m (fdt + fdt_off_dt_strings m fdt) l ->
  let m' := fdt_set_size_dt_strings fdt n m in
  rw_ok m' ts l /\ room m' = room m + Z.of_nat (length strs) - n /\ same_outside in_buf m m' /\
  fdt_off_dt_strings m' fdt = fdt_off_dt_strings m fdt.
Proof.
  intros [(? & ? & ?) Hmag Hver Htot Hrsv Hos [Hn Hss] Hord Hsz Hend Htk Hb Ha Hst] Hl Hfit Hbl m'.
  pose proof (size_nonneg ts). cbn [size] in *.
  assert (Hs : same_outside (within (fdt + 32) 4) m m') by by apply set_header_outside.
  assert (Hh : forall f, f <= 28 \/ 36 <= f -> fdt_get_header m' fdt f = fdt_get_header m fdt f).
  { intros f Hf. apply get_set_header_ne. unfold header_size_dt_strings. lia. }
  headers_same Hh.
  assert (F8 : fdt_size_dt_strings m' fdt = n).
  { unfold fdt_size_dt_strings, m', fdt_set_size_dt_strings. apply get_set_header. lia. }
  unfold within in Hs. split; [|split; [|split; [|done]]].
  - split; rewrite ?F1, ?F2, ?F3, ?F4, ?F5, ?F6, ?F7, ?F8, ?F9; cbn [size]; try done; [lia| |].
    + apply (encoded_frame m); [|done]. intros x Hx. symmetry. apply Hs. lia.
    + apply (block_same_outside _ _ _ _ _ Hs); [|done]. unfold within. lia.
  - unfold room. rewrite F4, F8. lia.
  - eapply same_outside_mono; [|exact Hs]. unfold FdtSwSpec.in_buf. intros x Hx. lia.
Qed.

(** The string [name] is at the position [no] of the table. *)
Definition string_in (strs : list Z) (no : Z) (name : list Z) : Prop :=
  exists pre post, strs = pre ++ name ++ 0 :: post /\ no = Z.of_nat (length pre) /\ Forall (fun c => c <> 0) name.

Lemma string_in_app strs l no name : string_in strs no name -> string_in (strs ++ l) no name.
Proof. intros (pre & post & -> & H). exists pre, (post ++ l). split; [|done]. by rewrite <- !app_assoc. Qed.
Lemma string_in_entry m ts strs no name : rw_ok m ts strs -> string_in strs no name -> string_entry m fdt no name.
Proof.
  intros Hok (pre & post & -> & -> & Hn).
  destruct Hok as [(? & ? & ?) Hmag Hver Htot Hrsv Hos Hss Hord Hsz Hend Htk Hb Ha Hst].
  pose proof (fdt_get_header_range m fdt header_off_dt_strings) as Hr. fold (fdt_off_dt_strings m fdt) in Hr.
  rewrite !length_app in *. cbn [length] in *. split; try done; [lia|lia|intros _; lia|].
  apply block_app in Hst as [_ Hst]. change (name ++ 0 :: post) with (name ++ [0] ++ post) in Hst. rewrite app_assoc in Hst.
  apply block_app in Hst as [Hst _]. by split.
Qed.

(** The end of the table is written over. *)
Lemma strings_tail m m' ts strs g g' :
  rw_ok m ts (strs ++ g) -> length g' = length g ->
  let a := fdt + fdt_off_dt_strings m fdt + Z.of_nat (length strs) in
  same_outside (within a (length g)) m m' -> block m' a g' ->
  rw_ok m' ts (strs ++ g') /\ room m' = room m /\ same_outside in_buf m m'.
Proof.
  intros [(? & ? & ?) Hmag Hver Htot Hrsv Hos [Hn Hss] Hord Hsz Hend Htk Hb Ha Hst] Hg a Hs Hbl.
  pose proof (size_nonneg ts). cbn [size] in *. unfold within in Hs. rewrite length_app in *.
  assert (Hh : forall f, 0 <= f <= 36 -> fdt_get_header m' fdt f = fdt_get_header m fdt f).
  { intros f Hf. apply (header_same_outside _ _ _ _ _ Hs). unfold within, a. simpl. lia. }
  headers_same Hh.
  split; [|split].
  - split; rewrite ?F1, ?F2, ?F3, ?F4, ?F5, ?F6, ?F7, ?F8, ?F9, ?length_app, ?Hg by (header_offsets; lia); cbn [size]; try done.
    + apply (encoded_frame m); [|done]. intros x Hx. symmetry. apply Hs. unfold a. lia.
    + apply block_app in Hst as [Hst _]. apply block_app. split; [|done].
      apply (block_same_outside _ _ _ _ _ Hs); [|done]. unfold within, a. lia.
  - unfold room. by rewrite F4, F8.
  - eapply same_outside_mono; [|exact Hs]. unfold FdtSwSpec.in_buf, a. intros x Hx. lia.
Qed.

Lemma memmove_nothing m d s : memmove m d s 0 = m.
Proof. unfold memmove, memcpy. by repeat case_match. Qed.

Lemma add_string_run m ts strs name p :
  rw_ok m ts strs -> cstr m p name -> off_buf p (S (length name)) ->
  let n := Z.of_nat (length name) + 1 in
  let new := fdt + fdt_off_dt_strings m fdt + Z.of_nat (length strs) in
  n <= room m ->
  exists m1, fdt_splice_string_ fdt n m = Some (0, m1) /\
    rw_ok (memcpy m1 new p (count n)) ts (strs ++ name ++ [0]) /\ room (memcpy m1 new p (count n)) = room m - n /\
    same_outside in_buf m (memcpy m1 new p (count n)).
Proof.
  intros Hok [Hc Hz] Hp n new Hroom.
  pose proof Hok as [(? & ? & ?) Hmag Hver Htot Hrsv Hos [Hn Hss] Hord Hsz Hend Htk Hb Ha Hst].
  pose proof (size_nonneg ts). cbn [size] in *. unfold room in Hroom. rewrite Hsz in Hroom.
  pose proof (fdt_splice_run m ts 0 [] strs new 0 n Hok) as E. cbv zeta in E.
  rewrite decide_True in E by (unfold room; rewrite Hsz; lia).
  replace (Z.to_nat _) with 0%nat in E by (unfold new; lia). rewrite memmove_nothing in E.
  exists (fdt_set_size_dt_strings fdt (fdt_size_dt_strings m fdt + n) m). split.
  { unfold fdt_splice_string_. rewrite reads_run, Hsz. fold new.
    rewrite (W_bind_run _ _ _ _ _ (E ltac:(unfold new; lia) ltac:(lia) ltac:(lia) ltac:(unfold new; lia))).
    rewrite <- Hsz. reflexivity. }
  set (g := bytes_at (S (length name)) m new).
  assert (Hg : length g = S (length name)) by apply length_bytes_at.
  rewrite Hsz. destruct (set_size_strings m ts strs (strs ++ g) (Z.of_nat (length strs) + n) Hok) as (Hok1 & Hr1 & Hs1 & Eo).
  { rewrite length_app, Hg. lia. }
  { lia. }
  { apply block_app. split; [done|]. apply block_check. unfold g. by rewrite length_bytes_at. }
  set (m1 := fdt_set_size_dt_strings _ _ m) in *.
  assert (En : fdt + fdt_off_dt_strings m1 fdt + Z.of_nat (length strs) = new) by by rewrite Eo.
  assert (Hcp : copied m1 new p (S (length name)) (memcpy m1 new p (count n))).
  { unfold count. rewrite u64_id by lia. replace (Z.to_nat n) with (S (length name)) by lia.
    apply memcpy_copied. unfold FdtSwSpec.off_buf, new in *. lia. }
  destruct (strings_tail m1 (memcpy m1 new p (count n)) ts strs g (name ++ [0]) Hok1) as (Hok2 & Hr2 & Hs2).
  { rewrite Hg, length_app. simpl. lia. }
  { rewrite Hg, En. exact (copied_same_outside _ _ _ _ _ Hcp). }
  { rewrite En. apply (block_copied _ _ _ _ _ _ Hcp); [rewrite length_app; simpl; lia|].
    apply (block_same_outside _ _ _ _ _ Hs1); [|done]. rewrite length_app. unfold FdtSwSpec.in_buf, FdtSwSpec.off_buf, within in *. simpl. lia. }
  split; [done|]. split; [unfold n in *; lia|by eapply same_outside_trans].
Qed.

Lemma add_string_full m ts strs (name : list Z) :
  rw_ok m ts strs -> let n := Z.of_nat (length name) + 1 in
  room m < n -> fdt_splice_string_ fdt n m = Some (- FDT_ERR_NOSPACE, m).
Proof.
  intros Hok n Hroom. pose proof Hok as [(? & ? & ?) _ _ _ _ _ _ Hord Hsz _ _ _ _ _].
  pose proof (size_nonneg ts). cbn [size] in *. unfold fdt_splice_string_. rewrite reads_run, Hsz.
  set (new := fdt + fdt_off_dt_strings m fdt + Z.of_nat (length strs)).
  pose proof (fdt_splice_run m ts 0 [] strs new 0 n Hok ltac:(unfold new; lia) ltac:(lia) ltac:(lia) ltac:(unfold new; lia)) as E.
  rewrite decide_False in E by lia. by rewrite (W_bind_run _ _ _ _ _ E).
Qed.

Lemma table_string_in strs i name :
  (i <= length strs)%nat -> in_table strs (Z.of_nat (length strs) - Z.of_nat i) name -> string_in strs (Z.of_nat i) name.
Proof.
  intros Hi (pre & post & -> & Hk & Hn). exists pre, post. split; [done|]. split; [|done].
  rewrite !length_app in Hk. simpl in Hk. lia.
Qed.

(** The string is found, or added when there is room. *)
Lemma rw_find_add_string_run fuel m ts strs name p :
  rw_ok m ts strs -> cstr m p name -> (length name <= fuel)%nat -> off_buf p (S (length name)) ->
  Z.of_nat (length name) + 1 < 2 ^ 31 ->
  (exists no, rw_find_add_string_ fdt fuel p m = Some ((no, false), m) /\ 0 <= no < 2 ^ 31 /\ string_in strs no name) \/
  (Z.of_nat (length name) + 1 <= room m /\ exists m',
     rw_find_add_string_ fdt fuel p m = Some ((Z.of_nat (length strs), true), m') /\ Z.of_nat (length strs) < 2 ^ 31 /\
     rw_ok m' ts (strs ++ name ++ [0]) /\ room m' = room m - (Z.of_nat (length name) + 1) /\ same_outside in_buf m m') \/
  (room m < Z.of_nat (length name) + 1 /\
     rw_find_add_string_ fdt fuel p m = Some ((- FDT_ERR_NOSPACE, false), m)).
Proof.
  intros Hok Hc Hfuel Hp Hlen. pose proof Hok as [(? & ? & ?) Hmag Hver Htot Hrsv Hos [Hn Hss] Hord Hsz Hend Htk Hb Ha Hst].
  pose proof (fdt_get_header_range m fdt header_off_dt_strings) as Hr. fold (fdt_off_dt_strings m fdt) in Hr.
  unfold rw_find_add_string_, fdt_find_string_. rewrite reads_run.
  erewrite runs_run by (by apply strlen_cstr). rewrite reads_run, Hsz, (s32_id (Z.of_nat (length name) + 1)), (s32_id (Z.of_nat (length strs))) by lia.
  erewrite runs_run by (erewrite strlen_cstr by done; reflexivity). rewrite (s32_id (Z.of_nat (length name) + 1)) by lia.
  set (q := fdt + fdt_off_dt_strings m fdt). set (k := Z.to_nat _).
  destruct (find_string_loop_run m k q p (Z.of_nat (length name) + 1)) as [Hr0|(i & Hi & Hri & Hbi)];
    set (r := find_string_loop _ _ _ _ _) in *.
  - right. rewrite Hr0. cbn [NULL Z.eqb negb].
    destruct (Z.le_gt_cases (Z.of_nat (length name) + 1) (room m)) as [Hroom|Hroom]; [left|right]; (split; [lia|]).
    + destruct (add_string_run m ts strs name p Hok Hc Hp Hroom) as (m1 & E & Hok' & Hr' & Hs').
      eexists. split; [rewrite (W_bind_run _ _ _ _ _ E)|split; [lia|split; [exact Hok'|by split]]].
      change (truthy 0) with false. cbv iota. rewrite writes_run, W_ret_run. rewrite s32_id by lia. do 3 f_equal. lia.
    + by rewrite (W_bind_run _ _ _ _ _ (add_string_full m ts strs name Hok ltac:(lia))).
  - left. replace (Z.to_nat (Z.of_nat (length name) + 1)) with (S (length name)) in Hbi by lia. unfold k in Hi.
    exists (Z.of_nat i). unfold NULL. destruct (Z.eqb_spec r 0); [unfold q in Hri; lia|]. cbn [negb]. split; [|split; [lia|]].
    + rewrite W_ret_run, s32_id by (unfold q in Hri; lia). do 3 f_equal. lia.
    + apply table_string_in; [lia|]. apply (strings_entry m _ q); [done| |by destruct Hc|lia].
      rewrite <- Hri, Hbi. destruct Hc as [Hcb _]. apply block_bytes_at in Hcb. rewrite length_app in Hcb. simpl in Hcb.
      by replace (length name + 1)%nat with (S (length name)) in Hcb by lia.
Qed.

(** Rolling back the string just added. *)
Lemma rw_del_last_string_run fuel m ts strs name p :
  rw_ok m ts (strs ++ name ++ [0]) -> cstr m p name -> (length name <= fuel)%nat -> Z.of_nat (length name) + 1 < 2 ^ 31 ->
  exists m', rw_del_last_string_ fdt fuel p m = Some (tt, m') /\ rw_ok m' ts strs /\
    room m' = room m + (Z.of_nat (length name) + 1) /\ same_outside in_buf m m'.
Proof.
  intros Hok Hc Hfuel Hlen. pose proof Hok as [(? & ? & ?) Hmag Hver Htot Hrsv Hos [Hn Hss] Hord Hsz Hend Htk Hb Ha Hst].
  rewrite !length_app in *. cbn [length] in *. apply block_app in Hst as [Hst _].
  destruct (set_size_strings m ts _ strs (Z.of_nat (length strs)) Hok eq_refl ltac:(lia) Hst) as (Hok' & Hr' & Hs' & _).
  eexists. split; [|split; [exact Hok'|split; [|exact Hs']]].
  - unfold rw_del_last_string_. erewrite runs_run by (by apply strlen_cstr). rewrite reads_run, Hsz, s32_id by lia.
    unfold writes. do 3 f_equal. lia.
  - rewrite Hr', !length_app. simpl. lia.
Qed.

(** ** Deletions *)
Context (fuel : nat).
Hypothesis Hfuel : (Z.to_nat total <= fuel)%nat.

Lemma rw_fuel m ts strs : rw_ok m ts strs -> (Z.to_nat (fdt_totalsize m fdt) <= fuel)%nat.
Proof. intros Hok. by rewrite (go_total _ _ _ _ _ Hok). Qed.
Lemma rw_offset_ptr m ts strs o : rw_ok m ts strs -> fdt_offset_ptr_ m fdt o = base + o.
Proof. intros Hok. unfold fdt_offset_ptr_. by rewrite (go_off_struct _ _ _ _ _ Hok). Qed.
Lemma rw_size m ts strs : rw_ok m ts strs -> size ts <= total /\ total + 3 < 2 ^ 31.
Proof.
  intros [(? & ? & ?) _ _ _ _ _ _ Hord _ Hend _ _ _ _]. cbn [size] in *. lia.
Qed.

Lemma rw_sizes m l1 mid l2 strs : rw_ok m (l1 ++ mid ++ l2) strs ->
  0 <= size l1 /\ 0 <= size mid /\ 0 <= size l2 /\ size l1 + size mid + size l2 <= total /\ total + 3 < 2 ^ 31 /\
  0 < fdt /\ 56 <= off.
Proof.
  intros Hok. pose proof (rw_size _ _ _ Hok) as [H1 H2]. pose proof (go_fdt _ _ _ _ _ Hok). rewrite !size_app in H1.
  pose proof (size_nonneg l1). pose proof (size_nonneg l2). pose proof (size_nonneg mid). lia.
Qed.

(** A token list in the middle goes. *)
Lemma remove_tokens_run m l1 mid l2 strs :
  rw_ok m (l1 ++ mid ++ l2) strs ->
  exists m', fdt_splice_struct_ fdt (base + size l1) (size mid) 0 m = Some (0, m') /\ rw_ok m' (l1 ++ l2) strs /\
    room m' = room m + size mid /\ same_outside in_buf m m'.
Proof.
  intros Hok. pose proof (size_nonneg mid). pose proof (gap_open m l1 mid l2 strs Hok) as Hgap.
  pose proof Hok as [_ _ _ _ _ _ _ _ Hsz Hend _ _ _ _].
  pose proof (splice_struct_run m l1 0 (size mid) 0 l2 strs Hgap ltac:(lia) ltac:(lia) ltac:(lia)) as E. cbv zeta in E.
  rewrite decide_True in E by (unfold room; lia). destruct E as (m' & E & Hgap' & Hr & _ & Hs). rewrite Z.add_0_r in E.
  exists m'. split; [exact E|]. split; [|split; [lia|done]].
  apply (gap_fill m' l1 [] l2 strs Hgap'); [done|by apply Forall_nil].
Qed.

Lemma fdt_del_node_run m l1 t l2 strs :
  rw_ok m (l1 ++ tree_tokens t ++ l2) strs -> TEnd ∈ l2 ->
  exists m', fdt_del_node fdt fuel (size l1) m = Some (0, m') /\ rw_ok m' (l1 ++ l2) strs /\ same_outside in_buf m m'.
Proof.
  intros Hok Hend. destruct (fdt_rw_probe_run m _ strs Hok) as (m1 & E1 & Hok1 & _ & Hs1).
  destruct (remove_tokens_run m1 l1 (tree_tokens t) l2 strs Hok1) as (m2 & E2 & Hok2 & _ & Hs2).
  pose proof (rw_sizes _ _ _ _ _ Hok1).
  exists m2. split; [|split; [done|by eapply same_outside_trans]].
  unfold fdt_del_node. rewrite (W_bind_run _ _ _ _ _ E1). cbn [truthy Z.eqb negb].
  erewrite runs_run by (by eapply (fdt_node_end_offset_run m1 fdt _ (rw_blob _ _ _ Hok1) fuel (rw_fuel _ _ _ Hok1))).
  destruct (Z.ltb_spec (size l1 + size (tree_tokens t)) 0); [lia|].
  rewrite reads_run, (rw_offset_ptr _ _ _ _ Hok1), s32_id by lia.
  by replace (size l1 + size (tree_tokens t) - size l1) with (size (tree_tokens t)) by lia.
Qed.

(** The property that [fdt_get_property] finds, with what is before and behind it. *)
Lemma fdt_get_property_cases m l1 name props children l2 strs qs p want :
  rw_ok m (l1 ++ TBegin name :: map prop_token props ++ forest_tokens children ++ TEndNode :: l2) strs -> TEnd ∈ l2 ->
  Forall2 (same_prop (string_in strs)) props qs ->
  0 < p -> cstr m p want -> Z.of_nat (length want) < 2 ^ 31 -> (length want <= fuel)%nat ->
  (exists p1 no data p2 q1 q2, props = p1 ++ (no, data) :: p2 /\ qs = q1 ++ (want, data) :: q2 /\
     Forall2 (same_prop (string_in strs)) p1 q1 /\ Forall2 (same_prop (string_in strs)) p2 q2 /\
     string_in strs no want /\ lacks want q1 /\
     fdt_get_property m fdt fuel (size l1) p =
       Some (base + size (l1 ++ TBegin name :: map prop_token p1), Z.of_nat (length data))) \/
  (lacks want qs /\ fdt_get_property m fdt fuel (size l1) p = Some (NULL, - FDT_ERR_NOTFOUND)).
Proof.
  intros Hok Hend Hq Hp Hc Hw Hwf. pose proof (rw_blob _ _ _ Hok) as Hb. pose proof (rw_fuel _ _ _ Hok) as Hf.
  set (ts := l1 ++ _) in *.
  destruct (names_function (string_in strs)) with (ps := props) (qs := qs) as [f Hnames]; [|done|].
  { intros no n1 n2 H1 H2. eapply string_entry_inj; eapply string_in_entry; done. }
  assert (Hse : Forall (fun p => string_entry m fdt (fst p) (f (fst p))) props).
  { apply Forall_lookup. intros i pp Hi. destruct (Forall2_lookup_l _ _ _ _ _ Hq Hi) as (q & Hiq & [_ Hn]).
    pose proof (Forall2_lookup_lr _ _ _ _ _ _ Hnames Hi Hiq) as ->. by apply (string_in_entry m ts strs). }
  assert (E' : ts = (l1 ++ [TBegin name]) ++ map prop_token props ++ forest_tokens children ++ TEndNode :: l2)
    by (unfold ts; by norm_tokens).
  assert (Ht : tree_at ts (size l1) (DNode name props children)).
  { exists l1, l2. split; [unfold ts; by norm_tokens|by split]. }
  assert (Eg : fdt_get_property m fdt fuel (size l1) p =
    Some (if find_prop f want (size (l1 ++ [TBegin name])) props is Some (o, data)
          then (base + o, Z.of_nat (length data)) else (NULL, - FDT_ERR_NOTFOUND))).
  { unfold fdt_get_property. rewrite (strlen_cstr fuel m p want Hc Hwf). cbn [mbind option_bind]. rewrite s32_id by lia.
    unfold fdt_get_property_namelen, fdt_get_property_namelen_.
    destruct (Z.ltb_spec (fdt_version m fdt) 16); [pose proof (go_version _ _ _ _ _ Hok); lia|].
    rewrite (fdt_first_property_run m fdt ts Hb fuel Hf (size l1) _ Ht). cbn [mbind option_bind].
    unfold props_start. cbn [node_name node_props]. rewrite <- size_snoc.
    rewrite (get_property_loop_run m fdt ts Hb fuel Hf f fuel _ props children l2 p want E');
      [| |split; [done|by apply cstr_bytes]|done].
    - rewrite (go_off_struct _ _ _ _ _ Hok). by destruct (find_prop _ _ _ _) as [[o data]|].
    - pose proof (length_blob m fdt ts Hb fuel Hf _ _ E') as Hl. rewrite length_app, length_map in Hl. lia. }
  pose proof (find_prop_split (string_in strs) f want (size (l1 ++ [TBegin name])) props qs Hq Hnames) as Hsplit.
  destruct (find_prop _ _ _ _) as [[o data]|]; [left|by right].
  destruct Hsplit as (p1 & no & p2 & q1 & q2 & H1 & H2 & H3 & H4 & H5 & H6 & ->).
  exists p1, no, data, p2, q1, q2. split_and!; try done. rewrite Eg. do 3 f_equal. rewrite !size_app. cbn [size]. lia.
Qed.

Lemma cstr_in_rw m m' p want : same_outside in_buf m m' -> off_buf p (S (length want)) -> cstr m p want -> cstr m' p want.
Proof.
  intros Hs Hp. apply (cstr_same_outside _ _ _ _ _ Hs). unfold FdtSwSpec.off_buf, FdtSwSpec.in_buf, within in *. intros x Hx. lia.
Qed.

Lemma bytes_in_rw m m' p l :
  same_outside in_buf m m' -> off_buf p (length l) -> bytes_at (length l) m p = l -> bytes_at (length l) m' p = l.
Proof.
  intros Hs Hp <-. rewrite length_bytes_at in *. apply list_eq. intros i. destruct (decide (i < length l)%nat) as [Hi|Hi].
  - rewrite !lookup_bytes_at by done. f_equal. symmetry. apply Hs. unfold FdtSwSpec.in_buf, FdtSwSpec.off_buf in *. lia.
  - by rewrite !lookup_ge_None_2 by (rewrite ?length_bytes_at; lia).
Qed.

(** The tokens of a node that is between [l1] and [l2]. *)
Definition node_in (l1 : list token) (name : list Z) (props : list (Z * list Z)) (children : list dtree) (l2 : list token) : list token :=
  l1 ++ TBegin name :: map prop_token props ++ forest_tokens children ++ TEndNode :: l2.

Lemma node_in_split l1 name p1 mid p2 children l2 :
  node_in l1 name (p1 ++ mid ++ p2) children l2 =
    (l1 ++ TBegin name :: map prop_token p1) ++ map prop_token mid ++
    (map prop_token p2 ++ forest_tokens children ++ TEndNode :: l2).
Proof. unfold node_in. rewrite !map_app. by norm_tokens. Qed.

Lemma fdt_delprop_run m l1 name props children l2 strs qs p want :
  rw_ok m (node_in l1 name props children l2) strs -> TEnd ∈ l2 ->
  Forall2 (same_prop (string_in strs)) props qs ->
  0 < p -> cstr m p want -> Z.of_nat (length want) < 2 ^ 31 -> (length want <= fuel)%nat -> off_buf p (S (length want)) ->
  exists m' r, fdt_delprop fdt fuel (size l1) p m = Some (r, m') /\ same_outside in_buf m m' /\
    ((exists p1 no data p2 q1 q2, props = p1 ++ (no, data) :: p2 /\ qs = q1 ++ (want, data) :: q2 /\
        Forall2 (same_prop (string_in strs)) p1 q1 /\ Forall2 (same_prop (string_in strs)) p2 q2 /\ lacks want q1 /\
        r = 0 /\ rw_ok m' (node_in l1 name (p1 ++ p2) children l2) strs) \/
     (lacks want qs /\ r = - FDT_ERR_NOTFOUND /\ rw_ok m' (node_in l1 name props children l2) strs)).
Proof.
  intros Hok Hend Hq Hp Hc Hw Hwf Hoff. destruct (fdt_rw_probe_run m _ strs Hok) as (m1 & E1 & Hok1 & _ & Hs1).
  pose proof (cstr_in_rw _ _ _ _ Hs1 Hoff Hc) as Hc1.
  destruct (fdt_get_property_cases m1 l1 name props children l2 strs qs p want Hok1 Hend Hq Hp Hc1 Hw Hwf)
    as [(p1 & no & data & p2 & q1 & q2 & -> & -> & H1 & H2 & H3 & H4 & Eg)|[Hl Eg]].
  - change (p1 ++ (no, data) :: p2) with (p1 ++ [(no, data)] ++ p2) in Hok1. rewrite node_in_split in Hok1.
    destruct (remove_tokens_run m1 _ _ _ strs Hok1) as (m2 & E2 & Hok2 & _ & Hs2).
    exists m2, 0. split; [|split; [by eapply same_outside_trans|left]].
    + unfold fdt_delprop. rewrite (W_bind_run _ _ _ _ _ E1). cbn [truthy Z.eqb negb]. erewrite runs_run by exact Eg.
      destruct (rw_sizes m1 _ _ _ strs Hok1) as (G1 & G2 & G3 & G4 & G5 & G6 & G7).
      set (o := size (l1 ++ TBegin name :: map prop_token p1)) in *. cbn [map size prop_token fst snd token_size] in G2, G4, E2.
      pose proof (up4_range (Z.of_nat (length data))).
      destruct (Z.eqb_spec (base + o) NULL); [unfold NULL, o in *; lia|].
      rewrite (proj1 (FDT_TAGALIGN64_eq (Z.of_nat (length data)) ltac:(lia))), s32_id by (unfold FDT_PROPERTY_SIZEOF; lia).
      unfold FDT_PROPERTY_SIZEOF. by rewrite <- E2, Z.add_0_r.
    + exists p1, no, data, p2, q1, q2. split_and!; try done.
      pose proof (node_in_split l1 name p1 [] p2 children l2) as En. cbn [app map] in En. by rewrite En.
  - exists m1, (- FDT_ERR_NOTFOUND). split; [|split; [done|by right]].
    unfold fdt_delprop. rewrite (W_bind_run _ _ _ _ _ E1). cbn [truthy Z.eqb negb]. by erewrite runs_run by exact Eg.
Qed.

(** ** Setting a property

    The header of a property is written, its data is not. *)
Record prop_open (m : memory) (la : list token) (n : Z) (lb : list token) (strs : list Z) (no : Z) : Prop := {
  po_gap : gap_ok m la (12 + up4 n) lb strs;
  po_tag : block m (base + size la) (be_bytes FDT_PROP);
  po_len : block m (base + size la + 4) (be_bytes n);
  po_nameoff : block m (base + size la + 8) (be_bytes no);
}.

Lemma memcpy_nothing m d s : memcpy m d s 0 = m.
Proof. unfold memcpy. by repeat case_match. Qed.

Lemma prop_close m la lb strs no data v :
  let n := Z.of_nat (length data) in
  prop_open m la n lb strs no -> token_ok (TProp no data) -> block m v data -> off_buf v (length data) ->
  let m' := memcpy m (base + size la + 12) v (length data) in
  rw_ok m' (la ++ TProp no data :: lb) strs /\ room m' = room m /\ same_outside in_buf m m'.
Proof.
  intros n [Hgap H1 H2 H3] Htok Hv Hoff m'. set (a := base + size la) in *.
  pose proof Hgap as [(? & ? & ?) _ _ _ _ _ _ Hord _ Hend _ _ _ _].
  pose proof (size_nonneg la). pose proof (size_nonneg lb). pose proof (up4_range n).
  assert (Hcp : copied m (a + 12) v (length data) m').
  { apply memcpy_copied. unfold FdtSwSpec.off_buf, a in *. lia. }
  pose proof (copied_same_outside _ _ _ _ _ Hcp) as Hs.
  destruct (gap_keep m m' la (12 + up4 n) lb strs Hgap) as [Hgap' Hh].
  { eapply same_outside_mono; [|exact Hs]. unfold within, a. intros x Hx. lia. }
  split; [|split].
  - apply (gap_fill m' la [TProp no data] lb); [cbn [size token_size]; by rewrite Z.add_0_r| |by apply Forall_singleton].
    cbn [encoded]. split; [|done]. fold a. apply block_prop. split_and!.
    + apply (block_same_outside _ _ _ _ _ Hs); [|exact H1]. unfold within. cbn [length be_bytes]. lia.
    + apply (block_same_outside _ _ _ _ _ Hs); [|exact H2]. unfold within. cbn [length be_bytes]. lia.
    + apply (block_same_outside _ _ _ _ _ Hs); [|exact H3]. unfold within. cbn [length be_bytes]. lia.
    + by apply (block_copied _ _ _ _ _ _ Hcp).
  - unfold room. headers_same Hh.
    by rewrite F4, F8 by (header_offsets; lia).
  - eapply same_outside_mono; [|exact Hs]. unfold FdtSwSpec.in_buf, within, a. intros x Hx. lia.
Qed.

(** A store in the header of a property. *)
Lemma gap_st32 m la n lb strs k v :
  gap_ok m la n lb strs -> 0 <= k -> k + 4 <= n ->
  let m' := st32 m (base + size la + k) (cpu_to_fdt32 v) in
  gap_ok m' la n lb strs /\ room m' = room m /\ same_outside in_buf m m' /\
  same_outside (within (base + size la + k) 4) m m' /\ (is_u32 v -> block m' (base + size la + k) (be_bytes v)).
Proof.
  intros Hgap Hk Hn m'. pose proof Hgap as [(? & ? & ?) _ _ _ _ _ _ Hord _ Hend _ _ _ _].
  pose proof (size_nonneg la). pose proof (size_nonneg lb).
  assert (Hs : same_outside (within (base + size la + k) 4) m m') by by apply same_outside_store.
  destruct (gap_keep m m' la n lb strs Hgap) as [Hgap' Hh].
  { eapply same_outside_mono; [|exact Hs]. unfold within. intros x Hx. lia. }
  headers_same Hh.
  split; [done|]. split; [|split; [|split; [done|by apply block_st32]]].
  - unfold room. by rewrite F4, F8 by (header_offsets; lia).
  - eapply same_outside_mono; [|exact Hs]. unfold FdtSwSpec.in_buf, within. intros x Hx. lia.
Qed.

(** *** A property that is there *)
Lemma resize_run m la no old lb strs n :
  rw_ok m (la ++ TProp no old :: lb) strs -> 0 <= n -> n + 16 < 2 ^ 31 ->
  let a := base + size la in
  let c := err ← fdt_splice_struct_ fdt (property_data a) (FDT_TAGALIGN (Z.of_nat (length old))) (FDT_TAGALIGN n);
           if truthy err then mret (err, a)
           else writes (fun m => st32 m (property_len a) (cpu_to_fdt32 (u32 n)));; mret (0, a) in
  if decide (up4 n - up4 (Z.of_nat (length old)) <= room m)
  then exists m', c m = Some ((0, a), m') /\ prop_open m' la n lb strs no /\ same_outside in_buf m m'
  else c m = Some ((- FDT_ERR_NOSPACE, a), m).
Proof.
  intros Hok Hn Hn16 a. change (la ++ TProp no old :: lb) with (la ++ [TProp no old] ++ lb) in Hok.
  destruct (rw_sizes _ _ _ _ _ Hok) as (G1 & G2 & G3 & G4 & G5 & G6 & G7).
  pose proof (gap_open m la [TProp no old] lb strs Hok) as Hgap. cbn [size token_size] in G2, G4, Hgap.
  rewrite Z.add_0_r in Hgap. set (k := Z.of_nat (length old)) in *. pose proof (up4_range k). pose proof (up4_range n).
  destruct (blob_token m fdt _ (rw_blob _ _ _ Hok) la (TProp no old) lb eq_refl) as (Hbt & _ & _).
  rewrite (go_off_struct _ _ _ _ _ Hok) in Hbt. apply block_prop in Hbt as (B1 & B2 & B3 & _). fold a in B1, B2, B3.
  unfold property_data, property_len. rewrite !FDT_TAGALIGN_eq by lia. fold (up4 n) (up4 k).
  pose proof (splice_struct_run m la 12 (up4 k) (up4 n) lb strs Hgap ltac:(lia) ltac:(lia) ltac:(lia)) as E.
  cbv zeta in E. fold a in E. case_decide as Hr.
  - destruct E as (m1 & E & Hgap1 & _ & Hkeep & Hs1).
    destruct (gap_st32 m1 la (12 + up4 n) lb strs 4 n Hgap1 ltac:(lia) ltac:(lia)) as (Hgap2 & _ & Hs2 & Hw & Hbl).
    fold a in Hgap2, Hs2, Hw, Hbl.
    assert (Hbk : forall i l, 0 <= i -> i + Z.of_nat (length l) <= 4 \/ 8 <= i /\ i + Z.of_nat (length l) <= 12 ->
      block m (a + i) l -> block (st32 m1 (a + 4) (cpu_to_fdt32 n)) (a + i) l).
    { intros i l Hi Hrange Hb. apply (block_same_outside _ _ _ _ _ Hw); [unfold within; simpl; lia|].
      intros j x Hj. rewrite <- (Hb j x Hj). apply lookup_lt_Some in Hj. apply Hkeep. unfold a. lia. }
    exists (st32 m1 (a + 4) (cpu_to_fdt32 n)). split; [|split; [|by eapply same_outside_trans]].
    + rewrite (W_bind_run _ _ _ _ _ E). cbn [truthy Z.eqb negb]. by rewrite writes_run, W_ret_run, u32_id by lia.
    + split; fold a; [done| |apply Hbl; lia|].
      * pose proof (Hbk 0 (be_bytes FDT_PROP)) as Hb0. rewrite Z.add_0_r in Hb0. apply Hb0; [lia|cbn [length be_bytes]; lia|done].
      * apply (Hbk 8); [lia|cbn [length be_bytes]; lia|done].
  - by rewrite (W_bind_run _ _ _ _ _ E).
Qed.

(** *** A new property *)
Lemma insert_prop_run m la lb strs n no :
  rw_ok m (la ++ lb) strs -> 0 <= n -> n + 16 < 2 ^ 31 -> is_u32 no ->
  let a := base + size la in
  if decide (12 + up4 n <= room m)
  then exists m1, fdt_splice_struct_ fdt a 0 (12 + up4 n) m = Some (0, m1) /\
    let m' := st32 (st32 (st32 m1 a (cpu_to_fdt32 FDT_PROP)) (property_nameoff a) (cpu_to_fdt32 no))
                (property_len a) (cpu_to_fdt32 n) in
    prop_open m' la n lb strs no /\ same_outside in_buf m m'
  else fdt_splice_struct_ fdt a 0 (12 + up4 n) m = Some (- FDT_ERR_NOSPACE, m).
Proof.
  intros Hok Hn Hn16 Hno a. pose proof (up4_range n).
  pose proof (gap_open m la [] lb strs Hok) as Hgap.
  pose proof (splice_struct_run m la 0 0 (12 + up4 n) lb strs Hgap ltac:(lia) ltac:(lia) ltac:(lia)) as E.
  cbv zeta in E. rewrite Z.add_0_r in E. fold a in E. rewrite Z.sub_0_r in E. case_decide as Hr; [|exact E].
  destruct E as (m1 & E & Hgap1 & _ & _ & Hs1). exists m1. split; [exact E|]. rewrite Z.add_0_l in Hgap1.
  destruct (gap_st32 m1 la (12 + up4 n) lb strs 0 FDT_PROP Hgap1 ltac:(lia) ltac:(lia)) as (Hgap2 & _ & Hs2 & Hw2 & Hb2).
  fold a in Hgap2, Hs2, Hw2, Hb2. rewrite Z.add_0_r in Hgap2, Hs2, Hw2, Hb2. set (m2 := st32 m1 a _) in *.
  destruct (gap_st32 m2 la (12 + up4 n) lb strs 8 no Hgap2 ltac:(lia) ltac:(lia)) as (Hgap3 & _ & Hs3 & Hw3 & Hb3).
  fold a in Hgap3, Hs3, Hw3, Hb3. unfold property_nameoff. set (m3 := st32 m2 (a + 8) _) in *.
  destruct (gap_st32 m3 la (12 + up4 n) lb strs 4 n Hgap3 ltac:(lia) ltac:(lia)) as (Hgap4 & _ & Hs4 & Hw4 & Hb4).
  fold a in Hgap4, Hs4, Hw4, Hb4. unfold property_len. set (m4 := st32 m3 (a + 4) _) in *. cbv zeta. split.
  - split; fold a; [done| |apply Hb4; lia|].
    + apply (block_same_outside _ _ _ _ _ Hw4); [unfold within; cbn [length be_bytes]; lia|].
      apply (block_same_outside _ _ _ _ _ Hw3); [unfold within; cbn [length be_bytes]; lia|].
      apply Hb2. vm_compute. split; congruence.
    + apply (block_same_outside _ _ _ _ _ Hw4); [unfold within; cbn [length be_bytes]; lia|]. by apply Hb3.
  - eapply same_outside_trans; [exact Hs1|]. eapply same_outside_trans; [exact Hs2|]. by eapply same_outside_trans.
Qed.

Lemma same_prop_app strs l ps qs :
  Forall2 (same_prop (string_in strs)) ps qs -> Forall2 (same_prop (string_in (strs ++ l))) ps qs.
Proof. intros H. eapply Forall2_impl; [exact H|]. intros p q [H1 H2]. split; [done|by apply string_in_app]. Qed.

(** The place of the property in the node, whatever its value will be. *)
Record prop_place (l1 : list token) (name : list Z) (children : list dtree) (l2 : list token) (strs want : list Z)
    (qs : list (list Z * list Z)) (la lb : list token) (no : Z) : Prop := {
  pl_u32 : is_u32 no;
  pl_tokens : exists p1 p2, la = l1 ++ TBegin name :: map prop_token p1 /\
    lb = map prop_token p2 ++ forest_tokens children ++ TEndNode :: l2 /\
    forall data, Forall2 (same_prop (string_in strs)) (p1 ++ (no, data) :: p2) (vset_prop want data qs);
}.

(** What a client may rely on when there is no room. *)
Definition prop_room (want : list Z) (n : Z) : Z := 12 + up4 n + Z.of_nat (length want) + 1.

Lemma fdt_add_property_run m l1 name props children l2 strs qs p want n prop0 :
  rw_ok m (node_in l1 name props children l2) strs -> TEnd ∈ l2 ->
  Forall2 (same_prop (string_in strs)) props qs -> lacks want qs ->
  0 < p -> cstr m p want -> Z.of_nat (length want) + 1 < 2 ^ 31 -> (length want <= fuel)%nat -> off_buf p (S (length want)) ->
  0 <= n -> n + 16 < 2 ^ 31 ->
  exists m' r prop, fdt_add_property_ fdt fuel (size l1) p n prop0 m = Some ((r, prop), m') /\ same_outside in_buf m m' /\
    ((exists la lb no l, r = 0 /\ prop = base + size la /\ prop_open m' la n lb (strs ++ l) no /\
        prop_place l1 name children l2 (strs ++ l) want qs la lb no) \/
     (r = - FDT_ERR_NOSPACE /\ room m < prop_room want n /\ rw_ok m' (node_in l1 name props children l2) strs)).
Proof.
  intros Hok Hend Hq Hl Hp Hc Hw Hwf Hoff Hn Hn16. set (la := l1 ++ [TBegin name]).
  set (lb := map prop_token props ++ forest_tokens children ++ TEndNode :: l2).
  assert (El : node_in l1 name props children l2 = la ++ lb) by (unfold node_in, la, lb; by norm_tokens).
  pose proof (up4_range n). destruct (rw_sizes m l1 [TBegin name] lb strs) as (G1 & G2 & G3 & G4 & G5 & G6 & G7).
  { rewrite app_assoc. fold la. by rewrite <- El. }
  unfold fdt_add_property_.
  erewrite runs_run by (by eapply (fdt_check_node_offset_begin m fdt _ (rw_blob _ _ _ Hok) fuel (rw_fuel _ _ _ Hok) l1 name lb)).
  fold la. assert (Hla : size la = size l1 + size [TBegin name]) by (unfold la; by rewrite size_app).
  destruct (Z.ltb_spec (size la) 0); [lia|].
  assert (Eptr : forall m1 strs1, rw_ok m1 (la ++ lb) strs1 -> fdt_offset_ptr_ m1 fdt (size la) = base + size la).
  { intros m1 strs1 H1. by apply (rw_offset_ptr m1 (la ++ lb) strs1). }
  assert (Elen : s32 (FDT_PROPERTY_SIZEOF + FDT_TAGALIGN64 n) = 12 + up4 n).
  { rewrite (proj1 (FDT_TAGALIGN64_eq n ltac:(lia))), s32_id by (unfold FDT_PROPERTY_SIZEOF; lia). done. }
  (* the property, when the name is in the table *)
  assert (Hins : forall m1 l no, rw_ok m1 (la ++ lb) (strs ++ l) -> string_in (strs ++ l) no want -> 0 <= no < 2 ^ 31 ->
    prop_place l1 name children l2 (strs ++ l) want qs la lb no).
  { intros m1 l no Hok1 Hsn Hno. split; [lia|]. exists [], props. split; [done|]. split; [done|].
    intros data. rewrite vset_prop_new by done. constructor; [by split|by apply same_prop_app]. }
  rewrite El in *.
  destruct (rw_find_add_string_run fuel m _ strs want p Hok Hc Hwf Hoff ltac:(lia))
    as [(no & E & Hno & Hsn)|[(Hroom & m1 & E & Hno & Hok1 & Hr1 & Hs1)|(Hroom & E)]];
    rewrite (W_bind_run _ _ _ _ _ E).
  - destruct (Z.ltb_spec no 0); [lia|]. rewrite reads_run, (Eptr _ _ Hok), Elen, !u32_id by lia.
    pose proof (insert_prop_run m la lb strs n no Hok Hn Hn16 ltac:(lia)) as Ei. cbv zeta in Ei. case_decide as Hr.
    + destruct Ei as (m2 & E2 & Hop & Hs2). eexists _, 0, _. split; [|split; [exact Hs2|left; exists la, lb, no, []]].
      * rewrite (W_bind_run _ _ _ _ _ E2). cbn [truthy Z.eqb negb]. by rewrite !writes_run, W_ret_run.
      * rewrite app_nil_r. split; [done|]. split; [done|]. split; [exact Hop|].
        pose proof (Hins m [] no) as Hpl. rewrite app_nil_r in Hpl. by apply Hpl.
    + exists m, (- FDT_ERR_NOSPACE), (base + size la). split; [|split; [apply same_outside_refl|right]].
      * rewrite (W_bind_run _ _ _ _ _ Ei). reflexivity.
      * split; [done|]. split; [unfold prop_room; lia|done].
  - destruct (Z.ltb_spec (Z.of_nat (length strs)) 0); [lia|]. rewrite reads_run, (Eptr _ _ Hok1), Elen, !u32_id by lia.
    pose proof (insert_prop_run m1 la lb _ n (Z.of_nat (length strs)) Hok1 Hn Hn16 ltac:(lia)) as Ei. cbv zeta in Ei.
    case_decide as Hr.
    + destruct Ei as (m2 & E2 & Hop & Hs2).
      eexists _, 0, _. split; [|split; [eapply same_outside_trans; [exact Hs1|exact Hs2]|left; exists la, lb, (Z.of_nat (length strs)), (want ++ [0])]].
      * rewrite (W_bind_run _ _ _ _ _ E2). cbn [truthy Z.eqb negb]. by rewrite !writes_run, W_ret_run.
      * split; [done|]. split; [done|]. split; [exact Hop|]. apply (Hins m1); [done| |lia].
        destruct Hc as [_ Hz]. exists strs, []. split; [done|]. by split.
    + destruct (rw_del_last_string_run fuel m1 _ strs want p Hok1 (cstr_in_rw _ _ _ _ Hs1 Hoff Hc) Hwf ltac:(lia))
        as (m2 & E2 & Hok2 & Hr2 & Hs2).
      exists m2, (- FDT_ERR_NOSPACE), (base + size la). split; [|split; [by eapply same_outside_trans|right]].
      * rewrite (W_bind_run _ _ _ _ _ Ei). change (truthy (- FDT_ERR_NOSPACE)) with true. cbv iota.
        by rewrite (W_bind_run _ _ _ _ _ E2).
      * split; [done|]. split; [unfold prop_room; lia|done].
  - exists m, (- FDT_ERR_NOSPACE), prop0. split; [reflexivity|]. split; [apply same_outside_refl|right].
    split; [done|]. split; [unfold prop_room; lia|done].
Qed.

Lemma fdt_setprop_placeholder_run m l1 name props children l2 strs qs p want n :
  rw_ok m (node_in l1 name props children l2) strs -> TEnd ∈ l2 ->
  Forall2 (same_prop (string_in strs)) props qs ->
  0 < p -> cstr m p want -> Z.of_nat (length want) + 1 < 2 ^ 31 -> (length want <= fuel)%nat -> off_buf p (S (length want)) ->
  0 <= n -> n + 16 < 2 ^ 31 ->
  exists m' r prop, fdt_setprop_placeholder fdt fuel (size l1) p n m = Some ((r, prop), m') /\ same_outside in_buf m m' /\
    ((exists la lb no l, r = 0 /\ prop = Some (base + size la + 12) /\ prop_open m' la n lb (strs ++ l) no /\
        prop_place l1 name children l2 (strs ++ l) want qs la lb no) \/
     (r = - FDT_ERR_NOSPACE /\ room m < prop_room want n /\ rw_ok m' (node_in l1 name props children l2) strs)).
Proof.
  intros Hok Hend Hq Hp Hc Hw Hwf Hoff Hn Hn16. destruct (fdt_rw_probe_run m _ strs Hok) as (m1 & E1 & Hok1 & Hroom & Hs1).
  pose proof (cstr_in_rw _ _ _ _ Hs1 Hoff Hc) as Hc1. pose proof (up4_range n).
  unfold fdt_setprop_placeholder. rewrite (W_bind_run _ _ _ _ _ E1). cbn [truthy Z.eqb negb].
  unfold fdt_resize_property_.
  destruct (fdt_get_property_cases m1 l1 name props children l2 strs qs p want Hok1 Hend Hq Hp Hc1 ltac:(lia) Hwf)
    as [(p1 & no & old & p2 & q1 & q2 & -> & -> & H1 & H2 & H3 & H4 & Eg)|[Hl Eg]].
  - set (la := l1 ++ TBegin name :: map prop_token p1) in *.
    set (lb := map prop_token p2 ++ forest_tokens children ++ TEndNode :: l2).
    assert (Hok1' : rw_ok m1 (la ++ TProp no old :: lb) strs).
    { revert Hok1. change (p1 ++ (no, old) :: p2) with (p1 ++ [(no, old)] ++ p2). by rewrite node_in_split. }
    pose proof (rw_sizes m1 la [TProp no old] lb strs Hok1') as (G1 & G2 & G3 & G4 & G5 & G6 & G7).
    assert (Hno : is_u32 no).
    { destruct (blob_token m1 fdt _ (rw_blob _ _ _ Hok1') la (TProp no old) lb eq_refl) as (_ & (Hno & _) & _). exact Hno. }
    pose proof (resize_run m1 la no old lb strs n Hok1' Hn Hn16) as Er. cbv zeta in Er.
    assert (En : base + size la =? NULL = false) by (apply Z.eqb_neq; unfold NULL; lia).
    case_decide as Hr.
    + destruct Er as (m2 & E2 & Hop & Hs2). exists m2, 0, (Some (base + size la + 12)).
      split; [|split; [by eapply same_outside_trans|left; exists la, lb, no, []; rewrite app_nil_r]].
      * rewrite (W_bind_run _ _ _ (0, base + size la) m2); [reflexivity|].
        erewrite runs_run by exact Eg. cbv beta iota. rewrite En. exact E2.
      * split; [done|]. split; [done|]. split; [exact Hop|]. split; [done|]. exists p1, p2. split; [done|]. split; [done|].
        intros data. rewrite vset_prop_split by done. apply Forall2_app; [done|]. by constructor.
    + pose proof (up4_range (Z.of_nat (length old))).
      exists m1, (- FDT_ERR_NOSPACE), None. split; [|split; [done|right; split; [done|split; [unfold prop_room; lia|done]]]].
      rewrite (W_bind_run _ _ _ (- FDT_ERR_NOSPACE, base + size la) m1); [reflexivity|].
      erewrite runs_run by exact Eg. cbv beta iota. rewrite En. exact Er.
  - destruct (fdt_add_property_run m1 l1 name props children l2 strs qs p want n NULL Hok1 Hend Hq Hl Hp Hc1 Hw Hwf Hoff Hn Hn16)
      as (m2 & r & prop & E2 & Hs2 & Hcases).
    rewrite (W_bind_run _ _ _ (- FDT_ERR_NOTFOUND, NULL) m1); [|by erewrite runs_run by exact Eg].
    cbv beta iota. rewrite Z.eqb_refl, (W_bind_run _ _ _ _ _ E2). cbv beta iota.
    destruct Hcases as [(la & lb & no & l & -> & -> & Hop & Hpl)|(-> & Hr & Hok2)].
    + exists m2, 0, (Some (base + size la + 12)). split; [reflexivity|]. split; [by eapply same_outside_trans|left].
      by exists la, lb, no, l.
    + exists m2, (- FDT_ERR_NOSPACE), None. split; [reflexivity|]. split; [by eapply same_outside_trans|right].
      split; [done|]. split; [lia|done].
Qed.

Lemma fdt_setprop_run m l1 name props children l2 strs qs p want v data :
  let n := Z.of_nat (length data) in
  rw_ok m (node_in l1 name props children l2) strs -> TEnd ∈ l2 ->
  Forall2 (same_prop (string_in strs)) props qs ->
  0 < p -> cstr m p want -> Z.of_nat (length want) + 1 < 2 ^ 31 -> (length want <= fuel)%nat -> off_buf p (S (length want)) ->
  block m v data -> off_buf v (length data) -> Forall (fun c => 0 <= c < 256) data -> n + 16 < 2 ^ 31 ->
  exists m' r, fdt_setprop fdt fuel (size l1) p v n m = Some (r, m') /\ same_outside in_buf m m' /\
    ((exists ps l, r = 0 /\ rw_ok m' (node_in l1 name ps children l2) (strs ++ l) /\
        Forall2 (same_prop (string_in (strs ++ l))) ps (vset_prop want data qs)) \/
     (r = - FDT_ERR_NOSPACE /\ room m < prop_room want n /\ rw_ok m' (node_in l1 name props children l2) strs)).
Proof.
  intros n Hok Hend Hq Hp Hc Hw Hwf Hoff Hv Hvoff Hdata Hn.
  destruct (fdt_setprop_placeholder_run m l1 name props children l2 strs qs p want n Hok Hend Hq Hp Hc Hw Hwf Hoff ltac:(lia) Hn)
    as (m1 & r & prop & E & Hs & [(la & lb & no & l & -> & -> & Hop & [Hno (p1 & p2 & Ela & Elb & Hpl)])|(-> & Hr & Hok1)]);
    unfold fdt_setprop; rewrite (W_bind_run _ _ _ _ _ E); cbv beta iota.
  - change (truthy 0) with false. cbv iota. set (a := base + size la) in *.
    assert (Em : (if truthy n then writes (fun m => memcpy m (default NULL (Some (a + 12))) v (count n)) else mret tt) m1 =
      Some (tt, memcpy m1 (a + 12) v (length data))).
    { unfold truthy. destruct (Z.eqb_spec n 0) as [E0|_]; cbn [negb].
      - replace (length data) with O by lia. by rewrite memcpy_nothing.
      - unfold count. rewrite u64_id by lia. unfold writes, n. by rewrite Nat2Z.id. }
    destruct (prop_close m1 la lb (strs ++ l) no data v Hop) as (Hok2 & _ & Hs2); [by split; [done|split; [lia|done]]| |done|].
    { apply (block_same_outside _ _ _ _ _ Hs); [|done]. unfold FdtSwSpec.off_buf, FdtSwSpec.in_buf, within in *. intros x Hx. lia. }
    eexists _, 0. rewrite (W_bind_run _ _ _ _ _ Em). split; [reflexivity|]. split; [by eapply same_outside_trans|left].
    exists (p1 ++ (no, data) :: p2), l. split; [done|]. split; [|apply Hpl].
    change (p1 ++ (no, data) :: p2) with (p1 ++ [(no, data)] ++ p2). rewrite node_in_split, <- Ela, <- Elb. exact Hok2.
  - eexists _, _. split; [reflexivity|]. split; [done|]. by right.
Qed.

(** ** A new node *)
Lemma skip_props_run m ts strs n la props t rest :
  rw_ok m ts strs -> ts = la ++ map prop_token props ++ t :: rest ->
  token_tag t <> FDT_PROP -> token_tag t <> FDT_NOP -> (length props <= n)%nat ->
  skip_props fdt fuel n (size la) m = Some (size (la ++ map prop_token props)).
Proof.
  intros Hok E H1 H2. pose proof (rw_blob _ _ _ Hok) as Hb. pose proof (rw_fuel _ _ _ Hok) as Hf.
  revert n la E. induction props as [|[no d] props IH]; intros n la E Hn.
  - cbn [map app] in *. rewrite app_nil_r. destruct n; cbn [skip_props];
      rewrite (fdt_next_tag_token m fdt ts Hb fuel la t rest E Hf); cbn [mbind option_bind];
      (destruct (Z.eqb_spec (token_tag t) FDT_PROP); [done|]); destruct (Z.eqb_spec (token_tag t) FDT_NOP); done.
  - destruct n as [|n]; [simpl in Hn; lia|]. cbn [skip_props map app] in *.
    rewrite (fdt_next_tag_token m fdt ts Hb fuel la _ _ E Hf). cbn [mbind option_bind token_tag prop_token].
    change (FDT_PROP =? FDT_PROP) with true. cbn [orb]. rewrite <- size_snoc.
    rewrite (IH n (la ++ [prop_token (no, d)])); [by rewrite <- app_assoc|by rewrite <- app_assoc|simpl in Hn; lia].
Qed.

(** The beginning and the end of a node without contents. *)
Lemma write_node_run m la lb strs want p :
  let padded := up4 (Z.of_nat (length want) + 1) in
  gap_ok m la (8 + padded) lb strs -> Forall (fun c => 0 < c < 256) want ->
  bytes_at (length want) m p = want -> off_buf p (length want) ->
  let nh := base + size la in
  let m' := st32 (memcpy (memset (st32 m nh (cpu_to_fdt32 FDT_BEGIN_NODE)) (nh + 4) 0 (Z.to_nat padded)) (nh + 4) p (length want))
              (nh + (4 + padded)) (cpu_to_fdt32 FDT_END_NODE) in
  rw_ok m' (la ++ [TBegin want; TEndNode] ++ lb) strs /\ same_outside in_buf m m'.
Proof.
  intros padded Hgap Hwant Hp Hoff nh. pose proof (up4_range (Z.of_nat (length want) + 1)) as Hup. fold padded in Hup.
  pose proof Hgap as [(? & ? & ?) _ _ _ _ _ _ Hord _ Hend _ _ _ _]. pose proof (size_nonneg la). pose proof (size_nonneg lb).
  destruct (gap_st32 m la (8 + padded) lb strs 0 FDT_BEGIN_NODE Hgap ltac:(lia) ltac:(lia)) as (Hg1 & _ & Hs1 & _ & Hb1).
  fold nh in Hg1, Hs1, Hb1. rewrite Z.add_0_r in Hg1, Hs1, Hb1. set (m1 := st32 m nh _) in *.
  set (m2 := memset m1 (nh + 4) 0 (Z.to_nat padded)). set (m3 := memcpy m2 (nh + 4) p (length want)).
  assert (Hw2 : same_outside (within (nh + 4) (Z.to_nat padded)) m1 m2) by apply memset_same_outside.
  assert (Hcp : copied m2 (nh + 4) p (length want) m3).
  { apply memcpy_copied. unfold FdtSwSpec.off_buf, nh in *. lia. }
  pose proof (copied_same_outside _ _ _ _ _ Hcp) as Hw3.
  assert (Hw : same_outside (within (nh + 4) (Z.to_nat padded)) m1 m3).
  { eapply same_outside_trans; [exact Hw2|]. eapply same_outside_mono; [|exact Hw3]. unfold within. intros x Hx. lia. }
  destruct (gap_keep m1 m3 la (8 + padded) lb strs Hg1) as [Hg3 _].
  { eapply same_outside_mono; [|exact Hw]. unfold within, nh. intros x Hx. lia. }
  destruct (gap_st32 m3 la (8 + padded) lb strs (4 + padded) FDT_END_NODE Hg3 ltac:(lia) ltac:(lia)) as (Hg4 & _ & Hs4 & Hw4 & Hb4).
  fold nh in Hg4, Hs4, Hw4, Hb4. set (m4 := st32 m3 _ _) in *. cbv zeta. split.
  - apply (gap_fill m4 la [TBegin want; TEndNode] lb strs).
    + cbn [size token_size]. fold padded. by replace (4 + padded + (4 + 0)) with (8 + padded) by lia.
    + cbn [encoded token_size]. fold nh padded. split; [|split; [|done]].
      * apply (block_same_outside _ _ _ _ _ Hw4).
        { intros x Hx. unfold within in *. pose proof (length_token_data (TBegin want)) as Hl. cbn [token_size] in Hl. fold padded in Hl. lia. }
        unfold token_data. cbn [token_tag]. apply block_app. split.
        { apply (block_same_outside _ _ _ _ _ Hw); [unfold within; cbn [length be_bytes]; lia|]. apply Hb1. vm_compute. split; congruence. }
        change (Z.of_nat (length (be_bytes FDT_BEGIN_NODE))) with 4. apply block_app. split.
        { apply (block_copied _ _ _ _ _ _ Hcp); [done|]. apply block_check.
          transitivity (bytes_at (length want) m1 p); [|by apply (bytes_in_rw _ _ _ _ Hs1)].
          apply list_eq. intros i. destruct (decide (i < length want)%nat) as [Hi|Hi].
          - rewrite !lookup_bytes_at by done. f_equal. symmetry. apply Hw2. unfold within, FdtSwSpec.off_buf, nh in *. lia.
          - by rewrite !lookup_ge_None_2 by (rewrite ?length_bytes_at; lia). }
        { apply block_cons. split; [|done]. transitivity (rd m2 (nh + 4 + Z.of_nat (length want))).
          - symmetry. apply Hw3. unfold within. lia.
          - unfold m2. by rewrite rd_memset_zero, decide_True by (unfold within; lia). }
      * unfold token_data. cbn [token_tag]. rewrite app_nil_r. apply Hb4. vm_compute. split; congruence.
    + apply Forall_cons. split; [done|]. by apply Forall_singleton.
  - eapply same_outside_trans; [exact Hs1|]. eapply same_outside_trans; [|exact Hs4].
    eapply same_outside_mono; [|exact Hw]. unfold FdtSwSpec.in_buf, within, nh. intros x Hx. lia.
Qed.

Lemma fdt_add_subnode_namelen_run m l1 name props children l2 strs p want :
  let ts := node_in l1 name props children l2 in
  rw_ok m ts strs -> TEnd ∈ l2 -> slice_at m p want -> off_buf p (length want) ->
  Forall (fun c => 0 < c < 256) want -> Z.of_nat (length want) + 16 < 2 ^ 31 ->
  exists m' r, fdt_add_subnode_namelen fdt fuel (size l1) p (Z.of_nat (length want)) m = Some (r, m') /\
    same_outside in_buf m m' /\
    match find_in want 0 children with
    | Some _ => r = - FDT_ERR_EXISTS /\ rw_ok m' ts strs
    | None =>
        (r = size (l1 ++ TBegin name :: map prop_token props) /\
           rw_ok m' (node_in l1 name props (DNode want [] [] :: children) l2) strs) \/
        (r = - FDT_ERR_NOSPACE /\ room m < 8 + up4 (Z.of_nat (length want) + 1) /\ rw_ok m' ts strs)
    end.
Proof.
  intros ts Hok Hend [Hp Hsl] Hoff Hwant Hlen. set (t := DNode name props children). set (k := Z.of_nat (length want)) in *.
  set (padded := up4 (k + 1)). pose proof (up4_range (k + 1)) as Hup. fold padded in Hup.
  destruct (fdt_rw_probe_run m _ strs Hok) as (m1 & E1 & Hok1 & Hroom & Hs1).
  pose proof (bytes_in_rw _ _ _ _ Hs1 Hoff Hsl) as Hsl1.
  set (la := l1 ++ TBegin name :: map prop_token props). set (lb := forest_tokens children ++ TEndNode :: l2).
  assert (El : ts = la ++ lb) by (unfold ts, node_in, la, lb; by norm_tokens).
  assert (Ht : tree_at ts (size l1) t) by (exists l1, l2; split; [unfold ts, node_in, t; by norm_tokens|by split]).
  pose proof (fdt_subnode_offset_run m1 fdt ts (rw_blob _ _ _ Hok1) fuel (rw_fuel _ _ _ Hok1) (size l1) t p want Ht
    (conj Hp Hsl1)) as Es. rewrite child_named_found in Es.
  pose proof (find_in_some_offset want 0 (children_start (size l1) t) children) as [Hnone Hsome].
  destruct (rw_sizes m1 l1 (TBegin name :: map prop_token props) lb strs) as (G1 & G2 & G3 & G4 & G5 & G6 & G7).
  { rewrite app_assoc. fold la. by rewrite <- El. }
  assert (Hla : size la = size l1 + size (TBegin name :: map prop_token props)) by (unfold la; by rewrite size_app).
  unfold fdt_add_subnode_namelen. rewrite (W_bind_run _ _ _ _ _ E1). cbn [truthy Z.eqb negb].
  erewrite runs_run by exact Es. unfold find_child. change (node_children t) with children.
  destruct (find_in want 0 children) as [x|].
  { destruct (Hsome x eq_refl) as (o2 & t2 & -> & Ho2). cbn [found]. exists m1, (- FDT_ERR_EXISTS).
    assert (0 <= children_start (size l1) t).
    { unfold children_start, t. cbn [node_name node_props]. pose proof (token_size_pos (TBegin name)).
      pose proof (size_nonneg (map prop_token props)). lia. }
    destruct (Z.leb_spec 0 o2); [|lia]. by split_and!. }
  rewrite (Hnone eq_refl). cbn [found]. change (0 <=? - FDT_ERR_NOTFOUND) with false. rewrite Z.eqb_refl. cbn [negb].
  (* the offset behind the properties *)
  destruct (after_props children l2) as (tk & rest & Etk & N1 & N2 & N3).
  assert (E' : ts = (l1 ++ [TBegin name]) ++ map prop_token props ++ tk :: rest).
  { rewrite <- Etk. unfold ts, node_in. by norm_tokens. }
  pose proof (fdt_next_tag_token m1 fdt ts (rw_blob _ _ _ Hok1) fuel l1 (TBegin name) (map prop_token props ++ tk :: rest)
    ltac:(rewrite E'; by norm_tokens) (rw_fuel _ _ _ Hok1)) as En.
  erewrite runs_run by exact En. cbv beta iota. rewrite <- size_snoc.
  pose proof (skip_props_run m1 ts strs fuel (l1 ++ [TBegin name]) props tk rest Hok1 E') as Ep.
  replace ((l1 ++ [TBegin name]) ++ map prop_token props) with la in Ep by (unfold la; by rewrite <- app_assoc).
  assert (Hpl : (length props <= fuel)%nat).
  { pose proof (length_blob m1 fdt ts (rw_blob _ _ _ Hok1) fuel (rw_fuel _ _ _ Hok1) _ _ E') as Hl.
    rewrite length_app, length_map in Hl. lia. }
  erewrite runs_run by (apply Ep; [destruct tk; try done; by destruct (N3 nameoff data)|by destruct tk|exact Hpl]).
  rewrite reads_run, (rw_offset_ptr m1 ts strs) by done.
  rewrite (s32_id (k + 1)), (proj1 (FDT_TAGALIGN64_eq (k + 1) ltac:(lia))) by lia. fold padded.
  unfold NODE_HEADER_SIZEOF, FDT_TAGSIZE. rewrite s32_id by lia. replace (4 + padded + 4) with (8 + padded) by lia.
  (* the splice *)
  rewrite El in Hok1. pose proof (gap_open m1 la [] lb strs Hok1) as Hgap.
  pose proof (splice_struct_run m1 la 0 0 (8 + padded) lb strs Hgap ltac:(lia) ltac:(lia) ltac:(lia)) as Ei. cbv zeta in Ei.
  rewrite Z.add_0_r, Z.sub_0_r in Ei. case_decide as Hr.
  - destruct Ei as (m2 & E2 & Hgap2 & _ & _ & Hs2). rewrite Z.add_0_l in Hgap2.
    pose proof (bytes_in_rw _ _ _ _ Hs2 Hoff Hsl1) as Hsl2.
    destruct (write_node_run m2 la lb strs want p Hgap2 Hwant Hsl2 Hoff) as [Hok3 Hs3].
    eexists _, (size la). split; [|split; [|left; split; [done|]]].
    + rewrite (W_bind_run _ _ _ _ _ E2). cbn [truthy Z.eqb negb]. rewrite !writes_run, W_ret_run. reflexivity.
    + eapply same_outside_trans; [exact Hs1|]. eapply same_outside_trans; [exact Hs2|].
      unfold count. rewrite u64_id by lia. unfold k. rewrite Nat2Z.id. unfold node_header_name.
      replace (base + size la + (8 + padded) - 4) with (base + size la + (4 + padded)) by lia. exact Hs3.
    + unfold count. rewrite u64_id by lia. unfold k. rewrite Nat2Z.id. unfold node_header_name.
      replace (base + size la + (8 + padded) - 4) with (base + size la + (4 + padded)) by lia.
      replace (node_in l1 name props (DNode want [] [] :: children) l2) with (la ++ [TBegin want; TEndNode] ++ lb); [exact Hok3|].
      unfold node_in, la, lb. by norm_tokens.
  - exists m1, (- FDT_ERR_NOSPACE). split; [by rewrite (W_bind_run _ _ _ _ _ Ei)|]. split; [done|right].
    split; [done|]. split; [lia|by rewrite El].
Qed.
End Rw.
