(* ===== verification/FdtRefine.v ===== *)
(** * FdtRefine: fdt_rw.c refines operations on trees

    The state of the refinement is a tree of names and values ([vtree], FdtSwSpec.v);
    [holds] is the relation of a buffer and a tree. Every function of fdt_rw.c that is
    here either does the operation on the tree or reports an error and leaves the tree
    as it was, and what it leaves is read back as the tree. *)
From Stdlib Require Import ZArith Lia.
From stdpp Require Import prelude gmap list strings.
From S2P Require Import Prelude Memory TString Kernel Fdt FdtTokens FdtMonad FdtEdit FdtRo FdtSw FdtRw FdtTree FdtSpec FdtSwSpec FdtRwSpec.
Open Scope Z_scope.

(** ** Operations on trees

    The node that a path leads to becomes the list of nodes [f] gives. *)
Fixpoint vedit_in (want : list Z) (g : vtree -> list vtree) (l : list vtree) : list vtree :=
  match l with
  | [] => []
  | v :: l => if name_matches (vnode_name v) want then g v ++ l else v :: vedit_in want g l
  end.
Fixpoint vedit_path (path : list (list Z)) (f : vtree -> list vtree) (v : vtree) : list vtree :=
  match path with
  | [] => f v
  | want :: path =>
      let '(VNode name props children) := v in
      [VNode name props (vedit_in want (vedit_path path f) children)]
  end.

(** Setting a property, deleting one, adding a child, and deleting the node. *)
Definition vset (want data : list Z) (v : vtree) : list vtree :=
  let '(VNode name props children) := v in [VNode name (vset_prop want data props) children].
Fixpoint vremove_prop (want : list Z) (props : list (list Z * list Z)) : list (list Z * list Z) :=
  match props with
  | [] => []
  | q :: props => if bool_decide (fst q = want) then props else q :: vremove_prop want props
  end.
Definition vremove (want : list Z) (v : vtree) : list vtree :=
  let '(VNode name props children) := v in [VNode name (vremove_prop want props) children].
Definition vadd (want : list Z) (v : vtree) : list vtree :=
  let '(VNode name props children) := v in [VNode name props (VNode want [] [] :: children)].
Definition vdelete (v : vtree) : list vtree := [].

Lemma vedit_in_split want g a c b :
  Forall (fun v => name_matches (vnode_name v) want = false) a -> name_matches (vnode_name c) want = true ->
  vedit_in want g (a ++ c :: b) = a ++ g c ++ b.
Proof.
  intros Ha Hc. induction Ha as [|v a Hv Ha IH]; cbn [app vedit_in]; [by rewrite Hc|]. by rewrite Hv, IH.
Qed.
Lemma vremove_prop_split want old q1 q2 : lacks want q1 -> vremove_prop want (q1 ++ (want, old) :: q2) = q1 ++ q2.
Proof.
  intros Hl. induction Hl as [|q q1 Hq Hl IH]; cbn [app vremove_prop fst]; [by rewrite bool_decide_eq_true_2|].
  rewrite bool_decide_eq_false_2 by done. by rewrite IH.
Qed.

Lemma vfind_prop_split want old q1 q2 : lacks want q1 -> vfind_prop want (q1 ++ (want, old) :: q2) = Some old.
Proof.
  intros Hl. induction Hl as [|[n d] q1 Hq Hl IH]; cbn [app vfind_prop]; [by rewrite bool_decide_eq_true_2|].
  by rewrite bool_decide_eq_false_2.
Qed.
Lemma vfind_prop_lacks want qs : lacks want qs -> vfind_prop want qs = None.
Proof.
  intros Hl. induction Hl as [|[n d] qs Hq Hl IH]; cbn [vfind_prop]; [done|]. by rewrite bool_decide_eq_false_2.
Qed.
Lemma name_matches_refl want : name_matches want want = true.
Proof.
  unfold name_matches. rewrite take_ge, bool_decide_eq_true_2, Nat.leb_refl by done. by rewrite lookup_ge_None_2.
Qed.

Lemma find_in_split want o l o' c :
  find_in want o l = Some (o', c) ->
  exists a b, l = a ++ c :: b /\ o' = o + size (forest_tokens a) /\
    Forall (fun t => name_matches (node_name t) want = false) a /\ name_matches (node_name c) want = true.
Proof.
  revert o. induction l as [|t l IH]; intros o; [done|]. cbn [find_in]. destruct (name_matches (node_name t) want) eqn:E.
  - intros [= <- <-]. exists [], l. split; [done|]. split; [simpl; lia|]. split; [constructor|done].
  - intros (a & b & -> & -> & Ha & Hc)%IH. exists (t :: a), b. split; [done|]. split; [|split; [by constructor|done]].
    rewrite forest_tokens_cons, size_app. lia.
Qed.
Lemma find_in_middle want o a c b :
  Forall (fun t => name_matches (node_name t) want = false) a -> name_matches (node_name c) want = true ->
  find_in want o (a ++ c :: b) = Some (o + size (forest_tokens a), c).
Proof.
  intros Ha Hc. revert o. induction Ha as [|t a Ht Ha IH]; intros o; cbn [app find_in].
  - rewrite Hc. simpl. do 2 f_equal. lia.
  - rewrite Ht, IH, forest_tokens_cons, size_app. do 2 f_equal. lia.
Qed.
Lemma represents_name N t v : represents N t v -> node_name t = vnode_name v.
Proof. intros Hr. by destruct Hr. Qed.
Lemma represents_impl (N N' : Z -> list Z -> Prop) : (forall no n, N no n -> N' no n) ->
  forall v t, represents N t v -> represents N' t v.
Proof.
  intros HN. induction v as [name props children IH] using vtree_induction. intros t Hr. inversion Hr; subst.
  constructor.
  - eapply Forall2_impl; [eassumption|]. intros p q [Hd Hn]. split; [done|by apply HN].
  - match goal with H : Forall2 (represents N) ?l children |- _ => revert IH; clear -H; induction H; intros IH end; [constructor|].
    apply Forall_cons in IH as [IH1 IH2]. constructor; auto.
Qed.

(** The tokens around a node stay, and so does its place. *)
Lemma edit_split path root o0 o t :
  find_path path o0 root = Some (o, t) ->
  exists l1 l2, o = o0 + size l1 /\ tree_tokens root = l1 ++ tree_tokens t ++ l2 /\
    forall N v v' f ts, represents N root v -> vfind_path path v = Some v' -> Forall2 (represents N) ts (f v') ->
      exists roots, Forall2 (represents N) roots (vedit_path path f v) /\
        forest_tokens roots = l1 ++ forest_tokens ts ++ l2 /\
        forall t2, ts = [t2] -> node_name t2 = node_name t ->
          exists root2, roots = [root2] /\ node_name root2 = node_name root /\ find_path path o0 root2 = Some (o, t2).
Proof.
  revert root o0. induction path as [|want path IH]; intros root o0; cbn [find_path].
  - intros [= <- <-]. exists [], []. split; [simpl; lia|]. split; [by rewrite app_nil_r|].
    intros N v v' f ts Hr [= ->] Hts. exists ts. split; [done|]. split; [by rewrite app_nil_r|].
    intros t2 -> Hn. by exists t2.
  - destruct (find_child want o0 root) as [[o1 c]|] eqn:Ec; [|done]. cbn [mbind option_bind]. intros Hp.
    destruct (IH c o1 Hp) as (l1 & l2 & -> & Etok & Hedit). destruct root as [name props children].
    unfold find_child in Ec. cbn [node_children] in Ec.
    apply find_in_split in Ec as (a & b & -> & Eo & Ha & Hc).
    exists (TBegin name :: map prop_token props ++ forest_tokens a ++ l1), (l2 ++ forest_tokens b ++ [TEndNode]).
    split; [|split].
    + rewrite Eo. unfold children_start. cbn [node_name node_props size]. rewrite !size_app. lia.
    + rewrite tree_tokens_eq, forest_tokens_app, forest_tokens_cons, Etok. by norm_tokens.
    + intros N v v' f ts Hr Hv Hts. inversion Hr as [? ? props' ? vchildren Hprops Hch]; subst.
      apply Forall2_app_inv_l in Hch as (va & vcb & Hva & Hcb & ->). apply Forall2_cons_inv_l in Hcb as (vc & vb & Hvc & Hvb & ->).
      assert (Hna : Forall (fun v => name_matches (vnode_name v) want = false) va).
      { clear -Ha Hva. induction Hva as [|t v a va Ht Hva IH]; [constructor|]. apply Forall_cons in Ha as [H1 H2].
        constructor; [|by apply IH]. by rewrite <- (represents_name N t v Ht). }
      assert (Hnc : name_matches (vnode_name vc) want = true) by by rewrite <- (represents_name N c vc Hvc).
      assert (Hv' : vfind_path path vc = Some v').
      { revert Hv. cbn [vfind_path vnode_children]. enough (vfind_in want (va ++ vc :: vb) = Some vc) as -> by done.
        clear -Hna Hnc. induction Hna as [|v va Hv Hva IH]; cbn [app vfind_in]; [by rewrite Hnc|]. by rewrite Hv. }
      destruct (Hedit N vc v' f ts Hvc Hv' Hts) as (roots & Hroots & Eroots & Hsame).
      exists [DNode name props (a ++ roots ++ b)]. split; [|split].
      * cbn [vedit_path]. rewrite vedit_in_split by done. constructor; [|constructor]. constructor; [done|].
        apply Forall2_app; [done|]. by apply Forall2_app.
      * rewrite forest_tokens_cons, tree_tokens_eq, !forest_tokens_app, Eroots. cbn [forest_tokens flat_map app]. by norm_tokens.
      * intros t2 -> Hn. destruct (Hsame t2 eq_refl Hn) as (c2 & -> & Hnc2 & Hf2). eexists. split; [done|]. split; [done|].
        unfold find_child. cbn [node_children]. cbn [app]. rewrite find_in_middle; [|done|by rewrite Hnc2].
        cbn [mbind option_bind]. exact Hf2.
Qed.

(** ** The relation of a buffer and a tree *)
Definition holds (fdt total : Z) (m : memory) (v : vtree) : Prop :=
  exists off root strs, rw_ok fdt total off m (tree_tokens root ++ [TEnd]) strs /\ represents (string_in strs) root v.

Section Refine.
Context `{Symbols} (fdt total : Z) (fuel : nat).
Hypothesis Hfuel : (Z.to_nat total <= fuel)%nat.

Lemma holds_reads m v : holds fdt total m v -> reads_as m fdt fuel v.
Proof.
  intros (off & root & strs & Hok & Hrep).
  apply (represented_reads m fdt fuel root); [exact (rw_blob _ _ _ _ _ _ Hok)|by apply (rw_fuel fdt total off fuel Hfuel m (tree_tokens root ++ [TEnd]) strs)|].
  eapply represents_impl; [|exact Hrep]. intros no n. by apply (string_in_entry fdt total off m (tree_tokens root ++ [TEnd])).
Qed.

(** A node that [fdt_path_offset] found: its tokens, and what replaces them. *)
Record node_found (m : memory) (off : Z) (strs : list Z) (v : vtree) (path : list (list Z)) (o : Z)
    (l1 l2 : list token) (name : list Z) (props : list (Z * list Z)) (children : list dtree)
    (qs : list (list Z * list Z)) (vchildren : list vtree) : Prop := {
  nf_offset : o = size l1;
  nf_ok : rw_ok fdt total off m (node_in l1 name props children (l2 ++ [TEnd])) strs;
  nf_value : vfind_path path v = Some (VNode name qs vchildren);
  nf_props : Forall2 (same_prop (string_in strs)) props qs;
  nf_children : Forall2 (represents (string_in strs)) children vchildren;
  nf_same : forall m', rw_ok fdt total off m' (node_in l1 name props children (l2 ++ [TEnd])) strs -> holds fdt total m' v;
  nf_edit : forall f ts strs' m', Forall2 (represents (string_in (strs ++ strs'))) ts (f (VNode name qs vchildren)) ->
    rw_ok fdt total off m' (l1 ++ forest_tokens ts ++ l2 ++ [TEnd]) (strs ++ strs') ->
    path <> [] \/ (exists t2, ts = [t2]) ->
    exists vr, vedit_path path f v = [vr] /\ holds fdt total m' vr /\
      forall t2 path2 p o2, ts = [t2] -> node_name t2 = name -> find_path path2 o t2 = Some o2 ->
        path_at m' fuel p (path ++ path2) -> fdt_path_offset m' fdt fuel p = Some (fst o2);
}.

Lemma find_path_app path path2 o t : find_path (path ++ path2) o t = '(o, t) ← find_path path o t; find_path path2 o t.
Proof.
  revert o t. induction path as [|want path IH]; intros o t; cbn [app find_path]; [done|].
  destruct (find_child want o t) as [[o1 t1]|]; cbn [mbind option_bind]; [apply IH|done].
Qed.

Lemma node_found_run m v path p o :
  holds fdt total m v -> path_at m fuel p path -> fdt_path_offset m fdt fuel p = Some o -> 0 <= o ->
  exists off strs l1 l2 name props children qs vchildren,
    node_found m off strs v path o l1 l2 name props children qs vchildren.
Proof.
  intros (off & root & strs & Hok & Hrep) [Hp Hp0 Hpc [Hpl Hpf]] Eo Ho. pose proof (rw_blob _ _ _ _ _ _ Hok) as He.
  rewrite (fdt_path_offset_run m fdt _ He fuel (rw_fuel fdt total off fuel Hfuel m _ strs Hok) root path p
    (root_at m fdt root He) Hp Hp0 Hpc Hpl Hpf) in Eo.
  pose proof (represents_path (string_in strs) path root v 0 Hrep) as Hv.
  destruct (find_path path 0 root) as [[o' t]|] eqn:Ef; [|injection Eo as <-; vm_compute in Ho; by destruct Ho].
  injection Eo as ->. destruct Hv as (v' & Hv & Hrep').
  destruct (edit_split path root 0 o t Ef) as (l1 & l2 & Eo & Etok & Hedit). cbn in Eo. clear Ef.
  destruct Hrep' as [name props qs children vchildren Hprops Hch].
  assert (En : tree_tokens root ++ [TEnd] = node_in l1 name props children (l2 ++ [TEnd])).
  { rewrite Etok. unfold node_in. by norm_tokens. }
  exists off, strs, l1, l2, name, props, children, qs, vchildren. split; [done|by rewrite <- En|done|done|done| |].
  { intros m' Hok'. exists off, root, strs. by rewrite En. }
  intros f ts strs' m' Hts Hok' Hsingle.
  destruct (Hedit (string_in (strs ++ strs')) v (VNode name qs vchildren) f ts) as (roots & H1 & H2 & H3); [|exact Hv|exact Hts|].
  { eapply represents_impl; [|exact Hrep]. intros no n. apply string_in_app. }
  assert (Hone : exists vr, vedit_path path f v = [vr]).
  { destruct Hsingle as [Hne|(t2 & ->)].
    - destruct path as [|want path]; [done|]. destruct v. by eexists.
    - destruct path as [|want path]; [|destruct v; by eexists]. cbn [vfind_path] in Hv. injection Hv as ->. cbn [vedit_path].
      apply Forall2_cons_inv_l in Hts as (v2 & l & _ & ->%Forall2_nil_inv_l & ->). by eexists. }
  destruct Hone as (vr & Evr). rewrite Evr in H1. apply Forall2_cons_inv_r in H1 as (root2 & l & Hr2 & ->%Forall2_nil_inv_r & ->).
  assert (Hok2 : rw_ok fdt total off m' (tree_tokens root2 ++ [TEnd]) (strs ++ strs')).
  { replace (tree_tokens root2) with (forest_tokens [root2]) by (cbn; by rewrite app_nil_r). rewrite H2. revert Hok'. by rewrite <- !app_assoc. }
  exists vr. split; [done|]. split; [by exists off, root2, (strs ++ strs')|].
  intros t2 path2 p2 [o2 t3] -> Hn Hf2 [Hp' Hp0' Hpc' [Hpl' Hpf']]. destruct (H3 t2 eq_refl Hn) as (? & [= <-] & _ & Hf).
  pose proof (rw_blob _ _ _ _ _ _ Hok2) as He2.
  rewrite (fdt_path_offset_run m' fdt _ He2 fuel (rw_fuel fdt total off fuel Hfuel m' _ _ Hok2) root2 (path ++ path2) p2
    (root_at m' fdt root2 He2) Hp' Hp0' Hpc' Hpl' Hpf').
  rewrite find_path_app, Hf. cbn [mbind option_bind]. by rewrite Hf2.
Qed.

(** A name or a value that a client passes is outside the buffer. *)
Abbreviation off_buf := (off_buf fdt total).
Abbreviation in_buf := (in_buf fdt total).

(** The outcome of an operation: the new tree, or an error and the old one. *)
Definition outcome (m' : memory) (v : vtree) (path : list (list Z)) (f : vtree -> list vtree) : Prop :=
  exists v', vedit_path path f v = [v'] /\ holds fdt total m' v' /\ reads_as m' fdt fuel v'.
Definition unchanged (m' : memory) (v : vtree) : Prop := holds fdt total m' v /\ reads_as m' fdt fuel v.

Lemma outcome_holds m' v path f vr : vedit_path path f v = [vr] -> holds fdt total m' vr -> outcome m' v path f.
Proof. intros E Hh. exists vr. split; [done|]. split; [done|by apply holds_reads]. Qed.
Lemma unchanged_holds m' v : holds fdt total m' v -> unchanged m' v.
Proof. intros Hh. split; [done|by apply holds_reads]. Qed.

(** (C11) Setting a property of the node that a path led to is the operation [vset] on
    the tree, and the new tree is what is read afterwards; when the room is less than a
    new property and its name take, [fdt_setprop] may report [-FDT_ERR_NOSPACE], and
    then the tree is the old one. Nothing outside the buffer changes. *)
Theorem fdt_setprop_correct m v path p o s want val data :
  holds fdt total m v -> path_at m fuel p path -> fdt_path_offset m fdt fuel p = Some o -> 0 <= o ->
  name_at m fuel s want -> off_buf s (S (length want)) ->
  block m val data -> off_buf val (length data) -> Forall (fun c => 0 <= c < 256) data -> Z.of_nat (length data) + 16 < 2 ^ 31 ->
  exists m' r, fdt_setprop fdt fuel o s val (Z.of_nat (length data)) m = Some (r, m') /\ same_outside in_buf m m' /\
    ((r = 0 /\ outcome m' v path (vset want data)) \/
     (r = - FDT_ERR_NOSPACE /\ room fdt total m < prop_room want (Z.of_nat (length data)) /\ unchanged m' v)).
Proof.
  intros Hh Hpath Eo Ho [Hs0 Hsc [Hsl Hsf]] Hsoff Hval Hvoff Hdata Hlen.
  destruct (node_found_run m v path p o Hh Hpath Eo Ho)
    as (off & strs & l1 & l2 & name & props & children & qs & vchildren & [-> Hok Hv Hprops Hch Hsame Hedit]).
  destruct (fdt_setprop_run fdt total off fuel Hfuel m l1 name props children (l2 ++ [TEnd]) strs qs s want val data Hok)
    as (m' & r & E & Hout & [(ps & l & -> & Hok' & Hps)|(-> & Hr & Hok')]); try done; [set_solver| |];
    eexists _, _; (split; [exact E|]); (split; [done|]); [left|right].
  - split; [done|]. destruct (Hedit (vset want data) [DNode name ps children] l m') as (vr & Evr & Hvr & _).
    + constructor; [|constructor]. constructor; [exact Hps|]. eapply Forall2_impl; [exact Hch|]. intros t w.
      apply represents_impl. intros no n. apply string_in_app.
    + revert Hok'. unfold node_in. by norm_tokens.
    + right. by eexists.
    + by eapply outcome_holds.
  - split; [done|]. split; [done|]. by apply unchanged_holds, Hsame.
Qed.

(** Deleting a property removes the first one with the name, and reports
    [-FDT_ERR_NOTFOUND] when there is none; the tree is read back. *)
Theorem fdt_delprop_correct m v path p o s want :
  holds fdt total m v -> path_at m fuel p path -> fdt_path_offset m fdt fuel p = Some o -> 0 <= o ->
  name_at m fuel s want -> off_buf s (S (length want)) ->
  exists m' r n, fdt_delprop fdt fuel o s m = Some (r, m') /\ same_outside in_buf m m' /\ vfind_path path v = Some n /\
    match vfind_prop want (vnode_props n) with
    | Some _ => r = 0 /\ outcome m' v path (vremove want)
    | None => r = - FDT_ERR_NOTFOUND /\ unchanged m' v
    end.
Proof.
  intros Hh Hpath Eo Ho [Hs0 Hsc [Hsl Hsf]] Hsoff.
  destruct (node_found_run m v path p o Hh Hpath Eo Ho)
    as (off & strs & l1 & l2 & name & props & children & qs & vchildren & [-> Hok Hv Hprops Hch Hsame Hedit]).
  destruct (fdt_delprop_run fdt total off fuel Hfuel m l1 name props children (l2 ++ [TEnd]) strs qs s want Hok)
    as (m' & r & E & Hout & [(p1 & no & data & p2 & q1 & q2 & -> & -> & H1 & H2 & Hl & -> & Hok')|(Hl & -> & Hok')]);
    try done; [set_solver|lia| |]; eexists _, _, _; (split; [exact E|]); (split; [done|]); (split; [exact Hv|]); cbn [vnode_props].
  - rewrite vfind_prop_split by done. split; [done|].
    destruct (Hedit (vremove want) [DNode name (p1 ++ p2) children] [] m') as (vr & Evr & Hvr & _).
    + rewrite app_nil_r. constructor; [|constructor]. rewrite vremove_prop_split by done. constructor; [|done]. by apply Forall2_app.
    + rewrite app_nil_r. revert Hok'. unfold node_in. by norm_tokens.
    + right. by eexists.
    + by eapply outcome_holds.
  - rewrite vfind_prop_lacks by done. split; [done|]. by apply unchanged_holds, Hsame.
Qed.

(** (C22) Adding a child to the node that a path led to gives the tree with an empty
    first child of that name, which the path with the name leads to, at the offset
    returned; it reports [-FDT_ERR_EXISTS] when a child matches the name, and
    [-FDT_ERR_NOSPACE] only for want of room, leaving the tree as it was. *)
Theorem fdt_add_subnode_correct m v path p o s want :
  holds fdt total m v -> path_at m fuel p path -> fdt_path_offset m fdt fuel p = Some o -> 0 <= o ->
  name_at m fuel s want -> off_buf s (S (length want)) -> component want -> Z.of_nat (length want) + 16 < 2 ^ 31 ->
  exists m' r n, fdt_add_subnode fdt fuel o s m = Some (r, m') /\ same_outside in_buf m m' /\ vfind_path path v = Some n /\
    match vfind_in want (vnode_children n) with
    | Some _ => r = - FDT_ERR_EXISTS /\ unchanged m' v
    | None =>
        (outcome m' v path (vadd want) /\
           forall p', path_at m' fuel p' (path ++ [want]) -> fdt_path_offset m' fdt fuel p' = Some r) \/
        (r = - FDT_ERR_NOSPACE /\ room fdt total m < 8 + up4 (Z.of_nat (length want) + 1) /\ unchanged m' v)
    end.
Proof.
  intros Hh Hpath Eo Ho [Hs0 Hsc [Hsl Hsf]] Hsoff (Hne & Hslash & Hwant) Hlen.
  destruct (node_found_run m v path p o Hh Hpath Eo Ho)
    as (off & strs & l1 & l2 & name & props & children & qs & vchildren & [-> Hok Hv Hprops Hch Hsame Hedit]).
  destruct (fdt_add_subnode_namelen_run fdt total off fuel Hfuel m l1 name props children (l2 ++ [TEnd]) strs s want Hok)
    as (m' & r & E & Hout & Hcases); try done; [set_solver|split; [done|by apply cstr_bytes]|unfold FdtSwSpec.off_buf in *; lia|].
  exists m', r, (VNode name qs vchildren). split; [|split; [done|split; [done|]]].
  { unfold fdt_add_subnode. erewrite runs_run by (by apply strlen_cstr). rewrite s32_id by lia. exact E. }
  pose proof (represents_in (string_in strs) want children vchildren 0 Hch) as Hin. cbn [vnode_children].
  destruct (find_in want 0 children) as [[o2 t2]|].
  { destruct Hin as (v2 & -> & _). destruct Hcases as [-> Hok']. split; [done|]. by apply unchanged_holds, Hsame. }
  rewrite Hin. destruct Hcases as [[-> Hok']|(-> & Hr & Hok')]; [left|right].
  - destruct (Hedit (vadd want) [DNode name props (DNode want [] [] :: children)] [] m') as (vr & Evr & Hvr & Hat).
    + rewrite app_nil_r. constructor; [|constructor]. constructor; [done|]. constructor; [|done]. by constructor.
    + rewrite app_nil_r. revert Hok'. unfold node_in. by norm_tokens.
    + right. by eexists.
    + split; [by eapply outcome_holds|]. intros p' Hp'.
      set (t2 := DNode name props (DNode want [] [] :: children)) in *.
      assert (Ef : find_path [want] (size l1) t2 = Some (children_start (size l1) t2, DNode want [] [])).
      { cbn [find_path]. unfold find_child. cbn [t2 node_children find_in node_name]. by rewrite name_matches_refl. }
      rewrite (Hat t2 [want] p' _ eq_refl eq_refl Ef Hp'). cbn [fst]. f_equal.
      unfold children_start, t2. cbn [node_name node_props]. rewrite size_app. cbn [size]. lia.
  - split; [done|]. split; [done|]. by apply unchanged_holds, Hsame.
Qed.

(** (C12) Deleting a node other than the root always succeeds, and what is read
    afterwards is the tree without the node and all below it. *)
Theorem fdt_del_node_correct m v path p o :
  holds fdt total m v -> path_at m fuel p path -> fdt_path_offset m fdt fuel p = Some o -> 0 <= o -> path <> [] ->
  exists m', fdt_del_node fdt fuel o m = Some (0, m') /\ same_outside in_buf m m' /\ outcome m' v path vdelete.
Proof.
  intros Hh Hpath Eo Ho Hne. destruct (node_found_run m v path p o Hh Hpath Eo Ho)
    as (off & strs & l1 & l2 & name & props & children & qs & vchildren & [-> Hok Hv Hprops Hch Hsame Hedit]).
  destruct (fdt_del_node_run fdt total off fuel Hfuel m l1 (DNode name props children) (l2 ++ [TEnd]) strs)
    as (m' & E & Hok' & Hs); [revert Hok; unfold node_in; by norm_tokens|set_solver|].
  exists m'. split; [exact E|]. split; [done|].
  destruct (Hedit vdelete [] [] m') as (vr & Evr & Hvr & _); [by constructor|by rewrite app_nil_r|by left|].
  by eapply outcome_holds.
Qed.
End Refine.

(** ** Witnesses: a model, and [/cpus/cpu@1] with [reg], in a buffer with room *)
Definition demo_rw_tree : dtree :=
  DNode [] [(4, [109; 120; 0])] [DNode (str "cpus") [] [DNode (str "cpu@1") [(0, be_bytes 256)] []]].
Definition demo_rw_value : vtree :=
  VNode [] [(str "model", [109; 120; 0])] [VNode (str "cpus") [] [VNode (str "cpu@1") [(str "reg", be_bytes 256)] []]].
Definition demo_rw_memory : memory :=
  let l := (tree_tokens demo_rw_tree ++ [TEnd]) ≫= token_bytes in
  let n := Z.of_nat (length l) in
  wr_list (wr_list (wr_list (wr_list (wr_list ∅ 0x1000
    (demo_header 0x400 56 (56 + n) 22 n ++ replicate 16 0 ++ l ++ demo_strings))
    0x2000 (str "/cpus/cpu@1" ++ [0])) 0x2100 (str "reg" ++ [0])) 0x2200 (str "status" ++ [0])) 0x2300 (str "core0" ++ [0]).

Lemma demo_rw_holds : holds 0x1000 0x400 demo_rw_memory demo_rw_value.
Proof.
  assert (Hs : forall pre name post, demo_strings = pre ++ name ++ 0 :: post -> forallb (fun c => negb (c =? 0)) name = true ->
    string_in demo_strings (Z.of_nat (length pre)) name).
  { intros pre name post E Hn. exists pre, post. split; [done|]. split; [done|]. apply Forall_forall. intros c Hc.
    rewrite forallb_forall in Hn. apply list_elem_of_In, Hn in Hc. by destruct (Z.eqb_spec c 0). }
  exists 56, demo_rw_tree, demo_strings. split.
  - split; [lia|vm_compute; reflexivity|split; vm_compute; congruence|vm_compute; reflexivity|split; vm_compute; congruence
      |vm_compute; reflexivity|split; vm_compute; congruence|vm_compute; congruence|vm_compute; reflexivity|vm_compute; congruence
      |split; [repeat constructor; done|constructor]| |done|].
    + apply encoded_block, block_check. vm_compute. reflexivity.
    + apply block_check. vm_compute. reflexivity.
  - repeat constructor; cbn [fst].
    + by apply (Hs (str "reg" ++ [0]) (str "model") (str "phandle" ++ [0] ++ str "cpu" ++ [0])).
    + by apply (Hs [] (str "reg") (str "model" ++ [0] ++ str "phandle" ++ [0] ++ str "cpu" ++ [0])).
Qed.

(** The strings of the client, and the offset of [/cpus/cpu@1]. *)
Lemma demo_rw_string a (l : list Z) :
  bytes_at (length (l ++ [0])) demo_rw_memory a = l ++ [0] -> forallb (fun c => negb (c =? 0)) l = true -> cstr demo_rw_memory a l.
Proof.
  intros E Hl. split; [by apply block_check|]. apply Forall_forall. intros c Hc.
  rewrite forallb_forall in Hl. apply list_elem_of_In, Hl in Hc. by destruct (Z.eqb_spec c 0).
Qed.
Lemma demo_rw_path : path_at demo_rw_memory 0x400 0x2000 demo_path.
Proof.
  split.
  - repeat apply Forall_cons_2; [..|by apply Forall_nil_2]; (split; [discriminate|split]);
      apply (bool_decide_unpack _); vm_compute; exact I.
  - lia.
  - apply demo_rw_string; vm_compute; reflexivity.
  - split; [vm_compute; reflexivity|vm_compute; lia].
Qed.
Lemma demo_rw_name a l :
  0 < a -> bytes_at (length (l ++ [0])) demo_rw_memory a = l ++ [0] -> forallb (fun c => negb (c =? 0)) l = true ->
  (length l < 100)%nat -> name_at demo_rw_memory 0x400 a l.
Proof. intros Ha E Hl Hn. split; [done|by apply demo_rw_string|split; lia]. Qed.
Definition demo_offset : Z := 36.
Lemma demo_rw_offset : fdt_path_offset (H := demo_symbols) demo_rw_memory 0x1000 0x400 0x2000 = Some demo_offset.
Proof. vm_compute. reflexivity. Qed.

(** A new property is there afterwards. *)
Lemma fdt_setprop_correct_witness :
  exists m' v', fdt_setprop 0x1000 0x400 demo_offset 0x2200 0x2100 3 demo_rw_memory = Some (0, m') /\
    holds 0x1000 0x400 m' v' /\
    (n ← vfind_path demo_path v'; vfind_prop (str "status") (vnode_props n)) = Some (str "reg").
Proof.
  destruct (fdt_setprop_correct (H := demo_symbols) 0x1000 0x400 0x400 ltac:(vm_compute; lia) demo_rw_memory demo_rw_value demo_path 0x2000
    demo_offset 0x2200 (str "status") 0x2100 (str "reg")) as (m' & r & E & _ & [[-> (v' & Ev & Hh & _)]|(_ & Hr & _)]).
  - exact demo_rw_holds.
  - exact demo_rw_path.
  - exact demo_rw_offset.
  - vm_compute. congruence.
  - apply demo_rw_name; [lia|vm_compute; reflexivity|reflexivity|simpl; lia].
  - right. vm_compute. congruence.
  - apply block_check. vm_compute. reflexivity.
  - right. vm_compute. congruence.
  - repeat constructor; done.
  - vm_compute. reflexivity.
  - exists m', v'. split; [exact E|]. split; [exact Hh|]. vm_compute in Ev. injection Ev as <-. vm_compute. reflexivity.
  - exfalso. revert Hr. vm_compute. discriminate.
Defined.

Lemma fdt_delprop_correct_witness :
  exists m' v', fdt_delprop 0x1000 0x400 demo_offset 0x2100 demo_rw_memory = Some (0, m') /\
    holds 0x1000 0x400 m' v' /\
    (n ← vfind_path demo_path v'; vfind_prop (str "reg") (vnode_props n)) = None.
Proof.
  destruct (fdt_delprop_correct (H := demo_symbols) 0x1000 0x400 0x400 ltac:(vm_compute; lia) demo_rw_memory demo_rw_value demo_path 0x2000
    demo_offset 0x2100 (str "reg")) as (m' & r & n & E & _ & En & Hout).
  - exact demo_rw_holds.
  - exact demo_rw_path.
  - exact demo_rw_offset.
  - vm_compute. congruence.
  - apply demo_rw_name; [lia|vm_compute; reflexivity|reflexivity|simpl; lia].
  - right. vm_compute. congruence.
  - vm_compute in En. injection En as <-. destruct Hout as [-> (v' & Ev & Hh & _)].
    exists m', v'. split; [exact E|]. split; [exact Hh|]. vm_compute in Ev. injection Ev as <-. vm_compute. reflexivity.
Defined.

Lemma fdt_add_subnode_correct_witness :
  exists m' r v', fdt_add_subnode 0x1000 0x400 demo_offset 0x2300 demo_rw_memory = Some (r, m') /\
    holds 0x1000 0x400 m' v' /\ vfind_path (demo_path ++ [str "core0"]) v' = Some (VNode (str "core0") [] []).
Proof.
  destruct (fdt_add_subnode_correct (H := demo_symbols) 0x1000 0x400 0x400 ltac:(vm_compute; lia) demo_rw_memory demo_rw_value demo_path 0x2000
    demo_offset 0x2300 (str "core0")) as (m' & r & n & E & _ & En & Hout).
  - exact demo_rw_holds.
  - exact demo_rw_path.
  - exact demo_rw_offset.
  - vm_compute. congruence.
  - apply demo_rw_name; [lia|vm_compute; reflexivity|reflexivity|simpl; lia].
  - right. vm_compute. congruence.
  - split; [discriminate|split]; apply (bool_decide_unpack _); vm_compute; exact I.
  - vm_compute. reflexivity.
  - vm_compute in En. injection En as <-. cbn [vnode_children vfind_in] in Hout.
    destruct Hout as [[(v' & Ev & Hh & _) _]|(_ & Hr & _)]; [|exfalso; revert Hr; vm_compute; discriminate].
    exists m', r, v'. split; [exact E|]. split; [exact Hh|]. vm_compute in Ev. injection Ev as <-. vm_compute. reflexivity.
Defined.

Lemma fdt_del_node_correct_witness :
  exists m' v', fdt_del_node 0x1000 0x400 demo_offset demo_rw_memory = Some (0, m') /\
    holds 0x1000 0x400 m' v' /\ vfind_path demo_path v' = None /\ vfind_path [str "cpus"] v' = Some (VNode (str "cpus") [] []).
Proof.
  destruct (fdt_del_node_correct (H := demo_symbols) 0x1000 0x400 0x400 ltac:(vm_compute; lia) demo_rw_memory demo_rw_value demo_path 0x2000
    demo_offset) as (m' & E & _ & (v' & Ev & Hh & _)).
  - exact demo_rw_holds.
  - exact demo_rw_path.
  - exact demo_rw_offset.
  - vm_compute. congruence.
  - discriminate.
  - exists m', v'. split; [exact E|]. split; [exact Hh|]. vm_compute in Ev. injection Ev as <-. split; vm_compute; reflexivity.
Defined.
