(* ===== verification/FdtOpen.v ===== *)
(** * FdtOpen: the reserve map, growing, packing

    The functions of libkern/libfdt/fdt_rw.c that move the blocks of a blob:
    [fdt_add_mem_rsv] and [fdt_del_mem_rsv] are operations on the list of reserved
    regions, [fdt_open_into] and [fdt_pack] change the capacity of a buffer, and all
    keep its tree. [fdt_splice_], on which they rest, stays in the buffer whatever the
    blob is. *)
From Stdlib Require Import ZArith Lia.
From stdpp Require Import prelude gmap list strings.
From S2P Require Import Prelude Memory TString Kernel Fdt FdtTokens FdtMonad FdtEdit FdtRo FdtSw FdtRw FdtTree FdtSpec FdtCheck FdtSwSpec FdtRwSpec FdtRefine.
Open Scope Z_scope.

(** ** Splices of an arbitrary blob *)

(** (C25) Whatever the memory is, [fdt_splice_] with a new length that is not negative
    returns an error and changes nothing, or moves the bytes behind the old ones to
    behind the new ones and writes only inside the [totalsize] bytes of the buffer. *)
Theorem fdt_splice_bounds fdt m p oldlen newlen :
  0 <= newlen -> exists r m', fdt_splice_ fdt p oldlen newlen m = Some (r, m') /\
    ((r < 0 /\ m' = m) \/
     (r = 0 /\ 0 <= oldlen /\ fdt <= p /\ exists n,
        p + oldlen + Z.of_nat n = fdt + fdt_data_size_ fdt m /\ p + newlen + Z.of_nat n <= fdt + fdt_totalsize m fdt /\
        copied m (p + newlen) (p + oldlen) n m' /\
        same_outside (fun x => fdt <= x < fdt + fdt_totalsize m fdt) m m')).
Proof.
  intros Hn. unfold fdt_splice_. rewrite !reads_run. set (e := fdt + fdt_data_size_ fdt m).
  destruct (Z.ltb_spec (p + oldlen) p); cbn [orb]; [by eexists _, _; split; [done|left]|].
  destruct (Z.ltb_spec e (p + oldlen)); [by eexists _, _; split; [done|left]|].
  destruct (Z.ltb_spec p fdt); cbn [orb]; [by eexists _, _; split; [done|left]|].
  destruct (Z.ltb_spec (e - oldlen + newlen) fdt); [by eexists _, _; split; [done|left]|].
  destruct (Z.ltb_spec (fdt + fdt_totalsize m fdt) (e - oldlen + newlen)); [by eexists _, _; split; [done|left]|].
  rewrite writes_run, W_ret_run. eexists _, _. split; [done|]. right. split; [done|]. split; [lia|]. split; [lia|].
  pose proof (memmove_copied m (p + newlen) (p + oldlen) (Z.to_nat (e - p - oldlen))) as Hc.
  exists (Z.to_nat (e - p - oldlen)). split; [lia|]. split; [lia|]. split; [exact Hc|].
  eapply same_outside_mono; [|exact (copied_same_outside _ _ _ _ _ Hc)]. unfold within. lia.
Qed.

(** ** Blocks that moved *)
Lemma rw_rebuild fdt total off m ts strs fdt' total' off' offs' m' :
  rw_ok fdt total off m ts strs -> 0 < fdt' -> 56 <= off' -> total' + 3 < 2 ^ 31 ->
  fdt_magic m' fdt' = FDT_MAGIC ->
  17 <= fdt_version m' fdt' /\ fdt_last_comp_version m' fdt' <= FDT_LAST_SUPPORTED_VERSION ->
  fdt_totalsize m' fdt' = total' -> 40 <= fdt_off_mem_rsvmap m' fdt' /\ fdt_off_mem_rsvmap m' fdt' + 16 <= off' ->
  fdt_off_dt_struct m' fdt' = off' -> fdt_size_dt_struct m' fdt' = size ts ->
  fdt_off_dt_strings m' fdt' = offs' -> fdt_size_dt_strings m' fdt' = Z.of_nat (length strs) ->
  off' + size ts <= offs' -> offs' + Z.of_nat (length strs) <= total' ->
  (forall i, 0 <= i < size ts -> rd m' (fdt' + off' + i) = rd m (fdt + off + i)) ->
  (forall i, 0 <= i < Z.of_nat (length strs) -> rd m' (fdt' + offs' + i) = rd m (fdt + fdt_off_dt_strings m fdt + i)) ->
  rw_ok fdt' total' off' m' ts strs.
Proof.
  intros [_ _ _ _ _ _ _ _ _ _ [Htk _] Hb _ Hst] Hf Ho Ht Hmag Hver Htot Hrsv Hos Hss Hoff Hsz H1 H2 Hrd Hrs. pose proof (size_nonneg ts).
  split; try done; cbn [size]; rewrite ?Hss, ?Hoff; try lia.
  - by apply (encoded_moved m _ (fdt + off)).
  - intros i v Hi. rewrite <- (Hst i v Hi). apply Hrs. apply lookup_lt_Some in Hi. lia.
Qed.

(** ** 64-bit words *)
Lemma lor_byte acc k b : 0 <= k -> 0 <= b < 256 -> Z.lor (acc * 2 ^ (k + 8)) (b * 2 ^ k) = (acc * 2 ^ 8 + b) * 2 ^ k.
Proof.
  intros Hk Hb. rewrite lor_disjoint_add; [rewrite Z.pow_add_r by lia; ring|lia|].
  rewrite Z.pow_add_r by lia. pose proof (Z.pow_pos_nonneg 2 k). change (2 ^ 8) with 256. nia.
Qed.
Lemma fdt64_halves x : fdt64_to_cpu x = fdt32_to_cpu (x mod 2 ^ 32) * 2 ^ 32 + fdt32_to_cpu (x / 2 ^ 32 mod 2 ^ 32).
Proof.
  unfold fdt64_to_cpu, CPU_TO_FDT64. rewrite !EXTRACT_BYTE_eq, !Z.shiftl_mul_pow2 by lia.
  change (8 * 0) with 0. change (8 * 1) with 8. change (8 * 2) with 16. change (8 * 3) with 24.
  change (8 * 4) with 32. change (8 * 5) with 40. change (8 * 6) with 48. change (8 * 7) with 56. rewrite Z.pow_0_r, Z.div_1_r.
  assert (Hb : forall y, 0 <= y mod 256 < 256) by (intros; apply Z.mod_pos_bound; lia).
  rewrite (lor_byte _ 48) by (done || lia). rewrite (lor_byte _ 40) by (done || lia). rewrite (lor_byte _ 32) by (done || lia).
  rewrite (lor_byte _ 24) by (done || lia). rewrite (lor_byte _ 16) by (done || lia). rewrite (lor_byte _ 8) by (done || lia).
  rewrite lor_disjoint_add by (done || lia). rewrite !fdt32_to_cpu_eq. unfold be_combine.
  rewrite u64_id by (pose proof (Hb x); pose proof (Hb (x / 2 ^ 8)); pose proof (Hb (x / 2 ^ 16)); pose proof (Hb (x / 2 ^ 24));
    pose proof (Hb (x / 2 ^ 32)); pose proof (Hb (x / 2 ^ 40)); pose proof (Hb (x / 2 ^ 48)); pose proof (Hb (x / 2 ^ 56)); lia).
  assert (Hlo : forall k, 0 <= k <= 24 -> x mod 2 ^ 32 / 2 ^ k mod 256 = x / 2 ^ k mod 256).
  { intros k Hk. apply Z.bits_inj'. intros j Hj. change 256 with (2 ^ 8). rewrite <- !Z.land_ones, <- !Z.shiftr_div_pow2, !Z.land_spec, !Z.shiftr_spec, !Z.land_spec by lia.
    destruct (Z.lt_ge_cases j 8); [|by rewrite !(Z.ones_spec_high 8), !andb_false_r by lia]. rewrite (Z.ones_spec_low 32), andb_true_r by lia. done. }
  assert (Hhi : forall k, 0 <= k <= 24 -> x / 2 ^ 32 mod 2 ^ 32 / 2 ^ k mod 256 = x / 2 ^ (k + 32) mod 256).
  { intros k Hk. apply Z.bits_inj'. intros j Hj. change 256 with (2 ^ 8). rewrite <- !Z.land_ones, <- !Z.shiftr_div_pow2, !Z.land_spec, !Z.shiftr_spec, !Z.land_spec, !Z.shiftr_spec by lia.
    destruct (Z.lt_ge_cases j 8); [|by rewrite !(Z.ones_spec_high 8), !andb_false_r by lia]. rewrite (Z.ones_spec_low 32), andb_true_r by lia. do 2 f_equal. lia. }
  rewrite !Hlo, !Hhi by lia. pose proof (Hlo 0 ltac:(lia)) as H0. pose proof (Hhi 0 ltac:(lia)) as H0'.
  rewrite Z.pow_0_r, !Z.div_1_r in H0, H0'. rewrite H0, H0'.
  change (0 + 32) with 32. change (8 + 32) with 40. change (16 + 32) with 48. change (24 + 32) with 56. rewrite (Z.div_1_r x). lia.
Qed.
Lemma fdt32_swap v : is_u32 v -> fdt32_to_cpu (fdt32_to_cpu v) = v.
Proof.
  intros Hv. assert (exists a b c d, v = be_combine a b c d /\ 0 <= a < 256 /\ 0 <= b < 256 /\ 0 <= c < 256 /\ 0 <= d < 256)
    as (a & b & c & d & -> & Ha & Hb & Hc & Hd).
  { exists (v / 2 ^ 24), (v / 2 ^ 16 mod 256), (v / 2 ^ 8 mod 256), (v mod 256). unfold be_combine. Z.to_euclidean_division_equations. lia. }
  assert (Hbytes : forall a b c d, 0 <= a < 256 -> 0 <= b < 256 -> 0 <= c < 256 -> 0 <= d < 256 ->
    fdt32_to_cpu (be_combine a b c d) = be_combine d c b a).
  { clear. intros a b c d Ha Hb Hc Hd. rewrite fdt32_to_cpu_eq. unfold be_combine. f_equal; [f_equal; [f_equal|]|];
      Z.to_euclidean_division_equations; lia. }
  by rewrite !Hbytes.
Qed.
Lemma fdt64_swap v : is_u64 v -> fdt64_to_cpu (u64 (cpu_to_fdt64 v)) = v.
Proof.
  intros Hv. change (cpu_to_fdt64 v) with (fdt64_to_cpu v). pose proof (fdt32_range (v mod 2 ^ 32)) as H1.
  pose proof (fdt32_range (v / 2 ^ 32 mod 2 ^ 32)) as H2. rewrite (fdt64_halves v). set (a := fdt32_to_cpu (v mod 2 ^ 32)) in *.
  set (b := fdt32_to_cpu (v / 2 ^ 32 mod 2 ^ 32)) in *. rewrite u64_id by lia. rewrite fdt64_halves.
  replace ((a * 2 ^ 32 + b) mod 2 ^ 32) with b by (Z.to_euclidean_division_equations; lia).
  replace ((a * 2 ^ 32 + b) / 2 ^ 32 mod 2 ^ 32) with a by (Z.to_euclidean_division_equations; lia).
  unfold a, b. rewrite !fdt32_swap by (apply Z.mod_pos_bound; lia). Z.to_euclidean_division_equations. lia.
Qed.

(** ** The list of reserved regions *)
Definition region_at (m : memory) (a : Z) (e : Z * Z) : Prop :=
  fdt64_to_cpu (ld64 m (reserve_entry_address a)) = e.1 /\ fdt64_to_cpu (ld64 m (reserve_entry_size a)) = e.2.
Fixpoint entries_at (m : memory) (a : Z) (l : list (Z * Z)) : Prop :=
  match l with
  | [] => fdt64_to_cpu (ld64 m (reserve_entry_size a)) = 0
  | e :: l => region_at m a e /\ e.2 <> 0 /\ entries_at m (a + 16) l
  end.
(** The map, with its last entry, is in front of the structure. *)
Definition reserves (fdt : Z) (m : memory) (l : list (Z * Z)) : Prop :=
  entries_at m (fdt + fdt_off_mem_rsvmap m fdt) l /\
  fdt_off_mem_rsvmap m fdt + 16 * (Z.of_nat (length l) + 1) <= fdt_off_dt_struct m fdt.

Lemma load_moved n m m' a a' : (forall i, 0 <= i < Z.of_nat n -> rd m' (a' + i) = rd m (a + i)) -> load n m' a' = load n m a.
Proof.
  revert a a'. induction n as [|n IH]; intros a a' H; [done|]. change (load (S n) ?m ?a) with (rd m a + 256 * load n m (a + 1)).
  pose proof (H 0 ltac:(lia)) as H0. rewrite !Z.add_0_r in H0. rewrite H0. do 2 f_equal. apply IH. intros i Hi.
  rewrite <- !Z.add_assoc. apply H. lia.
Qed.

Lemma entry_moved m m' a a' e : (forall i, 0 <= i < 16 -> rd m' (a' + i) = rd m (a + i)) -> region_at m a e -> region_at m' a' e.
Proof.
  intros H. unfold region_at, reserve_entry_address, reserve_entry_size. intros [<- <-].
  split; f_equal; apply load_moved; intros i Hi; [apply H; lia|]. rewrite <- !Z.add_assoc. apply H. lia.
Qed.
Lemma end_moved m m' a a' :
  (forall i, 0 <= i < 16 -> rd m' (a' + i) = rd m (a + i)) -> fdt64_to_cpu (ld64 m' (reserve_entry_size a')) = fdt64_to_cpu (ld64 m (reserve_entry_size a)).
Proof.
  intros H. unfold reserve_entry_size. f_equal. apply load_moved. intros i Hi. rewrite <- !Z.add_assoc. apply H. lia.
Qed.
Lemma entries_moved m m' a a' l :
  (forall i, 0 <= i < 16 * (Z.of_nat (length l) + 1) -> rd m' (a' + i) = rd m (a + i)) -> entries_at m a l -> entries_at m' a' l.
Proof.
  revert a a'. induction l as [|e l IH]; intros a a' H; cbn [entries_at length] in *.
  - intros <-. apply end_moved. intros i Hi. apply H. lia.
  - intros (He & Hne & Hl). split; [apply (entry_moved m _ a); [intros i Hi; apply H; lia|done]|]. split; [done|].
    apply (IH (a + 16)); [|done]. intros i Hi. rewrite <- !Z.add_assoc. apply H. lia.
Qed.
Lemma entries_app m a l1 l2 :
  entries_at m a (l1 ++ l2) <->
  (forall i e, l1 !! i = Some e -> region_at m (a + 16 * Z.of_nat i) e /\ e.2 <> 0) /\ entries_at m (a + 16 * Z.of_nat (length l1)) l2.
Proof.
  revert a. induction l1 as [|e l1 IH]; intros a.
  - cbn [app length]. rewrite Z.add_0_r. split; [intros H; by split|by intros [_ H]].
  - cbn [app entries_at length]. rewrite IH. replace (a + 16 + 16 * Z.of_nat (length l1)) with (a + 16 * Z.of_nat (S (length l1))) by lia.
    split.
    + intros (He & Hne & Hl1 & Hl2). split; [|done]. intros [|i] e' Hi.
      * injection Hi as <-. by rewrite Z.add_0_r.
      * replace (a + 16 * Z.of_nat (S i)) with (a + 16 + 16 * Z.of_nat i) by lia. by apply Hl1.
    + intros (Hl1 & Hl2). pose proof (Hl1 0%nat e eq_refl) as [He Hne]. rewrite Z.add_0_r in He. split; [done|]. split; [done|].
      split; [|done]. intros i e' Hi. replace (a + 16 + 16 * Z.of_nat i) with (a + 16 * Z.of_nat (S i)) by lia. by apply Hl1.
Qed.

Section Reserve.
Context (fdt total off : Z).
Abbreviation rw_ok := (rw_ok fdt total off).
Abbreviation in_buf := (in_buf fdt total).
Abbreviation room := (room fdt total).
Abbreviation reserves := (reserves fdt).
Abbreviation rsv m := (fdt_off_mem_rsvmap m fdt).

Lemma fdt_mem_rsv_in m i :
  16 <= fdt_totalsize m fdt -> 0 <= i < 2 ^ 28 -> rsv m + 16 * (i + 1) <= fdt_totalsize m fdt ->
  fdt_mem_rsv m fdt i = fdt_mem_rsv_ m fdt i.
Proof.
  intros Ht Hi Hle. pose proof (fdt_get_header_range m fdt header_off_mem_rsvmap) as Ho. fold (rsv m) in Ho.
  pose proof (fdt_get_header_range m fdt header_totalsize) as Hr. fold (fdt_totalsize m fdt) in Hr.
  unfold fdt_mem_rsv, RESERVE_ENTRY_SIZEOF. rewrite (u64_id i), (u32_id (i * 16)), u32_id, (u64_id (fdt_totalsize m fdt - 16)) by lia.
  destruct (Z.ltb_spec (rsv m + i * 16) (rsv m)); [lia|]. destruct (Z.ltb_spec (fdt_totalsize m fdt - 16) (rsv m + i * 16)); [lia|done].
Qed.

(** The regions fit. *)
Lemma reserves_fit m ts strs l :
  rw_ok m ts strs -> reserves m l -> 40 <= rsv m /\ rsv m + 16 * (Z.of_nat (length l) + 1) <= off /\ off + size ts <= total /\ total + 3 < 2 ^ 31.
Proof.
  intros [(? & ? & ?) _ _ Htot [Hr _] Hos _ Hord _ Hend _ _ _ _] [_ Hfit]. cbn [size] in *. rewrite Hos in Hfit. lia.
Qed.

(** The header and the map stay. *)
Lemma reserves_keep m m' l :
  reserves m l -> rsv m' = rsv m -> fdt_off_dt_struct m' fdt = fdt_off_dt_struct m fdt ->
  (forall x, fdt + rsv m <= x < fdt + rsv m + 16 * (Z.of_nat (length l) + 1) -> rd m' x = rd m x) -> reserves m' l.
Proof.
  intros [He Hfit] Er Es Hs. split; [|by rewrite Er, Es]. rewrite Er. apply (entries_moved m _ (fdt + rsv m)); [|done].
  intros i Hi. apply Hs. lia.
Qed.

(** The probe writes no more than the version. *)
Lemma fdt_rw_probe_outside m r m' :
  fdt_rw_probe_ fdt m = Some (r, m') -> same_outside (within (fdt + header_version) 4) m m'.
Proof.
  unfold fdt_rw_probe_. rewrite reads_run. destruct (_ <? 0); [by intros [= _ <-]|]. rewrite reads_run.
  destruct (_ <? 17); [by intros [= _ <-]|]. rewrite !reads_run. destruct (fdt_blocks_misordered_ _ _ _ _); [by intros [= _ <-]|].
  rewrite reads_run. destruct (17 <? _); [|by intros [= _ <-]]. rewrite writes_run. intros [= _ <-]. by apply set_header_outside.
Qed.
Lemma fdt_rw_probe_reserves m ts strs l :
  rw_ok m ts strs -> reserves m l ->
  exists m', fdt_rw_probe_ fdt m = Some (0, m') /\ rw_ok m' ts strs /\ reserves m' l /\ room m' = room m /\
    same_outside (within fdt 40) m m'.
Proof.
  intros Hok Hl. pose proof (reserves_fit m ts strs l Hok Hl) as (Hr & _ & _ & _).
  destruct (fdt_rw_probe_run fdt total off m ts strs Hok) as (m' & E & Hok' & Hroom & _).
  pose proof (fdt_rw_probe_outside m 0 m' E) as Hs. exists m'. split; [done|]. split; [done|]. unfold within, header_version in Hs.
  split; [|split; [done|eapply same_outside_mono; [|exact Hs]; unfold within; lia]].
  apply (reserves_keep m); [done|apply (header_same_outside _ _ _ _ _ Hs); unfold within, header_off_mem_rsvmap; lia
    |by rewrite (go_off_struct _ _ _ _ _ _ _ _ Hok), (go_off_struct _ _ _ _ _ _ _ _ Hok')|].
  intros x Hx. symmetry. apply Hs. lia.
Qed.

(** [fdt_splice_mem_rsv_] at a place in the map: everything behind it moves. *)
Lemma splice_rsv_run m ts strs k oldn newn :
  rw_ok m ts strs -> 0 <= oldn -> 0 <= newn < 2 ^ 20 -> oldn < 2 ^ 20 -> 0 <= k -> rsv m + 16 * (k + oldn) <= off ->
  rsv m + 16 <= off + 16 * (newn - oldn) ->
  let p := fdt + rsv m + 16 * k in
  let d := 16 * (newn - oldn) in
  if decide (d <= room m) then
    exists m', fdt_splice_mem_rsv_ fdt p oldn newn m = Some (0, m') /\
      FdtRwSpec.rw_ok fdt total (off + d) m' ts strs /\ rsv m' = rsv m /\ room m' = room m - d /\
      (forall x, fdt + 40 <= x < p -> rd m' x = rd m x) /\
      (forall x, p + 16 * oldn <= x < fdt + off -> rd m' (x + d) = rd m x) /\
      same_outside in_buf m m'
  else fdt_splice_mem_rsv_ fdt p oldn newn m = Some (- FDT_ERR_NOSPACE, m).
Proof.
  intros Hok Hold Hnew Hold2 Hk Hfit Hfit2 p d. pose proof Hok as [(? & ? & ?) Hmag Hver Htot [Hr1 Hr2] Hos [_ Hss] Hord Hsz Hend _ _ _ _].
  pose proof (size_nonneg ts). cbn [size] in *. unfold fdt_splice_mem_rsv_, RESERVE_ENTRY_SIZEOF.
  rewrite !s32_id by lia. replace ((newn - oldn) * 16) with d by (unfold d; lia).
  set (len := fdt + fdt_off_dt_strings m fdt + Z.of_nat (length strs) - p - oldn * 16).
  pose proof (fdt_splice_run fdt total off m ts 0 [] strs p (oldn * 16) (newn * 16) Hok ltac:(unfold p; lia) ltac:(lia) ltac:(lia)) as E.
  cbv zeta in E. fold len in E. specialize (E ltac:(unfold len, p; lia)).
  replace (newn * 16 - oldn * 16) with d in E by (unfold d; lia). unfold room in *. case_decide as Hd.
  2:{ by rewrite (W_bind_run _ _ _ _ _ E). }
  rewrite (W_bind_run _ _ _ _ _ E). cbn [truthy Z.eqb negb]. clear E.
  pose proof (memmove_copied m (p + newn * 16) (p + oldn * 16) (Z.to_nat len)) as Hc.
  set (m1 := memmove _ _ _ _) in *. rewrite reads_run, writes_run, reads_run, writes_run, W_ret_run.
  pose proof (copied_same_outside _ _ _ _ _ Hc) as Hs1. unfold within in Hs1.
  assert (Hh1 : forall f, 0 <= f <= 36 -> fdt_get_header m1 fdt f = fdt_get_header m fdt f).
  { intros f Hf. apply (header_same_outside _ _ _ _ _ Hs1). unfold within, p. lia. }
  assert (E1 : fdt_off_dt_struct m1 fdt = off) by (rewrite <- Hos; apply Hh1; header_offsets; lia).
  assert (E2 : fdt_off_dt_strings m1 fdt = fdt_off_dt_strings m fdt) by (apply Hh1; header_offsets; lia).
  set (offs := fdt_off_dt_strings m fdt) in *. rewrite E1. set (m2 := fdt_set_off_dt_struct fdt (off + d) m1).
  assert (E3 : fdt_off_dt_strings m2 fdt = offs).
  { rewrite <- E2. unfold fdt_off_dt_strings, m2, fdt_set_off_dt_struct. apply get_set_header_ne. header_offsets. lia. }
  rewrite E3. set (m3 := fdt_set_off_dt_strings fdt (offs + d) m2). clear E1 E2 E3.
  assert (Hs3 : same_outside (within fdt 40) m1 m3).
  { do 2 (apply same_outside_store; [unfold within; header_offsets; intros x Hx; lia|]). done. }
  unfold within in Hs3.
  assert (Hh : forall f, 0 <= f <= 4 \/ 16 <= f <= 36 -> fdt_get_header m3 fdt f = fdt_get_header m fdt f).
  { intros f Hf. unfold m3, m2, fdt_set_off_dt_strings, fdt_set_off_dt_struct.
    rewrite !get_set_header_ne by (header_offsets; lia). apply Hh1. lia. }
  headers_same Hh.
  assert (F4 : fdt_off_dt_strings m3 fdt = offs + d) by (unfold fdt_off_dt_strings, m3, fdt_set_off_dt_strings; apply get_set_header; lia).
  assert (F3 : fdt_off_dt_struct m3 fdt = off + d).
  { unfold m3, fdt_set_off_dt_strings, fdt_off_dt_struct. rewrite get_set_header_ne by (header_offsets; lia). apply get_set_header. lia. }
  assert (Hmove : forall x, p + 16 * oldn <= x < fdt + offs + Z.of_nat (length strs) -> rd m3 (x + d) = rd m x).
  { intros x Hx. transitivity (rd m1 (x + d)); [symmetry; apply Hs3; unfold p; lia|].
    rewrite Hc, decide_True by (unfold within, len; lia). f_equal. lia. }
  exists m3. split; [done|]. split; [|split; [exact F5|split; [rewrite F4, F8; lia|split; [|split]]]].
  - apply (rw_rebuild fdt total off m ts strs fdt total (off + d) (offs + d)); rewrite ?F1, ?F2, ?F5, ?F6, ?F7, ?F8, ?F9; try done; try lia.
    + intros i Hi. replace (fdt + (off + d) + i) with (fdt + off + i + d) by lia. apply Hmove. unfold p. lia.
    + intros i Hi. fold offs. replace (fdt + (offs + d) + i) with (fdt + offs + i + d) by lia. apply Hmove. unfold p. lia.
  - intros x Hx. transitivity (rd m1 x); [symmetry; apply Hs3; lia|]. symmetry. apply Hs1. lia.
  - intros x Hx. apply Hmove. lia.
  - eapply same_outside_trans; eapply same_outside_mono; [|exact Hs1| |exact Hs3]; intros x Hx;
      unfold FdtSwSpec.in_buf, p, len in *; lia.
Qed.

(** Nothing but bytes of the map changed. *)
Lemma rw_keep_front off' m m' ts strs :
  FdtRwSpec.rw_ok fdt total off' m ts strs -> same_outside (fun x => fdt + 40 <= x < fdt + off') m m' ->
  FdtRwSpec.rw_ok fdt total off' m' ts strs /\ rsv m' = rsv m /\ fdt_off_dt_struct m' fdt = off' /\ room m' = room m.
Proof.
  intros Hok Hs. pose proof Hok as [(? & ? & ?) Hmag Hver Htot Hrsv Hos [_ Hss] Hord Hsz Hend _ _ _ _].
  pose proof (size_nonneg ts). cbn [size] in *.
  assert (Hh : forall f, 0 <= f <= 36 -> fdt_get_header m' fdt f = fdt_get_header m fdt f).
  { intros f Hf. apply (header_same_outside _ _ _ _ _ Hs). unfold within. lia. }
  headers_same Hh.
  split; [|split; [done|split; [by rewrite F3|unfold FdtRwSpec.room; by rewrite F4, F8]]].
  apply (rw_rebuild fdt total off' m ts strs fdt total off' (fdt_off_dt_strings m fdt)); rewrite ?F1, ?F2, ?F3, ?F4, ?F5, ?F6, ?F7, ?F8, ?F9; try done; try lia;
    intros i Hi; symmetry; apply Hs; lia.
Qed.

Context (fuel : nat).
Hypothesis Hfuel : (Z.to_nat total <= fuel)%nat.

Lemma fdt_num_mem_rsv_run m ts strs l :
  rw_ok m ts strs -> reserves m l -> fdt_num_mem_rsv m fdt fuel = Some (Z.of_nat (length l)).
Proof.
  intros Hok Hl. pose proof (reserves_fit m ts strs l Hok Hl) as (Hr & Hfit & Hs & Ht). pose proof (size_nonneg ts).
  pose proof (go_total _ _ _ _ _ _ _ _ Hok) as Htot. pose proof (go_fdt _ _ _ _ _ _ _ _ Hok) as (Hf & _).
  destruct Hl as [Hl _]. rewrite <- (app_nil_r l) in Hl. apply entries_app in Hl as [He Hend].
  assert (Hsize : forall i, 0 <= i <= Z.of_nat (length l) ->
    fdt_mem_rsv m fdt i <> NULL /\ reserve_size m fdt i = fdt64_to_cpu (ld64 m (reserve_entry_size (fdt + rsv m + 16 * i)))).
  { intros i Hi. unfold reserve_size. rewrite fdt_mem_rsv_in by (rewrite ?Htot; lia). split; [|done].
    unfold fdt_mem_rsv_, RESERVE_ENTRY_SIZEOF, NULL. lia. }
  unfold fdt_num_mem_rsv. apply num_mem_rsv_loop_run; [|lia|lia].
  split; [lia|]. split; [|split].
  - intros i Hi. destruct (Hsize i ltac:(lia)) as [Hn ->]. split; [done|].
    destruct (lookup_lt_is_Some_2 l (Z.to_nat i) ltac:(lia)) as [e Hie]. destruct (He _ _ Hie) as [[_ Hs2] Hne].
    replace (Z.of_nat (Z.to_nat i)) with i in Hs2 by lia. by rewrite Hs2.
  - by destruct (Hsize (Z.of_nat (length l)) ltac:(lia)).
  - destruct (Hsize (Z.of_nat (length l)) ltac:(lia)) as [_ ->]. exact Hend.
Qed.

Lemma fdt_add_mem_rsv_run m ts strs l a s :
  rw_ok m ts strs -> reserves m l -> is_u64 a -> is_u64 s -> s <> 0 ->
  exists m' r, fdt_add_mem_rsv fdt fuel a s m = Some (r, m') /\ same_outside in_buf m m' /\
    if decide (16 <= room m) then
      r = 0 /\ FdtRwSpec.rw_ok fdt total (off + 16) m' ts strs /\ reserves m' (l ++ [(a, s)]) /\ room m' = room m - 16
    else r = - FDT_ERR_NOSPACE /\ rw_ok m' ts strs /\ reserves m' l.
Proof.
  intros Hok Hl Ha Hs Hne. pose proof (reserves_fit m ts strs l Hok Hl) as (Hr40 & Hfit & Hsz & Htot). pose proof (size_nonneg ts).
  destruct (fdt_rw_probe_reserves m ts strs l Hok Hl) as (m0 & E0 & Hok0 & Hl0 & Hroom0 & Hs0).
  pose proof (reserves_fit m0 ts strs l Hok0 Hl0) as (Hr40' & Hfit' & _ & _).
  unfold fdt_add_mem_rsv. rewrite (W_bind_run _ _ _ _ _ E0). cbn [truthy Z.eqb negb].
  rewrite (runs_run _ _ _ _ (fdt_num_mem_rsv_run m0 ts strs l Hok0 Hl0)), reads_run.
  unfold fdt_mem_rsv_, RESERVE_ENTRY_SIZEOF. set (p := fdt + rsv m0 + 16 * Z.of_nat (length l)).
  pose proof (splice_rsv_run m0 ts strs (Z.of_nat (length l)) 0 1 Hok0 ltac:(lia) ltac:(lia) ltac:(lia) ltac:(lia) ltac:(lia) ltac:(lia)) as Hsp.
  cbv zeta in Hsp. change (16 * (1 - 0)) with 16 in Hsp. fold p in Hsp. rewrite Hroom0 in Hsp.
  assert (Hin0 : same_outside in_buf m m0).
  { eapply same_outside_mono; [|exact Hs0]. unfold within, FdtSwSpec.in_buf. lia. }
  case_decide as Hd.
  2:{ rewrite (W_bind_run _ _ _ _ _ Hsp). exists m0, (- FDT_ERR_NOSPACE). by split_and!. }
  destruct Hsp as (m1 & E1 & Hok1 & Er1 & Hroom1 & Hbefore & Hafter & Hs1).
  rewrite (W_bind_run _ _ _ _ _ E1). cbn [truthy Z.eqb negb]. rewrite !writes_run, W_ret_run.
  unfold reserve_entry_address, reserve_entry_size. set (m2 := st64 m1 _ _). set (m3 := st64 m2 _ _).
  assert (Hs3 : same_outside (within p 16) m1 m3).
  { do 2 (apply same_outside_store; [unfold within; intros x Hx; lia|]). done. }
  unfold within in Hs3.
  destruct (rw_keep_front (off + 16) m1 m3 ts strs Hok1) as (Hok3 & Er3 & Eo3 & Hroom3).
  { eapply same_outside_mono; [|exact Hs3]. unfold p. lia. }
  exists m3, 0. split; [done|]. split.
  { eapply same_outside_trans; [exact Hin0|]. eapply same_outside_trans; [exact Hs1|].
    eapply same_outside_mono; [|exact Hs3]. unfold FdtSwSpec.in_buf, p. lia. }
  split; [done|]. split; [done|]. split; [|by rewrite Hroom3, Hroom1].
  destruct Hl0 as [He0 _]. rewrite <- (app_nil_r l) in He0. apply entries_app in He0 as [He0 Hend0]. fold p in Hend0.
  split; [|rewrite Eo3, Er3, Er1, length_app; simpl; lia]. rewrite Er3, Er1. apply entries_app. split.
  - intros i e Hi. pose proof (lookup_lt_Some _ _ _ Hi). destruct (He0 i e Hi) as [He Hne']. split; [|done].
    apply (entry_moved m0 _ (fdt + rsv m0 + 16 * Z.of_nat i)); [|done]. intros j Hj. rewrite <- (Hbefore (fdt + rsv m0 + 16 * Z.of_nat i + j)) by (unfold p; lia).
    symmetry. apply Hs3. unfold p. lia.
  - fold p. cbn [entries_at]. split; [|split; [done|]].
    + unfold region_at, reserve_entry_address, reserve_entry_size. cbn [fst snd]. unfold m3. rewrite ld64_st64_eq.
      rewrite load_store_apart by (unfold apart; lia). unfold m2. rewrite ld64_st64_eq. by rewrite !fdt64_swap.
    + rewrite <- Hend0. apply end_moved. intros i Hi. rewrite <- (Hafter (p + i)) by (unfold p; lia).
      symmetry. replace (p + 16 + i) with (p + i + 16) by lia. apply Hs3. lia.
Qed.

Lemma fdt_del_mem_rsv_run m ts strs l n :
  rw_ok m ts strs -> reserves m l -> 0 <= n ->
  exists m' r, fdt_del_mem_rsv fdt fuel n m = Some (r, m') /\ same_outside in_buf m m' /\
    if decide (n < Z.of_nat (length l)) then
      r = 0 /\ FdtRwSpec.rw_ok fdt total (off - 16) m' ts strs /\ reserves m' (delete (Z.to_nat n) l) /\ room m' = room m + 16
    else r = - FDT_ERR_NOTFOUND /\ rw_ok m' ts strs /\ reserves m' l.
Proof.
  intros Hok Hl Hn. pose proof (reserves_fit m ts strs l Hok Hl) as (Hr40 & Hfit & Hsz & Htot). pose proof (size_nonneg ts).
  destruct (fdt_rw_probe_reserves m ts strs l Hok Hl) as (m0 & E0 & Hok0 & Hl0 & Hroom0 & Hs0).
  pose proof (reserves_fit m0 ts strs l Hok0 Hl0) as (Hr40' & Hfit' & _ & _).
  assert (Hin0 : same_outside in_buf m m0).
  { eapply same_outside_mono; [|exact Hs0]. unfold within, FdtSwSpec.in_buf. lia. }
  assert (Er0 : rsv m0 = rsv m).
  { pose proof (fdt_rw_probe_outside m 0 m0 E0) as Hp. apply (header_same_outside _ _ _ _ _ Hp). unfold within. header_offsets. lia. }
  unfold fdt_del_mem_rsv. rewrite reads_run, (W_bind_run _ _ _ _ _ E0). cbn [truthy Z.eqb negb].
  rewrite (runs_run _ _ _ _ (fdt_num_mem_rsv_run m0 ts strs l Hok0 Hl0)).
  unfold fdt_mem_rsv_, RESERVE_ENTRY_SIZEOF. rewrite <- Er0. set (p := fdt + rsv m0 + 16 * n).
  case_decide as Hlt; destruct (Z.leb_spec (Z.of_nat (length l)) n); try lia.
  2:{ exists m0, (- FDT_ERR_NOTFOUND). by split_and!. }
  pose proof (splice_rsv_run m0 ts strs n 1 0 Hok0 ltac:(lia) ltac:(lia) ltac:(lia) ltac:(lia) ltac:(lia) ltac:(lia)) as Hsp.
  cbv zeta in Hsp. change (16 * (0 - 1)) with (-16) in Hsp. fold p in Hsp. rewrite Hroom0 in Hsp.
  pose proof Hok as [_ _ _ Ht _ _ _ Hord Hszs Hend _ _ _ _]. cbn [size] in Hord.
  rewrite decide_True in Hsp by (unfold room; lia).
  destruct Hsp as (m1 & E1 & Hok1 & Er1 & Hroom1 & Hbefore & Hafter & Hs1).
  exists m1, 0. split; [exact E1|]. split; [by eapply same_outside_trans|]. split; [done|]. split; [exact Hok1|]. split; [|rewrite Hroom1; lia].
  destruct (lookup_lt_is_Some_2 l (Z.to_nat n) ltac:(lia)) as [e He]. pose proof (take_drop_middle l _ _ He) as El.
  assert (Htl : length (take (Z.to_nat n) l) = Z.to_nat n) by (rewrite length_take; lia).
  destruct Hl0 as [He0 _]. rewrite <- El in He0. apply entries_app in He0 as [Hpre Hpost]. rewrite Htl, Z2Nat.id in Hpost by lia.
  fold p in Hpost. destruct Hpost as (_ & _ & Hpost).
  split; [|rewrite (go_off_struct _ _ _ _ _ _ _ _ Hok1), Er1, length_delete by (rewrite He; by eexists); lia].
  rewrite delete_take_drop, Er1. apply entries_app. rewrite Htl, Z2Nat.id by lia. fold p. split.
  - intros i e' Hi. destruct (Hpre i e' Hi) as [H1 H2]. split; [|done]. pose proof (lookup_lt_Some _ _ _ Hi) as Hil. rewrite Htl in Hil.
    apply (entry_moved m0 _ (fdt + rsv m0 + 16 * Z.of_nat i)); [|done]. intros j Hj. apply Hbefore. unfold p. lia.
  - apply (entries_moved m0 _ (p + 16)); [|done]. rewrite length_drop. intros j Hj.
    replace (p + j) with (p + 16 + j + -16) by lia. apply Hafter. unfold p. lia.
Qed.
End Reserve.

(** ** Opening into a larger buffer, and packing *)
Section Capacity.
Context (fdt total off : Z).
Abbreviation rw_ok := (rw_ok fdt total off).
Abbreviation rsv m := (fdt_off_mem_rsvmap m fdt).

(** The sizes of the blocks as the two functions compute them, and their order. *)
Lemma blocks_ordered m ts strs l :
  rw_ok m ts strs -> reserves fdt m l ->
  s32 ((Z.of_nat (length l) + 1) * RESERVE_ENTRY_SIZEOF) = 16 * (Z.of_nat (length l) + 1) /\
  s32 (fdt_size_dt_struct m fdt) = size ts /\
  fdt_blocks_misordered_ fdt (16 * (Z.of_nat (length l) + 1)) (size ts) m = false.
Proof.
  intros Hok Hl. destruct (reserves_fit fdt total off m ts strs l Hok Hl) as (Hr & Hfit & Hsz & Htot). pose proof (size_nonneg ts).
  pose proof Hok as [(? & ? & ?) _ _ Ht _ Hos [_ Hss] Hord Hszs Hend _ _ _ _]. cbn [size] in *.
  unfold RESERVE_ENTRY_SIZEOF. split; [rewrite s32_id; lia|]. split; [rewrite Hss, s32_id; lia|].
  unfold fdt_blocks_misordered_. change (FDT_ALIGN FDT_HEADER_SIZEOF 8) with 40. rewrite Hos, Hszs, Ht, !u32_id by lia. lia.
Qed.

Context (fuel : nat).
Hypothesis Hfuel : (Z.to_nat total <= fuel)%nat.

Lemma fdt_open_into_run m ts strs l buf bufsize :
  rw_ok m ts strs -> reserves fdt m l -> 0 < buf -> 0 <= bufsize -> bufsize + 3 < 2 ^ 31 ->
  if decide (total <= bufsize) then
    exists m', fdt_open_into fuel fdt buf bufsize m = Some (0, m') /\
      FdtRwSpec.rw_ok buf bufsize off m' ts strs /\ reserves buf m' l /\
      room buf bufsize m' = room fdt total m + (bufsize - total) /\ same_outside (in_buf buf bufsize) m m'
  else fdt_open_into fuel fdt buf bufsize m = Some (- FDT_ERR_NOSPACE, m).
Proof.
  intros Hok Hl Hbuf Hbs Hbs2. destruct (blocks_ordered m ts strs l Hok Hl) as (Es1 & Es2 & Emis).
  destruct (reserves_fit fdt total off m ts strs l Hok Hl) as (Hr & Hfit & Hsz & Htot). pose proof (size_nonneg ts).
  pose proof (rw_probe_size fdt total off m ts strs Hok) as Eprobe.
  pose proof Hok as [(? & ? & ?) Hmag [Hv Hlc] Ht Hrsv Hos [_ Hss] Hord Hszs Hend _ _ _ _]. cbn [size] in *.
  unfold fdt_open_into. rewrite !reads_run, Eprobe. destruct (Z.ltb_spec total 0); [lia|].
  rewrite (runs_run _ _ _ _ (fdt_num_mem_rsv_run fdt total off fuel Hfuel m ts strs l Hok Hl)), Es1, reads_run.
  destruct (Z.leb_spec 17 (fdt_version m fdt)); [|lia]. rewrite reads_run, Es2.
  destruct (Z.ltb_spec (fdt_version m fdt) 17); [lia|]. cbn [andb]. rewrite reads_run, Emis. cbn [negb].
  assert (Emove : move_result fdt buf bufsize m =
    Some (if decide (total <= bufsize) then (0, memmove m buf fdt (Z.to_nat total)) else (- FDT_ERR_NOSPACE, m))).
  { unfold move_result, fdt_move. rewrite Eprobe, Ht, u32_id by lia. destruct (Z.ltb_spec bufsize 0); [lia|].
    destruct (Z.ltb_spec total 0); [lia|]. case_decide; destruct (Z.ltb_spec bufsize total); try lia; done. }
  case_decide as Hd; [|by rewrite (W_bind_run _ _ _ _ _ Emove)].
  rewrite (W_bind_run _ _ _ _ _ Emove). cbn [truthy Z.eqb negb]. rewrite !writes_run, W_ret_run. clear Emove.
  pose proof (memmove_copied m buf fdt (Z.to_nat total)) as Hc. set (m1 := memmove _ _ _ _) in *.
  set (m2 := fdt_set_version buf 17 m1). set (m3 := fdt_set_size_dt_struct buf (size ts) m2). set (m4 := fdt_set_totalsize buf bufsize m3).
  assert (Hh1 : forall f, 0 <= f <= 36 -> fdt_get_header m1 buf f = fdt_get_header m fdt f).
  { intros f Hf. unfold fdt_get_header. f_equal. apply load_moved. intros i Hi. rewrite Hc, decide_True by (unfold within; lia). f_equal. lia. }
  assert (Hs4 : same_outside (within buf 40) m1 m4).
  { do 3 (apply same_outside_store; [unfold within; header_offsets; intros x Hx; lia|]). done. }
  unfold within in Hs4.
  assert (Hh : forall f, f = 0 \/ 8 <= f <= 16 \/ 24 <= f <= 32 -> fdt_get_header m4 buf f = fdt_get_header m fdt f).
  { intros f Hf. unfold m4, m3, m2, fdt_set_totalsize, fdt_set_size_dt_struct, fdt_set_version.
    rewrite !get_set_header_ne by (header_offsets; lia). apply Hh1. lia. }
  assert (Hmove : forall i, 40 <= i < total -> rd m4 (buf + i) = rd m (fdt + i)).
  { intros i Hi. transitivity (rd m1 (buf + i)); [symmetry; apply Hs4; lia|]. rewrite Hc, decide_True by (unfold within; lia). f_equal. lia. }
  assert (F1 : fdt_magic m4 buf = fdt_magic m fdt) by (apply Hh; header_offsets; lia).
  assert (F3 : fdt_off_dt_struct m4 buf = off) by (rewrite <- Hos; apply Hh; header_offsets; lia).
  assert (F4 : fdt_off_dt_strings m4 buf = fdt_off_dt_strings m fdt) by (apply Hh; header_offsets; lia).
  assert (F5 : fdt_off_mem_rsvmap m4 buf = rsv m) by (apply Hh; header_offsets; lia).
  assert (F7 : fdt_last_comp_version m4 buf = fdt_last_comp_version m fdt) by (apply Hh; header_offsets; lia).
  assert (F8 : fdt_size_dt_strings m4 buf = fdt_size_dt_strings m fdt) by (apply Hh; header_offsets; lia).
  assert (F2 : fdt_totalsize m4 buf = bufsize) by (unfold fdt_totalsize, m4, fdt_set_totalsize; apply get_set_header; lia).
  assert (F6 : fdt_version m4 buf = 17) by (unfold m4, m3, m2; header_eval).
  assert (F9 : fdt_size_dt_struct m4 buf = size ts) by (unfold m4, m3, m2; header_eval).
  exists m4. split; [done|]. split; [|split; [|split]].
  - apply (rw_rebuild fdt total off m ts strs buf bufsize off (fdt_off_dt_strings m fdt)); rewrite ?F1, ?F5, ?F6, ?F7, ?F8; try done; try lia;
      intros i Hi; rewrite <- !Z.add_assoc; apply Hmove; lia.
  - destruct Hl as [He _]. split; [|rewrite F3, F5; lia]. rewrite F5. apply (entries_moved m _ (fdt + rsv m)); [|done].
    intros i Hi. rewrite <- !Z.add_assoc. apply Hmove. lia.
  - unfold room. rewrite F4, F8. lia.
  - eapply same_outside_trans; eapply same_outside_mono; [|exact (copied_same_outside _ _ _ _ _ Hc)| |exact Hs4]; intros x Hx;
      unfold FdtSwSpec.in_buf, within in *; lia.
Qed.

(** Three blocks of [r], [b] and [n] bytes that follow each other move towards the
    front, with changes of the header in between. *)
Lemma blocks_packed m m1 m2 m3 m4 m5 m6 r b n o1 o2 o3 :
  copied m (fdt + 40) (fdt + o1) (Z.to_nat r) m1 -> same_outside (within fdt 40) m1 m2 ->
  copied m2 (fdt + (40 + r)) (fdt + o2) (Z.to_nat b) m3 -> same_outside (within fdt 40) m3 m4 ->
  copied m4 (fdt + (40 + r + b)) (fdt + o3) n m5 -> same_outside (within fdt 40) m5 m6 ->
  0 <= r -> 0 <= b -> 40 <= o1 -> o1 + r <= o2 -> o2 + b <= o3 ->
  (forall i, 0 <= i < r -> rd m6 (fdt + 40 + i) = rd m (fdt + o1 + i)) /\
  (forall i, 0 <= i < b -> rd m6 (fdt + (40 + r) + i) = rd m (fdt + o2 + i)) /\
  (forall i, 0 <= i < Z.of_nat n -> rd m6 (fdt + (40 + r + b) + i) = rd m (fdt + o3 + i)) /\
  same_outside (fun x => fdt <= x < fdt + o3 + Z.of_nat n) m m6.
Proof.
  intros Hc1 Hs2 Hc3 Hs4 Hc5 Hs6 Hr Hb H1 H2 H3. unfold copied, same_outside, within in *.
  assert (E4 : forall y, fdt + (40 + r + b) <= y \/ fdt + 40 <= y < fdt + (40 + r) -> rd m4 y = rd m1 y).
  { intros y Hy. rewrite <- (Hs4 y), Hc3, decide_False by lia. symmetry. apply Hs2. lia. }
  split_and!.
  - intros i Hi. rewrite <- Hs6, Hc5, decide_False, E4, Hc1, decide_True by lia. f_equal. lia.
  - intros i Hi. rewrite <- Hs6, Hc5, decide_False, <- Hs4, Hc3, decide_True, <- Hs2, Hc1, decide_False by lia. f_equal. lia.
  - intros i Hi. rewrite <- Hs6, Hc5, decide_True, E4, Hc1, decide_False by lia. f_equal. lia.
  - intros x Hx. rewrite <- (Hs6 x), Hc5, decide_False, <- (Hs4 x), Hc3, decide_False, <- (Hs2 x), Hc1, decide_False by lia. done.
Qed.

(** Three moves towards the front, between header updates. *)
Lemma packblocks_run m ts strs l :
  rw_ok m ts strs -> reserves fdt m l ->
  let r := 16 * (Z.of_nat (length l) + 1) in
  exists m', fdt_packblocks_ fdt fdt r (size ts) m = Some (tt, m') /\
    (forall i, 0 <= i < r -> rd m' (fdt + 40 + i) = rd m (fdt + rsv m + i)) /\
    (forall i, 0 <= i < size ts -> rd m' (fdt + (40 + r) + i) = rd m (fdt + off + i)) /\
    (forall i, 0 <= i < Z.of_nat (length strs) -> rd m' (fdt + (40 + r + size ts) + i) = rd m (fdt + fdt_off_dt_strings m fdt + i)) /\
    (forall f, 0 <= f <= 4 \/ 20 <= f <= 28 -> fdt_get_header m' fdt f = fdt_get_header m fdt f) /\
    fdt_off_mem_rsvmap m' fdt = 40 /\ fdt_off_dt_struct m' fdt = 40 + r /\ fdt_size_dt_struct m' fdt = size ts /\
    fdt_off_dt_strings m' fdt = 40 + r + size ts /\ fdt_size_dt_strings m' fdt = Z.of_nat (length strs) /\
    same_outside (in_buf fdt total) m m'.
Proof.
  intros Hok Hl r. destruct (reserves_fit fdt total off m ts strs l Hok Hl) as (Hr & Hfit & Hsz & Htot). fold r in Hfit.
  pose proof (size_nonneg ts) as Hts. assert (Hr0 : 16 <= r) by lia.
  pose proof Hok as [(Hf0 & Hoff & Ht3) _ _ Ht _ Hos [_ Hss] Hord Hszs Hend _ _ _ _]. cbn [size] in *. clearbody r.
  unfold fdt_packblocks_. change (FDT_ALIGN FDT_HEADER_SIZEOF 8) with 40. rewrite (s32_id (40 + r)), s32_id by lia.
  rewrite !writes_run. unfold count. rewrite !u64_id by lia.
  set (m1 := memmove m (fdt + 40) (fdt + rsv m) (Z.to_nat r)). set (m2 := fdt_set_off_mem_rsvmap fdt 40 m1).
  pose proof (memmove_copied m (fdt + 40) (fdt + rsv m) (Z.to_nat r)) as Hc1. fold m1 in Hc1.
  assert (Hs2 : same_outside (within fdt 40) m1 m2) by (apply set_header_outside; unfold within; header_offsets; lia).
  assert (H2 : forall f, 0 <= f <= 12 \/ 20 <= f <= 36 -> fdt_get_header m2 fdt f = fdt_get_header m fdt f).
  { intros f Hf. unfold m2, fdt_set_off_mem_rsvmap. rewrite get_set_header_ne by (header_offsets; lia).
    apply (header_same_outside _ _ _ _ _ (copied_same_outside _ _ _ _ _ Hc1)). unfold within. lia. }
  assert (E2 : fdt_off_dt_struct m2 fdt = off) by (rewrite <- Hos; apply H2; header_offsets; lia). rewrite E2.
  set (m3 := memmove m2 (fdt + (40 + r)) (fdt + off) (Z.to_nat (size ts))).
  pose proof (memmove_copied m2 (fdt + (40 + r)) (fdt + off) (Z.to_nat (size ts))) as Hc3. fold m3 in Hc3.
  set (m4 := fdt_set_off_dt_struct fdt (40 + r) m3). set (m5 := fdt_set_size_dt_struct fdt (size ts) m4).
  assert (Hs5 : same_outside (within fdt 40) m3 m5).
  { do 2 (apply same_outside_store; [unfold within; header_offsets; intros x Hx; lia|]). done. }
  assert (H5 : forall f, 0 <= f <= 4 \/ f = 12 \/ 20 <= f <= 32 -> fdt_get_header m5 fdt f = fdt_get_header m fdt f).
  { intros f Hf. unfold m5, m4, fdt_set_size_dt_struct, fdt_set_off_dt_struct. rewrite !get_set_header_ne by (header_offsets; lia).
    rewrite <- (H2 f) by lia. apply (header_same_outside _ _ _ _ _ (copied_same_outside _ _ _ _ _ Hc3)). unfold within. lia. }
  assert (E5 : fdt_off_dt_strings m5 fdt = fdt_off_dt_strings m fdt) by (apply H5; header_offsets; lia).
  assert (E5' : fdt_size_dt_strings m5 fdt = Z.of_nat (length strs)) by (rewrite <- Hszs; apply H5; header_offsets; lia).
  rewrite E5, E5', Nat2Z.id. set (offs := fdt_off_dt_strings m fdt) in *.
  set (m6 := memmove m5 (fdt + (40 + r + size ts)) (fdt + offs) (length strs)).
  pose proof (memmove_copied m5 (fdt + (40 + r + size ts)) (fdt + offs) (length strs)) as Hc6. fold m6 in Hc6.
  set (m7 := fdt_set_off_dt_strings fdt (40 + r + size ts) m6).
  assert (H6 : forall f, 0 <= f <= 36 -> fdt_get_header m6 fdt f = fdt_get_header m5 fdt f).
  { intros f Hf. apply (header_same_outside _ _ _ _ _ (copied_same_outside _ _ _ _ _ Hc6)). unfold within. lia. }
  assert (E7 : fdt_size_dt_strings m7 fdt = Z.of_nat (length strs)).
  { rewrite <- E5'. unfold m7, fdt_set_off_dt_strings, fdt_size_dt_strings. rewrite get_set_header_ne by (header_offsets; lia). apply H6. header_offsets. lia. }
  rewrite reads_run, E7. unfold writes. set (m8 := fdt_set_size_dt_strings fdt _ m7). exists m8.
  assert (Hs8 : same_outside (within fdt 40) m6 m8).
  { do 2 (apply same_outside_store; [unfold within; header_offsets; intros x Hx; lia|]). done. }
  destruct (blocks_packed m m1 m2 m3 m5 m6 m8 r (size ts) (length strs) (rsv m) off offs Hc1 Hs2 Hc3 Hs5 Hc6 Hs8)
    as (R1 & R2 & R3 & Hout); [lia..|].
  assert (F1 : fdt_off_mem_rsvmap m5 fdt = 40).
  { unfold m5, m4. header_skip. rewrite (header_same_outside _ _ _ _ _ (copied_same_outside _ _ _ _ _ Hc3)) by (unfold within; header_offsets; lia).
    unfold m2. header_eval. }
  assert (F2 : fdt_off_dt_struct m5 fdt = 40 + r) by (unfold m5, m4; header_eval).
  assert (F3 : fdt_size_dt_struct m5 fdt = size ts) by (unfold m5; header_eval).
  assert (H8 : forall f, 0 <= f <= 8 \/ 16 <= f <= 28 \/ f = 36 -> fdt_get_header m8 fdt f = fdt_get_header m5 fdt f).
  { intros f Hf. unfold m8, m7, fdt_set_size_dt_strings, fdt_set_off_dt_strings. rewrite !get_set_header_ne by (header_offsets; lia). apply H6. lia. }
  split; [reflexivity|]. split_and!; [exact R1|exact R2|exact R3| | | | | | |].
  - intros f Hf. unfold m8, m7, fdt_set_size_dt_strings, fdt_set_off_dt_strings. rewrite !get_set_header_ne by (header_offsets; lia).
    rewrite H6 by lia. apply H5. lia.
  - rewrite <- F1. apply H8. header_offsets. lia.
  - rewrite <- F2. apply H8. header_offsets. lia.
  - rewrite <- F3. apply H8. header_offsets. lia.
  - unfold m8, m7. header_eval.
  - unfold m8, m7. header_eval.
  - eapply same_outside_mono; [|exact Hout]. unfold FdtSwSpec.in_buf. lia.
Qed.

Lemma fdt_pack_run m ts strs l :
  rw_ok m ts strs -> reserves fdt m l ->
  let off' := 40 + 16 * (Z.of_nat (length l) + 1) in
  let total' := off' + size ts + Z.of_nat (length strs) in
  exists m', fdt_pack fuel fdt m = Some (0, m') /\ FdtRwSpec.rw_ok fdt total' off' m' ts strs /\ reserves fdt m' l /\
    room fdt total' m' = 0 /\ same_outside (in_buf fdt total) m m'.
Proof.
  intros Hok Hl off' total'. destruct (fdt_rw_probe_reserves fdt total off m ts strs l Hok Hl) as (m0 & E0 & Hok0 & Hl0 & _ & Hs0).
  destruct (blocks_ordered m0 ts strs l Hok0 Hl0) as (Es1 & Es2 & _).
  destruct (reserves_fit fdt total off m0 ts strs l Hok0 Hl0) as (Hr & Hfit & Hsz & Htot).
  pose proof (size_nonneg ts) as Hts. pose proof Hok0 as [(Hf0 & Hoff & Ht3) Hmag [Hv Hlc] Ht _ Hos [_ Hss] Hord Hszs Hend _ _ _ _].
  destruct (packblocks_run m0 ts strs l Hok0 Hl0) as (m1 & E1 & Hrsv & Hstruct & Hstrs & Hh & F1 & F2 & F3 & F4 & F5 & Hout).
  cbn [size] in *. fold off' in F2, F4, Hstruct, Hstrs.
  unfold fdt_pack. rewrite (W_bind_run _ _ _ _ _ E0). cbn [truthy Z.eqb negb].
  rewrite (runs_run _ _ _ _ (fdt_num_mem_rsv_run fdt total off fuel Hfuel m0 ts strs l Hok0 Hl0)), Es1, reads_run, Es2.
  rewrite (W_bind_run _ _ _ _ _ E1), reads_run, writes_run, W_ret_run.
  unfold fdt_data_size_. rewrite F4, F5. fold total'. rewrite s32_id by (unfold total', off'; lia).
  set (m2 := fdt_set_totalsize fdt total' m1). exists m2. split; [done|].
  assert (Hs2 : same_outside (within fdt 40) m1 m2) by (apply set_header_outside; unfold within; header_offsets; lia).
  unfold within in Hs2.
  assert (Hh2 : forall f, f = 0 \/ 8 <= f <= 36 -> fdt_get_header m2 fdt f = fdt_get_header m1 fdt f).
  { intros f Hf. unfold m2, fdt_set_totalsize. by rewrite get_set_header_ne by (header_offsets; lia). }
  assert (G1 : fdt_magic m2 fdt = fdt_magic m0 fdt) by (unfold fdt_magic; rewrite Hh2, Hh by (header_offsets; lia); done).
  assert (G6 : fdt_version m2 fdt = fdt_version m0 fdt) by (unfold fdt_version; rewrite Hh2, Hh by (header_offsets; lia); done).
  assert (G7 : fdt_last_comp_version m2 fdt = fdt_last_comp_version m0 fdt)
    by (unfold fdt_last_comp_version; rewrite Hh2, Hh by (header_offsets; lia); done).
  assert (G2 : fdt_totalsize m2 fdt = total') by (unfold m2, fdt_totalsize, fdt_set_totalsize; apply get_set_header; unfold total', off'; lia).
  assert (EF1 : fdt_off_mem_rsvmap m2 fdt = fdt_off_mem_rsvmap m1 fdt) by (apply Hh2; header_offsets; lia).
  assert (EF2 : fdt_off_dt_struct m2 fdt = fdt_off_dt_struct m1 fdt) by (apply Hh2; header_offsets; lia).
  assert (EF3 : fdt_size_dt_struct m2 fdt = fdt_size_dt_struct m1 fdt) by (apply Hh2; header_offsets; lia).
  assert (EF4 : fdt_off_dt_strings m2 fdt = fdt_off_dt_strings m1 fdt) by (apply Hh2; header_offsets; lia).
  assert (EF5 : fdt_size_dt_strings m2 fdt = fdt_size_dt_strings m1 fdt) by (apply Hh2; header_offsets; lia).
  rewrite <- EF1 in F1. rewrite <- EF2 in F2. rewrite <- EF3 in F3. rewrite <- EF4 in F4. rewrite <- EF5 in F5.
  split; [|split; [|split]].
  - apply (rw_rebuild fdt total off m0 ts strs fdt total' off' (off' + size ts)); rewrite ?G1, ?G6, ?G7, ?F1; try done; try (unfold total', off'; lia).
    + intros i Hi. rewrite <- Hstruct by done. symmetry. apply Hs2. unfold off'. lia.
    + intros i Hi. rewrite <- Hstrs by done. symmetry. apply Hs2. unfold off'. lia.
  - destruct Hl0 as [He _]. split; [|rewrite F1, F2; unfold off'; lia]. rewrite F1. apply (entries_moved m0 _ (fdt + rsv m0)); [|done].
    intros i Hi. rewrite <- Hrsv by lia. symmetry. apply Hs2. lia.
  - unfold room. rewrite F4, F5. unfold total'. lia.
  - eapply same_outside_trans; [|eapply same_outside_trans; [exact Hout|]]; (eapply same_outside_mono; [|eassumption]);
      unfold FdtSwSpec.in_buf, within; lia.
Qed.
End Capacity.

(** ** The refinement *)
Section Refine.
Context `{Symbols} (fdt total : Z) (fuel : nat).
Hypothesis Hfuel : (Z.to_nat total <= fuel)%nat.

(** The tree in the buffer at [b] of [n] bytes, as it is read too. *)
Definition keeps (b n : Z) (m' : memory) (v : vtree) : Prop := holds b n m' v /\ reads_as m' b fuel v.
Lemma rw_keeps b n off root strs m' v :
  (Z.to_nat n <= fuel)%nat -> FdtRwSpec.rw_ok b n off m' (tree_tokens root ++ [TEnd]) strs -> represents (string_in strs) root v -> keeps b n m' v.
Proof.
  intros Hn Hok Hr. assert (Hh : holds b n m' v) by by exists off, root, strs. split; [done|]. by apply (holds_reads b n).
Qed.

(** (C24) The reserve map is a list of regions: [fdt_add_mem_rsv] appends a region of a
    size other than 0, or reports [-FDT_ERR_NOSPACE] when there are no 16 bytes of
    room, and [fdt_del_mem_rsv] removes the region with the given number, or reports
    [-FDT_ERR_NOTFOUND]. The tree stays, and so does the map when there is an error. *)
Theorem fdt_mem_rsv_correct m v l a s n :
  holds fdt total m v -> reserves fdt m l -> is_u64 a -> is_u64 s -> s <> 0 -> 0 <= n ->
  (exists m' r l', fdt_add_mem_rsv fdt fuel a s m = Some (r, m') /\ same_outside (in_buf fdt total) m m' /\
     keeps fdt total m' v /\ reserves fdt m' l' /\
     if decide (16 <= room fdt total m) then r = 0 /\ l' = l ++ [(a, s)] else r = - FDT_ERR_NOSPACE /\ l' = l) /\
  (exists m' r l', fdt_del_mem_rsv fdt fuel n m = Some (r, m') /\ same_outside (in_buf fdt total) m m' /\
     keeps fdt total m' v /\ reserves fdt m' l' /\
     if decide (n < Z.of_nat (length l)) then r = 0 /\ l' = delete (Z.to_nat n) l else r = - FDT_ERR_NOTFOUND /\ l' = l).
Proof.
  intros (off & root & strs & Hok & Hr) Hl Ha Hs Hne Hn. split.
  - destruct (fdt_add_mem_rsv_run fdt total off fuel Hfuel m _ strs l a s Hok Hl Ha Hs Hne) as (m' & r & E & Hout & Hcase).
    case_decide; destruct Hcase as (-> & Hok' & Hl'); [destruct Hl' as [Hl' _]|]; eexists m', _, _;
      (split; [exact E|]); (split; [done|]); (split; [by eapply rw_keeps|]); by split.
  - destruct (fdt_del_mem_rsv_run fdt total off fuel Hfuel m _ strs l n Hok Hl Hn) as (m' & r & E & Hout & Hcase).
    case_decide; destruct Hcase as (-> & Hok' & Hl'); [destruct Hl' as [Hl' _]|]; eexists m', _, _;
      (split; [exact E|]); (split; [done|]); (split; [by eapply rw_keeps|]); by split.
Qed.

(** (C23) [fdt_open_into] gives a buffer of the new size that holds the same tree and the
    same reserved regions, with that much more room, whether or not the buffers
    overlap, and reports [-FDT_ERR_NOSPACE] and changes nothing when it is too small;
    [fdt_pack] keeps the tree and the regions and leaves no room at all. *)
Theorem fdt_open_pack_correct m v l buf bufsize :
  holds fdt total m v -> reserves fdt m l -> 0 < buf -> 0 <= bufsize -> bufsize + 3 < 2 ^ 31 -> (Z.to_nat bufsize <= fuel)%nat ->
  (if decide (total <= bufsize) then
     exists m', fdt_open_into fuel fdt buf bufsize m = Some (0, m') /\ keeps buf bufsize m' v /\ reserves buf m' l /\
       room buf bufsize m' = room fdt total m + (bufsize - total) /\ same_outside (in_buf buf bufsize) m m'
   else fdt_open_into fuel fdt buf bufsize m = Some (- FDT_ERR_NOSPACE, m)) /\
  (exists m' total', fdt_pack fuel fdt m = Some (0, m') /\ total' <= total /\ keeps fdt total' m' v /\ reserves fdt m' l /\
     room fdt total' m' = 0 /\ same_outside (in_buf fdt total) m m').
Proof.
  intros (off & root & strs & Hok & Hr) Hl Hb Hs Hs2 Hf2. split.
  - pose proof (fdt_open_into_run fdt total off fuel Hfuel m _ strs l buf bufsize Hok Hl Hb Hs Hs2) as Hcase.
    case_decide; [|done]. destruct Hcase as (m' & E & Hok' & Hl' & Hroom & Hout). exists m'. split; [done|].
    split; [by eapply rw_keeps|done].
  - destruct (fdt_pack_run fdt total off fuel Hfuel m _ strs l Hok Hl) as (m' & E & Hok' & Hl' & Hroom & Hout).
    destruct (reserves_fit fdt total off m _ strs l Hok Hl) as (Hr40 & Hfit & _ & _).
    pose proof Hok as [_ _ _ _ _ _ _ Hord _ Hend _ _ _ _]. cbn [size] in Hord.
    eexists m', _. split; [done|]. split; [|split; [eapply rw_keeps; [|exact Hok'|done]|done]]; lia.
Qed.
End Refine.

(** ** Witnesses: the buffer of FdtRefine.v, whose reserve map is empty *)
Lemma demo_rw_reserves : reserves 0x1000 demo_rw_memory [].
Proof. split; vm_compute; [reflexivity|congruence]. Qed.

Lemma fdt_splice_bounds_witness :
  exists m', fdt_splice_ 0x1000 (0x1000 + 60) 0 8 demo_rw_memory = Some (0, m') /\
    same_outside (fun x => 0x1000 <= x < 0x1000 + 0x400) demo_rw_memory m'.
Proof.
  destruct (fdt_splice_bounds 0x1000 demo_rw_memory (0x1000 + 60) 0 8 ltac:(lia))
    as (r & m' & E & [[Hr ->]|(-> & _ & _ & n & _ & _ & _ & Hs)]).
  - exfalso. assert (Er : (fst <$> fdt_splice_ 0x1000 (0x1000 + 60) 0 8 demo_rw_memory) = Some 0) by (vm_compute; reflexivity).
    rewrite E in Er. injection Er as ->. lia.
  - exists m'. split; [exact E|]. replace (fdt_totalsize demo_rw_memory 0x1000) with 0x400 in Hs by (vm_compute; reflexivity). exact Hs.
Defined.

(** A region is reserved; there is none to delete. *)
Lemma fdt_mem_rsv_correct_witness :
  (exists m', fdt_add_mem_rsv 0x1000 0x400 0x80000000 0x1000 demo_rw_memory = Some (0, m') /\
     holds 0x1000 0x400 m' demo_rw_value /\ reserves 0x1000 m' [(0x80000000, 0x1000)]) /\
  (exists m', fdt_del_mem_rsv 0x1000 0x400 0 demo_rw_memory = Some (- FDT_ERR_NOTFOUND, m') /\ reserves 0x1000 m' []).
Proof.
  destruct (fdt_mem_rsv_correct (H := demo_symbols) 0x1000 0x400 0x400 ltac:(vm_compute; lia) demo_rw_memory demo_rw_value []
    0x80000000 0x1000 0) as [(m1 & r1 & l1 & E1 & _ & [Hh1 _] & Hl1 & H1) (m2 & r2 & l2 & E2 & _ & _ & Hl2 & H2)].
  - exact demo_rw_holds.
  - exact demo_rw_reserves.
  - lia.
  - lia.
  - lia.
  - lia.
  - split.
    + assert (Hroom : 16 <= room 0x1000 0x400 demo_rw_memory) by (vm_compute; congruence).
      rewrite decide_True in H1 by exact Hroom. destruct H1 as [-> ->]. exists m1. by split_and!.
    + rewrite decide_False in H2 by (simpl; lia). destruct H2 as [-> ->]. exists m2. by split.
Defined.

(** Into a buffer of twice the size; packing frees the rest. *)
Lemma fdt_open_pack_correct_witness :
  (exists m', fdt_open_into 0x800 0x1000 0x8000 0x800 demo_rw_memory = Some (0, m') /\ holds 0x8000 0x800 m' demo_rw_value /\
     room 0x8000 0x800 m' = room 0x1000 0x400 demo_rw_memory + 0x400) /\
  (exists m' total', fdt_pack 0x800 0x1000 demo_rw_memory = Some (0, m') /\ total' <= 0x400 /\ holds 0x1000 total' m' demo_rw_value).
Proof.
  destruct (fdt_open_pack_correct (H := demo_symbols) 0x1000 0x400 0x800 ltac:(vm_compute; lia) demo_rw_memory demo_rw_value [] 0x8000 0x800)
    as [Hopen (m2 & total' & E2 & Ht & [Hh2 _] & _)].
  - exact demo_rw_holds.
  - exact demo_rw_reserves.
  - lia.
  - lia.
  - lia.
  - lia.
  - rewrite decide_True in Hopen by lia. destruct Hopen as (m1 & E1 & [Hh1 _] & _ & Hroom & _). split.
    + exists m1. split; [exact E1|]. split; [exact Hh1|]. rewrite Hroom. lia.
    + exists m2, total'. by split_and!.
Defined.
