(* ===== verification/FdtSearch.v ===== *)
(** * FdtSearch: searches over all nodes of an encoded tree

    [fdt_next_node] without a depth goes through the nodes in the order in which the
    blob has them, parents first ([preorder]); the searches of FdtRo.v return the first
    node in that order which has what they look for. *)
From Stdlib Require Import ZArith Lia.
From stdpp Require Import prelude gmap list strings.
From S2P Require Import Prelude Memory TString Kernel Fdt FdtTokens FdtRo FdtTree FdtSpec.
Open Scope Z_scope.

(** The nodes of a tree at [o], with their offsets. *)
Fixpoint preorder (o : Z) (t : dtree) : list (Z * dtree) :=
  let '(DNode _ _ children) := t in
  (o, t) :: (fix forest (o : Z) (ts : list dtree) : list (Z * dtree) :=
    match ts with
    | [] => []
    | t :: ts => preorder o t ++ forest (o + size (tree_tokens t)) ts
    end) (children_start o t) children.
Fixpoint preorder_forest (o : Z) (ts : list dtree) : list (Z * dtree) :=
  match ts with
  | [] => []
  | t :: ts => preorder o t ++ preorder_forest (o + size (tree_tokens t)) ts
  end.
Lemma preorder_eq o t : preorder o t = (o, t) :: preorder_forest (children_start o t) (node_children t).
Proof. by destruct t. Qed.

Lemma preorder_self o t : (o, t) ∈ preorder o t.
Proof. rewrite preorder_eq. by left. Qed.

Lemma preorder_forest_lookup ts : forall o i o' t',
  offsets o ts !! i = Some o' -> ts !! i = Some t' -> preorder o' t' ⊆ preorder_forest o ts.
Proof.
  induction ts as [|t ts IH]; intros o i o' t' Ho Ht; [done|]. cbn [preorder_forest].
  destruct i as [|i]; simpl in Ho, Ht; [simplify_eq; set_solver|].
  specialize (IH _ _ _ _ Ho Ht). set_solver.
Qed.
Lemma preorder_children o t i o' t' :
  child_offsets o t !! i = Some o' -> node_children t !! i = Some t' -> preorder o' t' ⊆ preorder o t.
Proof.
  intros Ho Ht. rewrite (preorder_eq o t). pose proof (preorder_forest_lookup _ _ _ _ _ Ho Ht). set_solver.
Qed.

(** The nodes below a node of the tree are nodes of the tree. *)
Lemma preorder_trans t0 : forall o0 o t, (o, t) ∈ preorder o0 t0 -> preorder o t ⊆ preorder o0 t0.
Proof.
  induction t0 as [name props children IH] using dtree_induction. intros o0 o t.
  rewrite (preorder_eq o0). cbn [node_children]. intros [[= -> ->]|Hin]%elem_of_cons.
  { by rewrite (preorder_eq o0). }
  enough (preorder o t ⊆ preorder_forest (children_start o0 (DNode name props children)) children) by set_solver.
  revert Hin. generalize (children_start o0 (DNode name props children)). clear o0.
  induction IH as [|t0 ts Ht0 _ IHf]; intros o1 Hin; cbn [preorder_forest] in *; [by apply elem_of_nil in Hin|].
  apply elem_of_app in Hin as [Hin|Hin]; [specialize (Ht0 _ _ _ Hin)|specialize (IHf _ Hin)]; set_solver.
Qed.
Lemma preorder_child o0 t0 o t i o' t' :
  (o, t) ∈ preorder o0 t0 -> child_offsets o t !! i = Some o' -> node_children t !! i = Some t' ->
  (o', t') ∈ preorder o0 t0.
Proof.
  intros Hin Ho Ht. apply (preorder_trans t0 o0 o t Hin). apply (preorder_children o t i o' t' Ho Ht), preorder_self.
Qed.

(** The offsets of the nodes that begin in a list of tokens at [o], up to the end. *)
Fixpoint begins (o : Z) (l : list token) : list Z :=
  match l with
  | [] => []
  | TEnd :: _ => []
  | TBegin name :: l => o :: begins (o + token_size (TBegin name)) l
  | t :: l => begins (o + token_size t) l
  end.

Lemma begins_props o props l :
  begins o (map prop_token props ++ l) = begins (o + size (map prop_token props)) l.
Proof.
  revert o. induction props as [|[no d] props IH]; intros o; [simpl; f_equal; lia|].
  cbn [map app begins prop_token size]. cbn [prop_token fst snd begins]. rewrite IH. f_equal. cbn [fst snd]. lia.
Qed.

Lemma begins_forest_of ts :
  Forall (fun t => forall o l, begins o (tree_tokens t ++ l) =
    map fst (preorder o t) ++ begins (o + size (tree_tokens t)) l) ts ->
  forall o l, begins o (forest_tokens ts ++ l) =
    map fst (preorder_forest o ts) ++ begins (o + size (forest_tokens ts)) l.
Proof.
  intros H. induction H as [|t ts Ht _ IH]; intros o l.
  - simpl. f_equal. lia.
  - rewrite forest_tokens_cons, <- app_assoc, Ht, IH. cbn [preorder_forest].
    rewrite map_app, <- app_assoc, size_app. by rewrite Z.add_assoc.
Qed.

Lemma begins_tree t : forall o l,
  begins o (tree_tokens t ++ l) = map fst (preorder o t) ++ begins (o + size (tree_tokens t)) l.
Proof.
  induction t as [name props children IH] using dtree_induction. intros o l.
  rewrite preorder_eq, tree_tokens_eq. cbn [app begins map fst node_children].
  rewrite <- !app_assoc, begins_props, (begins_forest_of _ IH). cbn [app begins]. f_equal.
  unfold children_start. cbn [node_name node_props]. f_equal. f_equal.
  cbn [size]. rewrite !size_app. cbn [size token_size]. lia.
Qed.

Lemma preorder_lookup o0 t0 : forall o t, (o, t) ∈ preorder o0 t0 -> forall l1 l2,
  o0 = size l1 -> exists a b, l1 ++ tree_tokens t0 ++ l2 = a ++ tree_tokens t ++ b ++ l2 /\ o = size a.
Proof.
  revert o0. induction t0 as [name props children IH] using dtree_induction. intros o0 o t Hin l1 l2 ->.
  rewrite preorder_eq in Hin. apply elem_of_cons in Hin as [[= -> ->]|Hin].
  { by exists l1, []. }
  cbn [node_children] in Hin. rewrite tree_tokens_eq.
  assert (Hf : forall ts o1 l1 l2, Forall (fun t0 => forall o0 o t, (o, t) ∈ preorder o0 t0 -> forall l1 l2,
      o0 = size l1 -> exists a b, l1 ++ tree_tokens t0 ++ l2 = a ++ tree_tokens t ++ b ++ l2 /\ o = size a) ts ->
    (o, t) ∈ preorder_forest o1 ts -> o1 = size l1 ->
    exists a b, l1 ++ forest_tokens ts ++ l2 = a ++ tree_tokens t ++ b ++ l2 /\ o = size a).
  { clear. induction ts as [|c ts IHts]; intros o1 l1 l2 HF Hin E; [by apply elem_of_nil in Hin|].
    inversion HF; subst. cbn [preorder_forest] in Hin. rewrite forest_tokens_cons.
    apply elem_of_app in Hin as [Hin|Hin].
    - destruct (H1 _ _ _ Hin l1 (forest_tokens ts ++ l2) eq_refl) as (a & b & Ea & ->).
      exists a, (b ++ forest_tokens ts). split; [|done]. rewrite <- !app_assoc. exact Ea.
    - destruct (IHts _ (l1 ++ tree_tokens c) l2 H2 Hin) as (a & b & Ea & ->); [by rewrite size_app|].
      exists a, b. split; [|done]. rewrite <- Ea. by rewrite <- !app_assoc. }
  destruct (Hf children _ (l1 ++ TBegin name :: map prop_token props) ([TEndNode] ++ l2) IH Hin) as (a & b & Ea & ->).
  { unfold children_start. cbn [node_name node_props]. rewrite size_app. cbn [size]. lia. }
  exists a, (b ++ [TEndNode]). split; [|done]. rewrite <- !app_assoc. rewrite <- Ea. by norm_tokens.
Qed.

(** The first result of [visit], or the error of a search that found nothing. *)
Fixpoint first_visit (visit : Z -> option Z) (os : list Z) : Z :=
  match os with
  | [] => - FDT_ERR_NOTFOUND
  | o :: os => default (first_visit visit os) (visit o)
  end.

Section Search.
Context (m : memory) (fdt : Z) (root : dtree).
Hypothesis Henc : encodes m fdt root.
Context (fuel : nat).
Hypothesis Hfuel : (Z.to_nat (fdt_totalsize m fdt) <= fuel)%nat.
Abbreviation ts := (tree_tokens root ++ [TEnd]).

Lemma preorder_at o t : (o, t) ∈ preorder 0 root -> tree_at ts o t.
Proof.
  intros Hin. destruct (preorder_lookup 0 root o t Hin [] [TEnd] eq_refl) as (a & b & E & ->).
  exists a, (b ++ [TEnd]). split; [exact E|]. split; [set_solver|done].
Qed.

Lemma scan_begins l o :
  TEnd ∈ l -> scan l o None = (hd (- FDT_ERR_NOTFOUND) (begins o l), None).
Proof.
  revert o. induction l as [|t l IH]; intros o Hend; [by apply elem_of_nil in Hend|].
  destruct t; cbn [scan begins hd fmap option_fmap option_map]; try done; apply IH; set_solver.
Qed.

Lemma next_begin l1 name l2 :
  ts = l1 ++ TBegin name :: l2 -> TEnd ∈ l2 ->
  fdt_next_node m fdt fuel (size l1) None =
    Some (hd (- FDT_ERR_NOTFOUND) (begins (size (l1 ++ [TBegin name])) l2), None).
Proof.
  intros E Hend. rewrite (fdt_next_node_scan m fdt ts Henc fuel Hfuel l1 name l2 None E Hend I).
  by rewrite scan_begins.
Qed.

Lemma all_begins : begins 0 ts = map fst (preorder 0 root).
Proof. rewrite begins_tree. cbn [begins]. by rewrite app_nil_r. Qed.

Lemma first_begin :
  fdt_next_node m fdt fuel (-1) None = Some (hd (- FDT_ERR_NOTFOUND) (map fst (preorder 0 root)), None).
Proof.
  unfold fdt_next_node. destruct (Z.leb_spec 0 (-1)); [lia|].
  pose proof (next_node_loop_scan m fdt ts Henc fuel Hfuel fuel [] ts None eq_refl) as E. cbn [size] in E.
  rewrite E; [|set_solver|apply (length_blob m fdt ts Henc fuel Hfuel [] ts eq_refl)|done].
  rewrite scan_begins by set_solver. by rewrite <- all_begins.
Qed.

(** The body is called at every node until it gives a result. *)
Lemma for_each_node_run body visit l2 : forall l1 n,
  ts = l1 ++ l2 -> (length l2 <= n)%nat ->
  (forall o, o ∈ begins (size l1) l2 -> body o = Some (visit o)) ->
  TEnd ∈ l2 ->
  for_each_node m fdt fuel n (hd (- FDT_ERR_NOTFOUND) (begins (size l1) l2)) body =
    Some (first_visit visit (begins (size l1) l2)).
Proof.
  induction l2 as [|t l2 IH]; intros l1 n E Hn Hbody Hend; [by apply elem_of_nil in Hend|].
  assert (Hnext : forall n, (length l2 <= n)%nat -> TEnd ∈ l2 ->
      (forall o, o ∈ begins (size l1 + token_size t) l2 -> body o = Some (visit o)) ->
      for_each_node m fdt fuel n (hd (- FDT_ERR_NOTFOUND) (begins (size l1 + token_size t) l2)) body =
        Some (first_visit visit (begins (size l1 + token_size t) l2))).
  { intros k Hk He Hb. rewrite <- size_snoc in *. apply IH; try done. by rewrite <- app_assoc. }
  destruct t as [name| |no d| |]; cbn [begins] in *; try (apply Hnext; [simpl in Hn; lia|set_solver|done]).
  2:{ destruct n; done. }
  pose proof (size_nonneg l1). assert (He2 : TEnd ∈ l2) by set_solver.
  cbn [hd first_visit]. destruct n as [|n]; [simpl in Hn; lia|]. cbn [for_each_node].
  destruct (Z.leb_spec 0 (size l1)); [|lia]. rewrite Hbody by (by left). cbn [mbind option_bind].
  destruct (visit (size l1)) as [r|]; [done|]. cbn [default from_option].
  rewrite (next_begin l1 name l2 E He2). cbn [mbind option_bind]. rewrite size_snoc.
  apply Hnext; [simpl in Hn; lia|done|]. intros o Ho. apply Hbody. by right.
Qed.

Lemma for_each_run body visit :
  (forall o t, (o, t) ∈ preorder 0 root -> body o = Some (visit o)) ->
  for_each_node m fdt fuel fuel (hd (- FDT_ERR_NOTFOUND) (map fst (preorder 0 root))) body =
    Some (first_visit visit (map fst (preorder 0 root))).
Proof.
  intros Hbody. rewrite <- all_begins. apply (for_each_node_run body visit ts []); [done| | |set_solver].
  - apply (length_blob m fdt ts Henc fuel Hfuel [] ts eq_refl).
  - cbn [size]. rewrite all_begins. intros o Ho. apply list_elem_of_fmap in Ho as ([o' t] & -> & Hin).
    by apply (Hbody o' t).
Qed.

(** ** Phandles *)
Context `{Symbols}.
Context (strs : Z -> list Z).
Definition phandle_name : list Z := [112; 104; 97; 110; 100; 108; 101].
Definition linux_phandle_name : list Z := [108; 105; 110; 117; 120; 44] ++ phandle_name.

(** The value of a property of four bytes. *)
Definition be_value (data : list Z) : option Z :=
  match data with [b0; b1; b2; b3] => Some (be_combine b0 b1 b2 b3) | _ => None end.
Definition prop_value (t : dtree) (want : list Z) : option Z :=
  '(_, data) ← find_prop strs want 0 (node_props t); be_value data.
(** The phandle of a node, 0 when it has none. *)
Definition node_phandle (t : dtree) : Z :=
  match prop_value t phandle_name with
  | Some v => v
  | None => default 0 (prop_value t linux_phandle_name)
  end.

Lemma find_prop_data_only want o1 o2 props :
  snd <$> find_prop strs want o1 props = snd <$> find_prop strs want o2 props.
Proof.
  revert o1 o2. induction props as [|p props IH]; intros o1 o2; [done|]. cbn [find_prop].
  case_bool_decide; [done|]. apply IH.
Qed.

(** A literal of the code, as a string in memory. *)
Definition literal_at (l : string) (str : list Z) : Prop :=
  0 < sym_literal l /\ cstr m (sym_literal l) str /\ (length str <= fuel)%nat /\
  Z.of_nat (length str) < 2 ^ 31.

Lemma getprop_value o t l want :
  tree_at ts o t -> named m fdt strs t -> literal_at l want ->
  exists a len, fdt_getprop m fdt fuel o (sym_literal l) = Some (a, len) /\
    match prop_value t want with
    | Some v => a <> NULL /\ len = 4 /\ fdt32_to_cpu (ld32 m a) = v
    | None => a = NULL \/ len <> 4
    end.
Proof.
  intros Ht Hn (Hp & Hc & Hl & Hl2).
  pose proof (fdt_getprop_node m fdt root fuel strs o t _ want Henc Hfuel Ht Hn Hp Hc Hl2 Hl) as Hg.
  unfold prop_value. pose proof (find_prop_data_only want 0 (props_start o t) (node_props t)) as E.
  destruct (find_prop strs want (props_start o t) (node_props t)) as [[o' data]|];
    destruct (find_prop strs want 0 (node_props t)) as [[o2 data2]|]; try done; cbn [mbind option_bind].
  - injection E as E. simpl in E. subst data2. cbv zeta in Hg. destruct Hg as (Hg & Hne & Hb & _).
    eexists _, _. split; [exact Hg|]. unfold be_value.
    destruct data as [|b0 [|b1 [|b2 [|b3 [|b4 data]]]]]; try (right; simpl; lia).
    split; [done|]. split; [done|]. rewrite fdt32_ld. set (a := fdt + _ + o' + 12) in *.
    rewrite <- (Hb 0%nat b0 eq_refl), <- (Hb 1%nat b1 eq_refl), <- (Hb 2%nat b2 eq_refl), <- (Hb 3%nat b3 eq_refl).
    by rewrite Z.add_0_r.
  - eexists _, _. split; [exact Hg|]. by left.
Qed.

Lemma fdt_get_phandle_run o t :
  tree_at ts o t -> named m fdt strs t ->
  literal_at "phandle" phandle_name -> literal_at "linux,phandle" linux_phandle_name ->
  fdt_get_phandle m fdt fuel o = Some (node_phandle t).
Proof.
  intros Ht Hn H1 H2. unfold fdt_get_phandle, node_phandle.
  destruct (getprop_value o t _ _ Ht Hn H1) as (a & len & -> & Ha). cbn [mbind option_bind].
  destruct (prop_value t phandle_name) as [v|].
  - destruct Ha as (Hne & -> & Hv). destruct (Z.eqb_spec a NULL); [done|]. cbn [orb negb Z.eqb Pos.eqb]. by rewrite Hv.
  - assert ((a =? NULL) || negb (len =? 4) = true) as ->.
    { destruct Ha as [->| ?]; [done|]. destruct (Z.eqb_spec len 4); [done|]. by rewrite orb_true_r. }
    destruct (getprop_value o t _ _ Ht Hn H2) as (a2 & len2 & -> & Ha2). cbn [mbind option_bind].
    destruct (prop_value t linux_phandle_name) as [v|].
    + destruct Ha2 as (Hne & -> & Hv). destruct (Z.eqb_spec a2 NULL); [done|]. cbn [orb negb Z.eqb Pos.eqb default from_option id]. by rewrite Hv.
    + assert ((a2 =? NULL) || negb (len2 =? 4) = true) as ->; [|done].
      destruct Ha2 as [->| ?]; [done|]. destruct (Z.eqb_spec len2 4); [done|]. by rewrite orb_true_r.
Qed.

(** The first node with the phandle. *)
Definition find_phandle (phandle : Z) : option (Z * dtree) :=
  snd <$> list_find (fun n => node_phandle (snd n) = phandle) (preorder 0 root).

Lemma first_visit_find (l : list (Z * dtree)) visit phandle :
  (forall o t, (o, t) ∈ l -> visit o = if node_phandle t =? phandle then Some o else None) ->
  first_visit visit (map fst l) = found (snd <$> list_find (fun n => node_phandle (snd n) = phandle) l).
Proof.
  induction l as [|[o t] l IH]; intros Hv; [done|]. cbn [map fst first_visit list_find snd].
  rewrite (Hv o t) by (by left). destruct (Z.eqb_spec (node_phandle t) phandle) as [E|E].
  - by rewrite decide_True.
  - rewrite decide_False by done. cbn [default from_option].
    rewrite IH by (intros o' t' Hin; apply Hv; by right).
    destruct (list_find _ l) as [[i [o' t']]|]; done.
Qed.

Lemma fdt_node_offset_by_phandle_run phandle :
  (forall o t, (o, t) ∈ preorder 0 root -> named m fdt strs t) ->
  literal_at "phandle" phandle_name -> literal_at "linux,phandle" linux_phandle_name ->
  phandle <> 0 -> phandle <> 2 ^ 32 - 1 ->
  fdt_node_offset_by_phandle m fdt fuel phandle = Some (found (find_phandle phandle)).
Proof.
  intros Hn H1 H2 Hp0 Hp1. unfold fdt_node_offset_by_phandle, find_phandle.
  destruct (Z.eqb_spec phandle 0); [done|]. destruct (Z.eqb_spec phandle (2 ^ 32 - 1)); [done|]. cbn [orb].
  pose proof (bo_probe _ _ _ Henc). destruct (Z.ltb_spec (fdt_ro_probe_ m fdt) 0); [lia|].
  rewrite first_begin. cbn [mbind option_bind].
  set (visit := fun o : Z => match fdt_get_phandle m fdt fuel o with
                       | Some p => if p =? phandle then Some o else None | None => None end).
  rewrite (for_each_run _ visit).
  - f_equal. apply first_visit_find. intros o t Hin. unfold visit.
    by rewrite (fdt_get_phandle_run o t (preorder_at o t Hin) (Hn o t Hin) H1 H2).
  - intros o t Hin. unfold visit.
    by rewrite (fdt_get_phandle_run o t (preorder_at o t Hin) (Hn o t Hin) H1 H2).
Qed.
End Search.

(** ** Property *)

(** (C21) [fdt_node_offset_by_phandle] on an encoded tree gives the first node, parents
    before children, whose [phandle] or else [linux,phandle] property has the value,
    and an error when there is none. *)
Theorem fdt_node_offset_by_phandle_correct `{Symbols} m fdt root fuel strs phandle :
  encodes m fdt root -> (Z.to_nat (fdt_totalsize m fdt) <= fuel)%nat ->
  (forall o t, (o, t) ∈ preorder 0 root -> named m fdt strs t) ->
  literal_at m fuel "phandle" phandle_name -> literal_at m fuel "linux,phandle" linux_phandle_name ->
  phandle <> 0 -> phandle <> 2 ^ 32 - 1 ->
  fdt_node_offset_by_phandle m fdt fuel phandle = Some (found (find_phandle root strs phandle)).
Proof. intros He Hf Hn H1 H2 Hp0 Hp1. by apply (fdt_node_offset_by_phandle_run m fdt root He fuel Hf strs phandle). Qed.

(** ** Witness: the cpus of the tree of FdtSpec.v *)
Definition demo_search : memory :=
  wr_list (wr_list demo_blob (demo_literal "phandle") (str "phandle" ++ [0]))
    (demo_literal "linux,phandle") (str "linux,phandle" ++ [0]).

Lemma demo_search_same : same_image demo_blob demo_search 0x1000.
Proof.
  intros x Hx. assert (E : fdt_totalsize demo_blob 0x1000 = 366) by (vm_compute; reflexivity).
  unfold in_image in Hx. rewrite E in Hx. unfold demo_search.
  change (demo_literal "phandle") with (DEMO_VIRT + 0x4080).
  change (demo_literal "linux,phandle") with (DEMO_VIRT + 0x40c0).
  rewrite !rd_wr_list_out; [reflexivity|..]; unfold within, DEMO_VIRT; lia.
Qed.

Lemma demo_all_named o t : (o, t) ∈ preorder 0 demo_tree -> named demo_blob 0x1000 demo_strs t.
Proof.
  intros Hin. apply demo_named. vm_compute in Hin.
  repeat (apply elem_of_cons in Hin as [[= _ ->]|Hin]; [repeat constructor; set_solver|]).
  by apply elem_of_nil in Hin.
Qed.

Lemma fdt_node_offset_by_phandle_correct_witness :
  exists o, fdt_node_offset_by_phandle (H := demo_symbols) demo_search 0x1000 1000 2 = Some o /\
    find_phandle demo_tree demo_strs 2 = Some (o, cpu_node "cpu@1" 256 2).
Proof.
  exists (found (find_phandle demo_tree demo_strs 2)). split; [|vm_compute; reflexivity].
  assert (Hi : fdt_totalsize demo_search 0x1000 = 366) by (vm_compute; reflexivity).
  apply (fdt_node_offset_by_phandle_correct (H := demo_symbols) demo_search 0x1000 demo_tree 1000 demo_strs 2).
  - apply (encodes_frame demo_blob); [exact demo_search_same|exact demo_encodes].
  - rewrite Hi. lia.
  - intros o t Hin. apply (named_frame demo_blob); [exact demo_search_same|]. exact (demo_all_named o t Hin).
  - split; [reflexivity|]. split; [|vm_compute; split; [lia|reflexivity]].
    split; [apply block_check; vm_compute; reflexivity|repeat constructor; done].
  - split; [reflexivity|]. split; [|vm_compute; split; [lia|reflexivity]].
    split; [apply block_check; vm_compute; reflexivity|repeat constructor; done].
  - lia.
  - lia.
Defined.
