(* ===== verification/DeviceTree.v ===== *)
(** * DeviceTree: the wrapper of libfdt (platform/devicetree.c, platform/platform.c)

    [BootDeviceTree] and the nodes and iterators of the callers are structures in
    memory.  A [DTNode] passed by value is represented by its [offset], the only
    field the callee uses; messages print its name from the copy of the callee.
    [pr_debug] is above the log level and prints nothing. *)
From Stdlib Require Import ZArith Lia.
From stdpp Require Import prelude gmap list strings.
From S2P Require Import Prelude Memory TString Kernel Pmap Vm Cpu Task Fdt FdtRo.
Open Scope Z_scope.
Open Scope monix_scope.

(** ** Structures (platform/devicetree.h) *)
Definition kDeviceTreeSuccess : Z := 0.
Definition kDeviceTreeFailure : Z := 1.
Definition kPropNameLength : Z := 32.

Definition DTNODE_SIZEOF : Z := 44.
Definition dtnode_name (n : Z) : Z := n.
Definition dtnode_offset (n : Z) : Z := n + 32.
Definition dtnode_nChildren (n : Z) : Z := n + 36.
Definition dtnode_nProperties (n : Z) : Z := n + 40.

Definition iter_baseNode (i : Z) : Z := i.
Definition iter_currentNode (i : Z) : Z := i + 44.
Definition iter_index (i : Z) : Z := i + 88.
Definition iter_count (i : Z) : Z := i + 92.

Definition DEFAULTS_PLAT_DEVICETREE_CELL_SIZE : Z := 2.
Definition ROOT_DEVICE_TREE_DEAD : Z := 0.
Definition ROOT_DEVICE_TREE_INIT : Z := 1.

(** [pr_err] and [pr_warn] of this file. *)
Definition pr_fmt (fmt : string) : string := "devicetree: " +:+ fmt.
Definition pr_err (fmt : string) (args : list Z) : M unit := print (pr_fmt fmt) args.
Definition pr_warn (fmt : string) (args : list Z) : M unit := print (pr_fmt fmt) args.

Section DeviceTree.
Context `{Symbols}.

Definition BootDeviceTree_base : Z := sym_BootDeviceTree.
Definition BootDeviceTree_size : Z := sym_BootDeviceTree + 8.
Definition BootDeviceTree_root : Z := sym_BootDeviceTree + 16.
Definition BootDeviceTree_initialised : Z := sym_BootDeviceTree + 80.

(** A call of a function of libfdt on the boot device tree. *)
Definition on_tree {A} (f : memory -> Z -> option A) : M A :=
  let! base := ld 8 BootDeviceTree_base in
  let! m := get_mem in
  with_fuel (f m base).

(** ** Counting *)
Fixpoint count_children_loop (fuel n : nat) (cur count : Z) : M Z :=
  if 0 <=? cur then
    let count := s32 (count + 1) in
    let! cur := on_tree (fun m fdt => fdt_next_subnode m fdt fuel cur) in
    match n with O => diverge | S n => count_children_loop fuel n cur count end
  else ret count.
Definition node_offset_count_children (fuel : nat) (node_offset : Z) : M Z :=
  let! cur := on_tree (fun m fdt => fdt_first_subnode m fdt fuel node_offset) in
  count_children_loop fuel fuel cur 0.

Fixpoint count_properties_loop (fuel n : nat) (cur count : Z) : M Z :=
  if 0 <=? cur then
    let count := s32 (count + 1) in
    let! cur := on_tree (fun m fdt => fdt_next_property_offset m fdt fuel cur) in
    match n with O => diverge | S n => count_properties_loop fuel n cur count end
  else ret count.
Definition node_offset_count_properties (fuel : nat) (node_offset : Z) : M Z :=
  let! cur := on_tree (fun m fdt => fdt_first_property_offset m fdt fuel node_offset) in
  count_properties_loop fuel fuel cur 0.

(** ** Lookup of nodes *)
Definition BootDeviceTreeGetRootNode : Z := BootDeviceTree_root.

(** The part the lookups share: the name of [len] bytes and the two counts, the
    offset being the one now in the structure. *)
Definition dtnode_fill (fuel : nat) (node name len : Z) : M Z :=
  upd_mem (fun m => memcpy m (dtnode_name node) name (Z.to_nat (u64 (s32 (len + 1))))) ;!
  let! offset := ld 4 (dtnode_offset node) in
  let! n := node_offset_count_children fuel (s32 offset) in
  st 4 (dtnode_nChildren node) n ;!
  let! offset := ld 4 (dtnode_offset node) in
  let! n := node_offset_count_properties fuel (s32 offset) in
  st 4 (dtnode_nProperties node) n ;!
  ret kDeviceTreeSuccess.

Definition DeviceTreeNodeExists (fuel : nat) (name : Z) : M Z :=
  let! offset := on_tree (fun m fdt => fdt_path_offset m fdt fuel name) in
  ret (if offset <? 0 then kDeviceTreeFailure else kDeviceTreeSuccess).

Definition DeviceTreeLookupNode (fuel : nat) (lookup node : Z) : M Z :=
  let! res := on_tree (fun m fdt => fdt_path_offset m fdt fuel lookup) in
  if res <? 0 then
    pr_err "DeviceTreeLookupNode: ERROR: failed to find node '%s': %d\n" [lookup; - res] ;!
    ret kDeviceTreeFailure
  else
    let! r := on_tree (fun m fdt => fdt_get_name m fdt fuel res) in
    let '(name, len) := r in
    if len <? 0 then
      pr_err "DeviceTreeLookupNode: ERROR: failed to verify name of node: '%s': %d\n" [lookup; len] ;!
      ret kDeviceTreeFailure
    else
      when (kPropNameLength <? len)
        (pr_warn "DeviceTreeLookupNode: WARNING: node name '%d' longer than max: %d, %d\n"
           [name; len; kPropNameLength]) ;!
      st 4 (dtnode_offset node) res ;!
      dtnode_fill fuel node name len.

Definition DeviceTreeLookupNodeByOffset (fuel : nat) (offset node : Z) : M Z :=
  st 4 (dtnode_offset node) offset ;!
  let! r := on_tree (fun m fdt => fdt_get_name m fdt fuel offset) in
  let '(name, len) := r in
  if len <? 0 then
    pr_err "DeviceTreeLookupNodeByOffset: ERROR: failed to find name for node offset: %d: %d\n"
      [offset; len] ;!
    ret kDeviceTreeFailure
  else dtnode_fill fuel node name len.

Definition DeviceTreeNodeFirstSubnode (fuel : nat) (node_offset first : Z) : M Z :=
  let! res := on_tree (fun m fdt => fdt_first_subnode m fdt fuel node_offset) in
  if res =? - FDT_ERR_NOTFOUND then
    pr_err "DeviceTreeNodeFirstSubnode: ERROR: failed to find subnode for node '%s'\n"
      [sym_local "DeviceTreeNodeFirstSubnode" "node"] ;!
    ret kDeviceTreeFailure
  else DeviceTreeLookupNodeByOffset fuel res first.

Definition DeviceTreeNodeNextSubnode (fuel : nat) (node_offset next : Z) : M Z :=
  let! res := on_tree (fun m fdt => fdt_next_subnode m fdt fuel node_offset) in
  if res =? - FDT_ERR_NOTFOUND then
    pr_err "DeviceTreeNodeFirstSubnode: ERROR: failed to find subnode for node '%s'\n"
      [sym_local "DeviceTreeNodeNextSubnode" "node"] ;!
    ret kDeviceTreeFailure
  else DeviceTreeLookupNodeByOffset fuel res next.

(** The name is not checked here. *)
Definition DeviceTreeLookupNodeByPhandle (fuel : nat) (phandle node : Z) : M Z :=
  let! res := on_tree (fun m fdt => fdt_node_offset_by_phandle m fdt fuel (u32 phandle)) in
  if res <? 0 then
    pr_err "DeviceTreeLookupNodeByPhandle: ERROR: failed to find node with phandle '0x%x': 0x%llx\n"
      [phandle; res] ;!
    ret kDeviceTreeFailure
  else
    let! r := on_tree (fun m fdt => fdt_get_name m fdt fuel res) in
    let '(name, len) := r in
    st 4 (dtnode_offset node) res ;!
    dtnode_fill fuel node name len.

(** ** The boot device tree *)
Definition DeviceTreeInit (fuel : nat) (base size : Z) : M Z :=
  st 4 BootDeviceTree_initialised ROOT_DEVICE_TREE_DEAD ;!
  st 8 BootDeviceTree_base base ;!
  st 8 BootDeviceTree_size size ;!
  let! res := on_tree (fun m fdt => Some (fdt_check_header m fdt)) in
  if truthy res then
    pr_err "DeviceTreeInit: ERROR: failed to read device tree: 0x%llx\n" [res] ;!
    ret kDeviceTreeFailure
  else
    let! res := DeviceTreeLookupNode fuel (sym_literal "/") BootDeviceTree_root in
    if res =? kDeviceTreeFailure then
      pr_err "DeviceTreeInit: ERROR: failed to find root node: 0x%llx\n" [res] ;!
      ret kDeviceTreeFailure
    else
      st 4 BootDeviceTree_initialised ROOT_DEVICE_TREE_INIT ;!
      ret kDeviceTreeSuccess.

Definition DeviceTreeVerify : M Z :=
  let! initialised := ld 4 BootDeviceTree_initialised in
  if negb (s32 initialised =? ROOT_DEVICE_TREE_INIT) then
    let! base := ld 8 BootDeviceTree_base in
    pr_err "DeviceTreeVerify: ERROR: BootDeviceTree is not properly initialised, base '0x%lx'\n" [base] ;!
    ret kDeviceTreeFailure
  else ret kDeviceTreeSuccess.

(** ** Iterators *)
Definition DeviceTreeIteratorInit (start iter : Z) : M Z :=
  let! initialised := ld 4 BootDeviceTree_initialised in
  if s32 initialised =? 0 then ret kDeviceTreeFailure
  else
    let start := if negb (start =? NULL) then start else BootDeviceTree_root in
    struct_assign DTNODE_SIZEOF (iter_baseNode iter) start ;!
    struct_assign DTNODE_SIZEOF (iter_currentNode iter) start ;!
    let! n := ld 4 (dtnode_nChildren (iter_baseNode iter)) in
    st 4 (iter_count iter) n ;!
    st 4 (iter_index iter) 0 ;!
    ret kDeviceTreeSuccess.

Definition DeviceTreeIterateNodes (fuel : nat) (iter next : Z) : M Z :=
  let! index := ld 4 (iter_index iter) in
  let! count := ld 4 (iter_count iter) in
  if s32 count <=? s32 index then ret kDeviceTreeFailure
  else
    st 4 (iter_index iter) (index + 1) ;!
    let! index := ld 4 (iter_index iter) in
    let! offset := ld 4 (dtnode_offset (iter_currentNode iter)) in
    (if s32 index =? 1
     then DeviceTreeNodeFirstSubnode fuel (s32 offset) (iter_currentNode iter)
     else DeviceTreeNodeNextSubnode fuel (s32 offset) (iter_currentNode iter)) ;!
    struct_assign DTNODE_SIZEOF next (iter_currentNode iter) ;!
    ret kDeviceTreeSuccess.

(** ** Properties *)
Definition DeviceTreeLookupPropertyValue (fuel : nat) (node_offset propName propValue propSize : Z) : M Z :=
  let! r := on_tree (fun m fdt => fdt_getprop m fdt fuel node_offset propName) in
  let '(value, len) := r in
  if len <? 0 then
    pr_err "DeviceTreeLookupProperty: ERROR: failed to find prop '%s' in node '%s': %d\n"
      [propName; sym_local "DeviceTreeLookupPropertyValue" "node"; len] ;!
    ret kDeviceTreeFailure
  else
    st 8 propValue value ;!
    st 4 propSize len ;!
    ret kDeviceTreeSuccess.

(** The address of the property is assigned to the parameter [reg] itself, so the
    caller does not get it. *)
Definition DeviceTreeLookupReg (fuel : nat) (node reg : Z) : M Z :=
  let! offset := ld 4 (dtnode_offset node) in
  let! r := on_tree (fun m fdt => fdt_getprop m fdt fuel (s32 offset) (sym_literal "reg")) in
  let '(reg, res) := r in
  if res <? 0 then
    pr_err "DeviceTreeLookupReg: ERROR: failed to get prop 'reg' from node '%s': 0x%llx\n"
      [dtnode_name node; res] ;!
    ret kDeviceTreeFailure
  else ret kDeviceTreeSuccess.

(** The cells are swapped where they are, in the tree.  On success the function ends
    without a value ([None]). *)
Definition DeviceTreeLookupRegValue (fuel : nat) (node addr size : Z) : M (option Z) :=
  let! offset := ld 4 (dtnode_offset node) in
  let! r := on_tree (fun m fdt => fdt_getprop m fdt fuel (s32 offset) (sym_literal "reg")) in
  let '(reg, res) := r in
  if res <? 0 then
    pr_err "DeviceTreeLookupRegValue: ERROR: failed to get prop 'reg' from node '%s': 0x%llx\n"
      [dtnode_name node; res] ;!
    ret (Some kDeviceTreeFailure)
  else
    let cell_size := DEFAULTS_PLAT_DEVICETREE_CELL_SIZE in
    for_range 0 (Z.to_nat (cell_size * 2)) (fun i =>
      let! c := ld 4 (reg + 4 * i) in st 4 (reg + 4 * i) (bswap_32 c)) ;!
    let! c0 := ld 4 reg in
    let! c1 := ld 4 (reg + 4) in
    st 8 addr (u64 (Z.shiftl c0 32 + c1)) ;!
    let! c2 := ld 4 (reg + 8) in
    let! c3 := ld 4 (reg + 12) in
    st 8 size (u64 (Z.shiftl c2 32 + c3)) ;!
    ret None.

(** ** platform/platform.c *)
Definition platform_get_memory (fuel : nat) (membase mmesize : Z) : M Z :=
  let mem_node := sym_local "platform_get_memory" "mem_node" in
  let addr := sym_local "platform_get_memory" "addr" in
  let size := sym_local "platform_get_memory" "size" in
  let! res := DeviceTreeLookupNode fuel (sym_literal "/memory") mem_node in
  assert (res =? kDeviceTreeSuccess) ;!
  let! _ := DeviceTreeLookupRegValue fuel mem_node addr size in
  let! v := ld 8 size in
  st 8 mmesize v ;!
  let! v := ld 8 addr in
  st 8 membase v ;!
  ret KERN_RETURN_SUCCESS.
End DeviceTree.
