(* ===== verification/DeviceTreeSpec.v ===== *)
(** * DeviceTreeSpec: the device tree wrapper on a tree (platform/)

    On a blob that encodes a tree the wrapper fills a node structure with what the
    tree has, its iterator visits the children of a node, and the memory of the
    machine is the [reg] property of [/memory]. *)
From Stdlib Require Import ZArith Lia.
From stdpp Require Import prelude gmap list strings.
From S2P Require Import Prelude Memory TString Kernel Pmap Vm Cpu Task Fdt FdtTokens FdtRo FdtTree FdtSpec DeviceTree.
Open Scope Z_scope.
Open Scope monix_scope.

(** ** What the functions do on an encoded tree *)

(** The boot device tree is the blob at [fdt], which encodes the tree [root]. *)
Record boot_tree `{Symbols} (m : memory) (fdt : Z) (root : dtree) : Prop := {
  bt_base : ld64 m BootDeviceTree_base = fdt;
  bt_tree : encodes m fdt root;
}.

(** The fuel exceeds the size of the blob. *)
Definition enough (m : memory) (fdt : Z) (fuel : nat) : Prop := (Z.to_nat (fdt_totalsize m fdt) < fuel)%nat.

(** Sizes of trees. *)
Lemma tree_tokens_pos t : (2 <= length (tree_tokens t))%nat.
Proof. destruct t. rewrite tree_tokens_eq. simpl. rewrite !length_app. simpl. lia. Qed.
Lemma forest_tokens_length ts : (2 * length ts <= length (forest_tokens ts))%nat.
Proof.
  induction ts as [|t ts IH]; [done|]. rewrite forest_tokens_cons, length_app. pose proof (tree_tokens_pos t).
  simpl. lia.
Qed.
Lemma node_counts_length t : (length (node_children t) + length (node_props t) < length (tree_tokens t))%nat.
Proof.
  destruct t as [name props children]. rewrite tree_tokens_eq. simpl. rewrite !length_app, length_map.
  pose proof (forest_tokens_length children). simpl. lia.
Qed.

Section Runs.
Context `{Symbols}.
Context (s : kstate) (fdt : Z) (root : dtree).
Hypothesis Hbt : boot_tree (k_mem s) fdt root.
Context (fuel : nat).
Hypothesis Hfuel : enough (k_mem s) fdt fuel.
Abbreviation ts := (tree_tokens root ++ [TEnd]).

Lemma fuel_le : (Z.to_nat (fdt_totalsize (k_mem s) fdt) <= fuel)%nat.
Proof. unfold enough in Hfuel. lia. Qed.

Lemma on_tree_run {A} (f : memory -> Z -> option A) a :
  f (k_mem s) fdt = Some a -> on_tree f s = Done a s.
Proof.
  intros E. unfold on_tree, bind, ld, get_mem. fold (ld64 (k_mem s) BootDeviceTree_base).
  rewrite (bt_base _ _ _ Hbt), E. done.
Qed.

(** Counts of a node of the tree. *)
Lemma node_counts o t :
  tree_at ts o t ->
  Z.of_nat (length (node_children t)) < 2 ^ 31 /\ Z.of_nat (length (node_props t)) < 2 ^ 31 /\
  (length (node_children t) < fuel)%nat /\ (length (node_props t) < fuel)%nat /\ 0 <= o < 2 ^ 31.
Proof.
  intros (l1 & l2 & E & _ & ->). pose proof (blob_size _ _ _ (bt_tree _ _ _ Hbt)) as [Hs1 Hs2].
  pose proof (node_counts_length t). pose proof (size_bound (tree_tokens t)).
  pose proof (size_nonneg l1). pose proof (size_nonneg l2). rewrite E, !size_app in Hs1, Hs2.
  unfold enough in Hfuel. lia.
Qed.

Lemma count_children_from o t i n :
  tree_at ts o t -> (length (node_children t) - i < n)%nat -> (i <= length (node_children t))%nat ->
  count_children_loop fuel n (default (- FDT_ERR_NOTFOUND) (child_offsets o t !! i)) (Z.of_nat i) s =
    Done (Z.of_nat (length (node_children t))) s.
Proof.
  intros Ht. pose proof (node_counts o t Ht) as (Hk & _ & _ & _ & Ho).
  pose proof (length_offsets (children_start o t) (node_children t)) as Hl. fold (child_offsets o t) in Hl.
  revert i. induction n as [|n IH]; intros i Hn Hi; [lia|].
  destruct (decide (i < length (node_children t))%nat) as [Hlt|Hge].
  - destruct (lookup_lt_is_Some_2 (child_offsets o t) i) as [o' Ho']; [lia|]. rewrite Ho'.
    change (default (- FDT_ERR_NOTFOUND) (Some o')) with o'. cbn [count_children_loop].
    assert (0 <= o').
    { destruct (tree_at_child _ _ _ (bt_tree _ _ _ Hbt) _ fuel_le o t i o' Ht Ho') as (t' & _ & Ht').
      by apply (node_counts o' t'). }
    destruct (Z.leb_spec 0 o'); [|lia].
    rewrite (bind_done _ _ _ _ _ (on_tree_run _ _
      (fdt_next_subnode_run _ _ _ (bt_tree _ _ _ Hbt) fuel fuel_le o t i o' Ht Ho'))).
    rewrite s32_id by lia. replace (Z.of_nat i + 1) with (Z.of_nat (S i)) by lia. apply IH; lia.
  - rewrite lookup_ge_None_2 by lia. cbn [default from_option]. cbn [count_children_loop].
    destruct (Z.leb_spec 0 (- FDT_ERR_NOTFOUND)); [unfold FDT_ERR_NOTFOUND in *; lia|].
    unfold ret. do 2 f_equal. lia.
Qed.

Lemma count_children_run o t :
  tree_at ts o t -> node_offset_count_children fuel o s = Done (Z.of_nat (length (node_children t))) s.
Proof.
  intros Ht. unfold node_offset_count_children.
  rewrite (bind_done _ _ _ _ _ (on_tree_run _ _ (fdt_first_subnode_run _ _ _ (bt_tree _ _ _ Hbt) fuel fuel_le o t Ht))).
  pose proof (node_counts o t Ht) as (_ & _ & Hk & _ & _).
  rewrite <- (count_children_from o t 0 fuel Ht) by lia. f_equal. unfold forest_next, child_offsets.
  by destruct (offsets _ _).
Qed.

Lemma count_properties_from o t l1 props n :
  tree_at ts o t -> node_props t = l1 ++ props -> (length props < n)%nat ->
  count_properties_loop fuel n
    (hd (- FDT_ERR_NOTFOUND) (prop_offsets (props_start o t + size (map prop_token l1)) props))
    (Z.of_nat (length l1)) s = Done (Z.of_nat (length (node_props t))) s.
Proof.
  intros Ht. pose proof (node_counts o t Ht) as (_ & Hk & _ & _ & Ho).
  pose proof Ht as (t1 & t2 & E & _ & Eo).
  revert l1 n. induction props as [|[no d] props IH]; intros l1 n El Hn.
  - rewrite app_nil_r in El. rewrite El. destruct n; [simpl in Hn; lia|]. done.
  - destruct n as [|n]; [simpl in Hn; lia|]. cbn [prop_offsets hd count_properties_loop].
    assert (Hp : ts = (t1 ++ TBegin (node_name t) :: map prop_token l1) ++
        TProp no d :: map prop_token props ++ forest_tokens (node_children t) ++ TEndNode :: t2).
    { rewrite E. destruct t as [name ps children]. cbn [node_props node_name node_children] in *.
      rewrite tree_tokens_eq, El, map_app. cbn [map]. change (prop_token (no, d)) with (TProp no d).
      by norm_tokens. }
    assert (Es : props_start o t + size (map prop_token l1) = size (t1 ++ TBegin (node_name t) :: map prop_token l1)).
    { unfold props_start. rewrite Eo, size_app. cbn [size]. lia. }
    rewrite Es. pose proof (size_nonneg (t1 ++ TBegin (node_name t) :: map prop_token l1)).
    destruct (Z.leb_spec 0 (size (t1 ++ TBegin (node_name t) :: map prop_token l1))); [|lia].
    rewrite (bind_done _ _ _ _ _ (on_tree_run _ _
      (fdt_next_property_run _ _ _ (bt_tree _ _ _ Hbt) fuel fuel_le _ no d props (node_children t) t2 Hp))).
    rewrite s32_id by (rewrite El, length_app in Hk; simpl in Hk; lia).
    replace (Z.of_nat (length l1) + 1) with (Z.of_nat (length (l1 ++ [(no, d)]))) by (rewrite length_app; simpl; lia).
    rewrite size_snoc, <- Es.
    replace (props_start o t + size (map prop_token l1) + token_size (TProp no d))
      with (props_start o t + size (map prop_token (l1 ++ [(no, d)])))
      by (rewrite map_app, size_app; cbn [map size]; change (prop_token (no, d)) with (TProp no d); lia).
    apply IH; [by rewrite El, <- app_assoc|simpl in Hn; lia].
Qed.

Lemma count_properties_run o t :
  tree_at ts o t -> node_offset_count_properties fuel o s = Done (Z.of_nat (length (node_props t))) s.
Proof.
  intros Ht. unfold node_offset_count_properties.
  rewrite (bind_done _ _ _ _ _ (on_tree_run _ _ (fdt_first_property_run _ _ _ (bt_tree _ _ _ Hbt) fuel fuel_le o t Ht))).
  pose proof (node_counts o t Ht) as (_ & _ & _ & Hk & _).
  rewrite <- (count_properties_from o t [] (node_props t) fuel Ht) by done.
  cbn [map size]. by rewrite Z.add_0_r.
Qed.
End Runs.

(** ** Nodes in memory *)

(** The structure at [node] describes the node [t] at offset [o]. *)
Record dtnode_at (m : memory) (node o : Z) (t : dtree) : Prop := {
  dn_name : cstr m (dtnode_name node) (node_name t);
  dn_offset : ld32 m (dtnode_offset node) = o;
  dn_children : ld32 m (dtnode_nChildren node) = Z.of_nat (length (node_children t));
  dn_properties : ld32 m (dtnode_nProperties node) = Z.of_nat (length (node_props t));
}.

(** A region that is neither in the blob nor the pointer to it. *)
Definition off_tree `{Symbols} (m : memory) (fdt : Z) (R : Z -> Prop) : Prop :=
  forall x, R x -> ~ in_image m fdt x /\ ~ within BootDeviceTree_base 8 x.
Definition node_bytes (node : Z) : Z -> Prop := within node (Z.to_nat DTNODE_SIZEOF).

Lemma same_image_outside `{Symbols} m m' fdt (R : Z -> Prop) :
  off_tree m fdt R -> same_outside R m m' -> same_image m m' fdt.
Proof. intros Ho Hs x Hx. symmetry. apply Hs. intros HR. by destruct (Ho x HR). Qed.

Lemma boot_tree_frame `{Symbols} m m' fdt root (R : Z -> Prop) :
  boot_tree m fdt root -> off_tree m fdt R -> same_outside R m m' -> boot_tree m' fdt root.
Proof.
  intros [Hb Ht] Ho Hs. split.
  - rewrite <- Hb. apply (load_same_outside R); [done|]. intros x Hx HR. by destruct (Ho x HR).
  - apply (encodes_frame m m' fdt); [|done]. by apply (same_image_outside _ _ _ R).
Qed.

Lemma off_tree_frame `{Symbols} m m' fdt (R' : Z -> Prop) :
  same_image m m' fdt -> off_tree m fdt R' -> off_tree m' fdt R'.
Proof.
  intros Hs Ho x Hx. destruct (Ho x Hx) as [H1 H2]. split; [|done]. unfold in_image in *.
  destruct (headers_frame m m' fdt Hs) as (_ & E & _). by rewrite E.
Qed.
Lemma enough_frame m m' fdt fuel : same_image m m' fdt -> enough m fdt fuel -> enough m' fdt fuel.
Proof. intros Hs. destruct (headers_frame m m' fdt Hs) as (_ & E & _). unfold enough. by rewrite E. Qed.

(** The name of a node of the tree is a string in the blob. *)
Lemma node_name_at m fdt root fuel o t :
  encodes m fdt root -> (Z.to_nat (fdt_totalsize m fdt) <= fuel)%nat ->
  tree_at (tree_tokens root ++ [TEnd]) o t ->
  exists p, fdt_get_name m fdt fuel o = Some (p, Z.of_nat (length (node_name t))) /\
    cstr m p (node_name t) /\
    (forall x, within p (S (length (node_name t))) x -> in_image m fdt x).
Proof.
  intros He Hf (l1 & l2 & E & _ & ->). destruct t as [name props children]. cbn [node_name].
  rewrite tree_tokens_eq in E. cbn [app] in E.
  destruct (node_name_run m fdt _ He fuel Hf l1 name _ E) as (Hp & Hc & _ & Eg).
  eexists. split; [exact Eg|]. split; [exact Hc|]. intros x Hx.
  pose proof (bo_fits _ _ _ He) as Hfit. rewrite E, size_app in Hfit. cbn [size] in Hfit.
  rewrite !size_app in Hfit. pose proof (size_nonneg l1). pose proof (size_nonneg l2).
  pose proof (size_nonneg (map prop_token props)). pose proof (size_nonneg (forest_tokens children)).
  pose proof (up4_range (Z.of_nat (length name) + 1)).
  pose proof (fdt_get_header_range m fdt header_off_dt_struct) as Hs. fold (fdt_off_dt_struct m fdt) in Hs.
  cbn [size token_size] in Hfit. unfold in_image, within in *. lia.
Qed.

Lemma cstr_copied m d p l m' :
  cstr m p l -> copied m d p (S (length l)) m' -> cstr m' d l.
Proof.
  intros [Hb Hz] Hc. split; [|done]. intros i v Hi. rewrite Hc. pose proof (lookup_lt_Some _ _ _ Hi) as Hl.
  rewrite length_app in Hl. simpl in Hl. rewrite decide_True by (unfold within; lia).
  rewrite <- (Hb i v Hi). f_equal. lia.
Qed.

Lemma cstr_untouched (R : Z -> Prop) m m' a l :
  same_outside R m m' -> (forall x, within a (S (length l)) x -> ~ R x) -> cstr m a l -> cstr m' a l.
Proof.
  intros Hs HR Hc. eapply cstr_frame; [exact Hc|]. intros x Hx. symmetry. by apply Hs, HR.
Qed.

Lemma in_node node n a : (forall x, within a n x -> node_bytes node x) ->
  forall m v, same_outside (node_bytes node) m (store n m a v).
Proof. intros Ha m v. by apply same_outside_store. Qed.

Section Nodes.
Context `{Symbols}.
Context (fdt : Z) (root : dtree) (fuel : nat) (node : Z).
Abbreviation ts := (tree_tokens root ++ [TEnd]).

(** Filling a structure that has the offset of a node, when the name fits. *)
Lemma dtnode_fill_run s o t p :
  boot_tree (k_mem s) fdt root -> enough (k_mem s) fdt fuel -> off_tree (k_mem s) fdt (node_bytes node) ->
  tree_at ts o t -> (length (node_name t) < 32)%nat -> ld32 (k_mem s) (dtnode_offset node) = o ->
  cstr (k_mem s) p (node_name t) ->
  (forall x, within p (S (length (node_name t))) x -> in_image (k_mem s) fdt x) ->
  exists m', dtnode_fill fuel node p (Z.of_nat (length (node_name t))) s =
      Done kDeviceTreeSuccess (set_mem m' s) /\
    dtnode_at m' node o t /\ same_outside (node_bytes node) (k_mem s) m'.
Proof.
  intros Hbt Hf Hoff Ht Hlen Ho Hc Hin. set (m0 := k_mem s) in *.
  destruct (node_counts s fdt root Hbt fuel Hf o t Ht) as (Hk1 & Hk2 & _ & _ & Hor).
  unfold dtnode_fill. set (k := length (node_name t)) in *.
  rewrite s32_id, u64_id by lia. replace (Z.to_nat (Z.of_nat k + 1)) with (S k) by lia.
  assert (Hcp : copied m0 (dtnode_name node) p (S k) (memcpy m0 (dtnode_name node) p (S k))).
  { apply memcpy_copied. destruct (apart_order (dtnode_name node) p (S k) (S k)) as [|]; [lia|lia| |lia|lia].
    intros x Hx Hx'. destruct (Hoff x) as [Hn _]; [unfold node_bytes, within, dtnode_name, DTNODE_SIZEOF in *; lia|].
    by apply Hn, Hin. }
  set (m1 := memcpy m0 (dtnode_name node) p (S k)) in *.
  assert (Hs1 : same_outside (node_bytes node) m0 m1).
  { eapply same_outside_mono; [|apply (copied_same_outside _ _ _ _ _ Hcp)].
    unfold node_bytes, within, dtnode_name, DTNODE_SIZEOF. lia. }
  assert (Ho1 : ld32 m1 (dtnode_offset node) = o).
  { rewrite <- Ho. apply (load_same_outside _ _ _ _ _ (copied_same_outside _ _ _ _ _ Hcp)).
    unfold within, dtnode_name, dtnode_offset. lia. }
  set (m2 := st32 m1 (dtnode_nChildren node) (Z.of_nat (length (node_children t)))).
  set (m3 := st32 m2 (dtnode_nProperties node) (Z.of_nat (length (node_props t)))).
  assert (Hs2 : same_outside (node_bytes node) m0 m2).
  { eapply same_outside_trans; [exact Hs1|]. apply in_node.
    unfold node_bytes, within, dtnode_nChildren, DTNODE_SIZEOF. lia. }
  assert (Hs3 : same_outside (node_bytes node) m0 m3).
  { eapply same_outside_trans; [exact Hs2|]. apply in_node.
    unfold node_bytes, within, dtnode_nProperties, DTNODE_SIZEOF. lia. }
  assert (Ho2 : ld32 m2 (dtnode_offset node) = o).
  { unfold m2. rewrite <- Ho1. apply load_store_apart. unfold apart, dtnode_nChildren, dtnode_offset. lia. }
  exists m3. split; [|split; [|done]].
  - unfold upd_mem at 1. unfold bind at 1. fold m0 m1.
    unfold bind at 1, ld at 1. rewrite set_mem_mem. fold (ld32 m1 (dtnode_offset node)). rewrite Ho1, s32_id by lia.
    rewrite (bind_done _ _ _ _ _ (count_children_run (set_mem m1 s) fdt root
      (boot_tree_frame m0 m1 fdt root _ Hbt Hoff Hs1) fuel
      (enough_frame m0 m1 fdt fuel (same_image_outside m0 m1 fdt _ Hoff Hs1) Hf) o t Ht)).
    unfold st at 1, upd_mem, bind at 1. rewrite set_mem_mem, set_mem_set_mem. fold (st32 m1 (dtnode_nChildren node) (Z.of_nat (length (node_children t)))).
    fold m2. unfold bind at 1, ld at 1. rewrite set_mem_mem. fold (ld32 m2 (dtnode_offset node)). rewrite Ho2, s32_id by lia.
    rewrite (bind_done _ _ _ _ _ (count_properties_run (set_mem m2 s) fdt root
      (boot_tree_frame m0 m2 fdt root _ Hbt Hoff Hs2) fuel
      (enough_frame m0 m2 fdt fuel (same_image_outside m0 m2 fdt _ Hoff Hs2) Hf) o t Ht)).
    done.
  - split.
    + apply (cstr_untouched (fun x => within (dtnode_nChildren node) 4 x \/ within (dtnode_nProperties node) 4 x) m1).
      * apply same_outside_store; [by right|]. apply same_outside_store; [by left|done].
      * unfold within, dtnode_name, dtnode_nChildren, dtnode_nProperties. fold k. lia.
      * by apply (cstr_copied m0 _ p).
    + unfold m3. rewrite <- Ho2. apply load_store_apart. unfold apart, dtnode_nProperties, dtnode_offset. lia.
    + unfold m3, m2. rewrite load_store_apart by (unfold apart, dtnode_nProperties, dtnode_nChildren; lia).
      rewrite ld32_st32_eq. apply u32_id. lia.
    + unfold m3. rewrite ld32_st32_eq. apply u32_id. lia.
Qed.

Lemma tree_offset_u32 s o t :
  boot_tree (k_mem s) fdt root -> enough (k_mem s) fdt fuel -> tree_at ts o t -> is_u32 o.
Proof. intros Hbt Hf Ht. destruct (node_counts s fdt root Hbt fuel Hf o t Ht) as (_ & _ & _ & _ & ?). lia. Qed.

(** The structure after the offset has been set, and its filling with the name. *)
Lemma set_offset_fill_run s o t p :
  boot_tree (k_mem s) fdt root -> enough (k_mem s) fdt fuel -> off_tree (k_mem s) fdt (node_bytes node) ->
  tree_at ts o t -> (length (node_name t) < 32)%nat ->
  fdt_get_name (k_mem s) fdt fuel o = Some (p, Z.of_nat (length (node_name t))) ->
  cstr (k_mem s) p (node_name t) ->
  (forall x, within p (S (length (node_name t))) x -> in_image (k_mem s) fdt x) ->
  exists m', (st 4 (dtnode_offset node) o ;! dtnode_fill fuel node p (Z.of_nat (length (node_name t)))) s =
      Done kDeviceTreeSuccess (set_mem m' s) /\
    dtnode_at m' node o t /\ same_outside (node_bytes node) (k_mem s) m'.
Proof.
  intros Hbt Hf Hoff Ht Hlen Hg Hc Hin. set (m1 := st32 (k_mem s) (dtnode_offset node) o).
  assert (Hs1 : same_outside (node_bytes node) (k_mem s) m1).
  { apply in_node. unfold node_bytes, within, dtnode_offset, DTNODE_SIZEOF. lia. }
  pose proof (same_image_outside _ _ fdt _ Hoff Hs1) as Hi.
  destruct (headers_frame _ _ fdt Hi) as (_ & Et & _).
  destruct (dtnode_fill_run (set_mem m1 s) o t p) as (m' & E & Hn & Hs).
  - by apply (boot_tree_frame (k_mem s) m1 fdt root _ Hbt Hoff).
  - by apply (enough_frame (k_mem s) m1).
  - by apply (off_tree_frame (k_mem s) m1).
  - done.
  - done.
  - simpl. unfold m1. rewrite ld32_st32_eq. apply u32_id. by apply (tree_offset_u32 s o t).
  - apply (cstr_untouched _ _ _ _ _ Hs1); [|done]. intros x Hx HR. destruct (Hoff x HR). by apply H0, Hin.
  - intros x Hx. specialize (Hin x Hx). unfold in_image in *. simpl. by rewrite Et.
  - exists m'. split; [|split; [done|]]. 
    + unfold st, upd_mem, bind at 1. fold m1. rewrite E. by rewrite set_mem_set_mem.
    + by eapply same_outside_trans; [exact Hs1|].
Qed.

Lemma lookup_by_offset_run s o t :
  boot_tree (k_mem s) fdt root -> enough (k_mem s) fdt fuel -> off_tree (k_mem s) fdt (node_bytes node) ->
  tree_at ts o t -> (length (node_name t) < 32)%nat ->
  exists m', DeviceTreeLookupNodeByOffset fuel o node s = Done kDeviceTreeSuccess (set_mem m' s) /\
    dtnode_at m' node o t /\ same_outside (node_bytes node) (k_mem s) m'.
Proof.
  intros Hbt Hf Hoff Ht Hlen. set (m1 := st32 (k_mem s) (dtnode_offset node) o).
  assert (Hs1 : same_outside (node_bytes node) (k_mem s) m1).
  { apply in_node. unfold node_bytes, within, dtnode_offset, DTNODE_SIZEOF. lia. }
  pose proof (same_image_outside _ _ fdt _ Hoff Hs1) as Hi.
  pose proof (boot_tree_frame (k_mem s) m1 fdt root _ Hbt Hoff Hs1) as Hbt1.
  pose proof (enough_frame (k_mem s) m1 fdt fuel Hi Hf) as Hf1.
  destruct (node_name_at m1 fdt root fuel o t (bt_tree _ _ _ Hbt1)) as (p & Eg & Hc & Hin);
    [unfold enough in Hf1; lia|done|].
  destruct (dtnode_fill_run (set_mem m1 s) o t p) as (m' & E & Hn & Hs); try done.
  - by apply (off_tree_frame (k_mem s) m1).
  - simpl. unfold m1. rewrite ld32_st32_eq. apply u32_id. by apply (tree_offset_u32 s o t).
  - exists m'. split; [|split; [done|by eapply same_outside_trans; [exact Hs1|]]].
    unfold DeviceTreeLookupNodeByOffset, st, upd_mem, bind at 1. fold m1.
    rewrite (bind_done _ _ _ _ _ (on_tree_run (set_mem m1 s) fdt root Hbt1 _ _ Eg)).
    destruct (Z.ltb_spec (Z.of_nat (length (node_name t))) 0); [lia|].
    rewrite E. by rewrite set_mem_set_mem.
Qed.

(** The lookup of a path. *)
Definition path_at (m : memory) (a : Z) (path : list (list Z)) : Prop :=
  Forall component path /\ 0 < a /\ cstr m a (if decide (path = []) then [47] else path_string path) /\
  Z.of_nat (length (path_string path)) < 2 ^ 31 /\ (length (path_string path) < fuel)%nat.

Lemma path_offset_on_tree s path a :
  boot_tree (k_mem s) fdt root -> enough (k_mem s) fdt fuel -> path_at (k_mem s) a path ->
  on_tree (fun m fdt => fdt_path_offset m fdt fuel a) s = Done (found (find_path path 0 root)) s.
Proof.
  intros Hbt Hf (Hp & Ha & Hc & Hl & Hl2). apply (on_tree_run s fdt root Hbt).
  apply (fdt_path_offset_run _ _ _ (bt_tree _ _ _ Hbt) fuel (fuel_le s fdt fuel Hf)); try done.
  apply (root_at (k_mem s) fdt root (bt_tree _ _ _ Hbt)).
Qed.

Lemma lookup_node_run s path a o t :
  boot_tree (k_mem s) fdt root -> enough (k_mem s) fdt fuel -> off_tree (k_mem s) fdt (node_bytes node) ->
  path_at (k_mem s) a path -> find_path path 0 root = Some (o, t) -> (length (node_name t) < 32)%nat ->
  exists m', DeviceTreeLookupNode fuel a node s = Done kDeviceTreeSuccess (set_mem m' s) /\
    dtnode_at m' node o t /\ same_outside (node_bytes node) (k_mem s) m'.
Proof.
  intros Hbt Hf Hoff Hp Ef Hlen.
  pose proof (find_path_at _ _ _ (bt_tree _ _ _ Hbt) path 0 root o t
    (root_at _ _ _ (bt_tree _ _ _ Hbt)) Ef) as Ht.
  destruct (node_counts s fdt root Hbt fuel Hf o t Ht) as (_ & _ & _ & _ & Ho).
  destruct (node_name_at (k_mem s) fdt root fuel o t (bt_tree _ _ _ Hbt)) as (p & Eg & Hc & Hin);
    [unfold enough in Hf; lia|done|].
  destruct (set_offset_fill_run s o t p Hbt Hf Hoff Ht Hlen Eg Hc Hin) as (m' & E & Hn).
  exists m'. split; [|done]. unfold DeviceTreeLookupNode.
  rewrite (bind_done _ _ _ _ _ (path_offset_on_tree s path a Hbt Hf Hp)), Ef. cbn [found].
  destruct (Z.ltb_spec o 0); [lia|].
  rewrite (bind_done _ _ _ _ _ (on_tree_run s fdt root Hbt _ _ Eg)).
  destruct (Z.ltb_spec (Z.of_nat (length (node_name t))) 0); [lia|].
  unfold kPropNameLength. destruct (Z.ltb_spec 32 (Z.of_nat (length (node_name t)))); [lia|]. exact E.
Qed.

Lemma lookup_node_none s path a :
  boot_tree (k_mem s) fdt root -> enough (k_mem s) fdt fuel -> path_at (k_mem s) a path ->
  find_path path 0 root = None ->
  exists e, DeviceTreeLookupNode fuel a node s = Done kDeviceTreeFailure (emit_event e s).
Proof.
  intros Hbt Hf Hp Ef. unfold DeviceTreeLookupNode.
  rewrite (bind_done _ _ _ _ _ (path_offset_on_tree s path a Hbt Hf Hp)), Ef. cbn [found].
  by eexists.
Qed.
End Nodes.

(** A name of 36 characters or more: the copy of the name replaces the offset by four
    characters of it. *)
Lemma long_name_overwrites m node p name :
  cstr m p name -> (36 <= length name)%nat ->
  (forall x, within node (S (length name)) x -> ~ within p (S (length name)) x) ->
  ld32 (memcpy m (dtnode_name node) p (S (length name))) (dtnode_offset node) =
    le_combine (take 4 (drop 32 name)).
Proof.
  intros [Hb _] Hl Hap. unfold dtnode_name.
  assert (Hc : copied m node p (S (length name)) (memcpy m node p (S (length name)))).
  { apply memcpy_copied. apply apart_order in Hap; lia. }
  rewrite load_bytes. f_equal. apply list_eq. intros i. destruct (decide (i < 4)%nat) as [Hi|Hi].
  - rewrite lookup_bytes_at by done. rewrite lookup_take_lt, lookup_drop by done.
    destruct (lookup_lt_is_Some_2 name (32 + i)) as [v Hv]; [lia|]. rewrite Hv. f_equal.
    rewrite Hc, decide_True by (unfold within, dtnode_offset; lia).
    rewrite <- (Hb (32 + i)%nat v) by (rewrite lookup_app_l by lia; done).
    f_equal. unfold dtnode_offset. lia.
  - rewrite !lookup_ge_None_2; [done|rewrite length_take; lia|rewrite length_bytes_at; lia].
Qed.

(** ** Iterators *)
Definition iter_bytes (iter : Z) : Z -> Prop := within iter 96.

Lemma dtnode_copied m d n o t m' :
  copied m d n (Z.to_nat DTNODE_SIZEOF) m' -> (length (node_name t) < 32)%nat ->
  dtnode_at m n o t -> dtnode_at m' d o t.
Proof.
  intros Hc Hl [Hn Ho Hk Hp]. change (Z.to_nat DTNODE_SIZEOF) with 44%nat in Hc. split.
  - destruct Hn as [Hb Hz]. split; [|done]. intros i v Hi. pose proof (lookup_lt_Some _ _ _ Hi) as Hlt.
    rewrite length_app in Hlt. simpl in Hlt. rewrite Hc. unfold dtnode_name in *.
    rewrite decide_True by (unfold within; lia). rewrite <- (Hb i v Hi). f_equal. lia.
  - rewrite <- Ho. unfold dtnode_offset. by apply (copied_load m d n 44); [|lia|lia].
  - rewrite <- Hk. unfold dtnode_nChildren. by apply (copied_load m d n 44); [|lia|lia].
  - rewrite <- Hp. unfold dtnode_nProperties. by apply (copied_load m d n 44); [|lia|lia].
Qed.

Lemma dtnode_frame (R : Z -> Prop) m m' n o t :
  same_outside R m m' -> (forall x, node_bytes n x -> ~ R x) -> (length (node_name t) < 32)%nat ->
  dtnode_at m n o t -> dtnode_at m' n o t.
Proof.
  intros Hs HR Hl [Hn Ho Hk Hp].
  assert (Hin : forall a k x, n <= a -> a + Z.of_nat k <= n + 44 -> within a k x -> ~ R x).
  { intros a k x H1 H2 Hx. apply HR. unfold node_bytes, within in *. change (Z.of_nat (Z.to_nat DTNODE_SIZEOF)) with 44. lia. }
  split.
  - apply (cstr_untouched R m); [done| |done]. intros x. apply Hin; unfold dtnode_name; lia.
  - rewrite <- Ho. apply (load_same_outside R); [done|]. intros x. apply Hin; unfold dtnode_offset; lia.
  - rewrite <- Hk. apply (load_same_outside R); [done|]. intros x. apply Hin; unfold dtnode_nChildren; lia.
  - rewrite <- Hp. apply (load_same_outside R); [done|]. intros x. apply Hin; unfold dtnode_nProperties; lia.
Qed.

(** The iterator after [i] steps over the children of the node [t] at [o]. *)
Record iter_at (m : memory) (iter o : Z) (t : dtree) (i : nat) : Prop := {
  it_index : ld32 m (iter_index iter) = Z.of_nat i;
  it_count : ld32 m (iter_count iter) = Z.of_nat (length (node_children t));
  it_current : ld32 m (dtnode_offset (iter_currentNode iter)) =
    (if i is S j then default 0 (child_offsets o t !! j) else o);
}.

(** The names of the children fit in the structure. *)
Definition short_names (t : dtree) : Prop :=
  Forall (fun c => (length (node_name c) < 32)%nat) (node_children t).

Section Iterators.
Context `{Symbols}.
Context (fdt : Z) (root : dtree) (fuel : nat) (iter next : Z).
Abbreviation ts := (tree_tokens root ++ [TEnd]).
Definition written (x : Z) : Prop := iter_bytes iter x \/ node_bytes next x.

Lemma iterate_end s o t i :
  iter_at (k_mem s) iter o t i -> (length (node_children t) <= i)%nat -> Z.of_nat i < 2 ^ 31 ->
  DeviceTreeIterateNodes fuel iter next s = Done kDeviceTreeFailure s.
Proof.
  intros [Hi Hc _] Hle Hr. unfold DeviceTreeIterateNodes. unfold bind at 1, ld at 1.
  fold (ld32 (k_mem s) (iter_index iter)). rewrite Hi. unfold bind at 1, ld at 1.
  fold (ld32 (k_mem s) (iter_count iter)). rewrite Hc, !s32_id by lia.
  destruct (Z.leb_spec (Z.of_nat (length (node_children t))) (Z.of_nat i)); [done|lia].
Qed.

(** One of the two calls fills [currentNode] with the next child. *)
Lemma advance_run s o t i o' t' :
  boot_tree (k_mem s) fdt root -> enough (k_mem s) fdt fuel ->
  off_tree (k_mem s) fdt (node_bytes (iter_currentNode iter)) -> tree_at ts o t ->
  child_offsets o t !! i = Some o' -> node_children t !! i = Some t' -> (length (node_name t') < 32)%nat ->
  exists m', (if s32 (Z.of_nat (S i)) =? 1
      then DeviceTreeNodeFirstSubnode fuel o (iter_currentNode iter)
      else DeviceTreeNodeNextSubnode fuel (default 0 (child_offsets o t !! pred i)) (iter_currentNode iter)) s =
    Done kDeviceTreeSuccess (set_mem m' s) /\
    dtnode_at m' (iter_currentNode iter) o' t' /\
    same_outside (node_bytes (iter_currentNode iter)) (k_mem s) m'.
Proof.
  intros Hbt Hf Hoff Ht Ho' Ht' Hlen.
  destruct (node_counts s fdt root Hbt fuel Hf o t Ht) as (Hk & _ & _ & _ & Ho).
  pose proof (lookup_lt_Some _ _ _ Ht') as Hi.
  destruct (tree_at_child _ _ _ (bt_tree _ _ _ Hbt) fuel (fuel_le s fdt fuel Hf) o t i o' Ht Ho')
    as (t1 & Et1 & Hat). simplify_eq.
  destruct (node_counts s fdt root Hbt fuel Hf o' t' Hat) as (_ & _ & _ & _ & Hr').
  destruct (lookup_by_offset_run fdt root fuel (iter_currentNode iter) s o' t' Hbt Hf Hoff Hat Hlen)
    as (m' & E & Hn). exists m'. split; [|done]. rewrite s32_id by lia.
  destruct (Z.eqb_spec (Z.of_nat (S i)) 1) as [E1|E1].
  - assert (i = 0)%nat as -> by lia. unfold DeviceTreeNodeFirstSubnode.
    rewrite (bind_done _ _ _ _ _ (on_tree_run s fdt root Hbt _ _
      (fdt_first_subnode_run _ _ _ (bt_tree _ _ _ Hbt) fuel (fuel_le s fdt fuel Hf) o t Ht))).
    unfold forest_next. fold (child_offsets o t).
    assert (hd (- FDT_ERR_NOTFOUND) (child_offsets o t) = o') as ->.
    { destruct (child_offsets o t); [done|]. simpl in *. congruence. }
    destruct (Z.eqb_spec o' (- FDT_ERR_NOTFOUND)); [unfold FDT_ERR_NOTFOUND in *; lia|]. exact E.
  - destruct i as [|i]; [lia|]. cbn [pred]. unfold DeviceTreeNodeNextSubnode.
    destruct (lookup_lt_is_Some_2 (child_offsets o t) i) as [o1 Ho1].
    { apply lookup_lt_Some in Ho'. lia. }
    rewrite Ho1. change (default 0 (Some o1)) with o1.
    rewrite (bind_done _ _ _ _ _ (on_tree_run s fdt root Hbt _ _
      (fdt_next_subnode_run _ _ _ (bt_tree _ _ _ Hbt) fuel (fuel_le s fdt fuel Hf) o t i o1 Ht Ho1))).
    rewrite Ho'. change (default (- FDT_ERR_NOTFOUND) (Some o')) with o'.
    destruct (Z.eqb_spec o' (- FDT_ERR_NOTFOUND)); [unfold FDT_ERR_NOTFOUND in *; lia|]. exact E.
Qed.

Lemma current_in_iter x : node_bytes (iter_currentNode iter) x -> iter_bytes iter x.
Proof. unfold node_bytes, iter_bytes, iter_currentNode, within. change (Z.to_nat DTNODE_SIZEOF) with 44%nat. lia. Qed.

Lemma iterate_step s o t i o' t' :
  boot_tree (k_mem s) fdt root -> enough (k_mem s) fdt fuel -> off_tree (k_mem s) fdt written ->
  (forall x, node_bytes next x -> ~ iter_bytes iter x) ->
  iter_at (k_mem s) iter o t i -> tree_at ts o t ->
  child_offsets o t !! i = Some o' -> node_children t !! i = Some t' -> (length (node_name t') < 32)%nat ->
  exists m', DeviceTreeIterateNodes fuel iter next s = Done kDeviceTreeSuccess (set_mem m' s) /\
    dtnode_at m' next o' t' /\ iter_at m' iter o t (S i) /\ same_outside written (k_mem s) m'.
Proof.
  intros Hbt Hf Hoff Hap [Hi Hc Hcur] Ht Ho' Ht' Hlen.
  destruct (node_counts s fdt root Hbt fuel Hf o t Ht) as (Hk & _ & _ & _ & Ho).
  pose proof (lookup_lt_Some _ _ _ Ht') as Hik.
  assert (Hoffc : off_tree (k_mem s) fdt (iter_bytes iter)) by (intros x Hx; apply Hoff; by left).
  set (m1 := st32 (k_mem s) (iter_index iter) (Z.of_nat i + 1)).
  assert (Hs1 : same_outside (iter_bytes iter) (k_mem s) m1).
  { apply same_outside_store; [|done]. unfold within, iter_bytes, iter_index, within. lia. }
  pose proof (same_image_outside _ _ fdt _ Hoffc Hs1) as Him1.
  destruct (advance_run (set_mem m1 s) o t i o' t') as (m2 & E2 & Hn2 & Hs2); try done.
  { by apply (boot_tree_frame (k_mem s) m1 fdt root _ Hbt Hoffc). }
  { by apply (enough_frame (k_mem s) m1). }
  { apply (off_tree_frame (k_mem s) m1); [done|]. intros x Hx. apply Hoffc. by apply current_in_iter. }
  simpl in Hs2. rewrite set_mem_set_mem in E2.
  set (m3 := memcpy m2 next (iter_currentNode iter) (Z.to_nat DTNODE_SIZEOF)).
  assert (Hcp : copied m2 next (iter_currentNode iter) (Z.to_nat DTNODE_SIZEOF) m3).
  { apply memcpy_copied. change (Z.to_nat DTNODE_SIZEOF) with 44%nat.
    destruct (apart_order next (iter_currentNode iter) 44 44) as [|]; [lia|lia| |lia|lia].
    intros x Hx Hx'. apply (Hap x Hx). by apply current_in_iter. }
  assert (Hi1 : ld32 m1 (iter_index iter) = Z.of_nat (S i)).
  { unfold m1. rewrite ld32_st32_eq, u32_id by lia. lia. }
  assert (Hcur1 : ld32 m1 (dtnode_offset (iter_currentNode iter)) = if i is S j then default 0 (child_offsets o t !! j) else o).
  { rewrite <- Hcur. apply load_store_apart. unfold apart, iter_index, dtnode_offset, iter_currentNode. lia. }
  assert (Hs3 : same_outside written (k_mem s) m3).
  { eapply same_outside_trans; [|eapply same_outside_mono; [|apply (copied_same_outside _ _ _ _ _ Hcp)]].
    - eapply same_outside_mono; [|eapply same_outside_trans; [exact Hs1|eapply same_outside_mono; [|exact Hs2]]].
      + intros x Hx. left. exact Hx.
      + apply current_in_iter.
    - by right. }
  exists m3. split; [|split; [by apply (dtnode_copied m2 _ (iter_currentNode iter))|split; [|done]]].
  - unfold DeviceTreeIterateNodes. unfold bind at 1, ld at 1. fold (ld32 (k_mem s) (iter_index iter)). rewrite Hi.
    unfold bind at 1, ld at 1. fold (ld32 (k_mem s) (iter_count iter)). rewrite Hc, !s32_id by lia.
    destruct (Z.leb_spec (Z.of_nat (length (node_children t))) (Z.of_nat i)); [lia|].
    unfold st at 1, upd_mem at 1. unfold bind at 1. fold m1. unfold bind at 1, ld at 1. rewrite set_mem_mem. fold (ld32 m1 (iter_index iter)).
    rewrite Hi1. unfold bind at 1, ld at 1. rewrite set_mem_mem. fold (ld32 m1 (dtnode_offset (iter_currentNode iter))).
    rewrite Hcur1. unfold bind at 1. 
    assert (Hcall : (if s32 (Z.of_nat (S i)) =? 1
        then DeviceTreeNodeFirstSubnode fuel (s32 (if i is S j then default 0 (child_offsets o t !! j) else o)) (iter_currentNode iter)
        else DeviceTreeNodeNextSubnode fuel (s32 (if i is S j then default 0 (child_offsets o t !! j) else o)) (iter_currentNode iter))
      (set_mem m1 s) = Done kDeviceTreeSuccess (set_mem m2 s)).
    { rewrite <- E2. rewrite s32_id by lia. destruct (Z.eqb_spec (Z.of_nat (S i)) 1).
      - assert (i = 0)%nat as -> by lia. by rewrite s32_id by lia.
      - destruct i as [|i]; [lia|]. cbn [pred]. rewrite s32_id; [done|].
        destruct (lookup_lt_is_Some_2 (child_offsets o t) i) as [o1 Ho1]; [apply lookup_lt_Some in Ho'; lia|].
        rewrite Ho1. change (default 0 (Some o1)) with o1.
        destruct (tree_at_child _ _ _ (bt_tree _ _ _ Hbt) fuel (fuel_le s fdt fuel Hf) o t i o1 Ht Ho1) as (t1 & _ & Hat).
        destruct (node_counts s fdt root Hbt fuel Hf o1 t1 Hat) as (_ & _ & _ & _ & ?). lia. }
    rewrite Hcall. done.
  - assert (Hfr : forall a, iter + 88 <= a -> a + 4 <= iter + 96 -> ld32 m3 a = ld32 m1 a).
    { intros a H1 H2. rewrite (load_same_outside (fun x => node_bytes (iter_currentNode iter) x \/ node_bytes next x) 4 m1 m3).
      - done.
      - eapply same_outside_trans.
        + eapply same_outside_mono; [|exact Hs2]. intros x Hx. left. exact Hx.
        + eapply same_outside_mono; [|apply (copied_same_outside _ _ _ _ _ Hcp)]. intros x Hx. right. exact Hx.
      - intros x Hx [Hx'|Hx'].
        + unfold node_bytes, within, iter_currentNode in *. change (Z.of_nat (Z.to_nat DTNODE_SIZEOF)) with 44 in *. lia.
        + apply (Hap x Hx'). unfold iter_bytes, within in *. lia. }
    destruct (dn_offset _ _ _ _ (dtnode_copied m2 next _ o' t' m3 Hcp Hlen Hn2)).
    split.
    + rewrite Hfr by (unfold iter_index; lia). exact Hi1.
    + rewrite Hfr by (unfold iter_count; lia). rewrite <- Hc. unfold m1. apply load_store_apart.
      unfold apart, iter_index, iter_count. lia.
    + rewrite (load_same_outside (node_bytes next) 4 m2 m3).
      * rewrite (dn_offset _ _ _ _ Hn2). by rewrite Ho'.
      * exact (copied_same_outside _ _ _ _ _ Hcp).
      * intros x Hx Hx'. apply (Hap x Hx'). unfold iter_bytes, within, dtnode_offset, iter_currentNode in *. lia.
Qed.
End Iterators.

(** *** Complete iterations *)

(** [while (DeviceTreeIterateNodes (iter, next) == kDeviceTreeSuccess) ...]: the offset
    and the numbers of children and properties of every node visited. *)
Definition node_summary (o : Z) (t : dtree) : Z * Z * Z :=
  (o, Z.of_nat (length (node_children t)), Z.of_nat (length (node_props t))).
Definition read_summary (node : Z) : M (Z * Z * Z) :=
  let! o := ld 4 (dtnode_offset node) in
  let! k := ld 4 (dtnode_nChildren node) in
  let! p := ld 4 (dtnode_nProperties node) in
  ret (o, k, p).
Fixpoint iterate_all `{Symbols} (fuel n : nat) (iter next : Z) : M (list (Z * Z * Z)) :=
  let! r := DeviceTreeIterateNodes fuel iter next in
  if r =? kDeviceTreeSuccess then
    let! x := read_summary next in
    match n with
    | O => diverge
    | S n => let! l := iterate_all fuel n iter next in ret (x :: l)
    end
  else ret [].

Lemma read_summary_run node o t s :
  dtnode_at (k_mem s) node o t -> read_summary node s = Done (node_summary o t) s.
Proof.
  intros [_ Ho Hk Hp]. unfold read_summary, bind, ld, ret.
  fold (ld32 (k_mem s) (dtnode_offset node)). fold (ld32 (k_mem s) (dtnode_nChildren node)).
  fold (ld32 (k_mem s) (dtnode_nProperties node)). by rewrite Ho, Hk, Hp.
Qed.

Section Iterations.
Context `{Symbols}.
Context (fdt : Z) (root : dtree) (fuel : nat) (iter next : Z) (o : Z) (t : dtree).
Abbreviation ts := (tree_tokens root ++ [TEnd]).
Hypothesis Hap : forall x, node_bytes next x -> ~ iter_bytes iter x.
Hypothesis Ht : tree_at ts o t.
Hypothesis Hnames : short_names t.

Lemma iterate_all_from n i s :
  boot_tree (k_mem s) fdt root -> enough (k_mem s) fdt fuel -> off_tree (k_mem s) fdt (written iter next) ->
  iter_at (k_mem s) iter o t i -> (i <= length (node_children t))%nat ->
  (length (node_children t) - i <= n)%nat ->
  exists m', iterate_all fuel n iter next s =
      Done (zip_with node_summary (drop i (child_offsets o t)) (drop i (node_children t))) (set_mem m' s) /\
    same_outside (written iter next) (k_mem s) m'.
Proof.
  pose proof (length_offsets (children_start o t) (node_children t)) as Hl. fold (child_offsets o t) in Hl.
  revert i s. induction n as [|n IH]; intros i s Hbt Hf Hoff Hit Hi Hn;
    destruct (node_counts s fdt root Hbt fuel Hf o t Ht) as (Hk & _ & _ & _ & _);
    (destruct (decide (i = length (node_children t))) as [Ei|Ei];
     [exists (k_mem s); rewrite set_mem_id; split; [|done];
      cbn [iterate_all]; rewrite (bind_done _ _ _ _ _ (iterate_end fuel iter next s o t i Hit ltac:(lia) ltac:(lia)));
      by rewrite (drop_ge (child_offsets o t)) by lia|]).
  { lia. }
  destruct (lookup_lt_is_Some_2 (child_offsets o t) i) as [o' Ho']; [lia|].
  destruct (lookup_lt_is_Some_2 (node_children t) i) as [t' Ht']; [lia|].
  pose proof (Forall_lookup_1 _ _ _ _ Hnames Ht') as Hlen. cbv beta in Hlen.
  destruct (iterate_step fdt root fuel iter next s o t i o' t' Hbt Hf Hoff Hap Hit Ht Ho' Ht' Hlen)
    as (m1 & E & Hn1 & Hit1 & Hs1).
  pose proof (same_image_outside _ _ fdt _ Hoff Hs1) as Him.
  destruct (IH (S i) (set_mem m1 s)) as (m' & E' & Hs'); [| | |done|lia|lia|].
  { by apply (boot_tree_frame (k_mem s) m1 fdt root _ Hbt Hoff). }
  { by apply (enough_frame (k_mem s) m1). }
  { by apply (off_tree_frame (k_mem s) m1). }
  exists m'. split; [|by eapply same_outside_trans; [exact Hs1|exact Hs']].
  cbn [iterate_all]. rewrite (bind_done _ _ _ _ _ E). cbn [Z.eqb kDeviceTreeSuccess].
  rewrite (bind_done _ _ _ _ _ (read_summary_run next o' t' (set_mem m1 s) Hn1)).
  rewrite (bind_done _ _ _ _ _ E'), set_mem_set_mem.
  rewrite (drop_S _ o' i Ho'), (drop_S _ t' i Ht'). done.
Qed.

Lemma iterator_init_run s start :
  ld32 (k_mem s) BootDeviceTree_initialised = ROOT_DEVICE_TREE_INIT -> start <> NULL ->
  (forall x, node_bytes start x -> ~ iter_bytes iter x) ->
  (length (node_name t) < 32)%nat -> dtnode_at (k_mem s) start o t ->
  exists m', DeviceTreeIteratorInit start iter s = Done kDeviceTreeSuccess (set_mem m' s) /\
    iter_at m' iter o t 0 /\ same_outside (iter_bytes iter) (k_mem s) m'.
Proof.
  intros Hi Hne Hst Hlen Hn. set (m0 := k_mem s) in *.
  assert (Hcp : forall m a, (forall x, node_bytes a x -> iter_bytes iter x) ->
    copied m a start (Z.to_nat DTNODE_SIZEOF) (memcpy m a start (Z.to_nat DTNODE_SIZEOF))).
  { intros m a Ha. apply memcpy_copied. change (Z.to_nat DTNODE_SIZEOF) with 44%nat.
    destruct (apart_order a start 44 44) as [|]; [lia|lia| |lia|lia].
    intros x Hx Hx'. apply (Hst x Hx'). by apply Ha. }
  assert (Hb : forall x, node_bytes (iter_baseNode iter) x -> iter_bytes iter x).
  { unfold node_bytes, iter_bytes, iter_baseNode, within. change (Z.to_nat DTNODE_SIZEOF) with 44%nat. lia. }
  pose proof (Hcp m0 (iter_baseNode iter) Hb) as Hc1. set (m1 := memcpy m0 _ _ _) in *.
  assert (Hs1 : same_outside (iter_bytes iter) m0 m1).
  { eapply same_outside_mono; [|apply (copied_same_outside _ _ _ _ _ Hc1)]. exact Hb. }
  pose proof (Hcp m1 (iter_currentNode iter) (current_in_iter iter)) as Hc2.
  set (m2 := memcpy m1 _ _ _) in *.
  pose proof (dtnode_copied m0 _ _ o t m1 Hc1 Hlen Hn) as Hn1.
  assert (Hn1' : dtnode_at m1 start o t) by (by apply (dtnode_frame _ m0 m1 start o t Hs1 Hst Hlen)).
  pose proof (dtnode_copied m1 _ _ o t m2 Hc2 Hlen Hn1') as Hn2.
  assert (Hk2 : ld32 m2 (dtnode_nChildren (iter_baseNode iter)) = Z.of_nat (length (node_children t))).
  { rewrite <- (dn_children _ _ _ _ Hn1). apply (load_same_outside _ _ _ _ _ (copied_same_outside _ _ _ _ _ Hc2)).
    unfold within, dtnode_nChildren, iter_baseNode, iter_currentNode. change (Z.to_nat DTNODE_SIZEOF) with 44%nat. lia. }
  set (m3 := st32 m2 (iter_count iter) (Z.of_nat (length (node_children t)))).
  exists (st32 m3 (iter_index iter) 0). split; [|split].
  - unfold DeviceTreeIteratorInit. unfold bind at 1, ld at 1. fold m0. fold (ld32 m0 BootDeviceTree_initialised).
    rewrite Hi. change (s32 ROOT_DEVICE_TREE_INIT =? 0) with false. cbv iota.
    destruct (Z.eqb_spec start NULL); [done|]. cbn [negb].
    unfold struct_assign, upd_mem. unfold bind at 1. fold m0 m1. unfold bind at 1. rewrite set_mem_mem, set_mem_set_mem.
    fold m2. unfold bind at 1, ld at 1. rewrite set_mem_mem. fold (ld32 m2 (dtnode_nChildren (iter_baseNode iter))). rewrite Hk2. done.
  - split.
    + by rewrite ld32_st32_eq.
    + rewrite load_store_apart by (unfold apart, iter_index, iter_count; lia). unfold m3. rewrite ld32_st32_eq.
      rewrite <- Hk2. apply u32_id. apply ld32_range.
    + rewrite load_store_apart by (unfold apart, iter_index, dtnode_offset, iter_currentNode; lia). unfold m3.
      rewrite load_store_apart by (unfold apart, iter_count, dtnode_offset, iter_currentNode; lia).
      apply (dn_offset _ _ _ _ Hn2).
  - apply same_outside_store; [unfold within, iter_index, iter_bytes, within; lia|].
    apply same_outside_store; [unfold within, iter_count, iter_bytes, within; lia|].
    eapply same_outside_trans; [exact Hs1|]. eapply same_outside_mono; [|apply (copied_same_outside _ _ _ _ _ Hc2)].
    apply current_in_iter.
Qed.
End Iterations.

(** ** The [reg] property *)
Lemma bswap_fdt32 x : is_u32 x -> bswap_32 x = fdt32_to_cpu x.
Proof.
  intros Hx. rewrite bswap_32_bytes, fdt32_to_cpu_eq by lia. unfold be_combine. cbn [le_combine].
  change (2 ^ 8) with 256. ring.
Qed.
Lemma bswap_block m a w : is_u32 w -> block m a (be_bytes w) -> bswap_32 (ld32 m a) = w.
Proof. intros Hw Hb. rewrite bswap_fdt32 by apply ld32_range. by apply fdt32_block. Qed.

(** A 64-bit number as two big-endian cells. *)
Definition be_cells (v : Z) : list Z := be_bytes (v / 2 ^ 32) ++ be_bytes (v mod 2 ^ 32).

Lemma cell_pair v : is_u64 v -> u64 (Z.shiftl (v / 2 ^ 32) 32 + v mod 2 ^ 32) = v.
Proof.
  intros Hv. rewrite Z.shiftl_mul_pow2 by lia. rewrite (Z.mul_comm (v / 2 ^ 32)), <- Z.div_mod by lia.
  by apply u64_id.
Qed.

(** The four cells of [reg] after the loop that swaps them. *)
Definition swap_cell (reg : Z) (i : Z) : M unit :=
  let! c := ld 4 (reg + 4 * i) in st 4 (reg + 4 * i) (bswap_32 c).
Definition swapped (m : memory) (reg : Z) (w : nat -> Z) (n : nat) (m' : memory) : Prop :=
  same_outside (within reg 16) m m' /\
  (forall i, (i < n)%nat -> ld32 m' (reg + 4 * Z.of_nat i) = w i) /\
  (forall i, (n <= i < 4)%nat -> ld32 m' (reg + 4 * Z.of_nat i) = ld32 m (reg + 4 * Z.of_nat i)).

Lemma swap_cells_run s reg (w : nat -> Z) :
  (forall i, (i < 4)%nat -> is_u32 (w i) /\ bswap_32 (ld32 (k_mem s) (reg + 4 * Z.of_nat i)) = w i) ->
  exists m', for_range 0 4 (swap_cell reg) s = Done tt (set_mem m' s) /\ swapped (k_mem s) reg w 4 m'.
Proof.
  intros Hw. destruct (for_range_rule (fun i s' => exists m', s' = set_mem m' s /\
    swapped (k_mem s) reg w (Z.to_nat i) m') 0 4 (swap_cell reg) s) as (s' & E & m' & -> & Hm).
  - exists (k_mem s). rewrite set_mem_id. split; [done|]. split; [done|]. split; [lia|done].
  - intros i s1 Hi (m1 & -> & Hs & Hlo & Hhi). set (k := Z.to_nat i) in *.
    assert (Ei : i = Z.of_nat k) by lia. rewrite Ei.
    exists (set_mem (st32 m1 (reg + 4 * Z.of_nat k) (w k)) s). split.
    + unfold swap_cell, bind at 1, ld at 1. rewrite set_mem_mem. fold (ld32 m1 (reg + 4 * Z.of_nat k)).
      rewrite (Hhi k) by lia. destruct (Hw k) as [_ ->]; [lia|]. done.
    + eexists. split; [done|]. replace (Z.to_nat (Z.of_nat k + 1)) with (S k) by lia. split; [|split].
      * apply same_outside_store; [|done]. unfold within. lia.
      * intros j Hj. destruct (decide (j = k)) as [->|Hne].
        -- rewrite ld32_st32_eq. apply u32_id. apply Hw. lia.
        -- rewrite load_store_apart by (unfold apart; lia). apply Hlo. lia.
      * intros j Hj. rewrite load_store_apart by (unfold apart; lia). apply Hhi. lia.
  - by exists m'.
Qed.

Section Reg.
Context `{Symbols}.
Context (fdt : Z) (root : dtree) (fuel : nat) (strs : Z -> list Z) (node addr size : Z).
Abbreviation ts := (tree_tokens root ++ [TEnd]).
Definition reg_name : list Z := [114; 101; 103].

(** The two results, as [DeviceTreeLookupRegValue] stores them. *)
Definition result_bytes (x : Z) : Prop := within addr 8 x \/ within size 8 x.

Lemma reg_value_run s o t o' base len :
  boot_tree (k_mem s) fdt root -> enough (k_mem s) fdt fuel -> tree_at ts o t ->
  named (k_mem s) fdt strs t -> ld32 (k_mem s) (dtnode_offset node) = o ->
  0 < sym_literal "reg" -> cstr (k_mem s) (sym_literal "reg") reg_name -> (3 <= fuel)%nat ->
  find_prop strs reg_name (props_start o t) (node_props t) = Some (o', be_cells base ++ be_cells len) ->
  is_u64 base -> is_u64 len ->
  (forall x, result_bytes x -> ~ in_image (k_mem s) fdt x) -> apart addr 8 size 8 ->
  exists reg m', DeviceTreeLookupRegValue fuel node addr size s = Done None (set_mem m' s) /\
    (forall x, within reg 16 x -> in_image (k_mem s) fdt x) /\
    ld64 m' addr = base /\ ld64 m' size = len /\ ld32 m' reg = base / 2 ^ 32 /\
    same_outside (fun x => within reg 16 x \/ result_bytes x) (k_mem s) m'.
Proof.
  intros Hbt Hf Ht Hnm Ho Hlp Hlc Hf3 Ep Hbase Hlen Hoff Hap.
  destruct (node_counts s fdt root Hbt fuel Hf o t Ht) as (_ & _ & _ & _ & Hor).
  pose proof (fdt_getprop_node (k_mem s) fdt root fuel strs o t _ reg_name (bt_tree _ _ _ Hbt)
    (fuel_le s fdt fuel Hf) Ht Hnm Hlp Hlc) as Hg. rewrite Ep in Hg.
  destruct Hg as (Hg & _ & Hd & Ha1 & Ha2); [simpl; lia|simpl; lia|].
  set (reg := fdt + fdt_off_dt_struct (k_mem s) fdt + o' + 12) in *.
  change (Z.of_nat (length (be_cells base ++ be_cells len))) with 16 in *.
  set (w := fun i : nat => match i with O => base / 2 ^ 32 | 1%nat => base mod 2 ^ 32
                           | 2%nat => len / 2 ^ 32 | _ => len mod 2 ^ 32 end).
  assert (Hw : forall i, (i < 4)%nat -> is_u32 (w i) /\ bswap_32 (ld32 (k_mem s) (reg + 4 * Z.of_nat i)) = w i).
  { unfold be_cells in Hd. rewrite !block_app in Hd. destruct Hd as [[Hd0 Hd1] [Hd2 Hd3]].
    change (Z.of_nat (length (be_bytes (base / 2 ^ 32)))) with 4 in *.
    change (Z.of_nat (length (be_bytes (len / 2 ^ 32)))) with 4 in *.
    change (Z.of_nat (length (be_bytes (base / 2 ^ 32) ++ be_bytes (base mod 2 ^ 32)))) with 8 in *.
    intros i Hi. assert (Hu : is_u32 (w i)).
    { destruct i as [|[|[|[|i]]]]; [..|lia]; cbn [w]; Z.to_euclidean_division_equations; lia. }
    split; [done|]. apply bswap_block; [done|].
    destruct i as [|[|[|[|i]]]]; cbn [w].
    - by replace (reg + 4 * Z.of_nat 0) with reg by lia.
    - exact Hd1.
    - by replace (reg + 4 * Z.of_nat 2) with (reg + 8) by lia.
    - by replace (reg + 4 * Z.of_nat 3) with (reg + 8 + 4) by lia.
    - lia. }
  destruct (swap_cells_run s reg w Hw) as (m1 & E1 & Hs1 & Hc & _).
  set (m2 := st64 m1 addr base). set (m3 := st64 m2 size len).
  assert (Hreg : forall a n x, within a n x -> (forall y, within a n y -> result_bytes y) -> ~ within reg 16 x).
  { intros a n x Hx Hy Hr. apply (Hoff x); [by apply Hy|]. unfold in_image, within in *. lia. }
  assert (Hcell : forall i, (i < 4)%nat -> ld32 m2 (reg + 4 * Z.of_nat i) = w i).
  { intros i Hi. rewrite <- (Hc i Hi). apply (load_same_outside (within addr 8)); [by apply same_outside_store|].
    intros x Hx Hx'. apply (Hreg addr 8%nat x Hx'); [by left|]. unfold within in *. lia. }
  exists reg, m3. split; [|split; [|split; [|split; [|split]]]].
  - unfold DeviceTreeLookupRegValue. unfold bind at 1, ld at 1. fold (ld32 (k_mem s) (dtnode_offset node)).
    rewrite Ho, s32_id by lia. rewrite (bind_done _ _ _ _ _ (on_tree_run s fdt root Hbt _ _ Hg)). cbv zeta. cbn [Z.ltb Z.compare].
    change (Z.to_nat (DEFAULTS_PLAT_DEVICETREE_CELL_SIZE * 2)) with 4%nat.
    rewrite (bind_done _ _ _ _ _ E1). cbv beta delta [bind ld st upd_mem ret]. cbv beta iota.
    rewrite !set_mem_mem, !set_mem_set_mem.
    pose proof (Hc 0%nat ltac:(lia)) as C0. pose proof (Hc 1%nat ltac:(lia)) as C1.
    replace (reg + 4 * Z.of_nat 0) with reg in C0 by lia. replace (reg + 4 * Z.of_nat 1) with (reg + 4) in C1 by lia.
    pose proof (Hcell 2%nat ltac:(lia)) as C2. pose proof (Hcell 3%nat ltac:(lia)) as C3.
    replace (reg + 4 * Z.of_nat 2) with (reg + 8) in C2 by lia. replace (reg + 4 * Z.of_nat 3) with (reg + 12) in C3 by lia.
    rewrite C0, C1. cbn [w]. rewrite cell_pair by done. fold m2. rewrite C2, C3. cbn [w].
    rewrite cell_pair by done. done.
  - intros x Hx. unfold in_image, within in *. lia.
  - unfold m3. rewrite load_store_apart by (unfold apart in *; lia). unfold m2. rewrite ld64_st64_eq. by apply u64_id.
  - unfold m3. rewrite ld64_st64_eq. by apply u64_id.
  - unfold m3. rewrite (load_same_outside (within size 8) 4 m2).
    + replace reg with (reg + 4 * Z.of_nat 0) by lia. apply (Hcell 0%nat). lia.
    + by apply same_outside_store.
    + intros x Hx Hx'. apply (Hreg size 8%nat x Hx'); [by right|]. unfold within in *. lia.
  - apply same_outside_store; [by right; right|]. apply same_outside_store; [by right; left|].
    eapply same_outside_mono; [|exact Hs1]. by left.
Qed.
End Reg.

(** ** platform/platform.c *)
Definition memory_name : list Z := [109; 101; 109; 111; 114; 121].

(** The frame of [platform_get_memory]: its variables and the literals it uses. *)
Record memory_frame `{Symbols} (m : memory) (fdt : Z) (fuel : nat) (membase mmesize : Z) : Prop := {
  mf_path : path_at fuel m (sym_literal "/memory") [memory_name];
  mf_reg_pos : 0 < sym_literal "reg";
  mf_reg : cstr m (sym_literal "reg") reg_name;
  mf_node : off_tree m fdt (node_bytes (sym_local "platform_get_memory" "mem_node"));
  mf_reg_node : forall x, within (sym_literal "reg") 4 x ->
    ~ node_bytes (sym_local "platform_get_memory" "mem_node") x;
  mf_results : forall x, result_bytes (sym_local "platform_get_memory" "addr")
    (sym_local "platform_get_memory" "size") x -> ~ in_image m fdt x;
  mf_apart : apart (sym_local "platform_get_memory" "addr") 8 (sym_local "platform_get_memory" "size") 8;
  mf_out1 : apart mmesize 8 (sym_local "platform_get_memory" "addr") 8;
  mf_out2 : apart membase 8 mmesize 8;
}.

Section Platform.
Context `{Symbols}.
Context (fdt : Z) (root : dtree) (fuel : nat) (strs : Z -> list Z) (membase mmesize : Z).

Lemma platform_get_memory_run s o t o' base len :
  boot_tree (k_mem s) fdt root -> enough (k_mem s) fdt fuel -> memory_frame (k_mem s) fdt fuel membase mmesize ->
  find_path [memory_name] 0 root = Some (o, t) -> (length (node_name t) < 32)%nat ->
  named (k_mem s) fdt strs t ->
  find_prop strs reg_name (props_start o t) (node_props t) = Some (o', be_cells base ++ be_cells len) ->
  is_u64 base -> is_u64 len ->
  exists m', platform_get_memory fuel membase mmesize s = Done KERN_RETURN_SUCCESS (set_mem m' s) /\
    ld64 m' membase = base /\ ld64 m' mmesize = len.
Proof.
  intros Hbt Hf [Hp Hrp Hr Hn Hrn Hres Hap Ho1 Ho2] Ef Hlen Hnm Epr Hb Hl.
  set (node := sym_local "platform_get_memory" "mem_node") in *.
  set (addr := sym_local "platform_get_memory" "addr") in *.
  set (size := sym_local "platform_get_memory" "size") in *.
  destruct (lookup_node_run fdt root fuel node s _ _ o t Hbt Hf Hn Hp Ef Hlen) as (m1 & E1 & Hn1 & Hs1).
  pose proof (same_image_outside _ _ fdt _ Hn Hs1) as Him.
  assert (Hbt1 : boot_tree m1 fdt root) by (by apply (boot_tree_frame (k_mem s) m1 fdt root _ Hbt Hn)).
  assert (Htr : tree_at (tree_tokens root ++ [TEnd]) o t).
  { apply (find_path_at _ _ _ (bt_tree _ _ _ Hbt) [memory_name] 0 root); [|done].
    exact (root_at _ _ _ (bt_tree _ _ _ Hbt)). }
  destruct (reg_value_run fdt root fuel strs node addr size (set_mem m1 s) o t o' base len)
    as (reg & m2 & E2 & _ & Ha & Hsz & _ & _); try done.
  - by apply (enough_frame (k_mem s) m1).
  - by apply (named_frame (k_mem s) m1).
  - apply (dn_offset _ _ _ _ Hn1).
  - apply (cstr_untouched _ _ _ _ _ Hs1); [|done]. exact Hrn.
  - destruct Hp as (_ & _ & _ & _ & Hlt). simpl in Hlt. lia.
  - intros x Hx. simpl. unfold in_image. destruct (headers_frame _ _ fdt Him) as (_ & Et & _). rewrite Et. by apply Hres.
  - rewrite set_mem_set_mem in E2. set (m3 := st64 m2 mmesize len).
    assert (Ha3 : ld64 m3 addr = base).
    { rewrite <- Ha. apply load_store_apart. unfold apart in *. lia. }
    exists (st64 m3 membase base). split; [|split].
    + unfold platform_get_memory. fold node addr size. rewrite (bind_done _ _ _ _ _ E1).
      cbn [Z.eqb kDeviceTreeSuccess]. unfold assert at 1. unfold bind at 1, ret at 1.
      rewrite (bind_done _ _ _ _ _ E2). cbv beta delta [bind ld st upd_mem ret]. cbv beta iota.
      rewrite !set_mem_mem, !set_mem_set_mem. rewrite Hsz. fold m3. by rewrite Ha3.
    + rewrite ld64_st64_eq. by apply u64_id.
    + rewrite load_store_apart by (unfold apart in *; lia). unfold m3. rewrite ld64_st64_eq. by apply u64_id.
Qed.

Lemma platform_get_memory_none s :
  boot_tree (k_mem s) fdt root -> enough (k_mem s) fdt fuel -> memory_frame (k_mem s) fdt fuel membase mmesize ->
  find_path [memory_name] 0 root = None ->
  exists e, platform_get_memory fuel membase mmesize s = Halted (emit_event e s).
Proof.
  intros Hbt Hf Hm Ef. destruct (lookup_node_none fdt root fuel (sym_local "platform_get_memory" "mem_node")
    s _ _ Hbt Hf (mf_path _ _ _ _ _ Hm) Ef) as [e E].
  exists e. unfold platform_get_memory. by rewrite (bind_done _ _ _ _ _ E).
Qed.
End Platform.

(** ** Properties *)

(** [DeviceTreeLookupNode] on an encoded tree: for a path to a node whose name fits
    in the structure it fills the structure with the name, the offset and the numbers
    of children and properties of that node and changes nothing else; for a path that
    leads nowhere it reports the failure and changes no memory. *)
Theorem DeviceTreeLookupNode_correct `{Symbols} s fdt root fuel path a node :
  boot_tree (k_mem s) fdt root -> enough (k_mem s) fdt fuel -> off_tree (k_mem s) fdt (node_bytes node) ->
  path_at fuel (k_mem s) a path ->
  match find_path path 0 root with
  | Some (o, t) => (length (node_name t) < 32)%nat ->
      exists m', DeviceTreeLookupNode fuel a node s = Done kDeviceTreeSuccess (set_mem m' s) /\
        dtnode_at m' node o t /\ same_outside (node_bytes node) (k_mem s) m'
  | None => exists e, DeviceTreeLookupNode fuel a node s = Done kDeviceTreeFailure (emit_event e s)
  end.
Proof.
  intros Hbt Hf Hoff Hp. destruct (find_path path 0 root) as [[o t]|] eqn:Ef.
  - intros Hl. by apply (lookup_node_run fdt root fuel node s path a o t).
  - by apply (lookup_node_none fdt root fuel node s path a).
Qed.

(** (C18) An iterator started on a node of an encoded tree visits exactly the children of
    the node, in order, each with its offset and its numbers of children and properties,
    then ends; it writes only the iterator and the structure of the current child. *)
Theorem devicetree_iteration_correct `{Symbols} s fdt root fuel path o t start iter next n :
  boot_tree (k_mem s) fdt root -> enough (k_mem s) fdt fuel -> off_tree (k_mem s) fdt (written iter next) ->
  find_path path 0 root = Some (o, t) -> short_names t -> (length (node_name t) < 32)%nat ->
  ld32 (k_mem s) BootDeviceTree_initialised = ROOT_DEVICE_TREE_INIT ->
  start <> NULL -> dtnode_at (k_mem s) start o t ->
  (forall x, node_bytes start x -> ~ iter_bytes iter x) -> (forall x, node_bytes next x -> ~ iter_bytes iter x) ->
  (length (node_children t) <= n)%nat ->
  exists m', (DeviceTreeIteratorInit start iter ;! iterate_all fuel n iter next) s =
      Done (zip_with node_summary (child_offsets o t) (node_children t)) (set_mem m' s) /\
    same_outside (written iter next) (k_mem s) m'.
Proof.
  intros Hbt Hf Hoff Ef Hnames Hlen Hini Hne Hst Hap1 Hap2 Hn.
  pose proof (find_path_at _ _ _ (bt_tree _ _ _ Hbt) path 0 root o t (root_at _ _ _ (bt_tree _ _ _ Hbt)) Ef) as Ht.
  assert (Hoffi : off_tree (k_mem s) fdt (iter_bytes iter)) by (intros x Hx; apply Hoff; by left).
  destruct (iterator_init_run iter o t s start) as (m1 & E1 & Hit & Hs1); try done.
  pose proof (same_image_outside _ _ fdt _ Hoffi Hs1) as Him.
  destruct (iterate_all_from fdt root fuel iter next o t Hap2 Ht Hnames n 0 (set_mem m1 s)) as (m' & E & Hs');
    [| | |done|lia|lia|].
  - by apply (boot_tree_frame (k_mem s) m1 fdt root _ Hbt Hoffi).
  - by apply (enough_frame (k_mem s) m1).
  - by apply (off_tree_frame (k_mem s) m1).
  - exists m'. split.
    + rewrite (bind_done _ _ _ _ _ E1), E, set_mem_set_mem. done.
    + eapply same_outside_trans; [|exact Hs']. eapply same_outside_mono; [|exact Hs1]. by left.
Qed.

(** (C27) [platform_get_memory] returns the two 64-bit numbers of the [reg] property of
    [/memory] and changes no global and no device; without the node it panics. *)
Theorem platform_get_memory_correct `{Symbols} s fdt root fuel strs membase mmesize base len :
  boot_tree (k_mem s) fdt root -> enough (k_mem s) fdt fuel -> memory_frame (k_mem s) fdt fuel membase mmesize ->
  is_u64 base -> is_u64 len ->
  match find_path [memory_name] 0 root with
  | Some (o, t) =>
      (length (node_name t) < 32)%nat -> named (k_mem s) fdt strs t ->
      snd <$> find_prop strs reg_name (props_start o t) (node_props t) = Some (be_cells base ++ be_cells len) ->
      exists m', platform_get_memory fuel membase mmesize s = Done KERN_RETURN_SUCCESS (set_mem m' s) /\
        ld64 m' membase = base /\ ld64 m' mmesize = len
  | None => exists e, platform_get_memory fuel membase mmesize s = Halted (emit_event e s)
  end.
Proof.
  intros Hbt Hf Hm Hb Hl. destruct (find_path [memory_name] 0 root) as [[o t]|] eqn:Ef.
  - intros Hlen Hn Hp. destruct (find_prop strs reg_name _ _) as [[o' data]|] eqn:Ep; [|done].
    injection Hp as Hp. simpl in Hp. subst data.
    by apply (platform_get_memory_run fdt root fuel strs membase mmesize s o t o').
  - by apply (platform_get_memory_none fdt root fuel membase mmesize).
Qed.

(** ** Witnesses: the tree of FdtSpec.v as the boot device tree *)
Definition demo_dt_root : Z := DEMO_VIRT + 0x118000.
Definition demo_dt_memory : memory :=
  let m := fold_left (fun m l => wr_list m (demo_literal l) (str l ++ [0]))
    ["/memory"; "reg"; "phandle"; "linux,phandle"; "/cpus"; "cpu-map"; "cpu"]%string demo_blob in
  let m := st32 (st64 m (@BootDeviceTree_base demo_symbols) 0x1000)
             (@BootDeviceTree_initialised demo_symbols) ROOT_DEVICE_TREE_INIT in
  (* the structure of the root node *)
  st32 (st32 (st32 (wr m demo_dt_root 0) (dtnode_offset demo_dt_root) 0) (dtnode_nChildren demo_dt_root) 2)
    (dtnode_nProperties demo_dt_root) 1.
Definition demo_dt_state : kstate := mk_kstate demo_dt_memory demo_globals (fun _ => 0) [].

Lemma demo_literal_high l : DEMO_VIRT <= demo_literal l.
Proof.
  unfold demo_literal. assert (H : forall x l i, i <= demo_index x l i).
  { intros x l'. induction l' as [|y l' IH]; intros i; cbn [demo_index]; [lia|].
    case_decide; [lia|]. specialize (IH (i + 1)). lia. }
  specialize (H l ["/memory"; "reg"; "phandle"; "linux,phandle"; "/cpus"; "cpu-map"; "cpu"]%string 0). lia.
Qed.

Lemma demo_dt_same : same_image demo_blob demo_dt_memory 0x1000.
Proof.
  intros x Hx. assert (E : fdt_totalsize demo_blob 0x1000 = 366) by (vm_compute; reflexivity).
  unfold in_image in Hx. rewrite E in Hx. unfold demo_dt_memory.
  assert (Hv : x < DEMO_VIRT) by (unfold DEMO_VIRT; lia).
  assert (HB : DEMO_VIRT + 0x115800 = @BootDeviceTree_base demo_symbols) by reflexivity.
  assert (HI : DEMO_VIRT + 0x115850 = @BootDeviceTree_initialised demo_symbols) by reflexivity.
  cbn [fold_left].
  rewrite !rd_store_out, rd_wr, decide_False, !rd_store_out, !rd_wr_list_out; [reflexivity|..];
    unfold within, dtnode_offset, dtnode_nChildren, dtnode_nProperties, demo_dt_root in *;
    rewrite <- ?HB, <- ?HI; try lia; match goal with |- context [demo_literal ?l] =>
      pose proof (demo_literal_high l); lia end.
Qed.

Lemma demo_boot_tree : @boot_tree demo_symbols (k_mem demo_dt_state) 0x1000 demo_tree.
Proof.
  split; [vm_compute; reflexivity|]. apply (encodes_frame demo_blob); [exact demo_dt_same|exact demo_encodes].
Qed.
Lemma demo_enough : enough (k_mem demo_dt_state) 0x1000 1000.
Proof. vm_compute. lia. Qed.

Lemma demo_off_tree (R : Z -> Prop) :
  (forall x, R x -> DEMO_VIRT <= x /\ ~ within (DEMO_VIRT + 0x115800) 8 x) ->
  @off_tree demo_symbols (k_mem demo_dt_state) 0x1000 R.
Proof.
  intros HR x Hx. destruct (HR x Hx) as [Hv Hb]. split; [|exact Hb].
  assert (E : fdt_totalsize (k_mem demo_dt_state) 0x1000 = 366) by (vm_compute; reflexivity).
  unfold in_image. rewrite E. unfold DEMO_VIRT in Hv. lia.
Qed.

Lemma demo_path_memory : path_at 1000 (k_mem demo_dt_state) (demo_literal "/memory") [memory_name].
Proof.
  split; [repeat constructor; try done; set_solver|]. split; [vm_compute; reflexivity|].
  split; [split; [apply block_check; vm_compute; reflexivity|repeat constructor; done]|].
  split; [vm_compute; reflexivity|vm_compute; lia].
Qed.

Lemma DeviceTreeLookupNode_correct_witness :
  let _ := demo_symbols in
  exists m', DeviceTreeLookupNode 1000 (sym_literal "/memory") (DEMO_VIRT + 0x117000) demo_dt_state =
      Done kDeviceTreeSuccess (set_mem m' demo_dt_state) /\
    ld32 m' (dtnode_nProperties (DEMO_VIRT + 0x117000)) = 1.
Proof.
  intros sy. pose proof (@DeviceTreeLookupNode_correct sy demo_dt_state 0x1000 demo_tree 1000 [memory_name]
    (sym_literal "/memory") (DEMO_VIRT + 0x117000)) as H.
  destruct (find_path [memory_name] 0 demo_tree) as [[o t]|] eqn:E; [|vm_compute in E; discriminate].
  assert (Ht : t = DNode memory_name [(0, [0; 0x40000000; 0; 0x8000000] ≫= be_bytes)] [])
    by (vm_compute in E; injection E as _ <-; reflexivity).
  destruct H as (m' & Em & [_ _ _ Hn] & _).
  - exact demo_boot_tree.
  - exact demo_enough.
  - apply demo_off_tree. unfold node_bytes, within. change (Z.of_nat (Z.to_nat DTNODE_SIZEOF)) with 44. lia.
  - exact demo_path_memory.
  - rewrite Ht. vm_compute. lia.
  - exists m'. split; [exact Em|]. rewrite Hn, Ht. reflexivity.
Defined.

Lemma demo_root_node : dtnode_at (k_mem demo_dt_state) demo_dt_root 0 demo_tree.
Proof.
  split; [|vm_compute; reflexivity..].
  split; [apply block_check; vm_compute; reflexivity|repeat constructor; done].
Qed.

Lemma devicetree_iteration_correct_witness :
  let _ := demo_symbols in
  exists m' o1 o2, (DeviceTreeIteratorInit demo_dt_root (DEMO_VIRT + 0x117000) ;!
      iterate_all 1000 5 (DEMO_VIRT + 0x117000) (DEMO_VIRT + 0x117100)) demo_dt_state =
    Done [(o1, 3, 0); (o2, 0, 1)] (set_mem m' demo_dt_state).
Proof.
  intros sy. destruct (@devicetree_iteration_correct sy demo_dt_state 0x1000 demo_tree 1000 [] 0 demo_tree
    demo_dt_root (DEMO_VIRT + 0x117000) (DEMO_VIRT + 0x117100) 5) as (m' & E & _).
  - exact demo_boot_tree.
  - exact demo_enough.
  - apply demo_off_tree. unfold written, iter_bytes, node_bytes, within.
    change (Z.of_nat (Z.to_nat DTNODE_SIZEOF)) with 44. lia.
  - reflexivity.
  - repeat constructor; vm_compute; lia.
  - vm_compute. lia.
  - vm_compute. reflexivity.
  - unfold demo_dt_root, DEMO_VIRT, NULL. lia.
  - exact demo_root_node.
  - unfold demo_dt_root, iter_bytes, node_bytes, within. change (Z.of_nat (Z.to_nat DTNODE_SIZEOF)) with 44. lia.
  - unfold iter_bytes, node_bytes, within. change (Z.of_nat (Z.to_nat DTNODE_SIZEOF)) with 44. lia.
  - vm_compute. lia.
  - eexists m', _, _. rewrite E. reflexivity.
Defined.

Lemma demo_memory_frame :
  @memory_frame demo_symbols (k_mem demo_dt_state) 0x1000 1000 (DEMO_VIRT + 0x117000) (DEMO_VIRT + 0x117008).
Proof.
  split.
  - exact demo_path_memory.
  - reflexivity.
  - split; [apply block_check; vm_compute; reflexivity|repeat constructor; done].
  - change (@sym_local demo_symbols "platform_get_memory" "mem_node") with (DEMO_VIRT + 0x116200).
    apply demo_off_tree. unfold node_bytes, within. change (Z.of_nat (Z.to_nat DTNODE_SIZEOF)) with 44. lia.
  - change (@sym_local demo_symbols "platform_get_memory" "mem_node") with (DEMO_VIRT + 0x116200).
    change (@sym_literal demo_symbols "reg") with (DEMO_VIRT + 0x4040).
    unfold node_bytes, within. change (Z.of_nat (Z.to_nat DTNODE_SIZEOF)) with 44. lia.
  - change (@sym_local demo_symbols "platform_get_memory" "addr") with (DEMO_VIRT + 0x116000).
    change (@sym_local demo_symbols "platform_get_memory" "size") with (DEMO_VIRT + 0x116100).
    intros x Hx. apply (demo_off_tree (fun y => y = x)); [|done]. intros y ->.
    unfold result_bytes, within in *. lia.
  - left. vm_compute. congruence.
  - right. vm_compute. congruence.
  - left. vm_compute. congruence.
Qed.

Lemma platform_get_memory_correct_witness :
  let _ := demo_symbols in
  exists m', platform_get_memory 1000 (DEMO_VIRT + 0x117000) (DEMO_VIRT + 0x117008) demo_dt_state =
      Done KERN_RETURN_SUCCESS (set_mem m' demo_dt_state) /\
    ld64 m' (DEMO_VIRT + 0x117000) = 0x40000000 /\ ld64 m' (DEMO_VIRT + 0x117008) = 0x8000000.
Proof.
  intros sy. pose proof (@platform_get_memory_correct sy demo_dt_state 0x1000 demo_tree 1000 demo_strs
    (DEMO_VIRT + 0x117000) (DEMO_VIRT + 0x117008) 0x40000000 0x8000000) as H.
  destruct (find_path [memory_name] 0 demo_tree) as [[o t]|] eqn:E; [|vm_compute in E; discriminate].
  assert (Ht : t = DNode memory_name [(0, [0; 0x40000000; 0; 0x8000000] ≫= be_bytes)] [])
    by (vm_compute in E; injection E as _ <-; reflexivity).
  apply H.
  - exact demo_boot_tree.
  - exact demo_enough.
  - exact demo_memory_frame.
  - lia.
  - lia.
  - rewrite Ht. vm_compute. lia.
  - apply (named_frame demo_blob); [exact demo_dt_same|]. apply demo_named. rewrite Ht. repeat constructor; set_solver.
  - rewrite Ht. reflexivity.
Defined.
