(* ===== verification/Topology.v ===== *)
(** * Topology: reading the CPUs from the device tree (kern/machine.c)

    [machine_parse_cpu_topology] walks the clusters of [/cpus/cpu-map] and the CPUs of
    each cluster and fills the arrays [clusters] and [cpus], whose sizes it does not
    check. Automatic structures are at the addresses of [sym_local]. *)
From Stdlib Require Import ZArith Lia.
From stdpp Require Import prelude gmap list strings.
From S2P Require Import Prelude Memory TString Kernel Pmap Vm Machine Cpu Task Fdt FdtRo DeviceTree.
Open Scope Z_scope.
Open Scope monix_scope.

(** [while (DeviceTreeIterateNodes (iter, next) == kDeviceTreeSuccess) body] *)
Fixpoint while_nodes `{Symbols} (fuel n : nat) (iter next : Z) (body : M unit) : M unit :=
  let! r := DeviceTreeIterateNodes fuel iter next in
  if r =? kDeviceTreeSuccess then
    body ;!
    match n with O => diverge | S n => while_nodes fuel n iter next body end
  else ret tt.

Section Topology.
Context `{Symbols} `{Hardware}.

(** The function returns 0 without reading the property. *)
Definition machine_read_prop (node_offset prop_name : Z) : M Z := ret 0.

Definition machine_get_name (fuel : nat) : M Z :=
  let machine := sym_local "machine_get_name" "machine" in
  let len := sym_local "machine_get_name" "len" in
  let! offset := ld 4 (dtnode_offset BootDeviceTreeGetRootNode) in
  let! _ := DeviceTreeLookupPropertyValue fuel (s32 offset) (sym_literal "compatible") machine len in
  ld 8 machine.

(** The automatic variables of [machine_parse_cpu_topology]. *)
Abbreviation var := (sym_local "machine_parse_cpu_topology").

(** The body of the loop over the nodes of [/cpus]. *)
Definition match_cpu_map (fuel : nat) (parent node : Z) : M unit :=
  let! m := get_mem in
  let! c := with_fuel (strcmp fuel m (dtnode_name node) (sym_literal "cpu-map")) in
  when (c =? 0) (struct_assign DTNODE_SIZEOF parent node).

(** The body of the loop over the CPUs of a cluster. *)
Definition parse_cpu (fuel : nat) (boot_cpu cluster subnode : Z) : M unit :=
  let cpu := var "cpu" in
  let! num_cpus := get topology_num_cpus in
  st 4 (topology_cpu_id cpu) num_cpus ;!
  let! id := ld 4 (topology_cluster_id cluster) in
  st 4 (topology_cpu_cluster_id cpu) id ;!
  let! max := get topology_max_cpu_id in
  let! id := ld 4 (topology_cpu_id cpu) in
  put topology_max_cpu_id (Z.max max id) ;!
  let! offset := ld 4 (dtnode_offset subnode) in
  let! _ := DeviceTreeLookupPropertyValue fuel (s32 offset) (sym_literal "cpu") (var "entry") (var "len") in
  let! entry := ld 8 (var "entry") in
  let! phandle := ld 4 entry in
  let! _ := DeviceTreeLookupNodeByPhandle fuel (bswap_32 phandle) (var "cpu_node") in
  let! offset := ld 4 (dtnode_offset (var "cpu_node")) in
  let! phys_id := machine_read_prop (s32 offset) (sym_literal "reg") in
  st 4 (topology_cpu_phys_id cpu) (u32 phys_id) ;!
  let! id := ld 4 (topology_cpu_id cpu) in
  let! num_cpus := get topology_num_cpus in
  let! num_clusters := get topology_num_clusters in
  when (id =? u32 boot_cpu)
    (put topology_boot_cpu (topology_cpu_at sym_cpus num_cpus) ;!
     put topology_boot_cluster (topology_cluster_at sym_clusters num_clusters)) ;!
  struct_assign TOPOLOGY_CPU_SIZEOF (topology_cpu_at sym_cpus num_cpus) cpu ;!
  put topology_num_cpus (u32 (num_cpus + 1)) ;!
  let! n := ld 4 (topology_cluster_num_cpus cluster) in
  st 4 (topology_cluster_num_cpus cluster) (n + 1).

(** The body of the loop over the clusters. *)
Definition parse_cluster (fuel : nat) (boot_cpu node : Z) : M unit :=
  let cluster := var "cluster" in
  let subiter := var "subiter" in
  let! num_clusters := get topology_num_clusters in
  st 4 (topology_cluster_id cluster) num_clusters ;!
  st 4 (topology_cluster_num_cpus cluster) 0 ;!
  let! res := DeviceTreeIteratorInit node subiter in
  assert (res =? kDeviceTreeSuccess) ;!
  while_nodes fuel fuel subiter (var "subnode") (parse_cpu fuel boot_cpu cluster (var "subnode")) ;!
  let! num_clusters := get topology_num_clusters in
  struct_assign TOPOLOGY_CLUSTER_SIZEOF (topology_cluster_at sym_clusters num_clusters) cluster ;!
  put topology_num_clusters (u32 (num_clusters + 1)) ;!
  let! max := get topology_max_cluster_id in
  let! id := ld 4 (topology_cluster_id cluster) in
  put topology_max_cluster_id (Z.max max id).

Definition machine_parse_cpu_topology (fuel : nat) : M Z :=
  let parent := var "parent" in
  let node := var "node" in
  let iter := var "iter" in
  let! mpidr := sysreg_read mpidr_el1 in
  let boot_cpu := s32 (MPIDR_TO_CPU_NUM mpidr) in
  let! res := DeviceTreeLookupNode fuel (sym_literal "/cpus") parent in
  assert (res =? kDeviceTreeSuccess) ;!
  let! _ := DeviceTreeIteratorInit parent iter in
  while_nodes fuel fuel iter node (match_cpu_map fuel parent node) ;!
  let! res := DeviceTreeIteratorInit parent iter in
  assert (res =? kDeviceTreeSuccess) ;!
  put topology_num_clusters 0 ;!
  put topology_num_cpus 0 ;!
  while_nodes fuel fuel iter node (parse_cluster fuel boot_cpu node) ;!
  put topology_clusters sym_clusters ;!
  put topology_cpus sym_cpus ;!
  let! boot := get topology_boot_cpu in
  assert (negb (boot =? 0)) ;!
  ret KERN_RETURN_SUCCESS.
End Topology.
