(* ===== verification/TopologySpec.v ===== *)
(** * TopologySpec: the CPUs the kernel finds in the device tree (kern/machine.c)

    On a blob that encodes a tree, [machine_parse_cpu_topology] has an entry for every
    child of every child of [/cpus/cpu-map], numbered in the order of the tree. The
    proof composes the iterators and lookups of DeviceTreeSpec.v by postconditions. *)
From Stdlib Require Import ZArith Lia.
From stdpp Require Import prelude gmap list strings.
From S2P Require Import Prelude Memory TString Kernel Pmap Vm Machine Cpu Task Fdt FdtTokens FdtRo FdtTree FdtSpec FdtSearch DeviceTree DeviceTreeSpec Topology.
Open Scope Z_scope.
Open Scope monix_scope.

(** ** Regions *)
Definition in_regions (l : list (Z * nat)) (x : Z) : Prop := Exists (fun r => within (fst r) (snd r) x) l.
Definition regions_apart (l : list (Z * nat)) : Prop :=
  forall i j r1 r2, i <> j -> l !! i = Some r1 -> l !! j = Some r2 ->
    apart (fst r1) (snd r1) (fst r2) (snd r2).

Lemma in_regions_lookup l i a n x : l !! i = Some (a, n) -> within a n x -> in_regions l x.
Proof. intros Hi Hx. apply Exists_exists. exists (a, n). split; [by eapply list_elem_of_lookup_2|done]. Qed.

(** ** The specification *)

(** The cluster of every CPU, and the number of CPUs of every cluster, of the nodes [l]. *)
Definition cluster_cpus (l : list dtree) : list nat :=
  concat (imap (fun i t => replicate (length (node_children t)) i) l).
Definition cluster_sizes (l : list dtree) : list nat := map (fun t => length (node_children t)) l.

(** The node whose children are the clusters: the last child of [/cpus] that is named
    [cpu-map], and [/cpus] itself when there is none. *)
Definition pick_map (acc c : Z * dtree) : Z * dtree :=
  if decide (node_name (snd c) = str "cpu-map") then c else acc.
Definition cpu_map_from (o : Z) (t : dtree) (i : nat) : Z * dtree :=
  fold_left pick_map (take i (zip (child_offsets o t) (node_children t))) (o, t).
Definition cpu_map_node (o : Z) (t : dtree) : Z * dtree := cpu_map_from o t (length (node_children t)).

Lemma cluster_cpus_snoc l t :
  cluster_cpus (l ++ [t]) = cluster_cpus l ++ replicate (length (node_children t)) (length l).
Proof.
  unfold cluster_cpus. rewrite imap_app, concat_app. simpl. rewrite app_nil_r. by rewrite Nat.add_0_r.
Qed.
Lemma cluster_sizes_snoc l t : cluster_sizes (l ++ [t]) = cluster_sizes l ++ [length (node_children t)].
Proof. apply map_app. Qed.
Lemma length_cluster_sizes l : length (cluster_sizes l) = length l.
Proof. apply length_map. Qed.
Lemma cluster_cpus_take l i : (length (cluster_cpus (take i l)) <= length (cluster_cpus l))%nat.
Proof.
  rewrite <- (take_drop i l) at 2. generalize (drop i l). intros l2. induction l2 as [|t l2 IH] using rev_ind.
  - by rewrite app_nil_r.
  - rewrite app_assoc, cluster_cpus_snoc, length_app. lia.
Qed.

Lemma cpu_map_from_S o t i o' t' :
  child_offsets o t !! i = Some o' -> node_children t !! i = Some t' ->
  cpu_map_from o t (S i) = pick_map (cpu_map_from o t i) (o', t').
Proof.
  intros Ho Ht. unfold cpu_map_from. rewrite (take_S_r _ i (o', t')); [by rewrite fold_left_app|].
  rewrite lookup_zip_with, Ho. simpl. by rewrite Ht.
Qed.

(** ** Iteration with a body that keeps an invariant *)
Section While.
Context `{Symbols}.
Context (fdt : Z) (root : dtree) (fuel : nat) (iter next : Z) (o : Z) (t : dtree).
Hypothesis Hap : forall x, node_bytes next x -> ~ iter_bytes iter x.
Hypothesis Ht : tree_at (tree_tokens root ++ [TEnd]) o t.
Hypothesis Hnames : short_names t.
Context (Inv : nat -> kstate -> Prop) (body : M unit) (R : Z -> Prop).
Hypothesis Hready : forall i s, Inv i s -> boot_tree (k_mem s) fdt root /\ enough (k_mem s) fdt fuel /\
  off_tree (k_mem s) fdt (written iter next).
Hypothesis Hkeep : forall i s s', Inv i s -> quiet (written iter next) s s' -> Inv i s'.
Hypothesis Hbody : forall i s o' t', Inv i s ->
  child_offsets o t !! i = Some o' -> node_children t !! i = Some t' -> dtnode_at (k_mem s) next o' t' ->
  wp body s (fun _ s' => Inv (S i) s' /\ same_outside R (k_mem s) (k_mem s')).
Hypothesis Hiter : forall x, R x -> ~ iter_bytes iter x.

Lemma iter_at_frame m m' i :
  same_outside R m m' -> iter_at m iter o t i -> iter_at m' iter o t i.
Proof.
  intros Hs [H1 H2 H3].
  assert (Hl : forall a, iter <= a -> a + 4 <= iter + 96 -> ld32 m' a = ld32 m a).
  { intros a Ha1 Ha2. apply (load_same_outside R); [done|]. intros x Hx HR. apply (Hiter x HR).
    unfold iter_bytes, within in *. lia. }
  split; rewrite Hl; try done; unfold iter_index, iter_count, dtnode_offset, iter_currentNode; lia.
Qed.

Lemma while_nodes_rule n i s :
  Inv i s -> iter_at (k_mem s) iter o t i -> (i <= length (node_children t))%nat ->
  (length (node_children t) - i <= n)%nat ->
  wp (while_nodes fuel n iter next body) s (fun _ s' => Inv (length (node_children t)) s').
Proof.
  pose proof (length_offsets (children_start o t) (node_children t)) as Hl. fold (child_offsets o t) in Hl.
  revert i s. induction n as [|n IH]; intros i s Hi Hit Hle Hn;
    destruct (Hready i s Hi) as (Hbt & Hf & Hoff);
    destruct (node_counts s fdt root Hbt fuel Hf o t Ht) as (Hk & _ & _ & _ & _);
    (destruct (decide (i = length (node_children t))) as [Ei|Ei];
     [cbn [while_nodes]; eapply wp_done;
       [rewrite (bind_done _ _ _ _ _ (iterate_end fuel iter next s o t i Hit ltac:(lia) ltac:(lia))); reflexivity|by rewrite <- Ei]|]).
  { lia. }
  destruct (lookup_lt_is_Some_2 (child_offsets o t) i) as [o' Ho']; [lia|].
  destruct (lookup_lt_is_Some_2 (node_children t) i) as [t' Ht']; [lia|].
  pose proof (Forall_lookup_1 _ _ _ _ Hnames Ht') as Hlen. cbv beta in Hlen.
  destruct (iterate_step fdt root fuel iter next s o t i o' t' Hbt Hf Hoff Hap Hit Ht Ho' Ht' Hlen)
    as (m1 & E & Hn1 & Hit1 & Hs1).
  cbn [while_nodes]. apply wp_bind. eapply wp_done; [exact E|]. cbn [Z.eqb kDeviceTreeSuccess].
  apply wp_bind. eapply wp_mono.
  { apply (Hbody i (set_mem m1 s) o' t'); [|done..]. apply (Hkeep i s); [done|]. by apply quiet_set_mem. }
  intros [] s2 [Hi2 Hs2]. apply (IH (S i)); [done| |lia|lia].
  by apply (iter_at_frame m1).
Qed.
End While.

(** ** The frame of [machine_parse_cpu_topology] *)
Section Frame.
Context `{Symbols}.
Abbreviation var := (sym_local "machine_parse_cpu_topology").

(** Its automatic variables and the two arrays it fills. *)
Definition topology_frame : list (Z * nat) :=
  [(var "parent", 44%nat); (var "node", 44%nat); (var "iter", 96%nat); (var "subiter", 96%nat);
   (var "subnode", 44%nat); (var "cluster", 24%nat); (var "cpu", 16%nat); (var "cpu_node", 44%nat);
   (var "entry", 8%nat); (var "len", 4%nat); (sym_cpus, 256%nat); (sym_clusters, 96%nat)].
Definition in_frame : Z -> Prop := in_regions topology_frame.

Definition topology_literals : list (string * list Z) :=
  [("/cpus", str "/cpus"); ("cpu-map", str "cpu-map"); ("cpu", str "cpu");
   ("phandle", phandle_name); ("linux,phandle", linux_phandle_name)]%string.

(** What the code needs of memory: the tree, with its names, the literals, and the
    flag of the boot device tree; none of it is in the frame. *)
Record ready (fdt : Z) (root : dtree) (fuel : nat) (strs : Z -> list Z) (m : memory) : Prop := {
  rd_tree : boot_tree m fdt root;
  rd_fuel : enough m fdt fuel;
  rd_off : off_tree m fdt in_frame;
  rd_named : forall o t, (o, t) ∈ preorder 0 root -> named m fdt strs t;
  rd_literals : Forall (fun l => literal_at m fuel (fst l) (snd l)) topology_literals;
  rd_initialised : ld32 m BootDeviceTree_initialised = ROOT_DEVICE_TREE_INIT;
}.

(** Assumptions on addresses alone. *)
Record layout : Prop := {
  ly_apart : regions_apart topology_frame;
  ly_literals : Forall (fun l => forall x, within (sym_literal (fst l)) (S (length (snd l))) x -> ~ in_frame x)
    topology_literals;
  ly_initialised : forall x, within BootDeviceTree_initialised 4 x -> ~ in_frame x;
  ly_null : var "parent" <> NULL /\ var "node" <> NULL /\ sym_cpus > 0;
}.
Hypothesis Hlayout : layout.

Context (fdt : Z) (root : dtree) (fuel : nat) (strs : Z -> list Z).
Abbreviation ts := (tree_tokens root ++ [TEnd]).
Abbreviation Ready := (ready fdt root fuel strs).

(** The names of all nodes fit in a structure. *)
Hypothesis Hshort : forall o t, (o, t) ∈ preorder 0 root -> (length (node_name t) < 32)%nat.

Lemma ready_frame m m' : Ready m -> same_outside in_frame m m' -> Ready m'.
Proof.
  intros [Hbt Hf Hoff Hn Hl Hi] Hs. pose proof (same_image_outside _ _ fdt _ Hoff Hs) as Him. split.
  - by apply (boot_tree_frame m m' fdt root _ Hbt Hoff).
  - by apply (enough_frame m m').
  - by apply (off_tree_frame m m').
  - intros o t Hin. apply (named_frame m m' fdt Him). by apply (Hn o).
  - rewrite Forall_forall in Hl |- *. intros l Hin. destruct (Hl l Hin) as (Hp & Hc & Hle & Hlt).
    split; [done|]. split; [|done]. apply (cstr_untouched in_frame m); [done| |done].
    pose proof (ly_literals Hlayout) as HL. rewrite Forall_forall in HL. exact (HL l Hin).
  - rewrite <- Hi. apply (load_same_outside in_frame); [done|]. apply (ly_initialised Hlayout).
Qed.

Lemma ready_quiet R s s' : Ready (k_mem s) -> quiet R s s' -> (forall x, R x -> in_frame x) -> Ready (k_mem s').
Proof.
  intros Hr [Hs _] HR. eapply ready_frame; [exact Hr|]. eapply same_outside_mono; [|exact Hs]. exact HR.
Qed.

(** A region of the frame, by its position. *)
Lemma frame_region i a n x : topology_frame !! i = Some (a, n) -> within a n x -> in_frame x.
Proof. apply in_regions_lookup. Qed.
Lemma off_region m i a n : Ready m -> topology_frame !! i = Some (a, n) -> off_tree m fdt (within a n).
Proof. intros Hr Hi x Hx. apply (rd_off _ _ _ _ _ Hr). by apply (frame_region i a n). Qed.
Lemma frame_apart i j a n b k : i <> j ->
  topology_frame !! i = Some (a, n) -> topology_frame !! j = Some (b, k) -> apart a n b k.
Proof. intros Hne Hi Hj. exact (ly_apart Hlayout i j (a, n) (b, k) Hne Hi Hj). Qed.
Lemma apart_within a n b k x : apart a n b k -> within a n x -> ~ within b k x.
Proof. unfold apart, within. lia. Qed.

Lemma ready_literal m l str : Ready m -> (l, str) ∈ topology_literals -> literal_at m fuel l str.
Proof. intros Hr Hin. pose proof (rd_literals _ _ _ _ _ Hr) as HL. rewrite Forall_forall in HL. exact (HL _ Hin). Qed.

(** *** The lookups of a CPU

    They succeed or print a message, and write only their own variables. *)
Lemma lookup_cpu_prop s o t :
  Ready (k_mem s) -> (o, t) ∈ preorder 0 root ->
  wp (DeviceTreeLookupPropertyValue fuel o (sym_literal "cpu") (var "entry") (var "len")) s
    (fun _ s' => quiet (fun x => within (var "entry") 8 x \/ within (var "len") 4 x) s s').
Proof.
  intros Hr Hin. destruct (ready_literal _ "cpu" (str "cpu") Hr) as (Hp & Hc & Hl & Hl2); [set_solver|].
  pose proof (bt_tree _ _ _ (rd_tree _ _ _ _ _ Hr)) as He.
  pose proof (fuel_le s fdt fuel (rd_fuel _ _ _ _ _ Hr)) as Hf.
  pose proof (fdt_getprop_node (k_mem s) fdt root fuel strs o t _ (str "cpu") He Hf
    (preorder_at (k_mem s) fdt root He fuel Hf o t Hin) (rd_named _ _ _ _ _ Hr o t Hin) Hp Hc Hl2 Hl) as Hg.
  unfold DeviceTreeLookupPropertyValue. apply wp_bind.
  destruct (find_prop strs (str "cpu") _ _) as [[o' data]|].
  - destruct Hg as (Hg & _). eapply wp_done; [exact (on_tree_run s fdt root (rd_tree _ _ _ _ _ Hr) _ _ Hg)|].
    cbv beta iota. destruct (Z.ltb_spec (Z.of_nat (length data)) 0); [lia|]. do 2 wp_step.
    rewrite set_mem_set_mem. apply quiet_set_mem. apply same_outside_store; [by right|]. by apply same_outside_store; [left|].
  - eapply wp_done; [exact (on_tree_run s fdt root (rd_tree _ _ _ _ _ Hr) _ _ Hg)|]. done.
Qed.

Lemma find_phandle_in p o t : find_phandle root strs p = Some (o, t) -> (o, t) ∈ preorder 0 root.
Proof.
  unfold find_phandle. intros E. destruct (list_find _ _) as [[i n]|] eqn:El; [|done].
  simpl in E. injection E as ->. apply list_find_Some in El as (Hi & _). by eapply list_elem_of_lookup_2.
Qed.

Lemma lookup_cpu_node s p :
  Ready (k_mem s) -> is_u32 p ->
  wp (DeviceTreeLookupNodeByPhandle fuel p (var "cpu_node")) s
    (fun _ s' => quiet (within (var "cpu_node") 44) s s').
Proof.
  intros Hr Hp. pose proof (rd_tree _ _ _ _ _ Hr) as Hbt. pose proof (bt_tree _ _ _ Hbt) as He.
  pose proof (fuel_le s fdt fuel (rd_fuel _ _ _ _ _ Hr)) as Hf.
  unfold DeviceTreeLookupNodeByPhandle. rewrite u32_id by done. apply wp_bind.
  destruct (decide (p = 0 \/ p = 2 ^ 32 - 1)) as [Hbad|Hgood].
  { eapply wp_done; [apply (on_tree_run s fdt root Hbt _ (- FDT_ERR_BADPHANDLE))|done].
    unfold fdt_node_offset_by_phandle. destruct Hbad as [->| ->]; done. }
  eapply wp_done; [apply (on_tree_run s fdt root Hbt); apply (fdt_node_offset_by_phandle_run (k_mem s) fdt root He fuel Hf strs p);
    [apply (rd_named _ _ _ _ _ Hr)|apply (ready_literal _ _ _ Hr); set_solver|apply (ready_literal _ _ _ Hr); set_solver|tauto|tauto]|].
  destruct (find_phandle root strs p) as [[o t]|] eqn:Ef; [|done]. cbn [found].
  pose proof (preorder_at (k_mem s) fdt root He fuel Hf o t (find_phandle_in _ _ _ Ef)) as Ht.
  destruct (node_counts s fdt root Hbt fuel (rd_fuel _ _ _ _ _ Hr) o t Ht) as (_ & _ & _ & _ & Ho).
  destruct (Z.ltb_spec o 0); [lia|].
  destruct (node_name_at (k_mem s) fdt root fuel o t He Hf Ht) as (a & Eg & Hc & Hin).
  apply wp_bind. eapply wp_done; [exact (on_tree_run s fdt root Hbt _ _ Eg)|]. cbv beta iota.
  destruct (set_offset_fill_run fdt root fuel (var "cpu_node") s o t a Hbt (rd_fuel _ _ _ _ _ Hr))
    as (m' & E & _ & Hs); try done.
  - exact (off_region _ 7 (var "cpu_node") 44 Hr eq_refl).
  - apply (Hshort o). by apply (find_phandle_in p).
  - eapply wp_done; [exact E|]. by apply quiet_set_mem.
Qed.
(** The fuel exceeds the length of every name. *)
Lemma name_fuel m o t : Ready m -> (o, t) ∈ preorder 0 root -> (length (node_name t) + 8 < fuel)%nat.
Proof.
  intros Hr Hin. pose proof (bt_tree _ _ _ (rd_tree _ _ _ _ _ Hr)) as He. pose proof (rd_fuel _ _ _ _ _ Hr) as Hfu.
  destruct (preorder_at m fdt root He fuel ltac:(unfold enough in Hfu; lia) o t Hin) as (l1 & l2 & E & Hne & _).
  pose proof (blob_size _ _ _ He) as [Hs1 Hs2]. destruct t as [name props children]. cbn [node_name].
  rewrite E, tree_tokens_eq in Hs1. rewrite !size_app in Hs1. cbn [size token_size] in Hs1.
  rewrite !size_app in Hs1. pose proof (size_nonneg l1). pose proof (size_nonneg l2).
  pose proof (size_nonneg (map prop_token props)). pose proof (size_nonneg (forest_tokens children)).
  pose proof (up4_range (Z.of_nat (length name) + 1)). cbn [size token_size] in *. unfold enough in Hfu. lia.
Qed.

(** *** Parts of the frame, by the positions of their regions *)
Definition frame_regions : list (Z -> Prop) := (fun r => within (fst r) (snd r)) <$> topology_frame.
Definition frame_part : list nat -> Z -> Prop := part frame_regions.

Lemma frame_region_at j P :
  frame_regions !! j = Some P <-> exists a n, topology_frame !! j = Some (a, n) /\ P = within a n.
Proof.
  unfold frame_regions. rewrite list_lookup_fmap. destruct (topology_frame !! j) as [[a n]|]; cbn; split.
  - intros [= <-]. by exists a, n.
  - by intros (? & ? & [= <- <-] & ->).
  - done.
  - by intros (? & ? & ? & ?).
Qed.
Lemma frame_disjoint : regions_disjoint frame_regions.
Proof.
  intros i j P Q x Hne (a & n & Hi & ->)%frame_region_at (b & k & Hj & ->)%frame_region_at.
  by apply apart_within, (frame_apart i j).
Qed.
Lemma frame_part_frame l x : frame_part l x -> in_frame x.
Proof. intros (j & P & _ & (a & n & Hj & ->)%frame_region_at & Hx). by apply (frame_region j a n). Qed.
Lemma frame_part_mono l l' x : part_sub l l' = true -> frame_part l x -> frame_part l' x.
Proof. apply part_mono. Qed.
Lemma frame_part_region l j a n x :
  topology_frame !! j = Some (a, n) -> existsb (Nat.eqb j) l = true -> within a n x -> frame_part l x.
Proof. intros Hj. apply part_region, frame_region_at. by exists a, n. Qed.
Lemma frame_part_off l j a n x :
  topology_frame !! j = Some (a, n) -> existsb (Nat.eqb j) l = false -> within a n x -> ~ frame_part l x.
Proof.
  intros Hj Hl Hx. apply (part_off frame_regions [j]); [apply frame_disjoint|by cbn; rewrite Hl|].
  apply (frame_part_region _ j a n); [done| |done]. cbn. by rewrite Nat.eqb_refl.
Qed.

(** Stores in a part of the frame, and loads from the rest. *)
Lemma frame_part_store l j a n m m' b k v :
  topology_frame !! j = Some (a, n) -> existsb (Nat.eqb j) l = true -> a <= b -> b + Z.of_nat k <= a + Z.of_nat n ->
  same_outside (frame_part l) m m' -> same_outside (frame_part l) m (store k m' b v).
Proof.
  intros Hj Hl H1 H2 Hs. apply same_outside_store; [|done]. intros x Hx.
  apply (frame_part_region l j a n); [done..|]. unfold within in *. lia.
Qed.
Lemma frame_part_copy l j a n m m1 d p k m' :
  topology_frame !! j = Some (a, n) -> existsb (Nat.eqb j) l = true -> a <= d -> d + Z.of_nat k <= a + Z.of_nat n ->
  copied m1 d p k m' -> same_outside (frame_part l) m m1 -> same_outside (frame_part l) m m'.
Proof.
  intros Hj Hl H1 H2 Hc Hs. eapply same_outside_trans; [exact Hs|].
  eapply same_outside_mono; [|apply (copied_same_outside _ _ _ _ _ Hc)]. intros x Hx.
  apply (frame_part_region l j a n); [done..|]. unfold within in *. lia.
Qed.
Lemma frame_part_load l j a n m m' b k :
  topology_frame !! j = Some (a, n) -> existsb (Nat.eqb j) l = false -> a <= b -> b + Z.of_nat k <= a + Z.of_nat n ->
  same_outside (frame_part l) m m' -> load k m' b = load k m b.
Proof.
  intros Hj Hl H1 H2 Hs. apply (load_same_outside (frame_part l)); [done|]. intros x Hx.
  apply (frame_part_off l j a n); [done..|]. unfold within in *. lia.
Qed.
(** A structure assignment between two regions. *)
Lemma frame_part_assign i j a n b k m d p c :
  i <> j -> topology_frame !! i = Some (a, n) -> topology_frame !! j = Some (b, k) ->
  (0 < c)%nat -> a <= d -> d + Z.of_nat c <= a + Z.of_nat n -> b <= p -> p + Z.of_nat c <= b + Z.of_nat k ->
  copied m d p c (memcpy m d p c).
Proof.
  intros Hne Hi Hj. pose proof (frame_apart i j a n b k Hne Hi Hj) as Hap. unfold apart in Hap.
  intros. apply memcpy_copied. lia.
Qed.

(** ** The entries *)
Definition cpu_entry (m : memory) (a : Z) (j c : nat) : Prop :=
  ld32 m (topology_cpu_phys_id a) = 0 /\ ld32 m (topology_cpu_id a) = Z.of_nat j /\
  ld32 m (topology_cpu_cluster_id a) = Z.of_nat c.
Definition cluster_entry (m : memory) (a : Z) (i k : nat) : Prop :=
  ld32 m (topology_cluster_id a) = Z.of_nat i /\ ld32 m (topology_cluster_num_cpus a) = Z.of_nat k.

(** The topology recorded so far: the CPU [j] is in the cluster [cs !! j], and the
    cluster [i] has [ks !! i] CPUs; [s0] is the state at the start, [boot] the number of
    the boot CPU. *)
Record topo (s0 : kstate) (boot : nat) (cs ks : list nat) (s : kstate) : Prop := {
  tp_num_cpus : k_glob s topology_num_cpus = Z.of_nat (length cs);
  tp_num_clusters : k_glob s topology_num_clusters = Z.of_nat (length ks);
  tp_max_cpu : k_glob s topology_max_cpu_id = Z.max (k_glob s0 topology_max_cpu_id) (Z.of_nat (length cs) - 1);
  tp_max_cluster : k_glob s topology_max_cluster_id =
    Z.max (k_glob s0 topology_max_cluster_id) (Z.of_nat (length ks) - 1);
  tp_boot_cpu : k_glob s topology_boot_cpu =
    (if cs !! boot is Some _ then topology_cpu_at sym_cpus (Z.of_nat boot) else k_glob s0 topology_boot_cpu);
  tp_boot_cluster : k_glob s topology_boot_cluster =
    (if cs !! boot is Some c then topology_cluster_at sym_clusters (Z.of_nat c) else k_glob s0 topology_boot_cluster);
  tp_cpus : forall j c, cs !! j = Some c ->
    cpu_entry (k_mem s) (topology_cpu_at sym_cpus (Z.of_nat j)) j c;
  tp_clusters : forall i k, ks !! i = Some k ->
    cluster_entry (k_mem s) (topology_cluster_at sym_clusters (Z.of_nat i)) i k;
}.

Lemma cpu_entry_part l m m' j c :
  existsb (Nat.eqb 10) l = false -> (j < 16)%nat -> same_outside (frame_part l) m m' ->
  cpu_entry m (topology_cpu_at sym_cpus (Z.of_nat j)) j c -> cpu_entry m' (topology_cpu_at sym_cpus (Z.of_nat j)) j c.
Proof.
  intros Hl Hj Hs (H1 & H2 & H3).
  refine (conj (eq_trans _ H1) (conj (eq_trans _ H2) (eq_trans _ H3))); apply (frame_part_load l 10 sym_cpus 256 m m' _ 4 eq_refl Hl); try done;
    unfold topology_cpu_phys_id, topology_cpu_id, topology_cpu_cluster_id, topology_cpu_at, TOPOLOGY_CPU_SIZEOF; lia.
Qed.
Lemma cpu_entry_load m b m' a j c :
  (forall x, 0 <= x <= 8 -> ld32 m' (a + x) = ld32 m (b + x)) -> cpu_entry m b j c -> cpu_entry m' a j c.
Proof.
  intros Hx (H1 & H2 & H3). unfold cpu_entry, topology_cpu_phys_id, topology_cpu_id, topology_cpu_cluster_id in *.
  rewrite !Hx by lia. pose proof (Hx 0 ltac:(lia)) as H0. rewrite !Z.add_0_r in H0. by rewrite H0.
Qed.
Lemma lookup_snoc_if {A} (l : list A) x i :
  (l ++ [x]) !! i = if decide (length l = i) then Some x else l !! i.
Proof.
  case_decide as Hd; [subst i; by apply list_lookup_middle|]. destruct (decide (i < length l)%nat).
  - by rewrite lookup_app_l.
  - rewrite (lookup_ge_None_2 l) by lia. apply lookup_ge_None_2. rewrite length_app. simpl. lia.
Qed.
Lemma cluster_entry_part l m m' i k :
  existsb (Nat.eqb 11) l = false -> (i < 4)%nat -> same_outside (frame_part l) m m' ->
  cluster_entry m (topology_cluster_at sym_clusters (Z.of_nat i)) i k ->
  cluster_entry m' (topology_cluster_at sym_clusters (Z.of_nat i)) i k.
Proof.
  intros Hl Hj Hs (H1 & H2).
  refine (conj (eq_trans _ H1) (eq_trans _ H2)); apply (frame_part_load l 11 sym_clusters 96 m m' _ 4 eq_refl Hl); try done;
    unfold topology_cluster_id, topology_cluster_num_cpus, topology_cluster_at, TOPOLOGY_CLUSTER_SIZEOF; lia.
Qed.

Lemma topo_quiet l s0 boot cs ks s s' :
  existsb (Nat.eqb 10) l = false -> existsb (Nat.eqb 11) l = false -> (length cs <= 16)%nat -> (length ks <= 4)%nat ->
  quiet (frame_part l) s s' -> topo s0 boot cs ks s -> topo s0 boot cs ks s'.
Proof.
  intros Hl1 Hl2 H1 H2 (Hs & Hg & _) [? ? ? ? ? ? Hc Hk]. split; rewrite ?Hg; try done.
  - intros j c Hj. apply lookup_lt_Some in Hj as ?. apply (cpu_entry_part l (k_mem s)); [done|lia|done|by apply Hc].
  - intros i k Hi. apply lookup_lt_Some in Hi as ?. apply (cluster_entry_part l (k_mem s)); [done|lia|done|by apply Hk].
Qed.

Lemma short_children o t : (o, t) ∈ preorder 0 root -> short_names t.
Proof.
  intros Hin. apply Forall_lookup_2. intros i c Hc.
  pose proof (length_offsets (children_start o t) (node_children t)) as Hl. fold (child_offsets o t) in Hl.
  destruct (lookup_lt_is_Some_2 (child_offsets o t) i) as [o' Ho']; [apply lookup_lt_Some in Hc; lia|].
  apply (Hshort o'). by apply (preorder_child 0 root o t i).
Qed.

(** The loop that looks for the map. *)
Lemma match_cpu_map_run s o t po pt :
  Ready (k_mem s) -> (o, t) ∈ preorder 0 root -> (po, pt) ∈ preorder 0 root ->
  dtnode_at (k_mem s) (var "node") o t -> dtnode_at (k_mem s) (var "parent") po pt ->
  wp (match_cpu_map fuel (var "parent") (var "node")) s (fun _ s' =>
    quiet (frame_part [0]%nat) s s' /\
    dtnode_at (k_mem s') (var "parent") (fst (pick_map (po, pt) (o, t))) (snd (pick_map (po, pt) (o, t)))).
Proof.
  intros Hr Hin Hpin Hn Hp. destruct (ready_literal _ "cpu-map" (str "cpu-map") Hr) as (_ & Hc & Hl & _); [set_solver|].
  pose proof (Hshort o t Hin) as Hlen. pose proof (dn_name _ _ _ _ Hn) as Hcn.
  unfold match_cpu_map. wp_step. 
  pose proof (name_fuel _ o t Hr Hin) as Hlf.
  assert (Hd : strcmp fuel (k_mem s) (dtnode_name (var "node")) (sym_literal "cpu-map") =
    Some (str_diff (node_name t) (str "cpu-map"))).
  { apply strcmp_diff; [done|done|lia]. }
  rewrite Hd. cbn [with_fuel]. wp_step.
  pose proof (str_diff_zero (node_name t) (str "cpu-map") (proj2 Hcn) (proj2 Hc)) as Hz.
  unfold pick_map. cbn [fst snd].
  destruct (Z.eqb_spec (str_diff (node_name t) (str "cpu-map")) 0) as [E|E]; cbn [when].
  - rewrite decide_True by (by apply Hz). cbn [fst snd]. cbv beta delta [struct_assign upd_mem] iota.
    rewrite set_mem_mem. change (Z.to_nat DTNODE_SIZEOF) with 44%nat.
    assert (Hcp : copied (k_mem s) (var "parent") (var "node") 44 (memcpy (k_mem s) (var "parent") (var "node") 44)).
    { apply (frame_part_assign 0 1 (var "parent") 44 (var "node") 44); try done; lia. }
    split; [|by apply (dtnode_copied (k_mem s) (var "parent") (var "node"))].
    apply quiet_set_mem. apply (frame_part_copy _ 0 (var "parent") 44 _ (k_mem s) (var "parent") (var "node") 44); try done; lia.
  - rewrite decide_False by tauto. done.
Qed.

Definition map_inv (s : kstate) (o : Z) (t : dtree) (i : nat) (s' : kstate) : Prop :=
  quiet (frame_part [0; 1; 2]%nat) s s' /\
  dtnode_at (k_mem s') (var "parent") (fst (cpu_map_from o t i)) (snd (cpu_map_from o t i)) /\
  (i <= length (node_children t))%nat.

Lemma cpu_map_in o t i :
  (o, t) ∈ preorder 0 root -> (i <= length (node_children t))%nat -> cpu_map_from o t i ∈ preorder 0 root.
Proof.
  intros Hin. pose proof (length_offsets (children_start o t) (node_children t)) as Hl. fold (child_offsets o t) in Hl.
  induction i as [|i IH]; intros Hi; [done|].
  destruct (lookup_lt_is_Some_2 (child_offsets o t) i) as [o' Ho']; [lia|].
  destruct (lookup_lt_is_Some_2 (node_children t) i) as [t' Ht']; [lia|].
  rewrite (cpu_map_from_S o t i o' t' Ho' Ht'). unfold pick_map. case_decide; [|apply IH; lia].
  by apply (preorder_child 0 root o t i).
Qed.

Lemma map_loop s o t s1 :
  Ready (k_mem s) -> (o, t) ∈ preorder 0 root -> tree_at ts o t -> (length (node_children t) <= fuel)%nat ->
  map_inv s o t 0 s1 -> iter_at (k_mem s1) (var "iter") o t 0 ->
  wp (while_nodes fuel fuel (var "iter") (var "node") (match_cpu_map fuel (var "parent") (var "node"))) s1
    (fun _ s' => map_inv s o t (length (node_children t)) s').
Proof.
  intros Hr Hin Ht Hf Hi Hit.
  assert (Hrdy : forall i s', map_inv s o t i s' -> Ready (k_mem s')).
  { intros i s' [Hq _]. apply (ready_quiet _ s s' Hr Hq), frame_part_frame. }
  refine (while_nodes_rule fdt root fuel (var "iter") (var "node") o t _ Ht (short_children o t Hin)
    (map_inv s o t) _ (frame_part [0]%nat) _ _ _ _ fuel 0 s1 Hi Hit _ _); [| | | | |lia|lia].
  - intros x Hx. by apply (apart_within _ _ _ _ x (frame_apart 1 2 (var "node") 44 (var "iter") 96 ltac:(done) eq_refl eq_refl)).
  - intros j s2 Hj. apply Hrdy in Hj as Hr2. split; [apply (rd_tree _ _ _ _ _ Hr2)|].
    split; [apply (rd_fuel _ _ _ _ _ Hr2)|]. intros x Hx. apply (rd_off _ _ _ _ _ Hr2).
    destruct Hx as [Hx|Hx]; [by apply (frame_region 2 (var "iter") 96)|by apply (frame_region 1 (var "node") 44)].
  - intros j s2 s3 (Hq & Hd & Hl) Hq3.
    assert (Hq' : quiet (frame_part [1; 2]%nat) s2 s3).
    { eapply quiet_mono; [|exact Hq3]. intros x [Hx|Hx];
        [by apply (frame_part_region _ 2 (var "iter") 96)|by apply (frame_part_region _ 1 (var "node") 44)]. }
    split; [|split; [|done]].
    + eapply quiet_trans; [exact Hq|]. eapply quiet_mono; [|exact Hq']. intros x. by apply frame_part_mono.
    + pose proof (cpu_map_in o t j Hin Hl) as Hpin. destruct (cpu_map_from o t j) as [po pt].
      apply (dtnode_frame (frame_part [1; 2]%nat) (k_mem s2)); [apply Hq'| |by apply (Hshort po)|done].
      intros x Hx. by apply (frame_part_off _ 0 (var "parent") 44).
  - intros j s2 o' t' (Hq & Hd & Hl) Ho' Ht' Hn'. apply lookup_lt_Some in Ht' as ?.
    pose proof (cpu_map_in o t j Hin ltac:(lia)) as Hpin. destruct (cpu_map_from o t j) as [po pt] eqn:Ep.
    eapply wp_mono; [apply (match_cpu_map_run s2 o' t' po pt)|].
    + apply (ready_quiet _ s s2 Hr Hq), frame_part_frame.
    + by apply (preorder_child 0 root o t j).
    + done.
    + done.
    + done.
    + intros [] s3 [Hq3 Hd3]. split; [split; [|split; [|lia]]|apply Hq3].
      * eapply quiet_trans; [exact Hq|]. eapply quiet_mono; [|exact Hq3]. intros x. by apply frame_part_mono.
      * by rewrite (cpu_map_from_S o t j o' t' Ho' Ht'), Ep.
  - intros x Hx Hx'. revert Hx. by apply (frame_part_off _ 2 (var "iter") 96).
Qed.

(** ** The loops *)
Context (s0 : kstate) (boot : nat).
Hypothesis Hboot : Z.of_nat boot < 2 ^ 31.
Abbreviation Topo := (topo s0 boot).
Definition cpu_part : list nat := [5; 6; 7; 8; 9; 10]%nat.

(** The number of the CPU and the cluster, before the lookups. *)
Lemma parse_cpu_start (n c : nat) k s :
  k_glob s topology_num_cpus = Z.of_nat n -> (n < 16)%nat -> (c < 4)%nat ->
  cluster_entry (k_mem s) (var "cluster") c k ->
  exists m', same_outside (frame_part [6]%nat) (k_mem s) m' /\
    ld32 m' (topology_cpu_id (var "cpu")) = Z.of_nat n /\ ld32 m' (topology_cpu_cluster_id (var "cpu")) = Z.of_nat c /\
    forall Q (f : Z -> M unit),
    wp (f (Z.max (k_glob s topology_max_cpu_id) (Z.of_nat n))) (set_mem m' s) Q ->
    wp (let! num_cpus := get topology_num_cpus in
        st 4 (topology_cpu_id (var "cpu")) num_cpus ;!
        let! id := ld 4 (topology_cluster_id (var "cluster")) in
        st 4 (topology_cpu_cluster_id (var "cpu")) id ;!
        let! max := get topology_max_cpu_id in
        let! id := ld 4 (topology_cpu_id (var "cpu")) in f (Z.max max id)) s Q.
Proof.
  intros Hn Hn16 Hc4 [Hc _].
  set (m1 := st32 (k_mem s) (topology_cpu_id (var "cpu")) (Z.of_nat n)).
  set (m2 := st32 m1 (topology_cpu_cluster_id (var "cpu")) (Z.of_nat c)).
  assert (Hs1 : same_outside (frame_part [6]%nat) (k_mem s) m1).
  { apply (frame_part_store [6]%nat 6 (var "cpu") 16); try done; unfold topology_cpu_id; lia. }
  assert (Hs2 : same_outside (frame_part [6]%nat) (k_mem s) m2).
  { apply (frame_part_store [6]%nat 6 (var "cpu") 16); try done; unfold topology_cpu_cluster_id; lia. }
  assert (Hid : ld32 m2 (topology_cpu_id (var "cpu")) = Z.of_nat n).
  { unfold m2. rewrite load_store_apart by (unfold apart, topology_cpu_id, topology_cpu_cluster_id; lia).
    unfold m1. rewrite ld32_st32_eq. apply u32_id. lia. }
  exists m2. split; [done|]. split; [done|]. split; [unfold m2; rewrite ld32_st32_eq; apply u32_id; lia|].
  intros Q f Hf. do 3 wp_step. rewrite Hn. fold m1. fold (ld32 m1 (topology_cluster_id (var "cluster"))).
  rewrite (frame_part_load [6]%nat 5 (var "cluster") 24 (k_mem s) m1 _ 4 eq_refl eq_refl), Hc
    by (done || unfold topology_cluster_id; lia).
  do 3 wp_step. rewrite !set_mem_set_mem. fold m2. rewrite Hid. exact Hf.
Qed.

(** The lookups, whose results do not matter, and the physical number. *)
Lemma parse_cpu_lookups s o t (f : M unit) Q :
  Ready (k_mem s) -> (o, t) ∈ preorder 0 root -> ld32 (k_mem s) (dtnode_offset (var "subnode")) = o ->
  (forall s', quiet (frame_part [6; 7; 8; 9]%nat) s s' ->
    ld32 (k_mem s') (topology_cpu_phys_id (var "cpu")) = 0 ->
    ld32 (k_mem s') (topology_cpu_id (var "cpu")) = ld32 (k_mem s) (topology_cpu_id (var "cpu")) ->
    ld32 (k_mem s') (topology_cpu_cluster_id (var "cpu")) = ld32 (k_mem s) (topology_cpu_cluster_id (var "cpu")) ->
    wp f s' Q) ->
  wp (let! offset := ld 4 (dtnode_offset (var "subnode")) in
      let! _ := DeviceTreeLookupPropertyValue fuel (s32 offset) (sym_literal "cpu") (var "entry") (var "len") in
      let! entry := ld 8 (var "entry") in
      let! phandle := ld 4 entry in
      let! _ := DeviceTreeLookupNodeByPhandle fuel (bswap_32 phandle) (var "cpu_node") in
      let! offset := ld 4 (dtnode_offset (var "cpu_node")) in
      let! phys_id := machine_read_prop (s32 offset) (sym_literal "reg") in
      st 4 (topology_cpu_phys_id (var "cpu")) (u32 phys_id) ;! f) s Q.
Proof.
  intros Hr Hin Ho Hf. pose proof (rd_tree _ _ _ _ _ Hr) as Hbt. pose proof (bt_tree _ _ _ Hbt) as He.
  pose proof (rd_fuel _ _ _ _ _ Hr) as Hfu.
  pose proof (preorder_at (k_mem s) fdt root He fuel (fuel_le s fdt fuel Hfu) o t Hin) as Ht.
  destruct (node_counts s fdt root Hbt fuel Hfu o t Ht) as (_ & _ & _ & _ & Hor).
  wp_step. fold (ld32 (k_mem s) (dtnode_offset (var "subnode"))). rewrite Ho, s32_id by lia.
  apply wp_bind. eapply wp_mono; [apply (lookup_cpu_prop s o t Hr Hin)|]. intros r1 s1 Hq1.
  assert (Hq1' : quiet (frame_part [6; 7; 8; 9]%nat) s s1).
  { eapply quiet_mono; [|exact Hq1]. intros x [Hx|Hx];
      [by apply (frame_part_region _ 8 (var "entry") 8)|by apply (frame_part_region _ 9 (var "len") 4)]. }
  assert (Hr1 : Ready (k_mem s1)) by (apply (ready_quiet _ s s1 Hr Hq1'), frame_part_frame).
  do 2 wp_step. apply wp_bind.
  eapply wp_mono; [apply (lookup_cpu_node s1 _ Hr1), u32_range|]. intros r2 s2 Hq2.
  assert (Hq : quiet (frame_part [7; 8; 9]%nat) s s2).
  { apply (quiet_trans _ s s1 s2); [eapply quiet_mono; [|exact Hq1]|eapply quiet_mono; [|exact Hq2]].
    - intros x [Hx|Hx]; [by apply (frame_part_region _ 8 (var "entry") 8)|by apply (frame_part_region _ 9 (var "len") 4)].
    - intros x Hx. by apply (frame_part_region _ 7 (var "cpu_node") 44). }
  wp_step. unfold machine_read_prop. do 2 wp_step. change (u32 0) with 0.
  assert (Hk : forall a, var "cpu" + 4 <= a -> a + 4 <= var "cpu" + 16 ->
    ld32 (st32 (k_mem s2) (topology_cpu_phys_id (var "cpu")) 0) a = ld32 (k_mem s) a).
  { intros a H1 H2. rewrite load_store_apart by (unfold apart, topology_cpu_phys_id; lia).
    apply (frame_part_load [7; 8; 9]%nat 6 (var "cpu") 16); first [done|lia|apply Hq]. }
  apply Hf.
  - destruct Hq as (Hs & Hg). split; [|exact Hg]. rewrite set_mem_mem.
    apply (frame_part_store _ 6 (var "cpu") 16); try done; unfold topology_cpu_phys_id; try lia.
    eapply same_outside_mono; [|exact Hs]. intros x. by apply frame_part_mono.
  - rewrite set_mem_mem. by rewrite ld32_st32_eq.
  - apply Hk; unfold topology_cpu_id; lia.
  - apply Hk; unfold topology_cpu_cluster_id; lia.
Qed.

(** The entry is stored in the array and counted. *)
Lemma topo_add_cpu cs ks k s s' m' :
  Topo cs ks s -> (length cs < 16)%nat -> (length ks < 4)%nat ->
  k_glob s' topology_max_cpu_id = Z.max (k_glob s topology_max_cpu_id) (Z.of_nat (length cs)) ->
  (forall g, g <> topology_max_cpu_id -> k_glob s' g = k_glob s g) ->
  same_outside (frame_part [6; 7; 8; 9]%nat) (k_mem s) (k_mem s') ->
  cpu_entry (k_mem s') (var "cpu") (length cs) (length ks) ->
  cluster_entry (k_mem s) (var "cluster") (length ks) k ->
  m' = st32 (memcpy (k_mem s') (topology_cpu_at sym_cpus (Z.of_nat (length cs))) (var "cpu") 16)
    (topology_cluster_num_cpus (var "cluster")) (Z.of_nat k + 1) -> (k < 16)%nat ->
  same_outside (frame_part cpu_part) (k_mem s) m' /\
  cluster_entry m' (var "cluster") (length ks) (S k) /\
  forall s2, k_mem s2 = m' -> k_glob s2 topology_num_cpus = Z.of_nat (length cs) + 1 ->
    (forall g, g <> topology_num_cpus -> g <> topology_boot_cpu -> g <> topology_boot_cluster ->
      k_glob s2 g = k_glob s' g) ->
    (if decide (length cs = boot) then
      k_glob s2 topology_boot_cpu = topology_cpu_at sym_cpus (Z.of_nat (length cs)) /\
      k_glob s2 topology_boot_cluster = topology_cluster_at sym_clusters (Z.of_nat (length ks))
     else k_glob s2 topology_boot_cpu = k_glob s topology_boot_cpu /\
      k_glob s2 topology_boot_cluster = k_glob s topology_boot_cluster) ->
    Topo (cs ++ [length ks]) ks s2.
Proof.
  intros Ht H16 H4 Hmax Hg Hs Hc Hl -> Hk. set (d := topology_cpu_at sym_cpus (Z.of_nat (length cs))).
  assert (Hcp : copied (k_mem s') d (var "cpu") 16 (memcpy (k_mem s') d (var "cpu") 16)).
  { apply (frame_part_assign 10 6 sym_cpus 256 (var "cpu") 16); try done;
      unfold d, topology_cpu_at, TOPOLOGY_CPU_SIZEOF; lia. }
  set (m1 := memcpy (k_mem s') d (var "cpu") 16) in *.
  set (m2 := st32 m1 (topology_cluster_num_cpus (var "cluster")) (Z.of_nat k + 1)).
  assert (Hs1 : same_outside (frame_part [6; 7; 8; 9; 10]%nat) (k_mem s) m1).
  { apply (frame_part_copy _ 10 sym_cpus 256 _ (k_mem s') d (var "cpu") 16); try done;
      [unfold d, topology_cpu_at, TOPOLOGY_CPU_SIZEOF; lia..|].
    eapply same_outside_mono; [|exact Hs]. intros x. by apply frame_part_mono. }
  assert (Hs12 : same_outside (frame_part [5]%nat) m1 m2).
  { apply (frame_part_store _ 5 (var "cluster") 24); try done; unfold topology_cluster_num_cpus; lia. }
  split; [|split; [split|]].
  - eapply same_outside_trans; (eapply same_outside_mono; [|eassumption]); intros x; by apply frame_part_mono.
  - unfold m2. rewrite load_store_apart by (unfold apart, topology_cluster_num_cpus, topology_cluster_id; lia).
    etransitivity; [|apply Hl]. apply (frame_part_load [6; 7; 8; 9; 10]%nat 5 (var "cluster") 24);
      try done; unfold topology_cluster_id; lia.
  - unfold m2. rewrite ld32_st32_eq, u32_id by lia. lia.
  - intros s2 Em Hn Hg2 Hb. destruct Ht as [T1 T2 T3 T4 T5 T6 T7 T8]. split.
    + rewrite Hn, length_app. simpl. lia.
    + by rewrite Hg2, Hg, T2.
    + rewrite Hg2, Hmax, T3, length_app by done. simpl. lia.
    + by rewrite Hg2, Hg, T4.
    + rewrite lookup_snoc_if. case_decide as Hd; [|by rewrite (proj1 Hb), T5].
      rewrite (proj1 Hb). unfold d. by rewrite Hd.
    + rewrite lookup_snoc_if. case_decide as Hd; [|by rewrite (proj2 Hb), T6].
      by rewrite (proj2 Hb).
    + rewrite Em. intros j c. rewrite lookup_snoc_if. destruct (decide (length cs = j)) as [Hd|Hd].
      * intros [= <-]. rewrite <- Hd. apply (cpu_entry_part [5]%nat m1); [done|lia|done|].
        apply (cpu_entry_load (k_mem s') (var "cpu")); [|done]. intros x Hx. apply (copied_load _ _ _ _ _ 4 x Hcp); lia.
      * intros Hj. apply lookup_lt_Some in Hj as ?. apply (cpu_entry_part [5]%nat m1); [done|lia|done|].
        apply (cpu_entry_load (k_mem s') (topology_cpu_at sym_cpus (Z.of_nat j))).
        -- intros x Hx. apply (load_same_outside _ _ _ _ _ (copied_same_outside _ _ _ _ _ Hcp)).
           unfold within, d, topology_cpu_at, TOPOLOGY_CPU_SIZEOF. lia.
        -- apply (cpu_entry_part [6; 7; 8; 9]%nat (k_mem s)); [done|lia|done|by apply T7].
    + rewrite Em. intros i c Hi. apply lookup_lt_Some in Hi as ?.
      apply (cluster_entry_part cpu_part (k_mem s)); [done|lia| |by apply T8].
      eapply same_outside_trans; (eapply same_outside_mono; [|eassumption]); intros x; by apply frame_part_mono.
Qed.

Lemma parse_cpu_run cs ks k s o t :
  Ready (k_mem s) -> Topo cs ks s -> (length cs < 16)%nat -> (length ks < 4)%nat -> (k < 16)%nat ->
  cluster_entry (k_mem s) (var "cluster") (length ks) k -> (o, t) ∈ preorder 0 root ->
  dtnode_at (k_mem s) (var "subnode") o t ->
  wp (parse_cpu fuel (Z.of_nat boot) (var "cluster") (var "subnode")) s (fun _ s' =>
    Ready (k_mem s') /\ Topo (cs ++ [length ks]) ks s' /\
    cluster_entry (k_mem s') (var "cluster") (length ks) (S k) /\
    same_outside (frame_part cpu_part) (k_mem s) (k_mem s')).
Proof.
  intros Hr Ht H16 H4 Hk Hc Hin Hn. pose proof (dn_offset _ _ _ _ Hn) as Ho.
  destruct (parse_cpu_start (length cs) (length ks) k s (tp_num_cpus _ _ _ _ _ Ht) H16 H4 Hc)
    as (m1 & Hs1 & Hid & Hcl & Hstart).
  refine (Hstart _ (fun z => put topology_max_cpu_id z ;! _) _). wp_step.
  set (s1 := set_glob _ _ _).
  assert (Hr1 : Ready (k_mem s1)).
  { apply (ready_frame (k_mem s)); [done|]. eapply same_outside_mono; [|exact Hs1]. apply frame_part_frame. }
  apply (parse_cpu_lookups s1 o t); [done|done| |].
  { rewrite <- Ho. apply (frame_part_load [6]%nat 4 (var "subnode") 44 (k_mem s) m1); try done; unfold dtnode_offset; lia. }
  intros s2 (Hs2 & Hg2 & _) Hp2 Hid2 Hcl2.
  change (k_mem s1) with m1 in *. rewrite Hid in Hid2. rewrite Hcl in Hcl2.
  assert (Hs02 : same_outside (frame_part [6; 7; 8; 9]%nat) (k_mem s) (k_mem s2)).
  { eapply same_outside_trans; [|exact Hs2]. eapply same_outside_mono; [|exact Hs1]. intros x. by apply frame_part_mono. }
  wp_step. fold (ld32 (k_mem s2) (topology_cpu_id (var "cpu"))). rewrite Hid2.
  rewrite u32_id by lia.
  assert (Hg20 : forall g, g <> topology_max_cpu_id -> k_glob s2 g = k_glob s g).
  { intros g Hne. rewrite Hg2. unfold s1. by rewrite set_glob_ne. }
  set (d := topology_cpu_at sym_cpus (Z.of_nat (length cs))).
  assert (Hk2 : ld32 (memcpy (k_mem s2) d (var "cpu") 16) (topology_cluster_num_cpus (var "cluster")) = Z.of_nat k).
  { etransitivity; [|apply Hc].
    apply (frame_part_load [6; 7; 8; 9; 10]%nat 5 (var "cluster") 24); try done; unfold topology_cluster_num_cpus; try lia.
    apply (frame_part_copy _ 10 sym_cpus 256 _ (k_mem s2) d (var "cpu") 16); try done;
      try (unfold d, topology_cpu_at, TOPOLOGY_CPU_SIZEOF; lia).
    - apply (frame_part_assign 10 6 sym_cpus 256 (var "cpu") 16); try done;
      unfold d, topology_cpu_at, TOPOLOGY_CPU_SIZEOF; lia.
    - eapply same_outside_mono; [|exact Hs02]. intros x. by apply frame_part_mono. }
  assert (Hmax : k_glob s2 topology_max_cpu_id = Z.max (k_glob s topology_max_cpu_id) (Z.of_nat (length cs))).
  { rewrite Hg2. unfold s1. by rewrite set_glob_eq. }
  destruct (topo_add_cpu cs ks k s s2 _ Ht H16 H4 Hmax Hg20 Hs02 (conj Hp2 (conj Hid2 Hcl2)) Hc eq_refl Hk) as (HA & HB & HC).
  fold d in HA, HB, HC. set (m3 := st32 (memcpy (k_mem s2) d (var "cpu") 16) _ _) in *.
  assert (Ready m3).
  { apply (ready_frame (k_mem s)); [done|]. eapply same_outside_mono; [|exact HA]. apply frame_part_frame. }
  assert (En : k_glob s2 topology_num_cpus = Z.of_nat (length cs)) by (rewrite Hg20 by done; apply Ht).
  assert (Ek : k_glob s2 topology_num_clusters = Z.of_nat (length ks)) by (rewrite Hg20 by done; apply Ht).
  cbv beta iota delta [bind when struct_assign upd_mem].
  destruct (Z.eqb_spec (Z.of_nat (length cs)) (Z.of_nat boot)) as [Eb|Eb]; cbv beta iota zeta delta [ret];
    rewrite ?set_glob_mem, ?set_mem_mem; rewrite !En, ?Ek; change (Z.to_nat TOPOLOGY_CPU_SIZEOF) with 16%nat;
    fold d; rewrite ?Hk2; fold m3; rewrite u32_id by lia; (split; [done|split; [|done]]); apply HC; try done.
  - intros g H1 H2 H3. rewrite set_mem_glob, set_glob_ne, set_mem_glob, !set_glob_ne by done. done.
  - rewrite decide_True by lia. done.
  - intros g H1 H2 H3. rewrite set_mem_glob, set_glob_ne by done. done.
  - rewrite decide_False by lia. rewrite !set_mem_glob, !set_glob_ne, !set_mem_glob by done. by rewrite !Hg20.
Qed.

(** A cluster: its CPUs, then its entry. *)
Definition cluster_part : list nat := [3; 4; 5; 6; 7; 8; 9; 10; 11]%nat.

Lemma topo_add_cluster cs ks k s m' :
  Topo cs ks s -> (length cs <= 16)%nat -> (length ks < 4)%nat ->
  cluster_entry (k_mem s) (var "cluster") (length ks) k ->
  m' = memcpy (k_mem s) (topology_cluster_at sym_clusters (Z.of_nat (length ks))) (var "cluster") 24 ->
  same_outside (frame_part [11]%nat) (k_mem s) m' /\ cluster_entry m' (var "cluster") (length ks) k /\
  forall s2, k_mem s2 = m' -> k_glob s2 topology_num_clusters = Z.of_nat (length ks) + 1 ->
    k_glob s2 topology_max_cluster_id = Z.max (k_glob s topology_max_cluster_id) (Z.of_nat (length ks)) ->
    (forall g, g <> topology_num_clusters -> g <> topology_max_cluster_id -> k_glob s2 g = k_glob s g) ->
    Topo cs (ks ++ [k]) s2.
Proof.
  intros [T1 T2 T3 T4 T5 T6 T7 T8] H16 H4 Hc ->. set (d := topology_cluster_at _ _).
  assert (Hcp : copied (k_mem s) d (var "cluster") 24 (memcpy (k_mem s) d (var "cluster") 24)).
  { apply (frame_part_assign 11 5 sym_clusters 96 (var "cluster") 24); try done;
      unfold d, topology_cluster_at, TOPOLOGY_CLUSTER_SIZEOF; lia. }
  set (m1 := memcpy (k_mem s) d (var "cluster") 24) in *.
  assert (Hs1 : same_outside (frame_part [11]%nat) (k_mem s) m1).
  { apply (frame_part_copy _ 11 sym_clusters 96 _ (k_mem s) d (var "cluster") 24); try done;
      unfold d, topology_cluster_at, TOPOLOGY_CLUSTER_SIZEOF; lia. }
  split; [done|split].
  - destruct Hc as [Hc1 Hc2]. refine (conj (eq_trans _ Hc1) (eq_trans _ Hc2));
      apply (frame_part_load [11]%nat 5 (var "cluster") 24); try done; unfold topology_cluster_id, topology_cluster_num_cpus; lia.
  - intros s2 Em Hn Hmax Hg. split.
    + by rewrite Hg.
    + rewrite Hn, length_app. simpl. lia.
    + by rewrite Hg.
    + rewrite Hmax, T4, length_app. simpl. lia.
    + by rewrite Hg.
    + by rewrite Hg.
    + rewrite Em. intros j c Hj. apply lookup_lt_Some in Hj as ?.
      apply (cpu_entry_part [11]%nat (k_mem s)); [done|lia|done|by apply T7].
    + rewrite Em. intros i c. rewrite lookup_snoc_if. case_decide as Hd.
      * intros [= <-]. rewrite <- Hd. fold d. destruct Hc as [Hc1 Hc2]. split.
        -- rewrite <- Hc1. unfold topology_cluster_id. pose proof (copied_load _ _ _ _ _ 4 0 Hcp) as E.
           rewrite !Z.add_0_r in E. apply E; lia.
        -- rewrite <- Hc2. apply (copied_load _ _ _ _ _ 4 4 Hcp); lia.
      * intros Hi. apply lookup_lt_Some in Hi as ?. destruct (T8 i c Hi) as [Hc1 Hc2].
        refine (conj (eq_trans _ Hc1) (eq_trans _ Hc2));
          apply (load_same_outside _ _ _ _ _ (copied_same_outside _ _ _ _ _ Hcp));
          unfold within, d, topology_cluster_id, topology_cluster_num_cpus, topology_cluster_at, TOPOLOGY_CLUSTER_SIZEOF; lia.
Qed.

(** What the loop over the CPUs of the cluster [c] keeps. *)
Record cluster_inv (s : kstate) (cs ks : list nat) (i : nat) (s' : kstate) : Prop := {
  ci_ready : Ready (k_mem s');
  ci_topo : Topo (cs ++ replicate i (length ks)) ks s';
  ci_entry : cluster_entry (k_mem s') (var "cluster") (length ks) i;
  ci_same : same_outside (frame_part cluster_part) (k_mem s) (k_mem s');
  ci_max : (length cs + i <= 16)%nat;
}.

Lemma cluster_loop s cs ks o t n i s1 :
  (o, t) ∈ preorder 0 root -> tree_at ts o t -> (length cs + length (node_children t) <= 16)%nat -> (length ks < 4)%nat ->
  cluster_inv s cs ks i s1 -> iter_at (k_mem s1) (var "subiter") o t i -> (i <= length (node_children t))%nat ->
  (length (node_children t) - i <= n)%nat ->
  wp (while_nodes fuel n (var "subiter") (var "subnode") (parse_cpu fuel (Z.of_nat boot) (var "cluster") (var "subnode"))) s1
    (fun _ s' => cluster_inv s cs ks (length (node_children t)) s').
Proof.
  intros Hin Ht H16 H4 Hi Hit Hle Hn.
  apply (while_nodes_rule fdt root fuel (var "subiter") (var "subnode") o t) with
    (Inv := cluster_inv s cs ks) (R := frame_part cpu_part) (i := i); try done.
  - intros x Hx. by apply (apart_within _ _ _ _ x (frame_apart 4 3 (var "subnode") 44 (var "subiter") 96 ltac:(done) eq_refl eq_refl)).
  - by apply (short_children o).
  - intros j s2 Hj. pose proof (ci_ready _ _ _ _ _ Hj) as Hr. split; [apply (rd_tree _ _ _ _ _ Hr)|].
    split; [apply (rd_fuel _ _ _ _ _ Hr)|]. intros x Hx. apply (rd_off _ _ _ _ _ Hr).
    destruct Hx as [Hx|Hx]; [by apply (frame_region 3 (var "subiter") 96)|by apply (frame_region 4 (var "subnode") 44)].
  - intros j s2 s3 [Hr Hto Hc Hs Hm] Hq.
    assert (Hq' : quiet (frame_part [3; 4]%nat) s2 s3).
    { eapply quiet_mono; [|exact Hq]. intros x [Hx|Hx];
        [by apply (frame_part_region _ 3 (var "subiter") 96)|by apply (frame_part_region _ 4 (var "subnode") 44)]. }
    split; [| | | |done].
    + apply (ready_quiet _ s2 s3 Hr Hq'), frame_part_frame.
    + apply (topo_quiet [3; 4]%nat _ _ _ _ s2); try done; [|lia]. rewrite length_app, length_replicate. lia.
    + destruct Hc as [Hc1 Hc2]. refine (conj (eq_trans _ Hc1) (eq_trans _ Hc2));
        (apply (frame_part_load [3; 4]%nat 5 (var "cluster") 24); try done;
         [unfold topology_cluster_id, topology_cluster_num_cpus; lia..|apply Hq']).
    + eapply same_outside_trans; [exact Hs|]. eapply same_outside_mono; [|apply Hq']. intros x. by apply frame_part_mono.
  - intros j s2 o' t' [Hr Hto Hc Hs Hm] Ho' Ht' Hn'. apply lookup_lt_Some in Ht' as ?.
    eapply wp_mono.
    + apply (parse_cpu_run (cs ++ replicate j (length ks)) ks j s2 o' t'); try done; try lia.
      * rewrite length_app, length_replicate. lia.
      * by apply (preorder_child 0 root o t j).
    + intros [] s3 (Hr3 & Ht3 & Hc3 & Hs3). split; [|exact Hs3]. split; [done| |done| |lia].
      * by rewrite replicate_S_end, app_assoc.
      * eapply same_outside_trans; [exact Hs|]. eapply same_outside_mono; [|exact Hs3]. intros x. by apply frame_part_mono.
  - intros x Hx Hx'. revert Hx. by apply (frame_part_off _ 3 (var "subiter") 96).
Qed.

Lemma parse_cluster_run cs ks s o t :
  Ready (k_mem s) -> Topo cs ks s -> (length cs + length (node_children t) <= 16)%nat -> (length ks < 4)%nat ->
  (o, t) ∈ preorder 0 root -> tree_at ts o t -> (length (node_children t) <= fuel)%nat ->
  dtnode_at (k_mem s) (var "node") o t ->
  wp (parse_cluster fuel (Z.of_nat boot) (var "node")) s (fun _ s' =>
    Ready (k_mem s') /\
    Topo (cs ++ replicate (length (node_children t)) (length ks)) (ks ++ [length (node_children t)]) s' /\
    same_outside (frame_part cluster_part) (k_mem s) (k_mem s')).
Proof.
  intros Hr Ht H16 H4 Hin Hat Hf Hn. set (k := length (node_children t)) in *.
  set (m1 := st32 (k_mem s) (topology_cluster_id (var "cluster")) (Z.of_nat (length ks))).
  set (m2 := st32 m1 (topology_cluster_num_cpus (var "cluster")) 0).
  assert (Hs2 : same_outside (frame_part [5]%nat) (k_mem s) m2).
  { apply (frame_part_store _ 5 (var "cluster") 24); try done; [unfold topology_cluster_num_cpus; lia..|].
    apply (frame_part_store _ 5 (var "cluster") 24); try done; unfold topology_cluster_id; lia. }
  assert (Hr2 : Ready m2) by (apply (ready_frame (k_mem s)); [done|]; eapply same_outside_mono; [|exact Hs2]; apply frame_part_frame).
  assert (Hc2 : cluster_entry m2 (var "cluster") (length ks) 0).
  { split; unfold m2.
    - rewrite load_store_apart by (unfold apart, topology_cluster_num_cpus, topology_cluster_id; lia).
      unfold m1. rewrite ld32_st32_eq. apply u32_id. lia.
    - by rewrite ld32_st32_eq. }
  assert (Hn2 : dtnode_at m2 (var "node") o t).
  { apply (dtnode_frame (frame_part [5]%nat) (k_mem s)); [done| |by apply (Hshort o)|done].
    intros x Hx. by apply (frame_part_off _ 1 (var "node") 44). }
  destruct (iterator_init_run (var "subiter") o t (set_mem m2 s) (var "node")) as (m3 & E3 & Hit & Hs3).
  { apply (rd_initialised _ _ _ _ _ Hr2). }
  { apply (ly_null Hlayout). }
  { intros x Hx. by apply (apart_within _ _ _ _ x (frame_apart 1 3 (var "node") 44 (var "subiter") 96 ltac:(done) eq_refl eq_refl)). }
  { by apply (Hshort o). }
  { done. }
  assert (Hq3 : quiet (frame_part [3; 5]%nat) s (set_mem m3 s)).
  { apply quiet_set_mem. eapply same_outside_trans; [eapply same_outside_mono; [|exact Hs2]; intros x; by apply frame_part_mono|].
    eapply same_outside_mono; [|exact Hs3]. intros x Hx. by apply (frame_part_region _ 3 (var "subiter") 96). }
  unfold parse_cluster. wp_step. rewrite (tp_num_clusters _ _ _ _ _ Ht). wp_step. fold m1. wp_step. rewrite set_mem_set_mem. fold m2.
  apply wp_bind. eapply wp_done; [exact E3|]. rewrite set_mem_set_mem. cbn [Z.eqb kDeviceTreeSuccess assert]. wp_step.
  apply wp_bind. eapply wp_mono.
  { apply (cluster_loop s cs ks o t fuel 0 (set_mem m3 s)); try done; try lia. split.
    - apply (ready_quiet _ s _ Hr Hq3), frame_part_frame.
    - rewrite app_nil_r. apply (topo_quiet [3; 5]%nat _ _ _ _ s); try done; lia.
    - destruct Hc2 as [Hc1 Hc2]. refine (conj (eq_trans _ Hc1) (eq_trans _ Hc2));
        apply (load_same_outside _ _ _ _ _ Hs3); intros x Hx;
        apply (apart_within (var "cluster") 24 _ _ x (frame_apart 5 3 (var "cluster") 24 (var "subiter") 96 ltac:(done) eq_refl eq_refl));
        unfold within, topology_cluster_id, topology_cluster_num_cpus in *; lia.
    - eapply same_outside_mono; [|apply Hq3]. intros x. by apply frame_part_mono.
    - lia. }
  intros [] s4 [Hr4 Ht4 Hc4 Hs4 _]. fold k in Ht4, Hc4.
  destruct (topo_add_cluster _ ks k s4 _ Ht4 ltac:(rewrite length_app, length_replicate; lia) H4 Hc4 eq_refl) as (HA & HB & HC).
  wp_step. rewrite (tp_num_clusters _ _ _ _ _ Ht4). unfold struct_assign. wp_step.
  change (Z.to_nat TOPOLOGY_CLUSTER_SIZEOF) with 24%nat.
  set (m5 := memcpy (k_mem s4) _ _ 24) in *. do 3 wp_step. rewrite set_glob_ne, set_mem_glob by done.
  change (k_mem (set_glob topology_num_clusters _ (set_mem m5 s4))) with m5. fold (ld32 m5 (topology_cluster_id (var "cluster"))). rewrite (proj1 HB), u32_id by lia.
  split; [|split].
  - rewrite !set_glob_mem, set_mem_mem. apply (ready_frame (k_mem s4)); [done|]. eapply same_outside_mono; [|exact HA]. apply frame_part_frame.
  - apply HC; [done| | |].
    + by rewrite set_glob_ne, set_glob_eq.
    + by rewrite set_glob_eq.
    + intros g H1 H2. by rewrite !set_glob_ne.
  - rewrite !set_glob_mem, set_mem_mem. eapply same_outside_trans; [exact Hs4|]. eapply same_outside_mono; [|exact HA]. intros x. by apply frame_part_mono.
Qed.

(** The loop over the clusters. *)
Record clusters_inv (l : list dtree) (s : kstate) (i : nat) (s' : kstate) : Prop := {
  cl_ready : Ready (k_mem s');
  cl_topo : Topo (cluster_cpus (take i l)) (cluster_sizes (take i l)) s';
  cl_same : same_outside in_frame (k_mem s) (k_mem s');
  cl_len : (i <= length l)%nat;
}.

Lemma clusters_loop s o t s1 :
  (o, t) ∈ preorder 0 root -> tree_at ts o t -> (length (node_children t) <= fuel)%nat ->
  (forall i t', node_children t !! i = Some t' -> (length (node_children t') <= fuel)%nat) ->
  (length (node_children t) <= 4)%nat -> (length (cluster_cpus (node_children t)) <= 16)%nat ->
  clusters_inv (node_children t) s 0 s1 -> iter_at (k_mem s1) (var "iter") o t 0 ->
  wp (while_nodes fuel fuel (var "iter") (var "node") (parse_cluster fuel (Z.of_nat boot) (var "node"))) s1
    (fun _ s' => clusters_inv (node_children t) s (length (node_children t)) s').
Proof.
  intros Hin Ht Hf Hff H4 H16 Hi Hit.
  refine (while_nodes_rule fdt root fuel (var "iter") (var "node") o t _ Ht (short_children o t Hin)
    (clusters_inv (node_children t) s) _ (frame_part cluster_part) _ _ _ _ fuel 0 s1 Hi Hit _ _); [| | | | |lia|lia].
  - intros x Hx. by apply (apart_within _ _ _ _ x (frame_apart 1 2 (var "node") 44 (var "iter") 96 ltac:(done) eq_refl eq_refl)).
  - intros j s2 [Hr2 _ _ _]. split; [apply (rd_tree _ _ _ _ _ Hr2)|].
    split; [apply (rd_fuel _ _ _ _ _ Hr2)|]. intros x Hx. apply (rd_off _ _ _ _ _ Hr2).
    destruct Hx as [Hx|Hx]; [by apply (frame_region 2 (var "iter") 96)|by apply (frame_region 1 (var "node") 44)].
  - intros j s2 s3 [Hr Hto Hs Hl] Hq.
    assert (Hq' : quiet (frame_part [1; 2]%nat) s2 s3).
    { eapply quiet_mono; [|exact Hq]. intros x [Hx|Hx];
        [by apply (frame_part_region _ 2 (var "iter") 96)|by apply (frame_part_region _ 1 (var "node") 44)]. }
    pose proof (cluster_cpus_take (node_children t) j).
    split; [| | |done].
    + apply (ready_quiet _ s2 s3 Hr Hq'), frame_part_frame.
    + apply (topo_quiet [1; 2]%nat _ _ _ _ s2); try done; [lia|]. rewrite length_cluster_sizes, length_take. lia.
    + eapply same_outside_trans; [exact Hs|]. eapply same_outside_mono; [|apply Hq']. apply frame_part_frame.
  - intros j s2 o' t' [Hr Hto Hs Hl] Ho' Ht' Hn'. apply lookup_lt_Some in Ht' as ?.
    pose proof (cluster_cpus_take (node_children t) (S j)) as Hc.
    rewrite (take_S_r _ _ _ Ht'), cluster_cpus_snoc, length_app, length_replicate in Hc.
    pose proof (preorder_child 0 root o t j o' t' Hin Ho' Ht') as Hin'.
    eapply wp_mono.
    + apply (parse_cluster_run _ _ s2 o' t' Hr Hto); try done; try lia.
      * rewrite length_cluster_sizes, length_take. lia.
      * apply (preorder_at (k_mem s2) fdt root (bt_tree _ _ _ (rd_tree _ _ _ _ _ Hr)) fuel
          (fuel_le s2 fdt fuel (rd_fuel _ _ _ _ _ Hr)) o' t' Hin').
      * by apply (Hff j).
    + intros [] s3 (Hr3 & Ht3 & Hs3). split; [|exact Hs3].
      rewrite length_cluster_sizes, length_take in Ht3. replace (j `min` length (node_children t))%nat with j in Ht3 by lia.
      split; [done| | |lia].
      * rewrite (take_S_r _ _ _ Ht'), cluster_cpus_snoc, cluster_sizes_snoc, length_take.
        by replace (j `min` length (node_children t))%nat with j by lia.
      * eapply same_outside_trans; [exact Hs|]. eapply same_outside_mono; [|exact Hs3]. apply frame_part_frame.
  - intros x Hx Hx'. revert Hx. by apply (frame_part_off _ 2 (var "iter") 96).
Qed.
End Frame.

(** *** The property *)
Section Property.
Context `{Symbols} `{Hardware}.
Abbreviation var := (sym_local "machine_parse_cpu_topology").
Context (Hlayout : layout) (fdt : Z) (root : dtree) (fuel : nat) (strs : Z -> list Z).
Hypothesis Hshort : forall o t, (o, t) ∈ preorder 0 root -> (length (node_name t) < 32)%nat.
Abbreviation ts := (tree_tokens root ++ [TEnd]).

(** The iterator over the children of the node in [parent]. *)
Lemma parent_iterator s o t :
  ready fdt root fuel strs (k_mem s) -> (o, t) ∈ preorder 0 root -> dtnode_at (k_mem s) (var "parent") o t ->
  exists m', DeviceTreeIteratorInit (var "parent") (var "iter") s = Done kDeviceTreeSuccess (set_mem m' s) /\
    iter_at m' (var "iter") o t 0 /\ dtnode_at m' (var "parent") o t /\ quiet (frame_part [2]%nat) s (set_mem m' s).
Proof.
  intros Hr Hin Hn.
  pose proof (fun x => apart_within _ _ _ _ x (frame_apart Hlayout 0 2 (var "parent") 44 (var "iter") 96 ltac:(done) eq_refl eq_refl)) as Hap.
  destruct (iterator_init_run (var "iter") o t s (var "parent")) as (m' & E & Hit & Hs); try done.
  { apply (rd_initialised _ _ _ _ _ Hr). }
  { apply (ly_null Hlayout). }
  { by apply (Hshort o). }
  exists m'. split; [done|split; [done|split]].
  - apply (dtnode_frame _ (k_mem s) m' _ _ _ Hs Hap); [by apply (Hshort o)|done].
  - apply quiet_set_mem. eapply same_outside_mono; [|exact Hs]. intros x Hx. by apply (frame_part_region _ 2 (var "iter") 96).
Qed.

(** The node whose children are the clusters, and the iterator over them. *)
Lemma find_cpu_map s o t (f : M Z) :
  ready fdt root fuel strs (k_mem s) -> find_child (str "cpus") 0 root = Some (o, t) ->
  (o, t) ∈ preorder 0 root /\ cpu_map_node o t ∈ preorder 0 root /\
  exists s', quiet in_frame s s' /\
    iter_at (k_mem s') (var "iter") (fst (cpu_map_node o t)) (snd (cpu_map_node o t)) 0 /\
    (let! res := DeviceTreeLookupNode fuel (sym_literal "/cpus") (var "parent") in
      assert (res =? kDeviceTreeSuccess) ;!
      let! _ := DeviceTreeIteratorInit (var "parent") (var "iter") in
      while_nodes fuel fuel (var "iter") (var "node") (match_cpu_map fuel (var "parent") (var "node")) ;!
      let! res := DeviceTreeIteratorInit (var "parent") (var "iter") in
      assert (res =? kDeviceTreeSuccess) ;! f) s = f s'.
Proof.
  intros Hr Hc. pose proof (rd_tree _ _ _ _ _ Hr) as Hbt. pose proof (bt_tree _ _ _ Hbt) as He.
  pose proof (rd_fuel _ _ _ _ _ Hr) as Hfu. pose proof (fuel_le s fdt fuel Hfu) as Hf.
  assert (Hin : (o, t) ∈ preorder 0 root).
  { apply find_in_lookup in Hc as (i & Ho & Ht). by apply (preorder_child 0 root 0 root i o t (preorder_self 0 root)). }
  pose proof (preorder_at _ fdt root He fuel Hf o t Hin) as Hat.
  destruct (node_counts s fdt root Hbt fuel Hfu o t Hat) as (_ & _ & Hk & _ & _).
  assert (Hmin : cpu_map_node o t ∈ preorder 0 root) by (by apply cpu_map_in).
  split; [done|split; [done|]].
  destruct (ready_literal _ _ _ _ _ "/cpus" (str "/cpus") Hr) as (Hp & Hcs & Hl & Hl2); [set_solver|].
  destruct (lookup_node_run fdt root fuel (var "parent") s [str "cpus"] (sym_literal "/cpus") o t Hbt Hfu)
    as (m1 & E1 & Hn1 & Hs1); [| | |by apply (Hshort o)|].
  { exact (off_region fdt root fuel strs _ 0 (var "parent") 44 Hr eq_refl). }
  { split; [repeat constructor; try done; set_solver|]. split; [done|]. split; [exact Hcs|]. split; [exact Hl2|].
    change (length (path_string [str "cpus"])) with 5%nat. pose proof (name_fuel fdt root fuel strs _ o t Hr Hin). lia. }
  { cbn [find_path]. by rewrite Hc. }
  rewrite (bind_done _ _ _ _ _ E1). cbn [Z.eqb kDeviceTreeSuccess assert]. unfold bind at 1, ret at 1.
  assert (Hq1 : quiet in_frame s (set_mem m1 s)).
  { apply quiet_set_mem. eapply same_outside_mono; [|exact Hs1]. intros x Hx. by apply (frame_region 0 (var "parent") 44). }
  pose proof (ready_quiet Hlayout _ _ _ _ _ _ _ Hr Hq1 (fun x Hx => Hx)) as Hr1.
  destruct (parent_iterator (set_mem m1 s) o t Hr1 Hin Hn1) as (m2 & E2 & Hit2 & Hn2 & Hq2).
  rewrite (bind_done _ _ _ _ _ E2). rewrite set_mem_set_mem in *.
  assert (Hi2 : map_inv (set_mem m1 s) o t 0 (set_mem m2 s)).
  { split; [|split; [exact Hn2|lia]]. eapply quiet_mono; [|exact Hq2]. intros x. by apply frame_part_mono. }
  destruct (wp_run _ _ _ (map_loop Hlayout fdt root fuel strs Hshort (set_mem m1 s) o t (set_mem m2 s)
    Hr1 Hin Hat ltac:(lia) Hi2 Hit2)) as ([] & s3 & E3 & Hq3 & Hn3 & _).
  rewrite (bind_done _ _ _ _ _ E3).
  fold (cpu_map_node o t) in Hn3.
  pose proof (quiet_trans _ _ _ _ Hq1 (quiet_mono _ _ _ _ (frame_part_frame _) Hq3)) as Hq03.
  pose proof (ready_quiet Hlayout _ _ _ _ _ _ _ Hr Hq03 (fun x Hx => Hx)) as Hr3.
  destruct (parent_iterator s3 _ _ Hr3 ltac:(by rewrite <- surjective_pairing) Hn3) as (m4 & E4 & Hit4 & _ & Hq4).
  exists (set_mem m4 s3). split; [|split; [done|by rewrite (bind_done _ _ _ _ _ E4)]].
  eapply quiet_trans; [exact Hq03|]. eapply quiet_mono; [|exact Hq4]. apply frame_part_frame.
Qed.

(** (C15) On a blob with at most four clusters and sixteen CPUs, the topology has every
    CPU under the CPU map, in the order of the tree, with its cluster, and every cluster
    with its number of CPUs; the boot CPU is the entry of the number in [MPIDR_EL1].
    When the tree has no such CPU the assertion at the end stops the machine. *)
Theorem machine_parse_cpu_topology_correct mpidr `{!Running mpidr} s o t :
  ready fdt root fuel strs (k_mem s) -> find_child (str "cpus") 0 root = Some (o, t) ->
  let clusters := node_children (snd (cpu_map_node o t)) in
  let boot := Z.to_nat (cpu_number mpidr) in
  (length clusters <= 4)%nat -> (length (cluster_cpus clusters) <= 16)%nat -> k_glob s topology_boot_cpu = 0 ->
  0 <= k_glob s topology_max_cpu_id -> 0 <= k_glob s topology_max_cluster_id ->
  exists s', topo s boot (cluster_cpus clusters) (cluster_sizes clusters) s' /\
    k_glob s' topology_cpus = sym_cpus /\ k_glob s' topology_clusters = sym_clusters /\
    same_outside in_frame (k_mem s) (k_mem s') /\
    machine_parse_cpu_topology fuel s =
      if decide (boot < length (cluster_cpus clusters))%nat then Done KERN_RETURN_SUCCESS s' else Halted s'.
Proof.
  intros Hr Hc clusters boot H4 H16 Hb0 Hm1 Hm2.
  edestruct (find_cpu_map s o t) as (Hin & Hmin & s1 & Hq1 & Hit & E1); [done|done|].
  pose proof (ready_quiet Hlayout _ _ _ _ _ _ _ Hr Hq1 (fun x Hx => Hx)) as Hr1.
  pose proof (bt_tree _ _ _ (rd_tree _ _ _ _ _ Hr1)) as He.
  pose proof (rd_fuel _ _ _ _ _ Hr1) as Hfu. pose proof (fuel_le s1 fdt fuel Hfu) as Hf.
  destruct (cpu_map_node o t) as [om tm] eqn:Em. cbn [fst snd] in *.
  pose proof (preorder_at _ fdt root He fuel Hf om tm Hmin) as Hat.
  assert (Hcount : forall o' t', tree_at ts o' t' -> (length (node_children t') <= fuel)%nat).
  { intros o' t' Ht'. destruct (node_counts s1 fdt root (rd_tree _ _ _ _ _ Hr1) fuel Hfu o' t' Ht') as (_ & _ & Hk & _). lia. }
  set (s2 := set_glob topology_num_cpus 0 (set_glob topology_num_clusters 0 s1)).
  assert (Ht2 : topo s boot [] [] s2).
  { destruct Hq1 as (_ & Hg & _). split; try done; unfold s2; rewrite ?set_glob_ne by done; rewrite ?Hg;
      simpl length; try done; try lia. }
  assert (Hi2 : clusters_inv fdt root fuel strs s boot clusters s 0 s2).
  { split; [done|done|apply Hq1|lia]. }
  pose proof (cpu_number_range mpidr) as Hnum.
  assert (Hboot : Z.of_nat boot = cpu_number mpidr) by (unfold boot; lia).
  assert (Hsub : forall i t', node_children tm !! i = Some t' -> (length (node_children t') <= fuel)%nat).
  { intros i t' Ht'. destruct (lookup_lt_is_Some_2 (child_offsets om tm) i) as [o' Ho'].
    - unfold child_offsets. rewrite length_offsets. by apply lookup_lt_Some in Ht'.
    - destruct (tree_at_child _ _ _ He fuel Hf om tm i o' Hat Ho') as (t1 & Et & Ht1). simplify_eq. by apply (Hcount o'). }
  destruct (wp_run _ _ _ (clusters_loop Hlayout fdt root fuel strs Hshort s boot ltac:(lia) s om tm s2 Hmin Hat
    (Hcount _ _ Hat) Hsub H4 H16 Hi2 Hit)) as ([] & s3 & E3 & [Hr3 Ht3 Hs3 _]).
  fold clusters in Ht3. rewrite firstn_all in Ht3.
  exists (set_glob topology_cpus sym_cpus (set_glob topology_clusters sym_clusters s3)).
  split; [|split; [|split; [|split]]].
  - destruct Ht3 as [T1 T2 T3 T4 T5 T6 T7 T8]. split; try done.
  - done.
  - done.
  - done.
  - unfold machine_parse_cpu_topology. unfold bind at 1, sysreg_read at 1. rewrite running_mpidr, MPIDR_TO_CPU_NUM_eq.
    fold (cpu_number mpidr).
    rewrite s32_id by lia. rewrite <- Hboot.
    etransitivity; [exact E1|]. cbv beta. unfold put. unfold bind at 1. cbv beta iota. unfold bind at 1. cbv beta iota. fold s2.
    rewrite (bind_done _ _ _ _ _ E3). do 3 (unfold bind at 1; cbv beta iota). unfold get. cbv beta iota.
    rewrite !set_glob_ne, (tp_boot_cpu _ _ _ _ _ Ht3) by done.
    case_decide as Hd.
    + destruct (lookup_lt_is_Some_2 (cluster_cpus clusters) boot Hd) as [c ->].
      destruct (ly_null Hlayout) as (_ & _ & Hnz).
      destruct (Z.eqb_spec (topology_cpu_at sym_cpus (Z.of_nat boot)) 0); [unfold topology_cpu_at, TOPOLOGY_CPU_SIZEOF in *; lia|done].
    + rewrite lookup_ge_None_2 by lia. by rewrite Hb0.
Qed.
End Property.

(** ** Witness *)
Lemma regions_apart_check l :
  forallb (fun '(i, r1) => forallb (fun '(j, r2) => (i =? j)%nat || bool_decide (apart (fst r1) (snd r1) (fst r2) (snd r2)))
    (imap pair l)) (imap pair l) = true -> regions_apart l.
Proof.
  intros H i j r1 r2 Hne Hi Hj. rewrite forallb_forall in H.
  assert (Hin : forall k r, l !! k = Some r -> In (k, r) (imap pair l)).
  { intros k r Hk. apply list_elem_of_In, list_elem_of_lookup. exists k. by rewrite list_lookup_imap, Hk. }
  specialize (H (i, r1) (Hin i r1 Hi)). cbv beta iota in H. rewrite forallb_forall in H.
  specialize (H (j, r2) (Hin j r2 Hj)). cbv beta iota in H. apply orb_true_iff in H as [H|H].
  - by apply Nat.eqb_eq in H.
  - by apply bool_decide_eq_true in H.
Qed.

Lemma demo_in_frame x : @in_frame demo_symbols x ->
  DEMO_VIRT + 0x115000 <= x < DEMO_VIRT + 0x115500 \/ DEMO_VIRT + 0x116000 <= x.
Proof.
  intros H. unfold in_frame, in_regions in H.
  assert (HF : Forall (fun r => (DEMO_VIRT + 0x115000 <= fst r /\ fst r + Z.of_nat (snd r) <= DEMO_VIRT + 0x115500) \/
    DEMO_VIRT + 0x116000 <= fst r) (@topology_frame demo_symbols)).
  { repeat constructor; vm_compute; intuition congruence. }
  apply Exists_exists in H as (r & Hin & Hx). rewrite Forall_forall in HF. specialize (HF r Hin).
  unfold within in Hx. lia.
Qed.

Lemma demo_layout : @layout demo_symbols.
Proof.
  split.
  - apply regions_apart_check. vm_compute. reflexivity.
  - rewrite Forall_forall. intros [l s] Hin x Hx Hf. apply demo_in_frame in Hf.
    assert (Hl : Forall (fun l => demo_literal (fst l) + Z.of_nat (S (length (snd l))) <= DEMO_VIRT + 0x115000) topology_literals).
    { repeat constructor; vm_compute; congruence. }
    rewrite Forall_forall in Hl. specialize (Hl _ Hin). cbn [fst snd] in *.
    change (@sym_literal demo_symbols) with demo_literal in Hx. unfold within in Hx. lia.
  - intros x Hx Hf. apply demo_in_frame in Hf. change (@BootDeviceTree_initialised demo_symbols) with (DEMO_VIRT + 0x115850) in Hx.
    unfold within in Hx. lia.
  - repeat split; vm_compute; congruence.
Qed.

Lemma demo_ready : @ready demo_symbols 0x1000 demo_tree 1000 demo_strs (k_mem demo_dt_state).
Proof.
  split.
  - exact demo_boot_tree.
  - exact demo_enough.
  - apply demo_off_tree. intros x Hx. apply demo_in_frame in Hx. unfold within. lia.
  - intros o t Hin. apply (named_frame demo_blob); [exact demo_dt_same|]. exact (demo_all_named o t Hin).
  - repeat (apply Forall_cons; split;
      [split; [reflexivity|]; split; [|vm_compute; split; [lia|reflexivity]];
       split; [apply block_check; vm_compute; reflexivity|repeat constructor; done]|]). by apply Forall_nil.
  - vm_compute. reflexivity.
Qed.

Lemma demo_short_names o t : (o, t) ∈ preorder 0 demo_tree -> (length (node_name t) < 32)%nat.
Proof.
  intros Hin. assert (HF : Forall (fun n => (length (node_name (snd n)) < 32)%nat) (preorder 0 demo_tree)).
  { vm_compute. repeat constructor; lia. }
  rewrite Forall_forall in HF. exact (HF _ Hin).
Qed.

(** The demo tree has one cluster with two CPUs; the boot CPU is the first one. *)
Lemma machine_parse_cpu_topology_correct_witness :
  let _ := demo_symbols in let _ := demo_hardware in
  exists s', machine_parse_cpu_topology 1000 demo_dt_state = Done KERN_RETURN_SUCCESS s' /\
    k_glob s' topology_num_cpus = 2 /\ k_glob s' topology_num_clusters = 1 /\
    k_glob s' topology_boot_cpu = @sym_cpus demo_symbols /\
    cpu_entry (k_mem s') (@sym_cpus demo_symbols + 16) 1 0.
Proof.
  intros sy hw.
  destruct (@machine_parse_cpu_topology_correct sy hw demo_layout 0x1000 demo_tree 1000 demo_strs demo_short_names
    0x80000000 _ demo_dt_state (fst (default (0, demo_tree) (find_child (str "cpus") 0 demo_tree)))
    (snd (default (0, demo_tree) (find_child (str "cpus") 0 demo_tree)))) as (s' & Ht & _ & _ & _ & E).
  - exact demo_ready.
  - vm_compute. reflexivity.
  - vm_compute. lia.
  - vm_compute. lia.
  - reflexivity.
  - vm_compute. congruence.
  - vm_compute. congruence.
  - exists s'. split; [exact E|]. destruct Ht as [T1 T2 _ _ T5 _ T7 _]. split; [exact T1|]. split; [exact T2|].
    split; [exact T5|]. exact (T7 1%nat 0%nat eq_refl).
Defined.
