(* ===== verification/Main.v ===== *)
(** * Main: the start of the kernel (kern/main.c)

    [kernel_init] calls the initialisation of every component in order and ends by
    loading the context of the first kernel thread; [kernel_thread_main] creates the
    test thread and later destroys it. *)
From Stdlib Require Import ZArith Lia.
From stdpp Require Import prelude gmap list strings.
From S2P Require Import Prelude Memory LinkedList TString Kernel Pmap VmPage VmMap Vm Heap Zalloc Machine Cpu Task Thread Sched Processor Gicv3 Pl011 Printk DeviceTree Topology.
Open Scope Z_scope.
Open Scope monix_scope.

Definition BOOT_ARGS_VERSION_1_1 : Z := 0x11.
Definition boot_args_tboot_vers (a : Z) : Z := a + 84.

Section Main.
Context `{Symbols} `{Hardware}.

(** The automatic variables whose address is taken. *)
Abbreviation var := (sym_local "kernel_init").

(** [kthread_log] prints at every level. *)
Definition kthread_log (fmt : string) (args : list Z) : M unit := print ("kthread: " +:+ fmt) args.

(** The device tree is at a physical address when it is below the kernel. *)
Definition relocate_fdt (boot_args : Z) : M unit :=
  let! fdtbase := ld 8 (boot_args_fdtbase boot_args) in
  let! virtbase := ld 8 (boot_args_virtbase boot_args) in
  let! physbase := ld 8 (boot_args_physbase boot_args) in
  when (fdtbase <? virtbase) (st 8 (boot_args_fdtbase boot_args) (u64 (virtbase + u64 (fdtbase - physbase)))).

(** The kernel address of the boot arguments. *)
Definition relocate_boot_args (boot_args : Z) : M Z :=
  let! virtbase := ld 8 (boot_args_virtbase boot_args) in
  let! physbase := ld 8 (boot_args_physbase boot_args) in
  ret (u64 (virtbase + u64 (boot_args - physbase))).

(** Up to the tables of the memory, without a console. *)
Definition kernel_init_memory (fuel : nat) (boot_args : Z) : M Z :=
  let! _ := cpu_create (var "boot_cpu") sym_intstack_top sym_excepstack_top in
  let! version := ld 4 (boot_args_version boot_args) in
  if negb (version =? BOOT_ARGS_VERSION_1_1) then halt
  else
    relocate_fdt boot_args ;!
    let! fdtbase := ld 8 (boot_args_fdtbase boot_args) in
    let! fdtsize := ld 8 (boot_args_fdtsize boot_args) in
    let! _ := DeviceTreeInit fuel fdtbase fdtsize in
    let! boot_args := relocate_boot_args boot_args in
    let! _ := platform_get_memory fuel (var "membase") (var "memsize") in
    let! membase := ld 8 (var "membase") in
    let! memsize := ld 8 (var "memsize") in
    arm_vm_init boot_args membase memsize ;!
    ret boot_args.

(** The console and the data of the boot CPU. *)
Definition kernel_init_cpu (fuel : nat) : M unit :=
  console_setup fuel ;!
  let! _ := DeviceTreeVerify in
  let! _ := machine_parse_cpu_topology fuel in
  let! num := machine_get_boot_cpu_num in
  st 4 (cpu_cpu_num (var "boot_cpu")) num ;!
  let! num := ld 4 (cpu_cpu_num (var "boot_cpu")) in
  let! max := machine_get_max_cpu_num in
  assert (num <=? u32 max) ;!
  let! num := ld 4 (cpu_cpu_num (var "boot_cpu")) in
  put boot_cpu_id num ;!
  let! _ := cpu_register (var "boot_cpu") in
  let! _ := cpu_set_boot_cpu (var "boot_cpu") in
  cpu_init.

Definition kernel_init_banner (fuel : nat) (boot_args : Z) : M unit :=
  let dt_root := BootDeviceTreeGetRootNode in
  let! num := ld 4 (cpu_cpu_num (var "boot_cpu")) in
  print "Booting Monix on Physical CPU: 0x%08llx [0x%llx]\n" [num; sym_kernel_init] ;!
  print "Monix Kernel Version %s; %s; %s:%s/%s_%s\n"
    [sym_literal "0.0.2"; sym_literal "__TIMESTAMP__"; sym_literal "tempest";
     sym_literal "tinykern-0200.142.12.3"; sym_literal "DEBUG"; sym_literal "AARCH64_VIRT"] ;!
  print "tBoot version: %s\n" [boot_args_tboot_vers boot_args] ;!
  let! offset := ld 4 (dtnode_offset dt_root) in
  let! _ := DeviceTreeLookupPropertyValue fuel (s32 offset) (sym_literal "compatible") (var "machine") (var "len") in
  let! machine := ld 8 (var "machine") in
  print "machine: %s\n" [machine] ;!
  let! num_cpus := machine_get_num_cpus in
  let! num_clusters := machine_get_num_clusters in
  print "machine: detected '%d' cpus across '%d' clusters\n" [num_cpus; num_clusters].

(** The components above the memory, and the first thread. *)
Definition kernel_init_threads (fuel : nat) : M unit :=
  vm_configure ;!
  let! _ := zone_init in
  let! _ := machine_init_interrupts fuel in
  processor_init ;!
  task_init fuel ;!
  thread_init ;!
  let! thread := kernel_thread_create fuel sym_kernel_thread_main THREAD_PRIORITY_MAX THREAD_NULL in
  print "kthread created\n" [] ;!
  _dump_tasks fuel ;!
  vm_pagetable_walk_ttbr1 ;!
  thread_load_context thread.

Definition kernel_init (fuel : nat) (boot_args x1 x2 : Z) : M unit :=
  let! boot_args := kernel_init_memory fuel boot_args in
  kernel_init_cpu fuel ;!
  kernel_init_banner fuel boot_args ;!
  kernel_init_threads fuel.

(** ** The threads

    [iterations n body]: the loop [while (1) body], after [n] iterations. The delay
    loops count a local variable. *)
Fixpoint iterations (n : nat) (body : M unit) : M unit :=
  match n with O => ret tt | S n => body ;! iterations n body end.

Definition test_thread_1_body : M unit :=
  let! c := get counter in
  kthread_log "still alive: %d\n" [c] ;!
  let! c := get counter in
  put counter (s32 (c + 1)).
Definition test_thread_1 (n : nat) : M unit :=
  kthread_log "initialised\n" [] ;!
  iterations n test_thread_1_body.

Definition kernel_thread_body (fuel : nat) (test_thread : Z) : M unit :=
  kthread_log "kthread_main: hello world\n" [] ;!
  let! c := get counter in
  let! destroyed := get thread_destroyed in
  when ((5 <=? c) && negb (truthy destroyed))
    (thread_destroy fuel test_thread ;!
     put thread_destroyed 1 ;!
     _dump_threads fuel).

Definition kernel_thread_start (fuel : nat) : M Z :=
  kthread_log "\n\nkernel_task: kernel_init complete\n" [] ;!
  let! id := get boot_cpu_id in
  let! _ := cpu_set_flag (s32 id) CPU_FLAG_THREADING_ENABLED in
  let! task := get kernel_task in
  let! test_thread := thread_create fuel task THREAD_PRIORITY_LOW sym_test_thread_1 (sym_literal "test_thread_1") in
  _dump_threads fuel ;!
  machine_init_timers ;!
  let! cpu := cpu_get_current in
  let! thread := ld 8 (cpu_cpu_active_thread cpu) in
  let! num := ld 4 (cpu_cpu_num cpu) in
  let! task := ld 8 (thread_task thread) in
  let! id := ld 4 (thread_thread_id thread) in
  kthread_log "cpu[%d]: %s.%d\n" [num; task_name task; id] ;!
  ret test_thread.

Definition kernel_thread_main (fuel n : nat) (arg1 : Z) : M unit :=
  let! test_thread := kernel_thread_start fuel in
  iterations n (kernel_thread_body fuel test_thread).

(** ** Facts *)

(** A boot loader of another version stops the kernel before the device tree is read. *)
Lemma kernel_init_version fuel boot_args x1 x2 s s1 r :
  cpu_create (var "boot_cpu") sym_intstack_top sym_excepstack_top s = Done r s1 ->
  ld32 (k_mem s1) (boot_args_version boot_args) <> BOOT_ARGS_VERSION_1_1 ->
  kernel_init fuel boot_args x1 x2 s = Halted s1.
Proof.
  intros E Hv. apply bind_halted. unfold kernel_init_memory. rewrite (bind_done _ _ _ _ _ E).
  unfold bind, ld. destruct (Z.eqb_spec (ld32 (k_mem s1) (boot_args_version boot_args)) BOOT_ARGS_VERSION_1_1); done.
Qed.

(** A device tree below the kernel is moved by the same distance as the kernel. *)
Lemma relocate_fdt_run boot_args s :
  let f := ld64 (k_mem s) (boot_args_fdtbase boot_args) in
  let v := ld64 (k_mem s) (boot_args_virtbase boot_args) in
  let p := ld64 (k_mem s) (boot_args_physbase boot_args) in
  exists s', relocate_fdt boot_args s = Done tt s' /\
    ld64 (k_mem s') (boot_args_fdtbase boot_args) = (if f <? v then u64 (v + (f - p)) else f) /\
    same_outside (within (boot_args_fdtbase boot_args) 8) (k_mem s) (k_mem s').
Proof.
  intros f v p. unfold relocate_fdt, bind, ld, when. fold f v p. destruct (f <? v) eqn:E.
  - eexists. split; [reflexivity|]. split; [|by apply same_outside_store].
    cbn [k_mem set_mem]. rewrite ld64_st64_eq. word_lia.
  - exists s. done.
Qed.

(** The states that differ in the trace and the counter only. *)
Definition same_but_counter (s s' : kstate) : Prop :=
  k_mem s' = k_mem s /\ k_sys s' = k_sys s /\ forall g, g <> counter -> k_glob s' g = k_glob s g.

(** The test thread counts its iterations. *)
Lemma test_thread_1_run n s :
  0 <= k_glob s counter -> k_glob s counter + Z.of_nat n < 2 ^ 31 ->
  exists s', test_thread_1 n s = Done tt s' /\ k_glob s' counter = k_glob s counter + Z.of_nat n /\ same_but_counter s s'.
Proof.
  intros Hc0 Hn0. assert (H1 : forall n s, 0 <= k_glob s counter -> k_glob s counter + Z.of_nat n < 2 ^ 31 ->
    exists s', iterations n test_thread_1_body s = Done tt s' /\ k_glob s' counter = k_glob s counter + Z.of_nat n /\
      same_but_counter s s').
  { clear. induction n as [|n IH]; intros s Hc0 Hn.
    - exists s. split; [done|]. split; [simpl; lia|by repeat split].
    - cbn [iterations]. set (s1 := set_glob counter (s32 (k_glob s counter + 1))
        (emit_event (EvPrint "kthread: still alive: %d\n" [k_glob s counter]) s)).
      assert (E1 : k_glob s1 counter = k_glob s counter + 1) by (unfold s1; rewrite set_glob_eq; apply s32_id; lia).
      destruct (IH s1) as (s' & E & Hc & Hm & Hsys & Hg); [lia|lia|]. exists s'. split; [|split; [lia|]].
      + rewrite (bind_done _ _ _ tt s1) by reflexivity. exact E.
      + split; [by rewrite Hm|]. split; [by rewrite Hsys|]. intros g Hgc. rewrite Hg by done. unfold s1. by rewrite set_glob_ne. }
  unfold test_thread_1. set (s1 := emit_event (EvPrint "kthread: initialised\n" []) s).
  destruct (H1 n s1 Hc0 Hn0) as (s' & E & Hs'). exists s'. split; [|exact Hs'].
  rewrite (bind_done _ _ _ tt s1) by reflexivity. exact E.
Qed.

(** Before the fifth count, and after the test thread is destroyed, the kernel thread
    only prints: it destroys the thread at most once. *)
Lemma kernel_thread_idle fuel thread n s :
  k_glob s counter < 5 \/ k_glob s thread_destroyed <> 0 ->
  exists s', iterations n (kernel_thread_body fuel thread) s = Done tt s' /\
    k_mem s' = k_mem s /\ k_glob s' = k_glob s /\ k_sys s' = k_sys s.
Proof.
  revert s. induction n as [|n IH]; intros s Hs; [by exists s|]. cbn [iterations].
  set (s1 := emit_event (EvPrint "kthread: kthread_main: hello world\n" []) s).
  assert (E1 : kernel_thread_body fuel thread s = Done tt s1).
  { unfold kernel_thread_body. rewrite (bind_done _ _ _ tt s1) by reflexivity. unfold bind, get, when.
    change (k_glob s1) with (k_glob s). unfold truthy.
    destruct (Z.leb_spec 5 (k_glob s counter)), (Z.eqb_spec (k_glob s thread_destroyed) 0); try done. lia. }
  destruct (IH s1 Hs) as (s' & E & Hm & Hg & Hsys). exists s'. split; [|done].
  rewrite (bind_done _ _ _ tt s1) by done. exact E.
Qed.
End Main.
